(* ===== verification/_CoqProject ===== *)
-Q . S2P
Prelude.v
Mmu.v
Queue.v
Memory.v
Strings.v
Pmap.v
PmapSpec.v
VmSteps.v
BootProofs.v
PmapProps.v
QueueProps.v
Disk.v
DiskProps.v
StringsProps.v
KmapProps.v
Elf.v
Env.v
EnvProps.v
Sched.v
SchedProps.v
Tlbex.v
Syscall.v
SyscallProps.v
EnvVmProps.v
EnvFreeProps.v
TlbProps.v
Fork.v
ForkProps.v
CowProps.v
ElfProps.v
LoadProps.v
Start.v
StartProps.v
InitProps.v
Print.v
PrintProps.v
Uenv.v
Fs.v
Serv.v
IdeProps.v
CacheProps.v
FsProps.v
PathProps.v
Pipe.v
PipeProps.v
Ulib.v
Fd.v
File.v
Dev.v
Spawn.v
UlibProps.v
WorldProps.v
FileProps.v
SpawnProps.v
SpawnLoad.v
SpawnRun.v
Programs.v
Init.v
ProgramsProps.v
Sh.v
ShProps.v
Fsformat.v
FsformatInv.v
FsformatProps.v
ImageProps.v
