(* ===== verification/Prelude.v ===== *)
(** MOS on 32-bit RISC-V: a verification library of the operating system.

    * The program

    MOS is a small exokernel: the kernel (src/kern, src/lib, src/include)
    multiplexes physical pages, address spaces, the processor and a virtio
    disk; user programs get copy-on-write fork, IPC and a file system from a
    library (src/user/lib) and a file server (src/fs).  The parts meet as
    follows.  env.c and syscall_all.c change address spaces only through
    pmap.c (page_insert, page_remove, page_decref); sched.c picks from the
    list env.c and syscall_all.c maintain with the macros of queue.h, and
    polls the disk driver; tlbex.c serves page faults with pmap.c and passes
    copy-on-write faults to the program, which answers with a system call;
    the file server reaches the disk through sys_dev_req and its clients
    through IPC.

    * Files

    - Prelude, Mmu: outcomes and the monad of C functions, machine integers,
      the macros of mmu.h, error.h and types.h; automation.
    - Queue, QueueProps: the LIST and TAILQ macros on next/prev slots.
    - Memory, Strings, StringsProps: memory as pages of 32-bit words,
      lib/string.c on it.
    - Pmap: kern/pmap.c and include/pmap.h.  PmapSpec: the abstract state
      [vm], a map (directory, page number) -> (page, flags) with tables,
      references and a free list, the relation [rel] and the proofs that the
      functions of Pmap implement it; VmSteps: references, directories, whole
      sequences of operations; BootProofs: page_init; PmapProps: properties.
    - Disk, DiskProps: kern/disk_driver.c; the device is any sequence of
      writes to the used ring.
    - Elf: lib/elfloader.c; ElfProps: elf_load_seg over any instance of the
      class of page mappers, which the kernel (LoadProps) and spawn implement.
    - Env, EnvProps, EnvVmProps, EnvFreeProps, LoadProps: kern/env.c.  [kernel]
      is the state of the whole kernel; functions of pmap.c and of the driver
      run on its components through [onp] and [lift].
    - Sched, SchedProps: kern/sched.c, the timer; [sched_rel] is the invariant
      that the queue holds exactly the runnable environments.
    - Tlbex, TlbProps: kern/tlbex.c, the kernel's accesses to user memory.
    - Syscall, SyscallProps: kern/syscall_all.c, dispatch of traps.
    - Fork, ForkProps, CowProps: user/lib/fork.c on the kernel's system calls.
    - Start: init/init.c.  KmapProps: the kernel's own address space, which
      mips_vm_init builds; StartProps: the disk's rings and the directory all
      environments share; InitProps: the whole of mips_init.
    - Print, PrintProps: lib/print.c, kern/printk.c, user/lib/debugf.c.
    - Uenv: a program's address space and system calls as user/lib sees them.
    - Fs, Serv: fs/ide.c, fs/fs.c and fs/serv.c on top of Uenv.  IdeProps:
      transfers between the server's pages and a block device; CacheProps: the
      block cache as one array of bytes; FsProps: allocation in the bitmap;
      PathProps: directories and paths.
    - Pipe, PipeProps: user/lib/pipe.c step by step, with two processes
      preempted between any two accesses.
    - Ulib: the abstract machine of a user program (address space, system
      calls, memory accesses, IPC), user/lib/ipc.c and pageref.c; UlibProps
      shows that the kernel of Syscall implements it.  Fd, File, Dev: the
      client library on it, user/lib/fd.c, file.c, fsipc.c, console.c, pipe.c.
      WorldProps: the program's pages and mappings; FileProps: descriptors,
      requests to the server, open, seek, read and close of files.
    - Spawn: user/lib/spawn.c, wait.c and libos.c; [family] is a program of
      Ulib with its children.  SpawnProps: the calls on a child and the
      argument stack; SpawnLoad: the file's segments; SpawnRun: spawn whole.
    - Programs: user/lib/fprintf.c and the programs user/cat.c, echo.c, num.c
      and ls.c; Init: user/icode.c and user/init.c; ProgramsProps.
    - Sh, ShProps: user/sh.c and include/args.h over a class of operating
      system calls; the reference is a session over lines and commands.
    - Fsformat: tools/fsformat.c, the builder of the disk image; FsformatInv,
      FsformatProps, ImageProps: the image as a tree of directories, and the
      file server of Fs that mounts it.

    * Conventions

    A C function is a function of type [M S A] from a state to an [outcome]:
    a result, an early error return (what the macro try propagates), a panic,
    an invalid access, or the end of a path that leaves the kernel.  Names are
    those of the source; a loop of the source is a [Fixpoint] named after the
    function, with fuel where it is not structural; each comment says why the
    fuel is enough, and running out is a [Fault], which the theorems exclude.
    u_int values are integers in Z below 2^32, wrapped where the code can
    wrap ([u32], [u16], [u8]).  A pointer to struct Page or struct Env is its
    index, a null pointer [None].

    * Theorems

    - pmap.c refines the map of [PmapSpec]: every operation on every branch,
      without writing to data pages, and safety over arbitrary sequences of
      operations from the state page_init leaves.
    - queue.h implements lists, for arbitrary sequences of uses.
    - The disk driver keeps its descriptors consistent under every
      interleaving with the device.
    - Environment ids, ASIDs and permissions; the scheduler is fair round
      robin; system calls refine the abstract address spaces; IPC delivers;
      demand paging maps zero pages; the copy-on-write upcall restores the
      interrupted context; env_free releases everything.
    - fork and the copy-on-write handler: parent and child share every page
      below the stack, and a write gives the writer a copy of its own.
    - From the image the linker lays out, mips_init reaches a state in which
      the invariants of page tables, scheduler and disk driver hold, with the
      kernel's map as intended and the first two programs in their address
      spaces.
    - env_create and spawn start a process whose memory is exactly what the
      ELF file says, with the argument stack where libmain looks for it and
      the shared pages of the parent.
    - A client that opens and reads a file gets the bytes of the server's
      pages; cat shows a file and nothing else, with every request it sends.
    - The shell does what a reference session does, key by key.
    - The disk image builder makes a well-formed file system from which the
      server serves every file of the host.
    - lib/string.c and lib/print.c do what their names say, at every
      alignment and width.
    - A pipe is a first-in first-out queue under preemption, and the end of
      file means a closed end, with the exceptions that are proved as well.
    - The file server's cache loses and invents no byte, over any device that
      obeys [BlockDevice]; blocks are allocated once; paths are resolved
      component by component.
    - Behaviour the code does not intend is proved as well: a queue corrupted
      by sys_set_env_status on a blocked receiver, env_free of an environment
      that is not queued, env_alloc without memory, fork without a free
      environment, invalid system call numbers, a byte lost at the end of a pipe,
      a pipe that has carried 2^32 bytes.

    * Not modelled

    The SBI console and timer calls (kern/console.c below its streams,
    kclock.S), the register dump of panic.c and the self-tests of the kernel.
    The tests under src/tests and the test programs of src/user, halt.c and
    idle.c; the host tools bintoc.c and readelf.c, which print a file.
    The TLB is a log of flushes; the machine is assumed to honour them.
    init.c allocates the disk's rings after page_init, in a page that is on the
    free list (InitProps.disk_rings_page_free); it is the last page the
    allocator would hand out, and the driver's theorems are about rings that
    nobody else writes.  InitProps assumes the layout of kernel.lds, zeroed
    memory where the image has no data, and programs of at most 7000 pages.  User programs' buffers are lists of bytes in Fd, File
    and Dev; what the library, spawn and the shell print before they return an
    error is left out, and replies of the file server are inputs of the
    client.  Spawn's failures after the child exists end in the fault of
    env_free on a child that was never queued (EnvFreeProps).  Loops that poll
    (for a key, a pipe, the disk, a child) get a bound from the environment
    they wait for. *)
From stdpp Require Export base gmap list strings.
From stdpp Require Import numbers sorting.
From Stdlib Require Export ZArith Lia.

#[global] Open Scope Z_scope.

(** * Outcomes and the monad of C functions *)

(** What running a C function on a state can lead to.  [Err e s] is the
    early [return e] of a function whose [int] result reports an error: it is
    what the macro [try] of include/error.h propagates, the state changes made
    so far being kept.  [Panic] is [panic], [panic_on] and [assert] (the
    machine halts); [Fault] is an access through a null or invalid pointer;
    [UserMode s] is the end of a [noreturn] path ([env_pop_tf]), where the
    processor leaves the kernel in state [s]. *)
Inductive outcome (S A : Type) : Type :=
| Ok (a : A) (s : S)
| Err (e : Z) (s : S)
| Panic (msg : string)
| Fault (why : string)
| UserMode (s : S).
Arguments Ok {S A} a s.
Arguments Err {S A} e s.
Arguments Panic {S A} msg.
Arguments Fault {S A} why.
Arguments UserMode {S A} s.

Definition M (S A : Type) : Type := S → outcome S A.

Definition ret {S A} (a : A) : M S A := λ s, Ok a s.
Definition bind {S A B} (m : M S A) (k : A → M S B) : M S B := λ s,
  match m s with
  | Ok a s' => k a s'
  | Err e s' => Err e s'
  | Panic msg => Panic msg
  | Fault w => Fault w
  | UserMode s' => UserMode s'
  end.
Definition err {S A} (e : Z) : M S A := λ s, Err e s.
Definition panic {S A} (msg : string) : M S A := λ _, Panic msg.
Definition fault {S A} (w : string) : M S A := λ _, Fault w.
Definition gets {S A} (f : S → A) : M S A := λ s, Ok (f s) s.
Definition modify {S} (f : S → S) : M S unit := λ s, Ok tt (f s).

Declare Scope c_scope.
Delimit Scope c_scope with C.
Notation "x <- c1 ;; c2" := (bind c1 (λ x, c2))
  (at level 20, c1 at level 90, c2 at level 200, only parsing) : c_scope.
Notation "' x <- c1 ;; c2" := (bind c1 (λ x, c2))
  (at level 20, x pattern, c1 at level 90, c2 at level 200, only parsing) : c_scope.
Notation "c1 ;; c2" := (bind c1 (λ _, c2))
  (at level 100, c2 at level 200, right associativity) : c_scope.
#[global] Open Scope c_scope.

(** The [int] a call returns, for callers that look at it instead of
    propagating it: 0 on success, the error code otherwise. *)
Definition code {S A} (m : M S A) : M S Z := λ s,
  match m s with
  | Ok _ s' => Ok 0 s'
  | Err e s' => Ok e s'
  | Panic msg => Panic msg
  | Fault w => Fault w
  | UserMode s' => UserMode s'
  end.

(** [panic_on (e)] of include/printk.h: any non-zero result panics. *)
Definition panic_on {S A} (m : M S A) : M S A := λ s,
  match m s with
  | Err _ _ => Panic "panic_on"
  | o => o
  end.

(** [assert (x)] of include/mmu.h. *)
Definition assert_ {S} (b : bool) : M S unit :=
  if b then ret tt else panic "assertion failed".

(** [for] loops whose index set does not depend on the body. *)
Fixpoint for_each {S A} (l : list A) (body : A → M S unit) : M S unit :=
  match l with
  | [] => ret tt
  | x :: l' => body x ;; for_each l' body
  end.

(** * State components *)

(** A component of a larger state: the operations of the component run on the
    larger state through [lift]. *)
Class Sub (S T : Type) := {
  sub_get : S → T;
  sub_set : T → S → S;
  sub_get_set : ∀ t s, sub_get (sub_set t s) = t;
  sub_set_get : ∀ s, sub_set (sub_get s) s = s;
  sub_set_set : ∀ t t' s, sub_set t (sub_set t' s) = sub_set t s
}.

Definition lift {S T A} `{Sub S T} (m : M T A) : M S A := λ s,
  match m (sub_get s) with
  | Ok a t => Ok a (sub_set t s)
  | Err e t => Err e (sub_set t s)
  | Panic msg => Panic msg
  | Fault w => Fault w
  | UserMode t => UserMode (sub_set t s)
  end.

(** * Machine integers *)

Definition u32 (z : Z) : Z := z mod 2 ^ 32.
Definition u16 (z : Z) : Z := z mod 2 ^ 16.
Definition u8 (z : Z) : Z := z mod 2 ^ 8.
(** The value of a 32-bit pattern read as an [int]. *)
Definition s32 (z : Z) : Z :=
  if u32 z <? 2 ^ 31 then u32 z else u32 z - 2 ^ 32.
(** [~ z] on a [u_int] *)
Definition not32 (z : Z) : Z := u32 (Z.lnot z).
(** C truth value of [x & flag] *)
Definition has (x flag : Z) : bool := negb (Z.land x flag =? 0).

(** * Monad laws *)

Section monad.
Context {S A B C : Type}.

Lemma bind_ok (m : M S A) (k : A → M S B) a s s' :
  m s = Ok a s' → bind m k s = k a s'.
Proof. intros H. unfold bind. by rewrite H. Qed.

Lemma bind_err (m : M S A) (k : A → M S B) e s s' :
  m s = Err e s' → bind m k s = Err e s'.
Proof. intros H. unfold bind. by rewrite H. Qed.

Lemma bind_panic (m : M S A) (k : A → M S B) w s :
  m s = Panic w → bind m k s = Panic w.
Proof. intros H. unfold bind. by rewrite H. Qed.

Lemma bind_fault (m : M S A) (k : A → M S B) w s :
  m s = Fault w → bind m k s = Fault w.
Proof. intros H. unfold bind. by rewrite H. Qed.

Lemma bind_ret (a : A) (k : A → M S B) s : bind (ret a) k s = k a s.
Proof. reflexivity. Qed.

Lemma bind_assoc (m : M S A) (k : A → M S B) (h : B → M S C) s :
  bind (bind m k) h s = bind m (λ a, bind (k a) h) s.
Proof. unfold bind. by destruct (m s). Qed.

Lemma bind_Ok_inv (m : M S A) (k : A → M S B) b s s' :
  bind m k s = Ok b s' → ∃ a s1, m s = Ok a s1 ∧ k a s1 = Ok b s'.
Proof. unfold bind. destruct (m s); naive_solver. Qed.
End monad.

Section lift.
Context {S T A : Type} `{Sub S T}.

Lemma lift_ok (m : M T A) a t' s :
  m (sub_get s) = Ok a t' → lift m s = Ok a (sub_set t' s).
Proof. intros E. unfold lift. by rewrite E. Qed.

Lemma lift_err (m : M T A) e t' s :
  m (sub_get s) = Err e t' → lift m s = Err e (sub_set t' s).
Proof. intros E. unfold lift. by rewrite E. Qed.
End lift.

Lemma for_each_app {S A} (l1 l2 : list A) (body : A → M S unit) s :
  for_each (l1 ++ l2) body s = (for_each l1 body ;; for_each l2 body) s.
Proof.
  revert s; induction l1 as [|x l1 IH]; intros s; [done|].
  cbn [app for_each]. rewrite bind_assoc. unfold bind at 1 2.
  destruct (body x s) as [? s1| | | |]; try done; exact (IH s1).
Qed.

(** Invariant rule for [for_each]. *)
Lemma for_each_inv {S A} (I : list A → S → Prop) (l : list A) (body : A → M S unit) :
  (∀ done_ x rest s, l = done_ ++ x :: rest → I done_ s →
     ∃ s', body x s = Ok tt s' ∧ I (done_ ++ [x]) s') →
  ∀ s, I [] s → ∃ s', for_each l body s = Ok tt s' ∧ I l s'.
Proof.
  intros Hstep. cut (∀ rest done_ s, l = done_ ++ rest → I done_ s →
    ∃ s', for_each rest body s = Ok tt s' ∧ I l s').
  { intros H s Hs. by apply (H l [] s). }
  induction rest as [|x rest IH]; intros done_ s Hl HI; cbn [for_each].
  - exists s. split; [done|]. rewrite app_nil_r in Hl. by subst.
  - destruct (Hstep done_ x rest s Hl HI) as (s1 & E1 & HI1).
    rewrite (bind_ok _ _ _ _ _ E1). apply (IH (done_ ++ [x])); [|done].
    by rewrite <- app_assoc.
Qed.

(** * Lemmas on integers *)

Lemma u32_small z : 0 ≤ z < 2 ^ 32 → u32 z = z.
Proof. intros H. unfold u32. by apply Z.mod_small. Qed.

Lemma u16_small z : 0 ≤ z < 2 ^ 16 → u16 z = z.
Proof. intros H. unfold u16. by apply Z.mod_small. Qed.

Lemma u32_bound z : 0 ≤ u32 z < 2 ^ 32.
Proof. unfold u32. apply Z.mod_pos_bound. lia. Qed.

Lemma u32_u32 z : u32 (u32 z) = u32 z.
Proof. apply u32_small, u32_bound. Qed.

Lemma testbit_small b k n : 0 ≤ b < 2 ^ k → 0 ≤ k ≤ n → Z.testbit b n = false.
Proof.
  intros Hb Hn. rewrite <- (Z.mod_small b (2 ^ k)) by done.
  by apply Z.mod_pow2_bits_high.
Qed.

(** [a << k | b] is [a * 2^k + b] when [b] fits below bit [k]. *)
Lemma lor_shiftl_add a b k :
  0 ≤ k → 0 ≤ b < 2 ^ k → Z.lor (Z.shiftl a k) b = a * 2 ^ k + b.
Proof.
  intros Hk Hb. rewrite <- Z.shiftl_mul_pow2 by done.
  pose proof (Z.add_lor_land (Z.shiftl a k) b) as Hsum.
  assert (Z.land (Z.shiftl a k) b = 0); [|lia].
  apply Z.bits_inj'. intros n Hn. rewrite Z.land_spec, Z.bits_0.
  destruct (Z.lt_ge_cases n k) as [Hlt|Hge].
  - by rewrite Z.shiftl_spec_low.
  - by rewrite (testbit_small b k n), andb_false_r by lia.
Qed.

Lemma land_low a k : 0 ≤ k → Z.land a (Z.ones k) = a mod 2 ^ k.
Proof. apply Z.land_ones. Qed.

(** Clearing the low [k] bits of a 32-bit word. *)
Lemma land_high a k :
  0 ≤ k ≤ 32 → 0 ≤ a < 2 ^ 32 → Z.land a (not32 (Z.ones k)) = a / 2 ^ k * 2 ^ k.
Proof.
  intros Hk Ha. unfold not32, u32. rewrite <- (Z.land_ones _ 32) by lia.
  rewrite (Z.land_comm (Z.lnot _)), Z.land_assoc, (Z.land_ones a 32), Z.mod_small by lia.
  rewrite <- Z.ldiff_land, Z.ldiff_ones_r by lia.
  by rewrite Z.shiftl_mul_pow2, Z.shiftr_div_pow2 by lia.
Qed.

Lemma land_pow2 x k : 0 ≤ k → Z.land x (2 ^ k) = if Z.testbit x k then 2 ^ k else 0.
Proof.
  intros Hk. apply Z.bits_inj'. intros n Hn. rewrite Z.land_spec, Z.pow2_bits_eqb by done.
  destruct (Z.eqb_spec k n) as [<-|Hne].
  - rewrite andb_true_r. destruct (Z.testbit x k) eqn:E; [by rewrite Z.pow2_bits_true|by rewrite Z.bits_0].
  - rewrite andb_false_r. destruct (Z.testbit x k); [by rewrite Z.pow2_bits_false|by rewrite Z.bits_0].
Qed.

(** A one-bit mask tests that bit. *)
Lemma has_testbit x k : 0 ≤ k → has x (2 ^ k) = Z.testbit x k.
Proof.
  intros Hk. unfold has. rewrite land_pow2 by done.
  destruct (Z.testbit x k); [|done].
  apply negb_true_iff, Z.eqb_neq. pose proof (Z.pow_pos_nonneg 2 k). lia.
Qed.

Lemma has_bit b i : 0 ≤ i → has b (Z.shiftl 1 i) = Z.testbit b i.
Proof. intros Hi. rewrite Z.shiftl_1_l. by apply has_testbit. Qed.

Lemma testbit_not32_pow i j : 0 ≤ i < 32 → 0 ≤ j < 32 → Z.testbit (not32 (Z.shiftl 1 i)) j = negb (i =? j).
Proof.
  intros Hi Hj. unfold not32, u32. rewrite Z.mod_pow2_bits_low, Z.lnot_spec by lia.
  by rewrite Z.shiftl_1_l, Z.pow2_bits_eqb by lia.
Qed.

Lemma testbit_lor_shift a b k n :
  0 ≤ n < k → Z.testbit (Z.lor (Z.shiftl a k) b) n = Z.testbit b n.
Proof. intros H. by rewrite Z.lor_spec, Z.shiftl_spec_low by lia. Qed.

Lemma lor_bound a b k : 0 ≤ k → 0 ≤ a < 2 ^ k → 0 ≤ b < 2 ^ k → 0 ≤ Z.lor a b < 2 ^ k.
Proof.
  intros Hk Ha Hb. split; [apply Z.lor_nonneg; lia|].
  destruct (Z.eq_dec (Z.lor a b) 0) as [->|Hne]; [lia|].
  apply Z.log2_lt_pow2; [pose proof (proj2 (Z.lor_nonneg a b)); lia|].
  rewrite Z.log2_lor by lia.
  destruct (Z.eq_dec a 0) as [->|]; destruct (Z.eq_dec b 0) as [->|]; try done;
    repeat rewrite Z.max_r by (apply Z.log2_nonneg);
    repeat rewrite Z.max_l by (apply Z.log2_nonneg); try (by apply Z.log2_lt_pow2; lia).
  apply Z.max_lub_lt; apply Z.log2_lt_pow2; lia.
Qed.

Lemma land_bound a b k : 0 ≤ k → 0 ≤ b < 2 ^ k → 0 ≤ Z.land a b < 2 ^ k.
Proof.
  intros Hk Hb. assert (Z.land a b = Z.land (Z.land a b) (Z.ones k)) as ->.
  { rewrite <- Z.land_assoc, (Z.land_ones b), (Z.mod_small b) by lia. done. }
  rewrite Z.land_ones by done. apply Z.mod_pos_bound. lia.
Qed.

(** * Lemmas on lists *)

Lemma filter_ext_in {A} (P Q : A → Prop) `{!∀ x, Decision (P x), !∀ x, Decision (Q x)} (l : list A) :
  (∀ x, x ∈ l → P x ↔ Q x) → filter P l = filter Q l.
Proof.
  induction l as [|x l IH]; intros HPQ; [done|]. rewrite !filter_cons.
  pose proof (HPQ x (list_elem_of_here x l)). rewrite IH by (intros; apply HPQ; set_solver).
  repeat case_decide; tauto.
Qed.

Lemma filter_id {A} (P : A → Prop) `{!∀ x, Decision (P x)} (l : list A) :
  (∀ x, x ∈ l → P x) → filter P l = l.
Proof.
  induction l as [|x l IH]; intros HP; [done|]. rewrite filter_cons, decide_True by set_solver.
  f_equal. apply IH. set_solver.
Qed.

(** * Automation *)

Create HintDb mos.
Create Rewrite HintDb mos.
#[export] Hint Resolve u32_bound : mos.
#[export] Hint Rewrite @bind_ret : mos.

(** Run the first action of a sequence with the equation [E]. *)
Tactic Notation "run" constr(E) :=
  first [ rewrite (bind_ok _ _ _ _ _ E)
        | erewrite bind_ok by (apply E)
        | erewrite bind_err by (apply E) ].

(** Case analysis on every [decide] of the goal. *)
Ltac dec_cases := repeat (case_decide; try congruence); first [done | congruence | set_solver].

(** Split conjunctions, closing the routine parts. *)
Ltac splits := split_and!; try done; try lia.

(** Run the first action of a sequence when it computes by itself. *)
Ltac step := rewrite ?bind_assoc; erewrite bind_ok by reflexivity; cbv beta.
