(* ===== verification/Mmu.v ===== *)
(** Memory layout, page table entries and error codes
    (include/mmu.h, include/error.h, include/types.h and the address
    conversions of include/pmap.h). *)
From S2P Require Import Prelude.

(** * Error codes (include/error.h) *)
Definition E_UNSPECIFIED := 1.
Definition E_BAD_ENV := 2.
Definition E_INVAL := 3.
Definition E_NO_MEM := 4.
Definition E_NO_SYS := 5.
Definition E_NO_FREE_ENV := 6.
Definition E_IPC_NOT_RECV := 7.
Definition E_NO_DISK := 8.
Definition E_MAX_OPEN := 9.
Definition E_NOT_FOUND := 10.
Definition E_BAD_PATH := 11.
Definition E_FILE_EXISTS := 12.
Definition E_NOT_EXEC := 13.
Definition E_NO_RING_DESC := 14.

(** * Layout *)
Definition PMEMSIZE := 64 * 1024 * 1024.
Definition BY2PG := 4096.
Definition PDMAP := 4 * 1024 * 1024.
Definition PGSHIFT := 12.
Definition PDSHIFT := 22.

Definition KSEG1 := 0xA0000000.
Definition KERNBASE := 0x80200000.
Definition OPENSBISIZE := 0x200000.
Definition KSTACKTOP := 0x80600000.
Definition ULIM := 0x80000000.
Definition UVPT := ULIM - PDMAP.
Definition UPAGES := UVPT - PDMAP.
Definition UENVS := UPAGES - PDMAP.
Definition UTOP := UENVS.
Definition UXSTACKTOP := UTOP.
Definition USTACKTOP := UTOP - 2 * BY2PG.
Definition UTEXT := PDMAP.
Definition UCOW := UTEXT - BY2PG.
Definition UTEMP := UCOW - BY2PG.
Definition SV32MODE := 0x80000000.

(** * Flags of page table entries *)
Definition PTE_V := 0x001.
Definition PTE_R := 0x002.
Definition PTE_W := 0x004.
Definition PTE_X := 0x008.
Definition PTE_U := 0x010.
Definition PTE_G := 0x020.
Definition PTE_A := 0x040.
Definition PTE_D := 0x080.
Definition PTE_COW := 0x100.
Definition PTE_LIBRARY := 0x200.

(** * Macros *)
Definition PDX (va : Z) : Z := Z.land (Z.shiftr va 22) 0x3FF.
Definition PTX (va : Z) : Z := Z.land (Z.shiftr va 12) 0x3FF.
Definition PTE_ADDR (pte : Z) : Z := u32 (Z.shiftl (Z.land pte (not32 0x3FF)) 2).
Definition PPN (va : Z) : Z := Z.shiftr va 12.
Definition VPN (va : Z) : Z := Z.shiftr va 12.
Definition ADDR_PTE (addr : Z) : Z := u32 (Z.shiftl (PPN addr) 10).
Definition PA2IDX (pa : Z) : Z := PPN (u32 (pa - KERNBASE)).

(** [ROUND] and [ROUNDDOWN] of include/types.h, on [u_long] *)
Definition ROUND (a n : Z) : Z := Z.land (u32 (a + n - 1)) (not32 (n - 1)).
Definition ROUNDDOWN (a n : Z) : Z := Z.land a (not32 (n - 1)).
Definition MIN (a b : Z) : Z := if a <=? b then a else b.

(** * Struct Page pointers (include/pmap.h)

    A [struct Page *] into the array [pages] is the index [pp - pages]. *)
Definition page2ppn (pp : Z) : Z := u32 (pp + PPN KERNBASE).
Definition page2pa (pp : Z) : Z := u32 (Z.shiftl (page2ppn pp) PGSHIFT).

(** * Lemmas *)

Lemma PDX_div va : 0 ≤ va < 2 ^ 32 → PDX va = va / 2 ^ 22.
Proof.
  intros H. unfold PDX. change 0x3FF with (Z.ones 10).
  rewrite Z.land_ones, Z.shiftr_div_pow2 by lia. apply Z.mod_small.
  split; [apply Z.div_pos; lia|apply Z.div_lt_upper_bound; lia].
Qed.

Lemma PTX_div va : 0 ≤ va → PTX va = va / 2 ^ 12 mod 1024.
Proof.
  intros H. unfold PTX. change 0x3FF with (Z.ones 10).
  by rewrite Z.land_ones, Z.shiftr_div_pow2 by lia.
Qed.

Lemma PPN_div va : PPN va = va / 4096.
Proof. unfold PPN. by rewrite Z.shiftr_div_pow2 by lia. Qed.

Lemma PTX_bound va : 0 ≤ PTX va < 1024.
Proof. apply (land_bound _ _ 10); lia. Qed.

Lemma PDX_bound va : 0 ≤ PDX va < 1024.
Proof. apply (land_bound _ _ 10); lia. Qed.

(** Two-level decomposition: the virtual page number is recovered from the
    directory and table indices. *)
Lemma VPN_split va : 0 ≤ va < 2 ^ 32 → VPN va = PDX va * 1024 + PTX va.
Proof.
  intros H. unfold VPN. rewrite Z.shiftr_div_pow2, PDX_div, PTX_div by lia.
  change (2 ^ 22) with (4096 * 1024). change (2 ^ 12) with 4096.
  rewrite <- Z.div_div by lia. pose proof (Z.div_mod (va / 4096) 1024). lia.
Qed.

Lemma PDX_vpn d j : 0 ≤ j < 1024 → (d * 1024 + j) / 1024 = d.
Proof. intros. rewrite Z.add_comm, Z.div_add, Z.div_small by lia. lia. Qed.

Lemma PDX_user va : 0 ≤ va < UTOP → PDX va < PDX UTOP.
Proof.
  intros H. rewrite !PDX_div by (unfold UTOP, UENVS, UPAGES, UVPT, ULIM, PDMAP in *; lia).
  change (UTOP / 2 ^ 22) with 509.
  apply Z.div_lt_upper_bound; [lia|].
  unfold UTOP, UENVS, UPAGES, UVPT, ULIM, PDMAP in *. lia.
Qed.

Lemma ADDR_PTE_div pa : 0 ≤ pa < 2 ^ 32 → ADDR_PTE pa = pa / 4096 * 1024.
Proof.
  intros H. unfold ADDR_PTE. rewrite PPN_div, Z.shiftl_mul_pow2 by lia.
  apply u32_small. pose proof (Z.div_lt_upper_bound pa 4096 (2 ^ 20)).
  pose proof (Z.div_pos pa 4096). lia.
Qed.

(** A page table entry for the page at [pa] with flags [fl]. *)
Lemma pte_sum pa fl :
  0 ≤ pa < 2 ^ 32 → 0 ≤ fl < 1024 → Z.lor (ADDR_PTE pa) fl = pa / 4096 * 1024 + fl.
Proof.
  intros Hpa Hfl. rewrite ADDR_PTE_div by done.
  change 1024 with (2 ^ 10) at 1. rewrite <- Z.shiftl_mul_pow2 by lia.
  by rewrite lor_shiftl_add by lia.
Qed.

Lemma pte_bound pa fl :
  0 ≤ pa < 2 ^ 32 → 0 ≤ fl < 1024 → 0 ≤ Z.lor (ADDR_PTE pa) fl < 2 ^ 30.
Proof.
  intros Hpa Hfl. rewrite pte_sum by done.
  pose proof (Z.div_lt_upper_bound pa 4096 (2 ^ 20)). pose proof (Z.div_pos pa 4096). lia.
Qed.

Lemma PTE_ADDR_div e : 0 ≤ e < 2 ^ 30 → PTE_ADDR e = e / 1024 * 4096.
Proof.
  intros H. unfold PTE_ADDR. change 0x3FF with (Z.ones 10).
  rewrite land_high, Z.shiftl_mul_pow2 by lia.
  change (2 ^ 10) with 1024. change (2 ^ 2) with 4.
  rewrite u32_small; [lia|]. pose proof (Z.mul_div_le e 1024). pose proof (Z.div_pos e 1024). lia.
Qed.

Lemma PTE_ADDR_pte pa fl :
  0 ≤ pa < 2 ^ 32 → pa mod 4096 = 0 → 0 ≤ fl < 1024 →
  PTE_ADDR (Z.lor (ADDR_PTE pa) fl) = pa.
Proof.
  intros Hpa Hal Hfl. rewrite PTE_ADDR_div by (by apply pte_bound).
  rewrite pte_sum by done. rewrite Z.add_comm, Z.div_add, Z.div_small by lia.
  pose proof (Z.div_mod pa 4096). lia.
Qed.

Lemma pte_flags pa fl k :
  0 ≤ k < 10 → Z.testbit (Z.lor (ADDR_PTE pa) fl) k = Z.testbit fl k.
Proof.
  intros Hk. unfold ADDR_PTE, u32. rewrite Z.lor_spec, Z.mod_pow2_bits_low by lia.
  by rewrite Z.shiftl_spec_low by lia.
Qed.

Lemma PDX_0x3FF e : Z.land e 0x3FF = e mod 1024.
Proof. change 0x3FF with (Z.ones 10). by rewrite Z.land_ones. Qed.

Lemma pte_perm pa fl :
  0 ≤ pa < 2 ^ 32 → 0 ≤ fl < 1024 → Z.land (Z.lor (ADDR_PTE pa) fl) 0x3FF = fl.
Proof.
  intros Hpa Hfl. rewrite PDX_0x3FF, pte_sum by done.
  rewrite Z.add_comm, Z.mod_add by lia. by apply Z.mod_small.
Qed.

Lemma has_V_lor x : has (Z.lor x PTE_V) PTE_V = true.
Proof.
  change PTE_V with (2 ^ 0). rewrite has_testbit, Z.lor_spec by lia.
  by rewrite Z.pow2_bits_true, orb_true_r.
Qed.

(** The physical address of [pages[pp]] *)
Lemma page2pa_eq pp :
  0 ≤ pp < 2 ^ 20 - 0x80200 → page2pa pp = KERNBASE + pp * 4096.
Proof.
  intros H. unfold page2pa, page2ppn. change (PPN KERNBASE) with 0x80200.
  rewrite (u32_small (pp + _)) by lia. change PGSHIFT with 12.
  rewrite Z.shiftl_mul_pow2, u32_small by lia. unfold KERNBASE. lia.
Qed.

Lemma PA2IDX_page2pa pp :
  0 ≤ pp < 2 ^ 20 - 0x80200 → PA2IDX (page2pa pp) = pp.
Proof.
  intros H. unfold PA2IDX. rewrite page2pa_eq, PPN_div by done.
  replace (KERNBASE + pp * 4096 - KERNBASE) with (pp * 4096) by lia.
  rewrite u32_small by lia. by rewrite Z.div_mul by lia.
Qed.

Lemma page2pa_range pp :
  0 ≤ pp < 2 ^ 20 - 0x80200 → 0 ≤ page2pa pp < 2 ^ 32 ∧ page2pa pp mod 4096 = 0.
Proof.
  intros H. rewrite page2pa_eq by done. split; [unfold KERNBASE; lia|].
  rewrite Z.mod_add by lia. done.
Qed.

Lemma page2pa_above pp : 0 ≤ pp < 2 ^ 20 - 0x80200 → KERNBASE ≤ page2pa pp.
Proof. intros H. rewrite page2pa_eq by done. lia. Qed.

Lemma ROUND_spec a k :
  0 ≤ k < 32 → 0 ≤ a → a + 2 ^ k - 1 < 2 ^ 32 →
  ROUND a (2 ^ k) = (a + 2 ^ k - 1) / 2 ^ k * 2 ^ k.
Proof.
  intros Hk Ha Hb. unfold ROUND. rewrite u32_small by lia.
  replace (2 ^ k - 1) with (Z.ones k) by (rewrite Z.ones_equiv; lia).
  apply land_high; lia.
Qed.

Lemma ROUNDDOWN_spec a k :
  0 ≤ k < 32 → 0 ≤ a < 2 ^ 32 → ROUNDDOWN a (2 ^ k) = a / 2 ^ k * 2 ^ k.
Proof.
  intros Hk Ha. unfold ROUNDDOWN.
  replace (2 ^ k - 1) with (Z.ones k) by (rewrite Z.ones_equiv; lia).
  apply land_high; lia.
Qed.
