(* ===== verification/Queue.v ===== *)
(** The intrusive lists of include/queue.h, at pointer level.

    A list element is named by an integer (an index of [pages] or [envs]).  A
    [le_prev]/[tqe_prev] field holds the address of the pointer that points to
    the element: the head's first pointer or the next pointer of another
    element ([slot]).  A macro that writes through a null [prev] pointer has
    no defined result ([None]).  [LIST.rep] and [TAILQ.rep] relate the links
    to the Rocq list of the elements; the lemmas show that the macros
    implement the list operations. *)
From S2P Require Import Prelude.

(** The address stored in a prev field: [&head->first] or [&elm->next]. *)
Inductive slot := Head | Next (n : Z).

#[export] Instance slot_eq_dec : EqDecision slot.
Proof. solve_decision. Defined.

Record entry := Entry { e_next : option Z; e_prev : option slot }.

(** Elements live in zeroed memory: an entry never written holds null pointers. *)
Abbreviation links := (gmap Z entry).
Definition link (lk : links) (n : Z) : entry := default (Entry None None) (lk !! n).
Definition set_next (n : Z) (v : option Z) (lk : links) : links :=
  <[n := Entry v (e_prev (link lk n))]> lk.
Definition set_prev (n : Z) (v : option slot) (lk : links) : links :=
  <[n := Entry (e_next (link lk n)) v]> lk.

Module LIST.
Record t := Mk { lh_first : option Z; lk : links }.

Definition set_lh_first (v : option Z) (h : t) : t := Mk v (lk h).
Definition set_lk (f : links → links) (h : t) : t := Mk (lh_first h) (f (lk h)).

(** [*p = v] *)
Definition store (p : slot) (v : option Z) (h : t) : t :=
  match p with
  | Head => set_lh_first v h
  | Next n => set_lk (set_next n v) h
  end.

Definition LIST_EMPTY (h : t) : bool := bool_decide (lh_first h = None).
Definition LIST_FIRST (h : t) : option Z := lh_first h.
Definition LIST_NEXT (h : t) (elm : Z) : option Z := e_next (link (lk h) elm).
Definition LIST_INIT (h : t) : t := set_lh_first None h.

Definition LIST_INSERT_AFTER (listelm elm : Z) (h : t) : t :=
  let h := set_lk (set_next elm (LIST_NEXT h listelm)) h in
  let h := match LIST_NEXT h listelm with
           | Some nx => set_lk (set_prev nx (Some (Next elm))) h
           | None => h
           end in
  let h := set_lk (set_next listelm (Some elm)) h in
  set_lk (set_prev elm (Some (Next listelm))) h.

Definition LIST_INSERT_BEFORE (listelm elm : Z) (h : t) : option t :=
  let h := set_lk (set_prev elm (e_prev (link (lk h) listelm))) h in
  let h := set_lk (set_next elm (Some listelm)) h in
  match e_prev (link (lk h) listelm) with
  | None => None
  | Some p => Some (set_lk (set_prev listelm (Some (Next elm))) (store p (Some elm) h))
  end.

Definition LIST_INSERT_HEAD (elm : Z) (h : t) : t :=
  let h := set_lk (set_next elm (lh_first h)) h in
  let h := match lh_first h with
           | Some fst => set_lk (set_prev fst (Some (Next elm))) h
           | None => h
           end in
  let h := set_lh_first (Some elm) h in
  set_lk (set_prev elm (Some Head)) h.

Definition LIST_REMOVE (elm : Z) (h : t) : option t :=
  let h := match LIST_NEXT h elm with
           | Some nx => set_lk (set_prev nx (e_prev (link (lk h) elm))) h
           | None => h
           end in
  match e_prev (link (lk h) elm) with
  | None => None
  | Some p => Some (store p (LIST_NEXT h elm) h)
  end.
End LIST.

Module TAILQ.
Record t := Mk { tqh_first : option Z; tqh_last : option slot; lk : links }.

Definition set_first (v : option Z) (h : t) : t := Mk v (tqh_last h) (lk h).
Definition set_last (v : option slot) (h : t) : t := Mk (tqh_first h) v (lk h).
Definition set_lk (f : links → links) (h : t) : t := Mk (tqh_first h) (tqh_last h) (f (lk h)).

(** [*p = v] *)
Definition store (p : slot) (v : option Z) (h : t) : t :=
  match p with
  | Head => set_first v h
  | Next n => set_lk (set_next n v) h
  end.

Definition TAILQ_EMPTY (h : t) : bool := bool_decide (tqh_first h = None).
Definition TAILQ_FIRST (h : t) : option Z := tqh_first h.
Definition TAILQ_NEXT (h : t) (elm : Z) : option Z := e_next (link (lk h) elm).
Definition TAILQ_INIT (h : t) : t := set_last (Some Head) (set_first None h).

Definition TAILQ_INSERT_HEAD (elm : Z) (h : t) : t :=
  let h := set_lk (set_next elm (tqh_first h)) h in
  let h := match tqh_first h with
           | Some fst => set_lk (set_prev fst (Some (Next elm))) h
           | None => set_last (Some (Next elm)) h
           end in
  let h := set_first (Some elm) h in
  set_lk (set_prev elm (Some Head)) h.

Definition TAILQ_INSERT_TAIL (elm : Z) (h : t) : option t :=
  let h := set_lk (set_next elm None) h in
  let h := set_lk (set_prev elm (tqh_last h)) h in
  match tqh_last h with
  | None => None
  | Some p => Some (set_last (Some (Next elm)) (store p (Some elm) h))
  end.

Definition TAILQ_INSERT_AFTER (listelm elm : Z) (h : t) : t :=
  let h := set_lk (set_next elm (TAILQ_NEXT h listelm)) h in
  let h := match TAILQ_NEXT h elm with
           | Some nx => set_lk (set_prev nx (Some (Next elm))) h
           | None => set_last (Some (Next elm)) h
           end in
  let h := set_lk (set_next listelm (Some elm)) h in
  set_lk (set_prev elm (Some (Next listelm))) h.

Definition TAILQ_INSERT_BEFORE (listelm elm : Z) (h : t) : option t :=
  let h := set_lk (set_prev elm (e_prev (link (lk h) listelm))) h in
  let h := set_lk (set_next elm (Some listelm)) h in
  match e_prev (link (lk h) listelm) with
  | None => None
  | Some p => Some (set_lk (set_prev listelm (Some (Next elm))) (store p (Some elm) h))
  end.

Definition TAILQ_REMOVE (elm : Z) (h : t) : option t :=
  let h := match TAILQ_NEXT h elm with
           | Some nx => set_lk (set_prev nx (e_prev (link (lk h) elm))) h
           | None => set_last (e_prev (link (lk h) elm)) h
           end in
  match e_prev (link (lk h) elm) with
  | None => None
  | Some p => Some (store p (TAILQ_NEXT h elm) h)
  end.
End TAILQ.

(** * Chains of elements *)

Definition hd (q : option Z) (l : list Z) : option Z :=
  match l with [] => q | n :: _ => Some n end.

(** The slot that points behind the last element of [l]. *)
Fixpoint last_slot (p : slot) (l : list Z) : slot :=
  match l with [] => p | n :: l' => last_slot (Next n) l' end.

(** [l] is linked from slot [p] up to the pointer value [q]. *)
Fixpoint seg (lk : links) (p : slot) (l : list Z) (q : option Z) : Prop :=
  match l with
  | [] => True
  | n :: l' => link lk n = Entry (hd q l') (Some p) ∧ seg lk (Next n) l' q
  end.

Definition LIST_rep (h : LIST.t) (l : list Z) : Prop :=
  LIST.lh_first h = hd None l ∧ seg (LIST.lk h) Head l None ∧ NoDup l.

Definition TAILQ_rep (h : TAILQ.t) (l : list Z) : Prop :=
  TAILQ.tqh_first h = hd None l ∧ TAILQ.tqh_last h = Some (last_slot Head l) ∧
  seg (TAILQ.lk h) Head l None ∧ NoDup l.

Section chains.
Implicit Types (lk : links) (l : list Z) (n : Z).

Lemma link_set_next lk n m v :
  link (set_next n v lk) m =
    if decide (n = m) then Entry v (e_prev (link lk n)) else link lk m.
Proof. unfold link at 1, set_next. rewrite lookup_insert. by case_decide. Qed.

Lemma link_set_prev lk n m v :
  link (set_prev n v lk) m =
    if decide (n = m) then Entry (e_next (link lk n)) v else link lk m.
Proof. unfold link at 1, set_prev. rewrite lookup_insert. by case_decide. Qed.

Lemma seg_frame lk lk' p l q :
  (∀ n, n ∈ l → link lk' n = link lk n) → seg lk p l q → seg lk' p l q.
Proof.
  revert p; induction l as [|n l IH]; intros p Hf; [done|]. intros [H1 H2].
  split; [by rewrite Hf by set_solver|]. apply IH; set_solver.
Qed.

Lemma seg_app lk p l1 l2 q :
  seg lk p (l1 ++ l2) q ↔ seg lk p l1 (hd q l2) ∧ seg lk (last_slot p l1) l2 q.
Proof.
  revert p; induction l1 as [|n l1 IH]; intros p; cbn [app seg last_slot]; [tauto|].
  rewrite IH. replace (hd q (l1 ++ l2)) with (hd (hd q l2) l1) by (by destruct l1). tauto.
Qed.

Lemma last_slot_app p l1 l2 : last_slot p (l1 ++ l2) = last_slot (last_slot p l1) l2.
Proof. revert p; induction l1; intros p; cbn; auto. Qed.

Lemma last_slot_in p l n : last_slot p l = Next n → p = Next n ∨ n ∈ l.
Proof.
  revert p; induction l as [|m l IH]; intros p; cbn; [auto|].
  intros [?|?]%IH; simplify_eq; set_solver.
Qed.

Lemma seg_set_next lk p l n v q : n ∉ l → seg lk p l q → seg (set_next n v lk) p l q.
Proof.
  intros Hn. apply seg_frame. intros m Hm. rewrite link_set_next. case_decide; set_solver.
Qed.

Lemma seg_set_prev lk p l n v q : n ∉ l → seg lk p l q → seg (set_prev n v lk) p l q.
Proof.
  intros Hn. apply seg_frame. intros m Hm. rewrite link_set_prev. case_decide; set_solver.
Qed.

(** The first element of a chain is attached to another slot. *)
Lemma seg_reattach lk p p' n l q :
  n ∉ l → seg lk p (n :: l) q → seg (set_prev n (Some p') lk) p' (n :: l) q.
Proof.
  intros Hn [H1 H2]. split; [|by apply seg_set_prev].
  rewrite link_set_prev. case_decide; [|done]. by rewrite H1.
Qed.

(** The last element of a chain is continued elsewhere. *)
Lemma seg_continue lk p l n q q' :
  n ∉ l → seg lk p (l ++ [n]) q → seg (set_next n q' lk) p (l ++ [n]) q'.
Proof.
  intros Hn. rewrite !seg_app. intros [H1 [H2 _]]. split; [by apply seg_set_next|].
  split; [|done]. rewrite link_set_next. case_decide; [|done]. by rewrite H2.
Qed.

Lemma last_slot_Next n l : ∃ z, last_slot (Next n) l = Next z.
Proof. revert n; induction l; intros n; cbn; eauto. Qed.

(** What the two removal macros do to the links: the successor of [n] is
    attached to the slot of [n], then that slot gets the successor. *)
Lemma seg_unlink lk l1 n l2 :
  seg lk Head (l1 ++ n :: l2) None → NoDup (l1 ++ n :: l2) →
  let p := last_slot Head l1 in
  let lk1 := match hd None l2 with Some nx => set_prev nx (Some p) lk | None => lk end in
  link lk n = Entry (hd None l2) (Some p) ∧
  link lk1 n = Entry (hd None l2) (Some p) ∧
  NoDup (l1 ++ l2) ∧
  seg (match p with Head => lk1 | Next z => set_next z (hd None l2) lk1 end)
    Head (l1 ++ l2) None.
Proof.
  intros Hs Hnd p lk1.
  apply NoDup_app in Hnd as (Hnd1 & Hd & Hnd2). apply NoDup_cons in Hnd2 as [Hn2 Hnd2].
  apply seg_app in Hs as [Hs1 [Hn Hs2]]. cbn in Hs1. fold p in Hn.
  assert (Hseg2 : seg lk1 p l2 None).
  { subst lk1. destruct l2 as [|m l2]; [done|]. apply NoDup_cons in Hnd2 as [? _].
    by apply seg_reattach with (Next n). }
  assert (Hseg1 : seg lk1 Head l1 (Some n)).
  { subst lk1. destruct l2 as [|m l2]; [done|]. apply seg_set_prev; set_solver. }
  split_and!; [done| | |].
  - subst lk1. destruct l2 as [|m l2]; cbn [hd] in *; [done|].
    rewrite link_set_prev. dec_cases.
  - apply NoDup_app. split_and!; [done|set_solver|done].
  - clearbody lk1. subst p. destruct l1 as [|z l1 _] using rev_ind; [done|].
    rewrite last_slot_app in *. cbn in *. apply NoDup_app in Hnd1 as (_ & Hz & _).
    apply seg_app. rewrite last_slot_app. cbn. split.
    + apply seg_continue with (Some n); [set_solver|done].
    + apply seg_set_next; [set_solver|done].
Qed.
(** What the two INSERT_AFTER macros do to the links. *)
Lemma seg_insert_after lk l1 x l2 n :
  seg lk Head (l1 ++ x :: l2) None → NoDup (l1 ++ x :: l2) → n ∉ l1 ++ x :: l2 →
  let lk1 := set_next n (hd None l2) lk in
  let lk2 := match hd None l2 with Some m => set_prev m (Some (Next n)) lk1 | None => lk1 end in
  seg (set_prev n (Some (Next x)) (set_next x (Some n) lk2)) Head (l1 ++ x :: n :: l2) None.
Proof.
  intros Hs Hnd Hn lk1 lk2.
  apply NoDup_app in Hnd as (Hnd1 & Hd & Hnd2). apply NoDup_cons in Hnd2 as [Hx2 Hnd2].
  assert (Hx1 : x ∉ l1) by (intros H; apply (Hd x H); set_solver).
  assert (n ∉ l1 ∧ n ≠ x ∧ n ∉ l2) as (Hn1 & Hnx & Hn2) by set_solver.
  replace (l1 ++ x :: l2) with ((l1 ++ [x]) ++ l2) in Hs by (by rewrite <- app_assoc).
  apply seg_app in Hs as [Hs1 Hs2]. rewrite last_slot_app in Hs2. cbn in Hs2.
  assert (Hseg1 : seg lk2 Head (l1 ++ [x]) (hd None l2)).
  { subst lk2 lk1. destruct l2 as [|m l2]; cbn [hd]; [apply seg_set_next; set_solver|].
    apply seg_set_prev; [set_solver|]. apply seg_set_next; set_solver. }
  assert (Hseg2 : seg lk2 (Next n) l2 None ∧ e_next (link lk2 n) = hd None l2).
  { subst lk2 lk1. destruct l2 as [|m l2]; cbn [hd].
    - split; [done|]. rewrite link_set_next. dec_cases.
    - apply NoDup_cons in Hnd2 as [? _]. split.
      + apply seg_reattach with (Next x); [done|]. by apply seg_set_next.
      + rewrite link_set_prev, !link_set_next. dec_cases. }
  destruct Hseg2 as [Hseg2 Hnext]. clearbody lk2.
  replace (l1 ++ x :: n :: l2) with ((l1 ++ [x]) ++ n :: l2) by (by rewrite <- app_assoc).
  apply seg_app. rewrite last_slot_app. cbn [last_slot hd]. split; [|split].
  - apply seg_set_prev; [set_solver|]. by eapply seg_continue.
  - rewrite link_set_prev, link_set_next. rewrite decide_True, decide_False by congruence.
    by rewrite Hnext.
  - apply seg_set_prev; [done|]. by apply seg_set_next.
Qed.

(** What the two INSERT_BEFORE macros do to the links. *)
Lemma seg_insert_before lk l1 x l2 n :
  seg lk Head (l1 ++ x :: l2) None → NoDup (l1 ++ x :: l2) → n ∉ l1 ++ x :: l2 →
  let p := last_slot Head l1 in
  let lk1 := set_next n (Some x) (set_prev n (Some p) lk) in
  e_prev (link lk x) = Some p ∧ e_prev (link lk1 x) = Some p ∧
  seg (set_prev x (Some (Next n)) (match p with Head => lk1 | Next z => set_next z (Some n) lk1 end))
    Head (l1 ++ n :: x :: l2) None.
Proof.
  intros Hs Hnd Hn p lk1.
  apply NoDup_app in Hnd as (Hnd1 & Hd & Hnd2). apply NoDup_cons in Hnd2 as [Hx2 Hnd2].
  assert (Hx1 : x ∉ l1) by (intros H; apply (Hd x H); set_solver).
  assert (n ∉ l1 ∧ n ≠ x ∧ n ∉ l2) as (Hn1 & Hnx & Hn2) by set_solver.
  apply seg_app in Hs as [Hs1 [Hx Hs2]]. cbn in Hs1. fold p in Hx.
  assert (Hseg1 : seg lk1 Head l1 (Some x)).
  { apply seg_set_next; [done|]. by apply seg_set_prev. }
  assert (Hseg2 : seg lk1 p (x :: l2) None).
  { apply seg_set_next; [set_solver|]. apply seg_set_prev; [set_solver|]. by split. }
  assert (Hln : link lk1 n = Entry (Some x) (Some p)).
  { subst lk1. rewrite link_set_next, !link_set_prev. dec_cases. }
  split_and!; [by rewrite Hx|by rewrite (proj1 Hseg2)|]. clearbody lk1. subst p.
  destruct l1 as [|z l1 _] using rev_ind.
  - split; cbn [hd app].
    + rewrite link_set_prev, decide_False by congruence. done.
    + by apply seg_reattach with Head.
  - rewrite last_slot_app in *. cbn in *. apply NoDup_app in Hnd1 as (_ & Hz & _).
    assert (Hz1 : z ∈ l1 ++ [z]) by (apply elem_of_app; right; apply list_elem_of_here).
    assert (z ∉ l1) by (intros H; apply (Hz z H), list_elem_of_here).
    pose proof (Hd z Hz1) as Hzx. assert (z ≠ n) by congruence.
    assert (z ≠ x) by (intros ->; apply Hzx, list_elem_of_here).
    apply seg_app. rewrite last_slot_app. cbn [last_slot hd]. split; [|split].
    + apply seg_set_prev; [done|]. by apply seg_continue with (Some x).
    + rewrite link_set_prev, decide_False by done. rewrite link_set_next, decide_False by done. exact Hln.
    + apply seg_reattach with (Next z); [done|]. by apply seg_set_next.
Qed.
End chains.

(** * LIST implements finite sequences *)

Lemma LIST_init_rep h : LIST_rep (LIST.LIST_INIT h) [].
Proof. split_and!; [done|done|constructor]. Qed.

Lemma LIST_first_rep h l : LIST_rep h l → LIST.LIST_FIRST h = head l.
Proof. intros (H & _ & _). unfold LIST.LIST_FIRST. rewrite H. by destruct l. Qed.

Lemma LIST_empty_rep h l : LIST_rep h l → LIST.LIST_EMPTY h = bool_decide (l = []).
Proof.
  intros (H & _ & _). unfold LIST.LIST_EMPTY. rewrite H.
  by destruct l; simpl; repeat case_bool_decide.
Qed.

Lemma LIST_insert_head_rep h l n :
  LIST_rep h l → n ∉ l → LIST_rep (LIST.LIST_INSERT_HEAD n h) (n :: l).
Proof.
  destruct h as [fst lk]. intros (Hf & Hs & Hnd) Hn.
  unfold LIST.LIST_INSERT_HEAD, LIST.set_lk, LIST.set_lh_first. cbn in *. subst fst.
  destruct l as [|m l]; cbn [hd LIST.lh_first LIST.lk].
  - split_and!; [done| |by apply NoDup_singleton].
    split; [|done]. cbn. rewrite link_set_prev, !link_set_next. dec_cases.
  - assert (n ≠ m) by set_solver. apply NoDup_cons in Hnd as [? ?].
    split_and!; [done| |constructor; [done|by constructor]].
    split.
    + cbn. rewrite !link_set_prev, !link_set_next. dec_cases.
    + apply seg_set_prev; [done|]. apply seg_reattach with Head; [done|].
      by apply seg_set_next.
Qed.

Lemma LIST_remove_rep h l1 n l2 :
  LIST_rep h (l1 ++ n :: l2) →
  ∃ h', LIST.LIST_REMOVE n h = Some h' ∧ LIST_rep h' (l1 ++ l2).
Proof.
  destruct h as [fst lk]. intros (Hf & Hs & Hnd). cbn in *.
  destruct (seg_unlink _ _ _ _ Hs Hnd) as (Hn & Hn1 & Hnd' & Hs').
  unfold LIST.LIST_REMOVE, LIST.LIST_NEXT, LIST.set_lk, LIST_rep. cbn. rewrite !Hn.
  destruct l2 as [|m l2]; cbn in *; rewrite !Hn1; cbn;
    (eexists; split; [done|]); rewrite Hf;
    destruct l1 as [|a l1]; cbn in *; try (destruct (last_slot_Next a l1) as [z Hz];
      rewrite Hz in *); cbn; done.
Qed.

Lemma NoDup_insert (l1 l2 : list Z) n : NoDup (l1 ++ l2) → n ∉ l1 ++ l2 → NoDup (l1 ++ n :: l2).
Proof.
  intros Hnd Hn. rewrite <- Permutation_middle. by constructor.
Qed.

Lemma LIST_insert_after_rep h l1 x l2 n :
  LIST_rep h (l1 ++ x :: l2) → n ∉ l1 ++ x :: l2 →
  LIST_rep (LIST.LIST_INSERT_AFTER x n h) (l1 ++ x :: n :: l2).
Proof.
  destruct h as [fst lk]. intros (Hf & Hs & Hnd) Hn. cbn in *. subst fst.
  pose proof (seg_insert_after lk l1 x l2 n Hs Hnd Hn) as Hins.
  assert (Hx : e_next (link lk x) = hd None l2).
  { apply seg_app in Hs as [_ [Hx _]]. by rewrite Hx. }
  assert (Hnx : n ≠ x) by set_solver.
  assert (NoDup (l1 ++ x :: n :: l2)).
  { replace (l1 ++ x :: n :: l2) with ((l1 ++ [x]) ++ n :: l2) by (by rewrite <- app_assoc).
    apply NoDup_insert; by rewrite <- app_assoc. }
  unfold LIST.LIST_INSERT_AFTER, LIST.LIST_NEXT, LIST.set_lk. cbn.
  rewrite Hx, link_set_next, decide_False by done. rewrite Hx.
  destruct l2 as [|m l2]; cbn in *; (split_and!; [by destruct l1|exact Hins|done]).
Qed.

Lemma LIST_insert_before_rep h l1 x l2 n :
  LIST_rep h (l1 ++ x :: l2) → n ∉ l1 ++ x :: l2 →
  ∃ h', LIST.LIST_INSERT_BEFORE x n h = Some h' ∧ LIST_rep h' (l1 ++ n :: x :: l2).
Proof.
  destruct h as [fst lk]. intros (Hf & Hs & Hnd) Hn. cbn in *. subst fst.
  destruct (seg_insert_before lk l1 x l2 n Hs Hnd Hn) as (Hx & Hx' & Hins).
  pose proof (NoDup_insert l1 (x :: l2) n Hnd Hn) as Hnd'.
  unfold LIST.LIST_INSERT_BEFORE, LIST.set_lk. cbn. rewrite Hx. cbn. rewrite Hx'.
  eexists. split; [done|].
  destruct l1 as [|a l1]; cbn in *.
  - split_and!; done.
  - destruct (last_slot_Next a l1) as [z Hz]. rewrite Hz in *. split_and!; done.
Qed.

(** * TAILQ implements queues *)

Lemma TAILQ_init_rep h : TAILQ_rep (TAILQ.TAILQ_INIT h) [].
Proof. split_and!; [done|done|done|constructor]. Qed.

Lemma TAILQ_first_rep h l : TAILQ_rep h l → TAILQ.TAILQ_FIRST h = head l.
Proof. intros (H & _). unfold TAILQ.TAILQ_FIRST. rewrite H. by destruct l. Qed.

Lemma TAILQ_empty_rep h l : TAILQ_rep h l → TAILQ.TAILQ_EMPTY h = bool_decide (l = []).
Proof.
  intros (H & _). unfold TAILQ.TAILQ_EMPTY. rewrite H.
  by destruct l; simpl; repeat case_bool_decide.
Qed.

Lemma TAILQ_insert_head_rep h l n :
  TAILQ_rep h l → n ∉ l → TAILQ_rep (TAILQ.TAILQ_INSERT_HEAD n h) (n :: l).
Proof.
  destruct h as [fst lst lk]. intros (Hf & Hl & Hs & Hnd) Hn.
  unfold TAILQ.TAILQ_INSERT_HEAD, TAILQ.set_lk, TAILQ.set_first, TAILQ.set_last.
  cbn in *. subst fst lst.
  destruct l as [|m l]; cbn [hd TAILQ.tqh_first TAILQ.lk].
  - split_and!; [done|done| |by apply NoDup_singleton].
    split; [|done]. cbn. rewrite link_set_prev, !link_set_next. dec_cases.
  - assert (n ≠ m) by set_solver. apply NoDup_cons in Hnd as [? ?].
    split_and!; [done|done| |constructor; [done|by constructor]].
    split.
    + cbn. rewrite !link_set_prev, !link_set_next. dec_cases.
    + apply seg_set_prev; [done|]. apply seg_reattach with Head; [done|].
      by apply seg_set_next.
Qed.

Lemma TAILQ_insert_tail_rep h l n :
  TAILQ_rep h l → n ∉ l →
  ∃ h', TAILQ.TAILQ_INSERT_TAIL n h = Some h' ∧ TAILQ_rep h' (l ++ [n]).
Proof.
  destruct h as [fst lst lk]. intros (Hf & Hl & Hs & Hnd) Hn.
  unfold TAILQ.TAILQ_INSERT_TAIL, TAILQ.set_lk, TAILQ.set_last. cbn in *. subst fst lst.
  eexists. split; [done|].
  assert (Hndn : NoDup (l ++ [n])).
  { apply NoDup_app. split_and!; [done|set_solver|by apply NoDup_singleton]. }
  destruct l as [|z l _] using rev_ind.
  - split_and!; [done|done| |done]. split; [|done]. cbn.
    rewrite link_set_prev, !link_set_next. dec_cases.
  - rewrite last_slot_app. cbn. unfold TAILQ.set_lk, TAILQ_rep. cbn.
    assert (z ≠ n) by set_solver.
    assert (z ∉ l) by (apply NoDup_app in Hnd; set_solver).
    split_and!; [by destruct l|by rewrite !last_slot_app| |done].
    apply seg_app. rewrite last_slot_app. cbn. split; [|split; [|done]].
    + eapply seg_continue; [done|]. apply seg_set_prev; [done|]. by apply seg_set_next.
    + rewrite !link_set_next, !link_set_prev, !link_set_next. dec_cases.
Qed.

Lemma TAILQ_remove_rep h l1 n l2 :
  TAILQ_rep h (l1 ++ n :: l2) →
  ∃ h', TAILQ.TAILQ_REMOVE n h = Some h' ∧ TAILQ_rep h' (l1 ++ l2).
Proof.
  destruct h as [fst lst lk]. intros (Hf & Hl & Hs & Hnd). cbn in *.
  destruct (seg_unlink _ _ _ _ Hs Hnd) as (Hn & Hn1 & Hnd' & Hs').
  rewrite last_slot_app in Hl.
  unfold TAILQ.TAILQ_REMOVE, TAILQ.TAILQ_NEXT, TAILQ.set_lk, TAILQ.set_last, TAILQ_rep.
  cbn. rewrite !Hn, last_slot_app.
  destruct l2 as [|m l2]; cbn in *; rewrite !Hn1; cbn;
    (eexists; split; [done|]); rewrite Hf;
    destruct l1 as [|a l1]; cbn in *; try (destruct (last_slot_Next a l1) as [z Hz];
      rewrite Hz in *); cbn; try done.
Qed.

Lemma TAILQ_insert_after_rep h l1 x l2 n :
  TAILQ_rep h (l1 ++ x :: l2) → n ∉ l1 ++ x :: l2 →
  TAILQ_rep (TAILQ.TAILQ_INSERT_AFTER x n h) (l1 ++ x :: n :: l2).
Proof.
  destruct h as [fst lst lk]. intros (Hf & Hl & Hs & Hnd) Hn. cbn in *. subst fst lst.
  pose proof (seg_insert_after lk l1 x l2 n Hs Hnd Hn) as Hins.
  assert (Hx : e_next (link lk x) = hd None l2).
  { apply seg_app in Hs as [_ [Hx _]]. by rewrite Hx. }
  assert (NoDup (l1 ++ x :: n :: l2)).
  { replace (l1 ++ x :: n :: l2) with ((l1 ++ [x]) ++ n :: l2) by (by rewrite <- app_assoc).
    apply NoDup_insert; by rewrite <- app_assoc. }
  unfold TAILQ.TAILQ_INSERT_AFTER, TAILQ.TAILQ_NEXT, TAILQ.set_lk, TAILQ.set_last. cbn.
  rewrite Hx, link_set_next, decide_True by done. cbn.
  destruct l2 as [|m l2]; cbn in *;
    (split_and!; cbn; [by destruct l1|by rewrite !last_slot_app|exact Hins|done]).
Qed.

Lemma TAILQ_insert_before_rep h l1 x l2 n :
  TAILQ_rep h (l1 ++ x :: l2) → n ∉ l1 ++ x :: l2 →
  ∃ h', TAILQ.TAILQ_INSERT_BEFORE x n h = Some h' ∧ TAILQ_rep h' (l1 ++ n :: x :: l2).
Proof.
  destruct h as [fst lst lk]. intros (Hf & Hl & Hs & Hnd) Hn. cbn in *. subst fst lst.
  destruct (seg_insert_before lk l1 x l2 n Hs Hnd Hn) as (Hx & Hx' & Hins).
  pose proof (NoDup_insert l1 (x :: l2) n Hnd Hn) as Hnd'.
  unfold TAILQ.TAILQ_INSERT_BEFORE, TAILQ.set_lk. cbn. rewrite Hx. cbn. rewrite Hx'.
  eexists. split; [done|].
  destruct l1 as [|a l1]; cbn in *.
  - split_and!; done.
  - destruct (last_slot_Next a l1) as [z Hz]. rewrite Hz in *.
    split_and!; cbn; [done|by rewrite !last_slot_app|done|done].
Qed.
