(* ===== verification/Memory.v ===== *)
(** Physical memory, by pages of 32-bit words.

    Addresses are byte addresses; in the kernel a virtual address equals its
    physical address.  The contents of page number [n] is a finite map from
    word index (0..1023) to word; a word never written reads as 0. *)
From S2P Require Import Prelude Mmu.

Abbreviation page := (gmap Z Z).
Abbreviation memory := (gmap Z page).

Definition pg (m : memory) (n : Z) : page := default ∅ (m !! n).
Definition word (p : page) (i : Z) : Z := default 0 (p !! i).

(** Index of the word of a page at byte address [a] *)
Definition widx (a : Z) : Z := Z.land (Z.shiftr a 2) 1023.

Definition load (m : memory) (a : Z) : Z := word (pg m (PPN a)) (widx a).
Definition store (a v : Z) (m : memory) : memory :=
  <[PPN a := <[widx a := u32 v]> (pg m (PPN a))]> m.

(** Bytes, little-endian *)
Definition load8 (m : memory) (a : Z) : Z :=
  u8 (Z.shiftr (load m a) (8 * Z.land a 3)).
Definition store8 (a b : Z) (m : memory) : memory :=
  let sh := 8 * Z.land a 3 in
  store a (Z.lor (Z.land (load m a) (not32 (Z.shiftl 255 sh))) (Z.shiftl (u8 b) sh)) m.

(** [memset (a, 0, n)] *)
Fixpoint clear (a : Z) (n : nat) (m : memory) : memory :=
  match n with
  | O => m
  | S n' => clear (a + 1) n' (store8 a 0 m)
  end.

(** [memset (a, 0, BY2PG)] for a page-aligned [a] *)
Definition clear_page (a : Z) (m : memory) : memory := <[PPN a := ∅]> m.

(** [memcpy (dst, src, BY2PG)] for page-aligned addresses *)
Definition copy_page (dst src : Z) (m : memory) : memory := <[PPN dst := pg m (PPN src)]> m.

(** [n] words from [src] to [dst], in increasing order *)
Fixpoint copy_words (dst src : Z) (n : nat) (m : memory) : memory :=
  match n with
  | O => m
  | S n' => copy_words (dst + 4) (src + 4) n' (store dst (load m src) m)
  end.

(** [n] bytes from [src] to [dst], in increasing order *)
Fixpoint copy_bytes (dst src : Z) (n : nat) (m : memory) : memory :=
  match n with
  | O => m
  | S n' => copy_bytes (dst + 1) (src + 1) n' (store8 dst (load8 m src) m)
  end.

(** * Words of the pages that [struct Page] describes *)

Definition PPN0 : Z := PPN KERNBASE.
(** Number of pages from KERNBASE to the end of the address space *)
Definition PAGE_LIMIT : Z := 2 ^ 20 - 0x80200.

Lemma word_addr p i :
  0 ≤ p < PAGE_LIMIT → 0 ≤ i < 1024 →
  PPN (page2pa p + 4 * i) = p + PPN0 ∧ widx (page2pa p + 4 * i) = i.
Proof.
  unfold PAGE_LIMIT. intros Hp Hi. rewrite page2pa_eq by done.
  change PPN0 with 0x80200. rewrite PPN_div. unfold widx, KERNBASE. change 1023 with (Z.ones 10).
  rewrite Z.land_ones, Z.shiftr_div_pow2 by lia.
  change (2 ^ 2) with 4. change (2 ^ 10) with 1024. split.
  - replace (0x80200000 + p * 4096 + 4 * i) with (4 * i + (p + 0x80200) * 4096) by lia.
    rewrite Z.div_add, Z.div_small by lia. lia.
  - replace (0x80200000 + p * 4096 + 4 * i) with ((i + (p + 0x80200) * 1024) * 4) by lia.
    rewrite Z.div_mul, Z.mod_add, Z.mod_small by lia. done.
Qed.

Lemma load_word m p i :
  0 ≤ p < PAGE_LIMIT → 0 ≤ i < 1024 →
  load m (page2pa p + 4 * i) = word (pg m (p + PPN0)) i.
Proof. intros Hp Hi. unfold load. by destruct (word_addr p i Hp Hi) as [-> ->]. Qed.

Lemma load_store m p i q j v :
  0 ≤ p < PAGE_LIMIT → 0 ≤ i < 1024 → 0 ≤ q < PAGE_LIMIT → 0 ≤ j < 1024 →
  load (store (page2pa p + 4 * i) v m) (page2pa q + 4 * j) =
    if decide (p = q ∧ i = j) then u32 v else load m (page2pa q + 4 * j).
Proof.
  intros Hp Hi Hq Hj. rewrite !load_word by done. unfold store.
  destruct (word_addr p i Hp Hi) as [-> ->]. unfold pg at 1. rewrite lookup_insert.
  destruct (decide (p + PPN0 = q + PPN0)) as [E|E].
  - assert (p = q) as -> by lia. cbn. unfold word at 1. rewrite lookup_insert.
    destruct (decide (i = j)) as [->|Hne];
      [by rewrite decide_True|by rewrite decide_False by tauto].
  - rewrite decide_False by (intros [-> _]; lia). done.
Qed.

Lemma load_clear_page m p q j :
  0 ≤ p < PAGE_LIMIT → 0 ≤ q < PAGE_LIMIT → 0 ≤ j < 1024 →
  load (clear_page (page2pa p) m) (page2pa q + 4 * j) =
    if decide (p = q) then 0 else load m (page2pa q + 4 * j).
Proof.
  intros Hp Hq Hj. rewrite !load_word by done. unfold clear_page.
  destruct (word_addr p 0 Hp) as [Hpp _]; [lia|].
  replace (page2pa p + 4 * 0) with (page2pa p) in Hpp by lia. rewrite Hpp.
  unfold pg at 1. rewrite lookup_insert.
  destruct (decide (p + PPN0 = q + PPN0)); case_decide; try lia; done.
Qed.
