(* ===== verification/Strings.v ===== *)
(** lib/string.c on the memory of Memory.v: [memcpy] and [memset] with their
    word-wise fast paths, and the C string functions.

    A loop [while (p < max)] that advances [p] by one runs at most [n] times;
    the loops take the byte count as fuel.  String loops take an explicit fuel
    and return [None] when it is exhausted; a terminated string of length [l]
    needs [l + 1] rounds.  Addresses do not wrap ([dst + n < 2^32]). *)
From S2P Require Import Prelude Mmu Memory.

(** * memcpy *)

(** Bytes up to the first word boundary of [dst] *)
Fixpoint copy_head (fuel : nat) (dst src max : Z) (m : memory) : Z * Z * memory :=
  match fuel with
  | O => (dst, src, m)
  | S fuel' =>
      if negb (Z.land dst 3 =? 0) && (dst <? max)
      then copy_head fuel' (dst + 1) (src + 1) max (store8 dst (load8 m src) m)
      else (dst, src, m)
  end.

(** Words: [while (dst + 4 <= max)] *)
Fixpoint copy_body (fuel : nat) (dst src max : Z) (m : memory) : Z * Z * memory :=
  match fuel with
  | O => (dst, src, m)
  | S fuel' =>
      if dst + 4 <=? max
      then copy_body fuel' (dst + 4) (src + 4) max (store dst (load m src) m)
      else (dst, src, m)
  end.

(** The remaining bytes *)
Fixpoint copy_tail (fuel : nat) (dst src max : Z) (m : memory) : memory :=
  match fuel with
  | O => m
  | S fuel' =>
      if dst <? max then copy_tail fuel' (dst + 1) (src + 1) max (store8 dst (load8 m src) m) else m
  end.

Definition memcpy (dst src n : Z) (m : memory) : memory :=
  let max := dst + n in
  let fuel := S (Z.to_nat n) in
  if negb (Z.land src 3 =? Z.land dst 3) then copy_tail fuel dst src max m
  else
    let '(dst, src, m) := copy_head fuel dst src max m in
    let '(dst, src, m) := copy_body fuel dst src max m in
    copy_tail fuel dst src max m.

(** * memset *)

Fixpoint set_head (fuel : nat) (dst byte max : Z) (m : memory) : Z * memory :=
  match fuel with
  | O => (dst, m)
  | S fuel' =>
      if negb (Z.land dst 3 =? 0) && (dst <? max)
      then set_head fuel' (dst + 1) byte max (store8 dst byte m)
      else (dst, m)
  end.

Fixpoint set_body (fuel : nat) (dst word max : Z) (m : memory) : Z * memory :=
  match fuel with
  | O => (dst, m)
  | S fuel' =>
      if dst + 4 <=? max then set_body fuel' (dst + 4) word max (store dst word m) else (dst, m)
  end.

Fixpoint set_tail (fuel : nat) (dst byte max : Z) (m : memory) : memory :=
  match fuel with
  | O => m
  | S fuel' => if dst <? max then set_tail fuel' (dst + 1) byte max (store8 dst byte m) else m
  end.

Definition memset (dst c n : Z) (m : memory) : memory :=
  let max := dst + n in
  let fuel := S (Z.to_nat n) in
  let byte := Z.land c 0xff in
  let word := u32 (Z.lor (Z.lor (Z.lor byte (Z.shiftl byte 8)) (Z.shiftl byte 16)) (Z.shiftl byte 24)) in
  let '(dst, m) := set_head fuel dst byte max m in
  let '(dst, m) := set_body fuel dst word max m in
  set_tail fuel dst byte max m.

(** * C strings *)

Fixpoint strlen (fuel : nat) (s : Z) (m : memory) : option Z :=
  match fuel with
  | O => None
  | S fuel' =>
      if load8 m s =? 0 then Some 0
      else n ← strlen fuel' (s + 1) m; Some (n + 1)
  end.

(** One round copies a byte, the terminator included. *)
Fixpoint strcpy (fuel : nat) (dst src : Z) (m : memory) : option memory :=
  match fuel with
  | O => None
  | S fuel' =>
      let c := load8 m src in
      let m := store8 dst c m in
      if c =? 0 then Some m else strcpy fuel' (dst + 1) (src + 1) m
  end.

(** The address found, [Some 0] being the null pointer *)
Fixpoint strchr (fuel : nat) (s c : Z) (m : memory) : option Z :=
  match fuel with
  | O => None
  | S fuel' =>
      if load8 m s =? 0 then Some 0
      else if load8 m s =? c then Some s
      else strchr fuel' (s + 1) c m
  end.

Fixpoint strcmp (fuel : nat) (p q : Z) (m : memory) : option Z :=
  match fuel with
  | O => None
  | S fuel' =>
      let a := load8 m p in
      let b := load8 m q in
      if negb (a =? 0) && (a =? b) then strcmp fuel' (p + 1) (q + 1) m
      else Some (if a <? b then -1 else if a >? b then 1 else 0)
  end.
