(* ===== verification/Pmap.v ===== *)
(** Physical pages and two-level page tables: kern/pmap.c and the inline
    functions of include/pmap.h.

    The state holds the file's variables, the array [pages] (reference counts
    and free-list links, by index) and physical memory, which contains the
    page tables.  TLB maintenance is recorded in [tlb_log], in program order. *)
From S2P Require Import Prelude Mmu Queue Memory.

(** Addresses chosen by the linker script *)
Class LinkerSymbols := {
  end_ : Z;
  _text : Z;
  _data : Z;
  kernel_pgdir : Z;
  envs_kva : Z
}.

(** Forms of the [sfence.vma] instruction: address and ASID, [None] for zero. *)
Inductive sfence := Sfence (va asid : option Z).

Record pmap := MkPmap {
  memsize : Z;
  npage : Z;
  freemem : Z;
  pages_kva : Z;              (* the pointer [pages] *)
  pp_ref : gmap Z Z;          (* pages[i].pp_ref *)
  page_free_list : LIST.t;    (* the list head and pages[i].pp_link *)
  cur_pgdir : Z;
  mem : memory;
  tlb_log : list sfence;
  satp : Z
}.

Definition set_memsize v s := MkPmap v (npage s) (freemem s) (pages_kva s) (pp_ref s) (page_free_list s) (cur_pgdir s) (mem s) (tlb_log s) (satp s).
Definition set_npage v s := MkPmap (memsize s) v (freemem s) (pages_kva s) (pp_ref s) (page_free_list s) (cur_pgdir s) (mem s) (tlb_log s) (satp s).
Definition set_freemem v s := MkPmap (memsize s) (npage s) v (pages_kva s) (pp_ref s) (page_free_list s) (cur_pgdir s) (mem s) (tlb_log s) (satp s).
Definition set_pages_kva v s := MkPmap (memsize s) (npage s) (freemem s) v (pp_ref s) (page_free_list s) (cur_pgdir s) (mem s) (tlb_log s) (satp s).
Definition set_refs f s := MkPmap (memsize s) (npage s) (freemem s) (pages_kva s) (f (pp_ref s)) (page_free_list s) (cur_pgdir s) (mem s) (tlb_log s) (satp s).
Definition set_free v s := MkPmap (memsize s) (npage s) (freemem s) (pages_kva s) (pp_ref s) v (cur_pgdir s) (mem s) (tlb_log s) (satp s).
Definition set_cur_pgdir v s := MkPmap (memsize s) (npage s) (freemem s) (pages_kva s) (pp_ref s) (page_free_list s) v (mem s) (tlb_log s) (satp s).
Definition set_mem f s := MkPmap (memsize s) (npage s) (freemem s) (pages_kva s) (pp_ref s) (page_free_list s) (cur_pgdir s) (f (mem s)) (tlb_log s) (satp s).
Definition add_sfence v s := MkPmap (memsize s) (npage s) (freemem s) (pages_kva s) (pp_ref s) (page_free_list s) (cur_pgdir s) (mem s) (tlb_log s ++ [v]) (satp s).
Definition set_satp v s := MkPmap (memsize s) (npage s) (freemem s) (pages_kva s) (pp_ref s) (page_free_list s) (cur_pgdir s) (mem s) (tlb_log s) v.

Definition ref (s : pmap) (pp : Z) : Z := default 0 (pp_ref s !! pp).
Definition set_ref (pp v : Z) : M pmap unit := modify (set_refs (<[pp := u16 v]>)).

(** [*a] and [*a = v] for a word pointer into memory *)
Definition rd (a : Z) : M pmap Z := gets (λ s, load (mem s) a).
Definition wr (a v : Z) : M pmap unit := modify (set_mem (store a v)).

(** * include/pmap.h and the address macros that can panic *)

Definition PADDR {S} (kva : Z) : M S Z :=
  if kva <? ULIM then panic "PADDR called with invalid kva" else ret kva.

Definition KADDR (pa : Z) : M pmap Z :=
  n <- gets npage ;;
  if PA2IDX pa >=? n then panic "KADDR called with invalid pa" else ret pa.

Definition pa2page (pa : Z) : M pmap Z :=
  n <- gets npage ;;
  if PPN (u32 (pa - KERNBASE)) >=? n then panic "pa2page called with invalid pa"
  else ret (PPN (u32 (pa - KERNBASE))).

Definition page2kva (pp : Z) : M pmap Z := KADDR (page2pa pp).

Definition va2pa (pgdir va : Z) : M pmap Z :=
  e <- rd (pgdir + 4 * PDX va) ;;
  if negb (has e PTE_V) then ret (not32 0)
  else
    p <- KADDR (PTE_ADDR e) ;;
    e <- rd (p + 4 * PTX va) ;;
    if negb (has e PTE_V) then ret (not32 0) else ret (PTE_ADDR e).

(** * Physical memory *)

Definition tlb_flush (asid va : Z) : M pmap unit :=
  if (va =? 0) && (asid =? 0) then modify (add_sfence (Sfence None None))
  else if va =? 0 then modify (add_sfence (Sfence None (Some asid)))
  else if asid =? 0 then modify (add_sfence (Sfence (Some va) None))
  else modify (add_sfence (Sfence (Some va) (Some asid))).

Definition page_alloc : M pmap Z :=
  l <- gets page_free_list ;;
  if LIST.LIST_EMPTY l then err (- E_NO_MEM)
  else
    match LIST.LIST_FIRST l with
    | None => fault "page_alloc"
    | Some pp =>
        match LIST.LIST_REMOVE pp l with
        | None => fault "LIST_REMOVE"
        | Some l' =>
            modify (set_free l') ;;
            a <- page2kva pp ;;
            modify (set_mem (clear_page a)) ;;
            ret pp
        end
    end.

Definition page_free (pp : Z) : M pmap unit :=
  r <- gets (λ s, ref s pp) ;;
  assert_ (r =? 0) ;;
  l <- gets page_free_list ;;
  modify (set_free (LIST.LIST_INSERT_HEAD pp l)).

Definition page_decref (pp : Z) : M pmap unit :=
  r <- gets (λ s, ref s pp) ;;
  assert_ (0 <? r) ;;
  set_ref pp (r - 1) ;;
  r <- gets (λ s, ref s pp) ;;
  if r =? 0 then page_free pp else ret tt.

(** * Page tables *)

(** [*ppte], a null pointer being [None] *)
Definition pgdir_walk (pgdir va : Z) (create : bool) : M pmap (option Z) :=
  let pgdir_entryp := pgdir + 4 * PDX va in
  e <- rd pgdir_entryp ;;
  present <- (if negb (has e PTE_V) then
                if create then
                  pp <- page_alloc ;;
                  set_ref pp 1 ;;
                  wr pgdir_entryp (Z.lor (ADDR_PTE (page2pa pp)) PTE_V) ;;
                  ret true
                else ret false
              else ret true) ;;
  if present : bool then
    e <- rd pgdir_entryp ;;
    pt <- KADDR (PTE_ADDR e) ;;
    ret (Some (pt + 4 * PTX va))
  else ret None.

(** The page mapped at [va] and the address of its entry ([*ppte]) *)
Definition page_lookup (pgdir va : Z) : M pmap (option (Z * Z)) :=
  pte <- pgdir_walk pgdir va false ;;
  match pte with
  | None => ret None
  | Some pte =>
      e <- rd pte ;;
      if negb (has e PTE_V) then ret None
      else pp <- pa2page (PTE_ADDR e) ;; ret (Some (pp, pte))
  end.

Definition page_remove (pgdir asid va : Z) : M pmap unit :=
  r <- page_lookup pgdir va ;;
  match r with
  | None => ret tt
  | Some (pp, pte) =>
      page_decref pp ;;
      wr pte 0 ;;
      tlb_flush asid va
  end.

Definition page_insert (pgdir asid pp va perm : Z) : M pmap unit :=
  pte <- pgdir_walk pgdir va false ;;
  let perm := if has perm PTE_W then Z.lor perm PTE_R else perm in
  let entry := Z.lor (Z.lor (ADDR_PTE (page2pa pp)) perm) PTE_V in
  updated <- match pte with
             | None => ret false
             | Some pte =>
                 e <- rd pte ;;
                 if has e PTE_V then
                   q <- pa2page (PTE_ADDR e) ;;
                   if negb (q =? pp) then page_remove pgdir asid va ;; ret false
                   else wr pte entry ;; tlb_flush asid va ;; ret true
                 else ret false
             end ;;
  if updated : bool then ret tt
  else
    pte <- pgdir_walk pgdir va true ;;
    match pte with
    | None => fault "page_insert"
    | Some pte =>
        wr pte entry ;;
        r <- gets (λ s, ref s pp) ;;
        set_ref pp (r + 1) ;;
        wr (pgdir + 4 * PDX UVPT) 0 ;;
        tlb_flush asid 0
    end.

(** * Boot: memory detection, the boot-time allocator, the kernel's map *)

Section boot.
Context `{LinkerSymbols}.

Definition VIRTIOBASE := 0x10001000.
Definition VIRTIOTOP := 0x10009000.
Definition VIRTIOSIZE := VIRTIOTOP - VIRTIOBASE.

Definition mips_detect_memory : M pmap unit :=
  modify (set_memsize PMEMSIZE) ;;
  m <- gets memsize ;;
  modify (set_npage ((m - OPENSBISIZE) / BY2PG)).

Definition alloc (n align : Z) (clr : bool) : M pmap Z :=
  f <- gets freemem ;;
  (if f =? 0 then modify (set_freemem end_) else ret tt) ;;
  f <- gets freemem ;;
  modify (set_freemem (ROUND f align)) ;;
  alloced_mem <- gets freemem ;;
  modify (set_freemem (u32 (alloced_mem + n))) ;;
  f <- gets freemem ;;
  m <- gets memsize ;;
  if f >=? ULIM + m then panic "alloc"
  else
    (if clr then modify (set_mem (clear alloced_mem (Z.to_nat n))) else ret tt) ;;
    ret alloced_mem.

(** The values of [i] in [for (u_int i = 0; i < sz; i += BY2PG)] *)
Definition page_offsets (sz : Z) : list Z :=
  map (λ k, k * BY2PG) (seqZ 0 ((sz + BY2PG - 1) / BY2PG)).

Definition riscv_create_mapping (pgdir va pa sz perm : Z) : M pmap unit :=
  for_each (page_offsets sz) (λ i,
    let pgdir_entryp := pgdir + 4 * PDX (u32 (va + i)) in
    e <- rd pgdir_entryp ;;
    pte <- (if has e PTE_V then ret (PTE_ADDR e)
            else
              a <- alloc BY2PG BY2PG true ;;
              wr pgdir_entryp (Z.lor (ADDR_PTE a) PTE_V) ;;
              ret a) ;;
    wr (pte + 4 * PTX (u32 (va + i))) (Z.lor (Z.lor (ADDR_PTE (u32 (pa + i))) perm) PTE_V)).

Definition riscv_kvm_map : M pmap unit :=
  riscv_create_mapping kernel_pgdir _text _text (_data - _text)
    (Z.lor (Z.lor PTE_R PTE_X) PTE_G) ;;
  m <- gets memsize ;;
  riscv_create_mapping kernel_pgdir _data _data (ULIM + m - _data)
    (Z.lor (Z.lor PTE_R PTE_W) PTE_G) ;;
  riscv_create_mapping kernel_pgdir (KSEG1 + VIRTIOBASE) VIRTIOBASE VIRTIOSIZE
    (Z.lor (Z.lor PTE_R PTE_W) PTE_G) ;;
  modify (set_satp (Z.lor SV32MODE (PPN kernel_pgdir))) ;;
  modify (add_sfence (Sfence None None)).

Definition SIZEOF_PAGE := 12.

Definition mips_vm_init : M pmap unit :=
  n <- gets npage ;;
  a <- alloc (n * SIZEOF_PAGE) BY2PG true ;;
  modify (set_pages_kva a) ;;
  riscv_kvm_map.

(** [for (; page2kva(pages + i) < freemem; i++) pages[i].pp_ref = 1;]
    The loop ends within [npage] iterations: [page2kva] panics beyond. *)
Fixpoint mark_used (fuel : nat) (i : Z) : M pmap Z :=
  match fuel with
  | O => fault "mark_used: out of fuel"
  | S fuel' =>
      a <- page2kva i ;;
      f <- gets freemem ;;
      if a <? f then set_ref i 1 ;; mark_used fuel' (i + 1) else ret i
  end.

Definition page_init : M pmap unit :=
  l <- gets page_free_list ;;
  modify (set_free (LIST.LIST_INIT l)) ;;
  f <- gets freemem ;;
  modify (set_freemem (ROUND f BY2PG)) ;;
  n <- gets npage ;;
  i <- mark_used (S (Z.to_nat n)) 0 ;;
  for_each (seqZ i (n - i)) (λ i,
    l <- gets page_free_list ;;
    modify (set_free (LIST.LIST_INSERT_HEAD i l))).
End boot.
