(* ===== verification/PmapSpec.v ===== *)
(** Abstract specification of the page tables and refinement of kern/pmap.c.

    A [vm] state maps (page directory, virtual page number) to (physical
    page, flags) for the user part of the address spaces (below UTOP).
    [rel s A] says that the concrete state [s] (memory, reference counts, free
    list) implements [A]; the lemmas [*_ok] show that the functions of Pmap.v
    implement lookup, insertion and deletion in that map, that a page is freed
    exactly when its last reference goes, and what happens without memory. *)
From S2P Require Import Prelude Mmu Queue Memory Pmap.

Record vm := MkVm {
  dirs : gset Z;                    (* pages that hold page directories *)
  tabs : gmap (Z * Z) Z;            (* (directory, PDX) -> page of the table *)
  maps : gmap (Z * Z) (Z * Z);      (* (directory, VPN) -> (page, flags) *)
  pins : gmap Z Z;                  (* references held outside page tables *)
  free : list Z                     (* the free list, head first *)
}.

Definition set_tabs v A := MkVm (dirs A) v (maps A) (pins A) (free A).
Definition set_maps v A := MkVm (dirs A) (tabs A) v (pins A) (free A).
Definition set_pins v A := MkVm (dirs A) (tabs A) (maps A) v (free A).
Definition set_vfree v A := MkVm (dirs A) (tabs A) (maps A) (pins A) v.

Definition pin (A : vm) (p : Z) : Z := default 0 (pins A !! p).

(** Number of user mappings of page [p] *)
Definition count (p : Z) (m : gmap (Z * Z) (Z * Z)) : Z :=
  Z.of_nat (size (filter (λ kv, kv.2.1 = p) m)).

Definition is_tab (A : vm) (p : Z) : Prop := ∃ k, tabs A !! k = Some p.

(** * Specification of the operations *)

(** Flags that [page_insert] stores for permission [perm] *)
Definition perm_flags (perm : Z) : Z :=
  Z.lor (if has perm PTE_W then Z.lor perm PTE_R else perm) PTE_V.

Definition spec_remove (A : vm) (d v : Z) : vm :=
  match maps A !! (d, v) with
  | None => A
  | Some (p, _) =>
      let A' := set_maps (delete (d, v) (maps A)) A in
      if count p (maps A) + pin A p =? 1 then set_vfree (p :: free A) A' else A'
  end.

(** The table for virtual page [v], allocated from the free list if needed *)
Definition spec_table (A : vm) (d v : Z) : option vm :=
  match tabs A !! (d, v / 1024) with
  | Some _ => Some A
  | None =>
      match free A with
      | [] => None
      | t :: fl => Some (set_tabs (<[(d, v / 1024) := t]> (tabs A)) (set_vfree fl A))
      end
  end.

Definition spec_insert (A : vm) (d v p perm : Z) : option vm :=
  let A := match maps A !! (d, v) with
           | Some (q, _) => if decide (q = p) then A else spec_remove A d v
           | None => A
           end in
  A ← spec_table A d v;
  Some (set_maps (<[(d, v) := (p, perm_flags perm)]> (maps A)) A).

(** * The refinement relation *)

Record wf (A : vm) (np : Z) : Prop := {
  wf_np : 0 ≤ np ≤ PAGE_LIMIT;
  wf_free : ∀ p, p ∈ free A → 0 ≤ p < np;
  wf_dir : ∀ d, d ∈ dirs A → 0 ≤ d < np ∧ 1 ≤ pin A d;
  wf_pin : ∀ p, 0 ≤ pin A p;
  wf_tab : ∀ d i t, tabs A !! (d, i) = Some t →
    d ∈ dirs A ∧ 0 ≤ i < PDX UTOP ∧ 0 ≤ t < np ∧ pin A t = 0;
  wf_tab_inj : ∀ k1 k2 t, tabs A !! k1 = Some t → tabs A !! k2 = Some t → k1 = k2;
  wf_map : ∀ d v p f, maps A !! (d, v) = Some (p, f) →
    0 ≤ v ∧ is_Some (tabs A !! (d, v / 1024)) ∧ 0 ≤ p < np ∧ ¬ is_tab A p ∧
    0 ≤ f < 1024 ∧ has f PTE_V = true
}.

Record refs_rel (s : pmap) (A : vm) : Prop := {
  rr_free : ∀ p, p ∈ free A → ref s p = 0;
  rr_tab : ∀ p, is_tab A p → ref s p = 1;
  rr_page : ∀ p, 0 ≤ p < npage s → ¬ is_tab A p → ref s p = count p (maps A) + pin A p;
  rr_u16 : ∀ p, 0 ≤ ref s p < 2 ^ 16
}.

Record mem_rel (m : memory) (A : vm) : Prop := {
  mr_dir : ∀ d i, d ∈ dirs A → 0 ≤ i < PDX UTOP →
    match tabs A !! (d, i) with
    | Some t => load m (page2pa d + 4 * i) = Z.lor (ADDR_PTE (page2pa t)) PTE_V
    | None => has (load m (page2pa d + 4 * i)) PTE_V = false
    end;
  mr_tab : ∀ d i t j, tabs A !! (d, i) = Some t → 0 ≤ j < 1024 →
    match maps A !! (d, i * 1024 + j) with
    | Some (p, f) => load m (page2pa t + 4 * j) = Z.lor (ADDR_PTE (page2pa p)) f
    | None => has (load m (page2pa t + 4 * j)) PTE_V = false
    end
}.

Record rel (s : pmap) (A : vm) : Prop := {
  rel_wf : wf A (npage s);
  rel_free : LIST_rep (page_free_list s) (free A);
  rel_refs : refs_rel s A;
  rel_mem : mem_rel (mem s) A
}.

(** * Counting mappings *)

Section count.
Implicit Types m : gmap (Z * Z) (Z * Z).

Lemma count_nonneg p m : 0 ≤ count p m.
Proof. unfold count. lia. Qed.

Lemma count_insert_new p m k q f :
  m !! k = None → count p (<[k := (q, f)]> m) = count p m + (if decide (q = p) then 1 else 0).
Proof.
  intros Hk. unfold count. case_decide as E.
  - rewrite map_filter_insert_True by done.
    rewrite map_size_insert_None; [lia|]. by apply map_lookup_filter_None_2; left.
  - rewrite map_filter_insert_False by done.
    rewrite delete_id; [lia|done].
Qed.

Lemma count_delete p m k q f :
  m !! k = Some (q, f) →
  count p (delete k m) = count p m - (if decide (q = p) then 1 else 0).
Proof.
  intros Hk. rewrite <- (insert_id m k (q, f)) at 2 by done.
  rewrite <- insert_delete_eq. rewrite count_insert_new by (by rewrite lookup_delete_eq). lia.
Qed.

Lemma count_insert p m k q f f0 :
  m !! k = Some (q, f0) → count p (<[k := (q, f)]> m) = count p m.
Proof.
  intros Hk. rewrite <- insert_delete_eq.
  rewrite count_insert_new, (count_delete _ _ _ q f0) by (by rewrite ?lookup_delete_eq). lia.
Qed.

Lemma count_pos p m k f : m !! k = Some (p, f) → 0 < count p m.
Proof.
  intros Hk. pose proof (count_delete p m k p f Hk). rewrite decide_True in H by done.
  pose proof (count_nonneg p (delete k m)). lia.
Qed.
End count.

(** * Page table entries of [rel] states *)

Section entries.
Context (pa_page : Z) (Hpage : 0 ≤ pa_page < PAGE_LIMIT).

Lemma entry_addr f : 0 ≤ f < 1024 → PTE_ADDR (Z.lor (ADDR_PTE (page2pa pa_page)) f) = page2pa pa_page.
Proof. intros Hf. destruct (page2pa_range pa_page Hpage). by apply PTE_ADDR_pte. Qed.

Lemma entry_V f : has (Z.lor (ADDR_PTE (page2pa pa_page)) f) PTE_V = has f PTE_V.
Proof. change PTE_V with (2 ^ 0). rewrite !has_testbit by lia. by rewrite pte_flags by lia. Qed.

Lemma entry_u32 f : 0 ≤ f < 1024 →
  u32 (Z.lor (ADDR_PTE (page2pa pa_page)) f) = Z.lor (ADDR_PTE (page2pa pa_page)) f.
Proof.
  intros Hf. destruct (page2pa_range pa_page Hpage) as [Hr _].
  apply u32_small. pose proof (pte_bound _ _ Hr Hf). lia.
Qed.

Lemma KADDR_page s : pa_page < npage s → KADDR (page2pa pa_page) s = Ok (page2pa pa_page) s.
Proof.
  intros H. unfold KADDR, gets. cbn [bind]. rewrite PA2IDX_page2pa by done.
  destruct (pa_page >=? npage s) eqn:E; [apply Z.geb_le in E; lia|done].
Qed.

Lemma pa2page_page s : pa_page < npage s → pa2page (page2pa pa_page) s = Ok pa_page s.
Proof.
  intros H. unfold pa2page, gets. cbn [bind].
  fold (PA2IDX (page2pa pa_page)). rewrite PA2IDX_page2pa by done.
  destruct (pa_page >=? npage s) eqn:E; [apply Z.geb_le in E; lia|done].
Qed.
End entries.

Lemma perm_flags_bound perm : 0 ≤ perm < 1024 → 0 ≤ perm_flags perm < 1024.
Proof.
  intros H. unfold perm_flags. apply (lor_bound _ _ 10); [lia| |by compute].
  case_match; [|lia]. apply (lor_bound _ _ 10); [lia|lia|by compute].
Qed.

Lemma perm_flags_V perm : has (perm_flags perm) PTE_V = true.
Proof. apply has_V_lor. Qed.

Lemma vpn_range d va :
  0 ≤ va < UTOP → 0 ≤ PDX va < PDX UTOP ∧ VPN va = PDX va * 1024 + PTX va ∧
  VPN va / 1024 = PDX va ∧ ((d, VPN va) : Z * Z) = (d, PDX va * 1024 + PTX va).
Proof.
  intros H. pose proof (PTX_bound va). pose proof (PDX_bound va).
  assert (Hs : VPN va = PDX va * 1024 + PTX va).
  { apply VPN_split. unfold UTOP, UENVS, UPAGES, UVPT, ULIM, PDMAP in *. lia. }
  split_and!; [lia|by apply PDX_user|done| |by rewrite Hs].
  rewrite Hs. by apply PDX_vpn.
Qed.

(** * The walk, lookup *)

Section lookup.
Context (s : pmap) (A : vm) (Hrel : rel s A).
Context (d va : Z) (Hd : d ∈ dirs A) (Hva : 0 ≤ va < UTOP).

Let np_limit : npage s ≤ PAGE_LIMIT := proj2 (wf_np _ _ (rel_wf _ _ Hrel)).

Lemma pgdir_walk_ok :
  pgdir_walk (page2pa d) va false s =
    Ok ((λ t, page2pa t + 4 * PTX va) <$> tabs A !! (d, PDX va)) s.
Proof.
  destruct (vpn_range d va Hva) as (Hi & _).
  pose proof (mr_dir _ _ (rel_mem _ _ Hrel) d (PDX va) Hd Hi) as Hdir.
  unfold pgdir_walk, rd, gets. cbn [bind].
  destruct (tabs A !! (d, PDX va)) as [t|] eqn:Ht; [|by rewrite Hdir].
  destruct (wf_tab _ _ (rel_wf _ _ Hrel) _ _ _ Ht) as (_ & _ & Htr & _).
  rewrite Hdir, entry_V. change (has PTE_V PTE_V) with true. cbn [negb bind ret].
  rewrite Hdir, entry_addr by (done || lia).
  unfold bind. by rewrite KADDR_page by lia.
Qed.

Lemma page_lookup_ok :
  page_lookup (page2pa d) va s =
    Ok (match maps A !! (d, VPN va), tabs A !! (d, PDX va) with
        | Some (p, _), Some t => Some (p, page2pa t + 4 * PTX va)
        | _, _ => None
        end) s.
Proof.
  destruct (vpn_range d va Hva) as (Hi & Hv & Hvi & Hk).
  unfold page_lookup. run pgdir_walk_ok. rewrite Hk.
  destruct (tabs A !! (d, PDX va)) as [t|] eqn:Ht; cbn [fmap option_fmap option_map].
  - pose proof (mr_tab _ _ (rel_mem _ _ Hrel) d _ t (PTX va) Ht (PTX_bound va)) as Htab.
    unfold rd, gets. cbn [bind].
    destruct (maps A !! _) as [[p f]|] eqn:Hm; [|by rewrite Htab].
    destruct (wf_map _ _ (rel_wf _ _ Hrel) _ _ _ _ Hm) as (_ & _ & Hp & _ & Hf & HV).
    rewrite Htab, entry_V, HV. cbn [negb].
    rewrite entry_addr by lia. unfold bind. by rewrite pa2page_page by lia.
  - destruct (maps A !! _) as [[p f]|] eqn:Hm; [|done].
    destruct (wf_map _ _ (rel_wf _ _ Hrel) _ _ _ _ Hm) as (_ & [? Htt] & _).
    rewrite PDX_vpn in Htt by apply PTX_bound. congruence.
Qed.
End lookup.

(** * Memory updates that respect the relation *)

Lemma mem_rel_same m A A' :
  dirs A = dirs A' → tabs A = tabs A' → maps A = maps A' → mem_rel m A → mem_rel m A'.
Proof. intros Hd Ht Hm [H1 H2]. split; rewrite <- ?Hd, <- ?Ht, <- ?Hm; done. Qed.

Section memory.
Context (A : vm) (np : Z) (Hwf : wf A np).

Lemma tab_page d i t : tabs A !! (d, i) = Some t → 0 ≤ t < PAGE_LIMIT.
Proof.
  intros Ht. destruct (wf_tab _ _ Hwf _ _ _ Ht) as (_ & _ & ? & _).
  pose proof (wf_np _ _ Hwf). lia.
Qed.

Lemma tab_index d i t : tabs A !! (d, i) = Some t → 0 ≤ i < 1024.
Proof.
  intros Ht. destruct (wf_tab _ _ Hwf _ _ _ Ht) as (_ & ? & _).
  change (PDX UTOP) with 509 in *. lia.
Qed.

Lemma dir_page d : d ∈ dirs A → 0 ≤ d < PAGE_LIMIT.
Proof.
  intros Hd. destruct (wf_dir _ _ Hwf _ Hd). pose proof (wf_np _ _ Hwf). lia.
Qed.

Lemma tab_not_dir d i t : tabs A !! (d, i) = Some t → t ∉ dirs A.
Proof.
  intros Ht Hd. destruct (wf_tab _ _ Hwf _ _ _ Ht) as (_ & _ & _ & ?).
  destruct (wf_dir _ _ Hwf _ Hd). lia.
Qed.

(** A page that holds no directory and no table can be overwritten. *)
Lemma mem_rel_clear m p :
  0 ≤ p < PAGE_LIMIT → p ∉ dirs A → ¬ is_tab A p →
  mem_rel m A → mem_rel (clear_page (page2pa p) m) A.
Proof.
  intros Hp Hpd Hpt [H1 H2]. split.
  - intros d i Hd Hi. specialize (H1 d i Hd Hi).
    rewrite load_clear_page by (first [done|by apply dir_page|change (PDX UTOP) with 509 in *; lia]).
    rewrite decide_False by congruence. done.
  - intros d i t j Ht Hj. specialize (H2 d i t j Ht Hj).
    rewrite load_clear_page by (first [done|by eapply tab_page]).
    rewrite decide_False; [done|]. intros ->. apply Hpt. by exists (d, i).
Qed.

(** Entries of a directory beyond the user part are not described. *)
Lemma mem_rel_kernel_entry m d i v :
  d ∈ dirs A → PDX UTOP ≤ i < 1024 →
  mem_rel m A → mem_rel (store (page2pa d + 4 * i) v m) A.
Proof.
  change (PDX UTOP) with 509. intros Hd Hi [H1 H2].
  pose proof (dir_page d Hd). split.
  - intros d' i' Hd' Hi'. specialize (H1 d' i' Hd' Hi'). change (PDX UTOP) with 509 in *.
    rewrite load_store by (first [done|by apply dir_page|lia]).
    rewrite decide_False by lia. done.
  - intros d' i' t j Ht Hj. specialize (H2 d' i' t j Ht Hj).
    rewrite load_store by (first [done|by eapply tab_page|lia]).
    rewrite decide_False; [done|]. intros [-> _]. by eapply tab_not_dir.
Qed.

(** An entry of a table changes together with the map. *)
Lemma mem_rel_pte m d i t j v mp' :
  tabs A !! (d, i) = Some t → 0 ≤ j < 1024 →
  (∀ k, k ≠ (d, i * 1024 + j) → mp' !! k = maps A !! k) →
  match mp' !! (d, i * 1024 + j) with
  | Some (p, f) => u32 v = Z.lor (ADDR_PTE (page2pa p)) f
  | None => has (u32 v) PTE_V = false
  end →
  mem_rel m A → mem_rel (store (page2pa t + 4 * j) v m) (set_maps mp' A).
Proof.
  intros Ht Hj Hfr Hv [H1 H2]. pose proof (tab_page _ _ _ Ht). split; cbn.
  - intros d' i' Hd' Hi'. specialize (H1 d' i' Hd' Hi'). change (PDX UTOP) with 509 in *.
    rewrite load_store by (first [done|by apply dir_page|lia]).
    rewrite decide_False; [done|]. intros [-> _]. by eapply tab_not_dir.
  - intros d' i' t' j' Ht' Hj'. specialize (H2 d' i' t' j' Ht' Hj').
    rewrite load_store by (first [done|by eapply tab_page|lia]).
    destruct (decide (t = t' ∧ j = j')) as [[<- <-]|Hne].
    + pose proof (wf_tab_inj _ _ Hwf _ _ _ Ht Ht'). by simplify_eq.
    + rewrite Hfr; [done|]. intros Heq. simplify_eq.
      pose proof (tab_index _ _ _ Ht). pose proof (tab_index _ _ _ Ht').
      assert (i' = i ∧ j' = j) as [-> ->] by lia. simplify_eq. naive_solver.
Qed.

(** A cleared page becomes the table of directory entry [i]. *)
Lemma mem_rel_new_table m d i t :
  d ∈ dirs A → 0 ≤ i < PDX UTOP → tabs A !! (d, i) = None →
  0 ≤ t < PAGE_LIMIT → t ∉ dirs A → ¬ is_tab A t →
  mem_rel m A →
  mem_rel (store (page2pa d + 4 * i) (Z.lor (ADDR_PTE (page2pa t)) PTE_V)
             (clear_page (page2pa t) m))
    (set_tabs (<[(d, i) := t]> (tabs A)) A).
Proof.
  intros Hd Hi Hnone Ht Htd Htt Hm. pose proof (dir_page d Hd).
  change (PDX UTOP) with 509 in *. pose proof (mem_rel_clear m t Ht Htd Htt Hm) as [H1 H2].
  split; cbn.
  - intros d' i' Hd' Hi'. specialize (H1 d' i' Hd' Hi'). change (PDX UTOP) with 509 in *.
    rewrite load_store by (first [done|by apply dir_page|lia]). rewrite lookup_insert.
    destruct (decide (d = d' ∧ i = i')) as [[<- <-]|Hne].
    + rewrite decide_True by done. by rewrite entry_u32.
    + rewrite decide_False by naive_solver. done.
  - intros d' i' t' j Ht' Hj. rewrite lookup_insert in Ht'. case_decide as E; simplify_eq.
    + assert (maps A !! (d', i' * 1024 + j) = None) as ->.
      { destruct (maps A !! _) as [[p f]|] eqn:Hmp; [|done]. exfalso.
        destruct (wf_map _ _ Hwf _ _ _ _ Hmp) as (_ & [? Hx] & _).
        rewrite PDX_vpn in Hx by done. congruence. }
      rewrite load_store by (first [done|lia]). rewrite decide_False by naive_solver.
      rewrite load_clear_page by done. by rewrite decide_True.
    + specialize (H2 _ _ _ _ Ht' Hj).
      rewrite load_store by (first [done|by eapply tab_page|lia]).
      rewrite decide_False; [done|]. intros [-> _]. by eapply tab_not_dir.
Qed.
End memory.

(** * Allocation *)

Section alloc.
Context (s : pmap) (A : vm) (Hrel : rel s A).

Lemma np_limit : npage s ≤ PAGE_LIMIT.
Proof. apply (wf_np _ _ (rel_wf _ _ Hrel)). Qed.

Lemma free_not_tab p : p ∈ free A → ¬ is_tab A p.
Proof.
  intros Hp Ht. pose proof (rr_free _ _ (rel_refs _ _ Hrel) _ Hp).
  pose proof (rr_tab _ _ (rel_refs _ _ Hrel) _ Ht). lia.
Qed.

Lemma free_unused p : p ∈ free A → count p (maps A) = 0 ∧ pin A p = 0.
Proof.
  intros Hp. pose proof (rr_free _ _ (rel_refs _ _ Hrel) _ Hp) as Hr.
  rewrite (rr_page _ _ (rel_refs _ _ Hrel)) in Hr;
    [|by apply (wf_free _ _ (rel_wf _ _ Hrel))|by apply free_not_tab].
  pose proof (count_nonneg p (maps A)). pose proof (wf_pin _ _ (rel_wf _ _ Hrel) p). lia.
Qed.

Lemma free_not_dir p : p ∈ free A → p ∉ dirs A.
Proof.
  intros Hp Hd. destruct (free_unused p Hp). destruct (wf_dir _ _ (rel_wf _ _ Hrel) _ Hd). lia.
Qed.

Lemma free_page p : p ∈ free A → 0 ≤ p < npage s ∧ 0 ≤ p < PAGE_LIMIT.
Proof. intros Hp. pose proof np_limit. pose proof (wf_free _ _ (rel_wf _ _ Hrel) p Hp). lia. Qed.

(** A page on the free list is not mapped anywhere. *)
Lemma free_not_mapped p k f : p ∈ free A → maps A !! k ≠ Some (p, f).
Proof. intros Hp Hm. pose proof (count_pos _ _ _ _ Hm). destruct (free_unused p Hp). lia. Qed.

Lemma page_alloc_empty : free A = [] → page_alloc s = Err (- E_NO_MEM) s.
Proof.
  intros Hf. unfold page_alloc, gets. cbn [bind].
  rewrite (LIST_empty_rep _ _ (rel_free _ _ Hrel)), Hf. done.
Qed.

Lemma page_alloc_eq p fl :
  free A = p :: fl →
  ∃ l', page_alloc s = Ok p (set_mem (clear_page (page2pa p)) (set_free l' s)) ∧
    LIST_rep l' fl.
Proof.
  intros Hf. pose proof (rel_free _ _ Hrel) as Hl. rewrite Hf in Hl.
  destruct (LIST_remove_rep _ [] p fl Hl) as (l' & Hrm & Hl').
  exists l'. split; [|done]. unfold page_alloc, gets. cbn [bind].
  rewrite (LIST_empty_rep _ _ Hl), (LIST_first_rep _ _ Hl). cbn [bool_decide head].
  rewrite bool_decide_false by done. rewrite Hrm. unfold modify. cbn [bind].
  destruct (free_page p) as [Hp1 Hp2]; [rewrite Hf; set_solver|].
  unfold page2kva, bind. by rewrite KADDR_page by (cbn; lia).
Qed.

Lemma rel_alloc p fl l' :
  free A = p :: fl → LIST_rep l' fl →
  rel (set_mem (clear_page (page2pa p)) (set_free l' s)) (set_vfree fl A).
Proof.
  intros Hf Hl'. assert (p ∈ free A) as Hp by (rewrite Hf; set_solver).
  destruct Hrel as [Hwf _ [R1 R2 R3 R4] Hm]. split; [|done| |].
  - destruct Hwf. split; try done. cbn. intros q Hq. apply wf_free0. rewrite Hf. set_solver.
  - split; try done. cbn. intros q Hq. apply R1. rewrite Hf. set_solver.
  - apply (mem_rel_same _ A); [done..|]. pose proof (free_page _ Hp) as [_ ?].
    apply (mem_rel_clear A (npage s)); auto using free_not_dir, free_not_tab.
Qed.
End alloc.

(** * The walk that creates tables *)

Lemma ref_insert s p q v :
  ref (set_refs (<[p := v]>) s) q = if decide (p = q) then v else ref s q.
Proof. unfold ref. cbn. rewrite lookup_insert. by case_decide. Qed.

(** Pages that are neither directories nor tables keep their contents. *)
Definition data_kept (A : vm) (m m' : memory) : Prop :=
  ∀ q j, 0 ≤ q < PAGE_LIMIT → 0 ≤ j < 1024 → q ∉ dirs A → ¬ is_tab A q →
    load m' (page2pa q + 4 * j) = load m (page2pa q + 4 * j).

Lemma data_kept_refl A m : data_kept A m m.
Proof. by intros q j. Qed.

Lemma data_kept_store A m m' p i v :
  data_kept A m m' → 0 ≤ p < PAGE_LIMIT → 0 ≤ i < 1024 → p ∈ dirs A ∨ is_tab A p →
  data_kept A m (store (page2pa p + 4 * i) v m').
Proof.
  intros Hk Hp Hi Hor q j Hq Hj Hd Ht. rewrite load_store by done.
  rewrite decide_False by (intros [-> _]; tauto). by apply Hk.
Qed.

Lemma data_kept_clear A m m' p :
  data_kept A m m' → 0 ≤ p < PAGE_LIMIT → is_tab A p → data_kept A m (clear_page (page2pa p) m').
Proof.
  intros Hk Hp Hor q j Hq Hj Hd Ht. rewrite load_clear_page by done.
  rewrite decide_False by (intros ->; tauto). by apply Hk.
Qed.

Lemma data_kept_trans A A' m1 m2 m3 :
  dirs A = dirs A' → (∀ p, is_tab A p → is_tab A' p) →
  data_kept A m1 m2 → data_kept A' m2 m3 → data_kept A' m1 m3.
Proof.
  intros Hd Ht H1 H2 q j Hq Hj Hqd Hqt. rewrite (H2 q j) by done.
  apply H1; rewrite ?Hd; auto.
Qed.

Section create.
Context (s : pmap) (A : vm) (Hrel : rel s A).
Context (d va : Z) (Hd : d ∈ dirs A) (Hva : 0 ≤ va < UTOP).

(** The first page of the free list becomes a table. *)
Lemma rel_new_table t fl l' :
  free A = t :: fl → LIST_rep l' fl → tabs A !! (d, PDX va) = None →
  rel (set_mem (store (page2pa d + 4 * PDX va) (Z.lor (ADDR_PTE (page2pa t)) PTE_V))
        (set_refs (<[t := u16 1]>) (set_mem (clear_page (page2pa t)) (set_free l' s))))
      (set_tabs (<[(d, PDX va) := t]> (tabs A)) (set_vfree fl A)).
Proof.
  intros Hf Hl' Hnone. assert (t ∈ free A) as Ht by (rewrite Hf; set_solver).
  destruct (vpn_range d va Hva) as (Hi & _).
  destruct (free_unused _ _ Hrel t Ht) as [Hc Hpin].
  destruct (free_page _ _ Hrel t Ht) as [Ht1 Ht2].
  pose proof (free_not_tab _ _ Hrel t Ht) as Htt.
  pose proof (free_not_dir _ _ Hrel t Ht) as Htd.
  assert (Hnd : t ∉ fl).
  { pose proof (proj2 (proj2 (rel_free _ _ Hrel))) as Hn. rewrite Hf in Hn.
    by apply NoDup_cons in Hn as []. }
  assert (Hmono : ∀ p, ¬ is_tab (set_tabs (<[(d, PDX va):=t]> (tabs A)) (set_vfree fl A)) p →
    p ≠ t ∧ ¬ is_tab A p).
  { intros p Hp. split; [intros ->; apply Hp; exists (d, PDX va); cbn; by rewrite lookup_insert_eq|].
    intros [k Hk]. apply Hp. exists k. cbn. rewrite lookup_insert_ne; [done|congruence]. }
  destruct Hrel as [Hwf _ [R1 R2 R3 R4] Hm]. split; [|done| |].
  - destruct Hwf as [W1 W2 W3 W4 W5 W6 W7]. split; cbn; try done.
    + intros q Hq. apply W2. rewrite Hf. set_solver.
    + intros d' i' t' Hl. rewrite lookup_insert in Hl. case_decide; simplify_eq; [done|by eapply W5].
    + intros k1 k2 t' H1 H2. rewrite lookup_insert in H1, H2.
      repeat case_decide; simplify_eq; try done; try (by eapply W6);
        exfalso; apply Htt; by eexists.
    + intros d' v' p f Hmp. destruct (W7 _ _ _ _ Hmp) as (? & Hs & ? & Hp & ? & ?).
      splits.
      * rewrite lookup_insert. by case_decide.
      * intros [k Hk]. cbn in Hk. rewrite lookup_insert in Hk.
        case_decide; simplify_eq; [by eapply (free_not_mapped s A)|apply Hp; by eexists].
  - split; cbn.
    + intros p Hp. change (ref (set_refs (<[t := u16 1]>) s) p = 0). rewrite ref_insert.
      rewrite decide_False by set_solver. apply R1. rewrite Hf. set_solver.
    + intros p [k Hk]. change (ref (set_refs (<[t := u16 1]>) s) p = 1). rewrite ref_insert.
      destruct (decide (t = p)) as [<-|Hne]; [done|].
      cbn in Hk. rewrite lookup_insert in Hk. case_decide; [congruence|].
      apply R2. by eexists.
    + intros p Hp Hpt. destruct (Hmono p Hpt) as [Hne Hpt'].
      change (ref (set_refs (<[t := u16 1]>) s) p = count p (maps A) + pin A p).
      rewrite ref_insert, decide_False by done. by apply R3.
    + intros p. change (0 ≤ ref (set_refs (<[t := u16 1]>) s) p < 2 ^ 16). rewrite ref_insert.
      case_decide; [done|apply R4].
  - apply (mem_rel_new_table (set_vfree fl A) (npage s)); cbn; try done; try lia.
    + destruct Hwf. split; try done. cbn. intros q Hq. apply wf_free0. rewrite Hf. set_solver.
    + by apply (mem_rel_same _ A).
Qed.

Lemma pgdir_walk_create_ok :
  match spec_table A d (VPN va) with
  | Some A' =>
      ∃ s' t, pgdir_walk (page2pa d) va true s = Ok (Some (page2pa t + 4 * PTX va)) s' ∧
        tabs A' !! (d, PDX va) = Some t ∧ rel s' A' ∧
        npage s' = npage s ∧ tlb_log s' = tlb_log s ∧ cur_pgdir s' = cur_pgdir s ∧
        (∀ p, p ∉ free A → ref s' p = ref s p) ∧ data_kept A' (mem s) (mem s')
  | None => pgdir_walk (page2pa d) va true s = Err (- E_NO_MEM) s
  end.
Proof.
  destruct (vpn_range d va Hva) as (Hi & Hv & Hvi & Hk).
  pose proof (mr_dir _ _ (rel_mem _ _ Hrel) d (PDX va) Hd Hi) as Hdir.
  unfold spec_table. rewrite Hvi.
  destruct (tabs A !! (d, PDX va)) as [t|] eqn:Ht.
  - exists s, t. split_and!; try done.
    destruct (wf_tab _ _ (rel_wf _ _ Hrel) _ _ _ Ht) as (_ & _ & Htr & _).
    unfold pgdir_walk, rd, gets. cbn [bind]. rewrite Hdir, entry_V.
    pose proof (np_limit _ _ Hrel).
    change (has PTE_V PTE_V) with true. cbn [negb bind ret].
    rewrite Hdir, entry_addr by (done || lia). unfold bind. by rewrite KADDR_page by lia.
  - unfold pgdir_walk, rd, gets. cbn [bind]. rewrite Hdir. cbn [negb].
    destruct (free A) as [|t fl] eqn:Hf.
    + unfold bind. by rewrite page_alloc_empty with (A := A).
    + destruct (page_alloc_eq _ _ Hrel t fl Hf) as (l' & Ha & Hl').
      destruct (free_page _ _ Hrel t) as [Ht1 Ht2]; [rewrite Hf; set_solver|].
      rewrite !bind_assoc. run Ha. unfold set_ref, wr, modify. cbn [bind ret].
      eexists _, t. split; [|split; [by cbn; rewrite lookup_insert_eq|split]].
      * cbn [mem set_mem]. rewrite load_store, decide_True by
          (first [done|by eapply dir_page, Hd; apply Hrel|change (PDX UTOP) with 509 in *; lia]).
        rewrite entry_u32, entry_addr by (done || lia). unfold bind.
        rewrite KADDR_page by (cbn; lia). reflexivity.
      * by apply rel_new_table.
      * assert (Htab : is_tab (set_tabs (<[(d, PDX va):=t]> (tabs A)) (set_vfree fl A)) t).
        { exists (d, PDX va). cbn. by rewrite lookup_insert_eq. }
        split_and!; try done.
        { intros p Hp. change (ref (set_refs (<[t := u16 1]>) s) p = ref s p).
          rewrite ref_insert, decide_False; [done|]. set_solver. }
        cbn [mem set_mem set_refs set_free]. apply data_kept_store; [|by eapply dir_page, Hd; apply Hrel|apply PDX_bound|by left].
        apply data_kept_clear; [apply data_kept_refl|done|done].
Qed.
End create.

(** * References, removal *)

(** State after [page_decref p] *)
Definition decref_state (s : pmap) (p : Z) : pmap :=
  let s1 := set_refs (<[p := ref s p - 1]>) s in
  if ref s p =? 1 then set_free (LIST.LIST_INSERT_HEAD p (page_free_list s)) s1 else s1.

Lemma page_decref_ok s p :
  0 < ref s p < 2 ^ 16 → page_decref p s = Ok tt (decref_state s p).
Proof.
  intros Hr. unfold page_decref, gets, assert_. cbn [bind].
  destruct (Z.ltb_spec 0 (ref s p)) as [_|]; [|lia]. cbn [bind ret].
  unfold set_ref, modify. cbn [bind]. rewrite u16_small by lia.
  rewrite ref_insert, decide_True by done. unfold decref_state.
  destruct (Z.eqb_spec (ref s p) 1) as [H1|H1].
  - rewrite H1. change (1 - 1 =? 0) with true. unfold page_free, gets, assert_, modify. cbn [bind].
    rewrite ref_insert, decide_True by done. done.
  - destruct (Z.eqb_spec (ref s p - 1) 0); [lia|done].
Qed.

Definition flush_of (asid va : Z) : sfence :=
  Sfence (if va =? 0 then None else Some va) (if asid =? 0 then None else Some asid).

Lemma tlb_flush_ok asid va s : tlb_flush asid va s = Ok tt (add_sfence (flush_of asid va) s).
Proof. unfold tlb_flush, flush_of. by destruct (va =? 0), (asid =? 0). Qed.

Lemma decref_frame s p :
  npage (decref_state s p) = npage s ∧ mem (decref_state s p) = mem s ∧
  tlb_log (decref_state s p) = tlb_log s ∧ cur_pgdir (decref_state s p) = cur_pgdir s ∧
  (∀ q, ref (decref_state s p) q = if decide (p = q) then ref s p - 1 else ref s q).
Proof.
  unfold decref_state. split_and!; try by case_match.
  intros q. rewrite <- ref_insert. by case_match.
Qed.

Section remove.
Context (s : pmap) (A : vm) (Hrel : rel s A) (d v p f : Z).
Context (Hm : maps A !! (d, v) = Some (p, f)).

Lemma mapped_page :
  0 ≤ p < npage s ∧ ¬ is_tab A p ∧ p ∉ free A ∧
  ref s p = count p (maps A) + pin A p ∧ 0 < ref s p < 2 ^ 16.
Proof.
  destruct (wf_map _ _ (rel_wf _ _ Hrel) _ _ _ _ Hm) as (_ & _ & Hp & Hpt & _).
  pose proof (rr_page _ _ (rel_refs _ _ Hrel) p Hp Hpt) as Hr.
  pose proof (rr_u16 _ _ (rel_refs _ _ Hrel) p).
  pose proof (count_pos _ _ _ _ Hm). pose proof (wf_pin _ _ (rel_wf _ _ Hrel) p).
  splits. intros Hfr. by eapply (free_not_mapped s A).
Qed.

Lemma spec_remove_eq :
  spec_remove A d v =
    let A' := set_maps (delete (d, v) (maps A)) A in
    if ref s p =? 1 then set_vfree (p :: free A) A' else A'.
Proof.
  unfold spec_remove. rewrite Hm. by destruct mapped_page as (_ & _ & _ & <- & _).
Qed.

Lemma wf_remove : wf (spec_remove A d v) (npage s).
Proof.
  rewrite spec_remove_eq. destruct mapped_page as (Hp & _).
  destruct (rel_wf _ _ Hrel) as [W1 W2 W3 W4 W5 W6 W7].
  destruct (ref s p =? 1); split; cbn; try done.
  2, 3: intros d' v' p' f' Hl; apply lookup_delete_Some in Hl as [_ Hl]; by apply W7 in Hl.
  intros q [->|Hq]%elem_of_cons; auto.
Qed.

Lemma refs_remove : refs_rel (decref_state s p) (spec_remove A d v).
Proof.
  rewrite spec_remove_eq. destruct (decref_frame s p) as (Hn & _ & _ & _ & Hr).
  destruct mapped_page as (Hp & Hpt & Hpf & Hrp & Hr2).
  destruct (rel_refs _ _ Hrel) as [R1 R2 R3 R4].
  assert (Hpage : ∀ q, 0 ≤ q < npage s → ¬ is_tab A q →
    ref (decref_state s p) q = count q (delete (d, v) (maps A)) + pin A q).
  { intros q Hq Hqt. rewrite Hr, (count_delete _ _ _ _ _ Hm).
    case_decide; [subst|]; rewrite ?R3 by done; lia. }
  assert (Htab : ∀ q, is_tab A q → ref (decref_state s p) q = 1).
  { intros q Hq. rewrite Hr. rewrite decide_False by congruence. auto. }
  assert (Hu : ∀ q, 0 ≤ ref (decref_state s p) q < 2 ^ 16).
  { intros q. rewrite Hr. pose proof (R4 q). case_decide; lia. }
  destruct (Z.eqb_spec (ref s p) 1) as [E|E]; split; cbn; rewrite ?Hn; auto.
  - intros q [->|Hq]%elem_of_cons; rewrite Hr; case_decide; try lia; auto; congruence.
  - intros q Hq. rewrite Hr. rewrite decide_False by congruence. auto.
Qed.

Lemma free_list_remove : LIST_rep (page_free_list (decref_state s p)) (free (spec_remove A d v)).
Proof.
  rewrite spec_remove_eq. unfold decref_state. pose proof (rel_free _ _ Hrel) as Hl.
  destruct mapped_page as (_ & _ & Hpf & _).
  destruct (ref s p =? 1); [|done]. by apply LIST_insert_head_rep.
Qed.

Lemma mem_remove i j t :
  v = i * 1024 + j → 0 ≤ j < 1024 → tabs A !! (d, i) = Some t →
  mem_rel (store (page2pa t + 4 * j) 0 (mem s)) (spec_remove A d v).
Proof.
  intros Hv Hj Ht. rewrite spec_remove_eq.
  apply (mem_rel_same _ (set_maps (delete (d, v) (maps A)) A)); [by case_match..|].
  apply (mem_rel_pte A (npage s)) with d i; auto; try apply Hrel.
  - intros k Hk. apply lookup_delete_ne. congruence.
  - subst v. by rewrite lookup_delete_eq.
Qed.
End remove.

Lemma spec_remove_frame A d v :
  dirs (spec_remove A d v) = dirs A ∧ tabs (spec_remove A d v) = tabs A ∧
  pins (spec_remove A d v) = pins A ∧ maps (spec_remove A d v) = delete (d, v) (maps A).
Proof.
  unfold spec_remove. destruct (maps A !! (d, v)) as [[p f]|] eqn:Hm.
  - by case_match.
  - rewrite delete_id by done. done.
Qed.

Section page_remove.
Context (s : pmap) (A : vm) (Hrel : rel s A).
Context (d va asid : Z) (Hd : d ∈ dirs A) (Hva : 0 ≤ va < UTOP).

Lemma page_remove_none :
  maps A !! (d, VPN va) = None → page_remove (page2pa d) asid va s = Ok tt s.
Proof.
  intros Hm. unfold page_remove. run (page_lookup_ok s A Hrel d va Hd Hva). by rewrite Hm.
Qed.

Lemma page_remove_some p f :
  maps A !! (d, VPN va) = Some (p, f) →
  ∃ s', page_remove (page2pa d) asid va s = Ok tt s' ∧ rel s' (spec_remove A d (VPN va)) ∧
    npage s' = npage s ∧ cur_pgdir s' = cur_pgdir s ∧
    tlb_log s' = tlb_log s ++ [flush_of asid va] ∧
    (∀ q, ref s' q = if decide (p = q) then ref s p - 1 else ref s q) ∧
    data_kept (spec_remove A d (VPN va)) (mem s) (mem s').
Proof.
  intros Hm. destruct (vpn_range d va Hva) as (Hi & Hv & Hvi & Hk).
  destruct (spec_remove_frame A d (VPN va)) as (Sd & St & _).
  destruct (wf_map _ _ (rel_wf _ _ Hrel) _ _ _ _ Hm) as (_ & [t Ht] & _). rewrite Hvi in Ht.
  destruct (mapped_page s A Hrel d _ p f Hm) as (_ & _ & _ & _ & Hr).
  destruct (decref_frame s p) as (Fn & Fm & Fl & Fc & Fr).
  unfold page_remove. run (page_lookup_ok s A Hrel d va Hd Hva). rewrite Hm, Ht.
  run (page_decref_ok s p Hr). unfold wr, modify. cbn [bind].
  rewrite tlb_flush_ok. eexists. split; [done|]. cbn. split_and!; try done.
  - split; cbn.
    + rewrite Fn. by eapply wf_remove.
    + by eapply free_list_remove.
    + destruct (refs_remove s A Hrel d _ p f Hm) as [R1 R2 R3 R4]. by split.
    + rewrite Fm. eapply (mem_remove s A Hrel); eauto using PTX_bound.
  - by rewrite Fl.
  - rewrite Fm. apply data_kept_store; [apply data_kept_refl|by eapply tab_page, Ht; apply Hrel|apply PTX_bound|].
    right. exists (d, PDX va). by rewrite St.
Qed.
End page_remove.

(** * Insertion *)

(** What [page_insert] requires of the page it maps: it is neither free nor a
    page table, and its 16-bit reference count has room. *)
Record insertable (s : pmap) (A : vm) (p perm : Z) : Prop := {
  ins_range : 0 ≤ p < npage s;
  ins_not_free : p ∉ free A;
  ins_not_tab : ¬ is_tab A p;
  ins_room : ref s p < 2 ^ 16 - 1;
  ins_perm : 0 ≤ perm < 1024
}.

Definition entry_of (p perm : Z) : Z :=
  Z.lor (Z.lor (ADDR_PTE (page2pa p)) (if has perm PTE_W then Z.lor perm PTE_R else perm)) PTE_V.

Lemma entry_of_flags p perm : entry_of p perm = Z.lor (ADDR_PTE (page2pa p)) (perm_flags perm).
Proof. unfold entry_of, perm_flags. by rewrite Z.lor_assoc. Qed.

Section insert.
Context (s : pmap) (A : vm) (Hrel : rel s A) (d i t j v p perm : Z).
Context (Ht : tabs A !! (d, i) = Some t) (Hj : 0 ≤ j < 1024) (Hv : v = i * 1024 + j).
Context (Hp : insertable s A p perm).

Definition inserted : vm := set_maps (<[(d, v) := (p, perm_flags perm)]> (maps A)) A.

Lemma wf_inserted : wf inserted (npage s).
Proof.
  destruct Hp as [P1 P2 P3 P4 P5].
  pose proof (tab_index A _ (rel_wf _ _ Hrel) _ _ _ Ht).
  assert (Hdiv : v / 1024 = i) by (rewrite Hv; by apply PDX_vpn).
  pose proof (perm_flags_bound perm P5).
  destruct (rel_wf _ _ Hrel) as [W1 W2 W3 W4 W5 W6 W7]. split; cbn; try done.
  intros d' v' p' f' Hl. rewrite lookup_insert in Hl. case_decide as E; [|eauto].
  injection E as <- <-. injection Hl as <- <-. rewrite Hdiv, Ht.
  splits. apply perm_flags_V.
Qed.

Lemma mem_inserted m :
  mem_rel m A → mem_rel (store (page2pa t + 4 * j) (entry_of p perm) m) inserted.
Proof.
  intros Hm. destruct Hp as [P1 P2 P3 P4 P5]. pose proof (np_limit _ _ Hrel).
  apply (mem_rel_pte A (npage s)) with d i; auto; try apply Hrel.
  - intros k Hk. apply lookup_insert_ne. congruence.
  - subst v. rewrite lookup_insert_eq, entry_of_flags.
    apply entry_u32; [lia|by apply perm_flags_bound].
Qed.

Lemma refs_inserted :
  maps A !! (d, v) = None → refs_rel (set_refs (<[p := ref s p + 1]>) s) inserted.
Proof.
  intros Hnone. destruct Hp as [P1 P2 P3 P4 P5].
  destruct (rel_refs _ _ Hrel) as [R1 R2 R3 R4].
  split; cbn; intros q; rewrite ref_insert.
  - intros Hq. rewrite decide_False by (by intros ->). auto.
  - intros Hq. rewrite decide_False by (by intros ->). by apply R2.
  - intros Hq Hqt. rewrite count_insert_new by done. change (pin inserted q) with (pin A q).
    case_decide; [subst|]; rewrite R3 by done; lia.
  - pose proof (R4 q). pose proof (R4 p). case_decide; lia.
Qed.

Lemma refs_updated f :
  maps A !! (d, v) = Some (p, f) → refs_rel s inserted.
Proof.
  intros Hsome. destruct (rel_refs _ _ Hrel) as [R1 R2 R3 R4].
  split; cbn; try done. intros q Hq Hqt.
  erewrite count_insert by done. by apply R3.
Qed.

(** The entry is overwritten: the page was already mapped there. *)
Lemma rel_updated f x :
  maps A !! (d, v) = Some (p, f) →
  rel (add_sfence x (set_mem (store (page2pa t + 4 * j) (entry_of p perm)) s)) inserted.
Proof.
  intros Hsome. split; cbn.
  - apply wf_inserted.
  - apply Hrel.
  - destruct (refs_updated f Hsome). by split.
  - by apply mem_inserted, Hrel.
Qed.

(** A new mapping. *)
Lemma rel_inserted x :
  d ∈ dirs A → maps A !! (d, v) = None →
  rel (add_sfence x (set_mem (store (page2pa d + 4 * PDX UVPT) 0)
        (set_refs (<[p := u16 (ref s p + 1)]>)
          (set_mem (store (page2pa t + 4 * j) (entry_of p perm)) s)))) inserted.
Proof.
  intros Hd Hnone. pose proof (rr_u16 _ _ (rel_refs _ _ Hrel) p).
  rewrite u16_small by (destruct Hp; lia). split; cbn.
  - apply wf_inserted.
  - apply Hrel.
  - destruct (refs_inserted Hnone). by split.
  - apply (mem_rel_kernel_entry inserted (npage s)); [apply wf_inserted|done|done|].
    by apply mem_inserted, Hrel.
Qed.
End insert.

Section page_insert.
Context (s : pmap) (A : vm) (Hrel : rel s A).
Context (d va asid p perm : Z) (Hd : d ∈ dirs A) (Hva : 0 ≤ va < UTOP).

(** The second half of [page_insert]: the page at [va], if any, has been
    removed. *)
Definition insert_new : M pmap unit :=
  pte <- pgdir_walk (page2pa d) va true ;;
  match pte with
  | None => fault "page_insert"
  | Some pte =>
      wr pte (entry_of p perm) ;;
      r <- gets (λ s, ref s p) ;;
      set_ref p (r + 1) ;;
      wr (page2pa d + 4 * PDX UVPT) 0 ;;
      tlb_flush asid 0
  end.

Lemma insert_new_ok :
  insertable s A p perm → maps A !! (d, VPN va) = None →
  match spec_table A d (VPN va) with
  | Some A' =>
      ∃ s', insert_new s = Ok tt s' ∧ npage s' = npage s ∧ cur_pgdir s' = cur_pgdir s ∧
        rel s' (set_maps (<[(d, VPN va) := (p, perm_flags perm)]> (maps A')) A') ∧
        tlb_log s' = tlb_log s ++ [flush_of asid 0] ∧ data_kept A' (mem s) (mem s')
  | None => insert_new s = Err (- E_NO_MEM) s
  end.
Proof.
  intros Hp Hnone. destruct (vpn_range d va Hva) as (Hi & Hv & Hvi & Hk).
  pose proof (pgdir_walk_create_ok s A Hrel d va Hd Hva) as Hw.
  assert (Htab : ∀ A', spec_table A d (VPN va) = Some A' →
    insertable s A' p perm ∧ maps A' = maps A ∧ dirs A' = dirs A).
  { unfold spec_table. destruct Hp as [P1 P2 P3 P4 P5]. intros A'.
    destruct (tabs A !! _) eqn:Ht; [by intros [= <-]|].
    destruct (free A) as [|t fl] eqn:Hf; [done|]. intros [= <-].
    split_and!; [|done|done]. split; cbn; try done; [set_solver|].
    intros [k Hkt]. cbn in Hkt. rewrite lookup_insert in Hkt.
    case_decide; [set_solver|]. apply P3. by eexists. }
  destruct (spec_table A d (VPN va)) as [A'|].
  - destruct Hw as (s1 & t & Hw & Ht & Hrel1 & Hn1 & Hl1 & Hc1 & Hr1 & Hk1).
    destruct (Htab A' eq_refl) as (Hp' & Hm' & Hd').
    unfold insert_new. run Hw. unfold wr, set_ref, modify, gets. cbn [bind].
    rewrite tlb_flush_ok. eexists. split; [done|]. cbn. split_and!; [done|done| |by rewrite Hl1|].
    2: { apply data_kept_store; [|by eapply dir_page; [apply Hrel|]|apply PDX_bound|left; by rewrite Hd'].
         apply data_kept_store; [done|by eapply tab_page, Ht; apply Hrel1|apply PTX_bound|right; by eexists]. }
    apply (rel_inserted s1 A' Hrel1) with (i := PDX va); auto using PTX_bound; try congruence.
    destruct Hp' as [P1 P2 P3 P4 P5]. split; rewrite ?Hn1, ?Hr1; try done. apply Hp.
  - unfold insert_new. by apply bind_err.
Qed.

(** The first half, on each of the four states of the entry. *)
Lemma page_insert_unmapped :
  maps A !! (d, VPN va) = None →
  page_insert (page2pa d) asid p va perm s = insert_new s.
Proof.
  intros Hm. destruct (vpn_range d va Hva) as (Hi & Hv & Hvi & Hk).
  unfold page_insert. run (pgdir_walk_ok s A Hrel d va Hd Hva).
  destruct (tabs A !! (d, PDX va)) as [t|] eqn:Ht; [|done].
  pose proof (mr_tab _ _ (rel_mem _ _ Hrel) d _ t (PTX va) Ht (PTX_bound va)) as Htab.
  rewrite <- Hk, Hm in Htab.
  cbn [fmap option_fmap option_map]. step. by rewrite Htab.
Qed.

Lemma page_insert_mapped q f :
  maps A !! (d, VPN va) = Some (q, f) →
  ∃ t, tabs A !! (d, PDX va) = Some t ∧
  page_insert (page2pa d) asid p va perm s =
    if q =? p then
      Ok tt (add_sfence (flush_of asid va)
               (set_mem (store (page2pa t + 4 * PTX va) (entry_of p perm)) s))
    else bind (page_remove (page2pa d) asid va) (λ _, insert_new) s.
Proof.
  intros Hm. destruct (vpn_range d va Hva) as (Hi & Hv & Hvi & Hk).
  destruct (wf_map _ _ (rel_wf _ _ Hrel) _ _ _ _ Hm) as (_ & [t Ht] & Hq & _ & Hf & HV).
  rewrite Hvi in Ht. exists t. split; [done|].
  pose proof (mr_tab _ _ (rel_mem _ _ Hrel) d _ t (PTX va) Ht (PTX_bound va)) as Htab.
  rewrite <- Hk, Hm in Htab. pose proof (np_limit _ _ Hrel).
  unfold page_insert. run (pgdir_walk_ok s A Hrel d va Hd Hva). rewrite Ht.
  cbn [fmap option_fmap option_map]. step.
  rewrite Htab, entry_V, HV, entry_addr by (done || lia).
  rewrite bind_assoc. run (pa2page_page q ltac:(lia) s ltac:(lia)).
  destruct (q =? p); cbn [negb].
  - step. rewrite bind_assoc. by run (tlb_flush_ok asid va).
  - by rewrite bind_assoc.
Qed.

End page_insert.

(** The page removed by a replacing insertion is not the inserted one. *)
Lemma insertable_removed s s' A d v p perm q f :
  insertable s A p perm → maps A !! (d, v) = Some (q, f) → q ≠ p → npage s' = npage s →
  (∀ r, ref s' r = if decide (q = r) then ref s q - 1 else ref s r) →
  insertable s' (spec_remove A d v) p perm.
Proof.
  intros [P1 P2 P3 P4 P5] Hm Hne Hn Hr. destruct (spec_remove_frame A d v) as (_ & Ht & _).
  split; rewrite ?Hn, ?Hr; rewrite ?decide_False by done; try done.
  - unfold spec_remove. rewrite Hm. case_match; cbn; [|done]. set_solver.
  - unfold is_tab. by rewrite Ht.
Qed.

(** [page_insert] implements [spec_insert], on every branch. *)
Lemma page_insert_ok s A d va asid p perm :
  rel s A → d ∈ dirs A → 0 ≤ va < UTOP → insertable s A p perm →
  match spec_insert A d (VPN va) p perm with
  | Some A' =>
      ∃ s', page_insert (page2pa d) asid p va perm s = Ok tt s' ∧ rel s' A' ∧
        npage s' = npage s ∧ cur_pgdir s' = cur_pgdir s ∧ data_kept A' (mem s) (mem s')
  | None => page_insert (page2pa d) asid p va perm s = Err (- E_NO_MEM) s
  end.
Proof.
  intros Hrel Hd Hva Hp. destruct (vpn_range d va Hva) as (Hi & Hv & Hvi & Hk).
  unfold spec_insert. destruct (maps A !! (d, VPN va)) as [[q f]|] eqn:Hm.
  - destruct (page_insert_mapped s A Hrel d va asid p perm Hd Hva q f Hm) as (t & Ht & ->).
    case_decide as E.
    + subst q. rewrite Z.eqb_refl. unfold spec_table. rewrite Hvi, Ht. cbn.
      eexists. split_and!; [done| |done|done|].
      2: { apply data_kept_store; [apply data_kept_refl|by eapply tab_page, Ht; apply Hrel|apply PTX_bound|].
           right. by exists (d, PDX va). }
      by apply (rel_updated s A Hrel) with (i := PDX va) (f := f); auto using PTX_bound.
    + destruct (Z.eqb_spec q p) as [|_]; [done|].
      destruct (page_remove_some s A Hrel d va asid Hd Hva q f Hm)
        as (s1 & Hrm & Hrel1 & Hn1 & Hc1 & _ & Hr1 & Hk1).
      destruct (spec_remove_frame A d (VPN va)) as (Fd & Ft & _ & Fm).
      pose proof (insertable_removed s s1 A d _ p perm q f Hp Hm E Hn1 Hr1) as Hp1.
      pose proof (insert_new_ok s1 _ Hrel1 d va asid p perm ltac:(by rewrite Fd) Hva Hp1) as Hins.
      rewrite Fm, lookup_delete_eq in Hins. specialize (Hins eq_refl).
      unfold spec_table in *. rewrite Ft, Hvi, Ht in *. cbn.
      destruct Hins as (s2 & He & Hn2 & Hc2 & Hrel2 & _ & Hk2).
      run Hrm. exists s2. rewrite Fm in *. split_and!; try (congruence || done).
      exact (data_kept_trans _ _ _ _ _ eq_refl (λ _ h, h) Hk1 Hk2).
  - rewrite (page_insert_unmapped s A Hrel d va asid p perm Hd Hva Hm).
    pose proof (insert_new_ok s A Hrel d va asid p perm Hd Hva Hp Hm) as Hins.
    destruct (spec_table A d (VPN va)) as [A'|]; cbn; [|done].
    destruct Hins as (s' & ? & ? & ? & ? & _ & ?). eauto 8.
Qed.
