(* ===== verification/VmSteps.v ===== *)
(** References held outside the page tables, and sequences of operations.

    Kernel code takes a reference with [p->pp_ref++] (page directories,
    copies of page tables) and drops it with [page_decref].  [vm_op] lists the
    operations clients of kern/pmap.c perform; [vm_step] is their abstract
    effect and [run_op] their concrete execution.  [sim] shows that every
    abstract step is what the code does. *)
From S2P Require Import Prelude Mmu Queue Memory Pmap PmapSpec.

(** * Taking and dropping references *)

(** [p->pp_ref++] *)
Definition incref (p : Z) : M pmap unit :=
  r <- gets (λ s, ref s p) ;; set_ref p (r + 1).

Definition spec_pin (A : vm) (p n : Z) : vm := set_pins (<[p := n]> (pins A)) A.

Definition spec_unpin (A : vm) (p : Z) : vm :=
  let A' := spec_pin A p (pin A p - 1) in
  if count p (maps A) + pin A p =? 1 then set_vfree (p :: free A) A' else A'.

Lemma pin_spec_pin A p n q : pin (spec_pin A p n) q = if decide (p = q) then n else pin A q.
Proof. unfold pin, spec_pin. cbn. rewrite lookup_insert. by case_decide. Qed.

Section pins.
Context (s : pmap) (A : vm) (Hrel : rel s A) (p : Z).
Context (Hp : 0 ≤ p < npage s) (Hf : p ∉ free A) (Ht : ¬ is_tab A p).

Lemma not_tab_eq k t : tabs A !! k = Some t → p ≠ t.
Proof. intros E ->. apply Ht. by exists k. Qed.

Lemma wf_spec_pin n :
  0 ≤ n → (p ∈ dirs A → 1 ≤ n) → wf (spec_pin A p n) (npage s).
Proof.
  intros Hn Hd. destruct (rel_wf _ _ Hrel) as [W1 W2 W3 W4 W5 W6 W7].
  split; cbn; try done.
  - intros d H. rewrite pin_spec_pin. destruct (W3 d H). case_decide; [subst; auto|done].
  - intros q. rewrite pin_spec_pin. case_decide; auto.
  - intros d i t E. rewrite pin_spec_pin. pose proof (not_tab_eq _ _ E).
    rewrite decide_False by done. eauto.
Qed.

Lemma pin_ref : ref s p = count p (maps A) + pin A p.
Proof. by apply Hrel. Qed.

Lemma refs_spec_pin n r :
  0 ≤ n → r = count p (maps A) + n → r < 2 ^ 16 →
  refs_rel (set_refs (<[p := r]>) s) (spec_pin A p n).
Proof.
  intros Hn Hr Hb. destruct (rel_refs _ _ Hrel) as [R1 R2 R3 R4].
  pose proof (count_nonneg p (maps A)). split; cbn.
  - intros q Hq. rewrite ref_insert, decide_False by set_solver. auto.
  - intros q Hq. rewrite ref_insert, decide_False; [auto|]. intros ->. by apply Ht.
  - intros q Hq Hqt. rewrite ref_insert, pin_spec_pin. case_decide; [by subst|auto].
  - intros q. rewrite ref_insert. case_decide; [lia|auto].
Qed.

Lemma incref_ok :
  ref s p < 2 ^ 16 - 1 →
  ∃ s', incref p s = Ok tt s' ∧ rel s' (spec_pin A p (pin A p + 1)) ∧ npage s' = npage s ∧
    mem s' = mem s ∧ cur_pgdir s' = cur_pgdir s.
Proof.
  intros Hr. pose proof (rr_u16 _ _ (rel_refs _ _ Hrel) p).
  pose proof (wf_pin _ _ (rel_wf _ _ Hrel) p). pose proof pin_ref.
  unfold incref, set_ref, gets, modify. cbn [bind]. rewrite u16_small by lia.
  eexists. split; [done|]. split; [|by split_and!]. split; cbn.
  - apply wf_spec_pin; lia.
  - apply Hrel.
  - apply refs_spec_pin; lia.
  - by apply (mem_rel_same _ A), Hrel.
Qed.

(** Dropping a reference: the page is freed with the last one. *)
Lemma decref_pin_ok :
  0 < pin A p → (p ∈ dirs A → 1 < pin A p) →
  ∃ s', page_decref p s = Ok tt s' ∧ rel s' (spec_unpin A p) ∧ npage s' = npage s.
Proof.
  intros Hpin Hd. pose proof (rr_u16 _ _ (rel_refs _ _ Hrel) p). pose proof pin_ref as Hr.
  pose proof (count_nonneg p (maps A)).
  destruct (decref_frame s p) as (Fn & Fm & _ & _ & Fr).
  exists (decref_state s p). split; [by apply page_decref_ok; lia|]. split; [|done].
  assert (rel (set_refs (<[p := ref s p - 1]>) s) (spec_pin A p (pin A p - 1))) as Hs1.
  { split; cbn; [apply wf_spec_pin; [lia|intros Hin%Hd; lia]|apply Hrel|apply refs_spec_pin; lia|].
    by apply (mem_rel_same _ A), Hrel. }
  unfold decref_state, spec_unpin. rewrite <- Hr.
  destruct (Z.eqb_spec (ref s p) 1) as [H1|H1]; [|done].
  destruct Hs1 as [[W1 W2 W3 W4 W5 W6 W7] Hl [R1 R2 R3 R4] Hm]. cbn in Hl.
  split; cbn.
  - split; try done. cbn. set_solver.
  - by apply LIST_insert_head_rep.
  - split; try done. cbn. intros q [->|Hq]%elem_of_cons; [|by apply R1].
    etrans; [apply (ref_insert s p p)|]. rewrite decide_True by done. lia.
  - by apply (mem_rel_same _ (spec_pin A p (pin A p - 1))).
Qed.
End pins.

(** * Page directories *)

(** A pinned page whose user entries are all invalid is an empty directory. *)
Lemma rel_add_dir s A d :
  rel s A → 0 ≤ d < npage s → 1 ≤ pin A d → ¬ is_tab A d →
  (∀ i, 0 ≤ i < PDX UTOP → has (load (mem s) (page2pa d + 4 * i)) PTE_V = false) →
  (∀ i, tabs A !! (d, i) = None) →
  rel s (MkVm ({[d]} ∪ dirs A) (tabs A) (maps A) (pins A) (free A)).
Proof.
  intros [[W1 W2 W3 W4 W5 W6 W7] Hl [R1 R2 R3 R4] [M1 M2]] Hd Hpin Hnt Hz Hno.
  split; cbn; [split; cbn; try done|done|by split|split; cbn; try done].
  - intros d' [->%elem_of_singleton|H]%elem_of_union; auto.
  - intros d' i t E. destruct (W5 _ _ _ E) as (? & ?). split; [set_solver|done].
  - intros d' i [->%elem_of_singleton|H]%elem_of_union Hi; [|by apply M1].
    rewrite Hno. auto.
Qed.

(** A directory with no table left is an ordinary page again. *)
Lemma rel_drop_dir s A d :
  rel s A → (∀ i, tabs A !! (d, i) = None) →
  rel s (MkVm (dirs A ∖ {[d]}) (tabs A) (maps A) (pins A) (free A)).
Proof.
  intros [[W1 W2 W3 W4 W5 W6 W7] Hl [R1 R2 R3 R4] [M1 M2]] Hno.
  split; cbn; [split; cbn; try done|done|by split|split; cbn; try done].
  - intros d' H. apply W3. set_solver.
  - intros d' i t E. destruct (W5 _ _ _ E) as (? & ?). split; [|done].
    apply elem_of_difference. split; [done|]. intros ->%elem_of_singleton. congruence.
  - intros d' i H Hi. apply M1; set_solver.
Qed.

Definition spec_new_dir (A : vm) (d : Z) (fl : list Z) : vm :=
  MkVm ({[d]} ∪ dirs A) (tabs A) (maps A) (<[d := 1]> (pins A)) fl.

Definition spec_drop_dir (A : vm) (d : Z) : vm :=
  MkVm (dirs A ∖ {[d]}) (tabs A) (maps A) (pins A) (free A).

(** A fresh page with one reference is a directory without user mappings. *)
Lemma new_dir_ok s A d fl :
  rel s A → free A = d :: fl →
  ∃ s', (p <- page_alloc ;; incref p ;; ret p) s = Ok d s' ∧ rel s' (spec_new_dir A d fl) ∧
    npage s' = npage s ∧ mem s' = clear_page (page2pa d) (mem s) ∧ cur_pgdir s' = cur_pgdir s.
Proof.
  intros Hrel Hf. assert (Hin : d ∈ free A) by (rewrite Hf; set_solver).
  destruct (page_alloc_eq s A Hrel d fl Hf) as (l' & E & Hl').
  destruct (free_page s A Hrel d Hin) as [Hd HdL].
  destruct (free_unused s A Hrel d Hin) as [Hc Hpin].
  pose proof (free_not_tab s A Hrel d Hin) as Hnt.
  pose proof (free_not_dir s A Hrel d Hin) as Hnd.
  pose proof (rr_free _ _ (rel_refs _ _ Hrel) d Hin) as Hr0.
  assert (Hnf : d ∉ fl).
  { pose proof (proj2 (proj2 (rel_free _ _ Hrel))) as Hn. rewrite Hf in Hn.
    by apply NoDup_cons in Hn as []. }
  set (s1 := set_mem _ _) in E. pose proof (rel_alloc s A Hrel d fl l' Hf Hl') as Hrel1.
  destruct (incref_ok s1 _ Hrel1 d Hd Hnf Hnt) as (s2 & E2 & Hrel2 & Hn2 & Hm2 & Hc2).
  { change (ref s1 d) with (ref s d). lia. }
  exists s2. rewrite (bind_ok _ _ _ _ _ E), (bind_ok _ _ _ _ _ E2).
  split; [done|]. split_and!; [|done|done|done].
  change (pin (set_vfree fl A) d) with (pin A d) in Hrel2. rewrite Hpin in Hrel2.
  apply (rel_add_dir _ _ d Hrel2); cbn.
  - by rewrite Hn2.
  - rewrite pin_spec_pin, decide_True by done. lia.
  - done.
  - intros i Hi. change (PDX UTOP) with 509 in Hi. rewrite Hm2. cbn.
    rewrite load_clear_page by (done || lia). by rewrite decide_True.
  - intros i. destruct (tabs A !! (d, i)) eqn:Ht; [|done].
    by destruct (wf_tab _ _ (rel_wf _ _ Hrel) _ _ _ Ht) as [? _].
Qed.

(** * Removing tables *)

(** No user page of directory [d] is mapped through entry [i]. *)
Definition table_empty (A : vm) (d i : Z) : Prop :=
  ∀ v p f, maps A !! (d, v) = Some (p, f) → v / 1024 ≠ i.

(** Clearing a directory entry and dropping the table, as [env_free] does. *)
Definition drop_table (d i t : Z) : M pmap unit :=
  wr (page2pa d + 4 * i) 0 ;; page_decref t.

Definition spec_drop_table (A : vm) (d i t : Z) : vm :=
  set_tabs (delete (d, i) (tabs A)) (set_vfree (t :: free A) A).

Lemma count_zero p m : (∀ k f, m !! k ≠ Some (p, f)) → count p m = 0.
Proof.
  intros H. unfold count. replace (filter _ m) with (∅ : gmap (Z * Z) (Z * Z)).
  - by rewrite map_size_empty.
  - symmetry. apply map_empty. intros k. apply map_lookup_filter_None_2. right.
    intros [q f] Hk Hq. cbn in Hq. subst q. by apply (H k f).
Qed.

Section drop_table.
Context (s : pmap) (A : vm) (Hrel : rel s A) (d i t : Z).
Context (Ht : tabs A !! (d, i) = Some t) (He : table_empty A d i).

Lemma dropped_tab k t' : delete (d, i) (tabs A) !! k = Some t' → tabs A !! k = Some t' ∧ t' ≠ t.
Proof.
  rewrite lookup_delete_Some. intros [Hne Hk]. split; [done|]. intros ->.
  apply Hne. by apply (wf_tab_inj _ _ (rel_wf _ _ Hrel) _ _ t).
Qed.

Lemma table_unused : count t (maps A) = 0 ∧ pin A t = 0.
Proof.
  destruct (wf_tab _ _ (rel_wf _ _ Hrel) _ _ _ Ht) as (_ & _ & _ & ?). split; [|done].
  apply count_zero. intros [d' v] f Hm.
  destruct (wf_map _ _ (rel_wf _ _ Hrel) _ _ _ _ Hm) as (_ & _ & _ & Hnt & _).
  apply Hnt. by exists (d, i).
Qed.

Lemma wf_dropped : wf (spec_drop_table A d i t) (npage s).
Proof.
  destruct (rel_wf _ _ Hrel) as [W1 W2 W3 W4 W5 W6 W7]. split; cbn; try done.
  - intros p [->|Hp]%elem_of_cons; [by destruct (W5 _ _ _ Ht) as (_ & _ & ? & _)|auto].
  - intros d' i' t' [Hk _]%dropped_tab. eauto.
  - intros k1 k2 t' [H1 _]%dropped_tab [H2 _]%dropped_tab. eauto.
  - intros d' v p f Hm. destruct (W7 _ _ _ _ Hm) as (? & Hs & ? & Hnt & ? & ?). splits.
    + rewrite lookup_delete_ne; [done|]. intros [= Ed Ei]. subst d'. by apply (He v p f).
    + intros [k [Hk _]%dropped_tab]. apply Hnt. by exists k.
Qed.

Lemma refs_dropped s' :
  (∀ q, ref s' q = if decide (t = q) then 0 else ref s q) → npage s' = npage s →
  refs_rel s' (spec_drop_table A d i t).
Proof.
  intros Hr Hn. destruct (rel_refs _ _ Hrel) as [R1 R2 R3 R4]. destruct table_unused as [Hc Hpin].
  split; try setoid_rewrite Hr; rewrite ?Hn; cbn.
  - intros p [->|Hp]%elem_of_cons; case_decide; auto; congruence.
  - intros p [k [Hk Hne]%dropped_tab]. rewrite decide_False by done. apply R2. by exists k.
  - intros p Hp Hnt. case_decide as E; [subst p; unfold pin in *; cbn; lia|].
    apply R3; [done|]. intros [k Hk]. apply Hnt. exists k. cbn.
    rewrite lookup_delete_ne; [done|]. intros <-. congruence.
  - intros p. case_decide; [lia|auto].
Qed.

Lemma mem_dropped :
  mem_rel (store (page2pa d + 4 * i) 0 (mem s)) (spec_drop_table A d i t).
Proof.
  destruct (wf_tab _ _ (rel_wf _ _ Hrel) _ _ _ Ht) as (Hd & Hi & _).
  pose proof (dir_page A _ (rel_wf _ _ Hrel) d Hd). change (PDX UTOP) with 509 in *.
  destruct (rel_mem _ _ Hrel) as [H1 H2]. split; cbn.
  - intros d' i' Hd' Hi'. specialize (H1 d' i' Hd' Hi'). change (PDX UTOP) with 509 in *.
    pose proof (dir_page A _ (rel_wf _ _ Hrel) d' Hd').
    rewrite load_store by (first [done|lia]). rewrite lookup_delete.
    destruct (decide (d = d' ∧ i = i')) as [[<- <-]|Hne].
    + by rewrite decide_True.
    + rewrite decide_False by naive_solver. done.
  - intros d' i' t' j [Hk _]%dropped_tab Hj. specialize (H2 _ _ _ _ Hk Hj).
    rewrite load_store
      by (first [done|lia|by eapply (tab_page A _ (rel_wf _ _ Hrel))]).
    rewrite decide_False; [done|]. intros [-> _].
    by eapply (tab_not_dir A _ (rel_wf _ _ Hrel)).
Qed.

Lemma drop_table_ok :
  ∃ s', drop_table d i t s = Ok tt s' ∧ rel s' (spec_drop_table A d i t) ∧
    npage s' = npage s ∧ tlb_log s' = tlb_log s ∧ cur_pgdir s' = cur_pgdir s.
Proof.
  set (s1 := set_mem (store (page2pa d + 4 * i) 0) s).
  assert (Hr1 : ref s t = 1) by (apply Hrel; by exists (d, i)).
  destruct (decref_frame s1 t) as (Fn & Fm & Fl & Fc & Fr).
  exists (decref_state s1 t). split.
  { unfold drop_table, wr, modify. cbn [bind].
    apply (page_decref_ok s1 t). change (ref s1 t) with (ref s t). lia. }
  split_and!; try done. split; rewrite ?Fn, ?Fm.
  - apply wf_dropped.
  - unfold decref_state. change (ref s1 t) with (ref s t). rewrite Hr1. cbn.
    apply LIST_insert_head_rep; [apply Hrel|]. intros Hf.
    pose proof (rr_free _ _ (rel_refs _ _ Hrel) _ Hf). lia.
  - apply refs_dropped; [|done]. intros q. rewrite Fr.
    change (ref s1 t) with (ref s t). change (ref s1 q) with (ref s q). rewrite Hr1. done.
  - apply mem_dropped.
Qed.
End drop_table.

(** * Sequences of operations *)

Inductive vm_op :=
| OpAlloc                               (* page_alloc *)
| OpIncref (p : Z)                      (* pp_ref++ *)
| OpDecref (p : Z)                      (* page_decref of a reference taken by OpIncref *)
| OpNewDir                              (* page_alloc; pp_ref++ *)
| OpFreeDir (d : Z)                     (* page_decref of an empty directory *)
| OpDropTable (d i t : Z)               (* pgdir[i] = 0; page_decref *)
| OpInsert (d asid p va perm : Z)       (* page_insert *)
| OpRemove (d asid va : Z).             (* page_remove *)

Definition run_op (o : vm_op) : M pmap unit :=
  match o with
  | OpAlloc => page_alloc ;; ret tt
  | OpIncref p => incref p
  | OpDecref p => page_decref p
  | OpNewDir => p <- page_alloc ;; incref p ;; ret tt
  | OpFreeDir d => page_decref d
  | OpDropTable d i t => drop_table d i t
  | OpInsert d asid p va perm => page_insert (page2pa d) asid p va perm
  | OpRemove d asid va => page_remove (page2pa d) asid va
  end.

(** A page that clients may reference or map. *)
Definition usable (A : vm) (np p : Z) : Prop := 0 ≤ p < np ∧ p ∉ free A ∧ ¬ is_tab A p.

Inductive vm_step (np : Z) (A : vm) : vm_op → vm → Prop :=
| step_alloc p fl : free A = p :: fl → vm_step np A OpAlloc (set_vfree fl A)
| step_incref p : usable A np p → count p (maps A) + pin A p < 2 ^ 16 - 1 →
    vm_step np A (OpIncref p) (spec_pin A p (pin A p + 1))
| step_decref p : usable A np p → 0 < pin A p → (p ∈ dirs A → 1 < pin A p) →
    vm_step np A (OpDecref p) (spec_unpin A p)
| step_new_dir p fl : free A = p :: fl → vm_step np A OpNewDir (spec_new_dir A p fl)
| step_free_dir d : usable A np d → d ∈ dirs A → (∀ i, tabs A !! (d, i) = None) →
    vm_step np A (OpFreeDir d) (spec_unpin (spec_drop_dir A d) d)
| step_drop_table d i t : tabs A !! (d, i) = Some t → table_empty A d i →
    vm_step np A (OpDropTable d i t) (spec_drop_table A d i t)
| step_insert d asid p va perm A' :
    d ∈ dirs A → 0 ≤ va < UTOP → usable A np p → 0 ≤ perm < 1024 →
    count p (maps A) + pin A p < 2 ^ 16 - 1 →
    spec_insert A d (VPN va) p perm = Some A' →
    vm_step np A (OpInsert d asid p va perm) A'
| step_remove d asid va : d ∈ dirs A → 0 ≤ va < UTOP →
    vm_step np A (OpRemove d asid va) (spec_remove A d (VPN va)).

Inductive vm_steps (np : Z) : vm → list vm_op → vm → Prop :=
| steps_nil A : vm_steps np A [] A
| steps_cons A o A1 os A2 : vm_step np A o A1 → vm_steps np A1 os A2 → vm_steps np A (o :: os) A2.

Lemma spec_remove_none A d v : maps A !! (d, v) = None → spec_remove A d v = A.
Proof. intros H. unfold spec_remove. by rewrite H. Qed.

Lemma page_remove_ok s A d va asid :
  rel s A → d ∈ dirs A → 0 ≤ va < UTOP →
  ∃ s', page_remove (page2pa d) asid va s = Ok tt s' ∧ rel s' (spec_remove A d (VPN va)) ∧
    npage s' = npage s ∧ cur_pgdir s' = cur_pgdir s ∧
    data_kept (spec_remove A d (VPN va)) (mem s) (mem s').
Proof.
  intros Hrel Hd Hva. destruct (maps A !! (d, VPN va)) as [[p f]|] eqn:Hm.
  - destruct (page_remove_some s A Hrel d va asid Hd Hva p f Hm) as (s' & ? & ? & ? & ? & _ & _ & ?). eauto 8.
  - exists s. rewrite spec_remove_none by done. split; [|by split_and!; try apply data_kept_refl].
    by apply (page_remove_none s A Hrel d va asid Hd Hva).
Qed.

Lemma free_dir_ok s A d :
  rel s A → usable A (npage s) d → d ∈ dirs A → (∀ i, tabs A !! (d, i) = None) →
  ∃ s', page_decref d s = Ok tt s' ∧ rel s' (spec_unpin (spec_drop_dir A d) d) ∧
    npage s' = npage s.
Proof.
  intros Hrel (Hd & Hf & Hnt) Hin Hno. destruct (wf_dir _ _ (rel_wf _ _ Hrel) _ Hin) as [_ Hpin].
  apply decref_pin_ok; auto.
  - by apply rel_drop_dir.
  - change (pin (spec_drop_dir A d) d) with (pin A d). lia.
  - cbn. set_solver.
Qed.

(** Each abstract step is matched by the code. *)
Lemma sim np s A o A' :
  rel s A → npage s = np → vm_step np A o A' →
  ∃ s', run_op o s = Ok tt s' ∧ rel s' A' ∧ npage s' = np.
Proof.
  intros Hrel <- Hst. destruct Hst as [p fl Hf|p [? [? ?]] Hr|p [? [? ?]] Hpin Hd|p fl Hf|d Hu Hd Hno
    |d i t Ht He|d asid p va perm A' Hd Hva [? [? ?]] Hperm Hr Hins|d asid va Hd Hva]; cbn [run_op].
  - destruct (page_alloc_eq s A Hrel p fl Hf) as (l' & E & Hl'). rewrite (bind_ok _ _ _ _ _ E).
    eexists. split; [done|]. split; [|done]. by apply rel_alloc.
  - destruct (incref_ok s A Hrel p) as (s' & ? & ? & ? & _); eauto.
    by rewrite pin_ref with (A := A).
  - by apply decref_pin_ok.
  - destruct (new_dir_ok s A p fl Hrel Hf) as (s' & E & ? & ? & _). exists s'. split; [|done].
    apply bind_Ok_inv in E as (q & s1 & E1 & E2). rewrite (bind_ok _ _ _ _ _ E1).
    apply bind_Ok_inv in E2 as ([] & s2 & E2 & [= <- <-]). by rewrite (bind_ok _ _ _ _ _ E2).
  - by apply free_dir_ok.
  - destruct (drop_table_ok s A Hrel d i t Ht He) as (s' & ? & ? & ? & _). eauto.
  - pose proof (page_insert_ok s A d va asid p perm Hrel Hd Hva) as Hok. rewrite Hins in Hok.
    destruct Hok as (s' & ? & ? & ? & _); [|eauto].
    split; try done. by rewrite pin_ref with (A := A).
  - destruct (page_remove_ok s A d va asid Hrel Hd Hva) as (s' & ? & ? & ? & _). eauto.
Qed.

Lemma sim_steps np s A os A' :
  rel s A → npage s = np → vm_steps np A os A' →
  ∃ s', for_each os run_op s = Ok tt s' ∧ rel s' A' ∧ npage s' = np.
Proof.
  intros Hrel Hn Hst. revert s Hrel Hn. induction Hst as [A|A o A1 os A2 H1 _ IH]; intros s Hrel Hn.
  - exists s. done.
  - destruct (sim _ _ _ _ _ Hrel Hn H1) as (s1 & E & Hrel1 & Hn1). cbn [for_each].
    rewrite (bind_ok _ _ _ _ _ E). by apply IH.
Qed.

(** Pages that nobody uses, given to the free list *)
Definition release_ops (l : list Z) : list vm_op := flat_map (λ p, [OpIncref p; OpDecref p]) l.
Definition released (l : list Z) (s : pmap) : pmap :=
  match for_each (release_ops l) run_op s with Ok _ s' => s' | _ => s end.
Definition released_vm (l : list Z) (A : vm) : vm :=
  fold_left (λ A p, spec_unpin (spec_pin A p (pin A p + 1)) p) l A.

(** Pages that are neither mapped, pinned, free nor page tables, one by one *)
Definition unused (A : vm) (np p : Z) : bool :=
  bool_decide (0 ≤ p < np ∧ p ∉ free A ∧ p ∉ dirs A ∧ map_Forall (λ _ t, t ≠ p) (tabs A) ∧
    count p (maps A) + pin A p = 0).
Fixpoint all_unused (A : vm) (np : Z) (l : list Z) : bool :=
  match l with
  | [] => true
  | p :: l' => unused A np p && all_unused (spec_unpin (spec_pin A p (pin A p + 1)) p) np l'
  end.

Lemma unused_usable A np p : unused A np p = true →
  usable A np p ∧ p ∉ dirs A ∧ count p (maps A) = 0 ∧ pin A p = 0 ∨ pin A p < 0.
Proof.
  intros Hu%bool_decide_eq_true_1. destruct Hu as (H1 & H2 & H3 & H4 & H5).
  pose proof (count_nonneg p (maps A)). destruct (Z.ltb_spec (pin A p) 0); [by right|left].
  split; [|split_and!; try done; lia]. split_and!; try done; [lia..|]. intros [k Hk]. by apply (H4 k p Hk).
Qed.

Lemma released_rel l s A :
  rel s A → all_unused A (npage s) l = true → rel (released l s) (released_vm l A).
Proof.
  intros Hrel Hall. assert (Hst : vm_steps (npage s) A (release_ops l) (released_vm l A)).
  { pose proof (wf_pin _ _ (rel_wf _ _ Hrel)) as Hpin. clear Hrel. revert A Hpin Hall.
    induction l as [|p l IH]; intros A Hpin Hall; [constructor|].
    cbn in Hall. apply andb_true_iff in Hall as [Hu Hall].
    destruct (unused_usable _ _ _ Hu) as [(Hus & Hd & Hc & Hp)|?]; [|pose proof (Hpin p); lia].
    change (released_vm (p :: l) A) with (released_vm l (spec_unpin (spec_pin A p (pin A p + 1)) p)).
    change (release_ops (p :: l)) with (OpIncref p :: OpDecref p :: release_ops l). econstructor; [apply step_incref; [done|lia]|]. rewrite Hp in *.
    econstructor; [apply step_decref|].
    - by destruct Hus as (? & ? & ?).
    - rewrite pin_spec_pin, decide_True; [lia|done].
    - done.
    - apply IH; [|exact Hall]. intros q. unfold spec_unpin. cbn.
      assert (0 ≤ pin (spec_pin (spec_pin A p (0 + 1)) p (pin (spec_pin A p (0 + 1)) p - 1)) q); [|by case_match].
      rewrite !pin_spec_pin, (decide_True _ _ eq_refl). case_decide; [lia|]. apply Hpin. }
  destruct (sim_steps _ s A _ _ Hrel eq_refl Hst) as (s' & E & Hr & _). unfold released. by rewrite E.
Qed.
