(* ===== verification/BootProofs.v ===== *)
(** [page_init]: the free list built at boot, and the first state in which
    [rel] holds. *)
From S2P Require Import Prelude Mmu Queue Memory Pmap PmapSpec VmSteps.

Section page_init.
Context (s : pmap) (k : Z).
Context (Hn : npage s ≤ PAGE_LIMIT) (Hk : 0 ≤ k < npage s).

(** Marking the pages below [freemem]; one iteration per page is enough fuel. *)
Lemma mark_used_ok fuel i s0 :
  npage s0 = npage s → freemem s0 = KERNBASE + k * 4096 →
  0 ≤ i ≤ k → (Z.to_nat (k - i) < fuel)%nat →
  ∃ m, mark_used fuel i s0 = Ok k (set_refs (λ _, m) s0) ∧
    ∀ p, default 0 (m !! p) = if decide (i ≤ p < k) then 1 else ref s0 p.
Proof.
  revert i s0. induction fuel as [|fuel IH]; intros i s0 Hn0 Hf Hi Hfuel; [lia|].
  cbn [mark_used]. unfold page2kva, bind at 1.
  rewrite KADDR_page by lia. unfold bind at 1, gets. rewrite Hf, page2pa_eq by (unfold PAGE_LIMIT in *; lia).
  destruct (Z.ltb_spec (KERNBASE + i * 4096) (KERNBASE + k * 4096)) as [Hlt|Hge].
  - unfold set_ref, modify, bind.
    destruct (IH (i + 1) (set_refs (<[i := u16 1]>) s0)) as (m & E & Hm); cbn; try done; try lia.
    exists m. split; [by rewrite E|]. intros p. rewrite Hm. rewrite ref_insert.
    repeat case_decide; try lia; done.
  - assert (i = k) as -> by lia. exists (pp_ref s0). split; [by destruct s0|].
    intros p. by rewrite decide_False by lia.
Qed.

End page_init.

(** Inserting the remaining pages, in increasing order, at the head. *)
Lemma insert_all_ok (L : list Z) s0 :
  LIST_rep (page_free_list s0) [] → NoDup L →
  ∃ l, for_each L (λ i, l <- gets page_free_list ;;
                        modify (set_free (LIST.LIST_INSERT_HEAD i l))) s0 = Ok tt (set_free l s0) ∧
    LIST_rep l (reverse L).
Proof.
  intros Hl Hnd.
  destruct (for_each_inv (λ d s', ∃ l, s' = set_free l s0 ∧ LIST_rep l (reverse d)) L
    (λ i, l <- gets page_free_list ;; modify (set_free (LIST.LIST_INSERT_HEAD i l))))
    with (s := s0) as (s' & E & l & -> & Hrep).
  - intros d x rest s' HL (l & -> & Hrep). eexists. split; [done|]. cbn.
    exists (LIST.LIST_INSERT_HEAD x l). split; [done|]. rewrite reverse_app. cbn.
    apply LIST_insert_head_rep; [done|]. rewrite elem_of_reverse. subst L.
    apply NoDup_app in Hnd as (_ & Hd & _). intros Hx. apply (Hd x Hx). set_solver.
  - exists (page_free_list s0). by destruct s0.
  - rewrite E. eauto.
Qed.
Definition boot_vm (s : pmap) (fl : list Z) : vm := MkVm ∅ ∅ ∅ (pp_ref s) fl.

(** The state [page_init] leaves *)
Lemma page_init_run s k :
  0 ≤ npage s ≤ PAGE_LIMIT → 0 ≤ k < npage s →
  ROUND (freemem s) BY2PG = KERNBASE + k * 4096 → pp_ref s = ∅ →
  ∃ l m, page_init s = Ok tt (set_free l (set_refs (λ _, m) (set_freemem (ROUND (freemem s) BY2PG) s))) ∧
    (∀ p, default 0 (m !! p) = if decide (0 ≤ p < k) then 1 else 0) ∧
    LIST_rep l (reverse (seqZ k (npage s - k))).
Proof.
  intros Hn Hk Hf Hz. unfold page_init. do 4 step.
  unfold bind at 1, gets at 1. cbn [npage set_freemem set_free].
  destruct (mark_used_ok s k ltac:(lia) Hk (S (Z.to_nat (npage s))) 0
    (set_freemem (ROUND (freemem s) BY2PG) (set_free (LIST.LIST_INIT (page_free_list s)) s)))
    as (m & E & Hm); cbn; try done; try lia.
  rewrite (bind_ok _ _ _ _ _ E).
  match goal with |- context [for_each ?L ?b ?s0] =>
    destruct (insert_all_ok L s0) as (l & -> & Hl) end;
    [apply LIST_init_rep|apply NoDup_seqZ|].
  exists l, m. split; [reflexivity|]. split; [|exact Hl].
  intros p. rewrite Hm. case_decide; [done|]. unfold ref. cbn. by rewrite Hz, lookup_empty.
Qed.

(** A state in which the pages below [k] are held and the others free *)
Lemma boot_rel s k : 0 ≤ npage s ≤ PAGE_LIMIT → 0 ≤ k < npage s →
  (∀ p, ref s p = if decide (0 ≤ p < k) then 1 else 0) →
  LIST_rep (page_free_list s) (reverse (seqZ k (npage s - k))) →
  rel s (boot_vm s (reverse (seqZ k (npage s - k)))).
Proof.
  intros Hn Hk Hm Hl.
  assert (Hin : ∀ p, p ∈ reverse (seqZ k (npage s - k)) ↔ k ≤ p < npage s).
  { intros p. rewrite elem_of_reverse, elem_of_seqZ. lia. }
  split; cbn.
  - split; cbn; try done; try (intros; unfold pin; cbn; fold (ref s p); rewrite Hm; case_decide; lia).
    intros p Hp%Hin. lia.
  - done.
  - split; cbn.
    + intros p Hp%Hin. rewrite Hm, decide_False by lia. done.
    + intros p [? H]. cbn in H. by rewrite lookup_empty in H.
    + intros p Hp _. unfold pin. cbn. unfold count. rewrite map_filter_empty, map_size_empty. unfold ref. lia.
    + intros p. rewrite Hm. case_decide; lia.
  - split; cbn; [set_solver|]. intros d i t j H. cbn in H. by rewrite lookup_empty in H.
Qed.

Lemma page_init_ok s k :
  0 ≤ npage s ≤ PAGE_LIMIT → 0 ≤ k < npage s →
  ROUND (freemem s) BY2PG = KERNBASE + k * 4096 → pp_ref s = ∅ →
  ∃ s', page_init s = Ok tt s' ∧ npage s' = npage s ∧ mem s' = mem s ∧
    (∀ p, ref s' p = if decide (0 ≤ p < k) then 1 else 0) ∧
    rel s' (boot_vm s' (reverse (seqZ k (npage s - k)))).
Proof.
  intros Hn Hk Hf Hz. destruct (page_init_run s k Hn Hk Hf Hz) as (l & m & E & Hm & Hl).
  eexists. split; [exact E|]. split; [done|]. split; [done|]. split; [exact Hm|].
  by apply (boot_rel (set_free l (set_refs (λ _, m) (set_freemem (ROUND (freemem s) BY2PG) s))) k).
Qed.
