(* ===== verification/PmapProps.v ===== *)
(** Properties of kern/pmap.c and include/mmu.h, and a small concrete machine
    on which their hypotheses hold. *)
From S2P Require Import Prelude Mmu Queue Memory Pmap PmapSpec VmSteps BootProofs.

(** * A machine with eight pages

    Page 0 holds a page directory, pages 3 and 4 are free; page 5 is a
    user's, not mapped in [w_state] and mapped at UTEXT in [w_mapped]. *)
Definition w_state : pmap :=
  MkPmap PMEMSIZE 8 (KERNBASE + 4096) KERNBASE {[0 := 1]}
    (LIST.LIST_INSERT_HEAD 3 (LIST.LIST_INSERT_HEAD 4 (LIST.Mk None ∅)))
    (page2pa 0) ∅ [] 0.
Definition w_vm : vm := MkVm {[0]} ∅ ∅ {[0 := 1]} [3; 4].

Definition w_mapped : pmap :=
  match page_insert (page2pa 0) 1 5 UTEXT PTE_W w_state with Ok _ s => s | _ => w_state end.
Definition w_mapped_vm : vm :=
  match spec_insert w_vm 0 (VPN UTEXT) 5 PTE_W with Some A => A | None => w_vm end.

Lemma load_empty a : load ∅ a = 0.
Proof. reflexivity. Qed.

Lemma w_rel : rel w_state w_vm.
Proof.
  assert (Hpin : ∀ p, pin w_vm p = if decide (0 = p) then 1 else 0).
  { intros p. unfold pin. cbn. rewrite lookup_singleton. by case_decide. }
  split.
  - split; try rewrite Hpin; cbn; try done.
    + intros p. rewrite !elem_of_cons, elem_of_nil. lia.
    + intros d ->%elem_of_singleton. rewrite Hpin. done.
    + intros p. rewrite Hpin. case_decide; lia.
  - apply LIST_insert_head_rep; [|set_solver]. apply LIST_insert_head_rep; [|set_solver].
    split_and!; [done|done|constructor].
  - assert (Href : ∀ p, ref w_state p = if decide (0 = p) then 1 else 0).
    { intros p. unfold ref. cbn. rewrite lookup_singleton. by case_decide. }
    split.
    + intros p. cbn. rewrite Href, !elem_of_cons, elem_of_nil. case_decide; [lia|done].
    + intros p [k Hk]. cbn in Hk. by rewrite lookup_empty in Hk.
    + intros p _ _. rewrite Href, Hpin. unfold count. cbn.
      by rewrite map_filter_empty, map_size_empty.
    + intros p. rewrite Href. case_decide; lia.
  - split; cbn.
    + intros d i _ _. by rewrite lookup_empty, load_empty.
    + intros d i t j H. by rewrite lookup_empty in H.
Qed.

Lemma w_dir : 0 ∈ dirs w_vm.
Proof. cbn. set_solver. Qed.

Lemma w_insertable : insertable w_state w_vm 5 PTE_W.
Proof.
  split; try done.
  - cbn. rewrite !elem_of_cons, elem_of_nil. lia.
  - intros [k Hk]. cbn in Hk. by rewrite lookup_empty in Hk.
Qed.

Lemma w_mapped_rel : rel w_mapped w_mapped_vm.
Proof.
  pose proof (page_insert_ok _ _ 0 UTEXT 1 5 PTE_W w_rel w_dir ltac:(done) w_insertable) as H.
  unfold w_mapped, w_mapped_vm. destruct (spec_insert _ _ _ _ _) as [A|] eqn:E; [|done].
  destruct H as (s' & -> & Hrel & _). done.
Qed.

Lemma w_mapped_dir : 0 ∈ dirs w_mapped_vm.
Proof. exact w_dir. Qed.

(** * The user address space is a map *)

(** C1. [page_insert] implements insertion in the map (directory, page number)
    -> (page, permission): a mapping of the same page is updated in place, a
    mapping of another page is removed first (freeing that page with its last
    reference), a missing table comes from the free list, and with an empty
    free list the call returns -E_NO_MEM and changes nothing.  No page that
    holds data is written. *)
Theorem page_insert_refines s A d va asid p perm :
  rel s A → d ∈ dirs A → 0 ≤ va < UTOP → insertable s A p perm →
  match spec_insert A d (VPN va) p perm with
  | Some A' => ∃ s', page_insert (page2pa d) asid p va perm s = Ok tt s' ∧ rel s' A' ∧
                 data_kept A' (mem s) (mem s')
  | None => page_insert (page2pa d) asid p va perm s = Err (- E_NO_MEM) s
  end.
Proof.
  intros Hrel Hd Hva Hp. pose proof (page_insert_ok s A d va asid p perm Hrel Hd Hva Hp) as H.
  destruct (spec_insert A d (VPN va) p perm); [|done]. destruct H as (s' & ? & ? & _ & _ & ?). eauto.
Qed.

Lemma page_insert_refines_witness :
  match spec_insert w_vm 0 (VPN UTEXT) 5 PTE_W with
  | Some A' => ∃ s', page_insert (page2pa 0) 1 5 UTEXT PTE_W w_state = Ok tt s' ∧ rel s' A' ∧
                 data_kept A' (mem w_state) (mem s')
  | None => page_insert (page2pa 0) 1 5 UTEXT PTE_W w_state = Err (- E_NO_MEM) w_state
  end.
Proof.
  apply (page_insert_refines w_state w_vm 0 UTEXT 1 5 PTE_W w_rel w_dir); [done|].
  exact w_insertable.
Defined.

(** C3. [page_remove] deletes the mapping at [va] and nothing else, gives the
    page back to the free list exactly when this was its last reference, and
    does not fail when nothing is mapped there; the contents of every page
    still mapped are kept. *)
Theorem page_remove_refines s A d va asid :
  rel s A → d ∈ dirs A → 0 ≤ va < UTOP →
  ∃ s', page_remove (page2pa d) asid va s = Ok tt s' ∧ rel s' (spec_remove A d (VPN va)) ∧
    data_kept (spec_remove A d (VPN va)) (mem s) (mem s').
Proof.
  intros Hrel Hd Hva. destruct (page_remove_ok s A d va asid Hrel Hd Hva) as (s' & ? & ? & _ & _ & ?).
  eauto.
Qed.

Lemma page_remove_refines_witness :
  ∃ s', page_remove (page2pa 0) 1 UTEXT w_mapped = Ok tt s' ∧
    rel s' (spec_remove w_mapped_vm 0 (VPN UTEXT)) ∧
    data_kept (spec_remove w_mapped_vm 0 (VPN UTEXT)) (mem w_mapped) (mem s').
Proof.
  apply (page_remove_refines w_mapped w_mapped_vm 0 UTEXT 1 w_mapped_rel w_mapped_dir). done.
Defined.

(** [page_lookup] returns the page the map holds at [va], with the address
    of its entry, null when there is none, and changes nothing. *)
Theorem page_lookup_correct s A d va :
  rel s A → d ∈ dirs A → 0 ≤ va < UTOP →
  ∃ r, page_lookup (page2pa d) va s = Ok r s ∧
    fst <$> r = fst <$> maps A !! (d, VPN va).
Proof.
  intros Hrel Hd Hva. rewrite (page_lookup_ok s A Hrel d va Hd Hva). eexists. split; [done|].
  destruct (maps A !! (d, VPN va)) as [[p f]|] eqn:Hm; [|done].
  destruct (wf_map _ _ (rel_wf _ _ Hrel) _ _ _ _ Hm) as (_ & [t Ht] & _).
  destruct (vpn_range d va Hva) as (_ & _ & Hvi & _). rewrite Hvi in Ht. by rewrite Ht.
Qed.

Lemma page_lookup_correct_witness :
  ∃ r, page_lookup (page2pa 0) UTEXT w_mapped = Ok r w_mapped ∧
    fst <$> r = fst <$> maps w_mapped_vm !! (0, VPN UTEXT).
Proof.
  apply (page_lookup_correct w_mapped w_mapped_vm 0 UTEXT w_mapped_rel w_mapped_dir). done.
Defined.

(** [page_alloc] takes the head of the free list and clears it: every word
    of the page reads 0, nobody maps or references it; with an empty free list
    it returns -E_NO_MEM and changes nothing. *)
Theorem page_alloc_spec s A :
  rel s A →
  match free A with
  | [] => page_alloc s = Err (- E_NO_MEM) s
  | p :: fl =>
      ∃ s', page_alloc s = Ok p s' ∧ rel s' (set_vfree fl A) ∧ ref s' p = 0 ∧
        (∀ i, 0 ≤ i < 1024 → load (mem s') (page2pa p + 4 * i) = 0) ∧
        (∀ k q f, maps A !! k = Some (q, f) → q ≠ p)
  end.
Proof.
  intros Hrel. destruct (free A) as [|p fl] eqn:Hf; [by eapply page_alloc_empty|].
  assert (Hin : p ∈ free A) by (rewrite Hf; set_solver).
  destruct (page_alloc_eq s A Hrel p fl Hf) as (l' & -> & Hl').
  destruct (free_page s A Hrel p Hin) as [_ Hp].
  eexists. split; [done|]. split_and!.
  - by apply rel_alloc.
  - by apply (rr_free _ _ (rel_refs _ _ Hrel)).
  - intros i Hi. cbn. rewrite load_clear_page by done. by rewrite decide_True.
  - intros k q f Hk ->. by apply (free_not_mapped s A Hrel p k f Hin).
Qed.

Lemma page_alloc_spec_witness :
  ∃ s', page_alloc w_mapped = Ok 4 s' ∧ rel s' (set_vfree [] w_mapped_vm) ∧ ref s' 4 = 0 ∧
    (∀ i, 0 ≤ i < 1024 → load (mem s') (page2pa 4 + 4 * i) = 0) ∧
    (∀ k q f, maps w_mapped_vm !! k = Some (q, f) → q ≠ 4).
Proof. exact (page_alloc_spec w_mapped w_mapped_vm w_mapped_rel). Defined.

(** C2. From the state [page_init] leaves, any sequence of allocations,
    reference changes, insertions, removals and table or directory releases
    that clients may perform succeeds, and afterwards no page of the free list
    is referenced or visible through any page directory, while every other
    page's [pp_ref] is the number of its mappings plus the references taken. *)
Theorem reachable_pages_safe s k s0 os A :
  0 ≤ npage s ≤ PAGE_LIMIT → 0 ≤ k < npage s →
  ROUND (freemem s) BY2PG = KERNBASE + k * 4096 → pp_ref s = ∅ →
  page_init s = Ok tt s0 →
  vm_steps (npage s) (boot_vm s0 (reverse (seqZ k (npage s - k)))) os A →
  ∃ s', for_each os run_op s0 = Ok tt s' ∧ LIST_rep (page_free_list s') (free A) ∧
    (∀ p, p ∈ free A → ref s' p = 0 ∧
       ∀ d va pte, d ∈ dirs A → 0 ≤ va < UTOP →
         page_lookup (page2pa d) va s' ≠ Ok (Some (p, pte)) s') ∧
    (∀ p, usable A (npage s) p → ref s' p = count p (maps A) + pin A p).
Proof.
  intros Hn Hk Hf Hz E Hst. destruct (page_init_ok s k Hn Hk Hf Hz) as (s1 & E1 & Hn1 & _ & _ & Hrel).
  rewrite E in E1. injection E1 as <-.
  destruct (sim_steps (npage s) s0 _ os A Hrel Hn1 Hst) as (s' & E' & Hrel' & Hn').
  exists s'. split_and!; [done|apply Hrel'| |].
  - intros p Hp. split; [by apply Hrel'|]. intros d va pte Hd Hva.
    rewrite (page_lookup_ok s' A Hrel' d va Hd Hva).
    destruct (maps A !! (d, VPN va)) as [[q f]|] eqn:Hm; [|done].
    destruct (tabs A !! (d, PDX va)); [|done]. intros [= -> _].
    by apply (free_not_mapped s' A Hrel' p _ f Hp Hm).
  - intros p (Hp & _ & Hnt). rewrite <- Hn' in Hp. by apply Hrel'.
Qed.

(** The state before [page_init] of a machine with eight pages *)
Definition w_boot : pmap := MkPmap PMEMSIZE 8 (KERNBASE + 5000) KERNBASE ∅ (LIST.Mk None ∅) 0 ∅ [] 0.
Definition w_booted : pmap := match page_init w_boot with Ok _ s => s | _ => w_boot end.

Lemma w_booted_eq : page_init w_boot = Ok tt w_booted.
Proof. vm_compute. reflexivity. Qed.

Definition w_trace_end (s0 : pmap) : vm :=
  set_vfree [5; 4; 3; 2] (spec_new_dir (boot_vm s0 [7; 6; 5; 4; 3; 2]) 7 [6; 5; 4; 3; 2]).

Lemma w_trace s0 :
  vm_steps 8 (boot_vm s0 (reverse (seqZ 2 (8 - 2)))) [OpNewDir; OpAlloc] (w_trace_end s0).
Proof.
  econstructor; [by apply (step_new_dir _ _ 7)|]. econstructor; [|constructor].
  by apply (step_alloc _ _ 6).
Qed.

Lemma reachable_pages_safe_witness :
  ∃ s', for_each [OpNewDir; OpAlloc] run_op w_booted = Ok tt s' ∧
    LIST_rep (page_free_list s') [5; 4; 3; 2] ∧ ref s' 5 = 0.
Proof.
  destruct (reachable_pages_safe w_boot 2 w_booted [OpNewDir; OpAlloc] (w_trace_end w_booted)
    ltac:(done) ltac:(done) eq_refl eq_refl w_booted_eq (w_trace w_booted)) as (s' & E & Hl & Hs & _).
  exists s'. split_and!; [exact E|exact Hl|]. apply Hs. apply list_elem_of_here.
Defined.

(** [page_init] rounds [freemem] up, marks exactly the pages below it as
    used and puts all others on the free list, and terminates within one
    iteration per page. *)
Theorem page_init_spec s k :
  0 ≤ npage s ≤ PAGE_LIMIT → 0 ≤ k < npage s →
  ROUND (freemem s) BY2PG = KERNBASE + k * 4096 → pp_ref s = ∅ →
  ∃ s', page_init s = Ok tt s' ∧
    (∀ p, ref s' p = if decide (0 ≤ p < k) then 1 else 0) ∧
    LIST_rep (page_free_list s') (reverse (seqZ k (npage s - k))) ∧
    rel s' (boot_vm s' (reverse (seqZ k (npage s - k)))).
Proof.
  intros Hn Hk Hf Hz. destruct (page_init_ok s k Hn Hk Hf Hz) as (s' & E & _ & _ & Hr & Hrel).
  exists s'. split_and!; try done. apply Hrel.
Qed.

Lemma page_init_spec_witness :
  ∃ s', page_init w_boot = Ok tt s' ∧
    (∀ p, ref s' p = if decide (0 ≤ p < 2) then 1 else 0) ∧
    LIST_rep (page_free_list s') [7; 6; 5; 4; 3; 2] ∧
    rel s' (boot_vm s' [7; 6; 5; 4; 3; 2]).
Proof. apply (page_init_spec w_boot 2); [done|done|reflexivity|reflexivity]. Defined.

(** Decoding the entry [page_insert] writes for page [pp] gives back that
    page and the stored flags, which always contain PTE_V and contain PTE_R
    whenever PTE_W was asked for. *)
Theorem pte_roundtrip pp perm :
  0 ≤ pp < PAGE_LIMIT → 0 ≤ perm < 1024 →
  PTE_ADDR (entry_of pp perm) = page2pa pp ∧ PA2IDX (PTE_ADDR (entry_of pp perm)) = pp ∧
  Z.land (entry_of pp perm) 0x3FF = perm_flags perm ∧ has (entry_of pp perm) PTE_V = true ∧
  (has perm PTE_W = true → has (entry_of pp perm) PTE_R = true).
Proof.
  intros Hpp Hperm. pose proof (perm_flags_bound perm Hperm) as Hb.
  destruct (page2pa_range pp Hpp) as [Hpa Hal]. rewrite entry_of_flags.
  rewrite PTE_ADDR_pte, PA2IDX_page2pa, pte_perm by done. split_and!; try done.
  - rewrite entry_V by done. apply perm_flags_V.
  - intros HW. change PTE_R with (2 ^ 1). rewrite has_testbit, pte_flags by lia.
    unfold perm_flags. rewrite HW, !Z.lor_spec. change PTE_R with (2 ^ 1).
    by rewrite Z.pow2_bits_true, orb_true_r by lia.
Qed.

Lemma pte_roundtrip_witness : PTE_ADDR (entry_of 100 PTE_W) = page2pa 100.
Proof. apply (pte_roundtrip 100 PTE_W); done. Defined.

(** The indices of an address made from them *)
Lemma va_indices pdeno pteno off :
  0 ≤ pdeno < 1024 → 0 ≤ pteno < 1024 → 0 ≤ off < BY2PG →
  let va := Z.lor (Z.lor (Z.shiftl pdeno PDSHIFT) (Z.shiftl pteno PGSHIFT)) off in
  PDX va = pdeno ∧ PTX va = pteno ∧ VPN va = pdeno * 1024 + pteno ∧ 0 ≤ va < 2 ^ 32.
Proof.
  intros Hd Ht Ho va. assert (Hva : va = pdeno * 2 ^ 22 + pteno * 4096 + off).
  { subst va. unfold PDSHIFT, PGSHIFT, BY2PG in *.
    rewrite (lor_shiftl_add pdeno) by (rewrite ?Z.shiftl_mul_pow2 by lia; lia).
    replace (pdeno * 2 ^ 22 + Z.shiftl pteno 12) with (Z.shiftl (pdeno * 1024 + pteno) 12)
      by (rewrite !Z.shiftl_mul_pow2 by lia; lia).
    rewrite lor_shiftl_add by lia. lia. }
  clearbody va. unfold BY2PG in *. assert (Hb : 0 ≤ va < 2 ^ 32) by lia.
  assert (HV : va / 4096 = pdeno * 1024 + pteno).
  { rewrite Hva. replace (pdeno * 2 ^ 22 + pteno * 4096 + off)
      with (off + (pdeno * 1024 + pteno) * 4096) by lia.
    rewrite Z.div_add, Z.div_small by lia. lia. }
  rewrite PDX_div, PTX_div by lia. change (2 ^ 22) with (4096 * 1024). change (2 ^ 12) with 4096.
  rewrite <- Z.div_div by lia. unfold VPN. rewrite Z.shiftr_div_pow2 by lia.
  change (2 ^ 12) with 4096. rewrite HV, PDX_vpn by lia. split_and!; try done; try lia.
  rewrite Z.add_comm, Z.mod_add, Z.mod_small by lia. done.
Qed.

(** A user virtual address is rebuilt from its directory index, table
    index and page offset the way [env_free] does, and the indices of the
    rebuilt address are the original ones. *)
Theorem va_roundtrip pdeno pteno off :
  0 ≤ pdeno < 1024 → 0 ≤ pteno < 1024 → 0 ≤ off < BY2PG →
  let va := Z.lor (Z.lor (Z.shiftl pdeno PDSHIFT) (Z.shiftl pteno PGSHIFT)) off in
  PDX va = pdeno ∧ PTX va = pteno ∧ VPN va = pdeno * 1024 + pteno ∧ 0 ≤ va < 2 ^ 32.
Proof. apply va_indices. Qed.

Lemma va_roundtrip_witness :
  PDX (Z.lor (Z.lor (Z.shiftl 3 PDSHIFT) (Z.shiftl 5 PGSHIFT)) 9) = 3.
Proof. apply (va_roundtrip 3 5 9); done. Defined.
