(* ===== verification/QueueProps.v ===== *)
(** The macros of include/queue.h implement finite sequences: whole programs of
    list operations, executed on the pointers, against the same programs on
    Rocq lists. *)
From S2P Require Import Prelude Queue.

Inductive qop :=
| InsHead (n : Z)
| InsTail (n : Z)
| InsAfter (x n : Z)
| InsBefore (x n : Z)
| Remove (n : Z).

Fixpoint runs {A} (f : qop → A → option A) (ops : list qop) (a : A) : option A :=
  match ops with
  | [] => Some a
  | o :: ops' => a' ← f o a; runs f ops' a'
  end.

(** * Reference operations on lists *)

Fixpoint ins_after (x n : Z) (l : list Z) : list Z :=
  match l with
  | [] => []
  | y :: l' => if decide (y = x) then y :: n :: l' else y :: ins_after x n l'
  end.

Fixpoint ins_before (x n : Z) (l : list Z) : list Z :=
  match l with
  | [] => []
  | y :: l' => if decide (y = x) then n :: y :: l' else y :: ins_before x n l'
  end.

Fixpoint del (n : Z) (l : list Z) : list Z :=
  match l with
  | [] => []
  | y :: l' => if decide (y = n) then l' else y :: del n l'
  end.

(** [None] when an element inserted is already present or one referred to is not. *)
Definition q_spec (o : qop) (l : list Z) : option (list Z) :=
  match o with
  | InsHead n => guard (n ∉ l) ;; Some (n :: l)
  | InsTail n => guard (n ∉ l) ;; Some (l ++ [n])
  | InsAfter x n => guard (x ∈ l ∧ n ∉ l) ;; Some (ins_after x n l)
  | InsBefore x n => guard (x ∈ l ∧ n ∉ l) ;; Some (ins_before x n l)
  | Remove n => guard (n ∈ l) ;; Some (del n l)
  end%stdpp.

Definition is_tail_op (o : qop) : bool := match o with InsTail _ => true | _ => false end.

Definition list_run (o : qop) (h : LIST.t) : option LIST.t :=
  match o with
  | InsHead n => Some (LIST.LIST_INSERT_HEAD n h)
  | InsTail _ => None
  | InsAfter x n => Some (LIST.LIST_INSERT_AFTER x n h)
  | InsBefore x n => LIST.LIST_INSERT_BEFORE x n h
  | Remove n => LIST.LIST_REMOVE n h
  end.

Definition tailq_run (o : qop) (h : TAILQ.t) : option TAILQ.t :=
  match o with
  | InsHead n => Some (TAILQ.TAILQ_INSERT_HEAD n h)
  | InsTail n => TAILQ.TAILQ_INSERT_TAIL n h
  | InsAfter x n => Some (TAILQ.TAILQ_INSERT_AFTER x n h)
  | InsBefore x n => TAILQ.TAILQ_INSERT_BEFORE x n h
  | Remove n => TAILQ.TAILQ_REMOVE n h
  end.

Lemma ins_after_app x n l1 l2 : x ∉ l1 → ins_after x n (l1 ++ x :: l2) = l1 ++ x :: n :: l2.
Proof.
  induction l1 as [|y l1 IH]; cbn; intros Hx; [by rewrite decide_True|].
  rewrite decide_False by set_solver. f_equal. apply IH. set_solver.
Qed.

Lemma ins_before_app x n l1 l2 : x ∉ l1 → ins_before x n (l1 ++ x :: l2) = l1 ++ n :: x :: l2.
Proof.
  induction l1 as [|y l1 IH]; cbn; intros Hx; [by rewrite decide_True|].
  rewrite decide_False by set_solver. f_equal. apply IH. set_solver.
Qed.

Lemma del_app n l1 l2 : n ∉ l1 → del n (l1 ++ n :: l2) = l1 ++ l2.
Proof.
  induction l1 as [|y l1 IH]; cbn; intros Hx; [by rewrite decide_True|].
  rewrite decide_False by set_solver. f_equal. apply IH. set_solver.
Qed.

(** First occurrence of an element *)
Lemma split_first (x : Z) l : x ∈ l → ∃ l1 l2, l = l1 ++ x :: l2 ∧ x ∉ l1.
Proof. intros H. by apply list_elem_of_split_l in H. Qed.

Lemma list_run_ok o h l l' :
  LIST_rep h l → is_tail_op o = false → q_spec o l = Some l' →
  ∃ h', list_run o h = Some h' ∧ LIST_rep h' l'.
Proof.
  intros Hr Ht Hs. destruct o as [n|n|x n|x n|n]; cbn in *; try done.
  - case_guard; simplify_eq/=. eauto using LIST_insert_head_rep.
  - case_guard as HG; simplify_eq/=. destruct HG as [Hx Hn].
    destruct (split_first x l Hx) as (l1 & l2 & -> & H1). rewrite ins_after_app by done.
    eauto using LIST_insert_after_rep.
  - case_guard as HG; simplify_eq/=. destruct HG as [Hx Hn].
    destruct (split_first x l Hx) as (l1 & l2 & -> & H1). rewrite ins_before_app by done.
    by apply LIST_insert_before_rep.
  - case_guard as Hx; simplify_eq/=.
    destruct (split_first n l Hx) as (l1 & l2 & -> & H1). rewrite del_app by done.
    by apply LIST_remove_rep.
Qed.

Lemma tailq_run_ok o h l l' :
  TAILQ_rep h l → q_spec o l = Some l' → ∃ h', tailq_run o h = Some h' ∧ TAILQ_rep h' l'.
Proof.
  intros Hr Hs. destruct o as [n|n|x n|x n|n]; cbn in *.
  - case_guard; simplify_eq/=. eauto using TAILQ_insert_head_rep.
  - case_guard; simplify_eq/=. by apply TAILQ_insert_tail_rep.
  - case_guard as HG; simplify_eq/=. destruct HG as [Hx Hn].
    destruct (split_first x l Hx) as (l1 & l2 & -> & H1). rewrite ins_after_app by done.
    eauto using TAILQ_insert_after_rep.
  - case_guard as HG; simplify_eq/=. destruct HG as [Hx Hn].
    destruct (split_first x l Hx) as (l1 & l2 & -> & H1). rewrite ins_before_app by done.
    by apply TAILQ_insert_before_rep.
  - case_guard as Hx; simplify_eq/=.
    destruct (split_first n l Hx) as (l1 & l2 & -> & H1). rewrite del_app by done.
    by apply TAILQ_remove_rep.
Qed.

(** Any sequence of LIST_INSERT_HEAD/AFTER/BEFORE and LIST_REMOVE that is
    meaningful on a list of distinct elements runs on the pointers without a
    null access, starting from LIST_INIT, and leaves the pointers of exactly the
    resulting list, whose head LIST_FIRST returns. *)
Theorem list_refines ops h l :
  forallb (λ o, negb (is_tail_op o)) ops = true → runs q_spec ops [] = Some l →
  ∃ h', runs list_run ops (LIST.LIST_INIT h) = Some h' ∧ LIST_rep h' l ∧
    LIST.LIST_FIRST h' = head l ∧ LIST.LIST_EMPTY h' = bool_decide (l = []).
Proof.
  intros Ht Hs. cut (∀ h0 l0, LIST_rep h0 l0 → runs q_spec ops l0 = Some l →
    ∃ h', runs list_run ops h0 = Some h' ∧ LIST_rep h' l).
  { intros H. destruct (H _ [] (LIST_init_rep h) Hs) as (h' & E & Hr). exists h'.
    split_and!; auto using LIST_first_rep, LIST_empty_rep. }
  clear Hs. induction ops as [|o ops IH]; cbn in *; intros h0 l0 Hr Hs.
  - simplify_eq. eauto.
  - apply andb_true_iff in Ht as [Ho%negb_true_iff Ht].
    apply bind_Some in Hs as (l1 & E1 & E2).
    destruct (list_run_ok o h0 l0 l1 Hr Ho E1) as (h1 & E & Hr1). rewrite E. cbn. eauto.
Qed.

Lemma list_refines_witness :
  ∃ h', runs list_run [InsHead 1; InsHead 2; InsAfter 2 3; InsBefore 1 4; Remove 3]
          (LIST.LIST_INIT (LIST.Mk None ∅)) = Some h' ∧ LIST_rep h' [2; 4; 1] ∧
    LIST.LIST_FIRST h' = Some 2 ∧ LIST.LIST_EMPTY h' = false.
Proof. by apply (list_refines _ (LIST.Mk None ∅) [2; 4; 1]). Defined.

(** C4. The same for TAILQ, with insertion at the tail. *)
Theorem tailq_refines ops h l :
  runs q_spec ops [] = Some l →
  ∃ h', runs tailq_run ops (TAILQ.TAILQ_INIT h) = Some h' ∧ TAILQ_rep h' l ∧
    TAILQ.TAILQ_FIRST h' = head l ∧ TAILQ.TAILQ_EMPTY h' = bool_decide (l = []).
Proof.
  intros Hs. cut (∀ h0 l0, TAILQ_rep h0 l0 → runs q_spec ops l0 = Some l →
    ∃ h', runs tailq_run ops h0 = Some h' ∧ TAILQ_rep h' l).
  { intros H. destruct (H _ [] (TAILQ_init_rep h) Hs) as (h' & E & Hr). exists h'.
    split_and!; auto using TAILQ_first_rep, TAILQ_empty_rep. }
  clear Hs. induction ops as [|o ops IH]; cbn in *; intros h0 l0 Hr Hs.
  - simplify_eq. eauto.
  - apply bind_Some in Hs as (l1 & E1 & E2).
    destruct (tailq_run_ok o h0 l0 l1 Hr E1) as (h1 & E & Hr1). rewrite E. cbn. eauto.
Qed.

Lemma tailq_refines_witness :
  ∃ h', runs tailq_run [InsTail 1; InsTail 2; Remove 1; InsTail 1; InsHead 3]
          (TAILQ.TAILQ_INIT (TAILQ.Mk None None ∅)) = Some h' ∧ TAILQ_rep h' [3; 2; 1] ∧
    TAILQ.TAILQ_FIRST h' = Some 3 ∧ TAILQ.TAILQ_EMPTY h' = false.
Proof. by apply (tailq_refines _ (TAILQ.Mk None None ∅) [3; 2; 1]). Defined.
