(* ===== verification/Disk.v ===== *)
(** The virtio block driver: kern/disk_driver.c and include/drivers.

    [vring] is the driver's [disk] structure together with the ring memory it
    shares with the device: descriptors, available ring, used ring, request
    headers, by index.  [reg] gives the values the device's registers read
    while a driver function runs, [mmio_log] the register writes in order.  The
    used ring ([used_flags], [used_idx_dev], [used_id]) is written by the device
    only.  Requests live in physical memory, the [pmap] part of the state. *)
From S2P Require Import Prelude Mmu Queue Memory Pmap.

(** * Constants (include/drivers/virtio_*.h, include/disk.h) *)
Definition VIRTIO_QUEUE_NUM := 32.
Definition VRING_DESC_F_NEXT := 1.
Definition VRING_DESC_F_WRITE := 2.
Definition VIRTIO_BLK_F_RO := 5.
Definition VIRTIO_BLK_F_SCSI := 7.
Definition VIRTIO_BLK_F_CONFIG_WCE := 11.
Definition VIRTIO_BLK_F_MQ := 12.
Definition VIRTIO_F_ANY_LAYOUT := 27.
Definition VIRTIO_RING_F_INDIRECT_DESC := 28.
Definition VIRTIO_RING_F_EVENT_IDX := 29.
Definition VIRTIO_CONFIG_S_ACKNOWLEDGE := 1.
Definition VIRTIO_CONFIG_S_DRIVER := 2.
Definition VIRTIO_CONFIG_S_DRIVER_OK := 4.
Definition VIRTIO_CONFIG_S_FEATURES_OK := 8.
Definition VIRTIO_BLK_T_IN := 0.
Definition VIRTIO_BLK_T_OUT := 1.
Definition VRING_AVAIL_ALIGN_SIZE := 2.
Definition VRING_USED_ALIGN_SIZE := 4.
Definition VRING_DESC_ALIGN_SIZE := 16.
Definition DISK_STATUS_NO_RESP := 0xff.
Definition DISK_BUFFUER_LEN := 512.
Definition SIZEOF_OUTHDR := 16.

Inductive mmio_reg :=
| MAGIC_VALUE | VERSION | DEVICE_ID | VENDOR_ID | DEVICE_FEATURES | DRIVER_FEATURES
| QUEUE_SEL | QUEUE_NUM_MAX | QUEUE_NUM | QUEUE_READY | QUEUE_NOTIFY
| INTERRUPT_STATUS | INTERRUPT_ACK | STATUS
| QUEUE_DESC_LOW | QUEUE_DESC_HIGH | QUEUE_AVAIL_LOW | QUEUE_AVAIL_HIGH
| QUEUE_USED_LOW | QUEUE_USED_HIGH.

#[export] Instance mmio_reg_eq_dec : EqDecision mmio_reg.
Proof. solve_decision. Defined.

(** Offset of a register (include/drivers/virtio_mmio.h) *)
Definition mmio_offset (r : mmio_reg) : Z :=
  match r with
  | MAGIC_VALUE => 0x000 | VERSION => 0x004 | DEVICE_ID => 0x008 | VENDOR_ID => 0x00c
  | DEVICE_FEATURES => 0x010 | DRIVER_FEATURES => 0x020
  | QUEUE_SEL => 0x030 | QUEUE_NUM_MAX => 0x034 | QUEUE_NUM => 0x038
  | QUEUE_READY => 0x044 | QUEUE_NOTIFY => 0x050
  | INTERRUPT_STATUS => 0x060 | INTERRUPT_ACK => 0x064 | STATUS => 0x070
  | QUEUE_DESC_LOW => 0x080 | QUEUE_DESC_HIGH => 0x084
  | QUEUE_AVAIL_LOW => 0x090 | QUEUE_AVAIL_HIGH => 0x094
  | QUEUE_USED_LOW => 0x0a0 | QUEUE_USED_HIGH => 0x0a4
  end.

(** * State *)

Record vring_desc := Desc { d_addr : Z; d_len : Z; d_flags : Z; d_next : Z }.
Record virtio_blk_outhdr := OutHdr { o_type : Z; o_ioprio : Z; o_sector : Z }.

Record vring := MkVring {
  desc_kva : Z; avail_kva : Z; used_kva : Z; outhdr_kva : Z;
  desc : gmap Z vring_desc;
  avail_flags : Z; avail_idx : Z; avail_ring : gmap Z Z;
  used_flags : Z; used_idx_dev : Z; used_id : gmap Z Z;
  desc_free_bitmap : Z;
  outhdr : gmap Z virtio_blk_outhdr;
  used_idx : Z;
  reg : mmio_reg → Z;
  mmio_log : list (mmio_reg * Z)
}.

Definition set_ring_kvas d a u o v := MkVring d a u o (desc v) (avail_flags v) (avail_idx v) (avail_ring v) (used_flags v) (used_idx_dev v) (used_id v) (desc_free_bitmap v) (outhdr v) (used_idx v) (reg v) (mmio_log v).
Definition set_desc f v := MkVring (desc_kva v) (avail_kva v) (used_kva v) (outhdr_kva v) (f (desc v)) (avail_flags v) (avail_idx v) (avail_ring v) (used_flags v) (used_idx_dev v) (used_id v) (desc_free_bitmap v) (outhdr v) (used_idx v) (reg v) (mmio_log v).
Definition set_avail fl i r v := MkVring (desc_kva v) (avail_kva v) (used_kva v) (outhdr_kva v) (desc v) fl i r (used_flags v) (used_idx_dev v) (used_id v) (desc_free_bitmap v) (outhdr v) (used_idx v) (reg v) (mmio_log v).
Definition set_used fl i r v := MkVring (desc_kva v) (avail_kva v) (used_kva v) (outhdr_kva v) (desc v) (avail_flags v) (avail_idx v) (avail_ring v) fl i r (desc_free_bitmap v) (outhdr v) (used_idx v) (reg v) (mmio_log v).
Definition set_bitmap b v := MkVring (desc_kva v) (avail_kva v) (used_kva v) (outhdr_kva v) (desc v) (avail_flags v) (avail_idx v) (avail_ring v) (used_flags v) (used_idx_dev v) (used_id v) b (outhdr v) (used_idx v) (reg v) (mmio_log v).
Definition set_outhdr f v := MkVring (desc_kva v) (avail_kva v) (used_kva v) (outhdr_kva v) (desc v) (avail_flags v) (avail_idx v) (avail_ring v) (used_flags v) (used_idx_dev v) (used_id v) (desc_free_bitmap v) (f (outhdr v)) (used_idx v) (reg v) (mmio_log v).
Definition set_used_idx i v := MkVring (desc_kva v) (avail_kva v) (used_kva v) (outhdr_kva v) (desc v) (avail_flags v) (avail_idx v) (avail_ring v) (used_flags v) (used_idx_dev v) (used_id v) (desc_free_bitmap v) (outhdr v) i (reg v) (mmio_log v).
Definition log_mmio w v := MkVring (desc_kva v) (avail_kva v) (used_kva v) (outhdr_kva v) (desc v) (avail_flags v) (avail_idx v) (avail_ring v) (used_flags v) (used_idx_dev v) (used_id v) (desc_free_bitmap v) (outhdr v) (used_idx v) (reg v) (mmio_log v ++ [w]).

Definition descr (v : vring) (i : Z) : vring_desc := default (Desc 0 0 0 0) (desc v !! i).

(** [*R(r)] and [*R(r) = v] *)
Definition rd_reg (r : mmio_reg) : M vring Z := gets (λ v, reg v r).
Definition wr_reg (r : mmio_reg) (x : Z) : M vring unit := modify (log_mmio (r, x)).

(** The driver's state: its ring and physical memory *)
Record dstate := MkDstate { ring : vring; dpm : pmap }.

#[export, refine] Instance sub_ring : Sub dstate vring := {
  sub_get := ring; sub_set r s := MkDstate r (dpm s) }.
Proof. all: by intros; destruct_and?; repeat match goal with s : dstate |- _ => destruct s end. Defined.

#[export, refine] Instance sub_dpm : Sub dstate pmap := {
  sub_get := dpm; sub_set p s := MkDstate (ring s) p }.
Proof. all: by intros; repeat match goal with s : dstate |- _ => destruct s end. Defined.

(** * Descriptors *)

Fixpoint alloc_desc_from (n : nat) (i : Z) : M vring Z :=
  match n with
  | O => panic "unreachable code"
  | S n' =>
      b <- gets desc_free_bitmap ;;
      if has b (Z.shiftl 1 i) then
        modify (set_bitmap (Z.land b (not32 (Z.shiftl 1 i)))) ;; ret i
      else alloc_desc_from n' (i + 1)
  end.

Definition alloc_desc : M vring Z :=
  b <- gets desc_free_bitmap ;;
  if b =? 0 then ret (- E_NO_RING_DESC)
  else alloc_desc_from (Z.to_nat VIRTIO_QUEUE_NUM) 0.

Definition free_desc (idx : Z) : M vring unit :=
  assert_ ((0 <=? idx) && (idx <? VIRTIO_QUEUE_NUM)) ;;
  b <- gets desc_free_bitmap ;;
  assert_ (negb (has b (Z.shiftl 1 idx))) ;;
  modify (set_bitmap (Z.lor b (Z.shiftl 1 idx))).

(** The remaining [n] rounds of the loop of [alloc_3_desc]; [got] holds
    [idx[0]], ..., [idx[i-1]]. *)
Fixpoint alloc_descs (n : nat) (got : list Z) : M vring (list Z) :=
  match n with
  | O => ret got
  | S n' =>
      i <- alloc_desc ;;
      if i <? 0 then for_each got free_desc ;; err i
      else alloc_descs n' (got ++ [i])
  end.

Definition alloc_3_desc : M vring (list Z) := alloc_descs 3 [].

(** [do ... while (last_flag & VRING_DESC_F_NEXT)].  Every round frees a
    descriptor that was not free, so [VIRTIO_QUEUE_NUM + 1] rounds suffice. *)
Fixpoint free_chain_rounds (fuel : nat) (idx : Z) : M vring unit :=
  match fuel with
  | O => fault "free_chain: out of fuel"
  | S fuel' =>
      d <- gets (λ v, descr v idx) ;;
      free_desc idx ;;
      if has (d_flags d) VRING_DESC_F_NEXT then free_chain_rounds fuel' (d_next d) else ret tt
  end.

Definition free_chain (idx : Z) : M vring unit :=
  free_chain_rounds (S (Z.to_nat VIRTIO_QUEUE_NUM)) idx.

(** * Requests *)

(** [struct virtio_blk_req]: sector at 0, write at 4, status at 5, buf at 6. *)
Definition REQ_WRITE := 4.
Definition REQ_STATUS := 5.
Definition REQ_BUF := 6.

Definition put_desc (i : Z) (d : vring_desc) : M vring unit := modify (set_desc (<[i := d]>)).

(** Publishing descriptor [i0] on the available ring and notifying the device *)
Definition publish (i0 : Z) : M vring unit :=
  v <- gets id ;;
  modify (set_avail (avail_flags v) (avail_idx v)
            (<[avail_idx v mod VIRTIO_QUEUE_NUM := u16 i0]> (avail_ring v))) ;;
  v <- gets id ;;
  modify (set_avail (avail_flags v) (u16 (avail_idx v + 1)) (avail_ring v)) ;;
  f <- gets used_flags ;;
  if f =? 0 then wr_reg QUEUE_NOTIFY 0
  else if negb (f =? 1) then panic "unexpected value of flags" else ret tt.

Definition virtio_disk_req (req : Z) : M dstate unit :=
  if req <? KSTACKTOP then err (- E_INVAL)
  else
    idx <- lift alloc_3_desc ;;
    match idx with
    | [i0; i1; i2] =>
        write <- lift (gets (λ s, load8 (mem s) (req + REQ_WRITE))) ;;
        sector <- lift (rd req) ;;
        let wr := negb (write =? 0) in
        lift (modify (set_outhdr (<[i0 := OutHdr (if wr then VIRTIO_BLK_T_OUT else VIRTIO_BLK_T_IN) 0 sector]>))) ;;
        hdr <- lift (gets outhdr_kva) ;;
        lift (put_desc i0 (Desc (hdr + SIZEOF_OUTHDR * i0) SIZEOF_OUTHDR VRING_DESC_F_NEXT i1)) ;;
        lift (put_desc i1 (Desc (req + REQ_BUF) DISK_BUFFUER_LEN
                             (Z.lor (if wr then 0 else VRING_DESC_F_WRITE) VRING_DESC_F_NEXT) i2)) ;;
        lift (modify (set_mem (store8 (req + REQ_STATUS) DISK_STATUS_NO_RESP))) ;;
        lift (put_desc i2 (Desc (req + REQ_STATUS) 1 VRING_DESC_F_WRITE 0)) ;;
        lift (publish i0)
    | _ => fault "alloc_3_desc"
    end.

(** * Completions *)

(** [while (disk.used_idx != disk.used->idx)]: the difference of the two 16-bit
    counters is the number of rounds. *)
Fixpoint reap (fuel : nat) : M vring unit :=
  match fuel with
  | O => fault "virtio_disk_intr: out of fuel"
  | S fuel' =>
      v <- gets id ;;
      if used_idx v =? used_idx_dev v then ret tt
      else
        free_chain (s32 (default 0 (used_id v !! (used_idx v mod VIRTIO_QUEUE_NUM)))) ;;
        modify (set_used_idx (u16 (used_idx v + 1))) ;;
        reap fuel'
  end.

Definition virtio_disk_intr : M vring unit :=
  st <- rd_reg INTERRUPT_STATUS ;;
  (if negb (st =? 0) then wr_reg INTERRUPT_ACK (Z.land st 0x3) else ret tt) ;;
  v <- gets id ;;
  reap (S (Z.to_nat (u16 (used_idx_dev v - used_idx v)))).

(** * Initialisation *)

Section init.
Context `{LinkerSymbols}.

Definition clear_bit (features k : Z) : Z := Z.land features (not32 (Z.shiftl 1 k)).

(** The features the driver accepts *)
Definition driver_features (features : Z) : Z :=
  foldl clear_bit features
    [VIRTIO_BLK_F_RO; VIRTIO_BLK_F_SCSI; VIRTIO_BLK_F_CONFIG_WCE; VIRTIO_BLK_F_MQ;
     VIRTIO_F_ANY_LAYOUT; VIRTIO_RING_F_INDIRECT_DESC; VIRTIO_RING_F_EVENT_IDX].

Definition SIZEOF_DESC := 16.
Definition SIZEOF_AVAIL := 6 + 2 * VIRTIO_QUEUE_NUM.
Definition SIZEOF_USED := 6 + 8 * VIRTIO_QUEUE_NUM.

Definition virtio_disk_init : M dstate unit :=
  m <- lift (rd_reg MAGIC_VALUE) ;;
  ver <- lift (rd_reg VERSION) ;;
  if negb (m =? 0x74726976) || negb (ver =? 2) then panic "Virtio disk invalid"
  else
    did <- lift (rd_reg DEVICE_ID) ;;
    ven <- lift (rd_reg VENDOR_ID) ;;
    if negb (did =? 2) || negb (ven =? 0x554d4551) then panic "Virtio disk not found"
    else
      lift (wr_reg STATUS 0) ;;
      let status := VIRTIO_CONFIG_S_ACKNOWLEDGE in
      lift (wr_reg STATUS status) ;;
      let status := Z.lor status VIRTIO_CONFIG_S_DRIVER in
      lift (wr_reg STATUS status) ;;
      features <- lift (rd_reg DEVICE_FEATURES) ;;
      lift (wr_reg DRIVER_FEATURES (driver_features features)) ;;
      let status := Z.lor status VIRTIO_CONFIG_S_FEATURES_OK in
      lift (wr_reg STATUS status) ;;
      status <- lift (rd_reg STATUS) ;;
      if negb (has status VIRTIO_CONFIG_S_FEATURES_OK) then panic "Virtio disk FEATURES_OK unset"
      else
        lift (wr_reg QUEUE_SEL 0) ;;
        ready <- lift (rd_reg QUEUE_READY) ;;
        if negb (ready =? 0) then panic "Virtio disk should not be ready"
        else
          max <- lift (rd_reg QUEUE_NUM_MAX) ;;
          if max =? 0 then panic "Virtio disk does not have queue NO.0."
          else if max <? VIRTIO_QUEUE_NUM then panic "Virtio disk queue too short"
          else
            d <- lift (alloc (VIRTIO_QUEUE_NUM * SIZEOF_DESC) VRING_DESC_ALIGN_SIZE true) ;;
            a <- lift (alloc SIZEOF_AVAIL VRING_AVAIL_ALIGN_SIZE true) ;;
            u <- lift (alloc SIZEOF_USED VRING_USED_ALIGN_SIZE true) ;;
            o <- lift (alloc (VIRTIO_QUEUE_NUM * SIZEOF_OUTHDR) SIZEOF_OUTHDR true) ;;
            lift (modify (set_ring_kvas d a u o)) ;;
            lift (modify (set_desc (λ _, ∅))) ;;
            lift (modify (set_avail 1 0 ∅)) ;;
            lift (modify (set_used 0 0 ∅)) ;;
            lift (modify (set_outhdr (λ _, ∅))) ;;
            lift (wr_reg QUEUE_NUM VIRTIO_QUEUE_NUM) ;;
            lift (wr_reg QUEUE_DESC_LOW d) ;;
            lift (wr_reg QUEUE_DESC_HIGH 0) ;;
            lift (wr_reg QUEUE_AVAIL_LOW a) ;;
            lift (wr_reg QUEUE_AVAIL_HIGH 0) ;;
            lift (wr_reg QUEUE_USED_LOW u) ;;
            lift (wr_reg QUEUE_USED_HIGH 0) ;;
            lift (wr_reg QUEUE_READY 1) ;;
            lift (modify (set_bitmap (u32 (Z.shiftl 1 VIRTIO_QUEUE_NUM - 1)))) ;;
            let status := Z.lor status VIRTIO_CONFIG_S_DRIVER_OK in
            lift (wr_reg STATUS status).
End init.
