(* ===== verification/DiskProps.v ===== *)
(** Properties of the virtio block driver: the descriptor bitmap, chains in
    flight, requests and completions. *)
From S2P Require Import Prelude Mmu Queue Memory Pmap Disk.

(** * The bitmap as a list of free indices *)

Definition free_in (b : Z) (l : list Z) : list Z := filter (λ i, Z.testbit b i = true) l.
Definition free_idx (b : Z) : list Z := free_in b (seqZ 0 VIRTIO_QUEUE_NUM).

Definition clear_at (b i : Z) : Z := Z.land b (not32 (Z.shiftl 1 i)).
Definition set_at (b i : Z) : Z := Z.lor b (Z.shiftl 1 i).

Lemma clear_at_spec b i j : 0 ≤ i < 32 → 0 ≤ j < 32 →
  Z.testbit (clear_at b i) j = Z.testbit b j && negb (i =? j).
Proof. intros Hi Hj. unfold clear_at. by rewrite Z.land_spec, testbit_not32_pow. Qed.

Lemma set_at_spec b i j : 0 ≤ i < 32 → 0 ≤ j < 32 →
  Z.testbit (set_at b i) j = Z.testbit b j || (i =? j).
Proof. intros Hi Hj. unfold set_at. by rewrite Z.lor_spec, Z.shiftl_1_l, Z.pow2_bits_eqb by lia. Qed.

Lemma clear_at_bound b i : 0 ≤ clear_at b i < 2 ^ 32.
Proof. apply (land_bound b _ 32); [lia|]. apply u32_bound. Qed.

Lemma set_at_bound b i : 0 ≤ b < 2 ^ 32 → 0 ≤ i < 32 → 0 ≤ set_at b i < 2 ^ 32.
Proof.
  intros Hb Hi. apply lor_bound; [lia|done|]. rewrite Z.shiftl_1_l.
  pose proof (Z.pow_pos_nonneg 2 i). pose proof (Z.pow_lt_mono_r 2 i 32). lia.
Qed.

Lemma bits32_ext a b : 0 ≤ a < 2 ^ 32 → 0 ≤ b < 2 ^ 32 →
  (∀ j, 0 ≤ j < 32 → Z.testbit a j = Z.testbit b j) → a = b.
Proof.
  intros Ha Hb H. apply Z.bits_inj'. intros n Hn. destruct (Z.lt_ge_cases n 32); [by apply H|].
  by rewrite !(testbit_small _ 32) by lia.
Qed.

Lemma set_clear b i : 0 ≤ b < 2 ^ 32 → 0 ≤ i < 32 → Z.testbit b i = true → set_at (clear_at b i) i = b.
Proof.
  intros Hb Hi Ht. pose proof (clear_at_bound b i).
  apply bits32_ext; [by apply set_at_bound|done|]. intros j Hj.
  rewrite set_at_spec, clear_at_spec by done. destruct (Z.eqb_spec i j) as [<-|]; [by rewrite Ht|].
  by rewrite andb_true_r, orb_false_r.
Qed.

Lemma elem_free_idx b i : i ∈ free_idx b ↔ 0 ≤ i < 32 ∧ Z.testbit b i = true.
Proof. unfold free_idx, free_in, VIRTIO_QUEUE_NUM. rewrite list_elem_of_filter, elem_of_seqZ. naive_solver lia. Qed.

Lemma free_in_clear b l i r :
  (∀ j, j ∈ l → 0 ≤ j < 32) → NoDup l → free_in b l = i :: r → free_in (clear_at b i) l = r.
Proof.
  unfold free_in. induction l as [|j l IH]; intros Hl Hnd E; [done|].
  apply NoDup_cons in Hnd as [Hj Hnd]. assert (Hjr : 0 ≤ j < 32) by (apply Hl, list_elem_of_here).
  rewrite filter_cons in E |- *. destruct (decide (Z.testbit b j = true)) as [Ht|Ht].
  - injection E as -> <-. rewrite decide_False.
    2: { rewrite clear_at_spec, Z.eqb_refl, andb_false_r by done. done. }
    apply filter_ext_in. intros k Hk. assert (i ≠ k) by congruence.
    assert (0 ≤ k < 32) by (apply Hl; set_solver).
    rewrite clear_at_spec by done. by rewrite (proj2 (Z.eqb_neq i k)), andb_true_r.
  - assert (0 ≤ i < 32) as Hi.
    { apply Hl. apply list_elem_of_further. apply (list_elem_of_filter (λ i, Z.testbit b i = true)).
      rewrite E. apply list_elem_of_here. }
    rewrite decide_False; [apply IH; set_solver|].
    rewrite clear_at_spec by done. intros [? _]%andb_true_iff. done.
Qed.

Lemma free_idx_clear b i r : free_idx b = i :: r → free_idx (clear_at b i) = r.
Proof.
  apply free_in_clear; [|apply NoDup_seqZ]. intros j. rewrite elem_of_seqZ.
  unfold VIRTIO_QUEUE_NUM. lia.
Qed.

Lemma free_idx_empty b : 0 ≤ b < 2 ^ 32 → free_idx b = [] → b = 0.
Proof.
  intros Hb E. apply bits32_ext; [done|lia|]. intros j Hj. rewrite Z.bits_0.
  destruct (Z.testbit b j) eqn:Ht; [|done].
  assert (j ∈ free_idx b) as Hin by (by apply elem_free_idx).
  rewrite E in Hin. by apply not_elem_of_nil in Hin.
Qed.

(** Setting the bit of a busy descriptor adds one free index. *)
Lemma free_in_set_length b l i :
  (∀ j, j ∈ l → 0 ≤ j < 32) → NoDup l → i ∈ l → Z.testbit b i = false →
  length (free_in (set_at b i) l) = S (length (free_in b l)).
Proof.
  unfold free_in. induction l as [|j l IH]; intros Hl Hnd Hi Ht; [set_solver|].
  apply NoDup_cons in Hnd as [Hj Hnd]. assert (Hjr : 0 ≤ j < 32) by (apply Hl, list_elem_of_here).
  assert (Hir : 0 ≤ i < 32) by (by apply Hl). rewrite !filter_cons, set_at_spec by done.
  destruct (Z.eqb_spec i j) as [<-|Hne].
  - rewrite orb_true_r, decide_True, decide_False by congruence. cbn. f_equal. f_equal.
    apply filter_ext_in. intros k Hk. assert (i ≠ k) by congruence.
    assert (0 ≤ k < 32) by (apply Hl; set_solver).
    by rewrite set_at_spec, (proj2 (Z.eqb_neq i k)), orb_false_r.
  - rewrite orb_false_r. assert (i ∈ l) by set_solver.
    case_decide; cbn; rewrite IH; auto; set_solver.
Qed.

Lemma free_idx_set_length b i :
  0 ≤ i < 32 → Z.testbit b i = false → length (free_idx (set_at b i)) = S (length (free_idx b)).
Proof.
  intros Hi Ht. apply free_in_set_length; [|apply NoDup_seqZ| |done].
  - intros j. rewrite elem_of_seqZ. unfold VIRTIO_QUEUE_NUM. lia.
  - rewrite elem_of_seqZ. unfold VIRTIO_QUEUE_NUM. lia.
Qed.

Lemma free_idx_length b : (length (free_idx b) ≤ 32)%nat.
Proof.
  unfold free_idx, free_in. etrans; [apply length_filter|]. by rewrite length_seqZ.
Qed.

(** * Single descriptors *)

Lemma alloc_desc_from_ok n i v :
  0 ≤ i → Z.of_nat n + i = 32 →
  alloc_desc_from n i v =
    match free_in (desc_free_bitmap v) (seqZ i (Z.of_nat n)) with
    | [] => Panic "unreachable code"
    | j :: _ => Ok j (set_bitmap (clear_at (desc_free_bitmap v) j) v)
    end.
Proof.
  revert i. induction n as [|n IH]; intros i Hi Hn; [done|].
  cbn [alloc_desc_from]. unfold bind, gets. rewrite has_bit by done.
  rewrite seqZ_cons by lia. unfold free_in. rewrite filter_cons.
  destruct (Z.testbit (desc_free_bitmap v) i) eqn:Ht.
  - by rewrite decide_True.
  - rewrite decide_False by done. rewrite IH by lia.
    replace (Z.pred (Z.of_nat (S n))) with (Z.of_nat n) by lia.
    by replace (Z.succ i) with (i + 1) by lia.
Qed.

Definition bitmap_ok (v : vring) : Prop := 0 ≤ desc_free_bitmap v < 2 ^ 32.

Lemma alloc_desc_ok v :
  bitmap_ok v →
  alloc_desc v =
    match free_idx (desc_free_bitmap v) with
    | [] => Ok (- E_NO_RING_DESC) v
    | i :: _ => Ok i (set_bitmap (clear_at (desc_free_bitmap v) i) v)
    end.
Proof.
  intros Hb. unfold alloc_desc, bind, gets. destruct (Z.eqb_spec (desc_free_bitmap v) 0) as [E|E].
  - unfold free_idx, free_in. replace (filter _ _) with (@nil Z); [done|]. symmetry.
    rewrite E. reflexivity.
  - rewrite alloc_desc_from_ok by done. change (free_in _ (seqZ 0 (Z.of_nat _))) with (free_idx (desc_free_bitmap v)).
    destruct (free_idx (desc_free_bitmap v)) as [|i r] eqn:Ef; [|done].
    by apply free_idx_empty in Ef.
Qed.

Lemma free_desc_ok v i :
  0 ≤ i < 32 → Z.testbit (desc_free_bitmap v) i = false →
  free_desc i v = Ok tt (set_bitmap (set_at (desc_free_bitmap v) i) v).
Proof.
  intros Hi Ht. unfold free_desc, assert_, bind, gets, VIRTIO_QUEUE_NUM.
  rewrite (proj2 (Z.leb_le 0 i)), (proj2 (Z.ltb_lt i 32)) by lia. cbn [andb ret].
  rewrite has_bit, Ht by lia. done.
Qed.

(** Anything else stops the kernel. *)
Lemma free_desc_bad v i :
  ¬ (0 ≤ i < 32 ∧ Z.testbit (desc_free_bitmap v) i = false) →
  free_desc i v = Panic "assertion failed".
Proof.
  intros Hn. unfold free_desc, assert_, bind, gets, VIRTIO_QUEUE_NUM.
  destruct (Z.leb_spec 0 i), (Z.ltb_spec i 32); cbn; try done.
  rewrite has_bit by done. destruct (Z.testbit _ i) eqn:Ht; [done|]. exfalso. auto.
Qed.

(** * Several descriptors *)

Definition set_all : Z → list Z → Z := foldl set_at.
Definition clear_all : Z → list Z → Z := foldl clear_at.

Lemma set_all_bound b l : 0 ≤ b < 2 ^ 32 → (∀ i, i ∈ l → 0 ≤ i < 32) → 0 ≤ set_all b l < 2 ^ 32.
Proof.
  revert b. induction l as [|i l IH]; intros b Hb Hl; [done|]. cbn.
  apply IH; [|set_solver]. apply set_at_bound; [done|]. apply Hl, list_elem_of_here.
Qed.

Lemma clear_all_bound b l : 0 ≤ b < 2 ^ 32 → 0 ≤ clear_all b l < 2 ^ 32.
Proof.
  revert b. induction l as [|i l IH]; intros b Hb; [done|]. cbn. apply IH, clear_at_bound.
Qed.

Lemma set_all_spec b l j : (∀ i, i ∈ l → 0 ≤ i < 32) → 0 ≤ j < 32 →
  Z.testbit (set_all b l) j = Z.testbit b j || bool_decide (j ∈ l).
Proof.
  intros Hl Hj. revert b Hl. induction l as [|i l IH]; intros b Hl; cbn [set_all foldl].
  - by rewrite bool_decide_false, orb_false_r by apply not_elem_of_nil.
  - rewrite IH, set_at_spec by (try done; set_solver). rewrite <- orb_assoc. f_equal.
    destruct (Z.eqb_spec i j) as [->|Hne]; cbn; [symmetry; apply bool_decide_true; set_solver|].
    apply bool_decide_ext. set_solver.
Qed.

Lemma clear_all_spec b l j : (∀ i, i ∈ l → 0 ≤ i < 32) → 0 ≤ j < 32 →
  Z.testbit (clear_all b l) j = Z.testbit b j && negb (bool_decide (j ∈ l)).
Proof.
  intros Hl Hj. revert b Hl. induction l as [|i l IH]; intros b Hl; cbn [clear_all foldl].
  - by rewrite bool_decide_false, andb_true_r by apply not_elem_of_nil.
  - rewrite IH, clear_at_spec by (try done; set_solver). rewrite <- andb_assoc. f_equal.
    destruct (Z.eqb_spec i j) as [->|Hne]; cbn; [symmetry; apply negb_false_iff, bool_decide_true; set_solver|].
    f_equal. apply bool_decide_ext. set_solver.
Qed.

Lemma set_clear_all b l :
  0 ≤ b < 2 ^ 32 → (∀ i, i ∈ l → 0 ≤ i < 32 ∧ Z.testbit b i = true) → set_all (clear_all b l) l = b.
Proof.
  intros Hb Hl. assert (Hr : ∀ i, i ∈ l → 0 ≤ i < 32) by (intros; by apply Hl).
  apply bits32_ext; [by apply set_all_bound; [apply clear_all_bound|]|done|].
  intros j Hj. rewrite set_all_spec, clear_all_spec by done.
  destruct (bool_decide_reflect (j ∈ l)) as [Hin|]; cbn.
  - by rewrite (proj2 (Hl j Hin)).
  - by rewrite andb_true_r, orb_false_r.
Qed.

Lemma free_descs_ok v l :
  NoDup l → (∀ i, i ∈ l → 0 ≤ i < 32 ∧ Z.testbit (desc_free_bitmap v) i = false) →
  for_each l free_desc v = Ok tt (set_bitmap (set_all (desc_free_bitmap v) l) v).
Proof.
  revert v. induction l as [|i l IH]; intros v Hnd Hl; [by destruct v|].
  apply NoDup_cons in Hnd as [Hi Hnd]. destruct (Hl i) as [Hir Ht]; [apply list_elem_of_here|].
  cbn [for_each]. rewrite (bind_ok _ _ _ _ _ (free_desc_ok v i Hir Ht)). rewrite IH; [done|done|].
  intros j Hj. destruct (Hl j) as [? Htj]; [set_solver|]. split; [done|]. cbn.
  rewrite set_at_spec, Htj by done. apply Z.eqb_neq. congruence.
Qed.

(** Running out of descriptors: those taken so far are given back. *)
Lemma give_back v b got :
  0 ≤ b < 2 ^ 32 → desc_free_bitmap v = clear_all b got → got = free_idx b →
  for_each got free_desc v = Ok tt (set_bitmap b v).
Proof.
  intros Hb Hv Hgot. assert (Hr : ∀ i, i ∈ got → 0 ≤ i < 32 ∧ Z.testbit b i = true).
  { intros i Hi. rewrite Hgot in Hi. by apply elem_free_idx. }
  rewrite free_descs_ok.
  - by rewrite Hv, set_clear_all.
  - rewrite Hgot. apply NoDup_filter, NoDup_seqZ.
  - intros i Hi. destruct (Hr i Hi) as [Hir _]. split; [done|].
    rewrite Hv, clear_all_spec by (try done; intros; by apply Hr).
    by rewrite bool_decide_true, andb_false_r.
Qed.

Lemma alloc_descs_ok n got v b :
  0 ≤ b < 2 ^ 32 → desc_free_bitmap v = clear_all b got →
  got ++ free_idx (desc_free_bitmap v) = free_idx b →
  let l := take (length got + n) (free_idx b) in
  alloc_descs n got v =
    if decide (length got + n ≤ length (free_idx b))%nat then Ok l (set_bitmap (clear_all b l) v)
    else Err (- E_NO_RING_DESC) (set_bitmap b v).
Proof.
  intros Hb. revert got v. induction n as [|n IH]; intros got v Hv Hgot; cbn zeta.
  - cbn [alloc_descs]. rewrite Nat.add_0_r, <- Hgot, decide_True by (rewrite length_app; lia).
    rewrite take_app_length, <- Hv. by destruct v.
  - cbn [alloc_descs]. assert (Hbv : bitmap_ok v) by (unfold bitmap_ok; rewrite Hv; by apply clear_all_bound).
    unfold bind at 1. rewrite (alloc_desc_ok v Hbv).
    destruct (free_idx (desc_free_bitmap v)) as [|i r] eqn:Ef.
    + rewrite app_nil_r in Hgot. rewrite decide_False by (rewrite <- Hgot; lia).
      change (- E_NO_RING_DESC <? 0) with true. cbv iota.
      by rewrite (bind_ok _ _ _ _ _ (give_back v b got Hb Hv Hgot)).
    + assert (Hi : i ∈ free_idx (desc_free_bitmap v)) by (rewrite Ef; apply list_elem_of_here).
      apply elem_free_idx in Hi as [Hi _]. rewrite (proj2 (Z.ltb_ge i 0)) by lia.
      rewrite IH; cbn [set_bitmap desc_free_bitmap].
      * rewrite length_app. cbn [length]. replace (length got + 1 + n)%nat with (length got + S n)%nat by lia.
        by case_decide.
      * unfold clear_all. rewrite foldl_app. cbn. by rewrite Hv.
      * rewrite (free_idx_clear _ i r Ef). by rewrite <- app_assoc.
Qed.

Lemma alloc_3_desc_ok v :
  bitmap_ok v →
  match free_idx (desc_free_bitmap v) with
  | i0 :: i1 :: i2 :: _ =>
      alloc_3_desc v = Ok [i0; i1; i2] (set_bitmap (clear_all (desc_free_bitmap v) [i0; i1; i2]) v)
  | _ => alloc_3_desc v = Err (- E_NO_RING_DESC) v
  end.
Proof.
  intros Hb. unfold alloc_3_desc. rewrite (alloc_descs_ok 3 [] v (desc_free_bitmap v)) by done.
  replace (set_bitmap (desc_free_bitmap v) v) with v by (by destruct v).
  destruct (free_idx (desc_free_bitmap v)) as [|i0 [|i1 [|i2 r]]]; done.
Qed.

(** * Requests in flight *)

(** A request in flight owns a chain of three descriptors. *)
Abbreviation chain := (Z * Z * Z)%type.
Definition chain_ids (c : chain) : list Z := [c.1.1; c.1.2; c.2].
Definition busy (cs : list chain) : list Z := flat_map chain_ids cs.

Definition linked (v : vring) (c : chain) : Prop :=
  let '(a, b, e) := c in
  has (d_flags (descr v a)) VRING_DESC_F_NEXT = true ∧ d_next (descr v a) = b ∧
  has (d_flags (descr v b)) VRING_DESC_F_NEXT = true ∧ d_next (descr v b) = e ∧
  has (d_flags (descr v e)) VRING_DESC_F_NEXT = false.

Record ring_rel (v : vring) (cs : list chain) : Prop := {
  ring_bitmap : bitmap_ok v;
  ring_nodup : NoDup (busy cs);
  ring_range : ∀ i, i ∈ busy cs → 0 ≤ i < 32;
  ring_busy : ∀ i, 0 ≤ i < 32 → Z.testbit (desc_free_bitmap v) i = negb (bool_decide (i ∈ busy cs));
  ring_linked : ∀ c, c ∈ cs → linked v c
}.

Lemma busy_app l1 l2 : busy (l1 ++ l2) = busy l1 ++ busy l2.
Proof. apply flat_map_app. Qed.

Lemma elem_busy i cs : i ∈ busy cs ↔ ∃ c, c ∈ cs ∧ i ∈ chain_ids c.
Proof. unfold busy. rewrite !list_elem_of_In, in_flat_map. setoid_rewrite list_elem_of_In. done. Qed.

(** ** Completion of one request *)

Section free_chain.
Context (v : vring) (l1 l2 : list chain) (a b e : Z).
Context (Hrel : ring_rel v (l1 ++ (a, b, e) :: l2)).

Lemma busy_split : busy (l1 ++ (a, b, e) :: l2) = busy l1 ++ [a; b; e] ++ busy l2.
Proof. by rewrite busy_app. Qed.

Lemma chain_props :
  NoDup [a; b; e] ∧ ∀ i, i ∈ [a; b; e] → 0 ≤ i < 32 ∧ Z.testbit (desc_free_bitmap v) i = false.
Proof.
  pose proof (ring_nodup _ _ Hrel) as Hnd. rewrite busy_split in Hnd. split.
  - apply NoDup_app in Hnd as (_ & _ & Hnd). by apply NoDup_app in Hnd as (? & _).
  - intros i Hi. assert (i ∈ busy (l1 ++ (a, b, e) :: l2)) as Hin
    by (rewrite busy_split, !elem_of_app; auto).
    pose proof (ring_range _ _ Hrel i Hin). split; [done|].
    by rewrite (ring_busy _ _ Hrel), bool_decide_true.
Qed.

(** The rounds of [free_chain] free the three descriptors in turn. *)
Lemma free_chain_eq :
  free_chain a v = for_each [a; b; e] free_desc v.
Proof.
  destruct chain_props as [Hnd Hp]. apply NoDup_cons in Hnd as [Ha Hnd].
  apply NoDup_cons in Hnd as [Hb _].
  destruct (ring_linked _ _ Hrel (a, b, e)) as (F1 & N1 & F2 & N2 & F3);
    [rewrite elem_of_app; right; apply list_elem_of_here|].
  destruct (Hp a) as [Ra Ta]; [apply list_elem_of_here|].
  destruct (Hp b) as [Rb Tb]; [apply list_elem_of_further, list_elem_of_here|].
  unfold free_chain. change (S (Z.to_nat VIRTIO_QUEUE_NUM)) with (3 + 30)%nat.
  cbn [Nat.add free_chain_rounds for_each].
  rewrite (bind_ok (gets _) _ (descr v a) v v) by done. rewrite F1, N1.
  rewrite !(bind_ok _ _ _ _ _ (free_desc_ok v a Ra Ta)).
  set (v1 := set_bitmap _ v). rewrite (bind_ok (gets _) _ (descr v b) v1 v1) by done. rewrite F2, N2.
  assert (Tb1 : Z.testbit (desc_free_bitmap v1) b = false).
  { cbn. rewrite set_at_spec, Tb by done. apply Z.eqb_neq. intros ->. apply Ha, list_elem_of_here. }
  rewrite !(bind_ok _ _ _ _ _ (free_desc_ok v1 b Rb Tb1)).
  set (v2 := set_bitmap _ v1). rewrite (bind_ok (gets _) _ (descr v e) v2 v2) by done. by rewrite F3.
Qed.

Lemma free_chain_ok :
  ∃ b', free_chain a v = Ok tt (set_bitmap b' v) ∧ ring_rel (set_bitmap b' v) (l1 ++ l2).
Proof.
  destruct chain_props as [Hnd Hp]. exists (set_all (desc_free_bitmap v) [a; b; e]).
  rewrite free_chain_eq, free_descs_ok by done. split; [done|].
  assert (Hr : ∀ i, i ∈ [a; b; e] → 0 ≤ i < 32) by (intros; by apply Hp).
  destruct Hrel as [R1 R2 R3 R4 R5]. rewrite busy_split in *. split; cbn [set_bitmap desc_free_bitmap].
  - by apply set_all_bound.
  - rewrite busy_app. apply NoDup_app in R2 as (N1 & N2 & N3). apply NoDup_app in N3 as (N3 & N4 & N5).
    apply NoDup_app. split_and!; [done| |done]. intros i Hi Hi'. apply (N2 i Hi). rewrite elem_of_app. auto.
  - intros i. rewrite busy_app. intros Hi. apply R3. rewrite !elem_of_app in *. tauto.
  - intros i Hi. rewrite set_all_spec, R4 by done. rewrite busy_app.
    apply NoDup_app in R2 as (_ & N2 & N3). apply NoDup_app in N3 as (_ & N4 & _).
    destruct (bool_decide_reflect (i ∈ [a; b; e])) as [Hin|Hin].
    + rewrite orb_true_r. symmetry. apply negb_true_iff, bool_decide_false.
      intros [H|H]%elem_of_app; [|by eapply N4]. apply (N2 i H). rewrite elem_of_app. auto.
    + rewrite orb_false_r. f_equal. apply bool_decide_ext. rewrite !elem_of_app. tauto.
  - intros c Hc. apply (R5 c). rewrite elem_of_app, elem_of_cons in *. tauto.
Qed.
End free_chain.

(** [free_chain] never runs out of fuel, whatever the device and the ring
    contain: each round frees a busy descriptor, or the kernel stops. *)
Lemma free_chain_rounds_total fuel i v :
  (32 < fuel + length (free_idx (desc_free_bitmap v)))%nat →
  (∃ v', free_chain_rounds fuel i v = Ok tt v') ∨
  free_chain_rounds fuel i v = Panic "assertion failed".
Proof.
  revert i v. induction fuel as [|fuel IH]; intros i v Hf.
  - pose proof (free_idx_length (desc_free_bitmap v)). lia.
  - cbn [free_chain_rounds]. rewrite (bind_ok (gets _) _ (descr v i) v v) by done.
    destruct (decide (0 ≤ i < 32 ∧ Z.testbit (desc_free_bitmap v) i = false)) as [[Hi Ht]|Hn].
    + rewrite (bind_ok _ _ _ _ _ (free_desc_ok v i Hi Ht)). case_match; [|eauto].
      apply IH. cbn. rewrite free_idx_set_length by done. lia.
    + right. by rewrite (bind_panic _ _ _ _ (free_desc_bad v i Hn)).
Qed.

(** ** Completion of the requests the device reports *)

(** The [k]-th used element the driver has not seen yet *)
Definition used_at (v : vring) (k : Z) : Z :=
  s32 (default 0 (used_id v !! ((used_idx v + k) mod VIRTIO_QUEUE_NUM))).

(** The device has completed the chains with heads [hs] since the last time. *)
Record completed (v : vring) (hs : list Z) : Prop := {
  comp_idx : 0 ≤ used_idx v < 2 ^ 16 ∧ 0 ≤ used_idx_dev v < 2 ^ 16;
  comp_len : Z.of_nat (length hs) = u16 (used_idx_dev v - used_idx v);
  comp_ids : ∀ k h, hs !! k = Some h → used_at v (Z.of_nat k) = h
}.

(** The chains that remain in flight *)
Definition without (h : Z) (cs : list chain) : list chain := filter (λ c, c.1.1 ≠ h) cs.

Lemma head_busy c cs : c ∈ cs → c.1.1 ∈ busy cs.
Proof. intros Hc. apply elem_busy. exists c. split; [done|]. apply list_elem_of_here. Qed.

Lemma without_split l1 c l2 :
  NoDup (busy (l1 ++ c :: l2)) → without c.1.1 (l1 ++ c :: l2) = l1 ++ l2.
Proof.
  rewrite busy_app. change (busy (c :: l2)) with (chain_ids c ++ busy l2).
  intros (_ & H1 & H2)%NoDup_app. apply NoDup_app in H2 as (_ & H2 & _).
  assert (Hc : c.1.1 ∈ chain_ids c) by apply list_elem_of_here.
  unfold without. rewrite filter_app, filter_cons, decide_False by auto.
  f_equal; apply filter_id; intros c' Hc' E; pose proof (head_busy c' _ Hc') as Hb; rewrite E in Hb.
  - apply (H1 _ Hb). rewrite elem_of_app. auto.
  - by apply (H2 _ Hc).
Qed.

Lemma used_at_next v b k :
  0 ≤ used_idx v < 2 ^ 16 →
  used_at (set_used_idx (u16 (used_idx v + 1)) (set_bitmap b v)) k = used_at v (k + 1).
Proof.
  intros Hu. unfold used_at, VIRTIO_QUEUE_NUM, u16. cbn. do 3 f_equal.
  rewrite <- Zplus_mod_idemp_l. rewrite <- (Znumtheory.Zmod_div_mod 32 (2 ^ 16)); [|lia|lia|by exists 2048].
  rewrite Zplus_mod_idemp_l. f_equal. lia.
Qed.

Lemma completed_next v b h hs :
  completed v (h :: hs) → completed (set_used_idx (u16 (used_idx v + 1)) (set_bitmap b v)) hs.
Proof.
  intros [[Hu Hd] Hl Hi]. cbn [length] in Hl.
  assert (0 ≤ u16 (used_idx v + 1) < 2 ^ 16) by (apply Z.mod_pos_bound; lia).
  split; cbn; [done| |].
  - unfold u16 in *. rewrite Zminus_mod_idemp_r.
    replace (used_idx_dev v - (used_idx v + 1)) with (used_idx_dev v - used_idx v - 1) by lia.
    rewrite <- Zminus_mod_idemp_l, <- Hl. rewrite Z.mod_small; [lia|].
    pose proof (Z.mod_pos_bound (used_idx_dev v - used_idx v) (2 ^ 16)). lia.
  - intros k h' Hk. rewrite used_at_next by done. replace (Z.of_nat k + 1) with (Z.of_nat (S k)) by lia.
    by apply Hi.
Qed.

Lemma completed_nil v : completed v [] → used_idx v = used_idx_dev v.
Proof.
  intros [[Hu Hd] Hl _]. cbn in Hl. unfold u16 in Hl. symmetry in Hl.
  apply Z.mod_divide in Hl as [q Hq]; [|lia]. assert (q = 0) by nia. lia.
Qed.

Lemma completed_cons v h hs : completed v (h :: hs) → used_idx v ≠ used_idx_dev v.
Proof. intros [_ Hl _] E. rewrite E, Z.sub_diag in Hl. change (u16 0) with 0 in Hl. cbn [length] in Hl. lia. Qed.

Lemma ring_rel_used_idx v cs i : ring_rel v cs → ring_rel (set_used_idx i v) cs.
Proof. by intros [R1 R2 R3 R4 R5]. Qed.

(** Every completed chain is removed, the others stay. *)
Lemma reap_ok hs fuel v cs :
  (length hs < fuel)%nat → ring_rel v cs → completed v hs → NoDup hs →
  (∀ h, h ∈ hs → ∃ c, c ∈ cs ∧ c.1.1 = h) →
  ∃ v', reap fuel v = Ok tt v' ∧ ring_rel v' (foldl (λ cs h, without h cs) cs hs) ∧
    used_idx v' = used_idx_dev v' ∧ used_flags v' = used_flags v ∧ avail_idx v' = avail_idx v ∧
    used_idx_dev v' = used_idx_dev v.
Proof.
  revert fuel v cs. induction hs as [|h hs IH]; intros fuel v cs Hf Hrel Hc Hnd Hin;
    (destruct fuel as [|fuel]; [cbn in Hf; lia|]); cbn [reap];
    rewrite (bind_ok (gets id) _ v v v) by done.
  - pose proof (completed_nil v Hc) as E. rewrite E, Z.eqb_refl.
    exists v. by split_and!.
  - rewrite (proj2 (Z.eqb_neq _ _) (completed_cons v h hs Hc)).
    apply NoDup_cons in Hnd as [Hh Hnd]. destruct (Hin h) as (c & Hcs & <-); [apply list_elem_of_here|].
    apply list_elem_of_split in Hcs as (l1 & l2 & ->). destruct c as [[a b] e].
    destruct (free_chain_ok v l1 l2 a b e Hrel) as (b' & E & Hrel').
    assert (Hid : s32 (default 0 (used_id v !! (used_idx v mod VIRTIO_QUEUE_NUM))) = a).
    { rewrite <- (comp_ids _ _ Hc 0%nat a) by done. unfold used_at. do 4 f_equal. lia. }
    rewrite Hid, (bind_ok _ _ _ _ _ E).
    rewrite (bind_ok (modify _) _ tt _ _ eq_refl).
    destruct (IH fuel (set_used_idx (u16 (used_idx v + 1)) (set_bitmap b' v)) (l1 ++ l2))
      as (v' & E' & Hr' & Hrest).
    + cbn in Hf. lia.
    + by apply ring_rel_used_idx.
    + by eapply completed_next.
    + done.
    + intros h' Hh'. destruct (Hin h') as (c' & Hc' & Eh); [by apply list_elem_of_further|].
      exists c'. split; [|done]. rewrite elem_of_app, elem_of_cons in *.
      destruct Hc' as [?|[->|?]]; auto. exfalso. cbn in Eh, Hh. by subst.
    + exists v'. split; [done|]. split; [|done]. cbn [foldl].
      change a with (a, b, e).1.1 at 1. rewrite without_split by apply Hrel. done.
Qed.

(** ** Sending a request *)

(** What the device finds after [virtio_disk_req req] with chain [c]. *)
Definition posted (s s' : dstate) (req : Z) (c : chain) : Prop :=
  let '(a, b, e) := c in
  let wr := negb (load8 (mem (dpm s)) (req + REQ_WRITE) =? 0) in
  let v := ring s in let v' := ring s' in
  descr v' a = Desc (outhdr_kva v + 16 * a) 16 VRING_DESC_F_NEXT b ∧
  descr v' b = Desc (req + REQ_BUF) DISK_BUFFUER_LEN
                 (if wr then VRING_DESC_F_NEXT else VRING_DESC_F_WRITE + VRING_DESC_F_NEXT) e ∧
  descr v' e = Desc (req + REQ_STATUS) 1 VRING_DESC_F_WRITE 0 ∧
  outhdr v' !! a = Some (OutHdr (if wr then VIRTIO_BLK_T_OUT else VIRTIO_BLK_T_IN) 0 (load (mem (dpm s)) req)) ∧
  avail_ring v' !! (avail_idx v mod VIRTIO_QUEUE_NUM) = Some a ∧
  avail_idx v' = u16 (avail_idx v + 1) ∧
  dpm s' = set_mem (store8 (req + REQ_STATUS) DISK_STATUS_NO_RESP) (dpm s) ∧
  mmio_log v' = mmio_log v ++ (if used_flags v =? 0 then [(QUEUE_NOTIFY, 0)] else []) ∧
  used_idx v' = used_idx v ∧ used_idx_dev v' = used_idx_dev v ∧ used_id v' = used_id v ∧
  used_flags v' = used_flags v.

(** The chain built from three free descriptors joins those in flight. *)
Lemma ring_rel_add v v' cs a b e r :
  ring_rel v cs → free_idx (desc_free_bitmap v) = a :: b :: e :: r →
  desc_free_bitmap v' = clear_all (desc_free_bitmap v) [a; b; e] →
  (∀ i, i ∉ [a; b; e] → descr v' i = descr v i) → linked v' (a, b, e) →
  ring_rel v' ((a, b, e) :: cs).
Proof.
  intros [R1 R2 R3 R4 R5] Ef Hb Hd Hl.
  assert (Hfree : ∀ i, i ∈ [a; b; e] → 0 ≤ i < 32 ∧ i ∉ busy cs).
  { intros i Hi. assert (i ∈ free_idx (desc_free_bitmap v)) as Hin.
    { rewrite Ef. change (a :: b :: e :: r) with ([a; b; e] ++ r). apply elem_of_app. auto. }
    apply elem_free_idx in Hin as [Hr Ht]. split; [done|]. rewrite R4 in Ht by done.
    by apply negb_true_iff, bool_decide_eq_false in Ht. }
  assert (Hnd : NoDup [a; b; e]).
  { assert (NoDup (free_idx (desc_free_bitmap v))) as H by (apply NoDup_filter, NoDup_seqZ).
    rewrite Ef in H. change (a :: b :: e :: r) with ([a; b; e] ++ r) in H. by apply NoDup_app in H as (? & _). }
  change (busy ((a, b, e) :: cs)) with ([a; b; e] ++ busy cs).
  split; change (busy ((a, b, e) :: cs)) with ([a; b; e] ++ busy cs).
  - unfold bitmap_ok. rewrite Hb. by apply clear_all_bound.
  - apply NoDup_app. split_and!; [done| |done]. intros i Hi. by apply Hfree.
  - intros i [Hi|Hi]%elem_of_app; [by apply Hfree|by apply R3].
  - intros i Hi. rewrite Hb, clear_all_spec, R4 by (try done; intros; by apply Hfree).
    rewrite <- negb_orb. f_equal. rewrite <- bool_decide_or. apply bool_decide_ext.
    rewrite elem_of_app. tauto.
  - intros c [->|Hc]%elem_of_cons; [done|]. pose proof (R5 c Hc) as Hc'.
    destruct c as [[x y] z]. unfold linked in *.
    assert (Hk : ∀ k, k ∈ [x; y; z] → descr v' k = descr v k).
    { intros k Hk. apply Hd. intros Hin. apply (proj2 (Hfree k Hin)).
      apply elem_busy. by exists (x, y, z). }
    by rewrite !Hk by set_solver.
Qed.

Lemma descr_insert v i d j : descr (set_desc (<[i := d]>) v) j = if decide (i = j) then d else descr v j.
Proof. unfold descr. cbn. rewrite lookup_insert. by case_decide. Qed.

Definition published (i0 : Z) (v : vring) : vring :=
  let v1 := set_avail (avail_flags v) (u16 (avail_idx v + 1))
              (<[avail_idx v mod VIRTIO_QUEUE_NUM := u16 i0]> (avail_ring v)) v in
  if used_flags v =? 0 then log_mmio (QUEUE_NOTIFY, 0) v1 else v1.

Lemma publish_ok v i0 :
  used_flags v ∈ [0; 1] → publish i0 v = Ok tt (published i0 v).
Proof.
  intros Hf. unfold publish, published. do 5 step. cbn [used_flags set_avail].
  destruct (Z.eqb_spec (used_flags v) 0) as [E|E]; [done|].
  assert (used_flags v = 1) as -> by set_solver. done.
Qed.

Lemma published_frame i v :
  desc (published i v) = desc v ∧ desc_free_bitmap (published i v) = desc_free_bitmap v ∧
  outhdr (published i v) = outhdr v ∧ avail_idx (published i v) = u16 (avail_idx v + 1) ∧
  avail_ring (published i v) = <[avail_idx v mod VIRTIO_QUEUE_NUM := u16 i]> (avail_ring v) ∧
  mmio_log (published i v) = mmio_log v ++ (if used_flags v =? 0 then [(QUEUE_NOTIFY, 0)] else []) ∧
  used_idx (published i v) = used_idx v ∧ used_idx_dev (published i v) = used_idx_dev v ∧
  used_id (published i v) = used_id v ∧ used_flags (published i v) = used_flags v.
Proof. unfold published. destruct (used_flags v =? 0); cbn; by rewrite ?app_nil_r. Qed.

Lemma virtio_disk_req_ok s cs req a b e r :
  ring_rel (ring s) cs → KSTACKTOP ≤ req → used_flags (ring s) ∈ [0; 1] →
  free_idx (desc_free_bitmap (ring s)) = a :: b :: e :: r →
  0 ≤ avail_idx (ring s) < 2 ^ 16 →
  ∃ s', virtio_disk_req req s = Ok tt s' ∧ ring_rel (ring s') ((a, b, e) :: cs) ∧
    posted s s' req (a, b, e).
Proof.
  intros Hrel Hreq Hfl Ef Hav. destruct s as [v p]. cbn [ring] in *.
  pose proof (alloc_3_desc_ok v (ring_bitmap _ _ Hrel)) as Ha. rewrite Ef in Ha.
  assert (Hnd : NoDup [a; b; e] ∧ 0 ≤ a < 32).
  { assert (NoDup (free_idx (desc_free_bitmap v))) as H by (apply NoDup_filter, NoDup_seqZ).
    rewrite Ef in H. change (a :: b :: e :: r) with ([a; b; e] ++ r) in H. apply NoDup_app in H as (? & _).
    split; [done|]. apply (elem_free_idx (desc_free_bitmap v)). rewrite Ef. apply list_elem_of_here. }
  destruct Hnd as [Hnd Har]. apply NoDup_cons in Hnd as [Ha' Hnd]. apply NoDup_cons in Hnd as [Hb' _].
  assert (a ≠ b ∧ a ≠ e ∧ b ≠ e) as (? & ? & ?) by set_solver.
  unfold virtio_disk_req. rewrite (proj2 (Z.ltb_ge req KSTACKTOP)) by done.
  set (bm := clear_all _ _) in Ha.
  pose proof (lift_ok (H := sub_ring) alloc_3_desc _ _ (MkDstate v p) Ha) as Hl.
  rewrite (bind_ok _ _ _ _ _ Hl). cbv iota beta.
  do 8 step. cbn [sub_set sub_get sub_ring sub_dpm ring dpm].
  set (wr := negb (load8 (mem p) (req + REQ_WRITE) =? 0)).
  match goal with |- ∃ _, lift _ (MkDstate ?x ?y) = _ ∧ _ => set (v2 := x); set (p2 := y) end.
  pose proof (publish_ok v2 a Hfl) as Hpub.
  rewrite (lift_ok (H := sub_ring) (publish a) _ _ (MkDstate v2 p2) Hpub).
  destruct (published_frame a v2) as (Fd & Fb & Fo & Fi & Fr & Fm & Fu & Fud & Fid & Ffl).
  eexists. split; [done|]. cbn [sub_set sub_ring ring dpm].
  assert (Hdesc : ∀ i, descr (published a v2) i =
    if decide (e = i) then Desc (req + REQ_STATUS) 1 VRING_DESC_F_WRITE 0
    else if decide (b = i) then Desc (req + REQ_BUF) DISK_BUFFUER_LEN
           (Z.lor (if wr then 0 else VRING_DESC_F_WRITE) VRING_DESC_F_NEXT) e
    else if decide (a = i) then Desc (outhdr_kva v + 16 * a) 16 VRING_DESC_F_NEXT b
    else descr v i).
  { intros i. unfold descr at 1. rewrite Fd. fold (descr v2 i). unfold v2.
    rewrite !descr_insert. done. }
  pose proof (Hdesc a) as Da. pose proof (Hdesc b) as Db. pose proof (Hdesc e) as De.
  rewrite !decide_False, decide_True in Da by congruence.
  rewrite decide_False, decide_True in Db by congruence. rewrite decide_True in De by done.
  split.
  - apply (ring_rel_add v _ cs a b e r Hrel Ef); [done| |].
    + intros i Hi. rewrite Hdesc, !decide_False; [done|..]; intros ->; apply Hi; set_solver.
    + unfold linked. rewrite Da, Db, De. split_and!; try done. by destruct wr.
  - unfold posted. cbn [ring dpm]. rewrite Da, Db, De. split_and!; try done.
    + fold wr. by destruct wr.
    + rewrite Fo. cbn. by rewrite lookup_insert_eq.
    + rewrite Fr, lookup_insert_eq, u16_small by lia. done.
Qed.

(** Too few descriptors, or a buffer below the end of the kernel stack: the
    request is refused and nothing changes. *)
Lemma virtio_disk_req_refused s cs req :
  ring_rel (ring s) cs →
  (req < KSTACKTOP → virtio_disk_req req s = Err (- E_INVAL) s) ∧
  (KSTACKTOP ≤ req → (length (free_idx (desc_free_bitmap (ring s))) < 3)%nat →
   virtio_disk_req req s = Err (- E_NO_RING_DESC) s).
Proof.
  intros Hrel. unfold virtio_disk_req. split.
  - intros Hr. by rewrite (proj2 (Z.ltb_lt req KSTACKTOP)).
  - intros Hr Hl. rewrite (proj2 (Z.ltb_ge req KSTACKTOP)) by done.
    pose proof (alloc_3_desc_ok _ (ring_bitmap _ _ Hrel)) as Ha.
    assert (alloc_3_desc (ring s) = Err (- E_NO_RING_DESC) (ring s)) as Ha'.
    { destruct (free_idx _) as [|? [|? [|? ?]]]; cbn in Hl; try done. lia. }
    rewrite (bind_err _ _ _ _ _ (lift_err (H := sub_ring) alloc_3_desc _ _ s Ha')). by destruct s.
Qed.

(** * Driver and device together *)

(** The device completes the request with head [h]: it appends a used element. *)
Definition device_done (h : Z) (v : vring) : vring :=
  set_used (used_flags v) (u16 (used_idx_dev v + 1))
    (<[used_idx_dev v mod VIRTIO_QUEUE_NUM := h]> (used_id v)) v.

(** The chain that starts at descriptor [a] *)
Definition chain_from (v : vring) (a : Z) : chain :=
  let b := d_next (descr v a) in (a, b, d_next (descr v b)).

(** The chain published by the last request *)
Definition last_chain (s s' : dstate) : chain :=
  chain_from (ring s') (default 0 (avail_ring (ring s') !! (avail_idx (ring s) mod VIRTIO_QUEUE_NUM))).

(** A system state: the driver's state, the chains in flight and the heads of
    those the device has completed without the driver having seen it. *)
Abbreviation dsys := (dstate * list chain * list Z)%type.

Inductive dstep : dsys → dsys → Prop :=
| d_req req s s' cs hs :
    virtio_disk_req req s = Ok tt s' → dstep (s, cs, hs) (s', last_chain s s' :: cs, hs)
| d_refused req e s s' cs hs :
    virtio_disk_req req s = Err e s' → dstep (s, cs, hs) (s', cs, hs)
| d_device c s cs hs :
    c ∈ cs → c.1.1 ∉ hs →
    dstep (s, cs, hs) (MkDstate (device_done c.1.1 (ring s)) (dpm s), cs, hs ++ [c.1.1])
| d_intr s s' cs hs :
    lift virtio_disk_intr s = Ok tt s' →
    dstep (s, cs, hs) (s', foldl (λ cs h, without h cs) cs hs, []).

Inductive dreach (s0 : dstate) : dsys → Prop :=
| dreach_init : dreach s0 (s0, [], [])
| dreach_step x y : dreach s0 x → dstep x y → dreach s0 y.

Record dinv (x : dsys) : Prop := {
  dinv_ring : ring_rel (ring x.1.1) x.1.2;
  dinv_done : completed (ring x.1.1) x.2;
  dinv_nodup : NoDup x.2;
  dinv_heads : ∀ h, h ∈ x.2 → ∃ c, c ∈ x.1.2 ∧ c.1.1 = h;
  dinv_flags : used_flags (ring x.1.1) ∈ [0; 1];
  dinv_avail : 0 ≤ avail_idx (ring x.1.1) < 2 ^ 16
}.

(** Descriptors are conserved. *)
Lemma busy_length cs : length (busy cs) = (3 * length cs)%nat.
Proof. induction cs as [|c cs IH]; cbn; [done|]. fold (busy cs). rewrite IH. lia. Qed.

Lemma ring_conserved v cs :
  ring_rel v cs → (length (free_idx (desc_free_bitmap v)) + 3 * length cs = 32)%nat.
Proof.
  intros [R1 R2 R3 R4 R5]. rewrite <- busy_length.
  rewrite <- length_app. replace 32%nat with (length (seqZ 0 32)) by apply length_seqZ.
  apply Permutation_length, NoDup_Permutation; [|apply NoDup_seqZ|].
  - apply NoDup_app. split_and!; [apply NoDup_filter, NoDup_seqZ| |done].
    intros i [Hi Ht]%elem_free_idx Hb. rewrite R4, bool_decide_true in Ht by done. done.
  - intros i. rewrite elem_of_app, elem_free_idx, elem_of_seqZ. split.
    + intros [[? _]|Hb]; [lia|]. specialize (R3 i Hb). lia.
    + intros Hi. destruct (decide (i ∈ busy cs)) as [|Hn]; [auto|]. left. split; [lia|].
      rewrite R4, bool_decide_false by (done || lia). done.
Qed.

Lemma done_length x : dinv x → (length x.2 ≤ 10)%nat.
Proof.
  intros [D1 D2 D3 D4 _ _]. pose proof (ring_conserved _ _ D1).
  assert (length x.2 ≤ length (map (λ c : chain, c.1.1) x.1.2))%nat as H1; [|rewrite length_map in H1; lia].
  apply submseteq_length, NoDup_submseteq; [done|]. intros h Hh.
  destruct (D4 h Hh) as (c & Hc & <-). rewrite list_elem_of_In, in_map_iff.
  exists c. by rewrite <- list_elem_of_In.
Qed.

Lemma completed_device v hs h :
  completed v hs → (length hs ≤ 10)%nat → 0 ≤ h < 32 → completed (device_done h v) (hs ++ [h]).
Proof.
  intros [[Hu Hd] Hl Hi] Hlen Hh. unfold device_done. split; cbn.
  - split; [done|]. apply Z.mod_pos_bound. lia.
  - rewrite length_app. cbn [length]. unfold u16 in *. rewrite Zminus_mod_idemp_l.
    replace (used_idx_dev v + 1 - used_idx v) with (used_idx_dev v - used_idx v + 1) by lia.
    rewrite <- Zplus_mod_idemp_l, <- Hl, Z.mod_small by lia. lia.
  - assert (Hdev : used_idx_dev v mod 32 = (used_idx v + Z.of_nat (length hs)) mod 32).
    { rewrite Hl. unfold u16. rewrite <- Zplus_mod_idemp_r.
      rewrite <- (Znumtheory.Zmod_div_mod 32 (2 ^ 16)); [|lia|lia|by exists 2048].
      rewrite Zplus_mod_idemp_r. f_equal. lia. }
    intros k h' Hk. unfold used_at, VIRTIO_QUEUE_NUM. cbn. rewrite Hdev, lookup_insert.
    destruct (decide (k = length hs)) as [->|Hne].
    + rewrite decide_True by done. rewrite lookup_app_r, Nat.sub_diag in Hk by done.
      injection Hk as <-. cbn. unfold s32. rewrite !u32_small by lia.
      by rewrite (proj2 (Z.ltb_lt h (2 ^ 31))) by lia.
    + assert (k < length hs)%nat.
      { apply lookup_lt_Some in Hk. rewrite length_app in Hk. cbn in Hk. lia. }
      rewrite decide_False by (intros E; rewrite !Z.mod_eq in E by lia; lia).
      rewrite lookup_app_l in Hk by done. by apply Hi.
Qed.

(** An interrupt handler run frees the completed chains. *)
Lemma virtio_disk_intr_ok v cs hs :
  ring_rel v cs → completed v hs → NoDup hs → (∀ h, h ∈ hs → ∃ c, c ∈ cs ∧ c.1.1 = h) →
  ∃ v', virtio_disk_intr v = Ok tt v' ∧ ring_rel v' (foldl (λ cs h, without h cs) cs hs) ∧
    used_idx v' = used_idx_dev v' ∧ used_flags v' = used_flags v ∧ avail_idx v' = avail_idx v ∧
    0 ≤ used_idx v' < 2 ^ 16.
Proof.
  intros Hrel Hc Hnd Hin. unfold virtio_disk_intr, rd_reg. step.
  set (v1 := if negb (reg v INTERRUPT_STATUS =? 0)
             then log_mmio (INTERRUPT_ACK, Z.land (reg v INTERRUPT_STATUS) 0x3) v else v).
  rewrite (bind_ok _ _ tt v v1) by (unfold v1; by destruct (negb _)).
  assert (Hrel1 : ring_rel v1 cs) by (unfold v1; destruct (negb _); [by destruct Hrel|done]).
  assert (Hc1 : completed v1 hs) by (unfold v1; destruct (negb _); [by destruct Hc|done]).
  assert (used_flags v1 = used_flags v ∧ avail_idx v1 = avail_idx v) as [<- <-]
    by (unfold v1; by destruct (negb _)).
  clearbody v1. rewrite (bind_ok (gets id) _ v1 v1 v1) by done.
  destruct (reap_ok hs (S (Z.to_nat (u16 (used_idx_dev v1 - used_idx v1)))) v1 cs)
    as (v' & E & Hr' & Hu' & Hf' & Ha' & Hd'); try done.
  - rewrite <- (comp_len _ _ Hc1). lia.
  - exists v'. split_and!; try done; rewrite Hu', Hd'; apply Hc1.
Qed.

(** ** The invariant of the whole system *)

Lemma dinv_request req s s' cs hs :
  dinv (s, cs, hs) → virtio_disk_req req s = Ok tt s' → dinv (s', last_chain s s' :: cs, hs).
Proof.
  intros [D1 D2 D3 D4 D5 D6] E. cbn in *.
  destruct (virtio_disk_req_refused s cs req D1) as [Hr1 Hr2].
  destruct (Z.lt_ge_cases req KSTACKTOP) as [Hlt|Hge]; [by rewrite Hr1 in E|].
  destruct (free_idx (desc_free_bitmap (ring s))) as [|a [|b [|e r]]] eqn:Ef;
    try (rewrite Hr2 in E by (done || cbn; lia); done).
  destruct (virtio_disk_req_ok s cs req a b e r D1 Hge D5 Ef D6) as (s1 & E1 & Hrel & Hp).
  rewrite E1 in E. injection E as <-. destruct Hp as (P1 & P2 & P3 & _ & P5 & P6 & _ & _ & P9 & P10 & P11 & P12).
  assert (Hlast : last_chain s s1 = (a, b, e)).
  { unfold last_chain, chain_from. rewrite P5. change (default 0 (Some a)) with a. rewrite P1. cbn [d_next]. by rewrite P2. }
  rewrite Hlast. split; cbn; try done.
  - destruct D2 as [C1 C2 C3]. split; unfold used_at; rewrite ?P9, ?P10, ?P11; done.
  - intros h Hh. destruct (D4 h Hh) as (c & Hc & <-). exists c. split; [|done]. by apply list_elem_of_further.
  - by rewrite P12.
  - rewrite P6. apply Z.mod_pos_bound. lia.
Qed.

Lemma dinv_device c s cs hs :
  dinv (s, cs, hs) → c ∈ cs → c.1.1 ∉ hs →
  dinv (MkDstate (device_done c.1.1 (ring s)) (dpm s), cs, hs ++ [c.1.1]).
Proof.
  intros D Hc Hn. pose proof (done_length _ D) as Hlen. destruct D as [D1 D2 D3 D4 D5 D6]. cbn in *.
  split; cbn; try done.
  - by destruct D1.
  - apply completed_device; [done|done|]. apply (ring_range _ _ D1). by apply head_busy.
  - apply NoDup_app. split_and!; [done| |by apply NoDup_singleton].
    intros h Hh ->%list_elem_of_singleton. done.
  - intros h [Hh| ->%list_elem_of_singleton]%elem_of_app; [by apply D4|]. by exists c.
Qed.

Lemma dinv_intr s s' cs hs :
  dinv (s, cs, hs) → lift virtio_disk_intr s = Ok tt s' →
  dinv (s', foldl (λ cs h, without h cs) cs hs, []).
Proof.
  intros [D1 D2 D3 D4 D5 D6] E. cbn in *.
  destruct (virtio_disk_intr_ok _ cs hs D1 D2 D3 D4) as (v' & E1 & Hrel & Hu & Hf & Ha & Hb).
  rewrite (lift_ok (H := sub_ring) _ _ _ s E1) in E. injection E as <-.
  split; cbn; try done.
  - split; cbn; [split; [done|by rewrite <- Hu]| |done]. by rewrite Hu, Z.sub_diag.
  - constructor.
  - by intros h ?%not_elem_of_nil.
  - by rewrite Hf.
  - by rewrite Ha.
Qed.

Lemma dinv_step x y : dinv x → dstep x y → dinv y.
Proof.
  intros D Hst. destruct Hst as [req s s' cs hs E|req e s s' cs hs E|c s cs hs Hc Hn|s s' cs hs E].
  - by eapply dinv_request.
  - cut (s' = s); [by intros ->|]. destruct D as [D1 D2 D3 D4 D5 D6]. cbn in *.
    destruct (virtio_disk_req_refused s cs req D1) as [Hr1 Hr2].
    destruct (Z.lt_ge_cases req KSTACKTOP) as [Hlt|Hge]; [rewrite Hr1 in E by done; congruence|].
    destruct (free_idx (desc_free_bitmap (ring s))) as [|a [|b [|k r]]] eqn:Ef;
      try (rewrite Hr2 in E by (done || cbn; lia); congruence).
    destruct (virtio_disk_req_ok s cs req a b k r D1 Hge D5 Ef D6) as (s1 & E1 & _). congruence.
  - by apply dinv_device.
  - by eapply dinv_intr.
Qed.

Lemma dinv_reach s0 x : dinv (s0, [], []) → dreach s0 x → dinv x.
Proof. intros H0 Hr. induction Hr as [|x y _ IH Hst]; [done|]. by eapply dinv_step. Qed.

(** * Properties *)

(** A driver state after initialisation: all descriptors free *)
Definition w_disk : dstate :=
  MkDstate (MkVring 0 0 0 0 ∅ 1 0 ∅ 0 0 ∅ (2 ^ 32 - 1) ∅ 0 (λ _, 0) [])
    (MkPmap 0 8 0 0 ∅ (LIST.Mk None ∅) 0 ∅ [] 0).

Lemma w_disk_dinv : dinv (w_disk, [], []).
Proof.
  split; cbn; [split; cbn| | | | |]; try done.
  - constructor.
  - by intros i ?%not_elem_of_nil.
  - intros i Hi. rewrite bool_decide_false by apply not_elem_of_nil.
    change (2 ^ 32 - 1) with (Z.ones 32). by rewrite Z.ones_spec_low by lia.
  - by intros c ?%not_elem_of_nil.
  - constructor.
  - by intros h ?%not_elem_of_nil.
  - set_solver.
Qed.

(** C5. Whatever way requests, device completions and interrupts interleave,
    descriptors are conserved (free ones plus three per request in flight make
    32), every request in flight owns its own well-linked chain, the interrupt
    handler succeeds and frees exactly the completed chains, and a further
    request is accepted if and only if three descriptors are free. *)
Theorem disk_interleaving_safe s0 s cs hs :
  dinv (s0, [], []) → dreach s0 (s, cs, hs) →
  (length (free_idx (desc_free_bitmap (ring s))) + 3 * length cs = 32)%nat ∧
  NoDup (busy cs) ∧ (∀ c, c ∈ cs → linked (ring s) c) ∧
  (∃ v', virtio_disk_intr (ring s) = Ok tt v' ∧ ring_rel v' (foldl (λ cs h, without h cs) cs hs)) ∧
  (∀ req, KSTACKTOP ≤ req →
     if decide (3 ≤ length (free_idx (desc_free_bitmap (ring s))))%nat
     then ∃ s', virtio_disk_req req s = Ok tt s' ∧ ring_rel (ring s') (last_chain s s' :: cs)
     else virtio_disk_req req s = Err (- E_NO_RING_DESC) s).
Proof.
  intros H0 Hr. pose proof (dinv_reach _ _ H0 Hr) as D. pose proof D as [D1 D2 D3 D4 D5 D6]. cbn in *.
  split_and!; [by apply ring_conserved|apply D1|apply D1| |].
  - destruct (virtio_disk_intr_ok _ cs hs D1 D2 D3 D4) as (v' & ? & ? & _). eauto.
  - intros req Hreq. case_decide as Hf.
    + destruct (free_idx (desc_free_bitmap (ring s))) as [|a [|b [|e r]]] eqn:Ef; cbn in Hf; try lia.
      destruct (virtio_disk_req_ok s cs req a b e r D1 Hreq D5 Ef D6) as (s' & E & _).
      exists s'. split; [done|]. by destruct (dinv_request req s s' cs hs D E).
    + apply (virtio_disk_req_refused s cs req D1); [done|lia].
Qed.

Lemma disk_interleaving_safe_witness :
  (length (free_idx (desc_free_bitmap (ring w_disk))) + 3 * 0 = 32)%nat ∧
  ∃ s', virtio_disk_req KSTACKTOP w_disk = Ok tt s' ∧ ring_rel (ring s') (last_chain w_disk s' :: []).
Proof.
  destruct (disk_interleaving_safe w_disk w_disk [] [] w_disk_dinv (dreach_init _))
    as (Hl & _ & _ & _ & Hreq).
  split; [exact Hl|]. specialize (Hreq KSTACKTOP ltac:(done)).
  rewrite decide_True in Hreq by (vm_compute; lia). exact Hreq.
Defined.

(** An accepted request hands the device the chain header, buffer,
    status with the addresses, lengths and directions virtio prescribes,
    publishes it at the old available index, marks the request as unanswered,
    and touches nothing else in memory. *)
Theorem disk_request_posted s cs req a b e r :
  ring_rel (ring s) cs → KSTACKTOP ≤ req → used_flags (ring s) ∈ [0; 1] →
  free_idx (desc_free_bitmap (ring s)) = a :: b :: e :: r → 0 ≤ avail_idx (ring s) < 2 ^ 16 →
  ∃ s', virtio_disk_req req s = Ok tt s' ∧ posted s s' req (a, b, e).
Proof.
  intros Hrel Hreq Hf Ef Ha.
  destruct (virtio_disk_req_ok s cs req a b e r Hrel Hreq Hf Ef Ha) as (s' & ? & _ & ?). eauto.
Qed.

Lemma disk_request_posted_witness :
  ∃ s', virtio_disk_req KSTACKTOP w_disk = Ok tt s' ∧ posted w_disk s' KSTACKTOP (0, 1, 2).
Proof.
  apply (disk_request_posted w_disk [] KSTACKTOP 0 1 2 (seqZ 3 29)); [apply w_disk_dinv|done| |reflexivity|done].
  apply list_elem_of_here.
Defined.

