(* ===== verification/StringsProps.v ===== *)
(** lib/string.c copies, fills, measures and compares byte strings. *)
From S2P Require Import Prelude Mmu Memory Strings.

(** * Bytes of words *)

Definition byte_of (w k : Z) : Z := u8 (Z.shiftr w (8 * k)).

Lemma land3 a : Z.land a 3 = a mod 4.
Proof. change 3 with (Z.ones 2). by rewrite Z.land_ones. Qed.

Lemma load_addr m a : load m a = word (pg m (a / 4 / 1024)) (a / 4 mod 1024).
Proof.
  unfold load, widx. rewrite PPN_div, Z.shiftr_div_pow2 by lia. change 1023 with (Z.ones 10).
  rewrite Z.land_ones by lia. change (2 ^ 2) with 4. change (2 ^ 10) with 1024.
  rewrite Z.div_div by lia. done.
Qed.

Lemma load_store_word m a v a' :
  load (store a v m) a' = if decide (a / 4 = a' / 4) then u32 v else load m a'.
Proof.
  rewrite !load_addr. unfold store, widx. rewrite PPN_div, Z.shiftr_div_pow2 by lia.
  change 1023 with (Z.ones 10). rewrite Z.land_ones by lia. change (2 ^ 2) with 4. change (2 ^ 10) with 1024.
  replace (a / 4096) with (a / 4 / 1024) by (by rewrite Z.div_div by lia).
  unfold pg at 1. rewrite lookup_insert.
  destruct (decide (a / 4 / 1024 = a' / 4 / 1024)) as [E|E].
  - cbn. unfold word at 1. rewrite lookup_insert. rewrite E.
    destruct (decide (a / 4 mod 1024 = a' / 4 mod 1024)) as [E'|E'].
    + rewrite decide_True; [done|]. pose proof (Z.div_mod (a / 4) 1024). pose proof (Z.div_mod (a' / 4) 1024). lia.
    + rewrite decide_False by congruence. done.
  - rewrite decide_False by congruence. done.
Qed.

Lemma load8_byte m a : load8 m a = byte_of (load m a) (a mod 4).
Proof. unfold load8, byte_of. by rewrite land3. Qed.

Lemma byte_of_bits w k i : 0 ≤ k → 0 ≤ i → Z.testbit (byte_of w k) i = (i <? 8) && Z.testbit w (i + 8 * k).
Proof.
  intros Hk Hi. unfold byte_of, u8. destruct (Z.ltb_spec i 8); cbn.
  - by rewrite Z.mod_pow2_bits_low, Z.shiftr_spec by lia.
  - by rewrite Z.mod_pow2_bits_high by lia.
Qed.

Lemma load8_store m a v a' :
  load8 (store a v m) a' =
    if decide (a / 4 = a' / 4) then byte_of (u32 v) (a' mod 4) else load8 m a'.
Proof. rewrite !load8_byte, load_store_word. by case_decide. Qed.

(** Replacing byte [j] of a word *)
Definition put_byte (w j b : Z) : Z :=
  Z.lor (Z.land w (not32 (Z.shiftl 255 (8 * j)))) (Z.shiftl (u8 b) (8 * j)).

Lemma u8_bits b i : 0 ≤ i → Z.testbit (u8 b) i = (i <? 8) && Z.testbit b i.
Proof.
  intros Hi. unfold u8. destruct (Z.ltb_spec i 8); [by rewrite Z.mod_pow2_bits_low by lia|].
  by rewrite Z.mod_pow2_bits_high by lia.
Qed.

Lemma put_byte_bits w j b i : 0 ≤ j < 4 → 0 ≤ i < 32 →
  Z.testbit (put_byte w j b) i =
    if decide (8 * j ≤ i < 8 * j + 8) then Z.testbit b (i - 8 * j) else Z.testbit w i.
Proof.
  intros Hj Hi. unfold put_byte, not32, u32.
  rewrite Z.lor_spec, Z.land_spec, Z.mod_pow2_bits_low, Z.lnot_spec, !Z.shiftl_spec by lia.
  change 255 with (Z.ones 8). case_decide.
  - rewrite Z.ones_spec_low by lia. rewrite u8_bits by lia.
    rewrite (proj2 (Z.ltb_lt (i - 8 * j) 8)) by lia. by rewrite andb_false_r.
  - destruct (Z.lt_ge_cases i (8 * j)).
    + rewrite !(Z.testbit_neg_r _ (i - 8 * j)) by lia. by rewrite andb_true_r, orb_false_r.
    + rewrite Z.ones_spec_high, u8_bits by lia. rewrite (proj2 (Z.ltb_ge (i - 8 * j) 8)) by lia.
      by rewrite andb_true_r, orb_false_r.
Qed.

Lemma byte_of_put w j b k : 0 ≤ j < 4 → 0 ≤ k < 4 →
  byte_of (u32 (put_byte w j b)) k = if decide (j = k) then u8 b else byte_of w k.
Proof.
  intros Hj Hk. apply Z.bits_inj'. intros i Hi. rewrite byte_of_bits by lia.
  destruct (Z.ltb_spec i 8); cbn [andb].
  - unfold u32. rewrite Z.mod_pow2_bits_low, put_byte_bits by lia. case_decide; case_decide; try lia.
    + subst k. rewrite u8_bits, (proj2 (Z.ltb_lt i 8)) by lia. cbn. f_equal. lia.
    + by rewrite byte_of_bits, (proj2 (Z.ltb_lt i 8)) by lia.
  - case_decide; [by rewrite u8_bits, (proj2 (Z.ltb_ge i 8)) by lia|].
    by rewrite byte_of_bits, (proj2 (Z.ltb_ge i 8)) by lia.
Qed.

Lemma mod4_bound a : 0 ≤ a mod 4 < 4.
Proof. apply Z.mod_pos_bound. lia. Qed.

Lemma same_byte a a' : a / 4 = a' / 4 → a mod 4 = a' mod 4 → a = a'.
Proof. pose proof (Z.div_mod a 4). pose proof (Z.div_mod a' 4). lia. Qed.

Lemma load8_store8 m a b a' :
  load8 (store8 a b m) a' = if decide (a = a') then u8 b else load8 m a'.
Proof.
  unfold store8. rewrite land3. fold (put_byte (load m a) (a mod 4) b). rewrite load8_store.
  pose proof (mod4_bound a). pose proof (mod4_bound a').
  destruct (decide (a / 4 = a' / 4)) as [E|E].
  - rewrite byte_of_put by done. destruct (decide (a mod 4 = a' mod 4)) as [E'|E'].
    + rewrite decide_True; [done|by apply same_byte].
    + rewrite decide_False by congruence. rewrite load8_byte, !load_addr. by rewrite E.
  - rewrite decide_False by congruence. done.
Qed.

Lemma load8_u8 m a : u8 (load8 m a) = load8 m a.
Proof. unfold load8, u8. apply Z.mod_mod. lia. Qed.

(** Copying an aligned word copies its four bytes. *)
Lemma load8_store_load m dst src a :
  dst mod 4 = 0 → src mod 4 = 0 →
  load8 (store dst (load m src) m) a =
    if decide (dst ≤ a < dst + 4) then load8 m (src + (a - dst)) else load8 m a.
Proof.
  intros Hd Hs. rewrite load8_store. pose proof (Z.div_mod dst 4). pose proof (Z.div_mod src 4).
  pose proof (Z.div_mod a 4). pose proof (mod4_bound a).
  destruct (decide (dst / 4 = a / 4)).
  - rewrite decide_True by lia. rewrite load8_byte.
    assert (src + (a - dst) = a mod 4 + src / 4 * 4) as -> by lia.
    rewrite Z.mod_add, Z.mod_mod by lia. rewrite (load_addr m (_ + _)), Z.div_add by lia.
    rewrite (Z.div_small (a mod 4)) by lia. rewrite Z.add_0_l, <- load_addr.
    apply Z.bits_inj'. intros i Hi. rewrite !byte_of_bits by lia.
    destruct (Z.ltb_spec i 8); [|done]. unfold u32. by rewrite Z.mod_pow2_bits_low by lia.
  - by rewrite decide_False by lia.
Qed.

(** * Copying *)

(** [m'] is [m] with the [n] bytes at [src] copied to [dst]. *)
Definition copied (m m' : memory) (dst src n : Z) : Prop :=
  ∀ a, load8 m' a = if decide (dst ≤ a < dst + n) then load8 m (src + (a - dst)) else load8 m a.

(** Copying forwards is right when the destination starts before the source or
    behind its end. *)
Definition forward (dst src n : Z) : Prop := dst ≤ src ∨ src + n ≤ dst.

Lemma copied_nil m dst src n : n ≤ 0 → copied m m dst src n.
Proof. intros Hn a. by rewrite decide_False by lia. Qed.

Lemma copied_app m m1 m2 dst src h n :
  0 ≤ h ≤ n → forward dst src n →
  copied m m1 dst src h → copied m1 m2 (dst + h) (src + h) (n - h) → copied m m2 dst src n.
Proof.
  intros Hh Hf H1 H2 a. rewrite H2. destruct (decide (dst + h ≤ a < dst + h + (n - h))).
  - rewrite H1, decide_False by (unfold forward in Hf; lia).
    rewrite decide_True by lia. f_equal. lia.
  - rewrite H1. repeat case_decide; try lia; done.
Qed.

Lemma copied_byte m dst src : copied m (store8 dst (load8 m src) m) dst src 1.
Proof.
  intros a. rewrite load8_store8, load8_u8. repeat case_decide; try lia; try done; f_equal; lia.
Qed.

Lemma forward_skip dst src n h : 0 ≤ h ≤ n → forward dst src n → forward (dst + h) (src + h) (n - h).
Proof. unfold forward. lia. Qed.

Lemma copy_tail_ok fuel dst src n m :
  (Z.to_nat n ≤ fuel)%nat → forward dst src n → copied m (copy_tail fuel dst src (dst + n) m) dst src n.
Proof.
  revert dst src n m. induction fuel as [|fuel IH]; intros dst src n m Hf Hfw; cbn [copy_tail].
  - apply copied_nil. lia.
  - destruct (Z.ltb_spec dst (dst + n)); [|by apply copied_nil; lia].
    apply copied_app with (store8 dst (load8 m src) m) 1; [lia|done|apply copied_byte|].
    replace (dst + n) with (dst + 1 + (n - 1)) by lia. apply IH; [lia|]. apply forward_skip; lia || done.
Qed.

Lemma copy_head_ok fuel dst src n m :
  (Z.to_nat n < fuel)%nat → forward dst src n → 0 ≤ n →
  let '(d, s, m') := copy_head fuel dst src (dst + n) m in
  ∃ h, 0 ≤ h ≤ n ∧ d = dst + h ∧ s = src + h ∧ copied m m' dst src h ∧ (d mod 4 = 0 ∨ h = n).
Proof.
  revert dst src n m. induction fuel as [|fuel IH]; intros dst src n m Hf Hfw Hn; cbn [copy_head]; [lia|].
  rewrite land3. destruct (Z.eqb_spec (dst mod 4) 0) as [E|E]; cbn [negb andb].
  { exists 0. split_and!; try lia. by apply copied_nil. }
  destruct (Z.ltb_spec dst (dst + n)).
  - replace (dst + n) with (dst + 1 + (n - 1)) by lia.
    specialize (IH (dst + 1) (src + 1) (n - 1) (store8 dst (load8 m src) m)).
    destruct (copy_head _ _ _ _ _) as [[d s] m']. destruct IH as (h & Hh & -> & -> & Hc & Hor); try lia.
    { apply forward_skip; lia || done. }
    exists (h + 1). split_and!; try lia. apply copied_app with (store8 dst (load8 m src) m) 1;
      [lia|unfold forward in *; lia|apply copied_byte|]. by replace (h + 1 - 1) with h by lia.
  - exists 0. split_and!; try lia. by apply copied_nil.
Qed.

Lemma copy_body_ok fuel dst src n m :
  (Z.to_nat n < fuel)%nat → forward dst src n → 0 ≤ n → dst mod 4 = 0 → src mod 4 = 0 →
  let '(d, s, m') := copy_body fuel dst src (dst + n) m in
  ∃ h, 0 ≤ h ≤ n ∧ d = dst + h ∧ s = src + h ∧ copied m m' dst src h.
Proof.
  revert dst src n m. induction fuel as [|fuel IH]; intros dst src n m Hf Hfw Hn Hd Hs; cbn [copy_body]; [lia|].
  destruct (Z.leb_spec (dst + 4) (dst + n)).
  - replace (dst + n) with (dst + 4 + (n - 4)) by lia.
    specialize (IH (dst + 4) (src + 4) (n - 4) (store dst (load m src) m)).
    destruct (copy_body _ _ _ _ _) as [[d s] m']. destruct IH as (h & Hh & -> & -> & Hc); try lia.
    { apply forward_skip; lia || done. }
    { rewrite Zplus_mod, Hd. done. }
    { rewrite Zplus_mod, Hs. done. }
    exists (h + 4). split_and!; try lia. apply copied_app with (store dst (load m src) m) 4;
      [lia|unfold forward in *; lia| |by replace (h + 4 - 4) with h by lia].
    intros a. by apply load8_store_load.
  - exists 0. split_and!; try lia. by apply copied_nil.
Qed.

Lemma memcpy_ok dst src n m : 0 ≤ n → forward dst src n → copied m (memcpy dst src n m) dst src n.
Proof.
  intros Hn Hf. unfold memcpy. rewrite !land3. destruct (Z.eqb_spec (src mod 4) (dst mod 4)) as [E|E]; cbn [negb].
  2: { apply copy_tail_ok; [lia|done]. }
  pose proof (copy_head_ok (S (Z.to_nat n)) dst src n m ltac:(lia) Hf Hn) as H1.
  destruct (copy_head _ _ _ _ _) as [[d1 s1] m1]. destruct H1 as (h & Hh & -> & -> & Hc1 & Hor).
  replace (dst + n) with (dst + h + (n - h)) by lia.
  apply copied_app with m1 h; [done|done|done|]. pose proof (forward_skip dst src n h Hh Hf) as Hf1.
  destruct Hor as [Hal| ->].
  - assert (Hsal : (src + h) mod 4 = 0) by (rewrite <- Hal, !(Zplus_mod _ h), E; done).
    pose proof (copy_body_ok (S (Z.to_nat n)) (dst + h) (src + h) (n - h) m1 ltac:(lia) Hf1 ltac:(lia) Hal Hsal) as H2.
    destruct (copy_body _ _ _ _ _) as [[d2 s2] m2]. destruct H2 as (k & Hk & -> & -> & Hc2).
    replace (dst + h + (n - h)) with (dst + h + k + (n - h - k)) by lia.
    apply copied_app with m2 k; [done|done|done|]. apply copy_tail_ok; [lia|]. by apply forward_skip.
  - rewrite Z.sub_diag, Z.add_0_r. cbn [copy_body]. rewrite (proj2 (Z.leb_gt _ _)) by lia.
    cbn [copy_tail]. rewrite (proj2 (Z.ltb_ge _ _)) by lia. by apply copied_nil.
Qed.

(** Words without a byte of the destination keep their value. *)
Definition words_kept (m m' : memory) (dst n : Z) : Prop :=
  ∀ a, (∀ b, dst ≤ b < dst + n → b / 4 ≠ a / 4) → load m' a = load m a.

Lemma store_kept m m' dst n a v :
  words_kept m m' dst n → dst ≤ a < dst + n → words_kept m (store a v m') dst n.
Proof. intros Hk Ha x Hx. rewrite load_store_word, decide_False by (by apply Hx). by apply Hk. Qed.

Lemma copy_tail_kept fuel dst0 n dst src m0 m :
  dst0 ≤ dst → words_kept m0 m dst0 n → words_kept m0 (copy_tail fuel dst src (dst0 + n) m) dst0 n.
Proof.
  revert dst src m. induction fuel as [|fuel IH]; intros dst src m Hd Hk; cbn [copy_tail]; [done|].
  destruct (Z.ltb_spec dst (dst0 + n)); [|done]. apply IH; [lia|]. apply store_kept; [done|lia].
Qed.

Lemma copy_head_kept fuel dst0 n dst src m0 m :
  dst0 ≤ dst → words_kept m0 m dst0 n →
  let '(d, s, m') := copy_head fuel dst src (dst0 + n) m in dst0 ≤ d ∧ words_kept m0 m' dst0 n.
Proof.
  revert dst src m. induction fuel as [|fuel IH]; intros dst src m Hd Hk; cbn [copy_head]; [done|].
  destruct (negb _); cbn [andb]; [|done]. destruct (Z.ltb_spec dst (dst0 + n)); [|done].
  apply IH; [lia|]. apply store_kept; [done|lia].
Qed.

Lemma copy_body_kept fuel dst0 n dst src m0 m :
  dst0 ≤ dst → words_kept m0 m dst0 n →
  let '(d, s, m') := copy_body fuel dst src (dst0 + n) m in dst0 ≤ d ∧ words_kept m0 m' dst0 n.
Proof.
  revert dst src m. induction fuel as [|fuel IH]; intros dst src m Hd Hk; cbn [copy_body]; [done|].
  destruct (Z.leb_spec (dst + 4) (dst0 + n)); [|done].
  apply IH; [lia|]. apply store_kept; [done|lia].
Qed.

Lemma memcpy_kept dst src n m : words_kept m (memcpy dst src n m) dst n.
Proof.
  unfold memcpy. assert (words_kept m m dst n) as H0 by done.
  case_match; [by apply copy_tail_kept|].
  pose proof (copy_head_kept (S (Z.to_nat n)) dst n dst src m m (Z.le_refl _) H0) as H1.
  destruct (copy_head _ _ _ _ _) as [[d1 s1] m1], H1 as [Hd1 H1].
  pose proof (copy_body_kept (S (Z.to_nat n)) dst n d1 s1 m m1 Hd1 H1) as H2.
  destruct (copy_body _ _ _ _ _) as [[d2 s2] m2], H2 as [Hd2 H2]. by apply copy_tail_kept.
Qed.

(** * Filling *)

Definition filled (m m' : memory) (dst c n : Z) : Prop :=
  ∀ a, load8 m' a = if decide (dst ≤ a < dst + n) then u8 c else load8 m a.

Lemma filled_nil m dst c n : n ≤ 0 → filled m m dst c n.
Proof. intros Hn a. by rewrite decide_False by lia. Qed.

Lemma filled_app m m1 m2 dst c h n :
  0 ≤ h ≤ n → filled m m1 dst c h → filled m1 m2 (dst + h) c (n - h) → filled m m2 dst c n.
Proof. intros Hh H1 H2 a. rewrite H2, H1. repeat case_decide; try lia; done. Qed.

Lemma filled_byte m dst c : filled m (store8 dst c m) dst c 1.
Proof. intros a. rewrite load8_store8. repeat case_decide; try lia; done. Qed.

(** The word of four equal bytes *)
Definition rep4 (b : Z) : Z :=
  u32 (Z.lor (Z.lor (Z.lor b (Z.shiftl b 8)) (Z.shiftl b 16)) (Z.shiftl b 24)).

Lemma rep4_byte b k : 0 ≤ b < 256 → 0 ≤ k < 4 → byte_of (u32 (rep4 b)) k = u8 b.
Proof.
  intros Hb Hk. unfold rep4. rewrite u32_u32. apply Z.bits_inj'. intros i Hi.
  rewrite byte_of_bits, u8_bits by lia. destruct (Z.ltb_spec i 8); [|done]. cbn. unfold u32.
  rewrite Z.mod_pow2_bits_low, !Z.lor_spec, !Z.shiftl_spec by lia.
  assert (Hbit : ∀ j, j < 0 ∨ 8 ≤ j → Z.testbit b j = false).
  { intros j [?|?]; [by apply Z.testbit_neg_r|]. by apply (testbit_small b 8); lia. }
  assert (k = 0 ∨ k = 1 ∨ k = 2 ∨ k = 3) as [->|[->|[->| ->]]] by lia.
  - rewrite (Hbit (_ - 8)), (Hbit (_ - 16)), (Hbit (_ - 24)) by lia. rewrite !orb_false_r. f_equal. lia.
  - rewrite (Hbit (i + _)), (Hbit (_ - 16)), (Hbit (_ - 24)) by lia. rewrite !orb_false_r. cbn. f_equal. lia.
  - rewrite (Hbit (i + _)), (Hbit (_ - 8)), (Hbit (_ - 24)) by lia. rewrite !orb_false_r. cbn. f_equal. lia.
  - rewrite (Hbit (i + _)), (Hbit (_ - 8)), (Hbit (_ - 16)) by lia. cbn. f_equal. lia.
Qed.

Lemma filled_word m dst b : 0 ≤ b < 256 → dst mod 4 = 0 → filled m (store dst (rep4 b) m) dst b 4.
Proof.
  intros Hb Hd a. rewrite load8_store. pose proof (Z.div_mod dst 4). pose proof (Z.div_mod a 4).
  pose proof (mod4_bound a). repeat case_decide; try lia; try done; by apply rep4_byte.
Qed.

Lemma set_tail_ok fuel dst b n m :
  (Z.to_nat n ≤ fuel)%nat → filled m (set_tail fuel dst b (dst + n) m) dst b n.
Proof.
  revert dst n m. induction fuel as [|fuel IH]; intros dst n m Hf; cbn [set_tail].
  - apply filled_nil. lia.
  - destruct (Z.ltb_spec dst (dst + n)); [|by apply filled_nil; lia].
    apply filled_app with (store8 dst b m) 1; [lia|apply filled_byte|].
    replace (dst + n) with (dst + 1 + (n - 1)) by lia. apply IH. lia.
Qed.

Lemma set_head_ok fuel dst b n m :
  (Z.to_nat n < fuel)%nat → 0 ≤ n →
  let '(d, m') := set_head fuel dst b (dst + n) m in
  ∃ h, 0 ≤ h ≤ n ∧ d = dst + h ∧ filled m m' dst b h ∧ (d mod 4 = 0 ∨ h = n).
Proof.
  revert dst n m. induction fuel as [|fuel IH]; intros dst n m Hf Hn; cbn [set_head]; [lia|].
  rewrite land3. destruct (Z.eqb_spec (dst mod 4) 0) as [E|E]; cbn [negb andb].
  { exists 0. split_and!; try lia. by apply filled_nil. }
  destruct (Z.ltb_spec dst (dst + n)).
  - replace (dst + n) with (dst + 1 + (n - 1)) by lia.
    specialize (IH (dst + 1) (n - 1) (store8 dst b m)).
    destruct (set_head _ _ _ _ _) as [d m']. destruct IH as (h & Hh & -> & Hc & Hor); try lia.
    exists (h + 1). split_and!; try lia.
    apply filled_app with (store8 dst b m) 1; [lia|apply filled_byte|]. by replace (h + 1 - 1) with h by lia.
  - exists 0. split_and!; try lia. by apply filled_nil.
Qed.

Lemma set_body_ok fuel dst b n m :
  (Z.to_nat n < fuel)%nat → 0 ≤ n → dst mod 4 = 0 → 0 ≤ b < 256 →
  let '(d, m') := set_body fuel dst (rep4 b) (dst + n) m in
  ∃ h, 0 ≤ h ≤ n ∧ d = dst + h ∧ filled m m' dst b h.
Proof.
  revert dst n m. induction fuel as [|fuel IH]; intros dst n m Hf Hn Hd Hb; cbn [set_body]; [lia|].
  destruct (Z.leb_spec (dst + 4) (dst + n)).
  - replace (dst + n) with (dst + 4 + (n - 4)) by lia.
    specialize (IH (dst + 4) (n - 4) (store dst (rep4 b) m)).
    destruct (set_body _ _ _ _ _) as [d m']. destruct IH as (h & Hh & -> & Hc); try lia.
    { rewrite Zplus_mod, Hd. done. }
    exists (h + 4). split_and!; try lia.
    apply filled_app with (store dst (rep4 b) m) 4; [lia|by apply filled_word|].
    by replace (h + 4 - 4) with h by lia.
  - exists 0. split_and!; try lia. by apply filled_nil.
Qed.

Lemma memset_ok dst c n m : 0 ≤ n → filled m (memset dst c n m) dst c n.
Proof.
  intros Hn. unfold memset. set (b := Z.land c 255).
  assert (Hb : 0 ≤ b < 256) by (apply (land_bound _ _ 8); lia).
  assert (Hcb : u8 c = u8 b).
  { unfold b, u8. change 255 with (Z.ones 8). rewrite Z.land_ones, Z.mod_mod by lia. done. }
  cut (filled m (let '(d, m') := set_head (S (Z.to_nat n)) dst b (dst + n) m in
                 let '(d, m') := set_body (S (Z.to_nat n)) d (rep4 b) (dst + n) m' in
                 set_tail (S (Z.to_nat n)) d b (dst + n) m') dst b n).
  { intros H a. rewrite Hcb. apply H. }
  pose proof (set_head_ok (S (Z.to_nat n)) dst b n m ltac:(lia) Hn) as H1.
  destruct (set_head _ _ _ _ _) as [d1 m1]. destruct H1 as (h & Hh & -> & Hc1 & Hor).
  replace (dst + n) with (dst + h + (n - h)) by lia. apply filled_app with m1 h; [done|done|].
  destruct Hor as [Hal| ->].
  - pose proof (set_body_ok (S (Z.to_nat n)) (dst + h) b (n - h) m1 ltac:(lia) ltac:(lia) Hal Hb) as H2.
    destruct (set_body _ _ _ _ _) as [d2 m2]. destruct H2 as (k & Hk & -> & Hc2).
    replace (dst + h + (n - h)) with (dst + h + k + (n - h - k)) by lia.
    apply filled_app with m2 k; [done|done|]. apply set_tail_ok. lia.
  - rewrite Z.sub_diag, Z.add_0_r. cbn [set_body]. rewrite (proj2 (Z.leb_gt _ _)) by lia.
    cbn [set_tail]. rewrite (proj2 (Z.ltb_ge _ _)) by lia. by apply filled_nil.
Qed.

(** * C strings *)

(** The bytes [l], none of them zero, and a terminator, at address [a] *)
Fixpoint cstr (m : memory) (a : Z) (l : list Z) : Prop :=
  match l with
  | [] => load8 m a = 0
  | x :: l' => load8 m a = x ∧ x ≠ 0 ∧ cstr m (a + 1) l'
  end.

Lemma strlen_ok m a l fuel :
  cstr m a l → (length l < fuel)%nat → strlen fuel a m = Some (Z.of_nat (length l)).
Proof.
  revert a fuel. induction l as [|x l IH]; intros a fuel Hs Hf; (destruct fuel as [|fuel]; [cbn in Hf; lia|]).
  - cbn in *. by rewrite Hs.
  - destruct Hs as (Hx & Hne & Hs). cbn [strlen]. rewrite Hx, (proj2 (Z.eqb_neq x 0)) by done.
    rewrite (IH (a + 1) fuel Hs) by (cbn in Hf; lia). cbn. f_equal. lia.
Qed.

Lemma cstr_frame m m' a l :
  (∀ k, a ≤ k ≤ a + Z.of_nat (length l) → load8 m' k = load8 m k) → cstr m a l → cstr m' a l.
Proof.
  revert a. induction l as [|x l IH]; intros a Hf; cbn [cstr length] in *; [intros <-; apply Hf; lia|].
  intros (<- & ? & Hs). split_and!; [apply Hf; lia|done|]. apply IH; [|done]. intros k Hk. apply Hf. lia.
Qed.

Lemma strcpy_ok m dst src l fuel :
  cstr m src l → (length l < fuel)%nat → forward dst src (Z.of_nat (length l) + 1) →
  ∃ m', strcpy fuel dst src m = Some m' ∧ copied m m' dst src (Z.of_nat (length l) + 1).
Proof.
  revert dst src fuel m. induction l as [|x l IH]; intros dst src fuel m Hs Hf Hfw;
    (destruct fuel as [|fuel]; [cbn in Hf; lia|]); cbn [strcpy].
  - cbn in Hs. rewrite Hs. cbn. eexists. split; [done|]. rewrite <- Hs. apply copied_byte.
  - destruct Hs as (Hx & Hne & Hs). rewrite Hx, (proj2 (Z.eqb_neq x 0)) by done. rewrite <- Hx.
    cbn [length] in *.
    destruct (IH (dst + 1) (src + 1) fuel (store8 dst (load8 m src) m)) as (m' & E & Hc).
    + apply cstr_frame with m; [|done]. intros k Hk. rewrite load8_store8, decide_False; [done|].
      unfold forward in Hfw. lia.
    + lia.
    + unfold forward in *. lia.
    + exists m'. split; [done|]. apply copied_app with (store8 dst (load8 m src) m) 1;
        [lia|done|apply copied_byte|].
      by replace (Z.of_nat (S (length l)) + 1 - 1) with (Z.of_nat (length l) + 1) by lia.
Qed.

(** Lexicographic comparison, as the sign that [strcmp] returns *)
Fixpoint lex (l1 l2 : list Z) : Z :=
  match l1, l2 with
  | [], [] => 0
  | [], _ :: _ => -1
  | _ :: _, [] => 1
  | x :: l1', y :: l2' => if x =? y then lex l1' l2' else if x <? y then -1 else 1
  end.

Lemma load8_bound m a : 0 ≤ load8 m a < 256.
Proof. apply Z.mod_pos_bound. lia. Qed.

Lemma strcmp_ok m p q l1 l2 fuel :
  cstr m p l1 → cstr m q l2 → (length l1 < fuel)%nat → strcmp fuel p q m = Some (lex l1 l2).
Proof.
  revert p q l2 fuel. induction l1 as [|x l1 IH]; intros p q l2 fuel H1 H2 Hf;
    (destruct fuel as [|fuel]; [cbn in Hf; lia|]); cbn [strcmp]; pose proof (load8_bound m p);
    pose proof (load8_bound m q).
  - cbn in H1. rewrite H1. cbn [negb andb Z.eqb]. destruct l2 as [|y l2]; cbn in H2.
    + by rewrite H2.
    + destruct H2 as (E & Hy & _). rewrite E in *. cbn [lex]. by rewrite (proj2 (Z.ltb_lt 0 y)) by lia.
  - destruct H1 as (Hx & Hne & H1). rewrite Hx in *. rewrite (proj2 (Z.eqb_neq x 0)) by done. cbn [negb andb].
    destruct l2 as [|y l2]; cbn [cstr] in H2.
    + rewrite H2 in *. rewrite (proj2 (Z.eqb_neq x 0)) by done. cbn [lex].
      rewrite (proj2 (Z.ltb_ge x 0)) by lia. rewrite Z.gtb_ltb, (proj2 (Z.ltb_lt 0 x)) by lia. done.
    + destruct H2 as (Hy & Hney & H2). rewrite Hy in *. cbn [lex]. destruct (Z.eqb_spec x y).
      * apply IH; [done|done|cbn in Hf; lia].
      * destruct (Z.ltb_spec x y); [done|]. by rewrite Z.gtb_ltb, (proj2 (Z.ltb_lt y x)) by lia.
Qed.

Lemma lex_eq l1 l2 : lex l1 l2 = 0 ↔ l1 = l2.
Proof.
  revert l2. induction l1 as [|x l1 IH]; intros [|y l2]; cbn; try done.
  destruct (Z.eqb_spec x y) as [->|Hne]; [rewrite IH; naive_solver|].
  destruct (x <? y); naive_solver.
Qed.

(** Index of the first occurrence *)
Fixpoint index_of (c : Z) (l : list Z) : option Z :=
  match l with
  | [] => None
  | x :: l' => if x =? c then Some 0 else Z.succ <$> index_of c l'
  end.

Lemma strchr_ok m a c l fuel :
  cstr m a l → (length l < fuel)%nat →
  strchr fuel a c m = Some (match index_of c l with Some k => a + k | None => 0 end).
Proof.
  revert a fuel. induction l as [|x l IH]; intros a fuel Hs Hf; (destruct fuel as [|fuel]; [cbn in Hf; lia|]);
    cbn [strchr].
  - cbn in *. by rewrite Hs.
  - destruct Hs as (Hx & Hne & Hs). rewrite Hx, (proj2 (Z.eqb_neq x 0)) by done. cbn [index_of].
    destruct (x =? c); [f_equal; lia|]. rewrite (IH (a + 1) fuel Hs) by (cbn in Hf; lia).
    destruct (index_of c l); cbn; [f_equal; lia|done].
Qed.

(** * Properties *)

(** C7. [memcpy] copies exactly [n] bytes, whatever the alignments, whenever
    the destination starts before the source or does not overlap it; the
    word-wise fast path is equivalent to copying bytes. *)
Theorem memcpy_copies dst src n m :
  0 ≤ n → forward dst src n →
  ∀ a, load8 (memcpy dst src n m) a =
    if decide (dst ≤ a < dst + n) then load8 m (src + (a - dst)) else load8 m a.
Proof. intros Hn Hf. by apply memcpy_ok. Qed.

Lemma memcpy_copies_witness :
  load8 (memcpy 101 205 9 (memset 205 7 9 ∅)) 103 = load8 (memset 205 7 9 ∅) 207.
Proof.
  pose proof (memcpy_copies 101 205 9 (memset 205 7 9 ∅) ltac:(lia) (or_introl (ltac:(lia) : 101 ≤ 205)) 103) as H.
  rewrite decide_True in H by lia. exact H.
Defined.

(** [memset] sets exactly [n] bytes to the low byte of [c], whatever the
    alignment. *)
Theorem memset_fills dst c n m :
  0 ≤ n →
  ∀ a, load8 (memset dst c n m) a = if decide (dst ≤ a < dst + n) then u8 c else load8 m a.
Proof. intros Hn. by apply memset_ok. Qed.

Lemma memset_fills_witness : load8 (memset 5 300 10 ∅) 9 = 44.
Proof.
  pose proof (memset_fills 5 300 10 ∅ ltac:(lia) 9) as H. rewrite decide_True in H by lia. exact H.
Defined.

(** C8. On terminated strings [strlen] counts the bytes, [strcmp] returns the
    sign of the lexicographic comparison (0 exactly for equal strings),
    [strchr] finds the first occurrence, and [strcpy] copies the string with
    its terminator; one round per byte is enough. *)
Theorem string_functions_correct m p q l1 l2 c fuel dst :
  cstr m p l1 → cstr m q l2 → (length l1 < fuel)%nat → forward dst p (Z.of_nat (length l1) + 1) →
  strlen fuel p m = Some (Z.of_nat (length l1)) ∧
  strcmp fuel p q m = Some (lex l1 l2) ∧ (lex l1 l2 = 0 ↔ l1 = l2) ∧
  strchr fuel p c m = Some (match index_of c l1 with Some k => p + k | None => 0 end) ∧
  ∃ m', strcpy fuel dst p m = Some m' ∧ copied m m' dst p (Z.of_nat (length l1) + 1).
Proof.
  intros H1 H2 Hf Hfw. split_and!.
  - by apply strlen_ok.
  - by apply strcmp_ok.
  - apply lex_eq.
  - by apply strchr_ok.
  - by apply strcpy_ok.
Qed.

Lemma string_functions_correct_witness :
  strcmp 3 100 200 (memset 200 66 1 (memset 100 65 2 ∅)) = Some (lex [65; 65] [66]).
Proof.
  apply (string_functions_correct (memset 200 66 1 (memset 100 65 2 ∅)) 100 200 [65; 65] [66] 0 3 300).
  - vm_compute. split_and!; done.
  - vm_compute. split_and!; done.
  - cbn. lia.
  - unfold forward. cbn. lia.
Defined.
