(* ===== verification/KmapProps.v ===== *)
(** The kernel's own address space, as mips_vm_init builds it before any page
    is handed out: the boot-time allocator and riscv_create_mapping. *)
From S2P Require Import Prelude Mmu Queue Memory Strings StringsProps Pmap PmapSpec.

(** * Cleared memory *)

Lemma load8_clear n a m x :
  load8 (clear a n m) x = if decide (a ≤ x < a + Z.of_nat n) then 0 else load8 m x.
Proof.
  revert a m. induction n as [|n IH]; intros a m; cbn [clear]; [by rewrite decide_False by lia|].
  rewrite IH, load8_store8. repeat case_decide; try lia; done.
Qed.

(** Words no byte of which is cleared *)
Lemma load_clear_other n a m x : (∀ b, a ≤ b < a + Z.of_nat n → b / 4 ≠ x / 4) → load (clear a n m) x = load m x.
Proof.
  revert a m. induction n as [|n IH]; intros a m Hx; cbn [clear]; [done|].
  rewrite IH by (intros b Hb; apply Hx; lia). unfold store8. rewrite load_store_word, decide_False; [done|]. apply Hx. lia.
Qed.

Lemma load_clear_range n a m x : (∃ b, a ≤ b < a + Z.of_nat n ∧ b / 4 = x / 4) → 0 ≤ load (clear a n m) x < 2 ^ 32.
Proof.
  revert a m. induction n as [|n IH]; intros a m (b & Hb & Hbx); [lia|]. cbn [clear].
  destruct (decide (Exists (λ c, c / 4 = x / 4) (seqZ (a + 1) (Z.of_nat n)))) as [(c & Hc%elem_of_seqZ & Hcx)%Exists_exists|Hno].
  - apply IH. exists c. split; [lia|done].
  - assert (Hno' : ∀ c, a + 1 ≤ c < a + 1 + Z.of_nat n → c / 4 ≠ x / 4).
    { intros c Hc Hcx. apply Hno, Exists_exists. exists c. split; [apply elem_of_seqZ; lia|done]. }
    rewrite load_clear_other by done. assert (b = a) as -> by (destruct (decide (b = a)); [done|]; exfalso; apply (Hno' b); [lia|done]).
    unfold store8. rewrite load_store_word, decide_True by done. apply u32_bound.
Qed.

Lemma word_of_bytes w : 0 ≤ w < 2 ^ 32 → (∀ k, 0 ≤ k < 4 → byte_of w k = 0) → w = 0.
Proof.
  intros Hw Hb. apply Z.bits_inj_0. intros i. destruct (Z.ltb_spec i 0); [by apply Z.testbit_neg_r|].
  destruct (Z.ltb_spec i 32).
  - pose proof (byte_of_bits w (i / 8) (i mod 8) ltac:(apply Z.div_pos; lia) (proj1 (Z.mod_pos_bound i 8 ltac:(lia)))) as Hbit.
    assert (0 ≤ i / 8 < 4) by (split; [apply Z.div_pos; lia|apply Z.div_lt_upper_bound; lia]).
    rewrite Hb, Z.bits_0, (proj2 (Z.ltb_lt _ _)) in Hbit by (try done; apply Z.mod_pos_bound; lia).
    cbn [andb] in Hbit. rewrite Hbit. f_equal. pose proof (Z.div_mod i 8). lia.
  - rewrite <- (Z.mod_small w (2 ^ 32)) by done. by apply Z.mod_pow2_bits_high; lia.
Qed.

(** A word whose four bytes are cleared *)
Lemma load_clear_word n a m x : x mod 4 = 0 → a ≤ x → x + 4 ≤ a + Z.of_nat n → load (clear a n m) x = 0.
Proof.
  intros Hx H1 H2. apply word_of_bytes.
  - apply load_clear_range. exists x. split; [lia|done].
  - intros k Hk. pose proof (load8_clear n a m (x + k)) as E. rewrite decide_True, load8_byte in E by lia.
    pose proof (Z.div_mod x 4 ltac:(lia)).
    assert ((x + k) mod 4 = k) as Ek by (symmetry; apply (Z.mod_unique _ _ (x / 4)); lia). rewrite Ek in E.
    rewrite load_addr in E |- *. replace ((x + k) / 4) with (x / 4) in E by (apply (Z.div_unique _ _ _ k); lia). exact E.
Qed.

(** A whole page, word by word *)
Lemma load_clear_at t n m q j : 0 ≤ t < PAGE_LIMIT → 0 ≤ q < PAGE_LIMIT → 0 ≤ j < 1024 → n = 4096%nat →
  load (clear (page2pa t) n m) (page2pa q + 4 * j) = if decide (q = t) then 0 else load m (page2pa q + 4 * j).
Proof.
  intros Ht Hq Hj ->. pose proof (page2pa_eq t Ht) as Et. pose proof (page2pa_eq q Hq) as Eq. unfold KERNBASE in *.
  rewrite Et, Eq. case_decide as E.
  - subst q. apply load_clear_word; [|lia|lia].
    replace (0x80200000 + t * 4096 + 4 * j) with ((0x20080000 + t * 1024 + j) * 4) by lia. by apply Z.mod_mul.
  - apply load_clear_other. intros b Hb. replace (0x80200000 + q * 4096 + 4 * j) with ((0x20080000 + q * 1024 + j) * 4) by lia.
    rewrite Z.div_mul by lia. intros Hd. pose proof (Z.div_mod b 4 ltac:(lia)). pose proof (Z.mod_pos_bound b 4 ltac:(lia)). lia.
Qed.

(** * The boot-time allocator *)

Lemma ROUND_page t : 0 ≤ t < PAGE_LIMIT → ROUND (page2pa t) BY2PG = page2pa t.
Proof.
  intros Ht. unfold PAGE_LIMIT in Ht. rewrite (page2pa_eq t) by lia. unfold KERNBASE.
  change BY2PG with (2 ^ 12). rewrite ROUND_spec by lia. change (2 ^ 12) with 4096.
  rewrite <- (Z.div_unique (0x80200000 + t * 4096 + 4096 - 1) 4096 (0x80200 + t) 4095) by lia. lia.
Qed.

Section alloc.
Context `{LinkerSymbols}.

(** A cleared page of its own for every call *)
Lemma alloc_page_ok s t : ROUND (freemem s) BY2PG = page2pa t → 0 ≤ t → page2pa t + 4096 < ULIM + memsize s →
  t + 1 < PAGE_LIMIT →
  ∃ c, alloc BY2PG BY2PG true s = Ok (page2pa t) (set_mem c (set_freemem (page2pa (t + 1)) s)) ∧
    ∀ m q j, 0 ≤ q < PAGE_LIMIT → 0 ≤ j < 1024 →
      load (c m) (page2pa q + 4 * j) = if decide (q = t) then 0 else load m (page2pa q + 4 * j).
Proof using.
  intros Hf Ht Hroom Hlim. unfold PAGE_LIMIT in Hlim. assert (Hnz : freemem s ≠ 0).
  { intros E. rewrite E, page2pa_eq in Hf by lia. unfold KERNBASE in Hf. change (ROUND 0 BY2PG) with 0 in Hf. lia. }
  assert (Hu : u32 (page2pa t + BY2PG) = page2pa (t + 1)).
  { rewrite !page2pa_eq by lia. unfold KERNBASE. change BY2PG with 4096. rewrite u32_small; lia. }
  exists (clear (page2pa t) (Z.to_nat BY2PG)). split.
  - unfold alloc. rewrite (bind_ok (gets freemem) _ _ _ _ eq_refl), (proj2 (Z.eqb_neq _ _) Hnz).
    rewrite (bind_ok (ret tt) _ _ _ _ eq_refl), (bind_ok (gets freemem) _ _ _ _ eq_refl), Hf. repeat step.
    cbn [freemem set_freemem memsize]. rewrite Hu.
    assert (page2pa (t + 1) = page2pa t + 4096) as -> by (rewrite !page2pa_eq by lia; lia).
    rewrite Z.geb_leb, (proj2 (Z.leb_gt _ _)) by lia. step. done.
  - intros m q j Hq Hj. apply load_clear_at; [unfold PAGE_LIMIT; lia|done..].
Qed.
End alloc.

Lemma frame_set s s0 m f g x : s = set_mem (λ _, m) (set_freemem f s0) →
  set_mem g (set_freemem x s) = set_mem (λ _, g m) (set_freemem x s0).
Proof. by intros ->. Qed.

Lemma frame_mem s s0 m f g : s = set_mem (λ _, m) (set_freemem f s0) →
  set_mem g s = set_mem (λ _, g m) (set_freemem f s0).
Proof. by intros ->. Qed.

(** * Entries of tables, by virtual page number *)

(** [K] with one page mapped *)
Definition with_page (v e : Z) (K : Z → Z) : Z → Z := λ w, if decide (w = v) then e else K w.

(** One round in the middle of [page_offsets] *)
Lemma page_offsets_round n l x rest : 0 ≤ n → page_offsets (n * 4096) = l ++ x :: rest →
  x = Z.of_nat (length l) * 4096 ∧ Z.of_nat (length l) < n.
Proof.
  intros Hn HL. assert (Hlk : page_offsets (n * 4096) !! length l = Some x) by (by rewrite HL, lookup_app_r, Nat.sub_diag by lia).
  unfold page_offsets in Hlk. change BY2PG with 4096 in Hlk. rewrite list_lookup_fmap in Hlk.
  replace ((n * 4096 + 4096 - 1) / 4096) with n in Hlk by (apply (Z.div_unique _ _ _ 4095); lia).
  destruct (seqZ 0 n !! length l) as [k|] eqn:Hk; [|done]. injection Hlk as <-.
  apply lookup_seqZ in Hk as [-> Hk]. by rewrite Z.add_0_l.
Qed.

Lemma page_offsets_length n : 0 ≤ n → Z.of_nat (length (page_offsets (n * 4096))) = n.
Proof.
  intros Hn. unfold page_offsets. rewrite length_map, length_seqZ. change BY2PG with 4096.
  rewrite <- (Z.div_unique (n * 4096 + 4096 - 1) 4096 n 4095) by lia. lia.
Qed.

(** [K] with [n] pages from [va] mapped to those from [pa] *)
Definition with_range (va pa n perm : Z) (K : Z → Z) : Z → Z := λ w,
  if decide (VPN va ≤ w < VPN va + n) then Z.lor (ADDR_PTE (pa + (w - VPN va) * 4096)) (Z.lor perm PTE_V) else K w.

Lemma with_range_nil va pa perm K w : K w = with_range va pa 0 perm K w.
Proof. unfold with_range. by rewrite decide_False by lia. Qed.

Lemma with_range_step va pa k perm K w : 0 ≤ k →
  with_page (VPN (va + k * 4096)) (Z.lor (ADDR_PTE (pa + k * 4096)) (Z.lor perm PTE_V)) (with_range va pa k perm K) w =
  with_range va pa (k + 1) perm K w.
Proof.
  intros Hk. unfold with_page, with_range.
  assert (VPN (va + k * 4096) = VPN va + k) as -> by (unfold VPN; rewrite !Z.shiftr_div_pow2 by lia; apply Z.div_add; lia).
  repeat case_decide; try lia; try done. do 3 f_equal. lia.
Qed.

(** * Tables of the kernel's directory *)

Section kmap.
Context `{LinkerSymbols} (s0 : pmap) (kp f0 : Z) (P : gset Z).
Context (Hkp : 0 ≤ kp < f0) (Hpg : kernel_pgdir = page2pa kp).
Context (Hf0 : f0 + Z.of_nat (size P) + 1 < PAGE_LIMIT).
Context (Hroom : page2pa (f0 + Z.of_nat (size P)) < ULIM + memsize s0).
Context (HP : ∀ i, i ∈ P → 0 ≤ i < 1024).

(** The page behind the tables allocated so far *)
Definition next_table (T : gmap Z Z) : Z := f0 + Z.of_nat (size T).

(** The directory has the tables [T], by index, whose entries are [K], by
    virtual page number; nothing else has changed since [s0]. *)
Record kstate (T : gmap Z Z) (K : Z → Z) (s : pmap) : Prop := {
  ks_frame : s = set_mem (λ _, mem s) (set_freemem (freemem s) s0);
  ks_free : ROUND (freemem s) BY2PG = page2pa (next_table T);
  ks_dom : dom T ⊆ P;
  ks_tab : ∀ i t, T !! i = Some t → f0 ≤ t < next_table T;
  ks_inj : ∀ i j t, T !! i = Some t → T !! j = Some t → i = j;
  ks_dir : ∀ i, 0 ≤ i < 1024 → load (mem s) (page2pa kp + 4 * i) =
    match T !! i with Some t => Z.lor (ADDR_PTE (page2pa t)) PTE_V | None => 0 end;
  ks_ent : ∀ i t j, T !! i = Some t → 0 ≤ j < 1024 → load (mem s) (page2pa t + 4 * j) = K (i * 1024 + j);
  ks_none : ∀ v, T !! (v / 1024) = None → K v = 0;
  ks_same : ∀ q j, 0 ≤ q < PAGE_LIMIT → 0 ≤ j < 1024 → q ≠ kp → ¬ f0 ≤ q < next_table T →
    load (mem s) (page2pa q + 4 * j) = load (mem s0) (page2pa q + 4 * j)
}.

Lemma size_T (T : gmap Z Z) : dom T ⊆ P → (size T ≤ size P)%nat.
Proof using. intros Hd. rewrite <- size_dom. by apply subseteq_size. Qed.

Lemma table_page T K s i t : kstate T K s → T !! i = Some t → 0 ≤ t < PAGE_LIMIT ∧ t ≠ kp ∧ i ∈ P.
Proof using Hkp Hf0.
  intros Hs Ht. pose proof (ks_tab _ _ _ Hs i t Ht) as H1. pose proof (size_T T (ks_dom _ _ _ Hs)).
  unfold next_table in H1. split; [lia|]. split; [lia|]. apply (ks_dom _ _ _ Hs). by apply elem_of_dom_2 in Ht.
Qed.

(** The table of directory entry [i], as the loop of riscv_create_mapping gets it *)
Definition get_table (i : Z) : M pmap Z :=
  e <- rd (kernel_pgdir + 4 * i) ;;
  if has e PTE_V then ret (PTE_ADDR e)
  else
    a <- alloc BY2PG BY2PG true ;;
    wr (kernel_pgdir + 4 * i) (Z.lor (ADDR_PTE a) PTE_V) ;;
    ret a.

Lemma new_table_ok T K s i : kstate T K s → i ∈ P → T !! i = None →
  ∃ s', get_table i s = Ok (page2pa (next_table T)) s' ∧ kstate (<[i := next_table T]> T) K s'.
Proof using Hkp Hf0 Hroom HP Hpg.
  intros Hs Hi Hn. pose proof (HP i Hi) as Hi'. set (t := next_table T).
  assert (Hsz : (size T < size P)%nat).
  { rewrite <- size_dom. apply subset_size. split; [apply (ks_dom _ _ _ Hs)|]. intros Hsub. apply Hsub in Hi.
    by apply elem_of_dom in Hi as [? ?]; congruence. }
  assert (Ht : f0 ≤ t < f0 + Z.of_nat (size P)) by (unfold t, next_table; lia).
  unfold get_table. rewrite Hpg. unfold rd. step. rewrite (ks_dir _ _ _ Hs i Hi'), Hn. change (has 0 PTE_V) with false. cbv iota.
  assert (Hms : memsize s = memsize s0) by (by rewrite (ks_frame _ _ _ Hs)).
  assert (Hlt : page2pa t + 4096 ≤ page2pa (f0 + Z.of_nat (size P))) by (rewrite !page2pa_eq by (unfold PAGE_LIMIT in *; lia); lia).
  destruct (alloc_page_ok s t (ks_free _ _ _ Hs) ltac:(lia) ltac:(lia) ltac:(lia)) as (c & Ea & Hc).
  rewrite (bind_ok _ _ _ _ _ Ea).
  step. eexists. split; [reflexivity|].
  assert (Hsize : next_table (<[i := t]> T) = t + 1) by (unfold next_table; rewrite map_size_insert_None by done; unfold t, next_table; lia).
  assert (Hld : ∀ q j, 0 ≤ q < PAGE_LIMIT → 0 ≤ j < 1024 →
    load (store (page2pa kp + 4 * i) (Z.lor (ADDR_PTE (page2pa t)) PTE_V) (c (mem s))) (page2pa q + 4 * j) =
    if decide (kp = q ∧ i = j) then Z.lor (ADDR_PTE (page2pa t)) PTE_V else
    if decide (q = t) then 0 else load (mem s) (page2pa q + 4 * j)).
  { intros q j Hq Hj. rewrite load_store by lia. rewrite entry_u32 by (done || lia). case_decide; [done|].
    by apply Hc. }
  split; cbn [mem set_mem set_freemem freemem].
  - exact (frame_set s s0 _ _ (λ m, store (page2pa kp + 4 * i) (Z.lor (ADDR_PTE (page2pa t)) PTE_V) (c m)) _ (ks_frame _ _ _ Hs)).
  - rewrite Hsize. apply ROUND_page. lia.
  - rewrite dom_insert. pose proof (ks_dom _ _ _ Hs). set_solver.
  - intros j u. rewrite lookup_insert, Hsize. case_decide; [intros [= <-]; lia|]. intros Hu. pose proof (ks_tab _ _ _ Hs j u Hu). lia.
  - intros j k u. rewrite !lookup_insert. repeat case_decide; try congruence; intros E1 E2;
      [injection E1 as <-; pose proof (ks_tab _ _ _ Hs k _ E2)|injection E2 as <-; pose proof (ks_tab _ _ _ Hs j _ E1)
      |by apply (ks_inj _ _ _ Hs j k u)]; lia.
  - intros j Hj. rewrite Hld by lia. rewrite lookup_insert. destruct (decide (i = j)) as [->|Hne]; [by rewrite decide_True|].
    rewrite decide_False by tauto. rewrite decide_False by lia. by apply (ks_dir _ _ _ Hs).
  - intros k u j Hu Hj. rewrite lookup_insert in Hu. destruct (decide (i = k)) as [->|Hne].
    + injection Hu as <-. rewrite Hld by lia. rewrite decide_False by lia. rewrite decide_True by done.
      symmetry. apply (ks_none _ _ _ Hs). by rewrite PDX_vpn.
    + pose proof (table_page _ _ _ _ _ Hs Hu) as (Hu1 & Hu2 & _). pose proof (ks_tab _ _ _ Hs k u Hu). rewrite Hld by lia.
      rewrite !decide_False by lia. by apply (ks_ent _ _ _ Hs).
  - intros v Hv. apply lookup_insert_None in Hv as [Hv _]. by apply (ks_none _ _ _ Hs).
  - intros q j Hq Hj Hne Hout. rewrite Hld by done. rewrite !decide_False by lia. apply (ks_same _ _ _ Hs); [done..|lia].
Qed.

Lemma get_table_ok T K s i : kstate T K s → i ∈ P →
  ∃ s' T' t, get_table i s = Ok (page2pa t) s' ∧ kstate T' K s' ∧ T' !! i = Some t.
Proof using Hkp Hf0 Hroom HP Hpg.
  intros Hs Hi. destruct (T !! i) as [t|] eqn:Ht.
  - exists s, T, t. split; [|done]. destruct (table_page _ _ _ _ _ Hs Ht) as [Htr _].
    unfold get_table, rd. rewrite Hpg. step. rewrite (ks_dir _ _ _ Hs i (HP i Hi)), Ht, has_V_lor. unfold ret.
    by rewrite (entry_addr t Htr PTE_V).
  - destruct (new_table_ok T K s i Hs Hi Ht) as (s1 & E & Hs1). exists s1, (<[i := next_table T]> T), (next_table T). split; [exact E|].
    split; [exact Hs1|]. apply lookup_insert_eq.
Qed.

(** One round of riscv_create_mapping *)
Definition map_one (va pa perm : Z) : M pmap unit :=
  pte <- get_table (PDX va) ;;
  wr (pte + 4 * PTX va) (Z.lor (Z.lor (ADDR_PTE pa) perm) PTE_V).

Lemma map_one_ok T K s va pa perm : kstate T K s → 0 ≤ va < 2 ^ 32 → PDX va ∈ P →
  0 ≤ pa < 2 ^ 32 → 0 ≤ perm < 1024 →
  ∃ s' T', map_one va pa perm s = Ok tt s' ∧
    kstate T' (with_page (VPN va) (Z.lor (ADDR_PTE pa) (Z.lor perm PTE_V)) K) s'.
Proof using Hkp Hf0 Hroom HP Hpg.
  intros Hs Hva Hi Hpa Hperm. destruct (get_table_ok T K s _ Hs Hi) as (s1 & T1 & t & E & Hs1 & Ht).
  unfold map_one. rewrite (bind_ok _ _ _ _ _ E). unfold wr, modify. exists (set_mem (store (page2pa t + 4 * PTX va) (Z.lor (Z.lor (ADDR_PTE pa) perm) PTE_V)) s1), T1.
  split; [done|]. rewrite <- Z.lor_assoc. set (e := Z.lor (ADDR_PTE pa) (Z.lor perm PTE_V)).
  assert (Hfl : 0 ≤ Z.lor perm PTE_V < 1024) by (apply (lor_bound _ _ 10); [lia|lia|by compute]).
  assert (He : u32 e = e) by (apply u32_small; pose proof (pte_bound pa _ Hpa Hfl); lia).
  destruct (table_page _ _ _ _ _ Hs1 Ht) as (Htr & Htk & _). pose proof (PTX_bound va) as Hx.
  assert (Hv : VPN va = PDX va * 1024 + PTX va) by (by apply VPN_split).
  assert (Hld : ∀ q j, 0 ≤ q < PAGE_LIMIT → 0 ≤ j < 1024 →
    load (store (page2pa t + 4 * PTX va) e (mem s1)) (page2pa q + 4 * j) =
    if decide (t = q ∧ PTX va = j) then e else load (mem s1) (page2pa q + 4 * j)).
  { intros q j Hq Hj. rewrite load_store by lia. by rewrite He. }
  split; cbn [mem set_mem freemem]; try (by apply Hs1).
  - exact (frame_mem s1 s0 _ _ (store (page2pa t + 4 * PTX va) e) (ks_frame _ _ _ Hs1)).
  - intros i Hi2. rewrite Hld by lia. rewrite decide_False by (intros [-> _]; done). by apply (ks_dir _ _ _ Hs1).
  - intros i u j Hu Hj. destruct (table_page _ _ _ _ _ Hs1 Hu) as (Hur & _ & HiP). pose proof (HP i HiP) as Hib.
    pose proof (PDX_bound va). rewrite Hld by lia. unfold with_page. destruct (decide (t = u)) as [->|Hne].
    + pose proof (ks_inj _ _ _ Hs1 _ _ _ Ht Hu) as <-. destruct (decide (PTX va = j)) as [Ej|Hne].
      * rewrite !decide_True by lia. done.
      * rewrite !decide_False by lia. by apply (ks_ent _ _ _ Hs1).
    + rewrite decide_False by tauto. rewrite decide_False; [by apply (ks_ent _ _ _ Hs1)|]. intros Ej. apply Hne.
      assert (PDX va = i) by lia. subst i. congruence.
  - intros w Hw. unfold with_page. rewrite decide_False; [by apply (ks_none _ _ _ Hs1)|]. intros ->.
    rewrite Hv, PDX_vpn in Hw by done. congruence.
  - intros q j Hq Hj Hne Hout. rewrite Hld by done. rewrite decide_False; [by apply (ks_same _ _ _ Hs1)|].
    intros [-> _]. apply Hout. by apply (ks_tab _ _ _ Hs1 _ _ Ht).
Qed.

Lemma kstate_ext T K K' s : (∀ v, K v = K' v) → kstate T K s → kstate T K' s.
Proof using.
  intros HK Hs. split; try apply Hs.
  - intros i t j Ht Hj. rewrite <- HK. by apply (ks_ent _ _ _ Hs).
  - intros v Hv. rewrite <- HK. by apply (ks_none _ _ _ Hs).
Qed.

Lemma riscv_create_mapping_ok va pa n perm T K s : kstate T K s →
  0 ≤ n → 0 ≤ va → va + n * 4096 ≤ 2 ^ 32 → 0 ≤ pa → pa + n * 4096 ≤ 2 ^ 32 → 0 ≤ perm < 1024 →
  (∀ k, 0 ≤ k < n → PDX (va + k * 4096) ∈ P) →
  ∃ s' T', riscv_create_mapping kernel_pgdir va pa (n * 4096) perm s = Ok tt s' ∧
    kstate T' (with_range va pa n perm K) s'.
Proof using Hkp Hf0 Hroom HP Hpg.
  intros Hs Hn Hva Hva' Hpa Hpa' Hperm Hdx.
  destruct (for_each_inv (λ l s', ∃ T', kstate T' (with_range va pa (Z.of_nat (length l)) perm K) s')
    (page_offsets (n * 4096)) (λ i, map_one (u32 (va + i)) (u32 (pa + i)) perm)) with (s := s) as (s' & E & T' & Hs').
  - intros l x rest s1 HL (T1 & Hs1).
    destruct (page_offsets_round n l x rest Hn HL) as [-> Hk]. set (k := Z.of_nat (length l)) in *.
    rewrite (u32_small (va + _)), (u32_small (pa + _)) by lia.
    destruct (map_one_ok T1 _ s1 (va + k * 4096) (pa + k * 4096) perm Hs1 ltac:(lia) (Hdx k ltac:(lia)) ltac:(lia) Hperm)
      as (s2 & T2 & E2 & Hs2).
    exists s2. split; [exact E2|]. exists T2. rewrite length_app. cbn [length].
    refine (kstate_ext _ _ _ _ _ Hs2). intros w. rewrite with_range_step by lia. by rewrite Nat2Z.inj_add.
  - exists T. refine (kstate_ext _ _ _ _ _ Hs). apply with_range_nil.
  - exists s', T'. split; [exact E|]. refine (kstate_ext _ _ _ _ _ Hs'). intros w. by rewrite page_offsets_length.
Qed.
End kmap.

(** * The map of the kernel *)

(** What entry [e] of a table says of address [va]: physical address and flags *)
Definition walk_entry (e va : Z) : option (Z * Z) :=
  if has e PTE_V then Some (PTE_ADDR e + va mod 4096, Z.land e 0x3FF) else None.

(** Translation by the hardware, without its test of permissions *)
Definition sv32_walk (m : memory) (root va : Z) : option (Z * Z) :=
  let e := load m (root + 4 * PDX va) in
  if has e PTE_V then
    walk_entry (load m (PTE_ADDR e + 4 * PTX va)) va
  else None.

Definition text_flags : Z := Z.lor (Z.lor (Z.lor PTE_R PTE_X) PTE_G) PTE_V.
Definition data_flags : Z := Z.lor (Z.lor (Z.lor PTE_R PTE_W) PTE_G) PTE_V.

(** What the kernel's address space shall be: text, data and the rest of
    memory at their own addresses, the registers of the disk at KSEG1 *)
Definition kernel_map `{LinkerSymbols} (va : Z) : option (Z * Z) :=
  if decide (_text ≤ va < _data) then Some (va, text_flags)
  else if decide (_data ≤ va < ULIM + PMEMSIZE) then Some (va, data_flags)
  else if decide (KSEG1 + VIRTIOBASE ≤ va < KSEG1 + VIRTIOTOP) then Some (va - KSEG1, data_flags)
  else None.

(** The layout kernel.lds fixes: the image begins at KERNBASE and ends at
    0x80600000; its data begins with page [dp] and holds the directory,
    page [kp], which is zero. *)
Record boot_image `{LinkerSymbols} (m : memory) (dp kp : Z) : Prop := {
  bi_text : _text = KERNBASE;
  bi_data : _data = page2pa dp ∧ 0 ≤ dp ≤ kp;
  bi_end : end_ = 0x80600000;
  bi_pgdir : kernel_pgdir = page2pa kp ∧ kp < 1024;
  bi_zero : ∀ i, 0 ≤ i < 1024 → load m (kernel_pgdir + 4 * i) = 0
}.

(** First page behind the array [pages] *)
Definition TABLE0 := 1071.
(** Directory entries of the kernel: 62 MB of memory, and the disk *)
Definition KPDX : gset Z := list_to_set (seqZ 512 16) ∪ {[ 704 ]}.

Section vm_init.
Context `{LinkerSymbols} (s : pmap) (dp kp : Z) (Him : boot_image (mem s) dp kp).

Lemma KPDX_size : size KPDX = 17%nat.
Proof using. vm_compute. reflexivity. Qed.

Lemma KPDX_memory va : KERNBASE ≤ va < ULIM + PMEMSIZE → PDX va ∈ KPDX.
Proof using.
  intros Hva. unfold KERNBASE, ULIM, PMEMSIZE in Hva. unfold KPDX. apply elem_of_union_l, elem_of_list_to_set, elem_of_seqZ.
  rewrite PDX_div by lia. change (2 ^ 22) with 4194304. split; [apply Z.div_le_lower_bound|apply Z.div_lt_upper_bound]; lia.
Qed.

Lemma walk_kstate s0 f0 P T K s1 va : 0 ≤ kp < f0 → f0 + Z.of_nat (size P) + 1 < PAGE_LIMIT → (∀ i, i ∈ P → 0 ≤ i < 1024) →
  kstate s0 kp f0 P T K s1 → 0 ≤ va < 2 ^ 32 → kernel_pgdir = page2pa kp →
  sv32_walk (mem s1) kernel_pgdir va = walk_entry (K (VPN va)) va.
Proof using.
  intros Hkp Hf HP Hs Hva ->. unfold sv32_walk. rewrite (ks_dir _ _ _ _ _ _ _ Hs) by apply PDX_bound.
  destruct (T !! PDX va) as [t|] eqn:Ht.
  - destruct (table_page s0 kp f0 P Hkp Hf T K s1 _ t Hs Ht) as [Htr _]. rewrite has_V_lor, (entry_addr t Htr PTE_V) by done.
    rewrite (ks_ent _ _ _ _ _ _ _ Hs _ _ _ Ht (PTX_bound va)). by rewrite <- VPN_split.
  - change (has 0 PTE_V) with false. rewrite (ks_none _ _ _ _ _ _ _ Hs (VPN va)); [done|].
    by rewrite VPN_split, PDX_vpn by (done || apply PTX_bound).
Qed.

(** The array [pages] goes behind the image. *)
Lemma alloc_pages_ok : memsize s = PMEMSIZE → npage s = 15872 → freemem s = 0 →
  ∃ m, alloc (npage s * SIZEOF_PAGE) BY2PG true s = Ok end_ (set_mem (λ _, m) (set_freemem (end_ + 190464) s)) ∧
    ∀ q j, 0 ≤ q < 1024 → 0 ≤ j < 1024 → load m (page2pa q + 4 * j) = load (mem s) (page2pa q + 4 * j).
Proof using Him.
  intros Hm Hn Hf. exists (clear end_ (Z.to_nat (npage s * SIZEOF_PAGE)) (mem s)).
  pose proof (bi_end _ _ _ Him) as He. split.
  - unfold alloc. rewrite (bind_ok (gets freemem) _ _ _ _ eq_refl), Hf. step. repeat step. cbn [freemem set_freemem memsize].
    assert (ROUND end_ BY2PG = end_) as -> by (rewrite He; reflexivity).
    assert (u32 (end_ + npage s * SIZEOF_PAGE) = end_ + 190464) as -> by (rewrite He, Hn; reflexivity).
    rewrite Z.geb_leb, (proj2 (Z.leb_gt _ _)) by (rewrite Hm, He; unfold ULIM, PMEMSIZE; lia). step. reflexivity.
  - intros q j Hq Hj. apply load_clear_other. intros b Hb. rewrite He in Hb. rewrite (page2pa_eq q) by lia. unfold KERNBASE.
    replace (0x80200000 + q * 4096 + 4 * j) with ((0x20080000 + q * 1024 + j) * 4) by lia. rewrite Z.div_mul by lia.
    pose proof (Z.div_le_lower_bound b 4 0x20180000 ltac:(lia) ltac:(lia)). lia.
Qed.

(** The state after mips_vm_init, but for what the statements below say *)
Record vm_ready (s' : pmap) : Prop := {
  vr_walk : ∀ va, 0 ≤ va < 2 ^ 32 → sv32_walk (mem s') kernel_pgdir va = kernel_map va;
  vr_user : ∀ i, 0 ≤ i < 512 → load (mem s') (kernel_pgdir + 4 * i) = 0;
  vr_image : ∀ q j, 0 ≤ q < 1024 → 0 ≤ j < 1024 → q ≠ kp →
    load (mem s') (page2pa q + 4 * j) = load (mem s) (page2pa q + 4 * j);
  vr_freemem : ∃ k, TABLE0 ≤ k ≤ TABLE0 + 17 ∧ ROUND (freemem s') BY2PG = page2pa k ∧
    ∀ i, 0 ≤ i < 1024 → load (mem s') (kernel_pgdir + 4 * i) = 0 ∨
      ∃ t, TABLE0 ≤ t < k ∧ load (mem s') (kernel_pgdir + 4 * i) = Z.lor (ADDR_PTE (page2pa t)) PTE_V;
  vr_satp : satp s' = Z.lor SV32MODE (PPN kernel_pgdir);
  vr_frame : memsize s' = memsize s ∧ npage s' = npage s ∧ pp_ref s' = pp_ref s ∧ page_free_list s' = page_free_list s ∧
    cur_pgdir s' = cur_pgdir s;
  vr_pages : pages_kva s' = end_;
  vr_log : tlb_log s' = tlb_log s ++ [Sfence None None]
}.

(** The three ranges are the map of the kernel. *)
Definition kernel_entries : Z → Z :=
  with_range (KSEG1 + VIRTIOBASE) VIRTIOBASE 8 (Z.lor (Z.lor PTE_R PTE_W) PTE_G)
    (with_range _data _data ((ULIM + PMEMSIZE - _data) / 4096) (Z.lor (Z.lor PTE_R PTE_W) PTE_G)
      (with_range _text _text dp (Z.lor (Z.lor PTE_R PTE_X) PTE_G) (λ _, 0))).

Lemma range_page va0 va n : va0 mod 4096 = 0 → 0 ≤ va0 → 0 ≤ va →
  (VPN va0 ≤ VPN va < VPN va0 + n ↔ va0 ≤ va < va0 + n * 4096) ∧
  va0 + (VPN va - VPN va0) * 4096 + va mod 4096 = va.
Proof using.
  intros H0 H1 H2. unfold VPN. rewrite !Z.shiftr_div_pow2 by lia. change (2 ^ 12) with 4096.
  pose proof (Z.div_mod va 4096 ltac:(lia)). pose proof (Z.mod_pos_bound va 4096 ltac:(lia)).
  pose proof (Z.div_mod va0 4096 ltac:(lia)). split; [split|]; lia.
Qed.

Lemma entry_walk pa fl va : 0 ≤ pa < 2 ^ 32 → pa mod 4096 = 0 → 0 ≤ fl < 1024 →
  walk_entry (Z.lor (ADDR_PTE pa) (Z.lor fl PTE_V)) va = Some (pa + va mod 4096, Z.lor fl PTE_V).
Proof using.
  intros Hpa Hal Hfl. assert (Hfl' : 0 ≤ Z.lor fl PTE_V < 1024) by (apply (lor_bound _ _ 10); [lia|lia|by compute]).
  unfold walk_entry. rewrite Z.lor_assoc, has_V_lor, <- Z.lor_assoc. by rewrite PTE_ADDR_pte, pte_perm.
Qed.

Lemma range_walk va0 pa0 n perm K va : va0 mod 4096 = 0 → 0 ≤ va0 → pa0 mod 4096 = 0 → 0 ≤ pa0 →
  pa0 + n * 4096 ≤ 2 ^ 32 → 0 ≤ perm < 1024 → 0 ≤ va →
  walk_entry (with_range va0 pa0 n perm K (VPN va)) va =
    if decide (va0 ≤ va < va0 + n * 4096) then Some (pa0 + (va - va0), Z.lor perm PTE_V) else walk_entry (K (VPN va)) va.
Proof using.
  intros H1 H2 H3 H4 H5 Hp Hva. destruct (range_page va0 va n H1 H2 Hva) as [Hr Ha]. unfold with_range.
  destruct (decide (va0 ≤ va < va0 + n * 4096)) as [E|E]; [|by rewrite decide_False by (by rewrite Hr)].
  pose proof (proj2 Hr E). rewrite decide_True by done. rewrite entry_walk; [f_equal; f_equal; lia|lia| |done].
  by rewrite Z.mod_add.
Qed.

Lemma kernel_entries_walk va : 0 ≤ va < 2 ^ 32 → walk_entry (kernel_entries (VPN va)) va = kernel_map va.
Proof using Him.
  intros Hva. pose proof (bi_text _ _ _ Him) as Ht. destruct (bi_data _ _ _ Him) as [Hd Hdp]. destruct (bi_pgdir _ _ _ Him) as [_ Hkp].
  rewrite page2pa_eq in Hd by lia. unfold KERNBASE in *.
  assert (Hdm : _data mod 4096 = 0) by (rewrite Hd; replace (0x80200000 + dp * 4096) with ((0x80200 + dp) * 4096) by lia; by apply Z.mod_mul).
  assert (Hlen : (ULIM + PMEMSIZE - _data) / 4096 * 4096 = ULIM + PMEMSIZE - _data).
  { rewrite Hd. change (ULIM + PMEMSIZE) with (0x84000 * 4096). replace (0x84000 * 4096 - (0x80200000 + dp * 4096)) with ((0x3E00 - dp) * 4096) by lia.
    by rewrite Z.div_mul. }
  change (ULIM + PMEMSIZE) with 0x84000000 in Hlen. unfold kernel_entries, kernel_map. change (ULIM + PMEMSIZE) with 0x84000000.
  change (KSEG1 + VIRTIOTOP) with (0xB0001000 + 8 * 4096). change (KSEG1 + VIRTIOBASE) with 0xB0001000. change VIRTIOBASE with 0x10001000.
  rewrite !range_walk by (first [done|lia|by compute|by rewrite Ht]). rewrite Hlen. change KSEG1 with 0xA0000000. unfold text_flags, data_flags.
  change (walk_entry 0 va) with (@None (Z * Z)). repeat case_decide; try lia; try done; do 2 f_equal; lia.
Qed.

Lemma TABLE0_facts : TABLE0 + Z.of_nat (size KPDX) + 1 < PAGE_LIMIT ∧
  page2pa (TABLE0 + Z.of_nat (size KPDX)) < ULIM + PMEMSIZE ∧ (∀ i, i ∈ KPDX → 0 ≤ i < 1024).
Proof using.
  rewrite KPDX_size. split; [by vm_compute|]. split; [by vm_compute|].
  intros i [Hi%elem_of_list_to_set%elem_of_seqZ|Hi%elem_of_singleton]%elem_of_union; lia.
Qed.

(** Before the first table *)
Lemma kstate_start s0 : boot_image (mem s0) dp kp → ROUND (freemem s0) BY2PG = page2pa TABLE0 →
  kstate s0 kp TABLE0 KPDX ∅ (λ _, 0) s0.
Proof using.
  intros Hi0 Hf. destruct (bi_pgdir _ _ _ Hi0) as [Hk _]. split; try done.
  - by destruct s0.
  - intros i Hi. rewrite lookup_empty, <- Hk. by apply (bi_zero _ _ _ Hi0).
Qed.

Lemma ready_of_kstate s0 T s1 : kstate s0 kp TABLE0 KPDX T kernel_entries s1 →
  (∀ q j, 0 ≤ q < 1024 → 0 ≤ j < 1024 → load (mem s0) (page2pa q + 4 * j) = load (mem s) (page2pa q + 4 * j)) →
  s0 = set_mem (λ _, mem s0) (set_freemem (freemem s0) (set_pages_kva end_ s)) →
  vm_ready (add_sfence (Sfence None None) (set_satp (Z.lor SV32MODE (PPN kernel_pgdir)) s1)).
Proof using Him.
  intros Hs Hsame Hfr. destruct (bi_pgdir _ _ _ Him) as [Hk Hkp]. destruct (bi_data _ _ _ Him) as [_ Hdp].
  destruct TABLE0_facts as (Hlim & _ & HP). pose proof (ks_frame _ _ _ _ _ _ _ Hs) as Hfr1.
  assert (Hsz : (size T ≤ 17)%nat) by (rewrite <- KPDX_size; exact (size_T KPDX T (ks_dom _ _ _ _ _ _ _ Hs))).
  rewrite Hfr in Hfr1. cbn [set_mem set_freemem] in Hfr1.
  split; cbn [mem add_sfence set_satp satp freemem tlb_log].
  - intros va Hva. rewrite (walk_kstate s0 TABLE0 KPDX T kernel_entries s1 va ltac:(unfold TABLE0; lia) Hlim HP Hs Hva Hk).
    by apply kernel_entries_walk.
  - intros i Hi. rewrite Hk, (ks_dir _ _ _ _ _ _ _ Hs) by lia. destruct (T !! i) as [t|] eqn:Ht; [|done].
    apply elem_of_dom_2 in Ht. apply (ks_dom _ _ _ _ _ _ _ Hs) in Ht.
    apply elem_of_union in Ht as [Ht%elem_of_list_to_set%elem_of_seqZ|Ht%elem_of_singleton]; lia.
  - intros q j Hq Hj Hne. rewrite (ks_same _ _ _ _ _ _ _ Hs) by (unfold PAGE_LIMIT, TABLE0 in *; lia). by apply Hsame.
  - exists (next_table TABLE0 T). unfold next_table. split; [lia|].
    split; [apply (ks_free _ _ _ _ _ _ _ Hs)|]. intros i Hi. rewrite Hk, (ks_dir _ _ _ _ _ _ _ Hs i Hi).
    destruct (T !! i) as [t|] eqn:Ht; [right|by left]. exists t. split; [|done]. exact (ks_tab _ _ _ _ _ _ _ Hs i t Ht).
  - done.
  - rewrite Hfr1. split_and!; reflexivity.
  - rewrite Hfr1. reflexivity.
  - rewrite Hfr1. reflexivity.
Qed.

Lemma page_mod p : 0 ≤ p < PAGE_LIMIT → page2pa p mod 4096 = 0 ∧ 0 ≤ page2pa p < 2 ^ 32.
Proof using. intros Hp. destruct (page2pa_range p Hp). done. Qed.

(** One range of the kernel's map *)
Lemma kernel_range s0 va pa n perm T K s1 : boot_image (mem s0) dp kp → memsize s0 = PMEMSIZE →
  kstate s0 kp TABLE0 KPDX T K s1 → 0 ≤ n → 0 ≤ va → va + n * 4096 ≤ 2 ^ 32 → 0 ≤ pa → pa + n * 4096 ≤ 2 ^ 32 →
  0 ≤ perm < 1024 → (∀ k, 0 ≤ k < n → PDX (va + k * 4096) ∈ KPDX) →
  ∃ s' T', riscv_create_mapping kernel_pgdir va pa (n * 4096) perm s1 = Ok tt s' ∧
    kstate s0 kp TABLE0 KPDX T' (with_range va pa n perm K) s'.
Proof using.
  intros Hi0 Hm Hs H1 H2 H3 H4 H5 H6 H7. destruct (bi_pgdir _ _ _ Hi0) as [Hk Hkp]. destruct (bi_data _ _ _ Hi0) as [_ Hdp].
  destruct TABLE0_facts as (Hlim & Hroom & HP). rewrite <- Hm in Hroom.
  apply (riscv_create_mapping_ok s0 kp TABLE0 KPDX ltac:(unfold TABLE0; lia) Hk Hlim Hroom HP va pa n perm T K s1); done.
Qed.

Lemma virtio_pdx k : 0 ≤ k < 8 → PDX (KSEG1 + VIRTIOBASE + k * 4096) ∈ KPDX.
Proof using.
  intros Hk. assert (PDX (KSEG1 + VIRTIOBASE + k * 4096) = 704) as ->; [|by apply elem_of_union_r, elem_of_singleton].
  change (KSEG1 + VIRTIOBASE) with 0xB0001000. rewrite PDX_div by lia. symmetry. apply (Z.div_unique _ _ _ (4096 + k * 4096)); lia.
Qed.

Lemma riscv_kvm_map_ok s0 : boot_image (mem s0) dp kp → memsize s0 = PMEMSIZE → ROUND (freemem s0) BY2PG = page2pa TABLE0 →
  ∃ s1 T, riscv_kvm_map s0 = Ok tt (add_sfence (Sfence None None) (set_satp (Z.lor SV32MODE (PPN kernel_pgdir)) s1)) ∧
    kstate s0 kp TABLE0 KPDX T kernel_entries s1.
Proof using.
  intros Hi0 Hm Hf. pose proof (kstate_start s0 Hi0 Hf) as Hs0. pose proof (bi_text _ _ _ Hi0) as Ht. unfold KERNBASE in Ht.
  destruct (bi_pgdir _ _ _ Hi0) as [Hk Hkp]. destruct (bi_data _ _ _ Hi0) as [Hd Hdp].
  pose proof (page2pa_eq dp ltac:(lia)) as Hd2. unfold KERNBASE in Hd2.
  set (n2 := (ULIM + PMEMSIZE - _data) / 4096).
  assert (Hn2 : 0x84000000 - _data = n2 * 4096).
  { unfold n2. rewrite Hd, Hd2. change (ULIM + PMEMSIZE) with (0x84000 * 4096).
    replace (0x84000 * 4096 - (0x80200000 + dp * 4096)) with ((0x3E00 - dp) * 4096) by lia. rewrite Z.div_mul; lia. }
  destruct (kernel_range s0 _text _text dp (Z.lor (Z.lor PTE_R PTE_X) PTE_G) ∅ (λ _, 0) s0 Hi0 Hm Hs0)
    as (s1 & T1 & E1 & Hs1); [lia..|done| |].
  { intros k Hkd. apply KPDX_memory. unfold KERNBASE, ULIM, PMEMSIZE. lia. }
  destruct (kernel_range s0 _data _data n2 (Z.lor (Z.lor PTE_R PTE_W) PTE_G) T1 _ s1 Hi0 Hm Hs1)
    as (s2 & T2 & E2 & Hs2); [lia..|done| |].
  { intros k Hkd. apply KPDX_memory. unfold KERNBASE, ULIM, PMEMSIZE. lia. }
  destruct (kernel_range s0 (KSEG1 + VIRTIOBASE) VIRTIOBASE 8 (Z.lor (Z.lor PTE_R PTE_W) PTE_G) T2 _ s2 Hi0 Hm Hs2)
    as (s3 & T3 & E3 & Hs3); [by compute..|exact virtio_pdx|].
  exists s3, T3. split; [|exact Hs3]. unfold riscv_kvm_map.
  replace (_data - _text) with (dp * 4096) by lia. rewrite (bind_ok _ _ _ _ _ E1).
  assert (Hm1 : memsize s1 = PMEMSIZE) by (rewrite (ks_frame _ _ _ _ _ _ _ Hs1); exact Hm).
  rewrite (bind_ok (gets memsize) _ _ _ _ eq_refl), Hm1. change (ULIM + PMEMSIZE) with 0x84000000. rewrite Hn2.
  rewrite (bind_ok _ _ _ _ _ E2). change VIRTIOSIZE with (8 * 4096). rewrite (bind_ok _ _ _ _ _ E3). reflexivity.
Qed.

(** The kernel's address space is the one intended: text, data and memory are
    mapped at their own addresses and the registers of the disk at KSEG1, with
    the flags of each; nothing else is mapped, and nothing of the image but
    the directory is written. *)
Lemma mips_vm_init_ok : memsize s = PMEMSIZE → npage s = 15872 → freemem s = 0 →
  ∃ s', mips_vm_init s = Ok tt s' ∧ vm_ready s'.
Proof using Him.
  intros Hm Hn Hf. destruct (alloc_pages_ok Hm Hn Hf) as (m & E & Hsame).
  destruct (bi_pgdir _ _ _ Him) as [Hk Hkp]. destruct (bi_data _ _ _ Him) as [_ Hdp].
  unfold mips_vm_init. rewrite (bind_ok (gets npage) _ _ _ _ eq_refl), (bind_ok _ _ _ _ _ E).
  rewrite (bind_ok (modify _) _ _ _ _ eq_refl). set (s0 := set_pages_kva end_ _).
  destruct (riscv_kvm_map_ok s0) as (s1 & T & E1 & Hs1).
  - split; try apply Him. intros i Hi. rewrite <- (bi_zero _ _ _ Him i Hi), Hk. apply Hsame; lia.
  - exact Hm.
  - unfold s0. cbn [freemem set_pages_kva set_mem set_freemem]. rewrite (bi_end _ _ _ Him). reflexivity.
  - rewrite E1. eexists. split; [reflexivity|]. apply (ready_of_kstate s0 T s1 Hs1); [exact Hsame|reflexivity].
Qed.
End vm_init.
