(* ===== verification/Elf.v ===== *)
(** The ELF loader: lib/elfloader.c and the parts of include/elf.h it uses.

    [elf_load_seg] takes the page mapper as an argument, as the code does; the
    kernel passes [load_icode_mapper]. *)
From S2P Require Import Prelude Mmu Memory.

(** Little-endian fields at any alignment *)
Definition rd16 (m : memory) (a : Z) : Z := load8 m a + 256 * load8 m (a + 1).
Definition rd32 (m : memory) (a : Z) : Z := rd16 m a + 65536 * rd16 m (a + 2).

(** Offsets in Elf32_Ehdr *)
Definition e_type (m : memory) (ehdr : Z) : Z := rd16 m (ehdr + 16).
Definition e_entry (m : memory) (ehdr : Z) : Z := rd32 m (ehdr + 24).
Definition e_phoff (m : memory) (ehdr : Z) : Z := rd32 m (ehdr + 28).
Definition e_phentsize (m : memory) (ehdr : Z) : Z := rd16 m (ehdr + 42).
Definition e_phnum (m : memory) (ehdr : Z) : Z := rd16 m (ehdr + 44).
Definition SIZEOF_EHDR := 52.

Record Elf32_Phdr := MkPhdr {
  p_type : Z; p_offset : Z; p_vaddr : Z; p_paddr : Z;
  p_filesz : Z; p_memsz : Z; p_flags : Z; p_align : Z
}.

Definition rd_phdr (m : memory) (a : Z) : Elf32_Phdr :=
  MkPhdr (rd32 m a) (rd32 m (a + 4)) (rd32 m (a + 8)) (rd32 m (a + 12))
    (rd32 m (a + 16)) (rd32 m (a + 20)) (rd32 m (a + 24)) (rd32 m (a + 28)).

Definition PT_LOAD := 1.
Definition PF_X := 1.
Definition PF_W := 2.
Definition PF_R := 4.

(** The header, or [None] for the null pointer *)
Definition elf_from (m : memory) (binary size : Z) : option Z :=
  if (size >=? SIZEOF_EHDR) && (load8 m binary =? 0x7f) && (load8 m (binary + 1) =? 69)
     && (load8 m (binary + 2) =? 76) && (load8 m (binary + 3) =? 70) && (e_type m binary =? 2)
  then Some binary else None.

(** File offsets of the program headers, as ELF_FOREACH_PHDR_OFF runs over them *)
Definition phdr_offs (m : memory) (ehdr : Z) : list Z :=
  map (λ i, u32 (e_phoff m ehdr + i * e_phentsize m ehdr)) (seqZ 0 (e_phnum m ehdr)).

Section load_seg.
Context {S : Type}.
(** [map_page va offset perm src len]; [src = None] is the null pointer. *)
Context (map_page : Z → Z → Z → option Z → Z → M S unit).

Definition seg_perm (ph : Elf32_Phdr) : Z :=
  let perm := Z.lor PTE_V PTE_U in
  let perm := if has (p_flags ph) PF_R then Z.lor perm PTE_R else perm in
  let perm := if has (p_flags ph) PF_W then Z.lor perm PTE_W else perm in
  if has (p_flags ph) PF_X then Z.lor perm PTE_X else perm.

(** Step 1: [for (...; i < bin_size; i += BY2PG)]; returns the final [i]. *)
Fixpoint load_data (fuel : nat) (va perm bin bin_size i : Z) : M S Z :=
  match fuel with
  | O => fault "elf_load_seg: out of fuel"
  | Datatypes.S fuel' =>
      if i <? bin_size then
        map_page (u32 (va + i)) 0 perm (Some (bin + i)) (MIN (u32 (bin_size - i)) BY2PG) ;;
        load_data fuel' va perm bin bin_size (u32 (i + BY2PG))
      else ret i
  end.

(** Step 2: [while (i < sgsize)] *)
Fixpoint load_bss (fuel : nat) (va perm bin_size sgsize i : Z) : M S unit :=
  match fuel with
  | O => fault "elf_load_seg: out of fuel"
  | Datatypes.S fuel' =>
      if i <? sgsize then
        map_page (u32 (va + i)) 0 perm None (MIN (u32 (bin_size - i)) BY2PG) ;;
        load_bss fuel' va perm bin_size sgsize (u32 (i + BY2PG))
      else ret tt
  end.

(** One round per page of the segment, and the final test *)
Definition seg_rounds (size : Z) : nat := Z.to_nat (size / BY2PG + 2).

Definition elf_load_seg (ph : Elf32_Phdr) (bin : Z) : M S unit :=
  let va := p_vaddr ph in
  let bin_size := p_filesz ph in
  let sgsize := p_memsz ph in
  let perm := seg_perm ph in
  let offset := u32 (va - ROUNDDOWN va BY2PG) in
  (if negb (offset =? 0) then map_page va offset perm (Some bin) (MIN bin_size (BY2PG - offset))
   else ret tt) ;;
  let i := if negb (offset =? 0) then MIN bin_size (BY2PG - offset) else 0 in
  i <- load_data (seg_rounds bin_size) va perm bin bin_size i ;;
  load_bss (seg_rounds sgsize) va perm bin_size sgsize i.
End load_seg.
