(* ===== verification/Env.v ===== *)
(** Environments: kern/env.c, include/env.h and include/trap.h.

    [kernel] is the whole state of the kernel: physical memory and page tables
    ([pm]), the disk driver ([disk]), the array [envs] by index, the lists, and
    the file's static variables.  A [struct Env *] is an index of [envs],
    [None] for the null pointer.  [kstack_tf] is the trap frame below
    KSTACKTOP, where a trap from user mode saves the registers; [cpu] is the
    user context last restored by [RESTORE_ALL] and [sret].  Diagnostic output
    of [printk] is left out. *)
From S2P Require Import Prelude Mmu Queue Memory Strings Pmap VmSteps Disk Elf.

(** * Data *)

(** include/trap.h *)
Record Trapframe := MkTf {
  regs : gmap Z Z;
  sstatus : Z;
  sscratch : Z;
  scause : Z;
  sepc : Z;
  stval : Z;
  sip : Z
}.

Definition set_regs (v : gmap Z Z) (s : Trapframe) : Trapframe := MkTf v (sstatus s) (sscratch s) (scause s) (sepc s) (stval s) (sip s).
Definition set_sstatus (v : Z) (s : Trapframe) : Trapframe := MkTf (regs s) v (sscratch s) (scause s) (sepc s) (stval s) (sip s).
Definition set_sscratch (v : Z) (s : Trapframe) : Trapframe := MkTf (regs s) (sstatus s) v (scause s) (sepc s) (stval s) (sip s).
Definition set_scause (v : Z) (s : Trapframe) : Trapframe := MkTf (regs s) (sstatus s) (sscratch s) v (sepc s) (stval s) (sip s).
Definition set_sepc (v : Z) (s : Trapframe) : Trapframe := MkTf (regs s) (sstatus s) (sscratch s) (scause s) v (stval s) (sip s).
Definition set_stval (v : Z) (s : Trapframe) : Trapframe := MkTf (regs s) (sstatus s) (sscratch s) (scause s) (sepc s) v (sip s).
Definition set_sip (v : Z) (s : Trapframe) : Trapframe := MkTf (regs s) (sstatus s) (sscratch s) (scause s) (sepc s) (stval s) v.

Definition tf0 : Trapframe := MkTf ∅ 0 0 0 0 0 0.
Definition reg_of (tf : Trapframe) (i : Z) : Z := default 0 (regs tf !! i).
Definition set_reg (i v : Z) (tf : Trapframe) : Trapframe := set_regs (<[i := u32 v]> (regs tf)) tf.

Definition LOG2NENV := 10.
Definition NENV := 1024.
Definition ENVX (envid : Z) : Z := Z.land envid (NENV - 1).
Definition ENV_FREE := 0.
Definition ENV_RUNNABLE := 1.
Definition ENV_NOT_RUNNABLE := 2.
Definition SIZEOF_ENV := 224.
Definition NASID := 64.

Record Env := MkEnv {
  env_tf : Trapframe;
  env_id : Z;
  env_asid : Z;
  env_parent_id : Z;
  env_status : Z;
  env_pgdir : Z;
  env_pri : Z;
  env_ipc_value : Z;
  env_ipc_from : Z;
  env_ipc_recving : Z;
  env_ipc_dstva : Z;
  env_ipc_perm : Z;
  env_user_tlb_mod_entry : Z;
  env_pgdir_copy_pa : Z;
  env_runs : Z
}.

Definition set_env_tf (v : Trapframe) (s : Env) : Env := MkEnv v (env_id s) (env_asid s) (env_parent_id s) (env_status s) (env_pgdir s) (env_pri s) (env_ipc_value s) (env_ipc_from s) (env_ipc_recving s) (env_ipc_dstva s) (env_ipc_perm s) (env_user_tlb_mod_entry s) (env_pgdir_copy_pa s) (env_runs s).
Definition set_env_id (v : Z) (s : Env) : Env := MkEnv (env_tf s) v (env_asid s) (env_parent_id s) (env_status s) (env_pgdir s) (env_pri s) (env_ipc_value s) (env_ipc_from s) (env_ipc_recving s) (env_ipc_dstva s) (env_ipc_perm s) (env_user_tlb_mod_entry s) (env_pgdir_copy_pa s) (env_runs s).
Definition set_env_asid (v : Z) (s : Env) : Env := MkEnv (env_tf s) (env_id s) v (env_parent_id s) (env_status s) (env_pgdir s) (env_pri s) (env_ipc_value s) (env_ipc_from s) (env_ipc_recving s) (env_ipc_dstva s) (env_ipc_perm s) (env_user_tlb_mod_entry s) (env_pgdir_copy_pa s) (env_runs s).
Definition set_env_parent_id (v : Z) (s : Env) : Env := MkEnv (env_tf s) (env_id s) (env_asid s) v (env_status s) (env_pgdir s) (env_pri s) (env_ipc_value s) (env_ipc_from s) (env_ipc_recving s) (env_ipc_dstva s) (env_ipc_perm s) (env_user_tlb_mod_entry s) (env_pgdir_copy_pa s) (env_runs s).
Definition set_env_status (v : Z) (s : Env) : Env := MkEnv (env_tf s) (env_id s) (env_asid s) (env_parent_id s) v (env_pgdir s) (env_pri s) (env_ipc_value s) (env_ipc_from s) (env_ipc_recving s) (env_ipc_dstva s) (env_ipc_perm s) (env_user_tlb_mod_entry s) (env_pgdir_copy_pa s) (env_runs s).
Definition set_env_pgdir (v : Z) (s : Env) : Env := MkEnv (env_tf s) (env_id s) (env_asid s) (env_parent_id s) (env_status s) v (env_pri s) (env_ipc_value s) (env_ipc_from s) (env_ipc_recving s) (env_ipc_dstva s) (env_ipc_perm s) (env_user_tlb_mod_entry s) (env_pgdir_copy_pa s) (env_runs s).
Definition set_env_pri (v : Z) (s : Env) : Env := MkEnv (env_tf s) (env_id s) (env_asid s) (env_parent_id s) (env_status s) (env_pgdir s) v (env_ipc_value s) (env_ipc_from s) (env_ipc_recving s) (env_ipc_dstva s) (env_ipc_perm s) (env_user_tlb_mod_entry s) (env_pgdir_copy_pa s) (env_runs s).
Definition set_env_ipc_value (v : Z) (s : Env) : Env := MkEnv (env_tf s) (env_id s) (env_asid s) (env_parent_id s) (env_status s) (env_pgdir s) (env_pri s) v (env_ipc_from s) (env_ipc_recving s) (env_ipc_dstva s) (env_ipc_perm s) (env_user_tlb_mod_entry s) (env_pgdir_copy_pa s) (env_runs s).
Definition set_env_ipc_from (v : Z) (s : Env) : Env := MkEnv (env_tf s) (env_id s) (env_asid s) (env_parent_id s) (env_status s) (env_pgdir s) (env_pri s) (env_ipc_value s) v (env_ipc_recving s) (env_ipc_dstva s) (env_ipc_perm s) (env_user_tlb_mod_entry s) (env_pgdir_copy_pa s) (env_runs s).
Definition set_env_ipc_recving (v : Z) (s : Env) : Env := MkEnv (env_tf s) (env_id s) (env_asid s) (env_parent_id s) (env_status s) (env_pgdir s) (env_pri s) (env_ipc_value s) (env_ipc_from s) v (env_ipc_dstva s) (env_ipc_perm s) (env_user_tlb_mod_entry s) (env_pgdir_copy_pa s) (env_runs s).
Definition set_env_ipc_dstva (v : Z) (s : Env) : Env := MkEnv (env_tf s) (env_id s) (env_asid s) (env_parent_id s) (env_status s) (env_pgdir s) (env_pri s) (env_ipc_value s) (env_ipc_from s) (env_ipc_recving s) v (env_ipc_perm s) (env_user_tlb_mod_entry s) (env_pgdir_copy_pa s) (env_runs s).
Definition set_env_ipc_perm (v : Z) (s : Env) : Env := MkEnv (env_tf s) (env_id s) (env_asid s) (env_parent_id s) (env_status s) (env_pgdir s) (env_pri s) (env_ipc_value s) (env_ipc_from s) (env_ipc_recving s) (env_ipc_dstva s) v (env_user_tlb_mod_entry s) (env_pgdir_copy_pa s) (env_runs s).
Definition set_env_user_tlb_mod_entry (v : Z) (s : Env) : Env := MkEnv (env_tf s) (env_id s) (env_asid s) (env_parent_id s) (env_status s) (env_pgdir s) (env_pri s) (env_ipc_value s) (env_ipc_from s) (env_ipc_recving s) (env_ipc_dstva s) (env_ipc_perm s) v (env_pgdir_copy_pa s) (env_runs s).
Definition set_env_pgdir_copy_pa (v : Z) (s : Env) : Env := MkEnv (env_tf s) (env_id s) (env_asid s) (env_parent_id s) (env_status s) (env_pgdir s) (env_pri s) (env_ipc_value s) (env_ipc_from s) (env_ipc_recving s) (env_ipc_dstva s) (env_ipc_perm s) (env_user_tlb_mod_entry s) v (env_runs s).
Definition set_env_runs (v : Z) (s : Env) : Env := MkEnv (env_tf s) (env_id s) (env_asid s) (env_parent_id s) (env_status s) (env_pgdir s) (env_pri s) (env_ipc_value s) (env_ipc_from s) (env_ipc_recving s) (env_ipc_dstva s) (env_ipc_perm s) (env_user_tlb_mod_entry s) (env_pgdir_copy_pa s) v.

Definition env0 : Env := MkEnv tf0 0 0 0 0 0 0 0 0 0 0 0 0 0 0.

Record kernel := MkKernel {
  pm : pmap;
  disk : vring;
  envs : gmap Z Env;
  curenv : option Z;
  env_free_list : LIST.t;
  env_sched_list : TAILQ.t;
  base_pgdir : Z;
  asid_bitmap : gmap Z Z;
  mkenvid_i : Z;
  sched_count : Z;
  kstack_tf : Trapframe;
  cpu : Trapframe;
  console : list Z;
  keyboard : list Z
}.

Definition set_pm (v : pmap) (s : kernel) : kernel := MkKernel v (disk s) (envs s) (curenv s) (env_free_list s) (env_sched_list s) (base_pgdir s) (asid_bitmap s) (mkenvid_i s) (sched_count s) (kstack_tf s) (cpu s) (console s) (keyboard s).
Definition set_disk (v : vring) (s : kernel) : kernel := MkKernel (pm s) v (envs s) (curenv s) (env_free_list s) (env_sched_list s) (base_pgdir s) (asid_bitmap s) (mkenvid_i s) (sched_count s) (kstack_tf s) (cpu s) (console s) (keyboard s).
Definition set_envs (v : gmap Z Env) (s : kernel) : kernel := MkKernel (pm s) (disk s) v (curenv s) (env_free_list s) (env_sched_list s) (base_pgdir s) (asid_bitmap s) (mkenvid_i s) (sched_count s) (kstack_tf s) (cpu s) (console s) (keyboard s).
Definition set_curenv (v : option Z) (s : kernel) : kernel := MkKernel (pm s) (disk s) (envs s) v (env_free_list s) (env_sched_list s) (base_pgdir s) (asid_bitmap s) (mkenvid_i s) (sched_count s) (kstack_tf s) (cpu s) (console s) (keyboard s).
Definition set_env_free_list (v : LIST.t) (s : kernel) : kernel := MkKernel (pm s) (disk s) (envs s) (curenv s) v (env_sched_list s) (base_pgdir s) (asid_bitmap s) (mkenvid_i s) (sched_count s) (kstack_tf s) (cpu s) (console s) (keyboard s).
Definition set_env_sched_list (v : TAILQ.t) (s : kernel) : kernel := MkKernel (pm s) (disk s) (envs s) (curenv s) (env_free_list s) v (base_pgdir s) (asid_bitmap s) (mkenvid_i s) (sched_count s) (kstack_tf s) (cpu s) (console s) (keyboard s).
Definition set_base_pgdir (v : Z) (s : kernel) : kernel := MkKernel (pm s) (disk s) (envs s) (curenv s) (env_free_list s) (env_sched_list s) v (asid_bitmap s) (mkenvid_i s) (sched_count s) (kstack_tf s) (cpu s) (console s) (keyboard s).
Definition set_asid_bitmap (v : gmap Z Z) (s : kernel) : kernel := MkKernel (pm s) (disk s) (envs s) (curenv s) (env_free_list s) (env_sched_list s) (base_pgdir s) v (mkenvid_i s) (sched_count s) (kstack_tf s) (cpu s) (console s) (keyboard s).
Definition set_mkenvid_i (v : Z) (s : kernel) : kernel := MkKernel (pm s) (disk s) (envs s) (curenv s) (env_free_list s) (env_sched_list s) (base_pgdir s) (asid_bitmap s) v (sched_count s) (kstack_tf s) (cpu s) (console s) (keyboard s).
Definition set_sched_count (v : Z) (s : kernel) : kernel := MkKernel (pm s) (disk s) (envs s) (curenv s) (env_free_list s) (env_sched_list s) (base_pgdir s) (asid_bitmap s) (mkenvid_i s) v (kstack_tf s) (cpu s) (console s) (keyboard s).
Definition set_kstack_tf (v : Trapframe) (s : kernel) : kernel := MkKernel (pm s) (disk s) (envs s) (curenv s) (env_free_list s) (env_sched_list s) (base_pgdir s) (asid_bitmap s) (mkenvid_i s) (sched_count s) v (cpu s) (console s) (keyboard s).
Definition set_cpu (v : Trapframe) (s : kernel) : kernel := MkKernel (pm s) (disk s) (envs s) (curenv s) (env_free_list s) (env_sched_list s) (base_pgdir s) (asid_bitmap s) (mkenvid_i s) (sched_count s) (kstack_tf s) v (console s) (keyboard s).
Definition set_console (v : list Z) (s : kernel) : kernel := MkKernel (pm s) (disk s) (envs s) (curenv s) (env_free_list s) (env_sched_list s) (base_pgdir s) (asid_bitmap s) (mkenvid_i s) (sched_count s) (kstack_tf s) (cpu s) v (keyboard s).
Definition set_keyboard (v : list Z) (s : kernel) : kernel := MkKernel (pm s) (disk s) (envs s) (curenv s) (env_free_list s) (env_sched_list s) (base_pgdir s) (asid_bitmap s) (mkenvid_i s) (sched_count s) (kstack_tf s) (cpu s) (console s) v.

#[export, refine] Instance sub_pm : Sub kernel pmap := { sub_get := pm; sub_set := set_pm }.
Proof. all: by intros; repeat match goal with s : kernel |- _ => destruct s end. Defined.

#[export, refine] Instance sub_disk : Sub kernel vring := { sub_get := disk; sub_set := set_disk }.
Proof. all: by intros; repeat match goal with s : kernel |- _ => destruct s end. Defined.

(** The driver's functions that also reach physical memory *)
#[export, refine] Instance sub_dstate : Sub kernel dstate :=
  { sub_get k := MkDstate (disk k) (pm k); sub_set d k := set_disk (ring d) (set_pm (dpm d) k) }.
Proof. all: by intros; repeat match goal with s : kernel |- _ => destruct s | s : dstate |- _ => destruct s end. Defined.

(** Functions of pmap.c and of the driver, on the kernel state *)
Definition onp {A} (m : M pmap A) : M kernel A := lift (H := sub_pm) m.
Definition ond {A} (m : M dstate A) : M kernel A := lift (H := sub_dstate) m.

Definition env (k : kernel) (e : Z) : Env := default env0 (envs k !! e).
Definition get_env (e : Z) : M kernel Env := gets (λ k, env k e).
Definition upd_env (e : Z) (f : Env → Env) : M kernel unit :=
  modify (λ k, set_envs (<[e := f (env k e)]> (envs k)) k).

(** [*p] for a [struct Env *] that may be null *)
Definition deref (p : option Z) : M kernel Z :=
  match p with Some e => ret e | None => fault "null struct Env" end.
Definition cur : M kernel Z := c <- gets curenv ;; deref c.

Definition free_insert_head (e : Z) : M kernel unit :=
  modify (λ k, set_env_free_list (LIST.LIST_INSERT_HEAD e (env_free_list k)) k).

Definition free_remove (e : Z) : M kernel unit :=
  l <- gets env_free_list ;;
  match LIST.LIST_REMOVE e l with
  | Some l' => modify (set_env_free_list l')
  | None => fault "LIST_REMOVE"
  end.

Definition sched_insert_head (e : Z) : M kernel unit :=
  modify (λ k, set_env_sched_list (TAILQ.TAILQ_INSERT_HEAD e (env_sched_list k)) k).

Definition sched_insert_tail (e : Z) : M kernel unit :=
  q <- gets env_sched_list ;;
  match TAILQ.TAILQ_INSERT_TAIL e q with
  | Some q' => modify (set_env_sched_list q')
  | None => fault "TAILQ_INSERT_TAIL"
  end.

Definition sched_remove (e : Z) : M kernel unit :=
  q <- gets env_sched_list ;;
  match TAILQ.TAILQ_REMOVE e q with
  | Some q' => modify (set_env_sched_list q')
  | None => fault "TAILQ_REMOVE"
  end.

(** * Address space identifiers and environment ids *)

Definition asid_word (k : kernel) (index : Z) : Z := default 0 (asid_bitmap k !! index).

(** The rounds of [for (u_int i = 0; i < NASID; ++i)] from [i] on *)
Fixpoint asid_alloc_from (n : nat) (i : Z) : M kernel Z :=
  match n with
  | O => err (- E_NO_FREE_ENV)
  | S n' =>
      let index := Z.shiftr i 5 in
      let inner := Z.land i 31 in
      w <- gets (λ k, asid_word k index) ;;
      if Z.land w (Z.shiftl 1 inner) =? 0 then
        modify (λ k, set_asid_bitmap (<[index := u32 (Z.lor w (Z.shiftl 1 inner))]> (asid_bitmap k)) k) ;;
        ret i
      else asid_alloc_from n' (i + 1)
  end.

Definition asid_alloc : M kernel Z := asid_alloc_from (Z.to_nat NASID) 0.

Definition asid_free (i : Z) : M kernel unit :=
  let index := Z.shiftr i 5 in
  let inner := Z.land i 31 in
  modify (λ k, set_asid_bitmap
    (<[index := Z.land (asid_word k index) (not32 (Z.shiftl 1 inner))]> (asid_bitmap k)) k).

Definition mkenvid (e : Z) : M kernel Z :=
  modify (λ k, set_mkenvid_i (u32 (mkenvid_i k + 1)) k) ;;
  i <- gets mkenvid_i ;;
  ret (Z.lor (u32 (Z.shiftl i (1 + LOG2NENV))) e).

Definition envid2env (envid : Z) (checkperm : bool) : M kernel (option Z) :=
  if envid =? 0 then gets curenv
  else
    let e := ENVX envid in
    v <- get_env e ;;
    if (env_status v =? ENV_FREE) || negb (env_id v =? envid) then err (- E_BAD_ENV)
    else
      c <- gets curenv ;;
      if checkperm && negb (bool_decide (Some e = c)) then
        p <- deref c ;;
        pv <- get_env p ;;
        if negb (env_parent_id v =? env_id pv) then err (- E_BAD_ENV) else ret (Some e)
      else ret (Some e).

(** * Creation *)

Section env.
Context `{LinkerSymbols}.

Definition map_segment (pgdir asid pa va size perm : Z) : M kernel unit :=
  assert_ (pa mod BY2PG =? 0) ;;
  assert_ (va mod BY2PG =? 0) ;;
  assert_ (size mod BY2PG =? 0) ;;
  for_each (page_offsets size) (λ i,
    pp <- onp (pa2page (u32 (pa + i))) ;;
    panic_on (onp (page_insert pgdir asid pp (u32 (va + i)) perm))).

Definition env_init : M kernel unit :=
  modify (λ k, set_env_free_list (LIST.LIST_INIT (env_free_list k)) k) ;;
  modify (λ k, set_env_sched_list (TAILQ.TAILQ_INIT (env_sched_list k)) k) ;;
  for_each (reverse (seqZ 0 NENV)) (λ i,
    upd_env i (set_env_status ENV_FREE) ;;
    free_insert_head i) ;;
  p <- onp (panic_on page_alloc) ;;
  onp (incref p) ;;
  b <- onp (page2kva p) ;;
  modify (set_base_pgdir b) ;;
  ps <- gets (λ k, pages_kva (pm k)) ;;
  pa <- PADDR ps ;;
  n <- gets (λ k, npage (pm k)) ;;
  map_segment b 0 pa UPAGES (ROUND (n * SIZEOF_PAGE) BY2PG) (Z.lor (Z.lor PTE_G PTE_R) PTE_U) ;;
  pe <- PADDR envs_kva ;;
  map_segment b 0 pe UENVS (ROUND (NENV * SIZEOF_ENV) BY2PG) (Z.lor (Z.lor PTE_G PTE_R) PTE_U).

Definition env_setup_vm (e : Z) : M kernel unit :=
  p <- onp page_alloc ;;
  onp (incref p) ;;
  d <- onp (page2kva p) ;;
  upd_env e (set_env_pgdir d) ;;
  onp (modify (set_mem (copy_page d kernel_pgdir))) ;;
  b <- gets base_pgdir ;;
  onp (modify (set_mem (copy_words (d + 4 * PDX UTOP) (b + 4 * PDX UTOP)
                          (Z.to_nat (PDX UVPT - PDX UTOP))))) ;;
  upd_env e (set_env_pgdir_copy_pa 0).

(** The result of [env_setup_vm] is not looked at. *)
Definition env_alloc (parent_id : Z) : M kernel Z :=
  l <- gets env_free_list ;;
  match LIST.LIST_FIRST l with
  | None => err (- E_NO_FREE_ENV)
  | Some e =>
      _ <- code (env_setup_vm e) ;;
      upd_env e (set_env_user_tlb_mod_entry 0) ;;
      upd_env e (set_env_runs 0) ;;
      id <- mkenvid e ;;
      upd_env e (set_env_id id) ;;
      asid <- asid_alloc ;;
      upd_env e (set_env_asid asid) ;;
      upd_env e (set_env_parent_id parent_id) ;;
      upd_env e (λ v, set_env_tf (set_sstatus 2 (env_tf v)) v) ;;
      upd_env e (λ v, set_env_tf (set_sscratch (USTACKTOP - 4 - 4) (env_tf v)) v) ;;
      free_remove e ;;
      ret e
  end.

(** * Loading programs *)

Definition load_icode_mapper (e va offset perm : Z) (src : option Z) (len : Z) : M kernel unit :=
  p <- onp page_alloc ;;
  (match src with
   | Some src =>
       a <- onp (page2kva p) ;;
       onp (modify (set_mem (memcpy (a + offset) src len)))
   | None => ret tt
   end) ;;
  v <- get_env e ;;
  onp (page_insert (env_pgdir v) (env_asid v) p va perm).

Definition load_icode (e binary size : Z) : M kernel unit :=
  m <- gets (λ k, mem (pm k)) ;;
  match elf_from m binary size with
  | None => panic "bad elf"
  | Some ehdr =>
      for_each (phdr_offs m ehdr) (λ ph_off,
        m <- gets (λ k, mem (pm k)) ;;
        let ph := rd_phdr m (binary + ph_off) in
        if p_type ph =? PT_LOAD
        then panic_on (elf_load_seg (load_icode_mapper e) ph (binary + p_offset ph))
        else ret tt) ;;
      m <- gets (λ k, mem (pm k)) ;;
      upd_env e (λ v, set_env_tf (set_sepc (e_entry m ehdr) (env_tf v)) v)
  end.

Definition env_create (binary size priority : Z) : M kernel Z :=
  e <- panic_on (env_alloc 0) ;;
  upd_env e (set_env_pri priority) ;;
  upd_env e (set_env_status ENV_RUNNABLE) ;;
  load_icode e binary size ;;
  sched_insert_head e ;;
  ret e.

(** * Destruction *)

(** Unmapping every page of table [pt] of directory entry [pdeno] *)
Definition free_table_pages (e pdeno pt : Z) : M kernel unit :=
  for_each (seqZ 0 (PTX (not32 0) + 1)) (λ pteno,
    x <- onp (rd (pt + 4 * pteno)) ;;
    if has x PTE_V then
      v <- get_env e ;;
      onp (page_remove (env_pgdir v) (env_asid v)
             (Z.lor (Z.shiftl pdeno PDSHIFT) (Z.shiftl pteno PGSHIFT)))
    else ret tt).

Definition free_pde (e pdeno : Z) : M kernel unit :=
  v <- get_env e ;;
  pde <- onp (rd (env_pgdir v + 4 * pdeno)) ;;
  if negb (has pde PTE_V) then ret tt
  else
    let pa := PTE_ADDR pde in
    pt <- onp (KADDR pa) ;;
    free_table_pages e pdeno pt ;;
    onp (wr (env_pgdir v + 4 * pdeno) 0) ;;
    pp <- onp (pa2page pa) ;;
    onp (page_decref pp) ;;
    onp (tlb_flush (env_asid v) 0).

Definition env_free (e : Z) : M kernel unit :=
  for_each (seqZ 0 (PDX UTOP)) (free_pde e) ;;
  v <- get_env e ;;
  (if negb (env_pgdir_copy_pa v =? 0) then
     pp <- onp (pa2page (env_pgdir_copy_pa v)) ;;
     r <- onp (gets (λ s, ref s pp)) ;;
     assert_ (r =? 1) ;;
     onp (page_decref pp)
   else ret tt) ;;
  d <- PADDR (env_pgdir v) ;;
  pp <- onp (pa2page d) ;;
  onp (page_decref pp) ;;
  asid_free (env_asid v) ;;
  onp (tlb_flush (env_asid v) 0) ;;
  upd_env e (set_env_status ENV_FREE) ;;
  free_insert_head e ;;
  sched_remove e.

(** * Running *)

Definition SIZEOF_TRAPFRAME := 152.

(** [env_pop_tf] (kern/env_asm.S): switch the address space and leave the
    kernel with the registers of [tf]. *)
Definition env_pop_tf (tf : Trapframe) (v : Z) : M kernel unit :=
  onp (modify (set_satp v)) ;;
  modify (set_cpu tf) ;;
  (λ k, UserMode k).

Definition env_run (e : Z) : M kernel unit :=
  v <- get_env e ;;
  assert_ (env_status v =? ENV_RUNNABLE) ;;
  c <- gets curenv ;;
  (match c with
   | Some c => tf <- gets kstack_tf ;; upd_env c (set_env_tf tf)
   | None => ret tt
   end) ;;
  modify (set_curenv (Some e)) ;;
  upd_env e (λ v, set_env_runs (u32 (env_runs v + 1)) v) ;;
  v <- get_env e ;;
  onp (modify (set_cur_pgdir (env_pgdir v))) ;;
  d <- gets (λ k, cur_pgdir (pm k)) ;;
  env_pop_tf (env_tf v)
    (Z.lor (Z.lor SV32MODE (u32 (Z.shiftl (env_asid v) 22))) (PPN d)).
End env.
