(* ===== verification/EnvProps.v ===== *)
(** Identifiers: environment ids ([mkenvid], [envid2env]) and address space
    identifiers ([asid_alloc], [asid_free]). *)
From S2P Require Import Prelude Mmu Queue Memory Pmap Disk Env.

(** * Environment ids *)

Lemma ENVX_mod envid : ENVX envid = envid mod 1024.
Proof. unfold ENVX. change (NENV - 1) with (Z.ones 10). by rewrite Z.land_ones. Qed.

(** The id made from counter value [i] for slot [e] *)
Definition id_of (i e : Z) : Z := i mod 2 ^ 21 * 2 ^ 11 + e.

Lemma mkenvid_ok e k :
  0 ≤ e < NENV → 0 ≤ mkenvid_i k →
  mkenvid e k = Ok (id_of (u32 (mkenvid_i k + 1)) e) (set_mkenvid_i (u32 (mkenvid_i k + 1)) k).
Proof.
  intros He Hi. unfold mkenvid. do 2 step. unfold ret. f_equal. cbn [mkenvid_i set_mkenvid_i].
  set (i := u32 (mkenvid_i k + 1)). pose proof (u32_bound (mkenvid_i k + 1)) as Hb. fold i in Hb.
  change (1 + LOG2NENV) with 11. unfold id_of, NENV in *.
  assert (u32 (Z.shiftl i 11) = Z.shiftl (i mod 2 ^ 21) 11) as ->.
  { unfold u32. rewrite !Z.shiftl_mul_pow2 by lia. change (2 ^ 32) with (2 ^ 21 * 2 ^ 11).
    by rewrite Z.mul_mod_distr_r by lia. }
  apply lor_shiftl_add; lia.
Qed.

Lemma ENVX_id i e : 0 ≤ e < NENV → ENVX (id_of i e) = e.
Proof.
  intros He. rewrite ENVX_mod. unfold id_of, NENV in *.
  replace (i mod 2 ^ 21 * 2 ^ 11 + e) with (e + i mod 2 ^ 21 * 2 * 1024) by lia.
  rewrite Z.mod_add, Z.mod_small by lia. done.
Qed.

Lemma id_of_inj i j e f : 0 ≤ e < NENV → 0 ≤ f < NENV → id_of i e = id_of j f → i mod 2 ^ 21 = j mod 2 ^ 21 ∧ e = f.
Proof. unfold id_of, NENV. intros He Hf E. lia. Qed.

(** C9. [mkenvid] makes an id that determines its slot, differs from the ids
    of any fewer than 2^21 later calls, whatever their slots, and is not zero
    until the 21-bit counter wraps. *)
Theorem mkenvid_unique e k :
  0 ≤ e < NENV → 0 ≤ mkenvid_i k →
  ∃ id k', mkenvid e k = Ok id k' ∧ ENVX id = e ∧ 0 ≤ id < 2 ^ 32 ∧
    (mkenvid_i k + 1 < 2 ^ 21 → id ≠ 0) ∧
    (∀ f n k2 id2, 0 ≤ f < NENV → 0 < n < 2 ^ 21 →
       mkenvid_i k2 = u32 (mkenvid_i k + n) → mkenvid f k2 = Ok id2 (set_mkenvid_i (u32 (mkenvid_i k2 + 1)) k2) →
       id2 ≠ id).
Proof.
  intros He Hi. eexists _, _. rewrite mkenvid_ok by done. split; [done|]. split_and!.
  - by apply ENVX_id.
  - unfold id_of, NENV in *. pose proof (Z.mod_pos_bound (u32 (mkenvid_i k + 1)) (2 ^ 21)). lia.
  - unfold id_of, NENV in *. pose proof (Z.mod_pos_bound (u32 (mkenvid_i k + 1)) (2 ^ 21)). lia.
  - intros Hlt. rewrite u32_small by lia. unfold id_of. rewrite Z.mod_small by lia. lia.
  - intros f n k2 id2 Hf Hn Hk2 E. pose proof (u32_bound (mkenvid_i k + n)).
    rewrite mkenvid_ok in E by (done || lia). injection E as <-. rewrite Hk2. intros E.
    apply id_of_inj in E as [E _]; [|done|done]. unfold u32 in E.
    rewrite Zplus_mod_idemp_l in E.
    rewrite <- !(Znumtheory.Zmod_div_mod (2 ^ 21) (2 ^ 32)) in E by (lia || by exists (2 ^ 11)).
    rewrite !Z.mod_eq in E by lia. lia.
Qed.

(** A kernel state with two environments: 5, which is running, and its child 6 *)
Definition w_env (id parent status : Z) : Env :=
  set_env_id id (set_env_parent_id parent (set_env_status status env0)).

Definition w_pm : pmap := MkPmap 0 8 0 0 ∅ (LIST.Mk None ∅) 0 ∅ [] 0.
Definition w_vring : vring := MkVring 0 0 0 0 ∅ 1 0 ∅ 0 0 ∅ (2 ^ 32 - 1) ∅ 0 (λ _, 0) [].

Definition w_kernel : kernel :=
  MkKernel w_pm w_vring
    (<[5 := w_env 2053 0 ENV_RUNNABLE]> (<[6 := w_env 4102 2053 ENV_NOT_RUNNABLE]> ∅))
    (Some 5) (LIST.Mk None ∅)
    (TAILQ.TAILQ_INSERT_HEAD 5 (TAILQ.TAILQ_INIT (TAILQ.Mk None None ∅)))
    0 ∅ 2 0 tf0 tf0 [] [].

Lemma mkenvid_unique_witness : ∃ id k', mkenvid 7 w_kernel = Ok id k' ∧ ENVX id = 7 ∧ id ≠ 0.
Proof.
  destruct (mkenvid_unique 7 w_kernel ltac:(done) ltac:(done)) as (id & k' & E & Hx & _ & Hz & _).
  exists id, k'. split; [exact E|]. split; [exact Hx|]. by apply Hz.
Defined.

(** [envid] names environment [e], and the caller [c] may use it. *)
Definition names (k : kernel) (c envid : Z) (checkperm : bool) (e : Z) : Prop :=
  e = ENVX envid ∧ env_status (env k e) ≠ ENV_FREE ∧ env_id (env k e) = envid ∧
  (checkperm = true → e = c ∨ env_parent_id (env k e) = env_id (env k c)).

#[export] Instance names_dec k c envid cp e : Decision (names k c envid cp e).
Proof. unfold names. apply _. Defined.

Lemma envid2env_ok k c envid cp e :
  curenv k = Some c → envid ≠ 0 → names k c envid cp e → envid2env envid cp k = Ok (Some e) k.
Proof.
  intros Hc Hne (-> & Hs & Hi & Hp). unfold envid2env. rewrite (proj2 (Z.eqb_neq envid 0)) by done.
  step. rewrite (proj2 (Z.eqb_neq _ _) Hs), (proj2 (Z.eqb_eq _ _) Hi). cbn [orb negb].
  step. rewrite Hc. destruct cp; [|done]. case_bool_decide as E; [done|]. cbn [andb negb].
  do 2 step. destruct (Hp eq_refl) as [E'|E']; [congruence|]. by rewrite E', Z.eqb_refl.
Qed.

Lemma envid2env_bad k c envid cp :
  curenv k = Some c → envid ≠ 0 → ¬ names k c envid cp (ENVX envid) →
  envid2env envid cp k = Err (- E_BAD_ENV) k.
Proof.
  intros Hc Hne Hn. unfold envid2env. rewrite (proj2 (Z.eqb_neq envid 0)) by done. step.
  destruct (Z.eqb_spec (env_status (env k (ENVX envid))) ENV_FREE) as [|Hs]; [done|].
  destruct (Z.eqb_spec (env_id (env k (ENVX envid))) envid) as [Hi|]; [|done]. cbn [orb negb].
  step. rewrite Hc. destruct cp; cbn [andb].
  - case_bool_decide as E; cbn [negb].
    + exfalso. apply Hn. split_and!; try done. intros _. left. congruence.
    + do 2 step. destruct (Z.eqb_spec (env_parent_id (env k (ENVX envid))) (env_id (env k c))); [|done].
      exfalso. apply Hn. split_and!; try done. auto.
  - exfalso. apply Hn. by split_and!.
Qed.

(** [envid2env] accepts exactly: 0, for the caller itself; and an id that
    is the current id of a slot in use, which with [checkperm] must be the
    caller or a child of the caller.  Everything else, stale ids of recycled
    slots included, gives -E_BAD_ENV; the state never changes. *)
Theorem envid2env_spec k c envid cp :
  curenv k = Some c →
  (envid = 0 ∧ envid2env envid cp k = Ok (Some c) k) ∨
  (envid ≠ 0 ∧ names k c envid cp (ENVX envid) ∧ envid2env envid cp k = Ok (Some (ENVX envid)) k) ∨
  (envid ≠ 0 ∧ (∀ e, ¬ names k c envid cp e) ∧ envid2env envid cp k = Err (- E_BAD_ENV) k).
Proof.
  intros Hc. destruct (decide (envid = 0)) as [->|Hne].
  - left. split; [done|]. unfold envid2env. cbn. unfold gets. by rewrite Hc.
  - right. destruct (decide (names k c envid cp (ENVX envid))) as [Hn|Hn].
    + left. split_and!; [done|done|]. by apply (envid2env_ok k c).
    + right. split_and!; [done| |by apply (envid2env_bad k c)].
      intros e He. apply Hn. by destruct (He) as [-> _].
Qed.

Lemma envid2env_spec_witness :
  (4102 = 0 ∧ envid2env 4102 true w_kernel = Ok (Some 5) w_kernel) ∨
  (4102 ≠ 0 ∧ names w_kernel 5 4102 true 6 ∧ envid2env 4102 true w_kernel = Ok (Some 6) w_kernel) ∨
  (4102 ≠ 0 ∧ (∀ e, ¬ names w_kernel 5 4102 true e) ∧
   envid2env 4102 true w_kernel = Err (- E_BAD_ENV) w_kernel).
Proof. exact (envid2env_spec w_kernel 5 4102 true eq_refl). Defined.

(** * Address space identifiers *)

(** Bit [i] of the bitmap: [i] is in use. *)
Definition asid_used (k : kernel) (i : Z) : bool :=
  Z.testbit (asid_word k (Z.shiftr i 5)) (Z.land i 31).

Lemma land31 i : Z.land i 31 = i mod 32.
Proof. change 31 with (Z.ones 5). by rewrite Z.land_ones. Qed.

Lemma shr5 i : Z.shiftr i 5 = i / 32.
Proof. by rewrite Z.shiftr_div_pow2. Qed.

Lemma asid_bit_zero k i :
  (Z.land (asid_word k (Z.shiftr i 5)) (Z.shiftl 1 (Z.land i 31)) =? 0) = negb (asid_used k i).
Proof.
  unfold asid_used. rewrite <- (has_testbit _ (Z.land i 31)), <- Z.shiftl_1_l.
  - unfold has. by rewrite negb_involutive.
  - apply (land_bound _ _ 5); lia.
Qed.

Lemma asid_same i j : i / 32 = j / 32 → i mod 32 = j mod 32 → i = j.
Proof. pose proof (Z.div_mod i 32). pose proof (Z.div_mod j 32). lia. Qed.

Definition asid_set (i : Z) (k : kernel) : kernel :=
  set_asid_bitmap (<[Z.shiftr i 5 := u32 (Z.lor (asid_word k (Z.shiftr i 5)) (Z.shiftl 1 (Z.land i 31)))]>
    (asid_bitmap k)) k.

Lemma asid_used_set k i j : asid_used (asid_set i k) j = asid_used k j || (i =? j).
Proof.
  unfold asid_used, asid_set, asid_word at 1. cbn. rewrite !land31, !shr5, lookup_insert.
  pose proof (Z.mod_pos_bound j 32). pose proof (Z.mod_pos_bound i 32). case_decide as E; cbn.
  - unfold u32. rewrite Z.mod_pow2_bits_low, Z.lor_spec, Z.shiftl_1_l, Z.pow2_bits_eqb by lia. rewrite E.
    f_equal. destruct (Z.eqb_spec i j) as [->|Hne]; [by rewrite Z.eqb_refl|].
    apply Z.eqb_neq. intros Em. apply Hne. by apply asid_same.
  - rewrite (proj2 (Z.eqb_neq i j)) by congruence. by rewrite orb_false_r.
Qed.

Lemma asid_free_ok k i :
  ∃ k', asid_free i k = Ok tt k' ∧ (∀ j, asid_used k' j = asid_used k j && negb (i =? j)) ∧
    ∃ b, k' = set_asid_bitmap b k.
Proof.
  eexists. split; [reflexivity|]. split; [|by eexists]. intros j.
  unfold asid_used. unfold asid_word at 1. cbn. rewrite !land31, !shr5, lookup_insert.
  pose proof (Z.mod_pos_bound j 32). pose proof (Z.mod_pos_bound i 32). case_decide as E; cbn.
  - rewrite Z.land_spec. unfold not32, u32. rewrite Z.mod_pow2_bits_low, Z.lnot_spec by lia.
    rewrite Z.shiftl_1_l, Z.pow2_bits_eqb, E by lia. do 2 f_equal.
    destruct (Z.eqb_spec i j) as [->|Hne]; [by rewrite Z.eqb_refl|].
    apply Z.eqb_neq. intros Em. apply Hne. by apply asid_same.
  - rewrite (proj2 (Z.eqb_neq i j)) by congruence. by rewrite andb_true_r.
Qed.

Lemma asid_alloc_from_ok n i k :
  match find (λ j, negb (asid_used k j)) (seqZ i (Z.of_nat n)) with
  | Some j => asid_alloc_from n i k = Ok j (asid_set j k)
  | None => asid_alloc_from n i k = Err (- E_NO_FREE_ENV) k
  end.
Proof.
  revert i. induction n as [|n IH]; intros i; [done|]. rewrite seqZ_cons by lia. cbn [find].
  assert (asid_alloc_from (S n) i k =
    if asid_used k i then asid_alloc_from n (i + 1) k else Ok i (asid_set i k)) as ->.
  { cbn [asid_alloc_from]. unfold bind at 1, gets at 1. rewrite asid_bit_zero.
    by destruct (asid_used k i). }
  replace (Z.pred (Z.of_nat (S n))) with (Z.of_nat n) by lia.
  destruct (asid_used k i); cbn [negb]; [|done].
  replace (Z.succ i) with (i + 1) by lia. apply IH.
Qed.

(** [asid_alloc] hands out the smallest free identifier below 64, never
    one in use, and marks it used; without one it returns -E_NO_FREE_ENV and
    changes nothing.  [asid_free] releases exactly its argument. *)
Theorem asid_spec k :
  ((∃ i k', asid_alloc k = Ok i k' ∧ 0 ≤ i < NASID ∧ asid_used k i = false ∧
     (∀ j, 0 ≤ j < i → asid_used k j = true) ∧
     (∀ j, asid_used k' j = asid_used k j || (i =? j))) ∨
  (asid_alloc k = Err (- E_NO_FREE_ENV) k ∧ ∀ i, 0 ≤ i < NASID → asid_used k i = true)) ∧
  (∀ i, ∃ k', asid_free i k = Ok tt k' ∧ ∀ j, asid_used k' j = asid_used k j && negb (i =? j)).
Proof.
  split; [|intros i; destruct (asid_free_ok k i) as (k' & ? & ? & _); eauto].
  pose proof (asid_alloc_from_ok (Z.to_nat NASID) 0 k) as H. change (Z.of_nat (Z.to_nat NASID)) with NASID in H.
  assert (Hfind : ∀ n i, match find (λ j, negb (asid_used k j)) (seqZ i n) with
    | Some j => i ≤ j < i + n ∧ asid_used k j = false ∧ ∀ l, i ≤ l < j → asid_used k l = true
    | None => ∀ l, i ≤ l < i + n → asid_used k l = true end).
  { clear. intros n. destruct (decide (0 ≤ n)) as [Hn|Hn].
    2: { intros i. rewrite seqZ_nil by lia. cbn. intros. lia. }
    pattern n. apply natlike_ind; [intros i; rewrite seqZ_nil by lia; cbn; intros; lia| |done].
    clear n Hn. intros n Hn IH i. rewrite seqZ_cons by lia. cbn [find].
    rewrite Z.pred_succ. specialize (IH (Z.succ i)). destruct (asid_used k i) eqn:E; cbn [negb].
    - destruct (find _ _) as [j|].
      + destruct IH as (? & ? & Hl). split_and!; [lia|lia|done|]. intros l Hlj.
        destruct (decide (l = i)) as [->|]; [done|]. apply Hl. lia.
      + intros l Hl. destruct (decide (l = i)) as [->|]; [done|]. apply IH. lia.
    - split_and!; [lia|lia|done|]. lia. }
  specialize (Hfind NASID 0). destruct (find _ _) as [j|].
  - left. destruct Hfind as (Hj & Hu & Hl). exists j, (asid_set j k). split_and!; try done; try lia.
    intros l. apply asid_used_set.
  - right. split; [done|]. intros i Hi. apply Hfind. lia.
Qed.

