(* ===== verification/Sched.v ===== *)
(** The scheduler (kern/sched.c) and [env_destroy] of kern/env.c, which calls it. *)
From S2P Require Import Prelude Mmu Queue Memory Pmap Disk Env.

Section sched.
Context `{LinkerSymbols}.

(** [schedule] never returns: it ends in [env_run] or in a panic. *)
Definition schedule (yield : bool) : M kernel unit :=
  e <- gets curenv ;;
  lift (H := sub_disk) virtio_disk_intr ;;
  count <- gets sched_count ;;
  runnable <- gets (λ k, match e with
                         | Some e => env_status (env k e) =? ENV_RUNNABLE
                         | None => false
                         end) ;;
  e <- (if yield || (count =? 0) || negb runnable then
          (if runnable : bool then
             e <- deref e ;; sched_remove e ;; sched_insert_tail e
           else ret tt) ;;
          q <- gets env_sched_list ;;
          if TAILQ.TAILQ_EMPTY q then panic "schedule: no runnable envs"
          else
            e <- deref (TAILQ.TAILQ_FIRST q) ;;
            v <- get_env e ;;
            modify (set_sched_count (s32 (env_pri v))) ;;
            ret e
        else deref e) ;;
  modify (λ k, set_sched_count (sched_count k - 1) k) ;;
  env_run e.

Definition env_destroy (e : Z) : M kernel unit :=
  env_free e ;;
  c <- gets curenv ;;
  if bool_decide (c = Some e) then
    modify (set_curenv None) ;;
    schedule true
  else ret tt.

(** [handle_timer] of kern/genex.S: the timer interrupt *)
Definition handle_timer : M kernel unit := schedule false.
End sched.
