(* ===== verification/SchedProps.v ===== *)
(** The scheduler: the queue of runnable environments and round robin. *)
From S2P Require Import Prelude Mmu Queue Memory Pmap Disk Env EnvProps Sched QueueProps.

(** The invariant stated in kern/env.c: the list holds exactly the runnable
    environments. *)
Record sched_rel (k : kernel) (l : list Z) : Prop := {
  sr_queue : TAILQ_rep (env_sched_list k) l;
  sr_status : ∀ e, e ∈ l ↔ env_status (env k e) = ENV_RUNNABLE
}.

(** * Specification of the choice *)

(** Moving [c] to the tail *)
Definition rotate (c : Z) (l : list Z) : list Z := del c l ++ [c].

(** Queue after the call, environment chosen and its remaining slices *)
Definition sched_pick (pri : Z → Z) (yield : bool) (l : list Z) (cur : option Z) (count : Z)
    : option (list Z * Z * Z) :=
  let runnable := match cur with Some c => bool_decide (c ∈ l) | None => false end in
  if yield || (count =? 0) || negb runnable then
    let l' := match cur with
              | Some c => if runnable then rotate c l else l
              | None => l
              end in
    match l' with
    | [] => None
    | e :: _ => Some (l', e, pri e - 1)
    end
  else match cur with Some c => Some (l, c, count - 1) | None => None end.

(** * Lemmas on the kernel state *)

Lemma env_upd k e f e' :
  env (set_envs (<[e := f (env k e)]> (envs k)) k) e' = if decide (e = e') then f (env k e) else env k e'.
Proof. unfold env at 1. cbn. rewrite lookup_insert. by case_decide. Qed.

Lemma sched_remove_ok k l1 e l2 :
  TAILQ_rep (env_sched_list k) (l1 ++ e :: l2) →
  ∃ q, sched_remove e k = Ok tt (set_env_sched_list q k) ∧ TAILQ_rep q (l1 ++ l2).
Proof.
  intros Hq. destruct (TAILQ_remove_rep _ _ _ _ Hq) as (q & E & Hq'). exists q.
  unfold sched_remove. step. by rewrite E.
Qed.

Lemma sched_insert_tail_ok k l e :
  TAILQ_rep (env_sched_list k) l → e ∉ l →
  ∃ q, sched_insert_tail e k = Ok tt (set_env_sched_list q k) ∧ TAILQ_rep q (l ++ [e]).
Proof.
  intros Hq He. destruct (TAILQ_insert_tail_rep _ _ _ Hq He) as (q & E & Hq'). exists q.
  unfold sched_insert_tail. step. by rewrite E.
Qed.

Lemma rotate_ok k c l :
  TAILQ_rep (env_sched_list k) l → c ∈ l →
  ∃ q, (sched_remove c ;; sched_insert_tail c) k = Ok tt (set_env_sched_list q k) ∧ TAILQ_rep q (rotate c l).
Proof.
  intros Hq Hc. destruct (split_first c l Hc) as (l1 & l2 & -> & H1).
  destruct (sched_remove_ok k l1 c l2 Hq) as (q1 & E1 & Hq1). rewrite (bind_ok _ _ _ _ _ E1).
  destruct (sched_insert_tail_ok (set_env_sched_list q1 k) (l1 ++ l2) c Hq1) as (q2 & E2 & Hq2).
  { intros Hin. destruct Hq as (_ & _ & _ & Hnd). apply NoDup_app in Hnd as (_ & _ & Hnd).
    apply NoDup_cons in Hnd as [? _]. apply elem_of_app in Hin as [?|?]; done. }
  exists q2. split; [by rewrite E2; destruct k|]. unfold rotate. by rewrite del_app.
Qed.

Lemma elem_rotate c l x : NoDup l → c ∈ l → x ∈ rotate c l ↔ x ∈ l.
Proof.
  intros Hnd Hc. destruct (split_first c l Hc) as (l1 & l2 & -> & H1). unfold rotate.
  rewrite del_app by done. rewrite !elem_of_app, !elem_of_cons, elem_of_nil. tauto.
Qed.

(** * Entering an environment *)

Section run.
Context `{LinkerSymbols}.

(** The kernel state in which [env_run e] leaves the kernel *)
Record entered (k k' : kernel) (e : Z) : Prop := {
  en_cur : curenv k' = Some e;
  en_cpu : cpu k' = if decide (curenv k = Some e) then kstack_tf k else env_tf (env k e);
  en_pgdir : cur_pgdir (pm k') = env_pgdir (env k e);
  en_satp : satp (pm k') =
    Z.lor (Z.lor SV32MODE (u32 (Z.shiftl (env_asid (env k e)) 22))) (PPN (env_pgdir (env k e)));
  en_runs : env_runs (env k' e) = u32 (env_runs (env k e) + 1);
  en_saved : ∀ c, curenv k = Some c → env_tf (env k' c) = kstack_tf k;
  en_others : ∀ x, x ≠ e → curenv k ≠ Some x → env k' x = env k x;
  en_frame : ∀ x, ∃ tf r, env k' x = set_env_tf tf (set_env_runs r (env k x));
  en_status : ∀ x, env_status (env k' x) = env_status (env k x);
  en_pri : ∀ x, env_pri (env k' x) = env_pri (env k x);
  en_mem : mem (pm k') = mem (pm k);
  en_sched : env_sched_list k' = env_sched_list k;
  en_count : sched_count k' = sched_count k;
  en_disk : disk k' = disk k;
  en_tf : kstack_tf k' = kstack_tf k
}.

Lemma env_run_ok k e :
  env_status (env k e) = ENV_RUNNABLE → ∃ k', env_run e k = UserMode k' ∧ entered k k' e.
Proof.
  intros Hs. unfold env_run. step. rewrite Hs. step. step.
  set (k1 := match curenv k with Some c => set_envs (<[c := set_env_tf (kstack_tf k) (env k c)]> (envs k)) k | None => k end).
  rewrite (bind_ok _ _ tt k k1) by (unfold k1; by destruct (curenv k)).
  do 5 step. unfold env_pop_tf. do 2 step.
  eexists. split; [reflexivity|].
  assert (Hk1 : ∀ x, env k1 x = if decide (curenv k = Some x) then set_env_tf (kstack_tf k) (env k x) else env k x).
  { intros x. unfold k1. destruct (curenv k) as [c|]; [|done].
    rewrite (env_upd k c (set_env_tf (kstack_tf k))).
    destruct (decide (c = x)) as [->|]; [by rewrite decide_True|by rewrite decide_False by congruence]. }
  assert (Hf : pm k1 = pm k ∧ env_sched_list k1 = env_sched_list k ∧ sched_count k1 = sched_count k ∧
    disk k1 = disk k ∧ kstack_tf k1 = kstack_tf k) by (unfold k1; by destruct (curenv k)).
  destruct Hf as (Hp & Hq & Hc & Hd & Ht).
  set (v1 := env (set_curenv (Some e) k1) e).
  set (k2 := set_envs _ (set_curenv (Some e) k1)).
  assert (Hk2 : ∀ x, env k2 x = if decide (e = x) then set_env_runs (u32 (env_runs v1 + 1)) v1 else env k1 x).
  { intros x. unfold k2. exact (env_upd (set_curenv (Some e) k1) e (λ v, set_env_runs (u32 (env_runs v + 1)) v) x). }
  assert (Hv1 : v1 = env k1 e) by done.
  assert (He : env k2 e = set_env_runs (u32 (env_runs v1 + 1)) v1) by (rewrite Hk2; by rewrite decide_True).
  split; cbn [curenv cpu cur_pgdir satp env_sched_list sched_count disk kstack_tf set_cpu sub_set sub_pm
    set_pm set_satp set_cur_pgdir pm mem]; try change (env (set_cpu _ _)) with (env k2); try done;
    rewrite ?He; cbn [env_tf env_pgdir env_asid env_runs set_env_runs]; rewrite ?Hv1, ?Hk1.
  - by case_decide.
  - by case_decide.
  - by case_decide.
  - by case_decide.
  - intros c E. rewrite Hk2. case_decide as Ex; [subst c|].
    + cbn. rewrite Hv1, Hk1. by rewrite decide_True.
    + rewrite Hk1. by rewrite decide_True.
  - intros x Hx Hc'. by rewrite Hk2, decide_False, Hk1, decide_False by congruence.
  - intros x. exists (env_tf (env k2 x)), (env_runs (env k2 x)). rewrite Hk2.
    case_decide; [subst x; rewrite Hv1|]; rewrite Hk1; case_decide.
    all: first [generalize (env k e); by intros []|generalize (env k x); by intros []].
  - intros x. rewrite Hk2. case_decide; [subst x; cbn; rewrite Hv1|]; rewrite Hk1; by case_decide.
  - intros x. rewrite Hk2. case_decide; [subst x; cbn; rewrite Hv1|]; rewrite Hk1; by case_decide.
  - unfold k2. cbn. by rewrite Hp.
Qed.

Definition sched_state (k : kernel) (d : vring) (q : TAILQ.t) (n : Z) : kernel :=
  set_sched_count n (set_env_sched_list q (set_disk d k)).

Definition pri_of (k : kernel) (e : Z) : Z := s32 (env_pri (env k e)).

(** [schedule] makes the specified choice and enters it. *)
Lemma schedule_ok k l d yield :
  sched_rel k l → virtio_disk_intr (disk k) = Ok tt d →
  match sched_pick (pri_of k) yield l (curenv k) (sched_count k) with
  | None => schedule yield k = Panic "schedule: no runnable envs"
  | Some (l', e, n) =>
      ∃ q k', schedule yield k = UserMode k' ∧ TAILQ_rep q l' ∧ entered (sched_state k d q n) k' e
  end.
Proof.
  intros [Hq Hst] Hd. unfold schedule. step.
  set (k0 := set_disk d k).
  pose proof (lift_ok (H := sub_disk) virtio_disk_intr tt d k Hd) as Hl.
  rewrite (bind_ok _ _ _ _ _ Hl). change (sub_set d k) with k0.
  rewrite (bind_ok (gets sched_count) _ (sched_count k) k0 k0) by done.
  set (r := match curenv k with Some c => bool_decide (c ∈ l) | None => false end).
  assert (Hr : (match curenv k with Some e => env_status (env k0 e) =? ENV_RUNNABLE | None => false end) = r).
  { unfold r. destruct (curenv k) as [c|]; [|done]. change (env k0 c) with (env k c).
    case_bool_decide as E; [by apply Z.eqb_eq, Hst|]. apply Z.eqb_neq. by rewrite <- Hst. }
  rewrite (bind_ok (gets _) _ r k0 k0) by (unfold gets; by rewrite Hr).
  unfold sched_pick. fold r.
  destruct (yield || (sched_count k =? 0) || negb r) eqn:Epick.
  - set (l' := match curenv k with Some c => if r then rotate c l else l | None => l end).
    assert (∃ q, (if r then e <- deref (curenv k) ;; sched_remove e ;; sched_insert_tail e else ret tt) k0 =
      Ok tt (set_env_sched_list q k0) ∧ TAILQ_rep q l' ∧ ∀ x, x ∈ l' ↔ x ∈ l) as (q & Eq & Hq' & Hin').
    { unfold l', r. destruct (curenv k) as [c|]; cbn [deref].
      - case_bool_decide as Hc.
        + destruct (rotate_ok k0 c l Hq Hc) as (q & E & Hq'). exists q. rewrite bind_ret.
          split_and!; [done|done|]. intros x. apply elem_rotate; [|done]. by destruct Hq as (_ & _ & _ & ?).
        + exists (env_sched_list k). split_and!; [by destruct k|done|done].
      - exists (env_sched_list k). split_and!; [by destruct k|done|done]. }
    rewrite bind_assoc, (bind_ok _ _ _ _ _ Eq). rewrite bind_assoc.
    rewrite (bind_ok (gets env_sched_list) _ q _ (set_env_sched_list q k0)) by done.
    rewrite (TAILQ_empty_rep _ _ Hq'). destruct l' as [|e l''] eqn:El; [done|].
    rewrite bool_decide_false by done. rewrite (TAILQ_first_rep _ _ Hq'). cbn [head deref].
    do 5 step.
    destruct (env_run_ok (sched_state k d q (pri_of k e - 1)) e) as (k' & E & Hen).
    { apply Hst, Hin'. apply list_elem_of_here. }
    exists q, k'. by split_and!.
  - apply orb_false_iff in Epick as [_ Epick]. apply negb_false_iff in Epick.
    unfold r in Epick. destruct (curenv k) as [c|] eqn:Ec; [|done]. apply bool_decide_eq_true in Epick.
    do 2 step.
    destruct (env_run_ok (sched_state k d (env_sched_list k) (sched_count k - 1)) c) as (k' & E & Hen).
    { by apply Hst. }
    exists (env_sched_list k), k'. split_and!; [|done|done]. by destruct k.
Qed.

Lemma entered_sched_rel k d q n k' l l' e :
  sched_rel k l → TAILQ_rep q l' → (∀ x, x ∈ l' ↔ x ∈ l) →
  entered (sched_state k d q n) k' e → sched_rel k' l'.
Proof.
  intros [_ Hst] Hq Hin En. split.
  - by rewrite (en_sched _ _ _ En).
  - intros x. rewrite Hin, Hst. by rewrite (en_status _ _ _ En).
Qed.

Lemma sched_pick_elem pri yield l cur count l' e n :
  NoDup l → sched_pick pri yield l cur count = Some (l', e, n) →
  (∀ x, x ∈ l' ↔ x ∈ l) ∧ e ∈ l.
Proof.
  intros Hnd. unfold sched_pick. destruct cur as [c|]; cbn.
  - destruct (yield || (count =? 0) || negb (bool_decide (c ∈ l))) eqn:Ep.
    + case_bool_decide as Hc.
      * destruct (rotate c l) as [|x l0] eqn:El; [done|]. intros [= <- <- _].
        pose proof (λ y, elem_rotate c l y Hnd Hc) as Hr. rewrite El in Hr.
        split; [done|]. apply Hr, list_elem_of_here.
      * destruct l as [|x l0]; [done|]. intros [= <- <- _]. split; [done|]. apply list_elem_of_here.
    + intros [= <- <- _]. split; [done|]. apply orb_false_iff in Ep as [_ Ep].
      by apply negb_false_iff, bool_decide_eq_true in Ep.
  - rewrite orb_true_r. destruct l as [|x l0]; [done|]. intros [= <- <- _]. split; [done|]. apply list_elem_of_here.
Qed.

(** * Timer interrupts *)

(** No completed request is waiting for the driver. *)
Definition quiet (v : vring) : Prop := used_idx v = used_idx_dev v.

Lemma intr_quiet v : quiet v → ∃ v', virtio_disk_intr v = Ok tt v' ∧ quiet v'.
Proof.
  intros Hq. unfold virtio_disk_intr, rd_reg. step.
  set (v1 := if negb (reg v INTERRUPT_STATUS =? 0)
             then log_mmio (INTERRUPT_ACK, Z.land (reg v INTERRUPT_STATUS) 0x3) v else v).
  rewrite (bind_ok _ _ tt v v1) by (unfold v1; by destruct (negb _)).
  assert (Hq1 : quiet v1) by (unfold v1; by destruct (negb _)).
  exists v1. split; [|done]. clearbody v1. rewrite (bind_ok (gets id) _ v1 v1 v1) by done.
  unfold id. cbn [reap]. rewrite (bind_ok (gets _) _ v1 v1 v1) by done. by rewrite Hq1, Z.eqb_refl.
Qed.

(** A timer interrupt that saved the user context [tf] *)
Definition tick (tf : Trapframe) (k : kernel) : option kernel :=
  match (modify (set_kstack_tf tf) ;; handle_timer) k with
  | UserMode k' => Some k'
  | _ => None
  end.

Fixpoint ticks (tfs : list Trapframe) (k : kernel) : option kernel :=
  match tfs with
  | [] => Some k
  | tf :: tfs' => k' ← tick tf k; ticks tfs' k'
  end.

Lemma ticks_app l1 l2 k : ticks (l1 ++ l2) k = k' ← ticks l1 k; ticks l2 k'.
Proof. revert k. induction l1 as [|tf l1 IH]; intros k; [done|]. cbn. destruct (tick tf k); cbn; auto. Qed.

(** What stays true between two ticks *)
Record turn (k : kernel) (l : list Z) (c n : Z) : Prop := {
  turn_rel : sched_rel k l;
  turn_quiet : quiet (disk k);
  turn_cur : curenv k = Some c;
  turn_count : sched_count k = n
}.

Lemma tick_ok tf k l c n l' e n' :
  turn k l c n → sched_pick (pri_of k) false l (Some c) n = Some (l', e, n') →
  ∃ k', tick tf k = Some k' ∧ turn k' l' e n' ∧ (∀ x, pri_of k' x = pri_of k x).
Proof.
  intros [Hrel Hq Hc Hn] Hp. set (k1 := set_kstack_tf tf k).
  assert (Hrel1 : sched_rel k1 l) by (by destruct Hrel).
  destruct (intr_quiet _ Hq) as (d & Ed & Hqd).
  pose proof (schedule_ok k1 l d false Hrel1 Ed) as Hs.
  change (curenv k1) with (curenv k) in Hs. change (sched_count k1) with (sched_count k) in Hs.
  change (pri_of k1) with (pri_of k) in Hs. rewrite Hc, Hn, Hp in Hs.
  destruct Hs as (q & k' & E & Hq' & En). exists k'.
  destruct (sched_pick_elem _ _ _ _ _ _ _ _ (proj2 (proj2 (proj2 (sr_queue _ _ Hrel)))) Hp) as [Hin _].
  split_and!.
  - unfold tick. step. unfold handle_timer. change (set_kstack_tf tf k) with k1. by rewrite E.
  - split.
    + by apply (entered_sched_rel k1 d q n' k' l l' e).
    + unfold quiet. by rewrite (en_disk _ _ _ En).
    + by apply En.
    + by rewrite (en_count _ _ _ En).
  - intros x. unfold pri_of. by rewrite (en_pri _ _ _ En).
Qed.

(** An environment keeps the processor for the slices it has left. *)
Lemma ticks_same tfs k l c n :
  turn k l c n → c ∈ l → Z.of_nat (length tfs) = n →
  ∃ k', ticks tfs k = Some k' ∧ turn k' l c 0 ∧ (∀ x, pri_of k' x = pri_of k x).
Proof.
  revert k n. induction tfs as [|tf tfs IH]; intros k n Ht Hc Hlen; cbn [length] in Hlen.
  - exists k. split_and!; [done| |done]. by replace n with 0 in Ht by lia.
  - destruct (tick_ok tf k l c n l c (n - 1) Ht) as (k1 & E1 & Ht1 & Hp1).
    { unfold sched_pick. rewrite (proj2 (Z.eqb_neq n 0)) by lia. by rewrite bool_decide_true. }
    destruct (IH k1 (n - 1) Ht1 Hc ltac:(lia)) as (k2 & E2 & Ht2 & Hp2).
    exists k2. cbn. rewrite E1. cbn. split_and!; [done|done|]. intros x. by rewrite Hp2, Hp1.
Qed.

Definition slices (k : kernel) (l : list Z) : Z := foldr (λ x a, pri_of k x + a) 0 l.

Lemma slices_same k k' l : (∀ x, pri_of k' x = pri_of k x) → slices k' l = slices k l.
Proof. intros H1. unfold slices. induction l as [|x l IH]; cbn; [done|]. by rewrite H1, IH. Qed.

Lemma slices_nonneg k l : (∀ x, x ∈ l → 1 ≤ pri_of k x) → 0 ≤ slices k l.
Proof.
  unfold slices. induction l as [|x l IH]; intros Hp; cbn; [lia|].
  pose proof (Hp x (list_elem_of_here x l)). assert (∀ y, y ∈ l → 1 ≤ pri_of k y) as H1; [|specialize (IH H1); lia].
  intros y Hy. apply Hp. by apply list_elem_of_further.
Qed.

Lemma turns_ok r1 tfs k c e r2 n :
  turn k (c :: r1 ++ e :: r2) c n → 0 ≤ n → (∀ x, x ∈ r1 → 1 ≤ pri_of k x) →
  Z.of_nat (length tfs) = n + 1 + slices k r1 →
  ∃ k', ticks tfs k = Some k' ∧ turn k' (e :: r2 ++ c :: r1) e (pri_of k e - 1).
Proof.
  revert tfs k c r2 n. induction r1 as [|x r1 IH]; intros tfs k c r2 n Ht Hn Hp Hlen.
  - (* after [n] ticks the slices are used up; one more tick switches *)
    cbn [slices foldr app] in *. destruct tfs as [|tf tfs0 _] using rev_ind; [cbn in Hlen; lia|].
    rewrite length_app in Hlen. cbn [length] in Hlen.
    destruct (ticks_same tfs0 k _ c n Ht ltac:(apply list_elem_of_here) ltac:(lia)) as (k1 & E1 & Ht1 & Hp1).
    rewrite ticks_app, E1. cbn.
    destruct (tick_ok tf k1 _ c 0 (e :: r2 ++ [c]) e (pri_of k1 e - 1) Ht1) as (k2 & E2 & Ht2 & _).
    { unfold sched_pick. rewrite bool_decide_true by apply list_elem_of_here. cbn.
      unfold rotate. cbn. by rewrite decide_True. }
    exists k2. rewrite E2. cbn. split; [done|]. by rewrite <- Hp1.
  - cbn [slices foldr] in Hlen. fold (slices k r1) in Hlen.
    pose proof (Hp x (list_elem_of_here x r1)) as Hpx.
    assert (Hp1 : ∀ y, y ∈ r1 → 1 ≤ pri_of k y) by (intros y Hy; apply Hp; by apply list_elem_of_further).
    pose proof (slices_nonneg k r1 Hp1) as Hnn.
    rewrite <- (take_drop (Z.to_nat (n + 1)) tfs). set (t1 := take _ tfs). set (t2 := drop _ tfs).
    assert (length t1 = Z.to_nat (n + 1)) as Hl1 by (unfold t1; rewrite length_take; lia).
    assert (Z.of_nat (length t2) = pri_of k x + slices k r1) as Hl2 by (unfold t2; rewrite length_drop; lia).
    destruct (exists_last (l := t1)) as (tfs0 & tf & E); [intros E; rewrite E in Hl1; cbn in Hl1; lia|].
    rewrite E in *. rewrite length_app in Hl1. cbn [length] in Hl1.
    destruct (ticks_same tfs0 k _ c n Ht ltac:(apply list_elem_of_here) ltac:(lia)) as (k1 & E1 & Ht1 & Hq1).
    destruct (tick_ok tf k1 _ c 0 (x :: r1 ++ e :: r2 ++ [c]) x (pri_of k1 x - 1) Ht1) as (k2 & E2 & Ht2 & Hq2).
    { unfold sched_pick. rewrite bool_decide_true by apply list_elem_of_here. cbn.
      unfold rotate. cbn. rewrite decide_True by done.
      replace ((x :: r1 ++ e :: r2) ++ [c]) with (x :: r1 ++ e :: r2 ++ [c]) by (cbn; by rewrite <- app_assoc).
      done. }
    destruct (IH t2 k2 x (r2 ++ [c]) (pri_of k1 x - 1) Ht2) as (k3 & E3 & Ht3).
    + rewrite Hq1. lia.
    + intros y Hy. rewrite Hq2, Hq1. by apply Hp1.
    + rewrite (slices_same k1) by done. rewrite (slices_same k) by done. rewrite Hq1. lia.
    + exists k3. rewrite !ticks_app, E1. cbn. rewrite E2. cbn. rewrite E3. split; [done|].
      rewrite Hq2, Hq1 in Ht3. by rewrite <- app_assoc in Ht3.
Qed.
End run.

(** * Properties *)

#[export] Instance w_linker : LinkerSymbols := {
  end_ := KERNBASE; _text := KERNBASE; _data := KERNBASE; kernel_pgdir := KERNBASE; envs_kva := KERNBASE }.

Lemma w_kernel_env e : env w_kernel e =
  if decide (e = 5) then w_env 2053 0 ENV_RUNNABLE
  else if decide (e = 6) then w_env 4102 2053 ENV_NOT_RUNNABLE else env0.
Proof.
  unfold env. cbn. rewrite !lookup_insert, lookup_empty. repeat case_decide; try congruence; done.
Qed.

Lemma w_kernel_sched : sched_rel w_kernel [5].
Proof.
  split.
  - apply TAILQ_insert_head_rep; [apply TAILQ_init_rep|]. apply not_elem_of_nil.
  - intros e. rewrite w_kernel_env, elem_of_cons, elem_of_nil. repeat case_decide; cbn; naive_solver.
Qed.

(** C10. [schedule] moves a still runnable current environment to the tail,
    takes the head of the queue and its priority as time slice when it has to
    switch (yield, no slice left, no or a blocked current environment), else
    continues; it saves the old context, restores the chosen one's registers
    and address space, keeps the queue equal to the runnable environments, and
    panics only when nothing is runnable.  After a yield the caller runs again
    only if nobody else can. *)
Theorem schedule_spec `{LinkerSymbols} k l d yield :
  sched_rel k l → virtio_disk_intr (disk k) = Ok tt d →
  match sched_pick (pri_of k) yield l (curenv k) (sched_count k) with
  | None => schedule yield k = Panic "schedule: no runnable envs" ∧ l = []
  | Some (l', e, n) =>
      ∃ k', schedule yield k = UserMode k' ∧ sched_rel k' l' ∧ (∀ x, x ∈ l' ↔ x ∈ l) ∧
        curenv k' = Some e ∧ sched_count k' = n ∧
        cpu k' = (if decide (curenv k = Some e) then kstack_tf k else env_tf (env k e)) ∧
        (∀ c, curenv k = Some c → env_tf (env k' c) = kstack_tf k) ∧
        cur_pgdir (pm k') = env_pgdir (env k e) ∧
        (yield = true → curenv k = Some e → l' = [e])
  end.
Proof.
  intros Hrel Hd. pose proof (schedule_ok k l d yield Hrel Hd) as Hs.
  pose proof (proj2 (proj2 (proj2 (sr_queue _ _ Hrel)))) as Hnd.
  destruct (sched_pick _ _ _ _ _) as [[[l' e] n]|] eqn:Ep.
  - destruct Hs as (q & k' & E & Hq & En). exists k'.
    destruct (sched_pick_elem _ _ _ _ _ _ _ _ Hnd Ep) as [Hin He].
    split_and!; try done; try apply En.
    + by apply (entered_sched_rel k d q n k' l l' e).
    + intros -> Hc. rewrite Hc in Ep. unfold sched_pick in Ep. cbn in Ep.
      rewrite bool_decide_true in Ep by done. destruct (split_first e l He) as (l1 & l2 & -> & H1).
      unfold rotate in Ep. rewrite del_app in Ep by done.
      apply NoDup_app in Hnd as (_ & _ & Hnd). apply NoDup_cons in Hnd as [H2 _].
      destruct (l1 ++ l2) as [|x l3] eqn:El; cbn in Ep.
      * by injection Ep as <- _.
      * injection Ep as _ Ex _. exfalso. assert (x ∈ l1 ++ l2) as Hx by (rewrite El; apply list_elem_of_here).
        rewrite Ex in Hx. apply elem_of_app in Hx as [?|?]; done.
  - split; [done|]. unfold sched_pick in Ep. destruct (curenv k) as [c|]; cbn in Ep.
    + case_bool_decide; cbn in Ep; destruct (yield || (sched_count k =? 0)); cbn in Ep; try done;
        try (by destruct l); unfold rotate in Ep; by destruct (del c l).
    + rewrite orb_true_r in Ep. by destruct l.
Qed.

Lemma schedule_spec_witness :
  ∃ k', schedule true w_kernel = UserMode k' ∧ sched_rel k' [5] ∧ curenv k' = Some 5.
Proof.
  destruct (schedule_spec w_kernel [5] w_vring true w_kernel_sched eq_refl)
    as (k' & E & Hrel & _ & Hc & _).
  exists k'. split; [exact E|]. split; [exact Hrel|exact Hc].
Defined.

(** C13. Round robin is fair and exact: with environment [c] running at the
    head of the queue with [n] slices left, environment [e] gets the processor
    at exactly the timer tick number n + 1 + (sum of the priorities of the
    environments queued between them), whatever the interrupted contexts. *)
Theorem round_robin_fair `{LinkerSymbols} r1 tfs k c e r2 n :
  turn k (c :: r1 ++ e :: r2) c n → 0 ≤ n → (∀ x, x ∈ r1 → 1 ≤ pri_of k x) →
  Z.of_nat (length tfs) = n + 1 + slices k r1 →
  ∃ k', ticks tfs k = Some k' ∧ curenv k' = Some e ∧ sched_rel k' (e :: r2 ++ c :: r1) ∧
    sched_count k' = pri_of k e - 1.
Proof.
  intros Ht Hn Hp Hlen. destruct (turns_ok r1 tfs k c e r2 n Ht Hn Hp Hlen) as (k' & E & Ht').
  exists k'. split_and!; [done|apply Ht'..].
Qed.

(** Environments 5, 6 and 7 runnable in this order, 5 running, slices 2 each *)
Definition w_three : kernel :=
  set_sched_count 0
    (set_env_sched_list
       (TAILQ.TAILQ_INSERT_HEAD 5 (TAILQ.TAILQ_INSERT_HEAD 6
          (TAILQ.TAILQ_INSERT_HEAD 7 (TAILQ.TAILQ_INIT (TAILQ.Mk None None ∅)))))
       (set_envs (<[5 := set_env_pri 2 (w_env 5 0 1)]> (<[6 := set_env_pri 2 (w_env 6 0 1)]>
                   (<[7 := set_env_pri 2 (w_env 7 0 1)]> ∅))) w_kernel)).

Lemma w_three_turn : turn w_three [5; 6; 7] 5 0.
Proof.
  split; [split| | |]; try done.
  - repeat (apply TAILQ_insert_head_rep; [|rewrite ?elem_of_cons, elem_of_nil; lia]). apply TAILQ_init_rep.
  - intros e. unfold env. cbn. rewrite !lookup_insert, lookup_empty, !elem_of_cons, elem_of_nil.
    repeat case_decide; cbn; naive_solver.
Qed.

Lemma round_robin_fair_witness :
  ∃ k', ticks [tf0; tf0; tf0] w_three = Some k' ∧ curenv k' = Some 7 ∧ sched_rel k' [7; 5; 6] ∧
    sched_count k' = 1.
Proof.
  apply (round_robin_fair [6] [tf0; tf0; tf0] w_three 5 7 [] 0 w_three_turn); [done| |reflexivity].
  intros x ->%list_elem_of_singleton. vm_compute. discriminate.
Defined.
