(* ===== verification/Tlbex.v ===== *)
(** Page faults: kern/tlbex.c, the dispatch of kern/traps.c and kern/entry.S,
    and accesses of the kernel to user memory.

    The kernel reads and writes user addresses directly; a missing page then
    raises a nested fault, which [do_tlb_miss] serves and the access is
    repeated.  [user_pa] gives the physical address of such an access, the
    nested fault included. *)
From S2P Require Import Prelude Mmu Queue Memory Strings Pmap VmSteps Disk Env Sched.

Section tlbex.
Context `{LinkerSymbols}.

Definition passive_alloc (va pgdir asid : Z) : M kernel unit :=
  if va <? UTEMP then panic "address too low"
  else if (va >=? USTACKTOP) && (va <? USTACKTOP + BY2PG) then panic "invalid memory"
  else if (va >=? UENVS) && (va <? UPAGES) then panic "envs zone"
  else if (va >=? UPAGES) && (va <? UVPT) then panic "pages zone"
  else if va >=? ULIM then panic "kernel address"
  else
    p <- onp (panic_on page_alloc) ;;
    panic_on (onp (page_insert pgdir asid p (ROUNDDOWN va BY2PG)
                     (Z.lor (Z.lor PTE_R PTE_W) PTE_U))).

(** * Accesses to user memory *)

(** The nested fault of an access to an unmapped user page *)
Definition user_fault (addr : Z) (is_store : bool) : M kernel unit :=
  c <- cur ;;
  v <- get_env c ;;
  d <- gets (λ k, cur_pgdir (pm k)) ;;
  if is_store || ((addr >=? UTEMP) && (addr <? USTACKTOP))
  then passive_alloc addr d (env_asid v)
  else panic "bad addr".

(** The entry that maps [va], after the nested fault if there is one *)
Definition user_pte (va : Z) (is_store : bool) : M kernel Z :=
  d <- gets (λ k, cur_pgdir (pm k)) ;;
  r <- onp (page_lookup d va) ;;
  r <- (match r with
        | Some r => ret (Some r)
        | None => user_fault (ROUNDDOWN va BY2PG) is_store ;; onp (page_lookup d va)
        end) ;;
  match r with
  | Some (_, pte) => onp (rd pte)
  | None => fault "user_pte"
  end.

Definition user_pa (va : Z) (is_store : bool) : M kernel Z :=
  pte <- user_pte va is_store ;;
  if has pte (if is_store then PTE_W else PTE_R)
  then ret (Z.lor (PTE_ADDR pte) (Z.land va 0xFFF))
  else if is_store && has pte PTE_COW then fault "copy-on-write fault in the kernel"
  else panic "bad perm".

Definition user_load8 (va : Z) : M kernel Z :=
  a <- user_pa va false ;; onp (gets (λ s, load8 (mem s) a)).
Definition user_load (va : Z) : M kernel Z :=
  if negb (Z.land va 3 =? 0) then fault "misaligned access"
  else a <- user_pa va false ;; onp (rd a).
Definition user_store (va x : Z) : M kernel unit :=
  if negb (Z.land va 3 =? 0) then fault "misaligned access"
  else a <- user_pa va true ;; onp (wr a x).

(** The words of a [struct Trapframe], in order *)
Definition tf_words (tf : Trapframe) : list Z :=
  map (reg_of tf) (seqZ 0 32) ++ [sstatus tf; sscratch tf; scause tf; sepc tf; stval tf; sip tf].

Definition words_tf (l : list Z) : Trapframe :=
  let w i := nth i l 0 in
  MkTf (list_to_map (zip (seqZ 0 32) (take 32 l))) (w 32%nat) (w 33%nat) (w 34%nat) (w 35%nat) (w 36%nat) (w 37%nat).

(** [*(struct Trapframe * )va = tf] and the read of a whole trap frame *)
Definition user_store_tf (va : Z) (tf : Trapframe) : M kernel unit :=
  for_each (zip (seqZ 0 38) (tf_words tf)) (λ p, user_store (u32 (va + 4 * p.1)) p.2).

Fixpoint user_load_words (n : nat) (va : Z) : M kernel (list Z) :=
  match n with
  | O => ret []
  | S n' => x <- user_load va ;; l <- user_load_words n' (u32 (va + 4)) ;; ret (x :: l)
  end.

Definition user_load_tf (va : Z) : M kernel Trapframe :=
  l <- user_load_words 38 va ;; ret (words_tf l).

(** * Handlers; [tf] is the trap frame [kstack_tf] *)

Definition upd_tf (f : Trapframe → Trapframe) : M kernel unit :=
  modify (λ k, set_kstack_tf (f (kstack_tf k)) k).

Definition do_tlb_mod : M kernel unit :=
  tmp_tf <- gets kstack_tf ;;
  (if (sscratch tmp_tf <? USTACKTOP) || (sscratch tmp_tf >=? UXSTACKTOP)
   then upd_tf (set_sscratch UXSTACKTOP) else ret tt) ;;
  upd_tf (λ tf, set_sscratch (u32 (sscratch tf - SIZEOF_TRAPFRAME)) tf) ;;
  tf <- gets kstack_tf ;;
  user_store_tf (sscratch tf) tmp_tf ;;
  c <- cur ;;
  v <- get_env c ;;
  if negb (env_user_tlb_mod_entry v =? 0) then
    upd_tf (λ tf, set_reg 10 (sscratch tf) tf) ;;
    upd_tf (λ tf, set_sscratch (u32 (sscratch tf - 4)) tf) ;;
    upd_tf (set_sepc (env_user_tlb_mod_entry v))
  else panic "TLB Mod but no user handler registered".

(** The copy of the page directory that user programs read at UVPT *)
Definition pgdir_copy (kva d : Z) : M pmap unit :=
  modify (set_mem (copy_page kva d)) ;;
  for_each (seqZ 0 1024) (λ i,
    x <- rd (kva + 4 * i) ;;
    if has x PTE_V then wr (kva + 4 * i) (Z.lor x (Z.lor PTE_R PTE_U)) else ret tt) ;;
  wr (kva + 4 * PDX UVPT) (Z.lor (Z.lor (Z.lor (ADDR_PTE d) PTE_V) PTE_R) PTE_U) ;;
  wr (d + 4 * PDX UVPT) (Z.lor (ADDR_PTE kva) PTE_V).

Definition do_tlb_miss : M kernel unit :=
  tf <- gets kstack_tf ;;
  let addr := ROUNDDOWN (stval tf) BY2PG in
  d <- gets (λ k, cur_pgdir (pm k)) ;;
  r <- onp (page_lookup d addr) ;;
  match r with
  | Some (_, pte) =>
      x <- onp (rd pte) ;;
      if (scause tf =? 15) && has x PTE_COW then do_tlb_mod else panic "bad perm"
  | None =>
      c <- gets curenv ;;
      if scause tf =? 15 then
        c <- deref c ;; v <- get_env c ;; passive_alloc addr d (env_asid v)
      else if scause tf =? 13 then
        if (addr >=? UTEMP) && (addr <? USTACKTOP) then
          c <- deref c ;; v <- get_env c ;; passive_alloc addr d (env_asid v)
        else if (addr <? UVPT) || (addr >=? ULIM) then panic "bad addr"
        else
          c <- deref c ;;
          v <- get_env c ;;
          p <- (if env_pgdir_copy_pa v =? 0 then
                  p <- onp (panic_on page_alloc) ;;
                  onp (incref p) ;;
                  upd_env c (set_env_pgdir_copy_pa (page2pa p)) ;;
                  ret p
                else onp (pa2page (env_pgdir_copy_pa v))) ;;
          kva <- onp (page2kva p) ;;
          onp (pgdir_copy kva d) ;;
          let pte_idx := (addr - UVPT) / BY2PG in
          x <- onp (rd (d + 4 * pte_idx)) ;;
          if negb (has x PTE_V) then panic "not a valid pte" else ret tt
      else panic "bad addr"
  end.
End tlbex.
