(* ===== verification/Syscall.v ===== *)
(** System calls: kern/syscall_all.c, and the dispatch of traps
    (kern/entry.S, kern/genex.S, kern/traps.c).

    A call's [Z] result is the C return value; [Err e] is an early
    [return e].  The arguments are [u_int]s. *)
From S2P Require Import Prelude Mmu Queue Memory Pmap VmSteps Disk Env Sched Tlbex.

(** The value left in [a0] by a system call declared [void] *)
Class VoidResult := void_result : Z.

Section syscall.
Context `{LinkerSymbols, VoidResult}.

(** [printcharc] (kern/console.c) on a console that accepts every byte *)
Definition printcharc (c : Z) : M kernel unit := modify (λ k, set_console (console k ++ [u8 c]) k).

(** One poll of the console; 0 when nothing has arrived *)
Definition scancharc : M kernel Z :=
  l <- gets keyboard ;;
  match l with
  | [] => ret 0
  | c :: l' => modify (set_keyboard l') ;; ret c
  end.

Definition sys_putchar (c : Z) : M kernel Z := printcharc c ;; ret void_result.

Definition sys_print_cons (s num : Z) : M kernel Z :=
  if (u32 (s + num) >? UTOP) || (s >=? UTOP) || (s >? u32 (s + num)) then err (- E_INVAL)
  else
    for_each (seqZ 0 num) (λ i, c <- user_load8 (s + i) ;; printcharc c) ;;
    ret 0.

Definition sys_getenvid : M kernel Z := c <- cur ;; v <- get_env c ;; ret (env_id v).

Definition sys_yield : M kernel Z := schedule true ;; fault "schedule returned".

Definition sys_env_destroy (envid : Z) : M kernel Z :=
  p <- envid2env envid true ;;
  e <- deref p ;;
  env_destroy e ;;
  ret 0.

Definition sys_set_tlb_mod_entry (envid func : Z) : M kernel Z :=
  p <- envid2env envid true ;;
  e <- deref p ;;
  upd_env e (set_env_user_tlb_mod_entry func) ;;
  ret 0.

Definition is_illegal_va (va : Z) : bool := (va <? UTEMP) || (va >=? UTOP).

Definition is_illegal_va_range (va len : Z) : bool :=
  if len =? 0 then false
  else (u32 (va + len) <? va) || (va <? UTEMP) || (u32 (va + len) >? UTOP).

Definition assert_user_va (va : Z) : M kernel unit :=
  if is_illegal_va va then err (- E_INVAL) else ret tt.

Definition sys_mem_alloc (envid va perm : Z) : M kernel Z :=
  assert_user_va va ;;
  p <- envid2env envid true ;;
  e <- deref p ;;
  pp <- onp page_alloc ;;
  v <- get_env e ;;
  onp (page_insert (env_pgdir v) (env_asid v) pp va (Z.lor perm PTE_U)) ;;
  ret 0.

Definition sys_mem_map (srcid srcva dstid dstva perm : Z) : M kernel Z :=
  assert_user_va srcva ;;
  assert_user_va dstva ;;
  s <- envid2env srcid true ;;
  d <- envid2env dstid true ;;
  src <- deref s ;;
  sv <- get_env src ;;
  r <- onp (page_lookup (env_pgdir sv) srcva) ;;
  match r with
  | None => err (- E_INVAL)
  | Some (pp, _) =>
      dst <- deref d ;;
      dv <- get_env dst ;;
      onp (page_insert (env_pgdir dv) (env_asid dv) pp dstva (Z.lor perm PTE_U)) ;;
      ret 0
  end.

Definition sys_mem_unmap (envid va : Z) : M kernel Z :=
  assert_user_va va ;;
  p <- envid2env envid true ;;
  e <- deref p ;;
  v <- get_env e ;;
  onp (page_remove (env_pgdir v) (env_asid v) va) ;;
  ret 0.

Definition sys_exofork : M kernel Z :=
  c <- cur ;;
  cv <- get_env c ;;
  e <- env_alloc (env_id cv) ;;
  tf <- gets kstack_tf ;;
  upd_env e (set_env_tf tf) ;;
  upd_env e (λ v, set_env_tf (set_reg 10 0 (env_tf v)) v) ;;
  upd_env e (set_env_status ENV_NOT_RUNNABLE) ;;
  cv <- get_env c ;;
  upd_env e (set_env_pri (env_pri cv)) ;;
  v <- get_env e ;;
  ret (env_id v).

Definition sys_set_env_status (envid status : Z) : M kernel Z :=
  if negb (status =? ENV_RUNNABLE) && negb (status =? ENV_NOT_RUNNABLE) then err (- E_INVAL)
  else
    p <- envid2env envid true ;;
    e <- deref p ;;
    v <- get_env e ;;
    (if negb (env_status v =? status) then
       if status =? ENV_RUNNABLE then sched_insert_tail e else sched_remove e
     else ret tt) ;;
    upd_env e (set_env_status status) ;;
    ret 0.

Definition sys_set_trapframe (envid tf : Z) : M kernel Z :=
  if is_illegal_va_range tf SIZEOF_TRAPFRAME then err (- E_INVAL)
  else
    p <- envid2env envid true ;;
    c <- gets curenv ;;
    if bool_decide (p = c) then
      t <- user_load_tf tf ;;
      modify (set_kstack_tf t) ;;
      user_load (u32 (tf + 4 * 10))
    else
      e <- deref p ;;
      t <- user_load_tf tf ;;
      upd_env e (set_env_tf t) ;;
      ret 0.

Definition sys_panic : M kernel Z := panic "sys_panic".

Definition sys_ipc_recv (dstva : Z) : M kernel Z :=
  if negb (dstva =? 0) && is_illegal_va dstva then err (- E_INVAL)
  else
    c <- cur ;;
    upd_env c (set_env_ipc_recving 1) ;;
    upd_env c (set_env_ipc_dstva dstva) ;;
    upd_env c (set_env_status ENV_NOT_RUNNABLE) ;;
    sched_remove c ;;
    upd_tf (set_reg 10 0) ;;
    schedule true ;;
    fault "schedule returned".

Definition sys_ipc_try_send (envid value srcva perm : Z) : M kernel Z :=
  if negb (srcva =? 0) && is_illegal_va srcva then err (- E_INVAL)
  else
    p <- envid2env envid false ;;
    e <- deref p ;;
    v <- get_env e ;;
    if env_ipc_recving v =? 0 then err (- E_IPC_NOT_RECV)
    else
      let perm := if has perm PTE_W then Z.lor perm PTE_R else perm in
      c <- cur ;;
      cv <- get_env c ;;
      upd_env e (set_env_ipc_value value) ;;
      upd_env e (set_env_ipc_from (env_id cv)) ;;
      upd_env e (set_env_ipc_perm (Z.lor (Z.lor PTE_U PTE_V) perm)) ;;
      upd_env e (set_env_ipc_recving 0) ;;
      upd_env e (set_env_status ENV_RUNNABLE) ;;
      sched_insert_tail e ;;
      if negb (srcva =? 0) then
        r <- onp (page_lookup (env_pgdir cv) srcva) ;;
        match r with
        | None => err (- E_INVAL)
        | Some (p, _) =>
            v <- get_env e ;;
            onp (page_insert (env_pgdir v) (env_asid v) p (env_ipc_dstva v) (env_ipc_perm v)) ;;
            ret 0
        end
      else ret 0.

(** [while ((ch = scancharc()) == 0)]: [keyboard] lists the results of the
    polls to come; beyond them the kernel keeps polling. *)
Fixpoint cgetc_loop (fuel : nat) : M kernel Z :=
  match fuel with
  | O => fault "sys_cgetc: still polling"
  | S fuel' =>
      ch <- scancharc ;;
      if ch =? 0 then cgetc_loop fuel' else ret ch
  end.

Definition sys_cgetc : M kernel Z := l <- gets keyboard ;; cgetc_loop (length l).

Definition sys_dev_req (dev req : Z) : M kernel Z :=
  if negb (Z.land req 0xFFF =? 0) || is_illegal_va req then err (- E_INVAL)
  else
    d <- gets (λ k, cur_pgdir (pm k)) ;;
    pa <- onp (va2pa d req) ;;
    if pa <? 0 then err (- E_INVAL)
    else if dev =? 8 then ond (virtio_disk_req pa) ;; ret 0
    else err (- E_INVAL).

(** * Dispatch *)

Definition MAX_SYSNO := 17.

(** [syscall_table], in the order of include/syscall.h *)
Definition syscall_table (sysno a1 a2 a3 a4 a5 : Z) : M kernel Z :=
  nth (Z.to_nat sysno)
    [sys_putchar a1; sys_print_cons a1 a2; sys_getenvid; sys_yield; sys_env_destroy a1;
     sys_set_tlb_mod_entry a1 a2; sys_mem_alloc a1 a2 a3; sys_mem_map a1 a2 a3 a4 a5;
     sys_mem_unmap a1 a2; sys_exofork; sys_set_env_status a1 a2; sys_set_trapframe a1 a2;
     sys_panic; sys_ipc_try_send a1 a2 a3 a4; sys_ipc_recv a1; sys_cgetc;
     sys_dev_req (s32 a1) a2]
    (fault "syscall_table").

(** The value a call returns, errors included *)
Definition result {S} (m : M S Z) : M S Z := λ s,
  match m s with
  | Ok r s' => Ok r s'
  | Err e s' => Ok e s'
  | Panic msg => Panic msg
  | Fault w => Fault w
  | UserMode s' => UserMode s'
  end.

Definition do_syscall : M kernel unit :=
  tf <- gets kstack_tf ;;
  let sysno := s32 (reg_of tf 10) in
  if (sysno <? 0) || (sysno >=? MAX_SYSNO) then upd_tf (set_reg 10 (- E_NO_SYS))
  else
    upd_tf (λ tf, set_sepc (u32 (sepc tf + 4)) tf) ;;
    tf <- gets kstack_tf ;;
    r <- result (syscall_table sysno (reg_of tf 11) (reg_of tf 12) (reg_of tf 13)
                   (reg_of tf 14) (reg_of tf 15)) ;;
    upd_tf (set_reg 10 r).

Definition do_reserved : M kernel unit := panic "Unknown ExcCode".

(** [ret_from_exception]: the interrupted program continues. *)
Definition ret_from_exception : M kernel unit :=
  tf <- gets kstack_tf ;; modify (set_cpu tf) ;; (λ k, UserMode k).

(** [exception_handlers] of kern/traps.c *)
Definition exception_handlers (code : Z) : M kernel unit :=
  if code >=? 32 then fault "exception_handlers" else
  if code =? 7 then do_tlb_mod
  else if code =? 8 then do_syscall
  else if (code =? 12) || (code =? 13) || (code =? 15) then do_tlb_miss
  else do_reserved.

(** A trap from user mode with trap frame [tf]: [exception_entry] saves the
    registers and dispatches on [scause]. *)
Definition exception_entry (tf : Trapframe) : M kernel unit :=
  modify (set_kstack_tf tf) ;;
  if Z.testbit (scause tf) 31 then
    if scause tf =? 0x80000005 then handle_timer else do_reserved ;; ret_from_exception
  else exception_handlers (scause tf) ;; ret_from_exception.
End syscall.
