(* ===== verification/SyscallProps.v ===== *)
(** System calls: memory management, environment status, IPC and dispatch. *)
From S2P Require Import Prelude Mmu Queue Memory Pmap PmapSpec VmSteps Disk Env EnvProps Sched SchedProps.
From S2P Require Import Tlbex Syscall.
From S2P Require Import QueueProps PmapProps.

(** * Running page operations on the kernel state *)

Lemma onp_ok {A} (m : M pmap A) k a p : m (pm k) = Ok a p → onp m k = Ok a (set_pm p k).
Proof. apply (lift_ok (H := sub_pm)). Qed.

Lemma onp_err {A} (m : M pmap A) k e p : m (pm k) = Err e p → onp m k = Err e (set_pm p k).
Proof. apply (lift_err (H := sub_pm)). Qed.

Lemma set_pm_id k : set_pm (pm k) k = k.
Proof. by destruct k. Qed.

Lemma user_flags perm : 0 ≤ perm < 1024 → 0 ≤ Z.lor perm PTE_U < 1024.
Proof. intros Hp. apply (lor_bound _ _ 10); [lia|done|done]. Qed.

Lemma legal_va va : is_illegal_va va = false → 0 ≤ va < UTOP.
Proof.
  unfold is_illegal_va. intros [H1 H2]%orb_false_iff. apply Z.ltb_ge in H1.
  rewrite Z.geb_leb in H2. apply Z.leb_gt in H2. unfold UTEMP, UCOW, UTEXT, PDMAP, BY2PG in H1. lia.
Qed.

Lemma assert_user_va_ok va k : is_illegal_va va = false → assert_user_va va k = Ok tt k.
Proof. unfold assert_user_va. by intros ->. Qed.

(** The address space of environment [e] *)
Definition space (k : kernel) (A : vm) (e d : Z) : Prop :=
  env_pgdir (env k e) = page2pa d ∧ d ∈ dirs A.

Section syscall.
Context `{LinkerSymbols, VoidResult}.

(** Mapping a page into the address space of [e] *)
Lemma insert_ok k A e d pp va perm :
  rel (pm k) A → space k A e d → 0 ≤ va < UTOP → insertable (pm k) A pp perm →
  match spec_insert A d (VPN va) pp perm with
  | Some A' => ∃ p, onp (page_insert (env_pgdir (env k e)) (env_asid (env k e)) pp va perm) k =
                 Ok tt (set_pm p k) ∧ rel p A' ∧ data_kept A' (mem (pm k)) (mem p) ∧
                 cur_pgdir p = cur_pgdir (pm k)
  | None => onp (page_insert (env_pgdir (env k e)) (env_asid (env k e)) pp va perm) k = Err (- E_NO_MEM) k
  end.
Proof.
  intros Hrel [Hpd Hd] Hva Hins. rewrite Hpd.
  pose proof (page_insert_ok (pm k) A d va (env_asid (env k e)) pp perm Hrel Hd Hva Hins) as Hok.
  destruct (spec_insert A d (VPN va) pp perm) as [A'|].
  - destruct Hok as (p & E & Hr & _ & Hc & Hk). exists p. split; [by apply onp_ok|done].
  - rewrite (onp_err _ _ _ _ Hok). by rewrite set_pm_id.
Qed.

(** A page fresh from the allocator can be mapped. *)
Lemma fresh_insertable s A p fl l' perm :
  rel s A → free A = p :: fl → LIST_rep l' fl → 0 ≤ perm < 1024 →
  insertable (set_mem (clear_page (page2pa p)) (set_free l' s)) (set_vfree fl A) p perm.
Proof.
  intros Hrel Hf Hl Hp. assert (Hin : p ∈ free A) by (rewrite Hf; apply list_elem_of_here).
  destruct (free_page s A Hrel p Hin) as [Hr _].
  split; cbn; try done.
  - pose proof (proj2 (proj2 (rel_free _ _ Hrel))) as Hn. rewrite Hf in Hn. by apply NoDup_cons in Hn as [].
  - by apply (free_not_tab s A Hrel).
  - change (ref s p < 2 ^ 16 - 1). rewrite (rr_free _ _ (rel_refs _ _ Hrel) p Hin). lia.
Qed.

(** It reads as zero wherever it is mapped, as long as it holds data. *)
Lemma fresh_zero s A d v p m m' f :
  rel s A → maps A !! (d, v) = Some (p, f) → p ∉ dirs A →
  data_kept A (clear_page (page2pa p) m) m' →
  ∀ j, 0 ≤ j < 1024 → load m' (page2pa p + 4 * j) = 0.
Proof.
  intros Hrel Hm Hd Hk j Hj. pose proof (np_limit s A Hrel).
  destruct (mapped_page s A Hrel d v p f Hm) as (Hp & Ht & _).
  rewrite (Hk p j) by (done || lia). by rewrite load_clear_page, decide_True by (done || lia).
Qed.

Lemma sys_mem_alloc_ok k A envid e d va perm :
  rel (pm k) A → is_illegal_va va = false → envid2env envid true k = Ok (Some e) k →
  space k A e d → 0 ≤ perm < 1024 →
  match free A with
  | [] => sys_mem_alloc envid va perm k = Err (- E_NO_MEM) k
  | p :: fl =>
      match spec_insert (set_vfree fl A) d (VPN va) p (Z.lor perm PTE_U) with
      | Some A' => ∃ p', sys_mem_alloc envid va perm k = Ok 0 (set_pm p' k) ∧ rel p' A' ∧
                     data_kept A' (clear_page (page2pa p) (mem (pm k))) (mem p') ∧
                     cur_pgdir p' = cur_pgdir (pm k)
      | None => ∃ p', sys_mem_alloc envid va perm k = Err (- E_NO_MEM) (set_pm p' k) ∧
                  rel p' (set_vfree fl A) ∧ mem p' = clear_page (page2pa p) (mem (pm k)) ∧
                  cur_pgdir p' = cur_pgdir (pm k)
      end
  end.
Proof.
  intros Hrel Hva Hid Hsp Hperm. unfold sys_mem_alloc. run (assert_user_va_ok va k Hva).
  rewrite (bind_ok _ _ _ _ _ Hid). step. destruct (free A) as [|p fl] eqn:Hf.
  - pose proof (onp_err _ k _ _ (page_alloc_empty (pm k) A Hrel Hf)) as E. rewrite set_pm_id in E.
    by rewrite (bind_err _ _ _ _ _ E).
  - destruct (page_alloc_eq (pm k) A Hrel p fl Hf) as (l' & E & Hl).
    rewrite (bind_ok _ _ _ _ _ (onp_ok _ k _ _ E)). step.
    set (k1 := set_pm _ k).
    assert (Hsp1 : space k1 (set_vfree fl A) e d) by done.
    pose proof (rel_alloc (pm k) A Hrel p fl l' Hf Hl) as Hrel1.
    pose proof (fresh_insertable (pm k) A p fl l' _ Hrel Hf Hl (user_flags perm Hperm)) as Hins.
    pose proof (insert_ok k1 _ e d p va _ Hrel1 Hsp1 (legal_va va Hva) Hins) as Hok.
    destruct (spec_insert (set_vfree fl A) d (VPN va) p (Z.lor perm PTE_U)) as [A'|].
    + destruct Hok as (p' & E' & Hr & Hk & Hc). rewrite (bind_ok _ _ _ _ _ E'). by exists p'.
    + rewrite (bind_err _ _ _ _ _ Hok). by eexists.
Qed.

Lemma lookup_ok k A e d va :
  rel (pm k) A → space k A e d → 0 ≤ va < UTOP →
  ∃ r, onp (page_lookup (env_pgdir (env k e)) va) k = Ok r k ∧ fst <$> r = fst <$> maps A !! (d, VPN va).
Proof.
  intros Hrel [Hpd Hd] Hva. rewrite Hpd.
  pose proof (onp_ok _ k _ _ (page_lookup_ok (pm k) A Hrel d va Hd Hva)) as E. rewrite set_pm_id in E.
  eexists. split; [exact E|]. destruct (maps A !! (d, VPN va)) as [[p f]|] eqn:Hm; [|done].
  destruct (wf_map _ _ (rel_wf _ _ Hrel) _ _ _ _ Hm) as (_ & [t Ht] & _).
  destruct (vpn_range d va Hva) as (_ & _ & Hvi & _). rewrite Hvi in Ht. by rewrite Ht.
Qed.

Lemma mapped_insertable k A d v p f perm :
  rel (pm k) A → maps A !! (d, v) = Some (p, f) → ref (pm k) p < 2 ^ 16 - 1 → 0 ≤ perm < 1024 →
  insertable (pm k) A p perm.
Proof.
  intros Hrel Hm Hr Hp. destruct (mapped_page (pm k) A Hrel d v p f Hm) as (H1 & H2 & H3 & _).
  by split.
Qed.

Lemma sys_mem_map_ok k A srcid src ds srcva dstid dst dd dstva perm :
  rel (pm k) A → is_illegal_va srcva = false → is_illegal_va dstva = false →
  envid2env srcid true k = Ok (Some src) k → envid2env dstid true k = Ok (Some dst) k →
  space k A src ds → space k A dst dd → 0 ≤ perm < 1024 →
  match maps A !! (ds, VPN srcva) with
  | None => sys_mem_map srcid srcva dstid dstva perm k = Err (- E_INVAL) k
  | Some (p, _) =>
      ref (pm k) p < 2 ^ 16 - 1 →
      match spec_insert A dd (VPN dstva) p (Z.lor perm PTE_U) with
      | Some A' => ∃ p', sys_mem_map srcid srcva dstid dstva perm k = Ok 0 (set_pm p' k) ∧ rel p' A' ∧
                     data_kept A' (mem (pm k)) (mem p') ∧ cur_pgdir p' = cur_pgdir (pm k)
      | None => sys_mem_map srcid srcva dstid dstva perm k = Err (- E_NO_MEM) k
      end
  end.
Proof.
  intros Hrel Hs Hd Es Ed Hss Hsd Hperm. unfold sys_mem_map.
  run (assert_user_va_ok srcva k Hs). run (assert_user_va_ok dstva k Hd).
  rewrite (bind_ok _ _ _ _ _ Es), (bind_ok _ _ _ _ _ Ed). do 2 step.
  destruct (lookup_ok k A src ds srcva Hrel Hss (legal_va _ Hs)) as (r & E & Hr).
  rewrite (bind_ok _ _ _ _ _ E). destruct (maps A !! (ds, VPN srcva)) as [[p f]|] eqn:Hm.
  - destruct r as [[q pte]|]; cbn in Hr; [|done]. injection Hr as ->. intros Href. do 2 step.
    pose proof (mapped_insertable k A ds _ p f _ Hrel Hm Href (user_flags perm Hperm)) as Hins.
    pose proof (insert_ok k A dst dd p dstva _ Hrel Hsd (legal_va _ Hd) Hins) as Hok.
    destruct (spec_insert A dd (VPN dstva) p (Z.lor perm PTE_U)) as [A'|].
    + destruct Hok as (p' & E' & Hr' & Hk' & Hc'). rewrite (bind_ok _ _ _ _ _ E'). by exists p'.
    + by rewrite (bind_err _ _ _ _ _ Hok).
  - destruct r as [[q pte]|]; [done|]. done.
Qed.

Lemma sys_mem_unmap_ok k A envid e d va :
  rel (pm k) A → is_illegal_va va = false → envid2env envid true k = Ok (Some e) k → space k A e d →
  ∃ p', sys_mem_unmap envid va k = Ok 0 (set_pm p' k) ∧ rel p' (spec_remove A d (VPN va)) ∧
    cur_pgdir p' = cur_pgdir (pm k) ∧ data_kept (spec_remove A d (VPN va)) (mem (pm k)) (mem p').
Proof.
  intros Hrel Hva Hid [Hpd Hd]. unfold sys_mem_unmap. run (assert_user_va_ok va k Hva).
  rewrite (bind_ok _ _ _ _ _ Hid). do 2 step. rewrite Hpd.
  destruct (page_remove_ok (pm k) A d va (env_asid (env k e)) Hrel Hd (legal_va _ Hva)) as (p' & E & Hr & _ & Hcp & Hk).
  rewrite (bind_ok _ _ _ _ _ (onp_ok _ k _ _ E)). by exists p'.
Qed.

(** * Environment status *)

Lemma upd_env_ok e f k : upd_env e f k = Ok tt (set_envs (<[e := f (env k e)]> (envs k)) k).
Proof. reflexivity. Qed.

Lemma sched_rel_blocked k l e : sched_rel k l → env_status (env k e) ≠ ENV_RUNNABLE → e ∉ l.
Proof. intros Hr Hs He. apply Hs. by apply Hr. Qed.

Lemma del_elem c l x : NoDup l → x ∈ del c l ↔ x ∈ l ∧ x ≠ c.
Proof.
  intros Hnd. destruct (decide (c ∈ l)) as [Hc|Hc].
  - destruct (split_first c l Hc) as (l1 & l2 & -> & H1). rewrite del_app by done.
    apply NoDup_app in Hnd as (_ & _ & Hnd). apply NoDup_cons in Hnd as [H2 _].
    rewrite !elem_of_app, elem_of_cons. naive_solver.
  - assert (del c l = l) as ->; [|naive_solver]. clear Hnd. induction l as [|y l IH]; cbn; [done|].
    rewrite decide_False by set_solver. f_equal. apply IH. set_solver.
Qed.

(** The queue after a change of status *)
Definition status_queue (l : list Z) (e old new : Z) : list Z :=
  if old =? new then l else if new =? ENV_RUNNABLE then l ++ [e] else del e l.

Lemma sys_set_env_status_ok k l envid e status :
  sched_rel k l → status = ENV_RUNNABLE ∨ status = ENV_NOT_RUNNABLE →
  envid2env envid true k = Ok (Some e) k →
  env_status (env k e) = ENV_RUNNABLE ∨ env_status (env k e) = ENV_NOT_RUNNABLE →
  ∃ k', sys_set_env_status envid status k = Ok 0 k' ∧
    sched_rel k' (status_queue l e (env_status (env k e)) status) ∧
    (∀ x, env k' x = if decide (e = x) then set_env_status status (env k e) else env k x) ∧
    pm k' = pm k ∧ curenv k' = curenv k.
Proof.
  intros Hrel Hst Hid Hold. unfold sys_set_env_status.
  assert (negb (status =? ENV_RUNNABLE) && negb (status =? ENV_NOT_RUNNABLE) = false) as ->.
  { by destruct Hst as [-> | ->]. }
  rewrite (bind_ok _ _ _ _ _ Hid). do 2 step. unfold status_queue.
  pose proof Hrel as [Hq Hs]. pose proof (proj2 (proj2 (proj2 Hq))) as Hnd.
  assert (Hfin : ∀ k1 l', envs k1 = envs k → pm k1 = pm k → curenv k1 = curenv k → TAILQ_rep (env_sched_list k1) l' →
    (∀ x, x ∈ l' ↔ (if decide (e = x) then status = ENV_RUNNABLE else x ∈ l)) →
    ∃ k', (upd_env e (set_env_status status) ;; ret 0) k1 = Ok 0 k' ∧ sched_rel k' l' ∧
      (∀ x, env k' x = if decide (e = x) then set_env_status status (env k e) else env k x) ∧
      pm k' = pm k ∧ curenv k' = curenv k).
  { intros k1 l' Hen Hpm Hcu Hq' Hin. rewrite (bind_ok _ _ _ _ _ (upd_env_ok _ _ _)).
    assert (Henv : ∀ x, env k1 x = env k x) by (intros x; unfold env; by rewrite Hen).
    eexists. split; [reflexivity|]. split; [split; [done|]|split; [|done]].
    - intros x. rewrite env_upd, Hin. case_decide; cbn; [done|]. rewrite Henv. apply Hs.
    - intros x. rewrite env_upd, !Henv. done. }
  destruct (Z.eqb_spec (env_status (env k e)) status) as [E|E]; cbn [negb].
  - rewrite bind_ret. apply Hfin; [done|done|done|done|]. intros x. case_decide; [|done]. subst x.
    by rewrite Hs, E.
  - destruct Hst as [-> | ->]; cbn [Z.eqb ENV_RUNNABLE ENV_NOT_RUNNABLE Pos.eqb].
    + pose proof (sched_rel_blocked k l e Hrel E) as He.
      destruct (sched_insert_tail_ok k l e Hq He) as (q & Eq & Hq').
      rewrite (bind_ok _ _ _ _ _ Eq). apply Hfin; [done|done|done|done|].
      intros x. rewrite elem_of_app, elem_of_cons, elem_of_nil. case_decide; naive_solver.
    + assert (He : e ∈ l) by (apply Hs; destruct Hold; [done|congruence]).
      destruct (split_first e l He) as (l1 & l2 & -> & H1).
      destruct (sched_remove_ok k l1 e l2 Hq) as (q & Eq & Hq').
      rewrite (bind_ok _ _ _ _ _ Eq). apply Hfin; [done|done|done|by rewrite del_app|].
      intros x. rewrite del_elem by done. case_decide; naive_solver.
Qed.

(** * IPC *)

(** Two updates of one environment are one. *)
Lemma upd_env_twice {A} e f g (K : unit → M kernel A) k :
  bind (upd_env e f) (λ _, bind (upd_env e g) K) k = bind (upd_env e (λ v, g (f v))) K k.
Proof.
  rewrite !(bind_ok _ _ _ _ _ (upd_env_ok e _ _)). f_equal. rewrite env_upd, decide_True by done.
  cbn. unfold set_envs. cbn. by rewrite insert_insert_eq.
Qed.

(** A blocked receiver after a message has been delivered to it *)
Definition delivered (value from perm : Z) (v : Env) : Env :=
  set_env_status ENV_RUNNABLE (set_env_ipc_recving 0
    (set_env_ipc_perm (Z.lor (Z.lor PTE_U PTE_V) (if has perm PTE_W then Z.lor perm PTE_R else perm))
      (set_env_ipc_from from (set_env_ipc_value value v)))).

Definition woken (k : kernel) (q : TAILQ.t) (e value from perm : Z) : kernel :=
  set_env_sched_list q (set_envs (<[e := delivered value from perm (env k e)]> (envs k)) k).

Lemma woken_env k q e value from perm x :
  env (woken k q e value from perm) x =
    if decide (e = x) then delivered value from perm (env k e) else env k x.
Proof. exact (env_upd k e (delivered value from perm) x). Qed.

Lemma woken_sched k l q e value from perm :
  sched_rel k l → env_status (env k e) ≠ ENV_RUNNABLE → TAILQ_rep q (l ++ [e]) →
  sched_rel (woken k q e value from perm) (l ++ [e]).
Proof.
  intros [Hq Hs] Hne Hq'. split; [done|]. intros x.
  rewrite woken_env, elem_of_app, elem_of_cons, elem_of_nil. case_decide; cbn; [naive_solver|].
  rewrite Hs. naive_solver.
Qed.

Lemma ipc_perm_bound perm : 0 ≤ perm < 1024 →
  0 ≤ Z.lor (Z.lor PTE_U PTE_V) (if has perm PTE_W then Z.lor perm PTE_R else perm) < 1024.
Proof.
  intros Hp. apply (lor_bound _ _ 10); [lia|done|]. case_match; [|done].
  apply (lor_bound _ _ 10); [lia|done|done].
Qed.

(** Delivery: every branch after the checks *)
Lemma sys_ipc_try_send_ok k l A envid e c dc de value srcva perm :
  sched_rel k l → rel (pm k) A → curenv k = Some c → envid2env envid false k = Ok (Some e) k →
  env_ipc_recving (env k e) ≠ 0 → env_status (env k e) ≠ ENV_RUNNABLE →
  space k A c dc → space k A e de → srcva = 0 ∨ is_illegal_va srcva = false →
  0 ≤ env_ipc_dstva (env k e) < UTOP → 0 ≤ perm < 1024 →
  ∃ q, TAILQ_rep q (l ++ [e]) ∧ let k1 := woken k q e value (env_id (env k c)) perm in
    if srcva =? 0 then sys_ipc_try_send envid value srcva perm k = Ok 0 k1
    else
      match maps A !! (dc, VPN srcva) with
      | None => sys_ipc_try_send envid value srcva perm k = Err (- E_INVAL) k1
      | Some (p, _) =>
          ref (pm k) p < 2 ^ 16 - 1 →
          match spec_insert A de (VPN (env_ipc_dstva (env k e))) p (env_ipc_perm (env k1 e)) with
          | Some A' => ∃ p', sys_ipc_try_send envid value srcva perm k = Ok 0 (set_pm p' k1) ∧ rel p' A'
          | None => sys_ipc_try_send envid value srcva perm k = Err (- E_NO_MEM) k1
          end
      end.
Proof.
  intros Hs Hrel Hc Hid Hrecv Hblk Hsc Hse Hsrc Hdst Hperm.
  destruct (sched_insert_tail_ok
    (set_envs (<[e := delivered value (env_id (env k c)) perm (env k e)]> (envs k)) k) l e)
    as (q & Eq & Hq); [apply Hs|by apply (sched_rel_blocked k)|].
  exists q. split; [done|]. intros k1. unfold sys_ipc_try_send.
  assert (negb (srcva =? 0) && is_illegal_va srcva = false) as ->.
  { destruct Hsrc as [->| ->]; [done|apply andb_false_r]. }
  rewrite (bind_ok _ _ _ _ _ Hid). do 2 step. rewrite (proj2 (Z.eqb_neq _ 0) Hrecv).
  rewrite (bind_ok cur _ c k k) by (unfold cur, bind, gets; by rewrite Hc). step.
  rewrite !upd_env_twice. rewrite (bind_ok _ _ _ _ _ (upd_env_ok _ _ _)).
  rewrite (bind_ok _ _ _ _ _ Eq). change (set_env_sched_list q _) with k1.
  destruct (Z.eqb_spec srcva 0) as [->|Hne]; cbn [negb]; [done|].
  destruct Hsrc as [|Hsrc]; [done|].
  assert (Hsc1 : space k1 A c dc).
  { split; [|apply Hsc]. unfold k1. rewrite woken_env. case_decide; [subst e; cbn|]; apply Hsc. }
  assert (Hse1 : space k1 A e de).
  { split; [|apply Hse]. unfold k1. rewrite woken_env, decide_True by done. apply Hse. }
  destruct (lookup_ok k1 A c dc srcva Hrel Hsc1 (legal_va _ Hsrc)) as (r & E & Hr).
  assert (Hpg : env_pgdir (env k1 c) = env_pgdir (env k c)).
  { unfold k1. rewrite woken_env. by case_decide; [subst e|]. }
  rewrite Hpg in E. rewrite (bind_ok _ _ _ _ _ E).
  destruct (maps A !! (dc, VPN srcva)) as [[p f]|] eqn:Hm.
  - destruct r as [[p0 pte]|]; cbn in Hr; [|done]. injection Hr as ->. intros Href. step.
    assert (He1 : env k1 e = delivered value (env_id (env k c)) perm (env k e)).
    { unfold k1. by rewrite woken_env, decide_True. }
    assert (Hb : 0 ≤ env_ipc_perm (env k1 e) < 1024) by (rewrite He1; by apply ipc_perm_bound).
    pose proof (mapped_insertable k1 A dc _ p f _ Hrel Hm Href Hb) as Hins.
    assert (Hd1 : env_ipc_dstva (env k1 e) = env_ipc_dstva (env k e)) by (by rewrite He1).
    rewrite <- Hd1 in *.
    pose proof (insert_ok k1 A e de p (env_ipc_dstva (env k1 e)) _ Hrel Hse1 Hdst Hins) as Hok.
    destruct (spec_insert A de _ p _) as [A'|].
    + destruct Hok as (p' & E' & Hr' & _). rewrite (bind_ok _ _ _ _ _ E'). by exists p'.
    + by rewrite (bind_err _ _ _ _ _ Hok).
  - destruct r as [[p0 pte]|]; done.
Qed.

(** Blocking in [sys_ipc_recv] *)
Definition blocked (dstva : Z) (v : Env) : Env :=
  set_env_status ENV_NOT_RUNNABLE (set_env_ipc_dstva dstva (set_env_ipc_recving 1 v)).

Lemma sys_ipc_recv_ok k l c dstva d :
  sched_rel k l → curenv k = Some c → c ∈ l → dstva = 0 ∨ is_illegal_va dstva = false →
  virtio_disk_intr (disk k) = Ok tt d →
  match del c l with
  | [] => sys_ipc_recv dstva k = Panic "schedule: no runnable envs"
  | e :: _ =>
      ∃ k', sys_ipc_recv dstva k = UserMode k' ∧ sched_rel k' (del c l) ∧ curenv k' = Some e ∧
        (∃ r, env k' c = set_env_tf (set_reg 10 0 (kstack_tf k)) (set_env_runs r (blocked dstva (env k c)))) ∧
        cpu k' = env_tf (env k e) ∧ mem (pm k') = mem (pm k)
  end.
Proof.
  intros Hrel Hc Hin Hva Hd. unfold sys_ipc_recv.
  assert (negb (dstva =? 0) && is_illegal_va dstva = false) as ->.
  { destruct Hva as [->| ->]; [done|apply andb_false_r]. }
  rewrite (bind_ok cur _ c k k) by (unfold cur, bind, gets; by rewrite Hc).
  rewrite !upd_env_twice. rewrite (bind_ok _ _ _ _ _ (upd_env_ok _ _ _)).
  set (k1 := set_envs _ k). pose proof Hrel as [Hq Hs]. pose proof (proj2 (proj2 (proj2 Hq))) as Hnd.
  destruct (split_first c l Hin) as (l1 & l2 & E & H1). rewrite E in Hq.
  destruct (sched_remove_ok k1 l1 c l2 Hq) as (q & Eq & Hq').
  rewrite (bind_ok _ _ _ _ _ Eq). step.
  set (k2 := set_kstack_tf _ _).
  assert (Hk2 : ∀ x, env k2 x = if decide (c = x) then blocked dstva (env k c) else env k x).
  { intros x. exact (env_upd k c (blocked dstva) x). }
  assert (Hdel : del c l = l1 ++ l2) by (rewrite E; by apply del_app).
  assert (Hrel2 : sched_rel k2 (del c l)).
  { split; [by rewrite Hdel|]. intros x. rewrite Hk2, (del_elem c l x Hnd), Hs.
    case_decide; cbn; naive_solver. }
  pose proof (schedule_ok k2 (del c l) d true Hrel2 Hd) as Hsch.
  change (curenv k2) with (curenv k) in Hsch. rewrite Hc in Hsch. unfold sched_pick in Hsch. cbn [orb] in Hsch.
  rewrite bool_decide_false in Hsch by (rewrite del_elem by done; tauto).
  destruct (del c l) as [|e l'] eqn:El.
  - by rewrite (bind_panic _ _ _ _ Hsch).
  - destruct Hsch as (q' & k' & E' & Hq'' & En). exists k'.
    assert (Hne : c ≠ e).
    { intros ->. assert (e ∈ del e l) as Hx by (rewrite El; apply list_elem_of_here). by apply del_elem in Hx as [_ ?]. }
    split_and!.
    + unfold bind. by rewrite E'.
    + by apply (entered_sched_rel k2 d q' (pri_of k2 e - 1) k' (e :: l') (e :: l') e).
    + apply En.
    + destruct (en_frame _ _ _ En c) as (tf & r & Hf). exists r.
      pose proof (en_saved _ _ _ En c Hc) as Hsv. rewrite Hf in Hsv. cbn in Hsv. rewrite Hf, Hsv.
      change (env (sched_state _ _ _ _) c) with (env k2 c). rewrite Hk2, decide_True by done. done.
    + rewrite (en_cpu _ _ _ En). change (curenv (sched_state _ _ _ _)) with (curenv k).
      rewrite decide_False by congruence. change (env (sched_state _ _ _ _) e) with (env k2 e).
      by rewrite Hk2, decide_False.
    + by rewrite (en_mem _ _ _ En).
Qed.
End syscall.

(** * Properties *)

#[export] Instance w_void : VoidResult := 0.

(** Environments 5 and 6 share the address space of [w_mapped], where page 5
    is mapped at UTEXT; 6 is a child of 5, which runs. *)
Definition w_sys : kernel :=
  set_pm w_mapped
    (set_envs (<[5 := set_env_pgdir (page2pa 0) (w_env 2053 0 ENV_RUNNABLE)]>
                (<[6 := set_env_pgdir (page2pa 0) (w_env 4102 2053 ENV_NOT_RUNNABLE)]> ∅)) w_kernel).

Lemma w_space5 : space w_sys w_mapped_vm 5 0.
Proof. split; [reflexivity|exact w_dir]. Qed.

Lemma w_space6 : space w_sys w_mapped_vm 6 0.
Proof. split; [reflexivity|exact w_dir]. Qed.

Lemma w_sys_sched : sched_rel w_sys [5].
Proof.
  split; [apply w_kernel_sched|]. intros e. unfold env. cbn.
  rewrite !lookup_insert, lookup_empty, elem_of_cons, elem_of_nil. repeat case_decide; cbn; naive_solver.
Qed.

Lemma spec_insert_maps A d v p perm A' :
  spec_insert A d v p perm = Some A' →
  maps A' !! (d, v) = Some (p, perm_flags perm) ∧ dirs A' = dirs A ∧
  (∀ d' v', (d', v') ≠ (d, v) → maps A' !! (d', v') = maps A !! (d', v')).
Proof.
  unfold spec_insert. set (B := match maps A !! (d, v) with Some _ => _ | None => A end).
  assert (dirs B = dirs A ∧ ∀ d' v', (d', v') ≠ (d, v) → maps B !! (d', v') = maps A !! (d', v')) as [Hd Hm].
  { unfold B. destruct (maps A !! (d, v)) as [[q f]|]; [|done]. case_decide; [done|].
    destruct (spec_remove_frame A d v) as (E & _ & _ & Em). split; [done|].
    intros d' v' Hne. by rewrite Em, lookup_delete_ne by congruence. }
  clearbody B. unfold spec_table. destruct (tabs B !! _); [|destruct (free B); [done|]];
    cbn; intros [= <-]; cbn; rewrite lookup_insert_eq; split_and!; try done;
    intros; rewrite lookup_insert_ne by congruence; auto.
Qed.

Lemma insert_frame A d v p perm A' : spec_insert A d v p perm = Some A' →
  dirs A' = dirs A ∧ (∀ t, is_tab A t → is_tab A' t).
Proof.
  intros E. destruct (spec_insert_maps _ _ _ _ _ _ E) as (_ & Hd & _). split; [done|].
  intros t [k Hk]. revert E. unfold spec_insert.
  set (B := match maps A !! (d, v) with Some _ => _ | None => A end).
  assert (Hb : tabs B !! k = Some t).
  { unfold B. destruct (maps A !! (d, v)) as [[q f]|]; [|done]. case_decide; [done|].
    by destruct (spec_remove_frame A d v) as (_ & -> & _). }
  clearbody B. unfold spec_table. destruct (tabs B !! (d, v / 1024)) as [t1|] eqn:Ht1; cbn; [intros [= <-]; by exists k|].
  destruct (free B); cbn; [done|]. intros [= <-]. exists k. cbn. rewrite lookup_insert_ne; [done|congruence].
Qed.

(** [sys_mem_alloc] maps a fresh page of the free list, with PTE_U added,
    at a legal address of an environment the caller controls, replacing what
    was mapped there; the page reads as zero and no other data is written.
    Without memory it returns -E_NO_MEM, and when only the page table cannot
    be allocated the page taken stays off the free list. *)
Theorem sys_mem_alloc_spec `{LinkerSymbols, VoidResult} k A envid e d va perm :
  rel (pm k) A → is_illegal_va va = false → envid2env envid true k = Ok (Some e) k →
  space k A e d → 0 ≤ perm < 1024 →
  match free A with
  | [] => sys_mem_alloc envid va perm k = Err (- E_NO_MEM) k
  | p :: fl =>
      match spec_insert (set_vfree fl A) d (VPN va) p (Z.lor perm PTE_U) with
      | Some A' => ∃ p', sys_mem_alloc envid va perm k = Ok 0 (set_pm p' k) ∧ rel p' A' ∧
                     maps A' !! (d, VPN va) = Some (p, perm_flags (Z.lor perm PTE_U)) ∧
                     (∀ j, 0 ≤ j < 1024 → load (mem p') (page2pa p + 4 * j) = 0) ∧
                     data_kept A' (clear_page (page2pa p) (mem (pm k))) (mem p')
      | None => ∃ p', sys_mem_alloc envid va perm k = Err (- E_NO_MEM) (set_pm p' k) ∧
                  rel p' (set_vfree fl A)
      end
  end.
Proof.
  intros Hrel Hva Hid Hsp Hperm. pose proof (sys_mem_alloc_ok k A envid e d va perm Hrel Hva Hid Hsp Hperm) as Hok.
  destruct (free A) as [|p fl] eqn:Hf; [done|]. destruct (spec_insert _ _ _ _ _) as [A'|] eqn:Ei;
    [|destruct Hok as (p' & ? & ? & _); by exists p'].
  destruct Hok as (p' & E & Hr & Hk & _). destruct (spec_insert_maps _ _ _ _ _ _ Ei) as (Hm & Hd & _).
  exists p'. split_and!; try done. eapply fresh_zero; [done|done| |done].
  rewrite Hd. apply (free_not_dir (pm k) A Hrel). rewrite Hf. apply list_elem_of_here.
Qed.

Lemma sys_mem_alloc_spec_witness :
  ∃ p' A', sys_mem_alloc 4102 (UTEXT + BY2PG) PTE_W w_sys = Ok 0 (set_pm p' w_sys) ∧ rel p' A'.
Proof.
  pose proof (sys_mem_alloc_spec w_sys w_mapped_vm 4102 6 0 (UTEXT + BY2PG) PTE_W
    w_mapped_rel eq_refl eq_refl w_space6 ltac:(done)) as Hs.
  cbn [free] in Hs.
  destruct Hs as (p' & E & Hr & _). exists p'. eexists. split; [exact E|exact Hr].
Defined.




(** [sys_mem_unmap] removes exactly the mapping at a legal address of an
    environment the caller controls, freeing the page with its last reference;
    removing what is not mapped succeeds and changes nothing abstractly. The
    contents of every page still mapped somewhere are kept. *)
Theorem sys_mem_unmap_spec `{LinkerSymbols, VoidResult} k A envid e d va :
  rel (pm k) A → is_illegal_va va = false → envid2env envid true k = Ok (Some e) k → space k A e d →
  ∃ p', sys_mem_unmap envid va k = Ok 0 (set_pm p' k) ∧ rel p' (spec_remove A d (VPN va)) ∧
    data_kept (spec_remove A d (VPN va)) (mem (pm k)) (mem p') ∧
    (maps A !! (d, VPN va) = None → spec_remove A d (VPN va) = A).
Proof.
  intros Hrel Hva Hid Hsp.
  destruct (sys_mem_unmap_ok k A envid e d va Hrel Hva Hid Hsp) as (p' & E & Hr & _ & Hk).
  exists p'. split_and!; [done|done|done|]. apply spec_remove_none.
Qed.

Lemma sys_mem_unmap_spec_witness :
  ∃ p', sys_mem_unmap 4102 UTEXT w_sys = Ok 0 (set_pm p' w_sys) ∧
    rel p' (spec_remove w_mapped_vm 0 (VPN UTEXT)).
Proof.
  destruct (sys_mem_unmap_spec w_sys w_mapped_vm 4102 6 0 UTEXT w_mapped_rel eq_refl eq_refl w_space6)
    as (p' & E & Hr & _).
  exists p'. split; [exact E|exact Hr].
Defined.

(** C15. Setting a status keeps the queue equal to the set of runnable
    environments: an environment made runnable goes to the tail, one made not
    runnable leaves the queue, and an unchanged status changes nothing. *)
Theorem sys_set_env_status_invariant `{LinkerSymbols, VoidResult} k l envid e status :
  sched_rel k l → status = ENV_RUNNABLE ∨ status = ENV_NOT_RUNNABLE →
  envid2env envid true k = Ok (Some e) k →
  env_status (env k e) = ENV_RUNNABLE ∨ env_status (env k e) = ENV_NOT_RUNNABLE →
  ∃ k', sys_set_env_status envid status k = Ok 0 k' ∧
    sched_rel k' (status_queue l e (env_status (env k e)) status) ∧
    (∀ x, env k' x = if decide (e = x) then set_env_status status (env k e) else env k x) ∧
    pm k' = pm k ∧ curenv k' = curenv k.
Proof. apply sys_set_env_status_ok. Qed.

Lemma sys_set_env_status_invariant_witness :
  ∃ k', sys_set_env_status 4102 ENV_RUNNABLE w_sys = Ok 0 k' ∧ sched_rel k' [5; 6].
Proof.
  destruct (sys_set_env_status_invariant w_sys [5] 4102 6 ENV_RUNNABLE w_sys_sched)
    as (k' & E & Hr & _); [by left|reflexivity|by right|].
  exists k'. split; [exact E|exact Hr].
Defined.

(** C16. IPC rendezvous: when [c] waits in [sys_ipc_recv], it leaves the queue
    and the next runnable environment [e] runs; a value [e] then sends arrives
    unchanged in [c] with [e]'s id, [c] becomes runnable at the tail of the
    queue, no longer waits, and will return 0 from its call. *)
Theorem ipc_rendezvous `{LinkerSymbols, VoidResult} k l c e l' dstva d envid tf value perm :
  sched_rel k l → curenv k = Some c → c ∈ l → del c l = e :: l' →
  dstva = 0 ∨ is_illegal_va dstva = false → virtio_disk_intr (disk k) = Ok tt d →
  envid ≠ 0 → ENVX envid = c → env_id (env k c) = envid →
  ∃ k1 k2, sys_ipc_recv dstva k = UserMode k1 ∧ curenv k1 = Some e ∧ sched_rel k1 (e :: l') ∧
    sys_ipc_try_send envid value 0 perm (set_kstack_tf tf k1) = Ok 0 k2 ∧
    sched_rel k2 (e :: l' ++ [c]) ∧
    env_ipc_value (env k2 c) = value ∧ env_ipc_from (env k2 c) = env_id (env k1 e) ∧
    env_ipc_recving (env k2 c) = 0 ∧ env_status (env k2 c) = ENV_RUNNABLE ∧
    reg_of (env_tf (env k2 c)) 10 = 0 ∧
    (∀ x, x ≠ c → env k2 x = env k1 x).
Proof.
  intros Hs Hc Hin Hdel Hva Hd Hne Hx Hid.
  pose proof (sys_ipc_recv_ok k l c dstva d Hs Hc Hin Hva Hd) as Hrecv. rewrite Hdel in Hrecv.
  destruct Hrecv as (k1 & E1 & Hs1 & Hc1 & [r Hv] & _). set (k1' := set_kstack_tf tf k1).
  assert (Hv' : env k1' c = set_env_tf (set_reg 10 0 (kstack_tf k)) (set_env_runs r (blocked dstva (env k c)))) by exact Hv.
  assert (Hblk : env_status (env k1' c) ≠ ENV_RUNNABLE) by (by rewrite Hv').
  assert (He2e : envid2env envid false k1' = Ok (Some c) k1').
  { apply (envid2env_ok k1' e); [done|done|]. split_and!; [done| | |done]; by rewrite Hv'. }
  assert (Hs1' : sched_rel k1' (e :: l')) by (split; apply Hs1).
  destruct (sched_insert_tail_ok
    (set_envs (<[c := delivered value (env_id (env k1' e)) perm (env k1' c)]> (envs k1')) k1') (e :: l') c)
    as (q & Eq & Hq); [apply Hs1'|by apply (sched_rel_blocked k1')|].
  exists k1, (woken k1' q c value (env_id (env k1' e)) perm). split_and!; try done.
  - unfold sys_ipc_try_send. cbn [Z.eqb negb andb]. rewrite (bind_ok _ _ _ _ _ He2e). do 2 step.
    rewrite (proj2 (Z.eqb_neq _ 0)) by (by rewrite Hv').
    rewrite (bind_ok cur _ e k1' k1') by (unfold cur, bind, gets; change (curenv k1') with (curenv k1); by rewrite Hc1). step.
    rewrite !upd_env_twice. rewrite (bind_ok _ _ _ _ _ (upd_env_ok _ _ _)).
    by rewrite (bind_ok _ _ _ _ _ Eq).
  - change (e :: l' ++ [c]) with ((e :: l') ++ [c]). by apply woken_sched.
  - by rewrite woken_env, decide_True.
  - by rewrite woken_env, decide_True.
  - by rewrite woken_env, decide_True.
  - by rewrite woken_env, decide_True.
  - rewrite woken_env, decide_True by done. cbn [delivered env_tf set_env_status set_env_ipc_recving
      set_env_ipc_perm set_env_ipc_from set_env_ipc_value]. rewrite Hv'. cbn.
    unfold reg_of, set_reg. cbn. by rewrite lookup_insert_eq.
  - intros x Hxc. by rewrite woken_env, decide_False.
Qed.

(** Environment 5 waits; 4101 is its id, and 6 runs next. *)
Definition w_two : kernel :=
  set_env_sched_list (TAILQ.TAILQ_INSERT_HEAD 5 (TAILQ.TAILQ_INSERT_HEAD 6 (TAILQ.TAILQ_INIT (TAILQ.Mk None None ∅))))
    (set_envs (<[5 := w_env 4101 0 ENV_RUNNABLE]> (<[6 := w_env 4102 0 ENV_RUNNABLE]> ∅)) w_kernel).

Lemma w_two_sched : sched_rel w_two [5; 6].
Proof.
  split.
  - repeat (apply TAILQ_insert_head_rep; [|rewrite ?elem_of_cons, elem_of_nil; lia]). apply TAILQ_init_rep.
  - intros e. unfold env. cbn. rewrite !lookup_insert, lookup_empty, !elem_of_cons, elem_of_nil.
    repeat case_decide; cbn; naive_solver.
Qed.

Lemma ipc_rendezvous_witness :
  ∃ k1 k2, sys_ipc_recv 0 w_two = UserMode k1 ∧
    sys_ipc_try_send 4101 42 0 0 (set_kstack_tf tf0 k1) = Ok 0 k2 ∧
    env_ipc_value (env k2 5) = 42 ∧ sched_rel k2 [6; 5].
Proof.
  destruct (ipc_rendezvous w_two [5; 6] 5 6 [] 0 w_vring 4101 tf0 42 0 w_two_sched eq_refl)
    as (k1 & k2 & E1 & _ & _ & E2 & Hs & Hv & _);
    [apply list_elem_of_here|reflexivity|by left|reflexivity|done|reflexivity|reflexivity|].
  exists k1, k2. split; [exact E1|]. split; [exact E2|]. split; [exact Hv|exact Hs].
Defined.


Definition w_waiting : kernel :=
  set_envs (<[5 := env w_sys 5]> (<[6 := set_env_ipc_dstva (UTEXT + BY2PG) (set_env_ipc_recving 1 (env w_sys 6))]> ∅)) w_sys.

Lemma w_waiting_sched : sched_rel w_waiting [5].
Proof.
  split; [apply w_kernel_sched|]. intros e. unfold env. cbn.
  rewrite !lookup_insert, lookup_empty, elem_of_cons, elem_of_nil. repeat case_decide; cbn; naive_solver.
Qed.


Lemma TAILQ_self_loop h e l :
  TAILQ.tqh_last h = Some (Next e) → TAILQ.TAILQ_NEXT h e = Some e → ¬ TAILQ_rep h l.
Proof.
  intros Hl Hn (_ & Hlast & Hseg & _). rewrite Hlast in Hl. injection Hl as Hl.
  destruct l as [|x l _] using rev_ind; [done|]. rewrite last_slot_app in Hl. injection Hl as ->.
  apply seg_app in Hseg as [_ [Hx _]]. unfold TAILQ.TAILQ_NEXT in Hn. rewrite Hx in Hn. done.
Qed.

(** Inserting an element that already is the last one *)
Lemma insert_last_again k l e :
  TAILQ_rep (env_sched_list k) (l ++ [e]) →
  ∃ q, sched_insert_tail e k = Ok tt (set_env_sched_list q k) ∧ TAILQ.TAILQ_NEXT q e = Some e ∧
    ∀ l', ¬ TAILQ_rep q l'.
Proof.
  intros (_ & Hlast & _). rewrite last_slot_app in Hlast. cbn in Hlast.
  unfold sched_insert_tail. step. unfold TAILQ.TAILQ_INSERT_TAIL. cbn.
  rewrite Hlast. cbn. eexists. split; [reflexivity|].
  match goal with |- TAILQ.TAILQ_NEXT ?q e = _ ∧ _ => assert (TAILQ.TAILQ_NEXT q e = Some e) as Hn end.
  { unfold TAILQ.TAILQ_NEXT. cbn. rewrite link_set_next. by rewrite decide_True. }
  split; [done|]. intros l'. by apply (TAILQ_self_loop _ e).
Qed.

(** C18. The queue can be corrupted: [sys_set_env_status] makes an environment
    that waits in [sys_ipc_recv] runnable and queues it without ending its
    wait; the next message for it queues it a second time.  Its link then
    points to itself and no list of environments is represented any more. *)
Theorem blocked_receiver_queued_twice `{LinkerSymbols, VoidResult} k l c e envid value perm :
  sched_rel k l → curenv k = Some c → envid ≠ 0 → names k c envid true e →
  env_status (env k e) = ENV_NOT_RUNNABLE → env_ipc_recving (env k e) ≠ 0 →
  ∃ k1 k2, sys_set_env_status envid ENV_RUNNABLE k = Ok 0 k1 ∧ sched_rel k1 (l ++ [e]) ∧
    sys_ipc_try_send envid value 0 perm k1 = Ok 0 k2 ∧
    TAILQ.TAILQ_NEXT (env_sched_list k2) e = Some e ∧
    ∀ l', ¬ TAILQ_rep (env_sched_list k2) l'.
Proof.
  intros Hs Hc Hne Hnm Hst Hrecv.
  pose proof (envid2env_ok k c envid true e Hc Hne Hnm) as He.
  unfold sys_set_env_status. cbn [Z.eqb ENV_RUNNABLE ENV_NOT_RUNNABLE Pos.eqb negb andb].
  rewrite (bind_ok _ _ _ _ _ He). do 2 step. rewrite Hst.
  cbn [Z.eqb ENV_RUNNABLE ENV_NOT_RUNNABLE Pos.eqb negb].
  destruct (sched_insert_tail_ok k l e) as (q & Eq & Hq); [apply Hs|by apply (sched_rel_blocked k); rewrite ?Hst|].
  rewrite (bind_ok _ _ _ _ _ Eq), (bind_ok _ _ _ _ _ (upd_env_ok _ _ _)).
  set (k1 := set_envs _ (set_env_sched_list q k)).
  assert (Hk1 : ∀ x, env k1 x = if decide (e = x) then set_env_status ENV_RUNNABLE (env k e) else env k x).
  { intros x. exact (env_upd k e (set_env_status ENV_RUNNABLE) x). }
  assert (Hs1 : sched_rel k1 (l ++ [e])).
  { split; [done|]. intros x. rewrite Hk1, elem_of_app, elem_of_cons, elem_of_nil, (sr_status _ _ Hs).
    case_decide; cbn; naive_solver. }
  assert (He1 : env k1 e = set_env_status ENV_RUNNABLE (env k e)) by (by rewrite Hk1, decide_True).
  assert (He2 : envid2env envid false k1 = Ok (Some e) k1).
  { apply (envid2env_ok k1 c); [done|done|]. destruct Hnm as (-> & _ & Hi & _).
    split_and!; [done|by rewrite He1|by rewrite He1|done]. }
  set (k2 := set_envs (<[e := delivered value (env_id (env k1 c)) perm (env k1 e)]> (envs k1)) k1).
  destruct (insert_last_again k2 l e) as (q2 & Eq2 & Hn & Hbad); [apply Hs1|].
  exists k1, (set_env_sched_list q2 k2). split_and!; [done|done| |done|done].
  unfold sys_ipc_try_send. cbn [Z.eqb negb andb]. rewrite (bind_ok _ _ _ _ _ He2). do 2 step.
  rewrite (proj2 (Z.eqb_neq _ 0)) by (by rewrite He1).
  assert (Hc1 : curenv k1 = Some c) by done.
  rewrite (bind_ok cur _ c k1 k1) by (unfold cur, bind, gets; by rewrite Hc1). step.
  rewrite !upd_env_twice. rewrite (bind_ok _ _ _ _ _ (upd_env_ok _ _ _)).
  by rewrite (bind_ok _ _ _ _ _ Eq2).
Qed.

Lemma blocked_receiver_queued_twice_witness :
  ∃ k1 k2, sys_set_env_status 4102 ENV_RUNNABLE w_waiting = Ok 0 k1 ∧
    sys_ipc_try_send 4102 1 0 0 k1 = Ok 0 k2 ∧ ∀ l', ¬ TAILQ_rep (env_sched_list k2) l'.
Proof.
  destruct (blocked_receiver_queued_twice w_waiting [5] 5 6 4102 1 0 w_waiting_sched eq_refl ltac:(done))
    as (k1 & k2 & E1 & _ & E2 & _ & Hbad); [|reflexivity|done|].
  - split_and!; [reflexivity|done|reflexivity|]. intros _. right. reflexivity.
  - exists k1, k2. split; [exact E1|]. split; [exact E2|exact Hbad].
Defined.

(** * Dispatch *)

Lemma set_reg_twice i v tf : set_reg i v (set_reg i v tf) = set_reg i v tf.
Proof. unfold set_reg, set_regs. cbn. by rewrite insert_insert_eq. Qed.

Lemma exception_entry_syscall `{LinkerSymbols, VoidResult} tf k k' :
  scause tf = 8 → do_syscall (set_kstack_tf tf k) = Ok tt k' →
  exception_entry tf k = UserMode (set_cpu (kstack_tf k') k').
Proof.
  intros Hs E. unfold exception_entry. step. rewrite Hs.
  change (Z.testbit 8 31) with false. cbv iota. change (exception_handlers 8) with do_syscall. by rewrite (bind_ok _ _ _ _ _ E).
Qed.

(** C19. Dispatch of an [ecall] from user mode: with a number in range the
    handler runs on the arguments in a1..a5 with [sepc] moved behind the
    [ecall], and its result, error codes included, is in a0 when the caller
    resumes; with any other number a0 becomes -E_NO_SYS but [sepc] still
    points to the [ecall], which therefore traps again, without end. *)
Theorem syscall_dispatch `{LinkerSymbols, VoidResult} tf k :
  scause tf = 8 →
  let n := s32 (reg_of tf 10) in
  let tf1 := set_sepc (u32 (sepc tf + 4)) tf in
  (0 ≤ n < MAX_SYSNO → ∀ r k',
     result (syscall_table n (reg_of tf 11) (reg_of tf 12) (reg_of tf 13) (reg_of tf 14) (reg_of tf 15))
       (set_kstack_tf tf1 k) = Ok r k' →
     exception_entry tf k =
       UserMode (set_cpu (set_reg 10 r (kstack_tf k')) (set_kstack_tf (set_reg 10 r (kstack_tf k')) k'))) ∧
  (¬ 0 ≤ n < MAX_SYSNO →
     ∃ k', exception_entry tf k = UserMode k' ∧ cpu k' = set_reg 10 (- E_NO_SYS) tf ∧
       sepc (cpu k') = sepc tf ∧ exception_entry (cpu k') k' = UserMode k').
Proof.
  intros Hs n tf1.
  assert (Hbad : ∀ tf k, scause tf = 8 → ¬ 0 ≤ s32 (reg_of tf 10) < MAX_SYSNO →
    exception_entry tf k = UserMode (set_cpu (set_reg 10 (- E_NO_SYS) tf) (set_kstack_tf (set_reg 10 (- E_NO_SYS) tf) k))).
  { clear. intros tf k Hs Hn.
    rewrite (exception_entry_syscall tf k (set_kstack_tf (set_reg 10 (- E_NO_SYS) tf) k)); [done|done|].
    unfold do_syscall. step. cbn [kstack_tf set_kstack_tf].
    assert ((s32 (reg_of tf 10) <? 0) || (s32 (reg_of tf 10) >=? MAX_SYSNO) = true) as ->; [|done].
    apply orb_true_iff. rewrite Z.ltb_lt, Z.geb_le. lia. }
  split.
  - intros Hn r k' E.
    rewrite (exception_entry_syscall tf k (set_kstack_tf (set_reg 10 r (kstack_tf k')) k')); [done|done|].
    { unfold do_syscall. step. cbn [kstack_tf set_kstack_tf]. fold n.
      assert ((n <? 0) || (n >=? MAX_SYSNO) = false) as ->.
      { apply orb_false_iff. rewrite Z.ltb_ge, Z.geb_leb, Z.leb_gt. lia. }
      do 2 step. cbn [kstack_tf set_kstack_tf]. rewrite (bind_ok _ _ _ _ _ E). reflexivity. }
  - intros Hn. eexists. split; [by apply Hbad|]. cbn [cpu set_cpu]. split_and!; [done|done|].
    rewrite Hbad; [|done|].
    + rewrite set_reg_twice. done.
    + unfold reg_of, set_reg. cbn. rewrite lookup_insert_eq. cbn. vm_compute. intros []. congruence.
Qed.

Lemma syscall_dispatch_witness :
  ∃ k', exception_entry (set_scause 8 (set_reg 10 17 tf0)) w_sys = UserMode k' ∧
    exception_entry (cpu k') k' = UserMode k'.
Proof.
  destruct (syscall_dispatch (set_scause 8 (set_reg 10 17 tf0)) w_sys eq_refl) as [_ Hb].
  destruct Hb as (k' & E & _ & _ & E2); [by vm_compute; intros []|].
  exists k'. split; [exact E|exact E2].
Defined.
