(* ===== verification/EnvVmProps.v ===== *)
(** Address spaces of environments: [env_setup_vm], [env_alloc], [sys_exofork]
    and [env_free]. *)
From S2P Require Import Prelude Mmu Queue Memory Pmap PmapSpec VmSteps Disk Env EnvProps Sched SchedProps.
From S2P Require Import Tlbex Syscall.
From S2P Require Import QueueProps PmapProps SyscallProps.

(** * Copying into a page directory *)

Lemma load_copy_page m p src q j :
  0 ≤ p < PAGE_LIMIT → 0 ≤ q < PAGE_LIMIT → 0 ≤ j < 1024 →
  load (copy_page (page2pa p) src m) (page2pa q + 4 * j) =
    if decide (p = q) then word (pg m (PPN src)) j else load m (page2pa q + 4 * j).
Proof.
  intros Hp Hq Hj. rewrite !load_word by done. unfold copy_page.
  destruct (word_addr p 0 Hp) as [Hpp _]; [lia|].
  replace (page2pa p + 4 * 0) with (page2pa p) in Hpp by lia. rewrite Hpp.
  unfold pg at 1. rewrite lookup_insert.
  destruct (decide (p + PPN0 = q + PPN0)); case_decide; try lia; done.
Qed.

(** The directory at [src] has no valid user entry. *)
Definition no_user_entries (m : memory) (src : Z) : Prop :=
  ∀ i, 0 ≤ i < PDX UTOP → has (word (pg m (PPN src)) i) PTE_V = false.

Section copy.
Context (A : vm) (np : Z) (Hwf : wf A np) (d : Z) (Hd : d ∈ dirs A) (Hno : ∀ i, tabs A !! (d, i) = None).

Lemma mem_rel_copy_page m src :
  no_user_entries m src → mem_rel m A → mem_rel (copy_page (page2pa d) src m) A.
Proof.
  intros Hs [H1 H2]. pose proof (dir_page A np Hwf d Hd) as Hdp. split.
  - intros d' i Hd' Hi. specialize (H1 d' i Hd' Hi). pose proof (dir_page A np Hwf d' Hd').
    rewrite load_copy_page by (first [done|change (PDX UTOP) with 509 in *; lia]).
    case_decide; [subst d'|done]. rewrite Hno. by apply Hs.
  - intros d' i t j Ht Hj. specialize (H2 d' i t j Ht Hj).
    rewrite load_copy_page by (first [done|by eapply tab_page]).
    rewrite decide_False; [done|]. intros ->. by eapply tab_not_dir.
Qed.

Lemma mem_rel_copy_words n i src m :
  PDX UTOP ≤ i → i + Z.of_nat n ≤ 1024 → mem_rel m A →
  mem_rel (copy_words (page2pa d + 4 * i) src n m) A.
Proof.
  revert i src m. induction n as [|n IH]; intros i src m Hi Hn Hm; cbn [copy_words]; [done|].
  replace (page2pa d + 4 * i + 4) with (page2pa d + 4 * (i + 1)) by lia.
  apply IH; [lia|lia|]. apply (mem_rel_kernel_entry A np Hwf); [done|lia|done].
Qed.
End copy.

Lemma rel_set_mem s A f : rel s A → mem_rel (f (mem s)) A → rel (set_mem f s) A.
Proof. intros [H1 H2 H3 H4] Hm. split; [exact H1|exact H2|split; apply H3|exact Hm]. Qed.

(** * One environment of the array *)

Definition with_env (k : kernel) (e : Z) (v : Env) : kernel := set_envs (<[e := v]> (envs k)) k.

Lemma env_with k e v x : env (with_env k e v) x = if decide (e = x) then v else env k x.
Proof. unfold env at 1, with_env. cbn. rewrite lookup_insert. by case_decide. Qed.

Lemma env_with_same k e v : env (with_env k e v) e = v.
Proof. rewrite env_with. by rewrite decide_True. Qed.

Lemma upd_env_with k e v f : upd_env e f (with_env k e v) = Ok tt (with_env k e (f v)).
Proof.
  rewrite upd_env_ok, env_with_same. unfold with_env, set_envs. cbn. by rewrite insert_insert_eq.
Qed.

(** * Filling a directory leaves data pages alone *)

Lemma data_kept_clear_dir A m m' p :
  data_kept A m m' → 0 ≤ p < PAGE_LIMIT → p ∈ dirs A → data_kept A m (clear_page (page2pa p) m').
Proof.
  intros Hk Hp Hd q j Hq Hj Hqd Ht. rewrite load_clear_page by done.
  rewrite decide_False by congruence. by apply Hk.
Qed.

Lemma data_kept_copy_page A m m' d src :
  0 ≤ d < PAGE_LIMIT → d ∈ dirs A → data_kept A m m' → data_kept A m (copy_page (page2pa d) src m').
Proof.
  intros Hp Hd Hk q j Hq Hj Hqd Ht. rewrite load_copy_page by done.
  rewrite decide_False by congruence. by apply Hk.
Qed.

Lemma data_kept_copy_words A m m' d i src n :
  0 ≤ d < PAGE_LIMIT → d ∈ dirs A → 0 ≤ i ∧ i + Z.of_nat n ≤ 1024 →
  data_kept A m m' → data_kept A m (copy_words (page2pa d + 4 * i) src n m').
Proof.
  intros Hp Hd. revert i src m'. induction n as [|n IH]; intros i src m' Hi Hk; cbn [copy_words]; [done|].
  replace (page2pa d + 4 * i + 4) with (page2pa d + 4 * (i + 1)) by lia.
  apply IH; [lia|]. apply data_kept_store; [done|done|lia|by left].
Qed.

(** * Creation *)

Section alloc.
Context `{LinkerSymbols}.

(** [env_setup_vm]: a new directory that shares the kernel's entries *)
Lemma env_setup_vm_ok k A e d fl :
  rel (pm k) A → free A = d :: fl →
  no_user_entries (mem (pm k)) kernel_pgdir → PPN kernel_pgdir ≠ d + PPN0 →
  ∃ p, env_setup_vm e k = Ok tt (with_env (set_pm p k) e (set_env_pgdir_copy_pa 0 (set_env_pgdir (page2pa d) (env k e)))) ∧
    rel p (spec_new_dir A d fl) ∧ npage p = npage (pm k) ∧ cur_pgdir p = cur_pgdir (pm k) ∧
    data_kept (spec_new_dir A d fl) (mem (pm k)) (mem p).
Proof.
  intros Hrel Hf Hker Hne.
  destruct (new_dir_ok (pm k) A d fl Hrel Hf) as (s1 & E & Hrel1 & Hn1 & Hm1 & Hc1).
  assert (Hd : 0 ≤ d < PAGE_LIMIT) by (apply (free_page (pm k) A Hrel); rewrite Hf; apply list_elem_of_here).
  assert (Hdn : 0 ≤ d < npage (pm k)) by (apply (free_page (pm k) A Hrel); rewrite Hf; apply list_elem_of_here).
  apply bind_Ok_inv in E as (q & sa & E1 & E). apply bind_Ok_inv in E as ([] & sb & E2 & [= -> ->]).
  assert (Hin : d ∈ dirs (spec_new_dir A d fl)) by (cbn; apply elem_of_union_l, elem_of_singleton_2; done).
  unfold env_setup_vm. rewrite (bind_ok _ _ _ _ _ (onp_ok _ k _ _ E1)).
  set (k1 := set_pm sa k). change sa with (pm k1) in E2.
  rewrite (bind_ok _ _ _ _ _ (onp_ok _ k1 _ _ E2)). set (k2 := set_pm s1 k1).
  assert (Ek : page2kva d (pm k2) = Ok (page2pa d) (pm k2)).
  { apply (KADDR_page d Hd). change (pm k2) with s1. rewrite Hn1. lia. }
  rewrite (bind_ok _ _ _ _ _ (onp_ok _ k2 _ _ Ek)). rewrite set_pm_id.
  rewrite (bind_ok _ _ _ _ _ (upd_env_ok _ _ _)). do 3 step.
  rewrite upd_env_ok. set (k3 := sub_set _ _).
  exists (pm k3). split_and!.
  - rewrite <- upd_env_ok. change (upd_env e (set_env_pgdir_copy_pa 0) k3 = Ok tt (with_env (set_pm (pm k3) k) e (set_env_pgdir_copy_pa 0 (set_env_pgdir (page2pa d) (env k e))))).
    change k3 with (with_env (set_pm (pm k3) k) e (set_env_pgdir (page2pa d) (env k e))). apply upd_env_with.
  - assert (Hno : ∀ i, tabs (spec_new_dir A d fl) !! (d, i) = None).
    { intros i. cbn. destruct (tabs A !! (d, i)) eqn:Ht; [|done].
      destruct (wf_tab _ _ (rel_wf _ _ Hrel) _ _ _ Ht) as [Hdd _]. exfalso.
      apply (free_not_dir (pm k) A Hrel d); [rewrite Hf; apply list_elem_of_here|done]. }
    apply (rel_set_mem (set_mem (copy_page (page2pa d) kernel_pgdir) s1)); [apply rel_set_mem|].
    + done.
    + apply (mem_rel_copy_page _ _ (rel_wf _ _ Hrel1)); [done|done| |apply Hrel1].
      intros i Hi. rewrite Hm1. unfold clear_page, pg. rewrite lookup_insert_ne; [by apply Hker|].
      destruct (word_addr d 0 Hd) as [Hpp _]; [lia|].
      replace (page2pa d + 4 * 0) with (page2pa d) in Hpp by lia. congruence.
    + apply (mem_rel_copy_words _ _ (rel_wf _ _ Hrel1)); [done|done|vm_compute; discriminate|].
      apply (mem_rel_copy_page _ _ (rel_wf _ _ Hrel1)); [done|done| |apply Hrel1].
      intros i Hi. rewrite Hm1. unfold clear_page, pg. rewrite lookup_insert_ne; [by apply Hker|].
      destruct (word_addr d 0 Hd) as [Hpp _]; [lia|].
      replace (page2pa d + 4 * 0) with (page2pa d) in Hpp by lia. congruence.
  - exact Hn1.
  - exact Hc1.
  - apply data_kept_copy_words; [done|done|split; vm_compute; discriminate|].
    apply data_kept_copy_page; [done|done|]. change (mem (sub_get _)) with (mem s1). rewrite Hm1.
    apply data_kept_clear_dir; [apply data_kept_refl|done|done].
Qed.

(** The environment [env_alloc] makes of the slot contents [v] *)
Definition reset_env (v : Env) (id asid parent : Z) : Env :=
  MkEnv (set_sscratch (USTACKTOP - 4 - 4) (set_sstatus 2 (env_tf v))) id asid parent (env_status v)
    (env_pgdir v) (env_pri v) (env_ipc_value v) (env_ipc_from v) (env_ipc_recving v) (env_ipc_dstva v)
    (env_ipc_perm v) 0 (env_pgdir_copy_pa v) 0.

(** What the call changes besides the slot *)
Record allocated (k k' : kernel) (e a : Z) (fr : list Z) : Prop := {
  al_others : ∀ x, x ≠ e → env k' x = env k x;
  al_free : LIST_rep (env_free_list k') fr;
  al_sched : env_sched_list k' = env_sched_list k;
  al_cur : curenv k' = curenv k;
  al_tf : kstack_tf k' = kstack_tf k;
  al_asid : ∀ j, asid_used k' j = asid_used k j || (a =? j);
  al_mkenvid : mkenvid_i k' = u32 (mkenvid_i k + 1);
  al_disk : disk k' = disk k;
  al_base : base_pgdir k' = base_pgdir k
}.

(** [env_alloc] after its call of [env_setup_vm], whatever that returned *)
Lemma env_alloc_tail k k0 r e fr a parent :
  LIST_rep (env_free_list k) (e :: fr) → 0 ≤ e < NENV → 0 ≤ mkenvid_i k →
  find (λ j, negb (asid_used k j)) (seqZ 0 NASID) = Some a →
  code (env_setup_vm e) k = Ok r k0 →
  env_free_list k0 = env_free_list k → asid_bitmap k0 = asid_bitmap k → mkenvid_i k0 = mkenvid_i k →
  ∃ k', env_alloc parent k = Ok e k' ∧ pm k' = pm k0 ∧
    env k' e = reset_env (env k0 e) (id_of (u32 (mkenvid_i k + 1)) e) a parent ∧ allocated k0 k' e a fr.
Proof.
  intros Hfl He Hi Ha Ec Ef Eb Ei. unfold env_alloc. step. rewrite (LIST_first_rep _ _ Hfl). cbn [head].
  rewrite (bind_ok _ _ _ _ _ Ec), (bind_ok _ _ _ _ _ (upd_env_ok _ _ _)).
  set (v0 := set_env_user_tlb_mod_entry 0 (env k0 e)). fold (with_env k0 e v0).
  rewrite (bind_ok _ _ _ _ _ (upd_env_with _ _ _ _)). set (v' := set_env_runs 0 v0).
  set (i := u32 (mkenvid_i k + 1)). set (k1 := set_mkenvid_i i k0).
  assert (Em : mkenvid e (with_env k0 e v') = Ok (id_of i e) (with_env k1 e v')).
  { pose proof (mkenvid_ok e (with_env k0 e v') He) as Hm.
    change (mkenvid_i (with_env k0 e v')) with (mkenvid_i k0) in Hm. rewrite Ei in Hm. by apply Hm. }
  rewrite (bind_ok _ _ _ _ _ Em), (bind_ok _ _ _ _ _ (upd_env_with _ _ _ _)). set (v1 := set_env_id _ _).
  pose proof (asid_alloc_from_ok (Z.to_nat NASID) 0 (with_env k1 e v1)) as Easid.
  change (Z.of_nat (Z.to_nat NASID)) with NASID in Easid.
  assert (asid_used (with_env k1 e v1) = asid_used k) as Eu
    by (unfold asid_used, asid_word; cbn; by rewrite Eb).
  rewrite Eu, Ha in Easid. rewrite (bind_ok asid_alloc _ _ _ _ Easid).
  set (k2 := asid_set a k1). change (asid_set a (with_env k1 e v1)) with (with_env k2 e v1).
  do 4 rewrite (bind_ok _ _ _ _ _ (upd_env_with _ _ _ _)). set (v2 := set_env_tf _ _).
  destruct (LIST_remove_rep _ [] e fr Hfl) as (q & Eq & Hq). rewrite <- Ef in Eq.
  assert (Er : free_remove e (with_env k2 e v2) = Ok tt (with_env (set_env_free_list q k2) e v2)).
  { unfold free_remove. step. change (env_free_list (with_env k2 e v2)) with (env_free_list k0). by rewrite Eq. }
  rewrite (bind_ok _ _ _ _ _ Er).
  eexists. split; [reflexivity|]. split; [done|]. split; [by rewrite env_with_same|]. split; try done.
  - intros x Hx. by rewrite env_with, decide_False.
  - intros j. apply (asid_used_set k1).
  - by rewrite Ei.
Qed.

(** A slot of the free list becomes an environment with an empty address space. *)
Lemma env_alloc_ok k A e d fl fr a parent :
  rel (pm k) A → free A = d :: fl → LIST_rep (env_free_list k) (e :: fr) →
  no_user_entries (mem (pm k)) kernel_pgdir → PPN kernel_pgdir ≠ d + PPN0 →
  0 ≤ e < NENV → 0 ≤ mkenvid_i k →
  find (λ j, negb (asid_used k j)) (seqZ 0 NASID) = Some a →
  ∃ k', env_alloc parent k = Ok e k' ∧ rel (pm k') (spec_new_dir A d fl) ∧
    cur_pgdir (pm k') = cur_pgdir (pm k) ∧ data_kept (spec_new_dir A d fl) (mem (pm k)) (mem (pm k')) ∧
    env k' e = reset_env (set_env_pgdir_copy_pa 0 (set_env_pgdir (page2pa d) (env k e)))
                 (id_of (u32 (mkenvid_i k + 1)) e) a parent ∧
    allocated k k' e a fr.
Proof.
  intros Hrel Hf Hfl Hker Hne He Hi Ha.
  destruct (env_setup_vm_ok k A e d fl Hrel Hf Hker Hne) as (p & Es & Hrel' & Hn & Hcp & Hk).
  set (v0 := set_env_pgdir_copy_pa _ _) in Es. set (k0 := with_env (set_pm p k) e v0) in Es.
  destruct (env_alloc_tail k k0 0 e fr a parent) as (k' & E & Ep & Ev & [? ? ? ? ? ? ? ? ?]); try done.
  - unfold code. by rewrite Es.
  - exists k'. split_and!; [done|by rewrite Ep|by rewrite Ep|by rewrite Ep| |].
    + rewrite Ev. unfold k0. by rewrite env_with_same.
    + split; try done. intros x Hx. rewrite al_others0 by done. unfold k0. by rewrite env_with, decide_False.
Qed.

(** Without memory the slot keeps the directory of its previous owner. *)
Lemma env_alloc_no_memory k A e fr a parent :
  rel (pm k) A → free A = [] → LIST_rep (env_free_list k) (e :: fr) →
  0 ≤ e < NENV → 0 ≤ mkenvid_i k →
  find (λ j, negb (asid_used k j)) (seqZ 0 NASID) = Some a →
  ∃ k', env_alloc parent k = Ok e k' ∧ pm k' = pm k ∧
    env k' e = reset_env (env k e) (id_of (u32 (mkenvid_i k + 1)) e) a parent ∧ allocated k k' e a fr.
Proof.
  intros Hrel Hf Hfl He Hi Ha.
  pose proof (onp_err _ k _ _ (page_alloc_empty (pm k) A Hrel Hf)) as Ep. rewrite set_pm_id in Ep.
  apply (env_alloc_tail k k (- E_NO_MEM) e fr a parent); try done.
  unfold code, env_setup_vm. by rewrite (bind_err _ _ _ _ _ Ep).
Qed.
End alloc.

(** The state after a successful [sys_exofork] *)
Record forked `{LinkerSymbols} (k k' : kernel) (A : vm) (c e d a id : Z) (l fr fl : list Z) : Prop := {
  fk_id : id = id_of (u32 (mkenvid_i k + 1)) e;
  fk_rel : rel (pm k') (spec_new_dir A d fl);
  fk_cur_pgdir : cur_pgdir (pm k') = cur_pgdir (pm k);
  fk_data : data_kept (spec_new_dir A d fl) (mem (pm k)) (mem (pm k'));
  fk_child : env k' e = set_env_pri (env_pri (env k c)) (set_env_status ENV_NOT_RUNNABLE
    (set_env_tf (set_reg 10 0 (kstack_tf k))
      (reset_env (set_env_pgdir_copy_pa 0 (set_env_pgdir (page2pa d) (env k e))) id a (env_id (env k c)))));
  fk_others : ∀ x, x ≠ e → env k' x = env k x;
  fk_sched : sched_rel k' l;
  fk_free : LIST_rep (env_free_list k') fr;
  fk_cur : curenv k' = curenv k;
  fk_tf : kstack_tf k' = kstack_tf k
}.

Lemma sys_exofork_ok `{LinkerSymbols, VoidResult} k A c l e fr d fl a :
  rel (pm k) A → curenv k = Some c → sched_rel k l → LIST_rep (env_free_list k) (e :: fr) →
  no_user_entries (mem (pm k)) kernel_pgdir → 0 ≤ mkenvid_i k →
  free A = d :: fl → find (λ j, negb (asid_used k j)) (seqZ 0 NASID) = Some a →
  0 ≤ e < NENV → e ≠ c → e ∉ l → PPN kernel_pgdir ≠ d + PPN0 →
  ∃ id k', sys_exofork k = Ok id k' ∧ forked k k' A c e d a id l fr fl.
Proof.
  intros Hrel Hc Hs Hfl Hker Hi Hf Ha He Hec Hel Hne.
  assert (Ecur : cur k = Ok c k) by (unfold cur, bind, gets; by rewrite Hc).
  destruct (env_alloc_ok k A e d fl fr a (env_id (env k c)) Hrel Hf Hfl Hker Hne He Hi Ha)
    as (k1 & E & Hrel1 & Hcp & Hk & Hv & Hal).
  unfold sys_exofork. rewrite (bind_ok _ _ _ _ _ Ecur). step. rewrite (bind_ok _ _ _ _ _ E). step.
  rewrite !upd_env_twice. rewrite (bind_ok _ _ _ _ _ (upd_env_ok _ _ _)).
  set (v1 := set_env_status _ _). fold (with_env k1 e v1). step.
  rewrite (bind_ok _ _ _ _ _ (upd_env_with _ _ _ _)). rewrite env_with, decide_False by congruence.
  rewrite (al_others _ _ _ _ _ Hal) by congruence. set (v2 := set_env_pri _ _). step.
  rewrite env_with_same.
  assert (Hid : env_id v2 = id_of (u32 (mkenvid_i k + 1)) e) by (unfold v2, v1; cbn; by rewrite Hv).
  exists (env_id v2), (with_env k1 e v2). split; [done|]. split; try done; try apply Hal.
  - rewrite env_with_same, Hid. unfold v2, v1. rewrite Hv, (al_tf _ _ _ _ _ Hal). done.
  - intros x Hx. rewrite env_with, decide_False by congruence. by apply (al_others _ _ _ _ _ Hal).
  - split.
    + change (env_sched_list (with_env k1 e v2)) with (env_sched_list k1).
      rewrite (al_sched _ _ _ _ _ Hal). apply Hs.
    + intros x. rewrite env_with. case_decide as Ex.
      * subst x. by unfold v2, v1.
      * rewrite (al_others _ _ _ _ _ Hal) by congruence. apply Hs.
Qed.

(** The child's id names it for its parent. *)
Lemma forked_names `{LinkerSymbols} k k' A c e d a id l fr fl :
  forked k k' A c e d a id l fr fl → 0 ≤ e < NENV → e ≠ c → names k' c id true e.
Proof.
  intros Hfk He Hec. pose proof (fk_child _ _ _ _ _ _ _ _ _ _ _ Hfk) as Hch. split_and!; rewrite ?Hch; try done.
  - rewrite (fk_id _ _ _ _ _ _ _ _ _ _ _ Hfk). by rewrite ENVX_id.
  - intros _. right. by rewrite (fk_others _ _ _ _ _ _ _ _ _ _ _ Hfk) by congruence.
Qed.

(** * Properties of creation *)

(** [sys_exofork] turns the first free slot into a child: it returns the
    child's id, which names the child for its parent; the child has the
    parent's registers except a0 = 0, its priority, an address space without
    user mappings and a fresh ASID, and is not scheduled.  Without a free slot
    it returns -E_NO_FREE_ENV and changes nothing. *)
Theorem sys_exofork_spec `{LinkerSymbols, VoidResult} k A c l fl0 :
  rel (pm k) A → curenv k = Some c → sched_rel k l → LIST_rep (env_free_list k) fl0 →
  no_user_entries (mem (pm k)) kernel_pgdir → 0 ≤ mkenvid_i k →
  match fl0, free A, find (λ j, negb (asid_used k j)) (seqZ 0 NASID) with
  | [], _, _ => sys_exofork k = Err (- E_NO_FREE_ENV) k
  | e :: fr, d :: fl, Some a =>
      0 ≤ e < NENV → e ≠ c → e ∉ l → PPN kernel_pgdir ≠ d + PPN0 →
      ∃ id k', sys_exofork k = Ok id k' ∧ ENVX id = e ∧ rel (pm k') (spec_new_dir A d fl) ∧
        env_pgdir (env k' e) = page2pa d ∧ env_asid (env k' e) = a ∧
        env_tf (env k' e) = set_reg 10 0 (kstack_tf k) ∧ env_pri (env k' e) = env_pri (env k c) ∧
        env_status (env k' e) = ENV_NOT_RUNNABLE ∧ sched_rel k' l ∧
        (∀ x, x ≠ e → env k' x = env k x) ∧ LIST_rep (env_free_list k') fr ∧
        (id ≠ 0 → envid2env id true k' = Ok (Some e) k')
  | _, _, _ => True
  end.
Proof.
  intros Hrel Hc Hs Hfl Hker Hi.
  assert (Ecur : cur k = Ok c k) by (unfold cur, bind, gets; by rewrite Hc).
  destruct fl0 as [|e fr].
  - unfold sys_exofork. rewrite (bind_ok _ _ _ _ _ Ecur). step. unfold env_alloc. rewrite bind_assoc. step.
    by rewrite (LIST_first_rep _ _ Hfl).
  - destruct (free A) as [|d fl] eqn:Hf; [done|]. destruct (find _ _) as [a|] eqn:Ha; [|done].
    intros He Hec Hel Hne.
    destruct (sys_exofork_ok k A c l e fr d fl a) as (id & k' & E & Hfk); try done.
    pose proof (forked_names _ _ _ _ _ _ _ _ _ _ _ Hfk He Hec) as Hnm. destruct (Hnm) as [Hx _].
    destruct Hfk as [? ? ? ? Hch ? ? ? Hcur ?]. exists id, k'. rewrite Hch. split_and!; try done.
    intros Hnz. apply (envid2env_ok _ c); [congruence|done|done].
Qed.

(** Slot 7 is free; [kernel_pgdir] is page 0, whose user part is empty before
    anything is mapped. *)
Definition w_fork : kernel :=
  set_pm w_state (set_env_free_list (LIST.LIST_INSERT_HEAD 7 (LIST.Mk None ∅)) w_sys).

Lemma w_fork_sched : sched_rel w_fork [5].
Proof. split; apply w_sys_sched. Qed.

Lemma sys_exofork_spec_witness :
  ∃ id k', sys_exofork w_fork = Ok id k' ∧ ENVX id = 7 ∧ env_pgdir (env k' 7) = page2pa 3 ∧
    sched_rel k' [5].
Proof.
  assert (Hf : LIST_rep (env_free_list w_fork) [7]).
  { apply LIST_insert_head_rep; [|apply not_elem_of_nil]. split_and!; [done|done|constructor]. }
  destruct (sys_exofork_spec w_fork w_vm 5 [5] [7] w_rel eq_refl w_fork_sched Hf)
    as (id & k' & E & Hx & _ & Hd & _ & _ & _ & _ & Hs & _).
  - intros i Hi. reflexivity.
  - by vm_compute.
  - by vm_compute.
  - done.
  - rewrite elem_of_cons, elem_of_nil. lia.
  - by vm_compute.
  - exists id, k'. split; [exact E|]. split; [exact Hx|]. split; [exact Hd|exact Hs].
Defined.

(** [env_alloc] does not look at the result of [env_setup_vm]: with no
    free page it still succeeds, and the new environment runs on the page
    directory the slot was left with: 0, or that of the environment destroyed
    in it, which may meanwhile belong to somebody else. *)
Theorem env_alloc_ignores_setup_error `{LinkerSymbols} k A e fr a parent :
  rel (pm k) A → free A = [] → LIST_rep (env_free_list k) (e :: fr) →
  0 ≤ e < NENV → 0 ≤ mkenvid_i k →
  find (λ j, negb (asid_used k j)) (seqZ 0 NASID) = Some a →
  env_setup_vm e k = Err (- E_NO_MEM) k ∧
  ∃ k', env_alloc parent k = Ok e k' ∧ env_pgdir (env k' e) = env_pgdir (env k e) ∧ pm k' = pm k.
Proof.
  intros Hrel Hf Hfl He Hi Ha. split.
  - pose proof (onp_err _ k _ _ (page_alloc_empty (pm k) A Hrel Hf)) as Ep. rewrite set_pm_id in Ep.
    unfold env_setup_vm. by rewrite (bind_err _ _ _ _ _ Ep).
  - destruct (env_alloc_no_memory k A e fr a parent Hrel Hf Hfl He Hi Ha) as (k' & E & Hp & Hv & _).
    exists k'. split_and!; [done|by rewrite Hv|done].
Qed.

(** A machine with one page, which is the directory in use *)
Definition w_full : pmap := MkPmap PMEMSIZE 1 (KERNBASE + 4096) KERNBASE {[0 := 1]} (LIST.Mk None ∅) (page2pa 0) ∅ [] 0.
Definition w_full_vm : vm := MkVm ∅ ∅ ∅ {[0 := 1]} [].

Lemma w_full_rel : rel w_full w_full_vm.
Proof.
  assert (Hpin : ∀ p, pin w_full_vm p = if decide (0 = p) then 1 else 0).
  { intros p. unfold pin. cbn. rewrite lookup_singleton. by case_decide. }
  assert (Href : ∀ p, ref w_full p = if decide (0 = p) then 1 else 0).
  { intros p. unfold ref. cbn. rewrite lookup_singleton. by case_decide. }
  split.
  - split; try done; intros p; [|rewrite Hpin; case_decide; lia].
    intros Hp. by apply elem_of_nil in Hp.
  - split_and!; [done|done|constructor].
  - split.
    + intros p Hp. by apply elem_of_nil in Hp.
    + intros p [k Hk]. cbn in Hk. by rewrite lookup_empty in Hk.
    + intros p _ _. rewrite Href, Hpin. unfold count. cbn. by rewrite map_filter_empty, map_size_empty.
    + intros p. rewrite Href. case_decide; lia.
  - split; cbn; done.
Qed.

Lemma env_alloc_ignores_setup_error_witness :
  ∃ k', env_alloc 0 (set_pm w_full w_fork) = Ok 7 k' ∧ env_pgdir (env k' 7) = 0.
Proof.
  assert (Hf : LIST_rep (env_free_list (set_pm w_full w_fork)) [7]).
  { apply LIST_insert_head_rep; [|apply not_elem_of_nil]. split_and!; [done|done|constructor]. }
  destruct (env_alloc_ignores_setup_error (set_pm w_full w_fork) w_full_vm 7 [] 0 0 w_full_rel eq_refl Hf)
    as (_ & k' & E & Hd & _); [done|by vm_compute|by vm_compute|].
  exists k'. split; [exact E|]. rewrite Hd. reflexivity.
Defined.
