(* ===== verification/EnvFreeProps.v ===== *)
(** Destruction of environments: [env_free] takes an address space apart. *)
From S2P Require Import Prelude Mmu Queue Memory Pmap PmapSpec VmSteps Disk Env EnvProps Sched SchedProps.
From S2P Require Import Tlbex Syscall.
From S2P Require Import QueueProps PmapProps SyscallProps EnvVmProps.

(** * Taking an address space apart *)

(** References to page [p], mappings included *)
Definition uses (A : vm) (p : Z) : Z := count p (maps A) + pin A p.

(** [A'] is [A] with part of directory [d] unmapped: other address spaces are
    as before, and every page or table no longer used is free. *)
Record shrinks (d : Z) (A A' : vm) : Prop := {
  sh_dirs : dirs A' = dirs A;
  sh_pins : pins A' = pins A;
  sh_maps : ∀ d' v, d' ≠ d → maps A' !! (d', v) = maps A !! (d', v);
  sh_sub : ∀ k x, maps A' !! k = Some x → maps A !! k = Some x;
  sh_tabs : ∀ d' i, d' ≠ d → tabs A' !! (d', i) = tabs A !! (d', i);
  sh_tsub : ∀ k t, tabs A' !! k = Some t → tabs A !! k = Some t;
  sh_free : ∀ p, p ∈ free A → p ∈ free A';
  sh_released : ∀ p, 0 < uses A p → uses A' p = 0 → p ∈ free A';
  sh_tables : ∀ i t, tabs A !! (d, i) = Some t → tabs A' !! (d, i) = Some t ∨ t ∈ free A'
}.

Lemma uses_nonneg A np p : wf A np → 0 ≤ uses A p.
Proof. intros Hw. unfold uses. pose proof (count_nonneg p (maps A)). pose proof (wf_pin _ _ Hw p). lia. Qed.

Lemma shrinks_refl d A : shrinks d A A.
Proof. split; try done; [intros; lia|auto]. Qed.

Lemma shrinks_trans d A B C np : wf B np → shrinks d A B → shrinks d B C → shrinks d A C.
Proof.
  intros Hw [D1 P1 M1 S1 T1 U1 F1 R1 B1] [D2 P2 M2 S2 T2 U2 F2 R2 B2]. split; try (intros; congruence); auto.
  - intros d' v Hd. by rewrite M2, M1.
  - intros d' i Hd. by rewrite T2, T1.
  - intros p Hp H0. pose proof (uses_nonneg B np p Hw). destruct (decide (uses B p = 0)).
    + by apply F2, R1.
    + apply R2; [lia|done].
  - intros i t Ht. destruct (B1 i t Ht) as [Hb|Hb]; [by apply B2|right; by apply F2].
Qed.

Lemma shrinks_remove d A np v : wf A np → shrinks d A (spec_remove A d v).
Proof.
  intros Hw. destruct (spec_remove_frame A d v) as (Fd & Ft & Fp & Fm).
  assert (Hfree : ∀ p, p ∈ free A → p ∈ free (spec_remove A d v)).
  { intros p Hp. unfold spec_remove. destruct (maps A !! (d, v)) as [[q f]|]; [|done].
    case_match; [by apply list_elem_of_further|done]. }
  split; rewrite ?Fd, ?Ft, ?Fp, ?Fm; auto.
  - intros d' v' Hd. apply lookup_delete_ne. congruence.
  - by intros k x [_ Hk]%lookup_delete_Some.
  - intros p Hp. unfold uses, pin. rewrite Fm, Fp. fold (pin A p). intros H0.
    unfold spec_remove. destruct (maps A !! (d, v)) as [[q f]|] eqn:Hm.
    + rewrite (count_delete _ _ _ _ _ Hm) in H0. unfold uses in Hp. case_decide; [subst q|lia].
      rewrite (proj2 (Z.eqb_eq _ 1)) by lia. apply list_elem_of_here.
    + rewrite delete_id in H0 by done. unfold uses in Hp. lia.
Qed.

Lemma shrinks_drop_table d A i t :
  tabs A !! (d, i) = Some t → (∀ j t', tabs A !! (d, j) = Some t' → t' = t → j = i) →
  shrinks d A (spec_drop_table A d i t).
Proof.
  intros Ht Hinj. split; cbn; try done.
  - intros d' j Hd. apply lookup_delete_ne. congruence.
  - by intros k t' [_ Hk]%lookup_delete_Some.
  - intros p Hp. by apply list_elem_of_further.
  - intros p Hp. unfold uses, pin. cbn. fold (pin A p). unfold uses in Hp. lia.
  - intros j t' Ht'. rewrite lookup_delete. case_decide as E.
    + right. injection E as <-. assert (t' = t) as -> by congruence. apply list_elem_of_here.
    + by left.
Qed.

Lemma rel_sfence s A f : rel s A → rel (add_sfence f s) A.
Proof. intros [H1 H2 H3 H4]. split; [done|done|split; apply H3|done]. Qed.

Lemma onp_at {A} (m : M pmap A) s k a s' : m s = Ok a s' → onp m (set_pm s k) = Ok a (set_pm s' k).
Proof. intros E. exact (onp_ok m (set_pm s k) a s' E). Qed.

Section free.
Context `{LinkerSymbols}.
Context (k0 : kernel) (e d : Z) (Hpd : env_pgdir (env k0 e) = page2pa d).

(** The kernel runs on page state [s], which represents [B]. *)
Record freeing (A : vm) (s : pmap) (B : vm) : Prop := {
  fr_rel : rel s B;
  fr_shrinks : shrinks d A B;
  fr_npage : npage s = npage (pm k0)
}.

Lemma free_page_entry A s B i t j :
  d ∈ dirs A → freeing A s B → tabs B !! (d, i) = Some t → 0 ≤ j < 1024 →
  ∃ s' B',
    (x <- onp (rd (page2pa t + 4 * j)) ;;
     if has x PTE_V then
       v <- get_env e ;;
       onp (page_remove (env_pgdir v) (env_asid v) (Z.lor (Z.shiftl i PDSHIFT) (Z.shiftl j PGSHIFT)))
     else ret tt) (set_pm s k0) = Ok tt (set_pm s' k0) ∧
    freeing A s' B' ∧ tabs B' = tabs B ∧ maps B' !! (d, i * 1024 + j) = None ∧
    (∀ v, maps B !! (d, v) = None → maps B' !! (d, v) = None).
Proof.
  intros Hd [Hrel Hsh Hn] Ht Hj. pose proof (mr_tab _ _ (rel_mem _ _ Hrel) d i t j Ht Hj) as Hm.
  destruct (wf_tab _ _ (rel_wf _ _ Hrel) _ _ _ Ht) as (Hdb & Hi & _).
  step. change (sub_set (sub_get (set_pm s k0)) (set_pm s k0)) with (set_pm s k0).
  change (load _ _) with (load (mem s) (page2pa t + 4 * j)).
  destruct (maps B !! (d, i * 1024 + j)) as [[p f]|] eqn:Emap.
  - destruct (wf_map _ _ (rel_wf _ _ Hrel) _ _ _ _ Emap) as (_ & _ & Hp & _ & Hf & HV).
    rewrite Hm, entry_V, HV by (pose proof (wf_np _ _ (rel_wf _ _ Hrel)); lia). step.
    change (PDX UTOP) with 509 in Hi.
    destruct (va_indices i j 0 ltac:(lia) Hj ltac:(done)) as (_ & _ & Hv & Hb). rewrite Z.lor_0_r in *.
    assert (Hva : 0 ≤ Z.lor (Z.shiftl i PDSHIFT) (Z.shiftl j PGSHIFT) < UTOP).
    { split; [lia|]. unfold PDSHIFT, PGSHIFT in *. rewrite lor_shiftl_add by (rewrite ?Z.shiftl_mul_pow2 by lia; lia).
      rewrite Z.shiftl_mul_pow2 by lia. change UTOP with (509 * 2 ^ 22). lia. }
    change (env (set_pm s k0) e) with (env k0 e). rewrite Hpd.
    destruct (page_remove_ok s B d _ (env_asid (env k0 e)) Hrel Hdb Hva) as (s' & E & Hr' & Hn' & _).
    rewrite Hv in Hr'. exists s', (spec_remove B d (i * 1024 + j)).
    destruct (spec_remove_frame B d (i * 1024 + j)) as (_ & Ft & _ & Fm).
    split; [by apply onp_at|]. split_and!.
    + split; [done| |congruence].
      apply (shrinks_trans _ _ _ _ _ (rel_wf _ _ Hrel) Hsh). by apply (shrinks_remove _ _ _ _ (rel_wf _ _ Hrel)).
    + done.
    + by rewrite Fm, lookup_delete_eq.
    + intros v Hv0. rewrite Fm. by apply lookup_delete_None; right.
  - rewrite Hm. exists s, B. split; [done|]. split_and!; try done.
Qed.

(** Every page of the table of entry [i] is unmapped. *)
Lemma free_table_pages_ok A s B i t :
  d ∈ dirs A → freeing A s B → tabs B !! (d, i) = Some t →
  ∃ s' B', free_table_pages e i (page2pa t) (set_pm s k0) = Ok tt (set_pm s' k0) ∧
    freeing A s' B' ∧ tabs B' = tabs B ∧ table_empty B' d i ∧
    (∀ v, maps B !! (d, v) = None → maps B' !! (d, v) = None).
Proof.
  intros Hd Hfr Ht. unfold free_table_pages. change (PTX (not32 0) + 1) with 1024.
  match goal with |- context [for_each _ ?b] => set (body := b) end.
  destruct (for_each_inv (λ dn k, ∃ s' B', k = set_pm s' k0 ∧ freeing A s' B' ∧ tabs B' = tabs B ∧
      (∀ j, j ∈ dn → maps B' !! (d, i * 1024 + j) = None) ∧
      (∀ v, maps B !! (d, v) = None → maps B' !! (d, v) = None)) (seqZ 0 1024) body) with (set_pm s k0)
    as (k' & E & s' & B' & -> & Hfr' & Htb & Hdn & Hmono).
  - intros dn j rest k Hl (s1 & B1 & -> & Hfr1 & Ht1 & Hdn & Hmono).
    assert (Hj : 0 ≤ j < 1024).
    { assert (j ∈ seqZ 0 1024) as Hin by (rewrite Hl; apply elem_of_app; right; apply list_elem_of_here).
      apply elem_of_seqZ in Hin. lia. }
    destruct (free_page_entry A s1 B1 i t j Hd Hfr1 ltac:(by rewrite Ht1) Hj)
      as (s2 & B2 & E & Hfr2 & Ht2 & Hj2 & Hmono2).
    exists (set_pm s2 k0). split; [exact E|]. exists s2, B2. split_and!; [done|done|congruence| |auto].
    intros j' [Hj'| ->%list_elem_of_singleton]%elem_of_app; auto.
  - exists s, B. split_and!; try done. intros j Hj. by apply elem_of_nil in Hj.
  - exists s', B'. split; [exact E|]. split_and!; try done.
    intros v p f Hm <-. pose proof (wf_map _ _ (rel_wf _ _ (fr_rel _ _ _ Hfr')) _ _ _ _ Hm) as (Hv & _).
    rewrite (Z.div_mod v 1024) in Hm by lia. rewrite Z.mul_comm, Hdn in Hm; [done|].
    apply elem_of_seqZ. pose proof (Z.mod_pos_bound v 1024). lia.
Qed.

(** One round of the loop over the page directory *)
Lemma free_pde_ok A s B i :
  d ∈ dirs A → freeing A s B → 0 ≤ i < PDX UTOP →
  ∃ s' B', free_pde e i (set_pm s k0) = Ok tt (set_pm s' k0) ∧ freeing A s' B' ∧
    tabs B' !! (d, i) = None ∧ (∀ j, tabs B !! (d, j) = None → tabs B' !! (d, j) = None).
Proof.
  intros Hd Hfr Hi. assert (Hdb : d ∈ dirs B) by (rewrite (sh_dirs _ _ _ (fr_shrinks _ _ _ Hfr)); done).
  pose proof (mr_dir _ _ (rel_mem _ _ (fr_rel _ _ _ Hfr)) d i Hdb Hi) as Hdir.
  unfold free_pde. step. change (env (set_pm s k0) e) with (env k0 e). rewrite Hpd. step.
  change (sub_set (sub_get (set_pm s k0)) (set_pm s k0)) with (set_pm s k0).
  change (load _ _) with (load (mem s) (page2pa d + 4 * i)).
  destruct (tabs B !! (d, i)) as [t|] eqn:Ht; [|rewrite Hdir; by exists s, B].
  destruct (wf_tab _ _ (rel_wf _ _ (fr_rel _ _ _ Hfr)) _ _ _ Ht) as (_ & _ & Htr & _).
  pose proof (wf_np _ _ (rel_wf _ _ (fr_rel _ _ _ Hfr))) as Hnp.
  assert (Htl : 0 ≤ t < PAGE_LIMIT) by lia.
  rewrite Hdir, entry_V, entry_addr by done. change (has PTE_V PTE_V) with true. cbn [negb].
  rewrite (bind_ok _ _ _ _ _ (onp_at _ _ k0 _ _ (KADDR_page t Htl s (proj2 Htr)))).
  destruct (free_table_pages_ok A s B i t Hd Hfr Ht) as (s1 & B1 & E1 & Hfr1 & Ht1 & He1 & _).
  rewrite (bind_ok _ _ _ _ _ E1). rewrite <- Ht1 in Ht.
  destruct (drop_table_ok s1 B1 (fr_rel _ _ _ Hfr1) d i t Ht He1) as (s2 & E2 & Hr2 & Hn2 & _).
  unfold drop_table in E2. apply bind_Ok_inv in E2 as ([] & s1' & Ew & Ed).
  rewrite (bind_ok _ _ _ _ _ (onp_at _ _ k0 _ _ Ew)).
  assert (Hn1 : npage s1' = npage s) by (injection Ew as <-; cbn; by rewrite (fr_npage _ _ _ Hfr1), (fr_npage _ _ _ Hfr)).
  rewrite (bind_ok _ _ _ _ _ (onp_at _ _ k0 _ _ (pa2page_page t Htl s1' ltac:(rewrite Hn1; lia)))).
  rewrite (bind_ok _ _ _ _ _ (onp_at _ _ k0 _ _ Ed)).
  rewrite (onp_at _ _ k0 _ _ (tlb_flush_ok (env_asid (env k0 e)) 0 s2)).
  eexists _, (spec_drop_table B1 d i t). split; [reflexivity|]. split_and!.
  - split; [by apply rel_sfence| |cbn; rewrite Hn2; apply Hfr1].
    apply (shrinks_trans d A B1 _ _ (rel_wf _ _ (fr_rel _ _ _ Hfr1)) (fr_shrinks _ _ _ Hfr1)).
    apply shrinks_drop_table; [done|]. intros j t' Hj ->.
    pose proof (wf_tab_inj _ _ (rel_wf _ _ (fr_rel _ _ _ Hfr1)) _ _ _ Hj Ht). congruence.
  - cbn. by rewrite lookup_delete_eq.
  - intros j Hj. cbn. rewrite Ht1. apply lookup_delete_None. by right.
Qed.

(** The whole loop *)
Lemma free_space_ok A s :
  d ∈ dirs A → rel s A → npage s = npage (pm k0) →
  ∃ s' B', for_each (seqZ 0 (PDX UTOP)) (free_pde e) (set_pm s k0) = Ok tt (set_pm s' k0) ∧
    freeing A s' B' ∧ (∀ i, tabs B' !! (d, i) = None) ∧ (∀ v, maps B' !! (d, v) = None).
Proof.
  intros Hd Hrel Hn.
  destruct (for_each_inv (λ dn k, ∃ s' B', k = set_pm s' k0 ∧ freeing A s' B' ∧
      (∀ j, j ∈ dn → tabs B' !! (d, j) = None)) (seqZ 0 (PDX UTOP)) (free_pde e)) with (set_pm s k0)
    as (k' & E & s' & B' & -> & Hfr' & Hdn).
  - intros dn i rest k Hl (s1 & B1 & -> & Hfr1 & Hdn).
    assert (Hi : 0 ≤ i < PDX UTOP).
    { assert (i ∈ seqZ 0 (PDX UTOP)) as Hin by (rewrite Hl; apply elem_of_app; right; apply list_elem_of_here).
      apply elem_of_seqZ in Hin. lia. }
    destruct (free_pde_ok A s1 B1 i Hd Hfr1 Hi) as (s2 & B2 & E & Hfr2 & Hi2 & Hmono).
    exists (set_pm s2 k0). split; [exact E|]. exists s2, B2. split_and!; try done.
    intros j [Hj| ->%list_elem_of_singleton]%elem_of_app; auto.
  - exists s, A. split_and!; [done|split; [done|apply shrinks_refl|done]|].
    intros j Hj. by apply elem_of_nil in Hj.
  - exists s', B'. pose proof (rel_wf _ _ (fr_rel _ _ _ Hfr')) as Hw.
    assert (Hno : ∀ i, tabs B' !! (d, i) = None).
    { intros i. destruct (tabs B' !! (d, i)) eqn:Ht; [|done].
      destruct (wf_tab _ _ Hw _ _ _ Ht) as (_ & Hi & _). rewrite Hdn in Ht; [done|]. apply elem_of_seqZ. lia. }
    split_and!; try done. intros v. destruct (maps B' !! (d, v)) as [[p f]|] eqn:Hm; [|done].
    destruct (wf_map _ _ Hw _ _ _ _ Hm) as (_ & [t Ht] & _). by rewrite Hno in Ht.
Qed.
End free.

(** * Dropping the last reference *)

Lemma unused_submap p A B : (∀ k x, maps B !! k = Some x → maps A !! k = Some x) →
  count p (maps A) = 0 → count p (maps B) = 0.
Proof.
  intros Hsub H0. apply count_zero. intros k f Hk%Hsub. pose proof (count_pos _ _ _ _ Hk). lia.
Qed.

Lemma spec_unpin_last A p :
  count p (maps A) = 0 → pin A p = 1 →
  dirs (spec_unpin A p) = dirs A ∧ tabs (spec_unpin A p) = tabs A ∧ maps (spec_unpin A p) = maps A ∧
  free (spec_unpin A p) = p :: free A ∧ (∀ q, pin (spec_unpin A p) q = if decide (p = q) then 0 else pin A q).
Proof.
  intros Hc Hp. unfold spec_unpin. rewrite Hc, Hp. cbn. split_and!; try done.
  intros q. exact (pin_spec_pin A p 0 q).
Qed.

(** [B'] is [B] with page [p], used once, back on the free list. *)
Record unpinned (p : Z) (B B' : vm) : Prop := {
  up_dirs : dirs B' = dirs B;
  up_tabs : tabs B' = tabs B;
  up_maps : maps B' = maps B;
  up_free : free B' = p :: free B;
  up_pin : ∀ q, pin B' q = if decide (p = q) then 0 else pin B q
}.

Section env_free.
Context `{LinkerSymbols}.

(** The page that copies the page directory, if there is one *)
Definition copy_page_of (A : vm) (np : Z) (v : Env) (q : option Z) : Prop :=
  match q with
  | None => env_pgdir_copy_pa v = 0
  | Some q => env_pgdir_copy_pa v = page2pa q ∧ 0 ≤ q < np ∧ q ∉ dirs A ∧ ¬ is_tab A q ∧
      count q (maps A) = 0 ∧ pin A q = 1
  end.

Lemma drop_copy_ok k0 e s B q :
  rel s B → copy_page_of B (npage s) (env k0 e) q →
  ∃ s' B',
    (if negb (env_pgdir_copy_pa (env k0 e) =? 0) then
       pp <- onp (pa2page (env_pgdir_copy_pa (env k0 e))) ;;
       r <- onp (gets (λ s, ref s pp)) ;;
       assert_ (r =? 1) ;;
       onp (page_decref pp)
     else ret tt) (set_pm s k0) = Ok tt (set_pm s' k0) ∧ rel s' B' ∧ npage s' = npage s ∧
    match q with Some q => unpinned q B B' | None => B' = B end.
Proof.
  intros Hrel Hq. destruct q as [q|]; cbn in Hq.
  - destruct Hq as (E & Hqn & Hd & Ht & Hc & Hp). pose proof (wf_np _ _ (rel_wf _ _ Hrel)) as Hnp.
    assert (Hql : 0 ≤ q < PAGE_LIMIT) by lia. rewrite E.
    pose proof (page2pa_above q Hql) as Hpa.
    rewrite (proj2 (Z.eqb_neq (page2pa q) 0)) by (unfold KERNBASE in *; lia). cbn [negb].
    rewrite (bind_ok _ _ _ _ _ (onp_at _ _ k0 _ _ (pa2page_page q Hql s (proj2 Hqn)))). step.
    change (sub_set (sub_get (set_pm s k0)) (set_pm s k0)) with (set_pm s k0).
    change (ref (sub_get (set_pm s k0)) q) with (ref s q).
    assert (Hf : q ∉ free B).
    { intros Hin. destruct (free_unused s B Hrel q Hin) as [_ ?]. lia. }
    rewrite (pin_ref s B Hrel q Hqn Ht), Hc, Hp. step.
    destruct (decref_pin_ok s B Hrel q Hqn Hf Ht) as (s' & Ed & Hr & Hn); [lia|done|].
    exists s', (spec_unpin B q). split; [by apply onp_at|]. split; [done|]. split; [done|].
    destruct (spec_unpin_last B q Hc Hp) as (?&?&?&?&?). by split.
  - exists s, B. by rewrite Hq.
Qed.

(** [env_free] up to the removal from the queue *)
Lemma env_free_ok k A e d q fl :
  rel (pm k) A → space k A e d → count d (maps A) = 0 → pin A d = 1 →
  copy_page_of A (npage (pm k)) (env k e) q →
  LIST_rep (env_free_list k) fl → e ∉ fl →
  ∃ s B k', env_free e k = sched_remove e k' ∧ freeing k d A s B ∧
    (∀ i, tabs B !! (d, i) = None) ∧ (∀ v, maps B !! (d, v) = None) ∧
    (∃ B1 B2, match q with Some q => unpinned q B B1 | None => B1 = B end ∧
       unpinned d (spec_drop_dir B1 d) B2 ∧ rel (pm k') B2) ∧
    (∀ x, env k' x = if decide (e = x) then set_env_status ENV_FREE (env k e) else env k x) ∧
    LIST_rep (env_free_list k') (e :: fl) ∧ env_sched_list k' = env_sched_list k ∧
    (∀ j, asid_used k' j = asid_used k j && negb (env_asid (env k e) =? j)) ∧ curenv k' = curenv k.
Proof.
  intros Hrel [Hpd Hd] Hcd Hpind Hq Hfl Hef.
  destruct (free_space_ok k e d Hpd A (pm k) Hd Hrel eq_refl) as (s & B & E & Hfr & Hnt & Hnm).
  rewrite set_pm_id in E. destruct Hfr as [HrB Hsh Hn] eqn:Efr. clear Efr.
  assert (HqB : copy_page_of B (npage s) (env k e) q).
  { destruct q as [q|]; [|done]. destruct Hq as (Eq & Hqn & Hqd & Hqt & Hqc & Hqp). rewrite Hn.
    unfold copy_page_of, pin. rewrite (sh_dirs _ _ _ Hsh), (sh_pins _ _ _ Hsh). split_and!; try done; try lia.
    - intros [k' Hk']. apply Hqt. exists k'. by apply (sh_tsub _ _ _ Hsh).
    - apply (unused_submap _ A); [apply Hsh|done]. }
  destruct (drop_copy_ok k e s B q HrB HqB) as (s1 & B1 & Ec & Hr1 & Hn1 & HB1).
  assert (Hfacts : d ∈ dirs B1 ∧ (∀ i, tabs B1 !! (d, i) = None) ∧ count d (maps B1) = 0 ∧ pin B1 d = 1).
  { assert (count d (maps B) = 0 ∧ pin B d = 1 ∧ d ∈ dirs B) as (Hc & Hp & HdB).
    { split_and!; [by apply (unused_submap _ A); [apply Hsh|]| |by rewrite (sh_dirs _ _ _ Hsh)].
      unfold pin. by rewrite (sh_pins _ _ _ Hsh). }
    destruct q as [q|]; [|by subst B1]. destruct HB1 as [Ud Ut Um Uf Up]. rewrite Ud, Ut, Um, Up.
    split_and!; try done. case_decide; [|done]. subst q. destruct Hq as (_ & _ & Hqd & _). done. }
  destruct Hfacts as (Hd1 & Hnt1 & Hc1 & Hp1).
  destruct (wf_dir _ _ (rel_wf _ _ Hr1) d Hd1) as [Hdn _].
  pose proof (wf_np _ _ (rel_wf _ _ Hr1)) as Hnp. assert (Hdl : 0 ≤ d < PAGE_LIMIT) by lia.
  assert (Hu : usable B1 (npage s1) d).
  { split_and!; [lia|lia| |].
    - intros Hin. by apply (free_not_dir s1 B1 Hr1 d).
    - intros [[d' i] Ht]. by apply (tab_not_dir B1 _ (rel_wf _ _ Hr1) _ _ _ Ht). }
  destruct (free_dir_ok s1 B1 d Hr1 Hu Hd1 Hnt1) as (s2 & E2 & Hr2 & Hn2).
  unfold env_free. rewrite (bind_ok _ _ _ _ _ E). step. change (env (set_pm s k) e) with (env k e).
  rewrite (bind_ok _ _ _ _ _ Ec). rewrite Hpd.
  pose proof (page2pa_above d Hdl) as Hpa.
  assert (Epa : ∀ k : kernel, PADDR (page2pa d) k = Ok (page2pa d) k).
  { intros k1. unfold PADDR. by rewrite (proj2 (Z.ltb_ge _ _)) by (unfold ULIM, KERNBASE in *; lia). }
  rewrite (bind_ok _ _ _ _ _ (Epa _)).
  rewrite (bind_ok _ _ _ _ _ (onp_at _ _ k _ _ (pa2page_page d Hdl s1 (proj2 Hdn)))).
  rewrite (bind_ok _ _ _ _ _ (onp_at _ _ k _ _ E2)).
  destruct (asid_free_ok (set_pm s2 k) (env_asid (env k e))) as (k3 & E3 & Ha & b & ->).
  rewrite (bind_ok _ _ _ _ _ E3). set (k3 := set_asid_bitmap b (set_pm s2 k)) in *.
  rewrite (bind_ok _ _ _ _ _ (onp_ok _ k3 _ _ (tlb_flush_ok (env_asid (env k e)) 0 (pm k3)))).
  rewrite (bind_ok _ _ _ _ _ (upd_env_ok _ _ _)). step.
  set (k4 := set_env_free_list _ _).
  exists s, B, k4. split; [reflexivity|]. split_and!; try done.
  - exists B1, (spec_unpin (spec_drop_dir B1 d) d). split_and!; [done| |].
    + destruct (spec_unpin_last (spec_drop_dir B1 d) d Hc1 Hp1) as (?&?&?&?&?). by split.
    + cbn. by apply rel_sfence.
  - intros x. unfold k4. exact (env_upd k e (set_env_status ENV_FREE) x).
  - by apply LIST_insert_head_rep.
Qed.
End env_free.

(** * Properties *)

(** C20. [env_free] takes an address space apart without leaks: all mappings,
    page tables and the directory of the environment are gone, other address
    spaces are unchanged, and every page, table or directory that nobody uses
    any more is on the free list, as is the page that copied the directory;
    the slot, its ASID and its place in the queue are released. *)
Theorem env_free_releases `{LinkerSymbols} k A e d q l1 l2 fl :
  rel (pm k) A → space k A e d → count d (maps A) = 0 → pin A d = 1 →
  copy_page_of A (npage (pm k)) (env k e) q →
  TAILQ_rep (env_sched_list k) (l1 ++ e :: l2) → LIST_rep (env_free_list k) fl → e ∉ fl →
  ∃ k' A', env_free e k = Ok tt k' ∧ rel (pm k') A' ∧
    dirs A' = dirs A ∖ {[d]} ∧ (∀ v, maps A' !! (d, v) = None) ∧
    (∀ d' v, d' ≠ d → maps A' !! (d', v) = maps A !! (d', v)) ∧
    (∀ p, p ∈ free A → p ∈ free A') ∧ (∀ p, 0 < uses A p → uses A' p = 0 → p ∈ free A') ∧
    d ∈ free A' ∧ (∀ i t, tabs A !! (d, i) = Some t → t ∈ free A') ∧
    (∀ p, q = Some p → p ∈ free A') ∧
    (∀ x, env k' x = if decide (e = x) then set_env_status ENV_FREE (env k e) else env k x) ∧
    LIST_rep (env_free_list k') (e :: fl) ∧ TAILQ_rep (env_sched_list k') (l1 ++ l2) ∧
    (∀ j, asid_used k' j = asid_used k j && negb (env_asid (env k e) =? j)).
Proof.
  intros Hrel Hsp Hcd Hpind Hq Hsq Hfl Hef.
  destruct (env_free_ok k A e d q fl Hrel Hsp Hcd Hpind Hq Hfl Hef)
    as (s & B & k1 & E & [HrB Hsh Hn] & Hnt & Hnm & (B1 & B2 & HB1 & [Ud Ut Um Uf Up] & Hr2) & Hv & Hl & Hsl & Ha & _).
  rewrite <- Hsl in Hsq. destruct (sched_remove_ok k1 l1 e l2 Hsq) as (q' & E4 & Hq').
  assert (HB1' : dirs B1 = dirs B ∧ maps B1 = maps B ∧ (∀ p, p ∈ free B → p ∈ free B1) ∧
    (∀ p, q = Some p → p ∈ free B1) ∧ (∀ p, pin B1 p = pin B p ∨ q = Some p)).
  { destruct q as [q|]; [|subst B1; naive_solver]. destruct HB1 as [Vd _ Vm Vf Vp]. split_and!; try done.
    - intros p Hp. rewrite Vf. by apply list_elem_of_further.
    - intros p [= ->]. rewrite Vf. apply list_elem_of_here.
    - intros p. rewrite Vp. case_decide; [subst; by right|by left]. }
  destruct HB1' as (D1 & M1 & F1 & Q1 & P1).
  assert (Hfree : ∀ p, p ∈ free B1 → p ∈ free B2) by (intros p Hp; rewrite Uf; by apply list_elem_of_further).
  exists (set_env_sched_list q' k1), B2. split_and!; try done.
  - by rewrite E.
  - rewrite Ud. cbn. by rewrite D1, (sh_dirs _ _ _ Hsh).
  - intros v. rewrite Um. cbn. by rewrite M1.
  - intros d' v Hd'. rewrite Um. cbn. rewrite M1. by apply (sh_maps _ _ _ Hsh).
  - intros p Hp. by apply Hfree, F1, (sh_free _ _ _ Hsh).
  - intros p Hp. unfold uses. rewrite Um, Up. cbn. rewrite M1.
    case_decide as Edp; [intros _; subst p; rewrite Uf; apply list_elem_of_here|].
    change (pin (spec_drop_dir B1 d) p) with (pin B1 p).
    destruct (P1 p) as [-> |Hqp]; [|intros _; by apply Hfree, Q1].
    intros H0. by apply Hfree, F1, (sh_released _ _ _ Hsh).
  - rewrite Uf. apply list_elem_of_here.
  - intros i t Ht. destruct (sh_tables _ _ _ Hsh i t Ht) as [Ht'|Hin]; [by rewrite Hnt in Ht'|].
    by apply Hfree, F1.
  - intros p Hp. by apply Hfree, Q1.
Qed.

Lemma env_free_releases_witness :
  ∃ k' A', env_free 5 w_sys = Ok tt k' ∧ rel (pm k') A' ∧ 0 ∈ free A' ∧ (uses A' 5 = 0 → 5 ∈ free A').
Proof.
  destruct (env_free_releases w_sys w_mapped_vm 5 0 None [] [] [] w_mapped_rel w_space5)
    as (k' & A' & E & Hr & _ & _ & _ & _ & Hu & Hd & _).
  - reflexivity.
  - reflexivity.
  - reflexivity.
  - apply w_sys_sched.
  - split_and!; [done|done|constructor].
  - apply not_elem_of_nil.
  - exists k', A'. split; [exact E|]. split; [exact Hr|]. split; [exact Hd|]. by apply Hu.
Defined.

(** Destroying an environment that was never scheduled (a child whose
    parent gives up before making it runnable) makes the kernel write through
    a null pointer: [env_free] removes it from the queue unconditionally. *)
Theorem env_free_of_unscheduled_faults `{LinkerSymbols} k A e d q fl :
  rel (pm k) A → space k A e d → count d (maps A) = 0 → pin A d = 1 →
  copy_page_of A (npage (pm k)) (env k e) q →
  LIST_rep (env_free_list k) fl → e ∉ fl →
  e_prev (link (TAILQ.lk (env_sched_list k)) e) = None →
  env_free e k = Fault "TAILQ_REMOVE".
Proof.
  intros Hrel Hsp Hcd Hpind Hq Hfl Hef Hprev.
  destruct (env_free_ok k A e d q fl Hrel Hsp Hcd Hpind Hq Hfl Hef)
    as (s & B & k1 & E & _ & _ & _ & _ & _ & _ & Hsl & _ & _).
  rewrite E. unfold sched_remove. step. rewrite Hsl. unfold TAILQ.TAILQ_REMOVE.
  destruct (TAILQ.TAILQ_NEXT (env_sched_list k) e) as [nx|] eqn:En.
  - unfold TAILQ.set_lk at 1. cbn. rewrite link_set_prev. case_decide; cbn; by rewrite Hprev.
  - unfold TAILQ.set_last at 1. cbn. by rewrite Hprev.
Qed.

Lemma env_free_of_unscheduled_faults_witness : env_free 6 w_sys = Fault "TAILQ_REMOVE".
Proof.
  apply (env_free_of_unscheduled_faults w_sys w_mapped_vm 6 0 None [] w_mapped_rel w_space6); try reflexivity.
  - split_and!; [done|done|constructor].
  - apply not_elem_of_nil.
Defined.
