(* ===== verification/TlbProps.v ===== *)
(** Page faults: demand paging and the copy-on-write upcall. *)
From S2P Require Import Prelude Mmu Queue Memory Pmap PmapSpec VmSteps Disk Env EnvProps Sched SchedProps.
From S2P Require Import Tlbex Syscall.
From S2P Require Import QueueProps PmapProps SyscallProps.

(** * Pages and addresses *)

Lemma rounddown_page va : 0 ≤ va < 2 ^ 32 → ROUNDDOWN va BY2PG = va / 4096 * 4096.
Proof. intros Hva. change BY2PG with (2 ^ 12). rewrite ROUNDDOWN_spec by lia. done. Qed.

Lemma rounddown_VPN va : 0 ≤ va < 2 ^ 32 → VPN (ROUNDDOWN va BY2PG) = VPN va.
Proof.
  intros Hva. rewrite rounddown_page by done. unfold VPN. rewrite !Z.shiftr_div_pow2 by lia.
  change (2 ^ 12) with 4096. by rewrite Z.div_mul by lia.
Qed.

Lemma rounddown_bound va m :
  0 ≤ va < 2 ^ 32 → m mod 4096 = 0 →
  (m ≤ va → m ≤ ROUNDDOWN va BY2PG) ∧ (va < m → ROUNDDOWN va BY2PG < m).
Proof.
  intros Hva Hm. rewrite rounddown_page by done. pose proof (Z.div_mod va 4096 ltac:(lia)).
  pose proof (Z.mod_pos_bound va 4096 ltac:(lia)). pose proof (Z.div_mod m 4096 ltac:(lia)).
  nia.
Qed.

(** Addresses at which [passive_alloc] provides a page *)
Definition on_demand (va : Z) : Prop :=
  UTEMP ≤ va < USTACKTOP ∨ USTACKTOP + BY2PG ≤ va < UTOP.

Lemma on_demand_user va : on_demand va → 0 ≤ va < UTOP.
Proof. unfold on_demand, USTACKTOP, BY2PG. change UTEMP with 4186112. change UTOP with 2134900736. lia. Qed.

Lemma rounddown_on_demand va : on_demand va → on_demand (ROUNDDOWN va BY2PG).
Proof.
  intros Hva. pose proof (on_demand_user va Hva) as Hu. change UTOP with 2134900736 in Hu.
  pose proof (rounddown_bound va) as Hb. unfold on_demand in *.
  destruct (Hb UTEMP), (Hb USTACKTOP), (Hb (USTACKTOP + BY2PG)), (Hb UTOP); try done; try lia.
Qed.

(** * Demand paging *)

Definition demand_perm : Z := Z.lor (Z.lor PTE_R PTE_W) PTE_U.

Section tlb.
Context `{LinkerSymbols, VoidResult}.

Lemma passive_alloc_ok k A d asid va :
  rel (pm k) A → d ∈ dirs A → on_demand va →
  match free A with
  | [] => passive_alloc va (page2pa d) asid k = Panic "panic_on"
  | p :: fl =>
      match spec_insert (set_vfree fl A) d (VPN va) p demand_perm with
      | Some A' => ∃ p', passive_alloc va (page2pa d) asid k = Ok tt (set_pm p' k) ∧ rel p' A' ∧
                     cur_pgdir p' = cur_pgdir (pm k) ∧
                     data_kept A' (clear_page (page2pa p) (mem (pm k))) (mem p')
      | None => passive_alloc va (page2pa d) asid k = Panic "panic_on"
      end
  end.
Proof.
  intros Hrel Hd Hva. pose proof (on_demand_user va Hva) as Hu. pose proof (rounddown_on_demand va Hva) as Hr.
  change UTOP with 2134900736 in Hu.
  assert (Hpass : passive_alloc va (page2pa d) asid k =
    (p <- onp (panic_on page_alloc) ;;
     panic_on (onp (page_insert (page2pa d) asid p (ROUNDDOWN va BY2PG) demand_perm))) k).
  { unfold passive_alloc. unfold on_demand in Hva.
    change UTEMP with 4186112 in *. change USTACKTOP with 2134892544 in *.
    change UENVS with 2134900736. change UPAGES with 2139095040. change UVPT with 2143289344.
    change ULIM with 2147483648. change BY2PG with 4096 in *. change UTOP with 2134900736 in *.
    destruct (Z.ltb_spec va 4186112); [lia|]. destruct (Z.geb_spec va 2134892544), (Z.ltb_spec va (2134892544 + 4096));
      try lia; cbn [andb];
      destruct (Z.geb_spec va 2134900736); try lia; destruct (Z.geb_spec va 2139095040); try lia; 
      destruct (Z.geb_spec va 2147483648); try lia; done. }
  rewrite Hpass. destruct (free A) as [|p fl] eqn:Hf.
  - assert (E : onp (panic_on page_alloc) k = Panic "panic_on").
    { unfold onp, lift, panic_on. change (sub_get k) with (pm k).
      by rewrite (page_alloc_empty (pm k) A Hrel Hf). }
    by rewrite (bind_panic _ _ _ _ E).
  - destruct (page_alloc_eq (pm k) A Hrel p fl Hf) as (l' & E & Hl).
    assert (E' : panic_on page_alloc (pm k) = Ok p (set_mem (clear_page (page2pa p)) (set_free l' (pm k))))
      by (unfold panic_on; by rewrite E).
    rewrite (bind_ok _ _ _ _ _ (onp_ok _ k _ _ E')).
    pose proof (rel_alloc (pm k) A Hrel p fl l' Hf Hl) as Hrel1.
    pose proof (fresh_insertable (pm k) A p fl l' demand_perm Hrel Hf Hl ltac:(done)) as Hins.
    pose proof (page_insert_ok _ _ d (ROUNDDOWN va BY2PG) asid p demand_perm Hrel1 Hd
      (on_demand_user _ Hr) Hins) as Hok.
    rewrite rounddown_VPN in Hok by lia.
    destruct (spec_insert (set_vfree fl A) d (VPN va) p demand_perm) as [A'|].
    + destruct Hok as (p' & Ei & Hr' & _ & Hc & Hk). exists p'. split_and!; try done.
      unfold panic_on. by erewrite onp_ok by exact Ei.
    + unfold panic_on. by erewrite onp_err by exact Hok.
Qed.

(** * The kernel's own accesses to user memory *)

Lemma user_pte_ok k A d va is_store p f :
  rel (pm k) A → cur_pgdir (pm k) = page2pa d → d ∈ dirs A → 0 ≤ va < UTOP →
  maps A !! (d, VPN va) = Some (p, f) →
  user_pte va is_store k = Ok (Z.lor (ADDR_PTE (page2pa p)) f) k.
Proof.
  intros Hrel Hc Hd Hva Hm. unfold user_pte. step. rewrite Hc.
  pose proof (onp_ok _ k _ _ (page_lookup_ok (pm k) A Hrel d va Hd Hva)) as E. rewrite set_pm_id in E.
  rewrite (bind_ok _ _ _ _ _ E). rewrite Hm.
  destruct (wf_map _ _ (rel_wf _ _ Hrel) _ _ _ _ Hm) as (_ & [t Ht] & _).
  destruct (vpn_range d va Hva) as (_ & _ & Hvi & Hk). rewrite Hvi in Ht. rewrite Ht. step.
  pose proof (mr_tab _ _ (rel_mem _ _ Hrel) d _ t (PTX va) Ht (PTX_bound va)) as Htab.
  rewrite <- Hk, Hm in Htab. unfold onp, lift, rd, gets. change (sub_get k) with (pm k).
  rewrite Htab. change (sub_set (pm k) k) with (set_pm (pm k) k). by rewrite set_pm_id.
Qed.

Lemma user_pa_ok k A d va (is_store : bool) p f :
  rel (pm k) A → cur_pgdir (pm k) = page2pa d → d ∈ dirs A → 0 ≤ va < UTOP →
  maps A !! (d, VPN va) = Some (p, f) → has f (if is_store then PTE_W else PTE_R) = true →
  user_pa va is_store k = Ok (page2pa p + va mod 4096) k.
Proof.
  intros Hrel Hc Hd Hva Hm Hf. unfold user_pa.
  rewrite (bind_ok _ _ _ _ _ (user_pte_ok k A d va is_store p f Hrel Hc Hd Hva Hm)).
  destruct (mapped_page (pm k) A Hrel d _ p f Hm) as (Hp & _). pose proof (np_limit (pm k) A Hrel).
  destruct (wf_map _ _ (rel_wf _ _ Hrel) _ _ _ _ Hm) as (_ & _ & _ & _ & Hfb & _).
  assert (has (Z.lor (ADDR_PTE (page2pa p)) f) (if is_store then PTE_W else PTE_R) = true) as ->.
  { destruct is_store; [change PTE_W with (2 ^ 2) in *|change PTE_R with (2 ^ 1) in *];
      rewrite has_testbit in * by lia; by rewrite pte_flags by lia. }
  destruct (page2pa_range p) as [Hr Ha]; [unfold PAGE_LIMIT in *; lia|].
  rewrite PTE_ADDR_pte by done. change 0xFFF with (Z.ones 12). rewrite Z.land_ones by lia.
  change (2 ^ 12) with 4096. unfold ret. do 2 f_equal.
  rewrite (Z.div_mod (page2pa p) 4096) at 1 by lia. rewrite Ha.
  rewrite Z.add_0_r, Z.mul_comm. change 4096 with (2 ^ 12) at 2.
  rewrite <- Z.shiftl_mul_pow2, lor_shiftl_add by (try apply Z.mod_pos_bound; lia).
  change (2 ^ 12) with 4096. pose proof (Z.div_mod (page2pa p) 4096 ltac:(lia)). lia.
Qed.

(** The lookup at the start of [do_tlb_miss] *)
Lemma miss_lookup k A d va :
  rel (pm k) A → d ∈ dirs A → 0 ≤ va < UTOP →
  ∃ r, onp (page_lookup (page2pa d) (ROUNDDOWN va BY2PG)) k = Ok r k ∧
    match maps A !! (d, VPN va) with
    | None => r = None
    | Some (p, f) => ∃ pte, r = Some (p, pte) ∧ onp (rd pte) k = Ok (Z.lor (ADDR_PTE (page2pa p)) f) k
    end.
Proof.
  intros Hrel Hd Hva. change UTOP with 2134900736 in Hva.
  destruct (rounddown_bound va 0) as [Hlo _]; [lia|done|]. destruct (rounddown_bound va UTOP) as [_ Hhi]; [lia|done|].
  change UTOP with 2134900736 in Hhi.
  assert (Hr : 0 ≤ ROUNDDOWN va BY2PG < UTOP) by (change UTOP with 2134900736; lia).
  pose proof (onp_ok _ k _ _ (page_lookup_ok (pm k) A Hrel d _ Hd Hr)) as E. rewrite set_pm_id in E.
  rewrite rounddown_VPN in E by lia. eexists. split; [exact E|].
  destruct (maps A !! (d, VPN va)) as [[p f]|] eqn:Hm; [|done].
  destruct (vpn_range d _ Hr) as (_ & _ & Hvi & Hk). rewrite rounddown_VPN in Hvi, Hk by lia.
  destruct (wf_map _ _ (rel_wf _ _ Hrel) _ _ _ _ Hm) as (_ & [t Ht] & _). rewrite Hvi in Ht. rewrite Ht.
  eexists. split; [done|].
  pose proof (mr_tab _ _ (rel_mem _ _ Hrel) d _ t (PTX (ROUNDDOWN va BY2PG)) Ht (PTX_bound _)) as Htab.
  rewrite <- Hk, Hm in Htab. unfold onp, lift, rd, gets. change (sub_get k) with (pm k).
  rewrite Htab. change (sub_set (pm k) k) with (set_pm (pm k) k). by rewrite set_pm_id.
Qed.

Lemma miss_passive k A d c va :
  rel (pm k) A → cur_pgdir (pm k) = page2pa d → d ∈ dirs A → curenv k = Some c →
  stval (kstack_tf k) = va → maps A !! (d, VPN va) = None →
  scause (kstack_tf k) = 15 ∧ on_demand va ∨ scause (kstack_tf k) = 13 ∧ UTEMP ≤ va < USTACKTOP →
  do_tlb_miss k = passive_alloc (ROUNDDOWN va BY2PG) (page2pa d) (env_asid (env k c)) k.
Proof.
  intros Hrel Hc Hd Hcur <- Hm Hcase. set (va := stval (kstack_tf k)) in *.
  assert (Hva : on_demand va) by (destruct Hcase as [[_ ?]|[_ ?]]; [done|by left]).
  destruct (miss_lookup k A d va Hrel Hd (on_demand_user va Hva)) as (r & E & Hr). rewrite Hm in Hr. subst r.
  unfold do_tlb_miss. do 2 step. rewrite Hc. fold va. rewrite (bind_ok _ _ _ _ _ E). step. rewrite Hcur.
  destruct Hcase as [[-> _]|[-> Hlow]].
  - change (15 =? 15) with true. done.
  - change (13 =? 15) with false. change (13 =? 13) with true. cbv iota.
    pose proof (on_demand_user va Hva) as Hu. change UTOP with 2134900736 in Hu.
    destruct (rounddown_bound va UTEMP) as [Hlo _]; [lia|done|].
    destruct (rounddown_bound va USTACKTOP) as [_ Hhi]; [lia|done|].
    destruct (Z.geb_spec (ROUNDDOWN va BY2PG) UTEMP) as [_|]; [|lia].
    destruct (Z.ltb_spec (ROUNDDOWN va BY2PG) USTACKTOP) as [_|]; [|lia].
    done.
Qed.
End tlb.

(** Environment 5 of [w_sys] runs in the directory in page 0. *)
Definition w_running (p : pmap) (tf : Trapframe) : kernel :=
  set_kstack_tf tf (set_curenv (Some 5) (set_pm (set_cur_pgdir (page2pa 0) p) w_sys)).

(** It has stored to an unmapped address. *)
Definition w_fault : kernel := w_running w_mapped (set_scause 15 (set_stval (UTEXT + 0x1008) tf0)).

Lemma rel_set_cur s A d : rel s A → rel (set_cur_pgdir d s) A.
Proof. intros [H1 H2 [R1 R2 R3 R4] H4]. by split; [|..|split|]. Qed.

(** C22. Demand paging: a load or store that faults at an unmapped user
    address (on a load outside the exception stack) gets a fresh page of
    zeros, readable and writable, at that page and nowhere else; no other data
    is written and the repeated access reaches the new page.  Without memory
    the kernel panics. *)
Theorem demand_paging `{LinkerSymbols, VoidResult} k A d c va :
  rel (pm k) A → cur_pgdir (pm k) = page2pa d → d ∈ dirs A → curenv k = Some c →
  stval (kstack_tf k) = va → maps A !! (d, VPN va) = None →
  scause (kstack_tf k) = 15 ∧ on_demand va ∨ scause (kstack_tf k) = 13 ∧ UTEMP ≤ va < USTACKTOP →
  match free A with
  | [] => do_tlb_miss k = Panic "panic_on"
  | p :: fl =>
      match spec_insert (set_vfree fl A) d (VPN va) p demand_perm with
      | None => do_tlb_miss k = Panic "panic_on"
      | Some A' =>
          ∃ p', do_tlb_miss k = Ok tt (set_pm p' k) ∧ rel p' A' ∧
            (∀ d' v', (d', v') ≠ (d, VPN va) → maps A' !! (d', v') = maps A !! (d', v')) ∧
            (∀ j, 0 ≤ j < 1024 → load (mem p') (page2pa p + 4 * j) = 0) ∧
            data_kept A' (clear_page (page2pa p) (mem (pm k))) (mem p') ∧
            ∀ is_store, user_pa va is_store (set_pm p' k) = Ok (page2pa p + va mod 4096) (set_pm p' k)
      end
  end.
Proof.
  intros Hrel Hc Hd Hcur Hst Hm Hcase. rewrite (miss_passive k A d c va) by done.
  assert (Hva : on_demand va) by (destruct Hcase as [[_ ?]|[_ ?]]; [done|by left]).
  pose proof (on_demand_user va Hva) as Hu.
  pose proof (passive_alloc_ok k A d (env_asid (env k c)) _ Hrel Hd (rounddown_on_demand va Hva)) as Hok.
  rewrite rounddown_VPN in Hok by (change UTOP with 2134900736 in Hu; lia).
  destruct (free A) as [|p fl] eqn:Hf; [done|]. destruct (spec_insert _ _ _ _ _) as [A'|] eqn:Ei; [|done].
  destruct Hok as (p' & E & Hr & Hcp & Hk). destruct (spec_insert_maps _ _ _ _ _ _ Ei) as (Hn & Hdirs & Ho).
  exists p'. split_and!; try done.
  - eapply fresh_zero; [done|done| |done]. rewrite Hdirs.
    apply (free_not_dir (pm k) A Hrel). rewrite Hf. apply list_elem_of_here.
  - intros b. apply (user_pa_ok _ A' d va b p (perm_flags demand_perm)); try done.
    + cbn. by rewrite Hcp.
    + by rewrite Hdirs.
    + by destruct b.
Qed.

Lemma demand_paging_witness :
  ∃ p', do_tlb_miss w_fault = Ok tt (set_pm p' w_fault) ∧ load (mem p') (page2pa 4 + 4 * 2) = 0.
Proof.
  pose proof (demand_paging w_fault w_mapped_vm 0 5 (UTEXT + 0x1008) (rel_set_cur _ _ _ w_mapped_rel)
    eq_refl w_dir eq_refl eq_refl eq_refl ltac:(left; split; [done|left; done])) as Hd.
  change (free w_mapped_vm) with [4] in Hd. cbv iota in Hd.
  revert Hd. case_match eqn:Ei; [|vm_compute in Ei; discriminate Ei]. clear Ei.
  intros (p' & E & _ & _ & Hz & _). exists p'. split; [exact E|apply Hz; lia].
Defined.

(** * Storing and loading a trap frame *)

Fixpoint store_words (a : Z) (l : list Z) (m : memory) : memory :=
  match l with
  | [] => m
  | x :: l' => store_words (a + 4) l' (store a x m)
  end.

Lemma load_store_words p j0 l m q j :
  0 ≤ p < PAGE_LIMIT → 0 ≤ q < PAGE_LIMIT → 0 ≤ j < 1024 → 0 ≤ j0 → j0 + Z.of_nat (length l) ≤ 1024 →
  load (store_words (page2pa p + 4 * j0) l m) (page2pa q + 4 * j) =
    if decide (p = q ∧ j0 ≤ j < j0 + Z.of_nat (length l))
    then u32 (nth (Z.to_nat (j - j0)) l 0) else load m (page2pa q + 4 * j).
Proof.
  intros Hp Hq Hj. revert j0 m. induction l as [|x l IH]; intros j0 m Hj0 Hl; cbn [store_words length].
  { rewrite decide_False; [done|]. cbn. lia. }
  cbn [length] in Hl. replace (page2pa p + 4 * j0 + 4) with (page2pa p + 4 * (j0 + 1)) by lia.
  rewrite IH by lia. rewrite load_store by (done || lia).
  destruct (decide (p = q ∧ j0 + 1 ≤ j < j0 + 1 + Z.of_nat (length l))) as [E|E].
  - rewrite decide_True by lia. replace (Z.to_nat (j - j0)) with (S (Z.to_nat (j - (j0 + 1)))) by lia. done.
  - destruct (decide (p = q ∧ j0 = j)) as [[-> ->]|E'].
    + rewrite decide_True by lia. by rewrite Z.sub_diag.
    + rewrite decide_False; [done|]. lia.
Qed.

(** Storing data does not change the address spaces. *)
Lemma mem_rel_data m A np p i x :
  wf A np → 0 ≤ p < PAGE_LIMIT → 0 ≤ i < 1024 → p ∉ dirs A → ¬ is_tab A p →
  mem_rel m A → mem_rel (store (page2pa p + 4 * i) x m) A.
Proof.
  intros Hwf Hp Hi Hd Ht [H1 H2]. split.
  - intros d j Hdd Hj. specialize (H1 d j Hdd Hj). rewrite load_store, decide_False; try done.
    + intros [-> _]. done.
    + by apply (dir_page A np).
    + change (PDX UTOP) with 509 in Hj. lia.
  - intros d j t k Htt Hk. specialize (H2 d j t k Htt Hk). rewrite load_store, decide_False; try done.
    + intros [-> _]. apply Ht. by eexists.
    + by apply (tab_page A np Hwf d j).
Qed.

Definition with_mem (m : memory) (k : kernel) : kernel := set_pm (set_mem (λ _, m) (pm k)) k.

Lemma with_mem_id k : with_mem (mem (pm k)) k = k.
Proof. by destruct k as [[]]. Qed.

Lemma rel_with_mem k A m m' : rel (pm (with_mem m k)) A → mem_rel m' A → rel (pm (with_mem m' k)) A.
Proof. intros [H1 H2 [R1 R2 R3 R4] _] Hm. by split; [| |split|]. Qed.

Section frame.
Context `{LinkerSymbols, VoidResult}.
Context (k : kernel) (A : vm) (d p f base off : Z).
Context (Hc : cur_pgdir (pm k) = page2pa d) (Hd : d ∈ dirs A).
(** [base] is the address of page [p]; [off] is a word offset into it. *)
Context (Hbase : 0 ≤ base) (Halign : base mod 4096 = 0) (Hlim : base + 4096 ≤ UTOP).
Context (Hm : maps A !! (d, VPN base) = Some (p, f)).
Context (HW : has f PTE_W = true) (HR : has f PTE_R = true) (Hpd : p ∉ dirs A).

Lemma in_page i : 0 ≤ i < 1024 →
  0 ≤ base + 4 * i < UTOP ∧ VPN (base + 4 * i) = VPN base ∧ (base + 4 * i) mod 4096 = 4 * i ∧
  Z.land (base + 4 * i) 3 = 0 ∧ u32 (base + 4 * i) = base + 4 * i.
Proof.
  intros Hi. change UTOP with 2134900736 in *. pose proof (Z.div_mod base 4096 ltac:(lia)) as Hb.
  rewrite Halign in Hb. split_and!; try lia.
  - unfold VPN. rewrite !Z.shiftr_div_pow2 by lia. change (2 ^ 12) with 4096.
    rewrite Hb, Z.add_0_r, Z.mul_comm at 1. rewrite Z.add_comm, Z.div_add, Z.div_small by lia.
    by rewrite Z.add_0_l.
  - rewrite Hb, Z.add_0_r, Z.mul_comm. rewrite Z.add_comm, Z.mod_add, Z.mod_small by lia. done.
  - change 3 with (Z.ones 2). rewrite Z.land_ones by lia. change (2 ^ 2) with 4.
    rewrite Hb, Z.add_0_r. replace (4096 * (base / 4096) + 4 * i) with ((1024 * (base / 4096) + i) * 4) by lia.
    by rewrite Z.mod_mul by lia.
  - apply u32_small. lia.
Qed.

Lemma user_store_word m i x : 0 ≤ i < 1024 → rel (pm (with_mem m k)) A →
  user_store (base + 4 * i) x (with_mem m k) = Ok tt (with_mem (store (page2pa p + 4 * i) x m) k) ∧
  rel (pm (with_mem (store (page2pa p + 4 * i) x m) k)) A.
Proof.
  intros Hi Hrel. destruct (in_page i Hi) as (Hva & Hv & Hmod & Hal & _).
  destruct (mapped_page _ A Hrel d _ p f Hm) as (Hp & Ht & _). pose proof (np_limit _ A Hrel).
  split.
  - unfold user_store. rewrite Hal. change (negb (0 =? 0)) with false. cbv iota.
    rewrite <- Hv in Hm.
    rewrite (bind_ok _ _ _ _ _ (user_pa_ok (with_mem m k) A d _ true p f Hrel Hc Hd Hva Hm HW)).
    by rewrite Hmod.
  - apply (rel_with_mem k A m); [done|]. apply (mem_rel_data _ A _ _ _ _ (rel_wf _ _ Hrel)); try done; [|apply Hrel].
    lia.
Qed.

Lemma user_load_word m i : 0 ≤ i < 1024 → rel (pm (with_mem m k)) A →
  user_load (base + 4 * i) (with_mem m k) = Ok (load m (page2pa p + 4 * i)) (with_mem m k).
Proof.
  intros Hi Hrel. destruct (in_page i Hi) as (Hva & Hv & Hmod & Hal & _).
  unfold user_load. rewrite Hal. change (negb (0 =? 0)) with false. cbv iota.
  rewrite <- Hv in Hm.
  rewrite (bind_ok _ _ _ _ _ (user_pa_ok (with_mem m k) A d _ false p f Hrel Hc Hd Hva Hm HR)).
  by rewrite Hmod.
Qed.

Lemma user_store_list i0 l i m :
  0 ≤ i0 → 0 ≤ i → i0 + i + Z.of_nat (length l) ≤ 1024 → rel (pm (with_mem m k)) A →
  for_each (zip (seqZ i (Z.of_nat (length l))) l)
    (λ q, user_store (u32 (base + 4 * i0 + 4 * q.1)) q.2) (with_mem m k) =
    Ok tt (with_mem (store_words (page2pa p + 4 * (i0 + i)) l m) k) ∧
  rel (pm (with_mem (store_words (page2pa p + 4 * (i0 + i)) l m) k)) A.
Proof.
  intros Hi0. revert i m. induction l as [|x l IH]; intros i m Hi Hl Hrel; cbn [length store_words]; [done|].
  cbn [length] in Hl. rewrite seqZ_cons by lia.
  replace (Z.pred (Z.of_nat (S (length l)))) with (Z.of_nat (length l)) by lia. cbn [zip zip_with for_each fst snd].
  replace (base + 4 * i0 + 4 * i) with (base + 4 * (i0 + i)) by lia.
  destruct (in_page (i0 + i)) as (_ & _ & _ & _ & ->); [lia|].
  destruct (user_store_word m (i0 + i) x ltac:(lia) Hrel) as [E Hrel'].
  rewrite (bind_ok _ _ _ _ _ E). specialize (IH (i + 1) _ ltac:(lia) ltac:(lia) Hrel').
  unfold Z.succ. replace (page2pa p + 4 * (i0 + i) + 4) with (page2pa p + 4 * (i0 + (i + 1))) by lia. exact IH.
Qed.

Lemma user_load_list n i m :
  0 ≤ i → i + Z.of_nat n ≤ 1024 → rel (pm (with_mem m k)) A →
  user_load_words n (base + 4 * i) (with_mem m k) =
    Ok (map (λ j, load m (page2pa p + 4 * j)) (seqZ i (Z.of_nat n))) (with_mem m k).
Proof.
  revert i. induction n as [|n IH]; intros i Hi Hn Hrel; cbn [user_load_words]; [done|].
  rewrite (bind_ok _ _ _ _ _ (user_load_word m i ltac:(lia) Hrel)).
  rewrite seqZ_cons by lia. replace (Z.pred (Z.of_nat (S n))) with (Z.of_nat n) by lia.
  destruct n as [|n]; [done|].
  replace (base + 4 * i + 4) with (base + 4 * (i + 1)) by lia.
  destruct (in_page (i + 1)) as (_ & _ & _ & _ & ->); [lia|].
  by rewrite (bind_ok _ _ _ _ _ (IH (i + 1) ltac:(lia) ltac:(lia) Hrel)).
Qed.
End frame.

(** * The trap frame as words *)

(** A trap frame as the hardware leaves it: 32 registers, all words *)
Definition tf_wf (tf : Trapframe) : Prop :=
  (∀ i, is_Some (regs tf !! i) ↔ 0 ≤ i < 32) ∧ Forall (λ x, 0 ≤ x < 2 ^ 32) (tf_words tf).

Lemma length_tf_words tf : length (tf_words tf) = 38%nat.
Proof. done. Qed.

Lemma tf_words_a0 tf : nth 10 (tf_words tf) 0 = reg_of tf 10.
Proof. reflexivity. Qed.

Lemma zip_map {A B} (g : A → B) (l : list A) : zip l (map g l) = map (λ x, (x, g x)) l.
Proof. induction l as [|x l IH]; [done|]. cbn. by rewrite IH. Qed.

Lemma words_tf_words tf : (∀ i, is_Some (regs tf !! i) ↔ 0 ≤ i < 32) → words_tf (tf_words tf) = tf.
Proof.
  intros Hr. destruct tf as [rs a b c d e g]. cbn [regs] in Hr.
  unfold words_tf, tf_words. cbn [sstatus sscratch scause sepc stval sip].
  rewrite take_app_length' by done. f_equal. apply map_eq. intros i.
  rewrite zip_map. destruct (rs !! i) as [x|] eqn:Hi.
  - assert (0 ≤ i < 32) as Hb by (apply Hr; by eexists).
    apply elem_of_list_to_map_1.
    + rewrite <- list_fmap_compose. cbn. rewrite (list_fmap_ext _ id) by done.
      rewrite list_fmap_id. apply NoDup_seqZ.
    + apply list_elem_of_fmap. exists i. unfold reg_of. cbn [regs]. rewrite Hi. split; [done|].
      apply elem_of_seqZ. lia.
  - apply not_elem_of_list_to_map_1. intros Hin. apply list_elem_of_fmap in Hin as ([j y] & -> & Hj).
    apply list_elem_of_fmap in Hj as (j' & [= -> ->] & Hj). apply elem_of_seqZ in Hj.
    cbn in Hi. assert (is_Some (rs !! j')) as [? E] by (apply Hr; lia). congruence.
Qed.

Lemma map_nth_seqZ (l : list Z) i :
  map (λ j, nth (Z.to_nat (j - i)) l 0) (seqZ i (Z.of_nat (length l))) = l.
Proof.
  revert i. induction l as [|x l IH]; intros i; [done|]. cbn [length].
  rewrite seqZ_cons by lia. replace (Z.pred (Z.of_nat (S (length l)))) with (Z.of_nat (length l)) by lia.
  cbn [map]. rewrite Z.sub_diag. f_equal. rewrite <- (IH (Z.succ i)) at 2.
  apply map_ext_in. intros j Hj. apply list_elem_of_In, elem_of_seqZ in Hj.
  replace (Z.to_nat (j - i)) with (S (Z.to_nat (j - Z.succ i))) by lia. done.
Qed.

(** Reading back what was stored *)
Lemma stored_words p i l m :
  0 ≤ p < PAGE_LIMIT → 0 ≤ i → i + Z.of_nat (length l) ≤ 1024 → Forall (λ x, 0 ≤ x < 2 ^ 32) l →
  map (λ j, load (store_words (page2pa p + 4 * i) l m) (page2pa p + 4 * j)) (seqZ i (Z.of_nat (length l))) = l.
Proof.
  intros Hp Hi Hl Hw. etrans; [|apply (map_nth_seqZ l i)]. apply map_ext_in.
  intros j Hj. apply list_elem_of_In, elem_of_seqZ in Hj.
  rewrite load_store_words by (done || lia). rewrite decide_True by lia. apply u32_small.
  rewrite Forall_nth in Hw. apply Hw. lia.
Qed.

(** What memory holds after a trap frame has been stored *)
Lemma frame_contents p i tf m :
  0 ≤ p < PAGE_LIMIT → 0 ≤ i → i + 38 ≤ 1024 → Forall (λ x, 0 ≤ x < 2 ^ 32) (tf_words tf) →
  let m' := store_words (page2pa p + 4 * i) (tf_words tf) m in
  map (λ j, load m' (page2pa p + 4 * j)) (seqZ i 38) = tf_words tf ∧
  load m' (page2pa p + 4 * (i + 10)) = reg_of tf 10 ∧
  (∀ r j, 0 ≤ r < PAGE_LIMIT → 0 ≤ j < 1024 → r ≠ p →
     load m' (page2pa r + 4 * j) = load m (page2pa r + 4 * j)).
Proof.
  intros Hp Hi Hi' Hw. pose proof (proj1 (Forall_nth _ 0 _) Hw 10%nat ltac:(rewrite length_tf_words; lia)) as Hx.
  rewrite tf_words_a0 in Hx.
  pose proof (stored_words p i (tf_words tf) m Hp Hi) as Hb.
  pose proof (load_store_words p i (tf_words tf) m) as Hl.
  rewrite length_tf_words in Hb, Hl. change (Z.of_nat 38) with 38 in Hb, Hl.
  split; [by apply Hb|]. split.
  - rewrite Hl by lia. rewrite decide_True by lia. replace (Z.to_nat (i + 10 - i)) with 10%nat by lia.
    rewrite tf_words_a0. by apply u32_small.
  - intros r j Hr Hj Hne. rewrite Hl by lia. rewrite decide_False; [done|]. intros [-> _]. done.
Qed.

(** * The copy-on-write upcall *)

(** Where the saved context ends: a nested fault continues the exception
    stack, any other starts at its top. *)
Definition upcall_top (tf : Trapframe) : Z :=
  if (sscratch tf <? USTACKTOP) || (sscratch tf >=? UXSTACKTOP) then UXSTACKTOP else sscratch tf.
Definition upcall_frame (tf : Trapframe) : Z := upcall_top tf - SIZEOF_TRAPFRAME.

(** The context in which the handler [entry] starts *)
Definition upcall_tf (entry : Z) (tf : Trapframe) : Trapframe :=
  set_sepc entry (set_sscratch (upcall_frame tf - 4) (set_reg 10 (upcall_frame tf) tf)).

Lemma upcall_frame_bound tf :
  UXSTACKTOP - BY2PG ≤ upcall_frame tf → upcall_frame tf mod 4 = 0 →
  ∃ i, 0 ≤ i ∧ i + 38 ≤ 1024 ∧ upcall_frame tf = UXSTACKTOP - BY2PG + 4 * i.
Proof.
  intros Hlo Hal. exists ((upcall_frame tf - (UXSTACKTOP - BY2PG)) / 4).
  assert (upcall_frame tf + 152 ≤ UXSTACKTOP).
  { unfold upcall_frame, upcall_top, SIZEOF_TRAPFRAME.
    destruct (Z.ltb_spec (sscratch tf) USTACKTOP), (Z.geb_spec (sscratch tf) UXSTACKTOP); cbn; lia. }
  change UXSTACKTOP with 2134900736 in *. change BY2PG with 4096 in *.
  pose proof (Z.div_mod (upcall_frame tf) 4 ltac:(lia)). rewrite Hal in *.
  assert (upcall_frame tf - (2134900736 - 4096) = (upcall_frame tf / 4 - 533724160) * 4) as -> by lia.
  rewrite Z.div_mul by lia. lia.
Qed.

Lemma keep_sscratch k : set_kstack_tf (set_sscratch (sscratch (kstack_tf k)) (kstack_tf k)) k = k.
Proof. by destruct k as [? ? ? ? ? ? ? ? ? ? [] ? ? ?]. Qed.

Section upcall.
Context `{LinkerSymbols, VoidResult}.

(** Saving a context on the exception stack of the running environment *)
Lemma store_frame_ok k A d p f i tf :
  rel (pm k) A → cur_pgdir (pm k) = page2pa d → d ∈ dirs A →
  maps A !! (d, VPN (UXSTACKTOP - BY2PG)) = Some (p, f) →
  has f PTE_W = true → has f PTE_R = true → p ∉ dirs A → 0 ≤ i → i + 38 ≤ 1024 →
  let m := store_words (page2pa p + 4 * i) (tf_words tf) (mem (pm k)) in
  user_store_tf (UXSTACKTOP - BY2PG + 4 * i) tf k = Ok tt (with_mem m k) ∧ rel (pm (with_mem m k)) A.
Proof.
  intros Hrel Hc Hd Hm HW HR Hpd Hi Hi'.
  pose proof (user_store_list k A d p f (UXSTACKTOP - BY2PG) Hc Hd ltac:(done) eq_refl ltac:(done) Hm HW Hpd
    i (tf_words tf) 0 (mem (pm k)) Hi ltac:(done)) as Hs.
  rewrite length_tf_words in Hs. specialize (Hs ltac:(lia)).
  rewrite with_mem_id, Z.add_0_r in Hs. exact (Hs Hrel).
Qed.

Lemma do_tlb_mod_ok k A d c p f i :
  let tf := kstack_tf k in
  let m := store_words (page2pa p + 4 * i) (tf_words tf) (mem (pm k)) in
  rel (pm k) A → cur_pgdir (pm k) = page2pa d → d ∈ dirs A → curenv k = Some c →
  env_user_tlb_mod_entry (env k c) ≠ 0 →
  maps A !! (d, VPN (UXSTACKTOP - BY2PG)) = Some (p, f) →
  has f PTE_W = true → has f PTE_R = true → p ∉ dirs A →
  upcall_frame tf = UXSTACKTOP - BY2PG + 4 * i → 0 ≤ i → i + 38 ≤ 1024 →
  rel (pm (with_mem m k)) A ∧
  do_tlb_mod k = Ok tt (with_mem m (set_kstack_tf (upcall_tf (env_user_tlb_mod_entry (env k c)) tf) k)).
Proof.
  intros tf m Hrel Hc Hd Hcur He Hm HW HR Hpd Hfr Hi Hi'.
  set (k1 := set_kstack_tf (set_sscratch (upcall_frame tf) tf) k).
  destruct (store_frame_ok k1 A d p f i tf Hrel Hc Hd Hm HW HR Hpd Hi Hi') as [E Hrel'].
  split; [exact Hrel'|]. rewrite <- Hfr in E.
  assert (Hb : 0 ≤ upcall_frame tf - 4 < 2 ^ 32 - 8).
  { rewrite Hfr. change UXSTACKTOP with 2134900736. change BY2PG with 4096. lia. }
  unfold do_tlb_mod. step. fold tf.
  set (k0 := set_kstack_tf (set_sscratch (upcall_top tf) tf) k).
  assert (E0 : (if (sscratch tf <? USTACKTOP) || (sscratch tf >=? UXSTACKTOP)
    then upd_tf (set_sscratch UXSTACKTOP) else ret tt) k = Ok tt k0).
  { unfold k0, upcall_top. destruct (_ || _); [done|]. unfold tf. by rewrite keep_sscratch. }
  rewrite (bind_ok _ _ _ _ _ E0). step.
  change (sscratch (kstack_tf k0) - SIZEOF_TRAPFRAME) with (upcall_frame tf). rewrite u32_small by lia.
  change (set_kstack_tf _ k0) with k1. step. rewrite (bind_ok _ _ _ _ _ E).
  set (k2 := with_mem _ k1).
  rewrite (bind_ok cur _ c k2 k2) by (unfold cur, bind, gets; change (curenv k2) with (curenv k); by rewrite Hcur).
  step. change (env k2 c) with (env k c). destruct (Z.eqb_spec (env_user_tlb_mod_entry (env k c)) 0); [done|].
  cbn [negb]. do 2 step. unfold upd_tf, modify. change (sscratch (kstack_tf _)) with (upcall_frame tf).
  cbn [kstack_tf sscratch set_kstack_tf set_sscratch set_reg set_regs].
  change (u32 (sscratch (set_regs _ _) - 4)) with (u32 (upcall_frame tf - 4)).
  rewrite (u32_small (upcall_frame tf - 4)) by lia. reflexivity.
Qed.

(** A store to a copy-on-write page starts the upcall. *)
Lemma cow_fault k A d q g :
  rel (pm k) A → cur_pgdir (pm k) = page2pa d → d ∈ dirs A → 0 ≤ stval (kstack_tf k) < UTOP →
  maps A !! (d, VPN (stval (kstack_tf k))) = Some (q, g) → has g PTE_COW = true →
  scause (kstack_tf k) = 15 → do_tlb_miss k = do_tlb_mod k.
Proof.
  intros Hrel Hc Hd Hva Hm Hg Hs. destruct (miss_lookup k A d _ Hrel Hd Hva) as (r & E & Hr).
  rewrite Hm in Hr. destruct Hr as (pte & -> & Epte).
  unfold do_tlb_miss. do 2 step. rewrite Hc, (bind_ok _ _ _ _ _ E). cbv iota beta.
  rewrite (bind_ok _ _ _ _ _ Epte), Hs. change PTE_COW with (2 ^ 8) in *.
  destruct (mapped_page (pm k) A Hrel d _ q g Hm) as (Hp & _). pose proof (np_limit (pm k) A Hrel).
  rewrite has_testbit in * by lia. by rewrite pte_flags, Hg by lia.
Qed.

(** [sys_set_trapframe] of the running environment from its exception stack *)
Lemma set_trapframe_ok k A d c p f i :
  rel (pm k) A → cur_pgdir (pm k) = page2pa d → d ∈ dirs A → curenv k = Some c →
  maps A !! (d, VPN (UXSTACKTOP - BY2PG)) = Some (p, f) → has f PTE_R = true → 0 ≤ i → i + 38 ≤ 1024 →
  let l := map (λ j, load (mem (pm k)) (page2pa p + 4 * j)) (seqZ i 38) in
  sys_set_trapframe 0 (UXSTACKTOP - BY2PG + 4 * i) k =
    Ok (load (mem (pm k)) (page2pa p + 4 * (i + 10))) (set_kstack_tf (words_tf l) k).
Proof.
  intros Hrel Hc Hd Hcur Hm HR Hi Hi' l. unfold sys_set_trapframe.
  assert (is_illegal_va_range (UXSTACKTOP - BY2PG + 4 * i) SIZEOF_TRAPFRAME = false) as ->.
  { unfold is_illegal_va_range. change (SIZEOF_TRAPFRAME =? 0) with false. cbv iota.
    unfold SIZEOF_TRAPFRAME. change UXSTACKTOP with 2134900736. change BY2PG with 4096.
    change UTEMP with 4186112. change UTOP with 2134900736. rewrite u32_small by lia.
    destruct (Z.ltb_spec (2134900736 - 4096 + 4 * i + 152) (2134900736 - 4096 + 4 * i)); [lia|].
    destruct (Z.ltb_spec (2134900736 - 4096 + 4 * i) 4186112); [lia|]. cbn [orb].
    destruct (Z.gtb_spec (2134900736 - 4096 + 4 * i + 152) 2134900736); [lia|done]. }
  unfold envid2env. change (0 =? 0) with true. cbv iota. do 2 step. rewrite bool_decide_true by done.
  pose proof (user_load_list k A d p f (UXSTACKTOP - BY2PG) Hc Hd ltac:(done) eq_refl ltac:(done) Hm HR
    38 i (mem (pm k)) Hi ltac:(lia)) as El. rewrite with_mem_id in El. specialize (El Hrel).
  unfold user_load_tf. rewrite bind_assoc, (bind_ok _ _ _ _ _ El). do 2 step.
  set (k' := set_kstack_tf _ k).
  pose proof (user_load_word k' A d p f (UXSTACKTOP - BY2PG) Hc Hd ltac:(done) eq_refl ltac:(done) Hm HR
    (mem (pm k')) (i + 10) ltac:(lia)) as Ew. rewrite with_mem_id in Ew.
  replace (UXSTACKTOP - BY2PG + 4 * i + 4 * 10) with (UXSTACKTOP - BY2PG + 4 * (i + 10)) by lia.
  rewrite u32_small; [exact (Ew Hrel)|]. change UXSTACKTOP with 2134900736. change BY2PG with 4096. lia.
Qed.

(** The upcall of a store to a copy-on-write page *)
Lemma cow_upcall_ok k A c d q g p f :
  let tf := kstack_tf k in
  let frame := upcall_frame tf in
  rel (pm k) A → cur_pgdir (pm k) = page2pa d → d ∈ dirs A → curenv k = Some c → tf_wf tf →
  scause tf = 15 → 0 ≤ stval tf < UTOP → maps A !! (d, VPN (stval tf)) = Some (q, g) → has g PTE_COW = true →
  env_user_tlb_mod_entry (env k c) ≠ 0 →
  maps A !! (d, VPN (UXSTACKTOP - BY2PG)) = Some (p, f) →
  has f PTE_W = true → has f PTE_R = true → p ∉ dirs A →
  UXSTACKTOP - BY2PG ≤ frame → frame mod 4 = 0 →
  ∃ m i, 0 ≤ i ∧ i + 38 ≤ 1024 ∧ frame = UXSTACKTOP - BY2PG + 4 * i ∧ rel (pm (with_mem m k)) A ∧
    do_tlb_miss k = Ok tt (with_mem m (set_kstack_tf (upcall_tf (env_user_tlb_mod_entry (env k c)) tf) k)) ∧
    map (λ j, load m (page2pa p + 4 * j)) (seqZ i 38) = tf_words tf ∧
    load m (page2pa p + 4 * (i + 10)) = reg_of tf 10 ∧
    (∀ r j, 0 ≤ r < PAGE_LIMIT → 0 ≤ j < 1024 → r ≠ p →
       load m (page2pa r + 4 * j) = load (mem (pm k)) (page2pa r + 4 * j)).
Proof.
  intros tf frame Hrel Hc Hd Hcur [Hregs Hwords] Hs Hva Hq Hg He Hm HW HR Hpd Hlo Hal.
  destruct (upcall_frame_bound tf Hlo Hal) as (i & Hi & Hi' & Hfr).
  destruct (mapped_page (pm k) A Hrel d _ p f Hm) as (Hp & _). pose proof (np_limit (pm k) A Hrel) as Hnp.
  destruct (do_tlb_mod_ok k A d c p f i Hrel Hc Hd Hcur He Hm HW HR Hpd Hfr Hi Hi') as [Hrel' E].
  destruct (frame_contents p i tf (mem (pm k)) ltac:(lia) Hi Hi' Hwords) as (Hback & H10 & Hother).
  fold tf in E, Hrel'. revert Hrel' E Hback H10 Hother. generalize (store_words (page2pa p + 4 * i) (tf_words tf) (mem (pm k))).
  intros m Hrel' E Hback H10 Hother. exists m, i. rewrite (cow_fault k A d q g) by done. by split_and!.
Qed.
End upcall.

(** C21. The copy-on-write upcall is a round trip: a store to a page marked
    PTE_COW saves the interrupted context on the exception stack, writing
    nothing else, and starts the registered handler with the address of the
    saved context in a0 and the stack below it; when the handler hands that
    address to [sys_set_trapframe], every register, the program counter and
    the status of the interrupted program are restored exactly. *)
Theorem cow_upcall_roundtrip `{LinkerSymbols, VoidResult} k A d c q g p f :
  let tf := kstack_tf k in
  let frame := upcall_frame tf in
  rel (pm k) A → cur_pgdir (pm k) = page2pa d → d ∈ dirs A → curenv k = Some c → tf_wf tf →
  scause tf = 15 → 0 ≤ stval tf < UTOP → maps A !! (d, VPN (stval tf)) = Some (q, g) → has g PTE_COW = true →
  env_user_tlb_mod_entry (env k c) ≠ 0 →
  maps A !! (d, VPN (UXSTACKTOP - BY2PG)) = Some (p, f) →
  has f PTE_W = true → has f PTE_R = true → p ∉ dirs A →
  UXSTACKTOP - BY2PG ≤ frame → frame mod 4 = 0 →
  ∃ k', do_tlb_miss k = Ok tt k' ∧ rel (pm k') A ∧
    kstack_tf k' = upcall_tf (env_user_tlb_mod_entry (env k c)) tf ∧
    (∀ r j, 0 ≤ r < PAGE_LIMIT → 0 ≤ j < 1024 → r ≠ p →
       load (mem (pm k')) (page2pa r + 4 * j) = load (mem (pm k)) (page2pa r + 4 * j)) ∧
    ∀ t, sys_set_trapframe 0 frame (set_kstack_tf t k') = Ok (reg_of tf 10) (set_kstack_tf tf k').
Proof.
  intros tf frame Hrel Hc Hd Hcur Hwf Hs Hva Hq Hg He Hm HW HR Hpd Hlo Hal.
  destruct (cow_upcall_ok k A c d q g p f) as (m & i & Hi & Hi' & Hfr & Hrel' & E & Hback & H10 & Hother); try done.
  eexists. split; [exact E|]. split; [exact Hrel'|]. split; [done|]. split; [exact Hother|].
  intros t. unfold frame. fold tf in Hfr, Hback, H10. rewrite Hfr. set (k' := set_kstack_tf t _).
  pose proof (set_trapframe_ok k' A d c p f i Hrel' Hc Hd Hcur Hm HR Hi Hi') as Es.
  cbv zeta in Es. change (mem (pm k')) with m in Es. rewrite Hback, H10, words_tf_words in Es by apply Hwf. exact Es.
Qed.

(** A program with an exception stack in page 6 and page 5, copy-on-write, at
    UTEXT, has stored to the latter. *)
Definition w_cow_pm : pmap :=
  match (page_insert (page2pa 0) 1 6 (UXSTACKTOP - BY2PG) (Z.lor PTE_W PTE_U) ;;
         page_insert (page2pa 0) 1 5 UTEXT (Z.lor (Z.lor PTE_COW PTE_R) PTE_U)) w_mapped with Ok _ s => s | _ => w_mapped end.
Definition w_cow_vm : vm :=
  default w_mapped_vm
    (A ← spec_insert w_mapped_vm 0 (VPN (UXSTACKTOP - BY2PG)) 6 (Z.lor PTE_W PTE_U);
     spec_insert A 0 (VPN UTEXT) 5 (Z.lor (Z.lor PTE_COW PTE_R) PTE_U)).
Definition w_cow_tf : Trapframe :=
  MkTf (list_to_map (map (λ i, (i, 100 + i)) (seqZ 0 32))) 32 0x7f3fd000 15 0x400100 (UTEXT + 4) 0.
Definition w_cow : kernel :=
  let k := w_running w_cow_pm w_cow_tf in
  set_envs (<[5 := set_env_user_tlb_mod_entry 0x400200 (env k 5)]> (envs k)) k.

Lemma w_cow_rel : rel w_cow_pm w_cow_vm.
Proof.
  assert (H6 : insertable w_mapped w_mapped_vm 6 (Z.lor PTE_W PTE_U)).
  { split; try done.
    - rewrite list_elem_of_In. by intros [?|[]].
    - intros [k Hk]. change (tabs w_mapped_vm) with ({[(0, 1) := 3]} : gmap (Z * Z) Z) in Hk.
      by apply lookup_singleton_Some in Hk as [_ ?]. }
  pose proof (page_insert_ok _ _ 0 (UXSTACKTOP - BY2PG) 1 6 (Z.lor PTE_W PTE_U) w_mapped_rel w_dir ltac:(done) H6) as H.
  unfold w_cow_pm, w_cow_vm.
  destruct (spec_insert w_mapped_vm 0 (VPN (UXSTACKTOP - BY2PG)) 6 (Z.lor PTE_W PTE_U)) as [A1|] eqn:E1;
    [|vm_compute in E1; discriminate E1].
  destruct H as (s1 & E & Hrel1 & _). rewrite (bind_ok _ _ _ _ _ E). cbn [mbind option_bind].
  assert (Hm5 : maps A1 !! (0, VPN UTEXT) = Some (5, perm_flags PTE_W)).
  { clear -E1. vm_compute in E1. injection E1 as <-. by vm_compute. }
  assert (Hr5 : ref s1 5 = 1).
  { clear -E. vm_compute in E. injection E as <-. by vm_compute. }
  pose proof (mapped_insertable (set_pm s1 w_kernel) A1 0 _ 5 _ (Z.lor (Z.lor PTE_COW PTE_R) PTE_U) Hrel1 Hm5) as H5.
  change (pm (set_pm s1 w_kernel)) with s1 in H5. rewrite Hr5 in H5. specialize (H5 ltac:(clear; lia) ltac:(clear; done)).
  assert (Hd1 : 0 ∈ dirs A1) by (destruct (spec_insert_maps _ _ _ _ _ _ E1) as (_ & -> & _); exact w_dir).
  pose proof (page_insert_ok _ _ 0 UTEXT 1 5 (Z.lor (Z.lor PTE_COW PTE_R) PTE_U) Hrel1 Hd1 ltac:(clear; done) H5) as H.
  destruct (spec_insert A1 0 (VPN UTEXT) 5 (Z.lor (Z.lor PTE_COW PTE_R) PTE_U)) as [A2|] eqn:E2.
  - destruct H as (s2 & -> & Hrel2 & _). exact Hrel2.
  - exfalso. clear -E1 E2. vm_compute in E1. injection E1 as <-. vm_compute in E2. discriminate E2.
Qed.

Lemma w_cow_tf_wf : tf_wf w_cow_tf.
Proof.
  split.
  - intros i. change (regs w_cow_tf) with (list_to_map (map (λ i, (i, 100 + i)) (seqZ 0 32)) : gmap Z Z).
    rewrite <- elem_of_dom, dom_list_to_map, elem_of_list_to_set, <- list_fmap_compose.
    rewrite (list_fmap_ext _ id) by done. rewrite list_fmap_id, elem_of_seqZ. lia.
  - apply (bool_decide_eq_true_1 _). by vm_compute.
Qed.

Lemma cow_upcall_roundtrip_witness :
  ∃ k', do_tlb_miss w_cow = Ok tt k' ∧ sepc (kstack_tf k') = 0x400200 ∧
    ∀ t, sys_set_trapframe 0 (UXSTACKTOP - 152) (set_kstack_tf t k') = Ok 110 (set_kstack_tf w_cow_tf k').
Proof.
  destruct (cow_upcall_roundtrip w_cow w_cow_vm 0 5 5 (perm_flags (Z.lor (Z.lor PTE_COW PTE_R) PTE_U)) 6
    (perm_flags (Z.lor PTE_W PTE_U)) (rel_set_cur _ _ _ w_cow_rel) eq_refl w_dir eq_refl w_cow_tf_wf eq_refl)
    as (k' & E & _ & Hk & _ & Hs); [split; vm_compute; congruence|by vm_compute|by vm_compute|by vm_compute|by vm_compute|
      by vm_compute|by vm_compute| |by vm_compute|by vm_compute|].
  { change (dirs w_cow_vm) with ({[0]} : gset Z). rewrite elem_of_singleton. lia. }
  exists k'. split; [exact E|]. split; [by rewrite Hk|exact Hs].
Defined.
