(* ===== verification/Fork.v ===== *)
(** Copy-on-write fork: user/lib/fork.c and user/lib/syscall_lib.c, as the
    running environment executes it on the kernel.

    A system call of the program is the handler of kern/syscall_all.c on the
    kernel state, seen through its [int] result ([msyscall]).  [vpd] and [vpt]
    are the views of the running environment's page directory and tables that
    [do_tlb_miss] sets up at UVPT; reading them gives the entries themselves.
    The program's own registers and stack are not part of the state. *)
From S2P Require Import Prelude Mmu Queue Memory Pmap VmSteps Disk Env Sched Tlbex Syscall.

(** The address of [cow_entry] in the program *)
Class ForkSymbols := cow_entry_addr : Z.

Section fork.
Context `{LinkerSymbols, VoidResult, ForkSymbols}.

(** [panic_on] of a system call's result in a program *)
Definition user_panic_on (m : M kernel Z) : M kernel unit :=
  r <- result m ;; if r =? 0 then ret tt else panic "user_panic".

(** [try] of a system call's result *)
Definition user_try (m : M kernel Z) : M kernel unit :=
  r <- result m ;; if negb (r =? 0) then err r else ret tt.

Definition vpd (i : Z) : M kernel Z :=
  d <- gets (λ k, cur_pgdir (pm k)) ;; onp (rd (d + 4 * i)).

Definition vpt (n : Z) : M kernel Z :=
  pde <- vpd (n / 1024) ;;
  if negb (has pde PTE_V) then panic "not a valid pte"
  else
    t <- onp (KADDR (PTE_ADDR pde)) ;;
    onp (rd (t + 4 * (n mod 1024))).

Definition duppage (envid vpn : Z) : M kernel unit :=
  let addr := u32 (vpn * BY2PG) in
  pte <- vpt vpn ;;
  let perm := Z.land pte 0x3FF in
  if has perm PTE_W && negb (has perm PTE_COW) && negb (has perm PTE_LIBRARY) then
    let perm := Z.lor (Z.lxor perm PTE_W) PTE_COW in
    user_panic_on (sys_mem_map 0 addr envid addr perm) ;;
    user_panic_on (sys_mem_map 0 addr 0 addr perm)
  else
    user_panic_on (sys_mem_map 0 addr envid addr perm).

(** One round of the loop over the pages below USTACKTOP *)
Definition fork_page (child i : Z) : M kernel unit :=
  pde <- vpd (PDX (i * BY2PG)) ;;
  if has pde PTE_V then
    pte <- vpt i ;;
    if has pte PTE_V then duppage child i else ret tt
  else ret tt.

(** The call in the parent; the child resumes behind [syscall_exofork] with
    the result 0 and returns 0. *)
Definition fork : M kernel Z :=
  c <- cur ;;
  v <- get_env c ;;
  (if negb (env_user_tlb_mod_entry v =? cow_entry_addr)
   then user_try (sys_set_tlb_mod_entry 0 cow_entry_addr) else ret tt) ;;
  child <- result sys_exofork ;;
  let child := u32 child in
  if child =? 0 then ret 0
  else
    for_each (seqZ 0 (Z.shiftr USTACKTOP PGSHIFT)) (fork_page child) ;;
    user_try (sys_set_tlb_mod_entry child cow_entry_addr) ;;
    user_try (sys_set_env_status child ENV_RUNNABLE) ;;
    ret child.

(** The handler of copy-on-write faults; [tf] is the address of the saved
    context.  Both pages of the copy are whole pages, so the [memcpy] copies
    page contents.  When [syscall_set_trapframe] succeeds, it resumes the
    interrupted program. *)
Definition cow_entry (tf : Z) : M kernel unit :=
  va <- user_load (u32 (tf + 4 * 36)) ;;
  pte <- vpt (VPN va) ;;
  let perm := Z.land pte 0x3FF in
  if negb (has perm PTE_COW) then panic "user_panic"
  else
    let perm := Z.lor (Z.lxor perm PTE_COW) PTE_W in
    user_panic_on (sys_mem_alloc 0 UCOW perm) ;;
    src <- user_pa (ROUNDDOWN va BY2PG) false ;;
    dst <- user_pa UCOW true ;;
    onp (modify (set_mem (copy_page dst src))) ;;
    _ <- result (sys_mem_map 0 UCOW 0 va perm) ;;
    _ <- result (sys_mem_unmap 0 UCOW) ;;
    λ k, match sys_set_trapframe 0 tf k with
         | Ok _ k' => UserMode k'
         | Err _ _ => Panic "user_panic"
         | Panic w => Panic w
         | Fault w => Fault w
         | UserMode k' => UserMode k'
         end.
End fork.
