(* ===== verification/ForkProps.v ===== *)
(** Copy-on-write fork shares every page and isolates every write. *)
From S2P Require Import Prelude Mmu Queue Memory Pmap PmapSpec VmSteps Disk Env EnvProps Sched SchedProps.
From S2P Require Import Tlbex Syscall Fork.
From S2P Require Import QueueProps PmapProps SyscallProps EnvVmProps TlbProps.

(** * Insertion at an unmapped address *)

(** The only change of the tables: none, or one taken from the free list *)
Definition same_or_new_table (A A' : vm) (k : Z * Z) : Prop :=
  (is_Some (tabs A !! k) ∧ tabs A' = tabs A ∧ free A' = free A) ∨
  (tabs A !! k = None ∧ ∃ t, tabs A' = <[k := t]> (tabs A) ∧ free A = t :: free A').

Lemma spec_insert_fresh A d v p perm :
  maps A !! (d, v) = None →
  match spec_insert A d v p perm with
  | Some A' => dirs A' = dirs A ∧ pins A' = pins A ∧ maps A' = <[(d, v) := (p, perm_flags perm)]> (maps A) ∧
      same_or_new_table A A' (d, v / 1024)
  | None => tabs A !! (d, v / 1024) = None ∧ free A = []
  end.
Proof.
  intros Hm. unfold spec_insert, spec_table. rewrite Hm.
  destruct (tabs A !! (d, v / 1024)) as [t|] eqn:Ht; cbn.
  - split_and!; try done. left. cbn. rewrite Ht. by split_and!.
  - destruct (free A) as [|t fl] eqn:Hf; cbn; [done|]. split_and!; try done. right. split; [done|].
    exists t. by split.
Qed.

Lemma spec_insert_update A d v p f perm :
  maps A !! (d, v) = Some (p, f) → is_Some (tabs A !! (d, v / 1024)) →
  spec_insert A d v p perm = Some (set_maps (<[(d, v) := (p, perm_flags perm)]> (maps A)) A).
Proof.
  intros Hm [t Ht]. unfold spec_insert, spec_table. rewrite Hm, decide_True, Ht by done. done.
Qed.

(** * Permissions *)

(** Private writable pages become copy-on-write. *)
Definition private (f : Z) : bool := has f PTE_W && negb (has f PTE_COW) && negb (has f PTE_LIBRARY).
Definition dup_perm (f : Z) : Z := if private f then Z.lor (Z.lxor f PTE_W) PTE_COW else f.
Definition child_flags (f : Z) : Z := perm_flags (Z.lor (dup_perm f) PTE_U).
Definition parent_flags (f : Z) : Z := if private f then child_flags f else f.

Lemma lxor_bound a b k : 0 < k → 0 ≤ a < 2 ^ k → 0 ≤ b < 2 ^ k → 0 ≤ Z.lxor a b < 2 ^ k.
Proof.
  intros Hk Ha Hb. assert (0 ≤ Z.lxor a b) by (apply Z.lxor_nonneg; lia). split; [done|].
  assert (Hl : ∀ x, 0 ≤ x < 2 ^ k → Z.log2 x < k).
  { intros x Hx. destruct (Z.eq_dec x 0) as [->|]; [cbn; lia|apply Z.log2_lt_pow2; lia]. }
  destruct (Z.eq_dec (Z.lxor a b) 0) as [->|Hne]; [lia|]. apply Z.log2_lt_pow2; [lia|].
  pose proof (Z.log2_lxor a b ltac:(lia) ltac:(lia)). pose proof (Hl a Ha). pose proof (Hl b Hb). lia.
Qed.

Lemma dup_perm_bound f : 0 ≤ f < 1024 → 0 ≤ dup_perm f < 1024.
Proof.
  intros Hf. unfold dup_perm. destruct (private f); [|done].
  apply (lor_bound _ _ 10); [lia| |done]. by apply (lxor_bound _ _ 10).
Qed.

Lemma child_flags_bound f : 0 ≤ f < 1024 → 0 ≤ child_flags f < 1024.
Proof. intros Hf. by apply perm_flags_bound, user_flags, dup_perm_bound. Qed.

Lemma perm_flags_bit x k : 0 ≤ k → k ≠ 0 → k ≠ 1 → has (perm_flags x) (2 ^ k) = has x (2 ^ k).
Proof.
  intros Hk H0 H1. unfold perm_flags. rewrite !has_testbit by done.
  destruct (has x PTE_W); rewrite !Z.lor_spec; change PTE_V with (2 ^ 0); change PTE_R with (2 ^ 1);
    rewrite !Z.pow2_bits_eqb by lia; rewrite ?(proj2 (Z.eqb_neq _ _)) by lia; by rewrite ?orb_false_r.
Qed.

(** A private page is no longer writable and is marked; every other
    permission is kept. *)
Lemma child_flags_spec f k : 0 ≤ f < 1024 → has f PTE_V = true → has f PTE_U = true → 0 ≤ k < 10 →
  (has f PTE_W = true → has f PTE_R = true) →
  has (child_flags f) (2 ^ k) =
    if private f then (if decide (k = 2) then false else if decide (k = 8) then true else has f (2 ^ k))
    else has f (2 ^ k).
Proof.
  intros Hf HV HU Hk HR. unfold child_flags, dup_perm, perm_flags.
  change PTE_V with (2 ^ 0) in *. change PTE_U with (2 ^ 4) in *. change PTE_R with (2 ^ 1) in *.
  unfold private. change PTE_W with (2 ^ 2) in *. change PTE_COW with (2 ^ 8) in *. change PTE_LIBRARY with (2 ^ 9) in *.
  rewrite !has_testbit in * by lia.
  assert (∀ j, 0 ≤ j → Z.testbit (2 ^ j) k = bool_decide (j = k)) as Hb.
  { intros j Hj. rewrite Z.pow2_bits_eqb by done. by case_bool_decide; [apply Z.eqb_eq|apply Z.eqb_neq]. }
  destruct (Z.testbit f 2) eqn:E2, (Z.testbit f 8) eqn:E8, (Z.testbit f 9) eqn:E9; cbn [andb negb];
    rewrite ?Z.lor_spec, ?Z.lxor_spec, ?E2, ?E8, ?E9;
    try (change (Z.testbit (2 ^ 4) 2) with false); try (change (Z.testbit (2 ^ 8) 2) with false);
    try (change (Z.testbit (2 ^ 2) 2) with true); cbn [orb xorb andb negb];
    rewrite ?Z.lor_spec, ?Z.lxor_spec, ?Hb by lia;
    repeat case_bool_decide; repeat case_decide; try lia; subst;
    rewrite ?E2, ?E8, ?E9, ?HV, ?HU, ?HR, ?orb_true_r, ?orb_false_r, ?xorb_false_r by done; done.
Qed.

(** * A parent and its child *)

(** [c] runs in directory [d]; [e], named [id], is its child with directory
    [dd]. *)
Record family `{LinkerSymbols} (k : kernel) (A : vm) (c d e dd id : Z) : Prop := {
  fm_rel : rel (pm k) A;
  fm_cur : curenv k = Some c;
  fm_dir : cur_pgdir (pm k) = page2pa d;
  fm_parent : space k A c d;
  fm_child : space k A e dd;
  fm_name : names k c id true e;
  fm_id : id ≠ 0;
  fm_two : d ≠ dd
}.

Lemma names_envid k c id e : curenv k = Some c → id ≠ 0 → names k c id true e →
  envid2env id true k = Ok (Some e) k.
Proof. intros. by apply (envid2env_ok _ c). Qed.

Section fork.
Context `{LinkerSymbols, VoidResult, ForkSymbols}.

(** Moving to another state of the page tables *)
Lemma family_step k A A' p c d e dd id :
  family k A c d e dd id → rel p A' → dirs A' = dirs A → cur_pgdir p = cur_pgdir (pm k) →
  family (set_pm p k) A' c d e dd id.
Proof.
  intros [F1 F2 F3 [F4 F4'] [F5 F5'] F6 F7 F8] Hr Hd Hc. split; try done; cbn.
  - by rewrite Hc.
  - split; [done|by rewrite Hd].
  - split; [done|by rewrite Hd].
Qed.

(** The tables as the program reads them *)
Lemma vpd_ok k A d i :
  rel (pm k) A → cur_pgdir (pm k) = page2pa d → d ∈ dirs A → 0 ≤ i < PDX UTOP →
  ∃ x, vpd i k = Ok x k ∧
    match tabs A !! (d, i) with
    | Some t => x = Z.lor (ADDR_PTE (page2pa t)) PTE_V
    | None => has x PTE_V = false
    end.
Proof.
  intros Hrel Hc Hd Hi. eexists. split; [|exact (mr_dir _ _ (rel_mem _ _ Hrel) d i Hd Hi)].
  unfold vpd. step. rewrite Hc. unfold onp, lift, rd, gets. change (sub_get k) with (pm k).
  change (sub_set (pm k) k) with (set_pm (pm k) k). by rewrite set_pm_id.
Qed.

Lemma vpt_ok k A d t n :
  rel (pm k) A → cur_pgdir (pm k) = page2pa d → d ∈ dirs A → 0 ≤ n < PDX UTOP * 1024 →
  tabs A !! (d, n / 1024) = Some t →
  ∃ x, vpt n k = Ok x k ∧
    match maps A !! (d, n) with
    | Some (p, f) => x = Z.lor (ADDR_PTE (page2pa p)) f
    | None => has x PTE_V = false
    end.
Proof.
  intros Hrel Hc Hd Hn Ht. change (PDX UTOP) with 509 in Hn.
  assert (Hi : 0 ≤ n / 1024 < PDX UTOP).
  { change (PDX UTOP) with 509. split; [apply Z.div_pos; lia|apply Z.div_lt_upper_bound; lia]. }
  destruct (vpd_ok k A d (n / 1024) Hrel Hc Hd Hi) as (x & E & Hx). rewrite Ht in Hx. subst x.
  pose proof (tab_page A _ (rel_wf _ _ Hrel) _ _ _ Ht) as Htp.
  destruct (wf_tab _ _ (rel_wf _ _ Hrel) _ _ _ Ht) as (_ & _ & Htn & _).
  pose proof (Z.mod_pos_bound n 1024 ltac:(lia)) as Hj.
  pose proof (mr_tab _ _ (rel_mem _ _ Hrel) d _ t (n mod 1024) Ht Hj) as Hm.
  replace (n / 1024 * 1024 + n mod 1024) with n in Hm by (pose proof (Z.div_mod n 1024); lia).
  eexists. split; [|exact Hm]. unfold vpt. rewrite (bind_ok _ _ _ _ _ E), entry_V by done.
  change (negb (has PTE_V PTE_V)) with false. cbv iota. rewrite entry_addr by done.
  pose proof (onp_ok _ k _ _ (KADDR_page t Htp (pm k) ltac:(lia))) as Ek. rewrite set_pm_id in Ek.
  rewrite (bind_ok _ _ _ _ _ Ek). unfold onp, lift, rd, gets. change (sub_get k) with (pm k).
  change (sub_set (pm k) k) with (set_pm (pm k) k). by rewrite set_pm_id.
Qed.

Lemma user_panic_on_ok m k k' : m k = Ok 0 k' → user_panic_on m k = Ok tt k'.
Proof. intros E. unfold user_panic_on, result, bind. by rewrite E. Qed.

Lemma page_addr v : 0 ≤ v → v < USTACKTOP / 4096 → UTEMP / 4096 ≤ v →
  u32 (v * BY2PG) = v * BY2PG ∧ VPN (v * BY2PG) = v ∧ is_illegal_va (v * BY2PG) = false.
Proof.
  change (USTACKTOP / 4096) with 521214. change (UTEMP / 4096) with 1022. intros Hv0 Hv1 Hv2. change BY2PG with 4096.
  split_and!.
  - apply u32_small. lia.
  - unfold VPN. rewrite Z.shiftr_div_pow2 by lia. change (2 ^ 12) with 4096. by rewrite Z.div_mul by lia.
  - unfold is_illegal_va. change UTEMP with 4186112. change UTOP with 2134900736.
    destruct (Z.ltb_spec (v * 4096) 4186112); [lia|]. destruct (Z.geb_spec (v * 4096) 2134900736); [lia|done].
Qed.

(** Mapping a page of the parent in the child *)
Lemma map_child_ok k A c d e dd id v p f perm :
  family k A c d e dd id → 0 ≤ v → v < USTACKTOP / 4096 → UTEMP / 4096 ≤ v →
  maps A !! (d, v) = Some (p, f) → maps A !! (dd, v) = None →
  is_Some (tabs A !! (dd, v / 1024)) ∨ free A ≠ [] → count p (maps A) + pin A p < 2 ^ 16 - 1 →
  0 ≤ perm < 1024 →
  ∃ p' A', user_panic_on (sys_mem_map 0 (v * BY2PG) id (v * BY2PG) perm) k = Ok tt (set_pm p' k) ∧
    family (set_pm p' k) A' c d e dd id ∧ dirs A' = dirs A ∧ pins A' = pins A ∧
    same_or_new_table A A' (dd, v / 1024) ∧
    maps A' = <[(dd, v) := (p, perm_flags (Z.lor perm PTE_U))]> (maps A) ∧
    data_kept A' (mem (pm k)) (mem p').
Proof.
  intros Hfam Hv0 Hv1 Hv2 Hm Hnone Htab Href Hperm. destruct (page_addr v Hv0 Hv1 Hv2) as (_ & Hvpn & Hleg).
  pose proof Hfam as [F1 F2 F3 F4 F5 F6 F7 F8].
  assert (E0 : envid2env 0 true k = Ok (Some c) k) by (unfold envid2env, gets; cbn; by rewrite F2).
  pose proof (sys_mem_map_ok k A 0 c d (v * BY2PG) id e dd (v * BY2PG) perm F1 Hleg Hleg E0
    (names_envid k c id e F2 F7 F6) F4 F5 Hperm) as Hok.
  rewrite Hvpn, Hm in Hok. destruct (mapped_page (pm k) A F1 d v p f Hm) as (_ & _ & _ & Hr & _).
  specialize (Hok ltac:(lia)). pose proof (spec_insert_fresh A dd v p (Z.lor perm PTE_U) Hnone) as Hs.
  destruct (spec_insert A dd v p (Z.lor perm PTE_U)) as [A'|].
  - destruct Hok as (p' & E & Hr' & Hk & Hcp). destruct Hs as (Hd & Hp & Hm' & Ht). exists p', A'.
    split; [by apply user_panic_on_ok|]. split; [by apply (family_step _ A)|]. done.
  - destruct Hs as [Ht Hf]. destruct Htab as [[? Ht']|Hf']; [congruence|done].
Qed.

(** New permissions for a page of the parent *)
Lemma remap_parent_ok k A c d e dd id v p f perm :
  family k A c d e dd id → 0 ≤ v → v < USTACKTOP / 4096 → UTEMP / 4096 ≤ v →
  maps A !! (d, v) = Some (p, f) → count p (maps A) + pin A p < 2 ^ 16 - 1 → 0 ≤ perm < 1024 →
  ∃ p', user_panic_on (sys_mem_map 0 (v * BY2PG) 0 (v * BY2PG) perm) k = Ok tt (set_pm p' k) ∧
    let A' := set_maps (<[(d, v) := (p, perm_flags (Z.lor perm PTE_U))]> (maps A)) A in
    family (set_pm p' k) A' c d e dd id ∧ data_kept A' (mem (pm k)) (mem p').
Proof.
  intros Hfam Hv0 Hv1 Hv2 Hm Href Hperm. destruct (page_addr v Hv0 Hv1 Hv2) as (_ & Hvpn & Hleg).
  pose proof Hfam as [F1 F2 F3 F4 F5 F6 F7 F8].
  assert (E0 : envid2env 0 true k = Ok (Some c) k) by (unfold envid2env, gets; cbn; by rewrite F2).
  pose proof (sys_mem_map_ok k A 0 c d (v * BY2PG) 0 c d (v * BY2PG) perm F1 Hleg Hleg E0 E0 F4 F4 Hperm) as Hok.
  rewrite Hvpn, Hm in Hok. destruct (mapped_page (pm k) A F1 d v p f Hm) as (_ & _ & _ & Hr & _).
  specialize (Hok ltac:(lia)).
  destruct (wf_map _ _ (rel_wf _ _ F1) _ _ _ _ Hm) as (_ & Ht & _).
  rewrite (spec_insert_update A d v p f) in Hok by done.
  destruct Hok as (p' & E & Hr' & Hk & Hcp). exists p'. split; [by apply user_panic_on_ok|].
  split; [by apply (family_step _ A)|done].
Qed.

(** [duppage] on a mapped page *)
Lemma duppage_ok k A c d e dd id v p f :
  family k A c d e dd id → 0 ≤ v → v < USTACKTOP / 4096 → UTEMP / 4096 ≤ v →
  maps A !! (d, v) = Some (p, f) → maps A !! (dd, v) = None →
  is_Some (tabs A !! (dd, v / 1024)) ∨ free A ≠ [] → count p (maps A) + pin A p < 2 ^ 16 - 2 →
  ∃ p' A', duppage id v k = Ok tt (set_pm p' k) ∧ family (set_pm p' k) A' c d e dd id ∧
    dirs A' = dirs A ∧ pins A' = pins A ∧ same_or_new_table A A' (dd, v / 1024) ∧
    maps A' = <[(d, v) := (p, parent_flags f)]> (<[(dd, v) := (p, child_flags f)]> (maps A)) ∧
    data_kept A' (mem (pm k)) (mem p').
Proof.
  intros Hfam Hv0 Hv1 Hv2 Hm Hnone Htab Href. destruct (page_addr v Hv0 Hv1 Hv2) as (Hu & _).
  pose proof Hfam as [F1 F2 F3 [_ F4] _ _ _ F8].
  destruct (wf_map _ _ (rel_wf _ _ F1) _ _ _ _ Hm) as (_ & [t Ht] & Hpn & _ & Hf & _).
  pose proof (np_limit (pm k) A F1).
  destruct (vpt_ok k A d t v F1 F3 F4 ltac:(change (USTACKTOP / 4096) with 521214 in Hv1; change (PDX UTOP) with 509; lia) Ht) as (x & E & Hx).
  rewrite Hm in Hx. subst x. unfold duppage. rewrite (bind_ok _ _ _ _ _ E), Hu.
  destruct (page2pa_range p) as [Hpr _]; [unfold PAGE_LIMIT in *; lia|].
  rewrite pte_perm by done.
  pose proof (dup_perm_bound f Hf) as Hdb. unfold parent_flags, child_flags, dup_perm in *. unfold private in *.
  destruct (has f PTE_W && negb (has f PTE_COW) && negb (has f PTE_LIBRARY)).
  - destruct (map_child_ok k A c d e dd id v p f _ Hfam Hv0 Hv1 Hv2 Hm Hnone Htab ltac:(lia) Hdb)
      as (p1 & A1 & E1 & Hfam1 & Hd1 & Hp1 & Ht1 & Hm1 & Hk1).
    rewrite (bind_ok _ _ _ _ _ E1).
    assert (Hmd : maps A1 !! (d, v) = Some (p, f)) by (rewrite Hm1, lookup_insert_ne; congruence).
    destruct (remap_parent_ok _ A1 c d e dd id v p f (Z.lor (Z.lxor f PTE_W) PTE_COW) Hfam1 Hv0 Hv1 Hv2 Hmd)
      as (p2 & E2 & Hfam2 & Hk2); [|done|].
    + unfold pin. rewrite Hp1, Hm1, count_insert_new by done. fold (pin A p). rewrite decide_True by done. lia.
    + eexists p2, _. split; [exact E2|]. split; [exact Hfam2|]. split_and!; try done.
      * cbn. by rewrite Hm1.
      * by eapply (data_kept_trans A1), Hk2.
  - destruct (map_child_ok k A c d e dd id v p f _ Hfam Hv0 Hv1 Hv2 Hm Hnone Htab ltac:(lia) Hf)
      as (p1 & A1 & E1 & Hfam1 & Hd1 & Hp1 & Ht1 & Hm1 & Hk1).
    exists p1, A1. split_and!; try done. rewrite Hm1. symmetry. apply insert_id.
    rewrite lookup_insert_ne; [done|congruence].
Qed.

(** * The loop *)

(** Tables the child still needs *)
Definition missing (A0 A : vm) (d dd : Z) : list Z :=
  filter (λ i, is_Some (tabs A0 !! (d, i)) ∧ tabs A !! (dd, i) = None) (seqZ 0 512).

(** Mapped pages among those of a list *)
Definition mapped (A : vm) (d : Z) (l : list Z) : Z :=
  Z.of_nat (length (filter (λ v, is_Some (maps A !! (d, v))) l)).

(** The first [n] pages have been handled. *)
Record dup_upto (A0 A : vm) (d dd n : Z) : Prop := {
  du_dirs : dirs A = dirs A0;
  du_pins : pins A = pins A0;
  du_child : ∀ v, maps A !! (dd, v) =
    if decide (v < n) then prod_map id child_flags <$> maps A0 !! (d, v) else None;
  du_parent : ∀ v, maps A !! (d, v) =
    if decide (v < n) then prod_map id parent_flags <$> maps A0 !! (d, v) else maps A0 !! (d, v);
  du_other : ∀ d' v, d' ≠ d → d' ≠ dd → maps A !! (d', v) = maps A0 !! (d', v);
  du_tabs : ∀ i, tabs A !! (d, i) = tabs A0 !! (d, i);
  du_is_tab : ∀ t, is_tab A0 t → is_tab A t;
  du_new : ∀ i, is_Some (tabs A !! (dd, i)) → is_Some (tabs A0 !! (d, i));
  du_free : (length (missing A0 A d dd) ≤ length (free A))%nat
}.

Lemma filter_remove_one (P Q : Z → Prop) `{!∀ x, Decision (P x), !∀ x, Decision (Q x)} (l : list Z) a :
  NoDup l → a ∈ l → Q a → ¬ P a → (∀ x, x ≠ a → P x ↔ Q x) →
  length (filter Q l) = S (length (filter P l)).
Proof.
  intros Hnd Hin HQ HP Hiff. destruct (list_elem_of_split l a Hin) as (l1 & l2 & ->).
  apply NoDup_app in Hnd as (_ & Ha & Hnd). apply NoDup_cons in Hnd as [Hb _].
  rewrite !filter_app, !filter_cons, (decide_True _ _ HQ), (decide_False _ _ HP), !length_app.
  rewrite (filter_ext_in P Q l1), (filter_ext_in P Q l2); [cbn; lia| |].
  - intros x Hx. apply Hiff. by intros ->.
  - intros x Hx. apply Hiff. intros ->. apply (Ha a Hx). apply list_elem_of_here.
Qed.

(** One more table for the child *)
Lemma missing_step A0 A A' d dd i :
  0 ≤ i < 512 → is_Some (tabs A0 !! (d, i)) → same_or_new_table A A' (dd, i) →
  (length (missing A0 A d dd) ≤ length (free A))%nat →
  (length (missing A0 A' d dd) ≤ length (free A'))%nat.
Proof.
  intros Hi Hs [(_ & Ht & Hf)|(Hn & t & Ht & Hf)] Hle; unfold missing in *.
  - by rewrite Ht, Hf.
  - rewrite Hf in Hle. cbn [length] in Hle.
    rewrite (filter_remove_one (λ j, is_Some (tabs A0 !! (d, j)) ∧ tabs A' !! (dd, j) = None)
      (λ j, is_Some (tabs A0 !! (d, j)) ∧ tabs A !! (dd, j) = None) _ i) in Hle; [lia|apply NoDup_seqZ| | | |].
    + apply elem_of_seqZ. lia.
    + done.
    + rewrite Ht, lookup_insert_eq. intros [_ ?]. done.
    + intros x Hx. rewrite Ht, lookup_insert_ne by congruence. done.
Qed.

Lemma missing_room A0 A d dd i :
  0 ≤ i < 512 → is_Some (tabs A0 !! (d, i)) → (length (missing A0 A d dd) ≤ length (free A))%nat →
  is_Some (tabs A !! (dd, i)) ∨ free A ≠ [].
Proof.
  intros Hi Hs Hle. destruct (tabs A !! (dd, i)) eqn:Ht; [left; by eexists|right].
  intros Hf. rewrite Hf in Hle. assert (i ∈ missing A0 A d dd) as Hin.
  { apply list_elem_of_filter. split; [by split|]. apply elem_of_seqZ. lia. }
  destruct (missing A0 A d dd); [by apply elem_of_nil in Hin|cbn in Hle; lia].
Qed.

(** A page that is not mapped changes nothing. *)
Lemma dup_upto_skip A0 A d dd n :
  dup_upto A0 A d dd n → maps A0 !! (d, n) = None → dup_upto A0 A d dd (n + 1).
Proof.
  intros [] Hn. split; try done.
  - intros v. rewrite du_child0. destruct (decide (v = n)) as [->|Hne].
    + rewrite decide_False, decide_True, Hn by lia. done.
    + by destruct (decide (v < n)); [rewrite decide_True by lia|rewrite decide_False by lia].
  - intros v. rewrite du_parent0. destruct (decide (v = n)) as [->|Hne].
    + rewrite decide_False, decide_True, Hn by lia. done.
    + by destruct (decide (v < n)); [rewrite decide_True by lia|rewrite decide_False by lia].
Qed.

Lemma dup_upto_next A0 A A' d dd n p f :
  dup_upto A0 A d dd n → 0 ≤ n / 1024 < 512 → maps A0 !! (d, n) = Some (p, f) → d ≠ dd →
  is_Some (tabs A0 !! (d, n / 1024)) →
  dirs A' = dirs A → pins A' = pins A → same_or_new_table A A' (dd, n / 1024) →
  maps A' = <[(d, n) := (p, parent_flags f)]> (<[(dd, n) := (p, child_flags f)]> (maps A)) →
  dup_upto A0 A' d dd (n + 1).
Proof.
  intros [] Hi Hm Hne Hs Hd Hp Ht Hm'.
  assert (Htabs : ∀ k, k ≠ (dd, n / 1024) → tabs A' !! k = tabs A !! k).
  { intros k Hk. destruct Ht as [(_ & -> & _)|(_ & t & -> & _)]; [done|by rewrite lookup_insert_ne]. }
  split; try congruence.
  - intros v. rewrite Hm', lookup_insert_ne by congruence. destruct (decide (v = n)) as [->|Hv].
    + by rewrite lookup_insert_eq, decide_True, Hm by lia.
    + rewrite lookup_insert_ne, du_child0 by congruence.
      by destruct (decide (v < n)); [rewrite decide_True by lia|rewrite decide_False by lia].
  - intros v. rewrite Hm'. destruct (decide (v = n)) as [->|Hv].
    + by rewrite lookup_insert_eq, decide_True, Hm by lia.
    + rewrite !lookup_insert_ne, du_parent0 by congruence.
      by destruct (decide (v < n)); [rewrite decide_True by lia|rewrite decide_False by lia].
  - intros d' v Hd1 Hd2. rewrite Hm', !lookup_insert_ne by congruence. by apply du_other0.
  - intros i. rewrite Htabs by congruence. done.
  - intros t Hit. destruct (du_is_tab0 t Hit) as [k Hk]. exists k.
    destruct (decide (k = (dd, n / 1024))) as [->|]; [|by rewrite Htabs].
    destruct Ht as [(_ & -> & _)|(Hno & _)]; [done|congruence].
  - intros i Hi'. destruct (decide (i = n / 1024)) as [->|]; [done|]. apply du_new0. by rewrite <- Htabs by congruence.
  - by apply (missing_step A0 A A' d dd (n / 1024)).
Qed.

Lemma new_table_mono A A' k t : same_or_new_table A A' k → is_tab A t → is_tab A' t.
Proof.
  intros [(_ & Ht & _)|(Hn & t' & Ht & _)] [j Hj]; exists j; rewrite Ht; [done|].
  rewrite lookup_insert_ne; [done|congruence].
Qed.

(** The reads of the loop decide whether the page is mapped. *)
Lemma fork_page_reads ch k A d n :
  rel (pm k) A → cur_pgdir (pm k) = page2pa d → d ∈ dirs A → 0 ≤ n < USTACKTOP / 4096 →
  fork_page ch n k = match maps A !! (d, n) with Some _ => duppage ch n k | None => Ok tt k end.
Proof.
  intros F1 F3 F4 Hn.
  assert (Hn' : 0 ≤ n < 521214) by (change (USTACKTOP / 4096) with 521214 in Hn; done).
  assert (Hdiv : 0 ≤ n / 1024 < 509) by (split; [apply Z.div_pos|apply Z.div_lt_upper_bound]; lia).
  assert (Hpdx : PDX (n * BY2PG) = n / 1024).
  { change BY2PG with 4096. rewrite PDX_div by lia. change (2 ^ 22) with (4096 * 1024).
    rewrite <- Z.div_div by lia. by rewrite Z.div_mul by lia. }
  destruct (vpd_ok k A d (n / 1024) F1 F3 F4 ltac:(change (PDX UTOP) with 509; lia)) as (x & E & Hx).
  unfold fork_page. rewrite Hpdx, (bind_ok _ _ _ _ _ E).
  destruct (tabs A !! (d, n / 1024)) as [t|] eqn:Ht.
  - subst x. destruct (vpt_ok k A d t n F1 F3 F4 ltac:(change (PDX UTOP) with 509; lia) Ht) as (y & Ey & Hy).
    rewrite entry_V. change (has PTE_V PTE_V) with true. cbv iota. rewrite (bind_ok _ _ _ _ _ Ey).
    destruct (maps A !! (d, n)) as [[p f]|] eqn:Hm; [|by rewrite Hy].
    subst y. destruct (wf_map _ _ (rel_wf _ _ F1) _ _ _ _ Hm) as (_ & _ & Hp & _ & _ & HfV).
    pose proof (np_limit (pm k) A F1). by rewrite entry_V, HfV.
  - rewrite Hx. destruct (maps A !! (d, n)) as [[p f]|] eqn:Hm; [|done].
    destruct (wf_map _ _ (rel_wf _ _ F1) _ _ _ _ Hm) as (_ & [? ?] & _). congruence.
Qed.

(** One round *)
Lemma fork_page_ok k A0 A c d e dd id n :
  family k A c d e dd id → dup_upto A0 A d dd n → 0 ≤ n < USTACKTOP / 4096 →
  (∀ v, v < UTEMP / 4096 → maps A0 !! (d, v) = None) →
  (∀ q, count q (maps A) + pin A q < 2 ^ 16 - 2) →
  (∀ v p f, maps A0 !! (d, v) = Some (p, f) → is_Some (tabs A0 !! (d, v / 1024))) →
  ∃ p' A', fork_page id n k = Ok tt (set_pm p' k) ∧ family (set_pm p' k) A' c d e dd id ∧
    dup_upto A0 A' d dd (n + 1) ∧ data_kept A' (mem (pm k)) (mem p') ∧ dirs A' = dirs A ∧
    (∀ t, is_tab A t → is_tab A' t) ∧
    (∀ q, count q (maps A') ≤ count q (maps A) + mapped A0 d [n]).
Proof.
  intros Hfam Hdup Hn Hlow Href Htabs. pose proof Hfam as [F1 F2 F3 [_ F4] _ _ _ F8].
  rewrite (fork_page_reads id k A d n F1 F3 F4 Hn).
  pose proof (du_parent _ _ _ _ _ Hdup n) as Hpar. rewrite decide_False in Hpar by lia.
  destruct (maps A !! (d, n)) as [[p f]|] eqn:Hm.
  - assert (Hdiv : 0 ≤ n / 1024 < 509).
    { change (USTACKTOP / 4096) with 521214 in Hn. split; [apply Z.div_pos|apply Z.div_lt_upper_bound]; lia. }
    assert (Hlow' : UTEMP / 4096 ≤ n) by (destruct (Z.lt_ge_cases n (UTEMP / 4096)) as [Hl|]; [by rewrite Hlow in Hpar|done]).
    assert (Hnone : maps A !! (dd, n) = None) by (rewrite (du_child _ _ _ _ _ Hdup), decide_False by lia; done).
    pose proof (Htabs n p f (eq_sym Hpar)) as Htab0.
    destruct (duppage_ok k A c d e dd id n p f Hfam ltac:(lia) ltac:(apply Hn) Hlow' Hm Hnone
      (missing_room A0 A d dd (n / 1024) ltac:(lia) Htab0 (du_free _ _ _ _ _ Hdup)) (Href p))
      as (p' & A' & E' & Hfam' & Hd' & Hp' & Ht' & Hm' & Hk').
    exists p', A'. split; [exact E'|]. split; [exact Hfam'|].
    split; [by apply (dup_upto_next A0 A A' d dd n p f); try done; try lia|].
    split; [exact Hk'|]. split; [exact Hd'|]. split; [intros t'; by apply new_table_mono with (k := (dd, n / 1024))|].
    intros q. rewrite Hm'. rewrite (count_insert q _ (d, n) p _ f) by (rewrite lookup_insert_ne; congruence).
    rewrite count_insert_new by done. unfold mapped.
    assert (Hsome : is_Some (maps A0 !! (d, n))) by (by rewrite <- Hpar).
    rewrite filter_cons, (decide_True _ _ Hsome). cbn. case_decide; lia.
  - exists (pm k), A. rewrite set_pm_id. split_and!; try done.
    + by apply dup_upto_skip.
    + intros q. unfold mapped. lia.
Qed.

(** Tables of a directory *)
Definition tables (A : vm) (d : Z) : list Z := filter (λ i, is_Some (tabs A !! (d, i))) (seqZ 0 512).

Lemma dup_upto_start A d dd :
  (∀ v, maps A !! (dd, v) = None) → (∀ i, tabs A !! (dd, i) = None) →
  (∀ v, v < 0 → maps A !! (d, v) = None) →
  (length (tables A d) ≤ length (free A))%nat → dup_upto A A d dd 0.
Proof.
  intros Hm Ht Hneg Hf. split; try done.
  - intros v. rewrite Hm. case_decide; [|done]. by rewrite Hneg.
  - intros v. case_decide; [|done]. by rewrite Hneg.
  - intros i [x Hx]. by rewrite Ht in Hx.
  - unfold missing. rewrite (filter_ext_in _ (λ i, is_Some (tabs A !! (d, i)))); [done|].
    intros i _. rewrite Ht. naive_solver.
Qed.

Lemma mapped_app A d l1 l2 : mapped A d (l1 ++ l2) = mapped A d l1 + mapped A d l2.
Proof. unfold mapped. rewrite filter_app, length_app. lia. Qed.

Lemma seqZ_prefix N l1 x l2 : seqZ 0 N = l1 ++ x :: l2 → x = Z.of_nat (length l1) ∧ 0 ≤ x < N.
Proof.
  intros E. assert (Hl : seqZ 0 N !! length l1 = Some x) by (rewrite E; by apply list_lookup_middle).
  apply lookup_seqZ in Hl. lia.
Qed.

Lemma fork_loop_ok k A0 c d e dd id N :
  family k A0 c d e dd id → N = USTACKTOP / 4096 →
  (∀ v, maps A0 !! (dd, v) = None) → (∀ i, tabs A0 !! (dd, i) = None) →
  (∀ v, v < UTEMP / 4096 → maps A0 !! (d, v) = None) →
  (length (tables A0 d) ≤ length (free A0))%nat →
  (∀ q, count q (maps A0) + pin A0 q + mapped A0 d (seqZ 0 N) < 2 ^ 16 - 2) →
  ∃ p' A', for_each (seqZ 0 N) (fork_page id) k = Ok tt (set_pm p' k) ∧
    family (set_pm p' k) A' c d e dd id ∧ dup_upto A0 A' d dd N ∧ data_kept A' (mem (pm k)) (mem p').
Proof.
  intros Hfam HN Hm Ht Hlow Hf Href.
  assert (Htabs : ∀ v p f, maps A0 !! (d, v) = Some (p, f) → is_Some (tabs A0 !! (d, v / 1024))).
  { intros v p f Hv. by destruct (wf_map _ _ (rel_wf _ _ (fm_rel _ _ _ _ _ _ _ Hfam)) _ _ _ _ Hv) as (_ & ? & _). }
  destruct (for_each_inv (λ l s, ∃ p' A', s = set_pm p' k ∧ family s A' c d e dd id ∧
      dup_upto A0 A' d dd (Z.of_nat (length l)) ∧ data_kept A' (mem (pm k)) (mem p') ∧
      (∀ q, count q (maps A') ≤ count q (maps A0) + mapped A0 d l))
    (seqZ 0 N) (fork_page id)) with (s := k) as (s' & E & p' & A' & -> & Hfam' & Hdup' & Hk' & _).
  - intros l1 x l2 s Hl (p & A & -> & Hfam1 & Hdup & Hk & Hc).
    destruct (seqZ_prefix N l1 x l2 Hl) as [Hx Hxn]. rewrite <- Hx in Hdup.
    destruct (fork_page_ok (set_pm p k) A0 A c d e dd id x Hfam1 Hdup ltac:(by rewrite <- HN) Hlow) as
      (p' & A' & E & Hfam' & Hdup' & Hk' & Hd' & Htm & Hc'); [|done|].
    + intros q. pose proof (Hc q). pose proof (Href q) as Hq. rewrite Hl, mapped_app in Hq.
      unfold pin in *. rewrite (du_pins _ _ _ _ _ Hdup). unfold mapped in *. lia.
    + exists (set_pm p' k). split; [exact E|]. exists p', A'. split; [done|]. split; [exact Hfam'|].
      split; [by rewrite length_app, Nat2Z.inj_add, <- Hx|].
      split; [by eapply (data_kept_trans A), Hk'|].
      intros q. rewrite mapped_app. pose proof (Hc q). pose proof (Hc' q). lia.
  - exists (pm k), A0. rewrite set_pm_id. split; [done|]. split; [done|].
    split; [|split; [apply data_kept_refl|intros q; unfold mapped; cbn; lia]].
    apply dup_upto_start; try done. intros v Hv. apply Hlow. change (UTEMP / 4096) with 1022. lia.
  - exists p', A'. split; [exact E|]. split; [exact Hfam'|]. split; [|exact Hk'].
    rewrite length_seqZ in Hdup'. rewrite Z2Nat.id in Hdup'; [done|]. rewrite HN. by vm_compute.
Qed.

Lemma user_try_ok m k k' : m k = Ok 0 k' → user_try m k = Ok tt k'.
Proof. intros E. unfold user_try, result, bind. by rewrite E. Qed.

Lemma set_tlb_mod_ok k envid e func :
  envid2env envid true k = Ok (Some e) k →
  user_try (sys_set_tlb_mod_entry envid func) k = Ok tt (with_env k e (set_env_user_tlb_mod_entry func (env k e))).
Proof.
  intros E. apply user_try_ok. unfold sys_set_tlb_mod_entry. by rewrite (bind_ok _ _ _ _ _ E).
Qed.

(** [fork] before [syscall_exofork]: the parent's handler is set. *)
Lemma own_entry_ok k c : curenv k = Some c →
  ∃ k1, (if negb (env_user_tlb_mod_entry (env k c) =? cow_entry_addr)
         then user_try (sys_set_tlb_mod_entry 0 cow_entry_addr) else ret tt) k = Ok tt k1 ∧
    pm k1 = pm k ∧ curenv k1 = curenv k ∧ kstack_tf k1 = kstack_tf k ∧ env_free_list k1 = env_free_list k ∧
    env_sched_list k1 = env_sched_list k ∧ mkenvid_i k1 = mkenvid_i k ∧ asid_bitmap k1 = asid_bitmap k ∧
    ∀ x, env k1 x = if decide (c = x) then set_env_user_tlb_mod_entry cow_entry_addr (env k c) else env k x.
Proof.
  intros Hc. destruct (Z.eqb_spec (env_user_tlb_mod_entry (env k c)) cow_entry_addr) as [E|E]; cbn [negb].
  - exists k. split_and!; try done. intros x. case_decide as Ex; [|done]. subst x. rewrite <- E. by destruct (env k c).
  - rewrite (set_tlb_mod_ok k 0 c) by (unfold envid2env, gets; cbn; by rewrite Hc).
    eexists. split; [done|]. split_and!; try done. intros x. by rewrite env_with.
Qed.

Lemma fork_family k k1 A c d e dd a id l fr fl :
  forked k k1 A c e dd a id l fr fl → rel (pm k) A → free A = dd :: fl → curenv k = Some c →
  space k A c d → cur_pgdir (pm k) = page2pa d → 0 ≤ e < NENV → e ≠ c → id ≠ 0 →
  family k1 (spec_new_dir A dd fl) c d e dd id ∧
  (∀ v, maps A !! (dd, v) = None) ∧ (∀ i, tabs A !! (dd, i) = None).
Proof.
  intros Hfk Hrel Hf Hc [Hp Hd] Hcp He Hec Hid.
  assert (Hnd : dd ∉ dirs A) by (apply (free_not_dir (pm k) A Hrel); rewrite Hf; apply list_elem_of_here).
  assert (Ht : ∀ i, tabs A !! (dd, i) = None).
  { intros i. destruct (tabs A !! (dd, i)) eqn:Ht; [|done]. by destruct (wf_tab _ _ (rel_wf _ _ Hrel) _ _ _ Ht). }
  split; [|split; [|done]].
  - pose proof (forked_names _ _ _ _ _ _ _ _ _ _ _ Hfk He Hec) as Hnm.
    destruct Hfk as [? ? ? ? Hch Ho ? ? Hcur ?]. split; try done.
    + congruence.
    + congruence.
    + split; [by rewrite Ho|]. by apply elem_of_union_r.
    + split; [by rewrite Hch|]. by apply elem_of_union_l, elem_of_singleton_2.
    + congruence.
  - intros v. destruct (maps A !! (dd, v)) as [[p f]|] eqn:Hm; [|done].
    destruct (wf_map _ _ (rel_wf _ _ Hrel) _ _ _ _ Hm) as (_ & [t Hx] & _). by rewrite Ht in Hx.
Qed.

(** The pages below USTACKTOP are shared, both sides copy-on-write. *)
Definition fork_rel (A A' : vm) (d dd : Z) : Prop :=
  (∀ v, maps A' !! (dd, v) =
    if decide (v < USTACKTOP / 4096) then prod_map id child_flags <$> maps A !! (d, v) else None) ∧
  (∀ v, maps A' !! (d, v) =
    if decide (v < USTACKTOP / 4096) then prod_map id parent_flags <$> maps A !! (d, v) else maps A !! (d, v)) ∧
  (∀ d' v, d' ≠ d → d' ≠ dd → maps A' !! (d', v) = maps A !! (d', v)).

(** Making the child runnable *)
Lemma fork_finish k A c d e dd id l :
  family k A c d e dd id → sched_rel k l → env_status (env k e) = ENV_NOT_RUNNABLE → 0 ≤ id < 2 ^ 31 →
  ∃ k', (user_try (sys_set_tlb_mod_entry id cow_entry_addr) ;;
         user_try (sys_set_env_status id ENV_RUNNABLE) ;; ret id) k = Ok id k' ∧
    pm k' = pm k ∧ sched_rel k' (l ++ [e]) ∧ curenv k' = curenv k ∧
    ∀ x, env k' x = if decide (e = x) then set_env_status ENV_RUNNABLE (set_env_user_tlb_mod_entry cow_entry_addr (env k e))
                    else env k x.
Proof.
  intros [F1 F2 F3 F4 F5 F6 F7 F8] Hs Hst Hid.
  rewrite (bind_ok _ _ _ _ _ (set_tlb_mod_ok k id e _ (names_envid k c id e F2 F7 F6))).
  set (k1 := with_env _ _ _).
  assert (He1 : ∀ x, env k1 x = if decide (e = x) then set_env_user_tlb_mod_entry cow_entry_addr (env k e) else env k x)
    by (intros x; apply env_with).
  assert (Hn1 : names k1 c id true e).
  { destruct F6 as (Hx & Hf & Hi & Hp). split; [done|]. rewrite !He1, !decide_True by done. split; [done|]. split; [done|].
    intros _. destruct (Hp eq_refl) as [->|Hpar]; [by left|right]. cbn. rewrite Hpar. by case_decide; [subst|]. }
  assert (Hs1 : sched_rel k1 l).
  { split; [apply Hs|]. intros x. rewrite (sr_status _ _ Hs), He1. by case_decide; [subst|]. }
  destruct (sys_set_env_status_ok k1 l id e ENV_RUNNABLE Hs1) as (k' & E & Hs' & Hen & Hpm & Hcu);
    [by left|by apply (names_envid k1 c)|by right; rewrite He1, decide_True|].
  rewrite (bind_ok _ _ _ _ _ (user_try_ok _ _ _ E)). exists k'. split; [done|]. split; [by rewrite Hpm|].
  split; [|split; [done|]].
  - rewrite He1, decide_True in Hs' by done. cbn in Hs'. by rewrite Hst in Hs'.
  - intros x. rewrite Hen, !He1. case_decide; [by rewrite decide_True|done].
Qed.

(** [fork] up to the loop: the handler and an empty child *)
Lemma fork_start k A c d l e fr dd fl a :
  let id := id_of (u32 (mkenvid_i k + 1)) e in
  rel (pm k) A → curenv k = Some c → space k A c d → sched_rel k l → LIST_rep (env_free_list k) (e :: fr) →
  no_user_entries (mem (pm k)) kernel_pgdir → 0 ≤ mkenvid_i k →
  free A = dd :: fl → find (λ j, negb (asid_used k j)) (seqZ 0 NASID) = Some a →
  0 ≤ e < NENV → e ≠ c → e ∉ l → PPN kernel_pgdir ≠ dd + PPN0 →
  ∃ k1 k2, (if negb (env_user_tlb_mod_entry (env k c) =? cow_entry_addr)
            then user_try (sys_set_tlb_mod_entry 0 cow_entry_addr) else ret tt) k = Ok tt k1 ∧
    result sys_exofork k1 = Ok id k2 ∧ forked k1 k2 A c e dd a id l fr fl ∧
    pm k1 = pm k ∧ curenv k1 = curenv k ∧ kstack_tf k1 = kstack_tf k ∧
    ∀ x, env k1 x = if decide (c = x) then set_env_user_tlb_mod_entry cow_entry_addr (env k c) else env k x.
Proof.
  intros id Hrel Hc Hsp Hs Hfl Hker Hi Hf Ha He Hec Hel Hne.
  destruct (own_entry_ok k c Hc) as (k1 & E1 & Hpm1 & Hc1 & Htf1 & Hfl1 & Hsl1 & Hmk1 & Has1 & Hen1).
  assert (Hs1 : sched_rel k1 l).
  { destruct Hs as [Hq Hs]. split; [by rewrite Hsl1|]. intros x. rewrite Hs, Hen1. by case_decide; [subst|]. }
  assert (Hau : ∀ j, asid_used k1 j = asid_used k j) by (intros j; unfold asid_used, asid_word; by rewrite Has1).
  destruct (sys_exofork_ok k1 A c l e fr dd fl a) as (id' & k2 & E2 & Hfk); rewrite ?Hpm1, ?Hfl1, ?Hmk1, ?Hc1; try done.
  { rewrite <- Ha. generalize (seqZ 0 NASID). intros ls. induction ls as [|y ls IH]; [done|]. cbn. by rewrite Hau, IH. }
  assert (Hid' : id' = id) by (rewrite (fk_id _ _ _ _ _ _ _ _ _ _ _ Hfk), Hmk1; done). subst id'.
  exists k1, k2. split_and!; try done. unfold result. by rewrite E2.
Qed.
End fork.

(** C23. [fork] duplicates the caller: with a page for the child's directory
    and one for each of its page tables, the call returns the child's id, and
    every page mapped below USTACKTOP is mapped at the same address in the
    child, writable private pages copy-on-write on both sides, all others with
    their permissions; nothing else is mapped in the child, no other address
    space changes, and every page keeps its contents.  The child continues with the
    caller's registers and 0 as its result, both have the copy-on-write
    handler, and the child is scheduled last. *)
Theorem fork_copies `{LinkerSymbols, VoidResult, ForkSymbols} k A c d l e fr dd fl a :
  let id := id_of (u32 (mkenvid_i k + 1)) e in
  rel (pm k) A → curenv k = Some c → space k A c d → cur_pgdir (pm k) = page2pa d →
  sched_rel k l → LIST_rep (env_free_list k) (e :: fr) →
  no_user_entries (mem (pm k)) kernel_pgdir → 0 ≤ mkenvid_i k →
  free A = dd :: fl → find (λ j, negb (asid_used k j)) (seqZ 0 NASID) = Some a →
  0 ≤ e < NENV → e ≠ c → e ∉ l → PPN kernel_pgdir ≠ dd + PPN0 → 0 < id < 2 ^ 31 →
  (∀ v, v < UTEMP / 4096 → maps A !! (d, v) = None) →
  (length (tables A d) ≤ length fl)%nat →
  (∀ q, count q (maps A) + pin A q + mapped A d (seqZ 0 (USTACKTOP / 4096)) < 2 ^ 16 - 2) →
  ∃ k' A', fork k = Ok id k' ∧ rel (pm k') A' ∧ space k' A' c d ∧ space k' A' e dd ∧
    fork_rel A A' d dd ∧ data_kept A' (mem (pm k)) (mem (pm k')) ∧
    env_tf (env k' e) = set_reg 10 0 (kstack_tf k) ∧
    env_user_tlb_mod_entry (env k' c) = cow_entry_addr ∧ env_user_tlb_mod_entry (env k' e) = cow_entry_addr ∧
    sched_rel k' (l ++ [e]).
Proof.
  intros id Hrel Hc Hsp Hcp Hs Hfl Hker Hi Hf Ha He Hec Hel Hne Hid Hlow Htab Hbud.
  destruct (fork_start k A c d l e fr dd fl a) as (k1 & k2 & E1 & Er & Hfk & Hpm1 & Hc1 & Htf1 & Hen1); try done.
  assert (Hsp1 : space k1 A c d) by (destruct Hsp as [Hp Hd]; split; [by rewrite Hen1, decide_True|done]).
  set (N := USTACKTOP / 4096) in *. fold id in Er, Hfk.
  destruct (fork_family k1 k2 A c d e dd a id l fr fl Hfk) as (Hfam & Hmdd & Htdd); try congruence; try done.
  { lia. }
  set (B := spec_new_dir A dd fl) in *.
  destruct (fork_loop_ok k2 B c d e dd id N Hfam eq_refl Hmdd Htdd Hlow Htab) as (p3 & A3 & E3 & Hfam3 & Hdup & Hk3).
  { intros q. pose proof (Hbud q). unfold B, pin in *. cbn. rewrite lookup_insert. case_decide as Eq; [|done].
    subst q. cbn. pose proof (Hbud d) as Hbd. destruct (wf_dir _ _ (rel_wf _ _ Hrel) d (proj2 Hsp)) as [_ Hpd].
    unfold pin in Hpd. pose proof (count_nonneg d (maps A)).
    destruct (free_unused (pm k) A Hrel dd) as [-> _]; [rewrite Hf; apply list_elem_of_here|].
    change (mapped _ d (seqZ 0 N)) with (mapped A d (seqZ 0 N)). lia. }
  set (k3 := set_pm p3 k2) in *.
  assert (Hs3 : sched_rel k3 l) by (split; apply (fk_sched _ _ _ _ _ _ _ _ _ _ _ Hfk)).
  assert (Hch3 : env k3 e = env k2 e) by done.
  destruct (fork_finish k3 A3 c d e dd id l Hfam3 Hs3) as (k' & E4 & Hpm4 & Hs4 & Hc4 & Hen4); [|lia|].
  { by rewrite Hch3, (fk_child _ _ _ _ _ _ _ _ _ _ _ Hfk). }
  exists k', A3. split.
  - unfold fork. rewrite (bind_ok cur _ c k k) by (unfold cur, bind, gets; by rewrite Hc). step.
    rewrite (bind_ok _ _ _ _ _ E1).
    rewrite (bind_ok _ _ _ _ _ Er). rewrite u32_small by lia. destruct (Z.eqb_spec id 0); [lia|].
    change (Z.shiftr USTACKTOP PGSHIFT) with N. rewrite (bind_ok _ _ _ _ _ E3). exact E4.
  - destruct Hfam3 as [G1 G2 G3 [G4 G4'] [G5 G5'] _ _ G8]. rewrite Hpm4. split; [exact G1|].
    assert (Hec4 : env k' c = env k3 c) by (by rewrite Hen4, decide_False by congruence).
    assert (Hee4 : env k' e = set_env_status ENV_RUNNABLE (set_env_user_tlb_mod_entry cow_entry_addr (env k2 e)))
      by (by rewrite Hen4, decide_True, Hch3).
    split; [split; [by rewrite Hec4|done]|]. split; [split; [rewrite Hee4; exact G5|done]|].
    split; [split; [|split]; apply Hdup|].
    split; [|split_and!; try done].
    + rewrite <- Hpm1. eapply (data_kept_trans B); [by rewrite (du_dirs _ _ _ _ _ Hdup)|apply Hdup| |exact Hk3].
      exact (fk_data _ _ _ _ _ _ _ _ _ _ _ Hfk).
    + rewrite Hee4, (fk_child _ _ _ _ _ _ _ _ _ _ _ Hfk), Htf1. done.
    + rewrite Hec4. change (env k3 c) with (env k2 c).
      rewrite (fk_others _ _ _ _ _ _ _ _ _ _ _ Hfk) by congruence. by rewrite Hen1, decide_True.
    + by rewrite Hee4.
Qed.

(** * A machine that forks *)

Lemma mapped_le A d l : NoDup l → mapped A d l ≤ Z.of_nat (size (maps A)).
Proof.
  intros Hl. unfold mapped. apply inj_le. set (f := filter _ l).
  assert (Hf : NoDup ((λ v, (d, v)) <$> f)).
  { apply (NoDup_fmap_2_strong _ _); [naive_solver|by apply NoDup_filter]. }
  rewrite <- (length_fmap (λ v, (d, v)) f), <- (size_list_to_set (C := gset (Z * Z)) _ Hf), <- size_dom.
  apply subseteq_size. intros x Hx. apply elem_of_list_to_set, list_elem_of_fmap in Hx as (v & -> & Hv).
  apply list_elem_of_filter in Hv as [Hv _]. by apply elem_of_dom.
Qed.

(** Page 5, writable, at UTEXT; pages 2, 7 and 4 free; slot 7 free *)
Definition w_parent_pm : pmap := set_cur_pgdir (page2pa 0) (released [7; 2] w_mapped).
Definition w_parent_vm : vm := released_vm [7; 2] w_mapped_vm.
Lemma w_parent_maps : maps w_parent_vm = {[(0, VPN UTEXT) := (5, 7)]}.
Proof. by vm_compute. Qed.

Lemma w_parent_refs q : count q (maps w_parent_vm) + pin w_parent_vm q ≤ 2.
Proof.
  assert (map_Forall (λ _ n, n ≤ 1) (pins w_parent_vm)) as Hall by (apply (bool_decide_eq_true_1 _); by vm_compute).
  assert (pin w_parent_vm q ≤ 1).
  { unfold pin. destruct (pins w_parent_vm !! q) as [n|] eqn:E; cbn; [by apply (Hall q)|lia]. }
  assert (count q (maps w_parent_vm) ≤ Z.of_nat (size (maps w_parent_vm))) by (apply inj_le, map_size_filter).
  assert (size (maps w_parent_vm) = 1)%nat by (by rewrite w_parent_maps, map_size_singleton). lia.
Qed.

Definition w_parent : kernel :=
  set_pm w_parent_pm (set_env_free_list (LIST.LIST_INSERT_HEAD 7 (LIST.Mk None ∅)) w_sys).

#[local] Instance w_fork_entry : ForkSymbols := 0x400200.
(** The kernel's directory is in page 6. *)
#[local] Instance w_fork_linker : LinkerSymbols := {
  end_ := KERNBASE; _text := KERNBASE; _data := KERNBASE; kernel_pgdir := page2pa 6; envs_kva := KERNBASE }.

Lemma fork_copies_witness :
  ∃ id k' A', fork w_parent = Ok id k' ∧ ENVX id = 7 ∧ rel (pm k') A' ∧
    maps A' !! (2, VPN UTEXT) = Some (5, 0x113) ∧ maps A' !! (0, VPN UTEXT) = Some (5, 0x113).
Proof.
  assert (Hrel : rel w_parent_pm w_parent_vm).
  { apply rel_set_cur, (released_rel _ _ _ w_mapped_rel). by vm_compute. }
  assert (Hfl : LIST_rep (env_free_list w_parent) [7]).
  { apply LIST_insert_head_rep; [|apply not_elem_of_nil]. split_and!; [done|done|constructor]. }
  assert (Hs : sched_rel w_parent [5]) by (split; apply w_sys_sched).
  pose proof w_parent_maps as Hm.
  assert (Hsp : space w_parent w_parent_vm 5 0).
  { split; [reflexivity|]. change (dirs w_parent_vm) with ({[0]} : gset Z). by apply elem_of_singleton. }
  assert (Hf : free w_parent_vm = [2; 7; 4]) by (by vm_compute).
  assert (Hlow : ∀ v, v < UTEMP / 4096 → maps w_parent_vm !! (0, v) = None).
  { intros v Hv. rewrite Hm. apply lookup_singleton_ne. intros [= <-]. by vm_compute in Hv. }
  assert (Htab : (length (tables w_parent_vm 0) ≤ length [7; 4])%nat) by (apply Nat.leb_le; by vm_compute).
  assert (Hbud : ∀ q, count q (maps w_parent_vm) + pin w_parent_vm q +
    mapped w_parent_vm 0 (seqZ 0 (USTACKTOP / 4096)) < 2 ^ 16 - 2).
  { intros q. pose proof (w_parent_refs q). pose proof (mapped_le w_parent_vm 0 _ (NoDup_seqZ 0 (USTACKTOP / 4096))).
    assert (size (maps w_parent_vm) = 1)%nat by (by rewrite Hm, map_size_singleton). lia. }
  assert (Hker : no_user_entries (mem (pm w_parent)) kernel_pgdir).
  { intros i _. assert (pg (mem (pm w_parent)) (PPN kernel_pgdir) = ∅) as E by (by vm_compute). rewrite E. reflexivity. }
  assert (Ha : find (λ j, negb (asid_used w_parent j)) (seqZ 0 NASID) = Some 0) by (by vm_compute).
  assert (Hne : PPN kernel_pgdir ≠ 2 + PPN0) by (by vm_compute).
  assert (Hid : id_of (u32 (mkenvid_i w_parent + 1)) 7 = 6151) by (by vm_compute).
  assert (H5 : 7 ∉ [5]) by (by rewrite elem_of_cons, elem_of_nil; lia).
  pose proof (fork_copies w_parent w_parent_vm 5 0 [5] 7 [] 2 [7; 4] 0 Hrel eq_refl Hsp eq_refl Hs Hfl Hker
    ltac:(clear; done) Hf Ha ltac:(clear; done) ltac:(clear; done) H5 Hne) as Hx. rewrite Hid in Hx.
  destruct (Hx ltac:(clear; done) Hlow Htab Hbud) as (k' & A' & E & Hr & _ & _ & (Hch & Hpa & _) & _).
  exists 6151, k', A'. split; [exact E|]. split; [reflexivity|]. split; [exact Hr|].
  rewrite Hch, Hpa, Hm, decide_True by (by vm_compute). split; reflexivity.
Defined.

(** * Fork without a free environment *)

Section no_env.
Context `{LinkerSymbols, VoidResult, ForkSymbols}.
Context (k : kernel) (A : vm) (c d ch : Z).
Context (Hrel : rel (pm k) A) (Hc : curenv k = Some c) (Hcp : cur_pgdir (pm k) = page2pa d) (Hd : d ∈ dirs A).
Context (Hch : envid2env ch true k = Err (- E_BAD_ENV) k).

Lemma map_no_env a perm : user_panic_on (sys_mem_map 0 a ch a perm) k = Panic "user_panic".
Proof.
  unfold user_panic_on, result, sys_mem_map. destruct (is_illegal_va a) eqn:Ha.
  - assert (assert_user_va a k = Err (- E_INVAL) k) as E by (unfold assert_user_va; by rewrite Ha).
    unfold bind at 1. by rewrite (bind_err _ _ _ _ _ E).
  - unfold bind at 1. rewrite (bind_ok _ _ _ _ _ (assert_user_va_ok a k Ha)), (bind_ok _ _ _ _ _ (assert_user_va_ok a k Ha)).
    assert (E : envid2env 0 true k = Ok (Some c) k) by (unfold envid2env, gets; cbn; by rewrite Hc).
    by rewrite (bind_ok _ _ _ _ _ E), (bind_err _ _ _ _ _ Hch).
Qed.

Lemma fork_page_no_env v : 0 ≤ v < USTACKTOP / 4096 →
  fork_page ch v k = match maps A !! (d, v) with Some _ => Panic "user_panic" | None => Ok tt k end.
Proof.
  intros Hv. rewrite (fork_page_reads ch k A d v Hrel Hcp Hd Hv).
  destruct (maps A !! (d, v)) as [[p f]|] eqn:Hm; [|done].
  destruct (wf_map _ _ (rel_wf _ _ Hrel) _ _ _ _ Hm) as (_ & [t Ht] & _).
  destruct (vpt_ok k A d t v Hrel Hcp Hd) as (x & E & _); [|done|].
  { change (USTACKTOP / 4096) with 521214 in Hv. change (PDX UTOP) with 509. lia. }
  unfold duppage. rewrite (bind_ok _ _ _ _ _ E).
  destruct (_ && _); [|apply map_no_env]. by rewrite (bind_panic _ _ _ _ (map_no_env _ _)).
Qed.

Lemma fork_loop_no_env v l : v ∈ l → is_Some (maps A !! (d, v)) → Forall (λ v, 0 ≤ v < USTACKTOP / 4096) l →
  for_each l (fork_page ch) k = Panic "user_panic".
Proof.
  intros Hv [q Hm] Hl. induction Hl as [|x l Hx Hl IH]; [by apply elem_of_nil in Hv|].
  cbn [for_each]. pose proof (fork_page_no_env x Hx) as E.
  destruct (maps A !! (d, x)) eqn:Hmx; [by apply bind_panic|]. rewrite (bind_ok _ _ _ _ _ E). apply IH.
  apply elem_of_cons in Hv as [->|]; [congruence|done].
Qed.
End no_env.

(** [fork] does not look at an error of [syscall_exofork]: with no free
    environment, the call does not return the error but brings the caller
    down, as soon as the loop meets a mapped page. *)
Theorem fork_without_env `{LinkerSymbols, VoidResult, ForkSymbols} k A c d v :
  rel (pm k) A → curenv k = Some c → d ∈ dirs A → cur_pgdir (pm k) = page2pa d →
  LIST_rep (env_free_list k) [] → (∀ e, env_id (env k e) ≠ u32 (- E_NO_FREE_ENV)) →
  0 ≤ v < USTACKTOP / 4096 → is_Some (maps A !! (d, v)) →
  sys_exofork k = Err (- E_NO_FREE_ENV) k ∧ fork k = Panic "user_panic".
Proof.
  intros Hrel Hc Hd Hcp Hfl Hids Hv Hm.
  assert (Hexo : ∀ k, curenv k = Some c → LIST_rep (env_free_list k) [] → sys_exofork k = Err (- E_NO_FREE_ENV) k).
  { intros k' Hc' Hfl'. unfold sys_exofork.
    rewrite (bind_ok cur _ c k' k') by (unfold cur, bind, gets; by rewrite Hc'). step.
    unfold bind at 1. unfold env_alloc. step. by rewrite (LIST_first_rep _ _ Hfl'). }
  split; [by apply Hexo|].
  destruct (own_entry_ok k c Hc) as (k1 & E1 & Hpm1 & Hc1 & Htf1 & Hfl1 & _ & _ & _ & Hen1).
  unfold fork. rewrite (bind_ok cur _ c k k) by (unfold cur, bind, gets; by rewrite Hc). step.
  rewrite (bind_ok _ _ _ _ _ E1).
  assert (Er : result sys_exofork k1 = Ok (- E_NO_FREE_ENV) k1).
  { unfold result. rewrite Hexo; [done|congruence|by rewrite Hfl1]. }
  rewrite (bind_ok _ _ _ _ _ Er). set (ch := u32 (- E_NO_FREE_ENV)).
  assert (Hch : envid2env ch true k1 = Err (- E_BAD_ENV) k1).
  { apply (envid2env_bad k1 c); [congruence|done|]. intros (_ & _ & Hi & _). rewrite Hen1 in Hi.
    case_decide; [subst|]; by apply Hids in Hi. }
  change (ch =? 0) with false. cbv iota zeta. change (Z.shiftr USTACKTOP PGSHIFT) with (USTACKTOP / 4096).
  rewrite (bind_panic _ _ "user_panic"); [done|].
  apply (fork_loop_no_env k1 A c d ch) with (v := v); try done; try congruence.
  - apply elem_of_seqZ. lia.
  - apply Forall_forall. intros x Hx. apply elem_of_seqZ in Hx. lia.
Qed.

(** The machine without a free slot *)
Lemma fork_without_env_witness :
  let k := set_env_free_list (LIST.Mk None ∅) (set_pm w_parent_pm w_sys) in
  sys_exofork k = Err (- E_NO_FREE_ENV) k ∧ fork k = Panic "user_panic".
Proof.
  assert (Hrel : rel w_parent_pm w_parent_vm) by (apply rel_set_cur, (released_rel _ _ _ w_mapped_rel); by vm_compute).
  assert (Hm : is_Some (maps w_parent_vm !! (0, VPN UTEXT))) by (exists (5, 7); by vm_compute).
  assert (Hd : 0 ∈ dirs w_parent_vm).
  { change (dirs w_parent_vm) with ({[0]} : gset Z). by apply elem_of_singleton. }
  assert (Hv : 0 ≤ VPN UTEXT < USTACKTOP / 4096).
  { change (VPN UTEXT) with 1024. change (USTACKTOP / 4096) with 521214. lia. }
  assert (Hp : cur_pgdir w_parent_pm = page2pa 0) by reflexivity.
  revert Hrel Hm Hd Hp. generalize w_parent_pm, w_parent_vm. intros s A Hrel Hm Hd Hp k.
  assert (Hfl : LIST_rep (env_free_list k) []) by (apply (LIST_init_rep (LIST.Mk None ∅))).
  assert (Hids : ∀ e, env_id (env k e) ≠ u32 (- E_NO_FREE_ENV)).
  { intros e. unfold env. cbn. rewrite !lookup_insert, lookup_empty. repeat case_decide; done. }
  exact (fork_without_env k A 5 0 (VPN UTEXT) Hrel eq_refl Hd Hp Hfl Hids Hv Hm).
Defined.
