(* ===== verification/CowProps.v ===== *)
(** The copy-on-write handler isolates the page that was written. *)
From S2P Require Import Prelude Mmu Queue Memory Pmap PmapSpec VmSteps Disk Env EnvProps Sched SchedProps.
From S2P Require Import Tlbex Syscall Fork.
From S2P Require Import QueueProps PmapProps SyscallProps EnvVmProps TlbProps ForkProps.

(** * Copying a page of data *)

Lemma load_page_copy m p q r j :
  0 ≤ p < PAGE_LIMIT → 0 ≤ q < PAGE_LIMIT → 0 ≤ r < PAGE_LIMIT → 0 ≤ j < 1024 →
  load (copy_page (page2pa p) (page2pa q) m) (page2pa r + 4 * j) =
    if decide (r = p) then load m (page2pa q + 4 * j) else load m (page2pa r + 4 * j).
Proof.
  intros Hp Hq Hr Hj. rewrite load_copy_page by done. rewrite (load_word m q j Hq Hj).
  pose proof (proj1 (word_addr q 0 Hq ltac:(lia))) as E. rewrite Z.mul_0_r, Z.add_0_r in E. rewrite E.
  repeat case_decide; congruence.
Qed.

Lemma mem_rel_copy m A np p q :
  wf A np → 0 ≤ p < PAGE_LIMIT → 0 ≤ q < PAGE_LIMIT → p ∉ dirs A → ¬ is_tab A p →
  mem_rel m A → mem_rel (copy_page (page2pa p) (page2pa q) m) A.
Proof.
  intros Hwf Hp Hq Hd Ht [H1 H2]. split.
  - intros d j Hdd Hj. specialize (H1 d j Hdd Hj). rewrite load_page_copy, decide_False; try done.
    + intros ->. done.
    + by apply (dir_page A np).
    + change (PDX UTOP) with 509 in Hj. lia.
  - intros d j t k Htt Hk. specialize (H2 d j t k Htt Hk). rewrite load_page_copy, decide_False; try done.
    + intros ->. apply Ht. by eexists.
    + by apply (tab_page A np Hwf d j).
Qed.

(** * Moving a mapping *)

(** Permission of a page after its copy *)
Definition cow_flags (g : Z) : Z := perm_flags (Z.lor (Z.lor (Z.lxor g PTE_COW) PTE_W) PTE_U).

Lemma cow_perm_bound g : 0 ≤ g < 1024 → 0 ≤ Z.lor (Z.lxor g PTE_COW) PTE_W < 1024.
Proof.
  intros Hg. apply (lor_bound _ _ 10); [lia| |done]. by apply (lxor_bound _ _ 10).
Qed.

Lemma cow_flags_spec g :
  0 ≤ g < 1024 → has g PTE_COW = true →
  has (cow_flags g) PTE_W = true ∧ has (cow_flags g) PTE_COW = false ∧ has (cow_flags g) PTE_V = true ∧
  has (cow_flags g) PTE_U = true ∧ has (cow_flags g) PTE_LIBRARY = has g PTE_LIBRARY.
Proof.
  intros Hg. unfold cow_flags. change PTE_COW with (2 ^ 8). change PTE_W with (2 ^ 2).
  change PTE_U with (2 ^ 4). change PTE_LIBRARY with (2 ^ 9). rewrite perm_flags_V.
  rewrite !perm_flags_bit by lia. rewrite !has_testbit by lia. rewrite !Z.lor_spec, !Z.lxor_spec.
  rewrite !Z.pow2_bits_eqb by lia. intros ->. cbn.
  rewrite ?orb_false_r, ?orb_true_r, ?xorb_false_r. done.
Qed.

Lemma spec_insert_replace A d v q g p perm :
  maps A !! (d, v) = Some (q, g) → q ≠ p → is_Some (tabs A !! (d, v / 1024)) →
  ∃ A', spec_insert A d v p perm = Some A' ∧ dirs A' = dirs A ∧ tabs A' = tabs A ∧ pins A' = pins A ∧
    free A' = free (spec_remove A d v) ∧ maps A' = <[(d, v) := (p, perm_flags perm)]> (maps A).
Proof.
  intros Hm Hne [t Ht]. unfold spec_insert, spec_table. rewrite Hm, decide_False by done.
  destruct (spec_remove_frame A d v) as (Sd & St & Sp & Sm). rewrite St, Ht. cbn.
  eexists. split; [done|]. cbn. split_and!; try done. by rewrite Sm, insert_delete_eq.
Qed.

(** * The steps of the handler *)

Section cow.
Context `{LinkerSymbols, VoidResult, ForkSymbols}.

Lemma self_id k c : curenv k = Some c → envid2env 0 true k = Ok (Some c) k.
Proof. intros Hc. unfold envid2env, gets. cbn. by rewrite Hc. Qed.

(** A fresh page in the window at UCOW *)
Lemma window_alloc_ok k A c d n fl perm :
  rel (pm k) A → curenv k = Some c → space k A c d → 0 ≤ perm < 1024 →
  maps A !! (d, VPN UCOW) = None → free A = n :: fl → is_Some (tabs A !! (d, VPN UCOW / 1024)) ∨ fl ≠ [] →
  ∃ p1 A1, user_panic_on (sys_mem_alloc 0 UCOW perm) k = Ok tt (set_pm p1 k) ∧ rel p1 A1 ∧
    dirs A1 = dirs A ∧ pins A1 = pins A ∧ same_or_new_table (set_vfree fl A) A1 (d, VPN UCOW / 1024) ∧
    maps A1 = <[(d, VPN UCOW) := (n, perm_flags (Z.lor perm PTE_U))]> (maps A) ∧
    data_kept A1 (clear_page (page2pa n) (mem (pm k))) (mem p1) ∧ cur_pgdir p1 = cur_pgdir (pm k).
Proof.
  intros Hrel Hc Hsp Hp Hw Hf Ht.
  pose proof (sys_mem_alloc_ok k A 0 c d UCOW perm Hrel eq_refl (self_id k c Hc) Hsp Hp) as Hok. rewrite Hf in Hok.
  pose proof (spec_insert_fresh (set_vfree fl A) d (VPN UCOW) n (Z.lor perm PTE_U) Hw) as Hs.
  destruct (spec_insert (set_vfree fl A) d (VPN UCOW) n (Z.lor perm PTE_U)) as [A1|].
  - destruct Hok as (p1 & E & Hr & Hk & Hcp). destruct Hs as (Hd & Hpn & Hm & Hst).
    exists p1, A1. split; [by apply user_panic_on_ok|]. done.
  - destruct Hs as [Hs1 Hs2]. cbn in Hs1, Hs2. destruct Ht as [[t Ht]|Ht]; [congruence|done].
Qed.

(** [memcpy((void* )UCOW, (void* )ROUNDDOWN(va, BY2PG), BY2PG)] *)
Lemma window_copy_ok {B} (rest : M kernel B) k A d q g va n h :
  rel (pm k) A → cur_pgdir (pm k) = page2pa d → d ∈ dirs A → 0 ≤ va < UTOP →
  maps A !! (d, VPN va) = Some (q, g) → has g PTE_R = true →
  maps A !! (d, VPN UCOW) = Some (n, h) → has h PTE_W = true → n ∉ dirs A →
  let k' := with_mem (copy_page (page2pa n) (page2pa q) (mem (pm k))) k in
  (src <- user_pa (ROUNDDOWN va BY2PG) false ;; dst <- user_pa UCOW true ;;
   onp (modify (set_mem (copy_page dst src))) ;; rest) k = rest k' ∧ rel (pm k') A.
Proof.
  intros Hrel Hc Hd Hva Hq Hg Hn Hh Hnd k'.
  assert (Hva' : 0 ≤ va < 2 ^ 32) by (change UTOP with 2134900736 in Hva; lia).
  destruct (mapped_page (pm k) A Hrel d _ q g Hq) as (Hq1 & _).
  destruct (mapped_page (pm k) A Hrel d _ n h Hn) as (Hn1 & Hn2 & _). pose proof (np_limit (pm k) A Hrel).
  pose proof (rounddown_bound va 0 Hva' eq_refl) as [Hb1 _].
  pose proof (rounddown_bound va UTOP Hva' eq_refl) as [_ Hb2].
  rewrite <- rounddown_VPN in Hq by done.
  rewrite (bind_ok _ _ _ _ _ (user_pa_ok k A d _ false q g Hrel Hc Hd (conj (Hb1 (proj1 Hva)) (Hb2 (proj2 Hva))) Hq Hg)).
  rewrite (bind_ok _ _ _ _ _ (user_pa_ok k A d UCOW true n h Hrel Hc Hd ltac:(done) Hn Hh)).
  assert (ROUNDDOWN va BY2PG mod 4096 = 0) as -> by (rewrite rounddown_page by done; by apply Z.mod_mul).
  change (UCOW mod 4096) with 0. rewrite !Z.add_0_r. split; [done|].
  apply (rel_with_mem k A (mem (pm k))); [by rewrite with_mem_id|].
  apply (mem_rel_copy _ A _ _ _ (rel_wf _ _ Hrel)); try done; [lia..|apply Hrel].
Qed.

(** The copy takes the place of the shared page. *)
Lemma replace_ok k A c d q g va n h perm :
  rel (pm k) A → curenv k = Some c → space k A c d → is_illegal_va va = false → 0 ≤ perm < 1024 →
  maps A !! (d, VPN va) = Some (q, g) → maps A !! (d, VPN UCOW) = Some (n, h) → q ≠ n →
  count n (maps A) + pin A n < 2 ^ 16 - 1 →
  ∃ p' A', result (sys_mem_map 0 UCOW 0 va perm) k = Ok 0 (set_pm p' k) ∧ rel p' A' ∧
    dirs A' = dirs A ∧ tabs A' = tabs A ∧ pins A' = pins A ∧ free A' = free (spec_remove A d (VPN va)) ∧
    maps A' = <[(d, VPN va) := (n, perm_flags (Z.lor perm PTE_U))]> (maps A) ∧
    data_kept A' (mem (pm k)) (mem p') ∧ cur_pgdir p' = cur_pgdir (pm k).
Proof.
  intros Hrel Hc Hsp Hva Hp Hq Hn Hne Href. pose proof (self_id k c Hc) as E0.
  pose proof (sys_mem_map_ok k A 0 c d UCOW 0 c d va perm Hrel eq_refl Hva E0 E0 Hsp Hsp Hp) as Hok.
  rewrite Hn in Hok. destruct (mapped_page (pm k) A Hrel d _ n h Hn) as (_ & _ & _ & Hr & _).
  specialize (Hok ltac:(lia)). destruct (wf_map _ _ (rel_wf _ _ Hrel) _ _ _ _ Hq) as (_ & Ht & _).
  destruct (spec_insert_replace A d (VPN va) q g n (Z.lor perm PTE_U) Hq Hne Ht) as (A' & Es & Hd & Htb & Hpn & Hf & Hm).
  rewrite Es in Hok. destruct Hok as (p' & E & Hr' & Hk & Hcp). exists p', A'.
  split; [unfold result; by rewrite E|]. done.
Qed.

(** The handler starts: the faulting page is shared copy-on-write, nothing is
    mapped in the window at UCOW, a page is free, and the context with the
    faulting address is on the exception stack. *)
Record cow_ready (k : kernel) (A : vm) (c d va q g n : Z) (fl : list Z) (p f i : Z) : Prop := {
  cr_rel : rel (pm k) A;
  cr_cur : curenv k = Some c;
  cr_space : space k A c d;
  cr_dir : cur_pgdir (pm k) = page2pa d;
  cr_va : is_illegal_va va = false;
  cr_page : maps A !! (d, VPN va) = Some (q, g);
  cr_cow : has g PTE_COW = true;
  cr_read : has g PTE_R = true;
  cr_data : q ∉ dirs A;
  cr_window : maps A !! (d, VPN UCOW) = None;
  cr_free : free A = n :: fl;
  cr_table : is_Some (tabs A !! (d, VPN UCOW / 1024)) ∨ fl ≠ [];
  cr_stack : maps A !! (d, VPN (UXSTACKTOP - BY2PG)) = Some (p, f);
  cr_stack_read : has f PTE_R = true;
  cr_stack_data : p ∉ dirs A;
  cr_other : VPN (UXSTACKTOP - BY2PG) ≠ VPN va;
  cr_frame : 0 ≤ i ∧ i + 38 ≤ 1024;
  cr_stval : load (mem (pm k)) (page2pa p + 4 * (i + 36)) = va
}.

(** What the handler leaves: the copy in place of the shared page, nothing
    else changed. *)
Record cow_done (A A' : vm) (d va q g n : Z) (fl : list Z) : Prop := {
  cd_maps : maps A' = <[(d, VPN va) := (n, cow_flags g)]> (maps A);
  cd_dirs : dirs A' = dirs A;
  cd_pins : pins A' = pins A;
  cd_tabs : ∀ k t, tabs A !! k = Some t → tabs A' !! k = Some t;
  cd_free : ∃ fl', free A' = (if count q (maps A) + pin A q =? 1 then [q] else []) ++ fl' ∧
              (fl' = fl ∨ ∃ t, fl = t :: fl')
}.

Lemma fresh_copy k A c d va q g n fl p f i :
  cow_ready k A c d va q g n fl p f i → n ∉ dirs A ∧ q ≠ n ∧ p ≠ n ∧ count n (maps A) + pin A n = 0 ∧
    0 ≤ n < PAGE_LIMIT ∧ 0 ≤ p < PAGE_LIMIT ∧ VPN va ≠ VPN UCOW.
Proof.
  intros [R1 _ _ _ _ R6 _ _ _ R10 R11 _ R13 _ _ _ _ _].
  assert (Hin : n ∈ free A) by (rewrite R11; apply list_elem_of_here).
  destruct (free_unused (pm k) A R1 n Hin). destruct (free_page (pm k) A R1 n Hin) as [_ ?].
  destruct (mapped_page (pm k) A R1 d _ p f R13) as (Hp & _). pose proof (np_limit (pm k) A R1).
  split_and!; try lia.
  - by apply (free_not_dir (pm k) A R1).
  - intros ->. by apply (free_not_mapped (pm k) A R1 n _ g Hin) in R6.
  - intros ->. by apply (free_not_mapped (pm k) A R1 n _ f Hin) in R13.
  - intros E. rewrite E in R6. congruence.
Qed.

Lemma same_or_new_mono A A' k : same_or_new_table A A' k →
  ∀ k' t, tabs A !! k' = Some t → tabs A' !! k' = Some t.
Proof.
  intros [(_ & -> & _)|(Hn & t & -> & _)] k' t' Ht; [done|]. rewrite lookup_insert_ne; [done|congruence].
Qed.

(** Replacing the page and closing the window, abstractly *)
Lemma cow_moves A A1 A2 d va q g n fl :
  maps A !! (d, VPN va) = Some (q, g) → maps A !! (d, VPN UCOW) = None → q ≠ n → VPN va ≠ VPN UCOW →
  count n (maps A) + pin A n = 0 →
  dirs A1 = dirs A → pins A1 = pins A → same_or_new_table (set_vfree fl A) A1 (d, VPN UCOW / 1024) →
  maps A1 = <[(d, VPN UCOW) := (n, cow_flags g)]> (maps A) →
  dirs A2 = dirs A1 → tabs A2 = tabs A1 → pins A2 = pins A1 → free A2 = free (spec_remove A1 d (VPN va)) →
  maps A2 = <[(d, VPN va) := (n, cow_flags g)]> (maps A1) →
  cow_done A (spec_remove A2 d (VPN UCOW)) d va q g n fl ∧ tabs (spec_remove A2 d (VPN UCOW)) = tabs A1.
Proof.
  intros Hq Hw Hne Hv Hn Hd1 Hp1 Ht1 Hm1 Hd2 Ht2 Hp2 Hf2 Hm2.
  destruct (spec_remove_frame A2 d (VPN UCOW)) as (Sd & St & Sp & Sm).
  assert (Hk : (d, VPN va) ≠ (d, VPN UCOW)) by congruence.
  assert (Hc2 : count n (maps A2) + pin A2 n = 2).
  { unfold pin. rewrite Hm2, Hp2, Hp1. fold (pin A n). rewrite <- insert_delete_eq.
    rewrite count_insert_new by (by rewrite lookup_delete_eq).
    rewrite (count_delete _ _ _ q g) by (by rewrite Hm1, lookup_insert_ne).
    rewrite (decide_False _ _ Hne), (decide_True _ _ eq_refl), Hm1, count_insert_new by done.
    rewrite (decide_True _ _ eq_refl). lia. }
  split; [split|by rewrite St, Ht2].
  - rewrite Sm, Hm2, Hm1, delete_insert_ne by done. by rewrite delete_insert_id.
  - by rewrite Sd, Hd2.
  - by rewrite Sp, Hp2.
  - intros k t Ht. rewrite St, Ht2. by eapply (same_or_new_mono (set_vfree fl A)).
  - exists (free A1). split.
    + unfold spec_remove at 1. rewrite Hm2, Hm1, lookup_insert_ne, lookup_insert_eq by done.
      rewrite <- Hm1, <- Hm2, Hc2. cbn. rewrite Hf2. unfold spec_remove.
      rewrite Hm1, lookup_insert_ne, Hq by done. unfold pin. rewrite Hp1. fold (pin A q).
      rewrite count_insert_new by done. rewrite (decide_False _ _ (not_eq_sym Hne)), Z.add_0_r. by case_match.
    + destruct Ht1 as [(_ & _ & ->)|(_ & t & _ & Hf)]; [by left|right]. by exists t.
Qed.

Lemma vpn_bound va : 0 ≤ va < UTOP → 0 ≤ VPN va < PDX UTOP * 1024.
Proof.
  change UTOP with (521216 * 4096). change (PDX (521216 * 4096) * 1024) with 521216. intros Hva.
  unfold VPN. rewrite Z.shiftr_div_pow2 by lia. change (2 ^ 12) with 4096.
  split; [apply Z.div_pos; lia|apply Z.div_lt_upper_bound; lia].
Qed.

(** Contents after the copy *)
Lemma copy_data A A' m m1 m2 m' n q :
  dirs A' = dirs A → (∀ p, is_tab A p → is_tab A' p) → 0 ≤ n < PAGE_LIMIT → 0 ≤ q < PAGE_LIMIT → q ≠ n →
  q ∉ dirs A → ¬ is_tab A q → data_kept A (clear_page (page2pa n) m) m1 →
  m2 = copy_page (page2pa n) (page2pa q) m1 → data_kept A' m2 m' →
  data_kept A' (copy_page (page2pa n) (page2pa q) m) m'.
Proof.
  intros Hd Ht Hn Hq Hne Hqd Hqt Hk1 -> Hk r j Hr Hj Hrd Hrt. rewrite (Hk r j) by done.
  rewrite !load_page_copy by done. assert (Ec : ∀ x, x ≠ n → x ∉ dirs A → ¬ is_tab A x → 0 ≤ x < PAGE_LIMIT →
    load m1 (page2pa x + 4 * j) = load m (page2pa x + 4 * j)).
  { intros x Hx Hxd Hxt Hxl. rewrite (Hk1 x j) by done. rewrite load_clear_page by done. by case_decide. }
  case_decide as E; apply Ec; try done; [by rewrite <- Hd|naive_solver].
Qed.

(** From the allocation to the closing of the window *)
Lemma cow_steps_ok {B} (rest : M kernel B) k A c d va q g n fl p f i :
  cow_ready k A c d va q g n fl p f i →
  let perm := Z.lor (Z.lxor g PTE_COW) PTE_W in
  ∃ p' A', (user_panic_on (sys_mem_alloc 0 UCOW perm) ;;
    src <- user_pa (ROUNDDOWN va BY2PG) false ;; dst <- user_pa UCOW true ;;
    onp (modify (set_mem (copy_page dst src))) ;;
    _ <- result (sys_mem_map 0 UCOW 0 va perm) ;; _ <- result (sys_mem_unmap 0 UCOW) ;; rest) k =
      rest (set_pm p' k) ∧
    rel p' A' ∧ cow_done A A' d va q g n fl ∧ cur_pgdir p' = cur_pgdir (pm k) ∧
    data_kept A' (copy_page (page2pa n) (page2pa q) (mem (pm k))) (mem p').
Proof.
  intros Hr perm. destruct (fresh_copy _ _ _ _ _ _ _ _ _ _ _ _ Hr) as (Hnd & Hqn & Hpn & Hcn & Hn & Hp & Hv).
  destruct Hr as [R1 R2 R3 R4 R5 R6 R7 R8 R9 R10 R11 R12 R13 R14 R15 _ _ _]. pose proof R3 as [Hpd Hd].
  pose proof (legal_va va R5) as Hva. pose proof (np_limit (pm k) A R1).
  destruct (mapped_page (pm k) A R1 d _ q g R6) as (Hq & Hqt & _).
  destruct (wf_map _ _ (rel_wf _ _ R1) _ _ _ _ R6) as (_ & _ & _ & _ & Hgb & _).
  pose proof (cow_perm_bound g Hgb) as Hpb. destruct (cow_flags_spec g Hgb R7) as (Hw & _).
  destruct (window_alloc_ok k A c d n fl perm R1 R2 R3 Hpb R10 R11 R12)
    as (p1 & A1 & E1 & Hr1 & Hd1 & Hp1 & Ht1 & Hm1 & Hk1 & Hc1).
  rewrite (bind_ok _ _ _ _ _ E1). change (perm_flags (Z.lor perm PTE_U)) with (cow_flags g) in *.
  assert (Hm1q : maps A1 !! (d, VPN va) = Some (q, g)) by (rewrite Hm1, lookup_insert_ne; [done|congruence]).
  assert (Hm1n : maps A1 !! (d, VPN UCOW) = Some (n, cow_flags g)) by (by rewrite Hm1, lookup_insert_eq).
  match goal with |- context [bind (user_pa UCOW true) (λ dst, bind _ (λ _, ?r))] => set (rest' := r) end.
  destruct (window_copy_ok rest' (set_pm p1 k) A1 d q g va n (cow_flags g)) as [E2 Hr2];
    rewrite ?Hd1; try done; [cbn; by rewrite Hc1|].
  rewrite E2. clear E2. set (k2 := with_mem _ _) in *. unfold rest'. clear rest'.
  destruct (replace_ok k2 A1 c d q g va n (cow_flags g) perm Hr2 R2) as
    (p3 & A3 & E3 & Hr3 & Hd3 & Ht3 & Hp3 & Hf3 & Hm3 & Hk3 & Hc3); try done; [split; [done|by rewrite Hd1]| |].
  { unfold pin. rewrite Hm1, Hp1. fold (pin A n). rewrite count_insert_new, (decide_True _ _ eq_refl) by done. lia. }
  rewrite (bind_ok _ _ _ _ _ E3). set (k3 := set_pm p3 k2).
  assert (Hsp3 : space k3 A3 c d) by (split; [done|by rewrite Hd3, Hd1]).
  destruct (sys_mem_unmap_ok k3 A3 0 c d UCOW Hr3 eq_refl (self_id k3 c R2) Hsp3) as (p4 & E4 & Hr4 & Hc4 & Hk4).
  assert (E4' : result (sys_mem_unmap 0 UCOW) k3 = Ok 0 (set_pm p4 k3)) by (unfold result; by rewrite E4).
  rewrite (bind_ok _ _ _ _ _ E4'). change (set_pm p4 k3) with (set_pm p4 k).
  destruct (cow_moves A A1 A3 d va q g n fl) as [Hdone Htab]; try done.
  set (A4 := spec_remove A3 d (VPN UCOW)) in *. exists p4, A4. split_and!; try done.
  - rewrite Hc4. change (cur_pgdir (pm k3)) with (cur_pgdir p3). rewrite Hc3. exact Hc1.
  - assert (Hd4 : dirs A4 = dirs A1) by (by rewrite (cd_dirs _ _ _ _ _ _ _ _ Hdone), Hd1).
    assert (Htt : ∀ x, is_tab A1 x → is_tab A4 x) by (intros x [y ?]; exists y; by rewrite Htab).
    apply (copy_data A1 A4 _ (mem p1) (mem (pm k2)) _ n q Hd4 Htt Hn ltac:(lia) Hqn); try done; [by rewrite Hd1| |].
    + by destruct (mapped_page (pm k2) A1 Hr2 d _ q g Hm1q) as (_ & ? & _).
    + eapply (data_kept_trans A3); [|  |exact Hk3|exact Hk4]; [by rewrite Hd4, Hd3|].
      intros x [y ?]. exists y. by rewrite Htab, <- Ht3.
Qed.

Lemma cow_entry_ok k A c d va q g n fl p f i :
  cow_ready k A c d va q g n fl p f i →
  let l := map (λ j, load (mem (pm k)) (page2pa p + 4 * j)) (seqZ i 38) in
  ∃ p' A', cow_entry (UXSTACKTOP - BY2PG + 4 * i) k = UserMode (set_kstack_tf (words_tf l) (set_pm p' k)) ∧
    rel p' A' ∧ cow_done A A' d va q g n fl ∧
    data_kept A' (copy_page (page2pa n) (page2pa q) (mem (pm k))) (mem p').
Proof.
  intros Hr l. destruct (fresh_copy _ _ _ _ _ _ _ _ _ _ _ _ Hr) as (Hnd & _ & Hpn & _ & Hn & Hp & _).
  pose proof Hr as [R1 R2 R3 R4 R5 R6 R7 _ _ _ _ _ R13 R14 R15 R16 [Hi Hi'] R18]. pose proof R3 as [_ Hd].
  pose proof (legal_va va R5) as Hva. pose proof (np_limit (pm k) A R1).
  destruct (mapped_page (pm k) A R1 d _ q g R6) as (Hq & _).
  destruct (wf_map _ _ (rel_wf _ _ R1) _ _ _ _ R6) as (_ & [t Ht] & _ & _ & Hgb & _).
  unfold cow_entry.
  pose proof (user_load_word k A d p f (UXSTACKTOP - BY2PG) R4 Hd ltac:(done) eq_refl ltac:(done) R13 R14
    (mem (pm k)) (i + 36) ltac:(lia)) as Ev. rewrite with_mem_id, R18 in Ev.
  replace (UXSTACKTOP - BY2PG + 4 * i + 4 * 36) with (UXSTACKTOP - BY2PG + 4 * (i + 36)) by lia.
  rewrite u32_small by (change UXSTACKTOP with 2134900736; change BY2PG with 4096; lia).
  rewrite (bind_ok _ _ _ _ _ (Ev R1)).
  destruct (vpt_ok k A d t (VPN va) R1 R4 Hd (vpn_bound va Hva) Ht) as (x & Ex & Hx). rewrite R6 in Hx. subst x.
  rewrite (bind_ok _ _ _ _ _ Ex). destruct (page2pa_range q) as [Hqr _]; [unfold PAGE_LIMIT in *; lia|].
  rewrite pte_perm, R7 by done. change (negb true) with false. cbv iota zeta.
  match goal with |- context [bind (result (sys_mem_unmap 0 UCOW)) (λ _, ?r)] =>
    destruct (cow_steps_ok r k A c d va q g n fl p f i Hr) as (p' & A' & E & Hr' & Hdone & Hc' & Hk') end.
  rewrite E. clear E. exists p', A'.
  assert (Hd' : dirs A' = dirs A) by apply Hdone.
  assert (Hmp : maps A' !! (d, VPN (UXSTACKTOP - BY2PG)) = Some (p, f))
    by (rewrite (cd_maps _ _ _ _ _ _ _ _ Hdone), lookup_insert_ne; [done|congruence]).
  rewrite (set_trapframe_ok (set_pm p' k) A' d c p f i Hr' (eq_trans Hc' R4) ltac:(by rewrite Hd') R2 Hmp R14 Hi Hi').
  split_and!; try done. do 3 f_equal. unfold l. apply map_ext_in. intros j Hj.
  apply list_elem_of_In, elem_of_seqZ in Hj. change (mem (pm (set_pm p' k))) with (mem p').
  destruct (mapped_page p' A' Hr' d _ p f Hmp) as (_ & Hpt & _).
  rewrite (Hk' p j) by (done || lia || by rewrite Hd'). rewrite load_page_copy by (done || lia).
  by rewrite decide_False by done.
Qed.
End cow.

Lemma nth_map_seqZ (g : Z → Z) i n j :
  0 ≤ j < n → nth (Z.to_nat j) (map g (seqZ i n)) 0 = g (i + j).
Proof.
  intros Hj. rewrite <- (Z2Nat.id j) at 2 by lia.
  apply nth_lookup_Some. rewrite list_lookup_fmap, lookup_seqZ_lt by lia. done.
Qed.

(** C24. A store to a page shared copy-on-write leads to a private copy: the
    fault starts [cow_entry] with the saved context, and the handler resumes
    the interrupted program with every register restored and a fresh page at
    the address, writable, no longer copy-on-write and holding what the shared
    page held.  No other mapping of any environment changes, the shared page
    is freed exactly when this was its last reference, and every other page of
    data keeps its contents, the exception stack apart. *)
Theorem cow_isolates `{LinkerSymbols, VoidResult, ForkSymbols} k A c d q g p f n fl :
  let tf := kstack_tf k in
  let va := stval tf in
  rel (pm k) A → curenv k = Some c → space k A c d → cur_pgdir (pm k) = page2pa d →
  tf_wf tf → scause tf = 15 → is_illegal_va va = false →
  maps A !! (d, VPN va) = Some (q, g) → has g PTE_COW = true → has g PTE_R = true → has g PTE_W = false →
  q ∉ dirs A → q ≠ p →
  env_user_tlb_mod_entry (env k c) = cow_entry_addr → cow_entry_addr ≠ 0 →
  maps A !! (d, VPN (UXSTACKTOP - BY2PG)) = Some (p, f) → has f PTE_W = true → has f PTE_R = true → p ∉ dirs A →
  UXSTACKTOP - BY2PG ≤ upcall_frame tf → upcall_frame tf mod 4 = 0 →
  maps A !! (d, VPN UCOW) = None → free A = n :: fl → is_Some (tabs A !! (d, VPN UCOW / 1024)) ∨ fl ≠ [] →
  ∃ k1, do_tlb_miss k = Ok tt k1 ∧
    sepc (kstack_tf k1) = cow_entry_addr ∧ reg_of (kstack_tf k1) 10 = upcall_frame tf ∧
    ∀ t, ∃ k2 A', cow_entry (upcall_frame tf) (set_kstack_tf t k1) = UserMode k2 ∧ kstack_tf k2 = tf ∧
      rel (pm k2) A' ∧ cow_done A A' d va q g n fl ∧
      ∀ r j, 0 ≤ r < PAGE_LIMIT → 0 ≤ j < 1024 → r ∉ dirs A' → ¬ is_tab A' r → r ≠ p →
        load (mem (pm k2)) (page2pa r + 4 * j) = load (mem (pm k)) (page2pa (if decide (r = n) then q else r) + 4 * j).
Proof.
  intros tf va Hrel Hcur Hsp Hc Hwf Hs Hva Hq Hg HgR HgW Hqd Hqp He Hen Hm HW HR Hpd Hlo Hal Hw Hf Ht.
  destruct (cow_upcall_ok k A c d q g p f) as (m & i & Hi & Hi' & Hfr & Hrel' & E & Hback & H10 & Hother);
    try done; [apply Hsp|by apply legal_va|by rewrite He|]. fold tf in E, Hback, Hfr. rewrite He in E.
  eexists. split; [exact E|]. split; [done|].
  split; [unfold reg_of, upcall_tf; cbn [kstack_tf with_mem set_pm set_kstack_tf set_sepc set_sscratch set_reg set_regs regs]|].
  { rewrite lookup_insert_eq. apply u32_small. rewrite Hfr. change UXSTACKTOP with 2134900736.
    change BY2PG with 4096. lia. }
  intros t. rewrite Hfr. set (k1 := set_kstack_tf t _).
  assert (Hr : cow_ready k1 A c d va q g n fl p f i).
  { split; try done.
    - intros Hx. rewrite <- Hx, Hm in Hq. congruence.
    - pose proof (nth_map_seqZ (λ j, load m (page2pa p + 4 * j)) i 38 36 ltac:(lia)) as En.
      rewrite Hback in En. by symmetry. }
  destruct (cow_entry_ok k1 A c d va q g n fl p f i Hr) as (p' & A' & E2 & Hr2 & Hdone & Hk).
  cbv zeta in E2. change (mem (pm k1)) with m in E2, Hk. rewrite Hback, words_tf_words in E2 by apply Hwf.
  destruct (fresh_copy _ _ _ _ _ _ _ _ _ _ _ _ Hr) as (_ & _ & Hpn & _ & Hnl & _).
  destruct (mapped_page (pm k) A Hrel d _ q g Hq) as (Hq1 & _). pose proof (np_limit (pm k) A Hrel).
  eexists _, A'. split; [exact E2|]. split; [done|]. split; [exact Hr2|]. split; [exact Hdone|].
  intros r j Hr0 Hj Hrd Hrt Hrp. etrans; [exact (Hk r j Hr0 Hj Hrd Hrt)|].
  rewrite load_page_copy by (done || lia). case_decide; apply Hother; try done; lia.
Qed.

(** The machine of the upcall, with pages 2 and 7 free *)
Definition w_isolate_pm : pmap := released [7; 2] w_cow_pm.
Definition w_isolate_vm : vm := released_vm [7; 2] w_cow_vm.
Definition w_isolate : kernel := set_pm (set_cur_pgdir (page2pa 0) w_isolate_pm) w_cow.

#[local] Instance w_cow_entry : ForkSymbols := 0x400200.

Lemma cow_isolates_witness :
  ∃ k1, do_tlb_miss w_isolate = Ok tt k1 ∧
    ∀ t, ∃ k2 A', cow_entry (UXSTACKTOP - 152) (set_kstack_tf t k1) = UserMode k2 ∧
      kstack_tf k2 = w_cow_tf ∧ maps A' !! (0, VPN UTEXT) = Some (2, 0x17) ∧ rel (pm k2) A'.
Proof.
  assert (Hne : [7] ≠ []) by done.
  assert (Hrel : rel w_isolate_pm w_isolate_vm) by (apply (released_rel _ _ _ w_cow_rel); by vm_compute).
  assert (Hd : ∀ p, p ≠ 0 → p ∉ dirs w_isolate_vm).
  { intros p Hp. change (dirs w_isolate_vm) with ({[0]} : gset Z). by rewrite elem_of_singleton. }
  assert (Hm5 : maps w_isolate_vm !! (0, VPN UTEXT) = Some (5, 0x113)) by (by vm_compute).
  assert (Hm6 : maps w_isolate_vm !! (0, VPN (UXSTACKTOP - BY2PG)) = Some (6, 0x17)) by (by vm_compute).
  assert (Hmw : maps w_isolate_vm !! (0, VPN UCOW) = None) by (by vm_compute).
  assert (Hf : free w_isolate_vm = [2; 7]) by (by vm_compute).
  assert (Hsp : space w_isolate w_isolate_vm 5 0).
  { split; [reflexivity|]. change (dirs w_isolate_vm) with ({[0]} : gset Z). by apply elem_of_singleton. }
  assert (Htf : kstack_tf w_isolate = w_cow_tf) by reflexivity.
  pose proof (cow_isolates w_isolate w_isolate_vm 5 0 5 0x113 6 0x17 2 [7]) as Hc.
  cbv zeta in Hc. rewrite Htf in Hc.
  specialize (Hc (rel_set_cur _ _ _ Hrel) eq_refl Hsp eq_refl w_cow_tf_wf eq_refl eq_refl Hm5 eq_refl eq_refl eq_refl).
  specialize (Hc (Hd 5 ltac:(lia)) ltac:(lia) eq_refl ltac:(unfold cow_entry_addr, w_cow_entry; lia)).
  specialize (Hc Hm6 eq_refl eq_refl (Hd 6 ltac:(lia)) ltac:(by vm_compute) eq_refl Hmw Hf (or_intror Hne)).
  destruct Hc
    as (k1 & E & _ & _ & Hk).
  exists k1. split; [exact E|]. intros t. destruct (Hk t) as (k2 & A' & E2 & Ht & Hr & Hdone & _).
  exists k2, A'. split; [exact E2|]. split; [exact Ht|]. split; [|exact Hr].
  rewrite (cd_maps _ _ _ _ _ _ _ _ Hdone). apply lookup_insert_eq.
Defined.
