(* ===== verification/ElfProps.v ===== *)
(** Loading a program: what [elf_load_seg] maps, for any page mapper, and what
    [load_icode] makes of the address space of a new environment. *)
From S2P Require Import Prelude Mmu Memory Elf TlbProps.

(** * Address spaces as pages of bytes *)

(** Virtual page number -> permission and bytes of the page *)
Abbreviation image := (gmap Z (Z * list Z)).

Definition page_bytes (f : Z → Z) : list Z := map f (seqZ 0 BY2PG).

Lemma page_bytes_ext f g : (∀ j, 0 ≤ j < BY2PG → f j = g j) → page_bytes f = page_bytes g.
Proof. intros H. apply map_ext_in. intros j Hj. apply H. apply list_elem_of_In, elem_of_seqZ in Hj. lia. Qed.

Lemma page_bytes_nth f j : 0 ≤ j < BY2PG → nth (Z.to_nat j) (page_bytes f) 0 = f j.
Proof.
  intros Hj. unfold page_bytes. rewrite (nth_indep _ 0 (f 0)) by (rewrite length_map, length_seqZ; lia).
  rewrite map_nth. f_equal. apply nth_lookup_Some with (d := 0). apply lookup_seqZ. change BY2PG with 4096 in *. lia.
Qed.

(** What a page mapper is asked to put in a page: [len] bytes from [from] on
    at [offset], the rest being zero; nothing but zeros for the null pointer *)
Definition new_page (src : Z → Z) (from : option Z) (offset len : Z) : list Z :=
  page_bytes (λ j, match from with
                   | Some b => if decide (offset ≤ j < offset + len) then src (b + (j - offset)) else 0
                   | None => 0
                   end).

(** The request reads within [lo, hi) and fits the page. *)
Definition copy_ok (lo hi : Z) (from : option Z) (offset len : Z) : Prop :=
  match from with
  | Some b => lo ≤ b ∧ b + len ≤ hi ∧ 0 ≤ offset ∧ 0 ≤ len ∧ offset + len ≤ BY2PG
  | None => True
  end.

(** What [elf_load_seg] expects of its callback: [img n s I] says that the
    address space has contents [I] in state [s], that the bytes [src] can be
    read at [lo, hi), and that [n] pages can still be mapped, from address
    [bot] on. *)
Class Mapper {S} (map_page : Z → Z → Z → option Z → Z → M S unit)
    (src : Z → Z) (bot lo hi : Z) (img : nat → S → image → Prop) :=
  map_page_ok : ∀ n s I va offset perm from len,
    img (Datatypes.S n) s I → bot ≤ va < UTOP → 0 ≤ perm < 1024 → has perm PTE_U = true →
    copy_ok lo hi from offset len →
    ∃ s', map_page va offset perm from len s = Ok tt s' ∧
      img n s' (<[VPN va := (perm, new_page src from offset len)]> I).

(** * Segments *)

Definition seg_size (ph : Elf32_Phdr) : Z := Z.max (p_filesz ph) (p_memsz ph).
(** Number of pages *)
Definition seg_pages (ph : Elf32_Phdr) : Z := (p_vaddr ph mod BY2PG + seg_size ph + BY2PG - 1) / BY2PG.

Definition seg_byte (src : Z → Z) (ph : Elf32_Phdr) (bin a : Z) : Z :=
  if decide (p_vaddr ph ≤ a < p_vaddr ph + p_filesz ph) then src (bin + (a - p_vaddr ph)) else 0.

Definition seg_page (src : Z → Z) (ph : Elf32_Phdr) (bin v : Z) : Z * list Z :=
  (seg_perm ph, page_bytes (λ j, seg_byte src ph bin (v * BY2PG + j))).

Definition seg_image (src : Z → Z) (ph : Elf32_Phdr) (bin k : Z) : image :=
  map_seqZ (VPN (p_vaddr ph)) (map (seg_page src ph bin) (seqZ (VPN (p_vaddr ph)) k)).

(** The address space after loading segment [ph] *)
Definition add_seg (src : Z → Z) (ph : Elf32_Phdr) (bin : Z) (I : image) : image :=
  seg_image src ph bin (seg_pages ph) ∪ I.

(** Segments that fit user space and for which [elf_load_seg] is right: a
    segment that starts inside a page has data up to the end of that page, or
    nothing to clear behind its data. *)
Record seg_ok (bot lo hi : Z) (ph : Elf32_Phdr) (bin : Z) : Prop := {
  so_va : 0 ≤ bot ≤ p_vaddr ph;
  so_sizes : 0 ≤ p_filesz ph ∧ 0 ≤ p_memsz ph;
  so_top : p_vaddr ph + seg_size ph ≤ UTOP;
  so_src : lo ≤ bin ∧ bin + p_filesz ph ≤ hi;
  so_head : p_vaddr ph mod BY2PG = 0 ∨ BY2PG ≤ p_vaddr ph mod BY2PG + p_filesz ph ∨ p_memsz ph ≤ p_filesz ph
}.

Lemma seg_perm_ok ph : 0 ≤ seg_perm ph < 1024 ∧ has (seg_perm ph) PTE_U = true.
Proof. unfold seg_perm. repeat case_match; by vm_compute. Qed.

Lemma VPN_div va : VPN va = va / BY2PG.
Proof. unfold VPN. by rewrite Z.shiftr_div_pow2. Qed.

Lemma seg_image_snoc src ph bin k I : 0 ≤ k →
  <[VPN (p_vaddr ph) + k := seg_page src ph bin (VPN (p_vaddr ph) + k)]> (seg_image src ph bin k ∪ I) =
  seg_image src ph bin (k + 1) ∪ I.
Proof.
  intros Hk. rewrite insert_union_l. f_equal. unfold seg_image.
  rewrite seqZ_app, map_app by lia. change (seqZ (VPN (p_vaddr ph) + k) 1) with [0 + (VPN (p_vaddr ph) + k)]. cbn [map]. rewrite Z.add_0_l.
  rewrite map_seqZ_snoc, length_map, length_seqZ, Z2Nat.id by lia. done.
Qed.

Lemma seg_rounds_enough size i : 0 ≤ i → 0 ≤ size →
  (Z.to_nat ((size - i + BY2PG - 1) / BY2PG) < seg_rounds size)%nat.
Proof.
  intros Hi Hs. unfold seg_rounds. change BY2PG with 4096.
  assert ((size - i + 4096 - 1) / 4096 ≤ size / 4096 + 1); [|pose proof (Z.div_pos size 4096); lia].
  replace (size / 4096 + 1) with ((size + 1 * 4096) / 4096) by (rewrite Z.div_add; lia). apply Z.div_le_mono; lia.
Qed.

Section load_seg.
Context {S : Type} {map_page : Z → Z → Z → option Z → Z → M S unit} {src : Z → Z} {bot lo hi : Z}
  {img : nat → S → image → Prop} `{!Mapper map_page src bot lo hi img}.
Context (ph : Elf32_Phdr) (bin : Z) (Hok : seg_ok bot lo hi ph bin) (I : image) (n : nat).

Let va := p_vaddr ph.
Let off := p_vaddr ph mod BY2PG.
Let fs := p_filesz ph.
Let ms := p_memsz ph.

(** [k] pages of the segment have been mapped, and [t] in all will be. *)
Definition at_page (t k : Z) (s : S) : Prop :=
  img (Z.to_nat (t - k) + n) s (seg_image src ph bin k ∪ I).

Lemma va_split : va = VPN va * BY2PG + off.
Proof using. rewrite VPN_div. subst va off. pose proof (Z.div_mod (p_vaddr ph) BY2PG ltac:(done)). lia. Qed.

Lemma seg_bounds : 0 ≤ fs ∧ 0 ≤ ms ∧ 0 ≤ bot ≤ va ∧ va + fs ≤ UTOP ∧ va + ms ≤ UTOP ∧ 0 ≤ off < BY2PG.
Proof using Hok.
  destruct Hok as [H1 [H2 H3] H4 _ _]. unfold seg_size in H4. subst va off fs ms.
  pose proof (Z.mod_pos_bound (p_vaddr ph) BY2PG ltac:(done)). lia.
Qed.

(** One more page, which holds the bytes of the segment at its addresses *)
Lemma map_next t k s va' offset from len :
  0 ≤ k < t → at_page t k s → bot ≤ va' < UTOP → VPN va' = VPN va + k → copy_ok lo hi from offset len →
  (∀ j, 0 ≤ j < BY2PG →
    match from with
    | Some b => if decide (offset ≤ j < offset + len) then src (b + (j - offset)) else 0
    | None => 0
    end = seg_byte src ph bin ((VPN va + k) * BY2PG + j)) →
  ∃ s', map_page va' offset (seg_perm ph) from len s = Ok tt s' ∧ at_page t (k + 1) s'.
Proof using Mapper0.
  intros Hk Hs Hva Hv Hc Hb. unfold at_page in Hs.
  replace (Z.to_nat (t - k) + n)%nat with (Datatypes.S (Z.to_nat (t - (k + 1)) + n)) in Hs by lia.
  destruct (seg_perm_ok ph) as [Hp HU].
  destruct (map_page_ok _ _ _ va' offset (seg_perm ph) from len Hs Hva Hp HU Hc) as (s' & E & Hs').
  exists s'. split; [exact E|]. unfold at_page. rewrite <- seg_image_snoc by lia. fold va.
  assert (Hp' : new_page src from offset len = (seg_page src ph bin (VPN va + k)).2) by apply (page_bytes_ext _ _ Hb).
  rewrite Hp', Hv in Hs'. exact Hs'.
Qed.

(** The whole pages of data *)
Lemma load_data_ok t fuel k s i :
  0 ≤ k → i = k * BY2PG - off → 0 ≤ i → at_page t k s → (off + fs + BY2PG - 1) / BY2PG ≤ t →
  (Z.to_nat ((fs - i + BY2PG - 1) / BY2PG) < fuel)%nat →
  ∃ s' k', load_data map_page fuel va (seg_perm ph) bin fs i s = Ok (k' * BY2PG - off) s' ∧ at_page t k' s' ∧
    k' = Z.max k ((off + fs + BY2PG - 1) / BY2PG).
Proof using Mapper0 Hok.
  destruct seg_bounds as (B1 & B2 & B3 & B4 & B5 & B6). pose proof va_split as Hva.
  change UTOP with 2134900736 in *. change BY2PG with 4096 in *.
  revert k s i. induction fuel as [|fuel IH]; intros k s i Hk Hi Hi0 Hs Ht Hf; [lia|]. cbn [load_data].
  destruct (Z.ltb_spec i fs) as [Hlt|Hge].
  - rewrite (u32_small (va + i)), (u32_small (fs - i)), (u32_small (i + BY2PG)) by (change BY2PG with 4096; lia).
    assert (Hkt : k < (off + fs + 4096 - 1) / 4096) by (apply Z.lt_le_trans with (k + 1); [lia|];
      apply Z.div_le_lower_bound; lia).
    set (len := MIN (fs - i) BY2PG).
    assert (Hlen : len = Z.min (fs - i) 4096) by (unfold len, MIN; change BY2PG with 4096; case_match; lia).
    destruct (map_next t k s (va + i) 0 (Some (bin + i)) len) as (s1 & E1 & Hs1); [lia|exact Hs|..].
    + change UTOP with 2134900736. lia.
    + rewrite (VPN_div (va + i)). change BY2PG with 4096. replace (va + i) with ((VPN va + k) * 4096) by lia.
      by rewrite Z.div_mul by lia.
    + destruct (so_src _ _ _ _ _ Hok). cbn. change BY2PG with 4096. subst fs. lia.
    + intros j Hj. change BY2PG with 4096 in *. unfold seg_byte. fold va fs.
      replace ((VPN va + k) * 4096 + j) with (va + i + j) by lia.
      repeat case_decide; try lia; f_equal; lia.
    + rewrite (bind_ok _ _ _ _ _ E1). change BY2PG with 4096.
      destruct (IH (k + 1) s1 (i + 4096)) as (s' & k' & E' & Hs' & Hk'); [lia|lia|lia|exact Hs1|exact Ht| |].
      { replace (fs - (i + 4096) + 4096 - 1) with (fs - i + 4096 - 1 + (-1) * 4096) by lia. rewrite Z.div_add by lia.
        assert (0 < (fs - i + 4096 - 1) / 4096) by (apply Z.div_str_pos; lia). lia. }
      exists s', k'. split; [exact E'|]. split; [exact Hs'|]. lia.
  - exists s, k. rewrite Hi. split; [done|]. split; [exact Hs|].
    assert ((off + fs + 4096 - 1) / 4096 ≤ k); [|lia].
    apply Z.lt_succ_r, Z.div_lt_upper_bound; lia.
Qed.

(** The pages of zeros *)
Lemma load_bss_ok t fuel k s i :
  0 ≤ k → i = k * BY2PG - off → 0 ≤ i → fs ≤ i → at_page t k s → (off + ms + BY2PG - 1) / BY2PG ≤ t →
  (Z.to_nat ((ms - i + BY2PG - 1) / BY2PG) < fuel)%nat →
  ∃ s', load_bss map_page fuel va (seg_perm ph) fs ms i s = Ok tt s' ∧
    at_page t (Z.max k ((off + ms + BY2PG - 1) / BY2PG)) s'.
Proof using Mapper0 Hok.
  destruct seg_bounds as (B1 & B2 & B3 & B4 & B5 & B6). pose proof va_split as Hva.
  change UTOP with 2134900736 in *. change BY2PG with 4096 in *.
  revert k s i. induction fuel as [|fuel IH]; intros k s i Hk Hi Hi0 Hfs Hs Ht Hf; [lia|]. cbn [load_bss].
  destruct (Z.ltb_spec i ms) as [Hlt|Hge].
  - rewrite (u32_small (va + i)), (u32_small (i + BY2PG)) by (change BY2PG with 4096; lia).
    assert (Hkt : k < (off + ms + 4096 - 1) / 4096) by (apply Z.lt_le_trans with (k + 1); [lia|];
      apply Z.div_le_lower_bound; lia).
    destruct (map_next t k s (va + i) 0 None (MIN (u32 (fs - i)) BY2PG)) as (s1 & E1 & Hs1); [lia|exact Hs|..].
    + change UTOP with 2134900736. lia.
    + rewrite (VPN_div (va + i)). change BY2PG with 4096. replace (va + i) with ((VPN va + k) * 4096) by lia.
      by rewrite Z.div_mul by lia.
    + done.
    + intros j Hj. change BY2PG with 4096 in *. unfold seg_byte. fold va fs. by rewrite decide_False by lia.
    + rewrite (bind_ok _ _ _ _ _ E1). change BY2PG with 4096.
      destruct (IH (k + 1) s1 (i + 4096)) as (s' & E' & Hs'); [lia|lia|lia|lia|exact Hs1|exact Ht| |].
      { replace (ms - (i + 4096) + 4096 - 1) with (ms - i + 4096 - 1 + (-1) * 4096) by lia. rewrite Z.div_add by lia.
        assert (0 < (ms - i + 4096 - 1) / 4096) by (apply Z.div_str_pos; lia). lia. }
      exists s'. split; [exact E'|]. by rewrite Z.max_r in * by lia.
  - exists s. split; [done|]. rewrite Z.max_l; [exact Hs|].
    apply Z.lt_succ_r, Z.div_lt_upper_bound; lia.
Qed.

Lemma pages_mono a b : a ≤ b → (off + a + BY2PG - 1) / BY2PG ≤ (off + b + BY2PG - 1) / BY2PG.
Proof using. intros H. apply Z.div_le_mono; [done|lia]. Qed.

(** [elf_load_seg] from its whole pages on *)
Lemma load_rest_ok k s i :
  0 ≤ k → i = k * BY2PG - off → 0 ≤ i → k ≤ seg_pages ph → at_page (seg_pages ph) k s →
  ∃ s', (i <- load_data map_page (seg_rounds fs) va (seg_perm ph) bin fs i ;;
         load_bss map_page (seg_rounds ms) va (seg_perm ph) fs ms i) s = Ok tt s' ∧
    at_page (seg_pages ph) (seg_pages ph) s'.
Proof using Mapper0 Hok.
  intros Hk Hi Hi0 Hkp Hs. destruct seg_bounds as (B1 & B2 & B3 & B4 & B5 & B6).
  assert (Hp : seg_pages ph = (off + Z.max fs ms + BY2PG - 1) / BY2PG) by done.
  destruct (load_data_ok (seg_pages ph) (seg_rounds fs) k s i) as (s1 & k1 & E1 & Hs1 & Hk1); try done.
  { rewrite Hp. apply pages_mono. lia. }
  { by apply seg_rounds_enough. }
  rewrite (bind_ok _ _ _ _ _ E1).
  assert (Hc : off + fs ≤ (off + fs + BY2PG - 1) / BY2PG * BY2PG).
  { change BY2PG with 4096 in *. pose proof (Z.div_mod (off + fs + 4096 - 1) 4096 ltac:(lia)).
    pose proof (Z.mod_pos_bound (off + fs + 4096 - 1) 4096 ltac:(lia)). lia. }
  change BY2PG with 4096 in *.
  destruct (load_bss_ok (seg_pages ph) (seg_rounds ms) k1 s1 (k1 * 4096 - off)) as (s2 & E2 & Hs2); try done; try lia.
  { rewrite Hp. apply pages_mono. lia. }
  { apply seg_rounds_enough; [lia|done]. }
  exists s2. split; [exact E2|]. replace (seg_pages ph) with (Z.max k1 ((off + ms + 4096 - 1) / 4096)) at 2; [exact Hs2|].
  rewrite Hp in *. pose proof (pages_mono fs (Z.max fs ms) ltac:(lia)). pose proof (pages_mono ms (Z.max fs ms) ltac:(lia)).
  change BY2PG with 4096 in *.
  destruct (Z.max_spec fs ms) as [[_ Em]|[_ Em]]; rewrite Em in *; lia.
Qed.

Lemma elf_load_seg_ok s :
  img (Z.to_nat (seg_pages ph) + n) s I →
  ∃ s', elf_load_seg map_page ph bin s = Ok tt s' ∧ img n s' (add_seg src ph bin I).
Proof using Mapper0 Hok.
  intros Hs. destruct seg_bounds as (B1 & B2 & B3 & B4 & B5 & B6). pose proof va_split as Hva.
  assert (Hp : seg_pages ph = (off + Z.max fs ms + BY2PG - 1) / BY2PG) by done.
  assert (Hs0 : at_page (seg_pages ph) 0 s).
  { unfold at_page, seg_image. rewrite seqZ_nil, Z.sub_0_r by done. cbn. by rewrite (left_id_L ∅ (∪)). }
  assert (Hfin : ∀ s', at_page (seg_pages ph) (seg_pages ph) s' → img n s' (add_seg src ph bin I)).
  { intros s'. unfold at_page. by rewrite Z.sub_diag. }
  assert (Ho : u32 (va - ROUNDDOWN va BY2PG) = off).
  { change UTOP with 2134900736 in *. rewrite rounddown_page by lia. change BY2PG with 4096 in *.
    rewrite VPN_div in Hva. change BY2PG with 4096 in *. rewrite u32_small by lia. lia. }
  unfold elf_load_seg. fold va fs ms. rewrite Ho.
  destruct (Z.eqb_spec off 0) as [E|E]; cbn [negb].
  - rewrite (bind_ok (ret tt) _ _ _ _ eq_refl).
    destruct (load_rest_ok 0 s 0) as (s' & E' & Hs'); [lia|lia|lia| |exact Hs0|].
    { rewrite Hp. apply Z.div_pos; [change BY2PG with 4096; lia|done]. }
    exists s'. split; [exact E'|by apply Hfin].
  - assert (Hp1 : 1 ≤ seg_pages ph) by (rewrite Hp; change BY2PG with 4096 in *; apply Z.div_le_lower_bound; lia).
    assert (Hut : va < UTOP).
    { assert (va ≠ UTOP) by (intros Ev; apply E; unfold off; fold va; by rewrite Ev). lia. }
    assert (Hm : MIN fs (BY2PG - off) = Z.min fs (BY2PG - off)) by (unfold MIN; case_match; lia).
    destruct (map_next (seg_pages ph) 0 s va off (Some bin) (MIN fs (BY2PG - off))) as (s1 & E1 & Hs1);
      [lia|exact Hs0|lia|lia|..].
    { destruct (so_src _ _ _ _ _ Hok). cbn. rewrite Hm. fold fs in H0. lia. }
    { intros j Hj. rewrite Hm. unfold seg_byte. fold va fs. change BY2PG with 4096 in *.
      replace ((VPN va + 0) * 4096 + j) with (va - off + j) by lia. repeat case_decide; try lia; f_equal; lia. }
    rewrite (bind_ok _ _ _ _ _ E1), Hm. destruct (Z.le_gt_cases (BY2PG - off) fs) as [Hle|Hgt].
    + rewrite Z.min_r by done. destruct (load_rest_ok 1 s1 (BY2PG - off)) as (s' & E' & Hs'); [lia|lia|lia|done|exact Hs1|].
      exists s'. split; [exact E'|by apply Hfin].
    + rewrite Z.min_l by lia. assert (Hmf : ms ≤ fs) by (destruct (so_head _ _ _ _ _ Hok) as [?|[?|?]]; subst off fs ms; lia).
      assert (Hone : seg_pages ph = 1).
      { rewrite Hp, Z.max_l by done. change BY2PG with 4096 in *. symmetry. apply (Z.div_unique _ _ _ (off + fs - 1)); lia. }
      exists s1. split; [|by apply Hfin; rewrite Hone in *].
      unfold seg_rounds. change BY2PG with 4096.
      destruct (Z.to_nat (fs / 4096 + 2)) eqn:E3; [pose proof (Z.div_pos fs 4096); lia|].
      destruct (Z.to_nat (ms / 4096 + 2)) eqn:E4; [pose proof (Z.div_pos ms 4096); lia|].
      cbn [load_data]. rewrite Z.ltb_irrefl. rewrite (bind_ok (ret fs) _ _ _ _ eq_refl). cbn [load_bss].
      by rewrite (proj2 (Z.ltb_ge _ _)) by lia.
Qed.
End load_seg.

(** A segment whose data ends in the page it starts in, with more to clear:
    the page with the data is replaced by one of zeros, and a next page that
    the cleared part reaches is not mapped. *)
Lemma elf_load_seg_short_head {S} {map_page : Z → Z → Z → option Z → Z → M S unit} {src bot lo hi img}
    `{!Mapper map_page src bot lo hi img} ph bin I n s :
  0 < p_vaddr ph mod BY2PG → p_vaddr ph mod BY2PG + p_filesz ph < BY2PG → 0 ≤ p_filesz ph < p_memsz ph →
  p_memsz ph ≤ p_filesz ph + BY2PG → 0 ≤ bot ≤ p_vaddr ph → p_vaddr ph + p_memsz ph ≤ UTOP →
  lo ≤ bin ∧ bin + p_filesz ph ≤ hi → img (2 + n)%nat s I →
  ∃ s', elf_load_seg map_page ph bin s = Ok tt s' ∧
    img n s' (<[VPN (p_vaddr ph) := (seg_perm ph, page_bytes (λ _, 0))]> I).
Proof.
  intros H1 H2 H3 H4 H5 H6 H7 Hs. destruct (seg_perm_ok ph) as [Hp HU].
  set (va := p_vaddr ph) in *. set (fs := p_filesz ph) in *. set (off := va mod BY2PG) in *.
  change UTOP with 2134900736 in *.
  assert (Hva : va = VPN va * 4096 + off).
  { rewrite VPN_div. pose proof (Z.div_mod va BY2PG ltac:(done)). change BY2PG with 4096 in *. lia. }
  assert (Ho : u32 (va - ROUNDDOWN va BY2PG) = off).
  { rewrite rounddown_page by lia. rewrite VPN_div in Hva. change BY2PG with 4096 in *. rewrite u32_small by lia. lia. }
  change BY2PG with 4096 in *.
  destruct (map_page_ok (Datatypes.S n) s I va off (seg_perm ph) (Some bin) fs Hs) as (s1 & E1 & Hs1);
    [change UTOP with 2134900736; lia|done|done|cbn; change BY2PG with 4096; lia|].
  destruct (map_page_ok n s1 _ (va + fs) 0 (seg_perm ph) None (MIN (u32 (fs - fs)) BY2PG) Hs1) as (s2 & E2 & Hs2);
    [change UTOP with 2134900736; lia|done|done|done|].
  assert (Hv : VPN (va + fs) = VPN va).
  { rewrite (VPN_div (va + fs)). change BY2PG with 4096. symmetry. apply (Z.div_unique _ _ _ (off + fs)); lia. }
  rewrite Hv, insert_insert_eq in Hs2. exists s2. split; [|exact Hs2].
  assert (Hm : MIN fs (4096 - off) = fs) by (unfold MIN; case_match; lia).
  unfold elf_load_seg. fold va fs. change BY2PG with 4096 in *.
  rewrite Ho, (proj2 (Z.eqb_neq _ _)) by lia. cbn [negb]. rewrite Hm, (bind_ok _ _ _ _ _ E1). unfold seg_rounds. change BY2PG with 4096.
  destruct (Z.to_nat (fs / 4096 + 2)) eqn:E3; [pose proof (Z.div_pos fs 4096); lia|].
  destruct (Z.to_nat (p_memsz ph / 4096 + 2)) as [|[|r]] eqn:E4; [pose proof (Z.div_pos (p_memsz ph) 4096); lia..|].
  cbn [load_data]. rewrite Z.ltb_irrefl. rewrite (bind_ok (ret fs) _ _ _ _ eq_refl). cbn [load_bss].
  rewrite (proj2 (Z.ltb_lt _ _)), (u32_small (va + fs)), (u32_small (fs + BY2PG)) by (change BY2PG with 4096; lia).
  change BY2PG with 4096. rewrite (bind_ok _ _ _ _ _ E2). cbn [load_bss]. by rewrite (proj2 (Z.ltb_ge _ _)) by lia.
Qed.

(** * Programs *)

#[export] Instance phdr_eq_dec : EqDecision Elf32_Phdr.
Proof. solve_decision. Defined.

Definition is_load (ph : Elf32_Phdr) : bool := p_type ph =? PT_LOAD.
Definition in_seg (ph : Elf32_Phdr) (v : Z) : Prop :=
  VPN (p_vaddr ph) ≤ v < VPN (p_vaddr ph) + seg_pages ph.
#[export] Instance in_seg_dec ph v : Decision (in_seg ph v).
Proof. unfold in_seg. apply _. Defined.

(** Loading the segments of the headers one after the other; the data of a
    segment is at its file offset from [base]. *)
Definition program (src : Z → Z) (base : Z) (phs : list Elf32_Phdr) (I : image) : image :=
  foldl (λ I ph, if is_load ph then add_seg src ph (base + p_offset ph) I else I) I phs.

Definition program_pages (phs : list Elf32_Phdr) : nat :=
  foldr (λ ph n, (if is_load ph then Z.to_nat (seg_pages ph) else O) + n)%nat O phs.

(** No other segment has a page in common with [ph]. *)
Definition alone (phs : list Elf32_Phdr) (ph : Elf32_Phdr) : Prop :=
  ∀ ph' v, ph' ∈ phs → is_load ph' = true → ph' ≠ ph → in_seg ph v → ¬ in_seg ph' v.

Lemma program_cons src base ph phs I :
  program src base (ph :: phs) I =
    program src base phs (if is_load ph then add_seg src ph (base + p_offset ph) I else I).
Proof. done. Qed.

Lemma add_seg_lookup src ph bin I v :
  add_seg src ph bin I !! v = if decide (in_seg ph v) then Some (seg_page src ph bin v) else I !! v.
Proof.
  unfold add_seg, seg_image. case_decide as Hv.
  - apply lookup_union_Some_l. unfold in_seg in Hv. rewrite lookup_map_seqZ, option_guard_True by lia. cbn.
    rewrite list_lookup_fmap, (proj2 (lookup_seqZ _ _ _ v)) by lia. done.
  - apply lookup_union_r, lookup_map_seqZ_None. rewrite length_map, length_seqZ. unfold in_seg in Hv. lia.
Qed.

Lemma program_outside src base phs I v :
  (∀ ph, ph ∈ phs → is_load ph = true → ¬ in_seg ph v) → program src base phs I !! v = I !! v.
Proof.
  revert I. induction phs as [|ph phs IH]; intros I H; [done|]. rewrite program_cons.
  rewrite IH by (intros ph' Hin; apply H; by apply list_elem_of_further).
  destruct (is_load ph) eqn:E; [|done]. rewrite add_seg_lookup, decide_False; [done|]. apply H; [apply list_elem_of_here|done].
Qed.

Lemma program_lookup src base phs I ph v :
  ph ∈ phs → is_load ph = true → alone phs ph → in_seg ph v →
  program src base phs I !! v = Some (seg_page src ph (base + p_offset ph) v).
Proof.
  intros Hin Hl Ha Hv.
  assert (Hcase : ∀ phs I, (∀ ph', ph' ∈ phs → is_load ph' = true → ph' ≠ ph → ¬ in_seg ph' v) →
    ph ∈ phs ∨ I !! v = Some (seg_page src ph (base + p_offset ph) v) →
    program src base phs I !! v = Some (seg_page src ph (base + p_offset ph) v)).
  { clear phs I Hin Ha. intros phs. induction phs as [|ph1 phs IH]; intros I Hal Hor.
    - destruct Hor as [H|H]; [by apply elem_of_nil in H|done].
    - rewrite program_cons. apply IH; [intros ph' Hin'; apply Hal; by apply list_elem_of_further|].
      destruct (decide (ph ∈ phs)) as [|Hn]; [by left|right].
      assert (Hcase : ph1 = ph ∨ ph1 ≠ ph ∧ I !! v = Some (seg_page src ph (base + p_offset ph) v)).
      { destruct (decide (ph1 = ph)); [by left|]. right. split; [done|].
        destruct Hor as [H|]; [|done]. apply elem_of_cons in H as [?|?]; [by subst|done]. }
      destruct Hcase as [->|[Hne Hi]]; [by rewrite Hl, add_seg_lookup, decide_True|].
      destruct (is_load ph1) eqn:E1; [|done]. rewrite add_seg_lookup, decide_False; [done|].
      apply Hal; [apply list_elem_of_here|done|done]. }
  apply Hcase; [|by left]. intros ph' Hin' Hl' Hne. by apply Ha.
Qed.

(** The byte at an address of a segment *)
Lemma seg_page_byte src ph bin a : 
  nth (Z.to_nat (a mod BY2PG)) (seg_page src ph bin (VPN a)).2 0 = seg_byte src ph bin a.
Proof.
  unfold seg_page. rewrite VPN_div. cbn [snd]. rewrite page_bytes_nth by (apply Z.mod_pos_bound; done).
  f_equal. pose proof (Z.div_mod a BY2PG ltac:(done)). lia.
Qed.

Lemma addr_in_seg ph a : 0 ≤ p_vaddr ph → p_vaddr ph ≤ a < p_vaddr ph + seg_size ph → in_seg ph (VPN a).
Proof.
  intros H0 Ha. unfold in_seg, seg_pages. rewrite !VPN_div. change BY2PG with 4096.
  pose proof (Z.div_mod (p_vaddr ph) 4096 ltac:(lia)). pose proof (Z.mod_pos_bound (p_vaddr ph) 4096 ltac:(lia)).
  split; [apply Z.div_le_mono; lia|].
  apply Z.div_lt_upper_bound; [lia|]. set (x := p_vaddr ph mod 4096 + seg_size ph) in *.
  pose proof (Z.div_mod (x + 4096 - 1) 4096 ltac:(lia)). pose proof (Z.mod_pos_bound (x + 4096 - 1) 4096 ltac:(lia)). lia.
Qed.
