(* ===== verification/LoadProps.v ===== *)
(** [load_icode] (kern/env.c): the address space of a new environment holds
    the segments of its program. *)
From S2P Require Import Prelude Mmu Queue Memory Strings Pmap PmapSpec VmSteps BootProofs Disk Elf Env EnvProps Sched SchedProps.
From S2P Require Import Tlbex Syscall StringsProps QueueProps PmapProps SyscallProps EnvVmProps TlbProps ElfProps.

(** * Bytes of pages *)

Lemma page_word p j : 0 ≤ p < PAGE_LIMIT → 0 ≤ j < 4096 →
  (page2pa p + j) / 4 = (page2pa p + 4 * (j / 4)) / 4 ∧ (page2pa p + j) mod 4 = j mod 4.
Proof.
  intros Hp Hj. unfold PAGE_LIMIT in Hp. rewrite page2pa_eq by done. unfold KERNBASE.
  replace (0x80200000 + p * 4096) with ((0x20080000 + p * 1024) * 4) by lia. split.
  - rewrite (Z.mul_comm 4 (j / 4)), Z.div_add_l by lia. by rewrite <- Z.mul_add_distr_r, Z.div_mul by lia.
  - by rewrite Z.add_comm, Z.mod_add by lia.
Qed.

Lemma load8_word m p j : 0 ≤ p < PAGE_LIMIT → 0 ≤ j < 4096 →
  load8 m (page2pa p + j) = byte_of (load m (page2pa p + 4 * (j / 4))) (j mod 4).
Proof.
  intros Hp Hj. destruct (page_word p j Hp Hj) as [E1 E2]. by rewrite load8_byte, E2, !load_addr, E1.
Qed.

Lemma word_index j : 0 ≤ j < 4096 → 0 ≤ j / 4 < 1024.
Proof. intros H. split; [by apply Z.div_pos; lia|by apply Z.div_lt_upper_bound; lia]. Qed.

Lemma kept_load8 A m m' q j :
  data_kept A m m' → 0 ≤ q < PAGE_LIMIT → 0 ≤ j < 4096 → q ∉ dirs A → ¬ is_tab A q →
  load8 m' (page2pa q + j) = load8 m (page2pa q + j).
Proof. intros Hk Hq Hj Hd Ht. rewrite !load8_word by done. f_equal. apply Hk; auto using word_index. Qed.

Lemma load8_clear_page m p q j : 0 ≤ p < PAGE_LIMIT → 0 ≤ q < PAGE_LIMIT → 0 ≤ j < 4096 →
  load8 (clear_page (page2pa p) m) (page2pa q + j) = if decide (p = q) then 0 else load8 m (page2pa q + j).
Proof.
  intros Hp Hq Hj. rewrite !load8_word, load_clear_page by auto using word_index. case_decide; [|done].
  unfold byte_of. by rewrite Z.shiftr_0_l.
Qed.

(** Two memories agree on page [q]. *)
Definition same_page (m m' : memory) (q : Z) : Prop :=
  ∀ j, 0 ≤ j < 1024 → load m' (page2pa q + 4 * j) = load m (page2pa q + 4 * j).

Lemma same_page_load8 m m' q j : same_page m m' q → 0 ≤ q < PAGE_LIMIT → 0 ≤ j < 4096 →
  load8 m' (page2pa q + j) = load8 m (page2pa q + j).
Proof. intros Hs Hq Hj. rewrite !load8_word by done. f_equal. apply Hs. by apply word_index. Qed.

Lemma same_page_trans m1 m2 m3 q : same_page m1 m2 q → same_page m2 m3 q → same_page m1 m3 q.
Proof. intros H1 H2 j Hj. rewrite H2 by done. by apply H1. Qed.

(** Addresses of different pages differ. *)
Lemma page_addr_inj p q i j : 0 ≤ p < PAGE_LIMIT → 0 ≤ q < PAGE_LIMIT → 0 ≤ i < 4096 → 0 ≤ j < 4096 →
  page2pa p + i = page2pa q + j → p = q ∧ i = j.
Proof. unfold PAGE_LIMIT. intros Hp Hq Hi Hj. rewrite !page2pa_eq by done. lia. Qed.

(** Only the words of directories and tables matter to the relation. *)
Lemma mem_rel_kept A np m m' : wf A np →
  (∀ q j, 0 ≤ q < PAGE_LIMIT → 0 ≤ j < 1024 → q ∈ dirs A ∨ is_tab A q →
    load m' (page2pa q + 4 * j) = load m (page2pa q + 4 * j)) →
  mem_rel m A → mem_rel m' A.
Proof.
  intros Hwf Hk [H1 H2]. split.
  - intros d i Hd Hi. change (PDX UTOP) with 509 in *. rewrite Hk;
      [by apply H1|by apply (dir_page A np Hwf)|lia|by left].
  - intros d i t j Ht Hj. rewrite Hk; [by apply H2|by eapply (tab_page A np Hwf)|done|right; by exists (d, i)].
Qed.

(** [memcpy] to page [p] leaves the others. *)
Lemma same_page_memcpy m p off src len q : 0 ≤ p < PAGE_LIMIT → 0 ≤ q < PAGE_LIMIT → p ≠ q → 0 ≤ off → off + len ≤ 4096 →
  same_page m (memcpy (page2pa p + off) src len m) q.
Proof.
  intros Hp Hq Hne Ho Hl j Hj. apply memcpy_kept. intros b Hb E. apply Hne.
  destruct (page_word p (b - page2pa p) Hp ltac:(lia)) as [E1 _].
  replace (page2pa p + (b - page2pa p)) with b in E1 by lia. rewrite E in E1.
  pose proof (page2pa_eq p Hp) as Ep. pose proof (page2pa_eq q Hq) as Eq. unfold KERNBASE in *.
  rewrite Ep, Eq in E1. rewrite Ep in Hb.
  pose proof (word_index (b - page2pa p)). rewrite Ep in *.
  replace (0x80200000 + q * 4096 + 4 * j) with ((0x20080000 + q * 1024 + j) * 4) in E1 by lia.
  set (x := (b - (0x80200000 + p * 4096)) / 4) in *.
  replace (0x80200000 + p * 4096 + 4 * x) with ((0x20080000 + p * 1024 + x) * 4) in E1 by lia.
  rewrite !Z.div_mul in E1 by lia. lia.
Qed.

(** A page outside the tables can be overwritten by [memcpy]. *)
Lemma mem_rel_memcpy A np m p off src len : wf A np →
  0 ≤ p < PAGE_LIMIT → p ∉ dirs A → ¬ is_tab A p → 0 ≤ off → off + len ≤ 4096 →
  mem_rel m A → mem_rel (memcpy (page2pa p + off) src len m) A.
Proof.
  intros Hwf Hp Hd Ht Ho Hl. apply (mem_rel_kept A np); [done|]. intros q j Hq Hj Hor.
  apply same_page_memcpy; try done. intros ->. by destruct Hor.
Qed.

(** [spec_insert] uses at most one page, and keeps references from outside. *)
Lemma insert_room A d v p perm : (1 ≤ length (free A))%nat →
  ∃ A', spec_insert A d v p perm = Some A' ∧ (length (free A) ≤ Datatypes.S (length (free A')))%nat ∧
    pins A' = pins A.
Proof.
  intros Hf. unfold spec_insert.
  set (B := match maps A !! (d, v) with Some _ => _ | None => A end).
  assert (Hb : (length (free A) ≤ length (free B))%nat ∧ pins B = pins A).
  { unfold B. destruct (maps A !! (d, v)) as [[q f]|] eqn:Hm; [|done]. case_decide; [done|].
    unfold spec_remove. rewrite Hm. case_match; [|done]. cbn. split; [lia|done]. }
  clearbody B. destruct Hb as [Hb Hpin]. unfold spec_table. destruct (tabs B !! _).
  - eexists. split; [reflexivity|]. cbn. split; [lia|done].
  - destruct (free B) as [|t fl]; cbn in *; [lia|]. eexists. split; [reflexivity|]. cbn. split; [lia|done].
Qed.

(** A page the kernel itself or an address space other than [d] holds: it stays
    out of the allocator's hands. *)
Definition held (d : Z) (A : vm) (q : Z) : Prop :=
  0 ≤ q < PAGE_LIMIT ∧ q ∉ dirs A ∧ (1 ≤ pin A q ∨ ∃ d' v f, d' ≠ d ∧ maps A !! (d', v) = Some (q, f)).

Lemma held_pinned d A q : 0 ≤ q < PAGE_LIMIT → q ∉ dirs A → 1 ≤ pin A q → held d A q.
Proof. intros H1 H2 H3. exact (conj H1 (conj H2 (or_introl H3))). Qed.

Lemma held_data s d A q : rel s A → held d A q → q ∉ free A ∧ ¬ is_tab A q.
Proof.
  intros Hrel (_ & _ & [Hp|(d' & v & f & _ & Hm)]).
  - split.
    + intros Hf. destruct (free_unused s A Hrel q Hf). lia.
    + intros [[d' i] Ht]. destruct (wf_tab _ _ (rel_wf _ _ Hrel) _ _ _ Ht) as (_ & _ & _ & ?). lia.
  - split; [intros Hf; by apply (free_not_mapped s A Hrel q (d', v) f Hf)|]. apply (wf_map _ _ (rel_wf _ _ Hrel) _ _ _ _ Hm).
Qed.

Definition page_at (m : memory) (p : Z) : list Z := page_bytes (λ j, load8 m (page2pa p + j)).

(** * The kernel's page mapper *)

Section mapper.
Context `{LinkerSymbols} (e d lo hi : Z) (src : Z → Z) (k0 : kernel) (A0 : vm).

(** Environment [e] has directory [d] and contents [I]; the kernel holds the
    pages with the bytes [src] of [lo, hi); nothing changes outside pmap.c's
    state and in the maps of other directories. *)
Record loading (A : vm) (n : nat) (k : kernel) (I : image) : Prop := {
  ld_rel : rel (pm k) A;
  ld_space : space k A e d;
  ld_kernel : k = set_pm (pm k) k0;
  ld_cur : cur_pgdir (pm k) = cur_pgdir (pm k0);
  ld_others : ∀ d' v, d' ≠ d → maps A !! (d', v) = maps A0 !! (d', v);
  ld_room : (2 * n ≤ length (free A))%nat;
  ld_src : ∀ a, lo ≤ a < hi → load8 (mem (pm k)) a = src a ∧ ∃ q j, a = page2pa q + j ∧ 0 ≤ j < 4096 ∧ held d A q;
  ld_frame : dirs A = dirs A0 ∧ pins A = pins A0;
  ld_held : ∀ q, held d A0 q → held d A q ∧ same_page (mem (pm k0)) (mem (pm k)) q;
  ld_img : ∀ v, 0 ≤ v < VPN UTOP →
    match I !! v with
    | Some (f, l) => ∃ p, maps A !! (d, v) = Some (p, perm_flags f) ∧ p ∉ dirs A ∧ l = page_at (mem (pm k)) p
    | None => maps A !! (d, v) = None
    end
}.

Definition kimg (n : nat) (k : kernel) (I : image) : Prop := ∃ A, loading A n k I.

Section step.
Context (A : vm) (n : nat) (k : kernel) (I : image) (Hld : loading A (Datatypes.S n) k I).
Context (p : Z) (fl : list Z) (Hf : free A = p :: fl).

Lemma fresh_facts : 0 ≤ p < npage (pm k) ∧ 0 ≤ p < PAGE_LIMIT ∧ p ∉ dirs A ∧ ¬ is_tab A p ∧
  (∀ q, held d A q → p ≠ q) ∧ (∀ key q f, maps A !! key = Some (q, f) → p ≠ q).
Proof using Hld Hf.
  pose proof (ld_rel _ _ _ _ Hld) as Hrel. assert (Hin : p ∈ free A) by (rewrite Hf; apply list_elem_of_here).
  destruct (free_page _ _ Hrel p Hin) as [H1 H2].
  split; [done|]. split; [done|]. split; [by apply (free_not_dir _ _ Hrel)|]. split; [by apply (free_not_tab _ _ Hrel)|].
  split.
  - intros q Hq <-. by destruct (held_data _ _ _ _ Hrel Hq).
  - intros key q f Hm <-. by apply (free_not_mapped _ _ Hrel p key f).
Qed.

(** The bytes copied to the fresh page *)
Definition filling (from : option Z) (offset len : Z) (m : memory) : memory :=
  match from with Some b => memcpy (page2pa p + offset) b len m | None => m end.

Lemma filled_bytes from offset len : copy_ok lo hi from offset len →
  let m := filling from offset len (clear_page (page2pa p) (mem (pm k))) in
  page_at m p = new_page src from offset len ∧
  (∀ q, 0 ≤ q < PAGE_LIMIT → q ≠ p → same_page (mem (pm k)) m q).
Proof using Hld Hf.
  intros Hc. destruct fresh_facts as (_ & Hp & _ & _ & Hh & _).
  destruct from as [b|]; cbn [filling] in *; cbv zeta.
  2: { split.
    - apply page_bytes_ext. intros j Hj. by rewrite load8_clear_page, decide_True.
    - intros q Hq Hne j Hj. by rewrite load_clear_page, decide_False by done. }
  destruct Hc as (Hb1 & Hb2 & Ho & Hl & Hs). change BY2PG with 4096 in *.
  assert (Hsrc : ∀ i, 0 ≤ i < len → load8 (clear_page (page2pa p) (mem (pm k))) (b + i) = src (b + i)).
  { intros i Hi. destruct (ld_src _ _ _ _ Hld (b + i) ltac:(lia)) as (Hsr & q & j & Ea & Hj & Hq).
    rewrite <- Hsr, Ea. rewrite load8_clear_page, decide_False by (first [by apply Hh|apply Hq|done]); done. }
  assert (Hcp : copied (clear_page (page2pa p) (mem (pm k)))
    (memcpy (page2pa p + offset) b len (clear_page (page2pa p) (mem (pm k)))) (page2pa p + offset) b len).
  { apply memcpy_ok; [done|]. unfold forward. destruct (Z.le_gt_cases (page2pa p + offset) b); [by left|].
    destruct (Z.le_gt_cases (b + len) (page2pa p + offset)); [by right|]. exfalso.
    destruct (ld_src _ _ _ _ Hld (page2pa p + offset) ltac:(lia)) as (_ & q & j & Ea & Hj & Hq).
    destruct (page_addr_inj p q offset j) as [E _]; [done|apply Hq|lia|done|done|]. by apply (Hh q). }
  split.
  - apply page_bytes_ext. intros j Hj. rewrite Hcp. change BY2PG with 4096 in *.
    destruct (decide (offset ≤ j < offset + len)).
    + rewrite decide_True by lia. replace (page2pa p + j - (page2pa p + offset)) with (j - offset) by lia. apply Hsrc. lia.
    + rewrite decide_False by lia. by rewrite load8_clear_page, decide_True.
  - intros q Hq Hne. apply (same_page_trans _ (clear_page (page2pa p) (mem (pm k)))).
    + intros j Hj. by rewrite load_clear_page, decide_False by done.
    + by apply same_page_memcpy.
Qed.

(** The state in which the page is inserted *)
Definition filled_state (from : option Z) (offset len : Z) (l' : LIST.t) : pmap :=
  set_mem (filling from offset len) (set_mem (clear_page (page2pa p)) (set_free l' (pm k))).

Lemma filled_rel from offset len l' : LIST_rep l' fl → copy_ok lo hi from offset len →
  rel (filled_state from offset len l') (set_vfree fl A).
Proof using Hld Hf.
  intros Hl Hc. destruct fresh_facts as (_ & Hp & Hpd & Hpt & _).
  pose proof (rel_alloc (pm k) A (ld_rel _ _ _ _ Hld) p fl l' Hf Hl) as Hrel.
  apply rel_set_mem; [exact Hrel|]. destruct from as [b|]; [|apply Hrel].
  apply (mem_rel_memcpy _ (npage (pm k))); try done; [apply Hrel|apply Hc| |apply Hrel].
  destruct Hc as (_ & _ & _ & _ & Hs). exact Hs.
Qed.

Lemma filled_insertable from offset len l' perm : LIST_rep l' fl → 0 ≤ perm < 1024 →
  insertable (filled_state from offset len l') (set_vfree fl A) p perm.
Proof using Hld Hf.
  intros Hl Hp. pose proof (fresh_insertable (pm k) A p fl l' perm (ld_rel _ _ _ _ Hld) Hf Hl Hp) as [? ? ? ? ?].
  by split.
Qed.

Lemma mapper_run va offset perm from len l' :
  page_alloc (pm k) = Ok p (set_mem (clear_page (page2pa p)) (set_free l' (pm k))) →
  let s2 := filled_state from offset len l' in
  load_icode_mapper e va offset perm from len k =
    onp (page_insert (env_pgdir (env k e)) (env_asid (env k e)) p va perm) (set_pm s2 k).
Proof using Hld Hf.
  intros E s2. destruct fresh_facts as ((_ & Hn) & Hp & _). unfold load_icode_mapper.
  rewrite (bind_ok _ _ _ _ _ (onp_ok _ k _ _ E)). set (s1 := set_mem _ _). unfold s2, filled_state. fold s1.
  assert (E2 : match from with
    | Some src => a <- onp (page2kva p) ;; onp (modify (set_mem (memcpy (a + offset) src len)))
    | None => ret tt
    end (set_pm s1 k) = Ok tt (set_pm (set_mem (filling from offset len) s1) k)).
  { destruct from as [b|]; [|by destruct k].
    assert (Ek : page2kva p (pm (set_pm s1 k)) = Ok (page2pa p) s1) by (apply KADDR_page; [exact Hp|exact Hn]).
    by rewrite (bind_ok _ _ _ _ _ (onp_ok _ _ _ _ Ek)). }
  rewrite (bind_ok _ _ _ _ _ E2). by rewrite (bind_ok (get_env e) _ _ _ _ eq_refl).
Qed.
End step.

Lemma kernel_mapper : Mapper (load_icode_mapper e) src 0 lo hi kimg.
Proof using.
  intros n k I va offset perm from len [A Hld] Hva Hp _ Hc. pose proof Hld as [Hrel Hsp Hk0 Hcur Hoth Hroom Hsrc [Hfd Hfp] Hheld Himg].
  destruct (free A) as [|p fl] eqn:Hf; [cbn in Hroom; lia|].
  destruct (fresh_facts A n k I Hld p fl Hf) as (_ & Hpl & Hpd & Hpt & Hph & Hpm).
  destruct (page_alloc_eq (pm k) A Hrel p fl Hf) as (l' & E & Hl).
  pose proof (mapper_run A n k I Hld p fl Hf va offset perm from len l' E) as Er.
  set (s2 := filled_state k p from offset len l') in *. set (A2 := set_vfree fl A).
  destruct (insert_room A2 d (VPN va) p perm) as (A' & Ei & Hr' & Hpin); [cbn in *; lia|].
  pose proof (insert_ok (set_pm s2 k) A2 e d p va perm (filled_rel A n k I Hld p fl Hf from offset len l' Hl Hc)
    Hsp Hva (filled_insertable A n k I Hld p fl Hf from offset len l' perm Hl Hp)) as Hok.
  rewrite Ei in Hok. destruct Hok as (p' & E' & Hrel' & Hkept & Hc').
  destruct (insert_frame _ _ _ _ _ _ Ei) as [Hd Ht]. destruct (spec_insert_maps _ _ _ _ _ _ Ei) as (Hm & _ & Hmo).
  destruct (filled_bytes A n k I Hld p fl Hf from offset len Hc) as [Hb1 Hb2].
  change (filling p from offset len (clear_page (page2pa p) (mem (pm k)))) with (mem s2) in Hb1, Hb2.
  change (mem (pm (set_pm s2 k))) with (mem s2) in Hkept.
  assert (Hdata : ∀ q, 0 ≤ q < PAGE_LIMIT → q ∉ dirs A' → ¬ is_tab A' q → page_at (mem p') q = page_at (mem s2) q).
  { intros q Hq Hqd Hqt. apply page_bytes_ext. intros j Hj. by apply (kept_load8 A'). }
  assert (Hmt : ∀ key q f, maps A' !! key = Some (q, f) → 0 ≤ q < PAGE_LIMIT ∧ ¬ is_tab A' q).
  { intros [d' v] q f Hq. destruct (wf_map _ _ (rel_wf _ _ Hrel') _ _ _ _ Hq) as (_ & _ & Hqr & Hqt & _).
    pose proof (np_limit _ _ Hrel'). split; [lia|done]. }
  assert (Hstill : ∀ q, held d A q → held d A' q ∧ same_page (mem (pm k)) (mem p') q).
  { intros q Hq. pose proof Hq as (Hq1 & Hq3 & Hq2). assert (Hqd' : q ∉ dirs A') by (rewrite Hd; exact Hq3).
    assert (Hq' : held d A' q).
    { refine (conj Hq1 (conj Hqd' _)). destruct Hq2 as [Hq2|(d' & w & f & Hne & Hmw)].
      - left. unfold pin. rewrite Hpin. exact Hq2.
      - right. exists d', w, f. split; [exact Hne|]. rewrite Hmo by congruence. exact Hmw. }
    split; [exact Hq'|]. intros j Hj. destruct (held_data _ _ _ _ Hrel' Hq') as [_ Hqt].
    assert (Hne : q ≠ p) by (intros ->; exact (Hph p Hq eq_refl)).
    rewrite (Hkept q j Hq1 Hj Hqd' Hqt). by apply Hb2. }
  exists (set_pm p' k). split; [rewrite Er; exact E'|]. exists A'. split; cbn [pm set_pm].
  - done.
  - destruct Hsp as [Hs1 Hs2]. split; [exact Hs1|]. by rewrite Hd.
  - by rewrite Hk0.
  - by rewrite Hc'.
  - intros d' v Hne. rewrite Hmo by congruence. by apply Hoth.
  - cbn in *. lia.
  - intros a Ha. destruct (Hsrc a Ha) as (Hs & q & j & Ea & Hj & Hq). destruct (Hstill q Hq) as [Hq' Hsame].
    split; [|exists q, j; exact (conj Ea (conj Hj Hq'))]. rewrite Ea in Hs |- *. rewrite (same_page_load8 _ _ q j Hsame (proj1 Hq) Hj). exact Hs.
  - rewrite Hd, Hpin. exact (conj Hfd Hfp).
  - intros q Hq. destruct (Hheld q Hq) as [Hq1 Hs1]. destruct (Hstill q Hq1) as [Hq2 Hs2]. split; [exact Hq2|].
    exact (same_page_trans _ _ _ _ Hs1 Hs2).
  - intros v Hv. destruct (decide (v = VPN va)) as [->|Hne].
    + rewrite lookup_insert_eq. exists p. rewrite Hd. split; [exact Hm|]. split; [exact Hpd|].
      rewrite Hdata; [by symmetry|done|by rewrite Hd|]. by eapply Hmt.
    + rewrite lookup_insert_ne by done. specialize (Himg v Hv). rewrite Hmo by congruence.
      change (maps A2) with (maps A). destruct (I !! v) as [[f l]|]; [|done].
      destruct Himg as (q & Eq & Hqd & ->). exists q. rewrite Hd. split; [done|]. split; [done|].
      destruct (Hmt (d, v) q (perm_flags f)) as [Hq Hqt]; [by rewrite Hmo by congruence|].
      assert (Hqd' : q ∉ dirs A') by (rewrite Hd; exact Hqd). rewrite (Hdata q Hq Hqd' Hqt). symmetry. apply page_bytes_ext. intros j Hj.
      apply same_page_load8; [|done|done]. apply Hb2; [done|]. intros ->. by eapply Hpm.
Qed.
End mapper.

(** * Programs *)

Lemma rd_phdr_agree m m' a : (∀ x, a ≤ x < a + 32 → load8 m x = load8 m' x) → rd_phdr m a = rd_phdr m' a.
Proof. intros H. unfold rd_phdr, rd32, rd16. by rewrite !H by lia. Qed.

(** The program headers of the file at [binary] *)
Definition phdrs (m : memory) (binary : Z) : list Elf32_Phdr :=
  map (λ off, rd_phdr m (binary + off)) (phdr_offs m binary).

(** A file [load_icode] can load: the headers are in the file, and the loaded
    segments fit it and user space. *)
Record binary_ok (m : memory) (binary size : Z) : Prop := {
  bo_elf : elf_from m binary size = Some binary;
  bo_phdrs : ∀ off, off ∈ phdr_offs m binary → 0 ≤ off ∧ off + 32 ≤ size;
  bo_segs : ∀ ph, ph ∈ phdrs m binary → is_load ph = true →
    seg_ok 0 binary (binary + size) ph (binary + p_offset ph)
}.

Lemma elf_size m binary size : binary_ok m binary size → 52 ≤ size.
Proof.
  intros Hbo. pose proof (bo_elf _ _ _ Hbo) as E. unfold elf_from in E.
  destruct (Z.geb_spec size SIZEOF_EHDR); [done|discriminate].
Qed.

Lemma ehdr_agree m m' binary size : 52 ≤ size → (∀ x, binary ≤ x < binary + size → load8 m x = load8 m' x) →
  elf_from m binary size = elf_from m' binary size ∧ phdr_offs m binary = phdr_offs m' binary ∧
  e_entry m binary = e_entry m' binary.
Proof.
  intros Hs H. unfold elf_from, phdr_offs, e_entry, e_type, e_phoff, e_phentsize, e_phnum, rd32, rd16.
  by rewrite !H by lia.
Qed.

Section program.
Context `{LinkerSymbols} (e d binary size : Z) (m0 : memory) (k0 : kernel) (A0 : vm).

Let kimg0 := kimg e d binary (binary + size) (load8 m0) k0 A0.

Definition load_phdr (ph_off : Z) : M kernel unit :=
  m <- gets (λ k, mem (pm k)) ;;
  let ph := rd_phdr m (binary + ph_off) in
  if p_type ph =? PT_LOAD
  then panic_on (elf_load_seg (load_icode_mapper e) ph (binary + p_offset ph))
  else ret tt.

Lemma load_phdrs_ok offs n k I :
  (∀ off, off ∈ offs → 0 ≤ off ∧ off + 32 ≤ size) →
  (∀ off, off ∈ offs → let ph := rd_phdr m0 (binary + off) in is_load ph = true →
    seg_ok 0 binary (binary + size) ph (binary + p_offset ph)) →
  kimg0 (program_pages (map (λ off, rd_phdr m0 (binary + off)) offs) + n) k I →
  ∃ k', for_each offs load_phdr k = Ok tt k' ∧
    kimg0 n k' (program (load8 m0) binary (map (λ off, rd_phdr m0 (binary + off)) offs) I).
Proof using.
  revert k I. induction offs as [|off offs IH]; intros k I Hin Hok Hk; [by exists k|]. cbn [for_each map].
  rewrite program_cons. set (ph := rd_phdr m0 (binary + off)) in *.
  assert (Hph : rd_phdr (mem (pm k)) (binary + off) = ph).
  { destruct Hk as [A Hld]. destruct (Hin off) as [Ho1 Ho2]; [apply list_elem_of_here|].
    apply rd_phdr_agree. intros x Hx. apply (ld_src _ _ _ _ _ _ _ _ _ _ _ Hld). lia. }
  assert (∃ k1, load_phdr off k = Ok tt k1 ∧
    kimg0 (program_pages (map (λ off, rd_phdr m0 (binary + off)) offs) + n) k1
      (if is_load ph then add_seg (load8 m0) ph (binary + p_offset ph) I else I)) as (k1 & E1 & Hk1).
  { unfold load_phdr. rewrite (bind_ok (gets _) _ _ _ _ eq_refl), Hph. cbv zeta.
    cbn [map program_pages foldr] in Hk. fold ph in Hk. fold (is_load ph). destruct (is_load ph) eqn:El; [|by exists k].
    pose proof (kernel_mapper e d binary (binary + size) (load8 m0) k0 A0) as Hmap.
    destruct (elf_load_seg_ok (map_page := load_icode_mapper e) ph (binary + p_offset ph)
      (Hok off (list_elem_of_here _ _) El) I
      (program_pages (map (λ off, rd_phdr m0 (binary + off)) offs) + n) k) as (k1 & E1 & Hk1).
    - by rewrite Nat.add_assoc.
    - exists k1. split; [|exact Hk1]. unfold panic_on. by rewrite E1. }
  rewrite (bind_ok _ _ _ _ _ E1). apply IH; [|intros o Ho; apply Hok|exact Hk1].
  - intros o Ho. apply Hin. by apply list_elem_of_further.
  - by apply list_elem_of_further.
Qed.

Lemma load_icode_ok n :
  binary_ok m0 binary size →
  kimg0 (program_pages (phdrs m0 binary) + n) k0 ∅ →
  ∃ p', load_icode e binary size k0 =
      Ok tt (with_env (set_pm p' k0) e (set_env_tf (set_sepc (e_entry m0 binary) (env_tf (env k0 e))) (env k0 e))) ∧
    kimg0 n (set_pm p' k0) (program (load8 m0) binary (phdrs m0 binary) ∅).
Proof using.
  intros Hbo Hk. pose proof (elf_size _ _ _ Hbo) as Hsz. destruct Hbo as [Helf Hin Hseg].
  assert (Hm : ∀ x, binary ≤ x < binary + size → load8 (mem (pm k0)) x = load8 m0 x).
  { destruct Hk as [A Hld]. apply (λ x Hx, proj1 (ld_src _ _ _ _ _ _ _ _ _ _ _ Hld x Hx)). }
  destruct (ehdr_agree _ _ _ _ Hsz Hm) as (E1 & E2 & _).
  unfold load_icode. rewrite (bind_ok (gets _) _ _ _ _ eq_refl), E1, Helf, E2.
  destruct (load_phdrs_ok (phdr_offs m0 binary) n k0 ∅ Hin) as (k' & E & Hk'); [|exact Hk|].
  { intros off Hoff ph. apply Hseg. apply list_elem_of_In, in_map_iff. exists off. split; [done|by apply list_elem_of_In]. }
  destruct Hk' as [A Hld]. pose proof (ld_kernel _ _ _ _ _ _ _ _ _ _ _ Hld) as Ek.
  exists (pm k'). rewrite <- Ek. split; [|by exists A].
  change (for_each (phdr_offs m0 binary) load_phdr k0 = Ok tt k') in E.
  rewrite (bind_ok _ _ _ _ _ E), (bind_ok (gets _) _ _ _ _ eq_refl), upd_env_ok.
  destruct (ehdr_agree (mem (pm k')) m0 binary size Hsz) as (_ & _ & He).
  { apply (λ x Hx, proj1 (ld_src _ _ _ _ _ _ _ _ _ _ _ Hld x Hx)). }
  rewrite He. unfold with_env. rewrite Ek. done.
Qed.
End program.

(** * Creation of an environment with a program *)

(** Address space [d] of [A] and [m] holds the program of the headers [phs]
    whose file is at [binary] in memory [m0]: every address of a segment that
    shares no page with another one has the byte of the file, or zero behind
    the data, with the permissions of the header; nothing else is mapped. *)
Definition holds_program (m0 m : memory) (A : vm) (d binary : Z) (phs : list Elf32_Phdr) : Prop :=
  (∀ ph a, ph ∈ phs → is_load ph = true → alone phs ph → p_vaddr ph ≤ a < p_vaddr ph + seg_size ph →
    ∃ p, maps A !! (d, VPN a) = Some (p, perm_flags (seg_perm ph)) ∧ p ∉ dirs A ∧
      load8 m (page2pa p + a mod BY2PG) =
        if a <? p_vaddr ph + p_filesz ph then load8 m0 (binary + p_offset ph + (a - p_vaddr ph)) else 0) ∧
  (∀ v, 0 ≤ v < VPN UTOP → (∀ ph, ph ∈ phs → is_load ph = true → ¬ in_seg ph v) → maps A !! (d, v) = None).

Lemma loading_holds `{LinkerSymbols} e d m0 k0 A0 A n k binary size :
  binary_ok m0 binary size →
  loading e d binary (binary + size) (load8 m0) k0 A0 A n k (program (load8 m0) binary (phdrs m0 binary) ∅) →
  holds_program m0 (mem (pm k)) A d binary (phdrs m0 binary).
Proof.
  intros Hbo Hld. split.
  - intros ph a Hin Hl Hal Ha. pose proof (bo_segs _ _ _ Hbo ph Hin Hl) as Hso.
    pose proof (addr_in_seg ph a (proj2 (so_va _ _ _ _ _ Hso)) Ha) as Hv.
    pose proof (program_lookup (load8 m0) binary (phdrs m0 binary) ∅ ph (VPN a) Hin Hl Hal Hv) as Hp.
    assert (Hau : 0 ≤ a < UTOP) by (destruct Hso; lia).
    assert (Hva : 0 ≤ VPN a < VPN UTOP).
    { rewrite !VPN_div. change (UTOP / BY2PG) with 521216. change UTOP with (521216 * 4096) in Hau. change BY2PG with 4096.
      split; [apply Z.div_pos; lia|apply Z.div_lt_upper_bound; lia]. }
    pose proof (ld_img _ _ _ _ _ _ _ _ _ _ _ Hld (VPN a) Hva) as Hi. rewrite Hp in Hi. unfold seg_page at 1 in Hi.
    destruct Hi as (p & Hm & Hpd & Hpg). exists p. split; [exact Hm|]. split; [exact Hpd|].
    pose proof (seg_page_byte (load8 m0) ph (binary + p_offset ph) a) as Hb. unfold seg_page in Hb. cbn [snd] in Hb.
    rewrite Hpg in Hb. unfold page_at in Hb. rewrite page_bytes_nth in Hb by (apply Z.mod_pos_bound; done).
    rewrite Hb. unfold seg_byte. destruct (Z.ltb_spec a (p_vaddr ph + p_filesz ph));
      [rewrite decide_True by lia|rewrite decide_False by lia]; done.
  - intros v Hv Hno. pose proof (ld_img _ _ _ _ _ _ _ _ _ _ _ Hld v Hv) as Hi.
    by rewrite (program_outside _ _ _ _ _ Hno), lookup_empty in Hi.
Qed.

(** What is needed to create environment [e] with directory [d] *)
Record creatable `{LinkerSymbols} (k : kernel) (A : vm) (e : Z) (fr : list Z) (d : Z) (fl : list Z) (a : Z) (binary size : Z) : Prop := {
  cr_rel : rel (pm k) A;
  cr_slot : LIST_rep (env_free_list k) (e :: fr) ∧ 0 ≤ e < NENV ∧ 0 ≤ mkenvid_i k;
  cr_asid : find (λ j, negb (asid_used k j)) (seqZ 0 NASID) = Some a;
  cr_kernel : no_user_entries (mem (pm k)) kernel_pgdir ∧ PPN kernel_pgdir ≠ d + PPN0;
  cr_room : free A = d :: fl ∧ (2 * program_pages (phdrs (mem (pm k)) binary) ≤ length fl)%nat;
  cr_binary : binary_ok (mem (pm k)) binary size;
  cr_held : ∀ x, binary ≤ x < binary + size → ∃ q j, x = page2pa q + j ∧ 0 ≤ j < 4096 ∧ held d A q
}.

Lemma held_new_dir s A d fl q : rel s A → free A = d :: fl → held d A q → held d (spec_new_dir A d fl) q.
Proof.
  intros Hrel Hf Hq. pose proof Hq as (H1 & H2 & H3). assert (Hdf : d ∈ free A) by (rewrite Hf; apply list_elem_of_here).
  assert (q ≠ d) by (intros ->; by destruct (held_data _ _ _ _ Hrel Hq)).
  split; [exact H1|]. split; [cbn; set_solver|]. destruct H3 as [H3|H3]; [left|right; exact H3].
  unfold pin. cbn. by rewrite lookup_insert_ne.
Qed.

Lemma created_loading `{LinkerSymbols} k A e fr d fl a binary size k1 v n :
  creatable k A e fr d fl a binary size →
  rel (pm k1) (spec_new_dir A d fl) → data_kept (spec_new_dir A d fl) (mem (pm k)) (mem (pm k1)) →
  env_pgdir v = page2pa d → (2 * (program_pages (phdrs (mem (pm k)) binary) + n) ≤ length fl)%nat →
  loading e d binary (binary + size) (load8 (mem (pm k))) (with_env k1 e v) (spec_new_dir A d fl)
    (spec_new_dir A d fl) (program_pages (phdrs (mem (pm k)) binary) + n) (with_env k1 e v) ∅.
Proof.
  intros Hcr Hrel1 Hk Hpd Hroom. pose proof Hcr as [Hrel _ _ _ [Hf _] _ Hheld].
  assert (Hdf : d ∈ free A) by (rewrite Hf; apply list_elem_of_here).
  split.
  - exact Hrel1.
  - split; [by rewrite env_with_same|]. cbn. set_solver.
  - by destruct k1.
  - done.
  - done.
  - cbn. lia.
  - intros x Hx. destruct (Hheld x Hx) as (q & j & Ex & Hj & Hq). pose proof (held_new_dir _ A d fl q Hrel Hf Hq) as Hq'.
    split; [|exists q, j; exact (conj Ex (conj Hj Hq'))]. rewrite Ex.
    apply (kept_load8 (spec_new_dir A d fl)); [exact Hk|apply Hq|exact Hj|apply Hq'|]. by apply (held_data _ _ _ _ Hrel1 Hq').
  - done.
  - intros q Hq. split; [exact Hq|]. intros j _. reflexivity.
  - intros w Hw. rewrite lookup_empty. cbn. destruct (maps A !! (d, w)) as [[p f]|] eqn:Hm; [|done].
    destruct (wf_map _ _ (rel_wf _ _ Hrel) _ _ _ _ Hm) as (_ & [t Ht] & _).
    destruct (wf_tab _ _ (rel_wf _ _ Hrel) _ _ _ Ht) as [Hd _]. by destruct (free_not_dir _ _ Hrel d Hdf).
Qed.

(** The state after the call *)
Record created `{LinkerSymbols} (k k' : kernel) (A A' : vm) (e : Z) (fr l : list Z) (d a binary priority : Z) (room : nat) : Prop := {
  ct_env : env k' e = set_env_tf (set_sepc (e_entry (mem (pm k)) binary) (env_tf (env k' e)))
    (set_env_status ENV_RUNNABLE (set_env_pri priority
      (reset_env (set_env_pgdir_copy_pa 0 (set_env_pgdir (page2pa d) (env k e)))
         (id_of (u32 (mkenvid_i k + 1)) e) a 0)));
  ct_sched : sched_rel k' (e :: l);
  ct_free : LIST_rep (env_free_list k') fr;
  ct_others : ∀ x, x ≠ e → env k' x = env k x;
  ct_rel : rel (pm k') A';
  ct_maps : ∀ d' v, d' ≠ d → maps A' !! (d', v) = maps A !! (d', v);
  ct_program : holds_program (mem (pm k)) (mem (pm k')) A' d binary (phdrs (mem (pm k)) binary);
  ct_frame : dirs A' = {[d]} ∪ dirs A ∧ ∀ q, q ≠ d → pin A' q = pin A q;
  ct_held : ∀ q, held d A q → held d A' q ∧ same_page (mem (pm k)) (mem (pm k')) q;
  ct_room : (room ≤ length (free A'))%nat;
  ct_slots : (∀ j, asid_used k' j = asid_used k j || (a =? j)) ∧ mkenvid_i k' = u32 (mkenvid_i k + 1);
  ct_rest : disk k' = disk k ∧ curenv k' = curenv k ∧ base_pgdir k' = base_pgdir k
}.

(** Pages the kernel holds, before and after the new directory *)
Lemma held_created `{LinkerSymbols} k k1 k' A A' e d fl binary size v n I : rel (pm k) A → free A = d :: fl →
  rel (pm k1) (spec_new_dir A d fl) → data_kept (spec_new_dir A d fl) (mem (pm k)) (mem (pm k1)) →
  loading e d binary (binary + size) (load8 (mem (pm k))) (with_env k1 e v) (spec_new_dir A d fl) A' n k' I →
  ∀ q, held d A q → held d A' q ∧ same_page (mem (pm k)) (mem (pm k')) q.
Proof.
  intros Hrel Hf Hrel1 Hk Hld q Hq. pose proof (held_new_dir _ A d fl q Hrel Hf Hq) as Hq1.
  destruct (ld_held _ _ _ _ _ _ _ _ _ _ _ Hld q Hq1) as [Hq2 Hs]. split; [exact Hq2|]. intros j Hj. rewrite (Hs j Hj).
  apply Hk; [apply Hq|exact Hj|apply Hq1|]. by apply (held_data _ _ _ _ Hrel1 Hq1).
Qed.

Lemma env_create_ok `{LinkerSymbols} k A l e fr d fl a binary size priority n :
  creatable k A e fr d fl a binary size → sched_rel k l → e ∉ l →
  (2 * (program_pages (phdrs (mem (pm k)) binary) + n) ≤ length fl)%nat →
  ∃ k' A', env_create binary size priority k = Ok e k' ∧ created k k' A A' e fr l d a binary priority (2 * n).
Proof.
  intros Hcr Hs Hel Hroom. pose proof Hcr as [Hrel (Hfl & He & Hi) Ha [Hker Hne] [Hf _] Hbo Hheld].
  destruct (env_alloc_ok k A e d fl fr a 0 Hrel Hf Hfl Hker Hne He Hi Ha) as (k1 & E & Hrel1 & Hcp & Hk & Hv & Hal).
  assert (E' : panic_on (env_alloc 0) k = Ok e k1) by (unfold panic_on; by rewrite E).
  unfold env_create. rewrite (bind_ok _ _ _ _ _ E').
  rewrite (bind_ok _ _ _ _ _ (upd_env_ok _ _ _)). rewrite Hv. set (v1 := set_env_pri _ _). fold (with_env k1 e v1).
  rewrite (bind_ok _ _ _ _ _ (upd_env_with _ _ _ _)). set (v2 := set_env_status _ v1).
  pose proof (created_loading k A e fr d fl a binary size k1 v2 n Hcr Hrel1 Hk eq_refl Hroom) as Hld.
  destruct (load_icode_ok e d binary size (mem (pm k)) (with_env k1 e v2) _ n Hbo (ex_intro _ _ Hld))
    as (p' & El & A' & Hld'). rewrite env_with_same in El. set (v3 := set_env_tf _ v2) in El.
  rewrite (bind_ok _ _ _ _ _ El). step. set (k' := set_env_sched_list _ _).
  assert (Hx : ∀ x, env k' x = if decide (e = x) then v3 else env k1 x).
  { intros x. change (env (with_env (with_env k1 e v2) e v3) x = if decide (e = x) then v3 else env k1 x).
    rewrite !env_with. by case_decide. }
  assert (He' : env k' e = v3) by (by rewrite Hx, decide_True).
  exists k', A'. split; [done|]. split; rewrite ?He'; try done; try (by apply Hal).
  - split.
    + change (env_sched_list k') with (TAILQ.TAILQ_INSERT_HEAD e (env_sched_list k1)).
      rewrite (al_sched _ _ _ _ _ Hal). by apply TAILQ_insert_head_rep; [apply Hs|].
    + intros x. rewrite Hx, elem_of_cons. case_decide as Ex; [subst x; naive_solver|].
      rewrite (al_others _ _ _ _ _ Hal) by congruence. rewrite <- (sr_status _ _ Hs x). naive_solver.
  - intros x Hne'. rewrite Hx, decide_False by congruence. by apply (al_others _ _ _ _ _ Hal).
  - apply (ld_rel _ _ _ _ _ _ _ _ _ _ _ Hld').
  - intros d' w Hd'. by rewrite (ld_others _ _ _ _ _ _ _ _ _ _ _ Hld') by done.
  - exact (loading_holds _ _ _ _ _ _ _ _ _ _ Hbo Hld').
  - destruct (ld_frame _ _ _ _ _ _ _ _ _ _ _ Hld') as [Hd1 Hp1]. rewrite Hd1. split; [reflexivity|].
    intros q Hq. unfold pin. rewrite Hp1. cbn. by rewrite lookup_insert_ne.
  - exact (held_created _ _ _ _ _ _ _ _ _ _ _ _ _ Hrel Hf Hrel1 Hk Hld').
  - exact (ld_room _ _ _ _ _ _ _ _ _ _ _ Hld').
  - split; apply Hal.
  - split_and!; apply Hal.
Qed.

(** C11. [env_create] makes the first free slot a running environment with the
    given priority at the head of the scheduling queue, whose program counter
    is the entry point of the ELF file and whose address space holds exactly
    the file's segments: the data of the file, zeros up to the size in memory,
    and the permissions of the program header, provided that each segment
    either starts on a page boundary, has data up to the end of its first page
    or nothing to clear.  All other environments and address spaces stay. *)
Theorem env_create_loads `{LinkerSymbols} k A l e fr d fl a binary size priority :
  creatable k A e fr d fl a binary size → sched_rel k l → e ∉ l →
  ∃ k' A', env_create binary size priority k = Ok e k' ∧
    env k' e = set_env_tf (set_sepc (e_entry (mem (pm k)) binary) (env_tf (env k' e)))
      (set_env_status ENV_RUNNABLE (set_env_pri priority
        (reset_env (set_env_pgdir_copy_pa 0 (set_env_pgdir (page2pa d) (env k e)))
           (id_of (u32 (mkenvid_i k + 1)) e) a 0))) ∧
    sched_rel k' (e :: l) ∧ LIST_rep (env_free_list k') fr ∧ (∀ x, x ≠ e → env k' x = env k x) ∧
    rel (pm k') A' ∧ (∀ d' v, d' ≠ d → maps A' !! (d', v) = maps A !! (d', v)) ∧
    holds_program (mem (pm k)) (mem (pm k')) A' d binary (phdrs (mem (pm k)) binary).
Proof.
  intros Hcr Hs Hel. pose proof (cr_room _ _ _ _ _ _ _ _ _ Hcr) as [_ Hroom].
  destruct (env_create_ok k A l e fr d fl a binary size priority 0 Hcr Hs Hel ltac:(lia)) as (k' & A' & E & Hct).
  exists k', A'. split; [exact E|]. split_and!; apply Hct.
Qed.

(** A file of one segment: two words of data, 5000 bytes in memory *)
Definition w_elf_at : Z := page2pa 1.
Definition w_elf_words : list (Z * Z) :=
  [(0, 0x464c457f); (16, 2); (24, UTEXT + 4); (28, 52); (40, 32 * 65536); (44, 1);
   (52, PT_LOAD); (56, 84); (60, UTEXT); (68, 8); (72, 5000); (76, 6); (84, 0x11223344); (88, 0x55667788)].
Definition w_elf_mem : memory := foldl (λ m ax, store (w_elf_at + ax.1) ax.2 m) ∅ w_elf_words.
Definition w_elf_pm : pmap := set_mem (λ _, w_elf_mem) w_booted.
Definition w_elf_vm : vm := boot_vm w_booted [7; 6; 5; 4; 3; 2].
Definition w_elf : kernel :=
  set_pm w_elf_pm (set_env_free_list (LIST.LIST_INSERT_HEAD 7 (LIST.Mk None ∅)) w_sys).

Lemma w_elf_rel : rel w_elf_pm w_elf_vm.
Proof.
  destruct (page_init_ok w_boot 2 ltac:(done) ltac:(done) eq_refl eq_refl) as (s' & E & _ & _ & _ & Hrel).
  rewrite w_booted_eq in E. injection E as <-.
  assert (w_elf_vm = boot_vm w_booted (reverse (seqZ 2 (npage w_boot - 2)))) as -> by reflexivity.
  apply rel_set_mem; [exact Hrel|]. split; [intros d i Hd; by apply elem_of_empty in Hd|]. intros d i t j Ht. discriminate.
Qed.

Lemma w_elf_phdrs : phdrs (mem (pm w_elf)) w_elf_at = [MkPhdr PT_LOAD 84 UTEXT 0 8 5000 6 0].
Proof. vm_compute. reflexivity. Qed.

Lemma w_elf_binary : binary_ok (mem (pm w_elf)) w_elf_at 92.
Proof.
  split.
  - vm_compute. reflexivity.
  - assert (phdr_offs (mem (pm w_elf)) w_elf_at = [52]) as -> by (vm_compute; reflexivity).
    intros off ->%list_elem_of_singleton. lia.
  - rewrite w_elf_phdrs. intros ph ->%list_elem_of_singleton _. split; vm_compute; intuition discriminate.
Qed.

Lemma w_elf_creatable : creatable w_elf w_elf_vm 7 [] 7 [6; 5; 4; 3; 2] 0 w_elf_at 92.
Proof.
  split.
  - exact w_elf_rel.
  - split; [|split; [done|vm_compute; discriminate]].
    apply LIST_insert_head_rep; [|apply not_elem_of_nil]. split_and!; [done|done|constructor].
  - vm_compute. reflexivity.
  - split; [intros i Hi; vm_compute; reflexivity|vm_compute; discriminate].
  - split; [reflexivity|]. rewrite w_elf_phdrs. vm_compute. lia.
  - exact w_elf_binary.
  - intros x Hx. exists 1, (x - page2pa 1). split; [lia|]. unfold w_elf_at in Hx. split; [lia|].
    apply held_pinned; [done|set_solver|vm_compute; discriminate].
Qed.

Lemma w_elf_sched : sched_rel w_elf [5].
Proof. split; apply w_sys_sched. Qed.

Lemma env_create_loads_witness :
  ∃ k' A' p, env_create w_elf_at 92 1 w_elf = Ok 7 k' ∧ sepc (env_tf (env k' 7)) = UTEXT + 4 ∧
    maps A' !! (7, VPN UTEXT) = Some (p, 23) ∧ load8 (mem (pm k')) (page2pa p + 1) = 0x33.
Proof.
  destruct (env_create_loads w_elf w_elf_vm [5] 7 [] 7 [6; 5; 4; 3; 2] 0 w_elf_at 92 1 w_elf_creatable w_elf_sched)
    as (k' & A' & E & Ee & _ & _ & _ & _ & _ & Hp & _).
  - intros H%list_elem_of_singleton. discriminate.
  - rewrite w_elf_phdrs in Hp. destruct (Hp (MkPhdr PT_LOAD 84 UTEXT 0 8 5000 6 0) (UTEXT + 1)) as (p & Hm & _ & Hb).
    + apply list_elem_of_here.
    + reflexivity.
    + intros ph' v ->%list_elem_of_singleton _ Hne. by destruct Hne.
    + vm_compute. intuition discriminate.
    + exists k', A', p. split; [exact E|]. split; [rewrite Ee; vm_compute; reflexivity|]. split; [exact Hm|].
      change ((UTEXT + 1) mod BY2PG) with 1 in Hb. rewrite Hb. vm_compute. reflexivity.
Defined.
