(* ===== verification/Start.v ===== *)
(** The start of the kernel: init/init.c.

    [mips_init] stops where the code waits for interrupts: kclock_init asks the
    firmware for the first timer interrupt, enable_irq lets it in, and the
    endless loop does nothing.  The ELF images of the first two environments
    are where the linker has put them. *)
From S2P Require Import Prelude Mmu Memory Pmap Disk Env.

Section init.
Context `{LinkerSymbols}.

(** include/env.h, [binary_x_start] and [binary_x_size] given *)
Definition ENV_CREATE (binary size : Z) : M kernel unit := _ <- env_create binary size 1 ;; ret tt.

Definition mips_init (user_icode user_icode_size fs_serv fs_serv_size : Z) : M kernel unit :=
  onp mips_detect_memory ;;
  onp mips_vm_init ;;
  onp page_init ;;
  ond virtio_disk_init ;;
  env_init ;;
  ENV_CREATE user_icode user_icode_size ;;
  ENV_CREATE fs_serv fs_serv_size.
End init.
