(* ===== verification/StartProps.v ===== *)
(** The kernel starts: [mips_init] reaches a state in which the invariants the
    other files start from hold. *)
From S2P Require Import Prelude Mmu Queue Memory Strings StringsProps Pmap PmapSpec KmapProps VmSteps BootProofs.
From S2P Require Import QueueProps Disk DiskProps Elf Env EnvProps Sched SchedProps Tlbex Syscall SyscallProps EnvVmProps EnvFreeProps.
From S2P Require Import ElfProps LoadProps Start.

(** * The rings of the disk driver *)

Section disk.
Context `{LinkerSymbols}.

Lemma ROUND_small p o o' j : 0 ≤ p < PAGE_LIMIT - 1 → 0 ≤ j ≤ 4 → 0 ≤ o → o ≤ o' < o + 2 ^ j → o' mod 2 ^ j = 0 → o' < 4096 →
  ROUND (page2pa p + o) (2 ^ j) = page2pa p + o'.
Proof using.
  intros Hp Hj Ho Ho' Hm Hlt. unfold PAGE_LIMIT in Hp. rewrite (page2pa_eq p) by lia. unfold KERNBASE.
  assert (Hj2 : 2 ^ j * 2 ^ (12 - j) = 4096) by (rewrite <- Z.pow_add_r by lia; by replace (j + (12 - j)) with 12 by lia).
  assert (Hjb : 1 ≤ 2 ^ j ≤ 16) by (split; [pose proof (Z.pow_pos_nonneg 2 j); lia|change 16 with (2 ^ 4); apply Z.pow_le_mono_r; lia]).
  rewrite ROUND_spec by lia. pose proof (Z.div_mod o' (2 ^ j) ltac:(lia)) as Hd. rewrite Hm in Hd.
  set (u := 2 ^ (12 - j)) in *. set (w := 2 ^ j) in *. set (x := o' / w) in *.
  rewrite <- (Z.div_unique (0x80200000 + p * 4096 + o + w - 1) w ((0x80200 + p) * u + x) (o + w - 1 - o')); nia.
Qed.

(** A few bytes in page [p] *)
Lemma alloc_in_page s p o o' n j : freemem s = page2pa p + o → 0 ≤ p < PAGE_LIMIT - 1 → page2pa p + 4096 ≤ ULIM + memsize s →
  0 ≤ j ≤ 4 → 0 ≤ o → o ≤ o' < o + 2 ^ j → o' mod 2 ^ j = 0 → 0 ≤ n → o' + n < 4096 →
  ∃ c, alloc n (2 ^ j) true s = Ok (page2pa p + o') (set_mem c (set_freemem (page2pa p + (o' + n)) s)) ∧
    ∀ m q i, 0 ≤ q < PAGE_LIMIT → 0 ≤ i < 1024 → q ≠ p → load (c m) (page2pa q + 4 * i) = load m (page2pa q + 4 * i).
Proof using.
  intros Hf Hp Hm Hj Ho Ho' Hmod Hn Hlt. pose proof (page2pa_eq p ltac:(unfold PAGE_LIMIT in *; lia)) as Ep. unfold KERNBASE, PAGE_LIMIT in *.
  exists (clear (page2pa p + o') (Z.to_nat n)). split.
  - unfold alloc. rewrite (bind_ok (gets freemem) _ _ _ _ eq_refl). rewrite (proj2 (Z.eqb_neq (freemem s) 0)) by lia.
    rewrite (bind_ok (ret tt) _ _ _ _ eq_refl), (bind_ok (gets freemem) _ _ _ _ eq_refl), Hf.
    rewrite (ROUND_small p o o' j) by (unfold PAGE_LIMIT; lia). repeat step. cbn [freemem set_freemem memsize].
    rewrite <- Z.add_assoc, u32_small by lia. rewrite Z.geb_leb, (proj2 (Z.leb_gt _ _)) by lia. step. reflexivity.
  - intros m q i Hq Hi Hne. apply load_clear_other. intros b Hb. rewrite (page2pa_eq q) by lia. unfold KERNBASE.
    replace (0x80200000 + q * 4096 + 4 * i) with ((0x20080000 + q * 1024 + i) * 4) by lia. rewrite Z.div_mul by lia.
    intros E. pose proof (Z.div_mod b 4 ltac:(lia)). pose proof (Z.mod_pos_bound b 4 ltac:(lia)). lia.
Qed.

(** A virtio block device in front of its registers, as the specification of
    virtio has it before the driver has set it up *)
Record device_present (v : vring) : Prop := {
  dp_magic : reg v MAGIC_VALUE = 0x74726976 ∧ reg v VERSION = 2;
  dp_block : reg v DEVICE_ID = 2 ∧ reg v VENDOR_ID = 0x554d4551;
  dp_features : has (reg v STATUS) VIRTIO_CONFIG_S_FEATURES_OK = true;
  dp_queue : reg v QUEUE_READY = 0 ∧ VIRTIO_QUEUE_NUM ≤ reg v QUEUE_NUM_MAX;
  dp_unused : used_idx v = 0
}.

(** The allocations of virtio_disk_init: four, in one page *)
Lemma ring_allocs p s : freemem s = page2pa p → 0 ≤ p < PAGE_LIMIT - 1 → page2pa p + 4096 ≤ ULIM + memsize s →
  ∃ s1 s2 s3 s', alloc (VIRTIO_QUEUE_NUM * SIZEOF_DESC) VRING_DESC_ALIGN_SIZE true s = Ok (page2pa p) s1 ∧
    alloc SIZEOF_AVAIL VRING_AVAIL_ALIGN_SIZE true s1 = Ok (page2pa p + 512) s2 ∧
    alloc SIZEOF_USED VRING_USED_ALIGN_SIZE true s2 = Ok (page2pa p + 584) s3 ∧
    alloc (VIRTIO_QUEUE_NUM * SIZEOF_OUTHDR) SIZEOF_OUTHDR true s3 = Ok (page2pa p + 848) s' ∧
    s' = set_mem (λ _, mem s') (set_freemem (page2pa p + 1360) s) ∧
    ∀ q i, 0 ≤ q < PAGE_LIMIT → 0 ≤ i < 1024 → q ≠ p → load (mem s') (page2pa q + 4 * i) = load (mem s) (page2pa q + 4 * i).
Proof using.
  intros Hf Hp Hm. rewrite <- (Z.add_0_r (page2pa p)) in Hf.
  destruct (alloc_in_page s p 0 0 512 4 Hf Hp Hm) as (c1 & E1 & H1); [by compute..|].
  set (s1 := set_mem c1 _) in E1.
  destruct (alloc_in_page s1 p 512 512 70 1 eq_refl Hp Hm) as (c2 & E2 & H2); [by compute..|].
  set (s2 := set_mem c2 _) in E2.
  destruct (alloc_in_page s2 p 582 584 262 2 eq_refl Hp Hm) as (c3 & E3 & H3); [by compute..|].
  set (s3 := set_mem c3 _) in E3.
  destruct (alloc_in_page s3 p 846 848 512 4 eq_refl Hp Hm) as (c4 & E4 & H4); [by compute..|].
  set (s4 := set_mem c4 _) in E4.
  exists s1, s2, s3, s4. rewrite Z.add_0_r in E1. split; [exact E1|]. split; [exact E2|]. split; [exact E3|].
  split; [exact E4|]. split; [reflexivity|].
  intros q i Hq Hi Hne. unfold s4, s3, s2, s1. cbn [mem set_mem set_freemem]. by rewrite H4, H3, H2, H1.
Qed.

Lemma on_ring {A} (m : M vring A) v s a v' : m v = Ok a v' → lift m (MkDstate v s) = Ok a (MkDstate v' s).
Proof using. intros E. unfold lift. cbn. by rewrite E. Qed.

Lemma on_pm {A} (m : M pmap A) v s a s' : m s = Ok a s' → lift m (MkDstate v s) = Ok a (MkDstate v s').
Proof using. intros E. unfold lift. cbn. by rewrite E. Qed.

Ltac ring_step := erewrite bind_ok by (apply on_ring; reflexivity).

(** No request in flight: the invariant of the driver holds. *)
Lemma fresh_ring v s : desc_free_bitmap v = 2 ^ 32 - 1 → used_idx v = 0 → used_idx_dev v = 0 → used_flags v = 0 →
  avail_idx v = 0 → dinv (MkDstate v s, [], []).
Proof using.
  intros Hb Hu Hd Hf Ha. split; cbn; [split; cbn| | | | |]; rewrite ?Hb, ?Hu, ?Hd, ?Hf, ?Ha; try done.
  - unfold bitmap_ok. rewrite Hb. done.
  - constructor.
  - by intros i ?%not_elem_of_nil.
  - intros i Hi. rewrite bool_decide_false by apply not_elem_of_nil.
    change (2 ^ 32 - 1) with (Z.ones 32). by rewrite Z.ones_spec_low by lia.
  - by intros c ?%not_elem_of_nil.
  - split; rewrite ?Hu, ?Hd; done.
  - constructor.
  - by intros h ?%not_elem_of_nil.
  - apply list_elem_of_here.
Qed.

(** The driver after its initialisation: every descriptor is free, and of the
    page tables' state only what is behind [freemem] has changed. *)
Lemma virtio_disk_init_ok v s p : device_present v → freemem s = page2pa p → 0 ≤ p < PAGE_LIMIT - 1 →
  page2pa p + 4096 ≤ ULIM + memsize s →
  ∃ v' s', virtio_disk_init (MkDstate v s) = Ok tt (MkDstate v' s') ∧ desc_kva v' = page2pa p ∧
    (∀ s0, dinv (MkDstate v' s0, [], [])) ∧
    s' = set_mem (λ _, mem s') (set_freemem (page2pa p + 1360) s) ∧
    ∀ q i, 0 ≤ q < PAGE_LIMIT → 0 ≤ i < 1024 → q ≠ p → load (mem s') (page2pa q + 4 * i) = load (mem s) (page2pa q + 4 * i).
Proof using.
  intros [[D1 D2] [D3 D4] D5 [D6 D7] D8] Hf Hp Hm.
  destruct (ring_allocs p s Hf Hp Hm) as (s1 & s2 & s3 & s4 & E1 & E2 & E3 & E4 & Hs4 & Hsame).
  eexists _, s4. split; [|split; [|split; [|exact (conj Hs4 Hsame)]]].
  - unfold virtio_disk_init, rd_reg, wr_reg. do 2 ring_step. rewrite D1, D2. cbv iota.
    change (negb (0x74726976 =? 0x74726976) || negb (2 =? 2)) with false. cbv iota.
    do 2 ring_step. rewrite D3, D4. change (negb (2 =? 2) || negb (0x554d4551 =? 0x554d4551)) with false. cbv iota zeta.
    do 7 ring_step. cbn [reg log_mmio]. rewrite D5. cbn [negb].
    do 2 ring_step. cbn [reg log_mmio]. rewrite D6. change (negb (0 =? 0)) with false. cbv iota.
    ring_step. cbn [reg log_mmio]. unfold VIRTIO_QUEUE_NUM in D7 at 1.
    rewrite (proj2 (Z.eqb_neq _ 0)) by lia. rewrite (proj2 (Z.ltb_ge _ _)) by exact D7.
    rewrite (bind_ok _ _ _ _ _ (on_pm _ _ _ _ _ E1)), (bind_ok _ _ _ _ _ (on_pm _ _ _ _ _ E2)),
      (bind_ok _ _ _ _ _ (on_pm _ _ _ _ _ E3)), (bind_ok _ _ _ _ _ (on_pm _ _ _ _ _ E4)).
    repeat ring_step. reflexivity.
  - reflexivity.
  - intros s0. apply fresh_ring; cbn; done.
Qed.
End disk.

(** * Before the first address space *)

(** No directory yet: memory is not described, only who holds which page. *)
Record early (c : Z) (A : vm) (s : pmap) : Prop := {
  ea_rel : rel s A;
  ea_empty : dirs A = ∅ ∧ tabs A = ∅ ∧ maps A = ∅;
  ea_pin : ∀ q, pin A q ≤ c
}.

Lemma mem_rel_early m A : dirs A = ∅ → tabs A = ∅ → mem_rel m A.
Proof. intros Hd Ht. split; [rewrite Hd; set_solver|rewrite Ht; by intros d i t j E]. Qed.

Lemma early_ext c A s s' : early c A s → npage s' = npage s → page_free_list s' = page_free_list s → pp_ref s' = pp_ref s →
  early c A s'.
Proof.
  intros [[H1 H2 [R1 R2 R3 R4] H4] H5 H6] Hn Hf Hr. assert (Href : ∀ q, ref s' q = ref s q) by (intros q; unfold ref; by rewrite Hr).
  split; [split|done|done].
  - by rewrite Hn.
  - by rewrite Hf.
  - split; intros; rewrite Href, ?Hn in *; auto.
  - by apply mem_rel_early; apply H5.
Qed.

Lemma early_alloc c A s p fl : early c A s → free A = p :: fl →
  ∃ s', page_alloc s = Ok p s' ∧ early c (set_vfree fl A) s' ∧ npage s' = npage s ∧
    mem s' = clear_page (page2pa p) (mem s) ∧ 0 ≤ p < npage s ∧ pin A p = 0.
Proof.
  intros [Hrel (H1 & H2 & H3) H4] Hf. destruct (page_alloc_eq s A Hrel p fl Hf) as (l' & E & Hl').
  assert (Hin : p ∈ free A) by (rewrite Hf; apply list_elem_of_here).
  eexists. split; [exact E|]. split; [split; [by apply rel_alloc|done|done]|].
  split; [done|]. split; [done|]. split; [by apply (free_page s A Hrel)|by apply (free_unused s A Hrel)].
Qed.

(** Another reference to a page *)
Lemma early_incref c A s p : early c A s → 0 ≤ p < npage s → p ∉ free A → 0 ≤ c < 2 ^ 16 - 2 →
  ∃ s', incref p s = Ok tt s' ∧ early (Z.max c (pin A p + 1)) (spec_pin A p (pin A p + 1)) s' ∧
    npage s' = npage s ∧ mem s' = mem s ∧ ref s p = pin A p.
Proof.
  intros [Hrel (H1 & H2 & H3) H4] Hp Hf Hc. assert (Hnt : ¬ is_tab A p) by (intros [k Hk]; by rewrite H2 in Hk).
  pose proof (pin_ref s A Hrel p Hp Hnt) as Href. rewrite H3 in Href. change (count p ∅) with 0 in Href.
  pose proof (H4 p). destruct (incref_ok s A Hrel p Hp Hf Hnt ltac:(lia)) as (s' & E & Hrel' & Hn & Hm & _).
  exists s'. split; [exact E|]. split; [|split; [done|split; [done|lia]]]. split; [exact Hrel'|done|].
  intros q. rewrite pin_spec_pin. pose proof (H4 q). case_decide; lia.
Qed.

(** * The directory for what all environments share *)

Section base.
Context (s0 : pmap) (A0 : vm) (b : Z) (fl : list Z).

(** Directory [b] has the tables [T], by index, with the entries [K], by
    virtual page number; the pages held before stay held and unchanged. *)
Record based (c : Z) (T : gmap Z Z) (K : Z → Z) (A : vm) (s : pmap) : Prop := {
  ba_early : early c A s;
  ba_np : npage s = npage s0;
  ba_pin : ∀ q, 1 ≤ pin A0 q → 1 ≤ pin A q;
  ba_b : 0 ≤ b < npage s0 ∧ 1 ≤ pin A b ∧ pin A0 b < 1;
  ba_free : free A = drop (size T) fl;
  ba_tab : ∀ i t, T !! i = Some t → 0 ≤ t < npage s0 ∧ 1 ≤ pin A t ∧ t ≠ b ∧ pin A0 t < 1;
  ba_inj : ∀ i j t, T !! i = Some t → T !! j = Some t → i = j;
  ba_dir : ∀ i, 0 ≤ i < 511 → load (mem s) (page2pa b + 4 * i) =
    match T !! i with Some t => Z.lor (ADDR_PTE (page2pa t)) PTE_V | None => 0 end;
  ba_ent : ∀ i t j, T !! i = Some t → 0 ≤ j < 1024 → load (mem s) (page2pa t + 4 * j) = K (i * 1024 + j);
  ba_none : ∀ v, T !! (v / 1024) = None → K v = 0;
  ba_same : ∀ q j, 1 ≤ pin A0 q → 0 ≤ q < PAGE_LIMIT → 0 ≤ j < 1024 →
    load (mem s) (page2pa q + 4 * j) = load (mem s0) (page2pa q + 4 * j)
}.

Lemma based_limit c T K A s : based c T K A s → npage s ≤ PAGE_LIMIT.
Proof using. intros Hb. apply (np_limit s A). apply (ba_early _ _ _ _ _ Hb). Qed.

(** The walk through a table that is there *)
Lemma walk_table c T K A s va t create : based c T K A s → 0 ≤ PDX va < 511 → T !! PDX va = Some t →
  pgdir_walk (page2pa b) va create s = Ok (Some (page2pa t + 4 * PTX va)) s.
Proof using.
  intros Hb Hi Ht. destruct (ba_tab _ _ _ _ _ Hb _ _ Ht) as (Htn & _). pose proof (based_limit _ _ _ _ _ Hb) as Hl.
  rewrite <- (ba_np _ _ _ _ _ Hb) in Htn.
  unfold pgdir_walk, rd. step. rewrite (ba_dir _ _ _ _ _ Hb _ Hi), Ht, has_V_lor. cbn [negb]. step. cbv iota. step.
  rewrite (ba_dir _ _ _ _ _ Hb _ Hi), Ht, (entry_addr t ltac:(lia) PTE_V) by done.
  by rewrite (bind_ok _ _ _ _ _ (KADDR_page t ltac:(lia) s ltac:(lia))).
Qed.

(** A cleared page becomes a table. *)
Lemma based_new_table c T K A s i0 t A2 s3 : based c T K A s → early c A2 s3 → npage s3 = npage s →
  0 ≤ i0 < 511 → T !! i0 = None → 0 ≤ t < npage s → t ≠ b → pin A t = 0 →
  (∀ q, pin A2 q = if decide (t = q) then 1 else pin A q) → free A2 = drop (S (size T)) fl →
  (∀ q j, 0 ≤ q < PAGE_LIMIT → 0 ≤ j < 1024 → load (mem s3) (page2pa q + 4 * j) =
    if decide (b = q ∧ i0 = j) then Z.lor (ADDR_PTE (page2pa t)) PTE_V
    else if decide (t = q) then 0 else load (mem s) (page2pa q + 4 * j)) →
  based c (<[i0 := t]> T) K A2 s3.
Proof using.
  intros Hb Hs3 Hn3 Hi Hn Htn Htb Htp Hpin2 Hf2 Hld. pose proof (based_limit _ _ _ _ _ Hb) as Hl.
  pose proof (ba_b _ _ _ _ _ Hb) as (Hbn & Hbp & Hb0). rewrite <- (ba_np _ _ _ _ _ Hb) in Hbn.
  assert (Htold : ∀ i u, T !! i = Some u → u ≠ t).
  { intros i u Hu ->. destruct (ba_tab _ _ _ _ _ Hb _ _ Hu) as (_ & Hp & _). lia. }
  split.
  - exact Hs3.
  - by rewrite Hn3, (ba_np _ _ _ _ _ Hb).
  - intros q Hq. rewrite Hpin2. case_decide; [lia|by apply (ba_pin _ _ _ _ _ Hb)].
  - rewrite Hpin2, decide_False by done. apply (ba_b _ _ _ _ _ Hb).
  - rewrite map_size_insert_None by done. exact Hf2.
  - intros i u. rewrite lookup_insert, Hpin2. case_decide; [intros [= <-]|intros Hu].
    + rewrite decide_True by done. rewrite <- (ba_np _ _ _ _ _ Hb). split; [done|]. split; [lia|]. split; [done|].
      destruct (Z.lt_ge_cases (pin A0 t) 1) as [|Hge]; [done|]. pose proof (ba_pin _ _ _ _ _ Hb t Hge). lia.
    + rewrite decide_False by (intros ->; by apply (Htold i u Hu)). by apply (ba_tab _ _ _ _ _ Hb i).
  - intros i j u. rewrite !lookup_insert. repeat case_decide; try congruence; intros X1 X2.
    + injection X1 as <-. by destruct (Htold _ _ X2).
    + injection X2 as <-. by destruct (Htold _ _ X1).
    + by apply (ba_inj _ _ _ _ _ Hb i j u).
  - intros j Hj. rewrite Hld, lookup_insert by lia. destruct (decide (i0 = j)) as [E|E]; [by rewrite decide_True by (by subst)|].
    rewrite decide_False by tauto. rewrite decide_False by done. by apply (ba_dir _ _ _ _ _ Hb).
  - intros i u j Hu Hj. rewrite lookup_insert in Hu. destruct (decide (i0 = i)) as [E|E].
    + injection Hu as <-. rewrite Hld by lia. rewrite decide_False by (intros [? _]; congruence). rewrite decide_True by done.
      symmetry. apply (ba_none _ _ _ _ _ Hb). rewrite PDX_vpn by done. by subst i.
    + destruct (ba_tab _ _ _ _ _ Hb i u Hu) as (Hun & _ & Hub & _). rewrite <- (ba_np _ _ _ _ _ Hb) in Hun. rewrite Hld by lia.
      rewrite decide_False by (intros [? _]; congruence). rewrite decide_False by (intros ->; by apply (Htold i u Hu)).
      by apply (ba_ent _ _ _ _ _ Hb).
  - intros v Hv. apply lookup_insert_None in Hv as [Hv _]. by apply (ba_none _ _ _ _ _ Hb).
  - intros q j Hq Hql Hj. rewrite Hld by done. rewrite !decide_False; [by apply (ba_same _ _ _ _ _ Hb)|..].
    + intros ->. pose proof (ba_pin _ _ _ _ _ Hb q Hq). lia.
    + intros [-> _]. lia.
Qed.

(** The walk that makes the table *)
Lemma walk_new c T K A s va : based c T K A s → 0 ≤ PDX va < 511 → T !! PDX va = None → (size T < length fl)%nat →
  1 ≤ c < 2 ^ 16 - 2 →
  ∃ s' A' t, pgdir_walk (page2pa b) va true s = Ok (Some (page2pa t + 4 * PTX va)) s' ∧
    based c (<[PDX va := t]> T) K A' s'.
Proof using.
  intros Hb Hi Hn Hroom Hc. pose proof (based_limit _ _ _ _ _ Hb) as Hl. pose proof (ba_b _ _ _ _ _ Hb) as (Hbn & Hbp & Hb0).
  rewrite <- (ba_np _ _ _ _ _ Hb) in Hbn.
  destruct (lookup_lt_is_Some_2 fl (size T) Hroom) as [t Ht].
  pose proof (drop_S fl t (size T) Ht) as Hd. pose proof (ba_free _ _ _ _ _ Hb) as Hf. rewrite Hd in Hf.
  destruct (early_alloc c A s t _ (ba_early _ _ _ _ _ Hb) Hf) as (s1 & E1 & Hs1 & Hn1 & Hm1 & Htn & Htp).
  assert (Htf : t ∉ drop (S (size T)) fl).
  { pose proof (proj2 (proj2 (rel_free _ _ (ea_rel _ _ _ (ba_early _ _ _ _ _ Hb))))) as Hnd. rewrite Hf in Hnd.
    by apply NoDup_cons in Hnd as [? _]. }
  destruct (early_incref c _ s1 t Hs1 ltac:(lia) Htf ltac:(lia)) as (s2 & E2 & Hs2 & Hn2 & Hm2 & Hr).
  change (pin (set_vfree (drop (S (size T)) fl) A) t) with (pin A t) in *. rewrite Htp in Hs2, Hr.
  assert (E2' : set_ref t 1 s1 = Ok tt s2).
  { unfold incref in E2. rewrite (bind_ok (gets _) _ _ _ _ eq_refl), Hr in E2. exact E2. }
  assert (Htb : t ≠ b) by (intros ->; lia). rewrite Z.max_l in Hs2 by lia.
  set (e := Z.lor (ADDR_PTE (page2pa t)) PTE_V). set (s3 := set_mem (store (page2pa b + 4 * PDX va) e) s2).
  set (A2 := spec_pin (set_vfree (drop (S (size T)) fl) A) t 1) in *.
  assert (Hld : ∀ q j, 0 ≤ q < PAGE_LIMIT → 0 ≤ j < 1024 → load (mem s3) (page2pa q + 4 * j) =
    if decide (b = q ∧ PDX va = j) then e else if decide (t = q) then 0 else load (mem s) (page2pa q + 4 * j)).
  { intros q j Hq Hj. unfold s3. cbn [mem set_mem]. rewrite Hm2, Hm1, load_store by lia. unfold e. rewrite entry_u32 by (done || lia).
    case_decide; [done|]. apply load_clear_page; lia. }
  assert (Hbd : based c (<[PDX va := t]> T) K A2 s3).
  { apply (based_new_table c T K A s (PDX va) t A2 s3 Hb); try done.
    - exact (early_ext c A2 s2 s3 Hs2 eq_refl eq_refl eq_refl).
    - unfold s3. cbn [npage set_mem]. by rewrite Hn2.
    - intros q. exact (pin_spec_pin (set_vfree (drop (S (size T)) fl) A) t 1 q). }
  exists s3, A2, t. split; [|exact Hbd].
  unfold pgdir_walk, rd. step. rewrite (ba_dir _ _ _ _ _ Hb _ Hi), Hn. change (has 0 PTE_V) with false. cbn [negb].
  rewrite !bind_assoc, (bind_ok _ _ _ _ _ E1), !bind_assoc, (bind_ok _ _ _ _ _ E2'). step. fold e. fold s3. step. cbv iota. step.
  rewrite (ba_dir _ _ _ _ _ Hbd _ Hi), lookup_insert_eq, (entry_addr t ltac:(lia) PTE_V) by done.
  by rewrite (bind_ok _ _ _ _ _ (KADDR_page t ltac:(lia) s3 ltac:(rewrite (ba_np _ _ _ _ _ Hbd), <- (ba_np _ _ _ _ _ Hb); lia))).
Qed.

(** The entry and the references, once the table is there *)
Definition finish_insert (pte pp va e : Z) : M pmap unit :=
  wr pte e ;;
  r <- gets (λ s, ref s pp) ;;
  set_ref pp (r + 1) ;;
  wr (page2pa b + 4 * PDX UVPT) 0 ;;
  tlb_flush 0 0.

Lemma finish_insert_ok c T K A s va t pp fl0 : based c T K A s → 0 ≤ va < 2 ^ 32 → 0 ≤ PDX va < 511 →
  T !! PDX va = Some t → 0 ≤ pp < npage s0 → 1 ≤ pin A0 pp → 0 ≤ fl0 < 1024 → 1 ≤ c < 2 ^ 16 - 2 →
  let e := Z.lor (ADDR_PTE (page2pa pp)) fl0 in
  ∃ s' A', finish_insert (page2pa t + 4 * PTX va) pp va e s = Ok tt s' ∧ based (c + 1) T (with_page (VPN va) e K) A' s'.
Proof using.
  intros Hb Hva Hi Ht Hpp Hpin Hfl Hc e. pose proof (based_limit _ _ _ _ _ Hb) as Hl. pose proof (ba_np _ _ _ _ _ Hb) as Hnp.
  destruct (ba_tab _ _ _ _ _ Hb _ _ Ht) as (Htn & Htp & Htb & Ht0). pose proof (ba_b _ _ _ _ _ Hb) as (Hbn & Hbp & Hb0).
  pose proof (PTX_bound va) as Hx. pose proof (VPN_split va Hva) as Hv.
  assert (He : u32 e = e) by (apply entry_u32; [lia|done]).
  set (s1 := set_mem (store (page2pa t + 4 * PTX va) e) s).
  assert (Hpf : pp ∉ free A).
  { intros Hin. destruct (free_unused _ _ (ea_rel _ _ _ (ba_early _ _ _ _ _ Hb)) pp Hin). pose proof (ba_pin _ _ _ _ _ Hb pp Hpin). lia. }
  destruct (early_incref c A s1 pp (early_ext c A s s1 (ba_early _ _ _ _ _ Hb) eq_refl eq_refl eq_refl) ltac:(cbn; lia) Hpf ltac:(lia))
    as (s2 & E2 & Hs2 & Hn2 & Hm2 & _).
  set (A2 := spec_pin A pp (pin A pp + 1)) in *. unfold incref in E2. rewrite (bind_ok (gets _) _ _ _ _ eq_refl) in E2.
  set (s3 := add_sfence (flush_of 0 0) (set_mem (store (page2pa b + 4 * PDX UVPT) 0) s2)). exists s3, A2. split.
  { unfold finish_insert, wr. step. fold s1. step. rewrite (bind_ok _ _ _ _ _ E2). step. apply tlb_flush_ok. }
  assert (Hpin2 : ∀ q, pin A q ≤ pin A2 q) by (intros q; unfold A2; rewrite pin_spec_pin; case_decide; [subst|]; lia).
  assert (Hld : ∀ q j, 0 ≤ q < PAGE_LIMIT → 0 ≤ j < 1024 → load (mem s3) (page2pa q + 4 * j) =
    if decide (b = q ∧ 511 = j) then 0 else if decide (t = q ∧ PTX va = j) then e else load (mem s) (page2pa q + 4 * j)).
  { intros q j Hq Hj. unfold s3. cbn [mem set_mem add_sfence]. rewrite Hm2. change (PDX UVPT) with 511. rewrite load_store by lia.
    case_decide; [done|]. unfold s1. cbn [mem set_mem]. rewrite load_store by lia. by rewrite He. }
  assert (Hns : npage s3 = npage s0) by (unfold s3; cbn; by rewrite Hn2).
  split; try (by apply Hb); try done.
  - pose proof (ea_pin _ _ _ (ba_early _ _ _ _ _ Hb) pp) as Hpc. destruct Hs2 as [R1 R2 R3].
    apply (early_ext (c + 1) A2 s2); [split; [exact R1|exact R2|]|done..]. intros q. pose proof (R3 q). lia.
  - intros q Hq. pose proof (ba_pin _ _ _ _ _ Hb q Hq). pose proof (Hpin2 q). lia.
  - pose proof (Hpin2 b). lia.
  - intros i u Hu. destruct (ba_tab _ _ _ _ _ Hb i u Hu) as (? & ? & ? & ?). pose proof (Hpin2 u). split_and!; try done; lia.
  - intros i Hi2. rewrite Hld by lia. rewrite !decide_False by lia. by apply (ba_dir _ _ _ _ _ Hb).
  - intros i u j Hu Hj. destruct (ba_tab _ _ _ _ _ Hb i u Hu) as (Hun & _ & Hub & _). rewrite Hld by lia.
    rewrite decide_False by (intros [? _]; congruence). unfold with_page. destruct (decide (t = u)) as [<-|Hne].
    + pose proof (ba_inj _ _ _ _ _ Hb _ _ _ Ht Hu) as <-. destruct (decide (PTX va = j)) as [Ej|Ej].
      * rewrite !decide_True by lia. done.
      * rewrite !decide_False by lia. by apply (ba_ent _ _ _ _ _ Hb).
    + rewrite decide_False by tauto. rewrite decide_False; [by apply (ba_ent _ _ _ _ _ Hb)|]. intros Ej. apply Hne.
      assert (PDX va = i) by (rewrite <- (PDX_vpn (PDX va) (PTX va)), <- Hv, <- Ej, PDX_vpn by done; done). congruence.
  - intros w Hw. unfold with_page. rewrite decide_False; [by apply (ba_none _ _ _ _ _ Hb)|]. intros ->.
    rewrite Hv, PDX_vpn in Hw by done. congruence.
  - intros q j Hq Hql Hj. rewrite Hld by done. rewrite !decide_False by (intros [-> _]; lia). by apply (ba_same _ _ _ _ _ Hb).
Qed.

Lemma page_insert_finish pte pp va perm s s1 : has perm PTE_W = false →
  (∃ o, pgdir_walk (page2pa b) va false s = Ok o s ∧ ∀ a, o = Some a → has (load (mem s) a) PTE_V = false) →
  pgdir_walk (page2pa b) va true s = Ok (Some pte) s1 →
  page_insert (page2pa b) 0 pp va perm s =
    finish_insert pte pp va (Z.lor (ADDR_PTE (page2pa pp)) (Z.lor perm PTE_V)) s1.
Proof using.
  intros Hw (o & E & Ho) E1. unfold page_insert. rewrite (bind_ok _ _ _ _ _ E), Hw. cbv zeta.
  assert (Eu : ∀ B (k : bool → M pmap B), bind (match o with
    | Some a => e <- rd a ;; if has e PTE_V then
        q <- pa2page (PTE_ADDR e) ;;
        if negb (q =? pp) then page_remove (page2pa b) 0 va ;; ret false
        else wr a (Z.lor (Z.lor (ADDR_PTE (page2pa pp)) perm) PTE_V) ;; tlb_flush 0 va ;; ret true else ret false
    | None => ret false end) k s = k false s).
  { intros B k. destruct o as [a|]; [|reflexivity]. rewrite bind_assoc. unfold rd. step. rewrite (Ho a eq_refl). reflexivity. }
  rewrite Eu, (bind_ok _ _ _ _ _ E1), <- Z.lor_assoc. reflexivity.
Qed.

Lemma page_insert_based c T K A s va pp perm : based c T K A s → 0 ≤ va < 2 ^ 32 → 0 ≤ PDX va < 511 →
  (T !! PDX va = None → (size T < length fl)%nat) → has (K (VPN va)) PTE_V = false →
  0 ≤ pp < npage s0 → 1 ≤ pin A0 pp → 0 ≤ perm < 1024 → has perm PTE_W = false → 1 ≤ c < 2 ^ 16 - 2 →
  ∃ s' A' T', page_insert (page2pa b) 0 pp va perm s = Ok tt s' ∧
    based (c + 1) T' (with_page (VPN va) (Z.lor (ADDR_PTE (page2pa pp)) (Z.lor perm PTE_V)) K) A' s' ∧
    dom T' = {[PDX va]} ∪ dom T.
Proof using.
  intros Hb Hva Hi Hroom HK Hpp Hpin Hperm Hw Hc. pose proof (based_limit _ _ _ _ _ Hb) as Hl.
  assert (Hfl : 0 ≤ Z.lor perm PTE_V < 1024) by (apply (lor_bound _ _ 10); [lia|lia|by compute]).
  destruct (T !! PDX va) as [t|] eqn:Ht.
  - pose proof (walk_table c T K A s va t false Hb Hi Ht) as E. pose proof (walk_table c T K A s va t true Hb Hi Ht) as E1.
    destruct (finish_insert_ok c T K A s va t pp _ Hb Hva Hi Ht Hpp Hpin Hfl Hc) as (s' & A' & E2 & Hb').
    exists s', A', T. split; [|split; [exact Hb'|]].
    + rewrite (page_insert_finish (page2pa t + 4 * PTX va) pp va perm s s Hw); [exact E2| |exact E1]. eexists. split; [exact E|]. intros a [= <-].
      rewrite (ba_ent c T K A s Hb (PDX va) t (PTX va) Ht (PTX_bound va)). by rewrite <- VPN_split.
    + apply elem_of_dom_2 in Ht. set_solver.
  - destruct (walk_new c T K A s va Hb Hi Ht (Hroom eq_refl) Hc) as (s1 & A1 & t & E1 & Hb1).
    destruct (finish_insert_ok c _ K A1 s1 va t pp _ Hb1 Hva Hi (lookup_insert_eq _ _ _) Hpp Hpin Hfl Hc) as (s' & A' & E2 & Hb').
    exists s', A', (<[PDX va := t]> T). split; [|split; [exact Hb'|apply dom_insert_L]].
    rewrite (page_insert_finish (page2pa t + 4 * PTX va) pp va perm s s1 Hw); [exact E2| |exact E1]. exists None. split; [|done].
    unfold pgdir_walk, rd. step. rewrite (ba_dir _ _ _ _ _ Hb _ Hi), Ht. reflexivity.
Qed.

Lemma based_ext c T K K' A s : (∀ v, K v = K' v) → based c T K A s → based c T K' A s.
Proof using.
  intros HK Hb. split; try apply Hb.
  - intros i t j Ht Hj. rewrite <- HK. by apply (ba_ent _ _ _ _ _ Hb).
  - intros v Hv. rewrite <- HK. by apply (ba_none _ _ _ _ _ Hb).
Qed.

(** One round of map_segment *)
Definition map_page (pa va perm i : Z) : M kernel unit :=
  pp <- onp (pa2page (u32 (pa + i))) ;;
  panic_on (onp (page_insert (page2pa b) 0 pp (u32 (va + i)) perm)).

Lemma map_page_ok k c T K A s va p0 perm j : based c T K A s → 0 ≤ j → 0 ≤ va → va + (j + 1) * 4096 ≤ 2 ^ 32 →
  0 ≤ PDX (va + j * 4096) < 511 → (T !! PDX (va + j * 4096) = None → (size T < length fl)%nat) →
  has (K (VPN (va + j * 4096))) PTE_V = false → 0 ≤ p0 → p0 + j < npage s0 → 1 ≤ pin A0 (p0 + j) →
  0 ≤ perm < 1024 → has perm PTE_W = false → 1 ≤ c < 2 ^ 16 - 2 →
  ∃ s' A' T', map_page (page2pa p0) va perm (j * 4096) (set_pm s k) = Ok tt (set_pm s' k) ∧
    based (c + 1) T' (with_page (VPN (va + j * 4096)) (Z.lor (ADDR_PTE (page2pa p0 + j * 4096)) (Z.lor perm PTE_V)) K) A' s' ∧
    dom T' = {[PDX (va + j * 4096)]} ∪ dom T.
Proof using.
  intros Hb Hj Hva Hva' Hi Hroom HK Hp0 Hp Hpin Hperm Hw Hc.
  pose proof (based_limit _ _ _ _ _ Hb) as Hl. pose proof (ba_np _ _ _ _ _ Hb) as Hnp.
  assert (Epa : page2pa p0 + j * 4096 = page2pa (p0 + j)) by (rewrite !page2pa_eq by (unfold PAGE_LIMIT in *; lia); lia).
  unfold PAGE_LIMIT in Hl.
  destruct (page2pa_range (p0 + j) ltac:(lia)) as [Hpr _].
  destruct (page_insert_based c T K A s (va + j * 4096) (p0 + j) perm Hb ltac:(lia) Hi Hroom HK ltac:(lia) Hpin Hperm Hw Hc)
    as (s' & A' & T' & E & Hb' & Hd).
  rewrite Epa. exists s', A', T'. split; [|exact (conj Hb' Hd)]. unfold map_page. rewrite Epa, !u32_small by lia.
  rewrite (bind_ok _ _ _ _ _ (onp_at _ _ k _ _ (pa2page_page (p0 + j) ltac:(unfold PAGE_LIMIT; lia) s ltac:(lia)))).
  unfold panic_on. by rewrite (onp_at _ _ k _ _ E).
Qed.

(** A range of whole pages that the tables do not map yet *)
Lemma map_segment_ok (P : gset Z) k c T K A va p0 n perm : based c T K A (pm k) → dom T ⊆ P → (size P ≤ length fl)%nat →
  va mod 4096 = 0 → 0 ≤ va → va + n * 4096 ≤ 2 ^ 32 → 0 ≤ n → 0 ≤ p0 < PAGE_LIMIT →
  (∀ j, 0 ≤ j < n → PDX (va + j * 4096) ∈ P ∧ 0 ≤ PDX (va + j * 4096) < 511 ∧ has (K (VPN va + j)) PTE_V = false) →
  (∀ j, 0 ≤ j < n → p0 + j < npage s0 ∧ 1 ≤ pin A0 (p0 + j)) →
  0 ≤ perm < 1024 → has perm PTE_W = false → 1 ≤ c → c + n < 2 ^ 16 - 2 →
  ∃ s' A' T', map_segment (page2pa b) 0 (page2pa p0) va (n * 4096) perm k = Ok tt (set_pm s' k) ∧
    based (c + n) T' (with_range va (page2pa p0) n perm K) A' s' ∧ dom T' ⊆ P.
Proof using.
  intros Hb Hdom Hsz Hal Hva Hva' Hn Hp0 Hdx Hpg Hperm Hw Hc Hcn.
  destruct (for_each_inv (λ l k', ∃ s' A' T', k' = set_pm s' k ∧ dom T' ⊆ P ∧
      based (c + Z.of_nat (length l)) T' (with_range va (page2pa p0) (Z.of_nat (length l)) perm K) A' s')
    (page_offsets (n * 4096)) (map_page (page2pa p0) va perm)) with (s := k) as (k' & E & s' & A' & T' & -> & Hd' & Hb').
  - intros l x rest k1 HL (s1 & A1 & T1 & -> & Hd1 & Hb1).
    destruct (page_offsets_round n l x rest Hn HL) as [-> Hj]. set (j := Z.of_nat (length l)) in *.
    destruct (Hdx j ltac:(lia)) as (HP & Hi & HK). destruct (Hpg j ltac:(lia)) as [Hp Hpin].
    assert (EV : VPN (va + j * 4096) = VPN va + j) by (unfold VPN; rewrite !Z.shiftr_div_pow2 by lia; apply Z.div_add; lia).
    destruct (map_page_ok k (c + j) T1 _ A1 s1 va p0 perm j Hb1) as (s2 & A2 & T2 & E2 & Hb2 & Hd2); try done; try lia.
    + intros HT. assert (size (dom T1) < size P)%nat; [|by rewrite size_dom in *; lia].
      apply subset_size. split; [exact Hd1|]. intros Hsub. apply Hsub in HP. apply elem_of_dom in HP as [? ?]. congruence.
    + rewrite EV. unfold with_range. rewrite decide_False by lia. exact HK.
    + exists (set_pm s2 k). split; [exact E2|]. exists s2, A2, T2. split; [done|]. split; [rewrite Hd2; set_solver|].
      rewrite length_app. cbn [length]. rewrite Nat2Z.inj_add, Z.add_assoc. fold j. refine (based_ext _ _ _ _ _ _ _ Hb2).
      intros w. apply with_range_step. lia.
  - exists (pm k), A, T. split; [by destruct k|]. split; [exact Hdom|]. rewrite Z.add_0_r. refine (based_ext _ _ _ _ _ _ _ Hb).
    apply with_range_nil.
  - exists s', A', T'. rewrite page_offsets_length in Hb' by done. split; [|split; [exact Hb'|exact Hd']]. unfold map_segment.
    assert (Hpm : page2pa p0 mod BY2PG = 0) by (rewrite page2pa_eq by done; unfold KERNBASE; change BY2PG with 4096;
      replace (0x80200000 + p0 * 4096) with ((0x80200 + p0) * 4096) by lia; by apply Z.mod_mul).
    change BY2PG with 4096 in *. rewrite Hpm, Hal, Z.mod_mul by done. step. step. step. exact E.
Qed.
End base.

(** * The table of environments *)

Lemma mark_free_ok k : LIST_rep (env_free_list k) [] →
  ∃ k', for_each (reverse (seqZ 0 NENV)) (λ i, upd_env i (set_env_status ENV_FREE) ;; free_insert_head i) k = Ok tt k' ∧
    LIST_rep (env_free_list k') (seqZ 0 NENV) ∧
    (∀ x, env k' x = if decide (0 ≤ x < NENV) then set_env_status ENV_FREE (env k x) else env k x) ∧
    k' = set_env_free_list (env_free_list k') (set_envs (envs k') k).
Proof.
  intros Hl.
  destruct (for_each_inv (λ l k', LIST_rep (env_free_list k') (reverse l) ∧
      (∀ x, env k' x = if decide (x ∈ l) then set_env_status ENV_FREE (env k x) else env k x) ∧
      k' = set_env_free_list (env_free_list k') (set_envs (envs k') k))
    (reverse (seqZ 0 NENV)) (λ i, upd_env i (set_env_status ENV_FREE) ;; free_insert_head i)) with (s := k) as (k' & E & H1 & H2 & H3).
  - intros l x rest k1 HL (H1 & H2 & H3).
    assert (Hnd : NoDup (l ++ x :: rest)) by (rewrite <- HL, reverse_Permutation; apply NoDup_seqZ).
    apply NoDup_app in Hnd as (_ & Hx & _). assert (Hxl : x ∉ l) by (intros Hin; apply (Hx x Hin), list_elem_of_here).
    rewrite (bind_ok _ _ _ _ _ (upd_env_ok _ _ _)). eexists. split; [reflexivity|]. split; [|split].
    + rewrite reverse_app. cbn. apply LIST_insert_head_rep; [exact H1|]. by rewrite elem_of_reverse.
    + intros y. cbn. change (env (set_env_free_list ?l ?k) y) with (env k y).
      fold (with_env k1 x (set_env_status ENV_FREE (env k1 x))). rewrite env_with.
      destruct (decide (x = y)) as [->|Hne]; [rewrite (decide_True (P := y ∈ l ++ [y])) by (apply elem_of_app; right; apply list_elem_of_here); by rewrite H2, decide_False|].
      rewrite H2. apply decide_ext. rewrite elem_of_app, list_elem_of_singleton. split; [by left|]. intros [?| ->]; [done|by destruct Hne].
    + rewrite H3. reflexivity.
  - split; [exact Hl|]. split; [|by destruct k]. intros x. by rewrite decide_False by apply not_elem_of_nil.
  - exists k'. split; [exact E|]. rewrite reverse_involutive in H1. split; [exact H1|]. split; [|exact H3].
    intros x. rewrite H2. apply decide_ext. rewrite elem_of_reverse, elem_of_seqZ. lia.
Qed.

Lemma base_walk s0 A0 b fl c T K A s va : based s0 A0 b fl c T K A s → 0 ≤ va < 2 ^ 32 → PDX va < 511 →
  sv32_walk (mem s) (page2pa b) va = walk_entry (K (VPN va)) va.
Proof.
  intros Hb Hva Hi. pose proof (PDX_bound va) as Hx. unfold sv32_walk. rewrite (ba_dir _ _ _ _ _ _ _ _ _ Hb) by lia.
  destruct (T !! PDX va) as [t|] eqn:Ht.
  - pose proof (based_limit _ _ _ _ _ _ _ _ _ Hb) as Hl. destruct (ba_tab _ _ _ _ _ _ _ _ _ Hb _ _ Ht) as (Htn & _).
    rewrite <- (ba_np _ _ _ _ _ _ _ _ _ Hb) in Htn. rewrite has_V_lor, (entry_addr t ltac:(lia) PTE_V) by done.
    rewrite (ba_ent _ _ _ _ _ _ _ _ _ Hb _ _ _ Ht (PTX_bound va)). by rewrite <- VPN_split.
  - change (has 0 PTE_V) with false. rewrite (ba_none _ _ _ _ _ _ _ _ _ Hb (VPN va)); [done|].
    by rewrite VPN_split, PDX_vpn by (done || apply PTX_bound).
Qed.

(** What the base directory maps: the arrays [pages] and [envs], to be read *)
Definition shared_flags : Z := Z.lor (Z.lor (Z.lor PTE_G PTE_R) PTE_U) PTE_V.

Definition shared_map `{LinkerSymbols} (va : Z) : option (Z * Z) :=
  if decide (UPAGES ≤ va < UPAGES + 47 * 4096) then Some (end_ + (va - UPAGES), shared_flags)
  else if decide (UENVS ≤ va < UENVS + 56 * 4096) then Some (envs_kva + (va - UENVS), shared_flags)
  else None.

Section env_init.
Context `{LinkerSymbols}.

Definition shared_entries (ep : Z) : Z → Z :=
  with_range UENVS (page2pa ep) 56 (Z.lor (Z.lor PTE_G PTE_R) PTE_U)
    (with_range UPAGES (page2pa 1024) 47 (Z.lor (Z.lor PTE_G PTE_R) PTE_U) (λ _, 0)).

Lemma shared_entries_walk ep va : end_ = page2pa 1024 → envs_kva = page2pa ep → 0 ≤ ep ≤ 968 → 0 ≤ va →
  walk_entry (shared_entries ep (VPN va)) va = shared_map va.
Proof using.
  intros He Hep Hr Hva. destruct (page_mod ep ltac:(unfold PAGE_LIMIT; lia)) as [Hm Hb].
  pose proof (page2pa_eq ep ltac:(lia)) as Hpe. unfold KERNBASE in Hpe.
  unfold shared_entries, shared_map. rewrite He, Hep. change (page2pa 1024) with 0x80600000.
  change UPAGES with 0x7F800000. change UENVS with 0x7F400000.
  rewrite !range_walk by (first [done|lia|by compute]). change (walk_entry 0 va) with (@None (Z * Z)).
  repeat case_decide; try lia; reflexivity.
Qed.

(** The directory before its first table *)
Lemma based_start s A b fl s' A' : early 1 A s → free A = b :: fl → early 1 A' s' → npage s' = npage s →
  free A' = fl → pin A b = 0 → 0 ≤ b < npage s → (∀ q, pin A' q = if decide (b = q) then 1 else pin A q) →
  (∀ q j, 0 ≤ q < PAGE_LIMIT → 0 ≤ j < 1024 → load (mem s') (page2pa q + 4 * j) =
    if decide (b = q) then 0 else load (mem s) (page2pa q + 4 * j)) →
  based s A b fl 1 ∅ (λ _, 0) A' s'.
Proof using.
  intros Hs Hf Hs' Hn Hf' Hpb Hb Hpin Hld. pose proof (np_limit s' A' (ea_rel _ _ _ Hs')) as Hl. rewrite Hn in Hl.
  split; try done.
  - intros q Hq. rewrite Hpin. case_decide; [lia|done].
  - rewrite Hpin, decide_True by done. lia.
  - intros i Hi. rewrite lookup_empty, Hld by lia. by rewrite decide_True.
  - intros q j Hq Hql Hj. rewrite Hld by done. rewrite decide_False; [done|]. intros ->. lia.
Qed.

(** The page of the base directory, allocated, held and cleared *)
Lemma base_page_ok k A b fl : early 1 A (pm k) → free A = b :: fl →
  ∃ s' A', (∀ B (f : Z → M kernel B),
      (p <- onp (panic_on page_alloc) ;; onp (incref p) ;; d <- onp (page2kva p) ;; f d) k = f (page2pa b) (set_pm s' k)) ∧
    pages_kva s' = pages_kva (pm k) ∧ based (pm k) A b fl 1 ∅ (λ _, 0) A' s'.
Proof using.
  intros Hs Hf. pose proof (np_limit _ _ (ea_rel _ _ _ Hs)) as Hl.
  destruct (page_alloc_eq (pm k) A (ea_rel _ _ _ Hs) b fl Hf) as (l' & Ea & _).
  destruct (early_alloc 1 A (pm k) b fl Hs Hf) as (s1 & E1 & Hs1 & Hn1 & Hm1 & Hb & Hpb).
  assert (Hbf : b ∉ fl).
  { pose proof (proj2 (proj2 (rel_free _ _ (ea_rel _ _ _ Hs)))) as Hnd. rewrite Hf in Hnd. by apply NoDup_cons in Hnd as [? _]. }
  assert (Hk1 : pages_kva s1 = pages_kva (pm k)) by (rewrite Ea in E1; injection E1 as <-; reflexivity).
  destruct (early_incref 1 (set_vfree fl A) s1 b Hs1 ltac:(lia) Hbf ltac:(lia)) as (s2 & E2 & Hs2 & Hn2 & Hm2 & _).
  change (pin (set_vfree fl A) b) with (pin A b) in *. rewrite Hpb in *.
  assert (Hk2 : pages_kva s2 = pages_kva s1) by (unfold incref in E2; rewrite (bind_ok (gets _) _ _ _ _ eq_refl) in E2; injection E2 as <-; reflexivity).
  exists s2, (spec_pin (set_vfree fl A) b 1). split; [|split; [congruence|]].
  - assert (Ep : panic_on page_alloc (pm k) = Ok b s1) by (unfold panic_on; by rewrite E1).
    intros B f. rewrite (bind_ok _ _ _ _ _ (onp_ok _ k _ _ Ep)), (bind_ok _ _ _ _ _ (onp_at _ _ k _ _ E2)).
    by rewrite (bind_ok _ _ _ _ _ (onp_at _ _ k _ _ (KADDR_page b ltac:(lia) s2 ltac:(lia)))).
  - apply (based_start (pm k) A b fl s2 _ Hs Hf Hs2); try done.
    + by rewrite Hn2.
    + intros q. exact (pin_spec_pin (set_vfree fl A) b 1 q).
    + intros q j Hq Hj. rewrite Hm2, Hm1. apply load_clear_page; [lia|done|done].
Qed.

(** The state after env_init *)
Record env_ready (k k' : kernel) (A A' : vm) (b : Z) (fl : list Z) (ep : Z) (T : gmap Z Z) : Prop := {
  er_base : based (pm k) A b fl 104 T (shared_entries ep) A' (pm k');
  er_tables : (size T ≤ 2)%nat;
  er_free : LIST_rep (env_free_list k') (seqZ 0 NENV);
  er_sched : TAILQ_rep (env_sched_list k') [];
  er_envs : ∀ x, env k' x = if decide (0 ≤ x < NENV) then set_env_status ENV_FREE (env k x) else env k x;
  er_pgdir : base_pgdir k' = page2pa b;
  er_rest : disk k' = disk k ∧ asid_bitmap k' = asid_bitmap k ∧ mkenvid_i k' = mkenvid_i k ∧ curenv k' = curenv k
}.

Lemma segment_pdx va i n : 0 ≤ i < 512 → va = i * 2 ^ 22 → 0 ≤ n ≤ 1024 →
  ∀ j, 0 ≤ j < n → PDX (va + j * 4096) = i ∧ VPN va = i * 1024.
Proof using.
  intros Hi -> Hn j Hj. unfold VPN. rewrite Z.shiftr_div_pow2, PDX_div by lia. change (2 ^ 22) with 4194304. change (2 ^ 12) with 4096.
  split; symmetry; [apply (Z.div_unique _ _ _ (j * 4096))|apply (Z.div_unique _ _ _ 0)]; lia.
Qed.

Lemma env_init_ok k A b fl ep : early 1 A (pm k) → free A = b :: fl → (2 ≤ length fl)%nat → npage (pm k) = 15872 →
  pages_kva (pm k) = end_ → end_ = page2pa 1024 → envs_kva = page2pa ep → 0 ≤ ep ≤ 968 →
  (∀ q, 0 ≤ q < 1071 → 1 ≤ pin A q) →
  ∃ k' A' T, env_init k = Ok tt k' ∧ env_ready k k' A A' b fl ep T.
Proof using.
  intros Hs Hf Hfl Hnp Hpk He Hep Hr Hpin. unfold env_init. step. step.
  set (k1 := set_env_sched_list _ _).
  destruct (mark_free_ok k1) as (k2 & E2 & Hl2 & He2 & Hk2); [apply LIST_init_rep|].
  assert (Hpm2 : pm k2 = pm k) by (rewrite Hk2; reflexivity).
  rewrite (bind_ok _ _ _ _ _ E2). rewrite <- Hpm2 in Hs, Hnp, Hpk.
  destruct (base_page_ok k2 A b fl Hs Hf) as (s3 & A3 & E3 & Hk3 & Hb3).
  pose proof (ba_np _ _ _ _ _ _ _ _ _ Hb3) as Hn3. rewrite Hnp in Hn3.
  rewrite E3. step. set (k4 := set_base_pgdir _ _). step.
  change (pages_kva (pm k4)) with (pages_kva s3). rewrite Hk3, Hpk, He. unfold PADDR at 1. change (page2pa 1024 <? ULIM) with false. step. step.
  change (npage (pm k4)) with (npage s3). rewrite Hn3. change (ROUND (15872 * SIZEOF_PAGE) BY2PG) with (47 * 4096).
  change (ROUND (NENV * SIZEOF_ENV) BY2PG) with (56 * 4096).
  change s3 with (pm k4) in Hb3. set (perm := Z.lor (Z.lor PTE_G PTE_R) PTE_U).
  pose proof (segment_pdx UPAGES 510 47 ltac:(lia) eq_refl ltac:(lia)) as H510.
  pose proof (segment_pdx UENVS 509 56 ltac:(lia) eq_refl ltac:(lia)) as H509.
  destruct (map_segment_ok (pm k2) A b fl {[509; 510]} k4 1 ∅ (λ _, 0) A3 UPAGES 1024 47 perm Hb3)
    as (s5 & A5 & T5 & E5 & Hb5 & Hd5).
  { rewrite dom_empty_L. apply empty_subseteq. } { exact Hfl. } 1-5: by compute.
  { intros j Hj. destruct (H510 j Hj) as [-> _]. split; [set_solver|]. split; [lia|done]. }
  { intros j Hj. rewrite Hnp. split; [lia|]. apply Hpin. lia. }
  1-4: by compute.
  rewrite (bind_ok _ _ _ _ _ E5). rewrite Hep. pose proof (page2pa_eq ep ltac:(lia)) as Hpe. unfold KERNBASE in Hpe.
  unfold PADDR. change ULIM with 0x80000000. rewrite (proj2 (Z.ltb_ge (page2pa ep) _)) by lia. step.
  destruct (map_segment_ok (pm k2) A b fl {[509; 510]} (set_pm s5 k4) (1 + 47) T5 _ A5 UENVS ep 56 perm Hb5)
    as (s6 & A6 & T6 & E6 & Hb6 & Hd6).
  { exact Hd5. } { exact Hfl. } 1-4: by compute. { unfold PAGE_LIMIT. lia. }
  { intros j Hj. destruct (H509 j Hj) as [-> ->]. split; [set_solver|]. split; [lia|].
    unfold with_range. rewrite decide_False; [done|]. change (VPN UPAGES) with 522240. lia. }
  { intros j Hj. rewrite Hnp. split; [lia|]. apply Hpin. lia. }
  1-4: by compute.
  eexists _, A6, T6. split; [exact E6|]. split.
  - rewrite Hpm2 in Hb6. exact Hb6.
  - rewrite <- size_dom. rewrite (subseteq_size _ _ Hd6). done.
  - exact Hl2.
  - change (TAILQ_rep (env_sched_list k2) []). rewrite Hk2. apply TAILQ_init_rep.
  - exact He2.
  - reflexivity.
  - change (disk k2 = disk k ∧ asid_bitmap k2 = asid_bitmap k ∧ mkenvid_i k2 = mkenvid_i k ∧ curenv k2 = curenv k).
    rewrite Hk2. split_and!; reflexivity.
Qed.
End env_init.
