(* ===== verification/InitProps.v ===== *)
(** [mips_init] (init/init.c): from the state in which the firmware starts the
    kernel to the first two environments. *)
From S2P Require Import Prelude Mmu Queue Memory Strings StringsProps Pmap PmapSpec KmapProps VmSteps BootProofs.
From S2P Require Import QueueProps Disk DiskProps Elf Env EnvProps Sched SchedProps Tlbex Syscall SyscallProps EnvVmProps EnvFreeProps.
From S2P Require Import ElfProps LoadProps Start StartProps.

(** * Memories that agree where it matters *)

(** A walk reads its directory and one table. *)
Lemma walk_same m m' p va : same_page m m' p →
  (load m (page2pa p + 4 * PDX va) = 0 ∨ ∃ t, 0 ≤ t < PAGE_LIMIT ∧
     load m (page2pa p + 4 * PDX va) = Z.lor (ADDR_PTE (page2pa t)) PTE_V ∧ same_page m m' t) →
  sv32_walk m' (page2pa p) va = sv32_walk m (page2pa p) va.
Proof.
  intros Hp Hc. unfold sv32_walk. rewrite (Hp (PDX va) (PDX_bound va)). destruct Hc as [->|(t & Ht & -> & Hs)]; [reflexivity|].
  rewrite has_V_lor, (entry_addr t Ht PTE_V) by done. by rewrite (Hs (PTX va) (PTX_bound va)).
Qed.

Definition same_bytes (m m' : memory) (lo hi : Z) : Prop := ∀ x, lo ≤ x < hi → load8 m' x = load8 m x.

Lemma same_bytes_trans m1 m2 m3 lo hi : same_bytes m1 m2 lo hi → same_bytes m2 m3 lo hi → same_bytes m1 m3 lo hi.
Proof. intros H1 H2 x Hx. by rewrite H2, H1. Qed.

(** A file that lies elsewhere in memory, but has the same bytes *)
Lemma binary_agree m m' binary size : binary_ok m binary size → same_bytes m m' binary (binary + size) →
  binary_ok m' binary size ∧ phdrs m' binary = phdrs m binary ∧ e_entry m' binary = e_entry m binary.
Proof.
  intros Hbo Hs. destruct (ehdr_agree m' m binary size (elf_size _ _ _ Hbo) Hs) as (E1 & E2 & E3).
  assert (Ep : phdrs m' binary = phdrs m binary).
  { unfold phdrs. rewrite E2. apply map_ext_in. intros off Hoff%list_elem_of_In.
    destruct (bo_phdrs _ _ _ Hbo off Hoff). apply rd_phdr_agree. intros x Hx. apply Hs. lia. }
  split; [|split; [exact Ep|exact E3]]. split; [by rewrite E1; apply Hbo|rewrite E2; apply Hbo|rewrite Ep; apply Hbo].
Qed.

Lemma holds_program_agree m0 m1 m A d binary size : binary_ok m0 binary size → same_bytes m0 m1 binary (binary + size) →
  holds_program m1 m A d binary (phdrs m0 binary) → holds_program m0 m A d binary (phdrs m0 binary).
Proof.
  intros Hbo Hs [H1 H2]. split; [|exact H2]. intros ph a Hin Hl Hal Ha.
  destruct (H1 ph a Hin Hl Hal Ha) as (p & Hm & Hd & Hb). exists p. split; [exact Hm|]. split; [exact Hd|]. rewrite Hb.
  destruct (Z.ltb_spec a (p_vaddr ph + p_filesz ph)); [|done]. destruct (so_src _ _ _ _ _ (bo_segs _ _ _ Hbo ph Hin Hl)).
  apply Hs. lia.
Qed.

(** Another address space is loaded: the pages of [d] are held meanwhile. *)
Lemma holds_program_kept m0 m m' A A' s s' d d' binary phs : rel s A → rel s' A' → d ≠ d' →
  (∀ v, maps A' !! (d, v) = maps A !! (d, v)) → (∀ q, held d' A q → held d' A' q ∧ same_page m m' q) →
  holds_program m0 m A d binary phs → holds_program m0 m' A' d binary phs.
Proof.
  intros Hrel Hrel' Hne Hmaps Hheld [H1 H2]. split.
  - intros ph a Hin Hl Hal Ha. destruct (H1 ph a Hin Hl Hal Ha) as (p & Hm & Hd & Hb). exists p.
    assert (Hp : 0 ≤ p < PAGE_LIMIT).
    { destruct (wf_map _ _ (rel_wf _ _ Hrel) _ _ _ _ Hm) as (_ & _ & Hp & _). pose proof (np_limit _ _ Hrel). lia. }
    destruct (Hheld p) as [(_ & Hd' & _) Hs]; [split; [exact Hp|]; split; [exact Hd|]; right; exists d, (VPN a), (perm_flags (seg_perm ph)); exact (conj Hne Hm)|].
    rewrite Hmaps. split; [exact Hm|]. split; [exact Hd'|].
    rewrite (same_page_load8 _ _ p _ Hs Hp) by (apply Z.mod_pos_bound; done). exact Hb.
  - intros v Hv Hno. rewrite Hmaps. by apply H2.
Qed.

Section start.
Context `{LinkerSymbols}.

(** * Memory, the kernel's address space and the disk *)

(** The state before env_init; pages below [K] are held, those from [K] free. *)
Record memory_ready (k k' : kernel) (dp kp K : Z) : Prop := {
  my_early : early 1 (boot_vm (pm k') (reverse (seqZ K (15872 - K)))) (pm k');
  my_first : TABLE0 ≤ K ≤ TABLE0 + 17;
  my_pin : ∀ q, ref (pm k') q = if decide (0 ≤ q < K) then 1 else 0;
  my_np : npage (pm k') = 15872;
  my_pages : pages_kva (pm k') = end_;
  my_image : ∀ q, 0 ≤ q < 1024 → q ≠ kp → same_page (mem (pm k)) (mem (pm k')) q;
  my_user : ∀ i, 0 ≤ i < 512 → load (mem (pm k')) (kernel_pgdir + 4 * i) = 0;
  my_walk : ∀ va, 0 ≤ va < 2 ^ 32 → sv32_walk (mem (pm k')) kernel_pgdir va = kernel_map va;
  my_tables : ∀ i, 0 ≤ i < 1024 → load (mem (pm k')) (kernel_pgdir + 4 * i) = 0 ∨
    ∃ t, 0 ≤ t < K ∧ load (mem (pm k')) (kernel_pgdir + 4 * i) = Z.lor (ADDR_PTE (page2pa t)) PTE_V;
  my_disk : ∀ s, dinv (MkDstate (disk k') s, [], []);
  my_rings : desc_kva (disk k') = page2pa K;
  my_rest : k' = set_disk (disk k') (set_pm (pm k') k)
}.

Lemma ond_at {A} (m : M dstate A) s k v a v' s' : disk k = v → m (MkDstate v s) = Ok a (MkDstate v' s') →
  ond m (set_pm s k) = Ok a (set_disk v' (set_pm s' k)).
Proof using. intros <- E. unfold ond, lift. cbn. by rewrite E. Qed.

Lemma kernel_walk_same m m' kp K : kernel_pgdir = page2pa kp → 0 ≤ kp < K → K < PAGE_LIMIT →
  (∀ i, 0 ≤ i < 1024 → load m (kernel_pgdir + 4 * i) = 0 ∨
     ∃ t, 0 ≤ t < K ∧ load m (kernel_pgdir + 4 * i) = Z.lor (ADDR_PTE (page2pa t)) PTE_V) →
  (∀ q, 0 ≤ q < K → same_page m m' q) → ∀ va, sv32_walk m' kernel_pgdir va = sv32_walk m kernel_pgdir va.
Proof using.
  intros -> Hkp HK Ht Hs va. apply walk_same; [by apply Hs|].
  destruct (Ht (PDX va) (PDX_bound va)) as [E|(t & Htr & E)]; [by left|right]. exists t. split; [lia|]. split; [exact E|by apply Hs].
Qed.

Lemma mips_memory_ok k dp kp : boot_image (mem (pm k)) dp kp → freemem (pm k) = 0 → pp_ref (pm k) = ∅ →
  device_present (disk k) →
  ∃ k' K, (∀ (f : M kernel unit),
      (onp mips_detect_memory ;; onp mips_vm_init ;; onp page_init ;; ond virtio_disk_init ;; f) k = f k') ∧
    memory_ready k k' dp kp K.
Proof using.
  intros Him Hf Hz Hdev. set (s1 := set_npage 15872 (set_memsize PMEMSIZE (pm k))).
  assert (E1 : mips_detect_memory (pm k) = Ok tt s1) by reflexivity.
  destruct (mips_vm_init_ok s1 dp kp Him eq_refl eq_refl Hf) as (s2 & E2 & [V1 V2 V3 (K & HK & VK & V4) V5 (V6 & V7 & V8 & V9 & V10) V11 V12]).
  assert (HKl : 0 ≤ K < PAGE_LIMIT - 1) by (unfold TABLE0, PAGE_LIMIT in *; lia).
  assert (Hn2 : npage s2 = 15872) by exact V7. assert (Hm2 : memsize s2 = PMEMSIZE) by exact V6.
  pose proof (page2pa_eq K ltac:(unfold PAGE_LIMIT in *; lia)) as EK.
  destruct (page_init_run s2 K) as (l & r & E3 & Hr & Hl); [rewrite Hn2; by compute|unfold TABLE0 in *; lia|by rewrite VK|by rewrite V8|].
  set (s3 := set_free l _) in E3.
  assert (Hrel3 : rel s3 (boot_vm s3 (reverse (seqZ K (npage s3 - K))))).
  { apply boot_rel; [change (npage s3) with (npage s2); rewrite Hn2; by compute
      |change (npage s3) with (npage s2); unfold TABLE0 in *; lia|exact Hr|exact Hl]. }
  destruct (virtio_disk_init_ok (disk k) s3 K Hdev VK HKl) as (v' & s4 & E4 & Hd & Hinv & Hs4 & Hsame).
  { change (memsize s3) with (memsize s2). rewrite Hm2, EK. unfold KERNBASE, ULIM, PMEMSIZE, TABLE0 in *. lia. }
  assert (Hsame' : ∀ q, 0 ≤ q < K → same_page (mem s2) (mem s4) q).
  { intros q Hq j Hj. apply Hsame; [lia|exact Hj|lia]. }
  assert (Hn4 : npage s4 = 15872) by (rewrite Hs4; exact Hn2).
  assert (Hp4 : pp_ref s4 = pp_ref s3) by (rewrite Hs4; reflexivity).
  destruct (bi_pgdir _ _ _ Him) as [Hkp1 Hkp2]. destruct (bi_data _ _ _ Him) as [_ Hkp3].
  exists (set_disk v' (set_pm s4 k)), K. split.
  { intros f. rewrite (bind_ok _ _ _ _ _ (onp_ok _ k _ _ E1)), (bind_ok _ _ _ _ _ (onp_at _ _ k _ _ E2)).
    rewrite (bind_ok _ _ _ _ _ (onp_at _ _ k _ _ E3)). by rewrite (bind_ok _ _ _ _ _ (ond_at _ _ k _ _ _ _ eq_refl E4)). }
  assert (V4' : ∀ i, 0 ≤ i < 1024 → load (mem s2) (kernel_pgdir + 4 * i) = 0 ∨
    ∃ t, 0 ≤ t < K ∧ load (mem s2) (kernel_pgdir + 4 * i) = Z.lor (ADDR_PTE (page2pa t)) PTE_V).
  { intros i Hi. destruct (V4 i Hi) as [E|(t & Ht & E)]; [by left|right]. exists t. split; [unfold TABLE0 in *; lia|exact E]. }
  assert (HkpK : 0 ≤ kp < K) by (unfold TABLE0 in *; lia).
  assert (Hdir : ∀ i, 0 ≤ i < 1024 → load (mem s4) (kernel_pgdir + 4 * i) = load (mem s2) (kernel_pgdir + 4 * i)).
  { rewrite Hkp1. exact (Hsame' kp HkpK). }
  split; cbn [pm disk set_disk set_pm].
  - assert (Hb : boot_vm s4 (reverse (seqZ K (15872 - K))) = boot_vm s3 (reverse (seqZ K (npage s3 - K))))
      by (unfold boot_vm; rewrite Hp4; by change (npage s3) with (npage s2); rewrite Hn2).
    rewrite Hb. apply (early_ext 1 _ s3); [|by rewrite Hs4..]. split; [exact Hrel3|done|].
    intros q. unfold pin, boot_vm. cbn. change (default 0 (r !! q) ≤ 1). rewrite Hr. case_decide; lia.
  - exact HK.
  - intros q. unfold ref. rewrite Hp4. apply Hr.
  - exact Hn4.
  - rewrite Hs4. exact V11.
  - intros q Hq Hne. apply (same_page_trans _ (mem s2)).
    + intros j Hj. apply V3; done.
    + apply Hsame'. unfold TABLE0 in *; lia.
  - intros i Hi. rewrite Hdir by lia. by apply V2.
  - intros va Hva. rewrite <- (V1 va Hva). apply (kernel_walk_same (mem s2) (mem s4) kp K Hkp1 HkpK ltac:(lia) V4' Hsame').
  - intros i Hi. rewrite Hdir by done. by apply V4'.
  - exact Hinv.
  - exact Hd.
  - reflexivity.
Qed.

(** * Environments *)

(** A file the linker has put in the image, outside the kernel's directory *)
Record linked (m : memory) (kp binary size : Z) : Prop := {
  lk_binary : binary_ok m binary size;
  lk_place : ∀ x, binary ≤ x < binary + size → ∃ q j, x = page2pa q + j ∧ 0 ≤ j < 4096 ∧ 0 ≤ q < 1024 ∧ q ≠ kp
}.

(** After the creation of the environments below [e], by the queue [l]: what
    was held in the state [k0] with [A0] is unchanged, and [n] pages are free. *)
Record stage (k0 : kernel) (A0 : vm) (k : kernel) (A : vm) (e : Z) (l : list Z) (n : nat) : Prop := {
  sg_rel : rel (pm k) A;
  sg_dirs : dirs A0 ⊆ dirs A;
  sg_pinned : ∀ q, 0 ≤ q < PAGE_LIMIT → 1 ≤ pin A0 q → q ∉ dirs A0 →
    1 ≤ pin A q ∧ q ∉ dirs A ∧ same_page (mem (pm k0)) (mem (pm k)) q;
  sg_slots : LIST_rep (env_free_list k) (seqZ e (NENV - e)) ∧ mkenvid_i k = e;
  sg_asid : ∀ j, asid_used k j = bool_decide (0 ≤ j < e);
  sg_sched : sched_rel k l ∧ ∀ x, x ∈ l → x < e;
  sg_room : (n ≤ length (free A))%nat;
  sg_rest : disk k = disk k0 ∧ base_pgdir k = base_pgdir k0
}.

Lemma stage_held k0 A0 k A e l n d q : stage k0 A0 k A e l n → 0 ≤ q < PAGE_LIMIT → 1 ≤ pin A0 q → q ∉ dirs A0 → held d A q.
Proof using.
  intros Hs Hq Hp Hd. destruct (sg_pinned _ _ _ _ _ _ _ Hs q Hq Hp Hd) as (H1 & H2 & _). exact (held_pinned d A q Hq H2 H1).
Qed.

(** The first free identifier *)
Lemma find_asid (f : Z → bool) e : (∀ j, f j = bool_decide (0 ≤ j < e)) → 0 ≤ e < NASID →
  find (λ j, negb (f j)) (seqZ 0 NASID) = Some e.
Proof using.
  intros Hf He. assert (Hg : ∀ n i, 0 ≤ i ≤ e → e < i + Z.of_nat n → find (λ j, negb (f j)) (seqZ i (Z.of_nat n)) = Some e).
  { induction n as [|n IH]; intros i Hi Hn; [lia|]. rewrite seqZ_cons by lia. cbn [find]. rewrite Hf.
    destruct (decide (i = e)) as [->|Hne].
    - by rewrite bool_decide_false by lia.
    - rewrite bool_decide_true by lia. cbn [negb]. replace (Z.pred (Z.of_nat (S n))) with (Z.of_nat n) by lia.
      apply IH; lia. }
  apply (Hg (Z.to_nat NASID) 0); change (Z.of_nat (Z.to_nat NASID)) with NASID; lia.
Qed.

(** Environment [e] with directory [d] is about to run the file at [binary]
    of memory [m]. *)
Record runs (m : memory) (k : kernel) (A : vm) (e d binary : Z) : Prop := {
  rn_slot : env_status (env k e) = ENV_RUNNABLE ∧ env_pri (env k e) = 1 ∧ env_asid (env k e) = e ∧
    env_id (env k e) = id_of (e + 1) e;
  rn_space : space k A e d;
  rn_entry : sepc (env_tf (env k e)) = e_entry m binary;
  rn_program : holds_program m (mem (pm k)) A d binary (phdrs m binary)
}.

Lemma runs_kept m k A e d binary k' A' d' : runs m k A e d binary → rel (pm k) A → rel (pm k') A' → d ≠ d' →
  env k' e = env k e → dirs A' = {[d']} ∪ dirs A → (∀ v, maps A' !! (d, v) = maps A !! (d, v)) →
  (∀ q, held d' A q → held d' A' q ∧ same_page (mem (pm k)) (mem (pm k')) q) → runs m k' A' e d binary.
Proof using.
  intros [H1 [H2 H3] H4 H5] Hrel Hrel' Hne He Hd Hm Hh. split; rewrite ?He; try done.
  - split; rewrite ?He, ?Hd; [exact H2|set_solver].
  - exact (holds_program_kept _ _ _ _ _ _ _ _ _ _ _ Hrel Hrel' Hne Hm Hh H5).
Qed.

Section stages.
Context (k0 : kernel) (A0 : vm) (kp : Z).
Context (Hkp : kernel_pgdir = page2pa kp) (Hkpr : 0 ≤ kp < PAGE_LIMIT) (Hkpin : 1 ≤ pin A0 kp) (Hkd : kp ∉ dirs A0).
Context (Huser : ∀ i, 0 ≤ i < 512 → load (mem (pm k0)) (kernel_pgdir + 4 * i) = 0).
Context (Hpin : ∀ q, 0 ≤ q < 1024 → 1 ≤ pin A0 q ∧ q ∉ dirs A0).

Lemma stage_bytes k A e l n binary size : stage k0 A0 k A e l n → linked (mem (pm k0)) kp binary size →
  same_bytes (mem (pm k0)) (mem (pm k)) binary (binary + size).
Proof using Hpin.
  intros Hs Hl x Hx. destruct (lk_place _ _ _ _ Hl x Hx) as (q & j & -> & Hj & Hq & _). destruct (Hpin q Hq) as [Hp Hd].
  assert (Hql : 0 ≤ q < PAGE_LIMIT) by (unfold PAGE_LIMIT; lia).
  apply same_page_load8; [|done..]. exact (proj2 (proj2 (sg_pinned _ _ _ _ _ _ _ Hs q Hql Hp Hd))).
Qed.

Lemma stage_creatable k A e l n binary size d fl : stage k0 A0 k A e l n → 0 ≤ e < NASID → linked (mem (pm k0)) kp binary size →
  free A = d :: fl → (2 * program_pages (phdrs (mem (pm k0)) binary) ≤ length fl)%nat →
  creatable k A e (seqZ (e + 1) (NENV - (e + 1))) d fl e binary size.
Proof using Hkp Hkpr Hkpin Hkd Huser Hpin.
  intros Hs He0 Hl Hf Hroom. pose proof He0 as He. unfold NASID in He.
  destruct (sg_pinned _ _ _ _ _ _ _ Hs kp Hkpr Hkpin Hkd) as (Hk1 & Hk2 & Hk3). destruct (sg_slots _ _ _ _ _ _ _ Hs) as [Hsl Hi].
  destruct (binary_agree _ _ _ _ (lk_binary _ _ _ _ Hl) (stage_bytes k A e l n binary size Hs Hl)) as (Hbo & Hph & _).
  split.
  - apply Hs.
  - rewrite seqZ_cons in Hsl by (change NENV with 1024; lia). replace (Z.pred (NENV - e)) with (NENV - (e + 1)) in Hsl by lia.
    rewrite <- Z.add_1_r in Hsl. split; [exact Hsl|]. change NENV with 1024. lia.
  - apply find_asid; [apply Hs|exact He0].
  - split.
    + intros i Hi2. change (PDX UTOP) with 509 in Hi2. rewrite Hkp.
      destruct (word_addr kp 0 Hkpr ltac:(lia)) as [EP _]. rewrite Z.add_0_r in EP.
      rewrite EP, <- (load_word _ kp i Hkpr) by lia. rewrite (Hk3 i ltac:(lia)), <- Hkp, Huser by lia. reflexivity.
    + rewrite Hkp. destruct (word_addr kp 0 Hkpr ltac:(lia)) as [EP _]. rewrite Z.add_0_r in EP. rewrite EP. intros E.
      assert (kp = d) as -> by lia. destruct (free_unused _ _ (sg_rel _ _ _ _ _ _ _ Hs) d) as [_ Hz]; [rewrite Hf; apply list_elem_of_here|lia].
  - rewrite Hph. split; [exact Hf|exact Hroom].
  - exact Hbo.
  - intros x Hx. destruct (lk_place _ _ _ _ Hl x Hx) as (q & j & Ex & Hj & Hq & _). destruct (Hpin q Hq) as [Hp Hd].
    exists q, j. split; [exact Ex|]. split; [exact Hj|]. apply (stage_held k0 A0 k A e l n); [exact Hs|unfold PAGE_LIMIT; lia|done..].
Qed.

Lemma stage_create k A e l n binary size room : stage k0 A0 k A e l room → 0 ≤ e < NASID →
  linked (mem (pm k0)) kp binary size → (1 + 2 * (program_pages (phdrs (mem (pm k0)) binary) + n) ≤ room)%nat →
  ∃ k' A' d, env_create binary size 1 k = Ok e k' ∧ stage k0 A0 k' A' (e + 1) (e :: l) (2 * n) ∧
    runs (mem (pm k0)) k' A' e d binary ∧
    ∀ x dx b, x ≠ e → runs (mem (pm k0)) k A x dx b → runs (mem (pm k0)) k' A' x dx b.
Proof using Hkp Hkpr Hkpin Hkd Huser Hpin.
  intros Hs He Hl Hroom. pose proof (sg_room _ _ _ _ _ _ _ Hs) as Hr. pose proof (sg_rel _ _ _ _ _ _ _ Hs) as Hrel.
  destruct (free A) as [|d fl] eqn:Hf; [cbn in Hr; lia|]. cbn [length] in Hr.
  pose proof (stage_creatable k A e l room binary size d fl Hs He Hl Hf ltac:(lia)) as Hcr.
  destruct (sg_sched _ _ _ _ _ _ _ Hs) as [Hsc Hlt]. pose proof (stage_bytes k A e l room binary size Hs Hl) as Hb.
  destruct (binary_agree _ _ _ _ (lk_binary _ _ _ _ Hl) Hb) as (_ & Hph & Hen).
  assert (Hdf : d ∈ free A) by (rewrite Hf; apply list_elem_of_here).
  pose proof (free_not_dir _ _ Hrel d Hdf) as Hdd. destruct (free_unused _ _ Hrel d Hdf) as [_ Hdp].
  destruct (env_create_ok k A l e _ d fl e binary size 1 n Hcr Hsc ltac:(intros Hin; specialize (Hlt e Hin); lia))
    as (k' & A' & E & Hct); [rewrite Hph; lia|].
  pose proof Hct as [C1 C2 C3 C4 C5 C6 C7 [C8 C9] C10 C11 [C12 C13] (C14 & _ & C15)].
  exists k', A', d. split; [exact E|]. split; [|split].
  - split; try done.
    + rewrite C8. pose proof (sg_dirs _ _ _ _ _ _ _ Hs). set_solver.
    + intros q Hq Hqp Hqd. destruct (sg_pinned _ _ _ _ _ _ _ Hs q Hq Hqp Hqd) as (P1 & P2 & P3).
      destruct (C10 q (held_pinned d A q Hq P2 P1)) as [(_ & Q1 & _) Q2].
      assert (q ≠ d) by (intros ->; lia). rewrite C9 by done. split; [exact P1|]. split; [exact Q1|].
      exact (same_page_trans _ _ _ _ P3 Q2).
    + split; [exact C3|]. rewrite C13, (proj2 (sg_slots _ _ _ _ _ _ _ Hs)), u32_small by (unfold NASID in He; lia). reflexivity.
    + intros j. rewrite C12, (sg_asid _ _ _ _ _ _ _ Hs). apply Bool.eq_iff_eq_true.
      rewrite orb_true_iff, !bool_decide_eq_true, Z.eqb_eq. lia.
    + split; [exact C2|]. intros x [->|Hx]%elem_of_cons; [lia|]. specialize (Hlt x Hx). lia.
    + destruct (sg_rest _ _ _ _ _ _ _ Hs) as [R1 R2]. by rewrite C14, C15.
  - rewrite (proj2 (sg_slots _ _ _ _ _ _ _ Hs)), u32_small in C1 by (unfold NASID in He; lia). split.
    + rewrite C1. done.
    + split; [by rewrite C1|]. rewrite C8. set_solver.
    + rewrite <- Hen. exact (f_equal (λ v, sepc (env_tf v)) C1).
    + rewrite Hph in C7. exact (holds_program_agree _ _ _ _ _ _ _ (lk_binary _ _ _ _ Hl) Hb C7).
  - intros x dx b Hx Hrn. assert (Hdx : dx ≠ d) by (intros ->; by destruct (rn_space _ _ _ _ _ _ Hrn)).
    apply (runs_kept _ _ _ _ _ _ k' A' d Hrn Hrel C5 Hdx (C4 x Hx) C8); [|exact C10]. intros v. by apply C6.
Qed.
End stages.

Lemma runs_agree m m' k A e d binary size : binary_ok m binary size → same_bytes m m' binary (binary + size) →
  runs m' k A e d binary → runs m k A e d binary.
Proof using.
  intros Hbo Hs [H1 H2 H3 H4]. destruct (binary_agree _ _ _ _ Hbo Hs) as (_ & Hph & Hen). split; [exact H1|exact H2| |].
  - by rewrite H3.
  - rewrite Hph in H4. exact (holds_program_agree _ _ _ _ _ _ _ Hbo Hs H4).
Qed.

Lemma linked_agree m m' kp binary size : linked m kp binary size →
  (∀ q, 0 ≤ q < 1024 → q ≠ kp → same_page m m' q) → linked m' kp binary size ∧ same_bytes m m' binary (binary + size).
Proof using.
  intros Hl Hs. assert (Hb : same_bytes m m' binary (binary + size)).
  { intros x Hx. destruct (lk_place _ _ _ _ Hl x Hx) as (q & j & -> & Hj & Hq & Hne).
    apply same_page_load8; [by apply Hs|unfold PAGE_LIMIT; lia|exact Hj]. }
  split; [|exact Hb]. split; [|apply Hl]. apply (binary_agree m m' binary size (lk_binary _ _ _ _ Hl) Hb).
Qed.

(** * The whole start *)

(** The state in which the firmware jumps to the kernel: the image is in
    place, what is not initialised in it is zero, and there is a disk. *)
Record powered_on (k : kernel) (user_icode icode_size fs_serv serv_size dp kp ep : Z) : Prop := {
  po_image : boot_image (mem (pm k)) dp kp;
  po_pmap : freemem (pm k) = 0 ∧ pp_ref (pm k) = ∅;
  po_env : envs k = ∅ ∧ asid_bitmap k = ∅ ∧ mkenvid_i k = 0;
  po_envs : envs_kva = page2pa ep ∧ 0 ≤ ep ≤ 968;
  po_disk : device_present (disk k);
  po_icode : linked (mem (pm k)) kp user_icode icode_size;
  po_serv : linked (mem (pm k)) kp fs_serv serv_size;
  po_room : Z.of_nat (program_pages (phdrs (mem (pm k)) user_icode)) + Z.of_nat (program_pages (phdrs (mem (pm k)) fs_serv)) ≤ 7000
}.

Lemma free_pages K : 0 ≤ K < 15871 → reverse (seqZ K (15872 - K)) = 15871 :: reverse (seqZ K (15871 - K)).
Proof using.
  intros HK. replace (15872 - K) with (Z.of_nat (S (Z.to_nat (15871 - K)))) by lia.
  rewrite seqZ_S, reverse_snoc. f_equal; [lia|]. f_equal. f_equal. lia.
Qed.

(** After env_init: no environment yet *)
Section ready.
Context (k4 k5 : kernel) (A A5 : vm) (b : Z) (fl : list Z) (ep : Z) (T : gmap Z Z).
Context (Her : env_ready k4 k5 A A5 b fl ep T).

Lemma ready_dirs : dirs A5 = ∅.
Proof using Her. apply (ea_empty _ _ _ (ba_early _ _ _ _ _ _ _ _ _ (er_base _ _ _ _ _ _ _ _ Her))). Qed.

Lemma ready_held q : 0 ≤ q < PAGE_LIMIT → 1 ≤ pin A q →
  1 ≤ pin A5 q ∧ q ∉ dirs A5 ∧ same_page (mem (pm k4)) (mem (pm k5)) q.
Proof using Her.
  intros Hq Hp. pose proof (er_base _ _ _ _ _ _ _ _ Her) as Hb. split; [by apply (ba_pin _ _ _ _ _ _ _ _ _ Hb)|].
  split; [rewrite ready_dirs; apply not_elem_of_empty|]. intros j Hj. by apply (ba_same _ _ _ _ _ _ _ _ _ Hb).
Qed.

Lemma stage_start n : envs k4 = ∅ → asid_bitmap k4 = ∅ → mkenvid_i k4 = 0 → (2 + n ≤ length fl)%nat →
  stage k5 A5 k5 A5 0 [] n.
Proof using Her.
  intros He Ha Hi Hn. destruct Her as [Hb Ht Hf Hs Hx Hp (Hr1 & Hr2 & Hr3 & Hr4)]. split.
  - apply (ba_early _ _ _ _ _ _ _ _ _ Hb).
  - done.
  - intros q Hq H1 H2. split; [exact H1|]. split; [exact H2|]. intros j _. reflexivity.
  - rewrite Z.sub_0_r, Hr3. exact (conj Hf Hi).
  - intros j. rewrite bool_decide_false by lia. unfold asid_used, asid_word. rewrite Hr2, Ha, lookup_empty. apply Z.testbit_0_l.
  - split; [split; [exact Hs|]|by intros x ?%not_elem_of_nil]. intros x. split; [by intros ?%not_elem_of_nil|].
    rewrite Hx. assert (env k4 x = env0) as -> by (unfold env; by rewrite He, lookup_empty). case_decide; discriminate.
  - rewrite (ba_free _ _ _ _ _ _ _ _ _ Hb), length_drop. lia.
  - done.
Qed.

(** Its directory maps the arrays, whatever environments are created. *)
Lemma base_pgdir_walk k A' e l n va : end_ = page2pa 1024 → envs_kva = page2pa ep → 0 ≤ ep ≤ 968 →
  stage k5 A5 k A' e l n → 0 ≤ va < UVPT → sv32_walk (mem (pm k)) (base_pgdir k) va = shared_map va.
Proof using Her.
  intros He Hep Hr Hs Hva. pose proof (er_base _ _ _ _ _ _ _ _ Her) as Hb.
  assert (Hva' : 0 ≤ va < 2 ^ 32) by (change UVPT with 0x7FC00000 in Hva; lia).
  assert (Hi : PDX va < 511).
  { change UVPT with (511 * 4194304) in Hva. rewrite PDX_div by lia. change (2 ^ 22) with 4194304. apply Z.div_lt_upper_bound; lia. }
  assert (Hkeep : ∀ q, 0 ≤ q < npage (pm k4) → 1 ≤ pin A5 q → 0 ≤ q < PAGE_LIMIT ∧ same_page (mem (pm k5)) (mem (pm k)) q).
  { intros q Hq Hp. pose proof (based_limit _ _ _ _ _ _ _ _ _ Hb) as Hl. rewrite (ba_np _ _ _ _ _ _ _ _ _ Hb) in Hl.
    split; [lia|]. apply (sg_pinned _ _ _ _ _ _ _ Hs q); [lia|exact Hp|rewrite ready_dirs; apply not_elem_of_empty]. }
  destruct (ba_b _ _ _ _ _ _ _ _ _ Hb) as (Hbn & Hbp & _).
  rewrite (proj2 (sg_rest _ _ _ _ _ _ _ Hs)), (er_pgdir _ _ _ _ _ _ _ _ Her).
  rewrite (walk_same (mem (pm k5))); [|by apply Hkeep|].
  - rewrite (base_walk _ _ _ _ _ _ _ _ _ va Hb Hva' Hi). by apply shared_entries_walk; [..|lia].
  - pose proof (PDX_bound va). rewrite (ba_dir _ _ _ _ _ _ _ _ _ Hb) by lia. destruct (T !! PDX va) as [t|] eqn:Ht; [right|by left].
    destruct (ba_tab _ _ _ _ _ _ _ _ _ Hb _ _ Ht) as (Htn & Htp & _). exists t. destruct (Hkeep t Htn Htp). done.
Qed.
End ready.

(** What [mips_init] has brought about in the state [k'] *)
Record started (k k' : kernel) (A : vm) (d0 d1 user_icode fs_serv : Z) : Prop := {
  st_rel : rel (pm k') A;
  st_sched : sched_rel k' [1; 0];
  st_free : LIST_rep (env_free_list k') (seqZ 2 (NENV - 2));
  st_icode : runs (mem (pm k)) k' A 0 d0 user_icode;
  st_serv : runs (mem (pm k)) k' A 1 d1 fs_serv;
  st_disk : dinv (MkDstate (disk k') (pm k'), [], []);
  st_kernel : ∀ va, 0 ≤ va < 2 ^ 32 → sv32_walk (mem (pm k')) kernel_pgdir va = kernel_map va;
  st_shared : ∀ va, 0 ≤ va < UVPT → sv32_walk (mem (pm k')) (base_pgdir k') va = shared_map va
}.

(** Both environments, from the state after env_init *)
Lemma two_envs k0 A0 kp user_icode icode_size fs_serv serv_size room :
  kernel_pgdir = page2pa kp → 0 ≤ kp < PAGE_LIMIT → 1 ≤ pin A0 kp → kp ∉ dirs A0 →
  (∀ i, 0 ≤ i < 512 → load (mem (pm k0)) (kernel_pgdir + 4 * i) = 0) → (∀ q, 0 ≤ q < 1024 → 1 ≤ pin A0 q ∧ q ∉ dirs A0) →
  stage k0 A0 k0 A0 0 [] room → linked (mem (pm k0)) kp user_icode icode_size → linked (mem (pm k0)) kp fs_serv serv_size →
  (3 + 2 * (program_pages (phdrs (mem (pm k0)) user_icode) + program_pages (phdrs (mem (pm k0)) fs_serv)) ≤ room)%nat →
  ∃ k' A' d0 d1, (ENV_CREATE user_icode icode_size ;; ENV_CREATE fs_serv serv_size) k0 = Ok tt k' ∧
    stage k0 A0 k' A' 2 [1; 0] 0 ∧ runs (mem (pm k0)) k' A' 0 d0 user_icode ∧ runs (mem (pm k0)) k' A' 1 d1 fs_serv.
Proof using.
  intros Hk Hkr Hkp Hkd Hu Hp Hs Hl0 Hl1 Hn.
  set (n0 := program_pages (phdrs (mem (pm k0)) user_icode)) in *. set (n1 := program_pages (phdrs (mem (pm k0)) fs_serv)) in *.
  destruct (stage_create k0 A0 kp Hk Hkr Hkp Hkd Hu Hp k0 A0 0 [] (1 + n1) user_icode icode_size _ Hs ltac:(by compute) Hl0)
    as (k1 & A1 & d0 & E0 & Hs1 & Hr0 & _); [fold n0; lia|].
  destruct (stage_create k0 A0 kp Hk Hkr Hkp Hkd Hu Hp k1 A1 1 [0] 0 fs_serv serv_size _ Hs1 ltac:(by compute) Hl1)
    as (k2 & A2 & d1 & E1 & Hs2 & Hr1 & Hkeep); [fold n1; lia|].
  exists k2, A2, d0, d1. split; [|split; [exact Hs2|split; [by apply Hkeep|exact Hr1]]].
  unfold ENV_CREATE. rewrite bind_assoc, (bind_ok _ _ _ _ _ E0). step. by rewrite (bind_ok _ _ _ _ _ E1).
Qed.

(** Up to env_init *)
Lemma mips_ready k user_icode icode_size fs_serv serv_size dp kp ep :
  powered_on k user_icode icode_size fs_serv serv_size dp kp ep →
  ∃ k4 k5 A A5 T K, (∀ f : M kernel unit,
      (onp mips_detect_memory ;; onp mips_vm_init ;; onp page_init ;; ond virtio_disk_init ;; env_init ;; f) k = f k5) ∧
    memory_ready k k4 dp kp K ∧ env_ready k4 k5 A A5 15871 (reverse (seqZ K (15871 - K))) ep T ∧
    ∀ q, 0 ≤ q < K → 1 ≤ pin A5 q ∧ q ∉ dirs A5 ∧ same_page (mem (pm k4)) (mem (pm k5)) q.
Proof using.
  intros [Him [Hf Hz] _ [Hep Hepr] Hdev _ _ _].
  destruct (mips_memory_ok k dp kp Him Hf Hz Hdev) as (k4 & K & E4 & Hmy). pose proof Hmy as [Y1 Y2 Y3 Y4 Y5 _ _ _ _ _ _ _].
  assert (HK : TABLE0 ≤ K ≤ TABLE0 + 17) by exact Y2. unfold TABLE0 in HK. set (A := boot_vm _ _) in Y1.
  assert (HA : ∀ q, 0 ≤ q < K → 1 ≤ pin A q) by (intros q Hq; change (1 ≤ ref (pm k4) q); rewrite Y3, decide_True by done; lia).
  assert (Hend : end_ = page2pa 1024) by (rewrite (bi_end _ _ _ Him); reflexivity).
  destruct (env_init_ok k4 A 15871 (reverse (seqZ K (15871 - K))) ep Y1) as (k5 & A5 & T & E5 & Her);
    [by apply free_pages; lia|rewrite length_reverse, length_seqZ; lia|exact Y4|exact Y5|exact Hend|exact Hep|exact Hepr
    |intros q Hq; apply HA; lia|].
  exists k4, k5, A, A5, T, K. split; [intros f; rewrite E4; by rewrite (bind_ok _ _ _ _ _ E5)|]. split; [exact Hmy|]. split; [exact Her|].
  intros q Hq. apply (ready_held _ _ _ _ _ _ _ _ Her); [unfold PAGE_LIMIT; lia|by apply HA].
Qed.

(** C12. The kernel starts: [mips_init] returns without a panic in a state
    that satisfies the invariants the rest of the development starts from.
    Physical pages and page tables are related to their specification, the
    disk driver has all its descriptors, and two environments are runnable,
    fs_serv and icode, with slots 1 and 0, each at the entry point of its file
    and in an address space that holds exactly the file's segments.  The kernel's
    own address space maps text, data, memory and the disk with their flags and
    nothing else, and what the environments share maps the arrays [pages] and
    [envs] for reading. *)
Theorem kernel_boots k user_icode icode_size fs_serv serv_size dp kp ep :
  powered_on k user_icode icode_size fs_serv serv_size dp kp ep →
  ∃ k' A d0 d1, mips_init user_icode icode_size fs_serv serv_size k = Ok tt k' ∧
    started k k' A d0 d1 user_icode fs_serv.
Proof using.
  intros Hon. destruct (mips_ready _ _ _ _ _ _ _ _ Hon) as (k4 & k5 & A & A5 & T & K & E & [_ Y2 _ _ _ Y6 Y7 Y8 Y9 Y10 _ Y12] & Her & Hsame).
  destruct Hon as [Him _ (He & Ha & Hi) [Hep Hepr] _ Hl0 Hl1 Hroom]. unfold TABLE0 in Y2.
  assert (Hend : end_ = page2pa 1024) by (rewrite (bi_end _ _ _ Him); reflexivity).
  destruct (bi_pgdir _ _ _ Him) as [Hk1 Hk2]. destruct (bi_data _ _ _ Him) as [_ Hk3].
  assert (Himg : ∀ q, 0 ≤ q < 1024 → q ≠ kp → same_page (mem (pm k)) (mem (pm k5)) q).
  { intros q Hq Hne. apply (same_page_trans _ (mem (pm k4))); [by apply Y6|apply Hsame; lia]. }
  destruct (linked_agree _ (mem (pm k5)) _ _ _ Hl0 Himg) as [Hl0' Hb0]. destruct (linked_agree _ (mem (pm k5)) _ _ _ Hl1 Himg) as [Hl1' Hb1].
  destruct (binary_agree _ _ _ _ (lk_binary _ _ _ _ Hl0) Hb0) as (_ & Hp0 & _).
  destruct (binary_agree _ _ _ _ (lk_binary _ _ _ _ Hl1) Hb1) as (_ & Hp1 & _).
  assert (Hk4 : envs k4 = ∅ ∧ asid_bitmap k4 = ∅ ∧ mkenvid_i k4 = 0) by (rewrite Y12; exact (conj He (conj Ha Hi))).
  destruct Hk4 as (H4a & H4b & H4c).
  pose proof (stage_start _ _ _ _ _ _ _ _ Her (Z.to_nat 14400) H4a H4b H4c ltac:(rewrite length_reverse, length_seqZ; lia)) as Hst.
  destruct (two_envs k5 A5 kp user_icode icode_size fs_serv serv_size (Z.to_nat 14400) Hk1) as (k' & A' & d0 & d1 & E' & Hs & Hr0 & Hr1);
    [unfold PAGE_LIMIT; lia|apply Hsame; lia|apply Hsame; lia| |intros q Hq; destruct (Hsame q) as (? & ? & _); [lia|done]
    |exact Hst|exact Hl0'|exact Hl1'|rewrite Hp0, Hp1; lia|].
  { intros i Hi2. rewrite <- (Y7 i Hi2), Hk1. apply Hsame; lia. }
  destruct (er_rest _ _ _ _ _ _ _ _ Her) as (Hd5 & _). destruct (sg_rest _ _ _ _ _ _ _ Hs) as [Hd6 _].
  exists k', A', d0, d1. split; [unfold mips_init; rewrite E; exact E'|]. split.
  - exact (sg_rel _ _ _ _ _ _ _ Hs).
  - exact (proj1 (sg_sched _ _ _ _ _ _ _ Hs)).
  - exact (proj1 (sg_slots _ _ _ _ _ _ _ Hs)).
  - exact (runs_agree _ _ _ _ _ _ _ _ (lk_binary _ _ _ _ Hl0) Hb0 Hr0).
  - exact (runs_agree _ _ _ _ _ _ _ _ (lk_binary _ _ _ _ Hl1) Hb1 Hr1).
  - rewrite Hd6, Hd5. apply Y10.
  - intros va Hva. rewrite <- (Y8 va Hva). apply (kernel_walk_same (mem (pm k4)) _ kp K Hk1); [lia|unfold PAGE_LIMIT; lia|exact Y9|].
    intros q Hq. destruct (Hsame q Hq) as (S1 & S2 & S3). apply (same_page_trans _ _ _ _ S3).
    apply (sg_pinned _ _ _ _ _ _ _ Hs q); [unfold PAGE_LIMIT; lia|exact S1|exact S2].
  - intros va Hva. exact (base_pgdir_walk _ _ _ _ _ _ _ _ Her k' A' _ _ _ va Hend Hep Hepr Hs Hva).
Qed.

(** The allocator of the start-up code and that of pages overlap: the rings of
    the disk lie in a page of the free list. *)
Lemma disk_rings_page_free k dp kp : boot_image (mem (pm k)) dp kp → freemem (pm k) = 0 → pp_ref (pm k) = ∅ →
  device_present (disk k) →
  ∃ k' A p, (onp mips_detect_memory ;; onp mips_vm_init ;; onp page_init ;; ond virtio_disk_init ;; ret tt) k = Ok tt k' ∧
    rel (pm k') A ∧ desc_kva (disk k') = page2pa p ∧ p ∈ free A ∧ ref (pm k') p = 0.
Proof using.
  intros Him Hf Hz Hdev. destruct (mips_memory_ok k dp kp Him Hf Hz Hdev) as (k4 & K & E4 & [Y1 Y2 Y3 _ _ _ _ _ _ _ Y11 _]).
  unfold TABLE0 in Y2. eexists k4, _, K. split; [by rewrite E4|]. split; [apply Y1|]. split; [exact Y11|].
  split; [|by rewrite Y3, decide_False by lia]. apply elem_of_reverse, elem_of_seqZ. lia.
Qed.
End start.

(** A kernel with two small programs in its image *)
#[local] Instance w_layout : LinkerSymbols := {
  end_ := 0x80600000; _text := KERNBASE; _data := page2pa 1; kernel_pgdir := page2pa 2; envs_kva := page2pa 3
}.

Definition w_regs (r : mmio_reg) : Z :=
  match r with
  | MAGIC_VALUE => 0x74726976 | VERSION => 2 | DEVICE_ID => 2 | VENDOR_ID => 0x554d4551
  | STATUS => VIRTIO_CONFIG_S_FEATURES_OK | QUEUE_NUM_MAX => 1024 | _ => 0
  end.

Definition w_place (p : Z) (m : memory) : memory := foldl (λ m ax, store (page2pa p + ax.1) ax.2 m) m w_elf_words.
Definition w_image : memory := w_place 101 (w_place 100 ∅).
Definition w_off : kernel :=
  MkKernel (MkPmap 0 0 0 0 ∅ (LIST.Mk None ∅) 0 w_image [] 0)
    (MkVring 0 0 0 0 ∅ 0 0 ∅ 0 0 ∅ 0 ∅ 0 w_regs [])
    ∅ None (LIST.Mk None ∅) (env_sched_list w_kernel) 0 ∅ 0 0 tf0 tf0 [] [].

Lemma w_place_phdrs p : p = 100 ∨ p = 101 → phdrs w_image (page2pa p) = [MkPhdr PT_LOAD 84 UTEXT 0 8 5000 6 0].
Proof. intros [->| ->]; vm_compute; reflexivity. Qed.

Lemma w_place_linked p : p = 100 ∨ p = 101 → linked w_image 2 (page2pa p) 92.
Proof.
  intros Hp. split.
  - split.
    + destruct Hp as [->| ->]; vm_compute; reflexivity.
    + assert (phdr_offs w_image (page2pa p) = [52]) as -> by (destruct Hp as [->| ->]; vm_compute; reflexivity).
      intros off ->%list_elem_of_singleton. lia.
    + rewrite w_place_phdrs by exact Hp. intros ph ->%list_elem_of_singleton _.
      destruct Hp as [->| ->]; split; vm_compute; intuition discriminate.
  - intros x Hx. exists p, (x - page2pa p). lia.
Qed.

Lemma w_zero i : 0 ≤ i < 1024 → load w_image (page2pa 2 + 4 * i) = 0.
Proof. intros Hi. rewrite load_word by (first [done|unfold PAGE_LIMIT; lia]). vm_compute. reflexivity. Qed.

Lemma w_off_on : powered_on w_off (page2pa 100) 92 (page2pa 101) 92 1 2 3.
Proof.
  split.
  - split; [reflexivity|split; [reflexivity|lia]|reflexivity|split; [reflexivity|lia]|exact w_zero].
  - split; reflexivity.
  - split_and!; reflexivity.
  - split; [reflexivity|lia].
  - split; [split; reflexivity|split; reflexivity|reflexivity|split; [reflexivity|vm_compute; discriminate]|reflexivity].
  - apply w_place_linked. by left.
  - apply w_place_linked. by right.
  - change (mem (pm w_off)) with w_image. rewrite !w_place_phdrs by tauto. vm_compute. discriminate.
Qed.

Lemma kernel_boots_witness :
  ∃ k' A d p, mips_init (page2pa 100) 92 (page2pa 101) 92 w_off = Ok tt k' ∧ sched_rel k' [1; 0] ∧
    sepc (env_tf (env k' 1)) = UTEXT + 4 ∧ maps A !! (d, VPN UTEXT) = Some (p, 23) ∧
    load8 (mem (pm k')) (page2pa p + 1) = 0x33.
Proof.
  destruct (kernel_boots w_off (page2pa 100) 92 (page2pa 101) 92 1 2 3 w_off_on) as (k' & A & d0 & d1 & E & [_ S2 _ _ [_ _ S5 [S6 _]] _ _ _]).
  destruct (S6 (MkPhdr PT_LOAD 84 UTEXT 0 8 5000 6 0) (UTEXT + 1)) as (p & Hm & _ & Hb).
  - change (mem (pm w_off)) with w_image. rewrite w_place_phdrs by (by right). apply list_elem_of_here.
  - reflexivity.
  - change (mem (pm w_off)) with w_image. rewrite w_place_phdrs by (by right). intros ph' v ->%list_elem_of_singleton _ Hne. by destruct Hne.
  - vm_compute. intuition discriminate.
  - exists k', A, d1, p. split; [exact E|]. split; [exact S2|]. split; [rewrite S5; vm_compute; reflexivity|]. split; [exact Hm|].
    change ((UTEXT + 1) mod BY2PG) with 1 in Hb. rewrite Hb. vm_compute. reflexivity.
Defined.
