(* ===== verification/Print.v ===== *)
(** Formatted output: lib/print.c, kern/printk.c and the buffered sink of
    user/lib/debugf.c.

    Strings are lists of byte values without the terminator; [*fmt] at the end
    of the list is 0.  [va_list] is the list of arguments still to be taken.
    The output callback is an argument, as in the code. *)
From S2P Require Import Prelude.

(** An argument of a variadic call: an [int]-sized value or a string *)
Inductive arg :=
| AInt (v : Z)
| AStr (s : list Z).

(** [*s] *)
Definition deref_str (s : list Z) : Z := match s with [] => 0 | c :: _ => c end.

Section print.
Context {St : Type} (out : list Z → M St unit).

Definition print_char (c length ladjust : Z) : M St unit :=
  let length := if length <? 1 then 1 else length in
  if negb (ladjust =? 0) then
    out [c] ;;
    for_each (seqZ 1 (length - 1)) (λ _, out [32])
  else
    for_each (seqZ 0 (length - 1)) (λ _, out [32]) ;;
    out [c].

Definition print_str (s : list Z) (length ladjust : Z) : M St unit :=
  let len := Z.of_nat (List.length s) in
  let length := if length <? len then len else length in
  if negb (ladjust =? 0) then
    out s ;;
    for_each (seqZ len (length - len)) (λ _, out [32])
  else
    for_each (seqZ 0 (length - len)) (λ _, out [32]) ;;
    out s.

Definition digit_char (tmp upcase : Z) : Z :=
  if tmp <=? 9 then 48 + tmp
  else if negb (upcase =? 0) then 65 + tmp - 10
  else 97 + tmp - 10.

(** The [do ... while (u != 0)] loop: [p] is the position of the pointer in
    [buf].  A 32-bit number has at most 32 digits. *)
Fixpoint put_digits (fuel : nat) (u base upcase : Z) (buf : list Z) (p : nat) : list Z * nat :=
  match fuel with
  | O => (buf, p)
  | S fuel' =>
      let tmp := u mod base in
      let buf := <[p := digit_char tmp upcase]> buf in
      let p := S p in
      let u := u / base in
      if u =? 0 then (buf, p) else put_digits fuel' u base upcase buf p
  end.

(** [for (i = from; i < to; i++) buf[i] = padc] *)
Fixpoint fill (n : nat) (i : nat) (padc : Z) (buf : list Z) : list Z :=
  match n with
  | O => buf
  | S n' => fill n' (S i) padc (<[i := padc]> buf)
  end.

(** [while (end > begin)]: the loop swaps and moves both ends. *)
Fixpoint reverse_range (fuel : nat) (b e : nat) (buf : list Z) : list Z :=
  match fuel with
  | O => buf
  | S fuel' =>
      if (b <? e)%nat then
        let x := nth b buf 0 in
        let y := nth e buf 0 in
        reverse_range fuel' (S b) (e - 1) (<[e := x]> (<[b := y]> buf))
      else buf
  end.

Definition print_num (u base neg_flag length ladjust padc upcase : Z) : M St unit :=
  let buf := replicate (Z.to_nat (length + 70)) 0 in
  let '(buf, p) := put_digits 32 u base upcase buf 0 in
  let '(buf, p) := if negb (neg_flag =? 0) then (<[p := 45]> buf, S p) else (buf, p) in
  let actualLength := Z.of_nat p in
  let length := if length <? actualLength then actualLength else length in
  let padc := if negb (ladjust =? 0) then 32 else padc in
  let n := Z.to_nat (length - actualLength) in
  let buf :=
    if negb (neg_flag =? 0) && (ladjust =? 0) && (padc =? 48)
    then <[Z.to_nat (length - 1) := 45]> (fill n (p - 1) padc buf)
    else fill n p padc buf in
  let e := if negb (ladjust =? 0) then (p - 1)%nat else Z.to_nat (length - 1) in
  out (take (Z.to_nat length) (reverse_range (S e) 0 e buf)).

(** The characters up to the next [%] or the end, and the rest *)
Fixpoint scan (fmt : list Z) : list Z * list Z :=
  match fmt with
  | [] => ([], [])
  | c :: r => if c =? 37 then ([], fmt) else let '(s, r') := scan r in (c :: s, r')
  end.

Fixpoint get_width (fmt : list Z) (width : Z) : Z * list Z :=
  match fmt with
  | [] => (width, [])
  | c :: r =>
      if (48 <=? c) && (c <=? 57)
      then get_width r (s32 (s32 (Z.shiftl width 1) + s32 (Z.shiftl width 3) + Z.land c 15))
      else (width, fmt)
  end.

(** [va_arg (ap, int)]; [long] has the same 32 bits. *)
Definition va_int (ap : list arg) : M St (Z * list arg) :=
  match ap with
  | AInt v :: ap' => ret (s32 v, ap')
  | _ => fault "va_arg"
  end.

Definition va_str (ap : list arg) : M St (list Z * list arg) :=
  match ap with
  | AStr s :: ap' => ret (s, ap')
  | _ => fault "va_arg"
  end.

(** The [switch] on the conversion character [c]; returns the arguments left. *)
Definition conversion (c width ladjust padc : Z) (ap : list arg) : M St (list arg) :=
  let unsigned base upcase :=
    '(num, ap) <- va_int ap ;;
    print_num (u32 num) base 0 width ladjust padc upcase ;;
    ret ap in
  if c =? 98 then unsigned 2 0
  else if (c =? 100) || (c =? 68) then
    '(num, ap) <- va_int ap ;;
    let neg_flag := if num <? 0 then 1 else 0 in
    let num := if num <? 0 then s32 (- num) else num in
    print_num (u32 num) 10 neg_flag width ladjust padc 0 ;;
    ret ap
  else if (c =? 111) || (c =? 79) then unsigned 8 0
  else if (c =? 117) || (c =? 85) then unsigned 10 0
  else if c =? 120 then unsigned 16 0
  else if c =? 88 then unsigned 16 1
  else if c =? 99 then
    '(v, ap) <- va_int ap ;; print_char (u8 v) width ladjust ;; ret ap
  else if c =? 115 then
    '(s, ap) <- va_str ap ;; print_str s width ladjust ;; ret ap
  else if c =? 0 then ret ap
  else out [c] ;; ret ap.

(** One round of [for (;;)] per literal run or conversion *)
Fixpoint vprintfmt_loop (fuel : nat) (fmt : list Z) (ap : list arg) : M St unit :=
  match fuel with
  | O => fault "vprintfmt: out of fuel"
  | S fuel' =>
      let '(s, fmt) := scan fmt in
      out s ;;
      match fmt with
      | [] => ret tt
      | _ :: fmt =>
          if deref_str fmt =? 37 then out [37] ;; vprintfmt_loop fuel' (tl fmt) ap
          else
            let '(ladjust, fmt) := if deref_str fmt =? 45 then (1, tl fmt) else (0, fmt) in
            let '(padc, fmt) := if deref_str fmt =? 48 then (48, tl fmt) else (32, fmt) in
            let '(width, fmt) := get_width fmt 0 in
            let fmt := if deref_str fmt =? 108 then tl fmt else fmt in
            ap <- conversion (deref_str fmt) width ladjust padc ap ;;
            (* at the end of the string [fmt--; fmt++] stays on the terminator *)
            vprintfmt_loop fuel' (tl fmt) ap
      end
  end.

Definition vprintfmt (fmt : list Z) (ap : list arg) : M St unit :=
  vprintfmt_loop (S (List.length fmt)) fmt ap.
End print.

(** * Sinks *)

(** kern/printk.c, on a console that records what it prints *)
Definition outputk (buf : list Z) : M (list Z) unit :=
  for_each buf (λ c, modify (λ console, console ++ [c])).
Definition printk (fmt : list Z) (ap : list arg) : M (list Z) unit := vprintfmt outputk fmt ap.

(** user/lib/debugf.c; [shown] is what [syscall_print_cons] has printed. *)
Record debug_ctx := MkCtx { buf : list Z; shown : list Z }.
Definition BUF_LEN := 1024.

(** [pos] is the length of [buf]. *)
Definition debug_flush : M debug_ctx unit := λ s,
  if (List.length (buf s) =? 0)%nat then Ok tt s else Ok tt (MkCtx [] (shown s ++ buf s)).

Fixpoint debug_output_loop (fuel : nat) (s : list Z) : M debug_ctx unit :=
  match fuel with
  | O => fault "debug_output: out of fuel"
  | S fuel' =>
      pos <- gets (λ c, Z.of_nat (List.length (buf c))) ;;
      if pos + Z.of_nat (List.length s) >? BUF_LEN then
        let n := Z.to_nat (BUF_LEN - pos) in
        modify (λ c, MkCtx (buf c ++ take n s) (shown c)) ;;
        debug_flush ;;
        debug_output_loop fuel' (drop n s)
      else modify (λ c, MkCtx (buf c ++ s) (shown c))
  end.

(** After the first flush every round takes 1024 bytes. *)
Definition debug_output (s : list Z) : M debug_ctx unit :=
  debug_output_loop (S (S (List.length s))) s.

Definition vdebugf (fmt : list Z) (ap : list arg) : M debug_ctx unit :=
  modify (λ c, MkCtx [] (shown c)) ;;
  vprintfmt debug_output fmt ap ;;
  debug_flush.
