(* ===== verification/PrintProps.v ===== *)
(** Formatted output: numbers, and the equivalence of the buffered sink. *)
From S2P Require Import Prelude Print.

(** * Digits *)

(** Value of a list of digits, least significant first *)
Fixpoint digits_value (base : Z) (ds : list Z) : Z :=
  match ds with [] => 0 | d :: ds' => d + base * digits_value base ds' end.

(** The digits of [u] without leading zeros, least significant first *)
Record is_digits (base u : Z) (ds : list Z) : Prop := {
  dg_value : digits_value base ds = u;
  dg_range : ∀ d, d ∈ ds → 0 ≤ d < base;
  dg_leading : ∀ l d, ds = l ++ [d] → d ≠ 0 ∨ l = [];
  dg_some : ds ≠ []
}.

(** [buf] holds [ds] (as characters) from position [p] on. *)
Lemma put_digits_ok base upcase : 2 ≤ base → ∀ fuel u buf p,
  0 ≤ u < 2 ^ Z.of_nat fuel → (0 < fuel)%nat → (p + fuel ≤ length buf)%nat →
  ∃ ds, is_digits base u ds ∧ (length ds ≤ fuel)%nat ∧
    put_digits fuel u base upcase buf p =
      (take p buf ++ map (λ d, digit_char d upcase) ds ++ drop (p + length ds) buf, (p + length ds)%nat).
Proof.
  intros Hb fuel. induction fuel as [|fuel IH]; intros u buf p Hu Hf Hl; [lia|]. cbn [put_digits].
  pose proof (Z.mod_pos_bound u base ltac:(lia)) as Hm. pose proof (Z.div_mod u base ltac:(lia)) as Hd.
  set (c := digit_char (u mod base) upcase). set (buf1 := <[p := c]> buf).
  assert (Hlen1 : length buf1 = length buf) by apply length_insert.
  assert (Hbuf1 : take (S p) buf1 = take p buf ++ [c]).
  { unfold buf1. rewrite (take_S_r _ _ c) by (apply list_lookup_insert_eq; lia).
    by rewrite take_insert_ge by lia. }
  destruct (Z.eqb_spec (u / base) 0) as [E|E].
  - exists [u mod base]. split_and!; [| |].
    + split; cbn.
      * lia.
      * intros d ->%list_elem_of_singleton. done.
      * intros [|? [|]] d [= ]; [by right|done..].
      * done.
    + cbn. lia.
    + cbn. rewrite Nat.add_1_r. f_equal. rewrite <- (take_drop (S p) buf1), Hbuf1, <- app_assoc. cbn.
      do 2 f_equal. unfold buf1. by rewrite drop_insert_lt by lia.
  - assert (0 ≤ u / base) by (apply Z.div_pos; lia).
    assert (Hlt : u / base < 2 ^ Z.of_nat fuel).
    { apply Z.div_lt_upper_bound; [lia|]. rewrite Nat2Z.inj_succ, Z.pow_succ_r in Hu by lia. nia. }
    assert (fuel ≠ 0%nat) by (intros ->; cbn in Hlt; lia).
    destruct (IH (u / base) buf1 (S p)) as (ds & [Hv Hr Hlead Hs] & Hlen & ->); [lia|lia|lia|].
    exists (u mod base :: ds). split_and!.
    + split; cbn; rewrite ?Hv.
      * lia.
      * intros d [->|Hin]%elem_of_cons; auto.
      * intros [|x l] d; [intros [= _ ->]; done|]. intros [= _ El]. destruct (Hlead l d El) as [?| ->]; [by left|].
        left. cbn in El. subst ds. cbn in Hv. lia.
      * done.
    + cbn. lia.
    + cbn [length map]. rewrite Hbuf1, <- app_assoc. cbn [app]. fold c. rewrite <- plus_n_Sm. cbn [Nat.add].
      do 4 f_equal. unfold buf1. by rewrite drop_insert_lt by lia.
Qed.

(** * Padding and reversal *)

Lemma fill_ok n i padc buf :
  (i + n ≤ length buf)%nat →
  fill n i padc buf = take i buf ++ replicate n padc ++ drop (i + n) buf.
Proof.
  revert i buf. induction n as [|n IH]; intros i buf Hl; cbn [fill].
  - rewrite Nat.add_0_r. cbn. by rewrite take_drop.
  - rewrite IH by (rewrite length_insert; lia).
    rewrite (take_S_r _ _ padc) by (apply list_lookup_insert_eq; lia).
    rewrite take_insert_ge, drop_insert_lt by lia. rewrite <- app_assoc. cbn.
    by rewrite <- plus_n_Sm.
Qed.

Lemma reverse_range_lookup fuel b e buf i :
  (e < length buf)%nat → (e < b + fuel)%nat →
  reverse_range fuel b e buf !! i =
    if decide (b ≤ i ≤ e)%nat then buf !! (b + e - i)%nat else buf !! i.
Proof.
  revert b e buf. induction fuel as [|fuel IH]; intros b e buf Hl Hf; cbn [reverse_range].
  - by rewrite decide_False by lia.
  - destruct (Nat.ltb_spec b e) as [Hbe|Hbe].
    + destruct (lookup_lt_is_Some_2 buf b) as [x Hx]; [lia|]. destruct (lookup_lt_is_Some_2 buf e) as [y Hy]; [lia|].
      rewrite (nth_lookup_Some _ _ _ _ Hx), (nth_lookup_Some _ _ _ _ Hy).
      rewrite IH by (rewrite ?length_insert; lia).
      assert (Hlk : ∀ j, <[e := x]> (<[b := y]> buf) !! j =
        if decide (j = e) then Some x else if decide (j = b) then Some y else buf !! j).
      { intros j. destruct (decide (j = e)) as [->|?]; [by rewrite list_lookup_insert_eq by (rewrite length_insert; lia)|].
        rewrite list_lookup_insert_ne by done.
        destruct (decide (j = b)) as [->|?]; [by rewrite list_lookup_insert_eq by lia|].
        by rewrite list_lookup_insert_ne. }
      rewrite !Hlk. repeat case_decide; try lia; try congruence; try (f_equal; lia).
      * replace (b + e - i)%nat with b by lia. done.
      * replace (b + e - i)%nat with e by lia. done.
    + case_decide as Hi; [|done]. f_equal. lia.
Qed.

Lemma reverse_range_ok e buf :
  (e < length buf)%nat → reverse_range (S e) 0 e buf = reverse (take (S e) buf) ++ drop (S e) buf.
Proof.
  intros Hl. apply list_eq. intros i. rewrite reverse_range_lookup by lia.
  case_decide as Hi.
  - rewrite lookup_app_l by (rewrite length_reverse, length_take; lia).
    rewrite reverse_lookup by (rewrite length_take; lia). rewrite length_take.
    rewrite lookup_take_lt by lia. f_equal. lia.
  - rewrite lookup_app_r by (rewrite length_reverse, length_take; lia).
    rewrite length_reverse, length_take, lookup_drop. f_equal. lia.
Qed.

(** * Numbers *)

(** Characters of the digits, most significant first *)
Definition digit_chars (upcase : Z) (ds : list Z) : list Z := reverse (map (λ d, digit_char d upcase) ds).

(** The field printed for [cs], with its sign and padding *)
Definition field (cs : list Z) (neg ladjust : bool) (padc len : Z) : list Z :=
  let sign := if neg then [45] else [] in
  let n := Z.to_nat (len - Z.of_nat (length (sign ++ cs))) in
  if ladjust then sign ++ cs ++ replicate n 32
  else if neg && (padc =? 48) then 45 :: replicate n 48 ++ cs
  else replicate n padc ++ sign ++ cs.

(** The output when the first [length B] places are reversed *)
Lemma reversed_prefix B R rest e m :
  length B = S e → m = (length B + length R)%nat →
  take m (reverse_range (S e) 0 e (B ++ R ++ rest)) = reverse B ++ R.
Proof.
  intros Hl ->. rewrite reverse_range_ok by (rewrite length_app; lia).
  rewrite <- Hl, take_app_length, drop_app_length, app_assoc.
  apply take_app_length'. by rewrite length_app, length_reverse.
Qed.

Lemma insert_at (B : list Z) x y rest : <[length B := y]> (B ++ x :: rest) = B ++ y :: rest.
Proof. rewrite insert_app_r_alt by lia. by rewrite Nat.sub_diag. Qed.

Lemma pad_ok n padc (B : list Z) k :
  fill n (length B) padc (B ++ replicate (n + k) 0) = B ++ replicate n padc ++ replicate k 0.
Proof.
  rewrite fill_ok by (rewrite length_app, length_replicate; lia).
  rewrite take_app_length. do 2 f_equal. rewrite <- drop_drop, drop_app_length.
  rewrite replicate_add. by rewrite drop_app_length' by (by rewrite length_replicate).
Qed.

(** Zeros between the digits and the sign, which moves to the end *)
Lemma pad_zeros_ok n (C : list Z) k :
  <[(length C + n)%nat := 45]> (fill n (length C) 48 ((C ++ [45]) ++ replicate (n + k) 0)) =
    (C ++ replicate n 48 ++ [45]) ++ replicate k 0.
Proof.
  rewrite <- app_assoc, fill_ok by (rewrite length_app; cbn; rewrite length_replicate; lia).
  rewrite take_app_length, <- drop_drop, drop_app_length.
  assert (∃ x, drop n ([45] ++ replicate (n + k) 0) = x :: replicate k 0) as [x ->].
  { destruct n as [|n]; [by exists 45|]. exists 0. cbn [app drop]. rewrite drop_replicate.
    by replace (S n + k - n)%nat with (S k) by lia. }
  rewrite app_assoc. replace (length C + n)%nat with (length (C ++ replicate n 48))
    by (by rewrite length_app, length_replicate).
  by rewrite insert_at, <- !app_assoc.
Qed.

(** [print_num] after the digits: [C] has them least significant first. *)
Definition finish_num (C : list Z) (k : nat) (neg ladjust : bool) (padc len : Z) : list Z :=
  let sign := if neg then [45] else [] in
  let B := C ++ sign in
  let q := length B in
  let n := Z.to_nat (len - Z.of_nat q) in
  let buf := B ++ replicate (n + k) 0 in
  let padc := if ladjust then 32 else padc in
  let buf := if neg && negb ladjust && (padc =? 48)
             then <[(q + n - 1)%nat := 45]> (fill n (q - 1) padc buf) else fill n q padc buf in
  let e := if ladjust then (q - 1)%nat else (q + n - 1)%nat in
  take (q + n) (reverse_range (S e) 0 e buf).

Lemma finish_num_ok C k neg ladjust padc len :
  C ≠ [] → finish_num C k neg ladjust padc len = field (reverse C) neg ladjust padc len.
Proof.
  intros HC. assert (Hc : (0 < length C)%nat) by (destruct C; [done|cbn; lia]).
  unfold finish_num, field. set (sign := if neg then [45] else []).
  assert (Hrev : reverse (C ++ sign) = sign ++ reverse C) by (rewrite reverse_app; by destruct neg).
  rewrite <- Hrev, length_reverse. set (n := Z.to_nat _). assert (Hq := length_app C sign).
  destruct ladjust; [rewrite andb_false_r; cbn [andb]|rewrite andb_true_r; destruct (neg && (padc =? 48)) eqn:Ez].
  - rewrite pad_ok, reversed_prefix by (rewrite ?length_replicate; lia).
    by rewrite Hrev, <- app_assoc.
  - apply andb_true_iff in Ez as [-> ->%Z.eqb_eq]. subst sign.
    replace (length (C ++ [45%Z]) - 1)%nat with (length C) by (rewrite length_app; cbn; lia).
    replace (length (C ++ [45%Z]) + n - 1)%nat with (length C + n)%nat by (rewrite length_app; cbn; lia).
    rewrite pad_zeros_ok. rewrite <- (app_nil_l (replicate k 0)).
    rewrite reversed_prefix by (rewrite !length_app, ?length_replicate; cbn; lia).
    rewrite app_nil_r, !reverse_app, reverse_replicate. done.
  - rewrite pad_ok, app_assoc. rewrite <- (app_nil_l (replicate k 0)).
    rewrite reversed_prefix by (rewrite (length_app (C ++ sign)), ?length_replicate; cbn; lia).
    by rewrite app_nil_r, reverse_app, reverse_replicate.
Qed.

Lemma print_num_ok {St} (out : list Z → M St unit) u base neg len lad padc up :
  0 ≤ u < 2 ^ 32 → 2 ≤ base → 0 ≤ len →
  ∃ ds, is_digits base u ds ∧
    print_num out u base neg len lad padc up =
      out (field (digit_chars up ds) (negb (neg =? 0)) (negb (lad =? 0)) padc len).
Proof.
  intros Hu Hb Hlen. unfold print_num. set (L := Z.to_nat (len + 70)).
  destruct (put_digits_ok base up Hb 32 u (replicate L 0) 0) as (ds & Hds & Hn & ->);
    [done|lia|rewrite length_replicate; unfold L; lia|].
  exists ds. split; [done|]. rewrite take_0. cbn [app Nat.add]. unfold digit_chars.
  set (C := map (λ d, digit_char d up) ds). assert (HC : length C = length ds) by apply length_map.
  rewrite drop_replicate, <- HC. assert (Hne : C ≠ []).
  { destruct Hds as [_ _ _ Hs]. by destruct ds. }
  rewrite <- HC in Hn. clearbody C. clear Hds HC ds.
  set (q := length (C ++ if negb (neg =? 0) then [45] else [])).
  set (n := Z.to_nat (len - Z.of_nat q)).
  assert (Hq : (q ≤ 33)%nat) by (unfold q; rewrite length_app; destruct (negb (neg =? 0)); cbn; lia).
  rewrite <- (finish_num_ok C (L - q - n)%nat _ _ _ _ Hne). unfold finish_num. fold q. fold n.
  replace (if negb (neg =? 0) then _ else _) with
    ((C ++ if negb (neg =? 0) then [45] else []) ++ replicate (n + (L - q - n)) 0, q); last first.
  { replace (n + (L - q - n))%nat with (L - q)%nat by (unfold n, L; lia). unfold q.
    destruct (negb (neg =? 0)) eqn:En; [|by rewrite !app_nil_r].
    replace (L - length C)%nat with (S (L - S (length C)))%nat by (unfold L; lia).
    cbn [replicate]. rewrite insert_at, length_app, <- app_assoc. cbn. by rewrite Nat.add_1_r. }
  assert (HL : (if len <? Z.of_nat q then Z.of_nat q else len) = Z.of_nat (q + n)).
  { destruct (Z.ltb_spec len (Z.of_nat q)); lia. }
  rewrite HL. replace (Z.of_nat (q + n) - Z.of_nat q) with (Z.of_nat n) by lia.
  rewrite !Nat2Z.id. replace (Z.to_nat (Z.of_nat (q + n) - 1)) with (q + n - 1)%nat by lia.
  by rewrite negb_involutive.
Qed.

(** * Sinks *)

(** Two runs that end in related states, with the same result *)
Definition outcome_rel {S1 S2 A} (R : S1 → S2 → Prop) (o1 : outcome S1 A) (o2 : outcome S2 A) : Prop :=
  match o1, o2 with
  | Ok a1 s1, Ok a2 s2 => a1 = a2 ∧ R s1 s2
  | Fault w1, Fault w2 => w1 = w2
  | _, _ => False
  end.

Section sim.
Context {S1 S2 : Type} (R : S1 → S2 → Prop).

Definition sim {A} (m1 : M S1 A) (m2 : M S2 A) : Prop := ∀ s1 s2, R s1 s2 → outcome_rel R (m1 s1) (m2 s2).

Lemma sim_ret {A} (a : A) : sim (ret a) (ret a).
Proof. by intros s1 s2 H. Qed.

Lemma sim_fault {A} w : sim (A := A) (fault w) (fault w).
Proof. by intros s1 s2 H. Qed.

Lemma sim_bind {A B} (m1 : M S1 A) (m2 : M S2 A) (k1 : A → M S1 B) (k2 : A → M S2 B) :
  sim m1 m2 → (∀ a, sim (k1 a) (k2 a)) → sim (bind m1 k1) (bind m2 k2).
Proof.
  intros Hm Hk s1 s2 H. specialize (Hm s1 s2 H). unfold bind.
  destruct (m1 s1), (m2 s2); cbn in Hm; try done. destruct Hm as [-> ?]. by apply Hk.
Qed.

Lemma sim_for_each {A} (l : list A) b1 b2 : (∀ x, sim (b1 x) (b2 x)) → sim (for_each l b1) (for_each l b2).
Proof. intros Hb. induction l as [|x l IH]; [apply sim_ret|]. cbn. by apply sim_bind. Qed.

Context (out1 : list Z → M S1 unit) (out2 : list Z → M S2 unit) (Hout : ∀ s, sim (out1 s) (out2 s)).

Lemma sim_print_num u base neg len lad padc up :
  sim (print_num out1 u base neg len lad padc up) (print_num out2 u base neg len lad padc up).
Proof. unfold print_num. destruct (put_digits _ _ _ _ _ _) as [b p]. destruct (neg =? 0); apply Hout. Qed.

Lemma sim_print_char c len lad : sim (print_char out1 c len lad) (print_char out2 c len lad).
Proof. unfold print_char. case_match; apply sim_bind; auto using sim_for_each. Qed.

Lemma sim_print_str s len lad : sim (print_str out1 s len lad) (print_str out2 s len lad).
Proof. unfold print_str. case_match; apply sim_bind; auto using sim_for_each. Qed.

Lemma sim_va_int ap : sim (va_int ap) (va_int ap).
Proof. destruct ap as [|[] ?]; first [apply sim_ret|apply sim_fault]. Qed.

Lemma sim_va_str ap : sim (va_str ap) (va_str ap).
Proof. destruct ap as [|[] ?]; first [apply sim_ret|apply sim_fault]. Qed.

Hint Resolve sim_ret sim_fault sim_bind sim_print_num sim_print_char sim_print_str sim_va_int sim_va_str : sim.

Lemma sim_conversion c width lad padc ap :
  sim (conversion out1 c width lad padc ap) (conversion out2 c width lad padc ap).
Proof.
  unfold conversion. repeat case_match; auto with sim;
    (apply sim_bind; [auto with sim|intros [? ?]; apply sim_bind; auto with sim]).
Qed.

Lemma sim_vprintfmt_loop fuel fmt ap : sim (vprintfmt_loop out1 fuel fmt ap) (vprintfmt_loop out2 fuel fmt ap).
Proof.
  revert fmt ap. induction fuel as [|fuel IH]; intros fmt ap; cbn [vprintfmt_loop]; [apply sim_fault|].
  destruct (scan fmt) as [s fmt1]. apply sim_bind; [done|]. intros _. destruct fmt1 as [|c fmt1]; [apply sim_ret|].
  destruct (deref_str fmt1 =? 37); [by apply sim_bind|].
  destruct (if deref_str fmt1 =? 45 then _ else _) as [lad fmt2].
  destruct (if deref_str fmt2 =? 48 then _ else _) as [padc fmt3].
  destruct (get_width fmt3 0) as [width fmt4]. apply sim_bind; [apply sim_conversion|]. intros ?. apply IH.
Qed.

Lemma sim_vprintfmt fmt ap : sim (vprintfmt out1 fmt ap) (vprintfmt out2 fmt ap).
Proof. apply sim_vprintfmt_loop. Qed.
End sim.

(** The console has what was shown and what the buffer still holds. *)
Definition buffered (console : list Z) (c : debug_ctx) : Prop :=
  console = shown c ++ buf c ∧ Z.of_nat (length (buf c)) ≤ BUF_LEN.

Lemma debug_flush_ok c : debug_flush c = Ok tt (MkCtx [] (shown c ++ buf c)).
Proof. unfold debug_flush. destruct c as [[|x b] sh]; cbn; [by rewrite app_nil_r|done]. Qed.

Lemma debug_output_ok fuel s console c :
  buffered console c → (length s + length (buf c) < 1024 * fuel)%nat →
  ∃ c', debug_output_loop fuel s c = Ok tt c' ∧ buffered (console ++ s) c'.
Proof.
  revert s console c. induction fuel as [|fuel IH]; intros s console c [-> Hb] Hf; [lia|].
  cbn [debug_output_loop]. step. unfold BUF_LEN in *. destruct (Z.gtb_spec (Z.of_nat (length (buf c)) + Z.of_nat (length s)) 1024).
  - step. rewrite (bind_ok _ _ _ _ _ (debug_flush_ok _)). cbn [shown buf].
    set (n := Z.to_nat (1024 - Z.of_nat (length (buf c)))).
    destruct (IH (drop n s) ((shown c ++ buf c) ++ take n s) (MkCtx [] (shown c ++ buf c ++ take n s))) as (c' & E & Hc').
    + split; cbn; [by rewrite app_nil_r, <- app_assoc|unfold BUF_LEN; lia].
    + cbn. rewrite length_drop. unfold n. lia.
    + exists c'. split; [done|]. by rewrite <- app_assoc, take_drop in Hc'.
  - eexists. split; [reflexivity|]. split; cbn; [by rewrite <- app_assoc|]. rewrite length_app. unfold BUF_LEN. lia.
Qed.

Lemma outputk_ok buf console : outputk buf console = Ok tt (console ++ buf).
Proof.
  revert console. induction buf as [|c buf IH]; intros console; cbn; [by rewrite app_nil_r|].
  unfold outputk in IH. unfold bind, modify. rewrite IH. by rewrite <- app_assoc.
Qed.

Lemma debug_sim s : sim buffered (outputk s) (debug_output s).
Proof.
  intros console c Hc. rewrite outputk_ok. unfold debug_output.
  destruct (debug_output_ok (S (S (length s))) s console c Hc) as (c' & -> & Hc'); [|done].
  destruct Hc as [_ Hb]. unfold BUF_LEN in Hb. lia.
Qed.

(** * Properties *)

(** C40. Numbers print correctly in any base: the characters are the digits of
    the value without leading zeros, with the sign before them, padded to the
    width with spaces on the right, or with zeros between sign and digits, or
    with the padding character on the left. *)
Theorem print_num_spec {St} (out : list Z → M St unit) u base neg len lad padc up :
  0 ≤ u < 2 ^ 32 → 2 ≤ base → 0 ≤ len →
  ∃ ds, is_digits base u ds ∧
    let text := field (digit_chars up ds) (negb (neg =? 0)) (negb (lad =? 0)) padc len in
    print_num out u base neg len lad padc up = out text ∧
    Z.of_nat (length text) =
      Z.max len (Z.of_nat (length ds) + if negb (neg =? 0) then 1 else 0).
Proof.
  intros Hu Hb Hl. destruct (print_num_ok out u base neg len lad padc up Hu Hb Hl) as (ds & Hds & E).
  exists ds. split; [done|]. split; [done|]. unfold field, digit_chars.
  destruct (negb (neg =? 0)), (negb (lad =? 0)), (padc =? 48); cbn [andb app];
    cbn [length]; rewrite !length_app, ?length_replicate; cbn [length]; rewrite ?length_app, length_reverse, length_map; lia.
Qed.

Lemma print_num_spec_witness :
  ∃ ds, is_digits 10 42 ds ∧ print_num outputk 42 10 1 6 0 48 0 = outputk (field (digit_chars 0 ds) true false 48 6).
Proof.
  destruct (print_num_spec outputk 42 10 1 6 0 48 0 ltac:(lia) ltac:(lia) ltac:(lia)) as (ds & Hds & E & _).
  exists ds. split; [exact Hds|exact E].
Defined.

(** [debugf] and [printk] print the same: through the 1024-byte buffer of
    user/lib/debugf.c, flushed whenever it is full, every format and argument
    list gives the bytes that [printk] writes one by one, in order. *)
Theorem debugf_prints_like_printk fmt ap console :
  printk fmt ap [] = Ok tt console → ∀ c, vdebugf fmt ap c = Ok tt (MkCtx [] (shown c ++ console)).
Proof.
  intros E c. unfold vdebugf. step.
  pose (R := λ l c', buffered (shown c ++ l) c').
  assert (HR : ∀ s, sim R (outputk s) (debug_output s)).
  { intros s l c' Hl. pose proof (debug_sim s (shown c ++ l) c' Hl) as Hs. rewrite outputk_ok in *.
    unfold outcome_rel in *. destruct (debug_output s c'); try done. destruct Hs as [-> Hs].
    split; [done|]. unfold R. by rewrite app_assoc. }
  assert (H0 : R [] (MkCtx [] (shown c))) by (split; cbn; [by rewrite !app_nil_r|unfold BUF_LEN; lia]).
  pose proof (sim_vprintfmt R outputk debug_output HR fmt ap [] (MkCtx [] (shown c)) H0) as Hs.
  unfold printk in E. rewrite E in Hs.
  destruct (vprintfmt debug_output fmt ap (MkCtx [] (shown c))) as [[] c'| | | |] eqn:E2; try done.
  destruct Hs as [_ Hs].
  change (buffered (shown c ++ console) c') in Hs. destruct Hs as [Hc _]. unfold bind. rewrite E2, debug_flush_ok. by rewrite <- Hc.
Qed.

Lemma debugf_prints_like_printk_witness :
  vdebugf [120; 61; 37; 48; 52; 100; 33] [AInt (-7)] (MkCtx [] [1]) = Ok tt (MkCtx [] [1; 120; 61; 45; 48; 48; 55; 33]).
Proof. apply (debugf_prints_like_printk _ _ [120; 61; 45; 48; 48; 55; 33]). vm_compute. reflexivity. Defined.
