(* ===== verification/Uenv.v ===== *)
(** User programs: the address space a program sees and the system calls and
    IPC it uses (user/lib/syscall_lib.c, user/lib/ipc.c, user/lib/pageref.c).

    [um] is user memory by virtual address, [upt] the entries read at [vpt] (by
    page number, flags only), [updirs] the directory entries valid at [vpd],
    [uref] the [pp_ref] of the page mapped at a page number.  What the kernel
    and other programs decide comes from lists: [kres], the results of memory
    system calls and of page faults to come (an empty list stands for success),
    [sres], those of [syscall_ipc_try_send], and [inbox], the messages to be
    received.  A program that waits for a message that never comes is in
    [UserMode].  [medium] is the disk behind the block device. *)
From S2P Require Import Prelude Mmu Memory Strings PmapSpec Syscall.

(** A message: value, sender, the receiver's [env_ipc_perm], the page sent *)
Record msg := Msg { m_value : Z; m_from : Z; m_perm : Z; m_page : option page }.

Record uenv := MkUenv {
  um : memory;
  upt : gmap Z Z;
  updirs : gset Z;
  uref : gmap Z Z;
  kres : list Z;
  sres : list Z;
  sent : list (Z * Z * Z * Z);
  inbox : list msg;
  medium : memory
}.

Definition set_um (v : memory) (s : uenv) : uenv := MkUenv v (upt s) (updirs s) (uref s) (kres s) (sres s) (sent s) (inbox s) (medium s).
Definition set_upt (v : gmap Z Z) (s : uenv) : uenv := MkUenv (um s) v (updirs s) (uref s) (kres s) (sres s) (sent s) (inbox s) (medium s).
Definition set_updirs (v : gset Z) (s : uenv) : uenv := MkUenv (um s) (upt s) v (uref s) (kres s) (sres s) (sent s) (inbox s) (medium s).
Definition set_uref (v : gmap Z Z) (s : uenv) : uenv := MkUenv (um s) (upt s) (updirs s) v (kres s) (sres s) (sent s) (inbox s) (medium s).
Definition set_kres (v : list Z) (s : uenv) : uenv := MkUenv (um s) (upt s) (updirs s) (uref s) v (sres s) (sent s) (inbox s) (medium s).
Definition set_sres (v : list Z) (s : uenv) : uenv := MkUenv (um s) (upt s) (updirs s) (uref s) (kres s) v (sent s) (inbox s) (medium s).
Definition set_sent (v : list (Z * Z * Z * Z)) (s : uenv) : uenv := MkUenv (um s) (upt s) (updirs s) (uref s) (kres s) (sres s) v (inbox s) (medium s).
Definition set_inbox (v : list msg) (s : uenv) : uenv := MkUenv (um s) (upt s) (updirs s) (uref s) (kres s) (sres s) (sent s) v (medium s).
Definition set_medium (v : memory) (s : uenv) : uenv := MkUenv (um s) (upt s) (updirs s) (uref s) (kres s) (sres s) (sent s) (inbox s) v.

(** The machine and the kernel around the program: whether stores set PTE_D in
    the entry, the result and effect of [syscall_dev_req], what happens while
    the program yields, and how often a polling loop may go round. *)
Class Machine := {
  hw_dirty : bool;
  dev_result : Z → Z → uenv → Z;
  dev_accept : Z → Z → uenv → uenv;
  world_yield : uenv → uenv;
  polls : nat
}.

Section uenv.
Context `{Machine}.

(** [vpt[VPN (va)]] and the test [vpd[PDX (va)] & PTE_V] *)
Definition pte_at (s : uenv) (va : Z) : Z := default 0 (upt s !! VPN va).
Definition pde_valid (s : uenv) (va : Z) : bool := bool_decide (PDX va ∈ updirs s).
Definition mapped_at (s : uenv) (va : Z) : bool := pde_valid s va && has (pte_at s va) PTE_V.

(** A zero page mapped at [va] with [flags] *)
Definition map_zero (va flags : Z) (s : uenv) : uenv :=
  set_um (<[VPN va := ∅]> (um s))
    (set_upt (<[VPN va := flags]> (upt s))
       (set_updirs ({[PDX va]} ∪ updirs s) (set_uref (<[VPN va := 1]> (uref s)) s))).

Definition next_result : M uenv Z :=
  l <- gets kres ;;
  match l with [] => ret 0 | r :: l' => modify (set_kres l') ;; ret r end.

(** An access to an unmapped page is served by [passive_alloc] (kern/tlbex.c). *)
Definition touch (va : Z) : M uenv unit :=
  b <- gets (λ s, mapped_at s va) ;;
  if b : bool then ret tt
  else
    r <- next_result ;;
    if r =? 0 then modify (map_zero va (perm_flags (Z.lor (Z.lor PTE_R PTE_W) PTE_U)))
    else panic "passive_alloc".

Definition mark_dirty (va : Z) (s : uenv) : uenv :=
  if hw_dirty then set_upt (<[VPN va := Z.lor (pte_at s va) PTE_D]> (upt s)) s else s.

Definition ld (a : Z) : M uenv Z := touch a ;; gets (λ s, load (um s) a).
Definition ld8 (a : Z) : M uenv Z := touch a ;; gets (λ s, load8 (um s) a).
Definition st (a v : Z) : M uenv unit :=
  touch a ;; modify (λ s, mark_dirty a (set_um (store a v (um s)) s)).
Definition st8 (a v : Z) : M uenv unit :=
  touch a ;; modify (λ s, mark_dirty a (set_um (store8 a v (um s)) s)).

(** [memcpy] and [memset] on ranges that lie in one page each *)
Definition ucopy (dst src n : Z) : M uenv unit :=
  touch src ;; touch dst ;; modify (λ s, mark_dirty dst (set_um (memcpy dst src n (um s)) s)).
Definition uset (dst c n : Z) : M uenv unit :=
  touch dst ;; modify (λ s, mark_dirty dst (set_um (memset dst c n (um s)) s)).

Definition user_panic {A} (msg : string) : M uenv A := panic msg.
Definition user_assert (b : bool) : M uenv unit := if b then ret tt else panic "user assertion failed".

(** * System calls on the caller itself (envid 0) *)

Definition syscall_mem_alloc (va perm : Z) : M uenv Z :=
  if is_illegal_va va then ret (- E_INVAL)
  else
    r <- next_result ;;
    if r =? 0 then modify (map_zero va (perm_flags (Z.lor perm PTE_U))) ;; ret 0 else ret r.

(** [syscall_mem_map (0, va, 0, va, perm)]: new permissions for one's own page *)
Definition syscall_mem_remap (va perm : Z) : M uenv Z :=
  if is_illegal_va va then ret (- E_INVAL)
  else
    b <- gets (λ s, mapped_at s va) ;;
    if b : bool then
      r <- next_result ;;
      if r =? 0 then
        modify (λ s, set_upt (<[VPN va := perm_flags (Z.lor perm PTE_U)]> (upt s)) s) ;; ret 0
      else ret r
    else ret (- E_INVAL).

Definition syscall_mem_unmap (va : Z) : M uenv Z :=
  if is_illegal_va va then ret (- E_INVAL)
  else
    modify (λ s, set_um (<[VPN va := ∅]> (um s))
                   (set_upt (delete (VPN va) (upt s)) (set_uref (delete (VPN va) (uref s)) s))) ;;
    ret 0.

Definition syscall_yield : M uenv unit := modify world_yield.
Definition syscall_dev_req (dev req : Z) : M uenv Z :=
  λ s, Ok (dev_result dev req s) (dev_accept dev req s).

(** * user/lib/pageref.c *)

Definition pageref (v : Z) : M uenv Z :=
  gets (λ s,
    if negb (pde_valid s v) then 0
    else if negb (has (pte_at s v) PTE_V) then 0
    else default 0 (uref s !! VPN v)).

(** * user/lib/ipc.c *)

Definition try_send (whom value srcva perm : Z) : M uenv Z :=
  l <- gets sres ;;
  r <- (match l with [] => ret 0 | r :: l' => modify (set_sres l') ;; ret r end) ;;
  if r =? 0 then
    modify (λ s, set_sent (sent s ++ [(whom, value, srcva, perm)])
                   (if srcva =? 0 then s
                    else set_uref (<[VPN srcva := default 0 (uref s !! VPN srcva) + 1]> (uref s)) s)) ;;
    ret 0
  else ret r.

(** [sres] runs out after its last element, so its length bounds the loop. *)
Fixpoint ipc_send_loop (fuel : nat) (whom value srcva perm : Z) : M uenv Z :=
  match fuel with
  | O => fault "ipc_send: out of fuel"
  | S fuel' =>
      r <- try_send whom value srcva perm ;;
      if r =? - E_IPC_NOT_RECV then syscall_yield ;; ipc_send_loop fuel' whom value srcva perm
      else ret r
  end.

Definition ipc_send (whom value srcva perm : Z) : M uenv unit :=
  l <- gets sres ;;
  r <- ipc_send_loop (S (length l)) whom value srcva perm ;;
  user_assert (r =? 0).

(** [ipc_recv (&whom, dstva, &perm)]: (value, whom, perm) *)
Definition ipc_recv (dstva : Z) : M uenv (Z * Z * Z) :=
  l <- gets inbox ;;
  match l with
  | [] => λ s, UserMode s
  | m :: l' =>
      modify (set_inbox l') ;;
      (match m_page m with
       | Some p => modify (λ s, let s := map_zero dstva (perm_flags (m_perm m)) s in
                                set_um (<[VPN dstva := p]> (um s)) s)
       | None => ret tt
       end) ;;
      ret (m_value m, m_from m, m_perm m)
  end.
End uenv.
