(* ===== verification/Fs.v ===== *)
(** The file system: fs/fs.c, fs/ide.c, fs/serv.h and user/include/fs.h.

    Disk block [n] is cached at [diskaddr n] in the server's memory; [struct
    File] and the superblock are read and written there, at their offsets.
    [super] and [bitmap] are the server's global pointers. *)
From S2P Require Import Prelude Mmu Memory Strings PmapSpec Uenv.

(** * Layout (user/include/fs.h, fs/serv.h) *)

Definition BY2BLK := BY2PG.
Definition BIT2BLK := BY2BLK * 8.
Definition MAXNAMELEN := 128.
Definition MAXPATHLEN := 1024.
Definition NDIRECT := 10.
Definition NINDIRECT := BY2BLK / 4.
Definition BY2FILE := 256.
Definition FILE2BLK := BY2BLK / BY2FILE.
Definition FTYPE_REG := 0.
Definition FTYPE_DIR := 1.
Definition FS_MAGIC := 0x68286097.
Definition PTE_DIRTY := PTE_D.
Definition DISKNO := 8.
Definition BY2SECT := 512.
Definition SECT2BLK := BY2BLK / BY2SECT.
Definition DISKMAP := 0x10000000.
Definition DISKMAX := 0x40000000.

(** Addresses of the fields of a [struct File] at [f] *)
Definition f_name (f : Z) : Z := f.
Definition f_size (f : Z) : Z := f + 128.
Definition f_type (f : Z) : Z := f + 132.
Definition f_direct (f i : Z) : Z := f + 136 + 4 * i.
Definition f_indirect (f : Z) : Z := f + 176.
Definition f_dir (f : Z) : Z := f + 180.

(** ... and of a [struct Super] *)
Definition s_magic (s : Z) : Z := s.
Definition s_nblocks (s : Z) : Z := s + 4.
Definition s_root (s : Z) : Z := s + 8.

(** The server's state *)
Record Open := MkOpen { o_file : Z; o_fileid : Z; o_mode : Z; o_ff : Z }.

Record fsrv := MkFsrv { us : uenv; super : Z; bitmap : Z; opentab : gmap Z Open }.

Definition set_us (v : uenv) (s : fsrv) : fsrv := MkFsrv v (super s) (bitmap s) (opentab s).
Definition set_super (v : Z) (s : fsrv) : fsrv := MkFsrv (us s) v (bitmap s) (opentab s).
Definition set_bitmap_ptr (v : Z) (s : fsrv) : fsrv := MkFsrv (us s) (super s) v (opentab s).
Definition set_opentab (v : gmap Z Open) (s : fsrv) : fsrv := MkFsrv (us s) (super s) (bitmap s) v.

#[export, refine] Instance sub_us : Sub fsrv uenv := { sub_get := us; sub_set := set_us }.
Proof. all: by intros; repeat match goal with s : fsrv |- _ => destruct s end. Defined.

Definition onu {A} (m : M uenv A) : M fsrv A := lift (H := sub_us) m.

(** Addresses of the [name] buffers of [walk_path] and [file_create] *)
Class Frames := { walk_name : Z; create_name : Z }.

(** The result of a call whose error the caller inspects *)
Definition attempt {S A} (m : M S A) : M S (Z + A) := λ s,
  match m s with
  | Ok a s' => Ok (inr a) s'
  | Err e s' => Ok (inl e) s'
  | Panic w => Panic w
  | Fault w => Fault w
  | UserMode s' => UserMode s'
  end.

Section fs.
Context `{Machine, Frames}.

(** * fs/ide.c *)

(** The request page; [struct virtio_blk_req] is described in Disk.v. *)
Definition IDE_REQVA := 0x0eeff000.

Fixpoint wait_accept (fuel : nat) (diskno : Z) : M uenv Z :=
  match fuel with
  | O => fault "ide: device busy"
  | S fuel' =>
      r <- syscall_dev_req diskno IDE_REQVA ;;
      if r =? - E_NO_RING_DESC then syscall_yield ;; wait_accept fuel' diskno else ret r
  end.

Fixpoint wait_status (fuel : nat) : M uenv unit :=
  match fuel with
  | O => fault "ide: no response"
  | S fuel' =>
      status <- ld8 (IDE_REQVA + 5) ;;
      if status =? 0xff then syscall_yield ;; wait_status fuel' else ret tt
  end.

(** Sending the request in the request page and waiting for the answer *)
Definition ide_transfer (diskno : Z) : M uenv unit :=
  r <- wait_accept polls diskno ;;
  if r <? 0 then user_panic "syscall_dev_req" else wait_status polls.

Fixpoint ide_read_loop (fuel : nat) (diskno secno dst begin end_ off : Z) : M uenv unit :=
  match fuel with
  | O => fault "ide_read: out of fuel"
  | S fuel' =>
      if u32 (begin + off) <? end_ then
        st IDE_REQVA (u32 (secno + off / BY2SECT)) ;;
        st8 (IDE_REQVA + 4) 0 ;;
        ide_transfer diskno ;;
        ucopy (dst + off) (IDE_REQVA + 6) BY2SECT ;;
        ide_read_loop fuel' diskno secno dst begin end_ (off + BY2SECT)
      else ret tt
  end.

Definition ide_read (diskno secno dst nsecs : Z) : M uenv unit :=
  let begin := u32 (secno * BY2SECT) in
  let end_ := u32 (begin + nsecs * BY2SECT) in
  ide_read_loop (S (Z.to_nat nsecs)) diskno secno dst begin end_ 0.

Fixpoint ide_write_loop (fuel : nat) (diskno secno src begin end_ off : Z) : M uenv unit :=
  match fuel with
  | O => fault "ide_write: out of fuel"
  | S fuel' =>
      if u32 (begin + off) <? end_ then
        st IDE_REQVA (u32 (secno + off / BY2SECT)) ;;
        st8 (IDE_REQVA + 4) 1 ;;
        ucopy (IDE_REQVA + 6) (src + off) BY2SECT ;;
        ide_transfer diskno ;;
        ide_write_loop fuel' diskno secno src begin end_ (off + BY2SECT)
      else ret tt
  end.

Definition ide_write (diskno secno src nsecs : Z) : M uenv unit :=
  let begin := u32 (secno * BY2SECT) in
  let end_ := u32 (begin + nsecs * BY2SECT) in
  ide_write_loop (S (Z.to_nat nsecs)) diskno secno src begin end_ 0.

(** * The block cache *)

Definition diskaddr (blockno : Z) : Z := u32 (DISKMAP + blockno * BY2BLK).

Definition va_is_mapped (va : Z) : M fsrv bool := gets (λ s, mapped_at (us s) va).
Definition block_is_mapped (blockno : Z) : M fsrv bool := va_is_mapped (diskaddr blockno).
Definition va_is_dirty (va : Z) : M fsrv bool := gets (λ s, has (pte_at (us s) va) PTE_DIRTY).

Definition block_is_dirty (blockno : Z) : M fsrv bool :=
  let va := diskaddr blockno in
  m <- va_is_mapped va ;;
  if m : bool then va_is_dirty va else ret false.

Definition dirty_block (blockno : Z) : M fsrv Z :=
  let va := diskaddr blockno in
  m <- va_is_mapped va ;;
  if negb m then ret (- E_NOT_FOUND)
  else
    d <- va_is_dirty va ;;
    if d : bool then ret 0 else onu (syscall_mem_remap va (Z.lor PTE_W PTE_DIRTY)).

Definition write_block (blockno : Z) : M fsrv unit :=
  m <- block_is_mapped blockno ;;
  if negb m then onu (user_panic "write unmapped block")
  else onu (ide_write DISKNO (u32 (blockno * SECT2BLK)) (diskaddr blockno) SECT2BLK).

(** [super->s_nblocks] *)
Definition nblocks : M fsrv Z := s <- gets super ;; onu (ld (s_nblocks s)).

(** The word of the bitmap with the bit of [blockno] *)
Definition bitmap_word (blockno : Z) : M fsrv Z :=
  b <- gets bitmap ;; onu (ld (b + 4 * (blockno / 32))).
Definition set_bitmap_word (blockno w : Z) : M fsrv unit :=
  b <- gets bitmap ;; onu (st (b + 4 * (blockno / 32)) w).

Definition block_is_free (blockno : Z) : M fsrv bool :=
  s <- gets super ;;
  if s =? 0 then ret false
  else
    n <- nblocks ;;
    if blockno >=? n then ret false
    else w <- bitmap_word blockno ;; ret (has w (Z.shiftl 1 (blockno mod 32))).

(** [read_block (blockno, blk, isnew)]: the address and [isnew] *)
Definition read_block (blockno : Z) : M fsrv (Z * bool) :=
  s <- gets super ;;
  n <- (if negb (s =? 0) then nblocks else ret (2 ^ 32)) ;;
  if blockno >=? n then onu (user_panic "reading non-existent block")
  else
    b <- gets bitmap ;;
    free <- (if negb (b =? 0) then block_is_free blockno else ret false) ;;
    if free : bool then onu (user_panic "reading free block")
    else
      let va := diskaddr blockno in
      m <- block_is_mapped blockno ;;
      if m : bool then ret (va, false)
      else
        onu (syscall_mem_alloc va PTE_W) ;;
        onu (ide_read DISKNO (u32 (blockno * SECT2BLK)) va SECT2BLK) ;;
        ret (va, true).

Definition map_block (blockno : Z) : M fsrv Z :=
  m <- block_is_mapped blockno ;;
  if m : bool then ret 0 else onu (syscall_mem_alloc (diskaddr blockno) PTE_W).

Definition unmap_block (blockno : Z) : M fsrv unit :=
  m <- block_is_mapped blockno ;;
  onu (user_assert m) ;;
  f <- block_is_free blockno ;;
  d <- (if negb f then block_is_dirty blockno else ret false) ;;
  (if d : bool then write_block blockno else ret tt) ;;
  onu (syscall_mem_unmap (diskaddr blockno)) ;;
  m <- block_is_mapped blockno ;;
  onu (user_assert (negb m)).

Definition free_block (blockno : Z) : M fsrv unit :=
  n <- (if blockno =? 0 then ret 0 else nblocks) ;;
  if (blockno =? 0) || (blockno >=? n) then ret tt
  else
    w <- bitmap_word blockno ;;
    set_bitmap_word blockno (Z.lor w (Z.shiftl 1 (blockno mod 32))).

(** [for (blockno = 3; blockno < super->s_nblocks; blockno++)] *)
Fixpoint alloc_block_num_loop (fuel : nat) (blockno : Z) : M fsrv Z :=
  match fuel with
  | O => fault "alloc_block_num: out of fuel"
  | S fuel' =>
      n <- nblocks ;;
      if blockno <? n then
        w <- bitmap_word blockno ;;
        if has w (Z.shiftl 1 (blockno mod 32)) then
          set_bitmap_word blockno (Z.land w (not32 (Z.shiftl 1 (blockno mod 32)))) ;;
          write_block (blockno / BIT2BLK + 2) ;;
          ret blockno
        else alloc_block_num_loop fuel' (blockno + 1)
      else err (- E_NO_DISK)
  end.

Definition alloc_block_num : M fsrv Z :=
  n <- nblocks ;; alloc_block_num_loop (S (Z.to_nat n)) 3.

Definition alloc_block : M fsrv Z :=
  bno <- alloc_block_num ;;
  r <- map_block bno ;;
  if r <? 0 then free_block bno ;; err r else ret bno.

(** * Mounting *)

Definition read_super : M fsrv unit :=
  '(blk, _) <- read_block 1 ;;
  modify (set_super blk) ;;
  magic <- onu (ld (s_magic blk)) ;;
  if negb (magic =? FS_MAGIC) then onu (user_panic "bad file system magic number")
  else
    n <- nblocks ;;
    if n >? DISKMAX / BY2BLK then onu (user_panic "file system is too large") else ret tt.

Definition read_bitmap : M fsrv unit :=
  n <- nblocks ;;
  let nbitmap := n / BIT2BLK + 1 in
  for_each (seqZ 0 nbitmap) (λ i, _ <- read_block (i + 2) ;; ret tt) ;;
  modify (set_bitmap_ptr (diskaddr 2)) ;;
  f0 <- block_is_free 0 ;;
  onu (user_assert (negb f0)) ;;
  f1 <- block_is_free 1 ;;
  onu (user_assert (negb f1)) ;;
  for_each (seqZ 0 nbitmap) (λ i, f <- block_is_free (i + 2) ;; onu (user_assert (negb f))).

Definition OOPS : list Z := [79; 79; 80; 83; 33; 10; 0].

(** Storing a string literal with its terminator, comparing with one *)
Definition store_string (a : Z) (l : list Z) : M uenv unit :=
  for_each (zip (seqZ 0 (Z.of_nat (length l))) l) (λ p, st8 (a + p.1) p.2).
Fixpoint string_eq (a : Z) (l : list Z) : M uenv bool :=
  match l with
  | [] => ret true
  | c :: l' => x <- ld8 a ;; if x =? c then string_eq (a + 1) l' else ret false
  end.

Definition check_write_block : M fsrv unit :=
  modify (set_super 0) ;;
  _ <- read_block 0 ;;
  onu (ucopy (diskaddr 0) (diskaddr 1) BY2PG) ;;
  onu (store_string (diskaddr 1) OOPS) ;;
  write_block 1 ;;
  m <- block_is_mapped 1 ;;
  onu (user_assert m) ;;
  onu (syscall_mem_unmap (diskaddr 1)) ;;
  m <- block_is_mapped 1 ;;
  onu (user_assert (negb m)) ;;
  _ <- read_block 1 ;;
  e <- onu (string_eq (diskaddr 1) OOPS) ;;
  onu (user_assert e) ;;
  onu (ucopy (diskaddr 1) (diskaddr 0) BY2PG) ;;
  write_block 1 ;;
  modify (set_super (diskaddr 1)).

Definition fs_init : M fsrv unit := read_super ;; check_write_block ;; read_bitmap.

(** * Blocks of a file *)

(** The address of the slot for block [filebno] *)
Definition file_block_walk (f filebno : Z) (alloc : bool) : M fsrv Z :=
  if filebno <? NDIRECT then ret (f_direct f filebno)
  else if filebno <? NINDIRECT then
    ind <- onu (ld (f_indirect f)) ;;
    (if ind =? 0 then
       if negb alloc then err (- E_NOT_FOUND)
       else r <- alloc_block ;; onu (st (f_indirect f) r)
     else ret tt) ;;
    ind <- onu (ld (f_indirect f)) ;;
    '(blk, _) <- read_block ind ;;
    ret (blk + 4 * filebno)
  else err (- E_INVAL).

Definition file_map_block (f filebno : Z) (alloc : bool) : M fsrv Z :=
  ptr <- file_block_walk f filebno alloc ;;
  x <- onu (ld ptr) ;;
  (if x =? 0 then
     if negb alloc then err (- E_NOT_FOUND)
     else r <- alloc_block ;; onu (st ptr r)
   else ret tt) ;;
  onu (ld ptr).

Definition file_clear_block (f filebno : Z) : M fsrv unit :=
  ptr <- file_block_walk f filebno false ;;
  x <- onu (ld ptr) ;;
  if negb (x =? 0) then free_block x ;; onu (st ptr 0) else ret tt.

Definition file_get_block (f filebno : Z) : M fsrv Z :=
  diskbno <- file_map_block f filebno true ;;
  '(blk, _) <- read_block diskbno ;;
  ret blk.

Definition file_dirty (f offset : Z) : M fsrv Z :=
  diskbno <- file_map_block f (offset / BY2BLK) false ;;
  dirty_block diskbno.

(** * Directories *)

(** [strcmp] and [strcpy] on strings whose terminator is within
    [MAXNAMELEN] bytes *)
Definition NAMEFUEL : nat := S (Z.to_nat MAXNAMELEN).
Definition ustrcmp (p q : Z) : M uenv Z :=
  touch p ;; touch q ;;
  r <- gets (λ s, strcmp NAMEFUEL p q (um s)) ;;
  match r with Some r => ret r | None => fault "strcmp" end.
Definition ustrcpy (dst src : Z) : M uenv unit :=
  touch src ;; touch dst ;;
  r <- gets (λ s, strcpy NAMEFUEL dst src (um s)) ;;
  match r with Some m => modify (λ s, mark_dirty dst (set_um m s)) | None => fault "strcpy" end.

(** The files of one block, from the [j]th on *)
Fixpoint lookup_in_block (n : nat) (f name : Z) : M fsrv (option Z) :=
  match n with
  | O => ret None
  | S n' =>
      r <- onu (ustrcmp name (f_name f)) ;;
      if r =? 0 then ret (Some f) else lookup_in_block n' (f + BY2FILE) name
  end.

(** The blocks of the directory from the [i]th on; [n] are left. *)
Fixpoint dir_lookup_loop (n : nat) (dir name i : Z) : M fsrv Z :=
  match n with
  | O => err (- E_NOT_FOUND)
  | S n' =>
      blk <- file_get_block dir i ;;
      r <- lookup_in_block (Z.to_nat FILE2BLK) blk name ;;
      match r with
      | Some f => onu (st (f_dir f) dir) ;; ret f
      | None => dir_lookup_loop n' dir name (i + 1)
      end
  end.

Definition dir_lookup (dir name : Z) : M fsrv Z :=
  size <- onu (ld (f_size dir)) ;;
  dir_lookup_loop (Z.to_nat (size / BY2BLK)) dir name 0.

Fixpoint free_in_block (n : nat) (f : Z) : M fsrv (option Z) :=
  match n with
  | O => ret None
  | S n' =>
      c <- onu (ld8 (f_name f)) ;;
      if c =? 0 then ret (Some f) else free_in_block n' (f + BY2FILE)
  end.

Fixpoint dir_alloc_loop (n : nat) (dir i : Z) : M fsrv (option Z) :=
  match n with
  | O => ret None
  | S n' =>
      blk <- file_get_block dir i ;;
      r <- free_in_block (Z.to_nat FILE2BLK) blk ;;
      match r with
      | Some f => ret (Some f)
      | None => dir_alloc_loop n' dir (i + 1)
      end
  end.

Definition dir_alloc_file (dir : Z) : M fsrv Z :=
  size <- onu (ld (f_size dir)) ;;
  let nblock := size / BY2BLK in
  r <- dir_alloc_loop (Z.to_nat nblock) dir 0 ;;
  match r with
  | Some f => ret f
  | None =>
      size <- onu (ld (f_size dir)) ;;
      onu (st (f_size dir) (u32 (size + BY2BLK))) ;;
      file_get_block dir nblock
  end.

(** * Paths *)

Definition PATHFUEL : nat := S (Z.to_nat MAXPATHLEN).

Fixpoint skip_slash (fuel : nat) (p : Z) : M uenv Z :=
  match fuel with
  | O => fault "path not terminated"
  | S fuel' => c <- ld8 p ;; if c =? 47 then skip_slash fuel' (p + 1) else ret p
  end.

(** [while ( *path != '/' && *path != '\0') path++] *)
Fixpoint elem_end (fuel : nat) (p : Z) : M uenv Z :=
  match fuel with
  | O => fault "path not terminated"
  | S fuel' =>
      c <- ld8 p ;; if negb (c =? 47) && negb (c =? 0) then elem_end fuel' (p + 1) else ret p
  end.

(** The loop of [walk_path]: (result, [*pdir], [*pfile]); [*pdir] is 0 unless
    set.  [lastelem] is [None] for the null pointer. *)
Fixpoint walk_loop (fuel : nat) (path dir file : Z) (lastelem : option Z) : M fsrv (Z * Z * Z) :=
  match fuel with
  | O => fault "walk_path: out of fuel"
  | S fuel' =>
      c <- onu (ld8 path) ;;
      if c =? 0 then ret (0, dir, file)
      else
        let dir := file in
        let p := path in
        path <- onu (elem_end PATHFUEL path) ;;
        if path - p >=? MAXNAMELEN then ret (- E_BAD_PATH, 0, 0)
        else
          onu (ucopy walk_name p (path - p)) ;;
          onu (st8 (walk_name + (path - p)) 0) ;;
          path <- onu (skip_slash PATHFUEL path) ;;
          t <- onu (ld (f_type dir)) ;;
          if negb (t =? FTYPE_DIR) then ret (- E_NOT_FOUND, 0, 0)
          else
            r <- attempt (dir_lookup dir walk_name) ;;
            match r with
            | inr file => walk_loop fuel' path dir file lastelem
            | inl r =>
                c <- onu (ld8 path) ;;
                if (r =? - E_NOT_FOUND) && (c =? 0) then
                  (match lastelem with Some a => onu (ustrcpy a walk_name) | None => ret tt end) ;;
                  ret (r, dir, 0)
                else ret (r, 0, 0)
            end
  end.

Definition walk_path (path : Z) (lastelem : option Z) : M fsrv (Z * Z * Z) :=
  path <- onu (skip_slash PATHFUEL path) ;;
  s <- gets super ;;
  onu (st8 walk_name 0) ;;
  walk_loop PATHFUEL path 0 (s_root s) lastelem.

Definition file_open (path : Z) : M fsrv Z :=
  '(r, _, f) <- walk_path path None ;;
  if r <? 0 then err r else ret f.

Definition file_create (path : Z) : M fsrv Z :=
  '(r, dir, _) <- walk_path path (Some create_name) ;;
  if r =? 0 then err (- E_FILE_EXISTS)
  else if negb (r =? - E_NOT_FOUND) || (dir =? 0) then err r
  else
    a <- attempt (dir_alloc_file dir) ;;
    match a with
    | inl _ => err r
    | inr f => onu (ustrcpy (f_name f) create_name) ;; ret f
    end.

(** * Sizes, flushing, removal *)

Definition clear_blocks (f from to_ : Z) : M fsrv unit :=
  for_each (seqZ from (to_ - from)) (λ bno, _ <- code (file_clear_block f bno) ;; ret tt).

Definition file_truncate (f newsize : Z) : M fsrv unit :=
  size <- onu (ld (f_size f)) ;;
  let old_nblocks := size / BY2BLK + 1 in
  let new_nblocks := if newsize =? 0 then 0 else newsize / BY2BLK + 1 in
  (if new_nblocks <=? NDIRECT then
     clear_blocks f new_nblocks old_nblocks ;;
     ind <- onu (ld (f_indirect f)) ;;
     if negb (ind =? 0) then free_block ind ;; onu (st (f_indirect f) 0) else ret tt
   else clear_blocks f new_nblocks old_nblocks) ;;
  onu (st (f_size f) newsize).

Definition file_flush (f : Z) : M fsrv unit :=
  size <- onu (ld (f_size f)) ;;
  let nblocks := size / BY2BLK + 1 in
  for_each (seqZ 0 nblocks) (λ bno,
    r <- attempt (file_map_block f bno false) ;;
    match r with
    | inl _ => ret tt
    | inr diskno =>
        d <- block_is_dirty diskno ;;
        if d : bool then write_block diskno else ret tt
    end).

Definition flush_dir (f : Z) : M fsrv unit :=
  d <- onu (ld (f_dir f)) ;;
  if negb (d =? 0) then file_flush d else ret tt.

Definition file_set_size (f newsize : Z) : M fsrv unit :=
  size <- onu (ld (f_size f)) ;;
  (if size >? newsize then file_truncate f newsize else ret tt) ;;
  onu (st (f_size f) newsize) ;;
  flush_dir f.

Definition fs_sync : M fsrv unit :=
  n <- nblocks ;;
  for_each (seqZ 0 n) (λ i,
    d <- block_is_dirty i ;; if d : bool then write_block i else ret tt).

Definition file_close (f : Z) : M fsrv unit := file_flush f ;; flush_dir f.

Definition file_remove (path : Z) : M fsrv unit :=
  '(r, _, f) <- walk_path path None ;;
  if r <? 0 then err r
  else
    file_truncate f 0 ;;
    onu (st8 (f_name f) 0) ;;
    file_flush f ;;
    flush_dir f.
End fs.
