(* ===== verification/Serv.v ===== *)
(** The file system server: fs/serv.c and user/include/fsreq.h.

    The table of open files is [opentab]; [o_ff] is the page shared with the
    client, laid out as [struct Filefd] (user/include/fd.h).  Requests arrive in
    the page at [REQVA]. *)
From S2P Require Import Prelude Mmu Memory Strings PmapSpec Uenv Fs.

Definition MAXOPEN := 1024.
Definition FILEVA := 0x60000000.
Definition REQVA := 0x0ffff000.

(** Request codes and field offsets (user/include/fsreq.h) *)
Definition FSREQ_OPEN := 1.
Definition FSREQ_MAP := 2.
Definition FSREQ_SET_SIZE := 3.
Definition FSREQ_CLOSE := 4.
Definition FSREQ_DIRTY := 5.
Definition FSREQ_REMOVE := 6.
Definition FSREQ_SYNC := 7.
Definition req_path (rq : Z) : Z := rq.
Definition req_omode (rq : Z) : Z := rq + 1024.
Definition req_fileid (rq : Z) : Z := rq.
Definition req_arg (rq : Z) : Z := rq + 4.

(** Field offsets in [struct Filefd]; [DEVFILE_ID] is [devfile.dev_id]. *)
Definition fd_dev_id (ff : Z) : Z := ff.
Definition fd_omode (ff : Z) : Z := ff + 8.
Definition f_fileid (ff : Z) : Z := ff + 12.
Definition f_file (ff : Z) : Z := ff + 16.
Definition DEVFILE_ID := 102.

Section serv.
Context `{Machine, Frames}.

Definition open_of (s : fsrv) (i : Z) : Open := default (MkOpen 0 0 0 0) (opentab s !! i).
Definition set_open (i : Z) (o : Open) : M fsrv unit :=
  modify (λ s, set_opentab (<[i := o]> (opentab s)) s).

Definition serve_init : M fsrv unit :=
  for_each (seqZ 0 MAXOPEN) (λ i,
    o <- gets (λ s, open_of s i) ;;
    set_open i (MkOpen (o_file o) i (o_mode o) (FILEVA + i * BY2PG))).

(** A table entry whose page nobody else maps, from entry [i] on; an entry
    without a page gets one.  The result is the entry. *)
Fixpoint open_alloc_loop (n : nat) (i : Z) : M fsrv Z :=
  match n with
  | O => err (- E_MAX_OPEN)
  | S n' =>
      o <- gets (λ s, open_of s i) ;;
      ref <- onu (pageref (o_ff o)) ;;
      if (ref =? 0) || (ref =? 1) then
        (if ref =? 0 then
           r <- onu (syscall_mem_alloc (o_ff o) (Z.lor PTE_W PTE_LIBRARY)) ;;
           if r <? 0 then err r else ret tt
         else ret tt) ;;
        set_open i (MkOpen (o_file o) (u32 (o_fileid o + MAXOPEN)) (o_mode o) (o_ff o)) ;;
        onu (uset (o_ff o) 0 BY2PG) ;;
        ret i
      else open_alloc_loop n' (i + 1)
  end.

Definition open_alloc : M fsrv Z := open_alloc_loop (Z.to_nat MAXOPEN) 0.

Definition open_lookup (envid fileid : Z) : M fsrv Z :=
  let i := fileid mod MAXOPEN in
  o <- gets (λ s, open_of s i) ;;
  ref <- onu (pageref (o_ff o)) ;;
  if (ref =? 1) || negb (o_fileid o =? fileid) then err (- E_INVAL) else ret i.

Definition reply (envid r srcva perm : Z) : M fsrv unit := onu (ipc_send envid (u32 r) srcva perm).

(** The [int] that [open_alloc] returns for entry [i] is its [o_fileid].
    There is no [return] after the reply to a failing [open_alloc]; what
    follows uses the pointer [o], which is then not initialised. *)
Definition serve_open (envid rq : Z) : M fsrv unit :=
  a <- attempt open_alloc ;;
  (match a with
   | inl r => reply envid r 0 0
   | inr i =>
       id <- gets (λ s, o_fileid (open_of s i)) ;;
       if s32 id <? 0 then reply envid id 0 0 else ret tt
   end) ;;
  f <- attempt (file_open (req_path rq)) ;;
  match f with
  | inl r => reply envid r 0 0
  | inr f =>
      match a with
      | inl _ => fault "serve_open: uninitialised o"
      | inr i =>
          o <- gets (λ s, open_of s i) ;;
          let ff := o_ff o in
          onu (ucopy (f_file ff) f BY2FILE) ;;
          onu (st (f_fileid ff) (o_fileid o)) ;;
          omode <- onu (ld (req_omode rq)) ;;
          set_open i (MkOpen f (o_fileid o) omode ff) ;;
          onu (st (fd_omode ff) omode) ;;
          onu (st (fd_dev_id ff) DEVFILE_ID) ;;
          reply envid 0 ff (Z.lor PTE_W PTE_LIBRARY)
      end
  end.

(** The handlers that start with [open_lookup] of the request's file *)
Definition with_open (envid rq : Z) (k : Open → M fsrv unit) : M fsrv unit :=
  id <- onu (ld (req_fileid rq)) ;;
  r <- attempt (open_lookup envid id) ;;
  match r with
  | inl r => reply envid r 0 0
  | inr i => o <- gets (λ s, open_of s i) ;; k o
  end.

Definition serve_map (envid rq : Z) : M fsrv unit :=
  with_open envid rq (λ o,
    off <- onu (ld (req_arg rq)) ;;
    r <- attempt (file_get_block (o_file o) (off / BY2BLK)) ;;
    match r with
    | inl r => reply envid r 0 0
    | inr blk => reply envid 0 blk (Z.lor PTE_W PTE_LIBRARY)
    end).

Definition serve_set_size (envid rq : Z) : M fsrv unit :=
  with_open envid rq (λ o,
    size <- onu (ld (req_arg rq)) ;;
    r <- attempt (file_set_size (o_file o) size) ;;
    match r with inl r => reply envid r 0 0 | inr _ => reply envid 0 0 0 end).

Definition serve_close (envid rq : Z) : M fsrv unit :=
  with_open envid rq (λ o, file_close (o_file o) ;; reply envid 0 0 0).

Definition serve_remove (envid rq : Z) : M fsrv unit :=
  r <- code (file_remove (req_path rq)) ;;
  reply envid r 0 0.

Definition serve_dirty (envid rq : Z) : M fsrv unit :=
  with_open envid rq (λ o,
    off <- onu (ld (req_arg rq)) ;;
    r <- attempt (file_dirty (o_file o) off) ;;
    match r with
    | inl r => reply envid r 0 0
    | inr r => if r <? 0 then reply envid r 0 0 else reply envid 0 0 0
    end).

Definition serve_sync (envid : Z) : M fsrv unit := fs_sync ;; reply envid 0 0 0.

Definition dispatch (req whom : Z) : M fsrv unit :=
  if req =? FSREQ_OPEN then serve_open whom REQVA
  else if req =? FSREQ_MAP then serve_map whom REQVA
  else if req =? FSREQ_SET_SIZE then serve_set_size whom REQVA
  else if req =? FSREQ_CLOSE then serve_close whom REQVA
  else if req =? FSREQ_DIRTY then serve_dirty whom REQVA
  else if req =? FSREQ_REMOVE then serve_remove whom REQVA
  else if req =? FSREQ_SYNC then serve_sync whom
  else ret tt.

(** One round of [for (;;)] per message; the server then waits for ever. *)
Fixpoint serve_loop (fuel : nat) : M fsrv unit :=
  match fuel with
  | O => fault "serve: out of fuel"
  | S fuel' =>
      '(req, whom, perm) <- onu (ipc_recv REQVA) ;;
      if negb (has perm PTE_V) then serve_loop fuel'
      else
        dispatch req whom ;;
        onu (syscall_mem_unmap REQVA) ;;
        serve_loop fuel'
  end.

Definition serve : M fsrv unit := n <- gets (λ s, length (inbox (us s))) ;; serve_loop (S n).

Definition fs_main : M fsrv unit :=
  onu (user_assert (256 =? BY2FILE)) ;;
  serve_init ;;
  fs_init ;;
  serve.
End serv.
