(* ===== verification/IdeProps.v ===== *)
(** The file server reaches its disk through fs/ide.c: words and bytes of
    memory, accesses to the server's pages, the block device as a class of
    laws, and the transfer of whole blocks.  [ramdisk] obeys the laws. *)
From S2P Require Import Prelude Mmu Memory Strings StringsProps PmapSpec Syscall Uenv Fs.

(** * Words and bytes *)

(** A little-endian word of an array of bytes *)
Definition le32 (f : Z → Z) (x : Z) : Z := f x + 256 * f (x + 1) + 65536 * f (x + 2) + 16777216 * f (x + 3).

Lemma le32_ext f g x : (∀ j, 0 ≤ j < 4 → f (x + j) = g (x + j)) → le32 f x = le32 g x.
Proof.
  intros E. unfold le32. pose proof (E 0). pose proof (E 1). pose proof (E 2). pose proof (E 3).
  rewrite Z.add_0_r in *. lia.
Qed.

(** Memory whose words have 32 bits *)
Definition wf_mem (m : memory) : Prop := ∀ a, 0 ≤ load m a < 2 ^ 32.

Lemma wf_store a v m : wf_mem m → wf_mem (store a v m).
Proof. intros Hm b. rewrite load_store_word. case_decide; [apply u32_bound|apply Hm]. Qed.

Lemma wf_store8 a v m : wf_mem m → wf_mem (store8 a v m).
Proof. apply wf_store. Qed.

Lemma wf_copy_tail n d s max m : wf_mem m → wf_mem (copy_tail n d s max m).
Proof.
  revert d s m. induction n as [|n IH]; intros d s m Hm; cbn; [done|]. case_match; [|done].
  by apply IH, wf_store8.
Qed.

Lemma wf_copy_head n d s max m : wf_mem m → wf_mem (copy_head n d s max m).2.
Proof.
  revert d s m. induction n as [|n IH]; intros d s m Hm; cbn; [done|]. case_match; [|done].
  by apply IH, wf_store8.
Qed.

Lemma wf_copy_body n d s max m : wf_mem m → wf_mem (copy_body n d s max m).2.
Proof.
  revert d s m. induction n as [|n IH]; intros d s m Hm; cbn; [done|]. case_match; [|done].
  by apply IH, wf_store.
Qed.

Lemma wf_memcpy d s n m : wf_mem m → wf_mem (memcpy d s n m).
Proof.
  intros Hm. unfold memcpy. case_match; [by apply wf_copy_tail|].
  pose proof (wf_copy_head (S (Z.to_nat n)) d s (d + n) m Hm) as H1.
  destruct (copy_head _ _ _ _ _) as [[d1 s1] m1].
  pose proof (wf_copy_body (S (Z.to_nat n)) d1 s1 (d + n) m1 H1) as H2.
  destruct (copy_body _ _ _ _ _) as [[d2 s2] m2]. by apply wf_copy_tail.
Qed.

Lemma byte_split w k : 0 ≤ w → 0 ≤ k → byte_of w k = w / 2 ^ (8 * k) mod 256.
Proof. intros Hw Hk. unfold byte_of, u8. by rewrite Z.shiftr_div_pow2 by lia. Qed.

(** A word is the sum of its bytes. *)
Lemma sum_bytes w : 0 ≤ w < 2 ^ 32 →
  byte_of w 0 + 256 * byte_of w 1 + 65536 * byte_of w 2 + 16777216 * byte_of w 3 = w.
Proof.
  intros Hw. rewrite !byte_split by lia.
  change (2 ^ (8 * 0)) with 1. change (2 ^ (8 * 1)) with 256. change (2 ^ (8 * 2)) with 65536.
  change (2 ^ (8 * 3)) with 16777216. rewrite Z.div_1_r.
  replace 65536 with (256 * 256) by done. replace 16777216 with (256 * 256 * 256) by done.
  rewrite <- !Z.div_div by lia. set (q1 := w / 256). set (q2 := q1 / 256). set (q3 := q2 / 256).
  assert (Hq : 0 ≤ q3 < 256).
  { unfold q3, q2, q1. rewrite !Z.div_div by lia. split; [apply Z.div_pos; lia|]. apply Z.div_lt_upper_bound; lia. }
  rewrite (Z.mod_small q3) by done. pose proof (Z.div_mod w 256). pose proof (Z.div_mod q1 256).
  pose proof (Z.div_mod q2 256). lia.
Qed.

Lemma load_offset m a j : a mod 4 = 0 → 0 ≤ j < 4 → load m (a + j) = load m a ∧ (a + j) mod 4 = j.
Proof.
  intros Ha Hj. rewrite !load_addr. assert (E : (a + j) / 4 = a / 4).
  { pose proof (Z.div_mod a 4). replace (a + j) with (j + a / 4 * 4) by lia.
    rewrite Z.div_add, Z.div_small by lia. lia. }
  rewrite E. split; [done|]. pose proof (Z.div_mod (a + j) 4). pose proof (Z.div_mod a 4). lia.
Qed.

Lemma word_bytes m a : wf_mem m → a mod 4 = 0 → load m a = le32 (load8 m) a.
Proof.
  intros Hm Ha. unfold le32. rewrite !load8_byte.
  destruct (load_offset m a 1 Ha ltac:(lia)) as [-> ->], (load_offset m a 2 Ha ltac:(lia)) as [-> ->],
    (load_offset m a 3 Ha ltac:(lia)) as [-> ->]. rewrite Ha. by rewrite sum_bytes by apply Hm.
Qed.

(** * Pages of the server *)

Section ide.
Context {machine : Machine} {frames : Frames}.

(** The kernel never runs out of memory, and only pages with a table are
    mapped. *)
Record ready (s : uenv) : Prop := {
  rd_kres : kres s = [];
  rd_dirs : ∀ va, has (pte_at s va) PTE_V = true → pde_valid s va = true;
  rd_mem : wf_mem (um s)
}.

Definition REQPAGE := IDE_REQVA / 4096.

Lemma VPN_page va : VPN va = va / 4096.
Proof. unfold VPN. by rewrite Z.shiftr_div_pow2 by lia. Qed.

Lemma PDX_page va : PDX va = va / 4096 / 1024 mod 1024.
Proof.
  unfold PDX. rewrite Z.shiftr_div_pow2 by lia. change 0x3FF with (Z.ones 10). rewrite Z.land_ones by lia.
  rewrite Z.div_div by lia. done.
Qed.

Lemma pte_page s va vb : va / 4096 = vb / 4096 → pte_at s va = pte_at s vb.
Proof. intros E. unfold pte_at. by rewrite !VPN_page, E. Qed.

Lemma mapped_pte s va : ready s → mapped_at s va = has (pte_at s va) PTE_V.
Proof.
  intros Hs. unfold mapped_at. destruct (has (pte_at s va) PTE_V) eqn:E; [|apply andb_false_r].
  by rewrite (rd_dirs s Hs).
Qed.

Lemma page_mapped s va vb : va / 4096 = vb / 4096 → mapped_at s va = mapped_at s vb.
Proof. intros E. unfold mapped_at, pde_valid. by rewrite (pte_page s va vb E), !PDX_page, E. Qed.

(** [s'] differs from [s] inside the request page only. *)
Record same_off (P : Z → Prop) (s s' : uenv) : Prop := {
  so_pte : ∀ va, P (va / 4096) → pte_at s' va = pte_at s va;
  so_mem : ∀ a, P (a / 4096) → load8 (um s') a = load8 (um s) a;
  so_medium : ∀ a, load8 (medium s') a = load8 (medium s) a
}.
Definition off_req := same_off (λ p, p ≠ REQPAGE).

Lemma same_off_refl P s : same_off P s s.
Proof. by split. Qed.

Lemma same_off_trans P s s1 s2 : same_off P s s1 → same_off P s1 s2 → same_off P s s2.
Proof.
  intros [H1 H2 H3] [G1 G2 G3]. split; intros.
  - by rewrite G1, H1.
  - by rewrite G2, H2.
  - by rewrite G3, H3.
Qed.

Lemma pte_map_zero va g s vb :
  pte_at (map_zero va g s) vb = if decide (va / 4096 = vb / 4096) then g else pte_at s vb.
Proof. unfold pte_at, map_zero; cbn. rewrite !VPN_page, lookup_insert. by case_decide. Qed.

Lemma load_map_zero va g s b :
  load (um (map_zero va g s)) b = if decide (va / 4096 = b / 4096) then 0 else load (um s) b.
Proof.
  unfold map_zero; cbn. rewrite !load_addr, !Z.div_div, VPN_page by lia. change (4 * 1024) with 4096.
  unfold pg. rewrite lookup_insert. case_decide; [|done]. unfold word; cbn. by rewrite lookup_empty.
Qed.

Lemma ready_map_zero va g s : ready s → ready (map_zero va g s).
Proof.
  intros [H1 H2 H3]. split; [done| |].
  - intros vb. rewrite pte_map_zero. unfold pde_valid; cbn. case_decide as E; intros Hv.
    + apply bool_decide_eq_true. rewrite !PDX_page, E. set_solver.
    + apply bool_decide_eq_true. specialize (H2 vb Hv). apply bool_decide_eq_true in H2. set_solver.
  - intros b. rewrite load_map_zero. case_decide; [lia|apply H3].
Qed.

Lemma load8_load m m' a : load m' a = load m a → load8 m' a = load8 m a.
Proof. unfold load8. by intros ->. Qed.

(** ** Accesses *)

Lemma touch_ok s va : mapped_at s va = true → touch va s = Ok tt s.
Proof. intros E. unfold touch, gets. cbn. by rewrite E. Qed.

Lemma touch_new s va : ready s → mapped_at s va = false →
  touch va s = Ok tt (map_zero va (perm_flags (Z.lor (Z.lor PTE_R PTE_W) PTE_U)) s).
Proof.
  intros Hs E. unfold touch, next_result. step. rewrite E. unfold bind, gets. by rewrite (rd_kres s Hs).
Qed.

(** Some access makes the request page present. *)
Lemma touch_req s : ready s → ∃ s1, ready s1 ∧ off_req s s1 ∧ mapped_at s1 IDE_REQVA = true ∧
  ∀ a, a / 4096 = REQPAGE → touch a s = touch a s1.
Proof.
  intros Hs. destruct (mapped_at s IDE_REQVA) eqn:E; [by exists s; split_and!; try apply same_off_refl|].
  set (g := perm_flags (Z.lor (Z.lor PTE_R PTE_W) PTE_U)). exists (map_zero IDE_REQVA g s).
  pose proof (ready_map_zero IDE_REQVA g s Hs) as Hr.
  assert (Hm : ∀ a, a / 4096 = REQPAGE → mapped_at (map_zero IDE_REQVA g s) a = true).
  { intros a Ha. rewrite mapped_pte, pte_map_zero, decide_True by done. by vm_compute. }
  split_and!; [done| |by apply Hm|].
  - split; [| |done].
    + intros va Hne. rewrite pte_map_zero, decide_False; [done|]. intros E1. apply Hne. symmetry. exact E1.
    + intros a Hne. apply load8_load. rewrite load_map_zero, decide_False; [done|]. intros E1. apply Hne. symmetry. exact E1.
  - intros a Ha. rewrite (touch_ok (map_zero _ _ _)) by auto. rewrite touch_new; [|done|].
    + f_equal. unfold map_zero. by rewrite !VPN_page, !PDX_page, Ha.
    + rewrite (page_mapped s a IDE_REQVA); done.
Qed.

Lemma ld_ok s a : mapped_at s a = true → ld a s = Ok (load (um s) a) s.
Proof. intros E. unfold ld. by rewrite (bind_ok _ _ _ _ _ (touch_ok s a E)). Qed.

Lemma ld8_ok s a : mapped_at s a = true → ld8 a s = Ok (load8 (um s) a) s.
Proof. intros E. unfold ld8. by rewrite (bind_ok _ _ _ _ _ (touch_ok s a E)). Qed.

(** The state after a change [m] of the memory through [va] *)
Definition written (va : Z) (m : memory) (s : uenv) : uenv := mark_dirty va (set_um m s).

Lemma st_ok s a v : mapped_at s a = true → st a v s = Ok tt (written a (store a v (um s)) s).
Proof. intros E. unfold st. by rewrite (bind_ok _ _ _ _ _ (touch_ok s a E)). Qed.

Lemma st8_ok s a v : mapped_at s a = true → st8 a v s = Ok tt (written a (store8 a v (um s)) s).
Proof. intros E. unfold st8. by rewrite (bind_ok _ _ _ _ _ (touch_ok s a E)). Qed.

Lemma ucopy_ok s d r n : mapped_at s d = true → mapped_at s r = true →
  ucopy d r n s = Ok tt (written d (memcpy d r n (um s)) s).
Proof.
  intros E1 E2. unfold ucopy. by rewrite (bind_ok _ _ _ _ _ (touch_ok s r E2)), (bind_ok _ _ _ _ _ (touch_ok s d E1)).
Qed.

Lemma um_written va m s : um (written va m s) = m.
Proof. unfold written, mark_dirty. by case_match. Qed.
Lemma medium_written va m s : medium (written va m s) = medium s.
Proof. unfold written, mark_dirty. by case_match. Qed.

Lemma pte_written va m s vb : pte_at (written va m s) vb =
  if decide (hw_dirty = true ∧ va / 4096 = vb / 4096) then Z.lor (pte_at s vb) PTE_D else pte_at s vb.
Proof.
  unfold written, mark_dirty. destruct hw_dirty; [|by rewrite decide_False by naive_solver].
  unfold pte_at; cbn. rewrite !VPN_page, lookup_insert. case_decide as E; [|by rewrite decide_False by naive_solver].
  rewrite decide_True by done. by rewrite E.
Qed.

Lemma has_lor_D g b : (b = PTE_V ∨ b = PTE_D) → has (Z.lor g PTE_D) b = has g b || (b =? PTE_D).
Proof.
  intros [-> | ->]; cbn [Z.eqb].
  - change PTE_V with (2 ^ 0). change PTE_D with (2 ^ 7). rewrite !has_testbit, Z.lor_spec by lia. done.
  - change PTE_D with (2 ^ 7). rewrite !has_testbit, Z.lor_spec by lia. done.
Qed.

Lemma valid_written va m s vb : has (pte_at (written va m s) vb) PTE_V = has (pte_at s vb) PTE_V.
Proof. rewrite pte_written. case_decide; [|done]. rewrite has_lor_D by (by left). by rewrite orb_false_r. Qed.

Lemma mapped_written va m s vb : mapped_at (written va m s) vb = mapped_at s vb.
Proof.
  unfold mapped_at. rewrite valid_written. f_equal. unfold written, mark_dirty. by case_match.
Qed.

Lemma ready_written va m s : ready s → wf_mem m → ready (written va m s).
Proof.
  intros [H1 H2 H3] Hm. split.
  - unfold written, mark_dirty. by case_match.
  - intros vb. rewrite valid_written. intros Hv. specialize (H2 vb Hv).
    unfold written, mark_dirty. by case_match.
  - by rewrite um_written.
Qed.

(** ** The device *)

(** The device has done the request of [s]: the disk is [medium], and sector
    [n] has the bytes from [512 * n] on. *)
Record served (s s' : uenv) : Prop := {
  sv_kres : kres s' = kres s;
  sv_upt : upt s' = upt s;
  sv_updirs : updirs s' = updirs s;
  sv_wf : wf_mem (um s) → wf_mem (um s');
  sv_done : load8 (um s') (IDE_REQVA + 5) ≠ 0xff;
  sv_mem : ∀ a, a / 4096 ≠ REQPAGE → load8 (um s') a = load8 (um s) a;
  sv_data : load8 (um s) (IDE_REQVA + 4) = 0 → ∀ i, 0 ≤ i < 512 →
    load8 (um s') (IDE_REQVA + 6 + i) = load8 (medium s) (512 * load (um s) IDE_REQVA + i);
  sv_medium : ∀ a, load8 (medium s') a =
    let p := 512 * load (um s) IDE_REQVA in
    if decide (load8 (um s) (IDE_REQVA + 4) ≠ 0 ∧ p ≤ a < p + 512)
    then load8 (um s) (IDE_REQVA + 6 + (a - p)) else load8 (medium s) a
}.

Definition waiting (s : uenv) : Prop :=
  mapped_at s IDE_REQVA = true ∧ load8 (um s) (IDE_REQVA + 5) = 0xff.

(** A block device takes every request and answers while the server yields,
    with nothing else happening to the server's memory. *)
Class BlockDevice := {
  bd_accepts s : mapped_at s IDE_REQVA = true → dev_result DISKNO IDE_REQVA s = 0;
  bd_serves s : mapped_at s IDE_REQVA = true →
    ∃ k, (k < polls)%nat ∧
      (∀ i, (i < k)%nat → waiting (Nat.iter i world_yield (dev_accept DISKNO IDE_REQVA s))) ∧
      served s (Nat.iter k world_yield (dev_accept DISKNO IDE_REQVA s))
}.

Lemma wait_status_ok k fuel s : (k < fuel)%nat →
  (∀ i, (i < k)%nat → waiting (Nat.iter i world_yield s)) →
  mapped_at (Nat.iter k world_yield s) IDE_REQVA = true →
  load8 (um (Nat.iter k world_yield s)) (IDE_REQVA + 5) ≠ 0xff →
  wait_status fuel s = Ok tt (Nat.iter k world_yield s).
Proof.
  revert fuel s. induction k as [|k IH]; intros [|fuel] s Hf Hw Hm Hn; try lia; cbn [wait_status].
  - cbn in *. rewrite (bind_ok _ _ _ _ _ (ld8_ok s (IDE_REQVA + 5) ltac:(by rewrite (page_mapped _ _ IDE_REQVA)))).
    by rewrite (proj2 (Z.eqb_neq _ _) Hn).
  - destruct (Hw 0%nat ltac:(lia)) as [H1 H2]. cbn in H1, H2.
    rewrite (bind_ok _ _ _ _ _ (ld8_ok s (IDE_REQVA + 5) ltac:(by rewrite (page_mapped _ _ IDE_REQVA)))).
    rewrite H2. cbn [Z.eqb Pos.eqb]. unfold syscall_yield. rewrite Nat.iter_succ_r in *.
    rewrite (bind_ok _ _ tt s (world_yield s)) by done. apply IH; [lia| |done|done].
    intros i Hi. specialize (Hw (S i) ltac:(lia)). by rewrite Nat.iter_succ_r in Hw.
Qed.

Context {device : BlockDevice}.

Lemma mapped_served s s' va : served s s' → mapped_at s' va = mapped_at s va.
Proof. intros Hs. unfold mapped_at, pde_valid, pte_at. by rewrite (sv_upt _ _ Hs), (sv_updirs _ _ Hs). Qed.

Lemma ide_transfer_ok s : mapped_at s IDE_REQVA = true →
  ∃ s', ide_transfer DISKNO s = Ok tt s' ∧ served s s'.
Proof.
  intros Hm. destruct (bd_serves s Hm) as (k & Hk & Hw & Hs).
  exists (Nat.iter k world_yield (dev_accept DISKNO IDE_REQVA s)). split; [|done].
  unfold ide_transfer. destruct polls as [|n] eqn:Hp; [lia|]. cbn [wait_accept].
  rewrite bind_assoc. erewrite bind_ok by (unfold syscall_dev_req; by rewrite (bd_accepts s Hm)).
  change (0 =? - E_NO_RING_DESC) with false. cbn iota. rewrite bind_ret. change (0 <? 0) with false. cbn iota.
  apply wait_status_ok; [done|done| |apply Hs]. by rewrite (mapped_served s _ _ Hs).
Qed.

Lemma ready_served s s' : ready s → served s s' → ready s'.
Proof.
  intros [Hk Hd Hw] Hs. split; [by rewrite (sv_kres _ _ Hs)| |by apply Hs].
  intros va. unfold pde_valid, pte_at. rewrite (sv_upt _ _ Hs), (sv_updirs _ _ Hs). apply Hd.
Qed.

(** The request with sector and direction filled in *)
Lemma request_ok s sec wr : ready s → 0 ≤ sec < 2 ^ 32 →
  ∃ s1, ready s1 ∧ off_req s s1 ∧ mapped_at s1 IDE_REQVA = true ∧
    load (um s1) IDE_REQVA = sec ∧ load8 (um s1) (IDE_REQVA + 4) = u8 wr ∧
    ∀ A (k : M uenv A), (st IDE_REQVA sec ;; st8 (IDE_REQVA + 4) wr ;; k) s = k s1.
Proof.
  intros Hs Hsec. destruct (touch_req s Hs) as (s1 & Hr & Ho & Hm & Ht).
  set (s2 := written IDE_REQVA (store IDE_REQVA sec (um s1)) s1).
  set (s3 := written (IDE_REQVA + 4) (store8 (IDE_REQVA + 4) wr (um s2)) s2).
  assert (H2 : ready s2) by (apply ready_written; [done|by apply wf_store, rd_mem]).
  assert (Hm2 : mapped_at s2 IDE_REQVA = true) by (unfold s2; by rewrite mapped_written).
  exists s3. split_and!.
  - apply ready_written; [done|by apply wf_store8, rd_mem].
  - eapply same_off_trans; [exact Ho|]. split.
    + intros va Hne. unfold s3, s2. rewrite !pte_written.
      rewrite decide_False by (intros [_ E]; apply Hne; symmetry; exact E).
      by rewrite decide_False by (intros [_ E]; apply Hne; symmetry; exact E).
    + intros a Hne. unfold s3. rewrite um_written, load8_store8. rewrite decide_False by (intros <-; apply Hne; done).
      unfold s2. rewrite um_written, load8_store, decide_False; [done|].
      intros E. apply Hne. change REQPAGE with (IDE_REQVA / 4 / 1024). rewrite E, Z.div_div by lia. done.
    + intros a. unfold s3, s2. by rewrite !medium_written.
  - unfold s3. by rewrite mapped_written.
  - unfold s3. rewrite um_written. unfold store8. rewrite load_store_word, decide_False by done.
    unfold s2. rewrite um_written, load_store_word, decide_True by done. by apply u32_small.
  - unfold s3. by rewrite um_written, load8_store8, decide_True.
  - intros A k. rewrite (bind_ok _ _ tt s s2).
    2: { unfold st, bind. by rewrite (Ht IDE_REQVA eq_refl), (touch_ok s1 _ Hm). }
    rewrite (bind_ok _ _ _ _ _ (st8_ok s2 (IDE_REQVA + 4) wr ltac:(by rewrite (page_mapped _ _ IDE_REQVA)))). done.
Qed.

(** ** Transfers *)

(** The same pages outside the request page *)
Definition off_view (s s' : uenv) : Prop :=
  (∀ va, va / 4096 ≠ REQPAGE → pte_at s' va = pte_at s va) ∧
  (∀ a, a / 4096 ≠ REQPAGE → load8 (um s') a = load8 (um s) a).

Lemma off_view_trans s s1 s2 : off_view s s1 → off_view s1 s2 → off_view s s2.
Proof. intros [E1 E2] [F1 F2]. split; intros; [by rewrite F1, E1|by rewrite F2, E2]. Qed.

Lemma off_req_view s s' : off_req s s' → off_view s s'.
Proof. intros Ho. split; apply Ho. Qed.

Lemma view_mapped s s' va : ready s → ready s' → off_view s s' → va / 4096 ≠ REQPAGE →
  mapped_at s' va = mapped_at s va.
Proof. intros Hs Hs' [Hv _] Hne. by rewrite !mapped_pte, Hv. Qed.

Lemma served_view s s' : served s s' → off_view s s'.
Proof. intros Hs. split; [|apply Hs]. intros va _. unfold pte_at. by rewrite (sv_upt _ _ Hs). Qed.

Lemma page_span a i : a mod 4096 + i < 4096 → 0 ≤ i → (a + i) / 4096 = a / 4096.
Proof.
  intros Hi H1. pose proof (Z.div_mod a 4096). pose proof (Z.mod_pos_bound a 4096).
  replace (a + i) with (a mod 4096 + i + a / 4096 * 4096) by lia. rewrite Z.div_add, Z.div_small by lia. lia.
Qed.

(** One sector from [src] to the disk *)
Lemma write_round s sec src : ready s → 0 ≤ sec < 2 ^ 32 → mapped_at s src = true →
  src / 4096 ≠ REQPAGE → src mod 4096 + 512 ≤ 4096 →
  ∃ s', ready s' ∧ off_view s s' ∧
    (∀ a, load8 (medium s') a =
      if decide (512 * sec ≤ a < 512 * sec + 512) then load8 (um s) (src + (a - 512 * sec)) else load8 (medium s) a) ∧
    ∀ (k : M uenv unit), (st IDE_REQVA sec ;; st8 (IDE_REQVA + 4) 1 ;; ucopy (IDE_REQVA + 6) src BY2SECT ;;
                          ide_transfer DISKNO ;; k) s = k s'.
Proof.
  intros Hs Hsec Hm Hne Hpg. destruct (request_ok s sec 1 Hs Hsec) as (s1 & Hr1 & Ho & Hm1 & Hw & Hb & Hk).
  pose proof (off_req_view _ _ Ho) as Hv. set (m2 := memcpy (IDE_REQVA + 6) src 512 (um s1)).
  assert (Hc : copied (um s1) m2 (IDE_REQVA + 6) src 512).
  { apply memcpy_ok; [lia|]. unfold forward. revert Hne. change REQPAGE with 61183. unfold IDE_REQVA.
    pose proof (Z.div_mod src 4096). pose proof (Z.mod_pos_bound src 4096). lia. }
  set (s2 := written (IDE_REQVA + 6) m2 s1).
  assert (Hr2 : ready s2) by (apply ready_written; [done|by apply wf_memcpy, rd_mem]).
  assert (Hv2 : off_view s1 s2).
  { split.
    - intros va Hn. unfold s2. rewrite pte_written, decide_False; [done|]. intros [_ E]. apply Hn. symmetry. exact E.
    - intros a Hn. unfold s2. rewrite um_written, Hc, decide_False; [done|]. unfold IDE_REQVA. intros Ha. apply Hn.
      change REQPAGE with 61183. symmetry. apply (Z.div_unique a 4096 61183 (a - 61183 * 4096)); lia. }
  assert (Hm2 : mapped_at s2 IDE_REQVA = true) by (unfold s2; by rewrite mapped_written).
  destruct (ide_transfer_ok s2 Hm2) as (s3 & E3 & H3). exists s3.
  assert (Hreq : load (um s2) IDE_REQVA = sec ∧ load8 (um s2) (IDE_REQVA + 4) = 1).
  { split.
    - unfold s2. rewrite um_written, word_bytes by (done || by apply wf_memcpy, rd_mem).
      rewrite (le32_ext _ (load8 (um s1))); [by rewrite <- word_bytes by (done || by apply rd_mem)|].
      intros j Hj. by rewrite Hc, decide_False by (unfold IDE_REQVA; lia).
    - unfold s2. by rewrite um_written, Hc, decide_False by (unfold IDE_REQVA; lia). }
  destruct Hreq as [Hq1 Hq2]. split_and!.
  - by apply (ready_served s2).
  - eapply off_view_trans; [exact Hv|]. eapply off_view_trans; [exact Hv2|]. by apply served_view.
  - intros a. rewrite (sv_medium _ _ H3 a), Hq1, Hq2. cbn zeta. destruct (decide (512 * sec ≤ a < 512 * sec + 512)).
    + rewrite decide_True by done. unfold s2. rewrite um_written, Hc, decide_True by lia.
      replace (src + _) with (src + (a - 512 * sec)) by lia. apply Hv. rewrite page_span by lia. done.
    + rewrite decide_False by tauto. unfold s2. rewrite medium_written. apply Ho.
  - intros k. rewrite Hk.
    rewrite (bind_ok _ _ _ _ _ (ucopy_ok s1 (IDE_REQVA + 6) src BY2SECT
      ltac:(by rewrite (page_mapped _ _ IDE_REQVA)) ltac:(by rewrite (view_mapped s s1)))).
    by rewrite (bind_ok _ _ _ _ _ E3).
Qed.

(** One sector from the disk to [dst] *)
Lemma read_round s sec dst : ready s → 0 ≤ sec < 2 ^ 32 → mapped_at s dst = true →
  dst / 4096 ≠ REQPAGE → dst mod 4096 + 512 ≤ 4096 →
  ∃ s', ready s' ∧ (∀ a, load8 (medium s') a = load8 (medium s) a) ∧
    (∀ va, va / 4096 ≠ REQPAGE → pte_at s' va =
      if decide (hw_dirty = true ∧ dst / 4096 = va / 4096) then Z.lor (pte_at s va) PTE_D else pte_at s va) ∧
    (∀ a, a / 4096 ≠ REQPAGE → load8 (um s') a =
      if decide (dst ≤ a < dst + 512) then load8 (medium s) (512 * sec + (a - dst)) else load8 (um s) a) ∧
    ∀ (k : M uenv unit), (st IDE_REQVA sec ;; st8 (IDE_REQVA + 4) 0 ;; ide_transfer DISKNO ;;
                          ucopy dst (IDE_REQVA + 6) BY2SECT ;; k) s = k s'.
Proof.
  intros Hs Hsec Hm Hne Hpg. destruct (request_ok s sec 0 Hs Hsec) as (s1 & Hr1 & Ho & Hm1 & Hw & Hb & Hk).
  pose proof (off_req_view _ _ Ho) as Hv.
  destruct (ide_transfer_ok s1 Hm1) as (s2 & E2 & H2). pose proof (served_view _ _ H2) as Hv2.
  pose proof (ready_served s1 s2 Hr1 H2) as Hr2. set (m3 := memcpy dst (IDE_REQVA + 6) 512 (um s2)).
  assert (Hc : copied (um s2) m3 dst (IDE_REQVA + 6) 512).
  { apply memcpy_ok; [lia|]. unfold forward. revert Hne. change REQPAGE with 61183. unfold IDE_REQVA.
    pose proof (Z.div_mod dst 4096). pose proof (Z.mod_pos_bound dst 4096). lia. }
  set (s3 := written dst m3 s2). exists s3. split_and!.
  - apply ready_written; [done|by apply wf_memcpy, rd_mem].
  - intros a. unfold s3. rewrite medium_written, (sv_medium _ _ H2 a). cbn zeta.
    rewrite decide_False by (rewrite Hb; intros [? _]; done). apply Ho.
  - intros va Hn. unfold s3. rewrite pte_written. destruct Hv2 as [Hp2 _], Hv as [Hp _].
    by rewrite (Hp2 va Hn), (Hp va Hn).
  - intros a Hn. unfold s3. rewrite um_written, Hc. case_decide.
    + rewrite (sv_data _ _ H2 Hb), Hw by lia. apply Ho.
    + destruct Hv2 as [_ Hw2], Hv as [_ Hw1]. by rewrite (Hw2 a Hn), (Hw1 a Hn).
  - intros k. rewrite Hk, (bind_ok _ _ _ _ _ E2).
    rewrite (bind_ok _ _ _ _ _ (ucopy_ok s2 dst (IDE_REQVA + 6) BY2SECT
      ltac:(by rewrite (mapped_served _ _ _ H2), (view_mapped s s1))
      ltac:(by rewrite (page_mapped _ _ IDE_REQVA), (mapped_served _ _ _ H2)))). done.
Qed.

(** ** Blocks *)

Definition NBLOCKS := DISKMAX / BY2BLK.

Lemma diskaddr_eq n : 0 ≤ n < NBLOCKS → diskaddr n = DISKMAP + 4096 * n.
Proof. intros Hn. unfold diskaddr. change NBLOCKS with 262144 in Hn. rewrite u32_small; unfold DISKMAP, BY2BLK, BY2PG; lia. Qed.

Lemma disk_page x : 0 ≤ x → (DISKMAP + x) / 4096 = 65536 + x / 4096.
Proof. intros Hx. unfold DISKMAP. replace (0x10000000 + x) with (x + 65536 * 4096) by lia. rewrite Z.div_add by lia. lia. Qed.

Lemma disk_off_req x : 0 ≤ x → (DISKMAP + x) / 4096 ≠ REQPAGE.
Proof. intros Hx. rewrite disk_page by done. change REQPAGE with 61183. pose proof (Z.div_pos x 4096). lia. Qed.

(** Positions on the disk: [x] is cached at [DISKMAP + x]. *)
Definition present (s : uenv) (x : Z) : Prop := has (pte_at s (DISKMAP + x)) PTE_V = true.

Lemma present_page s x y : 0 ≤ x → 0 ≤ y → x / 4096 = y / 4096 → present s x → present s y.
Proof. intros Hx Hy E. unfold present. rewrite (pte_page s _ (DISKMAP + y)); [done|]. rewrite !disk_page by done. lia. Qed.

Lemma sector_of n j : 0 ≤ n < NBLOCKS → 0 ≤ j < 8 →
  u32 (u32 (n * SECT2BLK) + 512 * j / BY2SECT) = n * 8 + j.
Proof.
  intros Hn Hj. change NBLOCKS with 262144 in Hn. change SECT2BLK with 8. unfold BY2SECT.
  rewrite (Z.mul_comm 512), Z.div_mul by lia. rewrite !u32_small by (rewrite ?u32_small; lia). done.
Qed.

Lemma round_test n j : 0 ≤ n < NBLOCKS → 0 ≤ j ≤ 8 →
  let begin := u32 (u32 (n * SECT2BLK) * BY2SECT) in
  (u32 (begin + 512 * j) <? u32 (begin + SECT2BLK * BY2SECT)) = (j <? 8).
Proof.
  intros Hn Hj. change NBLOCKS with 262144 in Hn. change SECT2BLK with 8. unfold BY2SECT. cbn zeta.
  rewrite (u32_small (n * 8)), (u32_small (n * 8 * 512)) by lia. rewrite !u32_small by lia.
  destruct (Z.ltb_spec j 8); [apply Z.ltb_lt|apply Z.ltb_ge]; lia.
Qed.

Lemma write_rounds n r s : 0 ≤ n < NBLOCKS → (r ≤ 8)%nat → ready s → present s (4096 * n) →
  let j := 8 - Z.of_nat r in
  let begin := u32 (u32 (n * SECT2BLK) * BY2SECT) in
  ∃ s', ide_write_loop (S r) DISKNO (u32 (n * SECT2BLK)) (diskaddr n) begin (u32 (begin + SECT2BLK * BY2SECT)) (512 * j) s
          = Ok tt s' ∧
    ready s' ∧ off_view s s' ∧
    ∀ a, load8 (medium s') a =
      if decide (4096 * n + 512 * j ≤ a < 4096 * n + 4096) then load8 (um s) (DISKMAP + a) else load8 (medium s) a.
Proof.
  intros Hn. revert s. induction r as [|r IH]; intros s Hr Hs Hp j begin; cbn [ide_write_loop].
  - unfold begin. rewrite (round_test n j Hn) by lia. change (j <? 8) with false. exists s. split_and!; [done..|].
    intros a. rewrite decide_False by (unfold j; lia). done.
  - unfold begin. rewrite (round_test n j Hn) by lia. rewrite (proj2 (Z.ltb_lt j 8)) by lia.
    rewrite sector_of by lia. rewrite diskaddr_eq by done.
    assert (Hd : ∀ i, 0 ≤ i < 512 → (4096 * n + 512 * j + i) / 4096 = n).
    { intros i Hi. symmetry. apply (Z.div_unique _ 4096 n (512 * j + i)); lia. }
    pose proof (Hd 0 ltac:(lia)) as Hd0. rewrite Z.add_0_r in Hd0.
    rewrite <- Z.add_assoc.
    destruct (write_round s (n * 8 + j) (DISKMAP + (4096 * n + 512 * j))) as (s1 & Hr1 & Hv1 & Hm1 & ->).
    + done.
    + change NBLOCKS with 262144 in Hn. lia.
    + rewrite mapped_pte by done. apply (present_page s (4096 * n)); [lia|lia| |done].
      rewrite Hd0. by rewrite Z.mul_comm, Z.div_mul by lia.
    + apply disk_off_req. lia.
    + unfold DISKMAP. rewrite <- (Z.mod_unique (0x10000000 + (4096 * n + 512 * j)) 4096 (65536 + n) (512 * j)) by lia. lia.
    + destruct (IH s1) as (s2 & E2 & Hr2 & Hv2 & Hm2); [lia|done| |].
      { unfold present. destruct Hv1 as [Hv1 _]. rewrite Hv1 by (apply disk_off_req; lia). done. }
      rewrite diskaddr_eq in E2 by done. replace (512 * (8 - Z.of_nat r)) with (512 * j + BY2SECT) in E2 by (unfold BY2SECT; lia).
      exists s2. split_and!; [exact E2|done|by eapply off_view_trans|]. intros a. rewrite Hm2, Hm1.
      destruct Hv1 as [_ Hv1]. repeat case_decide; try lia; try done.
      * apply Hv1, disk_off_req. lia.
      * f_equal. lia.
Qed.

Lemma ide_write_ok n s : 0 ≤ n < NBLOCKS → ready s → present s (4096 * n) →
  ∃ s', ide_write DISKNO (u32 (n * SECT2BLK)) (diskaddr n) SECT2BLK s = Ok tt s' ∧ ready s' ∧ off_view s s' ∧
    ∀ a, load8 (medium s') a =
      if decide (4096 * n ≤ a < 4096 * n + 4096) then load8 (um s) (DISKMAP + a) else load8 (medium s) a.
Proof.
  intros Hn Hs Hp. destruct (write_rounds n 8 s Hn ltac:(lia) Hs Hp) as (s' & E & Hr & Hv & Hm).
  exists s'. split_and!; [exact E|done|done|]. intros a. rewrite Hm. cbn zeta. change (512 * (8 - Z.of_nat 8)) with 0.
  by rewrite Z.add_0_r.
Qed.

(** Pages other than those of the disk and the request page *)
Definition outside (p : Z) : Prop := (p < 65536 ∨ 327680 ≤ p) ∧ p ≠ REQPAGE.

Definition kept (s s' : uenv) : Prop := ∀ va, outside (va / 4096) →
  pte_at s' va = pte_at s va ∧ load8 (um s') va = load8 (um s) va.

Lemma kept_trans s s1 s2 : kept s s1 → kept s1 s2 → kept s s2.
Proof. intros K1 K2 va Hv. destruct (K1 va Hv), (K2 va Hv). by split; etransitivity. Qed.

Lemma off_view_kept s s' : off_view s s' → kept s s'.
Proof. intros [V1 V2] va [_ Hv]. by rewrite V1, V2. Qed.

(** [s'] is [s] with bytes of block [n] read from the disk. *)
Record block_read (n : Z) (s s' : uenv) : Prop := {
  br_pte : ∀ va, va / 4096 ≠ REQPAGE → va / 4096 ≠ 65536 + n → pte_at s' va = pte_at s va;
  br_present : present s' (4096 * n);
  br_mem : ∀ a, a / 4096 ≠ REQPAGE → a / 4096 ≠ 65536 + n → load8 (um s') a = load8 (um s) a;
  br_medium : ∀ a, load8 (medium s') a = load8 (medium s) a
}.

Lemma block_read_trans n s s1 s2 : block_read n s s1 → block_read n s1 s2 → block_read n s s2.
Proof.
  intros [P1 P2 P3 P4] [Q1 Q2 Q3 Q4]. split; intros; [by rewrite Q1, P1|done|by rewrite Q3, P3|by rewrite Q4, P4].
Qed.

Lemma block_read_kept n s s' : 0 ≤ n < NBLOCKS → block_read n s s' → kept s s'.
Proof.
  intros Hn Hb va [H1 H2]. change NBLOCKS with 262144 in Hn. split; apply Hb; (exact H2 || lia).
Qed.

Lemma read_rounds n r s : 0 ≤ n < NBLOCKS → (r ≤ 8)%nat → ready s → present s (4096 * n) →
  let j := 8 - Z.of_nat r in
  let begin := u32 (u32 (n * SECT2BLK) * BY2SECT) in
  ∃ s', ide_read_loop (S r) DISKNO (u32 (n * SECT2BLK)) (diskaddr n) begin (u32 (begin + SECT2BLK * BY2SECT)) (512 * j) s
          = Ok tt s' ∧
    ready s' ∧ block_read n s s' ∧
    ∀ a, 4096 * n ≤ a < 4096 * n + 4096 → load8 (um s') (DISKMAP + a) =
      if decide (4096 * n + 512 * j ≤ a) then load8 (medium s) a else load8 (um s) (DISKMAP + a).
Proof.
  intros Hn. revert s. induction r as [|r IH]; intros s Hr Hs Hp j begin; cbn [ide_read_loop].
  - unfold begin. rewrite (round_test n j Hn) by lia. change (j <? 8) with false. exists s. split_and!; [done..|].
    intros a Ha. rewrite decide_False by (unfold j; lia). done.
  - unfold begin. rewrite (round_test n j Hn) by lia. rewrite (proj2 (Z.ltb_lt j 8)) by lia.
    rewrite sector_of by lia. rewrite diskaddr_eq by done.
    assert (Hd0 : (4096 * n + 512 * j) / 4096 = n) by (symmetry; apply (Z.div_unique _ 4096 n (512 * j)); lia).
    assert (Hd : (DISKMAP + (4096 * n + 512 * j)) / 4096 = 65536 + n) by (rewrite disk_page by lia; by rewrite Hd0).
    rewrite <- Z.add_assoc.
    destruct (read_round s (n * 8 + j) (DISKMAP + (4096 * n + 512 * j))) as (s1 & Hr1 & Hm1 & Hp1 & Hv1 & ->).
    + done.
    + change NBLOCKS with 262144 in Hn. lia.
    + rewrite mapped_pte by done. apply (present_page s (4096 * n)); [lia|lia| |done].
      rewrite Hd0. by rewrite Z.mul_comm, Z.div_mul by lia.
    + apply disk_off_req. lia.
    + unfold DISKMAP. rewrite <- (Z.mod_unique (0x10000000 + (4096 * n + 512 * j)) 4096 (65536 + n) (512 * j)) by lia. lia.
    + assert (Hb : block_read n s s1).
      { split; [| | |done].
        - intros va Hn1 Hn2. rewrite Hp1, decide_False; [done| |done]. rewrite Hd. intros [_ E]. by apply Hn2.
        - unfold present. rewrite Hp1 by (apply disk_off_req; lia). case_match; [|done].
          rewrite has_lor_D by (by left). by rewrite Hp.
        - intros a Hn1 Hn2. rewrite Hv1, decide_False; [done| |done]. intros Ha. apply Hn2. symmetry.
          apply (Z.div_unique _ 4096 (65536 + n) (a - (65536 + n) * 4096)); unfold DISKMAP in Ha; lia. }
      destruct (IH s1) as (s2 & E2 & Hr2 & Hb2 & Hm2); [lia|done|apply Hb|].
      rewrite diskaddr_eq in E2 by done. replace (512 * (8 - Z.of_nat r)) with (512 * j + BY2SECT) in E2 by (unfold BY2SECT; lia).
      exists s2. split_and!; [exact E2|done|by eapply block_read_trans|]. intros a Ha. rewrite Hm2, Hm1 by done.
      rewrite (Hv1 (DISKMAP + a)) by (apply disk_off_req; lia). repeat case_decide; try lia; try done; f_equal; lia.
Qed.

Lemma ide_read_ok n s : 0 ≤ n < NBLOCKS → ready s → present s (4096 * n) →
  ∃ s', ide_read DISKNO (u32 (n * SECT2BLK)) (diskaddr n) SECT2BLK s = Ok tt s' ∧ ready s' ∧ block_read n s s' ∧
    ∀ a, 4096 * n ≤ a < 4096 * n + 4096 → load8 (um s') (DISKMAP + a) = load8 (medium s) a.
Proof.
  intros Hn Hs Hp. destruct (read_rounds n 8 s Hn ltac:(lia) Hs Hp) as (s' & E & Hr & Hb & Hm).
  exists s'. split_and!; [exact E|done|done|]. intros a Ha. rewrite Hm by done. cbn zeta.
  change (512 * (8 - Z.of_nat 8)) with 0. by rewrite decide_True by lia.
Qed.

End ide.

(** * A device *)

(** [n] bytes from [src] of [m'] to [dst] of [m] *)
Fixpoint import (n : nat) (dst src : Z) (m' m : memory) : memory :=
  match n with
  | O => m
  | S n' => import n' (dst + 1) (src + 1) m' (store8 dst (load8 m' src) m)
  end.

Lemma import_ok n dst src m' m a : load8 (import n dst src m' m) a =
  if decide (dst ≤ a < dst + Z.of_nat n) then load8 m' (src + (a - dst)) else load8 m a.
Proof.
  revert dst src m. induction n as [|n IH]; intros dst src m; cbn [import]; [by rewrite decide_False by lia|].
  rewrite IH, load8_store8, load8_u8. repeat case_decide; try lia; try done; f_equal; lia.
Qed.

Lemma wf_import n dst src m' m : wf_mem m → wf_mem (import n dst src m' m).
Proof. revert dst src m. induction n; intros dst src m Hm; cbn; [done|]. by apply IHn, wf_store8. Qed.

Lemma load_import n dst src m' m a : a mod 4 = 0 → wf_mem m → a + 4 ≤ dst → load (import n dst src m' m) a = load m a.
Proof.
  intros Ha Hm Hd. rewrite !word_bytes by (done || by apply wf_import). apply le32_ext. intros j Hj.
  by rewrite import_ok, decide_False by lia.
Qed.

(** A disk that answers the request in the request page at the next yield *)
Definition serve_request (s : uenv) : uenv :=
  let p := 512 * load (um s) IDE_REQVA in
  if load8 (um s) (IDE_REQVA + 4) =? 0
  then set_um (import 512 (IDE_REQVA + 6) p (medium s) (store8 (IDE_REQVA + 5) 0 (um s))) s
  else set_um (store8 (IDE_REQVA + 5) 0 (um s)) (set_medium (import 512 p (IDE_REQVA + 6) (um s) (medium s)) s).

Definition ramdisk : Machine := {|
  hw_dirty := true;
  dev_result _ _ _ := 0;
  dev_accept _ _ s := set_um (store8 (IDE_REQVA + 5) 0xff (um s)) s;
  world_yield s := if load8 (um s) (IDE_REQVA + 5) =? 0xff then serve_request s else s;
  polls := 2
|}.

Lemma status_off a : a / 4096 ≠ REQPAGE → ∀ b, IDE_REQVA ≤ b < IDE_REQVA + 4096 → b ≠ a.
Proof.
  intros Hn b Hb ->. apply Hn. symmetry. change REQPAGE with 61183. unfold IDE_REQVA in Hb.
  apply (Z.div_unique a 4096 61183 (a - 61183 * 4096)); lia.
Qed.

#[export, refine] Instance ramdisk_device : BlockDevice (machine := ramdisk) := {}.
Proof.
  - done.
  - intros s Hm. cbn [polls world_yield dev_accept ramdisk]. exists 1%nat. split; [lia|].
    set (s1 := set_um (store8 (IDE_REQVA + 5) 255 (um s)) s).
    assert (Hst : load8 (um s1) (IDE_REQVA + 5) = 255) by (unfold s1; cbn [um set_um]; by rewrite load8_store8, decide_True).
    split.
    + intros i Hi. assert (i = 0%nat) as -> by lia. split; [exact Hm|exact Hst].
    + cbn [Nat.iter nat_rect]. rewrite Hst. cbn [Z.eqb Pos.eqb].
      assert (Hq : load (um s1) IDE_REQVA = load (um s) IDE_REQVA).
      { unfold s1; cbn [um set_um]. unfold store8. by rewrite load_store_word, decide_False. }
      assert (Hb : ∀ a, a ≠ IDE_REQVA + 5 → load8 (um s1) a = load8 (um s) a).
      { intros a Ha. unfold s1; cbn [um set_um]. rewrite load8_store8, decide_False; [done|]. by intros <-. }
      assert (Hmd : medium s1 = medium s) by done.
      assert (Hw1 : wf_mem (um s) → wf_mem (um s1)) by (intros Hw; by apply wf_store8).
      assert (Hk : kres s1 = kres s ∧ upt s1 = upt s ∧ updirs s1 = updirs s) by done. clearbody s1.
      unfold serve_request. rewrite Hq, (Hb (IDE_REQVA + 4)) by done.
      destruct Hk as (Hk1 & Hk2 & Hk3). destruct (Z.eqb_spec (load8 (um s) (IDE_REQVA + 4)) 0) as [E|E].
      * split; cbn [kres upt updirs um medium set_um]; [exact Hk1|exact Hk2|exact Hk3|..]; rewrite ?Hmd.
        -- intros Hw. by apply wf_import, wf_store8, Hw1.
        -- rewrite import_ok, decide_False by lia. by rewrite load8_store8, decide_True.
        -- intros a Ha. pose proof (status_off a Ha) as Hs. rewrite import_ok, decide_False.
           ++ rewrite load8_store8, decide_False by (apply Hs; unfold IDE_REQVA; lia). apply Hb. apply not_eq_sym, Hs. unfold IDE_REQVA; lia.
           ++ intros Ha'. apply (Hs a); [unfold IDE_REQVA in *; lia|done].
        -- intros _ i Hi. rewrite import_ok, decide_True by lia. f_equal. lia.
        -- intros a. cbn zeta. rewrite decide_False by tauto. done.
      * split; cbn [kres upt updirs um medium set_um set_medium]; [exact Hk1|exact Hk2|exact Hk3|..|intros E0; by destruct E|].
        -- intros Hw. by apply wf_store8, Hw1.
        -- by rewrite load8_store8, decide_True.
        -- intros a Ha. pose proof (status_off a Ha) as Hs.
           rewrite load8_store8, decide_False by (apply Hs; unfold IDE_REQVA; lia). apply Hb. apply not_eq_sym, Hs. unfold IDE_REQVA; lia.
        -- intros a. cbn zeta. rewrite Hmd, import_ok. change (Z.of_nat 512) with 512. repeat case_decide; try tauto. apply Hb. lia.
Qed.
