(* ===== verification/CacheProps.v ===== *)
(** The file server's block cache is a faithful image of the disk: reading,
    changing, evicting and writing back blocks (fs/fs.c on top of fs/ide.c)
    act on one array of bytes, and a block written back is on the disk. *)
From S2P Require Import Prelude Mmu Memory Strings StringsProps PmapSpec Syscall Uenv Fs IdeProps.

Section cache.
Context {machine : Machine} {frames : Frames} {device : BlockDevice}.

(** * The cache *)

(** Byte [x] of the disk as the server sees it: cached or on the medium *)
Definition content (s : uenv) (x : Z) : Z :=
  if has (pte_at s (DISKMAP + x)) PTE_V then load8 (um s) (DISKMAP + x) else load8 (medium s) x.

(** The superblock and the bitmap in an array of bytes *)
Definition nblocks_of (C : Z → Z) : Z := le32 C (4096 + 4).
Definition meta_end (C : Z → Z) : Z := 3 + nblocks_of C / BIT2BLK.
Definition word_of (C : Z → Z) (n : Z) : Z := le32 C (8192 + 4 * (n / 32)).
Definition free_of (C : Z → Z) (n : Z) : bool := has (word_of C n) (Z.shiftl 1 (n mod 32)).
Definition sane (C : Z → Z) : Prop := meta_end C ≤ nblocks_of C ≤ NBLOCKS.

(** The server has mounted a disk with the bytes [C]: clean pages are equal to
    their blocks, superblock and bitmap are cached. *)
Record disk_rel (C : Z → Z) (s : fsrv) : Prop := {
  dr_ready : ready (us s);
  dr_content : ∀ x, 0 ≤ x < DISKMAX → content (us s) x = C x;
  dr_clean : ∀ x, 0 ≤ x < DISKMAX → present (us s) x → has (pte_at (us s) (DISKMAP + x)) PTE_D = false →
    load8 (um (us s)) (DISKMAP + x) = load8 (medium (us s)) x;
  dr_super : super s = DISKMAP + 4096;
  dr_bitmap : bitmap s = DISKMAP + 8192;
  dr_meta : ∀ x, 4096 ≤ x < 4096 * meta_end C → present (us s) x
}.

Lemma onu_ok {A} (m : M uenv A) a u' s : m (us s) = Ok a u' → onu m s = Ok a (set_us u' s).
Proof. intros E. unfold onu. by apply (lift_ok (H := sub_us)). Qed.

Lemma set_us_id s : set_us (us s) s = s.
Proof. by destruct s. Qed.

(** The relation depends on the state and the metadata only. *)
Lemma disk_rel_set C C' u s : disk_rel C s → ready u → nblocks_of C' = nblocks_of C →
  (∀ x, 0 ≤ x < DISKMAX → content u x = C' x) →
  (∀ x, 0 ≤ x < DISKMAX → present u x → has (pte_at u (DISKMAP + x)) PTE_D = false →
    load8 (um u) (DISKMAP + x) = load8 (medium u) x) →
  (∀ x, 4096 ≤ x < 4096 * meta_end C → present u x) → disk_rel C' (set_us u s).
Proof.
  intros [] Hu Hn Hc Hd Hm. split; try done. cbn. unfold meta_end. by rewrite Hn.
Qed.

Lemma meta_bounds C : sane C → 3 ≤ meta_end C ∧ meta_end C ≤ nblocks_of C ≤ 262144.
Proof.
  intros [Hs1 Hs2]. change NBLOCKS with 262144 in Hs2. split; [|lia]. unfold meta_end in *. change BIT2BLK with 32768 in *.
  pose proof (Z.div_mod (nblocks_of C) 32768). pose proof (Z.mod_pos_bound (nblocks_of C) 32768). lia.
Qed.

Lemma present_content C s x : disk_rel C s → 0 ≤ x < DISKMAX → present (us s) x →
  load8 (um (us s)) (DISKMAP + x) = C x.
Proof. intros Hr Hx Hp. rewrite <- (dr_content C s Hr x Hx). unfold content. by rewrite Hp. Qed.

Lemma disk_word C s x : disk_rel C s → 0 ≤ x → x + 3 < DISKMAX → x mod 4096 + 3 < 4096 → x mod 4 = 0 →
  present (us s) x → ld (DISKMAP + x) (us s) = Ok (le32 C x) (us s).
Proof.
  intros Hr Hx Hx' Hm H4 Hp. rewrite ld_ok by (rewrite mapped_pte by apply Hr; exact Hp). f_equal.
  rewrite word_bytes; [|apply Hr|].
  - unfold le32. rewrite <- !Z.add_assoc.
    assert (E : ∀ j, 0 ≤ j < 4 → load8 (um (us s)) (DISKMAP + (x + j)) = C (x + j)).
    { intros j Hj. apply (present_content C); [done|lia|]. apply (present_page _ x); [lia|lia| |done].
      by rewrite page_span by lia. }
    rewrite <- (E 1), <- (E 2), <- (E 3) by lia. pose proof (E 0 ltac:(lia)) as E0. rewrite Z.add_0_r in E0. by rewrite E0.
  - unfold DISKMAP. rewrite Z.add_mod, H4 by lia. done.
Qed.

Lemma nblocks_ok C s : sane C → disk_rel C s → nblocks s = Ok (nblocks_of C) s.
Proof.
  intros Hs Hr. unfold nblocks, s_nblocks. step. rewrite (dr_super C s Hr), <- Z.add_assoc.
  rewrite (onu_ok _ (nblocks_of C) (us s)); [by rewrite set_us_id|].
  apply disk_word; try done. apply (dr_meta C s Hr). destruct (meta_bounds C Hs). lia.
Qed.

Lemma word_pos C n : sane C → 0 ≤ n < nblocks_of C → let x := 8192 + 4 * (n / 32) in
  8192 ≤ x < 4096 * meta_end C ∧ x + 3 < DISKMAX ∧ x mod 4096 + 3 < 4096 ∧ x mod 4 = 0.
Proof.
  intros Hs Hn x. destruct (meta_bounds C Hs) as [Hm1 Hm2]. unfold meta_end in *. change BIT2BLK with 32768 in *.
  change DISKMAX with 1073741824. pose proof (Z.div_mod n 32). pose proof (Z.mod_pos_bound n 32).
  pose proof (Z.div_mod (nblocks_of C) 32768). pose proof (Z.mod_pos_bound (nblocks_of C) 32768).
  assert (x mod 4 = 0) as H4 by (unfold x; replace (8192 + 4 * (n / 32)) with ((2048 + n / 32) * 4) by lia; apply Z.mod_mul; lia).
  split_and!; try done; try (unfold x; lia). pose proof (Z.div_mod x 4). pose proof (Z.mod_pos_bound x 4096).
  assert (x mod 4096 mod 4 = 0) as Hz. { rewrite <- Znumtheory.Zmod_div_mod; [done|lia|lia|]. by exists 1024. }
  pose proof (Z.div_mod (x mod 4096) 4). lia.
Qed.

Lemma bitmap_word_ok C s n : sane C → disk_rel C s → 0 ≤ n < nblocks_of C → bitmap_word n s = Ok (word_of C n) s.
Proof.
  intros Hs Hr Hn. destruct (word_pos C n Hs Hn) as (H1 & H2 & H3 & H4).
  unfold bitmap_word. step. rewrite (dr_bitmap C s Hr), <- Z.add_assoc.
  rewrite (onu_ok _ (word_of C n) (us s)); [by rewrite set_us_id|].
  apply disk_word; try done; [lia|]. apply (dr_meta C s Hr). lia.
Qed.

Lemma block_is_free_ok C s n : sane C → disk_rel C s → 0 ≤ n < nblocks_of C → block_is_free n s = Ok (free_of C n) s.
Proof.
  intros Hs Hr Hn. unfold block_is_free. step. rewrite (dr_super C s Hr). change (DISKMAP + 4096 =? 0) with false. cbn iota.
  rewrite (bind_ok _ _ _ _ _ (nblocks_ok C s Hs Hr)). unfold Z.geb. destruct (Z.compare_spec n (nblocks_of C)); try lia.
  by rewrite (bind_ok _ _ _ _ _ (bitmap_word_ok C s n Hs Hr Hn)).
Qed.

(** ** Operations of the cache *)

Lemma block_pos n x : 0 ≤ x → x / 4096 = n ↔ 4096 * n ≤ x < 4096 * n + 4096.
Proof.
  intros Hx. split.
  - intros <-. pose proof (Z.div_mod x 4096). pose proof (Z.mod_pos_bound x 4096). lia.
  - intros Hn. symmetry. apply (Z.div_unique x 4096 n (x - 4096 * n)); lia.
Qed.

Lemma block_is_mapped_ok s n : ready (us s) → 0 ≤ n < NBLOCKS →
  block_is_mapped n s = Ok (has (pte_at (us s) (DISKMAP + 4096 * n)) PTE_V) s.
Proof.
  intros Hr Hn. unfold block_is_mapped, va_is_mapped, gets. by rewrite diskaddr_eq, mapped_pte by done.
Qed.

Lemma mem_alloc_ok va s : ready s → DISKMAP ≤ va < DISKMAP + DISKMAX →
  syscall_mem_alloc va PTE_W s = Ok 0 (map_zero va (perm_flags (Z.lor PTE_W PTE_U)) s).
Proof.
  intros Hs Hva. unfold syscall_mem_alloc.
  assert (is_illegal_va va = false) as ->.
  { unfold is_illegal_va. change DISKMAP with 268435456 in Hva. change DISKMAX with 1073741824 in Hva.
    change UTEMP with 4186112. change UTOP with 2134900736. rewrite (proj2 (Z.ltb_ge _ _)) by lia.
    by destruct (Z.geb_spec va 2134900736); [lia|]. }
  rewrite (bind_ok _ _ 0 s s).
  2: { unfold next_result, bind, gets. by rewrite (rd_kres s Hs). }
  done.
Qed.

Lemma read_block_ok C s n : sane C → disk_rel C s → 0 ≤ n < nblocks_of C → free_of C n = false →
  ∃ s' b, read_block n s = Ok (DISKMAP + 4096 * n, b) s' ∧ disk_rel C s' ∧ present (us s') (4096 * n) ∧
    (∀ x, 0 ≤ x → present (us s) x → present (us s') x) ∧ (∀ a, load8 (medium (us s')) a = load8 (medium (us s)) a) ∧
    kept (us s) (us s') ∧ opentab s' = opentab s.
Proof.
  intros Hs Hr Hn Hf. destruct (meta_bounds C Hs) as [Hm1 Hm2]. pose proof (dr_ready C s Hr) as Hrd.
  unfold read_block. step. rewrite (dr_super C s Hr). change (DISKMAP + 4096 =? 0) with false. cbn [negb].
  rewrite (bind_ok _ _ _ _ _ (nblocks_ok C s Hs Hr)). unfold Z.geb. destruct (Z.compare_spec n (nblocks_of C)); try lia.
  step. rewrite (dr_bitmap C s Hr). change (DISKMAP + 8192 =? 0) with false. cbn [negb].
  rewrite (bind_ok _ _ _ _ _ (block_is_free_ok C s n Hs Hr Hn)), Hf.
  assert (HnB : 0 ≤ n < NBLOCKS) by (change NBLOCKS with 262144; lia).
  rewrite (bind_ok _ _ _ _ _ (block_is_mapped_ok s n Hrd HnB)), diskaddr_eq by done.
  destruct (has (pte_at (us s) (DISKMAP + 4096 * n)) PTE_V) eqn:Hp.
  { exists s, false. split_and!; try done. }
  pose proof (mem_alloc_ok (DISKMAP + 4096 * n) (us s) Hrd) as Ha. change NBLOCKS with 262144 in HnB.
  change DISKMAX with 1073741824 in Ha. specialize (Ha ltac:(lia)).
  set (u1 := map_zero (DISKMAP + 4096 * n) (perm_flags (Z.lor PTE_W PTE_U)) (us s)) in *.
  rewrite (bind_ok _ _ _ _ _ (onu_ok _ _ _ _ Ha)).
  assert (Hn4 : 4096 * n / 4096 = n) by (rewrite Z.mul_comm; by apply Z.div_mul).
  destruct (ide_read_ok n u1) as (u2 & E2 & Hr2 & Hb & Hd); [done|by apply ready_map_zero| |].
  { unfold present, u1. rewrite pte_map_zero, decide_True by done. by vm_compute. }
  rewrite <- (diskaddr_eq n) by done. rewrite (bind_ok _ _ _ _ _ (onu_ok _ _ _ (set_us u1 s) E2)).
  assert (Hoff : ∀ x, 0 ≤ x → x / 4096 ≠ n → pte_at u2 (DISKMAP + x) = pte_at (us s) (DISKMAP + x) ∧
    load8 (um u2) (DISKMAP + x) = load8 (um (us s)) (DISKMAP + x)).
  { intros x Hx Hne. assert (Hp1 : (DISKMAP + x) / 4096 ≠ 65536 + n) by (rewrite disk_page by done; lia).
    assert (Hp2 : (DISKMAP + 4096 * n) / 4096 ≠ (DISKMAP + x) / 4096) by (rewrite !disk_page by lia; lia).
    rewrite (br_pte _ _ _ Hb), (br_mem _ _ _ Hb) by (done || by apply disk_off_req). unfold u1.
    rewrite pte_map_zero, decide_False by done. split; [done|]. apply load8_load.
    by rewrite load_map_zero, decide_False by done. }
  assert (Hin : ∀ x, 0 ≤ x → x / 4096 = n → load8 (um u2) (DISKMAP + x) = load8 (medium (us s)) x).
  { intros x Hx E. apply Hd. by apply block_pos. }
  assert (Hpn : ∀ x, 0 ≤ x → x / 4096 = n → present u2 x).
  { intros x Hx E. apply (present_page u2 (4096 * n)); [lia|done|lia|]. apply Hb. }
  exists (set_us u2 s), true. split_and!; [done| |by apply Hb| | | |done].
  - apply (disk_rel_set C); try done.
    + intros x Hx. destruct (decide (x / 4096 = n)) as [E|E].
      * unfold content. rewrite (Hpn x), (Hin x) by (lia || done). rewrite <- (dr_content C s Hr x Hx). unfold content.
        rewrite (pte_page _ _ (DISKMAP + 4096 * n)); [by rewrite Hp|]. rewrite !disk_page by lia. lia.
      * rewrite <- (dr_content C s Hr x Hx). unfold content. destruct (Hoff x) as [-> ->]; [lia|done|].
        by rewrite (br_medium _ _ _ Hb).
    + intros x Hx Hpx Hdx. rewrite (br_medium _ _ _ Hb). destruct (decide (x / 4096 = n)) as [E|E]; [apply Hin; lia|].
      unfold present in *. destruct (Hoff x) as [Ep El]; [lia|done|]. rewrite Ep in Hpx, Hdx. rewrite El.
      by apply (dr_clean C s Hr).
    + intros x Hx. destruct (decide (x / 4096 = n)); [apply Hpn; lia|]. unfold present.
      destruct (Hoff x) as [-> _]; [lia|done|]. by apply (dr_meta C s Hr).
  - intros x Hx Hpx. cbn. destruct (decide (x / 4096 = n)); [apply Hpn; lia|]. unfold present.
    by destruct (Hoff x) as [-> _].
  - intros a. cbn. by rewrite (br_medium _ _ _ Hb).
  - cbn. eapply kept_trans; [|by eapply block_read_kept]. intros va [Hv _].
    assert ((DISKMAP + 4096 * n) / 4096 ≠ va / 4096) as Hne by (rewrite disk_page, Hn4 by lia; lia).
    unfold u1. rewrite pte_map_zero, decide_False by done. split; [done|]. apply load8_load.
    by rewrite load_map_zero, decide_False by done.
Qed.

Lemma write_block_ok C s n : disk_rel C s → 0 ≤ n < NBLOCKS → present (us s) (4096 * n) →
  ∃ s', write_block n s = Ok tt s' ∧ disk_rel C s' ∧ off_view (us s) (us s') ∧ opentab s' = opentab s ∧
    ∀ x, 0 ≤ x < DISKMAX → load8 (medium (us s')) x = if decide (x / 4096 = n) then C x else load8 (medium (us s)) x.
Proof.
  intros Hr Hn Hp. pose proof (dr_ready C s Hr) as Hrd. unfold write_block.
  rewrite (bind_ok _ _ _ _ _ (block_is_mapped_ok s n Hrd Hn)), Hp. cbn [negb].
  destruct (ide_write_ok n (us s) Hn Hrd Hp) as (u1 & E1 & Hr1 & Hv & Hm).
  exists (set_us u1 s).
  assert (Hn4 : 4096 * n / 4096 = n) by (rewrite Z.mul_comm; by apply Z.div_mul).
  assert (Hmed : ∀ x, 0 ≤ x < DISKMAX → load8 (medium u1) x = if decide (x / 4096 = n) then C x else load8 (medium (us s)) x).
  { intros x Hx. rewrite Hm. destruct (decide (x / 4096 = n)) as [E|E].
    - rewrite decide_True by (apply block_pos; lia). apply (present_content C); try done.
      apply (present_page _ (4096 * n)); [lia|lia|lia|done].
    - rewrite decide_False by (intros E1'; apply block_pos in E1'; lia). done. }
  assert (Hvw : ∀ x, 0 ≤ x → pte_at u1 (DISKMAP + x) = pte_at (us s) (DISKMAP + x) ∧
    load8 (um u1) (DISKMAP + x) = load8 (um (us s)) (DISKMAP + x)).
  { intros x Hx. destruct Hv as [V1 V2]. by rewrite V1, V2 by (by apply disk_off_req). }
  split_and!; [by rewrite (onu_ok _ _ _ _ E1)| |done|done|done].
  apply (disk_rel_set C); try done.
  - intros x Hx. unfold content. destruct (Hvw x) as [-> ->]; [lia|]. rewrite Hmed by done.
    rewrite <- (dr_content C s Hr x Hx). unfold content. destruct (has _ _) eqn:Hpx; [done|].
    rewrite decide_False; [done|]. intros E. rewrite (pte_page _ _ (DISKMAP + 4096 * n)) in Hpx by (rewrite !disk_page by lia; lia).
    unfold present in Hp. congruence.
  - intros x Hx Hpx Hdx. unfold present in Hpx. destruct (Hvw x) as [Ep ->]; [lia|]. rewrite Ep in Hpx, Hdx.
    rewrite Hmed by done. case_decide; [by apply present_content|by apply (dr_clean C s Hr)].
  - intros x Hx. unfold present. destruct (Hvw x) as [-> _]; [lia|]. by apply (dr_meta C s Hr).
Qed.

(** A byte changed in an array of bytes *)
Definition put (C : Z → Z) (x b : Z) : Z → Z := λ y, if decide (y = x) then u8 b else C y.

(** Metadata lies below [meta_end]. *)
Definition same_meta (C C' : Z → Z) : Prop := ∀ x, 0 ≤ x < 4096 * meta_end C → C' x = C x.

Lemma same_meta_nblocks C C' : sane C → same_meta C C' → nblocks_of C' = nblocks_of C.
Proof. intros Hs Hm. destruct (meta_bounds C Hs). apply le32_ext. intros j Hj. apply Hm. lia. Qed.

Lemma same_meta_free C C' n : sane C → same_meta C C' → 0 ≤ n < nblocks_of C → free_of C' n = free_of C n.
Proof.
  intros Hs Hm Hn. destruct (word_pos C n Hs Hn) as (H1 & _ & _ & H4). unfold free_of, word_of. f_equal.
  apply le32_ext. intros j Hj. apply Hm.
  pose proof (Z.div_mod (8192 + 4 * (n / 32)) 4). lia.
Qed.

Lemma same_meta_sane C C' : sane C → same_meta C C' → sane C' ∧ meta_end C' = meta_end C.
Proof. intros Hs Hm. unfold sane, meta_end. by rewrite (same_meta_nblocks C C'). Qed.

Lemma put_meta C x b : 4096 * meta_end C ≤ x → same_meta C (put C x b).
Proof. intros Hx y Hy. unfold put. by rewrite decide_False by lia. Qed.

(** Stores are seen through PTE_D. *)
Context (Hdirty : hw_dirty = true).

(** Changing bytes of a cached page *)
Lemma change_ok C C' s x m : disk_rel C s → 0 ≤ x < DISKMAX → present (us s) x → wf_mem m →
  (∀ y, 0 ≤ y → y / 4096 = x / 4096 → load8 m (DISKMAP + y) = C' y) →
  (∀ a, a / 4096 ≠ (DISKMAP + x) / 4096 → load8 m a = load8 (um (us s)) a) →
  (∀ y, 0 ≤ y → y / 4096 ≠ x / 4096 → C' y = C y) → nblocks_of C' = nblocks_of C →
  let s' := set_us (written (DISKMAP + x) m (us s)) s in
  disk_rel C' s' ∧ kept (us s) (us s') ∧ (∀ y, present (us s) y → present (us s') y).
Proof.
  intros Hr Hx Hp Hm Hin Hout HC Hn s'. set (u := written (DISKMAP + x) m (us s)).
  assert (Hpu : ∀ y, has (pte_at u (DISKMAP + y)) PTE_V = has (pte_at (us s) (DISKMAP + y)) PTE_V).
  { intros y. apply valid_written. }
  assert (Hpage : ∀ y, 0 ≤ y → y / 4096 ≠ x / 4096 → (DISKMAP + x) / 4096 ≠ (DISKMAP + y) / 4096).
  { intros y Hy Hne. rewrite !disk_page by lia. lia. }
  assert (Hpx : ∀ y, 0 ≤ y → y / 4096 = x / 4096 → present (us s) y).
  { intros y Hy E. by apply (present_page _ x); [lia|lia|congruence|]. }
  split_and!.
  - apply (disk_rel_set C); try done.
    + apply ready_written; [apply Hr|done].
    + intros y Hy. unfold content. rewrite Hpu. unfold u. rewrite um_written, medium_written.
      destruct (decide (y / 4096 = x / 4096)) as [E|E].
      * rewrite (Hpx y) by (lia || done). apply Hin; [lia|done].
      * rewrite HC, <- (dr_content C s Hr y Hy) by (lia || done). unfold content.
        by rewrite Hout by (apply not_eq_sym, Hpage; [lia|done]).
    + intros y Hy Hpy. unfold u. rewrite pte_written, medium_written, um_written.
      destruct (decide (y / 4096 = x / 4096)) as [E|E].
      { rewrite decide_True by (split; [done|]; rewrite !disk_page by lia; lia).
        rewrite has_lor_D by (by right). cbn. by rewrite orb_true_r. }
      rewrite decide_False by (intros [_ E']; revert E'; apply Hpage; [lia|done]). intros Hd.
      rewrite Hout by (apply not_eq_sym, Hpage; [lia|done]). apply (dr_clean C s Hr); [done| |done].
      unfold present in *. by rewrite <- Hpu.
    + intros y Hy. unfold present. rewrite Hpu. by apply (dr_meta C s Hr).
  - intros va [Ho _]. cbn. rewrite pte_written, um_written. change DISKMAX with 1073741824 in Hx.
    pose proof (Z.div_pos x 4096). pose proof (Z.div_lt_upper_bound x 4096 262144).
    assert ((DISKMAP + x) / 4096 ≠ va / 4096) as Hne by (rewrite disk_page by lia; lia).
    rewrite decide_False by (intros [_ E]; done). split; [done|]. apply Hout. congruence.
  - intros y Hy. unfold present. cbn. by rewrite Hpu.
Qed.

Lemma store_ok C s x b : sane C → disk_rel C s → 4096 * meta_end C ≤ x < DISKMAX → present (us s) x →
  ∃ s', onu (st8 (DISKMAP + x) b) s = Ok tt s' ∧ disk_rel (put C x b) s'.
Proof.
  intros Hs Hr Hx Hp. destruct (meta_bounds C Hs) as [Hm1 Hm2]. pose proof (dr_ready C s Hr) as Hrd.
  eexists. split; [exact (onu_ok _ _ _ _ (st8_ok (us s) (DISKMAP + x) b ltac:(by rewrite mapped_pte)))|].
  eapply (change_ok C _ s x); [done|lia|done|by apply wf_store8, Hrd|..].
  - intros y Hy E. rewrite load8_store8. unfold put. destruct (decide (y = x)) as [->|Hne]; [by rewrite decide_True|].
    rewrite decide_False by lia. apply (present_content C); [done| |].
    + apply block_pos in E; [|done]. change DISKMAX with 1073741824 in *.
      assert (x / 4096 < 262144) by (apply Z.div_lt_upper_bound; lia). lia.
    + apply (present_page _ x); [lia|lia|congruence|done].
  - intros a Hne. rewrite load8_store8, decide_False; [done|]. by intros <-.
  - intros y Hy Hne. unfold put. rewrite decide_False; [done|]. by intros ->.
  - apply same_meta_nblocks; [done|]. apply put_meta. lia.
Qed.

(** Writing back a block if its page is dirty *)
Lemma block_is_dirty_ok s n : ready (us s) → 0 ≤ n < NBLOCKS → block_is_dirty n s =
  Ok (has (pte_at (us s) (DISKMAP + 4096 * n)) PTE_V && has (pte_at (us s) (DISKMAP + 4096 * n)) PTE_D) s.
Proof.
  intros Hr Hn. unfold block_is_dirty. pose proof (block_is_mapped_ok s n Hr Hn) as E. unfold block_is_mapped in E.
  rewrite (bind_ok _ _ _ _ _ E), diskaddr_eq by done. by destruct (has _ PTE_V).
Qed.

Lemma flush_ok C s n : disk_rel C s → 0 ≤ n < NBLOCKS →
  ∃ s', (d <- block_is_dirty n ;; if d : bool then write_block n else ret tt) s = Ok tt s' ∧ disk_rel C s' ∧
    off_view (us s) (us s') ∧ opentab s' = opentab s ∧
    ∀ x, 0 ≤ x < DISKMAX → load8 (medium (us s')) x = if decide (x / 4096 = n) then C x else load8 (medium (us s)) x.
Proof.
  intros Hr Hn. rewrite (bind_ok _ _ _ _ _ (block_is_dirty_ok s n (dr_ready C s Hr) Hn)).
  assert (Hn4 : 4096 * n / 4096 = n) by (rewrite Z.mul_comm; by apply Z.div_mul).
  destruct (has _ PTE_V) eqn:Hv; [destruct (has _ PTE_D) eqn:Hd|]; cbn [andb].
  - destruct (write_block_ok C s n Hr Hn Hv) as (s' & E & ?). by exists s'.
  - exists s. split_and!; [done..|]. intros x Hx. case_decide as E; [|done].
    rewrite (pte_page _ _ (DISKMAP + x)) in Hv, Hd by (rewrite !disk_page by lia; lia).
    rewrite <- (present_content C s x) by done. symmetry. by apply (dr_clean C s Hr).
  - exists s. split_and!; [done..|]. intros x Hx. case_decide as E; [|done].
    rewrite (pte_page _ _ (DISKMAP + x)) in Hv by (rewrite !disk_page by lia; lia).
    rewrite <- (dr_content C s Hr x Hx). unfold content. by rewrite Hv.
Qed.

Lemma unmap_block_ok C s n : sane C → disk_rel C s → meta_end C ≤ n < nblocks_of C → free_of C n = false →
  present (us s) (4096 * n) → ∃ s', unmap_block n s = Ok tt s' ∧ disk_rel C s'.
Proof.
  intros Hs Hr Hn Hf Hp. destruct (meta_bounds C Hs) as [Hm1 Hm2]. pose proof (dr_ready C s Hr) as Hrd.
  assert (HnB : 0 ≤ n < NBLOCKS) by (change NBLOCKS with 262144; lia).
  assert (Hn4 : 4096 * n / 4096 = n) by (rewrite Z.mul_comm; by apply Z.div_mul).
  unfold unmap_block. rewrite (bind_ok _ _ _ _ _ (block_is_mapped_ok s n Hrd HnB)), Hp.
  rewrite (bind_ok _ _ tt s s) by (rewrite (onu_ok _ tt (us s)); [by rewrite set_us_id|done]).
  rewrite (bind_ok _ _ _ _ _ (block_is_free_ok C s n Hs Hr ltac:(lia))), Hf. cbn [negb].
  destruct (flush_ok C s n Hr HnB) as (s1 & E1 & Hr1 & Hv & _ & Hm). rewrite <- bind_assoc.
  rewrite (bind_ok _ _ _ _ _ E1). pose proof (dr_ready C s1 Hr1) as Hrd1. rewrite diskaddr_eq by done.
  set (u := set_um (<[VPN (DISKMAP + 4096 * n) := ∅]> (um (us s1))) (set_upt (delete (VPN (DISKMAP + 4096 * n)) (upt (us s1)))
    (set_uref (delete (VPN (DISKMAP + 4096 * n)) (uref (us s1))) (us s1)))).
  assert (Hpu : ∀ va, pte_at u va = if decide ((DISKMAP + 4096 * n) / 4096 = va / 4096) then 0 else pte_at (us s1) va).
  { intros va. unfold pte_at, u; cbn. rewrite !VPN_page, lookup_delete. by case_decide. }
  assert (Hlu : ∀ a, load (um u) a = if decide ((DISKMAP + 4096 * n) / 4096 = a / 4096) then 0 else load (um (us s1)) a).
  { intros a. exact (load_map_zero (DISKMAP + 4096 * n) 0 (us s1) a). }
  assert (E2 : syscall_mem_unmap (DISKMAP + 4096 * n) (us s1) = Ok 0 u).
  { unfold syscall_mem_unmap.
    assert (is_illegal_va (DISKMAP + 4096 * n) = false) as ->; [|done]. unfold is_illegal_va, DISKMAP.
    change UTEMP with 4186112. change UTOP with 2134900736. rewrite (proj2 (Z.ltb_ge _ _)) by lia.
    by destruct (Z.geb_spec (0x10000000 + 4096 * n) 2134900736); [lia|]. }
  assert (Hru : ready u).
  { destruct Hrd1 as [R1 R2 R3]. split; [done| |].
    - intros va. rewrite Hpu. case_decide; [change (has 0 PTE_V) with false; done|]. intros Hva. exact (R2 va Hva).
    - intros a. rewrite Hlu. case_decide; [lia|apply R3]. }
  rewrite (bind_ok _ _ _ _ _ (onu_ok _ _ _ _ E2)).
  rewrite (bind_ok _ _ _ _ _ (block_is_mapped_ok (set_us u s1) n Hru HnB)). cbn [us set_us]. rewrite Hpu, decide_True by done.
  exists (set_us u s1). split; [done|]. apply (disk_rel_set C); try done.
  - intros x Hx. rewrite <- (dr_content C s1 Hr1 x Hx). unfold content. rewrite Hpu. case_decide as E.
    + change (has 0 PTE_V) with false. cbn [medium u set_um set_upt set_uref].
      destruct (has (pte_at (us s1) _) PTE_V) eqn:Hv1; [|done]. rewrite (present_content C s1 x) by done.
      change (medium u) with (medium (us s1)). rewrite Hm, decide_True; [done| |done].
      rewrite !disk_page in E by lia. lia.
    + change (medium u) with (medium (us s1)). case_match; [|done]. apply load8_load. by rewrite Hlu, decide_False by done.
  - intros x Hx. unfold present. rewrite Hpu. case_decide; [done|]. intros Hpx Hdx. change (medium u) with (medium (us s1)).
    rewrite (load8_load (um (us s1))) by (by rewrite Hlu, decide_False). by apply (dr_clean C s1 Hr1).
  - intros x Hx. unfold present. rewrite Hpu, decide_False; [by apply (dr_meta C s1 Hr1)|].
    rewrite !disk_page by lia. intros E. assert (x / 4096 = n) as Hxn by lia. apply block_pos in Hxn; lia.
Qed.

Lemma fs_sync_ok C s : sane C → disk_rel C s →
  ∃ s', fs_sync s = Ok tt s' ∧ disk_rel C s' ∧
    ∀ x, 0 ≤ x < 4096 * nblocks_of C → load8 (medium (us s')) x = C x.
Proof.
  intros Hs Hr. destruct (meta_bounds C Hs) as [Hm1 Hm2]. unfold fs_sync.
  rewrite (bind_ok _ _ _ _ _ (nblocks_ok C s Hs Hr)).
  destruct (for_each_inv (λ l s', disk_rel C s' ∧ ∀ x, 0 ≤ x < DISKMAX → x / 4096 ∈ l → load8 (medium (us s')) x = C x)
    (seqZ 0 (nblocks_of C)) (λ i, d <- block_is_dirty i ;; if d : bool then write_block i else ret tt)) with (s := s)
    as (s' & E & Hr' & Hm); [| |].
  - intros l i rest s1 Hl [Hr1 Hm]. assert (Hi : i ∈ seqZ 0 (nblocks_of C)) by (rewrite Hl; set_solver).
    apply elem_of_seqZ in Hi. destruct (flush_ok C s1 i Hr1) as (s2 & E2 & Hr2 & _ & _ & Hx2); [change NBLOCKS with 262144; lia|].
    exists s2. split_and!; [done|done|]. intros x Hx Hin. rewrite Hx2 by done. case_decide; [done|]. apply Hm; set_solver.
  - split; [done|]. set_solver.
  - exists s'. split_and!; [done|done|]. intros x Hx. apply Hm; [change DISKMAX with 1073741824; lia|].
    apply elem_of_seqZ. pose proof (Z.div_pos x 4096). pose proof (Z.div_lt_upper_bound x 4096 (nblocks_of C)). lia.
Qed.

(** ** Sequences of operations *)

Inductive cache_op :=
| CRead (n : Z)
| CStore (n i b : Z)
| CWrite (n : Z)
| CEvict (n : Z)
| CSync.

Definition run_op (op : cache_op) : M fsrv unit :=
  match op with
  | CRead n => _ <- read_block n ;; ret tt
  | CStore n i b => '(blk, _) <- read_block n ;; onu (st8 (blk + i) b)
  | CWrite n => _ <- read_block n ;; write_block n
  | CEvict n => _ <- read_block n ;; unmap_block n
  | CSync => fs_sync
  end.

(** What an operation does to the bytes of the disk, and when it may be used:
    on blocks in use, and not on superblock and bitmap if it changes or evicts *)
Definition spec_op (C : Z → Z) (op : cache_op) : Z → Z :=
  match op with CStore n i b => put C (4096 * n + i) b | _ => C end.

Definition legal (C : Z → Z) (op : cache_op) : Prop :=
  match op with
  | CRead n | CWrite n => 0 ≤ n < nblocks_of C ∧ free_of C n = false
  | CStore n i _ => meta_end C ≤ n < nblocks_of C ∧ free_of C n = false ∧ 0 ≤ i < 4096
  | CEvict n => meta_end C ≤ n < nblocks_of C ∧ free_of C n = false
  | CSync => True
  end.

Lemma spec_meta C op : legal C op → same_meta C (spec_op C op).
Proof. destruct op; intros Hl; try done. apply put_meta. cbn in Hl. lia. Qed.

Lemma legal_meta C C' op : sane C → same_meta C C' → legal C op → legal C' op.
Proof.
  intros Hs Hm. destruct (same_meta_sane C C' Hs Hm) as [_ Hme]. pose proof (meta_bounds C Hs).
  destruct op; cbn; rewrite ?Hme, ?(same_meta_nblocks C C') by done; try done;
    intros Hl; rewrite (same_meta_free C C') by (done || lia); done.
Qed.

Lemma run_op_ok C s op : sane C → disk_rel C s → legal C op →
  ∃ s', run_op op s = Ok tt s' ∧ disk_rel (spec_op C op) s'.
Proof.
  intros Hs Hr Hl. destruct (meta_bounds C Hs) as [Hm1 Hm2]. destruct op as [n|n i b|n|n|]; cbn in *.
  - destruct Hl as [Hn Hf]. destruct (read_block_ok C s n) as (s1 & new & E & Hr1 & _); try done.
    exists s1. by rewrite (bind_ok _ _ _ _ _ E).
  - destruct Hl as (Hn & Hf & Hi). destruct (read_block_ok C s n) as (s1 & new & E & Hr1 & Hp & _); [done|done|lia|done|].
    rewrite (bind_ok _ _ _ _ _ E), <- Z.add_assoc.
    destruct (store_ok C s1 (4096 * n + i) b) as (s2 & E2 & Hr2); [done|done| | |by exists s2].
    + change DISKMAX with 1073741824. lia.
    + apply (present_page _ (4096 * n)); [lia|lia| |done]. rewrite page_span; [done| |lia].
      rewrite Z.mul_comm, Z.mod_mul by lia. lia.
  - destruct Hl as [Hn Hf]. destruct (read_block_ok C s n) as (s1 & new & E & Hr1 & Hp & _); try done.
    rewrite (bind_ok _ _ _ _ _ E). destruct (write_block_ok C s1 n Hr1) as (s2 & E2 & Hr2 & _); [|done|by exists s2].
    change NBLOCKS with 262144. lia.
  - destruct Hl as [Hn Hf]. destruct (read_block_ok C s n) as (s1 & new & E & Hr1 & Hp & _); [done|done|lia|done|].
    rewrite (bind_ok _ _ _ _ _ E). by apply unmap_block_ok.
  - destruct (fs_sync_ok C s Hs Hr) as (s1 & E & Hr1 & _). by exists s1.
Qed.

Lemma run_ops_ok ops C s : sane C → disk_rel C s → Forall (legal C) ops →
  ∃ s', for_each ops run_op s = Ok tt s' ∧ disk_rel (fold_left spec_op ops C) s' ∧
    same_meta C (fold_left spec_op ops C).
Proof.
  revert C s. induction ops as [|op ops IH]; intros C s Hs Hr Hl; cbn [for_each fold_left]; [by exists s|].
  apply Forall_cons in Hl as [Ho Hl]. destruct (run_op_ok C s op Hs Hr Ho) as (s1 & E1 & Hr1).
  pose proof (spec_meta C op Ho) as Hm. destruct (same_meta_sane C (spec_op C op) Hs Hm) as [Hs1 Hme].
  destruct (IH (spec_op C op) s1 Hs1 Hr1) as (s2 & E2 & Hr2 & Hm2).
  { apply (Forall_impl _ _ _ Hl). intros o. by apply legal_meta. }
  exists s2. rewrite (bind_ok _ _ _ _ _ E1). split_and!; [done|done|].
  intros x Hx. rewrite Hm2 by (by rewrite Hme). by apply Hm.
Qed.

(** C33. The block cache does not change the disk: after any sequence of
    reading, changing, writing back, evicting and synchronising blocks in use
    (read_block, write_block, unmap_block and fs_sync, over ide_read and
    ide_write), the bytes the server sees are those before with exactly the
    changes made, whatever was evicted and read again in between; and after
    fs_sync the device holds these bytes.  The server never panics. *)
Theorem block_cache_transparent C s ops :
  sane C → disk_rel C s → Forall (legal C) ops →
  ∃ s', for_each ops run_op s = Ok tt s' ∧ disk_rel (fold_left spec_op ops C) s' ∧
    ∃ s'', fs_sync s' = Ok tt s'' ∧
      ∀ x, 0 ≤ x < 4096 * nblocks_of C → load8 (medium (us s'')) x = fold_left spec_op ops C x.
Proof.
  intros Hs Hr Hl. destruct (run_ops_ok ops C s Hs Hr Hl) as (s1 & E1 & Hr1 & Hm).
  exists s1. split_and!; [done|done|]. destruct (same_meta_sane C _ Hs Hm) as [Hs1 _].
  destruct (fs_sync_ok _ s1 Hs1 Hr1) as (s2 & E2 & _ & Hmed). exists s2. split; [done|].
  intros x Hx. apply Hmed. by rewrite (same_meta_nblocks C).
Qed.
End cache.

(** * An example *)

(** Memory whose words have 32 bits, page by page *)
Definition words32 (m : memory) : Prop := map_Forall (λ _ p, map_Forall (λ _ w, 0 ≤ w < 2 ^ 32) p) m.

Lemma wf_words m : words32 m → wf_mem m.
Proof.
  intros Hm a. unfold load, word, pg. destruct (m !! PPN a) as [p|] eqn:Ep; cbn; [|rewrite lookup_empty; cbn; lia].
  destruct (p !! widx a) as [w|] eqn:Ew; cbn; [|lia]. exact (Hm _ p Ep _ w Ew).
Qed.

(** The disk [m] with superblock and one block of bitmap cached; [extra] are
    other pages of the server. *)
Definition mounted (m extra : memory) (dirs : gset Z) : fsrv :=
  MkFsrv (MkUenv (<[65537 := pg m 1]> (<[65538 := pg m 2]> extra))
            (<[65537 := 23]> (<[65538 := 23]> ((λ _, 23) <$> extra))) ({[64]} ∪ dirs) ∅ [] [] [] [] m)
    (DISKMAP + 4096) (DISKMAP + 8192) ∅.

Lemma mounted_rel m extra dirs : words32 m → words32 extra → meta_end (load8 m) = 3 →
  map_Forall (λ p _, (p < 65536 ∨ 327680 ≤ p) ∧ p / 1024 mod 1024 ∈ dirs) extra →
  disk_rel (load8 m) (mounted m extra dirs).
Proof.
  intros Hm He Hme Hd. set (u := us (mounted m extra dirs)).
  assert (Hpte : ∀ va, pte_at u va = if decide (va / 4096 = 65537 ∨ va / 4096 = 65538 ∨ is_Some (extra !! (va / 4096))) then 23 else 0).
  { intros va. unfold pte_at. rewrite VPN_page. cbn [u us mounted upt]. rewrite !lookup_insert, lookup_fmap.
    destruct (decide (65537 = va / 4096)); [by rewrite decide_True by (left; lia)|].
    destruct (decide (65538 = va / 4096)); [by rewrite decide_True by (right; left; lia)|].
    destruct (extra !! (va / 4096)) eqn:Ee; cbn; [by rewrite decide_True by eauto|].
    rewrite decide_False; [done|]. intros [? | [? | [p Ep]]]; [lia|lia|congruence]. }
  assert (Hpg : ∀ x, 0 ≤ x → x / 4096 = 1 ∨ x / 4096 = 2 → load8 (um u) (DISKMAP + x) = load8 m x).
  { intros x Hx Hp. rewrite !load8_byte. f_equal;
      [|replace (DISKMAP + x) with (x + 67108864 * 4) by (unfold DISKMAP; lia); by rewrite Z.mod_add by lia].
    rewrite !load_addr, !Z.div_div by lia. change (4 * 1024) with 4096.
    assert ((DISKMAP + x) / 4 mod 1024 = x / 4 mod 1024) as ->.
    { unfold DISKMAP. replace (0x10000000 + x) with (x + 67108864 * 4) by lia. rewrite Z.div_add by lia.
      replace 67108864 with (65536 * 1024) by done. by rewrite Z.mod_add by lia. }
    f_equal. rewrite disk_page by done. unfold pg at 1. cbn [um u us mounted]. rewrite !lookup_insert.
    by destruct Hp as [-> | ->]. }
  assert (Hv : ∀ va, has (pte_at u va) PTE_V = true → va / 4096 = 65537 ∨ va / 4096 = 65538 ∨ is_Some (extra !! (va / 4096))).
  { intros va. rewrite Hpte. case_decide; [done|]. by change (has 0 PTE_V) with false. }
  assert (Hdisk : ∀ x, 0 ≤ x < DISKMAX → has (pte_at u (DISKMAP + x)) PTE_V = true → x / 4096 = 1 ∨ x / 4096 = 2).
  { intros x Hx Hp. change DISKMAX with 1073741824 in Hx. pose proof (Z.div_pos x 4096).
    pose proof (Z.div_lt_upper_bound x 4096 262144). destruct (Hv _ Hp) as [E|[E|[p E]]]; [| |destruct (Hd _ _ E) as [Hr _]];
      rewrite disk_page in * by lia; lia. }
  assert (Hpm : ∀ k, words32 m → map_Forall (λ _ w, 0 ≤ w < 2 ^ 32) (pg m k)).
  { intros k Hw. unfold pg. destruct (m !! k) as [p|] eqn:E; cbn; [exact (Hw k p E)|apply map_Forall_empty]. }
  split.
  - split; [done| |].
    + intros va Hva. apply bool_decide_eq_true. cbn [us mounted updirs u]. rewrite PDX_page.
      destruct (Hv va Hva) as [-> | [-> | [p E]]]; [set_solver|set_solver|]. destruct (Hd _ _ E). set_solver.
    + apply wf_words. cbn [us mounted um]. repeat apply map_Forall_insert_2; auto.
  - intros x Hx. unfold content. fold u. destruct (has _ _) eqn:E; [|done]. apply Hpg; [lia|]. by apply Hdisk.
  - intros x Hx Hp _. apply Hpg; [lia|]. by apply Hdisk.
  - done.
  - done.
  - intros x Hx. rewrite Hme in Hx. unfold present. fold u. rewrite Hpte, decide_True; [done|].
    rewrite disk_page by lia. pose proof (Z.div_le_mono 4096 x 4096). pose proof (Z.div_lt_upper_bound x 4096 3).
    change (4096 / 4096) with 1 in *. lia.
Qed.

(** A disk of 8 blocks of which 0 to 3 are in use *)
Definition w_super : page := <[1 := 8]> ∅.
Definition w_bits : page := <[0 := 0xf0]> ∅.
Definition w_data : page := <[0 := 0x44434241]> ∅.
Definition w_medium : memory := <[1 := w_super]> (<[2 := w_bits]> (<[3 := w_data]> ∅)).
Definition w_server : fsrv := mounted w_medium ∅ ∅.

(** Facts about the finite maps of examples *)
Ltac all_words := repeat first [apply map_Forall_insert_2 | apply map_Forall_empty]; try (clear; lia).

Lemma w_server_rel : disk_rel (load8 w_medium) w_server.
Proof. apply mounted_rel; [all_words|all_words|done|apply map_Forall_empty]. Qed.

(** A byte is changed, the block evicted and read again, then all is synced. *)
Lemma block_cache_transparent_witness :
  let M := ramdisk in
  ∃ s', for_each [CStore 3 1 90; CEvict 3; CRead 3] run_op w_server = Ok tt s' ∧
    ∃ s'', fs_sync s' = Ok tt s'' ∧ load8 (medium (us s'')) (4096 * 3 + 1) = 90.
Proof.
  destruct (block_cache_transparent (machine := ramdisk) (device := ramdisk_device) eq_refl (load8 w_medium) w_server
    [CStore 3 1 90; CEvict 3; CRead 3]) as (s1 & E1 & _ & s2 & E2 & Hm).
  - split; by vm_compute.
  - apply w_server_rel.
  - repeat constructor; by vm_compute.
  - exists s1. split; [exact E1|]. exists s2. split; [exact E2|]. specialize (Hm (4096 * 3 + 1)). change (nblocks_of (load8 w_medium)) with 8 in Hm.
    rewrite Hm by (clear; lia). reflexivity.
Defined.
