(* ===== verification/FsProps.v ===== *)
(** The file system on the bytes of the disk: allocation of blocks in the
    bitmap, directories and paths (fs/fs.c). *)
From S2P Require Import Prelude Mmu Memory Strings StringsProps PmapSpec Syscall Uenv Fs IdeProps CacheProps.

(** * Words of an array of bytes *)

Definition put_word (C : Z → Z) (x w : Z) : Z → Z := λ y, if decide (x ≤ y < x + 4) then byte_of w (y - x) else C y.

Lemma le32_put C x w : 0 ≤ w < 2 ^ 32 → le32 (put_word C x w) x = w.
Proof.
  intros Hw. unfold le32, put_word. rewrite !decide_True by lia.
  replace (x - x) with 0 by lia. replace (x + 1 - x) with 1 by lia. replace (x + 2 - x) with 2 by lia.
  replace (x + 3 - x) with 3 by lia. by apply sum_bytes.
Qed.

Lemma le32_put_other C x w y : y + 4 ≤ x ∨ x + 4 ≤ y → le32 (put_word C x w) y = le32 C y.
Proof. intros Hy. apply le32_ext. intros j Hj. unfold put_word. by rewrite decide_False by lia. Qed.

Lemma word_at x y : x mod 4 = 0 → x / 4 = y / 4 ↔ x ≤ y < x + 4.
Proof.
  intros Hx. pose proof (Z.div_mod x 4). pose proof (Z.div_mod y 4). pose proof (Z.mod_pos_bound y 4). lia.
Qed.

Section fs.
Context {machine : Machine} {frames : Frames} {device : BlockDevice} (Hdirty : hw_dirty = true).

Lemma aligned_disk x : x mod 4 = 0 → (DISKMAP + x) mod 4 = 0.
Proof. intros Hx. replace (DISKMAP + x) with (x + 67108864 * 4) by (unfold DISKMAP; lia). by rewrite Z.mod_add by lia. Qed.

Lemma aligned_page x y : 0 ≤ x → x mod 4 = 0 → x ≤ y < x + 4 → y / 4096 = x / 4096.
Proof.
  intros H0 Hx Hy. replace 4096 with (4 * 1024) by done. rewrite <- !Z.div_div by lia.
  f_equal. symmetry. by apply word_at.
Qed.

(** Storing an aligned word in a cached block *)
Lemma st_word_ok C s x w : disk_rel C s → 0 ≤ x < DISKMAX → x mod 4 = 0 → present (us s) x →
  nblocks_of (put_word C x (u32 w)) = nblocks_of C →
  ∃ s', onu (st (DISKMAP + x) w) s = Ok tt s' ∧ disk_rel (put_word C x (u32 w)) s' ∧ kept (us s) (us s') ∧
    (∀ y, present (us s) y → present (us s') y) ∧ opentab s' = opentab s.
Proof.
  intros Hr Hx H4 Hp Hn. pose proof (dr_ready C s Hr) as Hrd. pose proof (aligned_disk x H4) as H4'.
  assert (Ha : ∀ y, (DISKMAP + x) / 4 = (DISKMAP + y) / 4 ↔ x ≤ y < x + 4) by (intros y; rewrite word_at by done; lia).
  destruct (change_ok Hdirty C (put_word C x (u32 w)) s x (store (DISKMAP + x) w (um (us s)))) as (R1 & R2 & R3);
    [done|done|done|by apply wf_store, Hrd|..|done|].
  - intros y Hy E. rewrite load8_store. unfold put_word. destruct (decide (x ≤ y < x + 4)) as [Hw|Hw].
    + rewrite decide_True by (by apply Ha). f_equal. pose proof (Z.div_mod x 4).
      symmetry. apply (Z.mod_unique (DISKMAP + y) 4 ((DISKMAP + x) / 4)); [lia|].
      pose proof (Z.div_mod (DISKMAP + x) 4). lia.
    + rewrite decide_False by (by rewrite Ha). apply (present_content C); [done| |].
      * apply block_pos in E; [|done]. change DISKMAX with 1073741824 in *.
        assert (x / 4096 < 262144) by (apply Z.div_lt_upper_bound; lia). lia.
      * apply (present_page _ x); [lia|lia|congruence|done].
  - intros a Hne. rewrite load8_store, decide_False; [done|]. intros E. apply Hne.
    replace 4096 with (4 * 1024) by done. rewrite <- !Z.div_div by lia. by rewrite E.
  - intros y Hy Hne. unfold put_word. rewrite decide_False; [done|]. intros Hw. apply Hne. apply aligned_page; [lia|done|done].
  - eexists. split_and!; [exact (onu_ok _ _ _ _ (st_ok (us s) (DISKMAP + x) w ltac:(by rewrite mapped_pte)))|done..].
Qed.

(** * The bitmap *)

Definition word_x (n : Z) : Z := 8192 + 4 * (n / 32).
Definition bit_of (n : Z) : Z := Z.shiftl 1 (n mod 32).

Lemma mod32 n : 0 ≤ n mod 32 < 32.
Proof. apply Z.mod_pos_bound. lia. Qed.

Lemma free_testbit C n : free_of C n = Z.testbit (word_of C n) (n mod 32).
Proof.
  unfold free_of. apply has_bit. apply mod32.
Qed.

Lemma nblocks_word C n w : 0 ≤ n → nblocks_of (put_word C (word_x n) w) = nblocks_of C.
Proof. intros Hn. apply le32_put_other. unfold word_x. pose proof (Z.div_pos n 32). lia. Qed.

Lemma free_put C n m w : 0 ≤ w < 2 ^ 32 → free_of (put_word C (word_x n) w) m =
  if decide (n / 32 = m / 32) then Z.testbit w (m mod 32) else free_of C m.
Proof.
  intros Hw. rewrite !free_testbit. unfold word_of. fold (word_x m). case_decide as E.
  - assert (word_x m = word_x n) as -> by (unfold word_x; lia). by rewrite le32_put.
  - rewrite le32_put_other; [done|]. unfold word_x. lia.
Qed.

Lemma same_bit n m : n / 32 = m / 32 → n mod 32 = m mod 32 → m = n.
Proof. pose proof (Z.div_mod n 32). pose proof (Z.div_mod m 32). lia. Qed.

Lemma le32_bound C s x : disk_rel C s → 0 ≤ x → x + 3 < DISKMAX → 0 ≤ le32 C x < 2 ^ 32.
Proof.
  intros Hr H0 Hx. assert (Hb : ∀ y, 0 ≤ y < DISKMAX → 0 ≤ C y < 256).
  { intros y Hy. rewrite <- (dr_content C s Hr y Hy). unfold content. case_match; apply load8_bound. }
  unfold le32. pose proof (Hb x). pose proof (Hb (x + 1)). pose proof (Hb (x + 2)). pose proof (Hb (x + 3)). lia.
Qed.

Lemma word_bound C s n : sane C → disk_rel C s → 0 ≤ n < nblocks_of C → 0 ≤ word_of C n < 2 ^ 32.
Proof. intros Hs Hr Hn. destruct (word_pos C n Hs Hn) as (H1 & H2 & _). apply (le32_bound C s); [done|lia|done]. Qed.

Lemma set_bitmap_word_ok C s n w : sane C → disk_rel C s → 0 ≤ n < nblocks_of C → 0 ≤ w < 2 ^ 32 →
  ∃ s', set_bitmap_word n w s = Ok tt s' ∧ disk_rel (put_word C (word_x n) w) s' ∧ kept (us s) (us s') ∧
    (∀ y, present (us s) y → present (us s') y) ∧ opentab s' = opentab s.
Proof.
  intros Hs Hr Hn Hw. destruct (word_pos C n Hs Hn) as (H1 & H2 & H3 & H4). fold (word_x n) in *.
  unfold set_bitmap_word. step. rewrite (dr_bitmap C s Hr), <- Z.add_assoc. fold (word_x n).
  destruct (st_word_ok C s (word_x n) w) as (s' & Hst); [done|lia|done| | |].
  - apply (dr_meta C s Hr). lia.
  - apply nblocks_word. lia.
  - exists s'. by rewrite u32_small in Hst.
Qed.

Lemma sane_put C n w : 0 ≤ n → sane C → sane (put_word C (word_x n) w).
Proof. intros Hn Hs. unfold sane, meta_end. by rewrite nblocks_word. Qed.

(** The bitmap without the bit of [n], and with it *)
Definition taken (C : Z → Z) (n : Z) : Z → Z := put_word C (word_x n) (Z.land (word_of C n) (not32 (bit_of n))).
Definition released (C : Z → Z) (n : Z) : Z → Z := put_word C (word_x n) (Z.lor (word_of C n) (bit_of n)).

Lemma bit_bound n : 0 ≤ bit_of n < 2 ^ 32.
Proof.
  unfold bit_of. pose proof (mod32 n). rewrite Z.shiftl_1_l. split; [by apply Z.pow_nonneg|].
  apply Z.pow_lt_mono_r; lia.
Qed.

Lemma taken_bound C n : 0 ≤ Z.land (word_of C n) (not32 (bit_of n)) < 2 ^ 32.
Proof. apply land_bound; [lia|apply u32_bound]. Qed.

Lemma free_taken C n m : 0 ≤ n → 0 ≤ m → free_of (taken C n) m = free_of C m && negb (m =? n).
Proof.
  intros Hn Hm. unfold taken. rewrite free_put by apply taken_bound. case_decide as E.
  - rewrite Z.land_spec, free_testbit. unfold word_of, bit_of. rewrite E. f_equal.
    rewrite testbit_not32_pow by apply mod32. f_equal. pose proof (same_bit n m E).
    destruct (Z.eqb_spec (n mod 32) (m mod 32)), (Z.eqb_spec m n); subst; tauto.
  - destruct (Z.eqb_spec m n) as [->|]; [done|]. by rewrite andb_true_r.
Qed.

Lemma free_released C n m : 0 ≤ word_of C n < 2 ^ 32 → free_of (released C n) m = free_of C m || (m =? n).
Proof.
  intros Hw. unfold released. rewrite free_put by (apply lor_bound; [lia|done|apply bit_bound]). case_decide as E.
  - rewrite Z.lor_spec, free_testbit. unfold word_of, bit_of. rewrite E. f_equal. pose proof (mod32 n). pose proof (mod32 m).
    rewrite Z.shiftl_1_l, Z.pow2_bits_eqb by lia. pose proof (same_bit n m E).
    destruct (Z.eqb_spec (n mod 32) (m mod 32)), (Z.eqb_spec m n); subst; tauto.
  - destruct (Z.eqb_spec m n) as [->|]; [done|]. by rewrite orb_false_r.
Qed.

(** The first free block from [b] on *)
Fixpoint first_free (C : Z → Z) (n : nat) (b : Z) : option Z :=
  match n with
  | O => None
  | S n' => if free_of C b then Some b else first_free C n' (b + 1)
  end.

Lemma alloc_loop_ok C s fuel k b : sane C → disk_rel C s → 3 ≤ b → b + Z.of_nat k = nblocks_of C → (k < fuel)%nat →
  match first_free C k b with
  | Some n => ∃ s', alloc_block_num_loop fuel b s = Ok n s' ∧ disk_rel (taken C n) s' ∧ kept (us s) (us s') ∧
      opentab s' = opentab s ∧
      ∀ x, 0 ≤ x < DISKMAX → x / 4096 = n / BIT2BLK + 2 → load8 (medium (us s')) x = taken C n x
  | None => alloc_block_num_loop fuel b s = Err (- E_NO_DISK) s
  end.
Proof.
  revert fuel b. induction k as [|k IH]; intros [|fuel] b Hs Hr Hb Hk Hf; try lia; cbn [first_free].
  - cbn [alloc_block_num_loop]. rewrite (bind_ok _ _ _ _ _ (nblocks_ok C s Hs Hr)).
    by rewrite (proj2 (Z.ltb_ge _ _)) by lia.
  - cbn [alloc_block_num_loop]. rewrite (bind_ok _ _ _ _ _ (nblocks_ok C s Hs Hr)).
    rewrite (proj2 (Z.ltb_lt _ _)) by lia. rewrite (bind_ok _ _ _ _ _ (bitmap_word_ok C s b Hs Hr ltac:(lia))).
    fold (bit_of b). change (has (word_of C b) (bit_of b)) with (free_of C b). destruct (free_of C b).
    2: { apply IH; try done; lia. }
    destruct (set_bitmap_word_ok C s b (Z.land (word_of C b) (not32 (bit_of b)))) as (s1 & E1 & Hr1 & Hk1 & Hp1 & Ho1);
      [done|done|lia|apply taken_bound|].
    rewrite (bind_ok _ _ _ _ _ E1). fold (taken C b) in Hr1. destruct (meta_bounds C Hs) as [Hm1 Hm2].
    assert (Hbb : 2 ≤ b / BIT2BLK + 2 < meta_end C).
    { unfold meta_end. change BIT2BLK with 32768. pose proof (Z.div_pos b 32768).
      pose proof (Z.div_le_mono b (nblocks_of C) 32768). lia. }
    destruct (write_block_ok (taken C b) s1 (b / BIT2BLK + 2) Hr1) as (s2 & E2 & Hr2 & Hv & Ho2 & Hm).
    + change NBLOCKS with 262144. lia.
    + apply Hp1, (dr_meta C s Hr). lia.
    + exists s2. rewrite (bind_ok _ _ _ _ _ E2). split_and!; [done|done| | |].
      * by eapply kept_trans, off_view_kept.
      * by rewrite Ho2.
      * intros x Hx Hb'. by rewrite Hm, decide_True.
Qed.

Lemma first_free_spec C k b n : first_free C k b = Some n →
  b ≤ n < b + Z.of_nat k ∧ free_of C n = true ∧ ∀ m, b ≤ m < n → free_of C m = false.
Proof.
  revert b. induction k as [|k IH]; intros b; cbn [first_free]; [done|]. destruct (free_of C b) eqn:E.
  - intros [= <-]. split_and!; [lia|lia|done|lia].
  - intros Hf. destruct (IH _ Hf) as (H1 & H2 & H3). split_and!; [lia|lia|done|]. intros m Hm.
    destruct (decide (m = b)) as [->|]; [done|]. apply H3. lia.
Qed.

Lemma first_free_none C k b : first_free C k b = None → ∀ m, b ≤ m < b + Z.of_nat k → free_of C m = false.
Proof.
  revert b. induction k as [|k IH]; intros b; cbn [first_free]; [lia|]. destruct (free_of C b) eqn:E; [done|].
  intros Hf m Hm. destruct (decide (m = b)) as [->|]; [done|]. apply (IH _ Hf). lia.
Qed.

Lemma alloc_block_num_ok C s : sane C → disk_rel C s →
  match first_free C (Z.to_nat (nblocks_of C - 3)) 3 with
  | Some n => ∃ s', alloc_block_num s = Ok n s' ∧ disk_rel (taken C n) s' ∧ kept (us s) (us s') ∧
      opentab s' = opentab s ∧
      ∀ x, 0 ≤ x < DISKMAX → x / 4096 = n / BIT2BLK + 2 → load8 (medium (us s')) x = taken C n x
  | None => alloc_block_num s = Err (- E_NO_DISK) s
  end.
Proof.
  intros Hs Hr. destruct (meta_bounds C Hs) as [Hm1 Hm2]. unfold alloc_block_num.
  rewrite (bind_ok _ _ _ _ _ (nblocks_ok C s Hs Hr)). apply alloc_loop_ok; [done|done|lia|lia|lia].
Qed.

Lemma free_block_ok C s n : sane C → disk_rel C s → 0 < n < nblocks_of C →
  ∃ s', free_block n s = Ok tt s' ∧ disk_rel (released C n) s'.
Proof.
  intros Hs Hr Hn. unfold free_block. rewrite (proj2 (Z.eqb_neq n 0)) by lia.
  rewrite (bind_ok _ _ _ _ _ (nblocks_ok C s Hs Hr)). unfold Z.geb. destruct (Z.compare_spec n (nblocks_of C)); try lia.
  cbn [orb]. rewrite (bind_ok _ _ _ _ _ (bitmap_word_ok C s n Hs Hr ltac:(lia))). fold (bit_of n).
  pose proof (word_bound C s n Hs Hr ltac:(lia)) as Hw.
  destruct (set_bitmap_word_ok C s n (Z.lor (word_of C n) (bit_of n))) as (s' & E & Hr' & _);
    [done|done|lia|apply lor_bound; [lia|done|apply bit_bound]|by exists s'].
Qed.

(** C34. Block allocation: alloc_block_num takes the first block from 3 on
    whose bit is set, clears exactly this bit and has written the bitmap block
    when it returns; without a free block it returns -E_NO_DISK and changes
    nothing.  free_block sets exactly the block's bit, so that a block given
    back and no other can be allocated again. *)
Theorem block_allocation C s :
  sane C → disk_rel C s →
  match first_free C (Z.to_nat (nblocks_of C - 3)) 3 with
  | Some n => 3 ≤ n < nblocks_of C ∧ free_of C n = true ∧ (∀ m, 3 ≤ m < n → free_of C m = false) ∧
      ∃ s', alloc_block_num s = Ok n s' ∧ disk_rel (taken C n) s' ∧
        (∀ m, 0 ≤ m → free_of (taken C n) m = free_of C m && negb (m =? n)) ∧
        (∀ x, 0 ≤ x < DISKMAX → x / 4096 = n / BIT2BLK + 2 → load8 (medium (us s')) x = taken C n x)
  | None => alloc_block_num s = Err (- E_NO_DISK) s ∧ ∀ m, 3 ≤ m < nblocks_of C → free_of C m = false
  end ∧
  ∀ n, 0 < n < nblocks_of C → ∃ s', free_block n s = Ok tt s' ∧ disk_rel (released C n) s' ∧
    ∀ m, free_of (released C n) m = free_of C m || (m =? n).
Proof.
  intros Hs Hr. destruct (meta_bounds C Hs) as [Hm1 Hm2]. split.
  - pose proof (alloc_block_num_ok C s Hs Hr) as Ha. destruct (first_free _ _ _) as [n|] eqn:Ef.
    + destruct (first_free_spec _ _ _ _ Ef) as (F1 & F2 & F3). destruct Ha as (s' & E & Hr' & _ & _ & Hm).
      split_and!; [lia|lia|done|done|]. exists s'. split_and!; [done|done| |done]. intros m Hm0. apply free_taken; lia.
    + split; [done|]. intros m Hm. apply (first_free_none _ _ _ Ef). lia.
  - intros n Hn. destruct (free_block_ok C s n Hs Hr Hn) as (s' & E & Hr'). exists s'. split_and!; [done|done|].
    intros m. apply free_released. by apply (word_bound C s); [done|done|lia].
Qed.
End fs.

(** Blocks 0 to 3 of 8 are in use. *)
Lemma block_allocation_witness :
  let M := ramdisk in ∃ s', alloc_block_num w_server = Ok 4 s' ∧ free_of (taken (load8 w_medium) 4) 5 = true.
Proof.
  destruct (block_allocation (machine := ramdisk) (device := ramdisk_device) eq_refl (load8 w_medium) w_server) as [Ha _].
  - split; by vm_compute.
  - apply w_server_rel.
  - change (first_free (load8 w_medium) (Z.to_nat (nblocks_of (load8 w_medium) - 3)) 3) with (Some 4) in Ha.
    destruct Ha as (_ & _ & _ & s' & E & _ & Hf & _). exists s'. split; [exact E|]. rewrite Hf by (clear; lia). reflexivity.
Defined.
