(* ===== verification/PathProps.v ===== *)
(** Directories and paths of the file system: [walk_path] and [file_open] of
    fs/fs.c follow the components of the path through the directories that the
    bytes of the disk describe. *)
From S2P Require Import Prelude Mmu Memory Strings StringsProps PmapSpec Syscall Uenv Fs IdeProps CacheProps FsProps.

(** * Files in an array of bytes *)

(** [struct File] at position [f] *)
Definition fsize (C : Z → Z) (f : Z) : Z := le32 C (f + 128).
Definition ftype (C : Z → Z) (f : Z) : Z := le32 C (f + 132).
Definition findirect (C : Z → Z) (f : Z) : Z := le32 C (f + 176).
(** The block of the disk with block [i] of the file *)
Definition fblock (C : Z → Z) (f i : Z) : Z :=
  if i <? NDIRECT then le32 C (f + 136 + 4 * i) else le32 C (4096 * findirect C f + 4 * i).

(** The string at [x], of at most [n] bytes *)
Fixpoint string_at (C : Z → Z) (n : nat) (x : Z) : list Z :=
  match n with
  | O => []
  | S n' => if C x =? 0 then [] else C x :: string_at C n' (x + 1)
  end.
Definition entry_name (C : Z → Z) (e : Z) : list Z := string_at C 128 e.

(** The entries of a directory, in the order of the code *)
Definition block_entries (b : Z) : list Z := map (λ j, 4096 * b + 256 * j) (seqZ 0 16).
Definition dir_blocks (C : Z → Z) (f : Z) : list Z := map (fblock C f) (seqZ 0 (fsize C f / 4096)).
Definition entries (C : Z → Z) (f : Z) : list Z := concat (map block_entries (dir_blocks C f)).
Definition find_entry (C : Z → Z) (f : Z) (name : list Z) : option Z :=
  find (λ e, bool_decide (entry_name C e = name)) (entries C f).

(** The components of a path *)
Definition flush (cur : list Z) : list (list Z) := match cur with [] => [] | _ => [cur] end.
Fixpoint pieces (cur l : list Z) : list (list Z) :=
  match l with
  | [] => flush cur
  | c :: l' => if c =? 47 then flush cur ++ pieces [] l' else pieces (cur ++ [c]) l'
  end.
Definition components (l : list Z) : list (list Z) := pieces [] l.

(** Following components from [f]: the error or 0, the directory and the file,
    as addresses of the server *)
Definition at_disk (f : Z) : Z := DISKMAP + f.
Fixpoint follow (C : Z → Z) (dir f : Z) (path : list (list Z)) : Z * Z * Z :=
  match path with
  | [] => (0, dir, at_disk f)
  | name :: rest =>
      if 128 <=? Z.of_nat (length name) then (- E_BAD_PATH, 0, 0)
      else if negb (ftype C f =? FTYPE_DIR) then (- E_NOT_FOUND, 0, 0)
      else match find_entry C f name with
           | Some e => follow C (at_disk f) e rest
           | None => if bool_decide (rest = []) then (- E_NOT_FOUND, at_disk f, 0) else (- E_NOT_FOUND, 0, 0)
           end
  end.
Definition ROOT : Z := 4096 + 8.

(** ** Components *)

Fixpoint skip (l : list Z) : list Z :=
  match l with c :: l' => if c =? 47 then skip l' else l | [] => [] end.
Fixpoint elem (l : list Z) : list Z * list Z :=
  match l with
  | [] => ([], [])
  | c :: l' => if c =? 47 then ([], l) else let '(e, r) := elem l' in (c :: e, r)
  end.

Lemma pieces_skip l : pieces [] (skip l) = pieces [] l.
Proof. induction l as [|c l IH]; cbn; [done|]. destruct (c =? 47) eqn:E; [done|]. cbn. by rewrite E. Qed.

Lemma pieces_elem cur l : pieces cur l = flush (cur ++ (elem l).1) ++ pieces [] (skip (elem l).2).
Proof.
  revert cur. induction l as [|c l IH]; intros cur; cbn [pieces elem].
  - cbn. by rewrite !app_nil_r.
  - destruct (c =? 47) eqn:E.
    + cbn [fst snd skip]. by rewrite app_nil_r, E, pieces_skip.
    + rewrite IH. destruct (elem l) as [e r]. cbn. by rewrite <- app_assoc.
Qed.

Lemma elem_app l : l = (elem l).1 ++ (elem l).2.
Proof. induction l as [|c l IH]; cbn; [done|]. destruct (c =? 47); [done|]. destruct (elem l). cbn in *. by f_equal. Qed.

Lemma skip_suffix l : ∃ p, l = p ++ skip l.
Proof.
  induction l as [|c l [p IH]]; cbn; [by exists []|]. destruct (c =? 47); [exists (c :: p); cbn; by f_equal|by exists []].
Qed.

Lemma skip_head l c r : skip l = c :: r → c ≠ 47.
Proof. induction l as [|d l IH]; cbn; [done|]. destruct (Z.eqb_spec d 47); [done|]. by intros [= <- _]. Qed.

Lemma components_cons l c r : skip l = c :: r →
  ∃ e, elem (c :: r) = (c :: e, (elem (c :: r)).2) ∧
    components l = (c :: e) :: components (skip (elem (c :: r)).2).
Proof.
  intros Hs. pose proof (skip_head _ _ _ Hs) as Hc. unfold components. rewrite <- pieces_skip, Hs.
  rewrite (pieces_elem [] (c :: r)). cbn [elem]. rewrite (proj2 (Z.eqb_neq _ _) Hc).
  destruct (elem r) as [e q]. exists e. by cbn.
Qed.

Lemma components_empty q : bool_decide (components (skip q) = []) = bool_decide (skip q = []).
Proof.
  apply bool_decide_ext. destruct (skip q) as [|c r] eqn:E; [done|].
  destruct (components_cons q c r E) as (e & _ & Hc). unfold components in Hc. rewrite <- pieces_skip, E in Hc.
  unfold components. by rewrite Hc.
Qed.

(** * Well-formed directory trees *)

(** A block in use that is not superblock or bitmap *)
Definition in_use (C : Z → Z) (b : Z) : Prop := meta_end C ≤ b < nblocks_of C ∧ free_of C b = false.

Section tree.
Context (D : Z → Prop).

(** [D] are the blocks of directories. *)
Definition is_entry (e : Z) : Prop := 0 ≤ e ∧ e mod 256 = 0 ∧ D (e / 4096).
Definition is_file (f : Z) : Prop := f = ROOT ∨ is_entry f.

Record wf_dir (C : Z → Z) (f : Z) : Prop := {
  wd_size : fsize C f / 4096 ≤ 1024;
  wd_block i : 0 ≤ i < fsize C f / 4096 → D (fblock C f i);
  wd_indirect : NDIRECT < fsize C f / 4096 → in_use C (findirect C f) ∧ ¬ D (findirect C f)
}.

Record tree (C : Z → Z) : Prop := {
  tr_use b : D b → in_use C b;
  tr_root : wf_dir C ROOT;
  tr_dirs e : is_entry e → entry_name C e ≠ [] → ftype C e = FTYPE_DIR → wf_dir C e;
  tr_names e : is_entry e → Z.of_nat (length (entry_name C e)) < 128
}.

(** [dir_lookup] writes the [f_dir] fields, which nothing here reads. *)
Definition same_tree (C C' : Z → Z) : Prop :=
  ∀ x, 0 ≤ x → C' x = C x ∨ (D (x / 4096) ∧ 180 ≤ x mod 256 < 184).

Context (C C' : Z → Z) (Hs : sane C) (Ht : tree C) (Hsame : same_tree C C').

Lemma same_outside x : 0 ≤ x → ¬ D (x / 4096) → C' x = C x.
Proof. intros Hx Hd. destruct (Hsame x Hx) as [E|[E _]]; [done|tauto]. Qed.

Lemma not_D_meta b : b < meta_end C → ¬ D b.
Proof. intros Hb Hd. destruct (tr_use C Ht b Hd) as [H1 _]. lia. Qed.

Lemma same_tree_meta : same_meta C C'.
Proof.
  intros x Hx. apply same_outside; [lia|]. apply not_D_meta. apply Z.div_lt_upper_bound; lia.
Qed.

Lemma same_field f k : is_file f → 0 ≤ k < 180 → C' (f + k) = C (f + k).
Proof.
  intros Hf Hk. destruct Hf as [->|(H0 & Hm & Hd)].
  - apply same_outside; [unfold ROOT; lia|]. destruct (meta_bounds C Hs). apply not_D_meta.
    apply Z.div_lt_upper_bound; unfold ROOT; lia.
  - destruct (Hsame (f + k)) as [E|[_ E]]; [lia|done|].
    rewrite <- (Z.mod_unique (f + k) 256 (f / 256) k) in E; [lia|lia|]. pose proof (Z.div_mod f 256). lia.
Qed.

Lemma same_field32 f k : is_file f → 0 ≤ k → k + 4 ≤ 180 → le32 C' (f + k) = le32 C (f + k).
Proof. intros Hf H0 Hk. apply le32_ext. intros j Hj. rewrite <- Z.add_assoc. apply same_field; [done|lia]. Qed.

Lemma same_fsize f : is_file f → fsize C' f = fsize C f.
Proof. intros Hf. apply same_field32; [done|lia|lia]. Qed.

Lemma same_findirect f : is_file f → findirect C' f = findirect C f.
Proof. intros Hf. apply same_field32; [done|lia|lia]. Qed.

Lemma same_fblock f i : is_file f → wf_dir C f → 0 ≤ i < fsize C f / 4096 → fblock C' f i = fblock C f i.
Proof.
  intros Hf Hw Hi. unfold fblock, NDIRECT. destruct (Z.ltb_spec i 10).
  - rewrite <- Z.add_assoc. apply same_field32; [done|lia|lia].
  - rewrite same_findirect by done. destruct (wd_indirect C f Hw) as [[Hu _] Hd]; [unfold NDIRECT; lia|].
    destruct (meta_bounds C Hs). pose proof (wd_size C f Hw). apply le32_ext. intros j Hj.
    assert ((4096 * findirect C f + 4 * i + j) / 4096 = findirect C f) as E by (apply block_pos; lia).
    apply same_outside; [lia|]. by rewrite E.
Qed.

Lemma same_string n x : (∀ k, 0 ≤ k < Z.of_nat n → C' (x + k) = C (x + k)) → string_at C' n x = string_at C n x.
Proof.
  revert x. induction n as [|n IH]; intros x Hx; cbn [string_at]; [done|].
  pose proof (Hx 0 ltac:(lia)) as E. rewrite Z.add_0_r in E. rewrite E. destruct (C x =? 0); [done|]. f_equal.
  apply IH. intros k Hk. rewrite <- Z.add_assoc. apply Hx. lia.
Qed.

Lemma same_name e : is_entry e → entry_name C' e = entry_name C e.
Proof. intros He. apply same_string. intros k Hk. apply same_field; [by right|lia]. Qed.

Lemma entry_in f e : wf_dir C f → e ∈ entries C f → is_entry e ∧ (e / 4096) ∈ dir_blocks C f.
Proof.
  intros Hw He. unfold entries in He. apply list_elem_of_In, in_concat in He as (l & Hl & He).
  apply in_map_iff in Hl as (b & <- & Hb). apply list_elem_of_In in He, Hb.
  pose proof Hb as Hb'. unfold dir_blocks in Hb'. apply list_elem_of_fmap in Hb' as (i & Hbi & Hi). apply elem_of_seqZ in Hi.
  pose proof (wd_block C f Hw i ltac:(lia)) as Hd. rewrite <- Hbi in Hd.
  unfold block_entries in He. apply list_elem_of_fmap in He as (j & -> & Hj). apply elem_of_seqZ in Hj.
  destruct (tr_use C Ht b Hd) as [Hu _]. destruct (meta_bounds C Hs).
  assert ((4096 * b + 256 * j) / 4096 = b) as E by (apply block_pos; lia).
  split; [|by rewrite E]. split_and!; [lia| |by rewrite E].
  replace (4096 * b + 256 * j) with ((16 * b + j) * 256) by lia. by apply Z.mod_mul.
Qed.

Lemma found_entry f name e : wf_dir C f → find_entry C f name = Some e → is_entry e ∧ entry_name C e = name.
Proof.
  intros Hw Hf. unfold find_entry in Hf. apply find_some in Hf as [Hin Hn]. apply bool_decide_eq_true in Hn.
  split; [|done]. by apply (entry_in f), list_elem_of_In.
Qed.

Lemma in_use_same b : in_use C b → in_use C' b ∧ sane C' ∧ meta_end C' = meta_end C ∧ nblocks_of C' = nblocks_of C.
Proof.
  intros [Hu Hf]. destruct (same_meta_sane C C' Hs same_tree_meta) as [Hs' Hme]. destruct (meta_bounds C Hs).
  pose proof (same_meta_nblocks C C' Hs same_tree_meta) as Hn. split_and!; [|done..]. split; [by rewrite Hme, Hn|].
  by rewrite (same_meta_free C C' b Hs same_tree_meta) by lia.
Qed.
End tree.

(** * The code on a well-formed tree *)

(** More blocks may be cached in [s']; other pages are the same. *)
Record grows (s s' : fsrv) : Prop := {
  gr_present x : 0 ≤ x → present (us s) x → present (us s') x;
  gr_kept : kept (us s) (us s');
  gr_opentab : opentab s' = opentab s
}.

Lemma grows_refl s : grows s s.
Proof. by split. Qed.

Lemma grows_trans s s1 s2 : grows s s1 → grows s1 s2 → grows s s2.
Proof.
  intros [P1 K1 O1] [P2 K2 O2]. split; [naive_solver|by eapply kept_trans|congruence].
Qed.

Lemma find_app {A} (p : A → bool) l1 l2 :
  find p (l1 ++ l2) = match find p l1 with Some x => Some x | None => find p l2 end.
Proof. induction l1 as [|x l1 IH]; cbn; [done|]. by destruct (p x). Qed.

Section path.
Context {machine : Machine} {frames : Frames} {device : BlockDevice} (Hdirty : hw_dirty = true).
Context (D : Z → Prop) (C : Z → Z) (Hs : sane C) (Ht : tree D C).

Lemma at_disk_add f k : at_disk f + k = at_disk (f + k).
Proof. unfold at_disk. lia. Qed.

Lemma file_pos f k : is_file D f → 0 ≤ k < 256 → (f + k) / 4096 = f / 4096 ∧ 0 ≤ f ∧ f + 256 ≤ DISKMAX ∧ f mod 4 = 0.
Proof.
  intros Hf Hk. destruct (meta_bounds C Hs). change DISKMAX with 1073741824. destruct Hf as [->|(Hge & Hm & Hd)].
  - unfold ROOT. split_and!; [|lia|lia|done]. change ((4096 + 8) / 4096) with 1. apply block_pos; lia.
  - destruct (tr_use D C Ht _ Hd) as [Hu _]. pose proof (Z.div_mod f 4096). pose proof (Z.div_mod f 256).
    pose proof (Z.mod_pos_bound f 4096). assert (f mod 4096 mod 256 = 0) as Hz.
    { rewrite <- Znumtheory.Zmod_div_mod; [done|lia|lia|]. by exists 16. }
    pose proof (Z.div_mod (f mod 4096) 256).
    split_and!; [apply page_span; lia|done|lia|]. replace f with (64 * (f / 256) * 4) by lia. by apply Z.mod_mul.
Qed.

(** Reading a word of a file *)
Lemma ld_field C' s f k : disk_rel C' s → same_tree D C C' → is_file D f → present (us s) f →
  0 ≤ k → k + 4 ≤ 180 → k mod 4 = 0 → onu (ld (at_disk f + k)) s = Ok (le32 C (f + k)) s.
Proof.
  intros Hr Hsm Hf Hp H0 Hk H4. destruct (file_pos f k Hf ltac:(lia)) as (E & Hf0 & Hmax & Hm4).
  destruct (file_pos f 255 Hf ltac:(lia)) as (E2 & _).
  rewrite at_disk_add. rewrite (onu_ok _ (le32 C (f + k)) (us s)); [by rewrite set_us_id|].
  rewrite <- (same_field32 D C C' Hs Ht Hsm f k) by (done || lia). apply disk_word; [done|lia|lia| | |].
  - pose proof (Z.div_mod (f + k) 4096). pose proof (Z.div_mod (f + 255) 4096). pose proof (Z.mod_pos_bound (f + 255) 4096). lia.
  - rewrite Z.add_mod, Hm4, H4 by lia. done.
  - apply (present_page _ f); [lia|lia|done|done].
Qed.

Lemma read_data C' s b : disk_rel C' s → same_tree D C C' → in_use C b →
  ∃ s' new, read_block b s = Ok (at_disk (4096 * b), new) s' ∧ disk_rel C' s' ∧ present (us s') (4096 * b) ∧ grows s s'.
Proof.
  intros Hr Hsm Hu. destruct (in_use_same D C C' Hs Ht Hsm b Hu) as ([H1 H2] & Hs' & _). destruct (meta_bounds C' Hs').
  destruct (read_block_ok C' s b Hs' Hr ltac:(lia) H2) as (s' & new & E & Hr' & Hp & Hmono & _ & Hk & Ho).
  exists s', new. split_and!; [done|done|done|]. by split.
Qed.

Lemma file_get_block_ok C' s f i : disk_rel C' s → same_tree D C C' → is_file D f → present (us s) f →
  wf_dir D C f → 0 ≤ i < fsize C f / 4096 →
  ∃ s', file_get_block (at_disk f) i s = Ok (at_disk (4096 * fblock C f i)) s' ∧ disk_rel C' s' ∧
    present (us s') (4096 * fblock C f i) ∧ grows s s'.
Proof.
  intros Hr Hsm Hf Hp Hw Hi. destruct (meta_bounds C Hs) as [Hm1 Hm2].
  pose proof (tr_use D C Ht _ (wd_block D C f Hw i Hi)) as Hu. pose proof Hu as [Hu1 _].
  set (ptr := if i <? NDIRECT then f + 136 + 4 * i else 4096 * findirect C f + 4 * i).
  assert (Hwalk : ∃ s1, file_block_walk (at_disk f) i true s = Ok (at_disk ptr) s1 ∧ disk_rel C' s1 ∧ grows s s1 ∧
    onu (ld (at_disk ptr)) s1 = Ok (fblock C f i) s1).
  { unfold file_block_walk, ptr. destruct (Z.ltb_spec i NDIRECT) as [Hd|Hd].
    - exists s. split_and!; [unfold ret, f_direct; f_equal; unfold at_disk; lia|done|apply grows_refl|].
      unfold NDIRECT in Hd. rewrite <- Z.add_assoc, <- at_disk_add. rewrite (ld_field C'); [|done|done|done|done|lia|lia|].
      + f_equal. unfold fblock. rewrite (proj2 (Z.ltb_lt i NDIRECT)) by (unfold NDIRECT; lia). by rewrite Z.add_assoc.
      + replace (136 + 4 * i) with ((34 + i) * 4) by lia. by apply Z.mod_mul.
    - unfold NDIRECT in Hd. pose proof (wd_size D C f Hw). destruct (wd_indirect D C f Hw) as [Hui Hnd]; [unfold NDIRECT; lia|].
      pose proof Hui as [Hui1 _]. change NINDIRECT with 1024. rewrite (proj2 (Z.ltb_lt i 1024)) by lia.
      assert (El : onu (ld (f_indirect (at_disk f))) s = Ok (findirect C f) s).
      { unfold f_indirect. by rewrite (ld_field C'). }
      rewrite (bind_ok _ _ _ _ _ El). rewrite (proj2 (Z.eqb_neq (findirect C f) 0)) by lia.
      rewrite (bind_ok _ _ tt s s) by done. rewrite (bind_ok _ _ _ _ _ El).
      destruct (read_data C' s (findirect C f) Hr Hsm Hui) as (s1 & new & E & Hr1 & Hp1 & Hg1).
      exists s1. rewrite (bind_ok _ _ _ _ _ E). split_and!; [by rewrite <- at_disk_add|done|done|].
      assert (Hq : (4096 * findirect C f + 4 * i) / 4096 = findirect C f) by (apply block_pos; lia).
      rewrite (onu_ok _ (fblock C f i) (us s1)); [by rewrite set_us_id|].
      unfold fblock. rewrite (proj2 (Z.ltb_ge i NDIRECT)) by (unfold NDIRECT; lia).
      rewrite <- (le32_ext C' C).
      + apply disk_word; [done|lia|change DISKMAX with 1073741824; lia| | |].
        * pose proof (Z.div_mod (4096 * findirect C f + 4 * i) 4096). lia.
        * replace (4096 * findirect C f + 4 * i) with ((1024 * findirect C f + i) * 4) by lia. by apply Z.mod_mul.
        * apply (present_page _ (4096 * findirect C f)); [lia|lia| |done]. rewrite Hq. by rewrite Z.mul_comm, Z.div_mul.
      + intros j Hj. apply (same_outside D C C' Hsm); [lia|].
        assert ((4096 * findirect C f + 4 * i + j) / 4096 = findirect C f) as -> by (apply block_pos; lia). done. }
  destruct Hwalk as (s1 & Ew & Hr1 & Hg1 & El).
  destruct (read_data C' s1 (fblock C f i) Hr1 Hsm Hu) as (s2 & new & E2 & Hr2 & Hp2 & Hg2).
  exists s2. split_and!; [|done|done|by eapply grows_trans].
  unfold file_get_block, file_map_block. rewrite !bind_assoc. rewrite (bind_ok _ _ _ _ _ Ew).
  rewrite bind_assoc, (bind_ok _ _ _ _ _ El), (proj2 (Z.eqb_neq _ 0)) by lia.
  rewrite bind_assoc, (bind_ok _ _ tt s1 s1) by done. rewrite (bind_ok _ _ _ _ _ El).
  by rewrite (bind_ok _ _ _ _ _ E2).
Qed.

(** ** Looking up a name *)

Lemma string_cstr m a n x : (∀ k, 0 ≤ k < Z.of_nat n → load8 m (a + k) = C (x + k)) →
  Z.of_nat (length (string_at C n x)) < Z.of_nat n → cstr m a (string_at C n x).
Proof.
  revert a x. induction n as [|n IH]; intros a x Hm Hl; [cbn in Hl; lia|]. cbn [string_at] in *.
  pose proof (Hm 0 ltac:(lia)) as E0. rewrite !Z.add_0_r in E0.
  destruct (Z.eqb_spec (C x) 0) as [E|E]; cbn [cstr]; [congruence|]. split_and!; [done|done|].
  apply IH; [|cbn [length] in Hl; lia]. intros k Hk. rewrite <- !Z.add_assoc. apply Hm. lia.
Qed.

(** A string in the server's other memory, within a page *)
Record string_in (u : uenv) (a : Z) (l : list Z) : Prop := {
  si_outside : outside (a / 4096);
  si_page : a mod 4096 + Z.of_nat (length l) < 4096;
  si_mapped : mapped_at u a = true;
  si_bytes : cstr (um u) a l
}.

Lemma string_kept u u' a l : ready u → ready u' → kept u u' → string_in u a l → string_in u' a l.
Proof.
  intros Hu Hu' Hk [S1 S2 S3 S4]. split; [done|done| |].
  - rewrite mapped_pte in * by done. destruct (Hk a S1) as [-> _]. done.
  - eapply cstr_frame; [|exact S4]. intros k Hk'. destruct (Hk k) as [_ ->]; [|done].
    replace k with (a + (k - a)) by lia. by rewrite page_span by lia.
Qed.

Definition named (name : list Z) (e : Z) : bool := bool_decide (entry_name C e = name).

Lemma entry_compare C' s e a name : disk_rel C' s → same_tree D C C' → is_entry D e → present (us s) e →
  string_in (us s) a name → Z.of_nat (length name) < 128 →
  ∃ r, onu (ustrcmp a (at_disk e)) s = Ok r s ∧ (r =? 0) = named name e.
Proof.
  intros Hr Hsm He Hp Hn Hl. destruct (file_pos e 127 (or_intror He) ltac:(lia)) as (E & He0 & Hmax & _).
  exists (lex name (entry_name C e)). split.
  - rewrite (onu_ok _ (lex name (entry_name C e)) (us s)); [by rewrite set_us_id|].
    unfold ustrcmp. rewrite (bind_ok _ _ _ _ _ (touch_ok _ _ (si_mapped _ _ _ Hn))).
    rewrite (bind_ok _ _ _ _ _ (touch_ok (us s) (at_disk e) ltac:(rewrite mapped_pte by apply Hr; exact Hp))).
    step. rewrite (strcmp_ok (um (us s)) a (at_disk e) name (entry_name C e)).
    + done.
    + apply Hn.
    + apply string_cstr; [|by apply (tr_names D C Ht)]. intros k Hk. rewrite at_disk_add.
      rewrite <- (same_field D C C' Hs Ht Hsm e k) by (by right || lia).
      apply present_content; [done|lia|]. destruct (file_pos e k (or_intror He) ltac:(lia)) as (Ek & _).
      apply (present_page _ e); [lia|lia|done|done].
    + unfold NAMEFUEL. change (Z.to_nat MAXNAMELEN) with 128%nat. lia.
  - unfold named. pose proof (lex_eq name (entry_name C e)) as Hlex. destruct (Z.eqb_spec (lex name (entry_name C e)) 0).
    + symmetry. apply bool_decide_eq_true. symmetry. tauto.
    + symmetry. apply bool_decide_eq_false. intros E1. by apply n, Hlex.
Qed.

Lemma lookup_in_block_ok C' s b n j a name : disk_rel C' s → same_tree D C C' → D b → present (us s) (4096 * b) →
  0 ≤ j → j + Z.of_nat n ≤ 16 → string_in (us s) a name → Z.of_nat (length name) < 128 →
  lookup_in_block n (at_disk (4096 * b + 256 * j)) a s =
    Ok (option_map at_disk (find (named name) (map (λ j, 4096 * b + 256 * j) (seqZ j (Z.of_nat n))))) s.
Proof.
  intros Hr Hsm Hd Hp. revert j. induction n as [|n IH]; intros j Hj Hn Ha Hl; cbn [lookup_in_block]; [done|].
  destruct (tr_use D C Ht b Hd) as [Hu _]. destruct (meta_bounds C Hs) as [Hm1 Hm2].
  assert (Hb : (4096 * b + 256 * j) / 4096 = b) by (apply block_pos; lia).
  assert (Hb0 : 4096 * b / 4096 = b) by (rewrite Z.mul_comm; by apply Z.div_mul).
  assert (He : is_entry D (4096 * b + 256 * j)).
  { split_and!; [lia| |by rewrite Hb]. replace (4096 * b + 256 * j) with ((16 * b + j) * 256) by lia. by apply Z.mod_mul. }
  destruct (entry_compare C' s (4096 * b + 256 * j) a name Hr Hsm He) as (r & E & Er); [|done|done|].
  { apply (present_page _ (4096 * b)); [lia|lia|lia|done]. }
  unfold f_name. rewrite (bind_ok _ _ _ _ _ E), Er.
  rewrite (seqZ_cons j) by lia. cbn [map find]. destruct (named name (4096 * b + 256 * j)); [done|].
  unfold BY2FILE. rewrite at_disk_add. replace (4096 * b + 256 * j + 256) with (4096 * b + 256 * (j + 1)) by lia.
  rewrite IH by (done || lia). replace (Z.pred (Z.of_nat (S n))) with (Z.of_nat n) by lia. done.
Qed.

(** [dir_lookup]: the first entry of the name, with its [f_dir] set *)
Lemma set_dir_ok C' s e v : disk_rel C' s → same_tree D C C' → is_entry D e → present (us s) e →
  ∃ s' C'', onu (st (f_dir (at_disk e)) v) s = Ok tt s' ∧ disk_rel C'' s' ∧ same_tree D C C'' ∧ grows s s'.
Proof.
  intros Hr Hsm He Hp. destruct (file_pos e 180 (or_intror He) ltac:(lia)) as (E & He0 & Hmax & Hm4).
  destruct He as (_ & Hm & Hd). destruct (tr_use D C Ht _ Hd) as [Hu _]. destruct (meta_bounds C Hs) as [Hm1 Hm2].
  destruct (st_word_ok Hdirty C' s (e + 180) v) as (s' & E' & Hr' & Hk & Hmono & Ho); [done|lia| | | |].
  - rewrite Z.add_mod, Hm4 by lia. done.
  - apply (present_page _ e); [lia|lia|done|done].
  - apply le32_put_other. left. pose proof (Z.div_mod e 4096). pose proof (Z.mod_pos_bound e 4096). lia.
  - exists s', (put_word C' (e + 180) (u32 v)). unfold f_dir. rewrite at_disk_add. split_and!; [done|done| |].
    + intros x Hx. unfold put_word. case_decide as Hw; [|by apply Hsm]. right. split.
      * assert (x / 4096 = e / 4096) as ->; [|done]. replace x with (e + (x - e)) by lia.
        destruct (file_pos e (x - e) (or_intror (conj He0 (conj Hm Hd))) ltac:(lia)) as (-> & _). done.
      * rewrite <- (Z.mod_unique x 256 (e / 256) (x - e)); [lia|lia|]. pose proof (Z.div_mod e 256). lia.
    + split; [|done|done]. intros y _. apply Hmono.
Qed.

Lemma dir_lookup_loop_ok C' s f n i a name : disk_rel C' s → same_tree D C C' → is_file D f → present (us s) f →
  wf_dir D C f → 0 ≤ i → i + Z.of_nat n = fsize C f / 4096 → string_in (us s) a name → Z.of_nat (length name) < 128 →
  match find (named name) (concat (map block_entries (map (fblock C f) (seqZ i (Z.of_nat n))))) with
  | Some e => ∃ s' C'', dir_lookup_loop n (at_disk f) a i s = Ok (at_disk e) s' ∧ disk_rel C'' s' ∧ same_tree D C C'' ∧
      grows s s' ∧ present (us s') e
  | None => ∃ s', dir_lookup_loop n (at_disk f) a i s = Err (- E_NOT_FOUND) s' ∧ disk_rel C' s' ∧ grows s s'
  end.
Proof.
  revert s i. induction n as [|n IH]; intros s i Hr Hsm Hf Hp Hw Hi Hn Ha Hl.
  { exists s. split_and!; [done|done|apply grows_refl]. }
  rewrite (seqZ_cons i) by lia. cbn [map concat]. rewrite find_app. cbn [dir_lookup_loop].
  destruct (file_get_block_ok C' s f i Hr Hsm Hf Hp Hw ltac:(lia)) as (s1 & E1 & Hr1 & Hp1 & Hg1).
  rewrite (bind_ok _ _ _ _ _ E1). pose proof (wd_block D C f Hw i ltac:(lia)) as Hd.
  pose proof (string_kept _ _ _ _ (dr_ready _ _ Hr) (dr_ready _ _ Hr1) (gr_kept _ _ Hg1) Ha) as Ha1.
  pose proof (lookup_in_block_ok C' s1 (fblock C f i) 16 0 a name Hr1 Hsm Hd Hp1 ltac:(lia) ltac:(lia) Ha1 Hl) as E2.
  rewrite Z.mul_0_r, Z.add_0_r in E2. change (Z.to_nat FILE2BLK) with 16%nat. rewrite (bind_ok _ _ _ _ _ E2).
  change (map (λ j, 4096 * fblock C f i + 256 * j) (seqZ 0 (Z.of_nat 16))) with (block_entries (fblock C f i)).
  destruct (find (named name) (block_entries (fblock C f i))) as [e|] eqn:Ef; cbn [option_map].
  - apply find_some in Ef as [Hin _]. apply list_elem_of_In in Hin. unfold block_entries in Hin.
    apply list_elem_of_fmap in Hin as (j & -> & Hj). apply elem_of_seqZ in Hj.
    destruct (tr_use D C Ht _ Hd) as [Hu _]. destruct (meta_bounds C Hs) as [Hm1 Hm2]. set (b := fblock C f i) in *.
    assert (Hb : (4096 * b + 256 * j) / 4096 = b) by (apply block_pos; lia).
    assert (Hb0 : 4096 * b / 4096 = b) by (rewrite Z.mul_comm; by apply Z.div_mul).
    assert (Hpe : present (us s1) (4096 * b + 256 * j)) by (apply (present_page _ (4096 * b)); [lia|lia|lia|done]).
    destruct (set_dir_ok C' s1 (4096 * b + 256 * j) (at_disk f) Hr1 Hsm) as (s2 & C'' & E3 & Hr2 & Hsm2 & Hg2); [|done|].
    { split_and!; [lia| |by rewrite Hb]. replace (4096 * b + 256 * j) with ((16 * b + j) * 256) by lia. by apply Z.mod_mul. }
    exists s2, C''. rewrite (bind_ok _ _ _ _ _ E3). split_and!; [done|done|done|by eapply grows_trans|].
    apply (gr_present _ _ Hg2); [lia|done].
  - replace (Z.pred (Z.of_nat (S n))) with (Z.of_nat n) by lia. destruct (file_pos f 0 Hf ltac:(lia)) as (_ & Hf0 & _).
    specialize (IH s1 (i + 1) Hr1 Hsm Hf (gr_present _ _ Hg1 f Hf0 Hp) Hw ltac:(lia) ltac:(lia) Ha1 Hl).
    replace (Z.succ i) with (i + 1) by lia.
    destruct (find _ _) as [e|].
    + destruct IH as (s' & C'' & E & R1 & R2 & G & P). exists s', C''. split_and!; try done. by eapply grows_trans.
    + destruct IH as (s' & E & R1 & G). exists s'. split_and!; try done. by eapply grows_trans.
Qed.

Lemma dir_lookup_ok C' s f a name : disk_rel C' s → same_tree D C C' → is_file D f → present (us s) f →
  wf_dir D C f → 0 ≤ fsize C f → string_in (us s) a name → Z.of_nat (length name) < 128 →
  match find_entry C f name with
  | Some e => ∃ s' C'', dir_lookup (at_disk f) a s = Ok (at_disk e) s' ∧ disk_rel C'' s' ∧ same_tree D C C'' ∧
      grows s s' ∧ present (us s') e
  | None => ∃ s', dir_lookup (at_disk f) a s = Err (- E_NOT_FOUND) s' ∧ disk_rel C' s' ∧ grows s s'
  end.
Proof.
  intros Hr Hsm Hf Hp Hw Hsz Ha Hl. unfold dir_lookup, f_size.
  rewrite (bind_ok _ _ _ _ _ (ld_field C' s f 128 Hr Hsm Hf Hp ltac:(lia) ltac:(lia) eq_refl)).
  fold (fsize C f). change BY2BLK with 4096. pose proof (Z.div_pos (fsize C f) 4096).
  pose proof (dir_lookup_loop_ok C' s f (Z.to_nat (fsize C f / 4096)) 0 a name Hr Hsm Hf Hp Hw) as Hloop.
  rewrite Z2Nat.id in Hloop by lia. exact (Hloop ltac:(lia) ltac:(lia) Ha Hl).
Qed.

(** ** Scanning the path *)

Lemma string_suffix u a e r : string_in u a (e ++ r) → string_in u (a + Z.of_nat (length e)) r.
Proof.
  intros [S1 S2 S3 S4]. rewrite length_app in S2.
  assert (E : (a + Z.of_nat (length e)) / 4096 = a / 4096) by (apply page_span; lia).
  split; [by rewrite E| |by rewrite (page_mapped _ _ a)|].
  - pose proof (Z.div_mod a 4096). pose proof (Z.div_mod (a + Z.of_nat (length e)) 4096). lia.
  - clear -S4. revert a S4. induction e as [|c e IH]; intros a; cbn [app cstr length]; [by rewrite Z.add_0_r|].
    intros (_ & _ & Hc). apply IH in Hc. replace (a + Z.of_nat (S (length e))) with (a + 1 + Z.of_nat (length e)) by lia. done.
Qed.

Lemma string_char u a l : string_in u a l → ld8 a u = Ok (default 0 (head l)) u ∧ (default 0 (head l) = 0 ↔ l = []).
Proof.
  intros [_ _ S3 S4]. rewrite ld8_ok by done. destruct l as [|c l]; cbn in *; [by rewrite S4|].
  destruct S4 as (-> & Hc & _). by split.
Qed.

Lemma skip_slash_ok fuel u a l : string_in u a l → (length l < fuel)%nat →
  ∃ b, skip_slash fuel a u = Ok b u ∧ string_in u b (skip l) ∧ b / 4096 = a / 4096.
Proof.
  revert a l. induction fuel as [|fuel IH]; intros a l Hl Hf; [lia|]. cbn [skip_slash].
  destruct (string_char u a l Hl) as [E _]. rewrite (bind_ok _ _ _ _ _ E).
  destruct l as [|c l]; cbn [head from_option id skip]; [by exists a|]. destruct (Z.eqb_spec c 47) as [->|]; [|by exists a].
  cbn [Z.eqb Pos.eqb]. pose proof (string_suffix u a [47] l Hl) as Hl'. cbn [length] in Hl'.
  destruct (IH (a + 1) l Hl') as (b & Eb & Hb & Hp); [cbn in Hf; lia|]. exists b. split_and!; [done|done|].
  rewrite Hp. apply page_span; [|lia]. pose proof (si_page _ _ _ Hl). cbn in *. lia.
Qed.

Lemma elem_end_ok fuel u a l : string_in u a l → (length l < fuel)%nat →
  elem_end fuel a u = Ok (a + Z.of_nat (length (elem l).1)) u.
Proof.
  revert a l. induction fuel as [|fuel IH]; intros a l Hl Hf; [lia|]. cbn [elem_end].
  destruct (string_char u a l Hl) as [E E0]. rewrite (bind_ok _ _ _ _ _ E).
  destruct l as [|c l]; cbn [head from_option id elem]; [cbn; by rewrite Z.add_0_r|]. cbn [head from_option id] in E0.
  rewrite (proj2 (Z.eqb_neq c 0)) by (intros Hc; discriminate (proj1 E0 Hc)). rewrite andb_true_r.
  destruct (Z.eqb_spec c 47) as [->|Hc]; cbn [negb fst length]; [by rewrite Z.add_0_r|].
  pose proof (string_suffix u a [c] l Hl) as Hl'. cbn [length] in Hl'. cbn [length] in Hf.
  change (Z.of_nat 1) with 1 in Hl'. rewrite (IH (a + 1) l Hl') by lia.
  destruct (elem l) as [e r]. cbn [fst length]. f_equal. lia.
Qed.

(** ** Changes of other memory *)

Lemma outside_ok C' s va m : disk_rel C' s → outside (va / 4096) → wf_mem m →
  (∀ a, a / 4096 ≠ va / 4096 → load8 m a = load8 (um (us s)) a) →
  let s' := set_us (written va m (us s)) s in
  disk_rel C' s' ∧ (∀ x, present (us s) x → present (us s') x).
Proof.
  intros Hr [Ho _] Hm Hout s'. assert (Hne : ∀ x, 0 ≤ x < DISKMAX → va / 4096 ≠ (DISKMAP + x) / 4096).
  { intros x Hx. rewrite disk_page by lia. change DISKMAX with 1073741824 in Hx. pose proof (Z.div_pos x 4096).
    pose proof (Z.div_lt_upper_bound x 4096 262144). lia. }
  assert (Hmem : ∀ x, 0 ≤ x < DISKMAX → load8 m (DISKMAP + x) = load8 (um (us s)) (DISKMAP + x)).
  { intros x Hx. apply Hout, not_eq_sym, Hne. done. }
  assert (Hpte : ∀ x, 0 ≤ x < DISKMAX → pte_at (written va m (us s)) (DISKMAP + x) = pte_at (us s) (DISKMAP + x)).
  { intros x Hx. rewrite pte_written, decide_False; [done|]. intros [_ E]. by apply (Hne x). }
  assert (Hpres : ∀ x, present (us s) x → present (written va m (us s)) x).
  { intros x. unfold present. by rewrite valid_written. }
  split; [|done]. apply (disk_rel_set C'); try done.
  - apply ready_written; [apply Hr|done].
  - intros x Hx. rewrite <- (dr_content C' s Hr x Hx). unfold content. by rewrite Hpte, um_written, medium_written, Hmem.
  - intros x Hx. unfold present. rewrite Hpte, um_written, medium_written, Hmem by done. by apply (dr_clean C' s Hr).
  - intros x Hx. apply Hpres. by apply (dr_meta C' s Hr).
Qed.

(** The buffer [name] of [walk_path] *)
Record name_buffer (u : uenv) : Prop := {
  nb_outside : outside (walk_name / 4096);
  nb_page : walk_name mod 4096 + 128 ≤ 4096;
  nb_mapped : mapped_at u walk_name = true
}.

Lemma buffer_kept u u' : ready u → ready u' → kept u u' → name_buffer u → name_buffer u'.
Proof.
  intros Hu Hu' Hk [N1 N2 N3]. split; [done|done|]. rewrite mapped_pte in * by done.
  by destruct (Hk walk_name N1) as [-> _].
Qed.

Lemma string_other u a l va m : string_in u a l → va / 4096 ≠ a / 4096 →
  (∀ b, b / 4096 ≠ va / 4096 → load8 m b = load8 (um u) b) → string_in (written va m u) a l.
Proof.
  intros [S1 S2 S3 S4] Hne Hm. split; [done|done|by rewrite mapped_written|].
  rewrite um_written. eapply cstr_frame; [|exact S4]. intros k Hk. apply Hm.
  replace k with (a + (k - a)) by lia. rewrite page_span by lia. congruence.
Qed.

Lemma cstr_copy m m' a b e l : cstr m a (e ++ l) →
  (∀ k, 0 ≤ k < Z.of_nat (length e) → load8 m' (b + k) = load8 m (a + k)) →
  load8 m' (b + Z.of_nat (length e)) = 0 → cstr m' b e.
Proof.
  revert a b. induction e as [|c e IH]; intros a b; cbn [app cstr length]; intros Hc Hk H0.
  - by rewrite Z.add_0_r in H0.
  - destruct Hc as (H1 & H2 & H3). pose proof (Hk 0 ltac:(lia)) as E. rewrite !Z.add_0_r in E. split_and!; [congruence|done|].
    apply (IH (a + 1)); [done| |].
    + intros k Hk'. rewrite <- !Z.add_assoc. apply Hk. lia.
    + by replace (b + 1 + Z.of_nat (length e)) with (b + Z.of_nat (S (length e))) by lia.
Qed.

Lemma copy_name_ok C' s a e r : disk_rel C' s → name_buffer (us s) → string_in (us s) a (e ++ r) →
  walk_name / 4096 ≠ a / 4096 → Z.of_nat (length e) < 128 →
  ∃ s', (∀ A (k : M fsrv A), (onu (ucopy walk_name a (Z.of_nat (length e))) ;;
            onu (st8 (walk_name + Z.of_nat (length e)) 0) ;; k) s = k s') ∧
    disk_rel C' s' ∧ name_buffer (us s') ∧ string_in (us s') walk_name e ∧ string_in (us s') a (e ++ r) ∧
    (∀ x, present (us s) x → present (us s') x) ∧ opentab s' = opentab s.
Proof.
  intros Hr Hb Ha Hne He. pose proof Hb as [N1 N2 N3]. set (n := Z.of_nat (length e)).
  set (m1 := memcpy walk_name a n (um (us s))). set (u1 := written walk_name m1 (us s)).
  set (m2 := store8 (walk_name + n) 0 (um u1)). set (u2 := written (walk_name + n) m2 u1).
  assert (Hn : (walk_name + n) / 4096 = walk_name / 4096) by (apply page_span; lia).
  assert (Hpg : ∀ b, walk_name ≤ b < walk_name + 128 → b / 4096 = walk_name / 4096).
  { intros b Hb'. replace b with (walk_name + (b - walk_name)) by lia. apply page_span; lia. }
  assert (Hc : copied (um (us s)) m1 walk_name a n).
  { apply memcpy_ok; [lia|]. unfold forward. pose proof (Z.div_mod walk_name 4096). pose proof (Z.div_mod a 4096).
    pose proof (si_page _ _ _ Ha) as Hpa. rewrite length_app in Hpa. pose proof (Z.mod_pos_bound a 4096).
    pose proof (Z.mod_pos_bound walk_name 4096). lia. }
  assert (Ho1 : ∀ b, b / 4096 ≠ walk_name / 4096 → load8 m1 b = load8 (um (us s)) b).
  { intros b Hb'. rewrite Hc, decide_False; [done|]. intros ?. apply Hb', Hpg. lia. }
  assert (Ho2 : ∀ b, b / 4096 ≠ (walk_name + n) / 4096 → load8 m2 b = load8 (um u1) b).
  { intros b Hb'. unfold m2. rewrite load8_store8, decide_False; [done|]. by intros <-. }
  pose proof (dr_ready _ _ Hr) as Hrd.
  destruct (outside_ok C' s walk_name m1 Hr N1) as [Hr1 Hp1]; [by apply wf_memcpy, Hrd|done|]. fold u1 in Hr1, Hp1.
  destruct (outside_ok C' (set_us u1 s) (walk_name + n) m2 Hr1) as [Hr2 Hp2];
    [by rewrite Hn|apply wf_store8, Hr1|done|]. cbn [us set_us] in Hr2, Hp2. fold u2 in Hr2, Hp2.
  assert (Hm1 : um u1 = m1) by apply um_written. assert (Hm2 : um u2 = m2) by apply um_written.
  exists (set_us u2 s). split_and!.
  - intros A k. rewrite (bind_ok _ _ _ _ _ (onu_ok _ _ _ _ (ucopy_ok (us s) walk_name a n N3 (si_mapped _ _ _ Ha)))).
    fold m1 u1. rewrite (bind_ok _ _ tt _ (set_us u2 s)); [done|].
    rewrite (onu_ok _ tt u2); [done|]. rewrite st8_ok; [done|]. cbn [us set_us].
    rewrite (page_mapped _ _ walk_name) by done. unfold u1. by rewrite mapped_written.
  - exact Hr2.
  - split; [done|done|]. cbn. unfold u2, u1. by rewrite !mapped_written.
  - cbn. split; [done|lia|unfold u2, u1; by rewrite !mapped_written|]. rewrite Hm2. unfold m2.
    apply (cstr_copy (um (us s)) _ a walk_name e r); [apply Ha| |].
    + intros k Hk. rewrite load8_store8, decide_False by (fold n in Hk; lia). rewrite Hm1, Hc, decide_True by (fold n in Hk; lia).
      f_equal. lia.
    + by rewrite load8_store8, decide_True.
  - cbn. apply string_other; [by apply string_other|by rewrite Hn|]. intros b Hb'. by apply Ho2.
  - intros x Hx. by apply Hp2, Hp1.
  - done.
Qed.

(** ** The walk *)

(** Files the walk may come to *)
Definition visited (f : Z) : Prop := f = ROOT ∨ (is_entry D f ∧ entry_name C f ≠ []).

Lemma visited_dir f : visited f → is_file D f ∧ (ftype C f = FTYPE_DIR → wf_dir D C f).
Proof.
  intros [->|[He Hn]].
  - split; [by left|]. intros _. apply Ht.
  - split; [by right|]. by apply (tr_dirs D C Ht).
Qed.

Lemma fsize_nonneg C' s f : disk_rel C' s → same_tree D C C' → is_file D f → 0 ≤ fsize C f.
Proof.
  intros Hr Hsm Hf. rewrite <- (same_fsize D C C' Hs Ht Hsm f Hf). destruct (file_pos f 128 Hf ltac:(lia)) as (_ & H0 & H1 & _).
  apply (le32_bound C' s (f + 128)); [done|lia|lia].
Qed.

Lemma onu_string s a l : string_in (us s) a l → onu (ld8 a) s = Ok (default 0 (head l)) s.
Proof.
  intros Ha. destruct (string_char _ _ _ Ha) as [E _]. rewrite (onu_ok _ _ _ _ E). by rewrite set_us_id.
Qed.

Lemma walk_loop_ok fuel l a dir f C' s :
  (length l < fuel)%nat → (length l < PATHFUEL)%nat → skip l = l → string_in (us s) a l → name_buffer (us s) →
  walk_name / 4096 ≠ a / 4096 → visited f → present (us s) f → disk_rel C' s → same_tree D C C' →
  ∃ s' C'', walk_loop fuel a dir (at_disk f) None s = Ok (follow C dir f (components l)) s' ∧
    disk_rel C'' s' ∧ same_tree D C C'' ∧ opentab s' = opentab s.
Proof.
  revert l a dir f C' s. induction fuel as [|fuel IH];
    intros l a dir f C' s Hfu Hpf Hsk Ha Hb Hne Hv Hp Hr Hsm; [lia|].
  cbn [walk_loop]. rewrite (bind_ok _ _ _ _ _ (onu_string s a l Ha)).
  destruct l as [|c r]; [by exists s, C'|]. cbn [head from_option id].
  assert (Hc0 : c ≠ 0) by (destruct (si_bytes _ _ _ Ha) as (_ & ? & _); done).
  rewrite (proj2 (Z.eqb_neq c 0) Hc0). destruct (components_cons (c :: r) c r Hsk) as (e & Hel & Hco). rewrite Hco.
  pose proof (elem_app (c :: r)) as Happ. pose proof (elem_end_ok PATHFUEL (us s) a (c :: r) Ha Hpf) as Eend.
  rewrite (bind_ok _ _ (a + Z.of_nat (length (elem (c :: r)).1)) s s) by (rewrite (onu_ok _ _ _ _ Eend); by rewrite set_us_id).
  rewrite Hel in Happ |- *. cbn [fst snd] in Happ |- *. set (q := (elem (c :: r)).2) in *. clearbody q.
  set (name := c :: e) in *. set (n := Z.of_nat (length name)).
  replace (a + n - a) with n by lia. cbn [follow]. fold name n. change MAXNAMELEN with 128. rewrite Z.geb_leb.
  destruct (Z.leb_spec 128 n) as [Hlong|Hlen]; [by exists s, C'|].
  rewrite Happ in Ha. destruct (copy_name_ok C' s a name q Hr Hb Ha Hne Hlen) as (s1 & Ek & Hr1 & Hb1 & Hn1 & Ha1 & Hp1 & Ho1).
  fold n in Ek. rewrite Ek. pose proof (string_suffix _ _ _ _ Ha1) as Hq. fold n in Hq.
  assert (Hlq : (length name + length q = length (c :: r))%nat) by (rewrite Happ, length_app; lia).
  assert (Hname : (1 ≤ length name)%nat) by (unfold name; cbn; lia).
  destruct (skip_slash_ok PATHFUEL (us s1) (a + n) q Hq ltac:(lia)) as (b & Eb & Hbq & Hbp).
  rewrite (bind_ok _ _ b s1 s1) by (rewrite (onu_ok _ _ _ _ Eb); by rewrite set_us_id).
  assert (Hbne : walk_name / 4096 ≠ b / 4096).
  { rewrite Hbp. unfold n. rewrite page_span; [done| |lia]. pose proof (si_page _ _ _ Ha1) as Hpa. rewrite length_app in Hpa. lia. }
  destruct (visited_dir f Hv) as [Hf Hwd]. unfold f_type.
  rewrite (bind_ok _ _ _ _ _ (ld_field C' s1 f 132 Hr1 Hsm Hf (Hp1 _ Hp) ltac:(lia) ltac:(lia) eq_refl)).
  fold (ftype C f). destruct (Z.eqb_spec (ftype C f) FTYPE_DIR) as [Hty|Hty]; cbn [negb]; [|by exists s1, C'].
  assert (Hskip : skip (skip q) = skip q).
  { destruct (skip q) as [|d q'] eqn:Eq; [done|]. pose proof (skip_head _ _ _ Eq) as Hd. cbn. by rewrite (proj2 (Z.eqb_neq _ _) Hd). }
  assert (Hlsk : (length (skip q) ≤ length q)%nat).
  { destruct (skip_suffix q) as [p Eq]. rewrite Eq at 2. rewrite length_app. lia. }
  pose proof (dir_lookup_ok C' s1 f walk_name name Hr1 Hsm Hf (Hp1 _ Hp) (Hwd Hty) (fsize_nonneg C' s f Hr Hsm Hf) Hn1 Hlen) as Hl.
  destruct (find_entry C f name) as [g|] eqn:Eg.
  - destruct Hl as (s2 & C2 & E2 & Hr2 & Hsm2 & Hg2 & Hp2).
    rewrite (bind_ok _ _ (inr (at_disk g)) s1 s2) by (unfold attempt; by rewrite E2).
    pose proof (dr_ready _ _ Hr1) as Hrd1. pose proof (dr_ready _ _ Hr2) as Hrd2. pose proof (gr_kept _ _ Hg2) as Hk2.
    destruct (IH (skip q) b (at_disk f) g C2 s2) as (s3 & C3 & E3 & Hr3 & Hsm3 & Ho3);
      [lia|lia|exact Hskip| | |exact Hbne| |exact Hp2|exact Hr2|exact Hsm2|].
    + exact (string_kept _ _ _ _ Hrd1 Hrd2 Hk2 Hbq).
    + exact (buffer_kept _ _ Hrd1 Hrd2 Hk2 Hb1).
    + right. destruct (found_entry D C Hs Ht f name g (Hwd Hty) Eg) as [Hge Hgn]. split; [exact Hge|]. by rewrite Hgn.
    + exists s3, C3. split_and!; [done|done|done|]. rewrite Ho3, (gr_opentab _ _ Hg2). done.
  - destruct Hl as (s2 & E2 & Hr2 & Hg2).
    rewrite (bind_ok _ _ (inl (- E_NOT_FOUND)) s1 s2) by (unfold attempt; by rewrite E2).
    assert (Hb2 : string_in (us s2) b (skip q)).
    { eapply string_kept; [apply Hr1|apply Hr2|apply Hg2|done]. }
    rewrite (bind_ok _ _ _ _ _ (onu_string s2 b _ Hb2)). rewrite Z.eqb_refl. cbn [andb].
    assert (Hz : (default 0 (head (skip q)) =? 0) = bool_decide (components (skip q) = [])).
    { destruct (string_char _ _ _ Hb2) as [_ Hz]. rewrite components_empty.
      destruct (Z.eqb_spec (default 0 (head (skip q))) 0) as [E0|E0]; symmetry.
      - apply bool_decide_eq_true. by apply Hz.
      - apply bool_decide_eq_false. intros E1. by apply E0, Hz. }
    rewrite Hz. exists s2, C'. destruct (bool_decide _).
    + rewrite (bind_ok _ _ tt s2 s2) by done. split_and!; [done|done|done|]. by rewrite (gr_opentab _ _ Hg2).
    + split_and!; [done|done|done|]. by rewrite (gr_opentab _ _ Hg2).
Qed.

Lemma walk_path_ok s a l :
  disk_rel C s → string_in (us s) a l → (length l < Z.to_nat MAXPATHLEN)%nat →
  name_buffer (us s) → walk_name / 4096 ≠ a / 4096 →
  ∃ s' C', walk_path a None s = Ok (follow C 0 ROOT (components l)) s' ∧ disk_rel C' s' ∧ same_tree D C C'.
Proof.
  intros Hr Ha Hl Hb Hne. change (Z.to_nat MAXPATHLEN) with 1024%nat in Hl. unfold walk_path.
  destruct (skip_slash_ok PATHFUEL (us s) a l Ha) as (b & Eb & Hbs & Hbp); [change PATHFUEL with 1025%nat; lia|].
  rewrite (bind_ok _ _ b s s) by (rewrite (onu_ok _ _ _ _ Eb); by rewrite set_us_id). step.
  rewrite (dr_super C s Hr). change (s_root (DISKMAP + 4096)) with (at_disk ROOT).
  pose proof Hb as [N1 N2 N3]. set (m := store8 walk_name 0 (um (us s))).
  assert (Hm : ∀ c, c / 4096 ≠ walk_name / 4096 → load8 m c = load8 (um (us s)) c).
  { intros c Hc. unfold m. rewrite load8_store8, decide_False; [done|]. by intros <-. }
  destruct (outside_ok C s walk_name m Hr N1) as [Hr1 Hp1]; [by apply wf_store8, Hr|done|].
  rewrite (bind_ok _ _ _ _ _ (onu_ok _ _ _ _ (st8_ok (us s) walk_name 0 N3))). fold m.
  destruct (walk_loop_ok PATHFUEL (skip l) b 0 ROOT C (set_us (written walk_name m (us s)) s)) as (s' & C' & E & Hr' & Hsm & _).
  1, 2: destruct (skip_suffix l) as [p Ep]; rewrite Ep, length_app in Hl; change PATHFUEL with 1025%nat; lia.
  - destruct (skip l) as [|d q'] eqn:Eq; [done|]. pose proof (skip_head _ _ _ Eq) as Hd. cbn. by rewrite (proj2 (Z.eqb_neq _ _) Hd).
  - cbn [us set_us]. apply string_other; [done|by rewrite Hbp|done].
  - split; [done|done|]. cbn [us set_us]. by rewrite mapped_written.
  - by rewrite Hbp.
  - by left.
  - apply Hp1. apply (dr_meta C s Hr). destruct (meta_bounds C Hs). unfold ROOT. lia.
  - exact Hr1.
  - by intros x Hx; left.
  - exists s', C'. split_and!; [|done|done]. rewrite E. do 2 f_equal. unfold components. apply pieces_skip.
Qed.

Lemma file_open_ok s a l :
  disk_rel C s → string_in (us s) a l → (length l < Z.to_nat MAXPATHLEN)%nat →
  name_buffer (us s) → walk_name / 4096 ≠ a / 4096 →
  ∃ s' C', disk_rel C' s' ∧ same_tree D C C' ∧
    walk_path a None s = Ok (follow C 0 ROOT (components l)) s' ∧
    file_open a s = (let '(r, _, f) := follow C 0 ROOT (components l) in if r <? 0 then Err r s' else Ok f s').
Proof.
  intros Hr Ha Hl Hb Hne. destruct (walk_path_ok s a l Hr Ha Hl Hb Hne) as (s' & C' & E & Hr' & Hsm).
  exists s', C'. split_and!; [done|done|done|]. unfold file_open. rewrite (bind_ok _ _ _ _ _ E).
  destruct (follow C 0 ROOT (components l)) as [[r d] f]. by destruct (r <? 0).
Qed.

(** C35. Opening a file: on a well-formed tree of directories, walk_path and
    file_open follow the components of the path (the pieces between slashes)
    from the root directory, in each directory to the first entry of that
    name, and return the file found and its directory; a missing component is
    -E_NOT_FOUND, with the directory when it is the last one, a file used as a
    directory -E_NOT_FOUND, a component of 128 bytes or more -E_BAD_PATH.
    The disk stays the same but for the f_dir pointers. *)
Theorem path_lookup s a l :
  disk_rel C s → string_in (us s) a l → (length l < Z.to_nat MAXPATHLEN)%nat →
  name_buffer (us s) → walk_name / 4096 ≠ a / 4096 →
  ∃ s' C', disk_rel C' s' ∧ same_tree D C C' ∧
    walk_path a None s = Ok (follow C 0 ROOT (components l)) s' ∧
    file_open a s = (let '(r, _, f) := follow C 0 ROOT (components l) in if r <? 0 then Err r s' else Ok f s').
Proof. apply file_open_ok. Qed.
End path.

(** * An example *)

(** The root directory has one block, 3, with the directory [bin] and the
    file [sh]. *)
Definition w_root : page := <[1 := 8]> (<[34 := 4096]> (<[35 := 1]> (<[36 := 3]> ∅))).
Definition w_dir : page := <[0 := 0x6e6962]> (<[33 := 1]> (<[64 := 0x6873]> ∅)).
Definition w_disk3 : memory := <[1 := w_root]> (<[2 := w_bits]> (<[3 := w_dir]> ∅)).
#[export] Instance w_frames : Frames := { walk_name := 0x7f3fd100; create_name := 0x7f3fd200 }.

(** The path ["/sh"] is in the request of the server. *)
Definition w_fs : fsrv :=
  mounted w_disk3 (<[65535 := <[0 := 0x0068732f]> ∅]> (<[521213 := ∅]> ∅)) {[63; 508]}.

Lemma w_fs_rel : disk_rel (load8 w_disk3) w_fs.
Proof.
  apply mounted_rel; [all_words|all_words|done|].
  repeat first [apply map_Forall_insert_2 | apply map_Forall_empty]; (split; [lia|apply (bool_decide_unpack _); by vm_compute]).
Qed.

Lemma w_tree : tree (λ b, b = 3) (load8 w_disk3).
Proof.
  assert (He : ∀ e, is_entry (λ b, b = 3) e → ∃ j, 0 ≤ j < 16 ∧ e = 12288 + 256 * j).
  { intros e (H0 & Hm & Hd). apply block_pos in Hd; [|done]. exists (e / 256 - 48). pose proof (Z.div_mod e 256). lia. }
  assert (Hall : ∀ P : Z → Prop, Forall P (seqZ 0 16) → ∀ j, 0 ≤ j < 16 → P j).
  { intros P HP j Hj. rewrite Forall_forall in HP. apply HP. by apply elem_of_seqZ. }
  split.
  - intros b ->. split; [split; by vm_compute|]. by vm_compute.
  - split.
    + by vm_compute.
    + intros i Hi. change (fsize (load8 w_disk3) ROOT / 4096) with 1 in Hi. assert (i = 0) as -> by lia. by vm_compute.
    + change (fsize (load8 w_disk3) ROOT / 4096) with 1. unfold NDIRECT. lia.
  - intros e Hen _ _. assert (fsize (load8 w_disk3) e = 0) as E0.
    { destruct (He e Hen) as (j & Hj & ->). clear Hen. revert j Hj. apply Hall. change (seqZ 0 16) with [0;1;2;3;4;5;6;7;8;9;10;11;12;13;14;15].
      repeat constructor. }
    split; rewrite E0; change (0 / 4096) with 0; unfold NDIRECT; lia.
  - intros e Hen. destruct (He e Hen) as (j & Hj & ->). clear Hen. revert j Hj. apply Hall.
    change (seqZ 0 16) with [0;1;2;3;4;5;6;7;8;9;10;11;12;13;14;15]. repeat constructor.
Qed.

Lemma path_lookup_witness :
  let M := ramdisk in
  ∃ s', file_open 0x0ffff000 w_fs = Ok (DISKMAP + 4096 * 3 + 256) s'.
Proof.
  destruct (path_lookup (machine := ramdisk) (device := ramdisk_device) eq_refl (λ b, b = 3) (load8 w_disk3)
    ltac:(split; by vm_compute) w_tree w_fs 0x0ffff000 [47; 115; 104]) as (s' & C' & _ & _ & _ & E).
  - apply w_fs_rel.
  - split; [split; [left; by vm_compute|done]|by vm_compute|by vm_compute|]. split_and!; by vm_compute.
  - change (Z.to_nat MAXPATHLEN) with 1024%nat. cbn. lia.
  - split; [split; [right; by vm_compute|by vm_compute]|by vm_compute|by vm_compute].
  - by vm_compute.
  - exists s'. rewrite E. reflexivity.
Defined.
