(* ===== verification/Pipe.v ===== *)
(** Pipes under preemption: user/lib/pipe.c.

    A pipe is a page shared by its readers and writers.  A reader and a writer
    run on one processor and may be preempted between any two accesses to
    shared memory, so the loops of [pipe_read], [pipe_write] and
    [_pipe_is_closed] are programs with a counter ([rpc], [wpc], [cpc]) whose
    steps are the single accesses; local computation belongs to the step before
    it.  [exec] performs one action: a step of one of the two, a new call, a
    timer interrupt, or half of a [dup] or [close] by any program. *)
From S2P Require Import Prelude.

Definition BY2PIPE := 32.

(** [struct Pipe] *)
Record pipe := MkPipe { p_rpos : Z; p_wpos : Z; p_buf : list Z }.

(** The [pp_ref] of the pages of the read end's [struct Fd], of the write
    end's and of the pipe *)
Record refs := MkRefs { ref_r : Z; ref_w : Z; ref_p : Z }.

(** Whether the access to [p_buf] in [p_buf[pos++ % BY2PIPE]] comes before the
    store of the incremented position: C leaves the order open. *)
Class Evaluation := buffer_first : bool.

(** [_pipe_is_closed]: before reading [env_runs], [pageref (fd)],
    [pageref (p)], and [env_runs] again *)
Inductive cpc :=
| C0
| C1 (runs : Z)
| C2 (runs fd_ref : Z)
| C3 (runs fd_ref pipe_ref : Z).

(** [pipe_read] *)
Inductive rpc :=
| RIdle (ret : Z)      (* returned *)
| RFor                 (* [i < n] *)
| RWhile               (* loads [p_rpos] of the loop condition *)
| RCmp (rpos : Z)      (* loads [p_wpos], compares *)
| RCheck (c : cpc)
| RYield
| RTake                (* loads [p_rpos] of [p_rpos++] *)
| RGet (x : Z)         (* loads [p_buf[x % BY2PIPE]], before the increment *)
| RInc (x b : Z)       (* stores [p_rpos] *)
| RInc' (x : Z)        (* stores [p_rpos], before the buffer *)
| RGet' (x : Z).       (* loads [p_buf[x % BY2PIPE]] *)

(** [pipe_write] *)
Inductive wpc :=
| WIdle (ret : Z)
| WFor
| WWhile               (* loads [p_wpos] *)
| WCmp (wpos : Z)      (* loads [p_rpos], compares *)
| WCheck (c : cpc)
| WYield
| WPut                 (* loads [p_wpos] of [p_wpos++] *)
| WSet (x : Z)         (* stores into [p_buf], before the increment *)
| WInc (x : Z)         (* stores [p_wpos] *)
| WInc' (x : Z)        (* stores [p_wpos], before the buffer *)
| WSet' (x : Z).       (* stores into [p_buf] *)

(** A call in progress: [n], [i], and for the writer [wbuf], the rest of the
    buffer.  The history before the call ([r_base] and [w_base] bytes) and the
    whole buffer of the writer are kept to state what a call returns. *)
Record reader := MkRd { r_n : Z; r_i : Z; r_pc : rpc; r_base : nat }.
Record writer := MkWr { w_n : Z; w_i : Z; w_data : list Z; w_pc : wpc; w_base : nat; w_all : list Z }.

Inductive who := Reader | Writer | Other.
#[export] Instance who_eq_dec : EqDecision who.
Proof. solve_decision. Defined.

(** [got] and [put] are the bytes delivered to the reader's buffers and those
    the writer has published, from the beginning; [dupping] and [closing] count
    the [dup]s and [close]s that are half done. *)
Record pst := MkP {
  pp : pipe; prefs : refs; rd : reader; wr : writer;
  last : who; rruns : Z; wruns : Z;
  got : list Z; put : list Z; dupping : Z; closing : Z
}.

Definition set_pp v s := MkP v (prefs s) (rd s) (wr s) (last s) (rruns s) (wruns s) (got s) (put s) (dupping s) (closing s).
Definition set_prefs v s := MkP (pp s) v (rd s) (wr s) (last s) (rruns s) (wruns s) (got s) (put s) (dupping s) (closing s).
Definition set_rd v s := MkP (pp s) (prefs s) v (wr s) (last s) (rruns s) (wruns s) (got s) (put s) (dupping s) (closing s).
Definition set_wr v s := MkP (pp s) (prefs s) (rd s) v (last s) (rruns s) (wruns s) (got s) (put s) (dupping s) (closing s).
Definition set_sched l r w s := MkP (pp s) (prefs s) (rd s) (wr s) l r w (got s) (put s) (dupping s) (closing s).
Definition set_got v s := MkP (pp s) (prefs s) (rd s) (wr s) (last s) (rruns s) (wruns s) v (put s) (dupping s) (closing s).
Definition set_put v s := MkP (pp s) (prefs s) (rd s) (wr s) (last s) (rruns s) (wruns s) (got s) v (dupping s) (closing s).
Definition set_pending d c s := MkP (pp s) (prefs s) (rd s) (wr s) (last s) (rruns s) (wruns s) (got s) (put s) d c.

Definition set_rpos v p := MkPipe v (p_wpos p) (p_buf p).
Definition set_wpos v p := MkPipe (p_rpos p) v (p_buf p).
Definition set_pbuf v p := MkPipe (p_rpos p) (p_wpos p) v.

Definition goto_r (pc : rpc) (s : pst) : pst := set_rd (MkRd (r_n (rd s)) (r_i (rd s)) pc (r_base (rd s))) s.
Definition goto_w (pc : wpc) (s : pst) : pst :=
  set_wr (MkWr (w_n (wr s)) (w_i (wr s)) (w_data (wr s)) pc (w_base (wr s)) (w_all (wr s))) s.

(** [env_run] counts in [env_runs] each time a program gets the processor. *)
Definition switch (w : who) (s : pst) : pst :=
  if decide (last s = w) then s
  else match w with
       | Reader => set_sched Reader (u32 (rruns s + 1)) (wruns s) s
       | Writer => set_sched Writer (rruns s) (u32 (wruns s + 1)) s
       | Other => set_sched Other (rruns s) (wruns s) s
       end.

(** One access of [_pipe_is_closed]: the next one, or the answer *)
Definition step_closed (runs fd_ref pipe_ref : Z) (c : cpc) : cpc + bool :=
  match c with
  | C0 => inl (C1 runs)
  | C1 r => inl (C2 r fd_ref)
  | C2 r f => inl (C3 r f pipe_ref)
  | C3 r f p => if r =? runs then inr (f =? p) else inl C0
  end.

Section pipe.
Context `{Evaluation}.

(** The byte is in the reader's buffer. *)
Definition deliver (b : Z) (s : pst) : pst :=
  set_got (got s ++ [b]) (set_rd (MkRd (r_n (rd s)) (r_i (rd s) + 1) RFor (r_base (rd s))) s).

Definition pipe_read_step (s : pst) : option pst :=
  let p := pp s in
  match r_pc (rd s) with
  | RIdle _ => None
  | RFor => Some (if r_i (rd s) <? r_n (rd s) then goto_r RWhile s else goto_r (RIdle (r_n (rd s))) s)
  | RWhile => Some (goto_r (RCmp (p_rpos p)) s)
  | RCmp rpos =>
      Some (if rpos >=? p_wpos p
            then if negb (r_i (rd s) =? 0) then goto_r (RIdle (r_i (rd s))) s else goto_r (RCheck C0) s
            else goto_r RTake s)
  | RCheck c =>
      Some (match step_closed (rruns s) (ref_r (prefs s)) (ref_p (prefs s)) c with
            | inl c' => goto_r (RCheck c') s
            | inr true => goto_r (RIdle (r_i (rd s))) s
            | inr false => goto_r RYield s
            end)
  | RYield => Some (goto_r RWhile s)
  | RTake => Some (goto_r (if buffer_first then RGet (p_rpos p) else RInc' (p_rpos p)) s)
  | RGet x => b ← p_buf p !! Z.to_nat (x mod BY2PIPE); Some (goto_r (RInc x b) s)
  | RInc x b => Some (deliver b (set_pp (set_rpos (u32 (x + 1)) p) s))
  | RInc' x => Some (goto_r (RGet' x) (set_pp (set_rpos (u32 (x + 1)) p) s))
  | RGet' x => b ← p_buf p !! Z.to_nat (x mod BY2PIPE); Some (deliver b s)
  end.

Definition store_buf (x b : Z) (p : pipe) : pipe :=
  set_pbuf (<[Z.to_nat (x mod BY2PIPE) := u8 b]> (p_buf p)) p.

(** The byte is published and the writer goes on with the next one. *)
Definition publish (s : pst) : pst :=
  set_put (put s ++ [u8 (hd 0 (w_data (wr s)))]) s.
Definition next_byte (s : pst) : pst :=
  set_wr (MkWr (w_n (wr s)) (w_i (wr s) + 1) (tl (w_data (wr s))) WFor (w_base (wr s)) (w_all (wr s))) s.

Definition pipe_write_step (s : pst) : option pst :=
  let p := pp s in
  let b := hd 0 (w_data (wr s)) in
  match w_pc (wr s) with
  | WIdle _ => None
  | WFor => Some (if w_i (wr s) <? w_n (wr s) then goto_w WWhile s else goto_w (WIdle (w_n (wr s))) s)
  | WWhile => Some (goto_w (WCmp (p_wpos p)) s)
  | WCmp wpos =>
      Some (if wpos >=? u32 (p_rpos p + BY2PIPE) then goto_w (WCheck C0) s else goto_w WPut s)
  | WCheck c =>
      Some (match step_closed (wruns s) (ref_w (prefs s)) (ref_p (prefs s)) c with
            | inl c' => goto_w (WCheck c') s
            | inr true => goto_w (WIdle (w_i (wr s))) s
            | inr false => goto_w WYield s
            end)
  | WYield => Some (goto_w WWhile s)
  | WPut => Some (goto_w (if buffer_first then WSet (p_wpos p) else WInc' (p_wpos p)) s)
  | WSet x => Some (goto_w (WInc x) (set_pp (store_buf x b p) s))
  | WInc x => Some (next_byte (publish (set_pp (set_wpos (u32 (x + 1)) p) s)))
  | WInc' x => Some (goto_w (WSet' x) (publish (set_pp (set_wpos (u32 (x + 1)) p) s)))
  | WSet' x => Some (next_byte (set_pp (store_buf x b p) s))
  end.

Inductive action :=
| Run (w : who)                 (* the reader's or writer's next access *)
| Tick                          (* the running program is scheduled again *)
| CallRead (n : Z)
| CallWrite (data : list Z)
| DupFd (w : who)               (* [dup] maps the [struct Fd], then the pipe *)
| DupData
| CloseFd (w : who)             (* [pipe_close] unmaps them in the same order *)
| CloseData.

Definition add_ref (w : who) (d : Z) (r : refs) : option refs :=
  match w with
  | Reader => Some (MkRefs (ref_r r + d) (ref_w r) (ref_p r))
  | Writer => Some (MkRefs (ref_r r) (ref_w r + d) (ref_p r))
  | Other => None
  end.
Definition ref_of (w : who) (r : refs) : Z :=
  match w with Reader => ref_r r | Writer => ref_w r | Other => 0 end.

Definition exec (a : action) (s : pst) : option pst :=
  match a with
  | Run Reader => pipe_read_step (switch Reader s)
  | Run Writer => pipe_write_step (switch Writer s)
  | Run Other => Some (switch Other s)
  | Tick =>
      Some (match last s with
            | Reader => set_sched Reader (u32 (rruns s + 1)) (wruns s) s
            | Writer => set_sched Writer (rruns s) (u32 (wruns s + 1)) s
            | Other => s
            end)
  | CallRead n =>
      match r_pc (rd s) with
      | RIdle _ => Some (set_rd (MkRd (u32 n) 0 RFor (length (got s))) (switch Reader s))
      | _ => None
      end
  | CallWrite data =>
      match w_pc (wr s) with
      | WIdle _ => Some (set_wr (MkWr (Z.of_nat (length data)) 0 data WFor (length (put s)) data) (switch Writer s))
      | _ => None
      end
  | DupFd w => r ← add_ref w 1 (prefs s); Some (set_pending (dupping s + 1) (closing s) (set_prefs r (switch Other s)))
  | DupData =>
      if 0 <? dupping s
      then Some (set_pending (dupping s - 1) (closing s)
             (set_prefs (MkRefs (ref_r (prefs s)) (ref_w (prefs s)) (ref_p (prefs s) + 1)) (switch Other s)))
      else None
  | CloseFd w =>
      if 0 <? ref_of w (prefs s)
      then r ← add_ref w (-1) (prefs s); Some (set_pending (dupping s) (closing s + 1) (set_prefs r (switch Other s)))
      else None
  | CloseData =>
      if 0 <? closing s
      then Some (set_pending (dupping s) (closing s - 1)
             (set_prefs (MkRefs (ref_r (prefs s)) (ref_w (prefs s)) (ref_p (prefs s) - 1)) (switch Other s)))
      else None
  end.

Fixpoint execs (l : list action) (s : pst) : option pst :=
  match l with
  | [] => Some s
  | a :: l' => s' ← exec a s; execs l' s'
  end.
End pipe.

(** After [pipe]: empty, one descriptor for each end, both programs idle *)
Definition pipe_start (rw : Z) : pst :=
  MkP (MkPipe rw rw (replicate 32 0)) (MkRefs 1 1 2) (MkRd 0 0 (RIdle 0) 0) (MkWr 0 0 [] (WIdle 0) 0 [])
    Other 0 0 [] [] 0 0.
