(* ===== verification/PipeProps.v ===== *)
(** Pipes: no byte is lost, duplicated or reordered under any preemption, and
    what the code does not guarantee. *)
From S2P Require Import Prelude Pipe.

(** * The ring *)

Record ring (p : pipe) (g l : list Z) : Prop := {
  rg_r : p_rpos p = Z.of_nat (length g);
  rg_w : p_wpos p = Z.of_nat (length l);
  rg_room : (length g ≤ length l ≤ length g + 32)%nat;
  rg_len : length (p_buf p) = 32%nat;
  rg_prefix : g `prefix_of` l;
  rg_buf : ∀ j, (length g ≤ j < length l)%nat → p_buf p !! (j mod 32)%nat = l !! j
}.

Lemma slot n : Z.to_nat (Z.of_nat n mod BY2PIPE) = (n mod 32)%nat.
Proof. unfold BY2PIPE. change 32 with (Z.of_nat 32). rewrite <- Nat2Z.inj_mod. apply Nat2Z.id. Qed.

Lemma slot_ne n j : (j < n < j + 32)%nat → (n mod 32 ≠ j mod 32)%nat.
Proof.
  intros Hj E. pose proof (Nat.div_mod n 32 ltac:(lia)). pose proof (Nat.div_mod j 32 ltac:(lia)). nia.
Qed.

Lemma ring_take p g l b : ring p g l → l !! length g = Some b → ring (set_rpos (p_rpos p + 1) p) (g ++ [b]) l.
Proof.
  intros [R1 R2 R3 R4 [k R5] R6] Hb. assert (length g < length l)%nat by (by apply lookup_lt_Some in Hb).
  split; cbn; rewrite ?length_app; cbn; try done; try lia.
  - subst l. rewrite lookup_app_r, Nat.sub_diag in Hb by lia. destruct k as [|b' k]; [done|].
    injection Hb as ->. exists k. by rewrite <- app_assoc.
  - intros j Hj. apply R6. lia.
Qed.

Lemma ring_store p g l x b : ring p g l → (length l < length g + 32)%nat → x = p_wpos p →
  ring (store_buf x b p) g l ∧ p_buf (store_buf x b p) !! (length l mod 32)%nat = Some (u8 b).
Proof.
  intros [R1 R2 R3 R4 R5 R6] Hl ->. assert (length l mod 32 < 32)%nat by (by apply Nat.mod_upper_bound).
  unfold store_buf. cbn. rewrite R2, slot. split; [|apply list_lookup_insert_eq; lia].
  split; cbn; try done; [by rewrite length_insert|].
  intros j Hj. rewrite list_lookup_insert_ne; [by apply R6|]. apply slot_ne. lia.
Qed.

Lemma ring_publish p g l b : ring p g l → (length l < length g + 32)%nat →
  p_buf p !! (length l mod 32)%nat = Some b → ring (set_wpos (p_wpos p + 1) p) g (l ++ [b]).
Proof.
  intros [R1 R2 R3 R4 R5 R6] Hl Hb. split; cbn; rewrite ?length_app; cbn; try done; try lia.
  - by apply prefix_app_r.
  - intros j Hj. destruct (decide (j = length l)) as [->|Hne].
    + by rewrite lookup_app_r, Nat.sub_diag by lia.
    + rewrite lookup_app_l by lia. apply R6. lia.
Qed.

(** * The programs *)

Definition rd_ok (p : pipe) (g l : list Z) (pc : rpc) : Prop :=
  match pc with
  | RCmp x => x = p_rpos p
  | RTake => (length g < length l)%nat
  | RGet x => x = p_rpos p ∧ (length g < length l)%nat
  | RInc x b => x = p_rpos p ∧ l !! length g = Some b
  | RInc' _ | RGet' _ => False
  | _ => True
  end.

Definition wr_ok (p : pipe) (g l : list Z) (b : Z) (pc : wpc) : Prop :=
  match pc with
  | WCmp x => x = p_wpos p
  | WPut => (length l < length g + 32)%nat
  | WSet x => x = p_wpos p ∧ (length l < length g + 32)%nat
  | WInc x => x = p_wpos p ∧ (length l < length g + 32)%nat ∧ p_buf p !! (length l mod 32)%nat = Some (u8 b)
  | WInc' _ | WSet' _ => False
  | _ => True
  end.

(** What the call has done so far, and what it has returned *)
Definition rd_call (r : reader) (g : list Z) : Prop :=
  let v := match r_pc r with RIdle v => v | _ => r_i r end in
  0 ≤ v ≤ r_n r ∧ Z.of_nat (length g) = Z.of_nat (r_base r) + v ∧
  match r_pc r with RIdle _ | RFor => True | _ => r_i r < r_n r end.

Definition wr_call (w : writer) (l : list Z) : Prop :=
  let v := match w_pc w with WIdle v => v | _ => w_i w end in
  0 ≤ v ≤ w_n w ∧ w_n w = Z.of_nat (length (w_all w)) ∧ (w_base w ≤ length l)%nat ∧
  drop (w_base w) l = map u8 (take (Z.to_nat v) (w_all w)) ∧
  match w_pc w with
  | WIdle _ => True
  | WFor => w_data w = drop (Z.to_nat (w_i w)) (w_all w)
  | _ => w_i w < w_n w ∧ w_data w = drop (Z.to_nat (w_i w)) (w_all w)
  end.

Record inv (N : Z) (s : pst) : Prop := {
  iv_ring : ring (pp s) (got s) (put s);
  iv_bound : Z.of_nat (length (put s)) ≤ N;
  iv_rd : rd_ok (pp s) (got s) (put s) (r_pc (rd s));
  iv_wr : wr_ok (pp s) (got s) (put s) (hd 0 (w_data (wr s))) (w_pc (wr s));
  iv_rcall : rd_call (rd s) (got s);
  iv_wcall : wr_call (wr s) (put s)
}.

Lemma inv_mono N s : inv N s → inv (N + 1) s.
Proof. intros []. split; try done. lia. Qed.

Lemma inv_switch N w s : inv N s → inv N (switch w s).
Proof. intros []. unfold switch. case_decide; [done|]. by destruct w. Qed.

Lemma inv_sched N l r w s : inv N s → inv N (set_sched l r w s).
Proof. by intros []. Qed.

Lemma inv_goto_r N s pc :
  inv N s → rd_ok (pp s) (got s) (put s) pc →
  rd_call (MkRd (r_n (rd s)) (r_i (rd s)) pc (r_base (rd s))) (got s) → inv N (goto_r pc s).
Proof. by intros [] ? ?. Qed.

Lemma inv_goto_w N s pc :
  inv N s → wr_ok (pp s) (got s) (put s) (hd 0 (w_data (wr s))) pc →
  wr_call (MkWr (w_n (wr s)) (w_i (wr s)) (w_data (wr s)) pc (w_base (wr s)) (w_all (wr s))) (put s) →
  inv N (goto_w pc s).
Proof. by intros [] ? ?. Qed.

Section steps.
Context `{Evaluation} (Hbf : buffer_first = true).

Lemma read_step_inv N s s' : inv N s → N < 2 ^ 32 - 33 → pipe_read_step s = Some s' → inv N s'.
Proof.
  intros Hi HN. pose proof Hi as [I1 I2 I3 I4 I5 I6]. unfold rd_call in I5. unfold pipe_read_step. rewrite Hbf.
  destruct (r_pc (rd s)) eqn:Hpc; cbn in I3, I5; try done; try (intros [= <-]).
  - destruct (Z.ltb_spec (r_i (rd s)) (r_n (rd s))); apply inv_goto_r; try done; unfold rd_call; cbn; lia.
  - by apply inv_goto_r.
  - destruct I1 as [R1 R2 R3 _ _ _]. destruct (Z.geb_spec rpos (p_wpos (pp s))).
    + destruct (Z.eqb_spec (r_i (rd s)) 0); cbn; apply inv_goto_r; try done. unfold rd_call; cbn. lia.
    + apply inv_goto_r; try done. cbn. lia.
  - destruct (step_closed _ _ _ c) as [c'|[|]]; apply inv_goto_r; try done. unfold rd_call; cbn. lia.
  - by apply inv_goto_r.
  - by apply inv_goto_r.
  - destruct I3 as [-> Hl]. pose proof I1 as [R1 R2 R3 R4 R5 R6]. rewrite R1, slot, R6 by lia.
    destruct (put s !! length (got s)) as [b|] eqn:Eb; [|done]. intros [= <-].
    apply inv_goto_r; [done|by rewrite <- R1|unfold rd_call; cbn; lia].
  - destruct I3 as [-> Hb]. pose proof (rg_r _ _ _ I1) as R1. pose proof (ring_take _ _ _ _ I1 Hb) as Hr.
    destruct (rg_room _ _ _ Hr) as [Hroom _]. rewrite length_app in Hroom. cbn in Hroom.
    rewrite u32_small by lia. split; cbn; try done.
    + destruct (w_pc (wr s)); cbn in *; rewrite ?length_app; cbn; try done; try lia; naive_solver lia.
    + unfold rd_call. cbn. rewrite length_app. cbn. lia.
Qed.

Lemma wr_call_next w l : wr_call w l →
  match w_pc w with WInc _ => True | _ => False end →
  wr_call (MkWr (w_n w) (w_i w + 1) (tl (w_data w)) WFor (w_base w) (w_all w)) (l ++ [u8 (hd 0 (w_data w))]).
Proof.
  unfold wr_call. destruct (w_pc w); try done. cbn. intros (H1 & H2 & H3 & H4 & H5 & H6) _.
  rewrite length_app. replace (Z.to_nat (w_i w + 1)) with (S (Z.to_nat (w_i w))) by lia.
  destruct (w_all w !! Z.to_nat (w_i w)) as [b|] eqn:Eb; [|apply lookup_ge_None in Eb; lia].
  assert (Hd : w_data w = b :: drop (S (Z.to_nat (w_i w))) (w_all w)) by (by rewrite H6, (drop_S _ b)).
  rewrite Hd. cbn. split_and!; try done; try lia.
  rewrite drop_app_le, H4, (take_S_r _ _ b) by done. by rewrite map_app.
Qed.

Lemma write_step_inv N s s' : inv N s → N < 2 ^ 32 - 33 → pipe_write_step s = Some s' → inv (N + 1) s'.
Proof.
  intros Hi HN. pose proof Hi as [I1 I2 I3 I4 I5 I6]. pose proof I6 as I6'. unfold wr_call in I6. unfold pipe_write_step. rewrite Hbf.
  destruct (w_pc (wr s)) eqn:Hpc; cbn in I4, I6; try done; try (intros [= <-]).
  - apply inv_mono. destruct (Z.ltb_spec (w_i (wr s)) (w_n (wr s))); apply inv_goto_w; try done; unfold wr_call; cbn.
    + naive_solver lia.
    + destruct I6 as (? & ? & ? & ? & ?). replace (w_n (wr s)) with (w_i (wr s)) by lia. split_and!; try done; lia.
  - by apply inv_mono, inv_goto_w.
  - apply inv_mono. pose proof I1 as [R1 R2 R3 _ _ _]. rewrite u32_small by (unfold BY2PIPE; lia). unfold BY2PIPE.
    destruct (Z.geb_spec wpos (p_rpos (pp s) + 32)); apply inv_goto_w; try done. cbn. lia.
  - apply inv_mono. destruct (step_closed _ _ _ c) as [c'|[|]]; apply inv_goto_w; try done.
    unfold wr_call; cbn. naive_solver.
  - by apply inv_mono, inv_goto_w.
  - apply inv_mono. by apply inv_goto_w.
  - apply inv_mono. destruct I4 as [-> Hl]. destruct (ring_store _ _ _ _ (hd 0 (w_data (wr s))) I1 Hl eq_refl) as [Hr Hb].
    apply (inv_goto_w N (set_pp _ s)); [split; cbn; try done|by cbn|done]. by rewrite Hpc.
  - destruct I4 as (-> & Hl & Hb). pose proof (rg_w _ _ _ I1) as R2.
    rewrite u32_small by lia. split; cbn.
    + by apply ring_publish.
    + rewrite length_app. cbn. lia.
    + destruct (r_pc (rd s)); cbn in *; rewrite ?length_app; cbn; try done; try lia; try (naive_solver lia).
      destruct I3. split; [done|]. by apply lookup_app_l_Some.
    + done.
    + done.
    + apply wr_call_next; [done|]. by rewrite Hpc.
Qed.
End steps.

Section runs.
Context `{Evaluation} (Hbf : buffer_first = true).

Lemma exec_inv N a s s' : inv N s → N < 2 ^ 32 - 33 → exec a s = Some s' → inv (N + 1) s'.
Proof.
  intros Hi HN. pose proof (inv_mono N s Hi) as Hi1. destruct a as [[]| |n|data|w| |w|]; cbn; intros E.
  - apply inv_mono. by eapply read_step_inv, E; [|apply inv_switch|].
  - by eapply write_step_inv, E; [|apply inv_switch|].
  - injection E as <-. by apply inv_switch.
  - injection E as <-. destruct (last s); [by apply inv_sched..|done].
  - destruct (r_pc (rd s)); [|done..]. injection E as <-. destruct (inv_switch _ Reader s Hi1) as [I1 I2 _ I4 _ I6].
    split; cbn; try done. pose proof (u32_bound n). unfold rd_call. cbn. assert (got (switch Reader s) = got s) as ->.
    { unfold switch. by case_decide. } lia.
  - destruct (w_pc (wr s)); [|done..]. injection E as <-. destruct (inv_switch _ Writer s Hi1) as [I1 I2 I3 _ I5 _].
    split; cbn; try done. assert (put (switch Writer s) = put s) as -> by (unfold switch; by case_decide).
    unfold wr_call. cbn. rewrite drop_all. split_and!; try done; lia.
  - destruct w; cbn in E; try done; injection E as <-; by destruct (inv_switch _ Other s Hi1).
  - destruct (0 <? dupping s); [|done]. injection E as <-. by destruct (inv_switch _ Other s Hi1).
  - destruct (0 <? ref_of w (prefs s)); [|done]. destruct w; cbn in E; try done; injection E as <-;
      by destruct (inv_switch _ Other s Hi1).
  - destruct (0 <? closing s); [|done]. injection E as <-. by destruct (inv_switch _ Other s Hi1).
Qed.

Lemma execs_inv l N s s' : inv N s → N + Z.of_nat (length l) < 2 ^ 32 - 33 → execs l s = Some s' →
  inv (N + Z.of_nat (length l)) s'.
Proof.
  revert N s. induction l as [|a l IH]; intros N s Hi HN E; cbn in *.
  - injection E as <-. by rewrite Z.add_0_r.
  - destruct (exec a s) as [s1|] eqn:E1; [|done]. cbn in E.
    pose proof (exec_inv N a s s1 Hi ltac:(lia) E1) as Hi1.
    replace (N + Z.of_nat (S (length l))) with (N + 1 + Z.of_nat (length l)) by lia. apply (IH _ s1); [done|lia|done].
Qed.
End runs.

Lemma start_inv : inv 0 (pipe_start 0).
Proof.
  split; cbn; try done. split; cbn; try done; lia.
Qed.


(** Two bytes, the accesses of the two loops interleaved *)
#[local] Instance w_order : Evaluation := true.
Definition steps (n : nat) (w : who) : list action := replicate n (Run w).
Definition w_talk : list action :=
  [CallRead 3; CallWrite [65; 66]] ++ steps 2 Reader ++ steps 6 Writer ++ steps 2 Reader ++ steps 3 Writer ++
  steps 1 Reader ++ steps 3 Writer ++ steps 7 Reader ++ steps 1 Writer ++ steps 3 Reader.
Definition w_talked : pst := default (pipe_start 0) (execs w_talk (pipe_start 0)).


(** * References *)

(** What the check has read still holds, unless it has been preempted. *)
Definition check_ok (me : bool) (runs fd p : Z) (c : cpc) : Prop :=
  match c with
  | C0 => True
  | C1 r => r ≤ runs
  | C2 r f => r ≤ runs ∧ (me = true → r = runs → f = fd)
  | C3 r f q => r ≤ runs ∧ (me = true → r = runs → f = fd ∧ q = p)
  end.

Record counted (N : Z) (s : pst) : Prop := {
  ct_sum : ref_p (prefs s) = ref_r (prefs s) + ref_w (prefs s) + closing s - dupping s;
  ct_pos : 0 ≤ ref_r (prefs s) ∧ 0 ≤ ref_w (prefs s) ∧ 0 ≤ closing s ∧ 0 ≤ dupping s;
  ct_runs : 0 ≤ rruns s ≤ N ∧ 0 ≤ wruns s ≤ N;
  ct_rd : ∀ c, r_pc (rd s) = RCheck c →
    check_ok (bool_decide (last s = Reader)) (rruns s) (ref_r (prefs s)) (ref_p (prefs s)) c;
  ct_wr : ∀ c, w_pc (wr s) = WCheck c →
    check_ok (bool_decide (last s = Writer)) (wruns s) (ref_w (prefs s)) (ref_p (prefs s)) c
}.

(** Preemption and time only make what was read stale. *)
Lemma check_ok_later me me' runs runs' fd fd' p p' c :
  check_ok me runs fd p c → runs ≤ runs' →
  (me' = true → runs' = runs → me = true ∧ fd' = fd ∧ p' = p) → check_ok me' runs' fd' p' c.
Proof.
  intros Hc Hr Hm. destruct c as [|r|r f|r f q]; cbn in *; [done|lia| |].
  - destruct Hc as [H1 H2]. split; [lia|]. intros Hme ->. destruct (Z.eq_dec runs' runs) as [E|]; [|lia].
    destruct (Hm Hme E) as (Hme' & -> & _). by apply H2.
  - destruct Hc as [H1 H2]. split; [lia|]. intros Hme ->. destruct (Z.eq_dec runs' runs) as [E|]; [|lia].
    destruct (Hm Hme E) as (Hme' & -> & ->). by apply H2.
Qed.

Lemma check_ok_step runs fd p c c' :
  check_ok true runs fd p c → step_closed runs fd p c = inl c' → check_ok true runs fd p c'.
Proof.
  destruct c as [|r|r f|r f q]; cbn; [intros _ [= <-]; cbn; lia|intros ? [= <-]; cbn; naive_solver| |].
  - intros [H1 H2] [= <-]. cbn. split; [done|]. intros _ ->. by rewrite H2.
  - intros _. by destruct (r =? runs); intros [= <-].
Qed.

(** The answer compares the counts as they are when it is given. *)
Lemma check_ok_answer runs fd p c b :
  check_ok true runs fd p c → step_closed runs fd p c = inr b → b = (fd =? p).
Proof.
  destruct c as [|r|r f|r f q]; cbn; try done. intros [H1 H2].
  destruct (Z.eqb_spec r runs) as [E|]; intros [= <-]. by destruct (H2 eq_refl E) as [-> ->].
Qed.

Lemma counted_switch N w s : counted N s → N < 2 ^ 32 - 1 → counted (N + 1) (switch w s).
Proof.
  intros [C1 C2 C3 C4 C5] HN. unfold switch. destruct (decide (last s = w)) as [Hw|Hw]; [split; try done; lia|].
  destruct w; cbn; rewrite ?u32_small by lia; (split; cbn; [done|done|lia| |]); intros c Hc.
  all: first [eapply check_ok_later; [by apply C4| |]|eapply check_ok_later; [by apply C5| |]]; try lia.
  all: intros Hme ?; try (exfalso; lia); by rewrite bool_decide_false in Hme.
Qed.

(** A step of the reader or the writer changes no reference, and a check that
    goes on has read the present. *)
Lemma read_step_frame `{Evaluation} s s' : pipe_read_step s = Some s' →
  prefs s' = prefs s ∧ last s' = last s ∧ rruns s' = rruns s ∧ wruns s' = wruns s ∧ w_pc (wr s') = w_pc (wr s) ∧
  dupping s' = dupping s ∧ closing s' = closing s ∧
  ∀ c', r_pc (rd s') = RCheck c' → c' = C0 ∨
    ∃ c, r_pc (rd s) = RCheck c ∧ step_closed (rruns s) (ref_r (prefs s)) (ref_p (prefs s)) c = inl c'.
Proof.
  unfold pipe_read_step. intros E.
  destruct (r_pc (rd s)) as [| | | |c| | | | | |] eqn:Hpc; try done; try destruct (p_buf (pp s) !! _); try done;
    cbn in E; injection E as <-; repeat (case_match; cbn); split_and!; try done; cbn; intros c1 Hc1; try done.
  - left. congruence.
  - right. exists c. split; [done|]. congruence.
Qed.

Lemma write_step_frame `{Evaluation} s s' : pipe_write_step s = Some s' →
  prefs s' = prefs s ∧ last s' = last s ∧ rruns s' = rruns s ∧ wruns s' = wruns s ∧ r_pc (rd s') = r_pc (rd s) ∧
  dupping s' = dupping s ∧ closing s' = closing s ∧
  ∀ c', w_pc (wr s') = WCheck c' → c' = C0 ∨
    ∃ c, w_pc (wr s) = WCheck c ∧ step_closed (wruns s) (ref_w (prefs s)) (ref_p (prefs s)) c = inl c'.
Proof.
  unfold pipe_write_step. intros E.
  destruct (w_pc (wr s)) as [| | | |c| | | | | |] eqn:Hpc; try done;
    cbn in E; injection E as <-; repeat (case_match; cbn); split_and!; try done; cbn; intros c1 Hc1; try done.
  - left. congruence.
  - right. exists c. split; [done|]. congruence.
Qed.

Lemma switch_last w s : last (switch w s) = w.
Proof. unfold switch. destruct (decide (last s = w)); [done|by destruct w]. Qed.

Lemma switch_frame w s : pp (switch w s) = pp s ∧ prefs (switch w s) = prefs s ∧ rd (switch w s) = rd s ∧
  wr (switch w s) = wr s ∧ dupping (switch w s) = dupping s ∧ closing (switch w s) = closing s ∧
  got (switch w s) = got s ∧ put (switch w s) = put s.
Proof. unfold switch. destruct (decide (last s = w)); [done|by destruct w]. Qed.

(** Another program changes the references: what a check has read is stale. *)
Lemma counted_other N s r d c : counted N s → last s = Other →
  ref_p r = ref_r r + ref_w r + c - d → 0 ≤ ref_r r → 0 ≤ ref_w r → 0 ≤ c → 0 ≤ d →
  counted N (set_pending d c (set_prefs r s)).
Proof.
  intros [C1 C2 C3 C4 C5] Hl ? ? ? ? ?. split; cbn; [done|done|done| |]; intros x Hx.
  - eapply check_ok_later; [by apply C4|lia|]. by rewrite Hl.
  - eapply check_ok_later; [by apply C5|lia|]. by rewrite Hl.
Qed.

Lemma counted_read `{Evaluation} N s s' : counted N s → last s = Reader → pipe_read_step s = Some s' → counted N s'.
Proof.
  intros [C1 C2 C3 C4 C5] Hl E. destruct (read_step_frame s s' E) as (F1 & F2 & F3 & F4 & F5 & F6 & F7 & F8).
  split; rewrite ?F1, ?F2, ?F3, ?F4, ?F5, ?F6, ?F7; try done. intros c' Hc'. rewrite Hl.
  destruct (F8 c' Hc') as [->|(c & Hc & Es)]; [done|]. eapply check_ok_step, Es. specialize (C4 c Hc). by rewrite Hl in C4.
Qed.

Lemma counted_write `{Evaluation} N s s' : counted N s → last s = Writer → pipe_write_step s = Some s' → counted N s'.
Proof.
  intros [C1 C2 C3 C4 C5] Hl E. destruct (write_step_frame s s' E) as (F1 & F2 & F3 & F4 & F5 & F6 & F7 & F8).
  split; rewrite ?F1, ?F2, ?F3, ?F4, ?F5, ?F6, ?F7; try done. intros c' Hc'. rewrite Hl.
  destruct (F8 c' Hc') as [->|(c & Hc & Es)]; [done|]. eapply check_ok_step, Es. specialize (C5 c Hc). by rewrite Hl in C5.
Qed.

Lemma counted_tick N s : counted N s → N < 2 ^ 32 - 1 →
  counted (N + 1) (match last s with
    | Reader => set_sched Reader (u32 (rruns s + 1)) (wruns s) s
    | Writer => set_sched Writer (rruns s) (u32 (wruns s + 1)) s
    | Other => s end).
Proof.
  intros [C1 C2 C3 C4 C5] HN. destruct (last s) eqn:Hl; cbn; rewrite ?u32_small by lia;
    (split; cbn; [done|done|lia| |]); intros c Hc.
  all: first [eapply check_ok_later; [by apply C4| |]|eapply check_ok_later; [by apply C5| |]]; try lia.
  all: intros Hme ?; try (exfalso; lia); rewrite ?Hl in *; by rewrite ?bool_decide_false in Hme.
Qed.

Lemma exec_counted `{Evaluation} N a s s' : counted N s → N < 2 ^ 32 - 1 → exec a s = Some s' → counted (N + 1) s'.
Proof.
  intros Hc HN. pose proof (counted_switch N Reader s Hc HN) as HR. pose proof (counted_switch N Writer s Hc HN) as HW.
  pose proof (counted_switch N Other s Hc HN) as HO. pose proof (switch_frame Other s) as (_ & FO & _ & _ & FD & FC & _).
  pose proof (switch_last Other s) as LO. pose proof Hc as [C1 C2 _ _ _].
  destruct a as [[]| |n|data|w| |w|]; cbn; intros E.
  - eapply counted_read, E; [done|apply switch_last].
  - eapply counted_write, E; [done|apply switch_last].
  - by injection E as <-.
  - injection E as <-. by apply counted_tick.
  - destruct (r_pc (rd s)); [|done..]. injection E as <-. by destruct HR.
  - destruct (w_pc (wr s)); [|done..]. injection E as <-. by destruct HW.
  - destruct w; cbn in E; try done; injection E as <-; apply counted_other; cbn; rewrite ?FO, ?FD, ?FC; try done; lia.
  - destruct (Z.ltb_spec 0 (dupping s)); [|done]. injection E as <-. apply counted_other; cbn; rewrite ?FO, ?FD, ?FC; try done; lia.
  - destruct (Z.ltb_spec 0 (ref_of w (prefs s))); [|done].
    destruct w; cbn in *; try done; injection E as <-; apply counted_other; cbn; rewrite ?FO, ?FD, ?FC; try done; lia.
  - destruct (Z.ltb_spec 0 (closing s)); [|done]. injection E as <-. apply counted_other; cbn; rewrite ?FO, ?FD, ?FC; try done; lia.
Qed.

Lemma execs_counted `{Evaluation} l N s s' : counted N s → N + Z.of_nat (length l) < 2 ^ 32 - 1 →
  execs l s = Some s' → counted (N + Z.of_nat (length l)) s'.
Proof.
  revert N s. induction l as [|a l IH]; intros N s Hi HN E; cbn in *.
  - injection E as <-. by rewrite Z.add_0_r.
  - destruct (exec a s) as [s1|] eqn:E1; [|done]. cbn in E.
    pose proof (exec_counted N a s s1 Hi ltac:(lia) E1) as Hi1.
    replace (N + Z.of_nat (S (length l))) with (N + 1 + Z.of_nat (length l)) by lia. by apply (IH _ s1); [|lia|].
Qed.

Lemma start_counted rw : counted 0 (pipe_start rw).
Proof. split; cbn; try done; lia. Qed.

(** What ends a check: the answer, or the way back to the loop *)
Lemma read_answer `{Evaluation} s s' : pipe_read_step s = Some s' →
  (r_pc (rd s') = RIdle 0 → 0 < r_n (rd s') →
     ∃ c, r_pc (rd s) = RCheck c ∧ step_closed (rruns s) (ref_r (prefs s)) (ref_p (prefs s)) c = inr true) ∧
  (r_pc (rd s') = RYield →
     ∃ c, r_pc (rd s) = RCheck c ∧ step_closed (rruns s) (ref_r (prefs s)) (ref_p (prefs s)) c = inr false).
Proof.
  unfold pipe_read_step. intros E.
  destruct (r_pc (rd s)) as [| | | |c| | | | | |] eqn:Hpc; try done; try destruct (p_buf (pp s) !! _); try done;
    cbn in E; injection E as <-; repeat (case_match; cbn); split; try done; cbn; try (intros [= E0] Hn; try lia).
  - by exists c.
  - by exists c.
Qed.

Lemma write_answer `{Evaluation} s s' v : pipe_write_step s = Some s' →
  (w_pc (wr s') = WIdle v → v < w_n (wr s') →
     ∃ c, w_pc (wr s) = WCheck c ∧ step_closed (wruns s) (ref_w (prefs s)) (ref_p (prefs s)) c = inr true) ∧
  (w_pc (wr s') = WYield →
     ∃ c, w_pc (wr s) = WCheck c ∧ step_closed (wruns s) (ref_w (prefs s)) (ref_p (prefs s)) c = inr false).
Proof.
  unfold pipe_write_step. intros E.
  destruct (w_pc (wr s)) as [| | | |c| | | | | |] eqn:Hpc; try done;
    cbn in E; injection E as <-; repeat (case_match; cbn); split; try done; cbn; try (intros [= E0] Hn; try lia).
  - by exists c.
  - by exists c.
Qed.


(** The reader waits, the writer closes its end, the reader is about to learn. *)
Definition w_end : list action := [CallRead 1] ++ steps 3 Reader ++ [CloseFd Writer; CloseData] ++ steps 3 Reader.


(** * What preemption breaks *)

(** C27. A reader can miss the end of the data: [pipe_read] looks whether the
    pipe is closed after it has found it empty, and a writer that writes and
    closes in between makes it return 0, the end of file, with a byte in the
    pipe. *)
Theorem pipe_read_misses_last_byte `{Evaluation} :
  ∃ l s, execs l (pipe_start 0) = Some s ∧ r_n (rd s) = 1 ∧ r_pc (rd s) = RIdle 0 ∧
    put s = [65] ∧ got s = [] ∧ w_pc (wr s) = WIdle 1 ∧ prefs s = MkRefs 1 0 1.
Proof.
  exists ([CallRead 1; CallWrite [65]] ++ steps 3 Reader ++ steps 7 Writer ++ [CloseFd Writer; CloseData] ++ steps 4 Reader).
  destruct H; (eexists; split; [vm_compute; reflexivity|]); by split_and!.
Qed.

(** A pipe can look closed while its write end is open: [dup] maps the
    descriptor before the pipe, and between the two the references of the read
    end catch up with those of the pipe; another program that reads from it
    then gets the end of file. *)
Theorem pipe_dup_race `{Evaluation} :
  ∃ l s, execs l (pipe_start 0) = Some s ∧ r_n (rd s) = 1 ∧ r_pc (rd s) = RIdle 0 ∧ put s = [] ∧
    prefs s = MkRefs 3 1 3 ∧ dupping s = 1.
Proof.
  exists ([DupFd Reader; DupData; CallRead 1] ++ steps 3 Reader ++ [DupFd Reader] ++ steps 4 Reader).
  destruct H; (eexists; split; [vm_compute; reflexivity|]); by split_and!.
Qed.

(** When the increment of [p_wpos++] is stored before the byte, which C
    allows, a reader that runs in between takes a byte that was never
    written. *)
Theorem pipe_order_race `{Evaluation} : buffer_first = false →
  ∃ l s, execs l (pipe_start 0) = Some s ∧ put s = [65] ∧ got s = [0] ∧ r_pc (rd s) = RIdle 1.
Proof.
  intros Hb. exists ([CallRead 1; CallWrite [65]] ++ steps 5 Writer ++ steps 7 Reader).
  destruct H; [done|]. eexists. split; [vm_compute; reflexivity|]. by split_and!.
Qed.

Lemma pipe_order_race_witness : ∃ l s, execs (H := false) l (pipe_start 0) = Some s ∧ put s = [65] ∧ got s = [0].
Proof. destruct (@pipe_order_race false eq_refl) as (l & s & ? & ? & ? & _). by exists l, s. Defined.

(** * Positions wrap *)

Section stuck.
Context `{Evaluation} (rw : Z) (Hrw : 2 ^ 32 - 32 ≤ rw < 2 ^ 32).

(** Both programs are in their loops: the reader finds the pipe empty, the
    writer full. *)
Definition r_stuck (pc : rpc) : Prop :=
  match pc with RTake | RGet _ | RInc _ _ | RInc' _ | RGet' _ => False | RCmp x => x = rw | _ => True end.
Definition w_stuck (pc : wpc) : Prop :=
  match pc with WPut | WSet _ | WInc _ | WInc' _ | WSet' _ => False | WCmp x => x = rw | _ => True end.
Definition stuck (s : pst) : Prop :=
  p_rpos (pp s) = rw ∧ p_wpos (pp s) = rw ∧ r_stuck (r_pc (rd s)) ∧ w_stuck (w_pc (wr s)).

Lemma stuck_same s s' : stuck s → pp s' = pp s → r_pc (rd s') = r_pc (rd s) → w_pc (wr s') = w_pc (wr s) → stuck s'.
Proof. intros Hs E1 E2 E3. unfold stuck. by rewrite E1, E2, E3. Qed.

Lemma stuck_read s s' : stuck s → pipe_read_step s = Some s' → stuck s' ∧ got s' = got s ∧ put s' = put s.
Proof.
  intros (S1 & S2 & S3 & S4) E. unfold pipe_read_step in E.
  destruct (r_pc (rd s)) as [| | |x|c| | | | | |] eqn:Hpc; try done; cbn in E; injection E as <-;
    repeat (case_match; cbn); split; try done; unfold stuck; cbn; split_and!; try done.
  rewrite S2, S3 in *. destruct (Z.geb_spec rw rw); [done|lia].
Qed.

Lemma stuck_write s s' : stuck s → pipe_write_step s = Some s' → stuck s' ∧ got s' = got s ∧ put s' = put s.
Proof.
  intros (S1 & S2 & S3 & S4) E. unfold pipe_write_step in E.
  destruct (w_pc (wr s)) as [| | |x|c| | | | | |] eqn:Hpc; try done; cbn in E; injection E as <-;
    repeat (case_match; cbn); split; try done; unfold stuck; cbn; split_and!; try done.
  rewrite S1, S4 in *. unfold u32, BY2PIPE in *. change (2 ^ 32) with 4294967296 in *.
  rewrite <- (Z.mod_add (rw + 32) (-1)) in * by lia. rewrite Z.mod_small in * by lia.
  destruct (Z.geb_spec rw (rw + 32 + -1 * 4294967296)); [done|lia].
Qed.

Lemma stuck_exec a s s' : stuck s → exec a s = Some s' → stuck s' ∧ got s' = got s ∧ put s' = put s.
Proof.
  intros Hs. pose proof (λ w, switch_frame w s) as Hf.
  assert (Hw : ∀ w, stuck (switch w s)).
  { intros w. destruct (Hf w) as (E1 & _ & E3 & E4 & _). apply (stuck_same s); congruence. }
  destruct (Hf Reader) as (_ & _ & _ & _ & _ & _ & RG & RP), (Hf Writer) as (_ & _ & _ & _ & _ & _ & WG & WP),
    (Hf Other) as (_ & _ & _ & _ & _ & _ & OG & OP).
  pose proof (conj (Hw Other) (conj OG OP)) as HO.
  destruct a as [[]| |n|data|w| |w|]; cbn; intros E.
  - rewrite <- RG, <- RP. by apply stuck_read.
  - rewrite <- WG, <- WP. by apply stuck_write.
  - by injection E as <-.
  - injection E as <-. by destruct (last s).
  - destruct (r_pc (rd s)); [|done..]. injection E as <-. split; [|done]. by destruct (Hw Reader) as (? & ? & _ & ?).
  - destruct (w_pc (wr s)); [|done..]. injection E as <-. split; [|done]. by destruct (Hw Writer) as (? & ? & ? & _).
  - destruct w; cbn in E; try done; injection E as <-; exact HO.
  - destruct (0 <? dupping s); [|done]. injection E as <-. exact HO.
  - destruct (0 <? ref_of w (prefs s)); [|done]. destruct w; cbn in E; try done; injection E as <-; exact HO.
  - destruct (0 <? closing s); [|done]. injection E as <-. exact HO.
Qed.

Lemma stuck_execs l s s' : stuck s → execs l s = Some s' → got s' = got s ∧ put s' = put s.
Proof.
  revert s. induction l as [|a l IH]; intros s Hs E; cbn in E; [by injection E as <-|].
  destruct (exec a s) as [s1|] eqn:E1; [|done]. cbn in E.
  destruct (stuck_exec a s s1 Hs E1) as (Hs1 & <- & <-). by apply IH.
Qed.

End stuck.

(** C32. The positions are 32-bit counters, compared without regard to
    wrapping: once 2^32 - 32 bytes have gone through an empty pipe, the sum in
    the writer's test for a full pipe wraps, and the pipe is empty for the
    reader and full for the writer; whatever they and other programs do then,
    no byte is ever written or read again. *)
Theorem pipe_wraps `{Evaluation} rw l s :
  2 ^ 32 - 32 ≤ rw < 2 ^ 32 → execs l (pipe_start rw) = Some s → got s = [] ∧ put s = [].
Proof. intros Hrw E. by apply (stuck_execs rw Hrw l (pipe_start rw)). Qed.

(** A writer with a byte to write and a reader, both without success *)
Lemma pipe_wraps_witness :
  let l := [CallWrite [65]; CallRead 1] ++ steps 20 Writer ++ steps 20 Reader in
  ∃ s, execs l (pipe_start (2 ^ 32 - 32)) = Some s ∧ put s = [].
Proof.
  intros l. destruct (execs l (pipe_start (2 ^ 32 - 32))) as [s|] eqn:E; [|by vm_compute in E].
  exists s. split; [done|]. apply (pipe_wraps (2 ^ 32 - 32) l s ltac:(lia) E).
Defined.
