(* ===== verification/Ulib.v ===== *)
(** What the client library stands on: the address spaces, system calls and
    memory accesses of a running program (user/lib/syscall_lib.c, ipc.c,
    pageref.c and the views vpd and vpt of user/include/lib.h).

    The machine is the abstract state of PmapSpec, shared by all programs,
    with the contents of its pages; [udir] is the directory of the running
    program.  UlibProps shows that the kernel implements these calls.  Other
    programs and the file server appear through [Neighbours], what they do
    while this program waits, and through the replies they will send. *)
From S2P Require Import Prelude Mmu Memory PmapSpec Syscall.

(** A reply: value, page sent and the receiver's [env_ipc_perm] *)
Record reply := Reply { rp_value : Z; rp_page : option Z; rp_perm : Z }.

Record world := MkWorld {
  uvm : vm;
  umem : memory;
  udir : Z;
  requests : list (Z * page);      (* value and page of the messages sent *)
  send_res : list Z;               (* results of the sends to come; then 0 *)
  replies : list reply;            (* messages to be received *)
  keys : list Z;                   (* results of [sys_cgetc] to come *)
  shown : list Z                   (* bytes written to the console *)
}.

Definition set_uvm v s := MkWorld v (umem s) (udir s) (requests s) (send_res s) (replies s) (keys s) (shown s).
Definition set_umem v s := MkWorld (uvm s) v (udir s) (requests s) (send_res s) (replies s) (keys s) (shown s).
Definition set_requests v s := MkWorld (uvm s) (umem s) (udir s) v (send_res s) (replies s) (keys s) (shown s).
Definition set_send_res v s := MkWorld (uvm s) (umem s) (udir s) (requests s) v (replies s) (keys s) (shown s).
Definition set_replies v s := MkWorld (uvm s) (umem s) (udir s) (requests s) (send_res s) v (keys s) (shown s).
Definition set_keys v s := MkWorld (uvm s) (umem s) (udir s) (requests s) (send_res s) (replies s) v (shown s).
Definition set_shown v s := MkWorld (uvm s) (umem s) (udir s) (requests s) (send_res s) (replies s) (keys s) v.

(** What happens elsewhere while the program yields or waits, and how often a
    polling loop may go round *)
Class Neighbours := { others : world → world; patience : nat }.

Section ulib.
Context `{Neighbours}.

Definition slot (s : world) (va : Z) : option (Z * Z) := maps (uvm s) !! (udir s, VPN va).

(** * System calls on the caller itself *)

Definition u_mem_alloc (va perm : Z) : M world Z := λ s,
  if is_illegal_va va then Ok (- E_INVAL) s
  else match free (uvm s) with
       | [] => Ok (- E_NO_MEM) s
       | p :: fl =>
           let s := set_umem (clear_page (page2pa p) (umem s)) (set_uvm (set_vfree fl (uvm s)) s) in
           match spec_insert (uvm s) (udir s) (VPN va) p (Z.lor perm PTE_U) with
           | Some A => Ok 0 (set_uvm A s)
           | None => Ok (- E_NO_MEM) s
           end
       end.

Definition u_mem_map (srcva dstva perm : Z) : M world Z := λ s,
  if is_illegal_va srcva || is_illegal_va dstva then Ok (- E_INVAL) s
  else match slot s srcva with
       | None => Ok (- E_INVAL) s
       | Some (p, _) =>
           match spec_insert (uvm s) (udir s) (VPN dstva) p (Z.lor perm PTE_U) with
           | Some A => Ok 0 (set_uvm A s)
           | None => Ok (- E_NO_MEM) s
           end
       end.

Definition u_mem_unmap (va : Z) : M world Z := λ s,
  if is_illegal_va va then Ok (- E_INVAL) s
  else Ok 0 (set_uvm (spec_remove (uvm s) (udir s) (VPN va)) s).

Definition u_yield : M world unit := modify others.

(** * Views of the page tables *)

Definition u_vpd (va : Z) : M world bool :=
  if va >=? UTOP then fault "kernel part of the page directory"
  else gets (λ s, bool_decide (is_Some (tabs (uvm s) !! (udir s, PDX va)))).

(** The flags of the entry; an entry without PTE_V reads as 0. *)
Definition u_vpt (va : Z) : M world Z :=
  b <- u_vpd va ;;
  if b : bool then gets (λ s, from_option snd 0 (slot s va)) else panic "not a valid pte".

Definition u_pageref (va : Z) : M world Z :=
  b <- u_vpd va ;;
  if negb b then ret 0
  else
    pte <- u_vpt va ;;
    if negb (has pte PTE_V) then ret 0
    else gets (λ s, match slot s va with
                    | Some (p, _) => count p (maps (uvm s)) + pin (uvm s) p
                    | None => 0
                    end).

(** * Memory accesses *)

(** Addresses where an access to an unmapped page gets a page of zeros *)
Definition demand_page (va : Z) (is_store : bool) : bool :=
  ((UTEMP <=? va) && (va <? USTACKTOP)) || (is_store && (USTACKTOP + BY2PG <=? va) && (va <? UTOP)).

Definition page_in (va : Z) (is_store : bool) : M world unit := λ s,
  if demand_page va is_store then
    match free (uvm s) with
    | [] => Panic "panic_on"
    | p :: fl =>
        match spec_insert (set_vfree fl (uvm s)) (udir s) (VPN va) p (Z.lor (Z.lor PTE_R PTE_W) PTE_U) with
        | Some A => Ok tt (set_umem (clear_page (page2pa p) (umem s)) (set_uvm A s))
        | None => Panic "panic_on"
        end
    end
  else Panic "bad addr".

(** The effect of [cow_entry] (user/lib/fork.c) *)
Definition copy_on_write (va q g : Z) : M world unit :=
  let perm := Z.lor (Z.lxor g PTE_COW) PTE_W in
  r <- u_mem_alloc UCOW perm ;;
  if negb (r =? 0) then panic "user_panic"
  else
    n <- gets (λ s, from_option fst 0 (slot s UCOW)) ;;
    modify (λ s, set_umem (copy_page (page2pa n) (page2pa q) (umem s)) s) ;;
    _ <- u_mem_map UCOW va perm ;;
    _ <- u_mem_unmap UCOW ;;
    ret tt.

Definition u_slot (va : Z) : M world (Z * Z) := λ s,
  match slot s va with Some pf => Ok pf s | None => Fault "unmapped" end.

(** The physical address of [va] *)
Definition u_access (va : Z) (is_store : bool) : M world Z :=
  b <- gets (λ s, bool_decide (slot s va = None)) ;;
  (if b : bool then page_in va is_store else ret tt) ;;
  '(p, f) <- u_slot va ;;
  (if is_store && negb (has f PTE_W) && has f PTE_COW then copy_on_write va p f else ret tt) ;;
  '(p, f) <- u_slot va ;;
  if has f (if is_store then PTE_W else PTE_R) then ret (page2pa p + va mod BY2PG) else panic "bad perm".

Definition u_load (va : Z) : M world Z :=
  if negb (Z.land va 3 =? 0) then fault "misaligned access"
  else a <- u_access va false ;; gets (λ s, load (umem s) a).
Definition u_store (va x : Z) : M world unit :=
  if negb (Z.land va 3 =? 0) then fault "misaligned access"
  else a <- u_access va true ;; modify (λ s, set_umem (store a x (umem s)) s).
Definition u_load8 (va : Z) : M world Z := a <- u_access va false ;; gets (λ s, load8 (umem s) a).
Definition u_store8 (va x : Z) : M world unit :=
  a <- u_access va true ;; modify (λ s, set_umem (store8 a x (umem s)) s).

(** [n] bytes from [va] on, and storing bytes there *)
Fixpoint u_load_bytes (va : Z) (n : nat) : M world (list Z) :=
  match n with
  | O => ret []
  | S n' => b <- u_load8 va ;; l <- u_load_bytes (va + 1) n' ;; ret (b :: l)
  end.
Fixpoint u_store_bytes (va : Z) (l : list Z) : M world unit :=
  match l with
  | [] => ret tt
  | b :: l' => u_store8 va b ;; u_store_bytes (va + 1) l'
  end.

(** * user/lib/ipc.c *)

Definition u_try_send (value srcva : Z) : M world Z :=
  l <- gets send_res ;;
  r <- (match l with [] => ret 0 | r :: l' => modify (set_send_res l') ;; ret r end) ;;
  if negb (r =? 0) then ret r
  else
    m <- gets (λ s, slot s srcva) ;;
    match m with
    | None => ret (- E_INVAL)
    | Some (p, _) =>
        modify (λ s, set_requests (requests s ++ [(value, pg (umem s) (p + PPN0))]) s) ;;
        ret 0
    end.

(** [send_res] bounds the number of retries. *)
Fixpoint u_send_loop (fuel : nat) (value srcva : Z) : M world Z :=
  match fuel with
  | O => fault "ipc_send: out of fuel"
  | S fuel' =>
      r <- u_try_send value srcva ;;
      if r =? - E_IPC_NOT_RECV then u_yield ;; u_send_loop fuel' value srcva else ret r
  end.

Definition u_ipc_send (value srcva : Z) : M world unit :=
  l <- gets send_res ;;
  r <- u_send_loop (S (length l)) value srcva ;;
  if r =? 0 then ret tt else panic "user_assert".

(** The value and [env_ipc_perm]; the page is mapped at [dstva] unless there
    is no memory for it. *)
Definition u_ipc_recv (dstva : Z) : M world (Z * Z) :=
  if negb (dstva =? 0) && is_illegal_va dstva then panic "syscall_ipc_recv"
  else
    modify others ;;
    l <- gets replies ;;
    match l with
    | [] => λ s, UserMode s
    | m :: l' =>
        modify (set_replies l') ;;
        (match rp_page m with
         | Some p => modify (λ s, set_uvm (default (uvm s) (spec_insert (uvm s) (udir s) (VPN dstva) p (rp_perm m))) s)
         | None => ret tt
         end) ;;
        ret (rp_value m, rp_perm m)
    end.

(** * Console *)

Definition u_cgetc : M world Z :=
  l <- gets keys ;;
  match l with
  | [] => λ s, UserMode s
  | c :: l' => modify (set_keys l') ;; ret c
  end.

Definition u_print_cons (l : list Z) : M world Z := modify (λ s, set_shown (shown s ++ l) s) ;; ret 0.
End ulib.
