(* ===== verification/Fd.v ===== *)
(** File descriptors: user/lib/fd.c up to the device switch, and
    user/include/fd.h.

    A descriptor is a page with a [struct Fd]; its contents are mapped in the
    4 MB region of its number.  Buffers and path names of the caller are lists
    of bytes. *)
From S2P Require Import Prelude Mmu Memory PmapSpec Ulib.

Definition MAXFD := 32.
Definition FILEBASE := 0x60000000.
Definition FDTABLE := FILEBASE - PDMAP.
Definition INDEX2FD (i : Z) : Z := u32 (FDTABLE + i * BY2PG).
Definition INDEX2DATA (i : Z) : Z := u32 (FILEBASE + i * PDMAP).

(** Fields of a [struct Fd] *)
Definition dev_id_at (fd : Z) : Z := fd.
Definition offset_at (fd : Z) : Z := fd + 4.
Definition omode_at (fd : Z) : Z := fd + 8.

Definition O_RDONLY := 0.
Definition O_WRONLY := 1.
Definition O_RDWR := 2.
Definition O_ACCMODE := 3.

(** The fields of [struct Stat] that a device fills in; [st_dev] is the
    [dev_id]. *)
Record Stat := MkStat { st_name : list Z; st_size : Z; st_isdir : bool; st_dev : Z }.

Section fd.
Context `{Neighbours}.

Definition fd2num (fd : Z) : Z := u32 (fd - FDTABLE) / BY2PG.
Definition num2fd (fd : Z) : Z := fd * BY2PG + FDTABLE.
Definition fd2data (fd : Z) : Z := INDEX2DATA (fd2num fd).

(** The page of number [fdno] is free. *)
Definition fd_unused (fdno : Z) : M world bool :=
  let va := INDEX2FD fdno in
  b <- u_vpd va ;;
  if negb b then ret true else pte <- u_vpt va ;; ret (negb (has pte PTE_V)).

Fixpoint fd_alloc_loop (n : nat) (fdno : Z) : M world Z :=
  match n with
  | O => err (- E_MAX_OPEN)
  | S n' => b <- fd_unused fdno ;; if b : bool then ret (INDEX2FD fdno) else fd_alloc_loop n' (fdno + 1)
  end.

(** The result is the address of the page. *)
Definition fd_alloc : M world Z := fd_alloc_loop (Z.to_nat (MAXFD - 1)) 0.

Definition fd_close (fd : Z) : M world unit := _ <- u_mem_unmap fd ;; ret tt.

Definition fd_lookup (fdnum : Z) : M world Z :=
  if fdnum >=? MAXFD then err (- E_INVAL)
  else
    let va := INDEX2FD fdnum in
    b <- u_vpd va ;;
    if negb b then err (- E_INVAL)
    else pte <- u_vpt va ;; if has pte PTE_V then ret va else err (- E_INVAL).

Definition seek (fdnum offset : Z) : M world Z :=
  fd <- fd_lookup fdnum ;; u_store (offset_at fd) offset ;; ret 0.
End fd.
