(* ===== verification/File.v ===== *)
(** The client side of the file server: user/lib/fsipc.c and user/lib/file.c.

    Requests are built in the page [fsipcbuf]; the server's answers are
    [replies] of the world. *)
From S2P Require Import Prelude Mmu Memory Strings PmapSpec Fs Serv Ulib Fd.

(** The address of [fsipcbuf] in the program *)
Class FileSymbols := fsipcbuf : Z.

Definition MAXPATHLEN := Fs.MAXPATHLEN.
Definition MAXFILESIZE := Fs.NINDIRECT * Fs.BY2BLK.
Definition dev_file := 102.

(** Fields of a [struct Filefd] *)
Definition fileid_at (fd : Z) : Z := fd + 12.
Definition fname_at (fd : Z) : Z := fd + 16.
Definition fsize_at (fd : Z) : Z := fd + 16 + 128.
Definition ftype_at (fd : Z) : Z := fd + 16 + 132.

Section file.
Context `{Neighbours, FileSymbols}.

(** * fsipc.c *)

(** The value and the permissions of the reply; an [int] result is [s32]. *)
Definition fsipc (type dstva : Z) : M world (Z * Z) :=
  u_ipc_send type fsipcbuf ;; '(v, perm) <- u_ipc_recv dstva ;; ret (s32 v, perm).

Definition path_ok (path : list Z) : bool := Z.of_nat (length path) <? MAXPATHLEN.

(** [strcpy] of a path into the request *)
Definition put_path (path : list Z) : M world unit := u_store_bytes fsipcbuf (path ++ [0]).

Definition fsipc_open (path : list Z) (omode fd : Z) : M world Z :=
  if negb (path_ok path) then ret (- E_BAD_PATH)
  else
    put_path path ;;
    u_store (fsipcbuf + MAXPATHLEN) omode ;;
    '(r, _) <- fsipc Serv.FSREQ_OPEN fd ;; ret r.

Definition put_req (fileid arg : Z) : M world unit :=
  u_store fsipcbuf fileid ;; u_store (fsipcbuf + 4) arg.

Definition fsipc_map (fileid offset dstva : Z) : M world Z :=
  put_req fileid offset ;;
  '(r, perm) <- fsipc Serv.FSREQ_MAP dstva ;;
  if r <? 0 then ret r
  else if negb (Z.land perm (not32 (Z.lor (Z.lor PTE_R PTE_W) PTE_LIBRARY)) =? Z.lor PTE_V PTE_U)
  then panic "fsipc_map: unexpected permissions"
  else ret 0.

Definition fsipc_set_size (fileid size : Z) : M world Z :=
  put_req fileid size ;; '(r, _) <- fsipc Serv.FSREQ_SET_SIZE 0 ;; ret r.

Definition fsipc_close (fileid : Z) : M world Z :=
  u_store fsipcbuf fileid ;; '(r, _) <- fsipc Serv.FSREQ_CLOSE 0 ;; ret r.

Definition fsipc_dirty (fileid offset : Z) : M world Z :=
  put_req fileid offset ;; '(r, _) <- fsipc Serv.FSREQ_DIRTY 0 ;; ret r.

Definition fsipc_remove (path : list Z) : M world Z :=
  if bool_decide (path = []) || negb (path_ok path) then ret (- E_BAD_PATH)
  else put_path path ;; '(r, _) <- fsipc Serv.FSREQ_REMOVE 0 ;; ret r.

Definition fsipc_sync : M world Z := '(r, _) <- fsipc Serv.FSREQ_SYNC 0 ;; ret r.

(** * file.c *)

(** [for (i = lo; i < hi; i += BY2PG)] *)
Definition pages_between (lo hi : Z) : list Z :=
  map (λ j, lo + j * BY2PG) (seqZ 0 ((hi - lo + BY2PG - 1) / BY2PG)).

(** [try] of an [int] result *)
Definition u_try (m : M world Z) : M world unit := r <- m ;; if negb (r =? 0) then err r else ret tt.
(** [if ((r = ...) < 0) return r;] *)
Definition u_neg (m : M world Z) : M world unit := r <- m ;; if r <? 0 then err r else ret tt.

Definition open (path : list Z) (mode : Z) : M world Z :=
  fd <- fd_alloc ;;
  u_try (fsipc_open path mode fd) ;;
  let va := fd2data fd in
  size <- u_load (fsize_at fd) ;;
  fileid <- u_load (fileid_at fd) ;;
  for_each (pages_between 0 size) (λ i,
    u_try (u_mem_alloc (va + i) PTE_W) ;;
    u_try (fsipc_map fileid i (va + i))) ;;
  ret (fd2num fd).

Definition file_close (fd : Z) : M world Z :=
  fileid <- u_load (fileid_at fd) ;;
  size <- u_load (fsize_at fd) ;;
  let va := fd2data fd in
  for_each (pages_between 0 size) (λ i, _ <- fsipc_dirty fileid i ;; ret tt) ;;
  u_neg (fsipc_close fileid) ;;
  for_each (pages_between 0 size) (λ i, u_neg (u_mem_unmap (va + i))) ;;
  ret 0.

(** The result and the bytes stored in the caller's buffer *)
Definition file_read (fd n offset : Z) : M world (Z * list Z) :=
  size <- u_load (fsize_at fd) ;;
  if offset >? size then ret (0, [])
  else
    let n := if u32 (offset + n) >? size then u32 (size - offset) else n in
    l <- u_load_bytes (fd2data fd + offset) (Z.to_nat n) ;;
    ret (s32 n, l).

Definition read_map (fdnum offset : Z) : M world Z :=
  fd <- fd_lookup fdnum ;;
  id <- u_load (dev_id_at fd) ;;
  if negb (id =? dev_file) then err (- E_INVAL)
  else
    let va := u32 (fd2data fd + offset) in
    if offset >=? MAXFILESIZE then err (- E_NO_DISK)
    else
      b <- u_vpd va ;;
      if negb b then err (- E_NO_DISK)
      else pte <- u_vpt va ;; if has pte PTE_V then ret va else err (- E_NO_DISK).

Definition ftruncate (fdnum size : Z) : M world Z :=
  if size >? MAXFILESIZE then ret (- E_NO_DISK)
  else
    fd <- fd_lookup fdnum ;;
    id <- u_load (dev_id_at fd) ;;
    if negb (id =? dev_file) then err (- E_INVAL)
    else
      fileid <- u_load (fileid_at fd) ;;
      oldsize <- u_load (fsize_at fd) ;;
      u_store (fsize_at fd) size ;;
      u_neg (fsipc_set_size fileid size) ;;
      let va := fd2data fd in
      for_each (pages_between (ROUND oldsize BY2PG) (ROUND size BY2PG)) (λ i,
        r <- fsipc_map fileid i (va + i) ;;
        if r <? 0 then _ <- fsipc_set_size fileid oldsize ;; err r else ret tt) ;;
      for_each (pages_between (ROUND size BY2PG) (ROUND oldsize BY2PG)) (λ i,
        r <- u_mem_unmap (va + i) ;;
        if r <? 0 then panic "ftruncate: syscall_mem_unmap" else ret tt) ;;
      ret 0.

Definition file_write (fd : Z) (buf : list Z) (offset : Z) : M world Z :=
  let n := Z.of_nat (length buf) in
  let tot := u32 (offset + n) in
  if tot >? MAXFILESIZE then ret (- E_NO_DISK)
  else
    size <- u_load (fsize_at fd) ;;
    (if tot >? size then u_neg (ftruncate (fd2num fd) tot) else ret tt) ;;
    u_store_bytes (fd2data fd + offset) buf ;;
    ret n.

(** The bytes of a string up to its end *)
Fixpoint u_load_string (fuel : nat) (va : Z) : M world (list Z) :=
  match fuel with
  | O => fault "strcpy: no end"
  | S fuel' => b <- u_load8 va ;; if b =? 0 then ret [] else l <- u_load_string fuel' (va + 1) ;; ret (b :: l)
  end.

Definition file_stat (fd : Z) (st : Stat) : M world (Z * Stat) :=
  name <- u_load_string (Z.to_nat BY2PG) (fname_at fd) ;;
  size <- u_load (fsize_at fd) ;;
  type <- u_load (ftype_at fd) ;;
  ret (0, MkStat name size (type =? Fs.FTYPE_DIR) (st_dev st)).

Definition remove (path : list Z) : M world Z := fsipc_remove path.
Definition sync : M world Z := fsipc_sync.
End file.
