(* ===== verification/Dev.v ===== *)
(** Devices and the device switch: user/lib/console.c, user/lib/pipe.c and the
    rest of user/lib/fd.c.

    [pipe_read], [pipe_write] and [_pipe_is_closed] are here as one program
    runs them between two yields; Pipe models them under preemption. *)
From S2P Require Import Prelude Mmu Memory Strings PmapSpec Ulib Fd File.
From S2P Require Import Pipe.

(** [struct Dev] *)
Record Dev := MkDev {
  dev_id : Z;
  dev_read : Z → Z → Z → M world (Z * list Z);
  dev_write : Z → list Z → Z → M world Z;
  dev_close : Z → M world Z;
  dev_stat : Z → Stat → M world (Z * Stat)
}.

Section dev.
Context `{Neighbours, FileSymbols}.

(** The result of a call whose early return is an ordinary result here *)
Definition value (m : M world Z) : M world Z := λ s,
  match m s with Err e s' => Ok e s' | r => r end.

Definition devfile : Dev := MkDev dev_file file_read file_write file_close file_stat.

(** * console.c *)

Definition dev_cons := 99.

Definition iscons (fdnum : Z) : M world Z :=
  fd <- fd_lookup fdnum ;; id <- u_load (dev_id_at fd) ;; ret (Z.b2z (id =? dev_cons)).

Definition opencons : M world Z :=
  fd <- fd_alloc ;;
  u_neg (u_mem_alloc fd (Z.lor PTE_W PTE_LIBRARY)) ;;
  u_store (dev_id_at fd) dev_cons ;;
  u_store (omode_at fd) O_RDWR ;;
  ret (fd2num fd).

(** The poll goes on until a key has been pressed. *)
Fixpoint wait_key (fuel : nat) : M world Z :=
  match fuel with
  | O => λ s, UserMode s
  | S fuel' => c <- u_cgetc ;; if c =? 0 then u_yield ;; wait_key fuel' else ret c
  end.

Definition cons_read (fd n offset : Z) : M world (Z * list Z) :=
  if n =? 0 then ret (0, [])
  else
    l <- gets keys ;;
    c <- wait_key (S (length l)) ;;
    u_print_cons (if negb (c =? 13) then [u8 c] else [10]) ;;
    if c <? 0 then ret (c, [])
    else if c =? 4 then ret (0, [])
    else ret (1, [u8 c]).

Definition cons_write (fd : Z) (buf : list Z) (offset : Z) : M world Z :=
  r <- u_print_cons buf ;; if r <? 0 then ret r else ret (Z.of_nat (length buf)).

Definition cons_close (fd : Z) : M world Z := ret 0.
(** ["<cons>"] *)
Definition cons_stat (fd : Z) (st : Stat) : M world (Z * Stat) :=
  ret (0, MkStat [60; 99; 111; 110; 115; 62] (st_size st) (st_isdir st) (st_dev st)).

Definition devcons : Dev := MkDev dev_cons cons_read cons_write cons_close cons_stat.

(** * pipe.c *)

Definition dev_pipe := 112.

(** Fields of a [struct Pipe] *)
Definition rpos_at (p : Z) : Z := p.
Definition wpos_at (p : Z) : Z := p + 4.
Definition buf_at (p i : Z) : Z := p + 8 + i.

(** The counts of [env_runs] agree, as nothing runs in between. *)
Definition pipe_closed (fd p : Z) : M world bool :=
  fd_ref <- u_pageref fd ;; pipe_ref <- u_pageref p ;; ret (fd_ref =? pipe_ref).

(** [goto err2] etc.: unmap the pages in [l], then return [r]. *)
Definition pipe_fail {A} (l : list Z) (r : Z) : M world A :=
  for_each l (λ va, _ <- u_mem_unmap va ;; ret tt) ;; err r.

Definition pipe : M world (Z * Z) :=
  let perm := Z.lor PTE_W PTE_LIBRARY in
  fd0 <- fd_alloc ;;
  r <- u_mem_alloc fd0 perm ;;
  if r <? 0 then err r else
  r <- value fd_alloc ;;
  if r <? 0 then pipe_fail [fd0] r else
  let fd1 := r in
  r <- u_mem_alloc fd1 perm ;;
  if r <? 0 then pipe_fail [fd0] r else
  let va := fd2data fd0 in
  r <- u_mem_alloc va perm ;;
  if r <? 0 then pipe_fail [fd1; fd0] r else
  r <- u_mem_map va (fd2data fd1) perm ;;
  if r <? 0 then pipe_fail [va; fd1; fd0] r else
  u_store (dev_id_at fd0) dev_pipe ;;
  u_store (omode_at fd0) O_RDONLY ;;
  u_store (dev_id_at fd1) dev_pipe ;;
  u_store (omode_at fd1) O_WRONLY ;;
  ret (fd2num fd0, fd2num fd1).

(** Waiting for a byte: [true] when there is one, [false] when the pipe is
    closed; with bytes already read the loop does not wait. *)
Fixpoint wait_data (fuel : nat) (fd p i : Z) : M world bool :=
  match fuel with
  | O => λ s, UserMode s
  | S fuel' =>
      rpos <- u_load (rpos_at p) ;;
      wpos <- u_load (wpos_at p) ;;
      if rpos >=? wpos then
        if negb (i =? 0) then ret false
        else
          b <- pipe_closed fd p ;;
          if b : bool then ret false else u_yield ;; wait_data fuel' fd p i
      else ret true
  end.

(** The rest of the loop of [pipe_read] for [n] bytes, [i] being read *)
Fixpoint read_loop (n : nat) (fd p i : Z) : M world (Z * list Z) :=
  match n with
  | O => ret (i, [])
  | S n' =>
      b <- wait_data patience fd p i ;;
      if negb b then ret (i, [])
      else
        x <- u_load (rpos_at p) ;;
        c <- u_load8 (buf_at p (x mod BY2PIPE)) ;;
        u_store (rpos_at p) (u32 (x + 1)) ;;
        '(r, l) <- read_loop n' fd p (i + 1) ;;
        ret (r, c :: l)
  end.

Definition pipe_read (fd n offset : Z) : M world (Z * list Z) := read_loop (Z.to_nat n) fd (fd2data fd) 0.

Fixpoint wait_space (fuel : nat) (fd p : Z) : M world bool :=
  match fuel with
  | O => λ s, UserMode s
  | S fuel' =>
      wpos <- u_load (wpos_at p) ;;
      rpos <- u_load (rpos_at p) ;;
      if wpos >=? u32 (rpos + BY2PIPE) then
        b <- pipe_closed fd p ;;
        if b : bool then ret false else u_yield ;; wait_space fuel' fd p
      else ret true
  end.

Fixpoint write_loop (l : list Z) (fd p i : Z) : M world Z :=
  match l with
  | [] => ret i
  | c :: l' =>
      b <- wait_space patience fd p ;;
      if negb b then ret i
      else
        x <- u_load (wpos_at p) ;;
        u_store8 (buf_at p (x mod BY2PIPE)) c ;;
        u_store (wpos_at p) (u32 (x + 1)) ;;
        write_loop l' fd p (i + 1)
  end.

Definition pipe_write (fd : Z) (buf : list Z) (offset : Z) : M world Z := write_loop buf fd (fd2data fd) 0.

Definition pipe_is_closed (fdnum : Z) : M world Z :=
  fd <- fd_lookup fdnum ;; b <- pipe_closed fd (fd2data fd) ;; ret (Z.b2z b).

Definition pipe_close (fd : Z) : M world Z :=
  _ <- u_mem_unmap fd ;; _ <- u_mem_unmap (fd2data fd) ;; ret 0.

Definition pipe_stat (fd : Z) (st : Stat) : M world (Z * Stat) := ret (0, st).

Definition devpipe : Dev := MkDev dev_pipe pipe_read pipe_write pipe_close pipe_stat.

(** * fd.c *)

Definition devtab : list Dev := [devfile; devcons; devpipe].

Definition dev_lookup (id : Z) : M world Dev :=
  match find (λ d, dev_id d =? id) devtab with
  | Some d => ret d
  | None => err (- E_INVAL)
  end.

(** [fd_lookup] and [dev_lookup] of the descriptor's device *)
Definition fd_dev (fdnum : Z) : M world (Z * Dev) :=
  fd <- fd_lookup fdnum ;; id <- u_load (dev_id_at fd) ;; d <- dev_lookup id ;; ret (fd, d).

Definition close (fdnum : Z) : M world Z :=
  '(fd, d) <- fd_dev fdnum ;;
  r <- value (dev_close d fd) ;;
  fd_close fd ;;
  ret r.

Definition close_all : M world unit := for_each (seqZ 0 MAXFD) (λ i, _ <- value (close i) ;; ret tt).

(** The copies of the mapped data pages; an error is an early return. *)
Definition dup_data (ova nva : Z) : M world unit :=
  for_each (map (λ j, j * BY2PG) (seqZ 0 (PDMAP / BY2PG))) (λ i,
    pte <- u_vpt (ova + i) ;;
    if has pte PTE_V
    then u_neg (u_mem_map (ova + i) (nva + i) (Z.land pte (Z.lor PTE_W PTE_LIBRARY)))
    else ret tt).

Definition dup (oldfdnum newfdnum : Z) : M world Z :=
  oldfd <- fd_lookup oldfdnum ;;
  _ <- value (close newfdnum) ;;
  let newfd := INDEX2FD newfdnum in
  let ova := fd2data oldfd in
  let nva := fd2data newfd in
  pte <- u_vpt oldfd ;;
  r <- value (u_neg (u_mem_map oldfd newfd (Z.land pte (Z.lor PTE_W PTE_LIBRARY))) ;;
              b <- u_vpd ova ;;
              (if b : bool then dup_data ova nva else ret tt) ;;
              ret 0) ;;
  if r <? 0 then
    _ <- u_mem_unmap newfd ;;
    for_each (map (λ j, j * BY2PG) (seqZ 0 (PDMAP / BY2PG))) (λ i, _ <- u_mem_unmap (nva + i) ;; ret tt) ;;
    err r
  else ret newfdnum.

(** [fd->fd_offset += r] after a transfer of [r] bytes *)
Definition advance (fd r : Z) : M world unit :=
  if r >? 0 then o <- u_load (offset_at fd) ;; u_store (offset_at fd) (u32 (o + r)) else ret tt.

Definition read (fdnum n : Z) : M world (Z * list Z) :=
  '(fd, d) <- fd_dev fdnum ;;
  omode <- u_load (omode_at fd) ;;
  if Z.land omode O_ACCMODE =? O_WRONLY then err (- E_INVAL)
  else
    o <- u_load (offset_at fd) ;;
    '(r, l) <- dev_read d fd n o ;;
    advance fd r ;;
    ret (r, l).

(** Each round reads at least a byte, so [n] rounds are enough. *)
Fixpoint readn_loop (fuel : nat) (fdnum n : Z) (got : list Z) : M world (Z * list Z) :=
  match fuel with
  | O => ret (Z.of_nat (length got), got)
  | S fuel' =>
      if Z.of_nat (length got) <? n then
        '(m, l) <- read fdnum (n - Z.of_nat (length got)) ;;
        if m <? 0 then err m
        else if m =? 0 then ret (Z.of_nat (length got), got)
        else readn_loop fuel' fdnum n (got ++ l)
      else ret (Z.of_nat (length got), got)
  end.
Definition readn (fdnum n : Z) : M world (Z * list Z) := readn_loop (Z.to_nat n) fdnum n [].

Definition write (fdnum : Z) (buf : list Z) : M world Z :=
  '(fd, d) <- fd_dev fdnum ;;
  omode <- u_load (omode_at fd) ;;
  if Z.land omode O_ACCMODE =? O_RDONLY then err (- E_INVAL)
  else
    o <- u_load (offset_at fd) ;;
    r <- value (dev_write d fd buf o) ;;
    advance fd r ;;
    ret r.

Definition fstat (fdnum : Z) : M world (Z * Stat) :=
  '(fd, d) <- fd_dev fdnum ;; dev_stat d fd (MkStat [] 0 false (dev_id d)).

Definition stat (path : list Z) : M world (Z * option Stat) :=
  r <- value (open path O_RDONLY) ;;
  if r <? 0 then ret (r, None)
  else
    '(q, st) <- (λ s, match fstat r s with
                      | Ok (q, st) s' => Ok (q, Some st) s'
                      | Err e s' => Ok (e, None) s'
                      | Panic m => Panic m | Fault m => Fault m | UserMode s' => UserMode s'
                      end) ;;
    _ <- value (close r) ;; ret (q, st).
End dev.
