(* ===== verification/Spawn.v ===== *)
(** Starting programs: user/lib/spawn.c, with the kernel's calls on a child,
    user/lib/wait.c and user/lib/libos.c.

    [family] is a program of Ulib with its children.  The calls on a child are
    those of Ulib on the child's page directory.  What the program reads of
    [envs[]] is the children's [env_status] and [env_tf]. *)
From S2P Require Import Prelude Mmu Memory Pmap PmapSpec VmSteps Env Syscall Elf Fs Ulib Fd File Dev.

Record child := MkChild { ch_dir : Z; ch_tf : Trapframe; ch_status : Z }.

(** [births]: the ids [syscall_exofork] will return, with the registers the
    kernel copies; when the list is empty no environment is free. *)
Record family := MkFamily { prog : world; kids : gmap Z child; births : list (Z * Trapframe) }.

Definition set_prog v s := MkFamily v (kids s) (births s).
Definition set_kids v s := MkFamily (prog s) v (births s).
Definition set_births v s := MkFamily (prog s) (kids s) v.
Definition set_udir v s := MkWorld (uvm s) (umem s) v (requests s) (send_res s) (replies s) (keys s) (shown s).

#[export, refine] Instance sub_prog : Sub family world := { sub_get := prog; sub_set := set_prog }.
Proof. all: by intros; repeat match goal with s : family |- _ => destruct s end. Defined.

Section spawn.
Context `{Neighbours, FileSymbols}.

Definition onw {A} (m : M world A) : M family A := lift m.

(** * System calls on a child *)

(** The page directory [envid2env] finds *)
Definition dir_of (envid : Z) (s : family) : option Z :=
  if envid =? 0 then Some (udir (prog s)) else ch_dir <$> kids s !! envid.

(** [m] on the address space of directory [d] *)
Definition in_dir {A} (d : Z) (m : M world A) : M world A := λ s,
  match m (set_udir d s) with
  | Ok a s' => Ok a (set_udir (udir s) s')
  | Err e s' => Err e (set_udir (udir s) s')
  | Panic msg => Panic msg
  | Fault w => Fault w
  | UserMode s' => UserMode (set_udir (udir s) s')
  end.

Definition syscall_mem_alloc (envid va perm : Z) : M family Z :=
  if is_illegal_va va then ret (- E_INVAL)
  else
    d <- gets (dir_of envid) ;;
    match d with None => ret (- E_BAD_ENV) | Some d => onw (in_dir d (u_mem_alloc va perm)) end.

Definition syscall_mem_unmap (envid va : Z) : M family Z :=
  if is_illegal_va va then ret (- E_INVAL)
  else
    d <- gets (dir_of envid) ;;
    match d with None => ret (- E_BAD_ENV) | Some d => onw (in_dir d (u_mem_unmap va)) end.

(** The page at [srcva] of directory [sd], mapped at [dstva] of directory
    [dd].  [page_insert] ors all of [perm] into the entry: from bit 10 on it
    meets the page number. *)
Definition u_mem_share (sd srcva dd dstva perm : Z) : M world Z := λ s,
  match maps (uvm s) !! (sd, VPN srcva) with
  | None => Ok (- E_INVAL) s
  | Some (p, _) =>
      if Z.lor (p + PPN0) (Z.shiftr perm 10) =? p + PPN0 then
        match spec_insert (uvm s) dd (VPN dstva) p (Z.lor (Z.land perm 0x3FF) PTE_U) with
        | Some A => Ok 0 (set_uvm A s)
        | None => Ok (- E_NO_MEM) s
        end
      else Fault "page_insert: the entry names another page"
  end.

Definition syscall_mem_map (srcid srcva dstid dstva perm : Z) : M family Z :=
  if is_illegal_va srcva || is_illegal_va dstva then ret (- E_INVAL)
  else
    sd <- gets (dir_of srcid) ;;
    dd <- gets (dir_of dstid) ;;
    match sd, dd with
    | Some sd, Some dd => onw (u_mem_share sd srcva dd dstva perm)
    | _, _ => ret (- E_BAD_ENV)
    end.

(** Without a page for the directory the kernel still makes the child, on
    whatever directory its slot had before. *)
Definition syscall_exofork : M family Z := λ s,
  match births s with
  | [] => Ok (- E_NO_FREE_ENV) s
  | (id, tf) :: l =>
      match free (uvm (prog s)) with
      | [] => Fault "env_alloc without a page directory"
      | d :: fl =>
          Ok id (MkFamily (set_uvm (spec_new_dir (uvm (prog s)) d fl) (prog s))
                   (<[id := MkChild d tf ENV_NOT_RUNNABLE]> (kids s)) l)
      end
  end.

Definition upd_child (envid : Z) (f : child → child) : M family Z := λ s,
  match kids s !! envid with
  | None => Ok (- E_BAD_ENV) s
  | Some c => Ok 0 (set_kids (<[envid := f c]> (kids s)) s)
  end.

Definition syscall_set_trapframe (envid : Z) (tf : Trapframe) : M family Z :=
  upd_child envid (λ c, MkChild (ch_dir c) tf (ch_status c)).

Definition syscall_set_env_status (envid status : Z) : M family Z :=
  upd_child envid (λ c, MkChild (ch_dir c) (ch_tf c) status).

(** [env_free] takes the environment out of the scheduling queue, where a
    child that has not been started is not: with the links of a fresh slot the
    kernel writes through null pointers (EnvFreeProps), with those of a used
    one through what is left in them. *)
Definition syscall_env_destroy {A} (envid : Z) : M family A := fault "TAILQ_REMOVE".

(** * The stack of the child *)

(** Bytes of the strings with their terminators *)
Definition strings_size (argv : list (list Z)) : Z := foldr (λ a tot, Z.of_nat (length a) + 1 + tot) 0 argv.

(** [*ctemp = ...] over the strings *)
Fixpoint put_strings (ctemp : Z) (argv : list (list Z)) : M world unit :=
  match argv with
  | [] => ret tt
  | a :: l => u_store_bytes ctemp (a ++ [0]) ;; put_strings (ctemp + Z.of_nat (length a) + 1) l
  end.

(** [args[i] = ctemp]; returns the last [ctemp]. *)
Fixpoint put_args (args ctemp : Z) (argv : list (list Z)) : M world Z :=
  match argv with
  | [] => ret ctemp
  | a :: l => u_store args ctemp ;; put_args (args + 4) (ctemp + Z.of_nat (length a) + 1) l
  end.

(** The result is [*init_sp]. *)
Definition init_stack (child : Z) (argv : list (list Z)) : M family Z :=
  let argc := Z.of_nat (length argv) in
  let tot := strings_size argv in
  if ROUND tot 4 + 4 * (argc + 3) >? BY2PG then err (- E_NO_MEM)
  else
    let strings := UTEMP + BY2PG - tot in
    let args := UTEMP + BY2PG - ROUND tot 4 - 4 * (argc + 1) in
    r <- syscall_mem_alloc 0 UTEMP PTE_W ;;
    if r <? 0 then err r
    else
      onw (put_strings strings argv) ;;
      ctemp <- onw (put_args args (USTACKTOP - UTEMP - BY2PG + strings) argv) ;;
      onw (u_store (args + 4 * argc) (ctemp - 1)) ;;
      let pargv_ptr := args - 4 in
      onw (u_store pargv_ptr (USTACKTOP - UTEMP - BY2PG + args)) ;;
      let pargv_ptr := pargv_ptr - 4 in
      onw (u_store pargv_ptr argc) ;;
      r <- syscall_mem_map 0 UTEMP child (USTACKTOP - BY2PG) PTE_W ;;
      if r <? 0 then _ <- syscall_mem_unmap 0 UTEMP ;; err r
      else
        r <- syscall_mem_unmap 0 UTEMP ;;
        if r <? 0 then _ <- syscall_mem_unmap 0 UTEMP ;; err r
        else ret (USTACKTOP - UTEMP - BY2PG + pargv_ptr).

(** * Loading segments *)

(** [memcpy], a byte at a time *)
Fixpoint u_memcpy (dst src : Z) (n : nat) : M world unit :=
  match n with
  | O => ret tt
  | S n' => b <- u_load8 src ;; u_store8 dst b ;; u_memcpy (dst + 1) (src + 1) n'
  end.

(** A non-zero result is an early return. *)
Definition spawn_mapper (child_id va offset perm : Z) (src : option Z) (len : Z) : M family unit :=
  r <- syscall_mem_alloc child_id va perm ;;
  if negb (r =? 0) then err r
  else
    match src with
    | None => ret tt
    | Some src =>
        r <- syscall_mem_map child_id va 0 UTEMP (Z.lor perm PTE_W) ;;
        if negb (r =? 0) then _ <- syscall_mem_unmap child_id va ;; err r
        else
          onw (u_memcpy (UTEMP + offset) src (Z.to_nat len)) ;;
          r <- syscall_mem_unmap 0 UTEMP ;;
          if negb (r =? 0) then err r else ret tt
    end.

(** * spawn *)

(** The array [elfbuf] as memory from address 0 on, and reading into it *)
Fixpoint buf_mem (a : Z) (l : list Z) : memory :=
  match l with
  | [] => ∅
  | b :: l' => store8 a b (buf_mem (a + 1) l')
  end.
Definition read_into (buf l : list Z) : list Z := l ++ drop (length l) buf.

(** [goto err]: close the file, return [r]; [goto err1] destroys the child
    first. *)
Definition spawn_err {A} (fd r : Z) : M family A := _ <- onw (value (close fd)) ;; err r.
Definition spawn_err1 {A} (child fd r : Z) : M family A := syscall_env_destroy child.
Definition spawn_err2 {A} (child r : Z) : M family A := syscall_env_destroy child.

(** The result of a call that may return early with an error code *)
Definition checked {A} (m : M family A) (k : Z → M family A) : M family A := λ s,
  match m s with Err e s' => k e s' | o => o end.

(** The loop over the program headers: [i] rounds have been made, the header
    fields are read from [elfbuf] again in each. *)
Fixpoint load_loop (fuel : nat) (fd child i ph_off : Z) (elfbuf : list Z) : M family unit :=
  match fuel with
  | O => fault "spawn: out of fuel"
  | S fuel' =>
      if i <? e_phnum (buf_mem 0 elfbuf) 0 then
        r <- onw (value (seek fd ph_off)) ;;
        if r <? 0 then spawn_err1 child fd r
        else
          let n := e_phentsize (buf_mem 0 elfbuf) 0 in
          '(r, l) <- checked (onw (readn fd n)) (λ r, ret (r, [])) ;;
          if r <? 0 then spawn_err1 child fd r
          else if Z.of_nat (length l) >? 512 then fault "elfbuf"
          else
            let elfbuf := read_into elfbuf l in
            let ph := rd_phdr (buf_mem 0 elfbuf) 0 in
            (if p_type ph =? PT_LOAD then
               bin <- checked (onw (read_map fd (p_offset ph))) (λ r, spawn_err1 child fd r) ;;
               checked (elf_load_seg (spawn_mapper child) ph bin) (λ r, if r <? 0 then spawn_err1 child fd r else ret tt)
             else ret tt) ;;
            load_loop fuel' fd child (i + 1) (u32 (ph_off + e_phentsize (buf_mem 0 elfbuf) 0)) elfbuf
      else ret tt
  end.

(** The whole word of a page table entry *)
Definition u_vpt_word (va : Z) : M world Z :=
  b <- u_vpd va ;;
  if b : bool then gets (λ s, match slot s va with Some (p, f) => Z.lor (Z.shiftl (p + PPN0) 10) f | None => 0 end)
  else panic "not a valid pte".

(** Sharing the page of number [pn] with the child; twelve bits of the entry
    are taken for the permissions, two of them bits of the page number. *)
Definition share_page (child pn : Z) : M family unit :=
  pte <- onw (u_vpt_word (pn * BY2PG)) ;;
  let perm := Z.land pte (Z.shiftl 1 PGSHIFT - 1) in
  if has perm PTE_V && has perm PTE_LIBRARY then
    r <- syscall_mem_map 0 (pn * BY2PG) child (pn * BY2PG) perm ;;
    if r <? 0 then spawn_err2 child r else ret tt
  else ret tt.

Definition share_library (child : Z) : M family unit :=
  for_each (seqZ 0 (PDX USTACKTOP + 1)) (λ pdeno,
    b <- onw (u_vpd (pdeno * PDMAP)) ;;
    if negb b then ret tt
    else for_each (seqZ 0 (PTX (not32 0) + 1)) (λ pteno, share_page child (Z.shiftl pdeno 10 + pteno))).

(** [elfbuf] is not initialised: [junk] is what the stack holds there. *)
Definition spawn (prog_path : list Z) (argv : list (list Z)) (junk : list Z) : M family Z :=
  fd <- onw (value (open prog_path O_RDONLY)) ;;
  if fd <? 0 then err fd
  else
    '(r, l) <- checked (onw (readn fd 512)) (λ r, ret (r, [])) ;;
    if r <? 0 then spawn_err fd r
    else
      let elfbuf := read_into junk l in
      match elf_from (buf_mem 0 elfbuf) 0 SIZEOF_EHDR with
      | None => spawn_err fd (- E_NOT_EXEC)
      | Some _ =>
          let entrypoint := e_entry (buf_mem 0 elfbuf) 0 in
          r <- syscall_exofork ;;
          if r <? 0 then spawn_err fd r
          else
            let child := r in
            sp <- checked (init_stack child argv) (λ r, spawn_err1 child fd r) ;;
            load_loop (Z.to_nat (2 ^ 16)) fd child 0 (e_phoff (buf_mem 0 elfbuf) 0) elfbuf ;;
            _ <- onw (value (close fd)) ;;
            tf <- gets (λ s, from_option ch_tf tf0 (kids s !! child)) ;;
            r <- syscall_set_trapframe child (set_sscratch sp (set_sepc entrypoint tf)) ;;
            if negb (r =? 0) then spawn_err2 child r
            else
              share_library child ;;
              r <- syscall_set_env_status child ENV_RUNNABLE ;;
              if r <? 0 then spawn_err2 child r else ret child
      end.

Definition MAXARGS := 128.

(** The words of the call up to the null pointer, stored with it in [arr] *)
Definition spawnl (prog_path : list Z) (args : list (list Z)) (junk : list Z) : M family Z :=
  if Z.of_nat (length args) + 1 >? MAXARGS then fault "arr" else spawn prog_path args junk.

(** * wait.c *)

(** What a child's slot shows; [kin] is what the children do meanwhile. *)
Definition still_there (envid : Z) (s : family) : bool :=
  match kids s !! envid with Some c => negb (ch_status c =? ENV_FREE) | None => false end.

Fixpoint wait (fuel : nat) (kin : family → family) (envid : Z) : M family unit :=
  match fuel with
  | O => λ s, UserMode s
  | S fuel' =>
      b <- gets (still_there envid) ;;
      if b : bool then modify kin ;; wait fuel' kin envid else ret tt
  end.

(** * libos.c *)

(** [exit] does not come back. *)
Definition exit : M family unit := onw close_all ;; (λ s, UserMode s).

Definition libmain (main : Z → Z → M family unit) (argc argv : Z) : M family unit :=
  main argc argv ;; exit.
End spawn.
