(* ===== verification/UlibProps.v ===== *)
(** The kernel implements what the client library stands on (Ulib). *)
From S2P Require Import Prelude Mmu Queue Memory Pmap PmapSpec VmSteps Disk Env EnvProps Sched SchedProps.
From S2P Require Import Tlbex Syscall Fork.
From S2P Require Import QueueProps PmapProps SyscallProps EnvVmProps TlbProps ForkProps CowProps Ulib.

(** The world as program [c] of kernel [k] sees it *)
Record agrees (k : kernel) (c : Z) (s : world) : Prop := {
  ag_rel : rel (pm k) (uvm s);
  ag_cur : curenv k = Some c;
  ag_space : space k (uvm s) c (udir s);
  ag_dir : cur_pgdir (pm k) = page2pa (udir s);
  ag_data : data_kept (uvm s) (umem s) (mem (pm k))
}.

(** user/lib/pageref.c on the kernel: the views of the page tables, and
    [pages[...].pp_ref] *)
Definition k_pageref (va : Z) : M kernel Z :=
  pde <- vpd (PDX va) ;;
  if negb (has pde PTE_V) then ret 0
  else
    pte <- vpt (VPN va) ;;
    if negb (has pte PTE_V) then ret 0
    else gets (λ k, ref (pm k) (PA2IDX (PTE_ADDR pte))).

Section ulib.
Context `{LinkerSymbols, VoidResult, Neighbours}.

(** A new state of the page tables with more contents known *)
Lemma agrees_step k c s p A m :
  agrees k c s → rel p A → dirs A = dirs (uvm s) → (∀ t, is_tab (uvm s) t → is_tab A t) →
  cur_pgdir p = cur_pgdir (pm k) → data_kept A m (mem p) →
  agrees (set_pm p k) c (set_umem m (set_uvm A s)).
Proof.
  intros [G1 G2 [G3 G3'] G4 G5] Hr Hd Ht Hc Hk. split; try done; cbn.
  - split; [done|]. cbn. by rewrite Hd.
  - by rewrite Hc.
Qed.

Lemma agrees_kept k c s A p : agrees k c s → dirs A = dirs (uvm s) → (∀ t, is_tab (uvm s) t → is_tab A t) →
  data_kept A (mem (pm k)) (mem p) → data_kept A (umem s) (mem p).
Proof. intros Hag Hd Ht Hk. eapply (data_kept_trans (uvm s)); [by rewrite Hd|done|apply Hag|done]. Qed.

(** * Calls *)

Lemma alloc_refines k c s va perm r s' :
  agrees k c s → 0 ≤ perm < 1024 → u_mem_alloc va perm s = Ok r s' →
  ∃ k', result (sys_mem_alloc 0 va perm) k = Ok r k' ∧ agrees k' c s'.
Proof.
  intros Hag Hp E. pose proof Hag as [G1 G2 G3 G4 G5]. unfold u_mem_alloc in E.
  destruct (is_illegal_va va) eqn:Hva.
  { injection E as <- <-. exists k. split; [|done]. unfold result, sys_mem_alloc, assert_user_va.
    by rewrite Hva. }
  pose proof (sys_mem_alloc_ok k (uvm s) 0 c (udir s) va perm G1 Hva (self_id k c G2) G3 Hp) as Hok.
  destruct (free (uvm s)) as [|p fl] eqn:Hf.
  { injection E as <- <-. exists k. split; [|done]. unfold result. by rewrite Hok. }
  assert (Hkc : ∀ A, dirs A = dirs (uvm s) → (∀ t, is_tab (uvm s) t → is_tab A t) →
    data_kept A (clear_page (page2pa p) (umem s)) (clear_page (page2pa p) (mem (pm k)))).
  { intros A Hd Ht q j Hq Hj Hqd Hqt. destruct (free_page (pm k) (uvm s) G1 p) as [_ Hpl].
    { rewrite Hf. apply list_elem_of_here. }
    rewrite !load_clear_page by done. case_decide; [done|]. apply G5; try done; [by rewrite <- Hd|naive_solver]. }
  cbn in E. destruct (spec_insert (set_vfree fl (uvm s)) (udir s) (VPN va) p (Z.lor perm PTE_U)) as [A|] eqn:Ei.
  - injection E as <- <-. destruct Hok as (p' & Es & Hr & Hk & Hc).
    destruct (insert_frame _ _ _ _ _ _ Ei) as [Hd Ht]. exists (set_pm p' k). split; [unfold result; by rewrite Es|].
    apply (agrees_step k c s p' A); try done. intros q j Hq Hj Hqd Hqt. rewrite (Hk q j) by done. by apply (Hkc A).
  - injection E as <- <-. destruct Hok as (p' & Es & Hr & Hm & Hc). exists (set_pm p' k).
    split; [unfold result; by rewrite Es|]. apply (agrees_step k c s p' (set_vfree fl (uvm s))); try done.
    rewrite Hm. by apply Hkc.
Qed.

Lemma map_refines k c s src dst perm r s' :
  agrees k c s → 0 ≤ perm < 1024 → (∀ p, count p (maps (uvm s)) + pin (uvm s) p < 2 ^ 16 - 1) →
  u_mem_map src dst perm s = Ok r s' →
  ∃ k', result (sys_mem_map 0 src 0 dst perm) k = Ok r k' ∧ agrees k' c s'.
Proof.
  intros Hag Hp Href E. pose proof Hag as [G1 G2 G3 G4 G5]. unfold u_mem_map in E.
  destruct (is_illegal_va src) eqn:Hs; [|destruct (is_illegal_va dst) eqn:Hd]; cbn in E.
  1, 2: injection E as <- <-; exists k; split; [|done]; unfold result, sys_mem_map, assert_user_va; by rewrite Hs, ?Hd.
  pose proof (sys_mem_map_ok k (uvm s) 0 c (udir s) src 0 c (udir s) dst perm G1 Hs Hd (self_id k c G2) (self_id k c G2)
    G3 G3 Hp) as Hok. unfold slot in E. destruct (maps (uvm s) !! (udir s, VPN src)) as [[p f]|] eqn:Hm.
  2: { injection E as <- <-. exists k. split; [|done]. unfold result. by rewrite Hok. }
  destruct (mapped_page (pm k) (uvm s) G1 _ _ p f Hm) as (_ & _ & _ & Hr & _). specialize (Hok ltac:(by rewrite Hr)).
  destruct (spec_insert (uvm s) (udir s) (VPN dst) p (Z.lor perm PTE_U)) as [A|] eqn:Ei; injection E as <- <-.
  - destruct Hok as (p' & Es & Hr' & Hk & Hc). destruct (insert_frame _ _ _ _ _ _ Ei) as [Hda Hta].
    exists (set_pm p' k). split; [unfold result; by rewrite Es|].
    apply (agrees_step k c s p' A (umem s)); try done. by apply (agrees_kept k c).
  - exists k. split; [unfold result; by rewrite Hok|done].
Qed.

Lemma unmap_refines k c s va r s' :
  agrees k c s → u_mem_unmap va s = Ok r s' →
  ∃ k', result (sys_mem_unmap 0 va) k = Ok r k' ∧ agrees k' c s'.
Proof.
  intros Hag E. pose proof Hag as [G1 G2 G3 G4 G5]. unfold u_mem_unmap in E.
  destruct (is_illegal_va va) eqn:Hva; injection E as <- <-.
  { exists k. split; [|done]. unfold result, sys_mem_unmap, assert_user_va. by rewrite Hva. }
  destruct (sys_mem_unmap_ok k (uvm s) 0 c (udir s) va G1 Hva (self_id k c G2) G3) as (p' & Es & Hr & Hc & Hk).
  exists (set_pm p' k). split; [unfold result; by rewrite Es|].
  destruct (spec_remove_frame (uvm s) (udir s) (VPN va)) as (Hd & Ht & _).
  assert (Htt : ∀ t, is_tab (uvm s) t → is_tab (spec_remove (uvm s) (udir s) (VPN va)) t)
    by (intros t [x Hx]; exists x; by rewrite Ht).
  apply (agrees_step k c s p' _ (umem s)); try done. by apply (agrees_kept k c).
Qed.

(** * Accesses *)

Lemma access_ok s va (is_store : bool) p f :
  slot s va = Some (p, f) → has f (if is_store then PTE_W else PTE_R) = true →
  u_access va is_store s = Ok (page2pa p + va mod BY2PG) s.
Proof.
  intros Hs Hf. unfold u_access, u_slot, bind, gets. rewrite Hs. cbn. rewrite Hs.
  assert (is_store && negb (has f PTE_W) && has f PTE_COW = false) as ->.
  { destruct is_store; [by rewrite Hf|done]. }
  cbn. by rewrite Hs, Hf.
Qed.

Lemma aligned_word va : 0 ≤ va → Z.land va 3 = 0 →
  ∃ j, 0 ≤ j < 1024 ∧ va mod 4096 = 4 * j.
Proof.
  intros Hva Hal. change 3 with (Z.ones 2) in Hal. rewrite Z.land_ones in Hal by lia. change (2 ^ 2) with 4 in Hal.
  exists (va mod 4096 / 4). pose proof (Z.mod_pos_bound va 4096 ltac:(lia)).
  assert (va mod 4096 mod 4 = 0) as Hm.
  { rewrite <- Hal. apply Z.mod_mod_divide. by exists 1024. }
  pose proof (Z.div_mod (va mod 4096) 4 ltac:(lia)). lia.
Qed.

(** A mapped page of data, its number and flags *)
Definition data_at (s : world) (va p f : Z) : Prop :=
  slot s va = Some (p, f) ∧ p ∉ dirs (uvm s) ∧ 0 ≤ va < UTOP.

Lemma data_page k c s va p f : agrees k c s → data_at s va p f →
  0 ≤ p < PAGE_LIMIT ∧ ¬ is_tab (uvm s) p.
Proof.
  intros Hag (Hs & _ & _). pose proof (ag_rel _ _ _ Hag) as Hrel.
  destruct (mapped_page (pm k) (uvm s) Hrel _ _ p f Hs) as (Hp & Ht & _).
  pose proof (np_limit (pm k) (uvm s) Hrel). split; [lia|done].
Qed.

Lemma load_refines k c s va p f x s' :
  agrees k c s → data_at s va p f → has f PTE_R = true → u_load va s = Ok x s' →
  user_load va k = Ok x k ∧ s' = s.
Proof.
  intros Hag Hd Hf E. pose proof Hag as [G1 G2 [_ G3] G4 G5]. destruct (data_page k c s va p f Hag Hd) as [Hp Ht].
  destruct Hd as (Hs & Hpd & Hva). unfold u_load in E. unfold user_load.
  destruct (Z.eqb_spec (Z.land va 3) 0) as [Hal|]; [|done]. cbn [negb] in *.
  rewrite (bind_ok _ _ _ _ _ (access_ok s va false p f Hs Hf)) in E. injection E as <- <-.
  rewrite (bind_ok _ _ _ _ _ (user_pa_ok k (uvm s) (udir s) va false p f G1 G4 G3 Hva Hs Hf)).
  split; [|done]. destruct (aligned_word va (proj1 Hva) Hal) as (j & Hj & Hm). change BY2PG with 4096.
  rewrite Hm. unfold onp, lift, rd, gets. change (sub_get k) with (pm k).
  change (sub_set (pm k) k) with (set_pm (pm k) k). rewrite set_pm_id. f_equal. by apply G5.
Qed.

Lemma store_refines k c s va p f x s' :
  agrees k c s → data_at s va p f → has f PTE_W = true → u_store va x s = Ok tt s' →
  ∃ k', user_store va x k = Ok tt k' ∧ agrees k' c s'.
Proof.
  intros Hag Hd Hf E. pose proof Hag as [G1 G2 [G3 G3'] G4 G5]. destruct (data_page k c s va p f Hag Hd) as [Hp Ht].
  destruct Hd as (Hs & Hpd & Hva). unfold u_store in E. unfold user_store.
  destruct (Z.eqb_spec (Z.land va 3) 0) as [Hal|]; [|done]. cbn [negb] in *.
  rewrite (bind_ok _ _ _ _ _ (access_ok s va true p f Hs Hf)) in E. injection E as <-.
  rewrite (bind_ok _ _ _ _ _ (user_pa_ok k (uvm s) (udir s) va true p f G1 G4 G3' Hva Hs Hf)).
  destruct (aligned_word va (proj1 Hva) Hal) as (j & Hj & Hm). change BY2PG with 4096. rewrite Hm.
  exists (with_mem (store (page2pa p + 4 * j) x (mem (pm k))) k). split; [done|]. split; try done.
  - apply (rel_with_mem k (uvm s) (mem (pm k))); [by rewrite with_mem_id|].
    apply (mem_rel_data _ (uvm s) _ _ _ _ (rel_wf _ _ G1)); try done. apply G1.
  - intros q i Hq Hi Hqd Hqt. cbn. rewrite !load_store by done. case_decide; [done|by apply G5].
Qed.

Lemma pageref_refines k c s va r s' :
  agrees k c s → 0 ≤ va < UTOP → u_pageref va s = Ok r s' → k_pageref va k = Ok r k ∧ s' = s.
Proof.
  intros Hag Hva E. pose proof Hag as [G1 G2 [_ G3] G4 _]. destruct (vpn_range 0 va Hva) as (Hi & _ & Hvi & _).
  destruct (vpd_ok k (uvm s) (udir s) (PDX va) G1 G4 G3 Hi) as (x & Ex & Hx).
  unfold u_pageref, u_vpt, u_vpd in E. unfold k_pageref. rewrite (bind_ok _ _ _ _ _ Ex).
  destruct (Z.geb_spec va UTOP); [lia|]. unfold bind, gets in E.
  destruct (tabs (uvm s) !! (udir s, PDX va)) as [t|] eqn:Ht; cbn in E; [|rewrite Hx; by injection E as <- <-].
  subst x. destruct (vpt_ok k (uvm s) (udir s) t (VPN va) G1 G4 G3 (vpn_bound va Hva) ltac:(by rewrite Hvi)) as (y & Ey & Hy).
  rewrite entry_V. change (negb (has PTE_V PTE_V)) with false. cbv iota. rewrite (bind_ok _ _ _ _ _ Ey).
  rewrite ?(bool_decide_true _ (ex_intro (λ y, tabs (uvm s) !! (udir s, PDX va) = Some y) t Ht)) in E.
  unfold slot in E. destruct (maps (uvm s) !! (udir s, VPN va)) as [[p f]|] eqn:Hm; cbn in E.
  2: { rewrite Hy. by injection E as <- <-. }
  subst y. destruct (wf_map _ _ (rel_wf _ _ G1) _ _ _ _ Hm) as (_ & _ & Hp & _ & Hfb & HfV).
  pose proof (np_limit (pm k) (uvm s) G1). rewrite HfV in E. rewrite entry_V, HfV. cbn in *.
  rewrite Hm in E. injection E as <- <-. split; [|done]. unfold gets.
  destruct (page2pa_range p) as [Hpr Hpa]; [unfold PAGE_LIMIT in *; lia|].
  rewrite PTE_ADDR_pte, PA2IDX_page2pa by (done || unfold PAGE_LIMIT in *; lia).
  by destruct (mapped_page (pm k) (uvm s) G1 _ _ p f Hm) as (_ & _ & _ & -> & _).
Qed.
End ulib.

(** * Sequences of calls *)

(** What the library does to the machine *)
Inductive ucall :=
| CAlloc (va perm : Z)
| CMap (src dst perm : Z)
| CUnmap (va : Z)
| CPageref (va : Z)
| CLoad (va : Z)
| CStore (va x : Z).

Section calls.
Context `{LinkerSymbols, VoidResult, Neighbours}.

Definition run_u (a : ucall) : M world Z :=
  match a with
  | CAlloc va perm => u_mem_alloc va perm
  | CMap src dst perm => u_mem_map src dst perm
  | CUnmap va => u_mem_unmap va
  | CPageref va => u_pageref va
  | CLoad va => u_load va
  | CStore va x => u_store va x ;; ret 0
  end.

Definition run_k (a : ucall) : M kernel Z :=
  match a with
  | CAlloc va perm => result (sys_mem_alloc 0 va perm)
  | CMap src dst perm => result (sys_mem_map 0 src 0 dst perm)
  | CUnmap va => result (sys_mem_unmap 0 va)
  | CPageref va => k_pageref va
  | CLoad va => user_load va
  | CStore va x => user_store va x ;; ret 0
  end.

(** Permissions fit in an entry, reference counts do not overflow, and loads
    and stores go to mapped pages of data that allow them. *)
Definition legal (a : ucall) (s : world) : Prop :=
  match a with
  | CAlloc _ perm => 0 ≤ perm < 1024
  | CMap _ _ perm => 0 ≤ perm < 1024 ∧ ∀ p, count p (maps (uvm s)) + pin (uvm s) p < 2 ^ 16 - 1
  | CUnmap _ => True
  | CPageref va => 0 ≤ va < UTOP
  | CLoad va => ∃ p f, data_at s va p f ∧ has f PTE_R = true
  | CStore va _ => ∃ p f, data_at s va p f ∧ has f PTE_W = true
  end.

Lemma call_refines k c s a r s' : agrees k c s → legal a s → run_u a s = Ok r s' →
  ∃ k', run_k a k = Ok r k' ∧ agrees k' c s'.
Proof.
  intros Hag Hl E. destruct a as [va perm|src dst perm|va|va|va|va x]; cbn in *.
  - by eapply alloc_refines.
  - destruct Hl. by eapply map_refines.
  - by eapply unmap_refines.
  - destruct (pageref_refines k c s va r s' Hag Hl E) as [E' ->]. by exists k.
  - destruct Hl as (p & f & Hd & Hf). destruct (load_refines k c s va p f r s' Hag Hd Hf E) as [E' ->]. by exists k.
  - destruct Hl as (p & f & Hd & Hf). destruct (bind_Ok_inv _ _ _ _ _ E) as ([] & s1 & E1 & [= <- <-]).
    destruct (store_refines k c s va p f x s1 Hag Hd Hf E1) as (k' & E' & Hag').
    exists k'. by rewrite (bind_ok _ _ _ _ _ E').
Qed.

Fixpoint runs_k (l : list ucall) : M kernel (list Z) :=
  match l with [] => ret [] | a :: l' => r <- run_k a ;; rs <- runs_k l' ;; ret (r :: rs) end.

Inductive runs_u : world → list ucall → list Z → world → Prop :=
| runs_nil s : runs_u s [] [] s
| runs_cons s a r s1 l rs s2 :
    legal a s → run_u a s = Ok r s1 → runs_u s1 l rs s2 → runs_u s (a :: l) (r :: rs) s2.
End calls.


(** The machine of [fork_copies] stores to its page, shares it at another
    address and reads it there. *)
#[local] Instance w_alone : Neighbours := {| others := λ s, s; patience := 1 |}.
Definition w_calls : list ucall :=
  [CStore UTEXT 42; CMap UTEXT (UTEXT + BY2PG) PTE_W; CPageref UTEXT; CLoad (UTEXT + BY2PG);
   CUnmap UTEXT; CPageref (UTEXT + BY2PG)].
Definition w_world : world := MkWorld w_parent_vm (mem w_parent_pm) 0 [] [] [] [] [].

Lemma w_agrees : agrees (set_pm w_parent_pm w_sys) 5 w_world.
Proof.
  split.
  - apply rel_set_cur, (released_rel _ _ _ w_mapped_rel). by vm_compute.
  - done.
  - split; [reflexivity|]. change (dirs (uvm w_world)) with ({[0]} : gset Z). by apply elem_of_singleton.
  - reflexivity.
  - apply data_kept_refl.
Qed.

(** Page [p] is data where the machine maps it. *)
Lemma w_data s va p f : slot s va = Some (p, f) → dirs (uvm s) = {[0]} → p ≠ 0 → 0 ≤ va < UTOP → data_at s va p f.
Proof. intros Hs Hd Hp Hva. split; [done|]. split; [|done]. by rewrite Hd, elem_of_singleton. Qed.

Definition after (a : ucall) (s : world) : world := match run_u a s with Ok _ s' => s' | _ => s end.
Lemma run_after a s r :
  match run_u a s with Ok r' _ => bool_decide (r' = r) | _ => false end = true → run_u a s = Ok r (after a s).
Proof. unfold after. destruct (run_u a s); try done. by intros ->%bool_decide_eq_true_1. Qed.

