(* ===== verification/WorldProps.v ===== *)
(** A program's mappings and bytes under the calls of Ulib.

    The state of the page tables stays realisable ([real]): some state of
    kern/pmap.c implements it, so that everything proved of pmap.c applies. *)
From S2P Require Import Prelude Mmu Queue Memory Pmap PmapSpec VmSteps Disk Env EnvProps Sched SchedProps.
From S2P Require Import Tlbex Syscall Fork StringsProps.
From S2P Require Import QueueProps PmapProps SyscallProps EnvVmProps TlbProps ElfProps LoadProps Ulib UlibProps.

(** * Realisable page tables *)

Definition real (np : Z) (A : vm) : Prop := ∃ p, rel p A ∧ npage p = np.

(** The page can be mapped once more. *)
Definition mappable (np : Z) (A : vm) (p : Z) : Prop :=
  usable A np p ∧ count p (maps A) + pin A p < 2 ^ 16 - 1.

(** One more mapping raises a count by one at most. *)
Lemma count_insert_any q p f k m : count q (<[k := (p, f)]> m) ≤ count q m + 1.
Proof.
  destruct (m !! k) as [[p' f']|] eqn:Hk.
  - rewrite <- insert_delete_eq, (count_insert_new q (delete k m) k p f (lookup_delete_eq _ _)).
    rewrite (count_delete q m k p' f' Hk). repeat case_decide; lia.
  - rewrite count_insert_new by done. case_decide; lia.
Qed.

Lemma count_subseteq q m1 m2 : m1 ⊆ m2 → count q m1 ≤ count q m2.
Proof.
  intros Hs. unfold count. apply inj_le, map_subseteq_size. by apply map_filter_subseteq_mono.
Qed.

Lemma real_limit np A : real np A → np ≤ PAGE_LIMIT.
Proof. intros (s & Hr & <-). by apply (np_limit s A). Qed.

Lemma real_map np A d v p f : real np A → maps A !! (d, v) = Some (p, f) →
  usable A np p ∧ 0 ≤ p < PAGE_LIMIT ∧ 0 ≤ f < 1024 ∧ has f PTE_V = true ∧ is_Some (tabs A !! (d, v / 1024)).
Proof.
  intros (s & Hr & <-) Hm. destruct (mapped_page s A Hr d v p f Hm) as (H1 & H2 & H3 & _).
  destruct (wf_map _ _ (rel_wf _ _ Hr) _ _ _ _ Hm) as (_ & H4 & _ & _ & H5 & H6).
  pose proof (np_limit s A Hr). split_and!; try done; lia.
Qed.

Lemma real_free np A p : real np A → p ∈ free A →
  0 ≤ p < np ∧ (∀ k f, maps A !! k ≠ Some (p, f)) ∧ pin A p = 0 ∧ p ∉ dirs A ∧ ¬ is_tab A p.
Proof.
  intros (s & Hr & <-) Hp. split; [by apply (free_page s A)|]. split; [intros k f; by apply (free_not_mapped s A)|].
  split; [by apply (free_unused s A Hr)|]. split; [by apply (free_not_dir s A Hr)|by apply (free_not_tab s A Hr)].
Qed.

(** A page the allocator does not own because someone holds it *)
Lemma real_pinned np A p : real np A → 1 ≤ pin A p → p ∉ free A ∧ ¬ is_tab A p.
Proof.
  intros (s & Hr & <-) Hp. split.
  - intros Hf. destruct (free_unused s A Hr p Hf). lia.
  - intros [[d i] Ht]. destruct (wf_tab _ _ (rel_wf _ _ Hr) _ _ _ Ht) as (_ & _ & _ & ?). lia.
Qed.

Lemma real_alloc np A p fl : real np A → free A = p :: fl →
  real np (set_vfree fl A) ∧ mappable np (set_vfree fl A) p.
Proof.
  intros Hreal Hf. pose proof Hreal as (s & Hr & Hn).
  destruct (page_alloc_eq s A Hr p fl Hf) as (l' & _ & Hl).
  pose proof (fresh_insertable s A p fl l' 0 Hr Hf Hl ltac:(done)) as [H1 H2 H3 _ _].
  split; [by exists (set_mem (clear_page (page2pa p)) (set_free l' s)); split; [apply rel_alloc|]|].
  split; [by split_and!; rewrite <- ?Hn; try done; apply H1|].
  destruct (free_unused s A Hr p ltac:(rewrite Hf; apply list_elem_of_here)) as [Hc Hp].
  change (count p (maps A) + pin A p < 2 ^ 16 - 1). lia.
Qed.

Lemma spec_insert_eq A d v p perm A' : spec_insert A d v p perm = Some A' →
  maps A' = <[(d, v) := (p, perm_flags perm)]> (maps A).
Proof.
  intros E. destruct (spec_insert_maps _ _ _ _ _ _ E) as (H1 & _ & H2). apply map_eq. intros [d' v'].
  destruct (decide ((d', v') = (d, v))) as [[= -> ->]|Hne].
  - by rewrite H1, lookup_insert_eq.
  - by rewrite H2, lookup_insert_ne by congruence.
Qed.

Lemma spec_insert_free A d v p perm A' : spec_insert A d v p perm = Some A' →
  ∀ q, q ∈ free A' → q ∈ free A ∨ (∃ f, maps A !! (d, v) = Some (q, f) ∧ q ≠ p).
Proof.
  unfold spec_insert. set (B := match maps A !! (d, v) with Some _ => _ | None => A end).
  assert (Hb : ∀ q, q ∈ free B → q ∈ free A ∨ (∃ f, maps A !! (d, v) = Some (q, f) ∧ q ≠ p)).
  { intros q. unfold B. destruct (maps A !! (d, v)) as [[q' f]|] eqn:Hm; [|by left].
    case_decide as Eq; [by left|]. unfold spec_remove. rewrite Hm. case_match; cbn; [|by left].
    intros [->|Hq]%elem_of_cons; [right; by exists f|by left]. }
  clearbody B. unfold spec_table. destruct (tabs B !! _); cbn; [intros [= <-] q Hq; by apply Hb|].
  destruct (free B) as [|t fl] eqn:Hf; cbn; [done|]. intros [= <-] q Hq. apply Hb. cbn in Hq. set_solver.
Qed.

Lemma real_insert np A d va p perm :
  real np A → d ∈ dirs A → 0 ≤ va < UTOP → mappable np A p → 0 ≤ perm < 1024 → (1 ≤ length (free A))%nat →
  ∃ A', spec_insert A d (VPN va) p perm = Some A' ∧ real np A' ∧
    maps A' = <[(d, VPN va) := (p, perm_flags perm)]> (maps A) ∧ dirs A' = dirs A ∧ pins A' = pins A ∧
    (length (free A) ≤ Datatypes.S (length (free A')))%nat ∧ p ∉ free A'.
Proof.
  intros (s & Hr & Hn) Hd Hva [(Hu1 & Hu2 & Hu3) Hc] Hp Hroom.
  destruct (insert_room A d (VPN va) p perm Hroom) as (A' & E & Hl & Hpin). exists A'. split; [exact E|].
  assert (Hins : insertable s A p perm).
  { split; [by rewrite Hn|done|done| |done]. by rewrite (rr_page _ _ (rel_refs _ _ Hr)) by (rewrite ?Hn; done). }
  pose proof (page_insert_ok s A d va 0 p perm Hr Hd Hva Hins) as Hok. rewrite E in Hok.
  destruct Hok as (s' & _ & Hr' & Hn' & _). destruct (insert_frame _ _ _ _ _ _ E) as [Hdirs _].
  split; [exists s'; by rewrite Hn'|]. split; [by apply spec_insert_eq|]. split; [exact Hdirs|]. split; [exact Hpin|].
  split; [exact Hl|]. intros Hf. destruct (spec_insert_free _ _ _ _ _ _ E p Hf) as [|(f & _ & ?)]; done.
Qed.

Lemma real_remove np A d va : real np A → d ∈ dirs A → 0 ≤ va < UTOP →
  real np (spec_remove A d (VPN va)).
Proof.
  intros (s & Hr & Hn) Hd Hva. destruct (page_remove_ok s A d va 0 Hr Hd Hva) as (s' & _ & Hr' & Hn' & _).
  exists s'. by rewrite Hn'.
Qed.

Lemma spec_remove_free A d v : (length (free A) ≤ length (free (spec_remove A d v)))%nat ∧
  (∀ q, q ∈ free (spec_remove A d v) → q ∈ free A ∨ (∃ f, maps A !! (d, v) = Some (q, f) ∧ count q (maps A) + pin A q = 1)).
Proof.
  unfold spec_remove. destruct (maps A !! (d, v)) as [[p f]|]; [|by split; [|left]].
  destruct (Z.eqb_spec (count p (maps A) + pin A p) 1); cbn; [|by split; [|left]]. split; [lia|].
  intros q [->|Hq]%elem_of_cons; [right; by exists f|by left].
Qed.

(** * Contents of physical pages *)

Definition ppage (m : memory) (q : Z) : page := pg m (q + PPN0).
Definition page_byte (c : page) (j : Z) : Z := byte_of (word c (j / 4)) (j mod 4).

Lemma page_split q j : 0 ≤ q < PAGE_LIMIT → 0 ≤ j < 4096 →
  PPN (page2pa q + j) = q + PPN0 ∧ widx (page2pa q + j) = j / 4.
Proof.
  intros Hq Hj. destruct (page_word q j Hq Hj) as [E _].
  destruct (word_addr q (j / 4) Hq (word_index j Hj)) as [E1 E2].
  split; [rewrite <- E1|rewrite <- E2]; unfold widx.
  - rewrite !PPN_div. change 4096 with (4 * 1024). by rewrite <- !Z.div_div, E by lia.
  - rewrite !Z.shiftr_div_pow2 by lia. change (2 ^ 2) with 4. by rewrite E.
Qed.

Lemma load_ppage m q j : 0 ≤ q < PAGE_LIMIT → 0 ≤ j < 4096 → load m (page2pa q + j) = word (ppage m q) (j / 4).
Proof. intros Hq Hj. unfold load. by destruct (page_split q j Hq Hj) as [-> ->]. Qed.

Lemma load8_ppage m q j : 0 ≤ q < PAGE_LIMIT → 0 ≤ j < 4096 → load8 m (page2pa q + j) = page_byte (ppage m q) j.
Proof. intros Hq Hj. rewrite load8_word by done. unfold page_byte. f_equal. by apply load_word; [|apply word_index]. Qed.

Lemma ppage_store m a v q p j : 0 ≤ p < PAGE_LIMIT → 0 ≤ j < 4096 → a = page2pa p + j →
  ppage (store a v m) q = if decide (p = q) then <[j / 4 := u32 v]> (ppage m p) else ppage m q.
Proof.
  intros Hp Hj ->. unfold ppage, store. destruct (page_split p j Hp Hj) as [-> ->]. unfold pg at 1.
  rewrite lookup_insert. destruct (decide (p = q)) as [->|Hne]; [by rewrite decide_True|].
  by rewrite decide_False by lia.
Qed.

Lemma ppage_clear m p q : 0 ≤ p < PAGE_LIMIT → 
  ppage (clear_page (page2pa p) m) q = if decide (p = q) then ∅ else ppage m q.
Proof.
  intros Hp. unfold ppage, clear_page. destruct (page_split p 0 Hp ltac:(lia)) as [E _]. rewrite Z.add_0_r in E.
  rewrite E. unfold pg at 1. rewrite lookup_insert.
  destruct (decide (p = q)) as [->|Hne]; [by rewrite decide_True|by rewrite decide_False by lia].
Qed.

(** Pages other than [p] keep their contents. *)
Definition only_page (p : Z) (m m' : memory) : Prop := ∀ q, q ≠ p → ppage m' q = ppage m q.

Lemma only_page_refl p m : only_page p m m.
Proof. by intros q Hq. Qed.

Lemma only_page_trans p m1 m2 m3 : only_page p m1 m2 → only_page p m2 m3 → only_page p m1 m3.
Proof. intros H1 H2 q Hq. by rewrite H2, H1. Qed.

Lemma only_page_store m p j v : 0 ≤ p < PAGE_LIMIT → 0 ≤ j < 4096 → only_page p m (store (page2pa p + j) v m).
Proof. intros Hp Hj q Hq. rewrite (ppage_store _ _ _ _ p j) by done. by rewrite decide_False. Qed.

Lemma only_page_store8 m p j v : 0 ≤ p < PAGE_LIMIT → 0 ≤ j < 4096 → only_page p m (store8 (page2pa p + j) v m).
Proof. intros Hp Hj. by apply only_page_store. Qed.

Lemma only_page_clear m p : 0 ≤ p < PAGE_LIMIT → only_page p m (clear_page (page2pa p) m).
Proof. intros Hp q Hq. rewrite ppage_clear by done. by rewrite decide_False. Qed.

(** The bytes [l] written at [a] *)
Fixpoint write_bytes (a : Z) (l : list Z) (m : memory) : memory :=
  match l with
  | [] => m
  | b :: l' => write_bytes (a + 1) l' (store8 a b m)
  end.

Lemma load8_write_bytes a l m x :
  load8 (write_bytes a l m) x =
    if decide (a ≤ x < a + Z.of_nat (length l)) then u8 (nth (Z.to_nat (x - a)) l 0) else load8 m x.
Proof.
  revert a m. induction l as [|b l IH]; intros a m; cbn [write_bytes length].
  - by rewrite decide_False by lia.
  - rewrite IH, load8_store8. repeat case_decide; try lia; try done.
    + f_equal. replace (Z.to_nat (x - a)) with (Datatypes.S (Z.to_nat (x - (a + 1)))) by lia. done.
    + subst x. by rewrite Z.sub_diag.
Qed.

Lemma only_page_write p l j m : 0 ≤ p < PAGE_LIMIT → 0 ≤ j → j + Z.of_nat (length l) ≤ 4096 →
  only_page p m (write_bytes (page2pa p + j) l m).
Proof.
  intros Hp. revert j m. induction l as [|b l IH]; intros j m Hj Hl; cbn [write_bytes length] in *; [apply only_page_refl|].
  eapply only_page_trans; [by apply (only_page_store8 m p j b); lia|].
  replace (page2pa p + j + 1) with (page2pa p + (j + 1)) by lia. apply IH; lia.
Qed.

(** * Accesses of the program *)

Section access.
Context `{Neighbours}.

(** The byte the program reads at [va] *)
Definition mem_byte (s : world) (va : Z) : option Z :=
  match slot s va with
  | Some (p, f) => if has f PTE_R then Some (load8 (umem s) (page2pa p + va mod BY2PG)) else None
  | None => None
  end.

Lemma u_load8_ok s va b : mem_byte s va = Some b → u_load8 va s = Ok b s.
Proof.
  unfold mem_byte. destruct (slot s va) as [[p f]|] eqn:Hs; [|done]. destruct (has f PTE_R) eqn:Hf; [|done].
  intros [= <-]. unfold u_load8. by rewrite (bind_ok _ _ _ _ _ (access_ok s va false p f Hs Hf)).
Qed.

Lemma u_load_ok s va p f : slot s va = Some (p, f) → has f PTE_R = true → Z.land va 3 = 0 →
  u_load va s = Ok (load (umem s) (page2pa p + va mod BY2PG)) s.
Proof.
  intros Hs Hf Hva. unfold u_load. rewrite Hva. cbn [negb Z.eqb].
  by rewrite (bind_ok _ _ _ _ _ (access_ok s va false p f Hs Hf)).
Qed.

Lemma u_store_ok s va p f x : slot s va = Some (p, f) → has f PTE_W = true → Z.land va 3 = 0 →
  u_store va x s = Ok tt (set_umem (store (page2pa p + va mod BY2PG) x (umem s)) s).
Proof.
  intros Hs Hf Hva. unfold u_store. rewrite Hva. cbn [negb Z.eqb].
  by rewrite (bind_ok _ _ _ _ _ (access_ok s va true p f Hs Hf)).
Qed.

Lemma u_store8_ok s va p f x : slot s va = Some (p, f) → has f PTE_W = true →
  u_store8 va x s = Ok tt (set_umem (store8 (page2pa p + va mod BY2PG) x (umem s)) s).
Proof.
  intros Hs Hf. unfold u_store8. by rewrite (bind_ok _ _ _ _ _ (access_ok s va true p f Hs Hf)).
Qed.

Lemma u_load_bytes_ok s va n g : (∀ i, 0 ≤ i < Z.of_nat n → mem_byte s (va + i) = Some (g i)) →
  u_load_bytes va n s = Ok (map g (seqZ 0 (Z.of_nat n))) s.
Proof.
  revert va g. induction n as [|n IH]; intros va g Hg; [done|]. cbn [u_load_bytes].
  assert (H0 : mem_byte s va = Some (g 0)) by (rewrite <- (Z.add_0_r va); apply Hg; lia).
  rewrite (bind_ok _ _ _ _ _ (u_load8_ok s va (g 0) H0)).
  assert (H1 : ∀ i, 0 ≤ i < Z.of_nat n → mem_byte s (va + 1 + i) = Some (g (i + 1))).
  { intros i Hi. rewrite <- Hg by lia. f_equal. lia. }
  rewrite (bind_ok _ _ _ _ _ (IH (va + 1) (λ i, g (i + 1)) H1)).
  unfold ret. rewrite (seqZ_cons 0 (Z.of_nat (Datatypes.S n))) by lia. cbn [map]. do 2 f_equal.
  replace (Z.pred (Z.of_nat (Datatypes.S n))) with (Z.of_nat n) by lia.
  rewrite <- (fmap_add_seqZ 1 0). change (Z.succ 0) with (1 + 0). rewrite map_map. apply map_ext. intros i. f_equal. lia.
Qed.

(** Bytes stored within one page *)
Lemma u_store_bytes_ok s p f l : ∀ va,
  0 ≤ va → va mod BY2PG + Z.of_nat (length l) ≤ BY2PG → slot s va = Some (p, f) → has f PTE_W = true →
  u_store_bytes va l s = Ok tt (set_umem (write_bytes (page2pa p + va mod BY2PG) l (umem s)) s).
Proof.
  change BY2PG with 4096. revert s. induction l as [|b l IH]; intros s va Hva Hl Hs Hf; [by destruct s|].
  cbn [u_store_bytes write_bytes length] in *.
  rewrite (bind_ok _ _ _ _ _ (u_store8_ok s va p f b Hs Hf)). change BY2PG with 4096.
  destruct l as [|b' l]; [done|]. cbn [length] in Hl.
  assert (Hm : (va + 1) mod 4096 = va mod 4096 + 1 ∧ VPN (va + 1) = VPN va).
  { rewrite !VPN_div. change BY2PG with 4096. pose proof (Z.div_mod va 4096 ltac:(lia)).
    pose proof (Z.mod_pos_bound va 4096 ltac:(lia)).
    split; symmetry; [apply (Z.mod_unique _ _ (va / 4096))|apply (Z.div_unique _ _ _ (va mod 4096 + 1))]; lia. }
  rewrite (IH _ (va + 1)); [|lia|rewrite (proj1 Hm); cbn [length]; lia| |done].
  - rewrite (proj1 Hm), Z.add_assoc. done.
  - unfold slot in *. cbn. by rewrite (proj2 Hm).
Qed.
End access.

(** * System calls of the program *)

Section calls.
Context `{Neighbours} (np : Z).

Definition settled (s : world) : Prop := real np (uvm s) ∧ udir s ∈ dirs (uvm s).

(** Only the page tables and the free list have changed: [va] maps [p]. *)
Record remapped (s s' : world) (va p perm : Z) : Prop := {
  rm_settled : settled s';
  rm_maps : maps (uvm s') = <[(udir s, VPN va) := (p, perm_flags perm)]> (maps (uvm s));
  rm_dirs : dirs (uvm s') = dirs (uvm s);
  rm_pins : pins (uvm s') = pins (uvm s);
  rm_rest : set_uvm (uvm s) s' = set_umem (umem s') s;
  rm_free : p ∉ free (uvm s')
}.

(** The flags of a page mapped by [u_mem_alloc] or [u_mem_map] *)
Definition user_perm (perm : Z) : Z := Z.lor perm PTE_U.

Lemma u_mem_alloc_ok s va perm :
  settled s → is_illegal_va va = false → 0 ≤ perm < 1024 → (2 ≤ length (free (uvm s)))%nat →
  ∃ p s', u_mem_alloc va perm s = Ok 0 s' ∧ remapped s s' va p (user_perm perm) ∧
    head (free (uvm s)) = Some p ∧ umem s' = clear_page (page2pa p) (umem s) ∧
    (length (free (uvm s)) ≤ 2 + length (free (uvm s')))%nat.
Proof.
  intros [Hr Hd] Hva Hp Hroom. unfold u_mem_alloc. rewrite Hva.
  destruct (free (uvm s)) as [|p fl] eqn:Hf; cbn [length] in Hroom; [lia|].
  destruct (real_alloc np (uvm s) p fl Hr Hf) as [Hr1 Hm].
  destruct (real_insert np (set_vfree fl (uvm s)) (udir s) va p (user_perm perm) Hr1 Hd (legal_va va Hva) Hm
    (user_flags perm Hp)) as (A' & E & Hr' & Hmaps & Hdirs & Hpins & Hl & Hpf); [cbn; lia|].
  cbv zeta. change (spec_insert _ _ _ _ _) with (spec_insert (set_vfree fl (uvm s)) (udir s) (VPN va) p (user_perm perm)).
  rewrite E. eexists p, _. split; [reflexivity|].
  split; [|split; [done|split; [done|cbn in *; lia]]].
  split; try done. split; [done|]. cbn. by rewrite Hdirs.
Qed.

Lemma u_mem_map_ok s srcva va perm p f :
  settled s → is_illegal_va srcva = false → is_illegal_va va = false → 0 ≤ perm < 1024 →
  (1 ≤ length (free (uvm s)))%nat → slot s srcva = Some (p, f) →
  count p (maps (uvm s)) + pin (uvm s) p < 2 ^ 16 - 1 →
  ∃ s', u_mem_map srcva va perm s = Ok 0 s' ∧ remapped s s' va p (user_perm perm) ∧ umem s' = umem s ∧
    (length (free (uvm s)) ≤ 1 + length (free (uvm s')))%nat.
Proof.
  intros [Hr Hd] Hsrc Hva Hp Hroom Hs Hc. unfold u_mem_map. rewrite Hsrc, Hva. cbn [orb]. rewrite Hs.
  destruct (real_map np (uvm s) _ _ p f Hr Hs) as [Hu _].
  destruct (real_insert np (uvm s) (udir s) va p (user_perm perm) Hr Hd (legal_va va Hva) (conj Hu Hc)
    (user_flags perm Hp) Hroom) as (A' & E & Hr' & Hmaps & Hdirs & Hpins & Hl & Hpf).
  fold (user_perm perm). rewrite E. eexists. split; [reflexivity|].
  split; [|split; [done|cbn; lia]]. split; try done. split; [done|]. cbn. by rewrite Hdirs.
Qed.

Lemma u_mem_unmap_ok s va :
  settled s → is_illegal_va va = false →
  ∃ s', u_mem_unmap va s = Ok 0 s' ∧ settled s' ∧ maps (uvm s') = delete (udir s, VPN va) (maps (uvm s)) ∧
    dirs (uvm s') = dirs (uvm s) ∧ pins (uvm s') = pins (uvm s) ∧ umem s' = umem s ∧
    set_uvm (uvm s) s' = s ∧ (length (free (uvm s)) ≤ length (free (uvm s')))%nat.
Proof.
  intros [Hr Hd] Hva. unfold u_mem_unmap. rewrite Hva.
  destruct (spec_remove_frame (uvm s) (udir s) (VPN va)) as (F1 & _ & F3 & F4).
  pose proof (real_remove np (uvm s) (udir s) va Hr Hd (legal_va va Hva)) as Hr'.
  eexists. split; [reflexivity|]. split; [split; [exact Hr'|cbn; by rewrite F1]|]. cbn.
  split; [exact F4|]. split; [exact F1|]. split; [exact F3|]. split; [done|]. split; [by destruct s|].
  apply spec_remove_free.
Qed.

Lemma slot_remapped s s' va p perm va' : remapped s s' va p perm →
  slot s' va' = if decide (VPN va' = VPN va) then Some (p, perm_flags perm) else slot s va'.
Proof.
  intros Hrm. unfold slot. assert (Hu : udir s' = udir s) by exact (f_equal udir (rm_rest _ _ _ _ _ Hrm)).
  rewrite Hu, (rm_maps _ _ _ _ _ Hrm). case_decide as E; [by rewrite E, lookup_insert_eq|].
  by rewrite lookup_insert_ne by congruence.
Qed.

(** The views of the page tables *)
Lemma u_vpd_ok s va p f : settled s → 0 ≤ va < UTOP → slot s va = Some (p, f) → u_vpd va s = Ok true s.
Proof.
  intros [Hr _] Hva Hs. unfold u_vpd. rewrite Z.geb_leb, (proj2 (Z.leb_gt _ _)) by lia. unfold gets.
  destruct (real_map np _ _ _ p f Hr Hs) as (_ & _ & _ & _ & Ht).
  destruct (vpn_range (udir s) va Hva) as (_ & _ & Hv & _). rewrite Hv in Ht. by rewrite bool_decide_true.
Qed.

Lemma u_vpt_ok s va p f : settled s → 0 ≤ va < UTOP → slot s va = Some (p, f) → u_vpt va s = Ok f s.
Proof.
  intros Hs Hva Hm. unfold u_vpt. rewrite (bind_ok _ _ _ _ _ (u_vpd_ok s va p f Hs Hva Hm)).
  unfold gets. by rewrite Hm.
Qed.
End calls.
