(* ===== verification/FileProps.v ===== *)
(** Open files of a program: user/lib/file.c and fd.c give back the bytes the
    server has sent.

    [open_file] says what an open file is in the program's memory: the page of
    its descriptor, and its contents mapped behind each other in the region of
    its number. *)
From S2P Require Import Prelude Mmu Queue Memory Pmap PmapSpec VmSteps BootProofs Disk Env EnvProps Sched SchedProps.
From S2P Require Import Tlbex Syscall StringsProps QueueProps PmapProps SyscallProps TlbProps ElfProps LoadProps.
From S2P Require Import Fs Serv Ulib UlibProps WorldProps Fd File Dev.

(** * Addresses of descriptors *)

Section index.
Context (i : Z) (Hi : 0 ≤ i < MAXFD).

Lemma INDEX2FD_eq : INDEX2FD i = 0x5FC00000 + i * 4096.
Proof using Hi. unfold INDEX2FD, MAXFD in *. change FDTABLE with 0x5FC00000. change BY2PG with 4096. apply u32_small. lia. Qed.

Lemma INDEX2DATA_eq : INDEX2DATA i = 0x60000000 + i * 0x400000.
Proof using Hi. unfold INDEX2DATA, MAXFD in *. change FILEBASE with 0x60000000. change PDMAP with 0x400000. apply u32_small. lia. Qed.

Lemma fd2num_INDEX : fd2num (INDEX2FD i) = i.
Proof using Hi.
  unfold fd2num, MAXFD in *. rewrite INDEX2FD_eq. change FDTABLE with 0x5FC00000. change BY2PG with 4096.
  rewrite u32_small by lia. replace (0x5FC00000 + i * 4096 - 0x5FC00000) with (i * 4096) by lia. by rewrite Z.div_mul.
Qed.

Lemma fd2data_INDEX : fd2data (INDEX2FD i) = INDEX2DATA i.
Proof using Hi. unfold fd2data. by rewrite fd2num_INDEX. Qed.

(** A field of the descriptor, by its offset in words *)
Lemma fd_field j : 0 ≤ j < 1024 →
  VPN (INDEX2FD i + 4 * j) = VPN (INDEX2FD i) ∧ (INDEX2FD i + 4 * j) mod BY2PG = 4 * j ∧
  Z.land (INDEX2FD i + 4 * j) 3 = 0.
Proof using Hi.
  intros Hj. rewrite INDEX2FD_eq. unfold MAXFD in Hi. rewrite !VPN_div, land3. change BY2PG with 4096. split_and!.
  - replace (0x5FC00000 + i * 4096) with ((0x5FC00 + i) * 4096) by lia.
    rewrite Z.div_add_l, Z.div_mul, (Z.div_small (4 * j)) by lia. lia.
  - replace (0x5FC00000 + i * 4096 + 4 * j) with (4 * j + (0x5FC00 + i) * 4096) by lia.
    rewrite Z.mod_add, Z.mod_small by lia. done.
  - replace (0x5FC00000 + i * 4096 + 4 * j) with ((0x17F00000 + i * 1024 + j) * 4) by lia. by rewrite Z.mod_mul.
Qed.
End index.

Lemma lookup_nth (l : list Z) k : (k < length l)%nat → l !! k = Some (nth k l 0).
Proof. intros Hk. destruct (lookup_lt_is_Some_2 l k Hk) as [x Hx]. by rewrite Hx, nth_lookup, Hx. Qed.

Lemma s32_small z : 0 ≤ z < 2 ^ 31 → s32 z = z.
Proof. intros Hz. unfold s32. rewrite u32_small by lia. by rewrite (proj2 (Z.ltb_lt _ _)) by lia. Qed.

(** * Open files *)

(** Words of a [struct Filefd] *)
Definition W_DEV := 0.
Definition W_OFFSET := 1.
Definition W_OMODE := 2.
Definition W_FILEID := 3.
Definition W_SIZE := 36.

Record open_file (s : world) (i p id omode : Z) (bytes : list Z) (off : Z) : Prop := {
  of_num : 0 ≤ i < MAXFD;
  of_len : Z.of_nat (length bytes) ≤ MAXFILESIZE;
  of_page : 0 ≤ p < PAGE_LIMIT ∧ ∃ f, slot s (INDEX2FD i) = Some (p, f) ∧ has f PTE_R = true ∧ has f PTE_W = true;
  of_dev : word (ppage (umem s) p) W_DEV = dev_file;
  of_off : word (ppage (umem s) p) W_OFFSET = off;
  of_omode : word (ppage (umem s) p) W_OMODE = omode;
  of_id : word (ppage (umem s) p) W_FILEID = id;
  of_size : word (ppage (umem s) p) W_SIZE = Z.of_nat (length bytes);
  of_data : ∀ k b, bytes !! k = Some b → mem_byte s (INDEX2DATA i + Z.of_nat k) = Some b;
  of_apart : ∀ k q g, (k < length bytes)%nat → slot s (INDEX2DATA i + Z.of_nat k) = Some (q, g) → q ≠ p ∧ 0 ≤ q < PAGE_LIMIT
}.

(** Pages an open file is made of *)
Definition file_page (s : world) (i : Z) (bytes : list Z) (q : Z) : Prop :=
  (∃ f, slot s (INDEX2FD i) = Some (q, f)) ∨
  ∃ k f, (k < length bytes)%nat ∧ slot s (INDEX2DATA i + Z.of_nat k) = Some (q, f).

(** An open file stays open while its pages stay. *)
Lemma open_file_kept s s' i p id omode bytes off :
  open_file s i p id omode bytes off → slot s' (INDEX2FD i) = slot s (INDEX2FD i) →
  (∀ k, (k < length bytes)%nat → slot s' (INDEX2DATA i + Z.of_nat k) = slot s (INDEX2DATA i + Z.of_nat k)) →
  (∀ q, file_page s i bytes q → ppage (umem s') q = ppage (umem s) q) →
  open_file s' i p id omode bytes off.
Proof.
  intros [H1 H2 [H3 (f & H4 & H4')] H5 H6 H7 H8 H9 H10 H11] Hf Hd Hp.
  assert (Ep : ppage (umem s') p = ppage (umem s) p) by (apply Hp; left; by exists f).
  split; rewrite ?Ep; try done.
  - split; [done|]. exists f. by rewrite Hf.
  - intros k b Hb. pose proof (lookup_lt_Some _ _ _ Hb) as Hk. rewrite <- (H10 k b Hb). unfold mem_byte. rewrite Hd by done.
    destruct (slot s (INDEX2DATA i + Z.of_nat k)) as [[q g]|] eqn:Eq; [|done].
    destruct (H11 k q g Hk Eq) as [_ Hql].
    rewrite !load8_ppage by (try done; apply Z.mod_pos_bound; done). rewrite Hp; [done|]. right. by exists k, g.
  - intros k q g Hk Hq. rewrite Hd in Hq by done. by apply (H11 k q g).
Qed.

Section file.
Context `{Neighbours, FileSymbols} (np : Z).

(** ** The page of a descriptor, whatever its device *)

Section descriptor.
Context (s : world) (i p f : Z) (Hs : settled np s) (Hi : 0 ≤ i < MAXFD) (Hp : 0 ≤ p < PAGE_LIMIT).
Context (Hsl : slot s (INDEX2FD i) = Some (p, f)).

Lemma descriptor_slot j : 0 ≤ j < 1024 → slot s (INDEX2FD i + 4 * j) = Some (p, f).
Proof using Hsl Hi. intros Hj. unfold slot in *. by rewrite (proj1 (fd_field i Hi j Hj)). Qed.

Lemma descriptor_word j : has f PTE_R = true → 0 ≤ j < 1024 →
  u_load (INDEX2FD i + 4 * j) s = Ok (word (ppage (umem s) p) j) s.
Proof using Hsl Hp Hi.
  intros HR Hj. destruct (fd_field i Hi j Hj) as (_ & Hm & Hl).
  rewrite (u_load_ok s _ p f (descriptor_slot j Hj) HR Hl), Hm, load_word by done. done.
Qed.

Lemma descriptor_store j x : has f PTE_W = true → 0 ≤ j < 1024 →
  u_store (INDEX2FD i + 4 * j) x s = Ok tt (set_umem (store (page2pa p + 4 * j) x (umem s)) s).
Proof using Hsl Hi.
  intros HW Hj. destruct (fd_field i Hi j Hj) as (_ & Hm & Hl).
  by rewrite (u_store_ok s _ p f x (descriptor_slot j Hj) HW Hl), Hm.
Qed.

Lemma descriptor_found : fd_lookup i s = Ok (INDEX2FD i) s.
Proof using Hs Hsl Hi.
  unfold fd_lookup. rewrite Z.geb_leb, (proj2 (Z.leb_gt _ _)) by lia.
  assert (Hu : 0 ≤ INDEX2FD i < UTOP) by (rewrite (INDEX2FD_eq i Hi); unfold MAXFD in Hi; change UTOP with 2134900736; lia).
  rewrite (bind_ok _ _ _ _ _ (u_vpd_ok np s _ p f Hs Hu Hsl)). cbn [negb].
  rewrite (bind_ok _ _ _ _ _ (u_vpt_ok np s _ p f Hs Hu Hsl)).
  destruct Hs as [Hr _]. destruct (real_map np _ _ _ p f Hr Hsl) as (_ & _ & _ & HV & _). by rewrite HV.
Qed.
End descriptor.

Section opened.
Context (s : world) (i p id omode : Z) (bytes : list Z) (off : Z).
Context (Hs : settled np s) (Hof : open_file s i p id omode bytes off).

Let Hi : 0 ≤ i < MAXFD := of_num _ _ _ _ _ _ _ Hof.

Lemma load_field j : 0 ≤ j < 1024 → u_load (INDEX2FD i + 4 * j) s = Ok (word (ppage (umem s) p) j) s.
Proof using Hof Hi.
  intros Hj. destruct (of_page _ _ _ _ _ _ _ Hof) as [Hp (f & Hsl & HR & _)]. by apply (descriptor_word s i p f).
Qed.

Lemma fd_lookup_ok : fd_lookup i s = Ok (INDEX2FD i) s.
Proof using Hs Hof Hi.
  destruct (of_page _ _ _ _ _ _ _ Hof) as [Hp (f & Hsl & _)]. by apply (descriptor_found s i p f).
Qed.

Lemma load_dev : u_load (dev_id_at (INDEX2FD i)) s = Ok dev_file s.
Proof using Hof Hi.
  unfold dev_id_at. rewrite <- (of_dev _ _ _ _ _ _ _ Hof).
  replace (INDEX2FD i) with (INDEX2FD i + 4 * W_DEV) at 1 by (unfold W_DEV; lia). by apply load_field.
Qed.

Lemma fd_dev_ok : fd_dev i s = Ok (INDEX2FD i, devfile) s.
Proof using Hs Hof Hi.
  unfold fd_dev. by rewrite (bind_ok _ _ _ _ _ fd_lookup_ok), (bind_ok _ _ _ _ _ load_dev).
Qed.

Lemma load_fdoffset : u_load (offset_at (INDEX2FD i)) s = Ok off s.
Proof using Hof Hi. rewrite <- (of_off _ _ _ _ _ _ _ Hof). by apply (load_field W_OFFSET). Qed.
Lemma load_omode : u_load (omode_at (INDEX2FD i)) s = Ok omode s.
Proof using Hof Hi. rewrite <- (of_omode _ _ _ _ _ _ _ Hof). by apply (load_field W_OMODE). Qed.
Lemma load_fileid : u_load (fileid_at (INDEX2FD i)) s = Ok id s.
Proof using Hof Hi. rewrite <- (of_id _ _ _ _ _ _ _ Hof). by apply (load_field W_FILEID). Qed.
Lemma load_fsize : u_load (fsize_at (INDEX2FD i)) s = Ok (Z.of_nat (length bytes)) s.
Proof using Hof Hi.
  rewrite <- (of_size _ _ _ _ _ _ _ Hof). unfold fsize_at.
  replace (INDEX2FD i + 16 + 128) with (INDEX2FD i + 4 * W_SIZE) by (unfold W_SIZE; lia). by apply load_field.
Qed.

(** Storing the offset *)
Definition with_offset (x : Z) : world := set_umem (store (page2pa p + 4 * W_OFFSET) x (umem s)) s.

Lemma store_offset x : u_store (offset_at (INDEX2FD i)) x s = Ok tt (with_offset x).
Proof using Hof Hi.
  destruct (of_page _ _ _ _ _ _ _ Hof) as [_ (f & Hsl & _ & HW)].
  by apply (descriptor_store s i p f Hi Hsl W_OFFSET).
Qed.

Lemma with_offset_open x : 0 ≤ x < 2 ^ 32 → open_file (with_offset x) i p id omode bytes x.
Proof using Hof Hi.
  intros Hx. destruct (of_page _ _ _ _ _ _ _ Hof) as [Hp Hsl].
  assert (Hw : ppage (umem (with_offset x)) p = <[W_OFFSET := x]> (ppage (umem s) p)).
  { cbn. rewrite (ppage_store _ _ _ _ p (4 * W_OFFSET)), decide_True by done.
    rewrite (u32_small x) by done. done. }
  split; rewrite ?Hw; try (unfold word; rewrite lookup_insert_ne by done); try apply Hof.
  - unfold word. by rewrite lookup_insert_eq.
  - intros k b Hb. rewrite <- (of_data _ _ _ _ _ _ _ Hof k b Hb). unfold mem_byte.
    change (slot (with_offset x) (INDEX2DATA i + Z.of_nat k)) with (slot s (INDEX2DATA i + Z.of_nat k)).
    destruct (slot s (INDEX2DATA i + Z.of_nat k)) as [[q g]|] eqn:Hq; [|done]. destruct (has g PTE_R); [|done].
    destruct (of_apart _ _ _ _ _ _ _ Hof k q g (lookup_lt_Some _ _ _ Hb) Hq) as [Hne Hql].
    assert (Hmod : 0 ≤ (INDEX2DATA i + Z.of_nat k) mod BY2PG < 4096) by (apply Z.mod_pos_bound; done).
    rewrite !load8_ppage by done. do 2 f_equal. by apply (only_page_store (umem s) p (4 * W_OFFSET) x Hp).
Qed.

Lemma seek_ok x : seek i x s = Ok 0 (with_offset x).
Proof using Hs Hof Hi. unfold seek. rewrite (bind_ok _ _ _ _ _ fd_lookup_ok), (bind_ok _ _ _ _ _ (store_offset x)). done. Qed.

(** The next [n] bytes at [o] *)
Definition piece (o n : Z) : list Z := take (Z.to_nat n) (drop (Z.to_nat o) bytes).

Lemma piece_loaded o n : 0 ≤ o → 0 ≤ n → o + n ≤ Z.of_nat (length bytes) →
  u_load_bytes (INDEX2DATA i + o) (Z.to_nat n) s = Ok (piece o n) s.
Proof using Hof.
  intros Ho Hn Hl.
  assert (Hg : ∀ k, 0 ≤ k < Z.of_nat (Z.to_nat n) → mem_byte s (INDEX2DATA i + o + k) = Some (nth (Z.to_nat (o + k)) bytes 0)).
  { intros k Hk. replace (INDEX2DATA i + o + k) with (INDEX2DATA i + Z.of_nat (Z.to_nat (o + k))) by lia.
    apply (of_data _ _ _ _ _ _ _ Hof). apply lookup_nth. lia. }
  rewrite (u_load_bytes_ok s _ _ _ Hg). f_equal. apply list_eq. intros k. unfold piece.
  rewrite list_lookup_fmap. destruct (decide (k < Z.to_nat n)%nat) as [Hk|Hk].
  - rewrite (proj2 (lookup_seqZ _ _ _ (Z.of_nat k))) by lia. cbn. rewrite lookup_take_lt, lookup_drop by done.
    rewrite (lookup_nth bytes) by lia. do 2 f_equal. lia.
  - rewrite lookup_seqZ_ge by lia. cbn. by rewrite lookup_take_ge by lia.
Qed.

Lemma file_read_ok n o : 0 ≤ n → 0 ≤ o → o + n < 2 ^ 32 →
  file_read (INDEX2FD i) n o s = Ok (Z.of_nat (length (piece o n)), piece o n) s.
Proof using Hof Hi.
  intros Hn Ho Hs32. unfold file_read. rewrite (bind_ok _ _ _ _ _ load_fsize), (fd2data_INDEX i Hi).
  pose proof (of_len _ _ _ _ _ _ _ Hof) as Hlen. change MAXFILESIZE with 4194304 in Hlen.
  rewrite Z.gtb_ltb. destruct (Z.ltb_spec (Z.of_nat (length bytes)) o) as [Hgt|Hle].
  { unfold piece. rewrite drop_ge, take_nil by lia. done. }
  rewrite (u32_small (o + n)), (u32_small (Z.of_nat (length bytes) - o)), Z.gtb_ltb by lia.
  destruct (Z.ltb_spec (Z.of_nat (length bytes)) (o + n)) as [Hgt|Hfit]; cbv zeta.
  - rewrite (bind_ok _ _ _ _ _ (piece_loaded o (Z.of_nat (length bytes) - o) Ho ltac:(lia) ltac:(lia))).
    assert (E : piece o (Z.of_nat (length bytes) - o) = piece o n).
    { unfold piece. rewrite !take_ge by (rewrite length_drop; lia). done. }
    rewrite s32_small by lia. unfold ret. rewrite E. do 2 f_equal. rewrite <- E. unfold piece.
    rewrite length_take, length_drop. lia.
  - rewrite (bind_ok _ _ _ _ _ (piece_loaded o n Ho Hn Hfit)). rewrite s32_small by lia. unfold ret. do 2 f_equal.
    unfold piece. rewrite length_take, length_drop. lia.
Qed.

(** [read]: the bytes at the offset, which moves behind them *)
Lemma read_ok n : Z.land omode O_ACCMODE ≠ O_WRONLY → 0 ≤ n → 0 ≤ off → off + n < 2 ^ 32 →
  read i n s = Ok (Z.of_nat (length (piece off n)), piece off n)
    (if decide (piece off n = []) then s else with_offset (off + Z.of_nat (length (piece off n)))).
Proof using Hs Hof Hi.
  intros Hom Hn Ho Hs32. unfold read. rewrite (bind_ok _ _ _ _ _ fd_dev_ok), (bind_ok _ _ _ _ _ load_omode).
  rewrite (proj2 (Z.eqb_neq _ _) Hom), (bind_ok _ _ _ _ _ load_fdoffset).
  change (dev_read devfile) with file_read. rewrite (bind_ok _ _ _ _ _ (file_read_ok n off Hn Ho Hs32)).
  set (l := piece off n). assert (Hl : Z.of_nat (length l) ≤ n) by (unfold l, piece; rewrite length_take; lia).
  unfold advance. rewrite Z.gtb_ltb. case_decide as E.
  - rewrite E. done.
  - assert (0 < Z.of_nat (length l)) by (destruct l; [done|cbn; lia]). rewrite (proj2 (Z.ltb_lt _ _)) by done.
    rewrite !bind_assoc. rewrite (bind_ok _ _ _ _ _ load_fdoffset). rewrite u32_small by lia.
    by rewrite (bind_ok _ _ _ _ _ (store_offset _)).
Qed.

(** [read_map] gives the address of the mapped contents. *)
Lemma read_map_ok o : 0 ≤ o < Z.of_nat (length bytes) → read_map i o s = Ok (INDEX2DATA i + o) s.
Proof using Hs Hof Hi.
  intros Ho. unfold read_map. rewrite (bind_ok _ _ _ _ _ fd_lookup_ok), (bind_ok _ _ _ _ _ load_dev), Z.eqb_refl.
  cbn [negb]. rewrite (fd2data_INDEX i Hi). cbv zeta.
  pose proof (of_len _ _ _ _ _ _ _ Hof) as Hlen. rewrite Z.geb_leb, (proj2 (Z.leb_gt _ _)) by lia.
  change MAXFILESIZE with 4194304 in Hlen. pose proof (INDEX2DATA_eq i Hi) as HI. unfold MAXFD in Hi.
  rewrite (u32_small (INDEX2DATA i + o)) by lia.
  destruct (lookup_lt_is_Some_2 bytes (Z.to_nat o) ltac:(lia)) as [b Hb].
  pose proof (of_data _ _ _ _ _ _ _ Hof _ _ Hb) as Hd. rewrite Z2Nat.id in Hd by lia. unfold mem_byte in Hd.
  destruct (slot s (INDEX2DATA i + o)) as [[q g]|] eqn:Hq; [|done].
  assert (Hu : 0 ≤ INDEX2DATA i + o < UTOP) by (change UTOP with 2134900736; lia).
  rewrite (bind_ok _ _ _ _ _ (u_vpd_ok np s _ q g Hs Hu Hq)). cbn [negb].
  rewrite (bind_ok _ _ _ _ _ (u_vpt_ok np s _ q g Hs Hu Hq)).
  destruct Hs as [Hr _]. destruct (real_map np _ _ _ q g Hr Hq) as (_ & _ & _ & HV & _). by rewrite HV.
Qed.
End opened.

Lemma settled_umem s m : settled np s → settled np (set_umem m s).
Proof using. done. Qed.

(** [readn] goes on until the bytes asked for or the end of the file. *)
Lemma readn_ok s i p id omode bytes off n :
  settled np s → open_file s i p id omode bytes off →
  Z.land omode O_ACCMODE ≠ O_WRONLY → 0 ≤ n → 0 ≤ off → off + 2 * n < 2 ^ 32 →
  ∃ m, readn i n s = Ok (Z.of_nat (length (piece bytes off n)), piece bytes off n) (set_umem m s) ∧
    only_page p (umem s) m ∧
    open_file (set_umem m s) i p id omode bytes (off + Z.of_nat (length (piece bytes off n))).
Proof using.
  intros Hs Hof Hom Hn Ho Hs32. pose proof (read_ok s i p id omode bytes off Hs Hof n Hom Hn Ho ltac:(lia)) as Hr.
  set (l := piece bytes off n) in *. unfold readn.
  assert (Hl : Z.of_nat (length l) ≤ n) by (unfold l, piece; rewrite length_take; lia).
  assert (Hself : set_umem (umem s) s = s) by (by destruct s).
  destruct (decide (l = [])) as [El|El].
  - rewrite El in *. exists (umem s). rewrite Hself, Z.add_0_r. split; [|split; [apply only_page_refl|done]].
    destruct (Z.to_nat n) as [|fuel] eqn:Hf; [done|]. cbn [readn_loop length]. rewrite (proj2 (Z.ltb_lt _ _)), Z.sub_0_r by lia.
    by rewrite (bind_ok _ _ _ _ _ Hr).
  - assert (Hpos : 0 < Z.of_nat (length l)) by (destruct l; [done|cbn; lia]).
    destruct (Z.to_nat n) as [|fuel] eqn:Hf; [lia|]. cbn [readn_loop length]. rewrite (proj2 (Z.ltb_lt _ _)), Z.sub_0_r by lia.
    rewrite (bind_ok _ _ _ _ _ Hr), (proj2 (Z.ltb_ge _ _)), (proj2 (Z.eqb_neq _ _)) by lia. cbn [app].
    set (x := off + Z.of_nat (length l)). pose proof (with_offset_open s i p id omode bytes off Hof x ltac:(lia)) as Hof'.
    exists (store (page2pa p + 4 * W_OFFSET) x (umem s)).
    split; [|split; [apply only_page_store; [apply Hof|done]|exact Hof']].
    assert (Hnext : piece bytes x (n - Z.of_nat (length l)) = [] ∨ Z.of_nat (length l) = n).
    { destruct (decide (Z.of_nat (length l) = n)); [by right|left]. unfold piece. rewrite drop_ge; [by rewrite take_nil|].
      unfold x, l, piece in *. rewrite length_take, length_drop in *. lia. }
    destruct fuel as [|fuel]; cbn [readn_loop]; [done|]. destruct (Z.ltb_spec (Z.of_nat (length l)) n) as [Hlt|]; [|done].
    destruct Hnext as [Hnext|]; [|lia].
    pose proof (read_ok _ i p id omode bytes x (settled_umem s _ Hs) Hof' (n - Z.of_nat (length l)) Hom ltac:(lia) ltac:(lia) ltac:(lia)) as Hr'.
    rewrite Hnext in Hr'. by rewrite (bind_ok _ _ _ _ _ Hr').
Qed.

(** * Requests to the file server *)

(** Nothing else runs on this program's memory. *)
Context (quiet : ∀ s, others s = s).

(** The request page, a page of the program's own *)
Record request_page (s : world) (pb : Z) : Prop := {
  rq_page : 0 ≤ pb < PAGE_LIMIT ∧ ∃ f, slot s fsipcbuf = Some (pb, f) ∧ has f PTE_W = true;
  rq_aligned : 0 ≤ fsipcbuf < FDTABLE ∧ fsipcbuf mod BY2PG = 0;
  rq_ready : send_res s = []
}.

(** The state between the request and the use of the reply *)
Definition exchanged (type pb : Z) (rest : list reply) (s : world) : world :=
  set_replies rest (set_requests (requests s ++ [(type, ppage (umem s) pb)]) s).

Lemma fsipc_exchange type dstva s pb m rest :
  request_page s pb → replies s = m :: rest → is_illegal_va dstva = false ∨ dstva = 0 →
  fsipc type dstva s =
    (match rp_page m with
     | Some p => modify (λ s, set_uvm (default (uvm s) (spec_insert (uvm s) (udir s) (VPN dstva) p (rp_perm m))) s)
     | None => ret tt
     end ;; ret (s32 (rp_value m), rp_perm m)) (exchanged type pb rest s).
Proof using quiet.
  intros [(_ & f & Hsl & _) _ Hready] Hrep Hva. unfold fsipc.
  assert (Es : u_ipc_send type fsipcbuf s = Ok tt (set_requests (requests s ++ [(type, ppage (umem s) pb)]) s)).
  { assert (Et : u_try_send type fsipcbuf s = Ok 0 (set_requests (requests s ++ [(type, ppage (umem s) pb)]) s)).
    { unfold u_try_send. rewrite (bind_ok (gets send_res) _ [] s s) by (unfold gets; by rewrite Hready).
      rewrite (bind_ok (ret 0) _ 0 s s) by done. cbn [negb Z.eqb].
      rewrite (bind_ok (gets _) _ (Some (pb, f)) s s) by (unfold gets; by rewrite Hsl). done. }
    unfold u_ipc_send. rewrite (bind_ok (gets send_res) _ [] s s) by (unfold gets; by rewrite Hready).
    cbn [length u_send_loop]. rewrite bind_assoc, (bind_ok _ _ _ _ _ Et). done. }
  rewrite (bind_ok _ _ _ _ _ Es). unfold u_ipc_recv.
  assert (negb (dstva =? 0) && is_illegal_va dstva = false) as ->.
  { destruct Hva as [-> | ->]; [by rewrite andb_false_r|done]. }
  set (s1 := set_requests _ s). rewrite !bind_assoc.
  rewrite (bind_ok (modify others) _ tt s1 s1) by (unfold modify; by rewrite quiet).
  rewrite !bind_assoc. rewrite (bind_ok (gets replies) _ (m :: rest) s1 s1) by (unfold gets; cbn; by rewrite Hrep).
  rewrite !bind_assoc. rewrite (bind_ok (modify (set_replies rest)) _ tt s1 _ eq_refl).
  rewrite !bind_assoc. destruct (rp_page m) as [p|]; reflexivity.
Qed.

Lemma fsipc_page type dstva s pb m rest q :
  settled np s → request_page s pb → replies s = m :: rest → is_illegal_va dstva = false →
  rp_page m = Some q → mappable np (uvm s) q → 0 ≤ rp_perm m < 1024 → (1 ≤ length (free (uvm s)))%nat →
  ∃ s', fsipc type dstva s = Ok (s32 (rp_value m), rp_perm m) s' ∧
    remapped np (exchanged type pb rest s) s' dstva q (rp_perm m) ∧ umem s' = umem s ∧
    (length (free (uvm s)) ≤ 1 + length (free (uvm s')))%nat.
Proof using quiet.
  intros [Hr Hd] Hrq Hrep Hva Hq Hm Hp Hroom.
  rewrite (fsipc_exchange type dstva s pb m rest Hrq Hrep (or_introl Hva)), Hq.
  destruct (real_insert np (uvm s) (udir s) dstva q (rp_perm m) Hr Hd (legal_va dstva Hva) Hm Hp Hroom)
    as (A' & E & Hr' & Hmaps & Hdirs & Hpins & Hl & Hpf).
  unfold bind at 1, modify. change (spec_insert _ _ _ _ _) with (spec_insert (uvm s) (udir s) (VPN dstva) q (rp_perm m)).
  rewrite E. cbn [default]. eexists. split; [reflexivity|]. split; [|split; [done|cbn; lia]].
  split; try done. split; [done|]. cbn. by rewrite Hdirs.
Qed.

Lemma fsipc_plain type s pb m rest :
  request_page s pb → replies s = m :: rest → rp_page m = None →
  fsipc type 0 s = Ok (s32 (rp_value m), rp_perm m) (exchanged type pb rest s).
Proof using quiet.
  intros Hrq Hrep Hm. rewrite (fsipc_exchange type 0 s pb m rest Hrq Hrep (or_intror eq_refl)), Hm. done.
Qed.

(** Building a request *)
Lemma put_req_ok s pb id arg : request_page s pb →
  ∃ m, put_req id arg s = Ok tt (set_umem m s) ∧ only_page pb (umem s) m ∧
    word (ppage m pb) 0 = u32 id ∧ word (ppage m pb) 1 = u32 arg.
Proof using.
  intros [(Hpb & f & Hsl & HW) [Hb0 Hal] _]. unfold put_req.
  assert (Hf : ∀ s' j x, slot s' fsipcbuf = Some (pb, f) → 0 ≤ j < 1024 →
    u_store (fsipcbuf + 4 * j) x s' = Ok tt (set_umem (store (page2pa pb + 4 * j) x (umem s')) s')).
  { intros s' j x Hs' Hj. change BY2PG with 4096 in *.
    assert (Hv : VPN (fsipcbuf + 4 * j) = VPN fsipcbuf ∧ (fsipcbuf + 4 * j) mod 4096 = 4 * j ∧ (fsipcbuf + 4 * j) mod 4 = 0).
    { rewrite !VPN_div. change BY2PG with 4096. pose proof (Z.div_mod fsipcbuf 4096 ltac:(lia)) as E. rewrite Hal in E.
      split_and!.
      - symmetry. apply (Z.div_unique _ _ _ (4 * j)); lia.
      - symmetry. apply (Z.mod_unique _ _ (fsipcbuf / 4096)); lia.
      - symmetry. apply (Z.mod_unique _ _ (1024 * (fsipcbuf / 4096) + j)); lia. }
    destruct Hv as (Hv1 & Hv2 & Hv3).
    rewrite (u_store_ok s' _ pb f) by (first [done|unfold slot in *; by rewrite Hv1|by rewrite land3]).
    change BY2PG with 4096. by rewrite Hv2. }
  pose proof (Hf s 0 id Hsl ltac:(lia)) as E1. rewrite Z.mul_0_r, !Z.add_0_r in E1. rewrite (bind_ok _ _ _ _ _ E1).
  change (fsipcbuf + 4) with (fsipcbuf + 4 * 1). rewrite (Hf (set_umem (store (page2pa pb) id (umem s)) s) 1 arg Hsl ltac:(lia)). cbn [umem set_umem].
  eexists. split; [reflexivity|]. split.
  - eapply only_page_trans; [|by apply only_page_store; [|lia]].
    rewrite <- (Z.add_0_r (page2pa pb)). by apply only_page_store; [|lia].
  - rewrite !(ppage_store _ _ _ _ pb (4 * 1)) by (done || lia). rewrite decide_True by done.
    rewrite (ppage_store _ _ _ _ pb 0), decide_True by (lia || done). unfold word.
    change (4 * 1 / 4) with 1. change (0 / 4) with 0.
    rewrite lookup_insert_ne, !lookup_insert_eq by done. done.
Qed.

(** * Opening a file *)

(** The first unused descriptor *)
Lemma fd_alloc_ok s i : settled np s → 0 ≤ i < MAXFD - 1 →
  (∀ j, 0 ≤ j < i → is_Some (slot s (INDEX2FD j))) → slot s (INDEX2FD i) = None →
  fd_alloc s = Ok (INDEX2FD i) s.
Proof using.
  intros Hs Hi Hused Hfree.
  assert (Hu : ∀ j, 0 ≤ j < MAXFD → 0 ≤ INDEX2FD j < UTOP).
  { intros j Hj. rewrite (INDEX2FD_eq j Hj). unfold MAXFD in Hj. change UTOP with 2134900736. lia. }
  assert (H1 : fd_unused i s = Ok true s).
  { unfold fd_unused, u_vpt, u_vpd. destruct (Hu i) as [_ Ht]; [unfold MAXFD in *; lia|]. rewrite Z.geb_leb, (proj2 (Z.leb_gt _ _)) by lia.
    unfold bind, gets. case_bool_decide; cbn; [|done]. rewrite bool_decide_true by done. cbn. by rewrite Hfree. }
  assert (Hno : ∀ j, 0 ≤ j < i → fd_unused j s = Ok false s).
  { intros j Hj. destruct (Hused j Hj) as [[p f] Hp]. unfold fd_unused.
    assert (Hj' : 0 ≤ j < MAXFD) by (unfold MAXFD in *; lia).
    rewrite (bind_ok _ _ _ _ _ (u_vpd_ok np s _ p f Hs (Hu j Hj') Hp)). cbn [negb].
    rewrite (bind_ok _ _ _ _ _ (u_vpt_ok np s _ p f Hs (Hu j Hj') Hp)). destruct Hs as [Hr _].
    destruct (real_map np _ _ _ p f Hr Hp) as (_ & _ & _ & HV & _). by rewrite HV. }
  assert (Hloop : ∀ n j, 0 ≤ j ≤ i → i < j + Z.of_nat n → fd_alloc_loop n j s = Ok (INDEX2FD i) s).
  { induction n as [|n IH]; intros j Hj Hn; [lia|]. cbn [fd_alloc_loop]. destruct (decide (j = i)) as [->|Hne].
    - by rewrite (bind_ok _ _ _ _ _ H1).
    - rewrite (bind_ok _ _ _ _ _ (Hno j ltac:(lia))). apply IH; lia. }
  apply Hloop; unfold MAXFD in *; lia.
Qed.

Lemma count_insert_le q p f k m : p ≠ q → count q (<[k := (p, f)]> m) ≤ count q m.
Proof using.
  intros Hne. destruct (m !! k) as [[p' f']|] eqn:Hk.
  - rewrite <- insert_delete_eq, (count_insert_new q (delete k m) k p f (lookup_delete_eq _ _)).
    rewrite (count_delete q m k p' f' Hk), (decide_False (P := p = q)) by done. case_decide; lia.
  - rewrite count_insert_new, decide_False by done. lia.
Qed.

(** A page of the server that can be sent: the server holds a reference. *)
Definition server_page (A : vm) (q : Z) : Prop :=
  0 ≤ q < np ∧ 1 ≤ pin A q ∧ count q (maps A) + pin A q < 2 ^ 16 - 1.

Lemma server_mappable A q : real np A → server_page A q → mappable np A q.
Proof using.
  intros Hr (H1 & H2 & H3). destruct (real_pinned np A q Hr H2) as [H4 H5].
  split; [exact (conj H1 (conj H4 H5))|exact H3].
Qed.

Lemma server_page_insert A A' q p f key :
  maps A' = <[key := (p, f)]> (maps A) → pins A' = pins A → p ≠ q → server_page A q → server_page A' q.
Proof using.
  intros Hm Hp Hne (H1 & H2 & H3). unfold server_page, pin in *. rewrite Hm, Hp. split; [done|]. split; [done|].
  pose proof (count_insert_le q p f key (maps A) Hne). lia.
Qed.

Definition page_reply (permd q : Z) : reply := Reply 0 (Some q) permd.

Lemma region_vpn i k s pb : 0 ≤ i < MAXFD - 1 → 0 ≤ k < 1024 → request_page s pb →
  let va := INDEX2DATA i + k * BY2PG in
  VPN va = VPN (INDEX2DATA i) + k ∧ is_illegal_va va = false ∧ VPN va ≠ VPN (INDEX2FD i) ∧ VPN fsipcbuf ≠ VPN va ∧
  VPN fsipcbuf ≠ VPN (INDEX2FD i) ∧ is_illegal_va (INDEX2FD i) = false.
Proof using.
  intros Hi Hk [_ [Hb _] _] va. assert (Hi' : 0 ≤ i < MAXFD) by (unfold MAXFD in *; lia).
  unfold va. rewrite !VPN_div. rewrite (INDEX2FD_eq i Hi'), (INDEX2DATA_eq i Hi'). unfold MAXFD in Hi.
  change FDTABLE with 0x5FC00000 in Hb. change BY2PG with 4096.
  replace (0x60000000 + i * 0x400000) with ((0x60000 + i * 0x400) * 4096) by lia. rewrite Z.div_mul by lia.
  rewrite <- Z.mul_add_distr_r, Z.div_mul by lia.
  replace (0x5FC00000 + i * 4096) with ((0x5FC00 + i) * 4096) by lia. rewrite Z.div_mul by lia.
  assert (fsipcbuf / 4096 < 0x5FC00) by (apply Z.div_lt_upper_bound; lia).
  assert (Hleg : ∀ x, 4186112 ≤ x < 2134900736 → is_illegal_va x = false).
  { intros x Hx. unfold is_illegal_va. change UTEMP with 4186112. change UTOP with 2134900736.
    rewrite (proj2 (Z.ltb_ge _ _)), Z.geb_leb, (proj2 (Z.leb_gt _ _)) by lia. done. }
  split_and!; try lia; apply Hleg; lia.
Qed.

Lemma remapped_fields s s' va p perm : remapped np s s' va p perm →
  udir s' = udir s ∧ requests s' = requests s ∧ send_res s' = send_res s ∧ replies s' = replies s ∧
  keys s' = keys s ∧ shown s' = shown s.
Proof using.
  intros Hrm. pose proof (rm_rest _ _ _ _ _ _ Hrm) as E.
  split_and!; [exact (f_equal udir E)|exact (f_equal requests E)|exact (f_equal send_res E)|
    exact (f_equal replies E)|exact (f_equal keys E)|exact (f_equal shown E)].
Qed.

Lemma request_page_kept s s' pb : request_page s pb → slot s' fsipcbuf = slot s fsipcbuf → send_res s' = send_res s →
  request_page s' pb.
Proof using. intros [(H1 & f & H2 & H3) H4 H5] E1 E2. split; rewrite ?E1, ?E2; try done. split; [done|by exists f]. Qed.

(** The result of a successful [fsipc_map] *)
Definition good_perm (perm : Z) : Prop :=
  0 ≤ perm < 1024 ∧ Z.land perm (not32 (Z.lor (Z.lor PTE_R PTE_W) PTE_LIBRARY)) = Z.lor PTE_V PTE_U.

Lemma fsipc_map_ok s pb id permd va k q rs :
  settled np s → request_page s pb → replies s = page_reply permd q :: rs → is_illegal_va va = false →
  VPN fsipcbuf ≠ VPN va → server_page (uvm s) q → q ≠ pb → good_perm permd → (1 ≤ length (free (uvm s)))%nat →
  ∃ s' c, fsipc_map id (k * BY2PG) va s = Ok 0 s' ∧ settled np s' ∧ request_page s' pb ∧
    udir s' = udir s ∧ requests s' = requests s ++ [(FSREQ_MAP, c)] ∧ word c 0 = u32 id ∧ word c 1 = u32 (k * BY2PG) ∧
    replies s' = rs ∧ only_page pb (umem s) (umem s') ∧ keys s' = keys s ∧ shown s' = shown s ∧
    maps (uvm s') = <[(udir s, VPN va) := (q, perm_flags permd)]> (maps (uvm s)) ∧ pins (uvm s') = pins (uvm s) ∧
    (length (free (uvm s)) ≤ 1 + length (free (uvm s')))%nat.
Proof using quiet.
  intros Hs Hrq Hrep Hva Hvf Hq Hqb [Hp Hperm] Hroom. unfold fsipc_map.
  destruct (put_req_ok s pb id (k * BY2PG) Hrq) as (m & E1 & Hm & Hw0 & Hw1). rewrite (bind_ok _ _ _ _ _ E1).
  set (s1 := set_umem m s).
  destruct (fsipc_page FSREQ_MAP va s1 pb (page_reply permd q) rs q Hs (request_page_kept s s1 pb Hrq eq_refl eq_refl)
    Hrep Hva eq_refl (server_mappable _ _ (proj1 Hs) Hq) Hp Hroom) as (s2 & E2 & Hrm & Hm2 & Hfree).
  rewrite (bind_ok _ _ _ _ _ E2). cbn [rp_value rp_perm page_reply]. change (s32 0) with 0. cbn [Z.ltb Z.compare].
  change (0 <? 0) with false. cbv iota. rewrite Hperm, Z.eqb_refl. cbn [negb].
  destruct (remapped_fields _ _ _ _ _ Hrm) as (F1 & F2 & F3 & F4 & F5 & F6).
  exists s2, (ppage m pb). split; [done|]. split; [apply (rm_settled _ _ _ _ _ _ Hrm)|]. split.
  - apply (request_page_kept s); [done| |exact F3].
    rewrite (slot_remapped np _ _ _ _ _ fsipcbuf Hrm), decide_False by done. done.
  - split; [exact F1|]. split; [exact F2|]. split; [exact Hw0|]. split; [exact Hw1|]. split; [exact F4|].
    split; [by rewrite Hm2|]. split; [exact F5|]. split; [exact F6|]. split; [apply (rm_maps _ _ _ _ _ _ Hrm)|].
    split; [apply (rm_pins _ _ _ _ _ _ Hrm)|exact Hfree].
Qed.

Section open.
Context (s0 : world) (pb i pf id : Z) (permf permd : Z) (c0 : page) (qs : list Z) (rest : list reply).
Context (Hi : 0 ≤ i < MAXFD - 1) (Hqs : Z.of_nat (length qs) ≤ 1024) (Hnd : NoDup (pf :: qs)) (Hpb : pb ∉ pf :: qs).

Definition opened_slot (k : nat) (va : Z) : option (Z * Z) :=
  let v := VPN va - VPN (INDEX2DATA i) in
  if VPN va =? VPN (INDEX2FD i) then Some (pf, perm_flags permf)
  else if (0 <=? v) && (v <? Z.of_nat k)
  then match qs !! Z.to_nat v with Some q => Some (q, perm_flags permd) | None => None end
  else slot s0 va.

Lemma opened_slot_fd k j : 0 ≤ j < MAXFD → j ≠ i → opened_slot k (INDEX2FD j) = slot s0 (INDEX2FD j).
Proof using Hi.
  intros Hj Hne. assert (Hi' : 0 ≤ i < MAXFD) by (unfold MAXFD in *; lia).
  unfold opened_slot. cbv zeta. rewrite !VPN_div, !INDEX2FD_eq, INDEX2DATA_eq by done. unfold MAXFD in *. change BY2PG with 4096.
  replace (0x5FC00000 + j * 4096) with ((0x5FC00 + j) * 4096) by lia.
  replace (0x5FC00000 + i * 4096) with ((0x5FC00 + i) * 4096) by lia.
  replace (0x60000000 + i * 0x400000) with ((0x60000 + i * 0x400) * 4096) by lia. rewrite !Z.div_mul by lia.
  rewrite (proj2 (Z.eqb_neq _ _)), (proj2 (Z.leb_gt _ _)) by lia. done.
Qed.

(** Pages whose contents stay: the server's, and those the program has mapped
    elsewhere *)
Definition stays (q : Z) : Prop :=
  1 ≤ pin (uvm s0) q ∨ ∃ va f, slot s0 va = Some (q, f) ∧ ∀ k, opened_slot k va = slot s0 va.

(** The state with the descriptor and the first [k] pages mapped *)
Record opening (k : nat) (s : world) : Prop := {
  op_settled : settled np s;
  op_dir : udir s = udir s0 ∧ pins (uvm s) = pins (uvm s0);
  op_request : request_page s pb;
  op_replies : replies s = map (page_reply permd) (drop k qs) ++ rest;
  op_kept : ∀ q, q ≠ pb → stays q → ppage (umem s) q = ppage (umem s0) q;
  op_slot : ∀ va, slot s va = opened_slot k va;
  op_others : ∀ d v, d ≠ udir s0 → maps (uvm s) !! (d, v) = maps (uvm s0) !! (d, v);
  op_count : ∀ q, q ∈ drop k qs → server_page (uvm s) q;
  op_room : (3 * (length qs - k) ≤ length (free (uvm s)))%nat;
  op_rest : keys s = keys s0 ∧ shown s = shown s0;
  op_grow : (∀ q, count q (maps (uvm s)) ≤ count q (maps (uvm s0)) + 2 * Z.of_nat k + 1) ∧
    (length (free (uvm s0)) ≤ 3 * k + 1 + length (free (uvm s)))%nat;
  op_asked : ∃ cs, requests s = requests s0 ++ (FSREQ_OPEN, c0) :: map (pair FSREQ_MAP) cs ∧ length cs = k ∧
    ∀ j c, cs !! j = Some c → word c 0 = u32 id ∧ word c 1 = u32 (Z.of_nat j * BY2PG)
}.

(** One page of the loop of [open] *)
Definition open_step (k : Z) : M world unit :=
  u_try (u_mem_alloc (INDEX2DATA i + k * BY2PG) PTE_W) ;;
  u_try (fsipc_map id (k * BY2PG) (INDEX2DATA i + k * BY2PG)).

Lemma opened_slot_S k q va : VPN (INDEX2DATA i) + Z.of_nat k ≠ VPN (INDEX2FD i) → qs !! k = Some q →
  opened_slot (S k) va =
    if decide (VPN va = VPN (INDEX2DATA i) + Z.of_nat k) then Some (q, perm_flags permd) else opened_slot k va.
Proof using qs.
  intros Hne Hq. unfold opened_slot. cbv zeta. set (v := VPN va - VPN (INDEX2DATA i)).
  destruct (Z.eqb_spec (VPN va) (VPN (INDEX2FD i))) as [E|E]; [by rewrite decide_False by lia|].
  case_decide as Ek.
  - assert (v = Z.of_nat k) as -> by lia. rewrite (proj2 (Z.leb_le _ _)), (proj2 (Z.ltb_lt _ _)) by lia. cbn [andb].
    by rewrite Nat2Z.id, Hq.
  - destruct (Z.leb_spec 0 v), (Z.ltb_spec v (Z.of_nat (S k))), (Z.ltb_spec v (Z.of_nat k)); try lia; done.
Qed.

Lemma open_step_ok k s : opening k s → (k < length qs)%nat → good_perm permd →
  ∃ s', open_step (Z.of_nat k) s = Ok tt s' ∧ opening (S k) s'.
Proof using quiet Hi Hqs Hnd Hpb.
  intros [Hs [Hud Hpins] Hrq Hrep Hkept Hslot Hoth Hcnt Hroom [Hkeys Hshown] [Hgrow Hleft] (cs & Hreq & Hcs & Hask)] Hk Hgp.
  set (va := INDEX2DATA i + Z.of_nat k * BY2PG).
  destruct (region_vpn i (Z.of_nat k) s pb Hi ltac:(lia) Hrq) as (Hv & Hleg & Hvfd & Hvf & _). fold va in Hv, Hleg, Hvfd, Hvf.
  destruct (lookup_lt_is_Some_2 qs k Hk) as [q Hq].
  assert (Hqd : drop k qs = q :: drop (S k) qs) by (by apply drop_S).
  assert (Hqin : q ∈ drop k qs) by (rewrite Hqd; apply list_elem_of_here).
  pose proof (Hcnt q Hqin) as Hsq.
  assert (Hqb : q ≠ pb) by (intros ->; apply Hpb, list_elem_of_further; by eapply list_elem_of_lookup_2).
  destruct (u_mem_alloc_ok np s va PTE_W Hs Hleg ltac:(done) ltac:(lia)) as (p & s1 & E1 & Hrm1 & Hp & Hm1 & Hf1).
  destruct (remapped_fields _ _ _ _ _ Hrm1) as (F1 & F2 & F3 & F4 & F5 & F6).
  assert (Hpf : p ∈ free (uvm s)) by (destruct (free (uvm s)); [done|]; injection Hp as ->; apply list_elem_of_here).
  destruct (real_free np _ p (proj1 Hs) Hpf) as (Hpr & Hpm & Hpp & _).
  pose proof (real_limit np _ (proj1 Hs)) as Hnp.
  assert (Hpq : ∀ q', server_page (uvm s) q' → p ≠ q') by (intros q' (_ & Hpin & _) <-; lia).
  assert (Hrq1 : request_page s1 pb).
  { apply (request_page_kept s); [done| |exact F3]. by rewrite (slot_remapped np _ _ _ _ _ fsipcbuf Hrm1), decide_False. }
  pose proof (server_page_insert _ _ q p _ _ (rm_maps _ _ _ _ _ _ Hrm1) (rm_pins _ _ _ _ _ _ Hrm1) (Hpq q Hsq) Hsq) as Hsq1.
  rewrite Hqd in Hrep. cbn [map app] in Hrep. rewrite <- F4 in Hrep.
  destruct (fsipc_map_ok s1 pb id permd va (Z.of_nat k) q _ (rm_settled _ _ _ _ _ _ Hrm1) Hrq1 Hrep Hleg Hvf Hsq1 Hqb Hgp
    ltac:(lia)) as (s2 & c & E2 & Hs2 & Hrq2 & G1 & G2 & Hw0 & Hw1 & G4 & Hm2 & G5 & G6 & Hmaps2 & Hpins2 & Hf2).
  exists s2. split.
  { unfold open_step, u_try. fold va. rewrite !bind_assoc. rewrite (bind_ok _ _ _ _ _ E1). cbn [negb Z.eqb].
    rewrite (bind_ok (ret tt) _ _ _ _ eq_refl). rewrite (bind_ok _ _ _ _ _ E2). done. }
  split; try done.
  - rewrite G1, F1, Hpins2, (rm_pins _ _ _ _ _ _ Hrm1). done.
  - intros q' Hne Hpin'. rewrite (Hm2 q' Hne), Hm1, (only_page_clear (umem s) p); [by apply Hkept|lia|].
    intros ->. destruct Hpin' as [Hpin'|(va' & f & Hva' & Hst)]; [unfold pin in Hpin', Hpp; rewrite Hpins in Hpp; lia|].
    apply (Hpm (udir s, VPN va') f). change (slot s va' = Some (p, f)). by rewrite Hslot, Hst.
  - intros va'. rewrite (opened_slot_S k q) by (first [done|lia]). rewrite <- Hslot.
    unfold slot. rewrite G1, F1, Hmaps2, (rm_maps _ _ _ _ _ _ Hrm1), F1, Hv.
    case_decide as E; [by rewrite E, lookup_insert_eq|]. by rewrite !lookup_insert_ne by congruence.
  - intros d v Hd. rewrite Hmaps2, (rm_maps _ _ _ _ _ _ Hrm1), F1, Hud. rewrite !lookup_insert_ne by congruence. by apply Hoth.
  - intros q' Hq'. assert (Hq'd : q' ∈ drop k qs) by (rewrite Hqd; by apply list_elem_of_further).
    assert (Hne : q ≠ q').
    { intros <-. apply NoDup_cons in Hnd as [_ Hnd']. rewrite <- (take_drop k qs), Hqd in Hnd'.
      apply NoDup_app in Hnd' as (_ & _ & Hnk). apply NoDup_cons in Hnk as [Hnin _]. by apply Hnin. }
    apply (server_page_insert (uvm s1) _ q' q (perm_flags permd) (udir s1, VPN va)); [exact Hmaps2|exact Hpins2|exact Hne|].
    apply (server_page_insert (uvm s) _ q' p _ _ (rm_maps _ _ _ _ _ _ Hrm1) (rm_pins _ _ _ _ _ _ Hrm1)); [|by apply Hcnt].
    apply Hpq. by apply Hcnt.
  - lia.
  - by rewrite G5, G6, F5, F6.
  - split; [|lia]. intros q'. specialize (Hgrow q'). rewrite Hmaps2, (rm_maps _ _ _ _ _ _ Hrm1).
    pose proof (count_insert_any q' q (perm_flags permd) (udir s1, VPN va) (<[(udir s, VPN va):=(p, perm_flags (user_perm PTE_W))]> (maps (uvm s)))).
    pose proof (count_insert_any q' p (perm_flags (user_perm PTE_W)) (udir s, VPN va) (maps (uvm s))). lia.
  - exists (cs ++ [c]). rewrite G2, F2, Hreq. rewrite map_app. cbn [map]. split; [by rewrite <- app_assoc|].
    split; [rewrite length_app; cbn; lia|]. intros j c' Hc'. apply lookup_app_Some in Hc' as [Hc'|[Hj Hc']]; [by apply Hask|].
    apply list_lookup_singleton_Some in Hc' as [Hj' <-]. assert (j = k) as -> by lia. done.
Qed.

Lemma open_loop_ok n k s : opening k s → (k + n = length qs)%nat → good_perm permd →
  ∃ s', for_each (map (λ j, j * BY2PG) (seqZ (Z.of_nat k) (Z.of_nat n))) (λ x,
      u_try (u_mem_alloc (INDEX2DATA i + x) PTE_W) ;; u_try (fsipc_map id x (INDEX2DATA i + x))) s = Ok tt s' ∧
    opening (length qs) s'.
Proof using quiet Hi Hqs Hnd Hpb.
  revert k s. induction n as [|n IH]; intros k s Hop Hk Hgp.
  - exists s. split; [done|]. by replace (length qs) with k by lia.
  - rewrite (seqZ_cons (Z.of_nat k)) by lia. cbn [map for_each].
    destruct (open_step_ok k s Hop ltac:(lia) Hgp) as (s1 & E1 & Hop1). unfold open_step in E1.
    rewrite (bind_ok _ _ _ _ _ E1). replace (Z.succ (Z.of_nat k)) with (Z.of_nat (S k)) by lia.
    replace (Z.pred (Z.of_nat (S n))) with (Z.of_nat n) by lia. apply IH; [done|lia|done].
Qed.
End open.

(** The request of [fsipc_open] *)
Lemma put_open_ok s pb path mode : request_page s pb → path_ok path = true →
  ∃ m, (put_path path ;; u_store (fsipcbuf + MAXPATHLEN) mode) s = Ok tt (set_umem m s) ∧ only_page pb (umem s) m ∧
    (∀ k, 0 ≤ k ≤ Z.of_nat (length path) → page_byte (ppage m pb) k = u8 (nth (Z.to_nat k) (path ++ [0]) 0)) ∧
    word (ppage m pb) 256 = u32 mode.
Proof using.
  intros [(Hpb & f & Hsl & HW) [Hb0 Hal] _] Hpath. unfold path_ok in Hpath. apply Z.ltb_lt in Hpath.
  change MAXPATHLEN with 1024 in *. unfold put_path.
  assert (Hlen : Z.of_nat (length (path ++ [0])) ≤ 1024) by (rewrite length_app; cbn; lia).
  assert (E1 := u_store_bytes_ok s pb f (path ++ [0]) fsipcbuf (proj1 Hb0) ltac:(rewrite Hal; change BY2PG with 4096; lia) Hsl HW).
  rewrite Hal, Z.add_0_r in E1. rewrite (bind_ok _ _ _ _ _ E1). set (m1 := write_bytes _ _ _).
  change BY2PG with 4096 in *. pose proof (Z.div_mod fsipcbuf 4096 ltac:(lia)) as Ed. rewrite Hal in Ed.
  assert (Hv : VPN (fsipcbuf + 1024) = VPN fsipcbuf).
  { rewrite !VPN_div. change BY2PG with 4096. symmetry. apply (Z.div_unique _ _ _ 1024); lia. }
  assert (Hm : (fsipcbuf + 1024) mod 4096 = 1024) by (symmetry; apply (Z.mod_unique _ _ (fsipcbuf / 4096)); lia).
  assert (Hl : Z.land (fsipcbuf + 1024) 3 = 0).
  { rewrite land3. symmetry. apply (Z.mod_unique _ _ (1024 * (fsipcbuf / 4096) + 256)); lia. }
  assert (Hsl1 : slot (set_umem m1 s) (fsipcbuf + 1024) = Some (pb, f)).
  { change (slot s (fsipcbuf + 1024) = Some (pb, f)). unfold slot in *. by rewrite Hv. }
  rewrite (u_store_ok _ _ pb f mode Hsl1 HW Hl). change BY2PG with 4096. rewrite Hm. cbn [umem set_umem].
  eexists. split; [reflexivity|]. split; [|split].
  - eapply only_page_trans; [|by apply only_page_store].
    unfold m1. rewrite <- (Z.add_0_r (page2pa pb)). apply only_page_write; [done|lia|lia].
  - intros k Hk. rewrite <- load8_ppage by lia. rewrite load8_store, decide_False.
    + unfold m1. rewrite load8_write_bytes, decide_True by (rewrite length_app; cbn; lia). do 2 f_equal. lia.
    + destruct (page_word pb k Hpb ltac:(lia)) as [E _]. rewrite E. intros E'.
      destruct (page_word pb 1024 Hpb ltac:(lia)) as [E2 _]. rewrite E2 in E'.
      assert (0 ≤ k / 4 < 256) by (split; [apply Z.div_pos; lia|apply Z.div_lt_upper_bound; lia]).
      change (1024 / 4) with 256 in E'. rewrite (page2pa_eq pb Hpb) in E'. unfold KERNBASE in E'.
      replace (0x80200000 + pb * 4096 + 4 * 256) with ((0x20080000 + pb * 1024 + 256) * 4) in E' by lia.
      replace (0x80200000 + pb * 4096 + 4 * (k / 4)) with ((0x20080000 + pb * 1024 + k / 4) * 4) in E' by lia.
      rewrite !Z.div_mul in E' by lia. lia.
  - rewrite (ppage_store _ _ _ _ pb 1024), decide_True by done. unfold word. change (1024 / 4) with 256.
    by rewrite lookup_insert_eq.
Qed.

(** What the program has and the server will answer when [path] is opened:
    the descriptor page [pf] and the pages [qs] with the bytes of the file *)
Record openable (s : world) (i pb pf : Z) (qs : list Z) (permf permd id omode : Z) (bytes : list Z) (rest : list reply) : Prop := {
  on_settled : settled np s;
  on_request : request_page s pb;
  on_fd : 0 ≤ i < MAXFD - 1 ∧ (∀ j, 0 ≤ j < i → is_Some (slot s (INDEX2FD j))) ∧ slot s (INDEX2FD i) = None;
  on_replies : replies s = Reply 0 (Some pf) permf :: map (page_reply permd) qs ++ rest;
  on_pages : NoDup (pf :: qs) ∧ pb ∉ pf :: qs ∧ ∀ q, q ∈ pf :: qs → server_page (uvm s) q;
  on_perms : 0 ≤ permf < 1024 ∧ has permf PTE_W = true ∧ good_perm permd ∧ has (perm_flags permd) PTE_R = true;
  on_dev : word (ppage (umem s) pf) W_DEV = dev_file ∧ word (ppage (umem s) pf) W_OFFSET = 0;
  on_info : word (ppage (umem s) pf) W_FILEID = id ∧ word (ppage (umem s) pf) W_OMODE = omode;
  on_size : word (ppage (umem s) pf) W_SIZE = Z.of_nat (length bytes) ∧ Z.of_nat (length bytes) ≤ MAXFILESIZE;
  on_count : Z.of_nat (length qs) = (Z.of_nat (length bytes) + BY2PG - 1) / BY2PG;
  on_bytes : ∀ k b, bytes !! k = Some b →
    ∃ q, qs !! (k / 4096)%nat = Some q ∧ page_byte (ppage (umem s) q) (Z.of_nat k mod 4096) = b;
  on_room : (3 * length qs + 1 ≤ length (free (uvm s)))%nat
}.

Lemma count_pages (bytes qs : list Z) : Z.of_nat (length bytes) ≤ MAXFILESIZE →
  Z.of_nat (length qs) = (Z.of_nat (length bytes) + BY2PG - 1) / BY2PG → Z.of_nat (length qs) ≤ 1024.
Proof using.
  intros Hl ->. change MAXFILESIZE with 4194304 in Hl. change BY2PG with 4096.
  apply Z.lt_succ_r, Z.div_lt_upper_bound; lia.
Qed.

Lemma has_W_flags perm : has perm PTE_W = true → has (perm_flags perm) PTE_R = true ∧ has (perm_flags perm) PTE_W = true.
Proof using.
  intros HW. unfold perm_flags. rewrite HW. change PTE_W with (2 ^ 2) in *. change PTE_R with (2 ^ 1).
  rewrite !has_testbit in * by lia. rewrite !Z.lor_spec, HW, orb_true_r. done.
Qed.

(** The state after the request for the descriptor *)
Lemma open_first s i pb pf qs permf permd id omode bytes rest path mode :
  openable s i pb pf qs permf permd id omode bytes rest → path_ok path = true →
  ∃ s' c0, fsipc_open path mode (INDEX2FD i) s = Ok 0 s' ∧
    opening s pb i pf id permf permd c0 qs rest 0 s' ∧
    (∀ k, 0 ≤ k ≤ Z.of_nat (length path) → page_byte c0 k = u8 (nth (Z.to_nat k) (path ++ [0]) 0)) ∧
    word c0 256 = u32 mode.
Proof using quiet.
  intros [Hs Hrq (Hi & _ & Hfree) Hrep (Hnd & Hpb & Hsp) (Hpf & _) _ _ [_ Hsz] Hcnt _ Hroom] Hpath.
  unfold fsipc_open. rewrite Hpath. cbn [negb].
  destruct (put_open_ok s pb path mode Hrq Hpath) as (m & E1 & Hm & Hc0 & Hc1).
  rewrite <- bind_assoc, (bind_ok _ _ _ _ _ E1). set (s1 := set_umem m s).
  destruct (region_vpn i 0 s pb Hi ltac:(lia) Hrq) as (_ & _ & _ & _ & Hvf & Hleg).
  destruct (fsipc_page FSREQ_OPEN (INDEX2FD i) s1 pb _ _ pf Hs (request_page_kept s s1 pb Hrq eq_refl eq_refl) Hrep Hleg
    eq_refl (server_mappable _ _ (proj1 Hs) (Hsp pf (list_elem_of_here _ _))) Hpf) as (s2 & E2 & Hrm & Hm2 & Hf2); [cbn; lia|].
  rewrite (bind_ok _ _ _ _ _ E2). destruct (remapped_fields _ _ _ _ _ Hrm) as (F1 & F2 & F3 & F4 & F5 & F6).
  exists s2, (ppage m pb). split; [done|]. split; [|done]. split.
  - apply (rm_settled _ _ _ _ _ _ Hrm).
  - split; [exact F1|]. by rewrite (rm_pins _ _ _ _ _ _ Hrm).
  - apply (request_page_kept s); [done| |exact F3]. by rewrite (slot_remapped np _ _ _ _ _ fsipcbuf Hrm), decide_False.
  - exact F4.
  - intros q Hq _. rewrite Hm2. by apply Hm.
  - intros va. rewrite (slot_remapped np _ _ _ _ _ va Hrm). unfold opened_slot. cbv zeta.
    destruct (Z.eqb_spec (VPN va) (VPN (INDEX2FD i))) as [E|E]; [by rewrite decide_True|]. rewrite decide_False by done.
    destruct (Z.leb_spec 0 (VPN va - VPN (INDEX2DATA i))), (Z.ltb_spec (VPN va - VPN (INDEX2DATA i)) (Z.of_nat 0));
      try lia; done.
  - intros d v Hd. rewrite (rm_maps _ _ _ _ _ _ Hrm). by rewrite lookup_insert_ne by (cbn; congruence).
  - intros q Hq. apply (server_page_insert (uvm s) _ q pf _ _ (rm_maps _ _ _ _ _ _ Hrm) (rm_pins _ _ _ _ _ _ Hrm)).
    + intros <-. by apply NoDup_cons in Hnd as [].
    + apply Hsp. by apply list_elem_of_further.
  - cbn in Hf2. lia.
  - done.
  - split; [|exact Hf2]. intros q. rewrite (rm_maps _ _ _ _ _ _ Hrm).
    etransitivity; [apply count_insert_any|]. cbn [exchanged set_replies set_requests uvm]. change (uvm s1) with (uvm s). lia.
  - exists []. rewrite F2. done.
Qed.

Lemma pages_between_0 size n : Z.of_nat n = (size + BY2PG - 1) / BY2PG →
  pages_between 0 size = map (λ j, j * BY2PG) (seqZ (Z.of_nat 0) (Z.of_nat n)).
Proof using.
  intros Hn. unfold pages_between. rewrite Z.sub_0_r, <- Hn. apply map_ext. intros j. lia.
Qed.

(** The page a byte of the file is in *)
Lemma opened_data s0 s i pb pf qs permf permd id omode bytes rest c0 :
  openable s0 i pb pf qs permf permd id omode bytes rest →
  opening s0 pb i pf id permf permd c0 qs rest (length qs) s →
  ∀ k, (k < length bytes)%nat → ∃ q, qs !! (k / 4096)%nat = Some q ∧
    slot s (INDEX2DATA i + Z.of_nat k) = Some (q, perm_flags permd) ∧
    (INDEX2DATA i + Z.of_nat k) mod BY2PG = Z.of_nat k mod 4096.
Proof using.
  intros Hon Hop. pose proof (on_fd _ _ _ _ _ _ _ _ _ _ _ Hon) as (Hi & _). assert (Hi' : 0 ≤ i < MAXFD) by (unfold MAXFD in *; lia).
  destruct (on_size _ _ _ _ _ _ _ _ _ _ _ Hon) as (Hsz & Hmax).
  intros k Hk. destruct (lookup_lt_is_Some_2 bytes k Hk) as [b Hb].
  destruct (on_bytes _ _ _ _ _ _ _ _ _ _ _ Hon k b Hb) as (q & Hq & _). exists q. split; [exact Hq|].
  pose proof (lookup_lt_Some _ _ _ Hq) as Hql.
  rewrite (op_slot _ _ _ _ _ _ _ _ _ _ _ _ Hop). unfold opened_slot. cbv zeta.
  assert (Hv : VPN (INDEX2DATA i + Z.of_nat k) = VPN (INDEX2DATA i) + Z.of_nat (k / 4096) ∧
               (INDEX2DATA i + Z.of_nat k) mod BY2PG = Z.of_nat k mod 4096).
  { rewrite (INDEX2DATA_eq i Hi'), !VPN_div. change BY2PG with 4096.
    replace (0x60000000 + i * 0x400000) with ((0x60000 + i * 0x400) * 4096) by lia.
    rewrite Z.div_mul, Z.div_add_l, Nat2Z.inj_div by lia. split; [done|]. by rewrite Z.add_comm, Z.mod_add. }
  destruct Hv as [Hv Hm]. rewrite Hv. split; [|exact Hm].
  assert (Hk' : Z.of_nat (k / 4096) < 1024) by
    (pose proof (count_pages _ _ Hmax (on_count _ _ _ _ _ _ _ _ _ _ _ Hon)); lia).
  destruct (region_vpn i (Z.of_nat (k / 4096)) s0 pb Hi ltac:(lia) (on_request _ _ _ _ _ _ _ _ _ _ _ Hon)) as (E1 & _ & E2 & _).
  rewrite E1 in E2. rewrite (proj2 (Z.eqb_neq _ _) E2).
  replace (VPN (INDEX2DATA i) + Z.of_nat (k / 4096) - VPN (INDEX2DATA i)) with (Z.of_nat (k / 4096)) by lia.
  rewrite (proj2 (Z.leb_le _ _)), (proj2 (Z.ltb_lt _ _)) by lia. cbn [andb]. by rewrite Nat2Z.id, Hq.
Qed.

Lemma opened_file s0 s i pb pf qs permf permd id omode bytes rest c0 :
  openable s0 i pb pf qs permf permd id omode bytes rest →
  opening s0 pb i pf id permf permd c0 qs rest (length qs) s →
  open_file s i pf id omode bytes 0.
Proof using.
  intros Hon Hop. pose proof (on_fd _ _ _ _ _ _ _ _ _ _ _ Hon) as (Hi & _). assert (Hi' : 0 ≤ i < MAXFD) by (unfold MAXFD in *; lia).
  destruct (on_pages _ _ _ _ _ _ _ _ _ _ _ Hon) as (Hnd & Hpb & Hsp).
  destruct (on_perms _ _ _ _ _ _ _ _ _ _ _ Hon) as (Hpf & HpW & Hgp & HpR).
  destruct (on_size _ _ _ _ _ _ _ _ _ _ _ Hon) as (Hsz & Hmax).
  pose proof (real_limit np _ (proj1 (on_settled _ _ _ _ _ _ _ _ _ _ _ Hon))) as Hnp.
  assert (Hkept : ∀ q, q ∈ pf :: qs → ppage (umem s) q = ppage (umem s0) q).
  { intros q Hq. apply (op_kept _ _ _ _ _ _ _ _ _ _ _ _ Hop); [by intros ->|left; by apply Hsp]. }
  pose proof (opened_data s0 s i pb pf qs permf permd id omode bytes rest c0 Hon Hop) as Hdata.
  assert (Hw : ppage (umem s) pf = ppage (umem s0) pf) by (apply Hkept, list_elem_of_here).
  destruct (on_dev _ _ _ _ _ _ _ _ _ _ _ Hon) as [D1 D2]. destruct (on_info _ _ _ _ _ _ _ _ _ _ _ Hon) as [D3 D4].
  split; rewrite ?Hw; try done.
  - destruct (Hsp pf (list_elem_of_here _ _)) as (Hr & _). split; [lia|]. exists (perm_flags permf).
    rewrite (op_slot _ _ _ _ _ _ _ _ _ _ _ _ Hop). unfold opened_slot. rewrite Z.eqb_refl. split; [done|]. by apply has_W_flags.
  - intros k b Hb. destruct (on_bytes _ _ _ _ _ _ _ _ _ _ _ Hon k b Hb) as (q & Hq & Hbyte).
    destruct (Hdata k (lookup_lt_Some _ _ _ Hb)) as (q' & Hq' & Hsl & Hmod). rewrite Hq in Hq'. injection Hq' as <-.
    assert (Hqin : q ∈ pf :: qs) by (apply list_elem_of_further; by eapply list_elem_of_lookup_2).
    unfold mem_byte. rewrite Hsl, HpR, Hmod. destruct (Hsp q Hqin) as (Hr & _).
    rewrite load8_ppage by (try (apply Z.mod_pos_bound); lia). by rewrite (Hkept q Hqin), Hbyte.
  - intros k q g Hk Hq. destruct (Hdata k Hk) as (q' & Hq' & Hsl & _). rewrite Hsl in Hq. injection Hq as <- _.
    assert (Hqin : q' ∈ qs) by by eapply list_elem_of_lookup_2.
    destruct (Hsp q' (list_elem_of_further _ _ _ Hqin)) as (Hr & _). split; [|lia].
    intros ->. by apply NoDup_cons in Hnd as [].
Qed.

Lemma open_ok s i pb pf qs permf permd id omode bytes rest path mode :
  openable s i pb pf qs permf permd id omode bytes rest → path_ok path = true →
  ∃ s' c0, open path mode s = Ok i s' ∧ open_file s' i pf id omode bytes 0 ∧
    opening s pb i pf id permf permd c0 qs rest (length qs) s' ∧
    (∀ k, 0 ≤ k ≤ Z.of_nat (length path) → page_byte c0 k = u8 (nth (Z.to_nat k) (path ++ [0]) 0)) ∧
    word c0 256 = u32 mode.
Proof using quiet.
  intros Hon Hpath. pose proof (on_fd _ _ _ _ _ _ _ _ _ _ _ Hon) as (Hi & Hused & Hfree).
  assert (Hi' : 0 ≤ i < MAXFD) by (unfold MAXFD in *; lia).
  destruct (open_first s i pb pf qs permf permd id omode bytes rest path mode Hon Hpath) as (s1 & c0 & E1 & Hop & Hc0 & Hc1).
  unfold open. rewrite (bind_ok _ _ _ _ _ (fd_alloc_ok s i (on_settled _ _ _ _ _ _ _ _ _ _ _ Hon) Hi Hused Hfree)).
  assert (Et : u_try (fsipc_open path mode (INDEX2FD i)) s = Ok tt s1) by (unfold u_try; by rewrite (bind_ok _ _ _ _ _ E1)).
  rewrite (bind_ok _ _ _ _ _ Et), (fd2data_INDEX i Hi'). cbv zeta.
  destruct (on_pages _ _ _ _ _ _ _ _ _ _ _ Hon) as (Hnd & Hpb & Hsp).
  destruct (on_perms _ _ _ _ _ _ _ _ _ _ _ Hon) as (Hpf & HpW & Hgp & HpR).
  destruct (on_size _ _ _ _ _ _ _ _ _ _ _ Hon) as (Hsz & Hmax).
  pose proof (real_limit np _ (proj1 (on_settled _ _ _ _ _ _ _ _ _ _ _ Hon))) as Hnp.
  destruct (Hsp pf (list_elem_of_here _ _)) as (Hr & Hpin & _).
  assert (Hld : ∀ j, 0 ≤ j < 1024 → u_load (INDEX2FD i + 4 * j) s1 = Ok (word (ppage (umem s) pf) j) s1).
  { intros j Hj. destruct (fd_field i Hi' j Hj) as (Hv & Hm & Hl).
    assert (Hsl : slot s1 (INDEX2FD i + 4 * j) = Some (pf, perm_flags permf)).
    { rewrite (op_slot _ _ _ _ _ _ _ _ _ _ _ _ Hop). unfold opened_slot. by rewrite Hv, Z.eqb_refl. }
    rewrite (u_load_ok s1 _ pf _ Hsl (proj1 (has_W_flags permf HpW)) Hl), Hm, load_word by lia.
    change (pg (umem s1) (pf + PPN0)) with (ppage (umem s1) pf).
    rewrite (op_kept _ _ _ _ _ _ _ _ _ _ _ _ Hop pf); [done|intros ->; apply Hpb, list_elem_of_here|left; exact Hpin]. }
  assert (L1 : u_load (fsize_at (INDEX2FD i)) s1 = Ok (Z.of_nat (length bytes)) s1).
  { rewrite <- Hsz. unfold fsize_at. replace (INDEX2FD i + 16 + 128) with (INDEX2FD i + 4 * W_SIZE) by (unfold W_SIZE; lia). by apply Hld. }
  assert (L2 : u_load (fileid_at (INDEX2FD i)) s1 = Ok id s1).
  { rewrite <- (proj1 (on_info _ _ _ _ _ _ _ _ _ _ _ Hon)). by apply (Hld W_FILEID). }
  rewrite (bind_ok _ _ _ _ _ L1), (bind_ok _ _ _ _ _ L2).
  rewrite (pages_between_0 _ _ (on_count _ _ _ _ _ _ _ _ _ _ _ Hon)).
  destruct (open_loop_ok s pb i pf id permf permd c0 qs rest Hi (count_pages _ _ Hmax (on_count _ _ _ _ _ _ _ _ _ _ _ Hon))
    Hnd Hpb (length qs) O s1 Hop eq_refl Hgp) as (s2 & E2 & Hop2).
  rewrite (bind_ok _ _ _ _ _ E2), (fd2num_INDEX i Hi'). exists s2, c0. split; [done|].
  split; [by apply (opened_file s s2 i pb pf qs permf permd id omode bytes rest c0)|]. done.
Qed.

(** * Closing a file *)

(** Only the request page and the exchange of messages have changed. *)
Record asked (pb : Z) (s s' : world) (codes : list Z) (rs : list reply) : Prop := {
  as_request : request_page s' pb;
  as_vm : uvm s' = uvm s ∧ udir s' = udir s;
  as_mem : only_page pb (umem s) (umem s');
  as_codes : ∃ cs, requests s' = requests s ++ cs ∧ map fst cs = codes;
  as_replies : replies s' = rs;
  as_rest : keys s' = keys s ∧ shown s' = shown s
}.

Lemma asked_refl pb s rs : request_page s pb → replies s = rs → asked pb s s [] rs.
Proof using. intros Hrq Hr. split; try done. exists []. by rewrite app_nil_r. Qed.

Lemma asked_trans pb s1 s2 s3 l1 l2 r1 r2 : asked pb s1 s2 l1 r1 → asked pb s2 s3 l2 r2 → asked pb s1 s3 (l1 ++ l2) r2.
Proof using.
  intros [_ [A2 A2'] A3 (cs1 & A4 & A4') _ [A6 A6']] [B1 [B2 B2'] B3 (cs2 & B4 & B4') B5 [B6 B6']].
  split; try congruence; [split; congruence|by eapply only_page_trans| |split; congruence].
  exists (cs1 ++ cs2). rewrite B4, A4, map_app, A4', B4'. by rewrite app_assoc.
Qed.

Lemma asked_plain pb s m type r rs : request_page s pb → replies s = r :: rs → rp_page r = None →
  only_page pb (umem s) m →
  ∃ s', fsipc type 0 (set_umem m s) = Ok (s32 (rp_value r), rp_perm r) s' ∧ asked pb s s' [type] rs.
Proof using quiet.
  intros Hrq Hrep Hr Hm.
  rewrite (fsipc_plain type (set_umem m s) pb r rs (request_page_kept s (set_umem m s) pb Hrq eq_refl eq_refl) Hrep Hr).
  eexists. split; [reflexivity|]. split; try done.
  - exact (request_page_kept s (exchanged type pb rs (set_umem m s)) pb Hrq eq_refl eq_refl).
  - by exists [(type, ppage m pb)].
Qed.

Lemma fsipc_dirty_ok pb s id x r rs : request_page s pb → replies s = r :: rs → rp_page r = None →
  ∃ s', fsipc_dirty id x s = Ok (s32 (rp_value r)) s' ∧ asked pb s s' [FSREQ_DIRTY] rs.
Proof using quiet.
  intros Hrq Hrep Hr. unfold fsipc_dirty. destruct (put_req_ok s pb id x Hrq) as (m & E1 & Hm & _).
  rewrite (bind_ok _ _ _ _ _ E1). destruct (asked_plain pb s m FSREQ_DIRTY r rs Hrq Hrep Hr Hm) as (s' & E2 & Ha).
  rewrite (bind_ok _ _ _ _ _ E2). by exists s'.
Qed.

Lemma fsipc_close_ok pb s id r rs : request_page s pb → replies s = r :: rs → rp_page r = None →
  ∃ s', fsipc_close id s = Ok (s32 (rp_value r)) s' ∧ asked pb s s' [FSREQ_CLOSE] rs.
Proof using quiet.
  intros Hrq Hrep Hr. unfold fsipc_close. pose proof Hrq as [(Hpb & f & Hsl & HW) [Hb0 Hal] _].
  rewrite (bind_ok _ _ _ _ _ (u_store_ok s _ pb f id Hsl HW ltac:(rewrite land3; symmetry;
    apply (Z.mod_unique _ _ (1024 * (fsipcbuf / 4096)));
    [lia|pose proof (Z.div_mod fsipcbuf 4096 ltac:(lia)) as Ed; change BY2PG with 4096 in Hal; rewrite Hal in Ed; lia]))).
  destruct (asked_plain pb s (store (page2pa pb + fsipcbuf mod BY2PG) id (umem s)) FSREQ_CLOSE r rs Hrq Hrep Hr) as (s' & E2 & Ha).
  { apply only_page_store; [done|by rewrite Hal]. }
  rewrite (bind_ok _ _ _ _ _ E2). by exists s'.
Qed.

Lemma dirty_loop_ok pb id offs : ∀ s ds rs,
  request_page s pb → replies s = ds ++ rs → length ds = length offs → Forall (λ r, rp_page r = None) ds →
  ∃ s', for_each offs (λ x, _ <- fsipc_dirty id x ;; ret tt) s = Ok tt s' ∧
    asked pb s s' (map (λ _, FSREQ_DIRTY) offs) rs.
Proof using quiet.
  induction offs as [|x offs IH]; intros s ds rs Hrq Hrep Hl Hds.
  - destruct ds; [|done]. exists s. split; [done|]. by apply asked_refl.
  - destruct ds as [|r ds]; [done|]. apply Forall_cons in Hds as [Hr Hds]. cbn [for_each].
    destruct (fsipc_dirty_ok pb s id x r (ds ++ rs) Hrq Hrep Hr) as (s1 & E1 & Ha1).
    rewrite !bind_assoc, (bind_ok _ _ _ _ _ E1), (bind_ok (ret tt) _ _ _ _ eq_refl).
    destruct (IH s1 ds rs (as_request _ _ _ _ _ Ha1) (as_replies _ _ _ _ _ Ha1) ltac:(cbn in Hl; lia) Hds) as (s2 & E2 & Ha2).
    exists s2. split; [exact E2|]. apply (asked_trans pb s s1 s2 [FSREQ_DIRTY] _ _ _ Ha1 Ha2).
Qed.

(** Unmapped pages of the program *)
Record unmapped (s s' : world) (vs : list Z) : Prop := {
  um_settled : settled np s';
  um_maps : ∀ d v, maps (uvm s') !! (d, v) =
    if decide (d = udir s ∧ v ∈ vs) then None else maps (uvm s) !! (d, v);
  um_same : dirs (uvm s') = dirs (uvm s) ∧ pins (uvm s') = pins (uvm s);
  um_rest : set_uvm (uvm s) s' = s;
  um_free : (length (free (uvm s)) ≤ length (free (uvm s')))%nat
}.

Lemma unmap_one s va : settled np s → is_illegal_va va = false →
  ∃ s', u_mem_unmap va s = Ok 0 s' ∧ unmapped s s' [VPN va].
Proof using.
  intros Hs Hva. destruct (u_mem_unmap_ok np s va Hs Hva) as (s' & E & H1 & H2 & H3 & H4 & H5 & H6 & H7).
  exists s'. split; [exact E|]. split; try done. intros d v. rewrite H2. case_decide as Ed.
  - destruct Ed as [Ed1 Ed2%list_elem_of_singleton]. rewrite Ed1, Ed2. apply lookup_delete_eq.
  - apply lookup_delete_ne. intros Ek. injection Ek as <- <-. apply Ed. split; [done|]. apply list_elem_of_here.
Qed.

Lemma unmapped_dir s s' vs : unmapped s s' vs → udir s' = udir s.
Proof using. intros Hu. exact (f_equal udir (um_rest _ _ _ Hu)). Qed.

Lemma unmapped_trans s1 s2 s3 l1 l2 : unmapped s1 s2 l1 → unmapped s2 s3 l2 → unmapped s1 s3 (l1 ++ l2).
Proof using.
  intros HA HB. pose proof (unmapped_dir _ _ _ HA) as Hd.
  destruct HA as [_ A2 [A3 A3'] A4 A5], HB as [B1 B2 [B3 B3'] B4 B5]. split; [done| | | |lia].
  - intros d v. rewrite B2, A2, Hd. repeat case_decide; try done; rewrite elem_of_app in *; naive_solver.
  - split; congruence.
  - rewrite <- A4 at 2. rewrite <- B4. by destruct s1, s2, s3.
Qed.

Lemma unmap_loop_ok va offs : ∀ s, settled np s → (∀ x, x ∈ offs → is_illegal_va (va + x) = false) →
  ∃ s', for_each offs (λ x, u_neg (u_mem_unmap (va + x))) s = Ok tt s' ∧ unmapped s s' (map (λ x, VPN (va + x)) offs).
Proof using.
  induction offs as [|x offs IH]; intros s Hs Hva.
  - exists s. split; [done|]. split; try done; [|by destruct s]. intros d v. rewrite decide_False; [done|]. intros [_ H1].
    by apply elem_of_nil in H1.
  - cbn [for_each]. destruct (unmap_one s (va + x) Hs (Hva x (list_elem_of_here _ _))) as (s1 & E1 & Hu1).
    assert (En : u_neg (u_mem_unmap (va + x)) s = Ok tt s1) by (unfold u_neg; by rewrite (bind_ok _ _ _ _ _ E1)).
    rewrite (bind_ok _ _ _ _ _ En). destruct (IH s1 (um_settled _ _ _ Hu1)) as (s2 & E2 & Hu2).
    { intros y Hy. apply Hva. by apply list_elem_of_further. }
    exists s2. split; [exact E2|]. exact (unmapped_trans _ _ _ [_] _ Hu1 Hu2).
Qed.

Lemma close_ok s i p id omode bytes off pb n ds v x rs :
  settled np s → open_file s i p id omode bytes off → request_page s pb →
  Z.of_nat n = (Z.of_nat (length bytes) + BY2PG - 1) / BY2PG →
  replies s = ds ++ Reply v None x :: rs → length ds = n → Forall (λ r, rp_page r = None) ds → 0 ≤ s32 v →
  i < MAXFD - 1 →
  ∃ s1 s', close i s = Ok 0 s' ∧
    asked pb s s1 (repeat FSREQ_DIRTY n ++ [FSREQ_CLOSE]) rs ∧
    unmapped s1 s' (map (λ k, VPN (INDEX2DATA i + k * BY2PG)) (seqZ 0 (Z.of_nat n)) ++ [VPN (INDEX2FD i)]).
Proof using quiet.
  intros Hs Hof Hrq Hn Hrep Hds Hnone Hv Hi31. pose proof (of_num _ _ _ _ _ _ _ Hof) as Hi.
  pose proof (of_len _ _ _ _ _ _ _ Hof) as Hlen.
  assert (Hn' : Z.of_nat n ≤ 1024).
  { rewrite Hn. change MAXFILESIZE with 4194304 in Hlen. change BY2PG with 4096. apply Z.lt_succ_r, Z.div_lt_upper_bound; lia. }
  pose proof (pages_between_0 (Z.of_nat (length bytes)) n Hn) as Hpb.
  unfold close. rewrite (bind_ok _ _ _ _ _ (fd_dev_ok s i p id omode bytes off Hs Hof)).
  change (dev_close devfile) with file_close.
  destruct (dirty_loop_ok pb id (pages_between 0 (Z.of_nat (length bytes))) s ds _ Hrq Hrep) as (s1 & E1 & Ha1);
    [rewrite Hpb, length_map, length_seqZ; lia|done|].
  destruct (fsipc_close_ok pb s1 id _ rs (as_request _ _ _ _ _ Ha1) (as_replies _ _ _ _ _ Ha1) eq_refl) as (s2 & E2 & Ha2).
  destruct (as_vm _ _ _ _ _ Ha1) as [V1 D1]. destruct (as_vm _ _ _ _ _ Ha2) as [V2 D2].
  assert (Hs2 : settled np s2) by (unfold settled; by rewrite V2, V1, D2, D1).
  destruct (unmap_loop_ok (INDEX2DATA i) (pages_between 0 (Z.of_nat (length bytes))) s2 Hs2) as (s3 & E3 & Hu3).
  { rewrite Hpb. intros y Hy. apply list_elem_of_In, in_map_iff in Hy as (k & <- & Hk%list_elem_of_In%elem_of_seqZ).
    destruct (region_vpn i k s pb ltac:(unfold MAXFD in *; lia) ltac:(lia) Hrq) as (_ & Hl & _). exact Hl. }
  destruct (unmap_one s3 (INDEX2FD i) (um_settled _ _ _ Hu3)) as (s4 & E4 & Hu4).
  { destruct (region_vpn i 0 s pb ltac:(unfold MAXFD in *; lia) ltac:(lia) Hrq) as (_ & _ & _ & _ & _ & Hl). exact Hl. }
  exists s2, s4. split; [|split].
  - assert (Ef : value (file_close (INDEX2FD i)) s = Ok 0 s3).
    { unfold value, file_close.
      rewrite (bind_ok _ _ _ _ _ (load_fileid s i p id omode bytes off Hof)),
        (bind_ok _ _ _ _ _ (load_fsize s i p id omode bytes off Hof)), (fd2data_INDEX i Hi).
      cbv zeta. rewrite (bind_ok _ _ _ _ _ E1).
      assert (En : u_neg (fsipc_close id) s1 = Ok tt s2).
      { unfold u_neg. rewrite (bind_ok _ _ _ _ _ E2). cbn [rp_value]. by rewrite (proj2 (Z.ltb_ge _ _)) by lia. }
      by rewrite (bind_ok _ _ _ _ _ En), (bind_ok _ _ _ _ _ E3). }
    rewrite (bind_ok _ _ _ _ _ Ef). unfold fd_close. rewrite bind_assoc, (bind_ok _ _ _ _ _ E4). done.
  - assert (Hc : map (λ _, FSREQ_DIRTY) (pages_between 0 (Z.of_nat (length bytes))) = repeat FSREQ_DIRTY n).
    { rewrite Hpb, map_map. by rewrite map_const, length_seqZ, Nat2Z.id. }
    rewrite <- Hc. exact (asked_trans pb s s1 s2 _ _ _ _ Ha1 Ha2).
  - rewrite Hpb, map_map in Hu3. exact (unmapped_trans _ _ _ _ _ Hu3 Hu4).
Qed.
End file.

(** * Reading a file *)

(** C29. Opening a file, seeking and reading gives the bytes of the file: the
    library asks the server to open the path, then for page after page of the
    size in the descriptor, maps each page the server sends behind the one
    before it, and [readn] returns the bytes from the offset up to the count
    or the end of the file.  The descriptor is the first unused one, no other
    address space changes, and every message of the server is used once. *)
Theorem open_then_read `{Neighbours, FileSymbols} np s i pb pf qs permf permd id omode bytes rest path mode o n :
  (∀ s, others s = s) → openable np s i pb pf qs permf permd id omode bytes rest →
  path_ok path = true → Z.land omode O_ACCMODE ≠ O_WRONLY → 0 ≤ n → 0 ≤ o → o + 2 * n < 2 ^ 32 →
  ∃ s' c0 cs, (fd <- open path mode ;; _ <- seek fd o ;; '(r, l) <- readn fd n ;; ret (fd, r, l)) s =
      Ok (i, Z.of_nat (length (piece bytes o n)), piece bytes o n) s' ∧
    requests s' = requests s ++ (FSREQ_OPEN, c0) :: map (pair FSREQ_MAP) cs ∧
    (∀ k, 0 ≤ k ≤ Z.of_nat (length path) → page_byte c0 k = u8 (nth (Z.to_nat k) (path ++ [0]) 0)) ∧
    word c0 256 = u32 mode ∧ length cs = length qs ∧
    (∀ j c, cs !! j = Some c → word c 0 = u32 id ∧ word c 1 = u32 (Z.of_nat j * BY2PG)) ∧
    replies s' = rest ∧ (∀ d v, d ≠ udir s → maps (uvm s') !! (d, v) = maps (uvm s) !! (d, v)) ∧
    open_file s' i pf id omode bytes (o + Z.of_nat (length (piece bytes o n))).
Proof.
  intros Hq Hon Hpath Hom Hn Ho Hs32.
  destruct (open_ok np Hq s i pb pf qs permf permd id omode bytes rest path mode Hon Hpath) as (s1 & c0 & E1 & Hof & Hop & Hc0 & Hc1).
  pose proof (op_settled _ _ _ _ _ _ _ _ _ _ _ _ _ Hop) as Hs1.
  rewrite (bind_ok _ _ _ _ _ E1). rewrite (bind_ok _ _ _ _ _ (seek_ok np s1 i pf id omode bytes 0 Hs1 Hof o)).
  pose proof (with_offset_open s1 i pf id omode bytes 0 Hof o ltac:(lia)) as Hof2.
  destruct (readn_ok np (with_offset s1 pf o) i pf id omode bytes o n Hs1 Hof2 Hom Hn Ho Hs32) as (m & E2 & _ & Hof3).
  rewrite (bind_ok _ _ _ _ _ E2). eexists. destruct (op_asked _ _ _ _ _ _ _ _ _ _ _ _ _ Hop) as (cs & Hr & Hlc & Hcs).
  exists c0, cs. split; [reflexivity|]. split; [exact Hr|]. split; [exact Hc0|]. split; [exact Hc1|]. split; [exact Hlc|].
  split; [exact Hcs|]. split; [|split; [exact (op_others _ _ _ _ _ _ _ _ _ _ _ _ _ Hop)|exact Hof3]].
  pose proof (op_replies _ _ _ _ _ _ _ _ _ _ _ _ _ Hop) as Hrp. rewrite drop_all in Hrp. exact Hrp.
Qed.

(** A machine of 24 pages whose first four the kernel holds: the program has
    directory 23 and its request page at 0x402000; the server sends page 1 as
    the descriptor and page 2 with the bytes of the file. *)
#[local] Instance w_file_symbols : FileSymbols := 0x402000.
#[local] Instance w_alone : Neighbours := { others := λ s, s; patience := O }.
Definition w_boot24 : pmap := MkPmap PMEMSIZE 24 (KERNBASE + 13000) KERNBASE ∅ (LIST.Mk None ∅) 0 ∅ [] 0.
Definition w_booted24 : pmap := match page_init w_boot24 with Ok _ s => s | _ => w_boot24 end.
Definition w_vm24 : vm := spec_new_dir (boot_vm w_booted24 (reverse (seqZ 4 20))) 23 (reverse (seqZ 4 19)).
Definition w_user_vm : vm :=
  default w_vm24 (spec_insert (set_vfree (reverse (seqZ 4 18)) w_vm24) 23 (VPN 0x402000) 22 23).
Definition w_hello : list Z := [104; 101; 108; 108; 111].
Definition w_file_mem : memory :=
  {[ 1 + PPN0 := {[ 0 := 102; 3 := 7; 36 := 5 ]}; 2 + PPN0 := {[ 0 := 0x6c6c6568; 1 := 0x6f ]} ]}.
Definition w_file_world : world :=
  MkWorld w_user_vm w_file_mem 23 [] [] [Reply 0 (Some 1) 23; Reply 0 (Some 2) 23] [] [].

Lemma w_vm24_real : real 24 w_vm24.
Proof.
  destruct (page_init_ok w_boot24 4 ltac:(done) ltac:(done) eq_refl eq_refl) as (s' & E & Hn & _ & _ & Hrel).
  assert (Eb : page_init w_boot24 = Ok tt w_booted24) by (vm_compute; reflexivity).
  rewrite Eb in E.
  assert (Es : w_booted24 = s') by exact (f_equal (λ o, match o with Ok _ s => s | _ => s' end) E). clear E Eb.
  destruct Es.
  destruct (new_dir_ok w_booted24 _ 23 (reverse (seqZ 4 19)) Hrel eq_refl) as (s1 & _ & Hrel1 & Hn1 & _).
  exists s1. split; [exact Hrel1|]. by rewrite Hn1, Hn.
Qed.

Lemma w_user_real : real 24 w_user_vm.
Proof.
  destruct (real_alloc 24 w_vm24 22 (reverse (seqZ 4 18)) w_vm24_real eq_refl) as [Hr Hm].
  destruct (real_insert 24 _ 23 0x402000 22 23 Hr) as (A & E & Hr' & _).
  - vm_compute. reflexivity.
  - done.
  - exact Hm.
  - done.
  - vm_compute. lia.
  - unfold w_user_vm. rewrite E. exact Hr'.
Qed.

Lemma w_openable : openable 24 w_file_world 0 22 1 [2] 23 23 7 0 w_hello [].
Proof.
  split.
  - split; [exact w_user_real|vm_compute; reflexivity].
  - split; [|vm_compute; intuition discriminate|done]. split; [done|]. exists 23. vm_compute. auto.
  - split; [done|]. split; [intros j Hj; lia|vm_compute; reflexivity].
  - reflexivity.
  - split; [|split].
    + apply (bool_decide_unpack _). vm_compute. exact I.
    + apply (bool_decide_unpack _). vm_compute. exact I.
    + intros q Hq. apply elem_of_cons in Hq as [Hq|Hq%list_elem_of_singleton]; rewrite Hq; vm_compute; intuition discriminate.
  - split; [done|]. split; [done|]. split; [split; [done|vm_compute; reflexivity]|done].
  - split; vm_compute; reflexivity.
  - split; vm_compute; reflexivity.
  - split; vm_compute; [reflexivity|discriminate].
  - vm_compute. reflexivity.
  - intros k b Hb. pose proof (lookup_lt_Some _ _ _ Hb) as Hk. change (length w_hello) with 5%nat in Hk.
    exists 2. do 5 (destruct k as [|k]; [injection Hb as <-; split; vm_compute; reflexivity|]). lia.
  - vm_compute. lia.
Qed.

Lemma open_then_read_witness :
  ∃ s', (fd <- open [47; 97] O_RDONLY ;; _ <- seek fd 1 ;; '(r, l) <- readn fd 9 ;; ret (fd, r, l)) w_file_world =
    Ok (0, 4, [101; 108; 108; 111]) s' ∧ replies s' = [].
Proof.
  destruct (open_then_read 24 w_file_world 0 22 1 [2] 23 23 7 0 w_hello [] [47; 97] O_RDONLY 1 9)
    as (s' & c0 & cs & E & _ & _ & _ & _ & _ & Hr & _).
  - done.
  - exact w_openable.
  - reflexivity.
  - done.
  - lia.
  - lia.
  - lia.
  - exists s'. split; [exact E|exact Hr].
Defined.
