(* ===== verification/SpawnProps.v ===== *)
(** [init_stack]: what a new program finds on its stack. *)
From S2P Require Import Prelude Mmu Queue Memory Pmap PmapSpec VmSteps BootProofs Disk Env EnvProps Sched SchedProps.
From S2P Require Import Tlbex Syscall StringsProps QueueProps PmapProps SyscallProps TlbProps Elf ElfProps LoadProps.
From S2P Require Import Ulib UlibProps WorldProps Fd File Dev FileProps Spawn.

(** * The program under its family *)

Lemma onw_ok {A} (m : M world A) s a w : m (prog s) = Ok a w → onw m s = Ok a (set_prog w s).
Proof. apply (lift_ok (H := sub_prog)). Qed.

Lemma set_prog_id s : set_prog (prog s) s = s.
Proof. by destruct s. Qed.

Lemma set_udir_id w : set_udir (udir w) w = w.
Proof. by destruct w. Qed.

(** * The page at UTEMP *)

Section temp.
Context `{Neighbours} (w : world) (p f : Z).
Context (Hsl : slot w UTEMP = Some (p, f)) (HW : has f PTE_W = true) (Hp : 0 ≤ p < PAGE_LIMIT).

Lemma temp_addr x : 0 ≤ x < 4096 → VPN (UTEMP + x) = VPN UTEMP ∧ (UTEMP + x) mod BY2PG = x.
Proof using.
  intros Hx. rewrite !VPN_div. change UTEMP with (1022 * 4096). change BY2PG with 4096.
  split; [by rewrite Z.div_add_l, Z.div_mul, (Z.div_small x), Z.add_0_r by lia|].
  rewrite Z.add_comm, Z.mod_add, Z.mod_small by lia. done.
Qed.

Lemma temp_store x v : 0 ≤ x < 4096 → x mod 4 = 0 →
  u_store (UTEMP + x) v w = Ok tt (set_umem (store (page2pa p + x) v (umem w)) w).
Proof using Hsl HW.
  intros Hx Hm. destruct (temp_addr x Hx) as [Hv Hmod].
  rewrite (u_store_ok w (UTEMP + x) p f v); [by rewrite Hmod| |done|].
  - unfold slot in *. by rewrite Hv.
  - rewrite land3. change UTEMP with (1046528 * 4). by rewrite Z.add_comm, Z.mod_add by lia.
Qed.

Lemma temp_store_bytes x l : 0 ≤ x < 4096 → x + Z.of_nat (length l) ≤ 4096 →
  u_store_bytes (UTEMP + x) l w = Ok tt (set_umem (write_bytes (page2pa p + x) l (umem w)) w).
Proof using Hsl HW.
  intros Hx Hl. destruct (temp_addr x Hx) as [Hv Hmod].
  rewrite (u_store_bytes_ok w p f l (UTEMP + x)); [by rewrite Hmod|change UTEMP with 4186112; lia| | |done].
  - rewrite Hmod. exact Hl.
  - unfold slot in *. by rewrite Hv.
Qed.
End temp.

(** * Strings and arguments *)

(** The strings with their terminators *)
Definition flat (argv : list (list Z)) : list Z := concat (map (λ a, a ++ [0]) argv).
(** Where string [i] starts in it *)
Definition offset_of (argv : list (list Z)) (i : nat) : Z := strings_size (take i argv).

Lemma strings_size_flat argv : strings_size argv = Z.of_nat (length (flat argv)).
Proof.
  unfold flat. induction argv as [|a argv IH]; [done|]. cbn [strings_size foldr map concat].
  fold (strings_size argv). rewrite IH, !length_app. cbn [length]. lia.
Qed.

Lemma u_store_bytes_app `{Neighbours} l1 l2 va s :
  u_store_bytes va (l1 ++ l2) s = (u_store_bytes va l1 ;; u_store_bytes (va + Z.of_nat (length l1)) l2) s.
Proof.
  revert va s. induction l1 as [|b l1 IH]; intros va s; cbn [app u_store_bytes]; rewrite ?length_cons.
  - change (length (@nil Z)) with O. rewrite (bind_ok (ret tt) _ _ _ _ eq_refl). by rewrite Z.add_0_r.
  - unfold bind. destruct (u_store8 va b s) as [[] s'| | | |]; try done. rewrite IH. unfold bind.
    by replace (va + 1 + Z.of_nat (length l1)) with (va + Z.of_nat (Datatypes.S (length l1))) by lia.
Qed.

Lemma put_strings_flat `{Neighbours} argv : ∀ va s, put_strings va argv s = u_store_bytes va (flat argv) s.
Proof.
  induction argv as [|a argv IH]; intros va s; [done|]. cbn [put_strings]. unfold flat in *. cbn [map concat].
  rewrite u_store_bytes_app. unfold bind. destruct (u_store_bytes va (a ++ [0]) s); try done. rewrite IH.
  rewrite length_app. cbn [length]. by replace (va + Z.of_nat (length a) + 1) with (va + Z.of_nat (length a + 1)) by lia.
Qed.

(** The words of [args] *)
Lemma put_args_ok `{Neighbours} p f argv : ∀ w x ctemp,
  slot w UTEMP = Some (p, f) → has f PTE_W = true → 0 ≤ p < PAGE_LIMIT →
  0 ≤ x → x mod 4 = 0 → x + 4 * Z.of_nat (length argv) ≤ 4096 →
  ∃ m, put_args (UTEMP + x) ctemp argv w = Ok (ctemp + strings_size argv) (set_umem m w) ∧ only_page p (umem w) m ∧
    ∀ j, word (ppage m p) j = if decide (x / 4 ≤ j < x / 4 + Z.of_nat (length argv))
      then u32 (ctemp + offset_of argv (Z.to_nat (j - x / 4))) else word (ppage (umem w) p) j.
Proof.
  induction argv as [|a argv IH]; intros w x ctemp Hsl HW Hp Hx Hm Hl.
  - exists (umem w). cbn [put_args strings_size foldr]. rewrite Z.add_0_r. split; [by destruct w|].
    split; [apply only_page_refl|]. intros j. rewrite decide_False; [done|]. change (length (@nil (list Z))) with O. lia.
  - rewrite length_cons in *. cbn [put_args]. rewrite (bind_ok _ _ _ _ _ (temp_store w p f Hsl HW x ctemp ltac:(lia) Hm)).
    set (m1 := store (page2pa p + x) ctemp (umem w)).
    assert (Hm4 : (x + 4) mod 4 = 0) by (rewrite <- Z.add_mod_idemp_l, Hm by lia; done).
    assert (Hd4 : (x + 4) / 4 = x / 4 + 1) by (replace (x + 4) with (x + 1 * 4) by lia; by rewrite Z.div_add).
    destruct (IH (set_umem m1 w) (x + 4) (ctemp + Z.of_nat (length a) + 1)) as (m & E & Hom & Hw); try done; try lia.
    replace (UTEMP + x + 4) with (UTEMP + (x + 4)) by lia. exists m. split; [|split].
    + rewrite E. cbn [strings_size foldr]. fold (strings_size argv). f_equal. lia.
    + eapply only_page_trans; [|exact Hom]. apply only_page_store; lia.
    + intros j. rewrite Hw, Hd4. cbn [umem set_umem]. unfold m1.
      rewrite (ppage_store _ _ _ _ p x), (decide_True (P := p = p)) by (done || lia).
      destruct (decide (x / 4 + 1 ≤ j < x / 4 + 1 + Z.of_nat (length argv))).
      * rewrite decide_True by lia. replace (Z.to_nat (j - x / 4)) with (Datatypes.S (Z.to_nat (j - (x / 4 + 1)))) by lia.
        unfold offset_of. cbn [take strings_size foldr]. fold (strings_size (take (Z.to_nat (j - (x / 4 + 1))) argv)).
        apply (f_equal u32). lia.
      * unfold word. destruct (decide (j = x / 4)) as [->|Hne].
        -- rewrite lookup_insert_eq, decide_True by lia. rewrite Z.sub_diag. unfold offset_of. cbn [Z.to_nat take strings_size foldr]. by rewrite Z.add_0_r.
        -- rewrite lookup_insert_ne, decide_False by lia. done.
Qed.

(** * The page of the stack *)

Section layout.
Context (argv : list (list Z)).

Definition argc : Z := Z.of_nat (length argv).
Definition tot : Z := strings_size argv.
(** Words of the strings, and of everything *)
Definition str_words : Z := (tot + 3) / 4.
Definition fits : Prop := 4 * str_words + 4 * (argc + 3) ≤ 4096.

Lemma tot_nonneg : 0 ≤ tot.
Proof. unfold tot. rewrite strings_size_flat. lia. Qed.

Lemma ROUND_tot : tot + 3 < 2 ^ 32 → ROUND tot 4 = 4 * str_words.
Proof.
  intros Ht. pose proof tot_nonneg. unfold str_words. change 4 with (2 ^ 2) at 1. rewrite ROUND_spec by lia.
  change (2 ^ 2) with 4. replace (tot + 4 - 1) with (tot + 3) by lia. lia.
Qed.

(** The word of the page where the child's stack pointer points *)
Definition sp_word : Z := 1024 - str_words - (argc + 3).

Record stack_page (c : page) : Prop := {
  st_argc : word c sp_word = argc;
  st_argv : word c (sp_word + 1) = USTACKTOP - 4 * str_words - 4 * (argc + 1);
  st_args : ∀ i, 0 ≤ i < argc → word c (sp_word + 2 + i) = USTACKTOP - tot + offset_of argv (Z.to_nat i);
  st_last : word c (sp_word + 2 + argc) = USTACKTOP - 1;
  st_strings : ∀ k, 0 ≤ k < tot → page_byte c (4096 - tot + k) = u8 (nth (Z.to_nat k) (flat argv) 0)
}.

(** The stores of [init_stack] into the page *)
Definition write_stack `{Neighbours} : M world unit :=
  put_strings (UTEMP + BY2PG - tot) argv ;;
  ctemp <- put_args (UTEMP + BY2PG - 4 * str_words - 4 * (argc + 1)) (USTACKTOP - tot) argv ;;
  u_store (UTEMP + BY2PG - 4 * str_words - 4 * (argc + 1) + 4 * argc) (ctemp - 1) ;;
  u_store (UTEMP + BY2PG - 4 * str_words - 4 * (argc + 1) - 4) (USTACKTOP - 4 * str_words - 4 * (argc + 1)) ;;
  u_store (UTEMP + BY2PG - 4 * str_words - 4 * (argc + 1) - 4 - 4) argc.

Lemma offset_bound i : 0 ≤ offset_of argv i ≤ tot.
Proof.
  assert (E : flat argv = flat (take i argv) ++ flat (drop i argv)).
  { unfold flat. by rewrite <- concat_app, <- map_app, take_drop. }
  unfold offset_of, tot. rewrite !strings_size_flat, E, length_app. lia.
Qed.

Lemma write_stack_ok `{Neighbours} w p f : fits →
  slot w UTEMP = Some (p, f) → has f PTE_W = true → 0 ≤ p < PAGE_LIMIT →
  ∃ m, write_stack w = Ok tt (set_umem m w) ∧ only_page p (umem w) m ∧ stack_page (ppage m p).
Proof.
  intros Hfits Hsl HW Hp. pose proof tot_nonneg as Ht. unfold fits in Hfits.
  assert (Hargc : 0 ≤ argc) by (unfold argc; lia).
  assert (Hsw : tot ≤ 4 * str_words < tot + 4).
  { unfold str_words. pose proof (Z.div_mod (tot + 3) 4 ltac:(lia)). pose proof (Z.mod_pos_bound (tot + 3) 4 ltac:(lia)). lia. }
  assert (Hm4 : ∀ j, (4 * j) mod 4 = 0) by (intros j; by rewrite Z.mul_comm, Z.mod_mul).
  assert (Hd4 : ∀ j, 4 * j / 4 = j) by (intros j; by rewrite Z.mul_comm, Z.div_mul).
  assert (Htf : tot = Z.of_nat (length (flat argv))) by apply strings_size_flat.
  assert (Hsp : 0 ≤ sp_word) by (unfold sp_word; lia).
  unfold write_stack. change BY2PG with 4096.
  (* the strings *)
  set (m1 := write_bytes (page2pa p + (4096 - tot)) (flat argv) (umem w)).
  assert (E1 : put_strings (UTEMP + 4096 - tot) argv w = Ok tt (set_umem m1 w)).
  { rewrite put_strings_flat. replace (UTEMP + 4096 - tot) with (UTEMP + (4096 - tot)) by lia.
    destruct (decide (tot = 0)) as [E0|E0].
    - assert (El : flat argv = []) by (destruct (flat argv); [done|rewrite length_cons in Htf; lia]).
      unfold m1. rewrite El. by destruct w.
    - apply (temp_store_bytes w p f Hsl HW); lia. }
  rewrite (bind_ok _ _ _ _ _ E1). set (w1 := set_umem m1 w).
  (* the arguments *)
  replace (UTEMP + 4096 - 4 * str_words - 4 * (argc + 1)) with (UTEMP + 4 * (sp_word + 2)) by (unfold sp_word; lia).
  destruct (put_args_ok p f argv w1 (4 * (sp_word + 2)) (USTACKTOP - tot) Hsl HW Hp ltac:(lia) (Hm4 _)) as (m2 & E2 & Hom2 & Hw2).
  { fold argc. unfold sp_word. lia. }
  rewrite (bind_ok _ _ _ _ _ E2). rewrite Hd4 in Hw2. fold argc in Hw2. fold tot.
  replace (USTACKTOP - tot + tot - 1) with (USTACKTOP - 1) by lia.
  (* the three words *)
  replace (UTEMP + 4 * (sp_word + 2) + 4 * argc) with (UTEMP + 4 * (sp_word + 2 + argc)) by lia.
  replace (UTEMP + 4 * (sp_word + 2) - 4) with (UTEMP + 4 * (sp_word + 1)) by lia.
  replace (UTEMP + 4 * (sp_word + 1) - 4) with (UTEMP + 4 * sp_word) by lia.
  assert (St : ∀ m j v, 0 ≤ j < 1024 → u_store (UTEMP + 4 * j) v (set_umem m w) =
    Ok tt (set_umem (store (page2pa p + 4 * j) v m) w)).
  { intros m j v Hj. apply (temp_store (set_umem m w) p f Hsl HW); [lia|apply Hm4]. }
  assert (Pst : ∀ m j v, 0 ≤ j < 1024 → ppage (store (page2pa p + 4 * j) v m) p = <[j := u32 v]> (ppage m p)).
  { intros m j v Hj. rewrite (ppage_store _ _ _ _ p (4 * j)) by (done || lia). by rewrite decide_True, Hd4. }
  change (set_umem m2 w1) with (set_umem m2 w).
  assert (Hlast : 0 ≤ sp_word + 2 + argc < 1024) by (unfold sp_word in *; lia).
  rewrite (bind_ok _ _ _ _ _ (St m2 (sp_word + 2 + argc) _ Hlast)).
  rewrite (bind_ok _ _ _ _ _ (St _ (sp_word + 1) _ ltac:(lia))), (St _ sp_word _ ltac:(lia)).
  set (m3 := store (page2pa p + 4 * (sp_word + 2 + argc)) _ m2). set (m4 := store (page2pa p + 4 * (sp_word + 1)) _ m3).
  set (m5 := store (page2pa p + 4 * sp_word) argc m4). exists m5. split; [done|].
  assert (Hom1 : only_page p (umem w) m1) by (apply only_page_write; [done|lia|lia]).
  assert (Hpg : ppage m5 p = <[sp_word := u32 argc]> (<[sp_word + 1 := u32 (USTACKTOP - 4 * str_words - 4 * (argc + 1))]>
    (<[sp_word + 2 + argc := u32 (USTACKTOP - 1)]> (ppage m2 p)))).
  { unfold m5, m4, m3. rewrite !Pst by lia. done. }
  split.
  { unfold m5, m4, m3. do 3 (eapply only_page_trans; [|apply only_page_store; unfold sp_word in *; lia]).
    eapply only_page_trans; [exact Hom1|exact Hom2]. }
  change USTACKTOP with 2134892544 in *.
  split; change USTACKTOP with 2134892544; rewrite Hpg; unfold word.
  - rewrite lookup_insert_eq. apply u32_small. unfold sp_word in *. lia.
  - rewrite lookup_insert_ne, lookup_insert_eq by lia. apply u32_small. unfold sp_word in *. lia.
  - intros i Hi. rewrite !lookup_insert_ne by lia. change (word (ppage m2 p) (sp_word + 2 + i) = 2134892544 - tot + offset_of argv (Z.to_nat i)).
    rewrite Hw2, decide_True by lia. replace (sp_word + 2 + i - (sp_word + 2)) with i by lia.
    apply u32_small. pose proof (offset_bound (Z.to_nat i)). unfold sp_word in *. lia.
  - rewrite !lookup_insert_ne, lookup_insert_eq by lia. done.
  - intros k Hk. assert (Hj : 1024 - str_words ≤ (4096 - tot + k) / 4 < 1024).
    { split; [apply Z.div_le_lower_bound; lia|apply Z.div_lt_upper_bound; lia]. }
    unfold page_byte, word. rewrite !lookup_insert_ne by (unfold sp_word in *; lia).
    change (byte_of (word (ppage m2 p) ((4096 - tot + k) / 4)) ((4096 - tot + k) mod 4) = u8 (nth (Z.to_nat k) (flat argv) 0)).
    rewrite Hw2, decide_False by (unfold sp_word in *; lia). change (umem w1) with m1.
    fold (page_byte (ppage m1 p) (4096 - tot + k)). rewrite <- load8_ppage by (unfold sp_word in *; lia).
    unfold m1. rewrite load8_write_bytes, decide_True by lia. do 2 f_equal. lia.
Qed.
End layout.

(** * The calls on the address spaces of the family *)

(** [s] with other page tables and memory *)
Definition at_vm (A : vm) (m : memory) (s : family) : family := set_prog (set_umem m (set_uvm A (prog s))) s.

Lemma at_vm_id s : at_vm (uvm (prog s)) (umem (prog s)) s = s.
Proof. by destruct s as [[]]. Qed.

(** [A'] is [A] with page [p] at [va] of directory [d]. *)
Record inserted (np : Z) (A A' : vm) (d va p perm : Z) : Prop := {
  in_real : real np A';
  in_maps : maps A' = <[(d, VPN va) := (p, perm_flags perm)]> (maps A);
  in_dirs : dirs A' = dirs A;
  in_pins : pins A' = pins A;
  in_free : p ∉ free A'
}.

(** [A'] is [A] without the page at [va] of directory [d]. *)
Record removed (np : Z) (A A' : vm) (d va : Z) : Prop := {
  re_real : real np A';
  re_maps : maps A' = delete (d, VPN va) (maps A);
  re_dirs : dirs A' = dirs A;
  re_pins : pins A' = pins A;
  re_free : (length (free A) ≤ length (free A'))%nat
}.

Lemma is_illegal_va_false va : UTEMP ≤ va < UTOP → is_illegal_va va = false.
Proof.
  intros Hva. unfold is_illegal_va. rewrite (proj2 (Z.ltb_ge _ _)), Z.geb_leb, (proj2 (Z.leb_gt _ _)) by lia. done.
Qed.

(** Tables do not go away. *)
Lemma spec_insert_tabs A d v p perm A' k : spec_insert A d v p perm = Some A' → is_Some (tabs A !! k) → is_Some (tabs A' !! k).
Proof.
  unfold spec_insert. set (B := match maps A !! (d, v) with Some _ => _ | None => A end).
  assert (Hb : tabs B = tabs A).
  { unfold B. destruct (maps A !! (d, v)) as [[q f]|]; [|done]. case_decide; [done|]. unfold spec_remove.
    destruct (maps A !! (d, v)) as [[q' f']|]; [|done]. by case_match. }
  clearbody B. intros E Hk. revert E. unfold spec_table. rewrite <- Hb in Hk.
  destruct (tabs B !! (d, v / 1024)) as [t|]; cbn; [by intros [= <-]|].
  destruct (free B) as [|t fl]; cbn; [done|]. intros [= <-]. cbn. rewrite lookup_insert_is_Some'. by right.
Qed.

Section family.
Context `{Neighbours, FileSymbols} (np : Z).

Lemma in_dir_ok {A} d (m : M world A) w a w' : m (set_udir d w) = Ok a w' →
  in_dir d m w = Ok a (set_udir (udir w) w').
Proof using. intros E. unfold in_dir. by rewrite E. Qed.

Lemma f_mem_alloc_ok s envid d va perm p fl :
  dir_of envid s = Some d → real np (uvm (prog s)) → d ∈ dirs (uvm (prog s)) → UTEMP ≤ va < UTOP → 0 ≤ perm < 1024 →
  free (uvm (prog s)) = p :: fl → (1 ≤ length fl)%nat →
  ∃ A, syscall_mem_alloc envid va perm s = Ok 0 (at_vm A (clear_page (page2pa p) (umem (prog s))) s) ∧
    inserted np (uvm (prog s)) A d va p (user_perm perm) ∧ (length fl ≤ 1 + length (free A))%nat.
Proof using.
  intros Hdir Hr Hd Hva Hp Hf Hl. unfold syscall_mem_alloc. rewrite is_illegal_va_false by done.
  rewrite (bind_ok (gets (dir_of envid)) _ _ _ _ eq_refl), Hdir.
  destruct (u_mem_alloc_ok np (set_udir d (prog s)) va perm) as (q & w & E & Hrm & Hq & Hm & Hroom); try done.
  { by apply is_illegal_va_false. }
  { cbn [uvm set_udir]. rewrite Hf. cbn [length]. lia. }
  cbn [uvm set_udir] in Hq, Hroom. rewrite Hf in Hq, Hroom. injection Hq as <-. cbn [length] in Hroom.
  exists (uvm w). rewrite (onw_ok _ _ _ _ (in_dir_ok d _ _ _ _ E)).
  split; [|split; [|lia]].
  - do 2 f_equal. pose proof (rm_rest _ _ _ _ _ _ Hrm) as Hrest. destruct w, s as [[] k b]. cbn in Hm, Hrest |- *. subst.
    by injection Hrest as -> -> -> -> -> ->.
  - split; [apply Hrm|exact (rm_maps _ _ _ _ _ _ Hrm)|exact (rm_dirs _ _ _ _ _ _ Hrm)|exact (rm_pins _ _ _ _ _ _ Hrm)|exact (rm_free _ _ _ _ _ _ Hrm)].
Qed.

Lemma f_mem_unmap_ok s envid d va :
  dir_of envid s = Some d → real np (uvm (prog s)) → d ∈ dirs (uvm (prog s)) → UTEMP ≤ va < UTOP →
  ∃ A, syscall_mem_unmap envid va s = Ok 0 (at_vm A (umem (prog s)) s) ∧ removed np (uvm (prog s)) A d va.
Proof using.
  intros Hdir Hr Hd Hva. unfold syscall_mem_unmap. rewrite is_illegal_va_false by done.
  rewrite (bind_ok (gets (dir_of envid)) _ _ _ _ eq_refl), Hdir.
  destruct (u_mem_unmap_ok np (set_udir d (prog s)) va) as (w & E & Hs & Hm & Hdi & Hpi & Hu & Hrest & Hroom); try done.
  { by apply is_illegal_va_false. }
  exists (uvm w). rewrite (onw_ok _ _ _ _ (in_dir_ok d _ _ _ _ E)).
  split; [|split; [apply Hs|done|done|done|done]].
  do 2 f_equal. destruct w, s as [[] k b]. cbn in Hu, Hrest |- *. subst. by injection Hrest as -> -> -> -> -> ->.
Qed.

(** The bits of [perm] above the flags are bits of the page number. *)
Definition perm_fits (p perm : Z) : Prop := Z.lor (p + PPN0) (Z.shiftr perm 10) = p + PPN0.

Lemma perm_fits_small p perm : 0 ≤ perm < 1024 → perm_fits p perm ∧ Z.land perm 0x3FF = perm.
Proof using.
  intros Hp. unfold perm_fits. rewrite Z.shiftr_div_pow2, Z.div_small, Z.lor_0_r by lia.
  split; [done|]. change 0x3FF with (Z.ones 10). by rewrite Z.land_ones, Z.mod_small by lia.
Qed.

Lemma f_mem_map_ok s srcid sd srcva dstid dd dstva perm p f :
  dir_of srcid s = Some sd → dir_of dstid s = Some dd → real np (uvm (prog s)) → dd ∈ dirs (uvm (prog s)) →
  UTEMP ≤ srcva < UTOP → UTEMP ≤ dstva < UTOP →
  perm_fits p perm → (1 ≤ length (free (uvm (prog s))))%nat →
  maps (uvm (prog s)) !! (sd, VPN srcva) = Some (p, f) → count p (maps (uvm (prog s))) + pin (uvm (prog s)) p < 2 ^ 16 - 1 →
  ∃ A, syscall_mem_map srcid srcva dstid dstva perm s = Ok 0 (at_vm A (umem (prog s)) s) ∧
    inserted np (uvm (prog s)) A dd dstva p (user_perm (Z.land perm 0x3FF)) ∧
    (length (free (uvm (prog s))) ≤ 1 + length (free A))%nat ∧
    ∀ k, is_Some (tabs (uvm (prog s)) !! k) → is_Some (tabs A !! k).
Proof using.
  intros Hsd Hdd Hr Hd Hsrc Hdst Hp Hroom Hm Hc. unfold syscall_mem_map.
  rewrite !is_illegal_va_false by done. cbn [orb].
  rewrite (bind_ok (gets (dir_of srcid)) _ _ _ _ eq_refl), Hsd, (bind_ok (gets (dir_of dstid)) _ _ _ _ eq_refl), Hdd.
  destruct (real_map np (uvm (prog s)) _ _ p f Hr Hm) as [Hu _].
  assert (Hpb : 0 ≤ Z.land perm 0x3FF < 1024).
  { change 0x3FF with (Z.ones 10). rewrite Z.land_ones by lia. by apply Z.mod_pos_bound. }
  destruct (real_insert np (uvm (prog s)) dd dstva p (user_perm (Z.land perm 0x3FF)) Hr Hd ltac:(change UTEMP with 4186112 in *; lia) (conj Hu Hc)
    (user_flags _ Hpb) Hroom) as (A' & E & Hr' & Hmaps & Hdirs & Hpins & Hl & Hpf).
  assert (Es : u_mem_share sd srcva dd dstva perm (prog s) = Ok 0 (set_uvm A' (prog s))).
  { unfold u_mem_share. rewrite Hm, (proj2 (Z.eqb_eq _ _) Hp). fold (user_perm (Z.land perm 0x3FF)). by rewrite E. }
  exists A'. rewrite (onw_ok _ _ _ _ Es). split; [|split; [done|split; [lia|intros k; by apply (spec_insert_tabs _ _ _ _ _ _ _ E)]]].
  by destruct s as [[]].
Qed.
End family.

(** * Building the stack *)

(** The stack pointer [init_stack] returns *)
Definition stack_pointer (argv : list (list Z)) : Z := USTACKTOP - 4 * str_words argv - 4 * (argc argv + 3).

Section stack.
Context `{Neighbours, FileSymbols} (np : Z).

Lemma onw_bind {A B C} (m : M world A) (k : A → M world B) (h : B → M family C) s :
  (a <- onw m ;; b <- onw (k a) ;; h b) s = (b <- onw (bind m k) ;; h b) s.
Proof using.
  unfold onw, lift, bind. cbn [sub_get sub_set sub_prog]. destruct (m (prog s)) as [a w| | | |]; try done.
Qed.

Lemma str_words_bound argv : tot argv ≤ 4 * str_words argv < tot argv + 4.
Proof using.
  unfold str_words. pose proof (Z.div_mod (tot argv + 3) 4 ltac:(lia)). pose proof (Z.mod_pos_bound (tot argv + 3) 4 ltac:(lia)). lia.
Qed.

(** Too many arguments: nothing happens. *)
Lemma init_stack_too_big s child argv : tot argv + 3 < 2 ^ 32 → ¬ fits argv →
  init_stack child argv s = Err (- E_NO_MEM) s.
Proof using.
  intros Ht Hf. unfold init_stack. fold (argc argv) (tot argv). rewrite ROUND_tot by done. unfold fits in Hf.
  change BY2PG with 4096. rewrite Z.gtb_ltb, (proj2 (Z.ltb_lt _ _)) by lia. done.
Qed.

Lemma write_stack_family {A} argv (h : M family A) s w :
  write_stack argv (prog s) = Ok tt w →
  (onw (put_strings (UTEMP + BY2PG - tot argv) argv) ;;
   ctemp <- onw (put_args (UTEMP + BY2PG - 4 * str_words argv - 4 * (argc argv + 1)) (USTACKTOP - tot argv) argv) ;;
   onw (u_store (UTEMP + BY2PG - 4 * str_words argv - 4 * (argc argv + 1) + 4 * argc argv) (ctemp - 1)) ;;
   onw (u_store (UTEMP + BY2PG - 4 * str_words argv - 4 * (argc argv + 1) - 4) (USTACKTOP - 4 * str_words argv - 4 * (argc argv + 1))) ;;
   onw (u_store (UTEMP + BY2PG - 4 * str_words argv - 4 * (argc argv + 1) - 4 - 4) (argc argv)) ;; h) s = h (set_prog w s).
Proof using.
  intros E. rewrite !onw_bind. rewrite (bind_ok _ _ tt s (set_prog w s)); [done|]. apply onw_ok.
  rewrite !bind_assoc. rewrite <- E. unfold write_stack. unfold bind.
  by destruct (put_strings _ _ _) as [[] w1| | | |].
Qed.

Lemma init_stack_ok s child c argv p fl :
  real np (uvm (prog s)) → udir (prog s) ∈ dirs (uvm (prog s)) → child ≠ 0 → kids s !! child = Some c →
  ch_dir c ∈ dirs (uvm (prog s)) → ch_dir c ≠ udir (prog s) → free (uvm (prog s)) = p :: fl → (2 ≤ length fl)%nat →
  fits argv →
  ∃ A m, init_stack child argv s = Ok (stack_pointer argv) (at_vm A m s) ∧ real np A ∧
    (let A0 := uvm (prog s) in
     maps A = <[(ch_dir c, VPN (USTACKTOP - BY2PG)) := (p, 23)]> (delete (udir (prog s), VPN UTEMP) (maps A0)) ∧
     dirs A = dirs A0 ∧ pins A = pins A0 ∧ (length fl ≤ 2 + length (free A))%nat) ∧
    only_page p (umem (prog s)) m ∧ stack_page argv (ppage m p).
Proof using H.
  intros Hr Hd Hch Hc Hcd Hne Hf Hl Hfit. pose proof (str_words_bound argv) as Hsw. pose proof (tot_nonneg argv) as Ht.
  pose proof Hfit as Hfit'. unfold fits in Hfit'. assert (Hac : 0 ≤ argc argv) by (unfold argc; lia).
  destruct (real_free np _ p Hr ltac:(rewrite Hf; apply list_elem_of_here)) as (Hp & Hpm & Hpin & _ & _).
  assert (Hpl : 0 ≤ p < PAGE_LIMIT) by (pose proof (real_limit np _ Hr); lia).
  unfold init_stack. fold (argc argv) (tot argv). rewrite ROUND_tot by lia.
  rewrite Z.gtb_ltb, (proj2 (Z.ltb_ge _ _)) by (change BY2PG with 4096; lia). cbv zeta.
  (* the page at UTEMP *)
  destruct (f_mem_alloc_ok np s 0 (udir (prog s)) UTEMP PTE_W p fl eq_refl Hr Hd ltac:(done) ltac:(done) Hf ltac:(lia))
    as (A1 & E1 & [I1 I2 I3 I4 I5] & L1).
  rewrite (bind_ok _ _ _ _ _ E1). change (0 <? 0) with false. cbv iota.
  set (s1 := at_vm A1 (clear_page (page2pa p) (umem (prog s))) s).
  (* its contents *)
  assert (Hsl : slot (prog s1) UTEMP = Some (p, 23)).
  { unfold slot. change (maps (uvm (prog s1))) with (maps A1). rewrite I2. apply lookup_insert_eq. }
  destruct (write_stack_ok argv (prog s1) p 23 Hfit Hsl eq_refl Hpl) as (m & Ew & Hom & Hst).
  replace (USTACKTOP - UTEMP - BY2PG + (UTEMP + BY2PG - tot argv)) with (USTACKTOP - tot argv) by lia.
  replace (USTACKTOP - UTEMP - BY2PG + (UTEMP + BY2PG - 4 * str_words argv - 4 * (argc argv + 1)))
    with (USTACKTOP - 4 * str_words argv - 4 * (argc argv + 1)) by lia.
  rewrite (write_stack_family argv _ s1 _ Ew).
  change (set_prog (set_umem m (prog s1)) s1) with (at_vm A1 m s). set (s2 := at_vm A1 m s).
  (* the child's page *)
  assert (Hcount : count p (maps A1) + pin A1 p < 2 ^ 16 - 1).
  { unfold pin in *. rewrite I4, I2, Hpin.
    assert (Ep : count p (maps (uvm (prog s))) = 0) by (by apply count_zero).
    pose proof (count_insert_any p p (perm_flags (user_perm PTE_W)) (udir (prog s), VPN UTEMP) (maps (uvm (prog s)))). lia. }
  destruct (f_mem_map_ok np s2 0 (udir (prog s)) UTEMP child (ch_dir c) (USTACKTOP - BY2PG) PTE_W p 23)
    as (A2 & E2 & [J1 J2 J3 J4 J5] & L2 & _); [done| | | |done|done|apply perm_fits_small; done| |exact Hsl|exact Hcount|].
  { unfold dir_of. rewrite (proj2 (Z.eqb_neq _ _)) by done. change (kids s2) with (kids s). by rewrite Hc. }
  { exact I1. }
  { change (ch_dir c ∈ dirs A1). by rewrite I3. }
  { change ((1 ≤ length (free A1))%nat). lia. }
  rewrite (bind_ok _ _ _ _ _ E2). change (0 <? 0) with false. cbv iota.
  change (uvm (prog s2)) with A1 in *. change (umem (prog s2)) with m in *. change (at_vm A2 m s2) with (at_vm A2 m s).
  destruct (f_mem_unmap_ok np (at_vm A2 m s) 0 (udir (prog s)) UTEMP eq_refl J1) as (A3 & E3 & [K1 K2 K3 K4 K5]).
  { change (udir (prog s) ∈ dirs A2). by rewrite J3, I3. }
  { done. }
  rewrite (bind_ok _ _ _ _ _ E3). change (0 <? 0) with false. cbv iota.
  exists A3, m. split; [|split; [exact K1|split; [|split; [|exact Hst]]]].
  - unfold ret, stack_pointer. change (at_vm A3 (umem (prog (at_vm A2 m s))) (at_vm A2 m s)) with (at_vm A3 m s).
    f_equal. lia.
  - cbv zeta. change (uvm (prog (at_vm A2 m s))) with A2 in *.
    split; [|split; [by rewrite K3, J3, I3|split; [by rewrite K4, J4, I4|lia]]].
    rewrite K2, J2, I2. rewrite delete_insert_ne by congruence. by rewrite delete_insert_eq.
  - eapply only_page_trans; [|exact Hom]. by apply only_page_clear.
Qed.
End stack.

(** * What the new program reads *)

(** The child's registers and memory at its entry: [argc] and [argv] at the
    stack pointer, the pointers to the strings behind, and the strings.  The
    word behind the last pointer is not the null pointer. *)
Record argument_stack `{Neighbours} (w : world) (argv : list (list Z)) : Prop := {
  ag_argc : u_load (stack_pointer argv) w = Ok (argc argv) w;
  ag_argv : u_load (stack_pointer argv + 4) w = Ok (stack_pointer argv + 8) w;
  ag_args : ∀ i a, argv !! i = Some a → ∃ ptr,
    u_load (stack_pointer argv + 8 + 4 * Z.of_nat i) w = Ok ptr w ∧
    u_load_bytes ptr (length a + 1) w = Ok (map u8 (a ++ [0])) w;
  ag_end : u_load (stack_pointer argv + 8 + 4 * argc argv) w = Ok (USTACKTOP - 1) w
}.

Lemma flat_nth argv i a k : argv !! i = Some a → (k < length a + 1)%nat →
  nth (Z.to_nat (offset_of argv i) + k) (flat argv) 0 = nth k (a ++ [0]) 0.
Proof.
  intros Hi Hk. assert (E : flat argv = flat (take i argv) ++ (a ++ [0]) ++ flat (drop (Datatypes.S i) argv)).
  { rewrite <- (take_drop i argv) at 1. rewrite (drop_S _ _ _ Hi). unfold flat. by rewrite map_app, concat_app. }
  unfold offset_of. rewrite strings_size_flat, Nat2Z.id, E, app_nth2, app_nth1 by (rewrite ?length_app; cbn; lia).
  f_equal. lia.
Qed.

Lemma offset_end argv i a : argv !! i = Some a → offset_of argv i + Z.of_nat (length a) + 1 ≤ tot argv.
Proof.
  intros Hi. unfold offset_of, tot. rewrite !strings_size_flat. rewrite <- (take_drop i argv) at 2.
  rewrite (drop_S _ _ _ Hi). unfold flat. rewrite map_app, concat_app, length_app. cbn [map concat].
  rewrite !length_app. cbn [length]. lia.
Qed.

Section entry.
Context `{Neighbours} (w : world) (argv : list (list Z)) (p : Z).
Context (Hsl : slot w (USTACKTOP - BY2PG) = Some (p, 23)) (Hp : 0 ≤ p < PAGE_LIMIT).
Context (Hfit : fits argv) (Hst : stack_page argv (ppage (umem w) p)).

Lemma top_addr x : 0 ≤ x < 4096 →
  slot w (USTACKTOP - 4096 + x) = Some (p, 23) ∧ (USTACKTOP - 4096 + x) mod BY2PG = x.
Proof using Hsl.
  intros Hx. unfold slot in *. rewrite !VPN_div in *. change USTACKTOP with 2134892544 in *. change BY2PG with 4096 in *.
  change ((2134892544 - 4096) / 4096) with 521213 in Hsl.
  replace (2134892544 - 4096 + x) with (521213 * 4096 + x) by lia.
  rewrite Z.div_add_l, Z.div_small, Z.add_0_r by lia. split; [exact Hsl|].
  rewrite Z.add_comm, Z.mod_add, Z.mod_small by lia. done.
Qed.

Lemma top_word j : 0 ≤ j < 1024 → u_load (USTACKTOP - 4096 + 4 * j) w = Ok (word (ppage (umem w) p) j) w.
Proof using Hsl Hp.
  intros Hj. destruct (top_addr (4 * j) ltac:(lia)) as [Hs Hm].
  rewrite (u_load_ok w _ p 23 Hs eq_refl), Hm, load_word by (try done;
    rewrite land3; change USTACKTOP with 2134892544; replace (2134892544 - 4096 + 4 * j) with ((533722112 + j) * 4) by lia; by apply Z.mod_mul).
  done.
Qed.

Lemma entry_stack : argument_stack w argv.
Proof using Hsl Hp Hfit Hst.
  pose proof (str_words_bound argv) as Hsw. pose proof (tot_nonneg argv) as Ht. unfold fits in Hfit.
  assert (Hac : 0 ≤ argc argv) by (unfold argc; lia).
  assert (Esp : stack_pointer argv = USTACKTOP - 4096 + 4 * sp_word argv) by (unfold stack_pointer, sp_word; lia).
  assert (Hsp : 0 ≤ sp_word argv ∧ sp_word argv + 2 + argc argv < 1024) by (unfold sp_word; lia).
  split; rewrite ?Esp.
  - rewrite top_word by lia. by rewrite (st_argc _ _ Hst).
  - replace (USTACKTOP - 4096 + 4 * sp_word argv + 4) with (USTACKTOP - 4096 + 4 * (sp_word argv + 1)) by lia.
    rewrite top_word, (st_argv _ _ Hst) by lia. f_equal. unfold sp_word. lia.
  - intros i a Hi. pose proof (lookup_lt_Some _ _ _ Hi) as Hil.
    replace (USTACKTOP - 4096 + 4 * sp_word argv + 8 + 4 * Z.of_nat i)
      with (USTACKTOP - 4096 + 4 * (sp_word argv + 2 + Z.of_nat i)) by lia.
    rewrite top_word, (st_args _ _ Hst) by (unfold argc in *; lia). rewrite Nat2Z.id.
    eexists. split; [reflexivity|]. pose proof (offset_end argv i a Hi). pose proof (offset_bound argv i).
    rewrite (u_load_bytes_ok w _ _ (λ k, u8 (nth (Z.to_nat k) (a ++ [0]) 0))).
    + f_equal. apply list_eq. intros k. rewrite !list_lookup_fmap.
      destruct (decide (k < length a + 1)%nat) as [Hk|Hk].
      * rewrite (proj2 (lookup_seqZ _ _ _ (Z.of_nat k))) by lia. cbn [fmap option_fmap option_map].
        rewrite (lookup_nth (a ++ [0])) by (rewrite length_app; cbn; lia). cbn. by rewrite Nat2Z.id.
      * rewrite lookup_seqZ_ge, lookup_ge_None_2 by (rewrite ?length_app; cbn; lia). done.
    + intros k Hk. replace (USTACKTOP - tot argv + offset_of argv i + k)
        with (USTACKTOP - 4096 + (4096 - tot argv + (offset_of argv i + k))) by lia.
      destruct (top_addr (4096 - tot argv + (offset_of argv i + k)) ltac:(lia)) as [Hs Hm].
      unfold mem_byte. rewrite Hs, Hm. cbn [has]. change (has 23 PTE_R) with true. cbv iota.
      rewrite load8_ppage, (st_strings _ _ Hst) by lia.
      do 2 f_equal. rewrite <- (flat_nth argv i a (Z.to_nat k) Hi) by lia. f_equal. lia.
  - replace (USTACKTOP - 4096 + 4 * sp_word argv + 8 + 4 * argc argv)
      with (USTACKTOP - 4096 + 4 * (sp_word argv + 2 + argc argv)) by lia.
    by rewrite top_word, (st_last _ _ Hst) by lia.
Qed.
End entry.
