(* ===== verification/SpawnLoad.v ===== *)
(** [spawn] loading the segments of a file into the child: [spawn_mapper] as a
    page mapper of [elf_load_seg], and the loop over the program headers. *)
From S2P Require Import Prelude Mmu Queue Memory Pmap PmapSpec VmSteps BootProofs Disk Env EnvProps Sched SchedProps.
From S2P Require Import Tlbex Syscall StringsProps QueueProps PmapProps SyscallProps TlbProps Elf ElfProps LoadProps.
From S2P Require Import Fs Serv Ulib UlibProps WorldProps Fd File Dev FileProps Spawn SpawnProps.

(** * Copying *)

Section copy.
Context `{Neighbours}.

(** [memcpy] into the page at UTEMP from other pages *)
Lemma u_memcpy_ok p f n : ∀ off src g w,
  slot w UTEMP = Some (p, f) → has f PTE_W = true → 0 ≤ p < PAGE_LIMIT → 0 ≤ off → off + Z.of_nat n ≤ 4096 →
  (∀ k, 0 ≤ k < Z.of_nat n → mem_byte w (src + k) = Some (g k)) →
  (∀ k q f', 0 ≤ k < Z.of_nat n → slot w (src + k) = Some (q, f') → q ≠ p ∧ 0 ≤ q < PAGE_LIMIT) →
  u_memcpy (UTEMP + off) src n w =
    Ok tt (set_umem (write_bytes (page2pa p + off) (map g (seqZ 0 (Z.of_nat n))) (umem w)) w).
Proof using.
  induction n as [|n IH]; intros off src g w Hsl HW Hp Hoff Hn Hg Hq; cbn [u_memcpy].
  - rewrite seqZ_nil by done. by destruct w.
  - pose proof (Hg 0 ltac:(lia)) as H0. rewrite Z.add_0_r in H0.
    rewrite (bind_ok _ _ _ _ _ (u_load8_ok w src _ H0)).
    destruct (temp_addr off ltac:(lia)) as [Hv Hmod].
    assert (Hsl' : slot w (UTEMP + off) = Some (p, f)) by (unfold slot in *; by rewrite Hv).
    rewrite (bind_ok _ _ _ _ _ (u_store8_ok w _ p f (g 0) Hsl' HW)), Hmod.
    replace (UTEMP + off + 1) with (UTEMP + (off + 1)) by lia.
    rewrite (IH (off + 1) (src + 1) (λ k, g (k + 1))); [|done|done|done|lia|lia| |].
    + rewrite (seqZ_cons 0 (Z.of_nat (Datatypes.S n))) by lia. cbn [map write_bytes umem set_umem].
      replace (Z.pred (Z.of_nat (Datatypes.S n))) with (Z.of_nat n) by lia.
      rewrite <- (fmap_add_seqZ 1 0), map_map. change (Z.succ 0) with (1 + 0). rewrite Z.add_assoc.
      rewrite (map_ext (λ x, g (1 + x)) (λ k, g (k + 1))); [done|]. intros k. f_equal. lia.
    + intros k Hk. rewrite <- Hg by lia. replace (src + 1 + k) with (src + (k + 1)) by lia. unfold mem_byte.
      change (slot (set_umem _ w) (src + (k + 1))) with (slot w (src + (k + 1))).
      destruct (slot w (src + (k + 1))) as [[q f']|] eqn:Es; [|done].
      destruct (Hq (k + 1) q f' ltac:(lia) Es) as [Hne Hql]. cbn [umem set_umem].
      rewrite !load8_ppage by (try done; apply Z.mod_pos_bound; done).
      by rewrite (only_page_store8 (umem w) p off (g 0) Hp ltac:(lia) q Hne).
    + intros k q f' Hk Es. replace (src + 1 + k) with (src + (k + 1)) in Es by lia. by apply (Hq (k + 1) q f'); [lia|].
Qed.
End copy.

(** * Open files stay open *)

Lemma open_file_same s s' i p id omode bytes off :
  open_file s i p id omode bytes off →
  (∀ va, 0x5FC00000 ≤ va → slot s' va = slot s va) →
  (∀ va q f, 0x5FC00000 ≤ va → slot s va = Some (q, f) → ppage (umem s') q = ppage (umem s) q) →
  open_file s' i p id omode bytes off.
Proof.
  intros Hof Hs Hp. pose proof (of_num _ _ _ _ _ _ _ Hof) as Hi.
  pose proof (INDEX2FD_eq i Hi) as HF. pose proof (INDEX2DATA_eq i Hi) as HD. unfold MAXFD in Hi.
  apply (open_file_kept s); [done|apply Hs; lia|intros k _; apply Hs; lia|].
  intros q [(f & Hq)|(k & f & _ & Hq)]; eapply Hp; [|exact Hq| |exact Hq]; lia.
Qed.

(** * The page mapper *)

(** The child's new page after [spawn_mapper] has filled it *)
Definition mapped_page (m : memory) (p : Z) : list Z := page_bytes (page_byte (ppage m p)).

Lemma mapped_page_ext m m' p : ppage m' p = ppage m p → mapped_page m' p = mapped_page m p.
Proof. unfold mapped_page. by intros ->. Qed.

Lemma page_byte_empty j : page_byte ∅ j = 0.
Proof. unfold page_byte, word. rewrite lookup_empty. unfold byte_of, u8. cbn. rewrite Z.shiftr_0_l. done. Qed.

(** A page that has been cleared and then written *)
Lemma mapped_page_written m p off g len :
  0 ≤ p < PAGE_LIMIT → 0 ≤ off → 0 ≤ len → off + len ≤ 4096 → (∀ k, 0 ≤ k < len → u8 (g k) = g k) →
  mapped_page (write_bytes (page2pa p + off) (map g (seqZ 0 len)) (clear_page (page2pa p) m)) p =
    page_bytes (λ j, if decide (off ≤ j < off + len) then g (j - off) else 0).
Proof.
  intros Hp Hoff Hlen Hsum Hg. apply page_bytes_ext. intros j Hj. change BY2PG with 4096 in Hj.
  rewrite <- load8_ppage by done. rewrite load8_write_bytes, length_map, length_seqZ, Z2Nat.id by lia.
  case_decide; [rewrite decide_True by lia|rewrite decide_False by lia].
  - rewrite (nth_indep _ 0 (g 0)) by (rewrite length_map, length_seqZ; lia). rewrite map_nth.
    rewrite (nth_lookup_Some _ _ _ (j - off)); [apply Hg; lia|]. apply lookup_seqZ. lia.
  - rewrite load8_ppage, ppage_clear, decide_True by done. apply page_byte_empty.
Qed.

Section mapper.
Context `{Neighbours, FileSymbols} (np ch : Z) (c : child).
Context (i pf id omode : Z) (bytes : list Z).

(** What the mapper needs of the family *)
Record ready (s : family) : Prop := {
  rd_real : real np (uvm (prog s));
  rd_dir : udir (prog s) ∈ dirs (uvm (prog s));
  rd_kid : ch ≠ 0 ∧ kids s !! ch = Some c;
  rd_kid_dir : ch_dir c ∈ dirs (uvm (prog s)) ∧ ch_dir c ≠ udir (prog s);
  rd_file : ∃ off, open_file (prog s) i pf id omode bytes off
}.

(** One call: the child has the new page, and only UTEMP of the program may
    have changed besides. *)
Record filled (s : family) (va perm p : Z) (content : list Z) (A : vm) (m : memory) : Prop := {
  fi_real : real np A;
  fi_maps : ∀ k, k ≠ (udir (prog s), VPN UTEMP) →
    maps A !! k = <[(ch_dir c, VPN va) := (p, perm_flags perm)]> (maps (uvm (prog s))) !! k;
  fi_same : dirs A = dirs (uvm (prog s)) ∧ pins A = pins (uvm (prog s));
  fi_room : (length (free (uvm (prog s))) ≤ 3 + length (free A))%nat;
  fi_count : ∀ q, count q (maps A) ≤ count q (maps (uvm (prog s))) + 2;
  fi_temp : maps (uvm (prog s)) !! (udir (prog s), VPN UTEMP) = None → maps A !! (udir (prog s), VPN UTEMP) = None;
  fi_mem : only_page p (umem (prog s)) m;
  fi_page : mapped_page m p = content
}.

Lemma user_perm_id perm : has perm PTE_U = true → user_perm perm = perm.
Proof using.
  intros H1. unfold user_perm. apply Z.bits_inj'. intros n Hn. rewrite Z.lor_spec.
  change (has perm (Z.shiftl 1 4) = true) in H1. rewrite has_bit in H1 by lia. change PTE_U with (2 ^ 4).
  destruct (decide (n = 4)) as [->|Hne]; [by rewrite H1|].
  rewrite Z.pow2_bits_false by lia. by rewrite orb_false_r.
Qed.

Lemma has_user_W perm : has (user_perm (Z.lor perm PTE_W)) PTE_W = true.
Proof using.
  unfold user_perm. change (has (Z.lor (Z.lor perm (2 ^ 2)) PTE_U) (Z.shiftl 1 2) = true).
  rewrite has_bit by lia. rewrite !Z.lor_spec. change (Z.testbit (2 ^ 2) 2) with true. by rewrite orb_true_r.
Qed.

Definition file_src (a : Z) : Z := nth (Z.to_nat (a - INDEX2DATA i)) bytes 0.

Lemma spawn_mapper_ok s va offset perm from len p fl :
  ready s → free (uvm (prog s)) = p :: fl → (2 ≤ length fl)%nat → UTEMP ≤ va < UTOP → 0 ≤ perm < 1024 → has perm PTE_U = true →
  copy_ok (INDEX2DATA i) (INDEX2DATA i + Z.of_nat (length bytes)) from offset len →
  ∃ A m, spawn_mapper ch va offset perm from len s = Ok tt (at_vm A m s) ∧
    filled s va perm p (new_page file_src from offset len) A m.
Proof using.
  intros [Hr Hd [Hch Hkid] [Hcd Hne] [off Hof]] Hf Hl Hva Hp HU Hcopy.
  destruct (real_free np _ p Hr ltac:(rewrite Hf; apply list_elem_of_here)) as (Hpn & Hpm & Hpin & _ & _).
  assert (Hpl : 0 ≤ p < PAGE_LIMIT) by (pose proof (real_limit np _ Hr); lia).
  assert (Hdir : ∀ A m, dir_of ch (at_vm A m s) = Some (ch_dir c)).
  { intros A m. unfold dir_of. rewrite (proj2 (Z.eqb_neq _ _)) by done. change (kids (at_vm A m s)) with (kids s). by rewrite Hkid. }
  pose proof (Hdir (uvm (prog s)) (umem (prog s))) as Hdir0. rewrite at_vm_id in Hdir0.
  destruct (f_mem_alloc_ok np s ch (ch_dir c) va perm p fl Hdir0 Hr Hcd Hva Hp Hf ltac:(lia))
    as (A1 & E1 & [I1 I2 I3 I4 I5] & L1).
  rewrite user_perm_id in I2 by done. set (m0 := umem (prog s)) in *. set (m1 := clear_page (page2pa p) m0) in *.
  unfold spawn_mapper. rewrite (bind_ok _ _ _ _ _ E1). change (negb (0 =? 0)) with false. cbv iota.
  assert (Hom1 : only_page p m0 m1) by (by apply only_page_clear).
  destruct from as [src|].
  2: { exists A1, m1. split; [done|]. split; try done.
    - intros k _. by rewrite I2.
    - rewrite Hf. cbn [length]. lia.
    - intros q. rewrite I2. pose proof (count_insert_any q p (perm_flags perm) (ch_dir c, VPN va) (maps (uvm (prog s)))). lia.
    - intros Hn. by rewrite I2, lookup_insert_ne by congruence.
    - apply page_bytes_ext. intros j Hj. unfold m1. rewrite ppage_clear, decide_True by done. apply page_byte_empty. }
  destruct Hcopy as (Hlo & Hhi & Ho & Hlen & Hsum). change BY2PG with 4096 in Hsum.
  assert (Hpw : 0 ≤ Z.lor perm PTE_W < 1024) by (by apply (lor_bound _ _ 10)).
  destruct (perm_fits_small p _ Hpw) as [Hfit Hand].
  destruct (f_mem_map_ok np (at_vm A1 m1 s) ch (ch_dir c) va 0 (udir (prog s)) UTEMP (Z.lor perm PTE_W) p (perm_flags perm))
    as (A2 & E2 & [J1 J2 J3 J4 J5] & L2 & _); [by apply Hdir|done|exact I1| |done|done|exact Hfit| | | |].
  { change (udir (prog s) ∈ dirs A1). by rewrite I3. }
  { change ((1 ≤ length (free A1))%nat). lia. }
  { change (maps A1 !! (ch_dir c, VPN va) = Some (p, perm_flags perm)). rewrite I2. apply lookup_insert_eq. }
  { change (count p (maps A1) + pin A1 p < 2 ^ 16 - 1). unfold pin in *. rewrite I4, I2, Hpin.
    pose proof (count_insert_any p p (perm_flags perm) (ch_dir c, VPN va) (maps (uvm (prog s)))).
    rewrite (count_zero p (maps (uvm (prog s)))) in * by done. lia. }
  rewrite Hand in J2. change (uvm (prog (at_vm A1 m1 s))) with A1 in *. change (umem (prog (at_vm A1 m1 s))) with m1 in *.
  change (at_vm A2 m1 (at_vm A1 m1 s)) with (at_vm A2 m1 s) in E2.
  rewrite (bind_ok _ _ _ _ _ E2). change (negb (0 =? 0)) with false. cbv iota.
  pose proof (INDEX2DATA_eq i (of_num _ _ _ _ _ _ _ Hof)) as HD. pose proof (of_num _ _ _ _ _ _ _ Hof) as Hi. unfold MAXFD in Hi.
  pose proof (of_len _ _ _ _ _ _ _ Hof) as Hlen4. change MAXFILESIZE with 4194304 in Hlen4.
  assert (Hs2 : ∀ a, 0x5FC00000 ≤ a → slot (prog (at_vm A2 m1 s)) a = slot (prog s) a).
  { intros a Ha. unfold slot. change (maps A2 !! (udir (prog s), VPN a) = maps (uvm (prog s)) !! (udir (prog s), VPN a)).
    rewrite J2, I2, !lookup_insert_ne; [done|congruence|]. intros [= E]. rewrite !VPN_div in E. change UTEMP with 4186112 in E.
    change BY2PG with 4096 in E. pose proof (Z.div_le_mono 0x5FC00000 a 4096 ltac:(lia) Ha) as Hq.
    change (0x5FC00000 / 4096) with 392192 in Hq. change (4186112 / 4096) with 1022 in E. lia. }
  assert (Hfile : open_file (prog (at_vm A2 m1 s)) i pf id omode bytes off).
  { apply (open_file_same (prog s)); [done|exact Hs2|]. intros a q f _ Hq. apply Hom1. intros ->. by apply (Hpm _ _ Hq). }
  set (w2 := prog (at_vm A2 m1 s)) in *.
  assert (Hut : slot w2 UTEMP = Some (p, perm_flags (user_perm (Z.lor perm PTE_W)))).
  { unfold slot. change (maps A2 !! (udir (prog s), VPN UTEMP) = Some (p, perm_flags (user_perm (Z.lor perm PTE_W)))).
    rewrite J2. apply lookup_insert_eq. }
  assert (Hbyte : ∀ k, 0 ≤ k < len → mem_byte w2 (src + k) = Some (file_src (src + k))).
  { intros k Hk. unfold file_src. replace (src + k) with (INDEX2DATA i + Z.of_nat (Z.to_nat (src + k - INDEX2DATA i))) at 1 by lia.
    apply (of_data _ _ _ _ _ _ _ Hfile). apply lookup_nth. lia. }
  pose proof (u_memcpy_ok p _ (Z.to_nat len) offset src (λ k, file_src (src + k)) w2 Hut) as E3.
  rewrite Z2Nat.id in E3 by done. specialize (E3 ltac:(apply has_W_flags; by apply has_user_W) Hpl Ho Hsum Hbyte).
  set (m3 := write_bytes (page2pa p + offset) (map (λ k, file_src (src + k)) (seqZ 0 len)) m1).
  assert (E3' : u_memcpy (UTEMP + offset) src (Z.to_nat len) w2 = Ok tt (set_umem m3 w2)).
  { apply E3. intros k q f' Hk Hq. replace (src + k) with (INDEX2DATA i + Z.of_nat (Z.to_nat (src + k - INDEX2DATA i))) in Hq by lia.
    split; [|by apply (of_apart _ _ _ _ _ _ _ Hfile (Z.to_nat (src + k - INDEX2DATA i)) q f' ltac:(lia) Hq)].
    intros ->. rewrite Hs2 in Hq by lia. by apply (Hpm _ _ Hq). }
  rewrite (bind_ok _ _ _ _ _ (onw_ok _ _ _ _ E3')). change (set_prog (set_umem m3 w2) (at_vm A2 m1 s)) with (at_vm A2 m3 s).
  destruct (f_mem_unmap_ok np (at_vm A2 m3 s) 0 (udir (prog s)) UTEMP eq_refl J1) as (A3 & E4 & [K1 K2 K3 K4 K5]).
  { change (udir (prog s) ∈ dirs A2). by rewrite J3, I3. }
  { done. }
  rewrite (bind_ok _ _ _ _ _ E4). change (negb (0 =? 0)) with false. cbv iota.
  change (uvm (prog (at_vm A2 m3 s))) with A2 in *.
  exists A3, m3. split; [done|]. split.
  - exact K1.
  - intros k Hk. by rewrite K2, J2, lookup_delete_ne, lookup_insert_ne, I2.
  - by rewrite K3, J3, I3, K4, J4, I4.
  - rewrite Hf. cbn [length]. lia.
  - intros q. rewrite K2, J2.
    pose proof (count_subseteq q _ _ (delete_subseteq (<[(udir (prog s), VPN UTEMP):=(p, perm_flags (user_perm (Z.lor perm PTE_W)))]> (maps A1)) (udir (prog s), VPN UTEMP))).
    pose proof (count_insert_any q p (perm_flags (user_perm (Z.lor perm PTE_W))) (udir (prog s), VPN UTEMP) (maps A1)).
    pose proof (count_insert_any q p (perm_flags perm) (ch_dir c, VPN va) (maps (uvm (prog s)))). rewrite I2 in *. lia.
  - intros _. rewrite K2. apply lookup_delete_eq.
  - eapply only_page_trans; [exact Hom1|]. apply only_page_write; [done|done|].
    rewrite length_map, length_seqZ. lia.
  - unfold m3, m1. rewrite mapped_page_written; [reflexivity|exact Hpl|exact Ho|exact Hlen|exact Hsum|]. intros k Hk.
    specialize (Hbyte k Hk). unfold mem_byte in Hbyte. repeat case_match; try done. injection Hbyte as <-. apply load8_u8.
Qed.

(** * The image of the child *)

(** [s0] is the family before the segments are loaded, [N] the number of pages
    they take in all; [n] of them are still to come, and the pages [I] of the
    child are there.  Other mappings and the pages behind them stay, but for
    UTEMP and the page [pf] of the descriptor. *)
Section image.
Context (s0 : family) (N : nat).

Record child_image (n : nat) (s : family) (I : image) : Prop := {
  ci_state : s = at_vm (uvm (prog s)) (umem (prog s)) s0;
  ci_ready : ready s;
  ci_same : dirs (uvm (prog s)) = dirs (uvm (prog s0)) ∧ pins (uvm (prog s)) = pins (uvm (prog s0));
  ci_room : (3 * n ≤ length (free (uvm (prog s))))%nat;
  ci_pages : ∀ v perm l, I !! v = Some (perm, l) → ∃ p, maps (uvm (prog s)) !! (ch_dir c, v) = Some (p, perm_flags perm) ∧
    mapped_page (umem (prog s)) p = l ∧
    ∀ va q f, VPN va ≠ VPN UTEMP → slot (prog s0) va = Some (q, f) → q ≠ p;
  ci_rest : ∀ k, k ≠ (udir (prog s0), VPN UTEMP) → (k.1 ≠ ch_dir c ∨ I !! k.2 = None) →
    maps (uvm (prog s)) !! k = maps (uvm (prog s0)) !! k ∧
    ∀ p f, maps (uvm (prog s0)) !! k = Some (p, f) → p ≠ pf → ppage (umem (prog s)) p = ppage (umem (prog s0)) p;
  ci_temp : maps (uvm (prog s)) !! (udir (prog s0), VPN UTEMP) = None;
  ci_count : ∀ q, count q (maps (uvm (prog s))) + 2 * Z.of_nat n ≤ count q (maps (uvm (prog s0))) + 2 * Z.of_nat N
}.

Lemma ci_slot n s I va : child_image n s I → VPN va ≠ VPN UTEMP → slot (prog s) va = slot (prog s0) va.
Proof using.
  intros Hci Hva. assert (Hu : udir (prog s) = udir (prog s0)) by (rewrite (ci_state _ _ _ Hci); done).
  unfold slot. rewrite Hu. apply (ci_rest _ _ _ Hci); [congruence|]. left. cbn.
  destruct (rd_kid_dir _ (ci_ready _ _ _ Hci)) as [_ Hne]. congruence.
Qed.

(** Writing to the descriptor *)
Lemma child_image_fd n s I m :
  child_image n s I → (∃ va f, VPN va ≠ VPN UTEMP ∧ slot (prog s0) va = Some (pf, f)) →
  only_page pf (umem (prog s)) m → (∃ off, open_file (set_umem m (prog s)) i pf id omode bytes off) →
  child_image n (set_prog (set_umem m (prog s)) s) I.
Proof using.
  intros [C1 [R1 R2 R3 R4 R5] C3 C4 C5 C6 C8 C7] (va & f & Hva & Hpf) Hom Hof. split; try done.
  - rewrite C1. done.
  - intros v perm l Hv. destruct (C5 v perm l Hv) as (p & H1 & H2 & H3). exists p. split; [done|]. split; [|done].
    rewrite <- H2. apply mapped_page_ext. apply Hom. intros ->. by apply (H3 va pf f Hva Hpf).
  - intros k Hk Ho. destruct (C6 k Hk Ho) as [H1 H2]. split; [done|]. intros p f' Hp Hne.
    rewrite <- (H2 p f' Hp Hne). by apply Hom.
Qed.

#[export] Instance child_mapper :
  Mapper (spawn_mapper ch) file_src UTEMP (INDEX2DATA i) (INDEX2DATA i + Z.of_nat (length bytes)) child_image.
Proof using.
  intros n s I va offset perm from len Hci Hva Hp HU Hcopy. pose proof Hci as [C1 C2 [C3 C3'] C4 C5 C6 C8 C7].
  destruct (free (uvm (prog s))) as [|p fl] eqn:Hf; cbn [length] in C4; [lia|].
  destruct (spawn_mapper_ok s va offset perm from len p fl C2 Hf ltac:(lia) Hva Hp HU Hcopy) as (A & m & E & [F1 F2 [F3 F3'] F4 F5 F8 F6 F7]).
  exists (at_vm A m s). split; [exact E|]. pose proof C2 as [R1 R2 R3 [R4 R4'] [off R5]].
  destruct (real_free np _ p R1 ltac:(rewrite Hf; apply list_elem_of_here)) as (_ & Hpm & _ & _ & _).
  assert (Hu : udir (prog s) = udir (prog s0)) by (rewrite C1; done).
  assert (Hst : at_vm A m s = at_vm A m s0) by (rewrite C1; done). clear C1.
  assert (Hold : ∀ k q f, maps (uvm (prog s)) !! k = Some (q, f) → ppage m q = ppage (umem (prog s)) q).
  { intros k q f Hk. apply F6. intros ->. by apply (Hpm _ _ Hk). }
  assert (Hsl : ∀ a, VPN a ≠ VPN UTEMP → slot (prog (at_vm A m s)) a = slot (prog s) a).
  { intros a Ha. unfold slot. change (udir (prog (at_vm A m s))) with (udir (prog s)).
    change (uvm (prog (at_vm A m s))) with A. rewrite F2, lookup_insert_ne by congruence. done. }
  split.
  - exact Hst.
  - split; [exact F1| |exact R3| |].
    + change (udir (prog s) ∈ dirs A). rewrite F3. exact R2.
    + change (ch_dir c ∈ dirs A ∧ ch_dir c ≠ udir (prog s)). rewrite F3. exact (conj R4 R4').
    + exists off. apply (open_file_same (prog s)); [done| |].
      * intros a Ha. apply Hsl. rewrite !VPN_div. change BY2PG with 4096. change (UTEMP / 4096) with 1022.
        pose proof (Z.div_le_mono 0x5FC00000 a 4096 ltac:(lia) Ha) as Hq. change (0x5FC00000 / 4096) with 392192 in Hq. lia.
      * intros a q f _ Hq. by apply (Hold _ q f Hq).
  - change (dirs A = dirs (uvm (prog s0)) ∧ pins A = pins (uvm (prog s0))). rewrite F3, F3'. exact (conj C3 C3').
  - change ((3 * n ≤ length (free A))%nat). rewrite Hf in F4. cbn [length] in F4. lia.
  - change (uvm (prog (at_vm A m s))) with A. change (umem (prog (at_vm A m s))) with m.
    intros v perm' l Hv. apply lookup_insert_Some in Hv as [[<- [= <- <-]]|[Hne Hv]].
    + exists p. split; [rewrite F2 by congruence; apply lookup_insert_eq|]. split; [exact F7|].
      intros a q f Ha Hq ->. rewrite <- (ci_slot _ _ _ _ Hci Ha) in Hq. by apply (Hpm _ _ Hq).
    + destruct (C5 v perm' l Hv) as (p' & H1 & H2 & H3). exists p'.
      split; [rewrite F2, lookup_insert_ne by congruence; exact H1|]. split; [|exact H3].
      rewrite <- H2. apply mapped_page_ext. by apply (Hold _ _ _ H1).
  - change (uvm (prog (at_vm A m s))) with A. change (umem (prog (at_vm A m s))) with m. intros [d v] Hk Ho. cbn in Ho.
    assert (Hne : (d, v) ≠ (ch_dir c, VPN va)).
    { intros [= -> ->]. destruct Ho as [Ho|Ho]; [exact (Ho eq_refl)|]. rewrite lookup_insert_eq in Ho. discriminate. }
    assert (Ho' : d ≠ ch_dir c ∨ I !! v = None).
    { destruct Ho as [Ho|Ho]; [by left|right]. by apply lookup_insert_None in Ho as [? _]. }
    destruct (C6 (d, v) Hk Ho') as [H1 H2].
    assert (Em : maps A !! (d, v) = maps (uvm (prog s)) !! (d, v)) by (rewrite F2, lookup_insert_ne by congruence; done).
    split; [by rewrite Em|]. intros q f Hq Hqf. rewrite <- (H2 q f Hq Hqf). apply (Hold (d, v) q f). by rewrite H1.
  - change (uvm (prog (at_vm A m s))) with A. rewrite <- Hu. apply F8. by rewrite Hu.
  - change (uvm (prog (at_vm A m s))) with A. intros q. specialize (C7 q). specialize (F5 q). lia.
Qed.
End image.
End mapper.

(** * Reading the headers *)

Lemma load8_empty a : load8 ∅ a = 0.
Proof. unfold load8, load, pg. rewrite lookup_empty. cbn. unfold word. rewrite lookup_empty. cbn. by rewrite Z.shiftr_0_l. Qed.

Lemma load8_buf l : ∀ a x, load8 (buf_mem a l) x = if decide (a ≤ x < a + Z.of_nat (length l)) then u8 (nth (Z.to_nat (x - a)) l 0) else 0.
Proof.
  induction l as [|b l IH]; intros a x; cbn [buf_mem].
  - rewrite decide_False by (cbn; lia). apply load8_empty.
  - rewrite load8_store8, length_cons. destruct (decide (a = x)) as [->|Hne].
    + rewrite decide_True by lia. by rewrite Z.sub_diag.
    + rewrite IH. repeat case_decide; try lia; try done. f_equal.
      replace (Z.to_nat (x - a)) with (Datatypes.S (Z.to_nat (x - (a + 1)))) by lia. done.
Qed.

(** Equal bytes make equal headers. *)
Lemma rd_phdr_shift m m' a b : (∀ x, 0 ≤ x < 32 → load8 m (a + x) = load8 m' (b + x)) → rd_phdr m a = rd_phdr m' b.
Proof.
  intros Hx. unfold rd_phdr, rd32, rd16. rewrite <- !Z.add_assoc.
  rewrite <- (Z.add_0_r a) at 1. rewrite <- (Z.add_0_r b) at 1. by rewrite !Hx by lia.
Qed.

(** The file as memory from address 0 on *)
Definition file_mem (bytes : list Z) : memory := buf_mem 0 bytes.

(** A program [spawn] can load *)
Record program_file (bytes : list Z) : Prop := {
  pf_binary : binary_ok (file_mem bytes) 0 (Z.of_nat (length bytes));
  pf_entsize : e_phentsize (file_mem bytes) 0 = 32;
  pf_segs : ∀ ph, ph ∈ phdrs (file_mem bytes) 0 → is_load ph = true →
    UTEMP ≤ p_vaddr ph ∧ p_offset ph < Z.of_nat (length bytes)
}.

(** What the loop needs of [elfbuf]: the end of the ELF header *)
Record header_kept (bytes elfbuf : list Z) : Prop := {
  hk_len : length elfbuf = 512%nat;
  hk_bytes : ∀ x, 32 ≤ x < 52 → nth (Z.to_nat x) elfbuf 0 = nth (Z.to_nat x) bytes 0
}.

Lemma length_read_into buf l : (length l ≤ length buf)%nat → length (read_into buf l) = length buf.
Proof. intros Hl. unfold read_into. rewrite length_app, length_drop. lia. Qed.

Lemma nth_read_into buf l x : nth x (read_into buf l) 0 = if decide (x < length l)%nat then nth x l 0 else nth x buf 0.
Proof.
  unfold read_into. case_decide as Hx; [by rewrite app_nth1|]. rewrite app_nth2 by lia.
  destruct (decide (x < length buf)%nat).
  - apply nth_lookup_Some. rewrite lookup_drop. rewrite (lookup_nth buf) by lia. do 2 f_equal. lia.
  - rewrite !nth_overflow by (rewrite ?length_drop; lia). done.
Qed.

Lemma nth_piece bytes o n x : 0 ≤ o → (x < Z.to_nat n)%nat → nth x (piece bytes o n) 0 = nth (Z.to_nat o + x) bytes 0.
Proof.
  intros Ho Hx. unfold piece. destruct (decide (Z.to_nat o + x < length bytes)%nat) as [Hl|Hl].
  - apply nth_lookup_Some. rewrite lookup_take_lt, lookup_drop, (lookup_nth bytes) by lia. done.
  - rewrite !nth_overflow by (rewrite ?length_take, ?length_drop; lia). done.
Qed.

Lemma length_piece bytes o n : 0 ≤ o → 0 ≤ n → o + n ≤ Z.of_nat (length bytes) → length (piece bytes o n) = Z.to_nat n.
Proof. intros Ho Hn Hl. unfold piece. rewrite length_take, length_drop. lia. Qed.

Lemma kept_fields bytes elfbuf : header_kept bytes elfbuf → 52 ≤ Z.of_nat (length bytes) →
  e_phnum (buf_mem 0 elfbuf) 0 = e_phnum (file_mem bytes) 0 ∧ e_phentsize (buf_mem 0 elfbuf) 0 = e_phentsize (file_mem bytes) 0.
Proof.
  intros [Hl Hb] Hs. unfold e_phnum, e_phentsize, rd16, file_mem. rewrite !load8_buf, Hl.
  rewrite !(decide_True (P := (0 ≤ _ < _))) by lia. by rewrite !Hb by lia.
Qed.

Lemma u32_plus a b : u32 (u32 a + b) = u32 (a + b).
Proof. unfold u32. by rewrite Z.add_mod_idemp_l. Qed.

Lemma checked_ok {A} (m : M family A) k a s s' : m s = Ok a s' → checked m k s = Ok a s'.
Proof. intros E. unfold checked. by rewrite E. Qed.

(** * The loop over the program headers *)

Section loop.
Context `{Neighbours, FileSymbols} (np ch : Z) (c : child) (i pf id omode : Z) (bytes : list Z).
Context (s0 : family) (N : nat).
Context (Hprog : program_file bytes) (Hmode : Z.land omode O_ACCMODE ≠ O_WRONLY).
Context (Hpf : ∃ va f, VPN va ≠ VPN UTEMP ∧ slot (prog s0) va = Some (pf, f)).

Let fm := file_mem bytes.
Let img := child_image np ch c i pf id omode bytes s0 N.

(** Offsets of the headers from number [k] on *)
Definition offs_from (k : Z) : list Z := map (λ j, u32 (e_phoff fm 0 + j * 32)) (seqZ k (e_phnum fm 0 - k)).
Definition phs_from (k : Z) : list Elf32_Phdr := map (λ off, rd_phdr fm off) (offs_from k).

Lemma phdr_offs_from : phdr_offs fm 0 = offs_from 0.
Proof using Hprog. unfold phdr_offs, offs_from. fold fm. rewrite Z.sub_0_r. subst fm. by rewrite (pf_entsize _ Hprog). Qed.

Lemma offs_from_cons k : k < e_phnum fm 0 → offs_from k = u32 (e_phoff fm 0 + k * 32) :: offs_from (k + 1).
Proof using.
  intros Hk. unfold offs_from. rewrite (seqZ_cons k) by lia. cbn [map].
  replace (Z.pred (e_phnum fm 0 - k)) with (e_phnum fm 0 - (k + 1)) by lia. by rewrite Z.add_1_r.
Qed.

Lemma off_in k : 0 ≤ k < e_phnum fm 0 → u32 (e_phoff fm 0 + k * 32) ∈ phdr_offs fm 0.
Proof using Hprog.
  intros Hk. rewrite phdr_offs_from. unfold offs_from. apply list_elem_of_In, in_map_iff. exists k. split; [done|].
  apply list_elem_of_In, elem_of_seqZ. lia.
Qed.

Lemma phdr_in k : 0 ≤ k < e_phnum fm 0 → rd_phdr fm (u32 (e_phoff fm 0 + k * 32)) ∈ phdrs fm 0.
Proof using Hprog.
  intros Hk. unfold phdrs. apply list_elem_of_In, in_map_iff. exists (u32 (e_phoff fm 0 + k * 32)).
  split; [done|]. by apply list_elem_of_In, off_in.
Qed.

(** A segment of the file, seen where [read_map] finds it *)
Lemma mapped_seg_ok ph lo : 0 ≤ lo → ph ∈ phdrs fm 0 → is_load ph = true →
  seg_ok UTEMP lo (lo + Z.of_nat (length bytes)) ph (lo + p_offset ph).
Proof using Hprog.
  intros Hlo Hin Hl. destruct (bo_segs _ _ _ (pf_binary _ Hprog) ph Hin Hl) as [S1 S2 S3 S4 S5].
  destruct (pf_segs _ Hprog ph Hin Hl) as [S6 S7]. split; [|done|done|lia|done]. split; [done|exact S6].
Qed.

(** One header *)
Definition load_header (fd off : Z) (elfbuf : list Z) (next : list Z → M family unit) : M family unit :=
  r <- onw (value (seek fd off)) ;;
  if r <? 0 then spawn_err1 ch fd r
  else
    let n := e_phentsize (buf_mem 0 elfbuf) 0 in
    '(r, l) <- checked (onw (readn fd n)) (λ r, ret (r, [])) ;;
    if r <? 0 then spawn_err1 ch fd r
    else if Z.of_nat (length l) >? 512 then fault "elfbuf"
    else
      let elfbuf := read_into elfbuf l in
      let ph := rd_phdr (buf_mem 0 elfbuf) 0 in
      (if p_type ph =? PT_LOAD then
         bin <- checked (onw (read_map fd (p_offset ph))) (λ r, spawn_err1 ch fd r) ;;
         checked (elf_load_seg (spawn_mapper ch) ph bin) (λ r, if r <? 0 then spawn_err1 ch fd r else ret tt)
       else ret tt) ;;
      next elfbuf.

Lemma load_loop_unfold fuel fd k ph_off elfbuf s :
  load_loop (Datatypes.S fuel) fd ch k ph_off elfbuf s =
    (if k <? e_phnum (buf_mem 0 elfbuf) 0 then
       load_header fd ph_off elfbuf (λ elfbuf', load_loop fuel fd ch (k + 1) (u32 (ph_off + e_phentsize (buf_mem 0 elfbuf') 0)) elfbuf')
     else ret tt) s.
Proof using. done. Qed.

Lemma load_header_ok k elfbuf next n s I :
  0 ≤ k < e_phnum fm 0 → header_kept bytes elfbuf →
  let off := u32 (e_phoff fm 0 + k * 32) in
  let ph := rd_phdr fm off in
  img ((if is_load ph then Z.to_nat (seg_pages ph) else O) + n) s I →
  ∃ s' elfbuf', load_header i off elfbuf next s = next elfbuf' s' ∧ header_kept bytes elfbuf' ∧
    img n s' (if is_load ph then add_seg (file_src i bytes) ph (INDEX2DATA i + p_offset ph) I else I).
Proof using Hprog Hmode Hpf.
  intros Hk Hhk off ph Himg. pose proof (elf_size _ _ _ (pf_binary _ Hprog)) as Hsz.
  destruct (kept_fields bytes elfbuf Hhk Hsz) as [_ Hent]. fold fm in Hent.
  destruct (bo_phdrs _ _ _ (pf_binary _ Hprog) off (off_in k Hk)) as [Ho1 Ho2].
  unfold load_header.
  (* seek *)
  pose proof (ci_ready _ _ _ _ _ _ _ _ _ _ _ _ _ Himg) as [R1 R2 _ _ [off0 R5]].
  pose proof (of_len _ _ _ _ _ _ _ R5) as Hlen. change MAXFILESIZE with 4194304 in Hlen.
  pose proof (of_num _ _ _ _ _ _ _ R5) as Hi. destruct (of_page _ _ _ _ _ _ _ R5) as [Hpl _].
  pose proof (seek_ok np (prog s) i pf id omode bytes off0 (conj R1 R2) R5 off) as Es.
  pose proof (with_offset_open (prog s) i pf id omode bytes off0 R5 off ltac:(lia)) as Hof1.
  assert (Ev : value (seek i off) (prog s) = Ok 0 (with_offset (prog s) pf off)) by (unfold value; by rewrite Es).
  rewrite (bind_ok _ _ _ _ _ (onw_ok _ _ _ _ Ev)). change (0 <? 0) with false. cbv iota zeta.
  set (s1 := set_prog (with_offset (prog s) pf off) s).
  assert (Himg1 : img ((if is_load ph then Z.to_nat (seg_pages ph) else O) + n) s1 I).
  { apply child_image_fd; [exact Himg|exact Hpf| |by exists off]. by apply (only_page_store _ pf (4 * W_OFFSET)). }
  (* readn *)
  assert (Hes : e_phentsize fm 0 = 32) by exact (pf_entsize _ Hprog). rewrite Hent, Hes.
  destruct (readn_ok np (prog s1) i pf id omode bytes off 32 (conj R1 R2) Hof1 Hmode ltac:(lia) Ho1 ltac:(lia))
    as (m & Er & Hom & Hof2).
  assert (El : length (piece bytes off 32) = 32%nat) by (by rewrite length_piece by lia).
  rewrite (bind_ok _ _ _ _ _ (checked_ok _ _ _ _ _ (onw_ok _ _ _ _ Er))).  rewrite El. cbn [fst snd]. change (Z.of_nat 32 <? 0) with false. change (Z.of_nat 32 >? 512) with false. cbv iota zeta.
  set (elfbuf' := read_into elfbuf (piece bytes off 32)). set (s2 := set_prog (set_umem m (prog s1)) s1).
  destruct Hhk as [HL HB].
  assert (Hnth : ∀ x, nth x elfbuf' 0 = if decide (x < 32)%nat then nth (Z.to_nat off + x) bytes 0 else nth x elfbuf 0).
  { intros x. unfold elfbuf'. rewrite nth_read_into, El. case_decide; [|done]. by apply nth_piece. }
  assert (Hhk' : header_kept bytes elfbuf').
  { split; [unfold elfbuf'; rewrite length_read_into by lia; exact HL|]. intros x Hx. rewrite Hnth, decide_False by lia. by apply HB. }
  assert (Hph : rd_phdr (buf_mem 0 elfbuf') 0 = ph).
  { apply rd_phdr_shift. intros x Hx. subst fm. unfold file_mem. rewrite !load8_buf, (hk_len _ _ Hhk').
    rewrite !(decide_True (P := (0 ≤ _ < _))) by lia. rewrite Hnth, decide_True by lia. do 2 f_equal. lia. }
  rewrite Hph. fold (is_load ph).
  assert (Himg2 : img ((if is_load ph then Z.to_nat (seg_pages ph) else O) + n) s2 I).
  { apply child_image_fd; [exact Himg1|exact Hpf|exact Hom|]. eexists. exact Hof2. }
  pose proof (phdr_in k Hk) as Hin. fold off ph in Hin.
  destruct (is_load ph) eqn:Eload.
  2: { rewrite (bind_ok (ret tt) _ _ _ _ eq_refl). by exists s2, elfbuf'. }
  (* the segment *)
  destruct (pf_segs _ Hprog ph Hin Eload) as [_ Hpo].
  destruct (bo_segs _ _ _ (pf_binary _ Hprog) ph Hin Eload) as [_ _ _ [S4 _] _].
  pose proof (read_map_ok np (prog s2) i pf id omode bytes _ (conj R1 R2) Hof2 (p_offset ph) ltac:(lia)) as Em.
  assert (Em' : checked (onw (read_map i (p_offset ph))) (λ r, spawn_err1 ch i r) s2 = Ok (INDEX2DATA i + p_offset ph) s2).
  { rewrite (checked_ok _ _ _ _ _ (onw_ok _ _ _ _ Em)). by rewrite set_prog_id. }
  rewrite bind_assoc, (bind_ok _ _ _ _ _ Em').
  pose proof (INDEX2DATA_eq i Hi) as HD. unfold MAXFD in Hi.
  destruct (elf_load_seg_ok (Mapper0 := child_mapper np ch c i pf id omode bytes s0 N) ph (INDEX2DATA i + p_offset ph)
    (mapped_seg_ok ph (INDEX2DATA i) ltac:(lia) Hin Eload) I n s2 Himg2) as (s3 & Eseg & Himg3).
  exists s3, elfbuf'. split; [|by split]. by rewrite (bind_ok _ _ _ _ _ (checked_ok _ _ _ _ _ Eseg)).
Qed.

Lemma load_loop_ok fuel : ∀ k elfbuf n s I,
  0 ≤ k ≤ e_phnum fm 0 → (Z.to_nat (e_phnum fm 0 - k) < fuel)%nat → header_kept bytes elfbuf →
  img (program_pages (phs_from k) + n) s I →
  ∃ s', load_loop fuel i ch k (u32 (e_phoff fm 0 + k * 32)) elfbuf s = Ok tt s' ∧
    img n s' (program (file_src i bytes) (INDEX2DATA i) (phs_from k) I).
Proof using Hprog Hmode Hpf.
  induction fuel as [|fuel IH]; intros k elfbuf n s I Hk Hf Hhk Himg; [lia|]. rewrite load_loop_unfold.
  pose proof (elf_size _ _ _ (pf_binary _ Hprog)) as Hsz. destruct (kept_fields bytes elfbuf Hhk Hsz) as [Hnum _]. fold fm in Hnum.
  rewrite Hnum. destruct (Z.ltb_spec k (e_phnum fm 0)) as [Hlt|Hge].
  - unfold phs_from in Himg |- *. rewrite offs_from_cons in Himg |- * by done. cbn [map] in Himg |- *.
    rewrite program_cons. fold (phs_from (k + 1)) in Himg |- *. cbn [program_pages foldr] in Himg.
    fold (program_pages (phs_from (k + 1))) in Himg. rewrite <- Nat.add_assoc in Himg.
    destruct (load_header_ok k elfbuf (λ elfbuf', load_loop fuel i ch (k + 1)
      (u32 (u32 (e_phoff fm 0 + k * 32) + e_phentsize (buf_mem 0 elfbuf') 0)) elfbuf') _ s I (conj (proj1 Hk) Hlt) Hhk Himg)
      as (s1 & elfbuf' & E & Hhk' & Himg1).
    rewrite E. destruct (kept_fields bytes elfbuf' Hhk' Hsz) as [_ Hent]. fold fm in Hent.
    assert (Hes : e_phentsize fm 0 = 32) by exact (pf_entsize _ Hprog). rewrite Hent, Hes, u32_plus.
    replace (e_phoff fm 0 + k * 32 + 32) with (e_phoff fm 0 + (k + 1) * 32) by lia.
    apply IH; [lia|lia|done|exact Himg1].
  - exists s. split; [done|]. unfold phs_from, offs_from in *. rewrite seqZ_nil in * by lia. exact Himg.
Qed.
End loop.
