(* ===== verification/SpawnRun.v ===== *)
(** [spawn] as a whole: the shared pages, and the theorem that puts together
    opening the file, making the child, its stack, its segments and closing. *)
From S2P Require Import Prelude Mmu Queue Memory Pmap PmapSpec VmSteps BootProofs Disk Env EnvProps Sched SchedProps.
From S2P Require Import Tlbex Syscall StringsProps QueueProps PmapProps SyscallProps TlbProps Elf ElfProps LoadProps.
From S2P Require Import Fs Serv Ulib UlibProps WorldProps Fd File Dev FileProps Spawn SpawnProps SpawnLoad.

(** * Shared pages *)

(** The page of number [v] that directory [d] shares with children *)
Definition library (A : vm) (d v : Z) : option (Z * Z) :=
  match maps A !! (d, v) with
  | Some (p, f) => if has f PTE_LIBRARY then Some (p, f) else None
  | None => None
  end.

(** Their number among the first [n] pages *)
Definition libraries (A : vm) (d n : Z) : nat := length (filter (λ v, is_Some (library A d v)) (seqZ 0 n)).

Lemma libraries_add A d n k : 0 ≤ n → 0 ≤ k →
  libraries A d (n + k) = (libraries A d n + length (filter (λ v, is_Some (library A d v)) (seqZ n k)))%nat.
Proof. intros Hn Hk. unfold libraries. rewrite seqZ_app by lia. by rewrite filter_app, length_app, Z.add_0_l. Qed.

Lemma libraries_mono A d n m : 0 ≤ n ≤ m → (libraries A d n ≤ libraries A d m)%nat.
Proof. intros H. replace m with (n + (m - n)) by lia. rewrite libraries_add by lia. lia. Qed.

Lemma libraries_S A d n : 0 ≤ n →
  libraries A d (n + 1) = (libraries A d n + (if decide (is_Some (library A d n)) then 1 else 0))%nat.
Proof.
  intros Hn. rewrite libraries_add by lia. change (seqZ n 1) with [0 + n]. rewrite Z.add_0_l.
  rewrite filter_cons. case_decide; by rewrite filter_nil.
Qed.

Lemma filter_nothing {A} (P : A → Prop) `{!∀ x, Decision (P x)} l : (∀ x, x ∈ l → ¬ P x) → filter P l = [].
Proof.
  induction l as [|x l IH]; intros Hno; [done|]. rewrite filter_cons, decide_False by (apply Hno, list_elem_of_here).
  apply IH. intros y Hy. apply Hno. by apply list_elem_of_further.
Qed.

Lemma libraries_none A d n k : 0 ≤ n → 0 ≤ k → (∀ v, n ≤ v < n + k → library A d v = None) →
  libraries A d (n + k) = libraries A d n.
Proof.
  intros Hn Hk Hno. rewrite libraries_add, filter_nothing by (done || intros v Hv%elem_of_seqZ; rewrite Hno by lia; apply is_Some_None).
  cbn [length]. lia.
Qed.

Lemma length_filter_imp {A} (P Q : A → Prop) `{!∀ x, Decision (P x), !∀ x, Decision (Q x)} l :
  (∀ x, P x → Q x) → (length (filter P l) ≤ length (filter Q l))%nat.
Proof.
  intros Hpq. induction l as [|x l IH]; [done|]. rewrite !filter_cons. repeat case_decide; cbn; try lia. naive_solver.
Qed.

(** Permission words that [share_page] takes from an entry *)
Lemma entry_perm p f : 0 ≤ f < 1024 →
  let perm := Z.land (Z.lor (Z.shiftl (p + PPN0) 10) f) (Z.shiftl 1 PGSHIFT - 1) in
  Z.land perm 0x3FF = f ∧ perm_fits p perm ∧ has perm PTE_V = has f PTE_V ∧ has perm PTE_LIBRARY = has f PTE_LIBRARY.
Proof.
  intros Hf perm. assert (Hlow : Z.land perm 0x3FF = f).
  { unfold perm. change (Z.shiftl 1 PGSHIFT - 1) with (Z.ones 12). change 0x3FF with (Z.ones 10).
    apply Z.bits_inj'. intros n Hn. rewrite !Z.land_spec, Z.lor_spec. destruct (Z.ltb_spec n 10).
    - rewrite !Z.ones_spec_low, Z.shiftl_spec_low by lia. by rewrite !andb_true_r.
    - rewrite (Z.ones_spec_high 10) by lia. rewrite andb_false_r. symmetry.
      rewrite <- (Z.mod_small f (2 ^ 10)) by lia. by rewrite Z.mod_pow2_bits_high by lia. }
  assert (Hbit : ∀ j, 0 ≤ j < 10 → Z.testbit perm j = Z.testbit f j).
  { intros j Hj. rewrite <- Hlow. change 0x3FF with (Z.ones 10). rewrite Z.land_spec, Z.ones_spec_low by lia. by rewrite andb_true_r. }
  split; [exact Hlow|]. split; [|split].
  - unfold perm_fits, perm. change (Z.shiftl 1 PGSHIFT - 1) with (Z.ones 12). apply Z.bits_inj'. intros n Hn.
    rewrite Z.lor_spec, Z.shiftr_spec, Z.land_spec, Z.lor_spec, Z.shiftl_spec by lia.
    replace (n + 10 - 10) with n by lia.
    assert (Z.testbit f (n + 10) = false) as -> by (rewrite <- (Z.mod_small f (2 ^ 10)) by lia; by rewrite Z.mod_pow2_bits_high by lia).
    destruct (Z.testbit (p + PPN0) n); cbn; [done|]. done.
  - change PTE_V with (2 ^ 0). rewrite !has_testbit by lia. by apply Hbit.
  - change PTE_LIBRARY with (2 ^ 9). rewrite !has_testbit by lia. by apply Hbit.
Qed.

(** Number of user pages *)
Definition user_pages : Z := (PDX USTACKTOP + 1) * 1024.

Lemma page_vpn v : 0 ≤ v < user_pages →
  VPN (v * BY2PG) = v ∧ PDX (v * BY2PG) = v / 1024 ∧ 0 ≤ v * BY2PG < UTOP.
Proof.
  intros Hv. change user_pages with 521216 in Hv.
  assert (Hva : 0 ≤ v * BY2PG < UTOP) by (change BY2PG with 4096; change UTOP with 2134900736; lia).
  assert (E : VPN (v * BY2PG) = v) by (rewrite VPN_div; by apply Z.div_mul).
  destruct (vpn_range 0 _ Hva) as (_ & _ & Hp & _). by rewrite E in Hp.
Qed.

(** The tables the program has keep it from a panic of [vpt]. *)
Lemma u_vpt_word_ok `{Neighbours} w v : 0 ≤ v < user_pages → is_Some (tabs (uvm w) !! (udir w, v / 1024)) →
  u_vpt_word (v * BY2PG) w =
    Ok (match maps (uvm w) !! (udir w, v) with Some (p, f) => Z.lor (Z.shiftl (p + PPN0) 10) f | None => 0 end) w.
Proof.
  intros Hv Ht. destruct (page_vpn v Hv) as (E1 & E2 & E3). unfold u_vpt_word.
  assert (Eb : u_vpd (v * BY2PG) w = Ok true w).
  { unfold u_vpd. rewrite Z.geb_leb, (proj2 (Z.leb_gt _ _)) by lia. unfold gets. by rewrite E2, bool_decide_true. }
  rewrite (bind_ok _ _ _ _ _ Eb). unfold gets, slot. by rewrite E1.
Qed.

Section share.
Context `{Neighbours, FileSymbols} (np ch : Z) (c : child) (s0 : family).

Let d := udir (prog s0).
Let A0 := uvm (prog s0).
(** What sharing needs: shared pages are above UTEMP, and there is room for
    tables and references. *)
Record sharable : Prop := {
  sb_real : real np A0;
  sb_kid : ch ≠ 0 ∧ kids s0 !! ch = Some c;
  sb_dirs : ch_dir c ∈ dirs A0 ∧ ch_dir c ≠ d;
  sb_above : ∀ v, is_Some (library A0 d v) → VPN UTEMP ≤ v;
  sb_room : (libraries A0 d user_pages ≤ length (free A0))%nat;
  sb_count : ∀ v p f, library A0 d v = Some (p, f) →
    count p (maps A0) + pin A0 p + Z.of_nat (libraries A0 d user_pages) < 2 ^ 16
}.

(** The first [n] pages have been looked at. *)
Record sharing (n : Z) (s : family) : Prop := {
  sg_state : s = at_vm (uvm (prog s)) (umem (prog s0)) s0;
  sg_real : real np (uvm (prog s));
  sg_same : dirs (uvm (prog s)) = dirs A0 ∧ pins (uvm (prog s)) = pins A0;
  sg_room : (length (free A0) ≤ libraries A0 d n + length (free (uvm (prog s))))%nat;
  sg_count : ∀ q, count q (maps (uvm (prog s))) ≤ count q (maps A0) + Z.of_nat (libraries A0 d n);
  sg_tabs : ∀ k, is_Some (tabs A0 !! k) → is_Some (tabs (uvm (prog s)) !! k);
  sg_maps : ∀ k, maps (uvm (prog s)) !! k =
    if decide (k.1 = ch_dir c ∧ 0 ≤ k.2 < n) then
      match library A0 d k.2 with Some (p, f) => Some (p, perm_flags (user_perm f)) | None => maps A0 !! k end
    else maps A0 !! k
}.

Context (Hsb : sharable).

(** Looking at a page that is not shared *)
Lemma sharing_skip n s : 0 ≤ n → sharing n s → library A0 d n = None → sharing (n + 1) s.
Proof using.
  intros Hn [G1 G2 G3 G4 G5 G6 G7] Hno.
  assert (El : libraries A0 d (n + 1) = libraries A0 d n).
  { apply libraries_none; [done|lia|]. intros v Hv. by replace v with n by lia. }
  split; rewrite ?El; try done. intros k. rewrite G7. repeat case_decide; try done; [lia|].
  replace k.2 with n by lia. by rewrite Hno.
Qed.

Lemma share_page_ok n s :
  sharing n s → 0 ≤ n < user_pages → is_Some (tabs (uvm (prog s)) !! (d, n / 1024)) →
  ∃ s', share_page ch n s = Ok tt s' ∧ sharing (n + 1) s' ∧
    ∀ k, is_Some (tabs (uvm (prog s)) !! k) → is_Some (tabs (uvm (prog s')) !! k).
Proof using H Hsb.
  intros Hsh Hn Ht. pose proof Hsh as [G1 G2 [G3 G3'] G4 G5 G6 G7]. destruct Hsb as [B1 [B2 B2'] [B3 B3'] B4 B5 B6].
  destruct (page_vpn n Hn) as (E1 & E2 & E3).
  assert (Hu : udir (prog s) = d) by (rewrite G1; done).
  assert (Hown : maps (uvm (prog s)) !! (d, n) = maps A0 !! (d, n)) by (rewrite G7, decide_False by (cbn; naive_solver); done).
  unfold share_page.
  pose proof (u_vpt_word_ok (prog s) n Hn ltac:(rewrite Hu; exact Ht)) as Ew. rewrite Hu, Hown in Ew.
  rewrite (bind_ok _ _ _ _ _ (onw_ok _ _ _ _ Ew)), set_prog_id. cbv zeta.
  destruct (maps A0 !! (d, n)) as [[p f]|] eqn:Hm.
  2: { change (has (Z.land 0 (Z.shiftl 1 PGSHIFT - 1)) PTE_V) with false. cbn [andb]. exists s. split; [done|]. split; [|done].
       apply sharing_skip; [lia|done|]. unfold library. by rewrite Hm. }
  destruct (real_map np A0 _ _ p f B1 Hm) as (_ & _ & Hf & HV & _).
  destruct (entry_perm p f Hf) as (P1 & P2 & P3 & P4). cbv zeta in P1, P2, P3, P4. rewrite P3, P4, HV. cbn [andb].
  destruct (has f PTE_LIBRARY) eqn:Hlib.
  2: { exists s. split; [done|]. split; [|done]. apply sharing_skip; [lia|done|]. unfold library. by rewrite Hm, Hlib. }
  assert (Hl : library A0 d n = Some (p, f)) by (unfold library; by rewrite Hm, Hlib).
  pose proof (B4 n ltac:(by rewrite Hl)) as Hab.
  pose proof (libraries_S A0 d n ltac:(lia)) as HS. rewrite decide_True in HS by (by rewrite Hl).
  pose proof (libraries_mono A0 d (n + 1) user_pages ltac:(lia)) as Hle.
  assert (Hva : UTEMP ≤ n * BY2PG < UTOP).
  { change (VPN UTEMP) with 1022 in Hab. change UTEMP with (1022 * 4096). change BY2PG with 4096 in *. lia. }
  assert (Hdir : dir_of ch s = Some (ch_dir c)).
  { unfold dir_of. rewrite (proj2 (Z.eqb_neq _ _)) by done. replace (kids s) with (kids s0) by (rewrite G1; done). by rewrite B2'. }
  destruct (f_mem_map_ok np s 0 d (n * BY2PG) ch (ch_dir c) (n * BY2PG)
    (Z.land (Z.lor (Z.shiftl (p + PPN0) 10) f) (Z.shiftl 1 PGSHIFT - 1)) p f) as (A & E & [I1 I2 I3 I4 I5] & L & HT);
    [unfold dir_of; by rewrite Hu|exact Hdir|exact G2|by rewrite G3|exact Hva|exact Hva|exact P2|lia|by rewrite E1, Hown| |].
  { unfold pin in *. rewrite G3'. specialize (B6 n p f Hl). specialize (G5 p). lia. }
  rewrite (bind_ok _ _ _ _ _ E). change (0 <? 0) with false. cbv iota. rewrite P1, E1 in I2.
  exists (at_vm A (umem (prog s)) s). split; [done|]. split; [|exact HT].
  assert (Em : umem (prog s) = umem (prog s0)) by (rewrite G1; done).
  split.
  - change (at_vm A (umem (prog s)) s = at_vm A (umem (prog s0)) s0). rewrite Em. rewrite G1. done.
  - exact I1.
  - change (dirs A = dirs A0 ∧ pins A = pins A0). rewrite I3, I4. exact (conj G3 G3').
  - change (uvm (prog (at_vm A (umem (prog s)) s))) with A. rewrite HS. lia.
  - change (uvm (prog (at_vm A (umem (prog s)) s))) with A. intros q. rewrite I2, HS. specialize (G5 q).
    pose proof (count_insert_any q p (perm_flags (user_perm f)) (ch_dir c, n) (maps (uvm (prog s)))). lia.
  - intros k Hk. apply HT. by apply G6.
  - change (uvm (prog (at_vm A (umem (prog s)) s))) with A. intros k. rewrite I2.
    destruct (decide (k = (ch_dir c, n))) as [->|Hne].
    + rewrite lookup_insert_eq, decide_True by (cbn; lia). cbn. by rewrite Hl.
    + rewrite lookup_insert_ne by congruence. rewrite G7. destruct k as [d' v]. cbn.
      repeat case_decide; try done; [lia|]. exfalso. apply Hne. f_equal; lia.
Qed.

(** The pages of one table *)
Lemma share_table_ok j k m s : sharing (j * 1024 + k) s → 0 ≤ j ≤ PDX USTACKTOP → 0 ≤ k → k + Z.of_nat m ≤ 1024 →
  is_Some (tabs (uvm (prog s)) !! (d, j)) →
  ∃ s', for_each (seqZ k (Z.of_nat m)) (λ pteno, share_page ch (Z.shiftl j 10 + pteno)) s = Ok tt s' ∧
    sharing (j * 1024 + k + Z.of_nat m) s'.
Proof using H Hsb.
  intros Hs Hj. revert k s Hs. induction m as [|m IH]; intros k s Hs Hk Hm Ht.
  - exists s. split; [done|]. by rewrite Z.add_0_r.
  - rewrite (seqZ_cons k) by lia. cbn [for_each]. rewrite Z.shiftl_mul_pow2 by lia. change (2 ^ 10) with 1024.
    change (PDX USTACKTOP) with 508 in Hj.
    assert (Hp : (j * 1024 + k) / 1024 = j) by (rewrite Z.div_add_l, Z.div_small by lia; lia).
    destruct (share_page_ok (j * 1024 + k) s Hs) as (s1 & E1 & Hs1 & HT); [change user_pages with 521216; lia|by rewrite Hp|].
    rewrite (bind_ok _ _ _ _ _ E1). replace (Z.succ k) with (k + 1) by lia. replace (Z.pred (Z.of_nat (S m))) with (Z.of_nat m) by lia.
    replace (j * 1024 + k + 1) with (j * 1024 + (k + 1)) in Hs1 by lia.
    destruct (IH (k + 1) s1 Hs1 ltac:(lia) ltac:(lia) (HT _ Ht)) as (s2 & E2 & Hs2). exists s2.
    rewrite Z.shiftl_mul_pow2 in E2 by lia. split; [exact E2|].
    replace (j * 1024 + k + Z.of_nat (S m)) with (j * 1024 + (k + 1) + Z.of_nat m) by lia. exact Hs2.
Qed.

(** A table the program has not *)
Lemma sharing_no_table j s : sharing (j * 1024) s → 0 ≤ j → ¬ is_Some (tabs (uvm (prog s)) !! (d, j)) → sharing (j * 1024 + 1024) s.
Proof using Hsb.
  intros Hs Hj Ht. assert (Hno : ∀ v, j * 1024 ≤ v < j * 1024 + 1024 → library A0 d v = None).
  { intros v Hv. unfold library. destruct (maps A0 !! (d, v)) as [[p f]|] eqn:Hm; [|done]. exfalso. apply Ht.
    apply (sg_tabs _ _ Hs). destruct (real_map np A0 _ _ _ _ (sb_real Hsb) Hm) as (_ & _ & _ & _ & Hi).
    replace (v / 1024) with j in Hi; [exact Hi|]. apply (Z.div_unique _ _ _ (v - j * 1024)); lia. }
  assert (Hk : ∀ m, (m ≤ 1024)%nat → sharing (j * 1024 + Z.of_nat m) s).
  { induction m as [|m IH]; intros Hm; [by rewrite Z.add_0_r|].
    replace (j * 1024 + Z.of_nat (S m)) with (j * 1024 + Z.of_nat m + 1) by lia.
    apply sharing_skip; [lia|apply IH; lia|apply Hno; lia]. }
  exact (Hk 1024%nat (le_n _)).
Qed.

Lemma share_library_ok : ∃ s', share_library ch s0 = Ok tt s' ∧ sharing user_pages s'.
Proof using H Hsb.
  assert (Hloop : ∀ m j s, sharing (j * 1024) s → 0 ≤ j → j + Z.of_nat m ≤ PDX USTACKTOP + 1 →
    ∃ s', for_each (seqZ j (Z.of_nat m)) (λ pdeno,
      b <- onw (u_vpd (pdeno * PDMAP)) ;;
      if negb b then ret tt
      else for_each (seqZ 0 (PTX (not32 0) + 1)) (λ pteno, share_page ch (Z.shiftl pdeno 10 + pteno))) s = Ok tt s' ∧
      sharing ((j + Z.of_nat m) * 1024) s').
  { induction m as [|m IH]; intros j s Hs Hj Hm.
    - exists s. split; [done|]. by rewrite Z.add_0_r.
    - rewrite (seqZ_cons j) by lia. cbn [for_each].
      assert (Hva : 0 ≤ j * PDMAP < UTOP).
      { change (PDX USTACKTOP) with 508 in Hm. change PDMAP with 4194304. change UTOP with 2134900736. lia. }
      assert (Hpd : PDX (j * PDMAP) = j).
      { destruct (vpn_range 0 _ Hva) as (_ & _ & Hp & _). rewrite <- Hp, VPN_div. change PDMAP with (1024 * BY2PG).
        rewrite Z.mul_assoc, Z.div_mul, Z.div_mul by done. done. }
      assert (Hu : udir (prog s) = d) by (rewrite (sg_state _ _ Hs); done).
      assert (Eb : u_vpd (j * PDMAP) (prog s) = Ok (bool_decide (is_Some (tabs (uvm (prog s)) !! (d, j)))) (prog s)).
      { unfold u_vpd. rewrite Z.geb_leb, (proj2 (Z.leb_gt _ _)) by lia. unfold gets. by rewrite Hpd, Hu. }
      assert (∃ s1, (b <- onw (u_vpd (j * PDMAP)) ;;
        if negb b then ret tt
        else for_each (seqZ 0 (PTX (not32 0) + 1)) (λ pteno, share_page ch (Z.shiftl j 10 + pteno))) s = Ok tt s1 ∧
        sharing ((j + 1) * 1024) s1) as (s1 & E1 & Hs1).
      { rewrite (bind_ok _ _ _ _ _ (onw_ok _ _ _ _ Eb)), set_prog_id. case_bool_decide as Ht; cbn [negb].
        - destruct (share_table_ok j 0 1024 s) as (s1 & E1 & Hs1); [by rewrite Z.add_0_r|lia|done|done|done|].
          exists s1. split; [exact E1|]. by replace ((j + 1) * 1024) with (j * 1024 + 0 + Z.of_nat 1024) by lia.
        - exists s. split; [done|]. replace ((j + 1) * 1024) with (j * 1024 + 1024) by lia. by apply sharing_no_table. }
      rewrite (bind_ok _ _ _ _ _ E1). replace (Z.succ j) with (j + 1) by lia. replace (Z.pred (Z.of_nat (S m))) with (Z.of_nat m) by lia.
      destruct (IH (j + 1) s1 Hs1 ltac:(lia) ltac:(lia)) as (s2 & E2 & Hs2). exists s2. split; [exact E2|].
      by replace (j + Z.of_nat (S m)) with (j + 1 + Z.of_nat m) by lia. }
  destruct (Hloop 509%nat 0 s0) as (s' & E & Hs'); [|done|done|exists s'; split; [exact E|exact Hs']].
  split; try done; [symmetry; apply at_vm_id|apply Hsb|intros q; fold A0; pose proof (Zle_0_nat (libraries A0 d 0)); lia|].
  intros k. rewrite decide_False by (cbn; lia). done.
Qed.
End share.

(** * A fresh directory *)

Lemma real_new_dir np A d fl : real np A → free A = d :: fl → real np (spec_new_dir A d fl).
Proof.
  intros (s & Hr & Hn) Hf. destruct (new_dir_ok s A d fl Hr Hf) as (s' & _ & Hr' & Hn' & _).
  exists s'. split; [exact Hr'|]. by rewrite Hn'.
Qed.

Lemma real_map_dir np A d v x : real np A → maps A !! (d, v) = Some x → d ∈ dirs A.
Proof.
  intros (s & Hr & _) Hm. destruct x as [p f].
  destruct (wf_map _ _ (rel_wf _ _ Hr) _ _ _ _ Hm) as (_ & [t Ht] & _). by destruct (wf_tab _ _ (rel_wf _ _ Hr) _ _ _ Ht).
Qed.

Lemma real_fresh_dir np A d v : real np A → d ∈ free A → maps A !! (d, v) = None.
Proof.
  intros Hr Hd. destruct (maps A !! (d, v)) as [x|] eqn:Hm; [|done].
  destruct (real_free np A d Hr Hd) as (_ & _ & _ & Hnd & _). destruct (Hnd (real_map_dir np A d v x Hr Hm)).
Qed.

Lemma rd16_bound m a : 0 ≤ rd16 m a < 65536.
Proof.
  unfold rd16, load8, u8. pose proof (Z.mod_pos_bound (Z.shiftr (load m a) (8 * Z.land a 3)) (2 ^ 8) ltac:(lia)).
  pose proof (Z.mod_pos_bound (Z.shiftr (load m (a + 1)) (8 * Z.land (a + 1) 3)) (2 ^ 8) ltac:(lia)). lia.
Qed.

Lemma rd32_bound m a : 0 ≤ rd32 m a < 2 ^ 32.
Proof. unfold rd32. pose proof (rd16_bound m a). pose proof (rd16_bound m (a + 2)). lia. Qed.

(** * The call *)

Section spawned.
Context `{Neighbours, FileSymbols} (quiet : ∀ s, others s = s) (np : Z).
Context (s : family) (i pb pf : Z) (qs : list Z) (permf permd id omode : Z) (bytes : list Z).
Context (ch : Z) (tf : Trapframe) (bs : list (Z * Trapframe)) (argv : list (list Z)).
Context (ds : list reply) (v : Z) (x : Z) (rs : list reply).

Let u := udir (prog s).
Let A0 := uvm (prog s).
Let rest := ds ++ Reply v None x :: rs.
Let fm := file_mem bytes.
Let phs := phdrs fm 0.

(** Pages and references the call may need *)
Definition pages_needed : nat := 3 * length qs + 5 + 3 * program_pages phs + 3 * libraries A0 u user_pages.
Definition refs_needed : Z :=
  2 * Z.of_nat (length qs) + 3 + 2 * Z.of_nat (program_pages phs) + 2 * Z.of_nat (libraries A0 u user_pages).

(** A program file the server will send, arguments that fit, an environment
    and memory: the requests [spawn] makes are answered, and no counter of
    references overflows. *)
Record spawnable : Prop := {
  sp_open : openable np (prog s) i pb pf qs permf permd id omode bytes rest;
  sp_mode : Z.land omode O_ACCMODE ≠ O_WRONLY;
  sp_close : length ds = length qs ∧ Forall (λ r, rp_page r = None) ds ∧ 0 ≤ s32 v;
  sp_file : program_file bytes;
  sp_stack_free : ∀ ph, ph ∈ phs → is_load ph = true → ¬ in_seg ph (VPN (USTACKTOP - BY2PG));
  sp_birth : births s = (ch, tf) :: bs ∧ 0 < ch;
  sp_args : fits argv;
  sp_buf : VPN fsipcbuf ≠ VPN UTEMP;
  sp_above : ∀ w, is_Some (library A0 u w) → VPN UTEMP ≤ w;
  sp_room : (pages_needed ≤ length (free A0))%nat;
  sp_count : ∀ w p f, library A0 u w = Some (p, f) → count p (maps A0) + pin A0 p + refs_needed < 2 ^ 16
}.

Context (Hsp : spawnable).

(** ** The open file *)

(** Pages of the program that the open file takes *)
Definition file_page (w : Z) : Prop :=
  w = VPN (INDEX2FD i) ∨ VPN (INDEX2DATA i) ≤ w < VPN (INDEX2DATA i) + Z.of_nat (length qs).

Record file_opened (w : world) : Prop := {
  fo_settled : settled np w;
  fo_udir : udir w = u ∧ pins (uvm w) = pins A0;
  fo_file : ∃ off, open_file w i pf id omode bytes off;
  fo_request : request_page w pb;
  fo_replies : replies w = rest;
  fo_own : ∀ n, ¬ file_page n → maps (uvm w) !! (u, n) = maps A0 !! (u, n);
  fo_desc : slot w (INDEX2FD i) = Some (pf, perm_flags permf);
  fo_others : ∀ d n, d ≠ u → maps (uvm w) !! (d, n) = maps A0 !! (d, n);
  fo_count : ∀ q, count q (maps (uvm w)) ≤ count q (maps A0) + 2 * Z.of_nat (length qs) + 1;
  fo_room : (length (free A0) ≤ 3 * length qs + 1 + length (free (uvm w)))%nat
}.

Lemma file_num : 0 ≤ i < MAXFD - 1 ∧ 0 ≤ i < MAXFD.
Proof using Hsp. destruct (on_fd _ _ _ _ _ _ _ _ _ _ _ _ (sp_open Hsp)) as (Hi & _). unfold MAXFD in *. lia. Qed.

Lemma spawn_opens path junk : path_ok path = true → length junk = 512%nat →
  ∃ w1 w2 elfbuf, value (open path O_RDONLY) (prog s) = Ok i w1 ∧
    readn i 512 w1 = Ok (Z.of_nat (length (piece bytes 0 512)), piece bytes 0 512) w2 ∧
    elfbuf = read_into junk (piece bytes 0 512) ∧ header_kept bytes elfbuf ∧
    elf_from (buf_mem 0 elfbuf) 0 SIZEOF_EHDR = Some 0 ∧ e_entry (buf_mem 0 elfbuf) 0 = e_entry fm 0 ∧
    e_phoff (buf_mem 0 elfbuf) 0 = e_phoff fm 0 ∧ file_opened w2.
Proof using quiet Hsp.
  intros Hpath Hjunk. pose proof (sp_open Hsp) as Hon. destruct file_num as [Hi Hi'].
  destruct (open_ok np quiet (prog s) i pb pf qs permf permd id omode bytes rest path O_RDONLY Hon Hpath)
    as (w1 & c0 & E1 & Hof & Hop & _ & _).
  pose proof (op_settled _ _ _ _ _ _ _ _ _ _ _ _ _ Hop) as Hs1.
  destruct (readn_ok np w1 i pf id omode bytes 0 512 Hs1 Hof (sp_mode Hsp)) as (m & E2 & Hom & Hof2); [lia|lia|lia|].
  pose proof (elf_size _ _ _ (pf_binary _ (sp_file Hsp))) as Hsz.
  set (elfbuf := read_into junk (piece bytes 0 512)).
  assert (Hlp : 52 ≤ Z.of_nat (length (piece bytes 0 512)) ≤ 512) by (unfold piece; rewrite length_take, length_drop; lia).
  assert (Hnth : ∀ k, 0 ≤ k < 52 → nth (Z.to_nat k) elfbuf 0 = nth (Z.to_nat k) bytes 0).
  { intros k Hk. unfold elfbuf. rewrite nth_read_into, decide_True by lia. rewrite nth_piece by lia. done. }
  assert (Hlen : length elfbuf = 512%nat) by (unfold elfbuf; rewrite length_read_into by lia; exact Hjunk).
  assert (Hagree : ∀ k, 0 ≤ k < 52 → load8 (buf_mem 0 elfbuf) k = load8 fm k).
  { intros k Hk. unfold fm, file_mem. rewrite !load8_buf, Hlen, !(decide_True (P := (0 ≤ _ < _))), Z.sub_0_r by lia. by rewrite Hnth. }
  exists w1, (set_umem m w1), elfbuf. split; [unfold value; by rewrite E1|]. split; [exact E2|]. split; [done|].
  split; [split; [exact Hlen|intros k Hk; apply Hnth; lia]|].
  destruct (ehdr_agree (buf_mem 0 elfbuf) fm 0 52 ltac:(lia) ltac:(intros k Hk; apply Hagree; lia)) as (H1 & _ & H3).
  assert (Hph : e_phoff (buf_mem 0 elfbuf) 0 = e_phoff fm 0) by (unfold e_phoff, rd32, rd16; by rewrite !Hagree by lia).
  split; [|split; [exact H3|split; [exact Hph|]]].
  - change SIZEOF_EHDR with 52. rewrite H1. pose proof (bo_elf _ _ _ (pf_binary _ (sp_file Hsp))) as Ee. fold fm in Ee.
    unfold elf_from in Ee |- *. change (52 >=? SIZEOF_EHDR) with true.
    destruct (Z.of_nat (length bytes) >=? SIZEOF_EHDR); [exact Ee|discriminate].
  - destruct Hop as [_ [O1 O2] O3 O4 _ O5 O6 _ _ _ [O7 O8] _]. rewrite drop_all in O4. split; try done.
    + by exists (0 + Z.of_nat (length (piece bytes 0 512))).
    + exact (request_page_kept w1 (set_umem m w1) pb O3 eq_refl eq_refl).
    + intros n Hn. assert (Hv : VPN (n * BY2PG) = n) by (rewrite VPN_div; by apply Z.div_mul).
      specialize (O5 (n * BY2PG)). unfold slot, opened_slot in O5. rewrite Hv, O1 in O5. unfold file_page in Hn.
      change (maps (uvm (set_umem m w1))) with (maps (uvm w1)). unfold u. rewrite O5.
      destruct (Z.eqb_spec n (VPN (INDEX2FD i))); [naive_solver|]. cbv zeta.
      destruct (Z.leb_spec 0 (n - VPN (INDEX2DATA i))), (Z.ltb_spec (n - VPN (INDEX2DATA i)) (Z.of_nat (length qs)));
        cbn [andb]; try (unfold slot; by rewrite Hv). exfalso. lia.
    + change (slot w1 (INDEX2FD i) = Some (pf, perm_flags permf)). rewrite O5. unfold opened_slot. by rewrite Z.eqb_refl.
Qed.

(** ** The child *)

Definition stack_vpn : Z := VPN (USTACKTOP - BY2PG).
Definition newborn (dd : Z) : child := MkChild dd tf ENV_NOT_RUNNABLE.
Definition child_program : image := program (file_src i bytes) (INDEX2DATA i) phs ∅.

(** After [syscall_exofork] *)
Definition with_child (w : world) (dd : Z) (fl : list Z) : family :=
  MkFamily (set_uvm (spec_new_dir (uvm w) dd fl) w) (<[ch := newborn dd]> (kids s)) bs.

Record born (w : world) (dd : Z) (s5 : family) : Prop := {
  bn_dir : dd ≠ u ∧ ∀ n, maps A0 !! (dd, n) = None;
  bn_fresh : ∀ k f, maps (uvm w) !! k ≠ Some (dd, f);
  bn_state : s5 = MkFamily (set_umem (umem (prog s5)) (set_uvm (uvm (prog s5)) w)) (<[ch := newborn dd]> (kids s)) bs;
  bn_ready : ready np ch (newborn dd) i pf id omode bytes s5;
  bn_pins : pins (uvm (prog s5)) = <[dd := 1]> (pins A0);
  bn_room : (3 * libraries A0 u user_pages ≤ length (free (uvm (prog s5))))%nat;
  bn_own : ∀ n, maps (uvm (prog s5)) !! (u, n) = if decide (n = VPN UTEMP) then None else maps (uvm w) !! (u, n);
  bn_others : ∀ d n, d ≠ u → d ≠ dd → maps (uvm (prog s5)) !! (d, n) = maps (uvm w) !! (d, n);
  bn_count : ∀ q, count q (maps (uvm (prog s5))) ≤ count q (maps (uvm w)) + 1 + 2 * Z.of_nat (program_pages phs);
  bn_program : ∀ n perm l, child_program !! n = Some (perm, l) → ∃ p,
    maps (uvm (prog s5)) !! (dd, n) = Some (p, perm_flags perm) ∧ mapped_page (umem (prog s5)) p = l ∧ p ≠ pb;
  bn_none : ∀ n, child_program !! n = None → n ≠ stack_vpn → maps (uvm (prog s5)) !! (dd, n) = None;
  bn_stack : ∃ p, maps (uvm (prog s5)) !! (dd, stack_vpn) = Some (p, 23) ∧ 0 ≤ p < PAGE_LIMIT ∧ p ≠ pb ∧
    stack_page argv (ppage (umem (prog s5)) p)
}.

(** The family when the stack is there *)
Record stacked (w : world) (dd p : Z) (s4 : family) : Prop := {
  sk_dir : dd ≠ u ∧ ∀ n, maps (uvm w) !! (dd, n) = None;
  sk_fresh : ∀ k f, maps (uvm w) !! k ≠ Some (dd, f);
  sk_state : s4 = MkFamily (set_umem (umem (prog s4)) (set_uvm (uvm (prog s4)) w)) (<[ch := newborn dd]> (kids s)) bs;
  sk_ready : ready np ch (newborn dd) i pf id omode bytes s4;
  sk_pins : pins (uvm (prog s4)) = <[dd := 1]> (pins A0);
  sk_room : (length (free (uvm w)) ≤ 4 + length (free (uvm (prog s4))))%nat;
  sk_maps : maps (uvm (prog s4)) = <[(dd, stack_vpn) := (p, 23)]> (delete (u, VPN UTEMP) (maps (uvm w)));
  sk_page : 0 ≤ p < PAGE_LIMIT ∧ (∀ k f, maps (uvm w) !! k ≠ Some (p, f)) ∧ stack_page argv (ppage (umem (prog s4)) p)
}.

Lemma spawn_stack w : file_opened w →
  ∃ dd fl p s4, syscall_exofork (set_prog w s) = Ok ch (with_child w dd fl) ∧
    init_stack ch argv (with_child w dd fl) = Ok (stack_pointer argv) s4 ∧ stacked w dd p s4.
Proof using H Hsp.
  intros [[F1 F1'] [F2 F3] [off F4] _ _ _ _ _ _ F8]. pose proof (sp_room Hsp) as Hroom. unfold pages_needed in Hroom.
  destruct (sp_birth Hsp) as [Hb Hch].
  destruct (free (uvm w)) as [|dd [|p fl]] eqn:Hf; cbn [length] in F8; [lia|lia|].
  destruct (real_free np _ dd F1 ltac:(rewrite Hf; apply list_elem_of_here)) as (_ & Hdm & _ & Hdn & _).
  assert (Hdu : dd ≠ u) by (intros ->; rewrite F2 in F1'; done).
  pose proof (real_new_dir np (uvm w) dd (p :: fl) F1 Hf) as Hr3.
  destruct (real_free np _ p Hr3 ltac:(apply list_elem_of_here)) as (Hpn & Hpm & _ & _ & _).
  exists dd, (p :: fl), p.
  destruct (init_stack_ok np (with_child w dd (p :: fl)) ch (newborn dd) argv p fl) as (A & m & E & Hr & (Hm & Hdi & Hpi & Hl) & Hom & Hst);
    [exact Hr3| |lia|apply lookup_insert_eq| |change (dd ≠ udir w); by rewrite F2|done|lia|exact (sp_args Hsp)|].
  { change (udir w ∈ ({[dd]} ∪ dirs (uvm w) : gset Z)). apply elem_of_union_r. exact F1'. }
  { change (dd ∈ ({[dd]} ∪ dirs (uvm w) : gset Z)). apply elem_of_union_l, elem_of_singleton_2. done. }
  change (udir (prog (with_child w dd (p :: fl)))) with (udir w) in Hm. rewrite F2 in Hm.
  change (maps (uvm (prog (with_child w dd (p :: fl))))) with (maps (uvm w)) in Hm.
  eexists. split; [|split; [exact E|]].
  { unfold syscall_exofork. change (births (set_prog w s)) with (births s). rewrite Hb.
    change (uvm (prog (set_prog w s))) with (uvm w). by rewrite Hf. }
  split.
  - split; [exact Hdu|]. intros n. apply (real_fresh_dir np (uvm w)); [done|]. rewrite Hf. apply list_elem_of_here.
  - exact Hdm.
  - reflexivity.
  - split; [exact Hr| |split; [lia|apply lookup_insert_eq]| |].
    + change (udir w ∈ dirs A). rewrite Hdi. change (udir w ∈ ({[dd]} ∪ dirs (uvm w) : gset Z)). apply elem_of_union_r. exact F1'.
    + change (dd ∈ dirs A ∧ dd ≠ udir w). rewrite Hdi, F2. split; [|exact Hdu].
      change (dd ∈ ({[dd]} ∪ dirs (uvm w) : gset Z)). apply elem_of_union_l, elem_of_singleton_2. done.
    + exists off. apply (open_file_same w); [exact F4| |].
      * intros va Hva. unfold slot. change (maps A !! (udir w, VPN va) = maps (uvm w) !! (udir w, VPN va)).
        rewrite Hm, F2. rewrite lookup_insert_ne, lookup_delete_ne; [done| |intros Ek; exact (Hdu (f_equal fst Ek))]. intros [= Ev]. revert Ev.
        rewrite !VPN_div. change BY2PG with 4096. change (UTEMP / 4096) with 1022.
        pose proof (Z.div_le_mono 0x5FC00000 va 4096 ltac:(lia) Hva) as Hq. change (0x5FC00000 / 4096) with 392192 in Hq. lia.
      * intros va q f _ Hq. apply Hom. intros ->. by apply (Hpm _ _ Hq).
  - change (pins A = <[dd := 1]> (pins A0)). rewrite Hpi. change (<[dd := 1]> (pins (uvm w)) = <[dd := 1]> (pins A0)). by rewrite F3.
  - rewrite Hf. change ((length (dd :: p :: fl) ≤ 4 + length (free A))%nat). cbn [length]. lia.
  - exact Hm.
  - split; [pose proof (real_limit np _ Hr3); lia|]. split; [intros k f Hk; by apply (Hpm k f)|exact Hst].
Qed.

Lemma phs_all : phs_from bytes 0 = phs.
Proof using Hsp. unfold phs_from, phs, phdrs, fm. by rewrite (phdr_offs_from bytes (sp_file Hsp)). Qed.

Lemma own_kept w dd p s4 n : stacked w dd p s4 → n ≠ VPN UTEMP → maps (uvm (prog s4)) !! (u, n) = maps (uvm w) !! (u, n).
Proof using.
  intros Hsk Hn. destruct (sk_dir _ _ _ _ Hsk) as [Hdu _]. rewrite (sk_maps _ _ _ _ Hsk).
  rewrite lookup_insert_ne, lookup_delete_ne; [done|congruence|]. intros Ek. exact (Hdu (f_equal fst Ek)).
Qed.

(** The state [load_loop] starts in *)
Lemma stacked_image w dd p s4 : file_opened w → stacked w dd p s4 →
  child_image np ch (newborn dd) i pf id omode bytes s4
    (program_pages phs + libraries A0 u user_pages) (program_pages phs + libraries A0 u user_pages) s4 ∅.
Proof using Hsp.
  intros Hfo Hsk. pose proof (sp_room Hsp) as Hroom. unfold pages_needed in Hroom.
  pose proof (fo_room _ Hfo) as F8. pose proof (sk_room _ _ _ _ Hsk) as K5.
  assert (Hu : udir (prog s4) = u) by (rewrite (sk_state _ _ _ _ Hsk); apply (fo_udir _ Hfo)).
  split; try done.
  - symmetry. apply at_vm_id.
  - exact (sk_ready _ _ _ _ Hsk).
  - lia.
  - rewrite Hu, (sk_maps _ _ _ _ Hsk). rewrite lookup_insert_ne; [apply lookup_delete_eq|].
    intros Ek. exact (proj1 (sk_dir _ _ _ _ Hsk) (f_equal fst Ek)).
Qed.

Lemma spawn_child w elfbuf dd p s4 : file_opened w → header_kept bytes elfbuf → stacked w dd p s4 →
  ∃ s5, load_loop (Z.to_nat (2 ^ 16)) i ch 0 (e_phoff fm 0) elfbuf s4 = Ok tt s5 ∧ born w dd s5.
Proof using H Hsp.
  intros Hfo Hhk Hsk. pose proof (stacked_image w dd p s4 Hfo Hsk) as Hci. rewrite <- phs_all in Hci at 2.
  set (N := (program_pages phs + libraries A0 u user_pages)%nat) in Hci.
  destruct (fo_udir _ Hfo) as [F2 F3]. destruct (sk_dir _ _ _ _ Hsk) as [Hdu Hdn].
  assert (Hu : udir (prog s4) = u) by (rewrite (sk_state _ _ _ _ Hsk); exact F2).
  assert (Hpf : ∃ va f, VPN va ≠ VPN UTEMP ∧ slot (prog s4) va = Some (pf, f)).
  { exists (INDEX2FD i), (perm_flags permf). destruct file_num as [Hi Hi'].
    assert (Hne : VPN (INDEX2FD i) ≠ VPN UTEMP).
    { rewrite (INDEX2FD_eq i Hi'), !VPN_div. change UTEMP with (1022 * 4096). change BY2PG with 4096.
      replace (0x5FC00000 + i * 4096) with ((392192 + i) * 4096) by lia. rewrite !Z.div_mul by done. lia. }
    split; [exact Hne|]. pose proof (fo_desc _ Hfo) as Hd. unfold slot in *. rewrite Hu, (own_kept w dd p s4 _ Hsk Hne), <- F2. exact Hd. }
  pose proof (rd16_bound fm 44) as Hpn. change (rd16 fm 44) with (e_phnum fm 0) in Hpn.
  destruct (load_loop_ok np ch (newborn dd) i pf id omode bytes s4 N (sp_file Hsp) (sp_mode Hsp) Hpf
    (Z.to_nat (2 ^ 16)) 0 elfbuf (libraries A0 u user_pages) s4 ∅) as (s5 & E & Hci5);
    [fold fm; lia|fold fm; lia|exact Hhk|exact Hci|].
  fold fm in E. rewrite Z.mul_0_l, Z.add_0_r, u32_small in E by apply rd32_bound. rewrite phs_all in Hci5.
  exists s5. split; [exact E|]. destruct Hci5 as [C1 C2 [C3 C3'] C4 C5 C6 C7 C8]. fold child_program in C5, C6.
  rewrite Hu in C6, C7. pose proof (sk_maps _ _ _ _ Hsk) as Hm4.
  split.
  - split; [exact Hdu|]. intros n. rewrite <- (fo_others _ Hfo dd n Hdu). apply Hdn.
  - exact (sk_fresh _ _ _ _ Hsk).
  - rewrite C1 at 1. rewrite (sk_state _ _ _ _ Hsk). reflexivity.
  - exact C2.
  - rewrite C3'. apply (sk_pins _ _ _ _ Hsk).
  - exact C4.
  - intros n. case_decide as Hn; [by rewrite Hn|].
    rewrite (proj1 (C6 (u, n) ltac:(congruence) ltac:(left; cbn; congruence))). by apply (own_kept w dd p).
  - intros d n H1 H2. rewrite (proj1 (C6 (d, n) ltac:(congruence) ltac:(left; cbn; congruence))), Hm4.
    rewrite lookup_insert_ne, lookup_delete_ne by congruence. done.
  - intros q. specialize (C8 q). rewrite Hm4 in C8. 
    pose proof (count_insert_any q p 23 (dd, stack_vpn) (delete (u, VPN UTEMP) (maps (uvm w)))).
    pose proof (count_subseteq q _ _ (delete_subseteq (maps (uvm w)) (u, VPN UTEMP))). unfold N in C8. lia.
  - intros n perm l Hn. destruct (C5 n perm l Hn) as (q & H1 & H2 & H3). exists q. split; [exact H1|]. split; [exact H2|].
    destruct (rq_page _ _ (fo_request _ Hfo)) as (_ & f & Hf & _). apply not_eq_sym.
    apply (H3 fsipcbuf pb f (sp_buf Hsp)). unfold slot in *. rewrite Hu, (own_kept w dd p s4 _ Hsk (sp_buf Hsp)), <- F2. exact Hf.
  - intros n Hn Hne. rewrite (proj1 (C6 (dd, n) ltac:(congruence) ltac:(by right))), Hm4.
    rewrite lookup_insert_ne, lookup_delete_ne by congruence. apply Hdn.
  - destruct (sk_page _ _ _ _ Hsk) as (Hpl & Hpm & Hst). exists p.
    assert (Hn : child_program !! stack_vpn = None).
    { unfold child_program. rewrite program_outside; [apply lookup_empty|]. apply (sp_stack_free Hsp). }
    destruct (C6 (dd, stack_vpn) ltac:(congruence) ltac:(by right)) as [H1 H2]. rewrite Hm4, lookup_insert_eq in H1, H2.
    split; [exact H1|]. split; [exact Hpl|]. split.
    + destruct (rq_page _ _ (fo_request _ Hfo)) as (_ & f & Hf & _). intros ->. by apply (Hpm _ _ Hf).
    + rewrite (H2 p 23 eq_refl); [exact Hst|]. intros ->. apply (Hpm _ _ (fo_desc _ Hfo)).
Qed.

(** ** Closing the file *)

Record closed (s5 : family) (w6 : world) : Prop := {
  cl_real : real np (uvm w6);
  cl_udir : udir w6 = u;
  cl_same : dirs (uvm w6) = dirs (uvm (prog s5)) ∧ pins (uvm w6) = pins (uvm (prog s5));
  cl_maps : ∀ d n, (d = u ∧ file_page n → maps (uvm w6) !! (d, n) = None) ∧
    (¬ (d = u ∧ file_page n) → maps (uvm w6) !! (d, n) = maps (uvm (prog s5)) !! (d, n));
  cl_mem : only_page pb (umem (prog s5)) (umem w6);
  cl_replies : replies w6 = rs;
  cl_room : (length (free (uvm (prog s5))) ≤ length (free (uvm w6)))%nat
}.

Lemma spawn_closes w dd s5 : file_opened w → born w dd s5 → ∃ w6, value (close i) (prog s5) = Ok 0 w6 ∧ closed s5 w6.
Proof using quiet Hsp.
  intros Hfo Hb. destruct (bn_ready _ _ _ Hb) as [R1 R2 _ _ [off R5]]. destruct (fo_udir _ Hfo) as [F2 F3].
  destruct file_num as [Hi Hi']. pose proof (sp_open Hsp) as Hon. destruct (sp_close Hsp) as (D1 & D2 & D3).
  assert (Hu : udir (prog s5) = u) by (rewrite (bn_state _ _ _ Hb); exact F2).
  assert (Hrq : request_page (prog s5) pb).
  { apply (request_page_kept w); [exact (fo_request _ Hfo)| |by rewrite (bn_state _ _ _ Hb)].
    unfold slot. by rewrite Hu, (bn_own _ _ _ Hb), decide_False, F2 by exact (sp_buf Hsp). }
  assert (Hrep : replies (prog s5) = ds ++ Reply v None x :: rs) by (rewrite (bn_state _ _ _ Hb); exact (fo_replies _ Hfo)).
  destruct (close_ok np quiet (prog s5) i pf id omode bytes off pb (length qs) ds v x rs (conj R1 R2) R5 Hrq
    (on_count _ _ _ _ _ _ _ _ _ _ _ _ Hon) Hrep D1 D2 D3 (proj2 Hi)) as (w5 & w6 & E & Has & Hun).
  exists w6. split; [unfold value; by rewrite E|].
  destruct Has as [_ [V1 V2] Hm _ Hrs _]. destruct Hun as [[U1 _] U2 [U3 U3'] U4 U5].
  assert (Hin : ∀ n, n ∈ map (λ k, VPN (INDEX2DATA i + k * BY2PG)) (seqZ 0 (Z.of_nat (length qs))) ++ [VPN (INDEX2FD i)] ↔ file_page n).
  { intros n. pose proof (count_pages bytes qs (proj2 (on_size _ _ _ _ _ _ _ _ _ _ _ _ Hon)) (on_count _ _ _ _ _ _ _ _ _ _ _ _ Hon)) as Hq.
    assert (Hv : ∀ k, 0 ≤ k < Z.of_nat (length qs) → VPN (INDEX2DATA i + k * BY2PG) = VPN (INDEX2DATA i) + k).
    { intros k Hk. destruct (region_vpn i k (prog s5) pb Hi ltac:(lia) Hrq) as (Hv & _). exact Hv. }
    rewrite elem_of_app, list_elem_of_singleton. unfold file_page. split.
    - intros [Hk|Hk]; [|left; exact Hk]. apply list_elem_of_In, in_map_iff in Hk as (k & <- & Hk%list_elem_of_In%elem_of_seqZ).
      right. rewrite Hv by lia. lia.
    - intros [->|Hn]; [by right|left]. apply list_elem_of_In, in_map_iff. exists (n - VPN (INDEX2DATA i)).
      rewrite Hv by lia. split; [lia|]. apply list_elem_of_In, elem_of_seqZ. lia. }
  split; try done.
  - rewrite (f_equal udir U4 : udir w6 = udir w5), V2. exact Hu.
  - rewrite U3, U3', V1. done.
  - intros d n. rewrite U2, V2, Hu, V1. specialize (Hin n). split; intros Hd.
    + rewrite decide_True; [done|]. split; [apply Hd|apply Hin, Hd].
    + rewrite decide_False; [done|]. intros [H1 H2]. apply Hd. split; [exact H1|by apply Hin].
  - rewrite (f_equal umem U4 : umem w6 = umem w5). exact Hm.
  - rewrite (f_equal replies U4 : replies w6 = replies w5). exact Hrs.
  - rewrite <- V1. exact U5.
Qed.

(** ** Sharing and starting *)

(** The child with its registers, before it is made runnable *)
Definition set_up_child (dd status : Z) : child :=
  MkChild dd (set_sscratch (stack_pointer argv) (set_sepc (e_entry fm 0) tf)) status.

Definition set_up (s5 : family) (w6 : world) (dd : Z) : family :=
  MkFamily w6 (<[ch := set_up_child dd ENV_NOT_RUNNABLE]> (kids s)) bs.

Lemma library_kept w dd s5 w6 n y : file_opened w → born w dd s5 → closed s5 w6 →
  library (uvm w6) u n = Some y → library A0 u n = Some y ∧ maps (uvm w) !! (u, n) = maps A0 !! (u, n).
Proof using.
  intros Hfo Hb Hc. unfold library. destruct (cl_maps _ _ Hc u n) as [C1 C2].
  destruct (decide (n = VPN UTEMP)) as [->|Hn].
  - assert (Hnone : maps (uvm w6) !! (u, VPN UTEMP) = None); [|by rewrite Hnone].
    pose proof (bn_own _ _ _ Hb (VPN UTEMP)) as Ht. rewrite decide_True in Ht by done.
    destruct (maps (uvm w6) !! (u, VPN UTEMP)) as [z|] eqn:Em; [|done]. exfalso.
    assert (Hnf : ¬ (u = u ∧ file_page (VPN UTEMP))) by (intros Hf; discriminate (C1 Hf)).
    specialize (C2 Hnf). rewrite Ht in C2. discriminate.
  - intros Hl. assert (Hnf : ¬ file_page n) by (intros Hf; by rewrite (C1 (conj eq_refl Hf)) in Hl).
    rewrite C2, (bn_own _ _ _ Hb), decide_False, (fo_own _ Hfo n Hnf) in Hl by (done || naive_solver).
    split; [exact Hl|]. by apply (fo_own _ Hfo).
Qed.

Lemma set_up_sharable w dd s5 w6 : file_opened w → born w dd s5 → closed s5 w6 →
  sharable np ch (set_up_child dd ENV_NOT_RUNNABLE) (set_up s5 w6 dd).
Proof using Hsp.
  intros Hfo Hb Hc. pose proof (λ n y, library_kept w dd s5 w6 n y Hfo Hb Hc) as Hlk.
  destruct (cl_same _ _ Hc) as [S1 S2]. destruct (bn_ready _ _ _ Hb) as [R1 R2 _ [R4 _] _].
  assert (Hu : udir (prog (set_up s5 w6 dd)) = u) by exact (cl_udir _ _ Hc).
  assert (Hle : (libraries (uvm w6) u user_pages ≤ libraries A0 u user_pages)%nat).
  { apply length_filter_imp. intros n [y Hy]. exists y. by apply (Hlk n). }
  split; rewrite ?Hu; change (uvm (prog (set_up s5 w6 dd))) with (uvm w6).
  - exact (cl_real _ _ Hc).
  - split; [destruct (sp_birth Hsp); lia|apply lookup_insert_eq].
  - split; [rewrite S1; exact R4|exact (proj1 (bn_dir _ _ _ Hb))].
  - intros n [y Hy]. apply (sp_above Hsp). exists y. by apply (Hlk n).
  - pose proof (bn_room _ _ _ Hb). pose proof (cl_room _ _ Hc). lia.
  - intros n p f Hl. destruct (Hlk n _ Hl) as [Hl0 Hw]. pose proof (sp_count Hsp n p f Hl0) as Hcnt. unfold refs_needed in Hcnt.
    assert (Hm : maps A0 !! (u, n) = Some (p, f)).
    { unfold library in Hl0. destruct (maps A0 !! (u, n)) as [[p' f']|]; [|done]. case_match; [|done]. by injection Hl0 as -> ->. }
    assert (Hpd : p ≠ dd) by (intros ->; apply (bn_fresh _ _ _ Hb (u, n) f); by rewrite Hw).
    unfold pin. rewrite S2, (bn_pins _ _ _ Hb), lookup_insert_ne by congruence. fold (pin A0 p).
    assert (Hsub : maps (uvm w6) ⊆ maps (uvm (prog s5))).
    { apply map_subseteq_spec. intros [d k] y Hy. destruct (cl_maps _ _ Hc d k) as [C1 C2].
      rewrite C2 in Hy; [exact Hy|]. intros Hf. by rewrite (C1 Hf) in Hy. }
    pose proof (count_subseteq p _ _ Hsub). pose proof (bn_count _ _ _ Hb p). pose proof (fo_count _ Hfo p).
    fold phs. lia.
Qed.

(** ** The result *)

Record spawned (s' : family) (dd : Z) : Prop := {
  sd_kids : kids s' = <[ch := set_up_child dd ENV_RUNNABLE]> (kids s) ∧ births s' = bs;
  sd_new : dd ≠ u ∧ ∀ n, maps A0 !! (dd, n) = None;
  sd_replies : replies (prog s') = rs;
  sd_own : ∀ n, maps (uvm (prog s')) !! (u, n) =
    if decide (n = VPN UTEMP) then None
    else if decide (n = VPN (INDEX2FD i) ∨ VPN (INDEX2DATA i) ≤ n < VPN (INDEX2DATA i) + Z.of_nat (length qs)) then None
    else maps A0 !! (u, n);
  sd_others : ∀ d n, d ≠ u → d ≠ dd → maps (uvm (prog s')) !! (d, n) = maps A0 !! (d, n);
  sd_library : ∀ n p f, 0 ≤ n < user_pages → library (uvm (prog s')) u n = Some (p, f) →
    maps (uvm (prog s')) !! (dd, n) = Some (p, perm_flags (user_perm f));
  sd_program : ∀ ph a, ph ∈ phs → is_load ph = true → alone phs ph → p_vaddr ph ≤ a < p_vaddr ph + seg_size ph →
    library (uvm (prog s')) u (VPN a) = None → ∃ p,
    maps (uvm (prog s')) !! (dd, VPN a) = Some (p, perm_flags (seg_perm ph)) ∧
    load8 (umem (prog s')) (page2pa p + a mod BY2PG) =
      if a <? p_vaddr ph + p_filesz ph then nth (Z.to_nat (p_offset ph + (a - p_vaddr ph))) bytes 0 else 0;
  sd_stack : library (uvm (prog s')) u stack_vpn = None → argument_stack (set_udir dd (prog s')) argv;
  sd_none : ∀ n, n ≠ stack_vpn → (∀ ph, ph ∈ phs → is_load ph = true → ¬ in_seg ph n) →
    library (uvm (prog s')) u n = None → maps (uvm (prog s')) !! (dd, n) = None
}.

(** Pages of the child that are not shared *)
Lemma child_page w dd s5 w6 s8 n : born w dd s5 → closed s5 w6 →
  sharing np (set_up_child dd ENV_NOT_RUNNABLE) (set_up s5 w6 dd) user_pages s8 →
  library (uvm (prog s8)) u n = None →
  maps (uvm (prog s8)) !! (dd, n) = maps (uvm (prog s5)) !! (dd, n) ∧
  library (uvm w6) u n = None.
Proof using.
  intros Hb Hc Hsh Hno. pose proof (sg_maps _ _ _ _ _ Hsh) as Hm.
  change (uvm (prog (set_up s5 w6 dd))) with (uvm w6) in Hm. change (udir (prog (set_up s5 w6 dd))) with (udir w6) in Hm.
  rewrite (cl_udir _ _ Hc) in Hm. change (ch_dir (set_up_child dd ENV_NOT_RUNNABLE)) with dd in Hm.
  destruct (bn_dir _ _ _ Hb) as [Hdu _].
  assert (Hown : maps (uvm (prog s8)) !! (u, n) = maps (uvm w6) !! (u, n)).
  { rewrite Hm, decide_False; [done|]. cbn. intros [E _]. by apply Hdu. }
  assert (Hl : library (uvm w6) u n = None) by (unfold library in *; by rewrite <- Hown).
  split; [|exact Hl]. rewrite Hm. cbn. rewrite Hl.
  destruct (cl_maps _ _ Hc dd n) as [_ C2]. rewrite <- C2 by (intros [E _]; by apply Hdu). by case_decide.
Qed.

(** The bytes of a segment in the child *)
Lemma child_byte w dd s5 w6 m ph a : file_opened w → born w dd s5 → closed s5 w6 → m = umem w6 →
  ph ∈ phs → is_load ph = true → alone phs ph → p_vaddr ph ≤ a < p_vaddr ph + seg_size ph → ∃ p,
  maps (uvm (prog s5)) !! (dd, VPN a) = Some (p, perm_flags (seg_perm ph)) ∧
  load8 m (page2pa p + a mod BY2PG) =
    if a <? p_vaddr ph + p_filesz ph then nth (Z.to_nat (p_offset ph + (a - p_vaddr ph))) bytes 0 else 0.
Proof using Hsp.
  intros Hfo Hb Hc Hmem Hin Hl Hal Ha. destruct file_num as [Hi Hi'].
  destruct (bo_segs _ _ _ (pf_binary _ (sp_file Hsp)) ph Hin Hl) as [[_ S1] _ _ _ _].
  assert (Hv : child_program !! VPN a = Some (seg_page (file_src i bytes) ph (INDEX2DATA i + p_offset ph) (VPN a))).
  { apply program_lookup; try done. apply addr_in_seg; [lia|done]. }
  unfold seg_page at 1 in Hv. destruct (bn_program _ _ _ Hb _ _ _ Hv) as (p & Hm & Hpg & Hpb). exists p. split; [exact Hm|].
  destruct (bn_ready _ _ _ Hb) as [R1 _ _ _ _]. destruct (real_map np _ _ _ _ _ R1 Hm) as (_ & Hpl & _).
  assert (Hmod : 0 ≤ a mod BY2PG < BY2PG) by (apply Z.mod_pos_bound; done).
  rewrite Hmem, load8_ppage, (cl_mem _ _ Hc p Hpb) by done.
  rewrite <- (page_bytes_nth (page_byte (ppage (umem (prog s5)) p)) (a mod BY2PG) Hmod). fold (mapped_page (umem (prog s5)) p).
  rewrite Hpg. pose proof (seg_page_byte (file_src i bytes) ph (INDEX2DATA i + p_offset ph) a) as Hb2.
  unfold seg_page in Hb2. cbn [snd] in Hb2. rewrite Hb2. unfold seg_byte, file_src.
  destruct (Z.ltb_spec a (p_vaddr ph + p_filesz ph)); [rewrite decide_True by lia|by rewrite decide_False by lia].
  f_equal. lia.
Qed.

Lemma spawned_ok w dd s5 w6 s8 : file_opened w → born w dd s5 → closed s5 w6 →
  sharing np (set_up_child dd ENV_NOT_RUNNABLE) (set_up s5 w6 dd) user_pages s8 →
  spawned (set_kids (<[ch := set_up_child dd ENV_RUNNABLE]> (kids s)) s8) dd.
Proof using Hsp.
  intros Hfo Hb Hc Hsh. pose proof (λ n, child_page w dd s5 w6 s8 n Hb Hc Hsh) as Hcp.
  pose proof (sg_state _ _ _ _ _ Hsh) as Hst. pose proof (sg_maps _ _ _ _ _ Hsh) as Hm.
  change (uvm (prog (set_up s5 w6 dd))) with (uvm w6) in Hm. change (udir (prog (set_up s5 w6 dd))) with (udir w6) in Hm.
  rewrite (cl_udir _ _ Hc) in Hm. change (ch_dir (set_up_child dd ENV_NOT_RUNNABLE)) with dd in Hm.
  destruct (bn_dir _ _ _ Hb) as [Hdu Hdn].
  assert (Hmem : umem (prog s8) = umem w6) by (rewrite Hst; done).
  assert (Hown : ∀ n, maps (uvm (prog s8)) !! (u, n) = maps (uvm w6) !! (u, n)).
  { intros n. rewrite Hm, decide_False; [done|]. cbn. intros [E _]. by apply Hdu. }
  split; cbn [prog kids births set_kids]; try done.
  - split; [done|]. rewrite Hst. done.
  - rewrite Hst. exact (cl_replies _ _ Hc).
  - intros n. rewrite Hown. destruct (cl_maps _ _ Hc u n) as [C1 C2].
    destruct (decide (n = VPN (INDEX2FD i) ∨ VPN (INDEX2DATA i) ≤ n < VPN (INDEX2DATA i) + Z.of_nat (length qs))) as [Hf|Hf].
    + rewrite (C1 (conj eq_refl Hf)). by case_decide.
    + rewrite C2, (bn_own _ _ _ Hb) by (intros [_ Hf']; by apply Hf). case_decide; [done|]. by apply (fo_own _ Hfo).
  - intros d n H1 H2. rewrite Hm, decide_False by (cbn; naive_solver). destruct (cl_maps _ _ Hc d n) as [_ C2].
    rewrite C2, (bn_others _ _ _ Hb) by (done || naive_solver). by apply (fo_others _ Hfo).
  - intros n p f Hn Hl. rewrite Hm, decide_True by done. cbn.
    unfold library in Hl |- *. rewrite Hown in Hl. by rewrite Hl.
  - intros ph a Hin Hl Hal Ha Hno. destruct (Hcp _ Hno) as [-> _].
    exact (child_byte w dd s5 w6 _ ph a Hfo Hb Hc Hmem Hin Hl Hal Ha).
  - intros Hno. destruct (Hcp _ Hno) as [E _]. destruct (bn_stack _ _ _ Hb) as (p & H1 & H2 & H3 & H4).
    apply (entry_stack _ argv p); [|exact H2|exact (sp_args Hsp)|].
    + unfold slot. cbn [uvm udir set_udir]. fold stack_vpn. by rewrite E.
    + cbn [umem set_udir]. rewrite Hmem, (cl_mem _ _ Hc p H3). exact H4.
  - intros n Hn Hseg Hno. destruct (Hcp _ Hno) as [-> _]. apply (bn_none _ _ _ Hb); [|exact Hn].
    unfold child_program. rewrite program_outside by exact Hseg. apply lookup_empty.
Qed.

(** From the header of the file to the child with its segments *)
Lemma spawn_tail w dd s5 w6 : file_opened w → born w dd s5 → closed s5 w6 →
  ∃ s8, (r <- syscall_set_trapframe ch (set_sscratch (stack_pointer argv) (set_sepc (e_entry fm 0) tf)) ;;
    if negb (r =? 0) then spawn_err2 ch r
    else
      share_library ch ;;
      r <- syscall_set_env_status ch ENV_RUNNABLE ;;
      if r <? 0 then spawn_err2 ch r else ret ch) (set_prog w6 s5) = Ok ch s8 ∧ spawned s8 dd.
Proof using H Hsp.
  intros Hfo Hb Hc.
  assert (Es : set_prog w6 s5 = MkFamily w6 (<[ch := newborn dd]> (kids s)) bs) by (rewrite (bn_state _ _ _ Hb); done).
  assert (Et : syscall_set_trapframe ch (set_sscratch (stack_pointer argv) (set_sepc (e_entry fm 0) tf)) (set_prog w6 s5) =
    Ok 0 (set_up s5 w6 dd)).
  { rewrite Es. unfold syscall_set_trapframe, upd_child. cbn [kids]. rewrite lookup_insert_eq. unfold set_kids. cbn [prog births].
    rewrite insert_insert_eq. done. }
  rewrite (bind_ok _ _ _ _ _ Et). change (negb (0 =? 0)) with false. cbv iota.
  destruct (share_library_ok np ch _ _ (set_up_sharable w dd s5 w6 Hfo Hb Hc)) as (s8 & E8 & Hsh).
  rewrite (bind_ok _ _ _ _ _ E8).
  assert (Ek : kids s8 = <[ch := set_up_child dd ENV_NOT_RUNNABLE]> (kids s)) by (rewrite (sg_state _ _ _ _ _ Hsh); done).
  assert (Ee : syscall_set_env_status ch ENV_RUNNABLE s8 = Ok 0 (set_kids (<[ch := set_up_child dd ENV_RUNNABLE]> (kids s)) s8)).
  { unfold syscall_set_env_status, upd_child. rewrite Ek, lookup_insert_eq, insert_insert_eq. done. }
  rewrite (bind_ok _ _ _ _ _ Ee). change (0 <? 0) with false. cbv iota.
  eexists. split; [reflexivity|]. exact (spawned_ok w dd s5 w6 s8 Hfo Hb Hc Hsh).
Qed.
End spawned.

(** C31. [spawn] makes a runnable child whose address space holds the program
    of the file, its arguments and the shared pages, and nothing else: the
    segments with the bytes of the file, zeros behind them and the permissions
    of the headers; a stack where [argc] and [argv] can be read; and the
    parent's pages with PTE_LIBRARY, which take precedence.  The child starts
    at the entry point of the file with that stack.  The parent has the file
    closed and its other pages where they were, every message of the server
    is used once, and no other address space changes. *)
Theorem spawn_starts_program `{Neighbours, FileSymbols} np s i pb pf qs permf permd id omode bytes ch tf bs argv ds v x rs path junk :
  (∀ w, others w = w) →
  spawnable np s i pb pf qs permf permd id omode bytes ch tf bs argv ds v x rs →
  path_ok path = true → length junk = 512%nat →
  ∃ s' dd, spawn path argv junk s = Ok ch s' ∧ spawned s i qs bytes ch tf bs argv rs s' dd.
Proof.
  intros Hq Hsp Hpath Hjunk. pose proof (file_num _ _ _ _ _ _ _ _ _ _ _ _ _ _ _ _ _ _ _ Hsp) as [_ Hi].
  pose proof (sp_birth _ _ _ _ _ _ _ _ _ _ _ _ _ _ _ _ _ _ _ Hsp) as [_ Hch].
  destruct (spawn_opens Hq _ _ _ _ _ _ _ _ _ _ _ _ _ _ _ _ _ _ _ Hsp path junk Hpath Hjunk)
    as (w1 & w2 & elfbuf & E1 & E2 & Ebuf & Hhk & Eelf & Een & Eph & Hfo).
  destruct (spawn_stack _ _ _ _ _ _ _ _ _ _ _ _ _ _ _ _ _ _ _ Hsp w2 Hfo) as (dd & fl & p & s4 & E3 & E4 & Hsk).
  destruct (spawn_child _ _ _ _ _ _ _ _ _ _ _ _ _ _ _ _ _ _ _ Hsp w2 elfbuf dd p s4 Hfo Hhk Hsk) as (s5 & E5 & Hb).
  destruct (spawn_closes Hq _ _ _ _ _ _ _ _ _ _ _ _ _ _ _ _ _ _ _ Hsp w2 dd s5 Hfo Hb) as (w6 & E6 & Hc).
  destruct (spawn_tail _ _ _ _ _ _ _ _ _ _ _ _ _ _ _ _ _ _ _ Hsp w2 dd s5 w6 Hfo Hb Hc) as (s8 & E8 & Hres).
  exists s8, dd. split; [|exact Hres]. unfold spawn.
  rewrite (bind_ok _ _ _ _ _ (onw_ok _ _ _ _ E1)), (proj2 (Z.ltb_ge i 0)) by lia.
  rewrite (bind_ok _ _ _ _ _ (checked_ok _ _ _ _ _ (onw_ok _ (set_prog w1 s) _ _ E2))), (proj2 (Z.ltb_ge _ 0)) by lia.
  cbv zeta. rewrite <- Ebuf, Eelf, Een, Eph.
  change (set_prog w2 (set_prog w1 s)) with (set_prog w2 s). rewrite (bind_ok _ _ _ _ _ E3), (proj2 (Z.ltb_ge ch 0)) by lia.
  rewrite (bind_ok _ _ _ _ _ (checked_ok _ _ _ _ _ E4)), (bind_ok _ _ _ _ _ E5), (bind_ok _ _ _ _ _ (onw_ok _ _ _ _ E6)).
  rewrite (bind_ok (gets _) _ _ _ _ eq_refl).
  assert (Etf : from_option ch_tf tf0 (kids (set_prog w6 s5) !! ch) = tf).
  { rewrite (bn_state _ _ _ _ _ _ _ _ _ _ _ _ _ _ _ Hb). cbn [kids set_prog]. by rewrite lookup_insert_eq. }
  rewrite Etf. exact E8.
Qed.

(** The machine of FileProps with a page shared at 0x403000; the server sends
    a program of one segment, two words of data in 100 bytes. *)
#[local] Existing Instance w_file_symbols.
#[local] Existing Instance w_alone.
Definition w_lib_vm : vm :=
  default w_user_vm (spec_insert (set_vfree (reverse (seqZ 4 16)) w_user_vm) 23 (VPN 0x403000) 20 534).
Definition w_elf_page : page :=
  list_to_map [(0, 0x464c457f); (4, 2); (6, UTEXT + 4); (7, 52); (10, 32 * 65536); (11, 1);
    (13, PT_LOAD); (14, 84); (15, UTEXT); (17, 8); (18, 100); (19, 6); (21, 0x11223344); (22, 0x55667788)].
Definition w_elf_bytes : list Z := map (page_byte w_elf_page) (seqZ 0 92).
Definition w_spawn_mem : memory :=
  {[ 1 + PPN0 := {[ 0 := 102; 3 := 7; 36 := 92 ]}; 2 + PPN0 := w_elf_page ]}.
Definition w_spawn_world : world :=
  MkWorld w_lib_vm w_spawn_mem 23 [] [] [Reply 0 (Some 1) 23; Reply 0 (Some 2) 23; Reply 0 None 0; Reply 0 None 0] [] [].
Definition w_family : family := MkFamily w_spawn_world ∅ [(9, tf0)].

Lemma w_lib_maps : maps w_lib_vm = {[ (23, VPN 0x402000) := (22, 23); (23, VPN 0x403000) := (20, 535) ]}.
Proof. apply (bool_decide_unpack _). vm_compute. exact I. Qed.

Lemma w_lib_real : real 24 w_lib_vm.
Proof.
  destruct (real_alloc 24 w_user_vm 20 (reverse (seqZ 4 16)) w_user_real eq_refl) as [Hr Hm].
  destruct (real_insert 24 _ 23 0x403000 20 534 Hr) as (A & E & Hr' & _).
  - vm_compute. reflexivity.
  - done.
  - exact Hm.
  - done.
  - vm_compute. lia.
  - unfold w_lib_vm. rewrite E. exact Hr'.
Qed.

Lemma w_spawn_openable : openable 24 w_spawn_world 0 22 1 [2] 23 23 7 0 w_elf_bytes [Reply 0 None 0; Reply 0 None 0].
Proof.
  split.
  - split; [exact w_lib_real|vm_compute; reflexivity].
  - split; [|vm_compute; intuition discriminate|done]. split; [done|]. exists 23. vm_compute. auto.
  - split; [done|]. split; [intros j Hj; lia|vm_compute; reflexivity].
  - reflexivity.
  - split; [|split].
    + apply (bool_decide_unpack _). vm_compute. exact I.
    + apply (bool_decide_unpack _). vm_compute. exact I.
    + intros q Hq. apply elem_of_cons in Hq as [Hq|Hq%list_elem_of_singleton]; rewrite Hq; vm_compute; intuition discriminate.
  - split; [done|]. split; [done|]. split; [split; [done|vm_compute; reflexivity]|done].
  - split; vm_compute; reflexivity.
  - split; vm_compute; reflexivity.
  - split; vm_compute; [reflexivity|discriminate].
  - vm_compute. reflexivity.
  - intros k b Hb. pose proof (lookup_lt_Some _ _ _ Hb) as Hk. unfold w_elf_bytes in Hk, Hb.
    rewrite length_map, length_seqZ in Hk. exists 2. rewrite Nat.div_small, Z.mod_small by lia. split; [done|].
    rewrite list_lookup_fmap in Hb. rewrite (proj2 (lookup_seqZ 0 92 k (Z.of_nat k))) in Hb by lia. cbn in Hb.
    injection Hb as <-. f_equal. 
  - vm_compute. lia.
Qed.

Lemma w_program : program_file w_elf_bytes.
Proof.
  assert (Hph : phdrs (file_mem w_elf_bytes) 0 = [MkPhdr PT_LOAD 84 UTEXT 0 8 100 6 0]) by (vm_compute; reflexivity).
  assert (Ho : phdr_offs (file_mem w_elf_bytes) 0 = [52]) by (vm_compute; reflexivity).
  split.
  - split.
    + vm_compute. reflexivity.
    + rewrite Ho. intros off ->%list_elem_of_singleton. change (Z.of_nat (length w_elf_bytes)) with 92. lia.
    + rewrite Hph. intros ph ->%list_elem_of_singleton _. split; vm_compute; intuition discriminate.
  - vm_compute. reflexivity.
  - rewrite Hph. intros ph ->%list_elem_of_singleton _. split; vm_compute; [discriminate|reflexivity].
Qed.

(** Only one page is shared. *)
Lemma w_library n : is_Some (library w_lib_vm 23 n) → n = VPN 0x403000.
Proof.
  unfold library. rewrite w_lib_maps. destruct (decide (n = VPN 0x403000)) as [|Hne]; [done|].
  destruct (decide (n = VPN 0x402000)) as [->|Hne'].
  - rewrite lookup_insert_eq. change (has 23 PTE_LIBRARY) with false. intros []; discriminate.
  - rewrite lookup_insert_ne, lookup_singleton_ne by congruence. intros []; discriminate.
Qed.

Lemma libraries_one A d n m : (∀ k, is_Some (library A d k) → k = m) → (libraries A d n ≤ 1)%nat.
Proof.
  intros Hone. unfold libraries. assert (Hnd : NoDup (filter (λ v, is_Some (library A d v)) (seqZ 0 n))) by apply NoDup_filter, NoDup_seqZ.
  assert (Hin : ∀ k, k ∈ filter (λ v, is_Some (library A d v)) (seqZ 0 n) → k = m).
  { intros k [Hk _]%list_elem_of_filter. exact (Hone k Hk). }
  destruct (filter _ _) as [|a [|b l]]; cbn; [lia|lia|]. exfalso. apply NoDup_cons in Hnd as [Hnd _]. apply Hnd.
  rewrite (Hin a (list_elem_of_here _ _)), <- (Hin b (list_elem_of_further _ _ _ (list_elem_of_here _ _))). apply list_elem_of_here.
Qed.

Lemma w_spawnable : spawnable 24 w_family 0 22 1 [2] 23 23 7 0 w_elf_bytes 9 tf0 [] [[97; 98]] [Reply 0 None 0] 0 0 [].
Proof.
  pose proof (libraries_one w_lib_vm 23 user_pages _ w_library) as Hl.
  assert (Hph : phdrs (file_mem w_elf_bytes) 0 = [MkPhdr PT_LOAD 84 UTEXT 0 8 100 6 0]) by (vm_compute; reflexivity).
  split.
  - exact w_spawn_openable.
  - done.
  - split; [done|]. split; [by repeat constructor|done].
  - exact w_program.
  - rewrite Hph. intros ph ->%list_elem_of_singleton _. vm_compute. intuition discriminate.
  - exact (conj eq_refl eq_refl).
  - vm_compute. discriminate.
  - vm_compute. discriminate.
  - intros w Hw%w_library. rewrite Hw. vm_compute. discriminate.
  - unfold pages_needed. rewrite Hph. change (uvm (prog w_family)) with w_lib_vm. change (udir (prog w_family)) with 23.
    change (length (free w_lib_vm)) with 16%nat. change (program_pages _) with 1%nat. cbn [length]. lia.
  - intros w p f Hw. change (uvm (prog w_family)) with w_lib_vm in *. change (udir (prog w_family)) with 23 in *.
    pose proof (w_library w ltac:(by rewrite Hw)) as ->. unfold library in Hw. rewrite w_lib_maps in Hw. vm_compute in Hw.
    injection Hw as <- <-. unfold refs_needed. rewrite Hph. change (uvm (prog w_family)) with w_lib_vm. change (udir (prog w_family)) with 23.
    change (program_pages _) with 1%nat. change (length [2]) with 1%nat.
    assert (count 20 (maps w_lib_vm) = 1) as -> by (vm_compute; reflexivity).
    assert (pin w_lib_vm 20 = 0) as -> by (vm_compute; reflexivity). lia.
Qed.

Lemma spawn_starts_program_witness :
  ∃ s' c, spawn [47; 97] [[97; 98]] (repeat 0 512) w_family = Ok 9 s' ∧
    kids s' !! 9 = Some c ∧ ch_status c = ENV_RUNNABLE ∧ sepc (ch_tf c) = UTEXT + 4 ∧
    maps (uvm (prog s')) !! (ch_dir c, VPN 0x403000) = Some (20, 535) ∧ replies (prog s') = [].
Proof.
  destruct (spawn_starts_program 24 w_family 0 22 1 [2] 23 23 7 0 w_elf_bytes 9 tf0 [] [[97; 98]] [Reply 0 None 0] 0 0 []
    [47; 97] (repeat 0 512)) as (s' & dd & E & [[Hk _] _ Hr Hown _ Hlib _ _ _]);
    [intros w; reflexivity|exact w_spawnable|reflexivity|reflexivity|].
  assert (Hm : maps (uvm (prog s')) !! (23, VPN 0x403000) = Some (20, 535)) by (specialize (Hown (VPN 0x403000)); vm_compute in Hown; exact Hown).
  eexists s', _. split; [exact E|]. split; [rewrite Hk; apply lookup_insert_eq|]. split; [done|]. split; [vm_compute; reflexivity|].
  split; [|exact Hr]. assert (Hb : 0 ≤ VPN 0x403000 < user_pages) by (vm_compute; intuition discriminate).
  refine (Hlib (VPN 0x403000) 20 535 Hb _). unfold library. change (udir (prog w_family)) with 23. rewrite Hm. vm_compute. reflexivity.
Defined.
