(* ===== verification/Programs.v ===== *)
(** Formatted output to a descriptor, user/lib/fprintf.c, and the programs
    user/cat.c, user/echo.c, user/num.c and user/ls.c.

    [argv] is the list of the words behind the name of the program.  A loop
    that reads to the end of a file or a pipe has fuel; running out of it is
    the program still reading. *)
From S2P Require Import Prelude Mmu Memory Ulib Fd File Dev Print.

(** The program's state and [ret] of [struct print_ctx] *)
Record print_ctx := MkPrintCtx { pc_world : world; pc_ret : Z }.

(** Bytes of a string literal *)
Definition lit (s : string) : list Z := map (λ c, Z.of_nat (Ascii.nat_of_ascii c)) (String.list_ascii_of_string s).

Section programs.
Context `{Neighbours, FileSymbols}.

(** * fprintf.c *)

Definition print_output (fd : Z) (s : list Z) : M print_ctx unit := λ c,
  if pc_ret c <? 0 then Ok tt c
  else
    match value (write fd s) (pc_world c) with
    | Ok r w => Ok tt (MkPrintCtx w (if r <? 0 then r else pc_ret c + r))
    | Err e w => Err e (MkPrintCtx w (pc_ret c))
    | Panic m => Panic m
    | Fault m => Fault m
    | UserMode w => UserMode (MkPrintCtx w (pc_ret c))
    end.

Definition vfprintf (fd : Z) (fmt : list Z) (ap : list arg) : M world Z := λ w,
  match vprintfmt (print_output fd) fmt ap (MkPrintCtx w 0) with
  | Ok _ c => Ok (pc_ret c) (pc_world c)
  | Err e c => Err e (pc_world c)
  | Panic m => Panic m
  | Fault m => Fault m
  | UserMode c => UserMode (pc_world c)
  end.

Definition fprintf (fd : Z) (fmt : list Z) (ap : list arg) : M world Z := vfprintf fd fmt ap.
Definition printf (fmt : list Z) (ap : list arg) : M world Z := vfprintf 1 fmt ap.

(** [printf] as a statement *)
Definition show (fmt : string) (ap : list arg) : M world unit := _ <- printf (lit fmt) ap ;; ret tt.

(** The [int] result of reading *)
Definition count_read (m : M world (Z * list Z)) : M world (Z * list Z) := λ s,
  match m s with Err e s' => Ok (e, []) s' | o => o end.

(** * cat.c *)

Fixpoint cat (fuel : nat) (f : Z) : M world unit :=
  match fuel with
  | O => λ s, UserMode s
  | S fuel' =>
      '(n, buf) <- count_read (read f 8192) ;;
      if n >? 0 then
        r <- value (write 1 buf) ;;
        if negb (r =? n) then panic "write error copying" else cat fuel' f
      else if n <? 0 then panic "error reading" else ret tt
  end.

(** The loop over the files, the same in [num.c] *)
Definition each_file (copy : Z → M world unit) (argv : list (list Z)) : M world unit :=
  for_each argv (λ path,
    f <- value (open path O_RDONLY) ;;
    if f <? 0 then panic "can't open"
    else copy f ;; _ <- value (close f) ;; ret tt).

Definition cat_main (fuel : nat) (argv : list (list Z)) : M world unit :=
  match argv with
  | [] => cat fuel 0
  | _ => each_file (cat fuel) argv
  end.

(** * echo.c *)

(** The loop from the second word on prints a space first. *)
Definition echo_words (argv : list (list Z)) : M world unit :=
  match argv with
  | [] => ret tt
  | a :: l => show "%s" [AStr a] ;; for_each l (λ b, show " " [] ;; show "%s" [AStr b])
  end.

Definition newline : list Z := [10].

Definition echo_main (argv : list (list Z)) : M world unit :=
  let nflag := match argv with a :: _ => bool_decide (a = lit "-n") | [] => false end in
  echo_words (if nflag then tl argv else argv) ;;
  if negb nflag then _ <- printf newline [] ;; ret tt else ret tt.

(** * num.c *)

(** [bol] and [line] are global, they go on from file to file. *)
Fixpoint num (fuel : nat) (f : Z) (bol : bool) (line : Z) : M world (bool * Z) :=
  match fuel with
  | O => λ s, UserMode s
  | S fuel' =>
      '(n, l) <- count_read (read f 1) ;;
      if n >? 0 then
        let c := deref_str l in
        '(bol, line) <- (if bol then show "%5d " [AInt (line + 1)] ;; ret (false, line + 1) else ret (bol, line)) ;;
        r <- printf (lit "%c") [AInt c] ;;
        if negb (r =? 1) then panic "write error copying"
        else num fuel' f (if c =? 10 then true else bol) line
      else if n <? 0 then panic "error reading" else ret (bol, line)
  end.

Fixpoint num_files (fuel : nat) (argv : list (list Z)) (bol : bool) (line : Z) : M world unit :=
  match argv with
  | [] => ret tt
  | path :: argv' =>
      f <- value (open path O_RDONLY) ;;
      if f <? 0 then panic "can't open"
      else
        '(bol, line) <- num fuel f bol line ;;
        _ <- value (close f) ;;
        num_files fuel argv' bol line
  end.

Definition num_main (fuel : nat) (argv : list (list Z)) : M world unit :=
  match argv with
  | [] => _ <- num fuel 0 true 0 ;; ret tt
  | _ => num_files fuel argv true 0
  end.

(** * ls.c *)

(** [flag['d']], [flag['F']] and [flag['l']] *)
Record flags := MkFlags { flag_d : Z; flag_F : Z; flag_l : Z }.

(** Fields of a [struct File] of 256 bytes *)
Fixpoint cstr (l : list Z) : list Z :=
  match l with
  | [] => []
  | c :: l' => if c =? 0 then [] else c :: cstr l'
  end.
Definition le32 (l : list Z) (a : nat) : Z :=
  nth a l 0 + 256 * nth (a + 1) l 0 + 65536 * nth (a + 2) l 0 + 16777216 * nth (a + 3) l 0.
Definition SIZEOF_FILE := 256.
Definition f_name (f : list Z) : list Z := cstr f.
Definition f_size (f : list Z) : Z := le32 f 128.
Definition f_isdir (f : list Z) : bool := le32 f 132 =? 1.

(** [prefix] is [None] for the null pointer. *)
Definition ls1 (fl : flags) (prefix : option (list Z)) (isdir : bool) (size : Z) (name : list Z) : M world unit :=
  (if negb (flag_l fl =? 0) then show "%11d %c " [AInt size; AInt (if isdir then 100 else 45)] else ret tt) ;;
  (match prefix with
   | None => ret tt
   | Some p =>
       let sep := if negb (bool_decide (p = [])) && negb (List.last p 0 =? 47) then [47] else [] in
       show "%s%s" [AStr p; AStr sep]
   end) ;;
  show "%s" [AStr name] ;;
  (if negb (flag_F fl =? 0) && isdir then show "/" [] else ret tt) ;;
  show " " [].

Fixpoint lsdir_loop (fuel : nat) (fl : flags) (fd : Z) (prefix : list Z) : M world unit :=
  match fuel with
  | O => λ s, UserMode s
  | S fuel' =>
      '(n, f) <- count_read (readn fd SIZEOF_FILE) ;;
      if n =? SIZEOF_FILE then
        (if negb (deref_str f =? 0) then ls1 fl (Some prefix) (f_isdir f) (f_size f) (f_name f) else ret tt) ;;
        lsdir_loop fuel' fl fd prefix
      else if n >? 0 then panic "short read in directory"
      else if n <? 0 then panic "error reading directory"
      else ret tt
  end.

(** The descriptor stays open. *)
Definition lsdir (fuel : nat) (fl : flags) (path prefix : list Z) : M world unit :=
  fd <- value (open path O_RDONLY) ;;
  if fd <? 0 then panic "open" else lsdir_loop fuel fl fd prefix.

Definition ls (fuel : nat) (fl : flags) (path prefix : list Z) : M world unit :=
  '(r, st) <- stat path ;;
  match st with
  | None => panic "stat"
  | Some st =>
      if r <? 0 then panic "stat"
      else if st_isdir st && (flag_d fl =? 0) then lsdir fuel fl path prefix
      else ls1 fl None (st_isdir st) (st_size st) path
  end.

(** [exit], which does not come back *)
Definition usage {A} : M world A :=
  _ <- printf (lit "usage: ls [-dFl] [file...]" ++ newline) [] ;; close_all ;; (λ s, UserMode s).

(** The letters of one word of options *)
Fixpoint ls_letters (l : list Z) (fl : flags) : M world flags :=
  match l with
  | [] => ret fl
  | c :: l' =>
      if c =? 100 then ls_letters l' (MkFlags (flag_d fl + 1) (flag_F fl) (flag_l fl))
      else if c =? 70 then ls_letters l' (MkFlags (flag_d fl) (flag_F fl + 1) (flag_l fl))
      else if c =? 108 then ls_letters l' (MkFlags (flag_d fl) (flag_F fl) (flag_l fl + 1))
      else usage
  end.

(** ARGBEGIN to ARGEND: words that begin with a dash, up to "--" *)
Fixpoint ls_options (argv : list (list Z)) (fl : flags) : M world (flags * list (list Z)) :=
  match argv with
  | (45 :: c :: l) :: argv' =>
      if (c =? 45) && bool_decide (l = []) then ret (fl, argv')
      else fl <- ls_letters (c :: l) fl ;; ls_options argv' fl
  | _ => ret (fl, argv)
  end.

Definition ls_main (fuel : nat) (argv : list (list Z)) : M world unit :=
  '(fl, argv) <- ls_options argv (MkFlags 0 0 0) ;;
  (match argv with
   | [] => ls fuel fl [47] []
   | _ => for_each argv (λ path, ls fuel fl path path)
   end) ;;
  _ <- printf newline [] ;;
  ret tt.
End programs.
