(* ===== verification/Init.v ===== *)
(** The first programs: user/icode.c, which the kernel starts, and user/init.c,
    which icode starts and which keeps a shell running.

    [junk] is what the stack holds where spawn reads the file to, [kin] what
    the children do while the program waits; the loop of [main] has fuel. *)
From S2P Require Import Prelude Mmu Memory Print PrintProps Ulib Fd File Dev Spawn Programs.

Section init.
Context `{Neighbours, FileSymbols}.

(** [debugf] of debugf.c; its context keeps what has been shown. *)
Definition debugf (fmt : list Z) (ap : list arg) : M world unit := λ w,
  match vdebugf fmt ap (MkCtx [] (shown w)) with
  | Ok _ c => Ok tt (set_shown (Print.shown c) w)
  | Err e c => Err e (set_shown (Print.shown c) w)
  | Panic m => Panic m
  | Fault m => Fault m
  | UserMode c => UserMode (set_shown (Print.shown c) w)
  end.

(** Formats without and with a newline at the end *)
Definition debug (fmt : string) (ap : list arg) : M family unit := onw (debugf (lit fmt) ap).
Definition debugl (fmt : string) (ap : list arg) : M family unit := onw (debugf (lit fmt ++ newline) ap).

(** The [int] result of a call of the library on the program with children *)
Definition fvalue (m : M family Z) : M family Z := λ s, match m s with Err e s' => Ok e s' | o => o end.

(** * icode.c *)

(** [buf[n] = 0] ends the string, a zero byte of the file before it. *)
Fixpoint show_file (fuel : nat) (fd : Z) : M family unit :=
  match fuel with
  | O => λ s, UserMode s
  | S fuel' =>
      '(n, buf) <- onw (count_read (read fd 512)) ;;
      if n >? 0 then debugl "%s" [AStr (cstr buf)] ;; show_file fuel' fd else ret tt
  end.

Definition icode_main (fuel : nat) (junk : list Z) : M family Z :=
  debugl "icode: open /motd" [] ;;
  fd <- onw (value (open (lit "/motd") O_RDONLY)) ;;
  if fd <? 0 then panic "icode: open /motd"
  else
    debugl "icode: read /motd" [] ;;
    show_file fuel fd ;;
    debugl "icode: close /motd" [] ;;
    _ <- onw (value (close fd)) ;;
    debugl "icode: spawn /init" [] ;;
    r <- fvalue (spawnl (lit "init.b") [lit "init"; lit "initarg1"; lit "initarg2"] junk) ;;
    if r <? 0 then panic "icode: spawn /init"
    else debugl "icode: exiting" [] ;; ret 0.

(** * init.c *)

(** The initialised structure and the array without initialiser *)
Definition padded (s : string) (n : nat) : list Z := lit s ++ repeat 0 (n - length (lit s)).
Definition data : list Z := padded "this is initialized data" 5000 ++ padded "so is this" 1000.
Definition bss : list Z := repeat 0 6000.

(** [sum s n] for the [n] bytes of the list; [i] counts them. *)
Fixpoint sum_from (i : Z) (s : list Z) (tot : Z) : Z :=
  match s with
  | [] => tot
  | c :: s' => sum_from (i + 1) s' (s32 (Z.lxor tot (s32 (i * c))))
  end.
Definition sum (s : list Z) : Z := sum_from 0 s 0.

Definition want := 0xf989e.

(** The tests of the two areas as the program finds them *)
Definition check_data (d : list Z) : M family unit :=
  let x := sum d in
  if negb (x =? want)
  then debugl "init: data is not initialized: got sum %08x wanted %08x" [AInt x; AInt want]
  else debugl "init: data seems okay" [].
Definition check_bss (b : list Z) : M family unit :=
  let x := sum b in
  if negb (x =? 0) then debugl "bss is not initialized: wanted sum 0 got %08x" [AInt x]
  else debugl "init: bss seems okay" [].

(** The shell is started again whenever it ends. *)
Fixpoint shells (fuel : nat) (kin : family → family) (junk : list Z) : M family Z :=
  match fuel with
  | O => λ s, UserMode s
  | S fuel' =>
      debugl "init: starting sh" [] ;;
      r <- fvalue (spawnl (lit "sh.b") [lit "sh"] junk) ;;
      if r <? 0 then debugl "init: spawn sh: %d" [AInt r] ;; ret r
      else wait patience kin r ;; shells fuel' kin junk
  end.

(** [argv] with the program's name; up to the shells *)
Definition init_checks (d b : list Z) (argv : list (list Z)) : M family unit :=
  debugl "init: running" [] ;;
  check_data d ;;
  check_bss b ;;
  debug "init: args:" [] ;;
  for_each argv (λ a, debug " '%s'" [AStr a]) ;;
  debugl "" [].

Definition init_main (fuel : nat) (kin : family → family) (d b : list Z) (argv : list (list Z)) (junk : list Z) : M family Z :=
  init_checks d b argv ;;
  debugl "init: running sh" [] ;;
  r <- onw (value opencons) ;;
  if negb (r =? 0) then panic "opencons"
  else
    r <- onw (value (dup 0 1)) ;;
    if r <? 0 then panic "dup" else shells fuel kin junk.
End init.
