(* ===== verification/ProgramsProps.v ===== *)
(** What the programs of Programs and Init print: [cat] the file, [echo] its
    words, [init] the result of its checks. *)
From S2P Require Import Prelude Mmu Queue Memory Pmap PmapSpec VmSteps BootProofs Disk Env EnvProps Sched SchedProps.
From S2P Require Import Tlbex Syscall StringsProps QueueProps PmapProps SyscallProps TlbProps ElfProps LoadProps.
From S2P Require Import Print PrintProps Fs Serv Ulib UlibProps WorldProps Fd File Dev FileProps Spawn SpawnProps Programs Init.

(** * The console *)

Record console_fd (s : world) (i p : Z) : Prop := {
  cn_num : 0 ≤ i < MAXFD;
  cn_page : 0 ≤ p < PAGE_LIMIT ∧ ∃ f, slot s (INDEX2FD i) = Some (p, f) ∧ has f PTE_R = true ∧ has f PTE_W = true;
  cn_dev : word (ppage (umem s) p) W_DEV = dev_cons;
  cn_mode : Z.land (word (ppage (umem s) p) W_OMODE) O_ACCMODE ≠ O_RDONLY
}.

(** [l] has been printed: the console shows it, and only the page of the
    descriptor has changed, in its offset. *)
Record printed (s s' : world) (p : Z) (l : list Z) : Prop := {
  pr_state : s' = set_shown (shown s ++ l) (set_umem (umem s') s);
  pr_mem : only_page p (umem s) (umem s');
  pr_words : ∀ j, j ≠ W_OFFSET → word (ppage (umem s') p) j = word (ppage (umem s) p) j
}.

Lemma printed_refl s p : printed s s p [].
Proof. split; [by rewrite app_nil_r; destruct s|apply only_page_refl|done]. Qed.

Lemma printed_trans s1 s2 s3 p l1 l2 : printed s1 s2 p l1 → printed s2 s3 p l2 → printed s1 s3 p (l1 ++ l2).
Proof.
  intros [A1 A2 A3] [B1 B2 B3]. split; [|by eapply only_page_trans|by intros j Hj; rewrite B3, A3].
  rewrite B1, A1. cbn. by rewrite <- app_assoc.
Qed.

Lemma printed_settled np s s' p l : printed s s' p l → settled np s → settled np s'.
Proof. intros [-> _ _] Hs. exact Hs. Qed.

Lemma printed_slot s s' p l va : printed s s' p l → slot s' va = slot s va.
Proof. by intros [-> _ _]. Qed.

Lemma printed_console s s' i p l : printed s s' p l → console_fd s i p → console_fd s' i p.
Proof.
  intros Hpr [H1 [H2 (f & H3)] H4 H5]. destruct (Hpr) as [_ _ Hw].
  split; [done| |by rewrite Hw|by rewrite Hw]. split; [done|]. exists f. by rewrite (printed_slot _ _ _ _ _ Hpr).
Qed.

Section console.
Context `{Neighbours, FileSymbols} (np : Z).

Lemma write_console s i p buf : settled np s → console_fd s i p →
  ∃ s', write i buf s = Ok (Z.of_nat (length buf)) s' ∧ printed s s' p buf.
Proof using.
  intros Hs [Hi [Hp (f & Hsl & HR & HW)] Hdev Hmode]. unfold write.
  assert (Hfd : fd_dev i s = Ok (INDEX2FD i, devcons) s).
  { unfold fd_dev. rewrite (bind_ok _ _ _ _ _ (descriptor_found np s i p f Hs Hi Hsl)).
    unfold dev_id_at. replace (INDEX2FD i) with (INDEX2FD i + 4 * W_DEV) at 1 by (unfold W_DEV; lia).
    rewrite (bind_ok _ _ _ _ _ (descriptor_word s i p f Hi Hp Hsl W_DEV HR ltac:(done))), Hdev. done. }
  rewrite (bind_ok _ _ _ _ _ Hfd).
  rewrite (bind_ok _ _ _ _ _ (descriptor_word s i p f Hi Hp Hsl W_OMODE HR ltac:(done))), (proj2 (Z.eqb_neq _ _) Hmode).
  rewrite (bind_ok _ _ _ _ _ (descriptor_word s i p f Hi Hp Hsl W_OFFSET HR ltac:(done))).
  set (s1 := set_shown (shown s ++ buf) s).
  assert (Hw : value (dev_write devcons (INDEX2FD i) buf (word (ppage (umem s) p) W_OFFSET)) s = Ok (Z.of_nat (length buf)) s1) by done.
  rewrite (bind_ok _ _ _ _ _ Hw). unfold advance. rewrite Z.gtb_ltb. destruct (Z.ltb_spec 0 (Z.of_nat (length buf))) as [Hl|Hl].
  - rewrite !bind_assoc, (bind_ok _ _ _ _ _ (descriptor_word s1 i p f Hi Hp Hsl W_OFFSET HR ltac:(done))).
    rewrite (bind_ok _ _ _ _ _ (descriptor_store s1 i p f Hi Hsl W_OFFSET _ HW ltac:(done))).
    eexists. split; [reflexivity|]. split; [done|by apply only_page_store|].
    intros j Hj. cbn [umem set_umem]. rewrite (ppage_store _ _ _ _ p (4 * W_OFFSET)), decide_True by done.
    unfold word. change (4 * W_OFFSET / 4) with W_OFFSET. by rewrite lookup_insert_ne by exact (not_eq_sym Hj).
  - rewrite (bind_ok (ret tt) _ _ _ _ eq_refl). exists s1. split; [done|]. split; [by destruct s|apply only_page_refl|done].
Qed.

(** * printf *)

(** [printf] to a console shows what [printk] would print. *)
Lemma print_output_sim s0 p s : settled np s0 → console_fd s0 1 p →
  sim (λ l c, printed s0 (pc_world c) p l ∧ pc_ret c = Z.of_nat (length l)) (outputk s) (print_output 1 s).
Proof using.
  intros Hs Hc l c [Hpr Hret]. rewrite outputk_ok. unfold print_output. rewrite (proj2 (Z.ltb_ge _ _)) by lia.
  destruct (write_console (pc_world c) 1 p s (printed_settled _ _ _ _ _ Hpr Hs) (printed_console _ _ _ _ _ Hpr Hc)) as (w & E & Hw).
  unfold value. rewrite E, (proj2 (Z.ltb_ge _ 0)) by lia. split; [done|]. cbn [pc_world pc_ret].
  split; [by eapply printed_trans|]. rewrite length_app. lia.
Qed.

Lemma printf_ok s p fmt ap text : settled np s → console_fd s 1 p → printk fmt ap [] = Ok tt text →
  ∃ s', printf fmt ap s = Ok (Z.of_nat (length text)) s' ∧ printed s s' p text.
Proof using.
  intros Hs Hc E. unfold printk in E.
  pose proof (sim_vprintfmt (λ l c, printed s (pc_world c) p l ∧ pc_ret c = Z.of_nat (length l)) outputk (print_output 1)
    (λ x, print_output_sim s p x Hs Hc) fmt ap [] (MkPrintCtx s 0) (conj (printed_refl s p) eq_refl)) as Hsim.
  rewrite E in Hsim. unfold printf, vfprintf.
  destruct (vprintfmt (print_output 1) fmt ap (MkPrintCtx s 0)) as [[] c| | | |]; try done.
  destruct Hsim as [_ [Hpr Hret]]. exists (pc_world c). by rewrite Hret.
Qed.

Lemma show_ok s p fmt ap text : settled np s → console_fd s 1 p → printk (lit fmt) ap [] = Ok tt text →
  ∃ s', show fmt ap s = Ok tt s' ∧ printed s s' p text.
Proof using.
  intros Hs Hc E. destruct (printf_ok s p (lit fmt) ap text Hs Hc E) as (s' & E' & Hpr). exists s'. split; [|done].
  unfold show. by rewrite (bind_ok _ _ _ _ _ E').
Qed.

End console.

(** * echo *)

Lemma print_str_plain (a l : list Z) : print_str outputk a 0 0 l = Ok tt (l ++ a).
Proof.
  unfold print_str. change (negb (0 =? 0)) with false. cbv iota.
  assert ((if 0 <? Z.of_nat (length a) then Z.of_nat (length a) else 0) = Z.of_nat (length a)) as ->.
  { destruct (Z.ltb_spec 0 (Z.of_nat (length a))); lia. }
  rewrite Z.sub_diag. unfold bind. cbn [seqZ Z.to_nat seq fmap list_fmap for_each ret]. apply outputk_ok.
Qed.

Lemma printk_str a : printk (lit "%s") [AStr a] [] = Ok tt a.
Proof.
  change (printk (lit "%s") [AStr a]) with
    (outputk [] ;; ap <- (print_str outputk a 0 0 ;; ret []) ;; vprintfmt_loop outputk 2 [] ap).
  rewrite (bind_ok _ _ _ _ _ (outputk_ok [] [])), bind_assoc, (bind_ok _ _ _ _ _ (print_str_plain a _)).
  reflexivity.
Qed.

(** The words with a space between each two *)
Fixpoint joined (argv : list (list Z)) : list Z :=
  match argv with
  | [] => []
  | [a] => a
  | a :: l => a ++ 32 :: joined l
  end.

(** What echo promises: a newline at the end unless the first word is "-n" *)
Definition echo_text (argv : list (list Z)) : list Z :=
  match argv with
  | a :: l => if bool_decide (a = lit "-n") then joined l else joined argv ++ newline
  | [] => newline
  end.

Lemma joined_words a l : joined (a :: l) = a ++ flat_map (cons 32) l.
Proof.
  revert a. induction l as [|b l IH]; intros a; [by rewrite app_nil_r|].
  change (joined (a :: b :: l)) with (a ++ 32 :: joined (b :: l)). by rewrite IH.
Qed.

Section echo.
Context `{Neighbours, FileSymbols} (np p : Z).

(** The program may go on after printing [l]. *)
Definition prints (m : M world unit) (l : list Z) : Prop :=
  ∀ s, settled np s → console_fd s 1 p → ∃ s', m s = Ok tt s' ∧ printed s s' p l.

Lemma prints_ret : prints (ret tt) [].
Proof using. intros s _ _. exists s. split; [done|apply printed_refl]. Qed.

Lemma prints_bind m k l1 l2 : prints m l1 → prints (k tt) l2 → prints (bind m k) (l1 ++ l2).
Proof using.
  intros Hm Hk s Hs Hc. destruct (Hm s Hs Hc) as (s1 & E1 & P1).
  destruct (Hk s1 (printed_settled _ _ _ _ _ P1 Hs) (printed_console _ _ _ _ _ P1 Hc)) as (s2 & E2 & P2).
  exists s2. split; [by rewrite (bind_ok _ _ _ _ _ E1)|by eapply printed_trans].
Qed.

Lemma prints_show fmt ap l : printk (lit fmt) ap [] = Ok tt l → prints (show fmt ap) l.
Proof using. intros E s Hs Hc. by apply (show_ok np s p fmt ap l). Qed.

Lemma prints_each {A} (b : A → M world unit) (f : A → list Z) l :
  (∀ x, prints (b x) (f x)) → prints (for_each l b) (flat_map f l).
Proof using. intros Hb. induction l as [|x l IH]; [apply prints_ret|]. cbn. by apply prints_bind. Qed.

Lemma prints_word a : prints (show "%s" [AStr a]) a.
Proof using. apply prints_show, printk_str. Qed.

Lemma prints_words argv : prints (echo_words argv) (joined argv).
Proof using.
  destruct argv as [|a l]; [apply prints_ret|]. rewrite joined_words. cbn [echo_words].
  apply prints_bind; [apply prints_word|]. apply prints_each. intros b.
  apply (prints_bind _ _ [32] b); [by apply prints_show|apply prints_word].
Qed.

Lemma prints_newline : prints (_ <- printf newline [] ;; ret tt) newline.
Proof using. intros s Hs Hc. destruct (printf_ok np s p newline [] newline Hs Hc eq_refl) as (s' & E & Hp). exists s'. by rewrite (bind_ok _ _ _ _ _ E). Qed.

Lemma prints_echo argv : prints (echo_main argv) (echo_text argv).
Proof using.
  unfold echo_main, echo_text. destruct argv as [|a l]; cbv zeta; cbn [negb].
  - apply (prints_bind _ _ [] newline); [apply prints_words|apply prints_newline].
  - case_bool_decide; cbn [negb tl]; [rewrite <- (app_nil_r (joined l))|];
      (apply prints_bind; [apply prints_words|]); [apply prints_ret|apply prints_newline].
Qed.
End echo.

(** * cat *)

(** [l] has been copied to the console from the file whose descriptor is in
    page [pi]: only that page and the console's descriptor have changed. *)
Record copied (s s' : world) (pi p : Z) (l : list Z) : Prop := {
  co_state : s' = set_shown (shown s ++ l) (set_umem (umem s') s);
  co_mem : ∀ q, q ≠ pi → q ≠ p → ppage (umem s') q = ppage (umem s) q
}.

Lemma copied_trans s1 s2 s3 pi p l1 l2 : copied s1 s2 pi p l1 → copied s2 s3 pi p l2 → copied s1 s3 pi p (l1 ++ l2).
Proof.
  intros [A1 A2] [B1 B2]. split; [|by intros q H1 H2; rewrite B2, A2].
  rewrite B1, A1. cbn. by rewrite <- app_assoc.
Qed.

Lemma printed_copied s s' pi p l : printed s s' p l → copied s s' pi p l.
Proof. intros [A1 A2 _]. split; [done|]. intros q _ Hq. by apply A2. Qed.

Lemma piece_split (bytes : list Z) off n : 0 ≤ off → 0 < n →
  let k := Z.of_nat (length (piece bytes off n)) in
  drop (Z.to_nat off) bytes = piece bytes off n ++ drop (Z.to_nat (off + k)) bytes ∧ 0 ≤ k ≤ n ∧
  (k = n ∨ Z.of_nat (length bytes) ≤ off + k) ∧ (piece bytes off n = [] → drop (Z.to_nat off) bytes = []).
Proof.
  intros Ho Hn k. assert (Hk : k = Z.min n (Z.of_nat (length (drop (Z.to_nat off) bytes)))) by
    (unfold k, piece; rewrite length_take; lia).
  rewrite length_drop in Hk. split; [|split; [lia|split; [lia|]]].
  - rewrite Z2Nat.inj_add, <- drop_drop by lia. unfold piece.
    rewrite <- (take_drop (Z.to_nat n) (drop (Z.to_nat off) bytes)) at 1. f_equal.
    destruct (decide (k = n)) as [->|Hne]; [done|]. rewrite !(drop_ge (drop _ _)); [done| |]; rewrite length_drop; lia.
  - intros E. apply nil_length_inv. rewrite length_drop. unfold k in Hk. rewrite E in Hk. cbn in Hk. lia.
Qed.

Section cat.
Context `{Neighbours, FileSymbols} (np : Z).

(** A descriptor page in place of which nothing else is changed *)
Lemma console_kept s s' i p : console_fd s i p → slot s' (INDEX2FD i) = slot s (INDEX2FD i) →
  ppage (umem s') p = ppage (umem s) p → console_fd s' i p.
Proof using.
  intros [H1 [H2 (f & H3)] H4 H5] Hsl Hp. split; rewrite ?Hp; try done. split; [done|]. exists f. by rewrite Hsl.
Qed.

Section rounds.
Context (i pi id omode : Z) (bytes : list Z) (p : Z) (Hom : Z.land omode O_ACCMODE ≠ O_WRONLY).

(** One round of the loop: the bytes read are written. *)
Lemma cat_round s off : settled np s → console_fd s 1 p → open_file s i pi id omode bytes off →
  ¬ file_page s i bytes p → 0 ≤ off < 2 ^ 31 → piece bytes off 8192 ≠ [] →
  ∃ s', (∀ fuel, cat (S fuel) i s = cat fuel i s') ∧ copied s s' pi p (piece bytes off 8192) ∧ console_fd s' 1 p ∧
    open_file s' i pi id omode bytes (off + Z.of_nat (length (piece bytes off 8192))).
Proof using Hom.
  intros Hs Hc Hof Hap Hoff Hne. set (l := piece bytes off 8192) in *.
  assert (Hl : 0 < Z.of_nat (length l) ≤ 8192) by
    (unfold l, piece in *; destruct (take _ _) eqn:E; [done|]; rewrite <- E, length_take; split; [rewrite <- length_take, E; cbn|]; lia).
  pose proof (read_ok np s i pi id omode bytes off Hs Hof 8192 Hom ltac:(lia) ltac:(lia) ltac:(lia)) as Er.
  fold l in Er. rewrite decide_False in Er by done.
  set (x := off + Z.of_nat (length l)) in *. pose proof (with_offset_open s i pi id omode bytes off Hof x ltac:(lia)) as Hof1.
  set (s1 := with_offset s pi x) in *.
  assert (Hpi : p ≠ pi).
  { intros ->. apply Hap. left. destruct (of_page _ _ _ _ _ _ _ Hof) as [_ (f & Hf & _)]. by exists f. }
  assert (Hm1 : only_page pi (umem s) (umem s1)) by (apply only_page_store; [apply Hof|done]).
  assert (Hc1 : console_fd s1 1 p) by (by apply (console_kept s); [| |apply Hm1]).
  destruct (write_console np s1 1 p l Hs Hc1) as (s2 & Ew & Hp2). exists s2. split; [|split; [|split]].
  - intros fuel. cbn [cat].
    assert (Ec : count_read (read i 8192) s = Ok (Z.of_nat (length l), l) s1) by (unfold count_read; by rewrite Er).
    rewrite (bind_ok _ _ _ _ _ Ec). rewrite Z.gtb_ltb, (proj2 (Z.ltb_lt _ _)) by lia.
    assert (Ev : value (write 1 l) s1 = Ok (Z.of_nat (length l)) s2) by (unfold value; by rewrite Ew).
    rewrite (bind_ok _ _ _ _ _ Ev), Z.eqb_refl. reflexivity.
  - apply (copied_trans s s1 s2 pi p [] l); [|by apply printed_copied].
    split; [rewrite app_nil_r; by destruct s|]. intros q Hq _. by apply Hm1.
  - by apply (printed_console s1 s2 1 p l).
  - apply (open_file_kept s1); [done|by apply (printed_slot s1 s2 p l)|intros k _; by apply (printed_slot s1 s2 p l)|].
    intros q Hq. apply (pr_mem _ _ _ _ Hp2). intros ->. by apply Hap.
Qed.

Lemma cat_end s off fuel : settled np s → open_file s i pi id omode bytes off → 0 ≤ off < 2 ^ 31 →
  piece bytes off 8192 = [] → cat (S fuel) i s = Ok tt s.
Proof using Hom.
  intros Hs Hof Hoff E. pose proof (read_ok np s i pi id omode bytes off Hs Hof 8192 Hom ltac:(lia) ltac:(lia) ltac:(lia)) as Er.
  rewrite E, decide_True in Er by done. cbn [cat].
  assert (Ec : count_read (read i 8192) s = Ok (0, []) s) by (unfold count_read; by rewrite Er).
  by rewrite (bind_ok _ _ _ _ _ Ec).
Qed.

(** The rest of the file is printed. *)
Lemma cat_ok fuel : ∀ s off, settled np s → console_fd s 1 p → open_file s i pi id omode bytes off →
  ¬ file_page s i bytes p → 0 ≤ off ≤ Z.of_nat (length bytes) → Z.of_nat (length bytes) - off ≤ 8192 * Z.of_nat fuel →
  ∃ s' off', cat (S fuel) i s = Ok tt s' ∧ copied s s' pi p (drop (Z.to_nat off) bytes) ∧
    open_file s' i pi id omode bytes off'.
Proof using Hom.
  induction fuel as [|fuel IH]; intros s off Hs Hc Hof Hap Hoff Hfuel;
    pose proof (of_len _ _ _ _ _ _ _ Hof) as Hlen; change MAXFILESIZE with 4194304 in Hlen;
    destruct (piece_split bytes off 8192 ltac:(lia) ltac:(lia)) as (Hd & Hk & Hmore & Hend);
    destruct (decide (piece bytes off 8192 = [])) as [E|E].
  1,3: exists s, off; rewrite (cat_end s off _ Hs Hof ltac:(lia) E), (Hend E);
    (split; [done|]); (split; [|done]); (split; [rewrite app_nil_r; by destruct s|done]).
  - exfalso. apply E. unfold piece. rewrite drop_ge by lia. by rewrite take_nil.
  - destruct (cat_round s off Hs Hc Hof Hap ltac:(lia) E) as (s1 & E1 & P1 & Hc1 & Hof1).
    assert (Hs1 : settled np s1) by (rewrite (co_state _ _ _ _ _ P1); exact Hs).
    assert (Hsl : ∀ va, slot s1 va = slot s va) by (intros va; by rewrite (co_state _ _ _ _ _ P1)).
    assert (Hap1 : ¬ file_page s1 i bytes p) by (unfold file_page in *; setoid_rewrite Hsl; exact Hap).
    assert (Hin : off + Z.of_nat (length (piece bytes off 8192)) ≤ Z.of_nat (length bytes)) by
      (unfold piece; rewrite length_take, length_drop; lia).
    destruct (IH s1 _ Hs1 Hc1 Hof1 Hap1) as (s2 & off' & E2 & P2 & Hof2); [lia|lia|].
    exists s2, off'. split; [by rewrite E1|]. split; [|exact Hof2]. rewrite Hd. by eapply copied_trans.
Qed.
End rounds.

(** What the program has when the file at [path] is opened, with the console
    open as its descriptor 1, and the answers of the server up to the close *)
Record cat_ready (s : world) (i pb pf : Z) (qs : list Z) (permf permd id omode : Z) (bytes : list Z)
    (rest : list reply) (p : Z) : Prop := {
  ca_file : ∃ ds v x, openable np s i pb pf qs permf permd id omode bytes (ds ++ Reply v None x :: rest) ∧
    length ds = length qs ∧ Forall (λ r, rp_page r = None) ds ∧ 0 ≤ s32 v;
  ca_mode : Z.land omode O_ACCMODE ≠ O_WRONLY;
  ca_console : console_fd s 1 p;
  ca_apart : p ∉ pb :: pf :: qs
}.

Section ready.
Context (s : world) (i pb pf : Z) (qs : list Z) (permf permd id omode : Z) (bytes : list Z) (rs : list reply) (p : Z).
Context (Hon : openable np s i pb pf qs permf permd id omode bytes rs) (Hc : console_fd s 1 p) (Hap : p ∉ pb :: pf :: qs).

Lemma opened_console s1 c0 : opening np s pb i pf id permf permd c0 qs rs (length qs) s1 →
  console_fd s1 1 p ∧ ¬ file_page s1 i bytes p.
Proof using Hon Hc Hap.
  intros Hop. pose proof (on_fd _ _ _ _ _ _ _ _ _ _ _ _ Hon) as (Hi & _ & Hfree). pose proof Hc as [_ [_ (f & Hf & _)] _ _].
  assert (Hi1 : 1 ≠ i) by (intros <-; congruence).
  assert (Hst : ∀ k, opened_slot s i pf permf permd qs k (INDEX2FD 1) = slot s (INDEX2FD 1)) by
    (intros k; by apply opened_slot_fd).
  split.
  - apply (console_kept s); [done|by rewrite (op_slot _ _ _ _ _ _ _ _ _ _ _ _ _ Hop)|].
    apply (op_kept _ _ _ _ _ _ _ _ _ _ _ _ _ Hop); [intros ->; apply Hap, list_elem_of_here|].
    right. by exists (INDEX2FD 1), f.
  - intros [(g & Hg)|(k & g & Hk & Hg)]; apply Hap.
    + rewrite (op_slot _ _ _ _ _ _ _ _ _ _ _ _ _ Hop) in Hg. unfold opened_slot in Hg. rewrite Z.eqb_refl in Hg.
      injection Hg as -> _. apply list_elem_of_further, list_elem_of_here.
    + destruct (opened_data np s s1 i pb pf qs permf permd id omode bytes rs c0 Hon Hop k Hk) as (q & Hq & Hsl & _).
      rewrite Hsl in Hg. injection Hg as -> _. do 2 apply list_elem_of_further. by eapply list_elem_of_lookup_2.
Qed.
End ready.

(** One file: open, copy, close *)
Lemma cat_main_ok fuel path i s s1 s2 s3 : open path O_RDONLY s = Ok i s1 → 0 ≤ i → cat fuel i s1 = Ok tt s2 →
  close i s2 = Ok 0 s3 → cat_main fuel [path] s = Ok tt s3.
Proof using.
  intros E1 Hi E2 E3. unfold cat_main, each_file. cbn [for_each].
  assert (Eo : value (open path O_RDONLY) s = Ok i s1) by (unfold value; by rewrite E1).
  assert (Ec : value (close i) s2 = Ok 0 s3) by (unfold value; by rewrite E3).
  rewrite bind_assoc, (bind_ok _ _ _ _ _ Eo), (proj2 (Z.ltb_ge _ _)), !bind_assoc by lia.
  by rewrite (bind_ok _ _ _ _ _ E2), !bind_assoc, (bind_ok _ _ _ _ _ Ec).
Qed.

(** C30. [cat path] shows the file and nothing else: the library opens it at the
    server, the loop reads and writes up to the end of the file however long,
    and the close tells the server; every request goes out once and in order,
    and the descriptor is free again. *)
Theorem cat_copies s i pb pf qs permf permd id omode bytes rest p path fuel :
  (∀ s, others s = s) → cat_ready s i pb pf qs permf permd id omode bytes rest p →
  path_ok path = true → Z.of_nat (length bytes) ≤ 8192 * Z.of_nat fuel →
  ∃ s' cs, cat_main (S fuel) [path] s = Ok tt s' ∧ shown s' = shown s ++ bytes ∧
    requests s' = requests s ++ cs ∧
    map fst cs = FSREQ_OPEN :: repeat FSREQ_MAP (length qs) ++ repeat FSREQ_DIRTY (length qs) ++ [FSREQ_CLOSE] ∧
    replies s' = rest ∧ slot s' (INDEX2FD i) = None ∧
    (∀ d v, d ≠ udir s → maps (uvm s') !! (d, v) = maps (uvm s) !! (d, v)).
Proof.
  intros Hq [(ds & v & x & Hon & Hds & Hnone & Hv) Hom Hc Hap] Hpath Hfuel.
  destruct (open_ok np Hq s i pb pf qs permf permd id omode bytes _ path O_RDONLY Hon Hpath) as (s1 & c0 & E1 & Hof & Hop & _).
  destruct (opened_console s i pb pf qs permf permd id omode bytes _ p Hon Hc Hap s1 c0 Hop) as [Hc1 Hap1].
  pose proof (op_settled _ _ _ _ _ _ _ _ _ _ _ _ _ Hop) as Hs1.
  destruct (cat_ok i pf id omode bytes p Hom fuel s1 0 Hs1 Hc1 Hof Hap1 ltac:(lia) ltac:(lia)) as (s2 & off & E2 & P2 & Hof2).
  pose proof (co_state _ _ _ _ _ P2) as Es2.
  assert (Hs2 : settled np s2) by (rewrite Es2; exact Hs1).
  pose proof (op_request _ _ _ _ _ _ _ _ _ _ _ _ _ Hop) as Hrq1.
  assert (Hrq2 : request_page s2 pb) by (apply (request_page_kept s1); [done|by rewrite Es2|by rewrite Es2]).
  pose proof (op_replies _ _ _ _ _ _ _ _ _ _ _ _ _ Hop) as Hrep. rewrite drop_all in Hrep. cbn [map app] in Hrep.
  assert (Hrep2 : replies s2 = ds ++ Reply v None x :: rest) by (by rewrite Es2).
  destruct (on_fd _ _ _ _ _ _ _ _ _ _ _ _ Hon) as (Hi & _).
  destruct (close_ok np Hq s2 i pf id omode bytes off pb (length qs) ds v x rest Hs2 Hof2 Hrq2
    (on_count _ _ _ _ _ _ _ _ _ _ _ _ Hon) Hrep2 Hds Hnone Hv ltac:(lia)) as (s3 & s4 & E4 & Ha & Hu).
  destruct (op_asked _ _ _ _ _ _ _ _ _ _ _ _ _ Hop) as (cs & Hr1 & Hlc & _).
  destruct (as_codes _ _ _ _ _ Ha) as (cs3 & Hr3 & Hcs3).
  destruct (as_vm _ _ _ _ _ Ha) as [V3 D3]. pose proof (um_rest _ _ _ _ Hu) as Er.
  exists s4, ((FSREQ_OPEN, c0) :: map (pair FSREQ_MAP) cs ++ cs3).
  rewrite Es2 in Hr3, V3, D3. cbn [requests uvm udir set_shown set_umem] in Hr3, V3, D3.
  pose proof (proj1 (op_dir _ _ _ _ _ _ _ _ _ _ _ _ _ Hop)) as D1.
  assert (D4 : udir s4 = udir s3) by exact (f_equal udir Er).
  split_and!.
  - by apply (cat_main_ok (S fuel) path i s s1 s2 s4 E1 ltac:(lia)).
  - rewrite (f_equal shown Er : shown s4 = shown s3), (proj2 (as_rest _ _ _ _ _ Ha)), Es2.
    by rewrite <- (proj2 (op_rest _ _ _ _ _ _ _ _ _ _ _ _ _ Hop)).
  - rewrite (f_equal requests Er : requests s4 = requests s3), Hr3, Hr1. by rewrite <- app_assoc.
  - cbn [map]. rewrite map_app, Hcs3, map_map. cbn [fst]. by rewrite map_const, Hlc.
  - rewrite (f_equal replies Er : replies s4 = replies s3). apply (as_replies _ _ _ _ _ Ha).
  - unfold slot. rewrite (um_maps _ _ _ _ Hu), decide_True; [done|]. split; [exact D4|].
    apply elem_of_app. right. apply list_elem_of_here.
  - intros d k Hd. rewrite (um_maps _ _ _ _ Hu), decide_False by (intros [-> _]; congruence).
    rewrite V3. by apply (op_others _ _ _ _ _ _ _ _ _ _ _ _ _ Hop).
Qed.
End cat.

(** * A console and a file *)

#[local] Existing Instance w_file_symbols.
#[local] Existing Instance w_alone.

(** The program of FileProps with the console, page 3, as descriptor 1 *)
Definition w_cat_vm : vm := default w_user_vm (spec_insert w_user_vm 23 (VPN (INDEX2FD 1)) 3 23).
Definition w_cat_mem : memory := <[3 + PPN0 := {[ W_DEV := dev_cons; W_OMODE := 1 ]}]> w_file_mem.
Definition w_cat_replies : list reply := [Reply 0 (Some 1) 23; Reply 0 (Some 2) 23; Reply 0 None 0; Reply 0 None 0].
Definition w_cat_world : world := MkWorld w_cat_vm w_cat_mem 23 [] [] w_cat_replies [] [].

Lemma w_cat_settled : settled 24 w_cat_world.
Proof.
  assert (Hd : 23 ∈ dirs w_user_vm) by (vm_compute; set_solver).
  assert (H3 : server_page 24 w_user_vm 3) by (split; [done|split; vm_compute; [discriminate|reflexivity]]).
  destruct (real_insert 24 w_user_vm 23 (INDEX2FD 1) 3 23 w_user_real Hd) as (A & E & Hr & _ & Hdirs & _).
  - done.
  - exact (server_mappable 24 w_user_vm 3 w_user_real H3).
  - done.
  - vm_compute. lia.
  - assert (EA : w_cat_vm = A) by (unfold w_cat_vm; by rewrite E). split; cbn [uvm udir w_cat_world]; rewrite EA; [exact Hr|].
    by rewrite Hdirs.
Qed.

Lemma w_cat_openable : openable 24 w_cat_world 0 22 1 [2] 23 23 7 0 w_hello [Reply 0 None 0; Reply 0 None 0].
Proof.
  split.
  - exact w_cat_settled.
  - split; [|vm_compute; intuition discriminate|done]. split; [done|]. exists 23. vm_compute. auto.
  - split; [done|]. split; [intros j Hj; lia|vm_compute; reflexivity].
  - reflexivity.
  - split; [|split]; [apply (bool_decide_unpack _); vm_compute; exact I..|].
    intros q Hq. apply elem_of_cons in Hq as [Hq|Hq%list_elem_of_singleton]; rewrite Hq; vm_compute; intuition discriminate.
  - split; [done|]. split; [done|]. split; [split; [done|vm_compute; reflexivity]|done].
  - split; vm_compute; reflexivity.
  - split; vm_compute; reflexivity.
  - split; vm_compute; [reflexivity|discriminate].
  - vm_compute. reflexivity.
  - intros k b Hb. pose proof (lookup_lt_Some _ _ _ Hb) as Hk. change (length w_hello) with 5%nat in Hk.
    exists 2. do 5 (destruct k as [|k]; [injection Hb as <-; split; vm_compute; reflexivity|]). lia.
  - vm_compute. lia.
Qed.

Lemma w_cat_console : console_fd w_cat_world 1 3.
Proof.
  split; [done| |vm_compute; reflexivity|vm_compute; discriminate].
  split; [done|]. exists 23. split_and!; vm_compute; reflexivity.
Qed.

Lemma w_cat_ready : cat_ready 24 w_cat_world 0 22 1 [2] 23 23 7 0 w_hello [] 3.
Proof.
  split; [|done|exact w_cat_console|apply (bool_decide_unpack _); vm_compute; exact I].
  exists [Reply 0 None 0], 0, 0. split; [exact w_cat_openable|]. split; [done|]. split; [by repeat constructor|done].
Qed.

Lemma cat_copies_witness : ∃ s' (cs : list (Z * page)), cat_main 2 [[47; 97]] w_cat_world = Ok tt s' ∧ shown s' = w_hello ∧
  map fst cs = [FSREQ_OPEN; FSREQ_MAP; FSREQ_DIRTY; FSREQ_CLOSE].
Proof.
  destruct (cat_copies 24 w_cat_world 0 22 1 [2] 23 23 7 0 w_hello [] 3 [47; 97] 1)
    as (s' & cs & E & Hsh & _ & Hcs & _).
  - reflexivity.
  - exact w_cat_ready.
  - reflexivity.
  - vm_compute. discriminate.
  - exists s', cs. split; [exact E|]. split; [exact Hsh|exact Hcs].
Defined.

(** [echo] prints its words with one space between each two and a newline
    at the end, without the newline when the first word is "-n", which is not
    printed: every [printf] goes through the conversions of the formatted
    output and the descriptor's console, and nothing else of the program
    changes but the offset of the descriptor. *)
Theorem echo_prints `{Neighbours, FileSymbols} np p argv s :
  settled np s → console_fd s 1 p →
  ∃ s', echo_main argv s = Ok tt s' ∧ printed s s' p (echo_text argv).
Proof. intros Hs Hc. by apply (prints_echo np p argv). Qed.

Lemma echo_prints_witness : ∃ s', echo_main [lit "-n"; lit "hello"; lit "world"] w_cat_world = Ok tt s' ∧
  shown s' = lit "hello world".
Proof.
  destruct (echo_prints 24 3 [lit "-n"; lit "hello"; lit "world"] w_cat_world w_cat_settled w_cat_console) as (s' & E & Hp).
  exists s'. split; [exact E|]. rewrite (pr_state _ _ _ _ Hp). reflexivity.
Defined.

(** * init *)

Section init.
Context `{Neighbours, FileSymbols}.

Lemma debugf_ok fmt ap l w : printk fmt ap [] = Ok tt l → debugf fmt ap w = Ok tt (set_shown (shown w ++ l) w).
Proof using. intros E. unfold debugf. by rewrite (debugf_prints_like_printk _ _ _ E). Qed.

(** [m] shows [l] and changes nothing else. *)
Definition shows (m : M family unit) (l : list Z) : Prop :=
  ∀ s, m s = Ok tt (set_prog (set_shown (shown (prog s) ++ l) (prog s)) s).

Lemma shows_ret : shows (ret tt) [].
Proof using. intros [w k b]. cbn. rewrite app_nil_r. by destruct w. Qed.

Lemma shows_bind m1 m2 l1 l2 : shows m1 l1 → shows m2 l2 → shows (m1 ;; m2) (l1 ++ l2).
Proof using. intros H1 H2 s. rewrite (bind_ok _ _ _ _ _ (H1 s)), H2. cbn. by rewrite <- app_assoc. Qed.

Lemma shows_each {A} (b : A → M family unit) f l : (∀ x, shows (b x) (f x)) → shows (for_each l b) (flat_map f l).
Proof using. intros Hb. induction l as [|x l IH]; [apply shows_ret|]. by apply shows_bind. Qed.

Lemma shows_debugf fmt ap l : printk fmt ap [] = Ok tt l → shows (onw (debugf fmt ap)) l.
Proof using. intros E s. exact (onw_ok _ s tt _ (debugf_ok _ _ _ (prog s) E)). Qed.

Lemma shows_quoted a : shows (debug " '%s'" [AStr a]) (lit " '" ++ a ++ lit "'").
Proof using.
  apply shows_debugf. change (printk (lit " '%s'") [AStr a]) with
    (outputk (lit " '") ;; ap <- (print_str outputk a 0 0 ;; ret []) ;; vprintfmt_loop outputk 4 (lit "'") ap).
  rewrite (bind_ok _ _ _ _ _ (outputk_ok _ _)), bind_assoc, (bind_ok _ _ _ _ _ (print_str_plain a _)).
  reflexivity.
Qed.

(** What a good start looks like *)
Definition init_text (argv : list (list Z)) : list Z :=
  lit "init: running" ++ newline ++ lit "init: data seems okay" ++ newline ++ lit "init: bss seems okay" ++ newline ++
  lit "init: args:" ++ flat_map (λ a, lit " '" ++ a ++ lit "'") argv ++ newline.

(** The data the linker places pass the test of [init]: the sum of the
    structure is the constant in the program, that of the array is 0. *)
Lemma init_sums : sum data = want ∧ sum bss = 0.
Proof using. split; vm_compute; reflexivity. Qed.

Theorem init_checks_pass argv : shows (init_checks data bss argv) (init_text argv).
Proof using.
  destruct init_sums as [Hd Hb]. unfold init_checks, init_text, check_data, check_bss. rewrite Hd, Hb.
  change (negb (want =? want)) with false. change (negb (0 =? 0)) with false. cbv iota zeta.
  rewrite !(app_assoc (lit _) newline). repeat (apply shows_bind; [by apply shows_debugf|]).
  apply shows_bind; [|by apply shows_debugf]. apply shows_each. apply shows_quoted.
Qed.
End init.
