(* ===== verification/Sh.v ===== *)
(** The shell: user/sh.c, with the option macros of include/args.h.

    The command line [buf] is an array of bytes and a pointer into it an index.
    What the shell does with files and processes are the operations of the
    class [Os]; [args] is the array [argv] of [runcmd], of [MAXARGS] pointers. *)
From S2P Require Import Prelude Mmu Memory PmapSpec Ulib Fd.

Definition MAXARGS : nat := 128.
Definition BUFSIZE : nat := 1024.

(** The file and process operations of the library; [os_gone] is the state once
    the process has exited.  A path or an argument is the list of its bytes. *)
Class Os (S : Type) := {
  os_open : list Z → Z → M S Z;
  os_dup : Z → Z → M S Z;
  os_close : Z → M S Z;
  os_pipe : M S (Z * (Z * Z));      (* result, read end and write end *)
  os_fork : M S Z;
  os_spawn : list Z → list (list Z) → M S Z;
  os_wait : Z → M S unit;
  os_close_all : M S unit;
  os_gone : S → S;
  os_read : Z → M S (Z * Z);        (* one byte: result and byte *)
  os_print : list Z → M S unit;
  os_iscons : Z → M S Z
}.

(** [exit] does not return. *)
Definition os_exit {S A} `{Os S} : M S A := λ s, UserMode (os_gone s).

(** The tokenizer's static variables, the line, the arguments and the rest *)
Record shell (S : Type) := MkShell {
  line : list Z;
  tok_c : Z; tok_nc : Z;
  np1 : option nat; np2 : option nat;
  args : list (option nat);
  rightpipe : Z;
  os : S
}.
Arguments MkShell {S} line tok_c tok_nc np1 np2 args rightpipe os.
Arguments line {S} _.
Arguments tok_c {S} _.
Arguments tok_nc {S} _.
Arguments np1 {S} _.
Arguments np2 {S} _.
Arguments args {S} _.
Arguments rightpipe {S} _.
Arguments os {S} _.

Section sh.
Context {S : Type} `{Os S}.

Definition set_line (v : list Z) (s : shell S) := MkShell v (tok_c s) (tok_nc s) (np1 s) (np2 s) (args s) (rightpipe s) (os s).
Definition set_tokens (c nc : Z) (p1 p2 : option nat) (s : shell S) :=
  MkShell (line s) c nc p1 p2 (args s) (rightpipe s) (os s).
Definition set_args (v : list (option nat)) (s : shell S) :=
  MkShell (line s) (tok_c s) (tok_nc s) (np1 s) (np2 s) v (rightpipe s) (os s).
Definition set_os (v : S) (s : shell S) :=
  MkShell (line s) (tok_c s) (tok_nc s) (np1 s) (np2 s) (args s) (rightpipe s) v.

#[export, refine] Instance sub_os : Sub (shell S) S := { sub_get := os; sub_set := set_os }.
Proof. all: by intros; repeat match goal with s : shell _ |- _ => destruct s end. Defined.

Definition call {A} (m : M S A) : M (shell S) A := lift (H := sub_os) m.

(** * The tokenizer *)

(** [strchr] of a character that may be the terminator, which it never finds *)
Definition is_white (c : Z) : bool := (c =? 32) || (c =? 9) || (c =? 13) || (c =? 10).
Definition is_symbol (c : Z) : bool :=
  (c =? 60) || (c =? 124) || (c =? 62) || (c =? 38) || (c =? 59) || (c =? 40) || (c =? 41).

Definition rd_line (i : nat) : M (shell S) Z := λ s,
  match line s !! i with Some c => Ok c s | None => Fault "beyond the buffer" end.
Definition wr_line (i : nat) (c : Z) : M (shell S) unit := λ s,
  if decide (i < length (line s))%nat then Ok tt (set_line (<[i := c]> (line s)) s) else Fault "beyond the buffer".

(** [while (strchr (WHITESPACE, *s)) *s++ = 0;] *)
Fixpoint skip_white (fuel : nat) (s : nat) : M (shell S) nat :=
  match fuel with
  | O => fault "line without end"
  | Datatypes.S fuel' =>
      c <- rd_line s ;;
      if is_white c then wr_line s 0 ;; skip_white fuel' (s + 1)%nat else ret s
  end.

(** [while ( *s && !strchr (WHITESPACE SYMBOLS, *s)) s++;] *)
Fixpoint word_end (fuel : nat) (s : nat) : M (shell S) nat :=
  match fuel with
  | O => fault "line without end"
  | Datatypes.S fuel' =>
      c <- rd_line s ;;
      if negb (c =? 0) && negb (is_white c || is_symbol c) then word_end fuel' (s + 1)%nat else ret s
  end.

(** The token, [*p1] and [*p2]; ['w'] is 119. *)
Definition _gettoken (s : option nat) : M (shell S) (Z * option nat * option nat) :=
  match s with
  | None => ret (0, None, None)
  | Some s =>
      n <- gets (λ st, Datatypes.S (length (line st))) ;;
      s <- skip_white n s ;;
      c <- rd_line s ;;
      if c =? 0 then ret (0, None, None)
      else if is_symbol c then wr_line s 0 ;; ret (c, Some s, Some (s + 1)%nat)
      else e <- word_end n s ;; ret (119, Some s, Some e)
  end.

(** [gettoken (s, 0)] for a string *)
Definition gettoken_init (s : nat) : M (shell S) Z :=
  '(nc, p1, p2) <- _gettoken (Some s) ;;
  modify (λ st, set_tokens (tok_c st) nc p1 p2 st) ;;
  ret 0.

(** [gettoken (0, &t)]: the token and [t] *)
Definition gettoken : M (shell S) (Z * option nat) :=
  c <- gets tok_nc ;;
  p1 <- gets np1 ;;
  p2 <- gets np2 ;;
  '(nc, q1, q2) <- _gettoken p2 ;;
  modify (set_tokens c nc q1 q2) ;;
  ret (c, p1).

(** * The parser *)

(** The string at a pointer *)
Definition string_of (l : list Z) (i : nat) : list Z :=
  (fix go l := match l with [] => [] | c :: l' => if c =? 0 then [] else c :: go l' end) (drop i l).
Definition deref_string (p : option nat) : M (shell S) (list Z) :=
  match p with None => fault "null string" | Some i => gets (λ s, string_of (line s) i) end.

Definition set_arg (i : nat) (p : option nat) : M (shell S) unit := λ s,
  if decide (i < MAXARGS)%nat then Ok tt (set_args (<[i := p]> (args s)) s) else Fault "beyond argv".

(** [<] and [>]: the word opened with [mode] and moved to [fd] *)
Definition redirect (mode fd : Z) : M (shell S) unit :=
  '(c, t) <- gettoken ;;
  if negb (c =? 119) then call os_exit
  else
    path <- deref_string t ;;
    n <- call (os_open path mode) ;;
    _ <- call (os_dup n fd) ;;
    _ <- call (os_close n) ;;
    ret tt.

(** The result is [argc].  Every round reads a token. *)
Fixpoint parsecmd (fuel : nat) (argc : nat) : M (shell S) nat :=
  match fuel with
  | O => fault "parsecmd: out of fuel"
  | Datatypes.S fuel' =>
      '(c, t) <- gettoken ;;
      if c =? 0 then ret argc
      else if c =? 119 then
        if (MAXARGS <=? argc)%nat then call os_exit
        else set_arg argc t ;; parsecmd fuel' (argc + 1)%nat
      else if c =? 60 then redirect O_RDONLY 0 ;; parsecmd fuel' argc
      else if c =? 62 then redirect O_WRONLY 1 ;; parsecmd fuel' argc
      else if c =? 124 then
        '(r, (p0, p1)) <- call os_pipe ;;
        if r <? 0 then ret 0%nat
        else
          r <- call os_fork ;;
          if r <? 0 then ret 0%nat
          else if r =? 0 then
            _ <- call (os_dup p0 0) ;;
            _ <- call (os_close p0) ;;
            _ <- call (os_close p1) ;;
            parsecmd fuel' 0
          else
            _ <- call (os_dup p1 1) ;;
            _ <- call (os_close p1) ;;
            _ <- call (os_close p0) ;;
            ret argc
      else parsecmd fuel' argc
  end.

(** The strings of [argv[0 .. argc)] *)
Fixpoint strings_of (ps : list (option nat)) : M (shell S) (list (list Z)) :=
  match ps with
  | [] => ret []
  | p :: ps' => w <- deref_string p ;; ws <- strings_of ps' ;; ret (w :: ws)
  end.

Definition runcmd : M (shell S) unit :=
  _ <- gettoken_init 0 ;;
  modify (λ s, MkShell (line s) (tok_c s) (tok_nc s) (np1 s) (np2 s) (replicate MAXARGS None) 0 (os s)) ;;
  n <- gets (λ s, Datatypes.S (length (line s))) ;;
  argc <- parsecmd n 0 ;;
  if (argc =? 0)%nat then ret tt
  else
    set_arg argc None ;;
    ps <- gets (λ s, take argc (args s)) ;;
    ws <- strings_of ps ;;
    child <- call (os_spawn (default [] (head ws)) ws) ;;
    call os_close_all ;;
    (if child >=? 0 then call (os_wait child) else ret tt) ;;
    r <- gets rightpipe ;;
    (if negb (r =? 0) then call (os_wait r) else ret tt) ;;
    call os_exit.

(** * Reading a line *)

(** [before] is the byte in front of [buf]; index -1 reads it. *)
Context (before : Z).

Definition line_at (i : Z) : M (shell S) Z := if i =? -1 then ret before else rd_line (Z.to_nat i).
Definition line_put (i c : Z) : M (shell S) unit :=
  if i =? -1 then fault "store in front of buf" else wr_line (Z.to_nat i) c.

(** Input behind a line that is too long, up to its end *)
Fixpoint drop_line (fuel : nat) : M (shell S) unit :=
  match fuel with
  | O => λ s, UserMode s
  | Datatypes.S fuel' =>
      '(r, c) <- call (os_read 0) ;;
      if r =? 1 then wr_line 0 c ;; if negb (c =? 13) && negb (c =? 10) then drop_line fuel' else ret tt
      else ret tt
  end.

(** A round reads a key; [fuel] bounds the number of keys of a line. *)
Fixpoint readline_loop (fuel : nat) (n i : Z) : M (shell S) unit :=
  match fuel with
  | O => λ s, UserMode s
  | Datatypes.S fuel' =>
      if i <? n then
        '(r, c) <- call (os_read 0) ;;
        if negb (r =? 1) then call os_exit
        else
          line_put i c ;;
          i <- (if (c =? 8) || (c =? 127) then
                  let i := if i >? 0 then i - 2 else -1 in
                  b <- line_at i ;;
                  (if negb (b =? 8) then call (os_print [8]) else ret tt) ;;
                  ret i
                else ret i) ;;
          b <- line_at i ;;
          if (b =? 13) || (b =? 10) then line_put i 0 else readline_loop fuel' n (i + 1)
      else drop_line fuel' ;; wr_line 0 0
  end.

Definition readline (fuel : nat) (n : Z) : M (shell S) unit := readline_loop fuel n 0.

(** * main *)

Definition usage {A} : M (shell S) A := call os_exit.

(** The flags of one argument: [while ( *_args && (_argc = *_args++))] *)
Fixpoint flags (l : list Z) (f : bool * bool) : M (shell S) (bool * bool) :=
  match l with
  | [] => ret f
  | c :: l' =>
      if c =? 105 then flags l' (true, f.2)
      else if c =? 120 then flags l' (f.1, true)
      else usage
  end.

(** ARGBEGIN on the arguments behind the name: interactive and echocmds, and
    the arguments left.  The list has the string behind the last argument too. *)
Fixpoint options (l : list (list Z)) (f : bool * bool) : M (shell S) ((bool * bool) * list (list Z)) :=
  match l with
  | (45 :: c :: w) :: l' =>
      if bool_decide (c :: w = [45]) then ret (f, l') else f <- flags (c :: w) f ;; options l' f
  | _ => ret (f, l)
  end.

(** One round of [for (;;)]; a command runs in the child of [fork]. *)
Fixpoint main_loop (fuel keys : nat) (interactive echocmds : bool) : M (shell S) unit :=
  match fuel with
  | O => λ s, UserMode s
  | Datatypes.S fuel' =>
      (if interactive then call (os_print [10; 36; 32]) else ret tt) ;;
      readline keys (Z.of_nat BUFSIZE) ;;
      c <- rd_line 0 ;;
      if c =? 35 then main_loop fuel' keys interactive echocmds
      else
        (if echocmds then
           l <- gets line ;; call (os_print ([35; 32] ++ string_of l 0 ++ [10]))
         else ret tt) ;;
        r <- call os_fork ;;
        if r <? 0 then panic "fork"
        else if r =? 0 then runcmd ;; call os_exit
        else call (os_wait r) ;; main_loop fuel' keys interactive echocmds
  end.

(** [argv] with the string behind the last argument, [argv[argc]] *)
Definition main (fuel keys : nat) (argv : list (list Z)) : M (shell S) unit :=
  con <- call (os_iscons 0) ;;
  '((interactive, echocmds), rest) <- options (drop 1 argv) (negb (con =? 0), false) ;;
  let argc := (length rest - 1)%nat in
  (if (1 <? argc)%nat then usage
   else if (argc =? 1)%nat then
     _ <- call (os_close 0) ;;
     r <- call (os_open (nth 1 rest []) O_RDONLY) ;;
     if r <? 0 then panic "open" else if negb (r =? 0) then panic "user_assert" else ret tt
   else ret tt) ;;
  main_loop fuel keys interactive echocmds.
End sh.
