(* ===== verification/ShProps.v ===== *)
(** The shell against reference definitions: the tokenizer is a lexer, the
    parser runs the commands of the token list, [readline] edits a line. *)
From S2P Require Import Prelude Mmu Memory PmapSpec Ulib Fd Sh.

(** * A lexer *)

Inductive token := TWord (w : list Z) | TSym (c : Z).

Definition is_sep (c : Z) : bool := is_white c || is_symbol c.
Definition word_token (cur : list Z) : list token := match cur with [] => [] | _ => [TWord cur] end.
Fixpoint lex_from (cur l : list Z) : list token :=
  match l with
  | [] => word_token cur
  | c :: l' =>
      if is_white c then word_token cur ++ lex_from [] l'
      else if is_symbol c then word_token cur ++ TSym c :: lex_from [] l'
      else lex_from (cur ++ [c]) l'
  end.
Definition lex (l : list Z) : list token := lex_from [] l.

Lemma lex_white ws r : forallb is_white ws = true → lex (ws ++ r) = lex r.
Proof.
  induction ws as [|c ws IH]; cbn; [done|]. intros [Hc Hw]%andb_prop. unfold lex. cbn. rewrite Hc. by apply IH.
Qed.

Lemma lex_word cur w r : forallb (λ c, negb (is_sep c)) w = true →
  (match r with [] => True | c :: _ => is_sep c = true end) → lex_from cur (w ++ r) = word_token (cur ++ w) ++ lex r.
Proof.
  revert cur. induction w as [|c w IH]; intros cur; cbn.
  - intros _ Hr. rewrite app_nil_r. destruct r as [|c r]; [by rewrite app_nil_r|]. unfold lex, is_sep in *. cbn.
    destruct (is_white c) eqn:Ew; [done|]. cbn in Hr. by rewrite Hr.
  - intros [Hc Hw]%andb_prop Hr. unfold is_sep in Hc. apply negb_true_iff, orb_false_elim in Hc as [-> ->].
    rewrite IH by done. by rewrite <- app_assoc.
Qed.

(** ** Separators become zero bytes *)

Definition zap (l : list Z) : list Z := map (λ c, if is_sep c then 0 else c) l.

Lemma zap_word w : forallb (λ c, negb (is_sep c)) w = true → zap w = w.
Proof. induction w as [|c w IH]; cbn; [done|]. intros [Hc Hw]%andb_prop. f_equal; [by rewrite (proj1 (negb_true_iff _) Hc)|by apply IH]. Qed.

Lemma length_zap l : length (zap l) = length l.
Proof. apply length_map. Qed.

Lemma zap_app a b : zap (a ++ b) = zap a ++ zap b.
Proof. apply map_app. Qed.

(** Splitting at the first byte that fails a test *)
Lemma split_at (p : Z → bool) l : ∃ a b, l = a ++ b ∧ forallb p a = true ∧ match b with [] => True | c :: _ => p c = false end.
Proof.
  induction l as [|c l (a & b & -> & Ha & Hb)]; [by exists [], []|].
  destruct (p c) eqn:E; [exists (c :: a), b; cbn; by rewrite E|]. exists [], (c :: a ++ b). by split_and!.
Qed.

Section tokens.
Context {S : Type} `{Os S}.
Implicit Types s : shell S.

(** The line with everything before the scanning position blanked; [r] is
    still to be scanned. *)
Definition scanned s (pre r post : list Z) : Prop := line s = zap pre ++ r ++ 0 :: post.

Lemma rd_ok s a c b : line s = a ++ c :: b → rd_line (length a) s = Ok c s.
Proof. intros E. unfold rd_line. by rewrite E, list_lookup_middle. Qed.

Lemma wr_ok s a c d b : line s = a ++ d :: b → wr_line (length a) c s = Ok tt (set_line (a ++ c :: b) s).
Proof.
  intros E. unfold wr_line. rewrite E, decide_True by (rewrite length_app; cbn; lia).
  do 2 f_equal. by rewrite list_insert_middle || (rewrite insert_app_r_alt, Nat.sub_diag by lia; done).
Qed.

Lemma set_line_twice l l' s : set_line l (set_line l' s) = set_line l s.
Proof. by destruct s. Qed.
Lemma set_line_id s : set_line (line s) s = s.
Proof. by destruct s. Qed.

Lemma skip_white_ok fuel s pre ws r post : scanned s pre (ws ++ r) post → forallb is_white ws = true →
  match r with [] => True | c :: _ => is_white c = false end → (length ws < fuel)%nat →
  skip_white fuel (length pre) s = Ok (length (pre ++ ws)) (set_line (zap (pre ++ ws) ++ r ++ 0 :: post) s).
Proof.
  unfold scanned. revert s pre ws. induction fuel as [|fuel IH]; intros s pre ws Hl Hw Hr Hf; [lia|]. cbn [skip_white].
  destruct ws as [|c ws]; cbn [app] in *.
  - assert (∃ d t, r ++ 0 :: post = d :: t ∧ is_white d = false) as (d & t & Er & Hd).
    { destruct r as [|d r]; [by exists 0, post|by exists d, (r ++ 0 :: post)]. }
    rewrite app_nil_r. rewrite Er in Hl. rewrite <- (length_zap pre), (bind_ok _ _ _ _ _ (rd_ok _ _ _ _ Hl)), Hd.
    rewrite Er, <- Hl, set_line_id, length_zap. done.
  - cbn in Hw. apply andb_prop in Hw as [Hc Hw]. rewrite <- (length_zap pre).
    rewrite (bind_ok _ _ _ _ _ (rd_ok _ _ _ _ Hl)), Hc, (bind_ok _ _ _ _ _ (wr_ok _ _ 0 _ _ Hl)).
    assert (Hz : zap (pre ++ [c]) = zap pre ++ [0]) by (rewrite zap_app; cbn; unfold is_sep; by rewrite Hc).
    replace (length (zap pre) + 1)%nat with (length (pre ++ [c])) by (rewrite length_zap, length_app; cbn; lia).
    rewrite (IH _ (pre ++ [c]) ws); [| |done|done|cbn in Hf; lia].
    + rewrite set_line_twice. by rewrite <- !app_assoc.
    + cbn [line set_line]. rewrite Hz, <- !app_assoc. done.
Qed.

Lemma word_end_ok fuel s pre w r post : line s = pre ++ w ++ r ++ 0 :: post →
  forallb (λ c, negb (is_sep c)) w = true → forallb (λ c, negb (c =? 0)) w = true →
  match r with [] => True | c :: _ => is_sep c = true end → (length w < fuel)%nat →
  word_end fuel (length pre) s = Ok (length (pre ++ w)) s.
Proof.
  revert pre w. induction fuel as [|fuel IH]; intros pre w Hl Hw Hz Hr Hf; [lia|]. cbn [word_end].
  destruct w as [|c w]; cbn [app] in *.
  - assert (∃ d t, r ++ 0 :: post = d :: t ∧ negb (d =? 0) && negb (is_sep d) = false) as (d & t & Er & Hd).
    { destruct r as [|d r]; [by exists 0, post|]. exists d, (r ++ 0 :: post). split; [done|]. rewrite Hr. apply andb_false_r. }
    rewrite Er in Hl. rewrite (bind_ok _ _ _ _ _ (rd_ok _ _ _ _ Hl)). unfold is_sep in Hd. rewrite Hd, app_nil_r. done.
  - cbn in Hw, Hz. apply andb_prop in Hw as [Hc Hw], Hz as [Hc0 Hz].
    rewrite (bind_ok _ _ _ _ _ (rd_ok _ _ _ _ Hl)). unfold is_sep in Hc. rewrite Hc0, Hc. cbn [andb].
    replace (length pre + 1)%nat with (length (pre ++ [c])) by (rewrite length_app; cbn; lia).
    rewrite (IH (pre ++ [c]) w); [by rewrite <- app_assoc| |done|done|done|cbn in Hf; lia]. by rewrite <- app_assoc.
Qed.

(** ** One token *)

Definition no_zero (l : list Z) : Prop := forallb (λ c, negb (c =? 0)) l = true.
Definition plain (w : list Z) : Prop := forallb (λ c, negb (is_sep c)) w = true.
Definition sep_next (r : list Z) : Prop := match r with [] => True | c :: _ => is_sep c = true end.

Lemma no_zero_app a b : no_zero (a ++ b) ↔ no_zero a ∧ no_zero b.
Proof. unfold no_zero. rewrite forallb_app. apply andb_true_iff. Qed.

Lemma lex_cases r :
  (forallb is_white r = true ∧ lex r = []) ∨
  (∃ ws c r', r = ws ++ c :: r' ∧ forallb is_white ws = true ∧ is_white c = false ∧ is_symbol c = true ∧
    lex r = TSym c :: lex r') ∨
  (∃ ws w r', r = ws ++ w ++ r' ∧ forallb is_white ws = true ∧ w ≠ [] ∧ plain w ∧ sep_next r' ∧ lex r = TWord w :: lex r').
Proof.
  destruct (split_at is_white r) as (ws & b & -> & Hw & Hb). rewrite lex_white by done.
  destruct b as [|c b]; [left; by rewrite app_nil_r|]. right. destruct (is_symbol c) eqn:Hs.
  - left. exists ws, c, b. split_and!; try done. unfold lex. cbn. by rewrite Hb, Hs.
  - right. destruct (split_at (λ c, negb (is_sep c)) (c :: b)) as (w & r' & E & Hp & Hr).
    assert (Hsep : sep_next r') by (destruct r'; [done|by apply negb_false_iff]).
    exists ws, w, r'. rewrite E. split_and!; try done.
    + intros ->. cbn in E. subst r'. cbn in Hsep. unfold is_sep in Hsep. by rewrite Hb, Hs in Hsep.
    + unfold lex. rewrite lex_word by done. cbn. destruct w as [|d w]; [|done].
      cbn in E. subst r'. cbn in Hsep. unfold is_sep in Hsep. by rewrite Hb, Hs in Hsep.
Qed.

(** The token ahead: [gettoken] has scanned it already. *)
Inductive ahead s : list token → Prop :=
| ahead_end : tok_nc s = 0 → np1 s = None → np2 s = None → ahead s []
| ahead_sym pre r post c : tok_nc s = c → is_symbol c = true → np2 s = Some (length pre) →
    scanned s pre r post → no_zero r → ahead s (TSym c :: lex r)
| ahead_word pre w r post : tok_nc s = 119 → np1 s = Some (length pre) → np2 s = Some (length (pre ++ w)) →
    line s = zap pre ++ w ++ r ++ 0 :: post → plain w → no_zero w → no_zero r → sep_next r → ahead s (TWord w :: lex r).

(** A string of the line that scanning does not reach any more *)
Definition word_at s (i : nat) (w : list Z) : Prop :=
  (∃ a b, line s = a ++ w ++ 0 :: b ∧ length a = i) ∧ no_zero w ∧
  match np2 s with Some k => (i + length w < k)%nat | None => True end.

(** Scanning from the end of [pre]: the state after the token is stored *)
Lemma scan_ok s pre r post : scanned s pre r post → no_zero r →
  ∃ s1 nc q1 q2, _gettoken (Some (length pre)) s = Ok (nc, q1, q2) s1 ∧
    args s1 = args s ∧ rightpipe s1 = rightpipe s ∧ os s1 = os s ∧
    take (length pre) (line s1) = zap pre ∧ length (line s1) = length (line s) ∧
    (match r with [] => line s1 = line s | _ => sep_next r → line s1 !! length pre = Some 0 end) ∧
    (match q2 with Some k => sep_next r → r ≠ [] → (length pre < k)%nat | None => True end) ∧
    (match q2 with Some k => (length pre ≤ k)%nat | None => True end) ∧
    ∀ c, ahead (set_tokens c nc q1 q2 s1) (lex r).
Proof.
  intros Hl Hz. unfold _gettoken. step. unfold scanned in Hl.
  assert (Hlen : (length r < Datatypes.S (length (line s)))%nat) by (rewrite Hl, !length_app; cbn; lia).
  set (n := Datatypes.S (length (line s))) in *.
  assert (Hline : ∀ a b : list Z, length (zap (pre ++ a) ++ b ++ 0 :: post) = length (line s) ↔ length (a ++ b) = length r).
  { intros a b. rewrite Hl, !length_app, !length_zap, !length_app. cbn. lia. }
  destruct (lex_cases r) as [[Hw E]|[(ws & c & r' & -> & Hw & Hc & Hs & E)|(ws & w & r' & -> & Hw & Hne & Hp & Hr & E)]].
  - rewrite E. exists (set_line (zap (pre ++ r) ++ [] ++ 0 :: post) s), 0, None, None.
    pose proof (skip_white_ok n s pre r [] post) as Hsk. rewrite app_nil_r in Hsk.
    rewrite (bind_ok _ _ _ _ _ (Hsk Hl Hw I Hlen)). rewrite <- (length_zap (pre ++ r)).
    rewrite (bind_ok _ _ 0 _ (set_line (zap (pre ++ r) ++ [] ++ 0 :: post) s)) by (by apply (rd_ok _ _ 0 post)).
    split_and!; try done.
    + cbn [line set_line]. rewrite zap_app, <- app_assoc, <- (length_zap pre). by rewrite take_app_length.
    + cbn [line set_line]. apply Hline. by rewrite app_nil_r.
    + destruct r as [|d r]; [by rewrite app_nil_r, Hl|]. intros Hd. cbn in Hd. cbn [line set_line].
      rewrite zap_app, <- app_assoc. cbn. rewrite Hd, <- (length_zap pre). by rewrite list_lookup_middle.
    + intros c. by apply ahead_end.
  - rewrite E. set (s1 := set_line (zap (pre ++ ws) ++ (c :: r') ++ 0 :: post) s).
    rewrite (bind_ok _ _ _ _ _ (skip_white_ok n s pre ws (c :: r') post Hl Hw Hc ltac:(rewrite length_app in Hlen; lia))). fold s1.
    apply no_zero_app in Hz as [_ Hz]. cbn in Hz. apply andb_prop in Hz as [Hc0 Hz]. apply negb_true_iff in Hc0.
    rewrite <- (length_zap (pre ++ ws)). rewrite (bind_ok _ _ c s1 s1) by (by apply (rd_ok _ _ c (r' ++ 0 :: post))).
    rewrite Hc0, Hs. rewrite (bind_ok _ _ _ _ _ (wr_ok s1 (zap (pre ++ ws)) 0 c (r' ++ 0 :: post) eq_refl)).
    assert (Hz1 : zap (pre ++ ws ++ [c]) = zap (pre ++ ws) ++ [0]).
    { rewrite app_assoc, zap_app. cbn. unfold is_sep. by rewrite Hs, orb_true_r. }
    eexists _, c, _, _. split; [reflexivity|]. rewrite length_zap. split_and!; try done.
    + cbn [line set_line s1]. rewrite zap_app, <- !app_assoc, <- (length_zap pre). by rewrite take_app_length.
    + cbn [line set_line s1]. rewrite Hl, !length_app, !length_zap, !length_app. cbn. rewrite !length_app. cbn. lia.
    + destruct ws as [|d ws]; cbn [app].
      * intros _. cbn [line set_line s1]. rewrite app_nil_r, <- (length_zap pre). by rewrite list_lookup_middle.
      * intros Hd. cbn in Hd. cbn [line set_line s1]. rewrite zap_app, <- app_assoc. cbn. rewrite Hd, <- (length_zap pre).
        by rewrite list_lookup_middle.
    + intros _ _. rewrite length_app. lia.
    + rewrite length_app. lia.
    + intros d. apply (ahead_sym _ (pre ++ ws ++ [c]) r' post); try done.
      * cbn. f_equal. rewrite !length_app. cbn. lia.
      * unfold scanned. cbn [line set_line set_tokens s1]. by rewrite Hz1, <- app_assoc.
  - rewrite E. set (s1 := set_line (zap (pre ++ ws) ++ (w ++ r') ++ 0 :: post) s).
    apply no_zero_app in Hz as [_ Hz]. apply no_zero_app in Hz as [Hzw Hzr]. rewrite !length_app in Hlen.
    assert (∃ d w', w = d :: w' ∧ is_white d = false ∧ is_symbol d = false ∧ d =? 0 = false) as (d & w' & Ew & Hd1 & Hd2 & Hd0).
    { destruct w as [|d w']; [done|]. exists d, w'. unfold plain, no_zero in *. cbn in Hp, Hzw.
      apply andb_prop in Hp as [Hp _], Hzw as [Hzw _]. apply negb_true_iff in Hp, Hzw. unfold is_sep in Hp.
      apply orb_false_elim in Hp as [? ?]. done. }
    assert (Hwr : match w ++ r' with [] => True | c :: _ => is_white c = false end) by (by rewrite Ew).
    rewrite (bind_ok _ _ _ _ _ (skip_white_ok n s pre ws (w ++ r') post Hl Hw Hwr ltac:(lia))). fold s1.
    assert (Hl1 : line s1 = zap (pre ++ ws) ++ w ++ r' ++ 0 :: post) by (cbn [line set_line s1]; by rewrite <- app_assoc).
    rewrite <- (length_zap (pre ++ ws)).
    rewrite (bind_ok _ _ d s1 s1) by (apply (rd_ok _ _ d (w' ++ r' ++ 0 :: post)); by rewrite Hl1, Ew).
    rewrite Hd0, Hd2. rewrite (bind_ok _ _ _ _ _ (word_end_ok n s1 _ w r' post Hl1 Hp Hzw Hr ltac:(lia))).
    exists s1, 119, (Some (length (pre ++ ws))), (Some (length ((pre ++ ws) ++ w))).
    split; [by rewrite !length_app, !length_zap, !length_app|]. split_and!; try done.
    + rewrite Hl1, zap_app, <- app_assoc, <- (length_zap pre). by rewrite take_app_length.
    + rewrite Hl1. rewrite (app_assoc w). apply Hline. done.
    + destruct ws as [|e ws]; cbn [app].
      * rewrite Ew. cbn. intros Hd. unfold is_sep in Hd. by rewrite Hd1, Hd2 in Hd.
      * intros He. cbn in He. rewrite Hl1, zap_app, <- app_assoc. cbn. rewrite He, <- (length_zap pre). by rewrite list_lookup_middle.
    + intros Hd _. destruct ws as [|e ws]; [|rewrite !length_app; cbn; lia]. rewrite Ew in Hd. cbn in Hd.
      unfold is_sep in Hd. by rewrite Hd1, Hd2 in Hd.
    + rewrite !length_app. lia.
    + intros c. by apply (ahead_word _ (pre ++ ws) w r' post).
Qed.

Definition tok_code (t : token) : Z := match t with TWord _ => 119 | TSym c => c end.

(** Terminated words survive later scanning. *)
Lemma word_kept s s1 nc c q1 q2 pre r i w : np2 s = Some (length pre) → line s = zap pre ++ r →
  take (length pre) (line s1) = zap pre →
  (match q2 with Some k => (length pre ≤ k)%nat | None => True end) →
  word_at s i w → word_at (set_tokens c nc q1 q2 s1) i w.
Proof.
  intros Hp Hl Ht Hq ((a & b & E & Ha) & Hz & Hk). rewrite Hp in Hk. split_and!; [|done|cbn; destruct q2; [lia|done]].
  cbn [line set_tokens]. exists a, (drop (i + length w + 1) (line s1)). split; [|done].
  assert (E1 : take (i + length w + 1) (zap pre) = a ++ w ++ [0]).
  { assert (take (i + length w + 1) (line s) = a ++ w ++ [0]) as <-.
    { rewrite E. replace (a ++ w ++ 0 :: b) with ((a ++ w ++ [0]) ++ b) by (by rewrite <- !app_assoc).
      rewrite take_app_length'; [done|]. rewrite !length_app. cbn. lia. }
    rewrite Hl, take_app_le; [done|]. rewrite length_zap. lia. }
  rewrite <- Ht, take_take, Nat.min_l in E1 by lia.
  rewrite <- (take_drop (i + length w + 1) (line s1)) at 1. rewrite E1, <- !app_assoc. done.
Qed.

Lemma gettoken_ok s t ts : ahead s (t :: ts) → ∃ s' p, gettoken s = Ok (tok_code t, p) s' ∧ ahead s' ts ∧
  args s' = args s ∧ rightpipe s' = rightpipe s ∧ os s' = os s ∧
  (∀ w, t = TWord w → ∃ i, p = Some i ∧ word_at s' i w) ∧
  (∀ i w, word_at s i w → word_at s' i w).
Proof.
  intros Ha. inversion Ha as [|pre r post c Hc Hs Hp Hl Hz [Et Ets]|pre w r post Hc H1 Hp Hl Hpl Hzw Hz Hr [Et Ets]]; subst t; subst ts.
  - destruct (scan_ok s pre r post Hl Hz) as (s1 & nc & q1 & q2 & E & A1 & A2 & A3 & Ht & Hlen & _ & _ & Hk & Hah).
    exists (set_tokens c nc q1 q2 s1), (np1 s). split_and!; [|apply Hah|done|done|done|done|].
    + unfold gettoken. step. step. step. rewrite Hp, (bind_ok _ _ _ _ _ E), Hc. done.
    + intros i w. by apply (word_kept s s1 nc c q1 q2 pre (r ++ 0 :: post)).
  - assert (Hl' : scanned s (pre ++ w) r post) by (unfold scanned; by rewrite zap_app, (zap_word w Hpl), <- app_assoc).
    destruct (scan_ok s (pre ++ w) r post Hl' Hz) as (s1 & nc & q1 & q2 & E & A1 & A2 & A3 & Ht & Hlen & H0 & Hlt & Hk & Hah).
    exists (set_tokens 119 nc q1 q2 s1), (np1 s). split_and!; [|apply Hah|done|done|done| |].
    + unfold gettoken. step. step. step. rewrite Hp, (bind_ok _ _ _ _ _ E), Hc. done.
    + intros w' [= <-]. exists (length pre). split; [done|]. split_and!; [|done|].
      * cbn [line set_tokens]. exists (zap pre), (drop (length (pre ++ w) + 1) (line s1)). rewrite length_zap. split; [|done].
        assert (E0 : line s1 !! length (pre ++ w) = Some 0).
        { destruct r as [|d r]; [|by apply H0]. rewrite H0, Hl, app_assoc.
          replace (length (pre ++ w)) with (length (zap pre ++ w)) by (by rewrite !length_app, length_zap).
          by apply list_lookup_middle. }
        rewrite <- (take_drop_middle _ _ _ E0), Ht at 1. rewrite zap_app, (zap_word w Hpl), <- app_assoc.
        by replace (Datatypes.S (length (pre ++ w))) with (length (pre ++ w) + 1)%nat by lia.
      * cbn [np2 set_tokens]. destruct q2 as [k|] eqn:Eq; [|done]. rewrite <- length_app. apply Hlt; [done|].
        intros ->. specialize (Hah 0). inversion Hah as [_ _ Hn| |]. discriminate Hn.
    + intros i w'. apply (word_kept s s1 nc 119 q1 q2 (pre ++ w) (r ++ 0 :: post)); done.
Qed.

Lemma gettoken_end s : ahead s [] → ∃ s' p, gettoken s = Ok (0, p) s' ∧ ahead s' [] ∧
  args s' = args s ∧ rightpipe s' = rightpipe s ∧ os s' = os s ∧ (∀ i w, word_at s i w → word_at s' i w).
Proof.
  intros Ha. inversion Ha as [Hc H1 H2| |]. exists (set_tokens 0 0 None None s), None.
  split_and!; [|by apply ahead_end|done|done|done|].
  - unfold gettoken. step. step. step. rewrite H2, Hc, H1. done.
  - intros i w (Hw & Hz & _). done.
Qed.

(** * The parser is an interpreter of the token list *)

(** Run on the shell as on what it works on: same end, state related *)
Definition same_run {A B} (R : A → S → B → shell S → Prop) (m1 : outcome S A) (m2 : outcome (shell S) B) : Prop :=
  match m1, m2 with
  | Ok a o, Ok b s => R a o b s
  | Err e o, Err e' s => e = e' ∧ os s = o
  | Panic w, Panic w' | Fault w, Fault w' => w = w'
  | UserMode o, UserMode s => os s = o
  | _, _ => False
  end.

(** Sequencing with an operation on files or processes *)
Lemma same_call {A B C} (R : B → S → C → shell S → Prop) (m : M S A) k1 k2 s :
  (∀ a o, m (os s) = Ok a o → same_run R (k1 a o) (k2 a (set_os o s))) →
  same_run R (bind m k1 (os s)) (bind (call m) k2 s).
Proof.
  intros Hk. unfold bind, call, lift. cbn [sub_get sub_set sub_os].
  destruct (m (os s)) as [a o|e o|w|w|o]; cbn; [by apply Hk|done..].
Qed.

Lemma same_bind {A B C D} (R : A → S → B → shell S → Prop) (R' : C → S → D → shell S → Prop) m1 m2 k1 k2 o s :
  same_run R (m1 o) (m2 s) → (∀ a o' b s', R a o' b s' → same_run R' (k1 a o') (k2 b s')) →
  same_run R' (bind m1 k1 o) (bind m2 k2 s).
Proof. intros Hm Hk. unfold bind. destruct (m1 o), (m2 s); cbn in *; try done; auto. Qed.

Lemma same_mono {A B} (R R' : A → S → B → shell S → Prop) o1 o2 :
  same_run R o1 o2 → (∀ a o b s, R a o b s → R' a o b s) → same_run R' o1 o2.
Proof. destruct o1, o2; cbn; auto. Qed.

(** [interp ts ws]: run the token list [ts], the words so far being [ws]; the
    result is the words of the command that this process is to spawn. *)
Definition move_fd (n fd : Z) : M S unit := _ <- os_dup n fd ;; _ <- os_close n ;; ret tt.
Fixpoint interp (ts : list token) (ws : list (list Z)) : M S (list (list Z)) :=
  let open_as mode fd ts :=
    match ts with
    | TWord path :: ts' => n <- os_open path mode ;; move_fd n fd ;; interp ts' ws
    | _ => os_exit
    end in
  match ts with
  | [] => ret ws
  | TWord w :: ts' => if (MAXARGS <=? length ws)%nat then os_exit else interp ts' (ws ++ [w])
  | TSym c :: ts' =>
      if c =? 60 then open_as O_RDONLY 0 ts'
      else if c =? 62 then open_as O_WRONLY 1 ts'
      else if c =? 124 then
        '(r, (rd, wr)) <- os_pipe ;;
        if r <? 0 then ret []
        else
          r <- os_fork ;;
          if r <? 0 then ret []
          else if r =? 0 then move_fd rd 0 ;; _ <- os_close wr ;; interp ts' []
          else move_fd wr 1 ;; _ <- os_close rd ;; ret ws
      else interp ts' ws
  end.

(** [argv] holds the words [ws]. *)
Definition points s (p : option nat) (w : list Z) : Prop := ∃ i, p = Some i ∧ word_at s i w.
Definition argv_ok s (ws : list (list Z)) : Prop :=
  length (args s) = MAXARGS ∧ Forall2 (points s) (take (length ws) (args s)) ws.

Lemma ahead_ext s s' ts : ahead s ts → line s' = line s → tok_nc s' = tok_nc s → np1 s' = np1 s → np2 s' = np2 s → ahead s' ts.
Proof.
  intros Ha E1 E2 E3 E4. destruct Ha as [? ? ?|pre r post c|pre w r post]; [apply ahead_end|eapply (ahead_sym _ pre r post c)|eapply (ahead_word _ pre w r post)];
    unfold scanned in *; congruence || done.
Qed.

Lemma word_at_ext s s' i w : word_at s i w → line s' = line s → np2 s' = np2 s → word_at s' i w.
Proof. unfold word_at. by intros Hw -> ->. Qed.

Lemma argv_ok_kept s s' ws : argv_ok s ws → args s' = args s → (∀ i w, word_at s i w → word_at s' i w) → argv_ok s' ws.
Proof.
  intros [Hl Hf] Ea Hw. split; [congruence|]. rewrite Ea. eapply Forall2_impl; [exact Hf|].
  intros p w (i & -> & Hi). exists i. eauto.
Qed.

Lemma argv_ok_snoc s ws p w : argv_ok s ws → (length ws < MAXARGS)%nat → points s p w →
  argv_ok (set_args (<[length ws := p]> (args s)) s) (ws ++ [w]).
Proof.
  intros [Hl Hf] Hlt Hp. split; [cbn; by rewrite length_insert|]. cbn [args set_args]. rewrite length_app. cbn [length].
  rewrite Nat.add_1_r, (take_S_r _ _ p) by (apply list_lookup_insert_eq; by rewrite Hl).
  apply Forall2_app; [|by repeat constructor]. rewrite take_insert_ge by lia.
  eapply Forall2_impl; [exact Hf|]. intros q v (i & -> & Hi). exists i. split; [done|]. by apply (word_at_ext s).
Qed.

Lemma string_of_word a w b : no_zero w → string_of (a ++ w ++ 0 :: b) (length a) = w.
Proof.
  intros Hz. unfold string_of. rewrite drop_app_length. induction w as [|c w IH]; [done|].
  unfold no_zero in *. cbn in Hz. apply andb_prop in Hz as [Hc Hz]. cbn [app]. rewrite (proj1 (negb_true_iff _) Hc). f_equal. by apply IH.
Qed.

Lemma deref_ok s i w : word_at s i w → deref_string (Some i) s = Ok w s.
Proof. intros ((a & b & E & <-) & Hz & _). unfold deref_string, gets. by rewrite E, string_of_word. Qed.

Lemma ahead_symbol s c ts : ahead s (TSym c :: ts) → c =? 0 = false ∧ c =? 119 = false.
Proof.
  inversion 1 as [|pre r post d Hc Hs| ]; subst. unfold is_symbol in Hs.
  split; apply Z.eqb_neq; intros E; rewrite E in Hs; discriminate.
Qed.

(** [<] and [>]: the word behind is opened and moved *)
Lemma redirect_same {B} mode fd (k1 : list token → M S (list (list Z))) (k2 : M (shell S) B) R s ts ws :
  ahead s ts → argv_ok s ws →
  (∀ path ts' s', ts = TWord path :: ts' → ahead s' ts' → argv_ok s' ws → rightpipe s' = rightpipe s →
     same_run R (k1 ts' (os s')) (k2 s')) →
  same_run R ((match ts with
               | TWord path :: ts' => n <- os_open path mode ;; move_fd n fd ;; k1 ts'
               | _ => os_exit
               end : M S (list (list Z))) (os s)) (bind (redirect mode fd) (λ _ : unit, k2) s).
Proof.
  intros Ha Hv Hk. unfold redirect. rewrite bind_assoc. destruct ts as [|[path|c] ts'].
  - destruct (gettoken_end s Ha) as (s' & p & E & _ & _ & _ & Eo & _). rewrite (bind_ok _ _ _ _ _ E). cbn. by rewrite Eo.
  - destruct (gettoken_ok s _ ts' Ha) as (s' & p & E & Ha' & Ea & Er & Eo & Hw & Hkeep).
    rewrite (bind_ok _ _ _ _ _ E). destruct (Hw path eq_refl) as (i & -> & Hi). cbn [tok_code fst snd]. cbn [Z.eqb Pos.eqb negb].
    rewrite bind_assoc, (bind_ok _ _ _ _ _ (deref_ok _ _ _ Hi)), <- Eo. rewrite bind_assoc.
    apply same_call. intros n o1 _. change o1 with (os (set_os o1 s')) at 1. rewrite bind_assoc.
    unfold move_fd. rewrite bind_assoc. apply same_call. intros r1 o2 _. rewrite !bind_assoc.
    change o2 with (os (set_os o2 (set_os o1 s'))) at 1. apply same_call. intros r2 o3 _.
    refine (Hk path ts' (set_os o3 (set_os o2 (set_os o1 s'))) eq_refl _ _ Er).
    + by apply (ahead_ext s').
    + apply (argv_ok_kept s); [done|exact Ea|]. intros j w Hj. apply (word_at_ext s'); [by apply Hkeep|done..].
  - destruct (gettoken_ok s _ ts' Ha) as (s' & p & E & Ha' & Ea & Er & Eo & Hw & Hkeep).
    rewrite (bind_ok _ _ _ _ _ E). cbn [tok_code]. destruct (ahead_symbol _ _ _ Ha) as [_ ->]. cbn. by rewrite Eo.
Qed.

Lemma move_fd_same {B C} n fd (k1 : M S B) (k2 : M (shell S) C) R s :
  (∀ o, same_run R (k1 o) (k2 (set_os o s))) →
  same_run R (bind (move_fd n fd) (λ _, k1) (os s))
    (bind (call (os_dup n fd)) (λ _, bind (call (os_close n)) (λ _, k2)) s).
Proof.
  intros Hk. unfold move_fd. rewrite bind_assoc. apply same_call. intros r1 o2 _. rewrite bind_assoc.
  change o2 with (os (set_os o2 s)) at 1. apply same_call. intros r2 o3 _. refine (Hk o3).
Qed.

Definition parsed s (ws : list (list Z)) (o : S) (n : nat) s' : Prop :=
  n = length ws ∧ os s' = o ∧ argv_ok s' ws ∧ rightpipe s' = rightpipe s.

Lemma parsecmd_interp fuel ts ws s : ahead s ts → argv_ok s ws → (length ts < fuel)%nat →
  same_run (parsed s) (interp ts ws (os s)) (parsecmd fuel (length ws) s).
Proof.
  revert ts ws s. induction fuel as [|fuel IH]; intros ts ws s Ha Hv Hf; [lia|]. cbn [parsecmd].
  destruct ts as [|[w|c] ts].
  - destruct (gettoken_end s Ha) as (s' & p & E & _ & Ea & Er & Eo & Hkeep). rewrite (bind_ok _ _ _ _ _ E). cbn.
    split_and!; [done|done| |done]. by apply (argv_ok_kept s).
  - destruct (gettoken_ok s _ ts Ha) as (s' & p & E & Ha' & Ea & Er & Eo & Hw & Hkeep).
    rewrite (bind_ok _ _ _ _ _ E). cbn [tok_code Z.eqb Pos.eqb]. cbn [interp].
    destruct (MAXARGS <=? length ws)%nat eqn:El; [by cbn; rewrite Eo|]. apply Nat.leb_gt in El.
    unfold set_arg. unfold bind at 1. rewrite decide_True by done.
    assert (Hv' : argv_ok s' ws) by (by apply (argv_ok_kept s)).
    replace (length ws + 1)%nat with (length (ws ++ [w])) by (by rewrite length_app).
    rewrite <- Eo. change (os s') with (os (set_args (<[length ws := p]> (args s')) s')).
    eapply same_mono; [apply IH|].
    + by apply (ahead_ext s').
    + apply argv_ok_snoc; [done|done|]. by apply Hw.
    + cbn in Hf. lia.
    + intros ws' o n s2 (-> & <- & Hv2 & Er2). split_and!; [done|done|done|]. rewrite Er2. exact Er.
  - pose proof (ahead_symbol _ _ _ Ha) as [H0 H119].
    destruct (gettoken_ok s _ ts Ha) as (s' & p & E & Ha' & Ea & Er & Eo & _ & Hkeep).
    rewrite (bind_ok _ _ _ _ _ E). cbn [tok_code]. rewrite H0, H119. cbn [interp].
    assert (Hv' : argv_ok s' ws) by (by apply (argv_ok_kept s)).
    assert (Hmono : ∀ t (ws0 : list (list Z)) (m : outcome S (list (list Z))), rightpipe t = rightpipe s → same_run (parsed t) m (parsecmd fuel (length ws0) t) →
                      same_run (parsed s) m (parsecmd fuel (length ws0) t)).
    { intros t ws0 m Et Hm. eapply same_mono; [exact Hm|]. intros ws' o n s2 (-> & <- & Hv2 & Er2). split_and!; congruence || done. }
    cbn in Hf. rewrite <- Eo.
    destruct (c =? 60); [|destruct (c =? 62); [|destruct (c =? 124)]].
    + apply (redirect_same O_RDONLY 0 (λ t, interp t ws) _ _ s' ts ws Ha' Hv').
      intros path ts' s2 -> Ha2 Hv2 Er2. apply Hmono; [congruence|]. apply IH; [done|done|cbn in Hf; lia].
    + apply (redirect_same O_WRONLY 1 (λ t, interp t ws) _ _ s' ts ws Ha' Hv').
      intros path ts' s2 -> Ha2 Hv2 Er2. apply Hmono; [congruence|]. apply IH; [done|done|cbn in Hf; lia].
    + assert (Hset : ∀ o, ahead (set_os o s') ts) by (intros; by apply (ahead_ext s')).
      apply same_call. intros [r [rd wr]] o1 _. destruct (r <? 0).
      { cbn. split_and!; [done|done| |done]. split; [by destruct Hv'|constructor]. }
      change o1 with (os (set_os o1 s')) at 1. apply same_call. intros pid o2 _. destruct (pid <? 0).
      { cbn. split_and!; [done|done| |done]. split; [by destruct Hv'|constructor]. }
      change o2 with (os (set_os o2 (set_os o1 s'))) at 1. set (s2 := set_os o2 (set_os o1 s')). destruct (pid =? 0).
      * apply move_fd_same. intros o3. change o3 with (os (set_os o3 s2)) at 1. apply same_call. intros _ o4 _.
        change o4 with (os (set_os o4 (set_os o3 s2))) at 1. apply (Hmono _ []); [exact Er|].
        apply (IH ts []); [by apply (ahead_ext s')| |lia]. split; [by destruct Hv'|constructor].
      * apply move_fd_same. intros o3. change o3 with (os (set_os o3 s2)) at 1. apply same_call. intros _ o4 _.
        cbn. split_and!; [done|done| |done]. apply (argv_ok_kept s'); [done|done|]. intros i w Hi. by apply (word_at_ext s').
    + apply Hmono; [done|]. apply IH; [done|done|lia].
Qed.

(** What [runcmd] of the line [l] does: the program named by the first word
    gets all words; nothing waits for the right end of a pipe. *)
Definition command (l : list Z) : M S unit :=
  ws <- interp (lex l) [] ;;
  match ws with
  | [] => ret tt
  | prog :: _ =>
      if (MAXARGS <=? length ws)%nat then fault "beyond argv"
      else
        child <- os_spawn prog ws ;;
        os_close_all ;;
        (if child >=? 0 then os_wait child else ret tt) ;;
        os_exit
  end.

Lemma strings_of_ok s ps ws : Forall2 (points s) ps ws → strings_of ps s = Ok ws s.
Proof.
  induction 1 as [|p w ps ws (i & -> & Hi) Hf IH]; [done|]. cbn [strings_of].
  by rewrite (bind_ok _ _ _ _ _ (deref_ok _ _ _ Hi)), (bind_ok _ _ _ _ _ IH).
Qed.

Lemma length_lex_from cur l : (length (lex_from cur l) ≤ length (word_token cur) + length l)%nat.
Proof.
  revert cur. induction l as [|c l IH]; intros cur; cbn; [lia|]. pose proof (IH []) as H0. cbn in H0.
  destruct (is_white c); [rewrite length_app; lia|]. destruct (is_symbol c); [rewrite length_app; cbn; lia|].
  pose proof (IH (cur ++ [c])) as H1. assert (length (word_token (cur ++ [c])) ≤ 1)%nat by (by destruct cur). lia.
Qed.

Lemma set_arg_ok i p s : (i < MAXARGS)%nat → set_arg i p s = Ok tt (set_args (<[i := p]> (args s)) s).
Proof. intros Hi. unfold set_arg. by rewrite decide_True. Qed.
Lemma set_arg_beyond i p s : (MAXARGS ≤ i)%nat → set_arg i p s = Fault "beyond argv".
Proof. intros Hi. unfold set_arg. by rewrite decide_False by lia. Qed.

Lemma runcmd_command s l post : line s = l ++ 0 :: post → no_zero l →
  same_run (λ _ o _ s', os s' = o) (command l (os s)) (runcmd s).
Proof.
  intros Hl Hz. unfold runcmd, gettoken_init. rewrite bind_assoc.
  destruct (scan_ok s [] l post Hl Hz) as (s1 & nc & q1 & q2 & E & _ & _ & Eo & _ & Hlen & _ & _ & _ & Hah). cbn [length] in E.
  rewrite (bind_ok _ _ _ _ _ E). step. step. step. step.
  set (s2 := MkShell _ _ _ _ _ _ _ _). unfold command. rewrite <- Eo. change (os s1) with (os s2).
  assert (Hv : argv_ok s2 []) by (split; [apply length_replicate|constructor]).
  assert (Ha : ahead s2 (lex l)) by (apply (ahead_ext _ _ _ (Hah (tok_c s1))); done).
  eapply same_bind; [apply (parsecmd_interp _ (lex l) [] s2 Ha Hv)|].
  { pose proof (length_lex_from [] l) as Hle. cbn in Hle. unfold lex. cbn. rewrite Hlen, Hl, length_app. cbn. lia. }
  intros ws o n s3 (-> & <- & [Hlv Hf] & Er). destruct ws as [|prog ws]; [done|].
  set (a := prog :: ws) in *. change (length a =? 0)%nat with false. cbn iota.
  destruct (MAXARGS <=? length a)%nat eqn:Ele.
  { apply Nat.leb_le in Ele. by rewrite (bind_fault _ _ _ _ (set_arg_beyond (length a) None s3 Ele)). }
  apply Nat.leb_gt in Ele. rewrite (bind_ok _ _ _ _ _ (set_arg_ok (length a) None s3 Ele)).
  rewrite (bind_ok (gets (λ s0, take (length a) (args s0))) _ _ _ _ eq_refl). cbn [args set_args].
  rewrite take_insert_ge by lia. set (s4 := set_args _ s3).
  assert (Hf4 : Forall2 (points s4) (take (length a) (args s3)) a).
  { eapply Forall2_impl; [exact Hf|]. intros p w (i & -> & Hi). exists i. split; [done|]. by apply (word_at_ext s3). }
  rewrite (bind_ok _ _ _ _ _ (strings_of_ok _ _ _ Hf4)). change (os s3) with (os s4). cbn [head default from_option a].
  apply same_call. intros child o1 _. change o1 with (os (set_os o1 s4)) at 1. apply same_call. intros _ o2 _.
  change o2 with (os (set_os o2 (set_os o1 s4))) at 1. set (s5 := set_os o2 (set_os o1 s4)).
  assert (Hr : rightpipe s5 = 0) by (exact Er).
  assert (Hend : ∀ s', rightpipe s' = 0 → same_run (λ (_ : unit) o (_ : unit) s'', os s'' = o) (os_exit (os s'))
    ((r <- gets rightpipe ;; (if negb (r =? 0) then call (os_wait r) else ret tt) ;; call os_exit) s')).
  { intros s' Hs'. rewrite (bind_ok (gets rightpipe) _ _ _ _ eq_refl), Hs'. done. }
  destruct (child >=? 0).
  - apply same_call. intros _ o3 _. change o3 with (os (set_os o3 s5)) at 1. by apply Hend.
  - by apply (Hend s5).
Qed.

(** * Editing a line *)

Fixpoint skip_line (fuel : nat) : M S unit :=
  match fuel with
  | O => λ o, UserMode o
  | Datatypes.S fuel' =>
      '(r, c) <- os_read 0 ;;
      if (r =? 1) && negb (c =? 13) && negb (c =? 10) then skip_line fuel' else ret tt
  end.

(** The line typed so far is [cur]: backspace and delete take its last key,
    return and newline end it, [n] keys are too many. *)
Fixpoint edit (fuel n : nat) (cur : list Z) : M S (list Z) :=
  match fuel with
  | O => λ o, UserMode o
  | Datatypes.S fuel' =>
      if (length cur <? n)%nat then
        '(r, c) <- os_read 0 ;;
        if negb (r =? 1) then os_exit
        else if (c =? 8) || (c =? 127) then os_print [8] ;; edit fuel' n (removelast cur)
        else if (c =? 13) || (c =? 10) then ret cur
        else edit fuel' n (cur ++ [c])
      else skip_line fuel' ;; ret []
  end.

Definition key (c : Z) : bool := negb ((c =? 8) || (c =? 127) || (c =? 13) || (c =? 10)).
Definition typed s (n : nat) (cur : list Z) : Prop :=
  forallb key cur = true ∧ (0 < n ≤ length (line s))%nat ∧ ∃ rest, line s = cur ++ rest.
Definition line_read s (l : list Z) (o : S) (u : unit) s' : Prop :=
  os s' = o ∧ length (line s') = length (line s) ∧ ∃ post, line s' = l ++ 0 :: post.

Lemma line_read_mono s t l o u s' : length (line t) = length (line s) → line_read t l o u s' → line_read s l o u s'.
Proof. intros E (? & ? & ?). split_and!; [done|congruence|done]. Qed.

Lemma wr_first s c : (0 < length (line s))%nat → ∃ t, wr_line 0 c s = Ok tt (set_line (c :: t) s) ∧ length (c :: t) = length (line s).
Proof. intros Hn. unfold wr_line. rewrite decide_True by done. destruct (line s) as [|d t]; [cbn in Hn; lia|]. by exists t. Qed.

Lemma drop_line_same fuel s : (0 < length (line s))%nat →
  same_run (λ _ o _ s', os s' = o ∧ length (line s') = length (line s)) (skip_line fuel (os s)) (drop_line fuel s).
Proof.
  revert s. induction fuel as [|fuel IH]; intros s Hn; [done|]. cbn [skip_line drop_line].
  apply same_call. intros [r c] o _. destruct (r =? 1); [|done]. cbn [andb].
  destruct (wr_first (set_os o s) c Hn) as (t & E & Hlen). rewrite (bind_ok _ _ _ _ _ E). set (s1 := set_line (c :: t) (set_os o s)).
  destruct (negb (c =? 13) && negb (c =? 10)); [|done]. change o with (os s1) at 1.
  eapply same_mono; [apply IH; cbn; lia|]. intros _ o' _ s' [-> El]. split; [done|]. by rewrite El.
Qed.

Lemma key_spec c : key c = false → (c =? 8) || (c =? 127) = false → (c =? 13) || (c =? 10) = true.
Proof. unfold key. destruct (c =? 8), (c =? 127); cbn; try discriminate. intros E _. by apply negb_false_iff in E. Qed.

Context (before : Z) (Hbefore : key before = true).

Lemma line_at_ext i s (t : shell S) b : line_at before i s = Ok b s → line t = line s → line_at before i t = Ok b t.
Proof.
  unfold line_at. destruct (i =? -1); [unfold ret; congruence|]. unfold rd_line. intros E ->.
  destruct (line s !! Z.to_nat i); congruence.
Qed.

(** The byte the loop looks at after a backspace *)
Lemma line_at_back s cur rest : forallb key cur = true → line s = cur ++ rest → (length cur < length (line s))%nat →
  ∃ b, key b = true ∧ line_at before (if Z.of_nat (length cur) >? 0 then Z.of_nat (length cur) - 2 else -1) s = Ok b s ∧
  (if Z.of_nat (length cur) >? 0 then Z.of_nat (length cur) - 2 else -1) + 1 = Z.of_nat (length (removelast cur)).
Proof.
  intros Hk Hl Hn. destruct cur as [|x cur _] using rev_ind; [by exists before|].
  rewrite removelast_last. rewrite length_app in *. cbn [length] in *.
  rewrite (proj2 (Z.gtb_lt (Z.of_nat (length cur + 1)) 0)) by lia.
  destruct cur as [|y cur _] using rev_ind; [by exists before|].
  rewrite length_app in *. cbn [length] in *. exists y. split; [|split; [|lia]].
  - rewrite forallb_forall in Hk. apply Hk. rewrite !in_app_iff. cbn. auto.
  - replace (Z.of_nat (length cur + 1 + 1) - 2) with (Z.of_nat (length cur)) by lia.
    unfold line_at. rewrite (proj2 (Z.eqb_neq (Z.of_nat (length cur)) (-1))) by lia. unfold rd_line. rewrite Nat2Z.id, Hl, <- !app_assoc. cbn [app]. by rewrite list_lookup_middle.
Qed.

Lemma readline_edit fuel n cur s : typed s n cur →
  same_run (line_read s) (edit fuel n cur (os s)) (readline_loop before fuel (Z.of_nat n) (Z.of_nat (length cur)) s).
Proof.
  revert cur s. induction fuel as [|fuel IH]; intros cur s (Hk & Hn & rest & Hl); [done|]. cbn [edit readline_loop].
  destruct (length cur <? n)%nat eqn:En.
  - apply Nat.ltb_lt in En. rewrite (proj2 (Z.ltb_lt _ _)) by lia. apply same_call. intros [r c] o _.
    destruct (negb (r =? 1)); [done|]. set (s1 := set_os o s).
    destruct rest as [|d rest]; [rewrite app_nil_r in Hl; rewrite Hl in Hn; lia|].
    unfold line_put at 1. destruct (_ =? -1) eqn:E1; [lia|]. rewrite Nat2Z.id.
    rewrite (bind_ok _ _ _ _ _ (wr_ok s1 cur c d rest Hl)). set (s2 := set_line (cur ++ c :: rest) s1).
    assert (Hlen : length (line s2) = length (line s)) by (cbn; rewrite Hl, !length_app; done).
    destruct ((c =? 8) || (c =? 127)) eqn:Eb.
    + destruct (line_at_back s2 cur (c :: rest) Hk eq_refl ltac:(lia)) as (b & Hb & Eat & Ei).
      rewrite !bind_assoc. rewrite (bind_ok _ _ _ _ _ Eat). unfold key in Hb. apply negb_true_iff, orb_false_elim in Hb as [Hb Hb10].
      apply orb_false_elim in Hb as [Hb Hb13]. apply orb_false_elim in Hb as [Hb8 _]. rewrite Hb8. cbn [negb].
      rewrite bind_assoc. change o with (os s2) at 1. apply same_call. intros _ o2 _. set (s3 := set_os o2 s2).
      pose proof (line_at_ext _ _ s3 _ Eat eq_refl) as Eat3.
      rewrite bind_ret, (bind_ok _ _ _ _ _ Eat3), Hb10, Hb13. cbn [orb]. rewrite Ei. change o2 with (os s3).
      eapply same_mono; [apply IH|intros ? ? ? ?; by apply line_read_mono].
      split_and!; [|apply Hn|change (n ≤ length (line s2))%nat; lia|].
      * apply forallb_forall. intros x Hx. rewrite forallb_forall in Hk. apply Hk.
        destruct cur as [|y cur _] using rev_ind; [done|]. rewrite removelast_last in Hx. rewrite in_app_iff. auto.
      * destruct cur as [|y cur _] using rev_ind; [by exists (c :: rest)|]. rewrite removelast_last. cbn [line s3 s2 set_os set_line].
        exists (y :: c :: rest). by rewrite <- app_assoc.
    + rewrite bind_ret. unfold line_at. rewrite E1, Nat2Z.id.
      rewrite (bind_ok _ _ c s2 s2) by (unfold rd_line; cbn [line s2 set_line]; by rewrite list_lookup_middle).
      destruct ((c =? 13) || (c =? 10)) eqn:Ec.
      * unfold line_put. rewrite E1, Nat2Z.id, (wr_ok s2 cur 0 c rest eq_refl). cbn. unfold line_read. cbn. split_and!; [done| |by exists rest].
        rewrite Hl, !length_app. cbn. lia.
      * replace (Z.of_nat (length cur) + 1) with (Z.of_nat (length (cur ++ [c]))) by (rewrite length_app; cbn; lia).
        change o with (os s2). eapply same_mono; [apply IH|intros ? ? ? ?; by apply line_read_mono].
        split_and!; [|apply Hn|lia|exists rest; cbn; by rewrite <- app_assoc].
        rewrite forallb_app, Hk. cbn. rewrite andb_true_r. unfold key.
        apply orb_false_elim in Eb as [-> ->], Ec as [-> ->]. done.
  - apply Nat.ltb_ge in En. rewrite (proj2 (Z.ltb_ge _ _)) by lia.
    eapply same_bind; [apply drop_line_same; lia|]. intros _ o' _ s' [<- El].
    destruct (wr_first s' 0 ltac:(lia)) as (t & E & Hlen). rewrite E. cbn. unfold line_read. cbn in *. split_and!; [done|lia|by exists t].
Qed.

(** * A session *)

(** What the shell does, round by round *)
Fixpoint session (fuel keys : nat) (interactive echocmds : bool) : M S unit :=
  match fuel with
  | O => λ o, UserMode o
  | Datatypes.S fuel' =>
      (if interactive then os_print [10; 36; 32] else ret tt) ;;
      l <- edit keys BUFSIZE [] ;;
      if bool_decide (head l = Some 35) then session fuel' keys interactive echocmds
      else
        (if echocmds then os_print ([35; 32] ++ string_of l 0 ++ [10]) else ret tt) ;;
        r <- os_fork ;;
        if r <? 0 then panic "fork"
        else if r =? 0 then command (string_of l 0) ;; os_exit
        else os_wait r ;; session fuel' keys interactive echocmds
  end.

Lemma string_of_app l post : string_of (l ++ 0 :: post) 0 = string_of l 0.
Proof. unfold string_of. rewrite !drop_0. induction l as [|c l IH]; [done|]. cbn. destruct (c =? 0); [done|]. by rewrite IH. Qed.

Lemma string_of_spec l post : ∃ post', l ++ 0 :: post = string_of l 0 ++ 0 :: post' ∧ no_zero (string_of l 0).
Proof.
  unfold string_of, no_zero. rewrite drop_0. induction l as [|c l (p & IH & Hz)]; [by exists post|]. cbn.
  destruct (c =? 0) eqn:E; [apply Z.eqb_eq in E as ->; by exists (l ++ 0 :: post)|].
  exists p. cbn. rewrite IH, E. by split.
Qed.

(** An optional print of the same bytes *)
Lemma same_print {B C} (R : B → S → C → shell S → Prop) (b : bool) w k1 k2 s :
  (∀ o, same_run R (k1 o) (k2 (set_os o s))) →
  same_run R (bind (if b then os_print w else ret tt) (λ _, k1) (os s)) (bind (if b then call (os_print w) else ret tt) (λ _, k2) s).
Proof.
  intros Hk. destruct b; [apply same_call; intros _ o _; apply Hk|]. rewrite !bind_ret.
  generalize (Hk (os s)). by destruct s.
Qed.

Lemma main_loop_session fuel keys i e s : length (line s) = BUFSIZE →
  same_run (λ _ o _ s', os s' = o) (session fuel keys i e (os s)) (main_loop before fuel keys i e s).
Proof.
  revert s. induction fuel as [|fuel IH]; intros s Hb; [done|]. cbn [session main_loop].
  apply same_print. intros o. change o with (os (set_os o s)) at 1. set (s1 := set_os o s).
  assert (Ht : typed s1 BUFSIZE []).
  { split_and!; [done|apply Nat.lt_0_succ|change (BUFSIZE ≤ length (line s))%nat; rewrite Hb; apply Nat.le_refl|by exists (line s1)]. }
  eapply same_bind; [apply (readline_edit keys BUFSIZE [] s1 Ht)|].
  intros l o1 _ s2 (<- & Hlen & post & Hl). cbn [line s1 set_os] in Hlen.
  assert (Hc : rd_line 0 s2 = Ok (default 0 (head l)) s2) by (unfold rd_line; rewrite Hl; by destruct l).
  rewrite (bind_ok _ _ _ _ _ Hc).
  assert (Eh : (default 0 (head l) =? 35) = bool_decide (head l = Some 35)).
  { destruct l as [|d l]; [done|]. cbn [head default from_option id]. destruct (Z.eqb_spec d 35) as [->|Hd]; [done|].
    symmetry. apply bool_decide_eq_false_2. congruence. }
  rewrite Eh. case_bool_decide; [apply IH; congruence|].
  destruct (string_of_spec l post) as (post' & El & Hz).
  set (k1 := bind os_fork _). set (k2 := bind (call os_fork) _).
  assert (Hk : ∀ o2, same_run (λ (_ : unit) o (_ : unit) s', os s' = o) (k1 o2) (k2 (set_os o2 s2))).
  { intros o2. unfold k1, k2. change o2 with (os (set_os o2 s2)) at 1. apply same_call. intros r o3 _.
    destruct (r <? 0); [done|]. change o3 with (os (set_os o3 (set_os o2 s2))) at 1. set (s3 := set_os o3 _).
    destruct (r =? 0).
    - eapply same_bind; [apply (runcmd_command s3 _ post'); [|done]; cbn; congruence|]. by intros _ o4 _ s4 <-.
    - apply same_call. intros _ o4 _. change o4 with (os (set_os o4 s3)) at 1. apply IH. cbn. congruence. }
  destruct e.
  - rewrite bind_assoc. rewrite (bind_ok (gets line) _ _ _ _ eq_refl). rewrite Hl, string_of_app.
    apply same_call. intros _ o2 _. apply Hk.
  - rewrite !bind_ret. specialize (Hk (os s2)). revert Hk. by destruct s2.
Qed.
End tokens.

(** * The shell *)

(** C38. The shell, [for (;;)] of main with readline, the tokenizer, parsecmd
    and runcmd, does what its reference [session] does, whatever files and
    processes do: each round prompts, edits a line key by key, ignores a
    comment, forks, and the child runs the command of the line's tokens. *)
Theorem shell_session {S : Type} `{Os S} (before : Z) (fuel keys : nat) (i e : bool) (s : shell S) :
  key before = true → length (line s) = BUFSIZE →
  same_run (λ _ o _ s', os s' = o) (session fuel keys i e (os s)) (main_loop before fuel keys i e s).
Proof. intros Hb Hl. by apply main_loop_session. Qed.

(** C39. [runcmd] of a line in the buffer runs the line's token list: words are
    arguments, [<] and [>] move the opened file to 0 and 1, a pipe forks, and
    the command is spawned with all words and waited for. *)
Theorem runcmd_runs {S : Type} `{Os S} (s : shell S) (l post : list Z) :
  line s = l ++ 0 :: post → no_zero l →
  same_run (λ _ o _ s', os s' = o) (command l (os s)) (runcmd s).
Proof. apply runcmd_command. Qed.

(** An operating system that answers from lists and logs what it is asked *)
Inductive event :=
| EOpen (path : list Z) (mode : Z) | EDup (a b : Z) | EClose (fd : Z) | EPipe | EFork
| ESpawn (prog : list Z) (argv : list (list Z)) | EWait (id : Z) | ECloseAll | EExit | EPrint (w : list Z).
Record trace := MkTrace { input : list Z; forks : list Z; log : list event }.
Definition logged {A} (e : event) (a : A) : M trace A := λ t, Ok a (MkTrace (input t) (forks t) (log t ++ [e])).

#[export] Instance trace_os : Os trace := {
  os_open path mode := logged (EOpen path mode) 4;
  os_dup a b := logged (EDup a b) b;
  os_close fd := logged (EClose fd) 0;
  os_pipe := logged EPipe (0, (5, 6));
  os_fork t := match forks t with
               | [] => logged EFork (-13) t
               | r :: fs => Ok r (MkTrace (input t) fs (log t ++ [EFork]))
               end;
  os_spawn prog argv := logged (ESpawn prog argv) 7;
  os_wait id := logged (EWait id) tt;
  os_close_all := logged ECloseAll tt;
  os_gone t := MkTrace (input t) (forks t) (log t ++ [EExit]);
  os_read _ t := match input t with
                 | [] => Ok (0, 0) t
                 | c :: cs => Ok (1, c) (MkTrace cs (forks t) (log t))
                 end;
  os_print w := logged (EPrint w) tt;
  os_iscons _ := logged EFork 1
}.

Definition shell0 (l : list Z) (t : trace) : shell trace :=
  MkShell (l ++ replicate (BUFSIZE - length l) 0) 0 0 None None [] 0 t.

(** ["ls <a|cat"] in the parent: the pipe replaces 1, [ls] reads [a] *)
Lemma runcmd_runs_witness :
  (∃ s', runcmd (shell0 [108; 115; 32; 60; 97; 124; 99; 97; 116; 0] (MkTrace [] [9] [])) = UserMode s' ∧
     log (os s') = [EOpen [97] O_RDONLY; EDup 4 0; EClose 4; EPipe; EFork; EDup 6 1; EClose 6; EClose 5;
                    ESpawn [108; 115] [[108; 115]]; ECloseAll; EWait 7; EExit]) ∧
  same_run (λ _ o _ s', os s' = o) (command [108; 115; 32; 60; 97; 124; 99; 97; 116] (MkTrace [] [9] []))
    (runcmd (shell0 [108; 115; 32; 60; 97; 124; 99; 97; 116; 0] (MkTrace [] [9] []))).
Proof.
  split; [eexists; split; [vm_compute; reflexivity|reflexivity]|].
  refine (runcmd_runs (shell0 [108; 115; 32; 60; 97; 124; 99; 97; 116; 0] (MkTrace [] [9] []))
    [108; 115; 32; 60; 97; 124; 99; 97; 116] (replicate 1014 0) _ _); vm_compute; reflexivity.
Defined.

(** The keys of ["lx\b\bls\n"], run by the child *)
Lemma shell_session_witness :
  (∃ s', main_loop 46 3 20 true false (shell0 [] (MkTrace [108; 120; 8; 8; 108; 115; 10] [0] [])) = UserMode s' ∧
     log (os s') = [EPrint [10; 36; 32]; EPrint [8]; EPrint [8]; EFork; ESpawn [108; 115] [[108; 115]]; ECloseAll; EWait 7; EExit]) ∧
  same_run (λ _ o _ s', os s' = o) (session 3 20 true false (MkTrace [108; 120; 8; 8; 108; 115; 10] [0] []))
    (main_loop 46 3 20 true false (shell0 [] (MkTrace [108; 120; 8; 8; 108; 115; 10] [0] []))).
Proof.
  split; [eexists; split; [vm_compute; reflexivity|reflexivity]|].
  refine (shell_session 46 3 20 true false (shell0 [] _) _ _); vm_compute; reflexivity.
Defined.
