(* ===== verification/Fsformat.v ===== *)
(** The disk image builder: tools/fsformat.c, a program of the host.

    Its memory is a function from addresses to bytes: the data of [disk[b]] is
    at [BY2BLK * b] and the global [super] behind the disk.  The files and
    directories of the host are values of the type [host]; a directory is the
    list of what [readdir] returns. *)
From S2P Require Import Prelude Mmu Memory PmapSpec Uenv Fs IdeProps FsProps.

Definition NBLOCK : Z := 1024.

(** Block types *)
Definition BLOCK_BOOT := 1.
Definition BLOCK_BMAP := 2.
Definition BLOCK_SUPER := 3.
Definition BLOCK_DATA := 4.
Definition BLOCK_FILE := 5.
Definition BLOCK_INDEX := 6.

Record builder := MkBuilder { bytes : Z → Z; btype : Z → Z; nbitblock : Z; nextbno : Z }.
Definition set_bytes (v : Z → Z) (s : builder) := MkBuilder v (btype s) (nbitblock s) (nextbno s).
Definition set_btype (b t : Z) (s : builder) :=
  MkBuilder (bytes s) (λ x, if decide (x = b) then t else btype s x) (nbitblock s) (nextbno s).
Definition set_nbitblock (v : Z) (s : builder) := MkBuilder (bytes s) (btype s) v (nextbno s).
Definition set_nextbno (v : Z) (s : builder) := MkBuilder (bytes s) (btype s) (nbitblock s) v.

(** * Memory *)

Definition getw (x : Z) : M builder Z := gets (λ s, le32 (bytes s) x).
Definition putw (x w : Z) : M builder unit := modify (λ s, set_bytes (put_word (bytes s) x (u32 w)) s).
(** [memset], [memcpy] and the bytes of a list *)
Definition fill_bytes (C : Z → Z) (x c n : Z) : Z → Z := λ y, if decide (x ≤ y < x + n) then c else C y.
Definition move_bytes (C : Z → Z) (x src n : Z) : Z → Z := λ y, if decide (x ≤ y < x + n) then C (src + (y - x)) else C y.
Definition put_list (C : Z → Z) (x : Z) (l : list Z) : Z → Z :=
  λ y, if decide (x ≤ y < x + Z.of_nat (length l)) then nth (Z.to_nat (y - x)) l 0 else C y.
Definition put_bytes (x : Z) (l : list Z) : M builder unit := modify (λ s, set_bytes (put_list (bytes s) x l) s).

(** The data of [disk[b]]: the array has [NBLOCK] elements. *)
Definition block_data (b : Z) : M builder Z :=
  if (0 <=? b) && (b <? NBLOCK) then ret (BY2BLK * b) else fault "beyond the disk".

Definition SUPER : Z := BY2BLK * NBLOCK.
Definition ROOTDIR : Z := s_root SUPER.

(** * Files of the host *)

Inductive host := HFile (data : list Z) | HDir (ents : list (list Z * host)).

(** What follows the last slash, [strrchr (path, '/')] *)
Fixpoint after_slash (cur l : list Z) : list Z :=
  match l with [] => cur | c :: l' => if c =? 47 then after_slash l' l' else after_slash cur l' end.
Definition file_name (path : list Z) : list Z := after_slash path path.
(** [basename]: trailing slashes do not count, ["/"] is itself *)
Fixpoint drop_slashes (l : list Z) : list Z :=
  match l with c :: l' => if c =? 47 then drop_slashes l' else l | [] => [] end.
Definition basename (path : list Z) : list Z :=
  match rev (drop_slashes (rev path)) with
  | [] => match path with [] => [46] | _ => [47] end
  | p => file_name p
  end.
Definition dots (name : list Z) : bool := bool_decide (name = [46]) || bool_decide (name = [46; 46]).

(** * The disk *)

Definition init_disk : M builder unit :=
  modify (set_btype 0 BLOCK_BOOT) ;;
  modify (set_nbitblock ((NBLOCK + BIT2BLK - 1) / BIT2BLK)) ;;
  n <- gets nbitblock ;;
  modify (set_nextbno (2 + n)) ;;
  for_each (seqZ 0 n) (λ i, modify (set_btype (2 + i) BLOCK_BMAP)) ;;
  for_each (seqZ 0 n) (λ i, a <- block_data (2 + i) ;; modify (λ s, set_bytes (fill_bytes (bytes s) a 0xff BY2BLK) s)) ;;
  (if negb (NBLOCK =? n * BIT2BLK) then
     let diff := NBLOCK mod BIT2BLK / 8 in
     a <- block_data (2 + (n - 1)) ;;
     modify (λ s, set_bytes (fill_bytes (bytes s) (a + diff) 0 (BY2BLK - diff)) s)
   else ret tt) ;;
  modify (set_btype 1 BLOCK_SUPER) ;;
  putw (s_magic SUPER) FS_MAGIC ;;
  putw (s_nblocks SUPER) NBLOCK ;;
  putw (f_type ROOTDIR) FTYPE_DIR ;;
  put_bytes (f_name ROOTDIR) [47; 0].

Definition next_block (type : Z) : M builder Z :=
  n <- gets nextbno ;;
  _ <- block_data n ;;
  modify (set_btype n type) ;;
  modify (set_nextbno (n + 1)) ;;
  ret n.

(** The word [(i % BIT2BLK) / 32] of the bitmap block of [i] *)
Definition flush_bitmap : M builder unit :=
  n <- gets nextbno ;;
  for_each (seqZ 0 n) (λ i,
    a <- block_data (2 + i / BIT2BLK) ;;
    let x := a + 4 * (i mod BIT2BLK / 32) in
    w <- getw x ;;
    putw x (Z.land w (not32 (Z.shiftl 1 (i mod 32))))).

(** The bytes written to the image file *)
Definition finish_fs : M builder (Z → Z) :=
  a <- block_data 1 ;;
  modify (λ s, set_bytes (move_bytes (bytes s) a SUPER (8 + BY2FILE)) s) ;;
  gets (λ s x, if decide (0 ≤ x < BY2BLK * 1024) then bytes s x else 0).

Definition save_block_link (f nblk bno : Z) : M builder unit :=
  if negb (nblk <? NINDIRECT) then panic "assert"
  else if nblk <? NDIRECT then putw (f_direct f nblk) bno
  else
    ind <- getw (f_indirect f) ;;
    (if ind =? 0 then b <- next_block BLOCK_INDEX ;; putw (f_indirect f) b else ret tt) ;;
    ind <- getw (f_indirect f) ;;
    a <- block_data ind ;;
    putw (a + 4 * nblk) bno.

Definition make_link_block (dirf nblk : Z) : M builder Z :=
  bno <- next_block BLOCK_FILE ;;
  save_block_link dirf nblk bno ;;
  size <- getw (f_size dirf) ;;
  putw (f_size dirf) (size + BY2BLK) ;;
  ret bno.

(** The first unused file of a block, from [f] on; [n] are left. *)
Fixpoint unused_in_block (n : nat) (f : Z) : M builder (option Z) :=
  match n with
  | O => ret None
  | S n' =>
      c <- gets (λ s, bytes s (f_name f)) ;;
      if c =? 0 then ret (Some f) else unused_in_block n' (f + BY2FILE)
  end.

(** ... of the blocks of the directory, from block [i] on *)
Fixpoint unused_file (n : nat) (dirf i : Z) : M builder (option Z) :=
  match n with
  | O => ret None
  | S n' =>
      bno <- (if i <? NDIRECT then getw (f_direct dirf i)
              else ind <- getw (f_indirect dirf) ;; a <- block_data ind ;; getw (a + 4 * i)) ;;
      a <- block_data bno ;;
      r <- unused_in_block (Z.to_nat FILE2BLK) a ;;
      match r with Some f => ret (Some f) | None => unused_file n' dirf (i + 1) end
  end.

Definition create_file (dirf : Z) : M builder Z :=
  size <- getw (f_size dirf) ;;
  let nblk := size / BY2BLK in
  r <- unused_file (Z.to_nat nblk) dirf 0 ;;
  match r with
  | Some f => ret f
  | None => bno <- make_link_block dirf nblk ;; block_data bno
  end.

(** * Copying files *)

(** [read (fd, disk[nextbno].data, n)] fills the block behind the last one
    in use before it is taken. *)
Fixpoint read_blocks (fuel : nat) (target iblk : Z) (rest : list Z) : M builder unit :=
  match fuel with
  | O => fault "write_file: out of fuel"
  | S fuel' =>
      match take (Z.to_nat BY2BLK) rest with
      | [] => ret tt
      | chunk =>
          n <- gets nextbno ;;
          a <- block_data n ;;
          put_bytes a chunk ;;
          bno <- next_block BLOCK_DATA ;;
          save_block_link target iblk bno ;;
          read_blocks fuel' target (iblk + 1) (drop (Z.to_nat BY2BLK) rest)
      end
  end.

Definition write_file (dirf : Z) (path data : list Z) : M builder unit :=
  target <- create_file dirf ;;
  put_bytes (f_name target) (file_name path ++ [0]) ;;
  putw (f_size target) (Z.of_nat (length data)) ;;
  putw (f_type target) FTYPE_REG ;;
  read_blocks (S (length data)) target 0 data.

(** [strncpy (dst, name, n)] pads with zeros. *)
Definition strncpy (dst : Z) (name : list Z) (n : nat) : M builder unit :=
  put_bytes dst (take n name ++ replicate (n - length name) 0).

(** A directory with all it holds; a file is what the loop of the directory
    above gives to [write_file]. *)
Fixpoint write_directory (dirf : Z) (path : list Z) (h : host) : M builder unit :=
  match h with
  | HFile data => write_file dirf path data
  | HDir ents =>
      pdir <- create_file dirf ;;
      strncpy (f_name pdir) (basename path) (Z.to_nat (MAXNAMELEN - 1)) ;;
      c <- gets (λ s, bytes s (f_name pdir + (MAXNAMELEN - 1))) ;;
      if negb (c =? 0) then err 1
      else
        putw (f_type pdir) FTYPE_DIR ;;
        (fix loop ents :=
           match ents with
           | [] => ret tt
           | (name, e) :: ents' =>
               (if dots name then ret tt else write_directory pdir (path ++ [47] ++ name) e) ;;
               loop ents'
           end) ents
  end.

(** [main]: the arguments behind the name of the image, each with what it is;
    the image on success, the code of [exit] as an error *)
Definition start : builder := MkBuilder (λ _, 0) (λ _, 0) 0 0.
Definition main (files : list (list Z * host)) : M builder (Z → Z) :=
  init_disk ;;
  if bool_decide (files = []) then err 1
  else
    for_each files (λ '(name, h), write_directory ROOTDIR name h) ;;
    flush_bitmap ;;
    finish_fs.
