(* ===== verification/FsformatInv.v ===== *)
(** The disk image under construction: what its files are and the invariant
    that tools/fsformat.c keeps, with the three ways it changes, a step at one
    file, a new entry of a directory and a new block of a file. *)
From S2P Require Import Prelude Mmu Memory PmapSpec Uenv Fs IdeProps CacheProps FsProps PathProps Fsformat.

(** * The files of an image *)

(** What is stored under an entry: the blocks of the file, the index block,
    the entries of a directory and the bytes of a file *)
Record node := Node {
  nd_name : list Z; nd_type : Z; nd_size : Z; nd_blks : list Z; nd_ind : Z; nd_kids : list Z; nd_data : list Z }.

Definition bl (bs : list Z) (i : Z) : Z := nth (Z.to_nat i) bs 0.
Definition len {A} (l : list A) : Z := Z.of_nat (length l).
(** Entry [k] of a directory *)
Definition slot (bs : list Z) (k : Z) : Z := 4096 * bl bs (k / 16) + 256 * (k mod 16).
Definition own (nd : node) : list Z := nd_blks nd ++ (if nd_ind nd =? 0 then [] else [nd_ind nd]).

Record holds (C : Z → Z) (p : Z) (nd : node) : Prop := {
  h_name : entry_name C p = nd_name nd;
  h_named : nd_name nd ≠ [];
  h_short : len (nd_name nd) < 128;
  h_type : ftype C p = nd_type nd;
  h_size : fsize C p = nd_size nd;
  h_blk i : 0 ≤ i < len (nd_blks nd) → fblock C p i = bl (nd_blks nd) i;
  h_ind : findirect C p = nd_ind nd;
  h_ind0 : nd_ind nd = 0 ↔ len (nd_blks nd) ≤ 10;
  h_dir : nd_type nd = FTYPE_DIR → nd_size nd = 4096 * len (nd_blks nd) ∧ len (nd_kids nd) ≤ 16 * len (nd_blks nd);
  h_free k j : nd_type nd = FTYPE_DIR → len (nd_kids nd) ≤ k < 16 * len (nd_blks nd) → 0 ≤ j < 256 →
    C (slot (nd_blks nd) k + j) = 0;
  h_reg : nd_type nd ≠ FTYPE_DIR → nd_type nd = FTYPE_REG ∧ nd_kids nd = [];
  h_data k : nd_type nd = FTYPE_REG → 0 ≤ k < len (nd_data nd) →
    k / 4096 < len (nd_blks nd) ∧ C (4096 * bl (nd_blks nd) (k / 4096) + k mod 4096) = nth (Z.to_nat k) (nd_data nd) 0
}.

(** The bytes [holds] depends on: the entry and more *)
Definition rest_foot (nd : node) (x : Z) : Prop :=
  (nd_ind nd ≠ 0 ∧ x / 4096 = nd_ind nd) ∨
  (nd_type nd = FTYPE_REG ∧ ∃ i, 0 ≤ i < len (nd_blks nd) ∧ x / 4096 = bl (nd_blks nd) i) ∨
  (nd_type nd = FTYPE_DIR ∧ ∃ k, len (nd_kids nd) ≤ k < 16 * len (nd_blks nd) ∧
     slot (nd_blks nd) k ≤ x < slot (nd_blks nd) k + 256).
Definition foot (p : Z) (nd : node) (x : Z) : Prop := p ≤ x < p + 256 ∨ rest_foot nd x.

(** The superblock, where it is built, and the blocks in front of the files *)
Definition meta_pos (x : Z) : Prop := 0 ≤ x < 12288 ∨ SUPER ≤ x < SUPER + 8.
(** The bytes [init_disk] leaves: the bitmap has the bits of the blocks set. *)
Definition blank : Z → Z :=
  put_list (put_word (put_word (put_word
    (fill_bytes (fill_bytes (λ _, 0) 8192 255 4096) (8192 + 128) 0 3968)
    SUPER FS_MAGIC) (SUPER + 4) 1024) (SUPER + 140) 1) (SUPER + 8) [47; 0].

Record image_inv (nb : Z) (C : Z → Z) (G : gmap Z node) : Prop := {
  i_nb : 3 ≤ nb ≤ NBLOCK;
  i_zero x : 4096 * nb ≤ x < SUPER → C x = 0;
  i_meta x : meta_pos x → C x = blank x;
  i_holds p nd : G !! p = Some nd → holds C p nd;
  i_own p nd b : G !! p = Some nd → b ∈ own nd → 3 ≤ b < nb;
  i_disj p q nd nq b : G !! p = Some nd → G !! q = Some nq → b ∈ own nd → b ∈ own nq → p = q;
  i_nodup p nd : G !! p = Some nd → NoDup (own nd);
  i_place p nd : G !! p = Some nd → p = ROOTDIR ∨ ∃ d fd k, G !! d = Some fd ∧ nd_kids fd !! k = Some p;
  i_kids d fd k p : G !! d = Some fd → nd_kids fd !! k = Some p → p = slot (nd_blks fd) (Z.of_nat k) ∧ is_Some (G !! p);
  i_root : ∃ nd, G !! ROOTDIR = Some nd ∧ nd_type nd = FTYPE_DIR
}.

(** ** Positions *)

Lemma bl_in bs i : 0 ≤ i < len bs → bl bs i ∈ bs.
Proof. intros Hi. apply list_elem_of_In, nth_In. unfold len in Hi. lia. Qed.

Lemma bl_lookup bs i b : bs !! Z.to_nat i = Some b → bl bs i = b.
Proof. intros E. unfold bl. by rewrite (nth_lookup_Some _ _ _ _ E). Qed.

Lemma bl_inj bs i j : NoDup bs → 0 ≤ i < len bs → 0 ≤ j < len bs → bl bs i = bl bs j → i = j.
Proof.
  intros Hn Hi Hj E. unfold len in *. unfold bl in E. apply NoDup_ListNoDup in Hn.
  pose proof (proj1 (List.NoDup_nth bs 0) Hn (Z.to_nat i) (Z.to_nat j) ltac:(lia) ltac:(lia) E). lia.
Qed.

Lemma bl_app_l bs b i : 0 ≤ i < len bs → bl (bs ++ b) i = bl bs i.
Proof. intros Hi. unfold bl, len in *. apply app_nth1. lia. Qed.
Lemma bl_app_r bs b : bl (bs ++ [b]) (len bs) = b.
Proof. unfold bl, len. rewrite Nat2Z.id, app_nth2, Nat.sub_diag by lia. done. Qed.
Lemma len_app {A} (l k : list A) : len (l ++ k) = len l + len k.
Proof. unfold len. rewrite length_app. lia. Qed.

Lemma own_blk nd i : 0 ≤ i < len (nd_blks nd) → bl (nd_blks nd) i ∈ own nd.
Proof. intros Hi. apply elem_of_app. left. by apply bl_in. Qed.

Lemma own_ind nd : nd_ind nd ≠ 0 → nd_ind nd ∈ own nd.
Proof. intros Hi. apply elem_of_app. right. rewrite (proj2 (Z.eqb_neq _ _) Hi). set_solver. Qed.

Lemma own_ind_blk nd i : NoDup (own nd) → nd_ind nd ≠ 0 → 0 ≤ i < len (nd_blks nd) → bl (nd_blks nd) i ≠ nd_ind nd.
Proof.
  intros Hn Hi Hb E. apply NoDup_app in Hn as (_ & Hd & _). apply (Hd (bl (nd_blks nd) i)); [by apply bl_in|].
  rewrite (proj2 (Z.eqb_neq _ _) Hi), E. set_solver.
Qed.

Lemma own_blks_nodup nd : NoDup (own nd) → NoDup (nd_blks nd).
Proof. by intros [? _]%NoDup_app. Qed.

Lemma slot_block bs k x : 0 ≤ bl bs (k / 16) → slot bs k ≤ x < slot bs k + 256 → x / 4096 = bl bs (k / 16).
Proof.
  intros Hb Hx. unfold slot in Hx. pose proof (Z.mod_pos_bound k 16). symmetry.
  apply (Z.div_unique x 4096 _ (x - 4096 * bl bs (k / 16))); lia.
Qed.

Lemma slot_inj bs j k x : NoDup bs → 0 ≤ j < 16 * len bs → 0 ≤ k < 16 * len bs →
  0 ≤ bl bs (j / 16) → 0 ≤ bl bs (k / 16) → slot bs j ≤ x < slot bs j + 256 → slot bs k ≤ x < slot bs k + 256 → j = k.
Proof.
  intros Hn Hj Hk Bj Bk Hx Hy. pose proof (slot_block bs j x Bj Hx) as E1. pose proof (slot_block bs k x Bk Hy) as E2.
  assert (j / 16 = k / 16) as E.
  { apply (bl_inj bs); [done| | |congruence]; split; try (apply Z.div_pos; lia); apply Z.div_lt_upper_bound; lia. }
  unfold slot in *. rewrite E in *. pose proof (Z.div_mod j 16). pose proof (Z.div_mod k 16). lia.
Qed.

Section inv.
Context (nb : Z) (C : Z → Z) (G : gmap Z node) (Hi : image_inv nb C G).

(** An entry is in the block of a directory, or the root's. *)
Lemma entry_place p nd : G !! p = Some nd → p = ROOTDIR ∨
  ∃ d fd k, G !! d = Some fd ∧ nd_type fd = FTYPE_DIR ∧ 0 ≤ k < len (nd_kids fd) ∧ k < 16 * len (nd_blks fd) ∧
    p = slot (nd_blks fd) k ∧ 3 ≤ bl (nd_blks fd) (k / 16) < nb ∧ 0 ≤ k / 16 < len (nd_blks fd).
Proof.
  intros Hp. destruct (i_place _ _ _ Hi p nd Hp) as [->|(d & fd & k & Hd & Hk)]; [by left|right].
  exists d, fd, (Z.of_nat k). destruct (i_kids _ _ _ Hi d fd k p Hd Hk) as [E _].
  pose proof (i_holds _ _ _ Hi d fd Hd) as Hh. pose proof (lookup_lt_Some _ _ _ Hk) as Hlt.
  assert (Ht : nd_type fd = FTYPE_DIR).
  { destruct (decide (nd_type fd = FTYPE_DIR)) as [|Hr]; [done|]. destruct (h_reg _ _ _ Hh Hr) as [_ En]. rewrite En in Hk. done. }
  destruct (h_dir _ _ _ Hh Ht) as [_ Hle]. assert (Z.of_nat k < len (nd_kids fd)) by (unfold len; lia).
  assert (0 ≤ Z.of_nat k / 16 < len (nd_blks fd)) as Hq by (split; [apply Z.div_pos; lia|apply Z.div_lt_upper_bound; lia]).
  split_and!; try done; try lia; by apply (i_own _ _ _ Hi d fd), own_blk.
Qed.

Lemma entry_block p nd x : G !! p = Some nd → p ≤ x < p + 256 →
  (p = ROOTDIR ∧ x / 4096 = 1024) ∨
  ∃ d fd k, G !! d = Some fd ∧ nd_type fd = FTYPE_DIR ∧ 0 ≤ k < len (nd_kids fd) ∧ k < 16 * len (nd_blks fd) ∧
    p = slot (nd_blks fd) k ∧ x / 4096 = bl (nd_blks fd) (k / 16) ∧ 0 ≤ k / 16 < len (nd_blks fd).
Proof.
  intros Hp Hx. destruct (entry_place p nd Hp) as [->|(d & fd & k & Hd & Ht & Hk & Hk2 & -> & Hb & Hq)].
  - left. split; [done|]. symmetry. apply (Z.div_unique x 4096 1024 (x - 4194304)); [|lia].
    change ROOTDIR with 4194312 in Hx. lia.
  - right. exists d, fd, k. split_and!; try done; try lia. apply slot_block; [lia|done].
Qed.

Lemma entries_apart p q nd nq x : G !! p = Some nd → G !! q = Some nq → p ≠ q → p ≤ x < p + 256 → ¬ (q ≤ x < q + 256).
Proof.
  intros Hp Hq Hne Hx Hy.
  destruct (entry_place p nd Hp) as [->|(d & fd & k & Hd & Ht & Hk & Hk2 & -> & Hb & Hb16)];
    destruct (entry_place q nq Hq) as [->|(d' & fd' & k' & Hd' & Ht' & Hk' & Hk2' & -> & Hb' & Hb16')]; [done|..].
  - pose proof (slot_block (nd_blks fd') k' x ltac:(lia) Hy) as E. change ROOTDIR with 4194312 in Hx.
    assert (1024 ≤ x / 4096) by (apply Z.div_le_lower_bound; lia). pose proof (i_nb _ _ _ Hi) as Hn. unfold NBLOCK in Hn. lia.
  - pose proof (slot_block (nd_blks fd) k x ltac:(lia) Hx) as E. change ROOTDIR with 4194312 in Hy.
    assert (1024 ≤ x / 4096) by (apply Z.div_le_lower_bound; lia). pose proof (i_nb _ _ _ Hi) as Hn. unfold NBLOCK in Hn. lia.
  - pose proof (slot_block (nd_blks fd) k x ltac:(lia) Hx) as E. pose proof (slot_block (nd_blks fd') k' x ltac:(lia) Hy) as E'.
    assert (d = d') as <-.
    { apply (i_disj _ _ _ Hi d d' fd fd' (x / 4096)); [done|done|rewrite E; by apply own_blk|rewrite E'; by apply own_blk]. }
    assert (fd = fd') as <- by congruence.
    assert (k = k') as <-; [|done]. apply (slot_inj (nd_blks fd) k k' x); [|lia|lia|lia|lia|done|done].
    apply own_blks_nodup. by apply (i_nodup _ _ _ Hi d).
Qed.

(** What a step at the file [p] may change: its entry, its index block and
    unused blocks *)
Definition chg (p : Z) (nd : node) (x : Z) : Prop :=
  p ≤ x < p + 256 ∨ (nd_ind nd ≠ 0 ∧ x / 4096 = nd_ind nd) ∨ 4096 * nb ≤ x < SUPER.

Lemma unused_block b x : 3 ≤ b < nb → x / 4096 = b → ¬ 4096 * nb ≤ x < SUPER.
Proof. intros Hb E Hx. pose proof (Z.div_mod x 4096). pose proof (Z.mod_pos_bound x 4096). lia. Qed.

Lemma others_kept p nd q nq x : G !! p = Some nd → G !! q = Some nq → q ≠ p → foot q nq x → ¬ chg p nd x.
Proof.
  intros Hp Hq Hne Hf Hc.
  assert (Hown : ∀ b, b ∈ own nq → x / 4096 = b → (∀ i, nd_type nq = FTYPE_DIR → 0 ≤ i < len (nd_blks nq) → bl (nd_blks nq) i ≠ b) → False).
  { intros b Hb E Hdir. pose proof (i_own _ _ _ Hi q nq b Hq Hb) as Hob. destruct Hc as [Hc|[[Hn Hc]|Hc]].
    - destruct (entry_block p nd x Hp Hc) as [[_ E']|(d & fd & k & Hd & Ht & Hk & Hk2 & _ & E' & Hb16)].
      + pose proof (i_nb _ _ _ Hi). unfold NBLOCK in *. lia.
      + assert (d = q) as ->.
        { apply (i_disj _ _ _ Hi d q fd nq b); [done|done| |done]. rewrite <- E, E'. by apply own_blk. }
        assert (fd = nq) as -> by congruence. apply (Hdir (k / 16)); [done|done|congruence].
    - apply Hne. apply (i_disj _ _ _ Hi q p nq nd b); [done|done|done|]. rewrite <- E, Hc. by apply own_ind.
    - by apply (unused_block b x). }
  destruct Hf as [Hf|[[Hn Hf]|[(Ht & i & Hib & Hf)|(Ht & k & Hk & Hf)]]].
  - destruct (entry_block q nq x Hq Hf) as [[-> E]|(d & fd & k & Hd & Ht & Hk & Hk2 & -> & E & Hb16)].
    + pose proof (i_nb _ _ _ Hi) as Hnb. unfold NBLOCK in Hnb. destruct Hc as [Hc|[[Hn Hc]|Hc]].
      * by apply (entries_apart p ROOTDIR nd nq x Hp Hq ltac:(done) Hc).
      * pose proof (i_own _ _ _ Hi p nd _ Hp (own_ind nd Hn)). lia.
      * change ROOTDIR with 4194312 in Hf. unfold SUPER, NBLOCK, BY2BLK, BY2PG in Hc. lia.
    + pose proof (own_blk fd (k / 16) Hb16) as Hin. pose proof (i_own _ _ _ Hi d fd _ Hd Hin) as Hob.
      destruct (decide (d = p)) as [->|Hdp].
      * assert (fd = nd) as -> by congruence. destruct Hc as [Hc|[[Hn Hc]|Hc]].
        -- by apply (entries_apart p (slot (nd_blks nd) k) nd nq x Hp Hq ltac:(done) Hc).
        -- apply (own_ind_blk nd (k / 16)); [by apply (i_nodup _ _ _ Hi p)|done|done|congruence].
        -- by apply (unused_block (bl (nd_blks nd) (k / 16)) x).
      * destruct Hc as [Hc|[[Hn Hc]|Hc]].
        -- by apply (entries_apart p (slot (nd_blks fd) k) nd nq x Hp Hq ltac:(done) Hc).
        -- apply Hdp. apply (i_disj _ _ _ Hi d p fd nd (bl (nd_blks fd) (k / 16))); [done|done|done|].
           rewrite <- E, Hc. by apply own_ind.
        -- by apply (unused_block (bl (nd_blks fd) (k / 16)) x).
  - apply (Hown (nd_ind nq)); [by apply own_ind|done|]. intros i _ Hib. apply own_ind_blk; [by apply (i_nodup _ _ _ Hi q)|done|done].
  - apply (Hown (bl (nd_blks nq) i)); [by apply own_blk|done|]. intros j Hd. rewrite Ht in Hd. done.
  - pose proof (i_holds _ _ _ Hi q nq Hq) as Hh.
    assert (Hq16 : 0 ≤ k / 16 < len (nd_blks nq)) by (unfold len in *; split; [apply Z.div_pos; lia|apply Z.div_lt_upper_bound; lia]).
    pose proof (i_own _ _ _ Hi q nq _ Hq (own_blk nq (k / 16) Hq16)) as Hob.
    pose proof (slot_block (nd_blks nq) k x ltac:(lia) Hf) as E. destruct Hc as [Hc|[[Hn Hc]|Hc]].
    + destruct (entry_block p nd x Hp Hc) as [[_ E']|(d & fd & k' & Hd & Htd & Hk' & Hk2 & -> & E' & Hb16)].
      * pose proof (i_nb _ _ _ Hi). unfold NBLOCK in *. lia.
      * assert (d = q) as ->.
        { apply (i_disj _ _ _ Hi d q fd nq (bl (nd_blks nq) (k / 16))); [done|done| |by apply own_blk].
          rewrite <- E, E'. by apply own_blk. }
        assert (fd = nq) as -> by congruence. pose proof (i_own _ _ _ Hi q nq _ Hq (own_blk nq (k' / 16) Hb16)) as Hob'.
        assert (k = k') as <-; [|unfold len in *; lia].
        apply (slot_inj (nd_blks nq) k k' x); [|unfold len in *; lia|lia|lia|lia|done|done].
        apply own_blks_nodup. by apply (i_nodup _ _ _ Hi q).
    + apply Hne. apply (i_disj _ _ _ Hi q p nq nd (bl (nd_blks nq) (k / 16))); [done|done|by apply own_blk|].
      rewrite <- E, Hc. by apply own_ind.
    + by apply (unused_block (bl (nd_blks nq) (k / 16)) x).
Qed.
End inv.

(** ** Frame *)

Lemma string_move C C' n x x' : (∀ k, 0 ≤ k < Z.of_nat n → C' (x' + k) = C (x + k)) → string_at C' n x' = string_at C n x.
Proof.
  revert x x'. induction n as [|n IH]; intros x x' Hx; cbn [string_at]; [done|].
  pose proof (Hx 0 ltac:(lia)) as E. rewrite !Z.add_0_r in E. rewrite E. destruct (C x =? 0); [done|]. f_equal.
  apply IH. intros k Hk. rewrite <- !Z.add_assoc. apply Hx. lia.
Qed.

Lemma string_ext C C' n x : (∀ k, 0 ≤ k < Z.of_nat n → C' (x + k) = C (x + k)) → string_at C' n x = string_at C n x.
Proof. apply string_move. Qed.

Lemma index_pos b i j : 0 ≤ i < 1024 → 0 ≤ j < 4 → 0 ≤ b → (4096 * b + 4 * i + j) / 4096 = b.
Proof. intros Hi Hj Hb. apply block_pos; lia. Qed.

(** Moving an entry and keeping what it refers to *)
Lemma holds_move C C' p p' nd : holds C p nd → 0 ≤ nd_ind nd → len (nd_blks nd) ≤ 1024 →
  (∀ i, 0 ≤ i < len (nd_blks nd) → 0 ≤ bl (nd_blks nd) i) →
  (∀ k, 0 ≤ k < 256 → C' (p' + k) = C (p + k)) → (∀ x, rest_foot nd x → C' x = C x) → holds C' p' nd.
Proof.
  intros Hh Hind Hlen Hpos He Hf.
  assert (Hw : ∀ k, 0 ≤ k → k + 4 ≤ 256 → le32 C' (p' + k) = le32 C (p + k)).
  { intros k Hk1 Hk2. unfold le32. by rewrite <- !Z.add_assoc, !He by lia. }
  assert (Efi : findirect C' p' = nd_ind nd) by (unfold findirect; rewrite Hw by lia; apply Hh).
  split.
  - rewrite <- (h_name _ _ _ Hh). apply string_move. intros k Hk. apply He. lia.
  - apply Hh.
  - apply Hh.
  - rewrite <- (h_type _ _ _ Hh). by apply Hw.
  - rewrite <- (h_size _ _ _ Hh). by apply Hw.
  - intros i Hi. rewrite <- (h_blk _ _ _ Hh i Hi). unfold fblock. rewrite Efi, (h_ind _ _ _ Hh).
    destruct (Z.ltb_spec i NDIRECT) as [Hd|Hd]; unfold NDIRECT in Hd.
    + rewrite <- !Z.add_assoc. apply Hw; lia.
    + apply le32_ext. intros j Hj. apply Hf. left. split; [|apply index_pos; lia].
      intros E. pose proof (proj1 (h_ind0 _ _ _ Hh) E). lia.
  - exact Efi.
  - apply Hh.
  - apply Hh.
  - intros k j Ht Hk Hj. rewrite <- (h_free _ _ _ Hh k j Ht Hk Hj). apply Hf. right. right. split; [done|].
    exists k. split; [done|lia].
  - apply Hh.
  - intros k Ht Hk. destruct (h_data _ _ _ Hh k Ht Hk) as [Hb E]. split; [done|]. rewrite <- E. apply Hf. right. left.
    split; [done|]. exists (k / 4096). assert (0 ≤ k / 4096) by (apply Z.div_pos; lia). split; [lia|].
    apply block_pos; [|pose proof (Z.mod_pos_bound k 4096); lia].
    pose proof (Hpos (k / 4096) ltac:(lia)). pose proof (Z.mod_pos_bound k 4096). lia.
Qed.

Lemma holds_frame C C' p nd : holds C p nd → 0 ≤ nd_ind nd → len (nd_blks nd) ≤ 1024 →
  (∀ i, 0 ≤ i < len (nd_blks nd) → 0 ≤ bl (nd_blks nd) i) →
  (∀ x, foot p nd x → C' x = C x) → holds C' p nd.
Proof.
  intros Hh H1 H2 H3 Hf. apply (holds_move C C' p); [done..| |]; intros x Hx; apply Hf; [left; lia|by right].
Qed.

Lemma own_bound nb (l : list Z) : 3 ≤ nb → NoDup l → (∀ b, b ∈ l → 3 ≤ b < nb) → len l ≤ nb - 3.
Proof.
  intros Hnb Hn Hl. assert (Hincl : List.incl l (seqZ 3 (nb - 3))).
  { intros b Hb. apply list_elem_of_In. apply elem_of_seqZ. apply list_elem_of_In in Hb. specialize (Hl b Hb). lia. }
  apply NoDup_ListNoDup in Hn. pose proof (List.NoDup_incl_length Hn Hincl) as Hle. rewrite length_seqZ in Hle.
  unfold len. lia.
Qed.

Lemma blks_bound nb C G p nd : image_inv nb C G → G !! p = Some nd → len (nd_blks nd) ≤ nb - 3.
Proof.
  intros Hi Hp. pose proof (own_bound nb (own nd)) as Hb.
  assert (len (own nd) = len (nd_blks nd) + len (if nd_ind nd =? 0 then [] else [nd_ind nd])) by apply len_app.
  assert (0 ≤ len (if nd_ind nd =? 0 then [] else [nd_ind nd])) by (unfold len; lia).
  pose proof (i_nb _ _ _ Hi). specialize (Hb ltac:(lia) (i_nodup _ _ _ Hi p nd Hp) (λ b, i_own _ _ _ Hi p nd b Hp)). lia.
Qed.

Lemma holds_kept nb C C' G p nd : image_inv nb C G → G !! p = Some nd → (∀ x, foot p nd x → C' x = C x) → holds C' p nd.
Proof.
  intros Hi Hp Hf. pose proof (i_nb _ _ _ Hi) as Hnb. unfold NBLOCK in Hnb. apply (holds_frame C); [by apply (i_holds _ _ _ Hi)| | | |done].
  - destruct (decide (nd_ind nd = 0)) as [->|Hn]; [lia|]. pose proof (i_own _ _ _ Hi p nd _ Hp (own_ind nd Hn)). lia.
  - pose proof (blks_bound _ _ _ _ _ Hi Hp). lia.
  - intros i Hib. pose proof (i_own _ _ _ Hi p nd _ Hp (own_blk nd i Hib)). lia.
Qed.

Lemma meta_block b x : 3 ≤ b < 1024 → meta_pos x → x / 4096 ≠ b.
Proof.
  intros Hb Hm E. pose proof (Z.div_mod x 4096). pose proof (Z.mod_pos_bound x 4096).
  unfold meta_pos in Hm. change SUPER with 4194304 in Hm. lia.
Qed.

Lemma meta_unchanged nb C G p nd x : image_inv nb C G → G !! p = Some nd → meta_pos x → ¬ chg nb p nd x.
Proof.
  intros Hi Hp Hm Hc. pose proof (i_nb _ _ _ Hi) as Hnb. unfold NBLOCK in Hnb. destruct Hc as [Hc|[[Hn Hc]|Hc]].
  - destruct (entry_block nb C G Hi p nd x Hp Hc) as [[-> E]|(d & fd & k & Hd & _ & _ & _ & _ & E & Hb16)].
    + unfold meta_pos in Hm. change SUPER with 4194304 in Hm. change ROOTDIR with 4194312 in Hc. lia.
    + pose proof (i_own _ _ _ Hi d fd _ Hd (own_blk fd _ Hb16)). apply (meta_block (bl (nd_blks fd) (k / 16)) x); [lia|done|done].
  - pose proof (i_own _ _ _ Hi p nd _ Hp (own_ind nd Hn)). apply (meta_block (nd_ind nd) x); [lia|done|done].
  - unfold meta_pos in Hm. change SUPER with 4194304 in *. lia.
Qed.

Lemma kid_block nb C G p nd k q : image_inv nb C G → G !! p = Some nd → nd_kids nd !! k = Some q →
  0 ≤ Z.of_nat k / 16 < len (nd_blks nd).
Proof.
  intros Hi Hp Hk. pose proof (i_holds _ _ _ Hi p nd Hp) as Hh. pose proof (lookup_lt_Some _ _ _ Hk) as Hlt.
  assert (Ht : nd_type nd = FTYPE_DIR).
  { destruct (decide (nd_type nd = FTYPE_DIR)) as [|Hr]; [done|]. destruct (h_reg _ _ _ Hh Hr) as [_ En]. by rewrite En in Hk. }
  destruct (h_dir _ _ _ Hh Ht) as [_ Hle]. unfold len in *.
  split; [apply Z.div_pos; lia|apply Z.div_lt_upper_bound; lia].
Qed.

(** A step at one file: it may take the blocks up to [nb']. *)
Lemma update_inv nb nb' C C' G p nd nd' : image_inv nb C G → G !! p = Some nd → nb ≤ nb' ≤ NBLOCK →
  (∀ x, ¬ chg nb p nd x → C' x = C x) → (∀ x, 4096 * nb' ≤ x < SUPER → C' x = 0) → holds C' p nd' →
  (∀ b, b ∈ own nd' → b ∈ own nd ∨ nb ≤ b < nb') → NoDup (own nd') →
  nd_kids nd' = nd_kids nd → nd_type nd' = nd_type nd →
  (∀ i, 0 ≤ i < len (nd_blks nd) → bl (nd_blks nd') i = bl (nd_blks nd) i) →
  image_inv nb' C' (<[p := nd']> G).
Proof.
  intros Hi Hp Hnb HC Hz Hh Hown Hnd Hk Ht Hbl.
  assert (Hcase : ∀ q nq, <[p := nd']> G !! q = Some nq → (q = p ∧ nq = nd') ∨ (q ≠ p ∧ G !! q = Some nq)).
  { intros q nq Hq. destruct (decide (q = p)) as [->|Hne]; [left|right; by rewrite lookup_insert_ne in Hq].
    rewrite lookup_insert_eq in Hq. by simplify_eq. }
  assert (Hold : ∀ q nq b, G !! q = Some nq → b ∈ own nq → q ≠ p → b ∉ own nd').
  { intros q nq b Hq Hb Hne Hb'. destruct (Hown b Hb') as [Hbo|Hbn].
    - apply Hne. by apply (i_disj _ _ _ Hi q p nq nd b).
    - pose proof (i_own _ _ _ Hi q nq b Hq Hb). lia. }
  split.
  - pose proof (i_nb _ _ _ Hi). lia.
  - exact Hz.
  - intros x Hx. rewrite HC; [by apply (i_meta _ _ _ Hi)|]. by apply (meta_unchanged nb C G p nd).
  - intros q nq [[-> ->]|[Hne Hq]]%Hcase; [done|]. apply (holds_kept nb C C' G q nq Hi Hq).
    intros x Hx. apply HC. by apply (others_kept nb C G Hi p nd q nq).
  - intros q nq b [[-> ->]|[Hne Hq]]%Hcase Hb.
    + pose proof (i_nb _ _ _ Hi). destruct (Hown b Hb) as [Hbo|]; [|lia]. pose proof (i_own _ _ _ Hi p nd b Hp Hbo). lia.
    + pose proof (i_own _ _ _ Hi q nq b Hq Hb). lia.
  - intros q r nq nr b [[-> ->]|[Hne Hq]]%Hcase [[-> ->]|[Hne' Hr]]%Hcase Hb Hb'; [done|..].
    + by destruct (Hold r nr b Hr Hb' Hne').
    + by destruct (Hold q nq b Hq Hb Hne).
    + by apply (i_disj _ _ _ Hi q r nq nr b).
  - intros q nq [[-> ->]|[Hne Hq]]%Hcase; [done|]. by apply (i_nodup _ _ _ Hi q).
  - intros q nq Hq. assert (∃ n0, G !! q = Some n0) as [n0 H0].
    { apply Hcase in Hq as [[-> _]|[_ Hq]]; eauto. }
    destruct (i_place _ _ _ Hi q n0 H0) as [->|(d & fd & k & Hd & Hkk)]; [by left|right].
    destruct (decide (d = p)) as [->|Hdp].
    + exists p, nd', k. rewrite lookup_insert_eq, Hk. split; [done|]. congruence.
    + exists d, fd, k. by rewrite lookup_insert_ne.
  - intros d fd k q [[-> ->]|[Hne Hd]]%Hcase Hkk.
    + rewrite Hk in Hkk. destruct (i_kids _ _ _ Hi p nd k q Hp Hkk) as [E Hs]. split.
      * rewrite E. unfold slot. f_equal. f_equal. symmetry. apply Hbl.
        by apply (kid_block nb C G p nd k q).
      * destruct (decide (q = p)) as [->|]; [rewrite lookup_insert_eq; eauto|by rewrite lookup_insert_ne].
    + destruct (i_kids _ _ _ Hi d fd k q Hd Hkk) as [E Hs]. split; [done|].
      destruct (decide (q = p)) as [->|]; [rewrite lookup_insert_eq; eauto|by rewrite lookup_insert_ne].
  - destruct (i_root _ _ _ Hi) as (nr & Hr & Htr). destruct (decide (ROOTDIR = p)) as [<-|].
    + exists nd'. rewrite lookup_insert_eq. split; [done|]. congruence.
    + exists nr. by rewrite lookup_insert_ne.
Qed.

(** ** A new entry *)

(** No entry in use overlaps an unused one. *)
Lemma free_apart nb C G f fd k q nq x : image_inv nb C G → G !! f = Some fd →
  len (nd_kids fd) ≤ k < 16 * len (nd_blks fd) → G !! q = Some nq → q ≤ x < q + 256 →
  ¬ slot (nd_blks fd) k ≤ x < slot (nd_blks fd) k + 256.
Proof.
  intros Hi Hf Hk Hq Hx Hs. pose proof (i_nb _ _ _ Hi) as Hnb. unfold NBLOCK in Hnb.
  assert (0 ≤ len (nd_kids fd)) as Hlk by (unfold len; lia).
  assert (0 ≤ k / 16 < len (nd_blks fd)) as Hk16 by (split; [apply Z.div_pos; lia|apply Z.div_lt_upper_bound; lia]).
  pose proof (i_own _ _ _ Hi f fd _ Hf (own_blk fd _ Hk16)) as Ho.
  pose proof (slot_block (nd_blks fd) k x ltac:(lia) Hs) as E.
  destruct (entry_block nb C G Hi q nq x Hq Hx) as [[_ E']|(d & fd' & k' & Hd & Htd & Hk' & Hk2 & -> & E' & Hb16)]; [lia|].
  assert (d = f) as ->.
  { apply (i_disj _ _ _ Hi d f fd' fd (x / 4096)); [done|done|rewrite E'; by apply own_blk|rewrite E; by apply own_blk]. }
  assert (fd' = fd) as -> by congruence.
  assert (k' = k); [|lia]. apply (slot_inj (nd_blks fd) k' k x); [|lia|lia|lia|lia|done|done].
  apply own_blks_nodup. by apply (i_nodup _ _ _ Hi f).
Qed.

Section fresh.
Context (nb : Z) (C : Z → Z) (G : gmap Z node) (f : Z) (fd : node) (Hi : image_inv nb C G) (Hf : G !! f = Some fd).
Context (Ht : nd_type fd = FTYPE_DIR) (Hfree : len (nd_kids fd) < 16 * len (nd_blks fd)).
Let p : Z := slot (nd_blks fd) (len (nd_kids fd)).

Lemma free_pos : 0 ≤ len (nd_kids fd) / 16 < len (nd_blks fd).
Proof using Hfree. clear -Hfree. unfold len in *. split; [apply Z.div_pos; lia|apply Z.div_lt_upper_bound; lia]. Qed.

Lemma free_block x : p ≤ x < p + 256 → x / 4096 = bl (nd_blks fd) (len (nd_kids fd) / 16) ∧ 3 ≤ x / 4096 < nb.
Proof using Hi Hf Hfree.
  intros Hx. pose proof (i_own _ _ _ Hi f fd _ Hf (own_blk fd _ free_pos)) as Ho.
  rewrite (slot_block (nd_blks fd) (len (nd_kids fd)) x); [done|lia|done].
Qed.

Lemma entry_not_free q nq x : G !! q = Some nq → q ≤ x < q + 256 → ¬ p ≤ x < p + 256.
Proof using Hi Hf Hfree. intros Hq Hx. apply (free_apart nb C G f fd (len (nd_kids fd)) q nq x Hi Hf); [lia|done|done]. Qed.

Lemma foot_not_free q nq x : G !! q = Some nq → foot q nq x → p ≤ x < p + 256 →
  q = f ∧ ∀ k, len (nd_kids fd) < k < 16 * len (nd_blks fd) → ¬ slot (nd_blks fd) k ≤ x < slot (nd_blks fd) k + 256.
Proof using Hi Hf Hfree.
  intros Hq Hx Hp. destruct (free_block x Hp) as [E Hb].
  assert (Hsame : ∀ b, b ∈ own nq → x / 4096 = b → q = f).
  { intros b Hb' E'. apply (i_disj _ _ _ Hi q f nq fd b); [done|done|done|]. rewrite <- E', E. apply own_blk, free_pos. }
  assert (Hslots : ∀ k, len (nd_kids fd) < k < 16 * len (nd_blks fd) → ¬ slot (nd_blks fd) k ≤ x < slot (nd_blks fd) k + 256).
  { intros k Hk Hxk. assert (0 ≤ k / 16 < len (nd_blks fd)) as Hk16.
    { unfold len in *. split; [apply Z.div_pos; lia|apply Z.div_lt_upper_bound; lia]. }
    pose proof (i_own _ _ _ Hi f fd _ Hf (own_blk fd _ Hk16)).
    assert (k = len (nd_kids fd)); [|lia].
    apply (slot_inj (nd_blks fd) k (len (nd_kids fd)) x); [|unfold len in *; lia|unfold len in *; lia|lia|lia|done|done].
    apply own_blks_nodup. by apply (i_nodup _ _ _ Hi f). }
  split; [|exact Hslots]. destruct Hx as [Hx|[[Hn Hx]|[(Hr & i & Hib & Hx)|(Hd & k & Hk & Hx)]]].
  - by destruct (entry_not_free q nq x Hq Hx).
  - apply (Hsame (nd_ind nq)); [by apply own_ind|done].
  - apply (Hsame (bl (nd_blks nq) i)); [by apply own_blk|done].
  - assert (0 ≤ k / 16 < len (nd_blks nq)) as Hk16.
    { unfold len in *. split; [apply Z.div_pos; lia|apply Z.div_lt_upper_bound; lia]. }
    pose proof (i_own _ _ _ Hi q nq _ Hq (own_blk nq _ Hk16)).
    apply (Hsame (bl (nd_blks nq) (k / 16))); [by apply own_blk|]. apply slot_block; [lia|done].
Qed.

Definition with_kid : node := Node (nd_name fd) (nd_type fd) (nd_size fd) (nd_blks fd) (nd_ind fd) (nd_kids fd ++ [p]) (nd_data fd).

Lemma fresh_new : G !! p = None.
Proof using Hi Hf Hfree. destruct (G !! p) as [nq|] eqn:E; [|done]. by destruct (entry_not_free p nq p E ltac:(lia)); lia. Qed.

(** The directory has the entry already: the others are not affected. *)
Lemma with_kid_holds C' : (∀ x, ¬ p ≤ x < p + 256 → C' x = C x) → holds C' f with_kid.
Proof using Hi Hf Ht Hfree.
  intros HC. pose proof (i_holds _ _ _ Hi f fd Hf) as Hhf. pose proof (i_nb _ _ _ Hi) as Hnb.
  apply (holds_frame C).
  - destruct (h_dir _ _ _ Hhf Ht) as [Hs Hl]. split; try apply Hhf; cbn [with_kid nd_type nd_kids nd_blks nd_size].
    + intros _. rewrite len_app. change (len [p]) with 1. split; [done|lia].
    + intros k j _ Hk Hj. rewrite len_app in Hk. change (len [p]) with 1 in Hk. apply Hhf; [done|lia|done].
    + intros Hr. by destruct Hr.
  - cbn. destruct (decide (nd_ind fd = 0)) as [->|Hn]; [lia|]. pose proof (i_own _ _ _ Hi f fd _ Hf (own_ind fd Hn)). lia.
  - pose proof (blks_bound _ _ _ _ _ Hi Hf). unfold NBLOCK in Hnb. cbn. lia.
  - intros i Hib. pose proof (i_own _ _ _ Hi f fd _ Hf (own_blk fd i Hib)). change (0 ≤ bl (nd_blks fd) i). lia.
  - intros x Hx. apply HC. intros Hp.
    assert (Hx' : foot f fd x).
    { destruct Hx as [Hx|[Hx|[Hx|(Hd & k & Hk & Hx)]]]; [by left|by right; left|by right; right; left|].
      right; right; right. split; [done|]. cbn in Hk, Hx. rewrite len_app in Hk. change (len [p]) with 1 in Hk.
      exists k. split; [lia|done]. }
    destruct (foot_not_free f fd x Hf Hx' Hp) as [_ Hs].
    destruct Hx as [Hx|[[Hn Hx]|[(Hr & _)|(Hd & k & Hk & Hx)]]].
    + by destruct (entry_not_free f fd x Hf Hx).
    + destruct (free_block x Hp) as [E _]. apply (own_ind_blk fd (len (nd_kids fd) / 16));
         [by apply (i_nodup _ _ _ Hi f)|done|apply free_pos|]. cbn in Hx. congruence.
    + cbn in Hr. rewrite Ht in Hr. done.
    + cbn in Hk, Hx. rewrite len_app in Hk. change (len [p]) with 1 in Hk. apply (Hs k); [lia|done].
Qed.

Lemma fresh_inv C' nd : (∀ x, ¬ p ≤ x < p + 256 → C' x = C x) → holds C' p nd → own nd = [] → nd_kids nd = [] →
  image_inv nb C' (<[p := nd]> (<[f := with_kid]> G)).
Proof using Hi Hf Ht Hfree.
  intros HC Hh Hown Hkids. pose proof fresh_new as Hnone.
  assert (Hpf : p ≠ f) by congruence.
  assert (Hcase : ∀ q nq, <[p := nd]> (<[f := with_kid]> G) !! q = Some nq →
    (q = p ∧ nq = nd) ∨ (q = f ∧ nq = with_kid) ∨ (q ≠ f ∧ G !! q = Some nq)).
  { intros q nq Hq. destruct (decide (q = p)) as [->|Hne]; [left; rewrite lookup_insert_eq in Hq; by simplify_eq|right].
    rewrite lookup_insert_ne in Hq by done. destruct (decide (q = f)) as [->|Hqf]; [left; rewrite lookup_insert_eq in Hq; by simplify_eq|right].
    by rewrite lookup_insert_ne in Hq. }
  assert (Hsome : ∀ q, is_Some (G !! q) → is_Some (<[p := nd]> (<[f := with_kid]> G) !! q)).
  { intros q [nq Hq]. destruct (decide (q = p)) as [->|]; [rewrite lookup_insert_eq; eauto|]. rewrite lookup_insert_ne by done.
    destruct (decide (q = f)) as [->|]; [rewrite lookup_insert_eq; eauto|]. rewrite lookup_insert_ne by done. eauto. }
  pose proof (i_holds _ _ _ Hi f fd Hf) as Hhf. pose proof (i_nb _ _ _ Hi) as Hnb.
  split.
  - exact Hnb.
  - intros x Hx. rewrite HC; [by apply (i_zero _ _ _ Hi)|]. intros Hp. destruct (free_block x Hp) as [_ Hb].
    by apply (unused_block nb _ x Hb).
  - intros x Hx. rewrite HC; [by apply (i_meta _ _ _ Hi)|]. intros Hp. destruct (free_block x Hp) as [_ Hb]. unfold NBLOCK in Hnb.
    apply (meta_block (x / 4096) x); [lia|done|done].
  - intros q nq [[-> ->]|[[-> ->]|[Hne Hq]]]%Hcase; [done| |].
    + by apply with_kid_holds.
    + apply (holds_kept nb C C' G q nq Hi Hq). intros x Hx. apply HC. intros Hp.
      by destruct (foot_not_free q nq x Hq Hx Hp) as [-> _].
  - intros q nq b [[-> ->]|[[-> ->]|[Hne Hq]]]%Hcase Hb.
    + rewrite Hown in Hb. set_solver.
    + by apply (i_own _ _ _ Hi f fd).
    + by apply (i_own _ _ _ Hi q nq).
  - intros q r nq nr b Hq Hr Hb Hb'. apply Hcase in Hq as [[-> ->]|[[-> ->]|[Hne Hq]]]; [rewrite Hown in Hb; set_solver|..];
      apply Hcase in Hr as [[-> ->]|[[-> ->]|[Hne' Hr]]]; try (rewrite Hown in Hb'; set_solver); [done|..].
    + by apply (i_disj _ _ _ Hi f r fd nr b).
    + by apply (i_disj _ _ _ Hi q f nq fd b).
    + by apply (i_disj _ _ _ Hi q r nq nr b).
  - intros q nq [[-> ->]|[[-> ->]|[Hne Hq]]]%Hcase; [rewrite Hown; apply NoDup_nil_2|exact (i_nodup _ _ _ Hi f fd Hf)|by apply (i_nodup _ _ _ Hi q)].
  - assert (Hold : ∀ q nq, G !! q = Some nq → q = ROOTDIR ∨ ∃ d fd0 k,
      <[p := nd]> (<[f := with_kid]> G) !! d = Some fd0 ∧ nd_kids fd0 !! k = Some q).
    { intros q nq Hq. destruct (i_place _ _ _ Hi q nq Hq) as [->|(d & fd0 & k & Hd & Hk)]; [by left|right].
      assert (d ≠ p) by congruence. destruct (decide (d = f)) as [->|].
      - exists f, with_kid, k. rewrite lookup_insert_ne, lookup_insert_eq by done. split; [done|].
        assert (fd0 = fd) as -> by congruence. cbn. by apply lookup_app_l_Some.
      - exists d, fd0, k. by rewrite !lookup_insert_ne. }
    intros q nq [[-> ->]|[[-> ->]|[Hne Hq]]]%Hcase; [|by apply (Hold f fd)|by apply (Hold q nq)].
    right. exists f, with_kid, (length (nd_kids fd)). rewrite lookup_insert_ne, lookup_insert_eq by done. split; [done|].
    cbn. by apply list_lookup_middle.
  - intros d fd0 k q [[-> ->]|[[-> ->]|[Hne Hd]]]%Hcase Hk.
    + rewrite Hkids in Hk. done.
    + cbn in Hk |- *. apply lookup_app_Some in Hk as [Hk|[Hle Hk]].
      * destruct (i_kids _ _ _ Hi f fd k q Hf Hk) as [E Hs]. split; [done|by apply Hsome].
      * destruct (k - length (nd_kids fd))%nat as [|n] eqn:En; [|done]. cbn in Hk. injection Hk as <-.
        assert (k = length (nd_kids fd)) as -> by lia. split; [done|]. rewrite lookup_insert_eq. eauto.
    + destruct (i_kids _ _ _ Hi d fd0 k q Hd Hk) as [E Hs]. split; [done|by apply Hsome].
  - destruct (i_root _ _ _ Hi) as (nr & Hr & Htr). assert (ROOTDIR ≠ p) by congruence.
    destruct (decide (ROOTDIR = f)) as [E|].
    + exists with_kid. rewrite lookup_insert_ne, E, lookup_insert_eq by done. split; [done|]. exact Ht.
    + exists nr. by rewrite !lookup_insert_ne.
Qed.
End fresh.

(** ** A new block of a file *)

Definition with_blk (nd : node) (size b ind : Z) (data : list Z) : node :=
  Node (nd_name nd) (nd_type nd) size (nd_blks nd ++ [b]) ind (nd_kids nd) data.

(** The index block after block [b] has been linked, with the next block at hand *)
Definition index_after (nd : node) (b : Z) : Z := if len (nd_blks nd) =? 10 then b + 1 else nd_ind nd.

Record appended (nb : Z) (C C' : Z → Z) (p : Z) (nd : node) (size : Z) (D : Z → Z) : Prop := {
  ap_off x : ¬ p + 128 ≤ x < p + 256 → (index_after nd nb = 0 ∨ x / 4096 ≠ index_after nd nb) → x / 4096 ≠ nb → C' x = C x;
  ap_type : ftype C' p = nd_type nd;
  ap_size : fsize C' p = size;
  ap_ind : findirect C' p = index_after nd nb;
  ap_blk i : 0 ≤ i ≤ len (nd_blks nd) → fblock C' p i = bl (nd_blks nd ++ [nb]) i;
  ap_new x : 4096 * nb ≤ x < 4096 * nb + 4096 → C' x = D x
}.

Section append.
Context (nb : Z) (C : Z → Z) (G : gmap Z node) (p : Z) (nd : node) (Hi : image_inv nb C G) (Hp : G !! p = Some nd).
Let n := len (nd_blks nd).
Let nb' := if n =? 10 then nb + 2 else nb + 1.
Context (Hroom : nb' ≤ NBLOCK).

Lemma room : nb < 1024 ∧ 0 ≤ n < 1024 ∧ (n = 10 → nb + 1 < 1024).
Proof using Hi Hp Hroom.
  pose proof (i_nb _ _ _ Hi). pose proof (blks_bound _ _ _ _ _ Hi Hp). fold n in H0. unfold nb', NBLOCK in *.
  assert (0 ≤ n) by (unfold n, len; lia). destruct (Z.eqb_spec n 10); lia.
Qed.

Lemma entry_old x : p ≤ x < p + 256 → 0 ≤ x ∧ x / 4096 ≠ nb ∧ (n = 10 → x / 4096 ≠ nb + 1) ∧
  (nd_ind nd ≠ 0 → x / 4096 ≠ nd_ind nd) ∧ (∀ i, nd_type nd = FTYPE_REG → 0 ≤ i < n → x / 4096 ≠ bl (nd_blks nd) i).
Proof using Hi Hp Hroom.
  intros Hx. destruct room as (Hr1 & Hr2 & Hr3). destruct (entry_block nb C G Hi p nd x Hp Hx) as
    [[-> E]|(d & fd & k & Hd & Ht & Hk & Hk2 & -> & E & Hb16)].
  - change ROOTDIR with 4194312 in Hx. split_and!; [lia|lia|lia| |].
    + intros Hn. pose proof (i_own _ _ _ Hi ROOTDIR nd _ Hp (own_ind nd Hn)). lia.
    + intros i _ Hib. pose proof (i_own _ _ _ Hi ROOTDIR nd _ Hp (own_blk nd i Hib)). lia.
  - pose proof (i_own _ _ _ Hi d fd _ Hd (own_blk fd _ Hb16)) as Hob. pose proof (Z.div_mod x 4096). pose proof (Z.mod_pos_bound x 4096).
    split_and!; [lia|lia|lia| |].
    + intros Hn E2. destruct (decide (d = slot (nd_blks fd) k)) as [Ed|Hne].
      * rewrite <- Ed in Hp. assert (fd = nd) as -> by congruence.
        apply (own_ind_blk nd (k / 16)); [by apply (i_nodup _ _ _ Hi d)|done|done|congruence].
      * apply Hne. apply (i_disj _ _ _ Hi d _ fd nd (x / 4096)); [done|done|rewrite E; by apply own_blk|rewrite E2; by apply own_ind].
    + intros i Hreg Hib E2. assert (d = slot (nd_blks fd) k) as Ed.
      { apply (i_disj _ _ _ Hi d _ fd nd (x / 4096)); [done|done|rewrite E; by apply own_blk|rewrite E2; by apply own_blk]. }
      rewrite <- Ed in Hp. assert (fd = nd) as -> by congruence. rewrite Hreg in Ht. done.
Qed.

Lemma ind_old : index_after nd nb = 0 ∨ (3 ≤ index_after nd nb < nb' ∧ index_after nd nb ≠ nb ∧
  ∀ i, 0 ≤ i < n → bl (nd_blks nd) i ≠ index_after nd nb).
Proof using Hi Hp Hroom.
  pose proof (i_nb _ _ _ Hi). unfold index_after, nb'. fold n. destruct (Z.eqb_spec n 10) as [E|E].
  - right. split_and!; [lia|lia|lia|]. intros i Hib. pose proof (i_own _ _ _ Hi p nd _ Hp (own_blk nd i Hib)). lia.
  - destruct (decide (nd_ind nd = 0)) as [|Hn]; [by left|right]. pose proof (i_own _ _ _ Hi p nd _ Hp (own_ind nd Hn)).
    split_and!; [lia|lia|lia|]. intros i Hib. apply own_ind_blk; [by apply (i_nodup _ _ _ Hi p)|done|done].
Qed.

(** With the content of the new block as the type demands *)
Lemma append_holds C' size D data : appended nb C C' p nd size D →
  (nd_type nd = FTYPE_DIR → size = 4096 * (n + 1) ∧ ∀ x, D x = 0) →
  (nd_type nd = FTYPE_REG → len (nd_data nd) = 4096 * n ∧ ∃ chunk, data = nd_data nd ++ chunk ∧ len chunk ≤ 4096 ∧
     ∀ k, 0 ≤ k < len chunk → D (4096 * nb + k) = nth (Z.to_nat k) chunk 0) →
  holds C' p (with_blk nd size nb (index_after nd nb) data).
Proof using Hi Hp Hroom.
  intros Ha Hdir Hreg. pose proof (i_holds _ _ _ Hi p nd Hp) as Hh. destruct room as (Hr1 & Hr2 & Hr3).
  assert (Hold : ∀ i x, 0 ≤ i < n → x / 4096 = bl (nd_blks nd) i → (¬ p + 128 ≤ x < p + 256) → C' x = C x).
  { intros i x Hib E Hx. apply (ap_off _ _ _ _ _ _ _ Ha); [done| |].
    - destruct ind_old as [|(_ & _ & H1)]; [by left|right]. rewrite E. by apply H1.
    - pose proof (i_own _ _ _ Hi p nd _ Hp (own_blk nd i Hib)). lia. }
  split; cbn [with_blk nd_name nd_type nd_size nd_blks nd_ind nd_kids nd_data].
  - rewrite <- (h_name _ _ _ Hh). apply string_ext. intros k Hk. destruct (entry_old (p + k) ltac:(lia)) as (_ & H1 & H2 & H3 & _).
    apply (ap_off _ _ _ _ _ _ _ Ha); [lia| |done]. unfold index_after. fold n.
    destruct (Z.eqb_spec n 10); [right; auto|]. destruct (decide (nd_ind nd = 0)); [by left|right; auto].
  - apply Hh.
  - apply Hh.
  - apply Ha.
  - apply Ha.
  - rewrite len_app. change (len [nb]) with 1. intros i Hib. apply Ha. fold n. lia.
  - apply Ha.
  - rewrite len_app. change (len [nb]) with 1. fold n. unfold index_after. fold n. pose proof (h_ind0 _ _ _ Hh) as H0. fold n in H0.
    pose proof (i_nb _ _ _ Hi). destruct (Z.eqb_spec n 10); [lia|]. rewrite H0. lia.
  - intros Ht. destruct (Hdir Ht) as [-> _]. destruct (h_dir _ _ _ Hh Ht) as [_ Hle].
    rewrite len_app. change (len [nb]) with 1. fold n in Hle |- *. lia.
  - rewrite len_app. change (len [nb]) with 1. intros k j Ht Hk Hj. destruct (Hdir Ht) as [_ HD].
    assert (0 ≤ len (nd_kids nd)) by (unfold len; lia). fold n in Hk. pose proof (Z.mod_pos_bound k 16).
    destruct (Z.lt_ge_cases k (16 * n)) as [Hkn|Hkn].
    + assert (0 ≤ k / 16 < n) as Hk16 by (split; [apply Z.div_pos; lia|apply Z.div_lt_upper_bound; lia]).
      assert (slot (nd_blks nd ++ [nb]) k = slot (nd_blks nd) k) as Es by (unfold slot; by rewrite bl_app_l).
      pose proof (i_own _ _ _ Hi p nd _ Hp (own_blk nd _ Hk16)) as Ho. rewrite Es.
      assert (Eb : (slot (nd_blks nd) k + j) / 4096 = bl (nd_blks nd) (k / 16)) by (apply slot_block; lia).
      rewrite (Hold (k / 16)); [apply (h_free _ _ _ Hh); [done|fold n; lia|done]|done|done|]. intros Hx.
      apply (free_apart nb C G p nd k p nd (slot (nd_blks nd) k + j) Hi Hp ltac:(fold n; lia) Hp ltac:(lia)). lia.
    + assert (k / 16 = n) as E16 by (symmetry; apply (Z.div_unique k 16 n (k - 16 * n)); lia).
      unfold slot. rewrite E16. unfold n at 1. rewrite bl_app_r. rewrite (ap_new _ _ _ _ _ _ _ Ha) by lia. apply HD.
  - apply Hh.
  - intros k Ht Hk. destruct (Hreg Ht) as (Hlen & chunk & -> & Hc & HD). rewrite len_app in Hk. rewrite len_app. change (len [nb]) with 1.
    pose proof (Z.mod_pos_bound k 4096). pose proof (Z.div_mod k 4096). fold n. destruct (Z.lt_ge_cases k (len (nd_data nd))) as [Hkn|Hkn].
    + destruct (h_data _ _ _ Hh k Ht ltac:(lia)) as [Hb E]. fold n in Hb. assert (0 ≤ k / 4096) by (apply Z.div_pos; lia). split; [lia|].
      rewrite bl_app_l by (fold n; lia). rewrite app_nth1 by (unfold len in *; lia). rewrite <- E.
      pose proof (i_own _ _ _ Hi p nd _ Hp (own_blk nd (k / 4096) ltac:(fold n; lia))) as Ho.
      assert (Eb : (4096 * bl (nd_blks nd) (k / 4096) + k mod 4096) / 4096 = bl (nd_blks nd) (k / 4096)) by (apply block_pos; lia).
      apply (Hold (k / 4096)); [lia|done|]. intros Hx. destruct (entry_old (4096 * bl (nd_blks nd) (k / 4096) + k mod 4096) ltac:(lia)) as (_ & _ & _ & _ & Hno).
      by apply (Hno (k / 4096) Ht ltac:(lia)).
    + assert (k / 4096 = n) as E16 by (symmetry; apply (Z.div_unique k 4096 n (k - 4096 * n)); lia).
      rewrite E16. unfold n at 2. rewrite bl_app_r. split; [lia|]. rewrite (ap_new _ _ _ _ _ _ _ Ha) by lia.
      rewrite HD by lia. rewrite app_nth2 by (unfold len in *; lia). f_equal. unfold len in *. lia.
Qed.

Lemma own_with_blk size data b : b ∈ own (with_blk nd size nb (index_after nd nb) data) →
  b ∈ own nd ∨ nb ≤ b < nb'.
Proof using Hi Hp Hroom.
  unfold own at 1. cbn [with_blk nd_blks nd_ind]. rewrite !elem_of_app, list_elem_of_singleton. intros [[Hb| ->]|Hb].
  - left. apply elem_of_app. by left.
  - right. unfold nb'. destruct (n =? 10); lia.
  - destruct (Z.eqb_spec (index_after nd nb) 0) as [|Hn]; [set_solver|]. apply list_elem_of_singleton in Hb as ->.
    unfold index_after in *. fold n in Hn |- *. unfold nb'. destruct (n =? 10); [right; lia|left; by apply own_ind].
Qed.

Lemma nodup_with_blk size data : NoDup (own (with_blk nd size nb (index_after nd nb) data)).
Proof using Hi Hp Hroom.
  pose proof (own_blks_nodup _ (i_nodup _ _ _ Hi p nd Hp)) as Hn.
  assert (Hnb : nb ∉ nd_blks nd).
  { intros Hin. pose proof (i_own _ _ _ Hi p nd nb Hp ltac:(unfold own; apply elem_of_app; by left)). lia. }
  unfold own. cbn [with_blk nd_blks nd_ind].
  assert (H1 : NoDup (nd_blks nd ++ [nb])).
  { apply NoDup_app. split_and!; [done| |apply NoDup_singleton]. intros x Hx Hx'. apply list_elem_of_singleton in Hx' as ->. done. }
  destruct (Z.eqb_spec (index_after nd nb) 0) as [|Hz]; [by rewrite app_nil_r|].
  apply NoDup_app. split_and!; [done| |apply NoDup_singleton]. intros x Hx Hx'. apply list_elem_of_singleton in Hx' as ->.
  destruct ind_old as [|(_ & Hne & Hold)]; [done|]. apply elem_of_app in Hx as [Hx|Hx]; [|apply list_elem_of_singleton in Hx; congruence].
  apply list_elem_of_lookup in Hx as [k Hk]. pose proof (lookup_lt_Some _ _ _ Hk).
  apply (Hold (Z.of_nat k)); [unfold n, len; lia|]. apply bl_lookup. by rewrite Nat2Z.id.
Qed.

Lemma append_inv C' size D data : appended nb C C' p nd size D →
  holds C' p (with_blk nd size nb (index_after nd nb) data) →
  image_inv nb' C' (<[p := with_blk nd size nb (index_after nd nb) data]> G).
Proof using Hi Hp Hroom.
  intros Ha Hh. pose proof (i_nb _ _ _ Hi) as Hnb. destruct room as (Hr1 & Hr2 & Hr3).
  assert (Hidx : index_after nd nb = 0 ∨ index_after nd nb = nb + 1 ∧ n = 10 ∨ index_after nd nb = nd_ind nd ∧ nd_ind nd ≠ 0 ∧ n ≠ 10).
  { unfold index_after. fold n. destruct (Z.eqb_spec n 10); [auto|]. destruct (decide (nd_ind nd = 0)); [by left|auto]. }
  assert (Hb' : n = 10 ∧ nb' = nb + 2 ∨ n ≠ 10 ∧ nb' = nb + 1) by (unfold nb'; destruct (Z.eqb_spec n 10); auto).
  apply (update_inv nb nb' C C' G p nd _ Hi Hp); [lia| | |done|apply own_with_blk|apply nodup_with_blk|done|done|].
  - intros x Hx. unfold chg in Hx. apply (ap_off _ _ _ _ _ _ _ Ha); [intros ?; apply Hx; left; lia| |].
    + destruct Hidx as [|[[-> Hn]|[-> Hn]]]; [by left|right|right].
      * intros E. apply Hx. right. right. pose proof (Z.div_mod x 4096). pose proof (Z.mod_pos_bound x 4096).
        change SUPER with 4194304. lia.
      * intros E. apply Hx. right. left. split; [lia|done].
    + intros E. apply Hx. right. right. pose proof (Z.div_mod x 4096). pose proof (Z.mod_pos_bound x 4096).
      change SUPER with 4194304. lia.
  - intros x Hx. pose proof (Z.div_mod x 4096). pose proof (Z.mod_pos_bound x 4096). change SUPER with 4194304 in Hx.
    assert (Hq : nb' ≤ x / 4096 < 1024) by lia. rewrite (ap_off _ _ _ _ _ _ _ Ha).
    + apply (i_zero _ _ _ Hi). change SUPER with 4194304. lia.
    + intros Hpx. destruct (entry_block nb C G Hi p nd x Hp ltac:(lia)) as [[_ E]|(d & fd & k & Hd & _ & _ & _ & _ & E & Hb16)]; [lia|].
      pose proof (i_own _ _ _ Hi d fd _ Hd (own_blk fd _ Hb16)). lia.
    + destruct ind_old as [|(Ho & _)]; [by left|right; lia].
    + lia.
  - intros i Hib. cbn. by apply bl_app_l.
Qed.
End append.
