(* ===== verification/FsformatProps.v ===== *)
(** The disk image builder step by step: the steps of tools/fsformat.c keep the
    invariant of FsformatInv, and writing a tree of the host stores it. *)
From S2P Require Import Prelude Mmu Memory PmapSpec Uenv Fs IdeProps CacheProps FsProps PathProps Fsformat FsformatInv.

(** * The steps of the code *)

Lemma put_word_off C x w y : ¬ x ≤ y < x + 4 → put_word C x w y = C y.
Proof. intros Hy. unfold put_word. by rewrite decide_False. Qed.

Lemma le32_off C x w y : (∀ j, 0 ≤ j < 4 → ¬ x ≤ y + j < x + 4) → le32 (put_word C x w) y = le32 C y.
Proof. intros Hy. apply le32_ext. intros j Hj. by apply put_word_off, Hy. Qed.

Lemma block_data_ok b s : 0 ≤ b < NBLOCK → block_data b s = Ok (4096 * b) s.
Proof.
  intros [H0 H1]. unfold block_data. rewrite (proj2 (Z.leb_le _ _) H0), (proj2 (Z.ltb_lt _ _) H1). done.
Qed.

Lemma next_block_ok t s : 0 ≤ nextbno s < NBLOCK →
  next_block t s = Ok (nextbno s) (set_nextbno (nextbno s + 1) (set_btype (nextbno s) t s)).
Proof. intros Hn. unfold next_block. step. rewrite (bind_ok _ _ _ _ _ (block_data_ok _ _ Hn)). done. Qed.

Section link.
Context (nb : Z) (C C1 : Z → Z) (G : gmap Z node) (p : Z) (nd : node) (Hi : image_inv nb C G) (Hp : G !! p = Some nd).
Let n := len (nd_blks nd).
Let nb' := if n =? 10 then nb + 2 else nb + 1.
Context (Hroom : nb' ≤ NBLOCK) (HC : ∀ x, x / 4096 ≠ nb → C1 x = C x).

Lemma entry_word k : 0 ≤ k → k + 4 ≤ 256 → le32 C1 (p + k) = le32 C (p + k).
Proof using Hi Hp Hroom HC.
  intros H0 H1. apply le32_ext. intros j Hj. apply HC.
  by destruct (entry_old nb C G p nd Hi Hp Hroom (p + k + j) ltac:(lia)) as (_ & H2 & _).
Qed.

(** The words of the index block *)
Lemma index_word i : 10 ≤ i < n → le32 C1 (4096 * nd_ind nd + 4 * i) = bl (nd_blks nd) i.
Proof using Hi Hp Hroom HC.
  intros Hib. pose proof (i_holds _ _ _ Hi p nd Hp) as Hh. rewrite <- (h_blk _ _ _ Hh i) by (fold n; lia).
  unfold fblock. rewrite (proj2 (Z.ltb_ge i NDIRECT)) by (unfold NDIRECT; lia). rewrite (h_ind _ _ _ Hh).
  destruct (room nb C G p nd Hi Hp Hroom) as (_ & Hr & _). fold n in Hr.
  assert (Hne : nd_ind nd ≠ 0) by (intros E; pose proof (proj1 (h_ind0 _ _ _ Hh) E); fold n in H; lia).
  pose proof (i_own _ _ _ Hi p nd _ Hp (own_ind nd Hne)) as Ho. apply le32_ext. intros j Hj. apply HC.
  rewrite index_pos by lia. lia.
Qed.

Lemma direct_word i : 0 ≤ i < 10 → i < n → le32 C1 (p + 136 + 4 * i) = bl (nd_blks nd) i.
Proof using Hi Hp Hroom HC.
  intros Hib Hin. pose proof (i_holds _ _ _ Hi p nd Hp) as Hh. rewrite <- (h_blk _ _ _ Hh i) by (fold n; lia).
  unfold fblock. rewrite (proj2 (Z.ltb_lt i NDIRECT)) by (unfold NDIRECT; lia). rewrite <- Z.add_assoc. apply entry_word; lia.
Qed.

Lemma link_direct : n < 10 → appended nb C (put_word C1 (p + 136 + 4 * n) nb) p nd (fsize C p) C1.
Proof using Hi Hp Hroom HC.
  intros Hn. destruct (room nb C G p nd Hi Hp Hroom) as (Hr1 & Hr2 & _). fold n in Hr2. pose proof (i_holds _ _ _ Hi p nd Hp) as Hh.
  assert (Hidx : index_after nd nb = nd_ind nd) by (unfold index_after; fold n; by rewrite (proj2 (Z.eqb_neq n 10)) by lia).
  pose proof (i_nb _ _ _ Hi) as Hnb.
  split.
  - intros x Hx _ Hxn. rewrite put_word_off by lia. by apply HC.
  - rewrite <- (h_type _ _ _ Hh). unfold ftype. rewrite le32_off by lia. apply entry_word; lia.
  - unfold fsize. rewrite le32_off by lia. apply entry_word; lia.
  - rewrite Hidx, <- (h_ind _ _ _ Hh). unfold findirect. rewrite le32_off by lia. apply entry_word; lia.
  - fold n. intros i Hib. unfold fblock. rewrite (proj2 (Z.ltb_lt i NDIRECT)) by (unfold NDIRECT; lia).
    destruct (decide (i = n)) as [->|Hne].
    + rewrite le32_put by (cbn; lia). unfold n. by rewrite bl_app_r.
    + rewrite le32_off by lia. rewrite direct_word by lia. by rewrite bl_app_l by (fold n; lia).
  - intros x Hx. apply put_word_off. intros Hy.
    destruct (entry_old nb C G p nd Hi Hp Hroom x ltac:(lia)) as (_ & H2 & _). apply H2. apply block_pos; lia.
Qed.

Lemma link_indirect idx C2 : 10 ≤ n → idx = index_after nd nb → idx ≠ 0 →
  (∀ x, ¬ p + 176 ≤ x < p + 180 → C2 x = C1 x) → findirect C2 p = idx →
  appended nb C (put_word C2 (4096 * idx + 4 * n) nb) p nd (fsize C p) C1.
Proof using Hi Hp Hroom HC.
  intros Hn Hidx Hne H2 Hind. destruct (room nb C G p nd Hi Hp Hroom) as (Hr1 & Hr2 & Hr3). fold n in Hr2, Hr3.
  pose proof (i_holds _ _ _ Hi p nd Hp) as Hh. pose proof (i_nb _ _ _ Hi) as Hnb.
  destruct (ind_old nb C G p nd Hi Hp Hroom) as [|(Hib & Hinb & _)]; [congruence|]. rewrite <- Hidx in Hib, Hinb.
  assert (Hent : ∀ x, p ≤ x < p + 256 → x / 4096 ≠ idx).
  { intros x Hx. destruct (entry_old nb C G p nd Hi Hp Hroom x Hx) as (_ & _ & E1 & E2 & _). fold n in E1.
    rewrite Hidx. unfold index_after in *. fold n in Hidx |- *. destruct (Z.eqb_spec n 10); [auto|]. apply E2. congruence. }
  assert (Hpos : ∀ x j, p ≤ x → x + 4 ≤ p + 256 → 0 ≤ j < 4 → ¬ 4096 * idx + 4 * n ≤ x + j < 4096 * idx + 4 * n + 4).
  { intros x j Hx1 Hx2 Hj Hy. apply (Hent (x + j)); [lia|]. apply block_pos; lia. }
  assert (Hword : ∀ k, 0 ≤ k → k + 4 ≤ 176 → le32 (put_word C2 (4096 * idx + 4 * n) nb) (p + k) = le32 C (p + k)).
  { intros k H0 H1. rewrite le32_off by (intros j Hj; apply Hpos; lia). rewrite <- entry_word by lia.
    apply le32_ext. intros j Hj. apply H2. lia. }
  assert (Hfi : findirect (put_word C2 (4096 * idx + 4 * n) nb) p = idx).
  { unfold findirect in *. rewrite le32_off; [exact Hind|]. intros j Hj. apply Hpos; lia. }
  split.
  - rewrite <- Hidx. intros x Hx [|Hxi] Hxn; [done|]. rewrite put_word_off, H2 by (lia || (intros Hy; apply Hxi; apply block_pos; lia)).
    by apply HC.
  - rewrite <- (h_type _ _ _ Hh). by apply Hword.
  - by apply Hword.
  - by rewrite Hfi.
  - fold n. intros i Hib'. unfold fblock. rewrite Hfi. destruct (Z.ltb_spec i NDIRECT) as [Hd|Hd]; unfold NDIRECT in Hd.
    + rewrite <- Z.add_assoc, Hword, Z.add_assoc by lia. rewrite bl_app_l by (fold n; lia).
      rewrite <- (h_blk _ _ _ Hh i) by (fold n; lia). unfold fblock. by rewrite (proj2 (Z.ltb_lt i NDIRECT)) by (unfold NDIRECT; lia).
    + destruct (decide (i = n)) as [->|Hin].
      * rewrite le32_put by (cbn; lia). unfold n. by rewrite bl_app_r.
      * rewrite le32_off by lia. rewrite bl_app_l by (fold n; lia). rewrite <- index_word by lia.
        assert (nd_ind nd = idx) as -> by (rewrite Hidx; unfold index_after; fold n; by rewrite (proj2 (Z.eqb_neq n 10)) by lia).
        apply le32_ext. intros j Hj. apply H2. intros Hy. apply (Hent (4096 * idx + 4 * i + j)); [lia|apply index_pos; lia].
  - intros x Hx. assert (Ex : x / 4096 = nb) by (apply block_pos; lia). rewrite put_word_off.
    + apply H2. intros Hy. by destruct (entry_old nb C G p nd Hi Hp Hroom x ltac:(lia)) as (_ & E & _).
    + intros Hy. apply Hinb. rewrite <- Ex. symmetry. apply block_pos; lia.
Qed.

Lemma save_block_link_ok s : bytes s = C1 → nextbno s = nb + 1 →
  ∃ s', save_block_link p n nb s = Ok tt s' ∧ nextbno s' = nb' ∧ nbitblock s' = nbitblock s ∧
    appended nb C (bytes s') p nd (fsize C p) C1.
Proof using Hi Hp Hroom HC.
  intros Hs Hnext. destruct (room nb C G p nd Hi Hp Hroom) as (Hr1 & Hr2 & Hr3). fold n in Hr2, Hr3.
  pose proof (i_holds _ _ _ Hi p nd Hp) as Hh. pose proof (i_nb _ _ _ Hi) as Hnb.
  unfold save_block_link. rewrite (proj2 (Z.ltb_lt n NINDIRECT)) by (change NINDIRECT with 1024; lia). cbn [negb].
  destruct (Z.ltb_spec n NDIRECT) as [Hd|Hd]; unfold NDIRECT in Hd.
  - eexists. split; [reflexivity|]. cbn [nextbno nbitblock bytes set_bytes]. rewrite Hnext, Hs, u32_small by (cbn; lia).
    split_and!; [unfold nb'; by rewrite (proj2 (Z.eqb_neq n 10)) by lia|done|]. by apply link_direct.
  - step. rewrite Hs. change (le32 C1 (f_indirect p)) with (le32 C1 (p + 176)). rewrite entry_word by lia.
    change (le32 C (p + 176)) with (findirect C p). rewrite (h_ind _ _ _ Hh). pose proof (h_ind0 _ _ _ Hh) as H0. fold n in H0.
    destruct (Z.eqb_spec (nd_ind nd) 0) as [Ez|Ez].
    + assert (n = 10) as Hn10 by (apply H0 in Ez; lia). specialize (Hr3 Hn10).
      rewrite bind_assoc, (bind_ok _ _ _ _ _ (next_block_ok BLOCK_INDEX s ltac:(unfold NBLOCK; lia))), Hnext.
      step. step. cbn [bytes set_bytes set_nextbno set_btype]. rewrite Hs. rewrite (u32_small (nb + 1)) by (cbn; lia).
      change (f_indirect p) with (p + 176). rewrite le32_put by (cbn; lia).
      rewrite (bind_ok _ _ _ _ _ (block_data_ok (nb + 1) _ ltac:(unfold NBLOCK; lia))).
      eexists. split; [reflexivity|]. cbn [nextbno nbitblock bytes set_bytes set_nextbno set_btype].
      assert (Hidx : nb + 1 = index_after nd nb) by (unfold index_after; fold n; by rewrite Hn10).
      split_and!; [unfold nb'; rewrite Hn10; cbn; lia|done|]. rewrite (u32_small nb) by (cbn; lia).
      apply link_indirect; [lia|done|lia| |].
      * intros x Hx. apply put_word_off. lia.
      * unfold findirect. apply le32_put. cbn. lia.
    + assert (Hn10 : n ≠ 10) by (intros E; apply Ez, H0; lia).
      rewrite (bind_ok _ _ tt s s) by done. step. rewrite Hs. change (f_indirect p) with (p + 176). rewrite entry_word by lia.
      change (le32 C (p + 176)) with (findirect C p). rewrite (h_ind _ _ _ Hh).
      pose proof (i_own _ _ _ Hi p nd _ Hp (own_ind nd Ez)) as Ho.
      rewrite (bind_ok _ _ _ _ _ (block_data_ok (nd_ind nd) _ ltac:(unfold NBLOCK in *; lia))).
      eexists. split; [reflexivity|]. cbn [nextbno nbitblock bytes set_bytes]. rewrite Hs, Hnext.
      split_and!; [unfold nb'; by rewrite (proj2 (Z.eqb_neq n 10)) by lia|done|]. rewrite (u32_small nb) by (cbn; lia).
      apply link_indirect; [lia| |done|done|].
      * unfold index_after. fold n. by rewrite (proj2 (Z.eqb_neq n 10)) by lia.
      * unfold findirect. rewrite entry_word by lia. apply Hh.
Qed.
End link.

(** ** A free entry of a directory *)

Lemma appended_size nb C C' G p nd size size' D : image_inv nb C G → G !! p = Some nd →
  (if len (nd_blks nd) =? 10 then nb + 2 else nb + 1) ≤ NBLOCK → 0 ≤ size' < 2 ^ 32 →
  appended nb C C' p nd size D → appended nb C (put_word C' (p + 128) size') p nd size' D.
Proof.
  intros Hi Hp Hroom Hsz [A1 A2 A3 A4 A5 A6]. pose proof (i_nb _ _ _ Hi).
  destruct (room nb C G p nd Hi Hp Hroom) as (Hr1 & Hr2 & Hr3).
  assert (Hent : ∀ x, p ≤ x < p + 256 → x / 4096 ≠ nb ∧ (index_after nd nb ≠ 0 → x / 4096 ≠ index_after nd nb)).
  { intros x Hx. destruct (entry_old nb C G p nd Hi Hp Hroom x Hx) as (_ & E0 & E1 & E2 & _). split; [done|].
    unfold index_after. destruct (Z.eqb_spec (len (nd_blks nd)) 10); auto. }
  split.
  - intros x Hx H1 H2. rewrite put_word_off by lia. by apply A1.
  - rewrite <- A2. unfold ftype. apply le32_off. lia.
  - unfold fsize. by apply le32_put.
  - rewrite <- A4. unfold findirect. apply le32_off. lia.
  - intros i Hib. rewrite <- A5 by done. unfold fblock.
    assert (E : findirect (put_word C' (p + 128) size') p = findirect C' p) by (unfold findirect; apply le32_off; lia).
    rewrite E. destruct (Z.ltb_spec i NDIRECT) as [Hd|Hd]; unfold NDIRECT in Hd; [apply le32_off; lia|].
    apply le32_off. intros j Hj Hx. rewrite A4 in Hx.
    destruct (ind_old nb C G p nd Hi Hp Hroom) as [E0|(Hb & _)].
    + unfold index_after in E0. destruct (Z.eqb_spec (len (nd_blks nd)) 10) as [|Hn10]; [lia|].
      pose proof (i_holds _ _ _ Hi p nd Hp) as Hh. apply (h_ind0 _ _ _ Hh) in E0. assert (i = 10) as -> by lia. lia.
    + destruct (Hent (4096 * index_after nd nb + 4 * i + j) ltac:(lia)) as [_ He]. apply He; [lia|]. apply index_pos; lia.
  - intros x Hx. rewrite put_word_off; [by apply A6|]. intros Hy. destruct (Hent x ltac:(lia)) as [He _]. apply He. apply block_pos; lia.
Qed.

Section scan.
Context (nb : Z) (G : gmap Z node) (f : Z) (fd : node) (s : builder).
Context (Hi : image_inv nb (bytes s) G) (Hf : G !! f = Some fd) (Ht : nd_type fd = FTYPE_DIR).
Let kids := len (nd_kids fd).
Let blks := nd_blks fd.

Lemma slot_in_block i k : 16 * i ≤ k < 16 * i + 16 → slot blks k = 4096 * bl blks i + 256 * (k - 16 * i).
Proof using.
  intros Hk. unfold slot. rewrite <- (Z.div_unique k 16 i (k - 16 * i)), <- (Z.mod_unique k 16 i (k - 16 * i)) by lia. done.
Qed.

Lemma kid_used k : 0 ≤ k < kids → bytes s (slot blks k) ≠ 0.
Proof using Hi Hf.
  intros Hk. destruct (lookup_lt_is_Some_2 (nd_kids fd) (Z.to_nat k)) as [p Hp]; [unfold kids, len in Hk; lia|].
  destruct (i_kids _ _ _ Hi f fd _ p Hf Hp) as [E [nd Hnd]]. rewrite Z2Nat.id in E by lia. fold blks in E. rewrite <- E.
  pose proof (i_holds _ _ _ Hi p nd Hnd) as Hh. intros E0. apply (h_named _ _ _ Hh).
  rewrite <- (h_name _ _ _ Hh). unfold entry_name. cbn [string_at]. by rewrite E0.
Qed.

Lemma unused_in_block_ok i m k : 0 ≤ i < len blks → 16 * i ≤ k → k + Z.of_nat m = 16 * i + 16 → k ≤ kids →
  unused_in_block m (4096 * bl blks i + 256 * (k - 16 * i)) s =
    Ok (if kids <? 16 * i + 16 then Some (slot blks kids) else None) s.
Proof using Hi Hf Ht.
  intros Hib. revert k. induction m as [|m IH]; intros k Hk Hm Hle; cbn [unused_in_block].
  - rewrite (proj2 (Z.ltb_ge kids _)) by lia. done.
  - rewrite (bind_ok (gets _) _ _ _ _ eq_refl). unfold f_name. rewrite <- (slot_in_block i k) by lia.
    destruct (Z.lt_ge_cases k kids) as [Hlt|Hge].
    + rewrite (proj2 (Z.eqb_neq _ _) (kid_used k ltac:(lia))). rewrite (slot_in_block i k) by lia.
      replace (4096 * bl blks i + 256 * (k - 16 * i) + BY2FILE) with (4096 * bl blks i + 256 * (k + 1 - 16 * i)) by (unfold BY2FILE; lia).
      apply IH; lia.
    + assert (k = kids) as -> by lia. pose proof (h_free _ _ _ (i_holds _ _ _ Hi f fd Hf) kids 0 Ht) as H0.
      fold kids blks in H0. rewrite Z.add_0_r in H0. rewrite H0 by lia. rewrite Z.eqb_refl.
      rewrite (proj2 (Z.ltb_lt kids _)) by lia. done.
Qed.

Lemma unused_file_ok i m : 0 ≤ i → i + Z.of_nat m = len blks → 16 * i ≤ kids →
  unused_file m f i s = Ok (if kids <? 16 * len blks then Some (slot blks kids) else None) s.
Proof using Hi Hf Ht.
  revert i. induction m as [|m IH]; intros i H0 Hm Hle; cbn [unused_file].
  - rewrite (proj2 (Z.ltb_ge kids _)) by lia. done.
  - pose proof (i_holds _ _ _ Hi f fd Hf) as Hh. pose proof (i_nb _ _ _ Hi) as Hnb.
    pose proof (i_own _ _ _ Hi f fd _ Hf (own_blk fd i ltac:(fold blks; lia))) as Hob. fold blks in Hob.
    assert (Hbno : (if i <? NDIRECT then getw (f_direct f i)
                    else ind <- getw (f_indirect f) ;; a <- block_data ind ;; getw (a + 4 * i)) s = Ok (bl blks i) s).
    { pose proof (h_blk _ _ _ Hh i ltac:(fold blks; lia)) as Hb. fold blks in Hb. rewrite <- Hb. unfold fblock.
      destruct (Z.ltb_spec i NDIRECT) as [|Hge]; [done|].
      step. change (le32 (bytes s) (f_indirect f)) with (findirect (bytes s) f). rewrite (h_ind _ _ _ Hh).
      assert (Hne : nd_ind fd ≠ 0).
      { intros E. apply (h_ind0 _ _ _ Hh) in E. fold blks in E. unfold NDIRECT in Hge. lia. }
      pose proof (i_own _ _ _ Hi f fd _ Hf (own_ind fd Hne)).
      by rewrite (bind_ok _ _ _ _ _ (block_data_ok (nd_ind fd) s ltac:(lia))). }
    rewrite (bind_ok _ _ _ _ _ Hbno), (bind_ok _ _ _ _ _ (block_data_ok (bl blks i) s ltac:(lia))).
    pose proof (unused_in_block_ok i 16 (16 * i) ltac:(lia) ltac:(lia) ltac:(lia) Hle) as Hu.
    replace (4096 * bl blks i + 256 * (16 * i - 16 * i)) with (4096 * bl blks i) in Hu by lia.
    rewrite (bind_ok _ _ _ _ _ Hu). destruct (Z.ltb_spec kids (16 * i + 16)) as [Hlt|Hge].
    + rewrite (proj2 (Z.ltb_lt kids _)) by lia. done.
    + rewrite IH by lia. done.
Qed.
End scan.

(** Blocks a directory of [n] entries takes for one more: a block of entries,
    and with the eleventh block the index block *)
Definition slot_cost (n : Z) : Z := if n mod 16 =? 0 then (if n =? 160 then 2 else 1) else 0.
Definition snug (nd : node) (n : Z) : Prop := len (nd_blks nd) = (n + 15) / 16.

Lemma snug_full nd n : snug nd n → 0 ≤ n →
  (16 * len (nd_blks nd) = n ∧ n mod 16 = 0 ∧ (n =? 160) = (len (nd_blks nd) =? 10)) ∨
  (n < 16 * len (nd_blks nd) ∧ n mod 16 ≠ 0 ∧ snug nd (n + 1)).
Proof.
  unfold snug. intros E Hn. pose proof (Z.div_mod n 16). pose proof (Z.mod_pos_bound n 16).
  destruct (Z.eqb_spec (n mod 16) 0) as [E0|E0].
  - left. assert ((n + 15) / 16 = n / 16) as E1 by (symmetry; apply (Z.div_unique (n + 15) 16 (n / 16) 15); lia).
    rewrite E, E1. split_and!; [lia|done|]. destruct (Z.eqb_spec n 160), (Z.eqb_spec (n / 16) 10); lia.
  - right. assert ((n + 15) / 16 = n / 16 + 1) as E1.
    { symmetry. apply (Z.div_unique (n + 15) 16 _ (n mod 16 - 1)); lia. }
    rewrite E, E1. split_and!; [lia|done|]. apply (Z.div_unique (n + 1 + 15) 16 _ (n mod 16)); lia.
Qed.

Lemma create_file_ok nb G s f fd : image_inv nb (bytes s) G → nextbno s = nb → G !! f = Some fd → nd_type fd = FTYPE_DIR →
  snug fd (len (nd_kids fd)) → nb + slot_cost (len (nd_kids fd)) ≤ NBLOCK →
  ∃ s' fd', create_file f s = Ok (slot (nd_blks fd') (len (nd_kids fd))) s' ∧ nd_kids fd' = nd_kids fd ∧ nd_name fd' = nd_name fd ∧
    nd_type fd' = FTYPE_DIR ∧ snug fd' (len (nd_kids fd) + 1) ∧ len (nd_kids fd) < 16 * len (nd_blks fd') ∧
    image_inv (nextbno s') (bytes s') (<[f := fd']> G) ∧ nextbno s' = nb + slot_cost (len (nd_kids fd)) ∧ nbitblock s' = nbitblock s.
Proof.
  intros Hi Hnb Hf Ht Hsn Hroom. set (n := len (nd_kids fd)) in *. pose proof (i_holds _ _ _ Hi f fd Hf) as Hh.
  destruct (h_dir _ _ _ Hh Ht) as [Hsz Hle]. fold n in Hle. assert (Hn0 : 0 ≤ n) by (unfold n, len; lia).
  assert (Hl0 : 0 ≤ len (nd_blks fd)) by (unfold len; lia).
  unfold create_file. step. change (le32 (bytes s) (f_size f)) with (fsize (bytes s) f). rewrite (h_size _ _ _ Hh), Hsz.
  replace (4096 * len (nd_blks fd) / BY2BLK) with (len (nd_blks fd)) by (rewrite Z.mul_comm; symmetry; by apply Z.div_mul).
  pose proof (unused_file_ok nb G f fd s Hi Hf Ht 0 (Z.to_nat (len (nd_blks fd))) ltac:(lia) ltac:(lia) ltac:(fold n; lia)) as Hu.
  fold n in Hu. rewrite (bind_ok _ _ _ _ _ Hu). destruct (snug_full fd n Hsn Hn0) as [(Hfull & Hm & Hq)|(Hlt & Hm & Hsn')].
  - rewrite (proj2 (Z.ltb_ge n _)) by lia. unfold slot_cost in Hroom |- *. rewrite Hm, Hq in *. cbn [Z.eqb] in Hroom |- *.
    assert (Hroom' : (if len (nd_blks fd) =? 10 then nb + 2 else nb + 1) ≤ NBLOCK) by (destruct (len (nd_blks fd) =? 10); lia).
    destruct (room nb (bytes s) G f fd Hi Hf Hroom') as (Hr1 & Hr2 & _). pose proof (i_nb _ _ _ Hi).
    unfold make_link_block. rewrite !bind_assoc.
    rewrite (bind_ok _ _ _ _ _ (next_block_ok BLOCK_FILE s ltac:(unfold NBLOCK; lia))), Hnb, bind_assoc.
    set (s1 := set_nextbno (nb + 1) (set_btype nb BLOCK_FILE s)).
    destruct (save_block_link_ok nb (bytes s) (bytes s1) G f fd Hi Hf Hroom' (λ x _, eq_refl) s1 eq_refl eq_refl) as (s2 & E & Hn2 & Hbb & Ha).
    rewrite (bind_ok _ _ _ _ _ E). rewrite bind_assoc. step. step. rewrite bind_ret.
    change (le32 (bytes s2) (f_size f)) with (fsize (bytes s2) f). rewrite (ap_size _ _ _ _ _ _ _ Ha), (h_size _ _ _ Hh), Hsz.
    set (sz := 4096 * len (nd_blks fd) + BY2BLK). rewrite (u32_small sz) by (unfold sz, BY2BLK, BY2PG; cbn; lia).
    rewrite (block_data_ok nb) by (unfold NBLOCK; lia).
    apply (appended_size nb (bytes s) (bytes s2) G f fd _ sz _ Hi Hf Hroom' ltac:(unfold sz, BY2BLK, BY2PG; cbn; lia)) in Ha.
    set (s3 := set_bytes (put_word (bytes s2) (f_size f) sz) s2). set (fd' := with_blk fd sz nb (index_after fd nb) (nd_data fd)).
    assert (Hlen : len (nd_blks fd') = len (nd_blks fd) + 1) by (unfold fd'; cbn [with_blk nd_blks]; by rewrite len_app).
    exists s3, fd'. split_and!.
    + f_equal. unfold slot. assert (n / 16 = len (nd_blks fd)) as -> by (apply Z.div_exact in Hm; lia).
      cbn [fd' with_blk nd_blks]. rewrite bl_app_r, Hm. lia.
    + done.
    + done.
    + done.
    + unfold snug. rewrite Hlen. apply (Z.div_unique _ 16 _ 0); lia.
    + lia.
    + assert (Hnext : nextbno s3 = if len (nd_blks fd) =? 10 then nb + 2 else nb + 1) by exact Hn2. rewrite Hnext.
      apply (append_inv nb (bytes s) G f fd Hi Hf Hroom' (bytes s3) sz (bytes s) (nd_data fd)); [exact Ha|].
      apply (append_holds nb (bytes s) G f fd Hi Hf Hroom' (bytes s3) sz (λ x, 0) (nd_data fd)).
      * destruct Ha as [A1 A2 A3 A4 A5 A6]. split; try done. intros x Hx.
        assert (Ez : bytes s3 x = bytes s x) by by apply A6.
        rewrite Ez. apply (i_zero _ _ _ Hi). change SUPER with 4194304. lia.
      * intros _. split; [unfold sz, BY2BLK, BY2PG; lia|done].
      * rewrite Ht. done.
    + rewrite <- Hnb. cbn [nextbno s3 set_bytes]. rewrite Hn2. destruct (len (nd_blks fd) =? 10); lia.
    + exact Hbb.
  - rewrite (proj2 (Z.ltb_lt n _)) by lia. unfold slot_cost in *. rewrite (proj2 (Z.eqb_neq _ _) Hm) in *.
    exists s, fd. split_and!; [done|done|done|done|done|lia| |lia|done]. rewrite insert_id by done. by rewrite Hnb.
Qed.

(** ** A fresh entry *)

Definition good_name (l : list Z) : Prop := l ≠ [] ∧ len l < 128 ∧ Forall (λ c, c ≠ 0 ∧ c ≠ 47) l.

Lemma string_at_list C n x l : (∀ k, 0 ≤ k < Z.of_nat n → C (x + k) = nth (Z.to_nat k) l 0) →
  (length l < n)%nat → Forall (λ c, c ≠ 0 ∧ c ≠ 47) l → string_at C n x = l.
Proof.
  revert x l. induction n as [|n IH]; intros x l Hx Hlt Hz; [lia|]. cbn [string_at].
  pose proof (Hx 0 ltac:(lia)) as E. rewrite Z.add_0_r in E. rewrite E. destruct l as [|c l]; [done|].
  apply Forall_cons in Hz as [[Hc _] Hz]. change (nth (Z.to_nat 0) (c :: l) 0) with c. rewrite (proj2 (Z.eqb_neq c 0) Hc). f_equal.
  apply IH; [|cbn in Hlt; lia|done]. intros k Hk. replace (x + 1 + k) with (x + (k + 1)) by lia. rewrite Hx by lia.
  replace (Z.to_nat (k + 1)) with (S (Z.to_nat k)) by lia. done.
Qed.

Lemma holds_fresh C p name type size : good_name name →
  (∀ k, 0 ≤ k < 128 → C (p + k) = nth (Z.to_nat k) name 0) → fsize C p = size → ftype C p = type →
  (∀ k, 136 ≤ k < 180 → C (p + k) = 0) → (type = FTYPE_REG ∨ type = FTYPE_DIR ∧ size = 0) →
  holds C p (Node name type size [] 0 [] []).
Proof.
  intros (Hne & Hlt & Hz) Hn Hs Ht H0 Hty. split; cbn [nd_name nd_type nd_size nd_blks nd_ind nd_kids nd_data]; try done.
  - apply string_at_list; [done|unfold len in Hlt; lia|done].
  - change (len []) with 0. lia.
  - unfold findirect, le32. by rewrite <- !Z.add_assoc, !H0 by lia.
  - change (len []) with 0. intros ->. destruct Hty as [|[_ ->]]; [done|]. lia.
  - change (len []) with 0. lia.
  - intros Hr. destruct Hty as [|[? _]]; [done|done].
  - change (len []) with 0. lia.
Qed.

Record added (G G' : gmap Z node) (f p : Z) (fd : node) : Prop := {
  ad_new : G !! p = None;
  ad_dir : ∃ fd', G' !! f = Some fd' ∧ nd_name fd' = nd_name fd ∧ nd_type fd' = FTYPE_DIR ∧ nd_kids fd' = nd_kids fd ++ [p] ∧ snug fd' (len (nd_kids fd) + 1);
  ad_old q x : q ≠ f → G !! q = Some x → G' !! q = Some x
}.

(** The entry at [p], just created in [f], is written. *)
Lemma new_entry nb C C' G f fd fd' nd : let p := slot (nd_blks fd') (len (nd_kids fd)) in
  image_inv nb C (<[f := fd']> G) → G !! f = Some fd → nd_kids fd' = nd_kids fd → nd_name fd' = nd_name fd → nd_type fd' = FTYPE_DIR →
  snug fd' (len (nd_kids fd) + 1) → len (nd_kids fd) < 16 * len (nd_blks fd') →
  (∀ x, ¬ p ≤ x < p + 256 → C' x = C x) → holds C' p nd → own nd = [] → nd_kids nd = [] →
  ∃ G', image_inv nb C' G' ∧ G' !! p = Some nd ∧ added G G' f p fd.
Proof.
  intros p Hi Hf Hk Hnm Ht Hsn Hlt HC Hh Hown Hkids.
  assert (Hf' : <[f := fd']> G !! f = Some fd') by apply lookup_insert_eq.
  rewrite <- Hk in Hlt. pose proof (fresh_new nb C _ f fd' Hi Hf' Hlt) as Hnew.
  pose proof (fresh_inv nb C _ f fd' Hi Hf' Ht Hlt C' nd) as Hfr. rewrite Hk in Hnew, Hfr. fold p in Hnew, Hfr.
  specialize (Hfr HC Hh Hown Hkids). rewrite insert_insert_eq in Hfr.
  destruct (decide (p = f)) as [E|Hpf]; [rewrite E in Hnew; congruence|]. rewrite lookup_insert_ne in Hnew by done.
  eexists. split; [exact Hfr|]. split; [apply lookup_insert_eq|]. split; [done| |].
  - eexists. rewrite lookup_insert_ne, lookup_insert_eq by done. split; [done|]. split_and!; [done|done| |done].
    unfold with_kid. cbn [nd_kids]. rewrite Hk. done.
  - intros q x Hq Hqx. rewrite !lookup_insert_ne; [done|done|]. intros ->. congruence.
Qed.

Lemma free_zero nb C G f fd k : image_inv nb C G → G !! f = Some fd → nd_type fd = FTYPE_DIR →
  len (nd_kids fd) < 16 * len (nd_blks fd) → 0 ≤ k < 256 → C (slot (nd_blks fd) (len (nd_kids fd)) + k) = 0.
Proof. intros Hi Hf Ht Hlt Hk. apply (h_free _ _ _ (i_holds _ _ _ Hi f fd Hf)); [done|lia|done]. Qed.

Lemma put_list_in C x l k : 0 ≤ k < len l → put_list C x l (x + k) = nth (Z.to_nat k) l 0.
Proof. unfold len. intros Hk. unfold put_list. rewrite decide_True by lia. do 2 f_equal. lia. Qed.
Lemma put_list_off C x l y : ¬ x ≤ y < x + len l → put_list C x l y = C y.
Proof. unfold len. intros Hy. unfold put_list. by rewrite decide_False. Qed.

Lemma nth_pad (l : list Z) n i : nth i (l ++ replicate n 0) 0 = nth i l 0.
Proof.
  destruct (Nat.lt_ge_cases i (length l)); [by apply app_nth1|]. rewrite app_nth2, (nth_overflow l) by done.
  generalize (i - length l)%nat as j. clear. induction n as [|n IH]; intros [|j]; cbn; [done..|apply IH].
Qed.

(** The name written over a free entry *)
Lemma named_entry C p name n : (∀ k, 0 ≤ k < 256 → C (p + k) = 0) → len name + Z.of_nat n ≤ 128 →
  let C1 := put_list C p (name ++ replicate n 0) in
  (∀ k, 0 ≤ k < 256 → C1 (p + k) = nth (Z.to_nat k) name 0) ∧ (∀ x, ¬ p ≤ x < p + 256 → C1 x = C x).
Proof.
  intros H0 Hle. cbn zeta. assert (El : len (name ++ replicate n 0) = len name + Z.of_nat n) by (unfold len; rewrite length_app, length_replicate; lia).
  split.
  - intros k Hk. destruct (Z.lt_ge_cases k (len (name ++ replicate n 0))).
    + rewrite put_list_in by lia. apply nth_pad.
    + rewrite put_list_off by lia. rewrite H0 by done. symmetry. apply nth_overflow. unfold len in *. lia.
  - intros x Hx. apply put_list_off. lia.
Qed.

(** ** The blocks of a file *)

Definition data_blocks (L : Z) : Z := (L + 4095) / 4096.
Definition link_cost (n m : Z) : Z := m + (if (n <=? 10) && (10 <? n + m) then 1 else 0).
Definition file_cost (L : Z) : Z := link_cost 0 (data_blocks L).

Lemma data_blocks_more L : 0 < L → data_blocks L = 1 + data_blocks (Z.max 0 (L - 4096)).
Proof.
  intros HL. unfold data_blocks. destruct (Z.le_gt_cases L 4096).
  - rewrite Z.max_l by lia. change ((0 + 4095) / 4096) with 0. symmetry. apply (Z.div_unique _ _ _ (L - 1)); lia.
  - rewrite Z.max_r by lia. replace (L + 4095) with (L - 4096 + 4095 + 1 * 4096) by lia. rewrite Z.div_add by lia. lia.
Qed.

Lemma data_blocks_nonneg L : 0 ≤ L → 0 ≤ data_blocks L.
Proof. intros HL. apply Z.div_pos; lia. Qed.

Lemma link_cost_more n m : 0 ≤ n → 0 ≤ m →
  link_cost n (1 + m) = (if n =? 10 then 2 else 1) + link_cost (n + 1) m ∧ (if n =? 10 then 2 else 1) ≤ link_cost n (1 + m).
Proof.
  intros Hn Hm. unfold link_cost.
  destruct (Z.leb_spec n 10), (Z.ltb_spec 10 (n + (1 + m))), (Z.leb_spec (n + 1) 10), (Z.ltb_spec 10 (n + 1 + m)), (Z.eqb_spec n 10); cbn [andb]; lia.
Qed.

Definition filled (G G' : gmap Z node) (p : Z) (nd : node) (data : list Z) : Prop :=
  ∃ nd', G' = <[p := nd']> G ∧ nd_name nd' = nd_name nd ∧ nd_type nd' = nd_type nd ∧ nd_size nd' = nd_size nd ∧ nd_data nd' = data.

Lemma read_blocks_ok fuel nb G s p nd rest : image_inv nb (bytes s) G → nextbno s = nb → G !! p = Some nd → nd_type nd = FTYPE_REG →
  (rest = [] ∨ len (nd_data nd) = 4096 * len (nd_blks nd)) → (length rest < fuel)%nat →
  nb + link_cost (len (nd_blks nd)) (data_blocks (len rest)) ≤ NBLOCK →
  ∃ s' G', read_blocks fuel p (len (nd_blks nd)) rest s = Ok tt s' ∧ image_inv (nextbno s') (bytes s') G' ∧
    filled G G' p nd (nd_data nd ++ rest) ∧ nextbno s' = nb + link_cost (len (nd_blks nd)) (data_blocks (len rest)) ∧
    nbitblock s' = nbitblock s.
Proof.
  revert nb G s nd rest. induction fuel as [|fuel IH]; intros nb G s nd rest Hi Hnb Hp Ht Hal Hfu Hroom; [lia|].
  cbn [read_blocks]. destruct (decide (rest = [])) as [->|Hne].
  - rewrite take_nil. exists s, G. split_and!; [done|by rewrite Hnb| | |done].
    + exists nd. rewrite insert_id by done. by rewrite app_nil_r.
    + rewrite Hnb. change (data_blocks (len [])) with 0. unfold link_cost. assert (0 ≤ len (nd_blks nd)) by (unfold len; lia).
      destruct (Z.leb_spec (len (nd_blks nd)) 10), (Z.ltb_spec 10 (len (nd_blks nd) + 0)); cbn [andb]; lia.
  - destruct Hal as [|Hal]; [done|]. set (n := len (nd_blks nd)) in *. assert (0 ≤ n) by (unfold n, len; lia).
    change (Z.to_nat BY2BLK) with 4096%nat. set (chunk := take 4096 rest). set (rest' := drop 4096 rest).
    assert (Hlr : 0 < len rest) by (destruct rest; [done|unfold len; cbn; lia]).
    assert (Hlc : len chunk = Z.min 4096 (len rest)) by (unfold chunk, len; rewrite length_take; lia).
    assert (Hlr' : len rest' = Z.max 0 (len rest - 4096)) by (unfold rest', len; rewrite length_drop; lia).
    rewrite (data_blocks_more (len rest) Hlr), <- Hlr' in *. set (m := data_blocks (len rest')) in *.
    assert (0 ≤ m) by (apply data_blocks_nonneg; lia).
    destruct (link_cost_more n m ltac:(lia) ltac:(lia)) as [Hcost Hle].
    assert (Hroom' : (if len (nd_blks nd) =? 10 then nb + 2 else nb + 1) ≤ NBLOCK) by (fold n; destruct (n =? 10); lia).
    destruct (room nb (bytes s) G p nd Hi Hp Hroom') as (Hr1 & _). pose proof (i_nb _ _ _ Hi).
    assert (Hcne : chunk ≠ []) by (intros E; rewrite E in Hlc; change (len []) with 0 in Hlc; lia).
    assert (Hbody : ∀ k : list Z → M builder unit, (match chunk with [] => ret tt | c :: l => k (c :: l) end) = k chunk) by (by destruct chunk).
    rewrite (Hbody (λ chunk, n0 <- gets nextbno ;; a <- block_data n0 ;; put_bytes a chunk ;; bno <- next_block BLOCK_DATA ;;
      save_block_link p n bno ;; read_blocks fuel p (n + 1) rest')).
    step. rewrite Hnb, (bind_ok _ _ _ _ _ (block_data_ok nb s ltac:(unfold NBLOCK; lia))). step.
    set (C1 := put_list (bytes s) (4096 * nb) chunk). set (s1 := set_bytes C1 s).
    rewrite (bind_ok _ _ _ _ _ (next_block_ok BLOCK_DATA s1 ltac:(cbn [s1 set_bytes nextbno]; unfold NBLOCK; lia))).
    change (nextbno s1) with (nextbno s). rewrite Hnb. set (s2 := set_nextbno (nb + 1) (set_btype nb BLOCK_DATA s1)).
    assert (HC : ∀ x, x / 4096 ≠ nb → C1 x = bytes s x).
    { intros x Hx. apply put_list_off. intros Hy. apply Hx. apply block_pos; lia. }
    destruct (save_block_link_ok nb (bytes s) C1 G p nd Hi Hp Hroom' HC s2 eq_refl eq_refl) as (s3 & E & Hn3 & Hbb & Ha).
    fold n in E. rewrite (bind_ok _ _ _ _ _ E).
    pose proof (i_holds _ _ _ Hi p nd Hp) as Hh. rewrite (h_size _ _ _ Hh) in Ha.
    set (nd1 := with_blk nd (nd_size nd) nb (index_after nd nb) (nd_data nd ++ chunk)).
    assert (Hh1 : holds (bytes s3) p nd1).
    { apply (append_holds nb (bytes s) G p nd Hi Hp Hroom' (bytes s3) _ C1); [done|by rewrite Ht|]. intros _. split; [exact Hal|].
      exists chunk. split_and!; [done|lia|]. intros k Hk. by apply put_list_in. }
    pose proof (append_inv nb (bytes s) G p nd Hi Hp Hroom' (bytes s3) _ _ _ Ha Hh1) as Hi1. fold nd1 in Hi1. fold n in Hi1, Hn3.
    assert (Hlen1 : len (nd_blks nd1) = n + 1) by (unfold nd1; cbn [with_blk nd_blks]; by rewrite len_app).
    rewrite <- Hn3 in Hi1.
    destruct (IH (nextbno s3) (<[p := nd1]> G) s3 nd1 rest' Hi1 eq_refl (lookup_insert_eq _ _ _) Ht) as (s' & G' & E' & Hi' & Hfil & Hn' & Hb').
    + destruct (decide (rest' = [])) as [|Hr']; [by left|right]. rewrite Hlen1. cbn [nd1 with_blk nd_data]. rewrite len_app, Hal.
      assert (4096 < len rest); [|lia]. destruct rest'; [done|]. unfold len in Hlr' |- *. cbn in Hlr'. lia.
    + unfold rest'. rewrite length_drop. unfold len in Hlr. lia.
    + rewrite Hlen1, Hn3. fold m. destruct (n =? 10); lia.
    + rewrite Hlen1 in E', Hn'. exists s', G'. split_and!; [exact E'|exact Hi'| |rewrite Hn', Hn3; fold m; destruct (n =? 10); lia|rewrite Hb'; exact Hbb].
      destruct Hfil as (nd' & -> & N1 & N2 & N3 & N4). exists nd'. rewrite insert_insert_eq. split_and!; try done.
      rewrite N4. cbn [nd1 with_blk nd_data]. rewrite <- app_assoc. unfold chunk, rest'. by rewrite take_drop.
Qed.

(** ** Files *)

Lemma after_slash_plain cur l : Forall (λ c, c ≠ 0 ∧ c ≠ 47) l → after_slash cur l = cur.
Proof. revert cur. induction l as [|c l IH]; intros cur; [done|]. intros [[_ Hc] Hl]%Forall_cons. cbn. rewrite (proj2 (Z.eqb_neq c 47) Hc). by apply IH. Qed.

Lemma file_name_last path name : Forall (λ c, c ≠ 0 ∧ c ≠ 47) name → file_name (path ++ [47] ++ name) = name.
Proof.
  intros Hn. unfold file_name. generalize (path ++ [47] ++ name) at 1. induction path as [|c path IH]; intros cur; cbn.
  - by apply after_slash_plain.
  - destruct (c =? 47); apply IH.
Qed.

Lemma write_file_ok nb G s f fd path data : image_inv nb (bytes s) G → nextbno s = nb → G !! f = Some fd → nd_type fd = FTYPE_DIR →
  snug fd (len (nd_kids fd)) → good_name (file_name path) →
  nb + slot_cost (len (nd_kids fd)) + file_cost (len data) ≤ NBLOCK →
  ∃ s' G' p nd, write_file f path data s = Ok tt s' ∧ image_inv (nextbno s') (bytes s') G' ∧ added G G' f p fd ∧
    G' !! p = Some nd ∧ nd_name nd = file_name path ∧ nd_type nd = FTYPE_REG ∧ nd_size nd = len data ∧ nd_data nd = data ∧
    nextbno s' = nb + slot_cost (len (nd_kids fd)) + file_cost (len data) ∧ nbitblock s' = nbitblock s.
Proof.
  intros Hi Hnb Hf Ht Hsn Hg Hroom. set (n := len (nd_kids fd)) in *. unfold write_file.
  assert (Hc0 : 0 ≤ file_cost (len data)).
  { unfold file_cost, link_cost. pose proof (data_blocks_nonneg (len data) ltac:(unfold len; lia)). destruct (_ && _); lia. }
  destruct (create_file_ok nb G s f fd Hi Hnb Hf Ht Hsn ltac:(fold n; lia)) as (s1 & fd' & E1 & Hk' & Hnm' & Ht' & Hsn' & Hlt & Hi1 & Hn1 & Hb1).
  fold n in E1, Hsn', Hlt, Hn1. rewrite (bind_ok _ _ _ _ _ E1). set (p := slot (nd_blks fd') n) in *. step. step. step.
  cbn [bytes set_bytes]. change (f_name p) with p. set (name := file_name path) in *.
  assert (Hsz : 0 ≤ len data < 2 ^ 32).
  { unfold file_cost, link_cost, data_blocks in Hroom. pose proof (i_nb _ _ _ Hi). unfold NBLOCK in Hroom.
    assert (0 ≤ slot_cost n) by (unfold slot_cost; destruct (_ =? _); [destruct (_ =? _)|]; lia).
    pose proof (Z.div_mod (len data + 4095) 4096). pose proof (Z.mod_pos_bound (len data + 4095) 4096).
    change (2 ^ 32) with 4294967296. assert (0 ≤ len data) by (unfold len; lia). destruct (_ && _); lia. }
  rewrite (u32_small (Z.of_nat (length data))) by exact Hsz. fold (len data). change (u32 FTYPE_REG) with 0.
  set (C1 := put_list (bytes s1) p (name ++ [0])). set (C2 := put_word (put_word C1 (f_size p) (len data)) (f_type p) 0).
  assert (Hf1 : <[f := fd']> G !! f = Some fd') by apply lookup_insert_eq.
  assert (Hzero : ∀ k, 0 ≤ k < 256 → bytes s1 (p + k) = 0).
  { intros k Hk. unfold p, n. rewrite <- Hk'. apply (free_zero (nextbno s1) (bytes s1) (<[f := fd']> G) f fd'); [done|done|done|by rewrite Hk'|done]. }
  pose proof Hg as (Hne & Hlen & Hchars).
  destruct (named_entry (bytes s1) p name 1 Hzero ltac:(lia)) as [Hname Hoff]. change (replicate 1 0) with [0] in Hname, Hoff. fold C1 in Hname, Hoff.
  assert (HC2 : ∀ x, ¬ p + 128 ≤ x < p + 136 → C2 x = C1 x).
  { intros x Hx. unfold C2, f_size, f_type. rewrite !put_word_off by lia. done. }
  assert (Hh : holds C2 p (Node name FTYPE_REG (len data) [] 0 [] [])).
  { apply holds_fresh; [done| | | | |by left].
    - intros k Hk. rewrite HC2 by lia. apply Hname. lia.
    - unfold fsize, C2, f_size, f_type. rewrite le32_off by lia. by apply le32_put.
    - unfold ftype, C2, f_type. by apply le32_put.
    - intros k Hk. rewrite HC2, Hname by lia. apply nth_overflow. unfold len in Hlen. lia. }
  assert (HC : ∀ x, ¬ p ≤ x < p + 256 → C2 x = bytes s1 x) by (intros x Hx; rewrite HC2 by lia; by apply Hoff).
  destruct (new_entry (nextbno s1) (bytes s1) C2 G f fd fd' _ Hi1 Hf Hk' Hnm' Ht' Hsn' Hlt HC Hh eq_refl eq_refl) as (G1 & Hi2 & Hp1 & Had).
  fold n p in Hp1, Had.
  destruct (read_blocks_ok (S (length data)) (nextbno s1) G1 (set_bytes C2 s1) p _ data Hi2 eq_refl Hp1 eq_refl) as (s' & G' & E & Hi' & Hfil & Hn' & Hb');
    [by right|lia|rewrite Hn1; exact Hroom|].
  destruct Hfil as (nd' & -> & N1 & N2 & N3 & N4). exists s', (<[p := nd']> G1), p, nd'.
  split_and!; [exact E|exact Hi'| |apply lookup_insert_eq|done|done|done|done|rewrite Hn', Hn1; done|rewrite Hb'; exact Hb1].
  destruct Had as [A1 (fd2 & A2 & A3) A4]. assert (p ≠ f) by congruence. split; [done| |].
  - exists fd2. by rewrite lookup_insert_ne.
  - intros q x Hq Hqx. rewrite lookup_insert_ne; [by apply A4|]. intros ->. congruence.
Qed.

(** * Trees of the host *)

Lemma host_nested_ind (P : host → Prop) :
  (∀ data, P (HFile data)) → (∀ ents, Forall (λ e, P e.2) ents → P (HDir ents)) → ∀ h, P h.
Proof.
  intros Hfile Hdir. fix IH 1. intros [data|ents]; [apply Hfile|]. apply Hdir.
  induction ents as [|[name e] ents IHe]; constructor; [apply IH|exact IHe].
Qed.

(** Names that fit the disk *)
Fixpoint valid (h : host) : Prop :=
  match h with
  | HFile _ => True
  | HDir ents =>
      (fix go l := match l with
                   | [] => True
                   | (name, e) :: l' => (dots name = true ∨ good_name name ∧ valid e) ∧ go l'
                   end) ents
  end.

(** Blocks needed *)
Fixpoint cost (h : host) : Z :=
  match h with
  | HFile data => file_cost (len data)
  | HDir ents =>
      (fix go n l := match l with
                     | [] => 0
                     | (name, e) :: l' => if dots name then go n l' else slot_cost n + cost e + go (n + 1) l'
                     end) 0 ents
  end.
Definition ents_valid : list (list Z * host) → Prop :=
  fix go l := match l with [] => True | (name, e) :: l' => (dots name = true ∨ good_name name ∧ valid e) ∧ go l' end.
Definition ents_cost : Z → list (list Z * host) → Z :=
  fix go n l := match l with [] => 0 | (name, e) :: l' => if dots name then go n l' else slot_cost n + cost e + go (n + 1) l' end.

(** The tree [h] is at entry [p] of the image. *)
Fixpoint stored (G : gmap Z node) (h : host) (p : Z) : Prop :=
  match h with
  | HFile data => ∃ nd, G !! p = Some nd ∧ nd_type nd = FTYPE_REG ∧ nd_size nd = len data ∧ nd_data nd = data
  | HDir ents => ∃ nd, G !! p = Some nd ∧ nd_type nd = FTYPE_DIR ∧
      (fix go l ks := match l, ks with
                      | [], [] => True
                      | [], _ :: _ => False
                      | (name, e) :: l', _ =>
                          if dots name then go l' ks
                          else match ks with
                               | k :: ks' => (∃ nk, G !! k = Some nk ∧ nd_name nk = name) ∧ stored G e k ∧ go l' ks'
                               | [] => False
                               end
                      end) ents (nd_kids nd)
  end.
Definition ents_stored (G : gmap Z node) : list (list Z * host) → list Z → Prop :=
  fix go l ks := match l, ks with
                 | [], [] => True
                 | [], _ :: _ => False
                 | (name, e) :: l', _ =>
                     if dots name then go l' ks
                     else match ks with
                          | k :: ks' => (∃ nk, G !! k = Some nk ∧ nd_name nk = name) ∧ stored G e k ∧ go l' ks'
                          | [] => False
                          end
                 end.

Lemma stored_mono G1 G2 h p : G1 ⊆ G2 → stored G1 h p → stored G2 h p.
Proof.
  intros Hsub. revert p. induction h as [data|ents IH] using host_nested_ind; intros p.
  - intros (nd & Hp & Hr). exists nd. split; [by eapply lookup_weaken|done].
  - intros (nd & Hp & Ht & Hs). exists nd. split_and!; [by eapply lookup_weaken|done|]. change (ents_stored G2 ents (nd_kids nd)).
    change (ents_stored G1 ents (nd_kids nd)) in Hs. clear Hp. revert Hs. generalize (nd_kids nd).
    induction IH as [|[name e] ents He _ IHe]; intros ks; [by destruct ks|]. cbn. destruct (dots name); [apply IHe|].
    destruct ks as [|k ks]; [done|]. intros ((nk & Hk & Hn) & Hs & Hr). split_and!; [|by apply He|by apply IHe].
    exists nk. split; [by eapply lookup_weaken|done].
Qed.

Lemma ents_stored_mono G1 G2 l ks : G1 ⊆ G2 → ents_stored G1 l ks → ents_stored G2 l ks.
Proof.
  intros Hsub. revert ks. induction l as [|[name e] l IH]; intros ks; [by destruct ks|]. cbn. destruct (dots name); [apply IH|].
  destruct ks as [|k ks]; [done|]. intros ((nk & Hk & Hn) & Hs & Hr). split_and!; [|by eapply stored_mono|by apply IH].
  exists nk. split; [by eapply lookup_weaken|done].
Qed.

Lemma cost_nonneg h : 0 ≤ cost h.
Proof.
  induction h as [data|ents IH] using host_nested_ind; cbn [cost].
  - unfold file_cost, link_cost. pose proof (data_blocks_nonneg (len data) ltac:(unfold len; lia)). destruct (_ && _); lia.
  - change (0 ≤ ents_cost 0 ents). assert (H : ∀ n, 0 ≤ ents_cost n ents); [|apply H].
    induction IH as [|[name e] ents He _ IHe]; intros n; cbn; [lia|]. cbn in He. pose proof (IHe n). pose proof (IHe (n + 1)).
    destruct (dots name); [done|]. unfold slot_cost. destruct (_ =? 0); [destruct (n =? 160)|]; lia.
Qed.

Lemma ents_cost_nonneg n l : 0 ≤ ents_cost n l.
Proof.
  revert n. induction l as [|[name e] l IH]; intros n; cbn; [lia|]. pose proof (IH n). pose proof (IH (n + 1)). pose proof (cost_nonneg e).
  destruct (dots name); [done|]. unfold slot_cost. destruct (_ =? 0); [destruct (n =? 160)|]; lia.
Qed.

Definition name_of (path : list Z) (h : host) : list Z := match h with HFile _ => file_name path | HDir _ => basename path end.

Lemma name_of_entry path name e : good_name name → name_of (path ++ [47] ++ name) e = name.
Proof.
  intros (Hne & _ & Hc). destruct e as [data|ents]; cbn [name_of]; [by apply file_name_last|]. unfold basename.
  assert (E : drop_slashes (rev (path ++ [47] ++ name)) = rev (path ++ [47] ++ name)).
  { rewrite app_assoc, rev_app_distr. destruct (rev name) as [|c l] eqn:Er.
    - apply (f_equal (@rev Z)) in Er. rewrite rev_involutive in Er. done.
    - cbn. assert (c ≠ 47) as Hc47; [|by rewrite (proj2 (Z.eqb_neq c 47) Hc47)].
      rewrite Forall_forall in Hc. apply Hc. apply list_elem_of_In. apply in_rev. rewrite Er. by left. }
  rewrite E, rev_involutive. destruct (path ++ [47] ++ name) as [|c l] eqn:Ep.
  - by destruct path.
  - rewrite <- Ep. by apply file_name_last.
Qed.

(** The entries of a directory, each with the path it is read from *)
Definition item : Type := list Z * (list Z * host).
Definition run_items (p : Z) (l : list item) : M builder unit :=
  for_each l (λ '(path, (name, e)), if dots name then ret tt else write_directory p path e).
Definition ents_of (l : list item) : list (list Z * host) := map snd l.

(** What writing [h] under [f] does *)
Definition written_at (nb : Z) (G : gmap Z node) (s : builder) (f : Z) (fd : node) (path : list Z) (h : host) : Prop :=
  ∃ s' G' p nd, write_directory f path h s = Ok tt s' ∧ image_inv (nextbno s') (bytes s') G' ∧ added G G' f p fd ∧
    G' !! p = Some nd ∧ nd_name nd = name_of path h ∧ stored (G' ∖ G) h p ∧
    nextbno s' = nb + slot_cost (len (nd_kids fd)) + cost h ∧ nbitblock s' = nbitblock s.

Definition writes (h : host) : Prop := ∀ nb G s f fd path, valid h → image_inv nb (bytes s) G → nextbno s = nb →
  G !! f = Some fd → nd_type fd = FTYPE_DIR → snug fd (len (nd_kids fd)) → good_name (name_of path h) →
  nb + slot_cost (len (nd_kids fd)) + cost h ≤ NBLOCK → written_at nb G s f fd path h.

Lemma added_dom G G' f p fd q : added G G' f p fd → is_Some (G !! q) → is_Some (G' !! q).
Proof.
  intros [_ (fd' & Hf & _) Ho] [x Hx]. destruct (decide (q = f)) as [->|]; [eauto|]. exists x. by apply Ho.
Qed.

Lemma difference_some (G G' : gmap Z node) q x : G' !! q = Some x → G !! q = None → (G' ∖ G) !! q = Some x.
Proof. intros Hx Hn. by apply lookup_difference_Some. Qed.

Lemma run_items_ok l : Forall (λ i : item, writes i.2.2) l → ∀ nb G s p pd, ents_valid (ents_of l) →
  Forall (λ '(path, (name, e)), dots name = true ∨ name_of path e = name) l →
  image_inv nb (bytes s) G → nextbno s = nb → G !! p = Some pd → nd_type pd = FTYPE_DIR → snug pd (len (nd_kids pd)) →
  nb + ents_cost (len (nd_kids pd)) (ents_of l) ≤ NBLOCK →
  ∃ s' G' pd' ks, run_items p l s = Ok tt s' ∧ image_inv (nextbno s') (bytes s') G' ∧
    G' !! p = Some pd' ∧ nd_name pd' = nd_name pd ∧ nd_type pd' = FTYPE_DIR ∧ nd_kids pd' = nd_kids pd ++ ks ∧
    ents_stored (G' ∖ G) (ents_of l) ks ∧ (∀ q x, q ≠ p → G !! q = Some x → G' !! q = Some x) ∧
    nextbno s' = nb + ents_cost (len (nd_kids pd)) (ents_of l) ∧ nbitblock s' = nbitblock s.
Proof.
  induction 1 as [|[path [name e]] l He Hl IH]; intros nb G s p pd Hv Hnames Hi Hnb Hp Ht Hsn Hroom; unfold run_items; cbn [for_each];
    [change (ents_of []) with (@nil (list Z * host)) in *|change (ents_of ((path, (name, e)) :: l)) with ((name, e) :: ents_of l) in *].
  - exists s, G, pd, []. cbn [ents_cost ents_stored]. rewrite app_nil_r, Hnb. split_and!; try done. lia.
  - destruct Hv as [Hve Hv]. apply Forall_cons in Hnames as [Hname Hnames]. cbn [ents_cost] in Hroom |- *. cbn [ents_stored]. destruct (dots name) eqn:Ed.
    + rewrite bind_ret. by apply IH.
    + destruct Hve as [|[Hg Hve]]; [done|]. destruct Hname as [|Hname]; [done|].
      pose proof (ents_cost_nonneg (len (nd_kids pd) + 1) (ents_of l)) as Hc0.
      destruct (He nb G s p pd path Hve Hi Hnb Hp Ht Hsn) as (s1 & G1 & k & nk & E1 & Hi1 & Had & Hk & Hkn & Hst & Hn1 & Hb1);
        [cbn [snd]; by rewrite Hname|cbn [snd]; lia|]. cbn [snd] in E1, Hst, Hn1, Hkn. rewrite Hname in Hkn.
      pose proof (added_dom G G1 p k pd) as Hdom. pose proof Had as [Hnew (pd1 & Hp1 & Hnm1 & Ht1 & Hk1 & Hsn1) Hold].
      assert (Hl1 : len (nd_kids pd1) = len (nd_kids pd) + 1) by (rewrite Hk1; apply len_app).
      rewrite <- Hl1 in Hsn1. rewrite (bind_ok _ _ _ _ _ E1).
      destruct (IH (nextbno s1) G1 s1 p pd1 Hv Hnames Hi1 eq_refl Hp1 Ht1 Hsn1) as (s2 & G2 & pd2 & ks & E2 & Hi2 & Hp2 & Hnm2 & Ht2 & Hk2 & Hst2 & Hold2 & Hn2 & Hb2);
        [rewrite Hn1, Hl1; lia|].
      assert (Hkp : k ≠ p) by congruence.
      exists s2, G2, pd2, (k :: ks). do 5 (split; [first [done|congruence]|]). split; [|split; [|split; [|split; [|congruence]]]].
      * rewrite Hk2, Hk1, <- app_assoc. done.
      * split_and!.
        -- exists nk. split; [|done]. apply difference_some; [by apply Hold2|done].
        -- eapply stored_mono; [|exact Hst]. apply map_subseteq_spec. intros q x [Hq Hn]%lookup_difference_Some.
           apply difference_some; [|done]. apply Hold2; [|done]. intros ->. congruence.
        -- eapply ents_stored_mono; [|exact Hst2]. apply map_subseteq_spec. intros q x [Hq Hn]%lookup_difference_Some.
           apply difference_some; [done|]. destruct (G !! q) as [y|] eqn:Ey; [|done].
           destruct (Hdom q Had ltac:(eauto)) as [z Hz]. congruence.
      * intros q x Hq Hx. apply Hold2; [done|]. by apply Hold.
      * rewrite Hn2, Hn1, Hl1. lia.
Qed.

(** The loop of [write_directory] *)
Definition items (path : list Z) (ents : list (list Z * host)) : list item :=
  map (λ '(name, e), (path ++ [47] ++ name, (name, e))) ents.

Lemma ents_of_items path ents : ents_of (items path ents) = ents.
Proof. induction ents as [|[name e] ents IH]; cbn; [done|]. by f_equal. Qed.

Lemma items_forall path ents : Forall (λ e, writes e.2) ents → Forall (λ i : item, writes i.2.2) (items path ents).
Proof. induction 1 as [|[name e] ents He _ IH]; constructor; done. Qed.

Lemma items_names path ents : ents_valid ents → Forall (λ '(p, (name, e)), dots name = true ∨ name_of p e = name) (items path ents).
Proof.
  induction ents as [|[name e] ents IH]; [constructor|]. intros [[Hd|[Hg _]] Hv]; constructor; auto.
  right. by apply name_of_entry.
Qed.

Lemma run_items_entries p path ents s : run_items p (items path ents) s =
  (fix loop ents := match ents with
                    | [] => ret tt
                    | (name, e) :: ents' =>
                        (if dots name then ret tt else write_directory p (path ++ [47] ++ name) e) ;; loop ents'
                    end) ents s.
Proof.
  revert s. induction ents as [|[name e] ents IH]; intros s; [done|]. unfold run_items. cbn [items map for_each].
  unfold bind at 1 2. destruct ((if dots name then ret tt else write_directory p (path ++ [47] ++ name) e) s) as [[] s1| | | |]; [|done..].
  apply IH.
Qed.

Lemma write_directory_ok h : writes h.
Proof.
  induction h as [data|ents IH] using host_nested_ind; intros nb G s f fd path Hv Hi Hnb Hf Ht Hsn Hg Hroom.
  - destruct (write_file_ok nb G s f fd path data Hi Hnb Hf Ht Hsn Hg Hroom) as (s' & G' & p & nd & E & Hi' & Had & Hp & Hn & Hty & Hsz & Hd & Hnb' & Hb).
    exists s', G', p, nd. split_and!; [exact E|done|done|done|done| |exact Hnb'|exact Hb]. exists nd. split_and!; [|done..].
    apply difference_some; [done|apply Had].
  - set (n := len (nd_kids fd)) in *. cbn [cost] in Hroom. fold (ents_cost 0 ents) in Hroom. change (ents_valid ents) in Hv.
    pose proof (ents_cost_nonneg 0 ents). cbn [name_of] in Hg. unfold written_at. cbn [write_directory].
    destruct (create_file_ok nb G s f fd Hi Hnb Hf Ht Hsn ltac:(fold n; lia)) as (s1 & fd' & E1 & Hk' & Hnm' & Ht' & Hsn' & Hlt & Hi1 & Hn1 & Hb1).
    fold n in E1, Hsn', Hlt, Hn1. set (p := slot (nd_blks fd') n) in *. set (name := basename path) in *.
    pose proof Hg as (Hne & Hlen & Hchars).
    assert (Hf1 : <[f := fd']> G !! f = Some fd') by apply lookup_insert_eq.
    assert (Hzero : ∀ k, 0 ≤ k < 256 → bytes s1 (p + k) = 0).
    { intros k Hk. unfold p, n. rewrite <- Hk'. apply (free_zero (nextbno s1) (bytes s1) (<[f := fd']> G) f fd'); [done|done|done|by rewrite Hk'|done]. }
    destruct (named_entry (bytes s1) p name (127 - length name) Hzero ltac:(unfold len in *; lia)) as [Hname Hoff].
    set (C1 := put_list (bytes s1) p (name ++ replicate (127 - length name) 0)) in *.
    assert (Hcut : take (Z.to_nat (MAXNAMELEN - 1)) name = name) by (apply take_ge; change (Z.to_nat (MAXNAMELEN - 1)) with 127%nat; unfold len in Hlen; lia).
    set (s2 := set_bytes C1 s1). set (C2 := put_word C1 (f_type p) 1). set (s3 := set_bytes C2 s2).
    assert (HC2 : ∀ x, ¬ p + 132 ≤ x < p + 136 → C2 x = C1 x) by (intros x Hx; apply put_word_off; unfold f_type; lia).
    assert (H0 : ∀ k, 128 ≤ k < 256 → C1 (p + k) = 0).
    { intros k Hk. rewrite Hname by lia. apply nth_overflow. unfold len in Hlen. lia. }
    assert (Hh : holds C2 p (Node name FTYPE_DIR 0 [] 0 [] [])).
    { apply holds_fresh; [done| | | | |by right].
      - intros k Hk. rewrite HC2 by lia. apply Hname. lia.
      - unfold fsize, le32. rewrite <- !Z.add_assoc, !HC2, !H0 by lia. done.
      - unfold ftype, C2, f_type. by apply le32_put.
      - intros k Hk. rewrite HC2 by lia. apply H0. lia. }
    assert (HC : ∀ x, ¬ p ≤ x < p + 256 → C2 x = bytes s1 x) by (intros x Hx; rewrite HC2 by lia; by apply Hoff).
    destruct (new_entry (nextbno s1) (bytes s1) C2 G f fd fd' _ Hi1 Hf Hk' Hnm' Ht' Hsn' Hlt HC Hh eq_refl eq_refl) as (G1 & Hi3 & Hp1 & Had).
    fold n p in Hp1, Had.
    destruct (run_items_ok (items path ents) ltac:(by apply items_forall) (nextbno s1) G1 s3 p _ ltac:(by rewrite ents_of_items)
      ltac:(by apply items_names) Hi3 eq_refl Hp1 eq_refl eq_refl) as
      (s' & G' & pd & ks & E & Hi' & Hp' & Hnm & Htp & Hks & Hst & Hold & Hn' & Hb'); [cbn [nd_kids]; rewrite Hn1, ents_of_items; change (len []) with 0; lia|].
    rewrite ents_of_items in Hst, Hn'. rewrite run_items_entries in E.
    pose proof Had as [Hnew (fd2 & Hf2 & Hnm2 & Ht2 & Hk2 & Hsn2) Hold1]. assert (Hpf : f ≠ p) by congruence.
    exists s', G', p, pd. split_and!; [| exact Hi'| |exact Hp'|exact Hnm| | |rewrite Hb'; exact Hb1].
    + rewrite (bind_ok _ _ _ _ _ E1). unfold strncpy. rewrite Hcut. change (Z.to_nat (MAXNAMELEN - 1)) with 127%nat. step. step.
      change (f_name p + (MAXNAMELEN - 1)) with (p + 127). fold C1. rewrite Hname, nth_overflow by (unfold len in Hlen; lia).
      rewrite Z.eqb_refl. cbn [negb]. exact E.
    + split; [done| |].
      * exists fd2. by split_and!; [apply Hold|..].
      * intros q x Hq Hx. apply Hold; [|by apply Hold1]. congruence.
    + exists pd. split_and!; [by apply difference_some|done|]. change (ents_stored (G' ∖ G) ents (nd_kids pd)). rewrite Hks.
      eapply ents_stored_mono; [|exact Hst]. apply map_subseteq_spec. intros q x [Hq Hn]%lookup_difference_Some.
      apply difference_some; [done|]. destruct (G !! q) as [y|] eqn:Ey; [|done].
      destruct (added_dom G G1 f p fd q Had ltac:(eauto)) as [z Hz]. congruence.
    + rewrite Hn', Hn1. reflexivity.
Qed.
