(* ===== verification/ImageProps.v ===== *)
(** The finished disk image of tools/fsformat.c as the file server sees it: a
    well-formed tree of directories with the files of the host. *)
From S2P Require Import Prelude Mmu Memory Strings StringsProps PmapSpec Uenv Fs IdeProps CacheProps FsProps PathProps Fsformat FsformatInv FsformatProps.

(** * The empty disk *)

Lemma init_disk_ok : ∃ s, init_disk start = Ok tt s ∧ bytes s = blank ∧ nextbno s = 3 ∧ nbitblock s = 1.
Proof. eexists. split; [reflexivity|]. split_and!; reflexivity. Qed.

Lemma blank_low x : 12288 ≤ x < SUPER → blank x = 0.
Proof.
  intros Hx. change SUPER with 4194304 in Hx. unfold blank. change SUPER with 4194304. rewrite put_list_off by (change (len [47; 0]) with 2; lia).
  rewrite !put_word_off by lia. unfold fill_bytes. by rewrite !decide_False by lia.
Qed.

Definition empty_root : node := Node [47] FTYPE_DIR 0 [] 0 [] [].

Lemma blank_inv : image_inv 3 blank {[ROOTDIR := empty_root]}.
Proof.
  assert (Hcase : ∀ p nd, ({[ROOTDIR := empty_root]} : gmap Z node) !! p = Some nd → p = ROOTDIR ∧ nd = empty_root).
  { intros p nd [<- <-]%lookup_singleton_Some. done. }
  split.
  - unfold NBLOCK. lia.
  - intros x Hx. apply blank_low. lia.
  - done.
  - intros p nd [-> ->]%Hcase. split; cbn [empty_root nd_name nd_type nd_size nd_blks nd_ind nd_kids nd_data];
      first [done|change (len []) with 0; lia].
  - intros p nd b [-> ->]%Hcase Hb. cbn in Hb. set_solver.
  - intros p q nd nq b [-> ->]%Hcase [-> ->]%Hcase. done.
  - intros p nd [-> ->]%Hcase. apply NoDup_nil_2.
  - intros p nd [-> ->]%Hcase. by left.
  - intros d fd k p [-> ->]%Hcase Hk. done.
  - exists empty_root. split; [apply lookup_singleton_eq|done].
Qed.

(** * The bitmap and the superblock *)

Lemma flush_step i s : 0 ≤ i < NBLOCK →
  (a <- block_data (2 + i / BIT2BLK) ;;
   w <- getw (a + 4 * (i mod BIT2BLK / 32)) ;;
   putw (a + 4 * (i mod BIT2BLK / 32)) (Z.land w (not32 (Z.shiftl 1 (i mod 32))))) s = Ok tt (set_bytes (taken (bytes s) i) s).
Proof.
  unfold NBLOCK. intros Hi. change BIT2BLK with 32768. rewrite (Z.div_small i 32768), (Z.mod_small i 32768) by lia.
  rewrite (bind_ok _ _ _ _ _ (block_data_ok (2 + 0) s ltac:(unfold NBLOCK; lia))). step.
  change (4096 * (2 + 0) + 4 * (i / 32)) with (word_x i). unfold putw, modify. do 2 f_equal.
  unfold taken, word_of, bit_of, word_x. rewrite u32_small; [done|]. apply (taken_bound (bytes s) i).
Qed.

Lemma flush_bitmap_ok s : 0 ≤ nextbno s ≤ NBLOCK →
  ∃ s', flush_bitmap s = Ok tt s' ∧ bytes s' = fold_left taken (seqZ 0 (nextbno s)) (bytes s).
Proof.
  intros Hn. unfold flush_bitmap. rewrite (bind_ok (gets nextbno) _ _ _ _ eq_refl).
  assert (Hl : Forall (λ i, 0 ≤ i < NBLOCK) (seqZ 0 (nextbno s))).
  { apply Forall_forall. intros i Hi. apply elem_of_seqZ in Hi. lia. }
  revert Hl. generalize (seqZ 0 (nextbno s)) as l. clear Hn. intros l Hl. revert s.
  induction Hl as [|i l Hi _ IH]; intros s; [by exists s|]. cbn [for_each fold_left].
  rewrite (bind_ok _ _ _ _ _ (flush_step i s Hi)). destruct (IH (set_bytes (taken (bytes s) i) s)) as (s' & E & Hb).
  by exists s'.
Qed.

Lemma taken_off C n x : ¬ word_x n ≤ x < word_x n + 4 → taken C n x = C x.
Proof. intros Hx. unfold taken. by apply put_word_off. Qed.

Lemma flushed_off l C x : Forall (λ i, 0 ≤ i < NBLOCK) l → ¬ 8192 ≤ x < 12288 → fold_left taken l C x = C x.
Proof.
  intros Hl Hx. revert C. induction Hl as [|i l Hi _ IH]; intros C; [done|]. cbn. rewrite IH. apply taken_off. unfold NBLOCK in Hi.
  unfold word_x. pose proof (Z.div_mod i 32). pose proof (Z.mod_pos_bound i 32). lia.
Qed.

Lemma flushed_free l C m : Forall (λ i, 0 ≤ i < NBLOCK) l → 0 ≤ m →
  free_of (fold_left taken l C) m = free_of C m && negb (bool_decide (m ∈ l)).
Proof.
  intros Hl Hm. revert C. induction Hl as [|i l Hi _ IH]; intros C; cbn [fold_left].
  - rewrite bool_decide_eq_false_2 by set_solver. by rewrite andb_true_r.
  - rewrite IH, free_taken by lia. rewrite <- andb_assoc. f_equal. rewrite <- negb_orb. f_equal.
    destruct (Z.eqb_spec m i) as [->|Hne]; cbn; [symmetry; apply bool_decide_eq_true; set_solver|].
    apply bool_decide_ext. set_solver.
Qed.

Lemma blank_free m : 0 ≤ m < NBLOCK → free_of blank m = true.
Proof.
  unfold NBLOCK. intros Hm. rewrite free_testbit.
  assert (word_of blank m = 2 ^ 32 - 1) as ->.
  { unfold word_of. assert (Hx : ∀ j, 0 ≤ j < 4 → blank (8192 + 4 * (m / 32) + j) = 255).
    { intros j Hj. pose proof (Z.div_mod m 32). pose proof (Z.mod_pos_bound m 32). unfold blank. change SUPER with 4194304.
      rewrite put_list_off by (change (len [47; 0]) with 2; lia). rewrite !put_word_off by lia. unfold fill_bytes.
      by rewrite decide_False, decide_True by lia. }
    unfold le32. pose proof (Hx 0 ltac:(lia)) as E0. rewrite Z.add_0_r in E0. by rewrite E0, !Hx by lia. }
  apply Z.ones_spec_low || (change (2 ^ 32 - 1) with (Z.ones 32); apply Z.ones_spec_low; pose proof (mod32 m); lia).
Qed.

(** * The image *)

Definition image_of (nb : Z) (C : Z → Z) : Z → Z :=
  let F := fold_left taken (seqZ 0 nb) C in
  λ x, if decide (0 ≤ x < BY2BLK * 1024) then move_bytes F 4096 SUPER (8 + BY2FILE) x else 0.

(** Entries of the image: the root's is in the superblock. *)
Definition at_image (p : Z) : Z := if decide (p = ROOTDIR) then ROOT else p.

Section image.
Context (nb : Z) (C : Z → Z) (G : gmap Z node) (Hi : image_inv nb C G).
Let I := image_of nb C.

Lemma blocks_valid : Forall (λ i, 0 ≤ i < NBLOCK) (seqZ 0 nb).
Proof using Hi. apply Forall_forall. intros i Hx. apply elem_of_seqZ in Hx. pose proof (i_nb _ _ _ Hi). lia. Qed.

Lemma image_files x : 12288 ≤ x < SUPER → I x = C x.
Proof using Hi.
  intros Hx. change SUPER with 4194304 in Hx. unfold I, image_of. rewrite decide_True by (unfold BY2BLK, BY2PG; lia).
  unfold move_bytes. rewrite decide_False by (unfold BY2FILE; lia). apply flushed_off; [apply blocks_valid|lia].
Qed.

Lemma image_super j : 0 ≤ j < 264 → I (4096 + j) = C (SUPER + j).
Proof using Hi.
  intros Hj. unfold I, image_of. rewrite decide_True by (unfold BY2BLK, BY2PG; lia).
  unfold move_bytes. rewrite decide_True by (unfold BY2FILE; lia). replace (4096 + j - 4096) with j by lia.
  apply flushed_off; [apply blocks_valid|]. change SUPER with 4194304. lia.
Qed.

Lemma super_word k : 0 ≤ k → k + 4 ≤ 264 → le32 I (4096 + k) = le32 C (SUPER + k).
Proof using Hi. intros H0 H1. unfold le32. by rewrite <- !Z.add_assoc, !image_super by lia. Qed.

Lemma image_nblocks : nblocks_of I = 1024.
Proof using Hi.
  unfold nblocks_of. rewrite super_word by lia. transitivity (le32 blank (SUPER + 4)); [|reflexivity].
  apply le32_ext. intros j Hj. apply (i_meta _ _ _ Hi). right. lia.
Qed.

Lemma image_magic : le32 I 4096 = FS_MAGIC.
Proof using Hi.
  transitivity (le32 C SUPER); [exact (super_word 0 ltac:(lia) ltac:(lia))|]. transitivity (le32 blank SUPER); [|reflexivity].
  apply le32_ext. intros j Hj. apply (i_meta _ _ _ Hi). right. lia.
Qed.

Lemma image_meta : meta_end I = 3.
Proof using Hi. unfold meta_end. by rewrite image_nblocks. Qed.

Lemma image_sane : sane I.
Proof using Hi. unfold sane. rewrite image_meta, image_nblocks. change NBLOCKS with 262144. lia. Qed.

(** Free are the blocks behind the last one in use. *)
Lemma image_free m : 0 ≤ m < NBLOCK → free_of I m = negb (m <? nb).
Proof using Hi.
  intros Hm. unfold NBLOCK in Hm. transitivity (free_of (fold_left taken (seqZ 0 nb) C) m).
  - unfold free_of, word_of. f_equal. apply le32_ext. intros j Hj. pose proof (Z.div_mod m 32). pose proof (Z.mod_pos_bound m 32).
    unfold I, image_of. rewrite decide_True by (unfold BY2BLK, BY2PG; lia). unfold move_bytes. rewrite decide_False; [done|].
    unfold BY2FILE. lia.
  - rewrite flushed_free by (apply blocks_valid || lia). transitivity (free_of blank m && negb (bool_decide (m ∈ seqZ 0 nb))).
    + f_equal. unfold free_of, word_of. f_equal. apply le32_ext. intros j Hj. apply (i_meta _ _ _ Hi). left.
      pose proof (Z.div_mod m 32). pose proof (Z.mod_pos_bound m 32). lia.
    + rewrite blank_free by (unfold NBLOCK; lia). cbn [andb]. f_equal.
      destruct (Z.ltb_spec m nb); [apply bool_decide_eq_true_2|apply bool_decide_eq_false_2]; rewrite elem_of_seqZ; lia.
Qed.

Lemma own_in_use p nd b : G !! p = Some nd → b ∈ own nd → in_use I b.
Proof using Hi.
  intros Hp Hb. pose proof (i_own _ _ _ Hi p nd b Hp Hb). pose proof (i_nb _ _ _ Hi). unfold in_use. rewrite image_meta, image_nblocks.
  unfold NBLOCK in *. split; [lia|]. rewrite image_free by (unfold NBLOCK; lia). by rewrite (proj2 (Z.ltb_lt b nb)) by lia.
Qed.

(** ** Its files *)

Lemma block_range b x : 3 ≤ b < nb → x / 4096 = b → 12288 ≤ x < SUPER.
Proof using Hi.
  intros Hb E. pose proof (i_nb _ _ _ Hi). unfold NBLOCK in *. pose proof (Z.div_mod x 4096). pose proof (Z.mod_pos_bound x 4096).
  change SUPER with 4194304. lia.
Qed.

Lemma image_holds p nd : G !! p = Some nd → holds I (at_image p) nd.
Proof using Hi.
  intros Hp. pose proof (i_nb _ _ _ Hi) as Hnb. unfold NBLOCK in Hnb. apply (holds_move C I p); [by apply (i_holds _ _ _ Hi)| | | | |].
  - destruct (decide (nd_ind nd = 0)) as [->|Hn]; [lia|]. pose proof (i_own _ _ _ Hi p nd _ Hp (own_ind nd Hn)). lia.
  - pose proof (blks_bound _ _ _ _ _ Hi Hp). lia.
  - intros i Hib. pose proof (i_own _ _ _ Hi p nd _ Hp (own_blk nd i Hib)). lia.
  - intros k Hk. unfold at_image. case_decide as Hr.
    + subst p. unfold ROOT, ROOTDIR, s_root. rewrite <- !Z.add_assoc. apply image_super. lia.
    + apply image_files. destruct (entry_block nb C G Hi p nd (p + k) Hp ltac:(lia)) as [[? _]|(d & fd & j & Hd & _ & _ & _ & _ & E & Hb)]; [done|].
      apply (block_range _ _ (i_own _ _ _ Hi d fd _ Hd (own_blk fd _ Hb)) E).
  - intros x [[Hn Hx]|[(Ht & i & Hib & Hx)|(Ht & k & Hk & Hx)]]; apply image_files.
    + apply (block_range _ _ (i_own _ _ _ Hi p nd _ Hp (own_ind nd Hn)) Hx).
    + apply (block_range _ _ (i_own _ _ _ Hi p nd _ Hp (own_blk nd i Hib)) Hx).
    + assert (0 ≤ k / 16 < len (nd_blks nd)) as Hk16.
      { unfold len in *. split; [apply Z.div_pos; lia|apply Z.div_lt_upper_bound; lia]. }
      pose proof (i_own _ _ _ Hi p nd _ Hp (own_blk nd _ Hk16)) as Ho.
      apply (block_range (bl (nd_blks nd) (k / 16)) x Ho). apply slot_block; [lia|done].
Qed.

(** ** Its tree of directories *)

Definition dir_block (b : Z) : Prop := ∃ d fd, G !! d = Some fd ∧ nd_type fd = FTYPE_DIR ∧ b ∈ nd_blks fd.

Lemma dir_wf d fd : G !! d = Some fd → nd_type fd = FTYPE_DIR → wf_dir dir_block I (at_image d).
Proof using Hi.
  intros Hd Ht. pose proof (image_holds d fd Hd) as Hh. destruct (h_dir _ _ _ Hh Ht) as [Hsz _].
  pose proof (blks_bound _ _ _ _ _ Hi Hd) as Hlen. pose proof (i_nb _ _ _ Hi). unfold NBLOCK in *.
  assert (Hq : fsize I (at_image d) / 4096 = len (nd_blks fd)).
  { rewrite (h_size _ _ _ Hh), Hsz, Z.mul_comm. by apply Z.div_mul. }
  split; rewrite ?Hq.
  - lia.
  - intros i Hib. exists d, fd. split_and!; [done|done|]. rewrite (h_blk _ _ _ Hh i Hib). by apply bl_in.
  - unfold NDIRECT. intros Hlt. rewrite (h_ind _ _ _ Hh).
    assert (Hn : nd_ind fd ≠ 0) by (intros E; apply (h_ind0 _ _ _ Hh) in E; lia). split; [by apply (own_in_use d fd _ Hd), own_ind|].
    intros (d' & fd' & Hd' & _ & Hb). assert (d' = d) as ->.
    { apply (i_disj _ _ _ Hi d' d fd' fd (nd_ind fd)); [done|done| |by apply own_ind]. apply elem_of_app. by left. }
    assert (fd' = fd) as -> by congruence. pose proof (i_nodup _ _ _ Hi d fd Hd) as Hnd. unfold own in Hnd.
    apply NoDup_app in Hnd as (_ & Hno & _). apply (Hno _ Hb). rewrite (proj2 (Z.eqb_neq _ _) Hn). set_solver.
Qed.

Lemma entry_known e : is_entry dir_block e → entry_name I e ≠ [] → e ≠ ROOTDIR ∧ ∃ nd, G !! e = Some nd.
Proof using Hi.
  intros (H0 & Hm & d & fd & Hd & Ht & Hb) Hn. apply list_elem_of_lookup in Hb as [j Hj]. pose proof (lookup_lt_Some _ _ _ Hj) as Hlt.
  assert (Hbl : bl (nd_blks fd) (Z.of_nat j) = e / 4096) by (apply bl_lookup; by rewrite Nat2Z.id).
  pose proof (i_own _ _ _ Hi d fd _ Hd (own_blk fd (Z.of_nat j) ltac:(unfold len; lia))) as Ho. pose proof (i_nb _ _ _ Hi) as Hnb. unfold NBLOCK in Hnb.
  pose proof (Z.div_mod e 4096). pose proof (Z.mod_pos_bound e 4096). pose proof (Z.div_mod (e mod 4096) 256).
  assert (Hz : e mod 4096 mod 256 = 0) by (rewrite <- Znumtheory.Zmod_div_mod; [done|lia|lia|by exists 16]).
  split; [change ROOTDIR with 4194312; lia|].
  set (q := e mod 4096 / 256) in *. assert (0 ≤ q < 16) by (unfold q; split; [apply Z.div_pos; lia|apply Z.div_lt_upper_bound; lia]).
  set (k := 16 * Z.of_nat j + q). assert (Es : slot (nd_blks fd) k = e).
  { unfold slot. replace (k / 16) with (Z.of_nat j) by (apply (Z.div_unique k 16 _ q); lia).
    replace (k mod 16) with q by (apply (Z.mod_unique k 16 (Z.of_nat j)); lia). rewrite Hbl. lia. }
  destruct (Z.lt_ge_cases k (len (nd_kids fd))) as [Hk|Hk].
  - destruct (lookup_lt_is_Some_2 (nd_kids fd) (Z.to_nat k)) as [p Hp]; [unfold len in Hk; lia|].
    destruct (i_kids _ _ _ Hi d fd _ p Hd Hp) as [E Hs]. rewrite Z2Nat.id, Es in E by lia. by subst p.
  - destruct Hn. pose proof (h_free _ _ _ (image_holds d fd Hd) k 0 Ht ltac:(unfold len in *; lia) ltac:(lia)) as E.
    rewrite Z.add_0_r, Es in E. unfold entry_name. cbn [string_at]. by rewrite E.
Qed.

Lemma image_tree : tree dir_block I.
Proof using Hi.
  split.
  - intros b (d & fd & Hd & _ & Hb). apply (own_in_use d fd _ Hd). apply elem_of_app. by left.
  - destruct (i_root _ _ _ Hi) as (nr & Hr & Ht). pose proof (dir_wf ROOTDIR nr Hr Ht) as Hw. unfold at_image in Hw. by rewrite decide_True in Hw.
  - intros e He Hn Ht. destruct (entry_known e He Hn) as [Hne [nd Hnd]]. pose proof (image_holds e nd Hnd) as Hh.
    pose proof (dir_wf e nd Hnd) as Hw. unfold at_image in Hw, Hh. rewrite decide_False in Hw, Hh by done. apply Hw.
    rewrite <- (h_type _ _ _ Hh). done.
  - intros e He. destruct (decide (entry_name I e = [])) as [->|Hn]; [cbn; lia|].
    destruct (entry_known e He Hn) as [Hne [nd Hnd]]. pose proof (image_holds e nd Hnd) as Hh.
    unfold at_image in Hh. rewrite decide_False in Hh by done. rewrite (h_name _ _ _ Hh). apply Hh.
Qed.

(** ** Looking up names *)

Lemma slots_of_blocks bs L : (L ≤ length bs)%nat →
  concat (map block_entries (map (bl bs) (seqZ 0 (Z.of_nat L)))) = map (slot bs) (seqZ 0 (16 * Z.of_nat L)).
Proof using.
  induction L as [|L IH]; intros HL; [done|]. rewrite Nat2Z.inj_succ, <- Z.add_1_r, seqZ_app by lia.
  rewrite !map_app, concat_app, IH by lia. replace (16 * (Z.of_nat L + 1)) with (16 * Z.of_nat L + 16) by lia.
  rewrite seqZ_app, map_app by lia. f_equal. change (seqZ (0 + Z.of_nat L) 1) with (seqZ (0 + Z.of_nat L) 1).
  assert (E1 : seqZ (0 + Z.of_nat L) 1 = [Z.of_nat L]) by (cbn; f_equal; lia). rewrite E1. cbn [map concat]. rewrite app_nil_r.
  unfold block_entries. replace (seqZ (0 + 16 * Z.of_nat L) 16) with (map (λ j, 16 * Z.of_nat L + j) (seqZ 0 16)).
  - rewrite map_map. apply map_ext_in. intros j Hj. apply list_elem_of_In, elem_of_seqZ in Hj. unfold slot.
    rewrite <- (Z.div_unique (16 * Z.of_nat L + j) 16 (Z.of_nat L) j), <- (Z.mod_unique (16 * Z.of_nat L + j) 16 (Z.of_nat L) j) by lia. done.
  - change (map (λ j, 16 * Z.of_nat L + j) (seqZ 0 16)) with (Z.add (16 * Z.of_nat L) <$> seqZ 0 16). rewrite fmap_add_seqZ. f_equal. lia.
Qed.

Lemma kids_slots d fd : G !! d = Some fd → nd_kids fd = map (slot (nd_blks fd)) (seqZ 0 (len (nd_kids fd))).
Proof using Hi.
  intros Hd. apply list_eq. intros k. change (map ?f ?l) with (f <$> l). rewrite list_lookup_fmap.
  destruct (nd_kids fd !! k) as [p|] eqn:E.
  - pose proof (lookup_lt_Some _ _ _ E). rewrite lookup_seqZ_lt by (unfold len; lia). cbn. f_equal.
    by apply (i_kids _ _ _ Hi d fd k p).
  - apply lookup_ge_None_1 in E. rewrite lookup_seqZ_ge by (unfold len; lia). done.
Qed.

Lemma find_none {A} (p : A → bool) l : (∀ x, In x l → p x = false) → find p l = None.
Proof using. induction l as [|x l IH]; intros H; [done|]. cbn. rewrite (H x) by (by left). apply IH. intros y Hy. apply H. by right. Qed.

Lemma find_kids d fd name : G !! d = Some fd → nd_type fd = FTYPE_DIR → name ≠ [] →
  find_entry I (at_image d) name = find (λ e, bool_decide (entry_name I e = name)) (nd_kids fd).
Proof using Hi.
  intros Hd Ht Hn. pose proof (image_holds d fd Hd) as Hh. destruct (h_dir _ _ _ Hh Ht) as [Hsz Hle].
  assert (Ee : entries I (at_image d) = map (slot (nd_blks fd)) (seqZ 0 (16 * len (nd_blks fd)))).
  { unfold entries, dir_blocks. rewrite (h_size _ _ _ Hh), Hsz, Z.mul_comm, Z.div_mul by lia.
    unfold len. rewrite <- slots_of_blocks by lia. do 2 f_equal. apply map_ext_in. intros i Hin.
    apply list_elem_of_In, elem_of_seqZ in Hin. apply (h_blk _ _ _ Hh). unfold len. lia. }
  unfold find_entry. rewrite Ee.
  replace (16 * len (nd_blks fd)) with (len (nd_kids fd) + (16 * len (nd_blks fd) - len (nd_kids fd))) by lia.
  rewrite seqZ_app, map_app, find_app by (unfold len in *; lia). rewrite <- (kids_slots d fd Hd).
  destruct (find _ (nd_kids fd)); [done|]. apply find_none. intros e He. apply in_map_iff in He as (k & <- & Hk).
  apply list_elem_of_In, elem_of_seqZ in Hk. apply bool_decide_eq_false. intros <-. apply Hn.
  pose proof (h_free _ _ _ Hh k 0 Ht ltac:(lia) ltac:(lia)) as E. rewrite Z.add_0_r in E. unfold entry_name. cbn [string_at]. by rewrite E.
Qed.

(** The first entry of that name among what [readdir] returns *)
Fixpoint ent_at (name : list Z) (ents : list (list Z * host)) : option host :=
  match ents with
  | [] => None
  | (n, e) :: ents' => if negb (dots n) && bool_decide (n = name) then Some e else ent_at name ents'
  end.

Lemma find_stored ents ks name : ents_stored G ents ks → Forall (λ k, k ≠ ROOTDIR) ks →
  match ent_at name ents with
  | Some e => ∃ k, find (λ e, bool_decide (entry_name I e = name)) ks = Some k ∧ stored G e k ∧ k ≠ ROOTDIR ∧ len name < 128
  | None => find (λ e, bool_decide (entry_name I e = name)) ks = None
  end.
Proof using Hi.
  revert ks. induction ents as [|[n e] ents IH]; intros ks; [by destruct ks|]. cbn [ents_stored ent_at].
  destruct (dots n); cbn [negb andb]; [apply IH|]. destruct ks as [|k ks]; [done|].
  intros ((nk & Hk & Hn) & He & Hs) [Hkr Hks]%Forall_cons.
  pose proof (image_holds k nk Hk) as Hh. unfold at_image in Hh. rewrite decide_False in Hh by done.
  cbn [find]. rewrite (h_name _ _ _ Hh), Hn. case_bool_decide as E.
  - exists k. split_and!; [done|done|done|]. subst name. rewrite <- Hn. apply Hh.
  - by apply IH.
Qed.

Lemma kids_not_root d fd : G !! d = Some fd → Forall (λ k, k ≠ ROOTDIR) (nd_kids fd).
Proof using Hi.
  intros Hd. apply Forall_forall. intros p Hp E. apply list_elem_of_lookup in Hp as [k Hk].
  destruct (i_kids _ _ _ Hi d fd k p Hd Hk) as [Ep [nd Hnd]]. pose proof (kid_block nb C G d fd k p Hi Hd Hk) as Hb.
  pose proof (i_own _ _ _ Hi d fd _ Hd (own_blk fd _ Hb)) as Ho. pose proof (i_nb _ _ _ Hi) as Hnb. unfold NBLOCK in Hnb.
  unfold slot in Ep. pose proof (Z.mod_pos_bound (Z.of_nat k) 16). change ROOTDIR with 4194312 in E. lia.
Qed.

(** What the host has at a path *)
Fixpoint host_at (h : host) (path : list (list Z)) : option host :=
  match path with
  | [] => Some h
  | name :: rest =>
      match h with
      | HFile _ => None
      | HDir ents => match ent_at name ents with Some e => host_at e rest | None => None end
      end
  end.

(** File [f] of the disk [I] is the host's [h]. *)
Definition has_content (I : Z → Z) (f : Z) (h : host) : Prop :=
  match h with
  | HFile data => ftype I f = FTYPE_REG ∧ fsize I f = len data ∧
      ∀ k, 0 ≤ k < len data → I (4096 * fblock I f (k / 4096) + k mod 4096) = nth (Z.to_nat k) data 0
  | HDir _ => ftype I f = FTYPE_DIR
  end.

Lemma stored_content h p : stored G h p → has_content I (at_image p) h.
Proof using Hi.
  destruct h as [data|ents]; cbn [stored has_content].
  - intros (nd & Hp & Ht & Hs & Hd). pose proof (image_holds p nd Hp) as Hh. split_and!; [by rewrite (h_type _ _ _ Hh)|by rewrite (h_size _ _ _ Hh)|].
    intros k Hk. rewrite <- Hd in Hk |- *. destruct (h_data _ _ _ Hh k Ht Hk) as [Hb E]. rewrite <- E. do 3 f_equal.
    apply (h_blk _ _ _ Hh). split; [apply Z.div_pos; lia|done].
  - intros (nd & Hp & Ht & _). by rewrite (h_type _ _ _ (image_holds p nd Hp)).
Qed.

Lemma follow_host path h dir p : stored G h p → Forall (λ n, n ≠ []) path →
  match host_at h path with
  | Some h' => ∃ d f, follow I dir (at_image p) path = (0, d, at_disk f) ∧ has_content I f h'
  | None => ∃ r d f, follow I dir (at_image p) path = (r, d, f) ∧ r < 0
  end.
Proof using Hi.
  revert h dir p. induction path as [|name rest IH]; intros h dir p Hs Hne; cbn [host_at follow].
  - exists dir, (at_image p). split; [done|by apply stored_content].
  - apply Forall_cons in Hne as [Hn Hne]. destruct h as [data|ents].
    + destruct Hs as (nd & Hp & Ht & _). destruct (128 <=? _); [by eexists _, _, _|].
      rewrite (h_type _ _ _ (image_holds p nd Hp)), Ht. by eexists _, _, _.
    + destruct Hs as (nd & Hp & Ht & Hs). change (ents_stored G ents (nd_kids nd)) in Hs.
      pose proof (find_stored ents (nd_kids nd) name Hs (kids_not_root p nd Hp)) as Hf.
      rewrite (h_type _ _ _ (image_holds p nd Hp)), Ht. change (negb (FTYPE_DIR =? FTYPE_DIR)) with false. cbn iota.
      rewrite (find_kids p nd name Hp Ht Hn). destruct (ent_at name ents) as [e|].
      * destruct Hf as (k & -> & He & Hk & Hlen). rewrite (proj2 (Z.leb_gt 128 _)) by exact Hlen.
        pose proof (IH e (at_disk (at_image p)) k He Hne) as Hr. assert (at_image k = k) as Ek by (unfold at_image; by rewrite decide_False).
        rewrite Ek in Hr. exact Hr.
      * rewrite Hf. destruct (128 <=? _); [by eexists _, _, _|]. destruct (bool_decide _); by eexists _, _, _.
Qed.
End image.

(** * The builder's main *)

Definition root_items (files : list (list Z * host)) : list item := map (λ '(path, h), (path, (name_of path h, h))) files.
Definition root_ents (files : list (list Z * host)) : list (list Z * host) := map (λ '(path, h), (name_of path h, h)) files.

(** Arguments whose files have names of fewer than 128 bytes and fit the disk *)
Record fits (files : list (list Z * host)) : Prop := {
  fit_some : files ≠ [];
  fit_names : Forall (λ '(path, h), good_name (name_of path h) ∧ dots (name_of path h) = false ∧ valid h) files;
  fit_blocks : 3 + ents_cost 0 (root_ents files) ≤ NBLOCK
}.

Lemma ents_of_root files : ents_of (root_items files) = root_ents files.
Proof. induction files as [|[path h] files IH]; cbn; [done|]. by f_equal. Qed.

Lemma run_root_items files s : Forall (λ '(path, h), good_name (name_of path h) ∧ dots (name_of path h) = false ∧ valid h) files →
  run_items ROOTDIR (root_items files) s = for_each files (λ '(name, h), write_directory ROOTDIR name h) s.
Proof.
  intros Hf. revert s. induction Hf as [|[path h] files (_ & Hd & _) _ IH]; intros s; [done|]. unfold run_items. cbn [root_items map for_each].
  rewrite Hd. unfold bind at 1 2. destruct (write_directory ROOTDIR path h s) as [[] s1| | | |]; [|done..]. apply IH.
Qed.

Lemma main_ok files : fits files → let nb := 3 + ents_cost 0 (root_ents files) in
  ∃ C G s nr, main files start = Ok (image_of nb C) s ∧ image_inv nb C G ∧ G !! ROOTDIR = Some nr ∧ nd_type nr = FTYPE_DIR ∧
    ents_stored G (root_ents files) (nd_kids nr).
Proof.
  intros [Hne Hf Hb] nb. destruct init_disk_ok as (s0 & E0 & HB & Hn0 & _).
  unfold main. rewrite (bind_ok _ _ _ _ _ E0). rewrite bool_decide_eq_false_2 by done.
  pose proof blank_inv as Hi0. rewrite <- HB in Hi0.
  destruct (run_items_ok (root_items files)) with (nb := 3) (G := {[ROOTDIR := empty_root]} : gmap Z node) (s := s0) (p := ROOTDIR) (pd := empty_root)
    as (s1 & G1 & nr & ks & E1 & Hi1 & Hr & _ & Ht & Hk & Hst & _ & Hn1 & _); try done.
  - clear. induction files as [|[path h] files IH]; constructor; [apply write_directory_ok|done].
  - rewrite ents_of_root. clear -Hf. induction Hf as [|[path h] files (Hg & Hd & Hv) _ IH]; [done|]. split; [by right|done].
  - clear. induction files as [|[path h] files IH]; constructor; [by right|done].
  - by rewrite ents_of_root.
  - rewrite ents_of_root in Hst, Hn1. rewrite run_root_items in E1 by done.
    change (len (nd_kids empty_root)) with 0 in Hn1. fold nb in Hn1. cbn [empty_root nd_kids app] in Hk. rewrite Hn1 in Hi1.
    rewrite (bind_ok _ _ _ _ _ E1). pose proof (i_nb _ _ _ Hi1).
    destruct (flush_bitmap_ok s1) as (s2 & E2 & Hb2); [lia|]. rewrite (bind_ok _ _ _ _ _ E2). rewrite Hn1 in Hb2.
    exists (bytes s1), G1. eexists _, nr. split; [|split_and!; [done|done|done|]].
    + unfold finish_fs. change (block_data 1) with (@ret builder Z 4096). rewrite bind_ret. step. cbn [bytes set_bytes]. rewrite Hb2. reflexivity.
    + rewrite Hk. eapply ents_stored_mono; [|exact Hst]. apply map_subseteq_spec. by intros q x [Hq _]%lookup_difference_Some.
Qed.

Lemma root_stored G nr files : G !! ROOTDIR = Some nr → nd_type nr = FTYPE_DIR → ents_stored G (root_ents files) (nd_kids nr) →
  stored G (HDir (root_ents files)) ROOTDIR.
Proof. intros Hr Ht Hs. exists nr. by split_and!. Qed.

(** C36. The image is well formed: for files that fit the disk the builder
    succeeds, and its image has the superblock, a bitmap in which exactly the
    blocks behind the last one in use are free, and a tree of directories
    whose blocks are in use, whose index blocks are no directory blocks and
    whose names are shorter than 128 bytes. *)
Theorem image_well_formed files : fits files →
  ∃ I s, main files start = Ok I s ∧ le32 I 4096 = FS_MAGIC ∧ nblocks_of I = NBLOCK ∧ sane I ∧ (∃ D, tree D I) ∧
    ∀ b, 0 ≤ b < NBLOCK → free_of I b = negb (b <? 3 + ents_cost 0 (root_ents files)).
Proof.
  intros Hf. destruct (main_ok files Hf) as (C & G & s & nr & E & Hi & _). eexists _, s. split; [exact E|].
  split_and!; [by apply (image_magic _ _ G)|by apply (image_nblocks _ _ G)|by apply (image_sane _ _ G)| |].
  - exists (dir_block G). by apply image_tree.
  - intros b Hb. by apply (image_free _ _ G).
Qed.

Lemma pieces_nonempty cur l : Forall (λ n, n ≠ []) (pieces cur l).
Proof.
  assert (Hf : ∀ cur, Forall (λ n, n ≠ []) (flush cur)) by (intros [|c cu]; repeat constructor; done).
  revert cur. induction l as [|c l IH]; intros cur; cbn; [apply Hf|]. destruct (c =? 47); [|apply IH].
  apply Forall_app. by split.
Qed.

Lemma image_open_ok {machine : Machine} {frames : Frames} {device : BlockDevice} files : hw_dirty = true → fits files →
  let nb := 3 + ents_cost 0 (root_ents files) in
  ∃ I st, main files start = Ok I st ∧ (∀ x, 4096 * nb ≤ x → I x = 0) ∧ meta_end I = 3 ∧ ∀ s a l,
    disk_rel I s → string_in (us s) a l → (length l < Z.to_nat MAXPATHLEN)%nat →
    name_buffer (us s) → walk_name / 4096 ≠ a / 4096 →
    ∃ s', match host_at (HDir (root_ents files)) (components l) with
          | Some h => ∃ f, file_open a s = Ok (at_disk f) s' ∧ has_content I f h
          | None => ∃ r, file_open a s = Err r s' ∧ r < 0
          end.
Proof.
  intros Hdirty Hf nb. destruct (main_ok files Hf) as (C & G & st & nr & E & Hi & Hr & Ht & Hst). fold nb in E, Hi.
  exists (image_of nb C), st. split; [exact E|]. split; [|split; [by apply (image_meta _ _ G)|]].
  - intros x Hx. pose proof (i_nb _ _ _ Hi) as Hnb. destruct (decide (x < SUPER)) as [Hlt|Hge].
    + rewrite (image_files _ _ G Hi) by lia. apply (i_zero _ _ _ Hi). lia.
    + unfold image_of. rewrite decide_False; [done|]. change SUPER with 4194304 in Hge. unfold BY2BLK, BY2PG. lia.
  - intros s a l Hd Hs Hl Hn Hw.
    destruct (file_open_ok Hdirty (dir_block G) (image_of nb C) (image_sane _ _ G Hi) (image_tree _ _ G Hi) s a l Hd Hs Hl Hn Hw)
      as (s' & C' & _ & _ & _ & Eo). exists s'. rewrite Eo.
    pose proof (follow_host nb C G Hi (components l) _ 0 ROOTDIR (root_stored G nr files Hr Ht Hst) (pieces_nonempty [] l)) as Hfo.
    change (at_image ROOTDIR) with ROOT in Hfo. destruct (host_at _ _) as [h|].
    + destruct Hfo as (d & f & -> & Hc). exists f. by split.
    + destruct Hfo as (r & d & f & -> & Hneg). rewrite (proj2 (Z.ltb_lt r 0) Hneg). by exists r.
Qed.

(** * The image is a list of bytes *)

Definition bytes_ok (C : Z → Z) : Prop := ∀ x, 0 ≤ C x < 256.
Definition byte_list (l : list Z) : Prop := Forall (λ c, 0 ≤ c < 256) l.
Definition keeps {A} (m : M builder A) : Prop :=
  ∀ s, bytes_ok (bytes s) → match m s with Ok _ s' => bytes_ok (bytes s') | _ => True end.

Lemma keeps_bind {A B} (m : M builder A) (k : A → M builder B) : keeps m → (∀ a, keeps (k a)) → keeps (bind m k).
Proof. intros Hm Hk s Hs. unfold bind. specialize (Hm s Hs). destruct (m s) as [a s'| | | |]; [by apply Hk|done..]. Qed.
Lemma keeps_ret {A} (a : A) : keeps (ret a).
Proof. by intros s Hs. Qed.
Lemma keeps_gets {A} (f : builder → A) : keeps (gets f).
Proof. by intros s Hs. Qed.
Lemma keeps_fault {A} w : keeps (@fault builder A w).
Proof. done. Qed.
Lemma keeps_panic {A} w : keeps (@panic builder A w).
Proof. done. Qed.
Lemma keeps_err {A} e : keeps (@err builder A e).
Proof. done. Qed.
Lemma keeps_modify f : (∀ s, bytes_ok (bytes s) → bytes_ok (bytes (f s))) → keeps (modify f).
Proof. intros Hf s Hs. by apply Hf. Qed.

Lemma put_word_bytes C x w : bytes_ok C → bytes_ok (put_word C x w).
Proof. intros HC y. unfold put_word. case_decide; [|apply HC]. unfold byte_of, u8. apply Z.mod_pos_bound. lia. Qed.
Lemma put_list_bytes C x l : bytes_ok C → byte_list l → bytes_ok (put_list C x l).
Proof.
  intros HC Hl y. unfold put_list. case_decide; [|apply HC]. unfold byte_list in Hl. rewrite Forall_forall in Hl. apply Hl.
  apply list_elem_of_In, nth_In. lia.
Qed.
Lemma fill_bytes_bytes C x c n : bytes_ok C → 0 ≤ c < 256 → bytes_ok (fill_bytes C x c n).
Proof. intros HC Hc y. unfold fill_bytes. case_decide; [done|apply HC]. Qed.
Lemma move_bytes_bytes C x y n : bytes_ok C → bytes_ok (move_bytes C x y n).
Proof. intros HC z. unfold move_bytes. case_decide; apply HC. Qed.

Lemma keeps_putw x w : keeps (putw x w).
Proof. apply keeps_modify. intros s Hs. by apply put_word_bytes. Qed.
Lemma keeps_put_bytes x l : byte_list l → keeps (put_bytes x l).
Proof. intros Hl. apply keeps_modify. intros s Hs. by apply put_list_bytes. Qed.

Create HintDb keeps.
#[export] Hint Resolve keeps_ret keeps_gets keeps_fault keeps_panic keeps_err keeps_putw keeps_put_bytes : keeps.
(** Walks through a program and leaves what the hints do not know. *)
Ltac keeps :=
  repeat first [ progress intros | apply keeps_bind | solve [auto with keeps] | case_match
               | apply keeps_modify; solve [auto using put_word_bytes, fill_bytes_bytes, move_bytes_bytes] ].

Lemma keeps_block_data b : keeps (block_data b).
Proof. unfold block_data. keeps. Qed.
#[export] Hint Resolve keeps_block_data : keeps.
Lemma keeps_next_block t : keeps (next_block t).
Proof. unfold next_block. keeps. Qed.
#[export] Hint Resolve keeps_next_block : keeps.
Lemma keeps_save_block_link f n b : keeps (save_block_link f n b).
Proof. unfold save_block_link, getw. keeps. Qed.
#[export] Hint Resolve keeps_save_block_link : keeps.
Lemma keeps_unused_in_block n f : keeps (unused_in_block n f).
Proof. revert f. induction n; cbn [unused_in_block]; keeps. Qed.
#[export] Hint Resolve keeps_unused_in_block : keeps.
Lemma keeps_unused_file n f i : keeps (unused_file n f i).
Proof. revert i. induction n; cbn [unused_file]; unfold getw; keeps. Qed.
#[export] Hint Resolve keeps_unused_file : keeps.
Lemma keeps_create_file f : keeps (create_file f).
Proof. unfold create_file, make_link_block, getw. keeps. Qed.
#[export] Hint Resolve keeps_create_file : keeps.

Lemma byte_take n l : byte_list l → byte_list (take n l).
Proof. apply Forall_take. Qed.
Lemma byte_drop n l : byte_list l → byte_list (drop n l).
Proof. apply Forall_drop. Qed.
Lemma byte_app l k : byte_list l → byte_list k → byte_list (l ++ k).
Proof. intros. by apply Forall_app. Qed.

Lemma keeps_read_blocks fuel p i l : byte_list l → keeps (read_blocks fuel p i l).
Proof.
  revert i l. induction fuel as [|fuel IH]; intros i l Hl; cbn [read_blocks]; [keeps|]. case_match eqn:E; [keeps|].
  pose proof (byte_take (Z.to_nat BY2BLK) l Hl) as Ht. rewrite E in Ht. pose proof (byte_drop (Z.to_nat BY2BLK) l Hl). keeps.
Qed.

Lemma byte_after cur l : byte_list cur → byte_list l → byte_list (after_slash cur l).
Proof. intros Hc Hl. revert cur Hc. induction Hl as [|c l Hc0 Hl IH]; intros cur Hc; cbn; [done|]. destruct (c =? 47); by apply IH. Qed.
Lemma byte_rev l : byte_list l → byte_list (rev l).
Proof. unfold byte_list. rewrite !Forall_forall. intros Hl x Hx. apply Hl. apply list_elem_of_In, in_rev. by apply list_elem_of_In. Qed.
Lemma byte_drop_slashes l : byte_list l → byte_list (drop_slashes l).
Proof. induction 1 as [|c l Hc Hl IH]; cbn; [constructor|]. destruct (c =? 47); [done|by constructor]. Qed.
Lemma byte_name path h : byte_list path → byte_list (name_of path h).
Proof.
  intros Hp. destruct h; cbn [name_of]; [by apply byte_after|]. unfold basename.
  assert (Hr : byte_list (rev (drop_slashes (rev path)))) by (by apply byte_rev, byte_drop_slashes, byte_rev).
  destruct (rev _); [destruct path; repeat constructor; lia|by apply byte_after].
Qed.

(** The bytes of the files, and of their names *)
Fixpoint host_bytes (h : host) : Prop :=
  match h with
  | HFile data => byte_list data
  | HDir ents => (fix go l := match l with [] => True | (name, e) :: l' => byte_list name ∧ host_bytes e ∧ go l' end) ents
  end.

Lemma keeps_write_directory h f path : host_bytes h → byte_list path → keeps (write_directory f path h).
Proof.
  revert f path. induction h as [data|ents IH] using host_nested_ind; intros f path Hh Hp; cbn [write_directory].
  - unfold write_file. apply keeps_bind; [keeps|intros target]. apply keeps_bind.
    { apply keeps_put_bytes, byte_app; [by apply byte_after|]. repeat constructor; lia. }
    intros _. pose proof (keeps_read_blocks (S (length data)) target 0 data Hh). keeps.
  - apply keeps_bind; [keeps|intros p]. apply keeps_bind.
    { apply keeps_put_bytes, byte_app; [apply byte_take; exact (byte_name path (HDir []) Hp)|]. apply Forall_replicate. lia. }
    intros _. apply keeps_bind; [keeps|intros c]. case_match; [keeps|]. apply keeps_bind; [keeps|intros _].
    cbn [host_bytes] in Hh. induction IH as [|[name e] ents He _ IHe]; [keeps|]. destruct Hh as (Hn & Hhe & Hr).
    apply keeps_bind; [|intros _; by apply IHe]. destruct (dots name); [keeps|]. apply He; [done|].
    apply byte_app; [done|]. constructor; [lia|done].
Qed.

Lemma keeps_for_each {A} (l : list A) (k : A → M builder unit) : (∀ a, In a l → keeps (k a)) → keeps (for_each l k).
Proof. induction l as [|a l IH]; intros Hk; cbn [for_each]; [keeps|]. apply keeps_bind; [apply Hk; by left|intros _]. apply IH. intros b Hb. apply Hk. by right. Qed.

Lemma keeps_flush : keeps flush_bitmap.
Proof. unfold flush_bitmap, getw. apply keeps_bind; [keeps|]. intros n. apply keeps_for_each. intros i _. keeps. Qed.

Lemma keeps_init : keeps init_disk.
Proof.
  unfold init_disk. keeps; try (apply keeps_for_each; intros; keeps); try (apply keeps_put_bytes; repeat constructor; lia);
    try (apply keeps_modify; intros s Hs; apply fill_bytes_bytes; [done|lia]).
Qed.

Lemma image_bytes files I s : Forall (λ '(path, h), byte_list path ∧ host_bytes h) files → main files start = Ok I s → bytes_ok I.
Proof.
  intros Hf. unfold main. unfold bind at 1. pose proof (keeps_init start ltac:(done)) as H0. destruct (init_disk start) as [[] s0| | | |]; try done.
  case_bool_decide; [done|]. unfold bind at 1.
  assert (Hk : keeps (for_each files (λ '(name, h), write_directory ROOTDIR name h))).
  { apply keeps_for_each. intros [path h] Hin. rewrite Forall_forall in Hf. destruct (Hf _ (proj2 (list_elem_of_In _ _) Hin)). by apply keeps_write_directory. }
  specialize (Hk s0 H0). destruct (for_each _ _ s0) as [[] s1| | | |]; try done. unfold bind at 1.
  pose proof (keeps_flush s1 Hk) as H2. destruct (flush_bitmap s1) as [[] s2| | | |]; try done.
  unfold finish_fs. change (block_data 1) with (@ret builder Z 4096). rewrite bind_ret. step. cbn [bytes set_bytes]. unfold gets. intros [= <- _] x. cbn beta.
  case_decide; [|lia]. by apply move_bytes_bytes.
Qed.

(** ** The medium of an image *)

Definition tabulate {A} (l : list Z) (f : Z → A) : gmap Z A := list_to_map ((λ k, (k, f k)) <$> l).
Definition medium_of (I : Z → Z) (n : Z) : memory :=
  tabulate (seqZ 0 n) (λ b, tabulate (seqZ 0 1024) (λ w, le32 I (4096 * b + 4 * w))).

Lemma lookup_tabulate {A} l (f : Z → A) k : tabulate l f !! k = if decide (k ∈ l) then Some (f k) else None.
Proof.
  induction l as [|x l IH]; [done|]. unfold tabulate in *. cbn. destruct (decide (k = x)) as [->|Hne].
  - rewrite lookup_insert_eq, decide_True by set_solver. done.
  - rewrite lookup_insert_ne, IH by done. destruct (decide (k ∈ l)); [rewrite decide_True by set_solver|rewrite decide_False by set_solver]; done.
Qed.

Lemma tabulate_some {A} l (f : Z → A) k v : tabulate l f !! k = Some v → v = f k ∧ k ∈ l.
Proof. rewrite lookup_tabulate. case_decide; [|done]. by intros [= <-]. Qed.

Lemma le32_bytes I x : bytes_ok I → 0 ≤ le32 I x < 2 ^ 32.
Proof. intros HI. unfold le32. pose proof (HI x). pose proof (HI (x + 1)). pose proof (HI (x + 2)). pose proof (HI (x + 3)). change (2 ^ 32) with 4294967296. lia. Qed.

Lemma words_medium I n : bytes_ok I → words32 (medium_of I n).
Proof.
  intros HI b p [-> _]%tabulate_some w v [-> _]%tabulate_some. by apply le32_bytes.
Qed.

Lemma byte_le32 I x j : bytes_ok I → 0 ≤ j < 4 → byte_of (le32 I x) j = I (x + j).
Proof.
  intros HI Hj. pose proof (HI x). pose proof (HI (x + 1)). pose proof (HI (x + 2)). pose proof (HI (x + 3)).
  pose proof (sum_bytes (le32 I x) (le32_bytes I x HI)) as E. unfold le32 at 5 in E.
  assert (Hb : ∀ k, 0 ≤ byte_of (le32 I x) k < 256) by (intros k; unfold byte_of, u8; apply Z.mod_pos_bound; lia).
  pose proof (Hb 0). pose proof (Hb 1). pose proof (Hb 2). pose proof (Hb 3).
  assert (j = 0 ∨ j = 1 ∨ j = 2 ∨ j = 3) as [-> | [-> | [-> | ->]]] by lia; rewrite ?Z.add_0_r; lia.
Qed.

Lemma load_medium I n x : bytes_ok I → 0 ≤ x → load8 (medium_of I n) x = if decide (x < 4096 * n) then I x else 0.
Proof.
  intros HI Hx. rewrite load8_byte, load_addr. unfold pg, medium_of, word. rewrite lookup_tabulate.
  pose proof (Z.div_mod x 4). pose proof (Z.mod_pos_bound x 4). pose proof (Z.div_mod (x / 4) 1024). pose proof (Z.mod_pos_bound (x / 4) 1024).
  assert (0 ≤ x / 4 / 1024) by (apply Z.div_pos; [apply Z.div_pos; lia|lia]).
  case_decide as Hp; rewrite elem_of_seqZ in Hp; cbn [from_option id].
  - rewrite lookup_tabulate, decide_True by (apply elem_of_seqZ; lia). cbn [from_option id]. rewrite byte_le32 by (done || lia).
    rewrite decide_True by lia. f_equal. lia.
  - rewrite lookup_empty. cbn. rewrite decide_False by lia. unfold byte_of. by rewrite Z.shiftr_0_l.
Qed.

Lemma le32_medium I n x : bytes_ok I → 0 ≤ x → (∀ y, 4096 * n ≤ y → I y = 0) → le32 (load8 (medium_of I n)) x = le32 I x.
Proof.
  intros HI Hx Hz. apply le32_ext. intros j Hj. rewrite load_medium by (done || lia). case_decide; [done|]. symmetry. apply Hz. lia.
Qed.

Lemma disk_rel_ext C C' s : (∀ x, 0 ≤ x → C' x = C x) → disk_rel C s → disk_rel C' s.
Proof.
  intros HC [R1 R2 R3 R4 R5 R6]. split; try done.
  - intros x Hx. rewrite HC by lia. by apply R2.
  - intros x Hx. apply R6. assert (nblocks_of C' = nblocks_of C) as E.
    { apply le32_ext. intros j Hj. apply HC. lia. }
    unfold meta_end in *. by rewrite <- E.
Qed.

(** C37. From the host to the server: a file or directory that is given to the
    builder can be opened.  When the files fit the disk, a file server that has
    mounted the image opens a path exactly when the host has it, and the file
    it returns has the type, the size and every byte of the host's; any other
    path is an error. *)
Theorem image_opened {machine : Machine} {frames : Frames} {device : BlockDevice} files : hw_dirty = true → fits files →
  ∃ I st, main files start = Ok I st ∧ ∀ s a l,
    disk_rel I s → string_in (us s) a l → (length l < Z.to_nat MAXPATHLEN)%nat →
    name_buffer (us s) → walk_name / 4096 ≠ a / 4096 →
    ∃ s', match host_at (HDir (root_ents files)) (components l) with
          | Some h => ∃ f, file_open a s = Ok (at_disk f) s' ∧ has_content I f h
          | None => ∃ r, file_open a s = Err r s' ∧ r < 0
          end.
Proof. intros Hd Hf. destruct (image_open_ok files Hd Hf) as (I & st & E & _ & _ & Ho). by exists I, st. Qed.

(** ** An example *)

(** Directory [d] with the file [f] of three bytes; [d] is given by its path
    ["a/d/"]. *)
Definition w_files : list (list Z * host) := [([97; 47; 100; 47], HDir [([46], HDir []); ([102], HFile [1; 2; 3])])].

Lemma w_fits : fits w_files.
Proof.
  split; [done| |by vm_compute].
  repeat constructor; first [by vm_compute|done|right; split; [|done]]; repeat constructor; by vm_compute || done.
Qed.

Definition w_paths : memory := <[65535 := <[0 := 0x662f642f]> ∅]> (<[521213 := ∅]> ∅).

Lemma w_request m : string_in (us (mounted m w_paths {[63; 508]})) 0x0ffff000 [47; 100; 47; 102].
Proof. split; [split; [left; by vm_compute|done]|by vm_compute|by vm_compute|]. split_and!; by vm_compute. Qed.

Lemma w_buffer m : name_buffer (us (mounted m w_paths {[63; 508]})).
Proof. split; [split; [right; by vm_compute|by vm_compute]|by vm_compute|by vm_compute]. Qed.

(** The server has mounted the image and opens ["/d/f"]. *)
Lemma image_opened_witness :
  let M := ramdisk in
  ∃ I st s s' f, main w_files start = Ok I st ∧ file_open 0x0ffff000 s = Ok (at_disk f) s' ∧ has_content I f (HFile [1; 2; 3]).
Proof.
  destruct (image_opened (machine := ramdisk) (device := ramdisk_device) w_files eq_refl w_fits) as (I & st & E & Ho).
  destruct (image_open_ok (machine := ramdisk) (device := ramdisk_device) w_files eq_refl w_fits) as (I' & st' & E' & Hz & Hme & _).
  rewrite E in E'. injection E' as <- <-. change (3 + ents_cost 0 (root_ents w_files)) with 6 in Hz.
  assert (HI : bytes_ok I).
  { apply (image_bytes w_files I st); [|exact E]. repeat constructor; lia. }
  set (s := mounted (medium_of I 6) w_paths {[63; 508]}).
  assert (Hext : ∀ x, 0 ≤ x → I x = load8 (medium_of I 6) x).
  { intros x Hx. rewrite load_medium by done. case_decide; [done|]. apply Hz. lia. }
  assert (Hrel : disk_rel I s).
  { apply (disk_rel_ext (load8 (medium_of I 6))); [exact Hext|]. apply mounted_rel.
    - by apply words_medium.
    - unfold words32. all_words.
    - unfold meta_end, nblocks_of in Hme |- *. rewrite le32_medium; [exact Hme|done|lia|intros y Hy; apply Hz; lia].
    - repeat first [apply map_Forall_insert_2 | apply map_Forall_empty]; (split; [lia|apply (bool_decide_unpack _); by vm_compute]). }
  destruct (Ho s 0x0ffff000 [47; 100; 47; 102] Hrel (w_request _)) as (s' & Hs');
    [change (Z.to_nat MAXPATHLEN) with 1024%nat; cbn; lia|apply w_buffer|by vm_compute|].
  destruct Hs' as (f & Ef & Hf). exists I, st, s, s', f. split; [exact E|]. split; [exact Ef|exact Hf].
Defined.

Lemma image_well_formed_witness : ∃ I s, main w_files start = Ok I s ∧ nblocks_of I = NBLOCK ∧ free_of I 5 = false ∧ free_of I 6 = true.
Proof.
  destruct (image_well_formed w_files w_fits) as (I & s & E & _ & Hn & _ & _ & Hb). exists I, s. split; [exact E|]. split; [exact Hn|].
  split; [apply (Hb 5)|apply (Hb 6)]; (split; [|unfold NBLOCK]; clear; lia).
Defined.
